(* ===== verification/_CoqProject ===== *)
-Q . S2P
Prelude.v
Processes.v
Bytes.v
Text.v
MyLEHelper.v
MyBEHelper.v
FlyControlProtocol.v
FlyControlFrame.v
FlyControlCodec.v
FlyControlCodecFacts.v
Json.v
FileTools.v
PodStream.v
RtspRelay.v
SerialPort.v
MySerial.v
GasDetectorConfig.v
Double.v
MyContext.v
Heartbeat.v
AirdropLock.v
GasDetectorModbus.v
GasDetectorPoll.v
CondVar.v
GasDetectorSystem.v
MyFlyControl.v
MyFlyControlFacts.v
MyFlyControlManager.v
ThreadSafeQueue.v
BlockingQueue.v
FastMQTT.v
FastMQTTThreads.v
SearchlightProtocol.v
SearchlightState.v
LightSerialPort.v
Searchlight.v
TaskData.v
MyControl.v
TaskQueue.v
Workflow.v
Device.v
BaseEdge.v
UUVEdge.v
EdgeManager.v
EdgeThreads.v
PodTypes.v
PodMonitor.v
Pod.v
PinlingPod.v
PodManager.v
Calendar.v
DateTime.v
MyCache.v
SmallTools.v
Pipeline.v
MyConfig.v
Startup.v
