(* ===== verification/Prelude.v ===== *)
(** * fast_cpp_server: a verification library

    fast_cpp_server runs on the companion computer of a vehicle: it talks to
    serial devices (flight controller, searchlight, gas detectors, airdrop lock),
    drives camera pods and supervises the processes that relay their video, keeps
    files and named values for the other parts, reports heartbeats, and turns the
    commands it receives into tasks for the devices of an edge.  All paths are under
    src/src/.

    ** The parts and how they interact

    A byte stream from the flight controller passes from the serial port to the
    frame parser, whose frames are decoded and dispatched to callbacks and to the
    latest-heartbeat store; a send encodes a command, frames it with a rolling
    counter and writes it to the port; the manager hands out one driver and
    forwards to it.  The searchlight has the same shape with a worker thread and a
    command queue in between.  The two blocking queues decouple the MQTT callback
    and other producers from their workers.  A command for an edge is normalised
    into a task, put into the task queue of its device, taken by the device's
    workflow thread and executed by its control, whose result becomes the device's
    status; tasks of the edge itself go through three threads of its own.  The
    program itself reads its command line and its configuration files, and its
    pipeline starts each part the configuration names and stops them all at the end.

    - util/my_tools: MyLEHelper.cpp is [MyLEHelper], MyBEHelper.cpp is [MyBEHelper]
      (fixed-width reads and writes at an offset, out-of-range as an exception).
    - util/my_fly_control: FlyControlProtocol.h is [FlyControlProtocol] (constants,
      enums, structs, fault bits), FlyControlFrame.cpp is [FlyControlFrame] (frame
      building and the incremental parser [PopFrame]), FlyControlCodec.cpp is
      [FlyControlCodec] (encoders and decoders), MyFlyControl.cpp is [MyFlyControl]
      (the driver), MyFlyControlManager.cpp is [MyFlyControlManager].
    - util/my_serial: MySerial.cpp is [MySerial], over the third-party serial
      library as the class [SerialLib]; it implements the interface [SerialPort],
      against which the driver and the gas detectors are proved.
    - util/my_gas_detector_poll: MyGasDetectorPollConfig.cpp, the text and JSON
      helpers of MyGasDetectorPollInternal.h and [ParseConfig] are
      [GasDetectorConfig]; the tables, CRC, request, response and result are
      [GasDetectorModbus]; the exchange with a device, the statistics, reports and
      life cycle of MyGasDetectorPoll.cpp are [GasDetectorPoll]; its threads and
      the abstract specification are [GasDetectorSystem].
    - nlohmann JSON is the class [JsonOps] with its laws in [Json].
    - tools/thread_safe_queue/thread_safe_queue.h is [ThreadSafeQueue] and
      util/my_fast_MQTT/BlockingQueue.hpp is [BlockingQueue]; both use the threads
      and notifications of [CondVar].
    - util/my_light: SearchlightProtocol.cpp and SearchlightCommandBuilder.cpp are
      [SearchlightProtocol]; SearchlightState.cpp and the two controllers are
      [SearchlightState]; SerialPort.cpp is [LightSerialPort], over the POSIX calls
      as the class [Posix], and implements the interface [LightPort];
      Searchlight.cpp and SearchlightConfig.cpp are [Searchlight].
    - util/my_data is [TaskData] (commands, tasks, results, status and their JSON
      forms); util/my_control: the normalisers, demo controls and MyControl.cpp are
      [MyControl], TaskQueue.cpp is [TaskQueue], demo/Workflow.cpp is [Workflow];
      util/my_device is [Device]; util/my_edge: BaseEdge.cpp with the normalisation
      of UAVEdge.cpp and UNAEdge.cpp is [BaseEdge], its threads [EdgeThreads];
      demo/UUVEdge.cpp is [UUVEdge], and the factory MyEdge.cpp and MyEdgeManager.cpp
      are [EdgeManager], over the interface of an edge as a record.
    - util/my_pod: common/ and session/ are [PodTypes]; monitor/ is [PodMonitor],
      over the class [MonitoredPod]; pod/base and pod/dji are [Pod], pod/pinling is
      [PinlingPod]; registry/ and manager/ are [PodManager], over the class [IPod],
      which the pods of both vendors implement.
    - util/my_mediamtx_monitor: v2 is [PodStream], v1 is [RtspRelay], both over the
      system's processes as the class [Os] of [Processes]; MyFileTools.cpp is
      [FileTools].
    - util/my_airdrop_lock is [AirdropLock], util/my_context is [MyContext],
      util/my_heartbeat is [Heartbeat], util/my_cache is [MyCache] over a file system
      as the class [CacheFs], whose stream may lose data when it is closed.
    - util/my_fast_MQTT: FastMQTT.cpp and FastMQTTTypes.hpp are [FastMQTT] (state,
      callbacks, handlers) and [FastMQTTThreads] (its four threads and the calls of
      the other parts as a step relation).
    - main.cpp, util/my_arg_parser, tools/init_tools, tools/free_func and
      tools/service_guard are [Startup]; util/my_config is [MyConfig];
      tools/pipeline is [Pipeline], whose modules are reached through recorded calls.
    - MyTimer.cpp, PingTools.cpp and util/my_network/device_online_monitor are
      [SmallTools].
    - util/my_tools/MyDateTime.cpp is [DateTime], over the calendar of the C library,
      which [Calendar] defines apart from the code, and a time zone as a parameter.
    - [Text] is what the program uses of [std::string] and of number conversion,
      [Double] its IEEE doubles.
    - This file holds machine integers, the outcomes of fallible code, loops and
      the shared lemmas; [Bytes] holds byte lists and hexadecimal text.

    Definitions keep the names of the methods they model; a struct's fields carry
    a prefix.  A method of an object is a function from its state to its state;
    [std::string* err] is an [option string] argument and result; exceptions are
    values of [outcome], [result] or [io], undefined behaviour is [Undef].

    ** What is shown

    - Framing: a frame built is parsed back; the parser returns on every input,
      gives only frames whose bytes are in the stream, and does not depend on how
      the bytes arrive ([encode_then_parse], [command_stream_parsed],
      [PopFrame_total], [PopFrame_sound], [FeedAndPop_chunking],
      [checksum_detects_one_byte], [unknown_command_stalls]).
    - Encoding: round trips of every command, the heartbeat, fault bits and the
      byte-order helpers, injectivity, and freedom from undefined behaviour
      ([DecodeHeartbeat_wire], [DecodeHeartbeat_total], [encode_command_inj],
      [fault_bits_roundtrip], [le_bits_roundtrip], [be_bits_roundtrip]).
    - Gas detectors: configurations are well formed and fixed points, address
      texts mean what they list, and the port's parser agrees with the poller's
      ([ParseConfig_typed], [ParseAddresses_text], [port_config_options]); the CRC
      detects bursts, a genuine reply is understood whatever the chunking, polls
      end and are bounded ([ParseResponse_detects_burst], [poll_device],
      [poll_returns], [poll_bounds]); the worker and the calls of other threads
      implement a log of sound results, with a life-cycle invariant and a stop that
      can go unnoticed ([gas_detector_refines], [gas_detector_lifecycle],
      [gas_stop_lost_wakeup]).
    - Driver and manager: the receive loop is the specification of the byte
      stream, the sends put their commands on the wire with consecutive counters,
      and invariants hold over every sequence of operations and, in the manager,
      every interleaving of concurrent calls, cut at every access of a flag or the
      thread object, two of which can end the process ([ReceiveLoop_stream],
      [send_session], [request_spec], [start_stop_spec], [driver_reachable_safe],
      [manager_invariant], [failed_reinit_stays_initialized], [init_start_race],
      [start_start_race]).
    - Serial port: all-or-nothing initialisation, its invariant, the loopback test
      ([Init_spec], [MySerial_invariant], [SelfTestLoopback_verdict],
      [ReadBytes_failed_read], [uint32_text_trailing]).
    - Queues: first-in first-out without loss, bounds, and which wake-ups can and
      cannot be lost ([tsq_fifo_bounded], [tsq_no_lost_wakeup],
      [blocking_queue_correct], and the two counterexamples
      [tsq_resize_keeps_pusher_blocked] and [tsq_timeout_swallows_wakeup]).
    - Searchlight: codec round trip and soundness, the path from a command to the
      reported state, the reader's independence of chunking, the flow of commands
      over every interleaving, and a shutdown that can hang
      ([searchlight_roundtrip], [tryDecode_sound], [bad_checksum_drops_rest],
      [light_command_echo], [readSerialLoop_stream], [control_spec],
      [commands_flow], [writeBytes_spec], [shutdown_lost_wakeup]).

    - Tasks: the JSON forms can be read back ([records_roundtrip]); the queue is
      first-in first-out and loses no wake-up ([task_queue_correct]); a workflow
      does each task exactly once, with the result of its control or an internal
      error when that throws, takes at most one after an emergency stop, and
      ends when asked to ([workflow_exactly_once], [estop_takes_at_most_one],
      [workflow_stops], and [start_after_exit], where a restart ends the program);
      a device's status follows its workflow ([device_status_tracks]), and a failed
      initialisation goes unnoticed ([Create_ignores_failed_Init]); normaliser and
      control fit ([normalized_task_not_refused]).
    - Edges: every branch of [Submit], whose rejections all run into a string made
      of a null pointer ([Submit_spec]), the registry invariant over all calls
      ([edge_invariant]), the status totals ([snapshot_spec]); the handlers of the
      edge's own tasks are called exactly once ([self_tasks_exactly_once]), unless
      they meet [SayHelloAction] ([self_task_lost]); a shutdown can deadlock
      ([shutdown_deadlock]) and leaves the monitor with a destroyed queue
      ([monitor_use_after_free]).  The UUV edge: which commands are accepted in every
      reachable state, what Init leaves and when Start then accepts it
      ([uuv_submit_correct], [uuv_init_then_start], [uuv_append_bound]); the manager
      calls every edge whatever the others do and keeps its table
      ([all_edges_isolated], [edge_manager_ids]).
    - Pods: state and session agree for the DJI pod while the sessions it is given
      agree with its state, and can come apart otherwise and for the PINLING pod
      ([pod_session_agree], [session_taken_away], [pinling_poll_loses_connection]); attempts and
      reconnections are bounded ([pinling_three_attempts], [pinling_cooldown]); the
      monitor's window, which polls a turn makes and how far apart, and its sleep ([online_window],
      [poll_spacing], [monitor_sleep]); the registry, what Init files and what its
      configuration can switch ([pod_manager_ids], [manager_init_files],
      [monitor_config_tightens]); names of capabilities ([capability_text]).
    - Relays: besides the process recorded only such as were sent SIGKILL exist, and
      the end of the process can go unnoticed
      ([relay_single_process], [relay_exit_unnoticed], [relay_stop_clean],
      [graceful_stop_kills], [StopRelayProcess_spec], [debounce_spec],
      [worker_start_spec], [error_state_final]); the YAML written is the tree of the
      JSON read ([JsonToYaml_spec]); a text is written whole or reported
      ([WriteText_spec]).
    - Airdrop lock, context, heartbeat: the lock's state follows the commands sent
      ([airdrop_invariant], [airdrop_command_spec], [duty_command_spec],
      [airdrop_config_roundtrip]); the context refines a log of calls
      ([context_refines], [context_typed]); a report is a snapshot and its topic is
      filled in ([heartbeat_snapshot], [formatTopic_spec]).
    - Cache: no name leads outside the root, a save is all or nothing unless closing
      the file loses data, which goes unnoticed, a scan makes the index that of the
      files, lists are sorted ([cache_confined], [save_atomic], [truncated_save],
      [scan_turn_spec], [GetFileList_sorted]).
    - Dates, in any time zone: what is printed is read back when the local time comes
      once, the parser accepts exactly what the local clocks show, which are dates of
      the code's own calendar, failures are told apart, and days are counted right
      ([datetime_roundtrip], [parse_exact], [datetime_failure], [local_days],
      [summer_time_limits]).

    - MQTT: every accepted or received message has exactly one fate and the counters
      agree with it, every topic with a callback is subscribed or its subscription
      was refused by the library, the joins of [Stop] return, and the life cycle is consistent, over every interleaving
      ([mqtt_messages], [mqtt_subscriptions], [mqtt_stop_terminates],
      [mqtt_lifecycle]); the table of callbacks is a list of registrations, dispatch
      runs the matching ones, and the waits ([callback_table_refines],
      [dispatch_spec], [backoff_sequence]).
    - Start and end of the program: what the configuration files come to
      ([ini_roundtrip], [v2_Load_spec]), the command line and the check for other
      instances ([arguments_roundtrip], [guard_spec]), how every run ends, and that
      none gets to the pipeline ([main_never_starts]); what the pipeline launches and
      stops when it is run ([RunPipeline_spec], [start_launches_all],
      [start_all_or_nothing], [fly_control_attempts], [stop_once],
      [edge_args_devices]).
    - Small tools: the stopwatch, the online monitor, and the quoting of an address
      for the shell ([stopwatch_measures], [stopwatch_bounds], [online_threshold],
      [ping_one_word]).

    ** Fuel and bounds

    - [PopFrame] runs its loop with the length of the buffer plus one: every turn
      that goes on drops a byte ([PopFrame_total] shows this is enough).
    - The driver's [drain] takes the length of the buffer plus one for the same
      reason.
    - [LightSerialPort.write_loop] takes the fuel as an argument; [writeBytes_spec]
      shows that some fuel is enough when the system does not refuse for ever.
    - [GasDetectorConfig.ParseAddressText_loop] runs with the length of the text
      plus one, since every turn advances; [ParseAddresses_text] shows it is enough.
    - The loops of [GasDetectorPoll] use up one reading of flag and clock per turn;
      [poll_returns] says which readings end them.
    - [Searchlight.drain] uses up one clock reading per decoded frame; with more
      readings than frames it returns ([readSerialLoop_stream]).
    - [PodStream.await_fuel] is the number of turns the wait for a process can take;
      [graceful_stop_kills] shows it is enough.  [RtspRelay.json_yaml] recurses on the
      depth of its value and [FileTools.write_all] on the length of the text, which
      [JsonToYaml_spec] and [WriteText_spec] show to be enough;
      [Heartbeat.replace_loop] runs with the length of the text plus one, as every
      turn advances.
    - [PodMonitor.sleep_slices] takes the fuel as an argument; [monitor_sleep] says for
      which intervals some fuel is enough.  [Calendar.month_of] looks at eleven months,
      after which December is left.
    - [Pipeline.await_port] waits for a port that may never be free and takes the fuel
      as an argument; the theorems take more than the number of calls after which the
      environment lets the port be had.  [Pipeline.LogRecursive] recurses on the depth
      of the value, and [FastMQTTThreads.steps_left] bounds the steps of a stop.
    - Integers have the width of their C++ type where they can wrap: counters,
      checksums, fields on the wire.  Lengths and offsets within one buffer are
      [nat] or unbounded [Z], as a buffer never reaches the size at which they wrap.

    ** What is not modelled

    - Logging, and locks that make a whole method atomic: such a method is one
      step.  A method whose effect is split between critical sections is modelled
      by its sections.  Data races on plain fields are not modelled.
    - A [catch (...)] branch is the same as the [catch] of the library's
      exceptions: a port throws nothing else here.
    - One turn of a receive loop is one step of the step relations.
    - Of the edges, the TUNA edge, an older copy of the UUV edge that hands its
      commands to the vehicle library, and the vehicle and MQTT routes of the UNA
      edge.  The simulated latency of the demo controls and the sleeps of loops have no
      effect.
    - Of the pods, the scheduler and the event dispatcher, which nothing calls, and the
      wrappers of single calls of the vendor's library.
    - Of the dates, leap seconds of the C library, and the names of zones.
    - Of the MQTT client, a [Publish] that overlaps [Destroy].  Of the configuration,
      the YAML values, which nothing reads.  The pipeline's modules answer as they
      like: their own models are not plugged into it.
    - Left out: the HTTP controllers, the MQTT services and broker, the database,
      audio and MAVLink wrappers, the queries of network interfaces and folders, the
      system samplers, scripts and logging, whose behaviour is that of third-party
      libraries or of the operating system. *)

From stdpp Require Export base numbers list gmap strings.
From Stdlib Require Export ZArith Lia ZifyBool.

#[export] Set Default Goal Selector "!".

(** ** Machine integers

    A w-bit integer of the program is a [Z].  [wrapu w] is the conversion to
    an unsigned w-bit type, [wraps w] the conversion to a signed one. *)

Definition wrapu (w z : Z) : Z := z mod 2 ^ w.
Definition wraps (w z : Z) : Z := (z + 2 ^ (w - 1)) mod 2 ^ w - 2 ^ (w - 1).

Definition inu (w z : Z) : Prop := (0 <= z < 2 ^ w)%Z.
Definition ins (w z : Z) : Prop := (- 2 ^ (w - 1) <= z < 2 ^ (w - 1))%Z.

#[export] Instance inu_dec w z : Decision (inu w z).
Proof. unfold inu. apply _. Defined.
#[export] Instance ins_dec w z : Decision (ins w z).
Proof. unfold ins. apply _. Defined.

Abbreviation byte := (inu 8).
Abbreviation bytes := (Forall (inu 8)).

(** Arithmetic closer: exposes the bounds of the machine-integer predicates
    with their powers of two evaluated. *)
Ltac unfold_width :=
  unfold inu, ins, wrapu, wraps in *;
  change (2 ^ 8)%Z with 256%Z in *;
  change (2 ^ 16)%Z with 65536%Z in *;
  change (2 ^ 32)%Z with 4294967296%Z in *;
  change (2 ^ 64)%Z with 18446744073709551616%Z in *;
  change (2 ^ (8 - 1))%Z with 128%Z in *;
  change (2 ^ (16 - 1))%Z with 32768%Z in *;
  change (2 ^ (32 - 1))%Z with 2147483648%Z in *;
  change (2 ^ (64 - 1))%Z with 9223372036854775808%Z in *.
Ltac width_lia := unfold_width; Z.to_euclidean_division_equations; lia.

Create HintDb width.

Lemma wrapu_id w z : inu w z → wrapu w z = z.
Proof. unfold inu, wrapu. apply Z.mod_small. Qed.

Lemma inu_wrapu w z : (0 <= w)%Z → inu w (wrapu w z).
Proof. intros. unfold inu, wrapu. apply Z.mod_pos_bound. lia. Qed.

Lemma wraps_id w z : (0 < w)%Z → ins w z → wraps w z = z.
Proof.
  unfold ins, wraps. intros Hw [Hl Hh].
  assert (Hp : (2 ^ w = 2 * 2 ^ (w - 1))%Z) by (rewrite <- Z.pow_succ_r by lia; f_equal; lia).
  rewrite Z.mod_small by lia. lia.
Qed.

Lemma ins_wraps w z : (0 < w)%Z → ins w (wraps w z).
Proof.
  unfold ins, wraps. intros Hw.
  assert (Hp : (2 ^ w = 2 * 2 ^ (w - 1))%Z) by (rewrite <- Z.pow_succ_r by lia; f_equal; lia).
  pose proof (Z.mod_pos_bound (z + 2 ^ (w - 1)) (2 ^ w)). lia.
Qed.

Lemma inu_lxor w a b : (0 <= w)%Z → inu w a → inu w b → inu w (Z.lxor a b).
Proof.
  intros Hw Ha Hb. assert (Hm : (Z.lxor a b = wrapu w (Z.lxor a b))%Z).
  { unfold wrapu. apply Z.bits_inj'. intros i Hi. destruct (decide (i < w)%Z).
    - by rewrite Z.mod_pow2_bits_low.
    - rewrite Z.mod_pow2_bits_high, Z.lxor_spec by lia.
      rewrite <- (Z.mod_small a (2 ^ w)), <- (Z.mod_small b (2 ^ w)) by done.
      by rewrite !Z.mod_pow2_bits_high by lia. }
  rewrite Hm. by apply inu_wrapu.
Qed.

(** Conversion to unsigned and back to signed is the identity on the signed
    range (two's complement), and conversely. *)
Lemma wraps_wrapu w z : (0 < w)%Z → wraps w (wrapu w z) = wraps w z.
Proof.
  intros Hw. unfold wraps, wrapu.
  rewrite Z.add_mod_idemp_l by (apply Z.pow_nonzero; lia). done.
Qed.

Lemma wrapu_wraps w z : (0 < w)%Z → wrapu w (wraps w z) = wrapu w z.
Proof.
  intros Hw. unfold wraps, wrapu.
  rewrite Zminus_mod_idemp_l. f_equal. lia.
Qed.

#[export] Hint Resolve inu_wrapu ins_wraps : width.
#[export] Hint Extern 1 (0 <= _)%Z => lia : width.
#[export] Hint Extern 1 (0 < _)%Z => lia : width.
#[export] Hint Extern 2 (inu _ _) => unfold inu; lia : width.

(** ** Outcomes of fallible code

    [Ret] is a normal return, [Throw] a C++ exception, [Undef] an operation the
    C++ standard leaves undefined (an out-of-range [operator[]]). *)

Inductive exn :=
| out_of_range (what : string)
| invalid_argument (what : string)
| runtime_error (what : string)
| other_error (what : string).

(** [ex.what()]. *)
Definition exn_what (e : exn) : string :=
  match e with
  | out_of_range w | invalid_argument w | runtime_error w | other_error w => w
  end.

Inductive outcome (A : Type) : Type :=
| Ret (a : A)
| Throw (e : exn)
| Undef.
Arguments Ret {A} _.
Arguments Throw {A} _.
Arguments Undef {A}.

#[export] Instance outcome_ret : MRet outcome := λ A a, Ret a.
#[export] Instance outcome_bind : MBind outcome := λ A B f m,
  match m with Ret a => f a | Throw e => Throw e | Undef => Undef end.

#[export] Instance exn_eq_dec : EqDecision exn.
Proof. solve_decision. Defined.

(** [result A] is an outcome without undefined behaviour: a value or a thrown
    exception.  [io S A] is code that also reads and changes a state [S]; the
    state reached when the exception is thrown is kept. *)
Inductive result (A : Type) : Type :=
| Ok (a : A)
| Err (e : exn).
Arguments Ok {A} _.
Arguments Err {A} _.

#[export] Instance result_ret : MRet result := λ A a, Ok a.
#[export] Instance result_bind : MBind result := λ A B f m,
  match m with Ok a => f a | Err e => Err e end.

Definition is_ok {A} (r : result A) : bool := match r with Ok _ => true | Err _ => false end.

Definition io (S A : Type) : Type := S → result A * S.

#[export] Instance io_ret S : MRet (io S) := λ A a s, (Ok a, s).
#[export] Instance io_bind S : MBind (io S) := λ A B f m s,
  match m s with (Ok a, s') => f a s' | (Err e, s') => (Err e, s') end.

Definition io_lift {S A} (r : result A) : io S A := λ s, (r, s).

(** The first value stored under a key. *)
Fixpoint assoc_find {V} (k : string) (l : list (string * V)) : option V :=
  match l with
  | [] => None
  | (k', v) :: l => if decide (k' = k) then Some v else assoc_find k l
  end.

Lemma bind_Ok {A B} (m : result A) (f : A → result B) b :
  m ≫= f = Ok b ↔ ∃ a, m = Ok a ∧ f a = Ok b.
Proof. destruct m; naive_solver. Qed.

Lemma io_bind_Ok {S A B} (m : io S A) (f : A → io S B) s b s' :
  (m ≫= f) s = (Ok b, s') ↔ ∃ a s1, m s = (Ok a, s1) ∧ f a s1 = (Ok b, s').
Proof. unfold mbind, io_bind. destruct (m s) as [[a|e] s1]; naive_solver. Qed.

(** [operator[]] of a [std::vector]: undefined outside the vector. *)
Definition vec_index {A} (v : list A) (i : Z) : outcome A :=
  if (i <? 0)%Z then Undef
  else match v !! Z.to_nat i with Some x => Ret x | None => Undef end.

(** A reader takes a buffer and the [size_t& offset] it advances. *)
Definition reader (A : Type) : Type := list Z → Z → outcome (A * Z).

#[export] Instance reader_ret : MRet reader := λ A a buf off, Ret (a, off).
#[export] Instance reader_bind : MBind reader := λ A B f m buf off,
  match m buf off with
  | Ret (a, off') => f a buf off'
  | Throw e => Throw e
  | Undef => Undef
  end.

(** ** Loops

    [for_range n body s] is [for (i = 0; i < n; ++i) s = body(i, s)]. *)
Definition for_range {S} (n : nat) (body : nat → S → S) (s : S) : S :=
  foldl (λ s i, body i s) s (seq 0 n).

Lemma for_range_S {S} n body (s : S) :
  for_range (Datatypes.S n) body s = body n (for_range n body s).
Proof. unfold for_range. by rewrite seq_S, foldl_app. Qed.

Lemma for_range_invariant {S} (P : nat → S → Prop) n body (s : S) :
  P 0 s → (∀ i s, i < n → P i s → P (Datatypes.S i) (body i s)) →
  P n (for_range n body s).
Proof.
  induction n as [|n IH]; intros H0 HS; [done|].
  rewrite for_range_S. apply HS; [lia|]. apply IH; [done|]. intros. apply HS; [lia|done].
Qed.

(** A loop over a list whose body may throw. *)
Fixpoint result_fold {A S} (body : A → S → result S) (l : list A) (s : S) : result S :=
  match l with
  | [] => Ok s
  | a :: l => s ← body a s; result_fold body l s
  end.

Lemma result_fold_app {A S} (body : A → S → result S) l l' s :
  result_fold body (l ++ l') s = result_fold body l s ≫= result_fold body l'.
Proof.
  revert s. induction l as [|a l IH]; intros s; [done|]. cbn. destruct (body a s); [apply IH|done].
Qed.

Lemma result_fold_invariant {A S} (P : S → Prop) (body : A → S → result S) l s s' :
  (∀ a s s', P s → body a s = Ok s' → P s') → P s → result_fold body l s = Ok s' → P s'.
Proof.
  intros Hb. revert s. induction l as [|a l IH]; intros s Hs; cbn; [by intros [= <-]|].
  intros (s1 & H1 & E)%bind_Ok. by eapply IH; [eapply Hb|].
Qed.

(** ** Optional error strings

    A [std::string* err] argument: [None] is a null pointer, [Some s] a string
    that now holds [s].  [set_err err msg] is [if (err) *err = msg]. *)
Definition set_err (err : option string) (msg : string) : option string :=
  (λ _, msg) <$> err.

Lemma set_err_Some s msg : set_err (Some s) msg = Some msg.
Proof. reflexivity. Qed.
