(* ===== verification/Processes.v ===== *)
(** * Processes and files of the operating system

    What the two media relay monitors use of POSIX, as the class [Os W] over the
    state [W] of the system outside the program, with its documented behaviour as
    the class [OsLaws]: a child process exists from [fork] until it is waited
    for, also after it has exited; nothing is said about when a process that was
    sent a signal exits.  [sim] is a small system on which the witnesses evaluate. *)

From S2P Require Import Prelude.
From stdpp Require Import gmap strings.

Local Open Scope Z_scope.

(** A child process that was not waited for yet: running, or exited ("zombie"). *)
Inductive cstate := Alive | Zombie.

Definition SIGKILL : Z := 9.
Definition SIGTERM : Z := 15.
Definition ESRCH : Z := 3.

Class Os (W : Type) := {
  (** the children of this process *)
  os_child : W → Z → option cstate;
  (** in the parent *)
  os_fork : W → Z * W;
  (** [kill(pid, sig)]: 0, or the [errno] *)
  os_kill : Z → Z → W → Z * W;
  (** [waitpid(pid, &status, WNOHANG)] and [waitpid(pid, &status, 0)] *)
  os_waitpid : Z → W → Z * W;
  os_wait : Z → W → Z * W;
  (** [sleep_for], nanoseconds *)
  os_sleep : Z → W → W;
  (** [steady_clock::now()], nanoseconds *)
  os_now : W → Z;
  (** the signals sent so far *)
  os_sent : W → list (Z * Z);
  os_file : W → string → option string;
  (** [access(path, mode) == 0] for [W_OK] and [X_OK] *)
  os_writable : W → string → bool;
  os_executable : W → string → bool;
  (** [std::ofstream ofs(path)], [is_open()] *)
  os_create : string → W → bool * W;
  (** [ofs << text; ofs.flush()], [!ofs.fail()] *)
  os_put : string → string → W → bool * W;
  os_unlink : string → W → W;
  (** [rename(from, to) == 0] *)
  os_rename : string → string → W → bool * W
}.

Section passes.
Context {W : Type} `{Os W}.

(** What can become of a child that nobody waits for. *)
Definition may_become (c c' : option cstate) : Prop :=
  match c with
  | None => c' = None
  | Some Zombie => c' = Some Zombie
  | Some Alive => is_Some c'
  end.

(** Time goes on; children other than those in [X] may exit, nothing else
    happens to them. *)
Definition passes_but (X : Z → Prop) (w w' : W) : Prop :=
  os_now w <= os_now w' ∧ ∀ p, ¬ X p → may_become (os_child w p) (os_child w' p).
Definition passes (w w' : W) : Prop :=
  passes_but (λ _, False) w w' ∧ os_sent w' = os_sent w.

#[export] Instance may_become_preorder : PreOrder may_become.
Proof.
  split.
  - intros [[]|]; cbn; eauto.
  - intros [[]|] [[]|] c; cbn; intros; simplify_eq; eauto; try naive_solver.
Qed.

#[export] Instance passes_but_preorder X : PreOrder (passes_but X).
Proof.
  split.
  - intros w. split; [lia|]. done.
  - intros w1 w2 w3 [T1 C1] [T2 C2]. split; [lia|]. intros p Hp. etrans; eauto.
Qed.

#[export] Instance passes_preorder : PreOrder passes.
Proof.
  split.
  - intros w. by split.
  - intros w1 w2 w3 [P1 S1] [P2 S2]. split; [by etrans|congruence].
Qed.

Lemma passes_but_mono (X Y : Z → Prop) w w' :
  (∀ p, X p → Y p) → passes_but X w w' → passes_but Y w w'.
Proof. intros HXY [T C]. split; [done|]. intros p Hp. apply C. naive_solver. Qed.

(** A child nobody waits for stays a child, and no child appears. *)
Lemma may_become_Some c c' : may_become c c' → is_Some c → is_Some c'.
Proof. destruct c as [[]|]; cbn; intros H1 H2; subst; eauto. Qed.
Lemma may_become_None c c' : may_become c c' → c = None → c' = None.
Proof. intros Hm ->. done. Qed.

Lemma passes_child w w' p : passes w w' → is_Some (os_child w p) ↔ is_Some (os_child w' p).
Proof.
  intros [[_ C] _]. specialize (C p (λ x, x)). split; [by apply may_become_Some|].
  intros Hs. destruct (os_child w p) eqn:E; [eauto|]. cbn in C. rewrite C in Hs. by destruct Hs.
Qed.
Lemma passes_sent w w' : passes w w' → os_sent w' = os_sent w.
Proof. by intros [_ ?]. Qed.
Lemma passes_now w w' : passes w w' → os_now w <= os_now w'.
Proof. by intros [[? _] _]. Qed.
End passes.

Class OsLaws (W : Type) `{Os W} := {
  os_fork_spec w p w' : os_fork w = (p, w') →
    (p < 0 ∧ passes w w') ∨
    (0 < p ∧ os_child w p = None ∧ is_Some (os_child w' p) ∧
     passes_but (λ q, q = p) w w' ∧ os_sent w' = os_sent w);
  (** signal 0 only asks whether the process exists *)
  os_kill_spec p s w e w' : os_kill p s w = (e, w') →
    passes_but (λ _, False) w w' ∧
    os_sent w' = os_sent w ++ (if decide (s ≠ 0 ∧ e = 0) then [(p, s)] else []);
  (** an exited child still exists *)
  os_kill_child p s w : 0 < p → is_Some (os_child w p) → (os_kill p s w).1 = 0;
  os_waitpid_spec p w r w' : 0 < p → os_waitpid p w = (r, w') →
    os_sent w' = os_sent w ∧
    ((r = 0 ∧ os_child w p = Some Alive ∧ passes w w') ∨
     (r < 0 ∧ os_child w p = None ∧ passes w w') ∨
     (r = p ∧ is_Some (os_child w p) ∧ os_child w' p = None ∧ passes_but (λ q, q = p) w w'));
  os_waitpid_zombie p w : 0 < p → os_child w p = Some Zombie → (os_waitpid p w).1 = p;
  os_wait_spec p w r w' : 0 < p → os_wait p w = (r, w') →
    os_sent w' = os_sent w ∧ os_child w' p = None ∧ passes_but (λ q, q = p) w w' ∧
    (r = p ↔ is_Some (os_child w p));
  os_sleep_passes d w : passes w (os_sleep d w);
  os_sleep_now d w : os_now w + d <= os_now (os_sleep d w);
  os_create_passes f w : passes w (os_create f w).2;
  os_create_file f g w : g ≠ f → os_file (os_create f w).2 g = os_file w g;
  os_create_new f w : (os_create f w).1 = true → os_file (os_create f w).2 f = Some "";
  os_put_passes f t w : passes w (os_put f t w).2;
  os_put_file f t g w : g ≠ f → os_file (os_put f t w).2 g = os_file w g;
  os_put_new f t w :
    os_file w f = Some "" → (os_put f t w).1 = true → os_file (os_put f t w).2 f = Some t;
  os_unlink_passes f w : passes w (os_unlink f w);
  os_unlink_file f g w : g ≠ f → os_file (os_unlink f w) g = os_file w g;
  os_rename_passes f g w : passes w (os_rename f g w).2;
  os_rename_failed f g h w : (os_rename f g w).1 = false → os_file (os_rename f g w).2 h = os_file w h;
  os_rename_done f g w : (os_rename f g w).1 = true → os_file (os_rename f g w).2 g = os_file w f
}.

(** The children are exactly [p], when it is a process. *)
Definition only_child {W} `{Os W} (w : W) (p : Z) : Prop :=
  ∀ q, is_Some (os_child w q) ↔ q = p ∧ 0 < p.

Section children.
Context {W : Type} `{OsLaws W}.
Implicit Types (w : W).

Lemma only_child_passes w w' p : only_child w p → passes w w' → only_child w' p.
Proof. intros Ho Hp q. rewrite <- (passes_child w w' q Hp). apply Ho. Qed.

Lemma only_child_gone w w' p :
  only_child w p → passes_but (λ q, q = p) w w' → os_child w' p = None → only_child w' (-1).
Proof.
  intros Ho [_ Hc] Hn q. split; [|lia]. intros Hs. destruct (decide (q = p)) as [->|Hq].
  { rewrite Hn in Hs. by destruct Hs. }
  specialize (Hc q Hq). destruct (os_child w q) eqn:E.
  { by destruct (proj1 (Ho q)) as [-> _]; [eauto|]. }
  cbn in Hc. rewrite Hc in Hs. by destruct Hs.
Qed.

Lemma kill0_passes p w : passes w (os_kill p 0 w).2.
Proof.
  destruct (os_kill p 0 w) as [e w'] eqn:E. destruct (os_kill_spec _ _ _ _ _ E) as [Hp Hs].
  split; [done|]. cbn [snd]. rewrite Hs, decide_False by naive_solver. apply app_nil_r.
Qed.

Lemma kill_child p s w :
  0 < p → s ≠ 0 → is_Some (os_child w p) →
  passes_but (λ _, False) w (os_kill p s w).2 ∧ os_sent (os_kill p s w).2 = os_sent w ++ [(p, s)].
Proof.
  intros Hp Hs Hc. destruct (os_kill p s w) as [e w'] eqn:E.
  destruct (os_kill_spec _ _ _ _ _ E) as [Hb He]. split; [done|].
  pose proof (os_kill_child p s w Hp Hc) as Hz. rewrite E in Hz. cbn in Hz |- *.
  by rewrite He, decide_True.
Qed.

Lemma kill_still p s w : is_Some (os_child w p) → is_Some (os_child (os_kill p s w).2 p).
Proof.
  intros Hc. destruct (os_kill p s w) as [e w'] eqn:E.
  destruct (os_kill_spec _ _ _ _ _ E) as [[_ Hb] _]. eapply may_become_Some; [|done].
  apply Hb. tauto.
Qed.

Lemma passes_but_passes X w w' w'' : passes w w' → passes_but X w' w'' → passes_but X w w''.
Proof.
  intros [[T C] _] [T' C']. split; [lia|]. intros p Hp. etrans; [apply C; tauto|by apply C'].
Qed.

Lemma fork_only w p w' :
  only_child w (-1) → os_fork w = (p, w') →
  (p < 0 ∧ only_child w' (-1)) ∨ (0 < p ∧ only_child w' p).
Proof.
  intros Ho E. destruct (os_fork_spec _ _ _ E) as [[Hp Hw]|(Hp & _ & Hs & [_ Hb] & _)].
  - left. split; [done|]. by eapply only_child_passes.
  - right. split; [done|]. intros q. split; [|by intros [-> _]]. intros Hq. split; [|done].
    destruct (decide (q = p)) as [|Hn]; [done|]. specialize (Hb q Hn).
    destruct (os_child w q) eqn:Eq; [by destruct (proj1 (Ho q)) as [_ ?]; [eauto|]|].
    cbn in Hb. rewrite Hb in Hq. by destruct Hq.
Qed.

Lemma only_child_none w p : p <= 0 → only_child w p → only_child w (-1).
Proof. intros Hp Ho q. rewrite (Ho q). lia. Qed.

End children.

(** ** A small system

    Every child has the time of its exit, if any. *)

Record sim := Sim {
  sim_now : Z;
  sim_children : gmap Z (option Z);
  sim_next : Z;                     (** the next pid *)
  sim_life : option Z;              (** how long a new child runs *)
  sim_term : option Z;              (** how long a child takes to exit on SIGTERM *)
  sim_sent : list (Z * Z);
  sim_files : gmap string string;
  sim_disk : bool                   (** files can be written *)
}.

Definition exit_by (t : Z) (c : option Z) : option Z :=
  Some (match c with Some t0 => Z.min t0 t | None => t end).

Definition sim_cstate (now : Z) (c : option Z) : cstate :=
  match c with Some t => if t <=? now then Zombie else Alive | None => Alive end.

Definition sim_child (w : sim) (p : Z) : option cstate :=
  sim_cstate (sim_now w) <$> sim_children w !! p.

Definition sim_with_children (c : gmap Z (option Z)) (w : sim) : sim :=
  Sim (sim_now w) c (sim_next w) (sim_life w) (sim_term w) (sim_sent w) (sim_files w) (sim_disk w).
Definition sim_with_files (f : gmap string string) (w : sim) : sim :=
  Sim (sim_now w) (sim_children w) (sim_next w) (sim_life w) (sim_term w) (sim_sent w) f (sim_disk w).
Definition sim_with_now (t : Z) (w : sim) : sim :=
  Sim t (sim_children w) (sim_next w) (sim_life w) (sim_term w) (sim_sent w) (sim_files w) (sim_disk w).

Definition sim_fork (w : sim) : Z * sim :=
  let p := sim_next w in
  if decide (0 < p ∧ sim_children w !! p = None) then
    (p, Sim (sim_now w) (<[p := (λ d, sim_now w + d) <$> sim_life w]> (sim_children w)) (p + 1)
            (sim_life w) (sim_term w) (sim_sent w) (sim_files w) (sim_disk w))
  else (-1, w).

(** What a signal does to a child. *)
Definition sim_signalled (s : Z) (w : sim) (c : option Z) : option Z :=
  if decide (s = SIGKILL) then exit_by (sim_now w) c
  else if decide (s = SIGTERM) then
    match sim_term w with Some d => exit_by (sim_now w + Z.max 0 d) c | None => c end
  else c.

Definition sim_kill (p s : Z) (w : sim) : Z * sim :=
  match sim_children w !! p with
  | None => (ESRCH, w)
  | Some c =>
      (0, Sim (sim_now w) (<[p := sim_signalled s w c]> (sim_children w)) (sim_next w) (sim_life w)
              (sim_term w) (sim_sent w ++ (if decide (s ≠ 0) then [(p, s)] else []))
              (sim_files w) (sim_disk w))
  end.

Definition sim_waitpid (p : Z) (w : sim) : Z * sim :=
  match sim_child w p with
  | None => (-1, w)
  | Some Alive => (0, w)
  | Some Zombie => (p, sim_with_children (delete p (sim_children w)) w)
  end.

Definition sim_wait (p : Z) (w : sim) : Z * sim :=
  match sim_children w !! p with
  | None => (-1, w)
  | Some _ => (p, sim_with_children (delete p (sim_children w)) w)
  end.

#[export] Instance sim_os : Os sim := {|
  os_child := sim_child;
  os_fork := sim_fork;
  os_kill := sim_kill;
  os_waitpid := sim_waitpid;
  os_wait := sim_wait;
  os_sleep d w := sim_with_now (sim_now w + Z.max 0 d) w;
  os_now := sim_now;
  os_sent := sim_sent;
  os_file w f := sim_files w !! f;
  os_writable w _ := sim_disk w;
  os_executable _ _ := true;
  os_create f w := if sim_disk w then (true, sim_with_files (<[f := ""]> (sim_files w)) w) else (false, w);
  os_put f t w := if sim_disk w then (true, sim_with_files (<[f := t]> (sim_files w)) w) else (false, w);
  os_unlink f w := sim_with_files (delete f (sim_files w)) w;
  os_rename f g w :=
    match sim_files w !! f with
    | Some t => if sim_disk w then (true, sim_with_files (<[g := t]> (delete f (sim_files w))) w)
                else (false, w)
    | None => (false, w)
    end
|}.

Lemma sim_cstate_later now now' c :
  now <= now' → may_become (Some (sim_cstate now c)) (Some (sim_cstate now' c)).
Proof.
  intros. destruct c as [t|]; cbn; [|eauto].
  destruct (Z.leb_spec t now); cbn; [|eauto]. by destruct (Z.leb_spec t now'); [|lia].
Qed.

Lemma sim_cstate_signalled w s c :
  may_become (Some (sim_cstate (sim_now w) c)) (Some (sim_cstate (sim_now w) (sim_signalled s w c))).
Proof.
  unfold sim_signalled. repeat case_decide; [..|reflexivity].
  - destruct c as [t|]; cbn; [|eauto].
    destruct (Z.leb_spec t (sim_now w)); cbn; [|eauto].
    by destruct (Z.leb_spec (t `min` sim_now w) (sim_now w)); [|lia].
  - destruct (sim_term w) as [d|]; [|reflexivity]. destruct c as [t|]; cbn; [|eauto].
    destruct (Z.leb_spec t (sim_now w)); cbn; [|eauto].
    by destruct (Z.leb_spec (t `min` (sim_now w + 0 `max` d)) (sim_now w)); [|lia].
Qed.

Lemma sim_passes_files f w : passes w (sim_with_files f w).
Proof. split; [split; [cbn; lia|]|done]. intros p _. cbn. reflexivity. Qed.

Lemma sim_delete_passes p w :
  passes_but (λ q, q = p) w (sim_with_children (delete p (sim_children w)) w).
Proof.
  split; [cbn; lia|]. intros q Hq. cbn. unfold sim_child; cbn.
  rewrite lookup_delete_ne by done. reflexivity.
Qed.

#[export] Instance sim_laws : OsLaws sim.
Proof.
  split.
  - intros w p w'. cbn. unfold sim_fork. case_decide as Hd; intros [= <- <-].
    + right. destruct Hd as [Hp Hn]. split; [done|]. cbn. unfold sim_child. cbn.
      rewrite Hn, lookup_insert_eq. split; [done|]. split; [by eexists|]. split; [|done].
      split; [cbn; lia|]. intros q Hq. cbn. unfold sim_child. cbn.
      rewrite lookup_insert_ne by done. reflexivity.
    + left. split; [lia|]. reflexivity.
  - intros p s w e w'. cbn. unfold sim_kill. destruct (sim_children w !! p) as [c|] eqn:E;
      intros [= <- <-].
    + split; [split; [cbn; lia|]|].
      * intros q _. cbn. unfold sim_child; cbn. destruct (decide (q = p)) as [->|Hn].
        { rewrite lookup_insert_eq, E. apply sim_cstate_signalled. }
        { rewrite lookup_insert_ne by done. reflexivity. }
      * cbn. repeat case_decide; try done; naive_solver.
    + split; [reflexivity|]. rewrite decide_False by (unfold ESRCH; lia). by rewrite app_nil_r.
  - intros p s w Hp. cbn. unfold sim_child, sim_kill. intros Hs.
    destruct (sim_children w !! p); [done|]. by destruct Hs.
  - intros p w r w' Hp. cbn. unfold sim_waitpid. destruct (sim_child w p) as [[]|] eqn:E;
      intros [= <- <-]; (split; [done|]).
    + left. done.
    + right; right. split; [done|]. split; [eauto|]. split; [|apply sim_delete_passes].
      unfold sim_child. cbn. by rewrite lookup_delete_eq.
    + right; left. split; [lia|]. done.
  - intros p w Hp. cbn. unfold sim_waitpid. by intros ->.
  - intros p w r w' Hp. cbn. unfold sim_wait. destruct (sim_children w !! p) as [c|] eqn:E;
      intros [= <- <-]; (split; [done|]); cbn; unfold sim_child; cbn.
    + rewrite lookup_delete_eq, E. split; [done|]. split; [apply sim_delete_passes|].
      split; [by eexists|done].
    + rewrite E. split; [done|]. split; [reflexivity|]. split; [lia|]. intros Hs. by destruct Hs.
  - intros d w. cbn. split; [split; [cbn; lia|]|done]. intros p _. cbn. unfold sim_child; cbn.
    destruct (sim_children w !! p) as [c|]; [|done]. apply sim_cstate_later. lia.
  - intros d w. cbn. lia.
  - intros f w. cbn. destruct (sim_disk w); [apply sim_passes_files|reflexivity].
  - intros f g w Hg. cbn. destruct (sim_disk w); [|done]. cbn. by rewrite lookup_insert_ne.
  - intros f w. cbn. destruct (sim_disk w); [|done]. intros _. cbn. by rewrite lookup_insert_eq.
  - intros f t w. cbn. destruct (sim_disk w); [apply sim_passes_files|reflexivity].
  - intros f t g w Hg. cbn. destruct (sim_disk w); [|done]. cbn. by rewrite lookup_insert_ne.
  - intros f t w _. cbn. destruct (sim_disk w); [|done]. intros _. cbn. by rewrite lookup_insert_eq.
  - intros f w. cbn. apply sim_passes_files.
  - intros f g w Hg. cbn. by rewrite lookup_delete_ne.
  - intros f g w. cbn. destruct (sim_files w !! f); [|reflexivity].
    destruct (sim_disk w); [apply sim_passes_files|reflexivity].
  - intros f g h w. cbn. destruct (sim_files w !! f); [|done]. by destruct (sim_disk w).
  - intros f g w. cbn. destruct (sim_files w !! f); [|done]. destruct (sim_disk w); [|done].
    intros _. cbn. by rewrite lookup_insert_eq.
Qed.
