(* ===== verification/Bytes.v ===== *)
(** * Byte sequences

    Little- and big-endian representations of unsigned integers, the reference
    against which the program's shift-and-mask code is proved, and the cursor
    predicate that describes a reader's position in a buffer. *)

From S2P Require Import Prelude.

Local Open Scope Z_scope.

(** ** Reference codecs *)

Fixpoint le_encode (n : nat) (v : Z) : list Z :=
  match n with
  | O => []
  | S n => v mod 256 :: le_encode n (v / 256)
  end.

Fixpoint le_decode (l : list Z) : Z :=
  match l with
  | [] => 0
  | b :: l => b + 256 * le_decode l
  end.

Definition be_encode (n : nat) (v : Z) : list Z := reverse (le_encode n v).
Definition be_decode (l : list Z) : Z := le_decode (reverse l).

Lemma length_le_encode n v : length (le_encode n v) = n.
Proof. revert v. induction n; intros; simpl; [done|]. by f_equal. Qed.

Lemma length_be_encode n v : length (be_encode n v) = n.
Proof. unfold be_encode. by rewrite length_reverse, length_le_encode. Qed.

Lemma le_encode_bytes n v : bytes (le_encode n v).
Proof.
  revert v. induction n; intros; simpl; constructor; [|done].
  unfold inu. apply Z.mod_pos_bound. lia.
Qed.

Lemma be_encode_bytes n v : bytes (be_encode n v).
Proof. apply Forall_reverse, le_encode_bytes. Qed.

Lemma le_decode_range l : bytes l → 0 <= le_decode l < 256 ^ Z.of_nat (length l).
Proof.
  induction 1 as [|b l Hb _ IH]; [simpl; lia|].
  cbn [le_decode length]. rewrite Nat2Z.inj_succ, Z.pow_succ_r by lia.
  unfold inu in Hb. change (2 ^ 8) with 256 in Hb. nia.
Qed.

Lemma le_decode_encode n v : 0 <= v < 256 ^ Z.of_nat n → le_decode (le_encode n v) = v.
Proof.
  revert v. induction n as [|n IH]; intros v Hv; [simpl in *; lia|].
  cbn [le_encode le_decode]. rewrite Nat2Z.inj_succ, Z.pow_succ_r in Hv by lia.
  rewrite IH by (split; [apply Z.div_pos; lia | apply Z.div_lt_upper_bound; lia]).
  pose proof (Z.div_mod v 256). lia.
Qed.

Lemma le_encode_decode l : bytes l → le_encode (length l) (le_decode l) = l.
Proof.
  induction 1 as [|b l Hb Hl IH]; [done|].
  cbn [length le_encode le_decode]. unfold inu in Hb. change (2 ^ 8) with 256 in Hb.
  rewrite (Z.mul_comm 256), Z.mod_add, Z.mod_small by lia.
  rewrite Z.div_add, Z.div_small, Z.add_0_l, IH by lia. done.
Qed.

Lemma le_encode_inj n v w :
  0 <= v < 256 ^ Z.of_nat n → 0 <= w < 256 ^ Z.of_nat n → le_encode n v = le_encode n w → v = w.
Proof.
  intros Hv Hw He. by rewrite <- (le_decode_encode n v), He, le_decode_encode.
Qed.

Lemma be_decode_encode n v : 0 <= v < 256 ^ Z.of_nat n → be_decode (be_encode n v) = v.
Proof.
  intros. unfold be_decode, be_encode. by rewrite reverse_involutive, le_decode_encode.
Qed.

Lemma le_encode_snoc n v :
  le_encode (S n) v = le_encode n v ++ [(v / 256 ^ Z.of_nat n) mod 256].
Proof.
  revert v. induction n as [|n IH]; intros v.
  { cbn [le_encode app]. change (256 ^ Z.of_nat 0) with 1. by rewrite Z.div_1_r. }
  change (le_encode (S (S n)) v) with (v mod 256 :: le_encode (S n) (v / 256)).
  rewrite IH. cbn [le_encode app]. do 2 f_equal.
  rewrite Nat2Z.inj_succ, Z.pow_succ_r by lia.
  by rewrite Z.div_div by (try apply Z.pow_pos_nonneg; lia).
Qed.

Lemma be_encode_S n v : be_encode (S n) v = ((v / 256 ^ Z.of_nat n) mod 256) :: be_encode n v.
Proof. unfold be_encode. by rewrite le_encode_snoc, reverse_app. Qed.

(** Any [n] bytes at the head of a list encode some [n]-byte value. *)
Lemma le_encode_exists n l :
  bytes l → (n <= length l)%nat →
  ∃ v, 0 <= v < 256 ^ Z.of_nat n ∧ l = le_encode n v ++ drop n l.
Proof.
  intros Hl Hn. exists (le_decode (take n l)).
  assert (Hlen : length (take n l) = n) by (rewrite length_take; lia).
  assert (Ht : bytes (take n l)) by by apply Forall_take.
  split.
  - pose proof (le_decode_range _ Ht) as Hr. by rewrite Hlen in Hr.
  - rewrite <- Hlen at 1. by rewrite le_encode_decode, take_drop.
Qed.

(** ** Shift-and-mask arithmetic *)

Lemma land_255 v : Z.land v 255 = v mod 256.
Proof. change 255 with (Z.ones 8). by rewrite Z.land_ones. Qed.

Lemma wrapu_8_land v : wrapu 8 (Z.land v 255) = v mod 256.
Proof.
  rewrite land_255. unfold wrapu. change (2 ^ 8) with 256. by rewrite Z.mod_mod.
Qed.

Lemma lor_shiftl_add a b k :
  0 <= k → 0 <= a < 2 ^ k → 0 <= b → Z.lor a (Z.shiftl b k) = a + 2 ^ k * b.
Proof.
  intros Hk Ha Hb. rewrite Z.shiftl_mul_pow2, (Z.mul_comm b) by lia.
  rewrite <- Z.lxor_lor, <- Z.add_nocarry_lxor; [done| |].
  all: apply Z.bits_inj'; intros i Hi;
    rewrite Z.land_spec, Z.bits_0, (Z.mul_comm _ b), <- Z.shiftl_mul_pow2, Z.shiftl_spec by lia;
    destruct (decide (i < k)) as [Hlt|Hge];
    [ rewrite (Z.testbit_neg_r b) by lia; by rewrite andb_false_r
    | rewrite <- (Z.mod_small a (2 ^ k)), Z.mod_pow2_bits_high by lia; done ].
Qed.

#[export] Hint Rewrite length_le_encode length_be_encode : bytes.
#[export] Hint Resolve le_encode_bytes be_encode_bytes : width.

(** ** Cursors

    [cursor buf off rest]: the bytes of [buf] from [off] on are [rest]. *)
Definition cursor (buf : list Z) (off : Z) (rest : list Z) : Prop :=
  ∃ pre, buf = pre ++ rest ∧ off = Z.of_nat (length pre) ∧
         Z.of_nat (length buf) < 2 ^ 63 ∧ bytes rest.

Lemma cursor_start buf : bytes buf → Z.of_nat (length buf) < 2 ^ 63 → cursor buf 0 buf.
Proof. exists []. done. Qed.

Lemma cursor_advance buf off l rest n :
  cursor buf off (l ++ rest) → length l = n → cursor buf (off + Z.of_nat n) rest.
Proof.
  intros (pre & -> & -> & Hlen & Hb) <-. exists (pre ++ l).
  apply Forall_app in Hb as [_ Hb].
  split_and!; [by rewrite <- app_assoc| rewrite length_app; lia | done | done].
Qed.

(** The byte at distance [i] from a cursor. *)
Lemma cursor_index buf off rest i b :
  cursor buf off rest → rest !! i = Some b → vec_index buf (off + Z.of_nat i) = Ret b.
Proof.
  intros (pre & -> & -> & _ & _) Hi. unfold vec_index.
  destruct (_ <? 0) eqn:E; [lia|].
  replace (Z.to_nat _) with (length pre + i)%nat by lia.
  rewrite lookup_app_r by lia. by replace (_ - _)%nat with i by lia; rewrite Hi.
Qed.

Lemma cursor_bounds buf off rest :
  cursor buf off rest →
  0 <= off ∧ off + Z.of_nat (length rest) = Z.of_nat (length buf) ∧ Z.of_nat (length buf) < 2 ^ 63.
Proof. intros (pre & -> & -> & Hlen & _). rewrite length_app in *. lia. Qed.

Lemma cursor_index_wrap buf off rest i b :
  cursor buf off rest → rest !! Z.to_nat i = Some b → 0 <= i →
  vec_index buf (wrapu 64 (off + i)) = Ret b.
Proof.
  intros Hc Hi Hpos. pose proof (cursor_bounds _ _ _ Hc) as (?&?&?).
  apply lookup_lt_Some in Hi as Hlt.
  rewrite wrapu_id by (unfold inu; lia).
  rewrite <- (Z2Nat.id i) by done. by eapply cursor_index.
Qed.

Lemma cursor_index0 buf off b rest : cursor buf off (b :: rest) → vec_index buf off = Ret b.
Proof.
  intros Hc. replace off with (off + Z.of_nat 0) by lia. by eapply cursor_index.
Qed.

Lemma cursor_bytes buf off rest : cursor buf off rest → bytes rest.
Proof. by intros (? & _ & _ & _ & ?). Qed.

(** Proves [bytes] of an explicit list from the bounds of its elements. *)
Ltac bytes_tac := repeat (apply Forall_cons_2; [done|]); first [apply Forall_nil_2 | done].

(** ** Assembling an integer from bytes, least significant first *)

Lemma le_decode_snoc l b : le_decode (l ++ [b]) = le_decode l + 256 ^ Z.of_nat (length l) * b.
Proof.
  induction l as [|a l IH]; cbn [le_decode app length].
  { change (256 ^ Z.of_nat 0) with 1. lia. }
  rewrite IH, Nat2Z.inj_succ, Z.pow_succ_r by lia. lia.
Qed.

Lemma le_decode_1 b : le_decode [b] = b.
Proof. cbn [le_decode]. lia. Qed.

Lemma lor_le_snoc l b k :
  bytes l → byte b → k = 8 * Z.of_nat (length l) →
  Z.lor (le_decode l) (Z.shiftl b k) = le_decode (l ++ [b]).
Proof.
  intros Hl Hb ->. pose proof (le_decode_range l Hl) as Hr.
  change 256 with (2 ^ 8) in Hr. rewrite <- Z.pow_mul_r in Hr by lia.
  rewrite le_decode_snoc. change 256 with (2 ^ 8). rewrite <- Z.pow_mul_r by lia.
  apply lor_shiftl_add; unfold inu in Hb; lia.
Qed.

Lemma wrapu_shiftl_byte w k b :
  byte b → 0 <= k → k + 8 <= w → wrapu w (Z.shiftl (wrapu w b) k) = Z.shiftl b k.
Proof.
  intros Hb Hk Hw. unfold inu in Hb.
  assert (0 < 2 ^ k) by (apply Z.pow_pos_nonneg; lia).
  assert (H8 : 2 ^ (k + 8) <= 2 ^ w) by (apply Z.pow_le_mono_r; lia).
  rewrite Z.pow_add_r in H8 by lia.
  rewrite (wrapu_id w b) by (unfold inu; nia).
  apply wrapu_id. unfold inu. rewrite Z.shiftl_mul_pow2 by lia. nia.
Qed.

Lemma wrapu_byte w b : byte b → 8 <= w → wrapu w b = b.
Proof.
  intros Hb Hw. apply wrapu_id. unfold inu in *.
  assert (2 ^ 8 <= 2 ^ w) by (apply Z.pow_le_mono_r; lia). lia.
Qed.

Lemma shiftr_byte v k : 0 <= k → wrapu 8 (Z.land (Z.shiftr v k) 255) = (v / 2 ^ k) mod 256.
Proof. intros. by rewrite wrapu_8_land, Z.shiftr_div_pow2. Qed.

(** ** Truncation to a bit length *)

Lemma le_encode_mod n v k :
  8 * Z.of_nat n <= k → le_encode n (v mod 2 ^ k) = le_encode n v.
Proof.
  revert v k. induction n as [|n IH]; intros v k Hk; [done|].
  cbn [le_encode]. replace (2 ^ k) with (256 * 2 ^ (k - 8)).
  2:{ change 256 with (2 ^ 8). rewrite <- Z.pow_add_r by lia. f_equal; lia. }
  assert (0 < 2 ^ (k - 8)) by (apply Z.pow_pos_nonneg; lia).
  rewrite Z.rem_mul_r by lia. f_equal.
  - rewrite (Z.mul_comm 256), Z.mod_add, Z.mod_mod by lia. done.
  - rewrite (Z.mul_comm 256), Z.div_add, Z.div_small by (try apply Z.mod_pos_bound; lia).
    rewrite Z.add_0_l. apply IH. lia.
Qed.

Lemma pow256_pow2 n : 256 ^ Z.of_nat n = 2 ^ (8 * Z.of_nat n).
Proof. change 256 with (2 ^ 8). by rewrite <- Z.pow_mul_r by lia. Qed.

Lemma top_byte_mod n v k :
  8 * Z.of_nat n <= k <= 8 * Z.of_nat n + 8 →
  (v mod 2 ^ k / 256 ^ Z.of_nat n) mod 256 = (v / 256 ^ Z.of_nat n) mod 2 ^ (k - 8 * Z.of_nat n).
Proof.
  intros Hk. rewrite pow256_pow2. set (m := 8 * Z.of_nat n) in *.
  replace (2 ^ k) with (2 ^ m * 2 ^ (k - m)) by (rewrite <- Z.pow_add_r by lia; f_equal; lia).
  assert (0 < 2 ^ m) by (apply Z.pow_pos_nonneg; lia).
  assert (0 < 2 ^ (k - m)) by (apply Z.pow_pos_nonneg; lia).
  rewrite Z.rem_mul_r by lia. rewrite (Z.mul_comm (2 ^ m)), Z.div_add by lia.
  rewrite (Z.div_small (v mod 2 ^ m)) by (apply Z.mod_pos_bound; lia).
  rewrite Z.add_0_l. apply Z.mod_small.
  pose proof (Z.mod_pos_bound (v / 2 ^ m) (2 ^ (k - m))).
  assert (2 ^ (k - m) <= 2 ^ 8) by (apply Z.pow_le_mono_r; lia). change (2 ^ 8) with 256 in *. lia.
Qed.

(** The mask [0xFF >> extra] keeps the low [8 - extra] bits of a byte. *)
Lemma land_mask_byte b extra :
  0 <= extra < 8 → Z.land b (wrapu 8 (Z.shiftr 255 extra)) = b mod 2 ^ (8 - extra).
Proof.
  intros He. replace (wrapu 8 (Z.shiftr 255 extra)) with (Z.ones (8 - extra)).
  { apply Z.land_ones. lia. }
  assert (extra = 0 ∨ extra = 1 ∨ extra = 2 ∨ extra = 3 ∨ extra = 4 ∨ extra = 5 ∨ extra = 6 ∨ extra = 7)
    as Hc by lia.
  by destruct_or! Hc; subst.
Qed.

Lemma mask_ones_64 n : 1 <= n < 64 → wrapu 64 (wrapu 64 (Z.shiftl 1 n) - 1) = Z.ones n.
Proof.
  intros Hn. assert (0 < 2 ^ n) by (apply Z.pow_pos_nonneg; lia).
  assert (2 ^ n < 2 ^ 64) by (apply Z.pow_lt_mono_r; lia).
  rewrite Z.shiftl_mul_pow2, Z.mul_1_l, Z.ones_equiv by lia. unfold Z.pred.
  rewrite (wrapu_id _ (2 ^ n)) by (unfold inu; lia). apply wrapu_id. unfold inu. lia.
Qed.

(** [byte_len = (bit_len + 7) / 8] and the bits of the last byte left unused. *)
Lemma byte_len_spec n :
  1 <= n <= 64 →
  ∃ m, (m < 8)%nat ∧ Z.quot (n + 7) 8 = Z.of_nat (S m) ∧
       0 <= Z.of_nat (S m) * 8 - n < 8 ∧ 8 * Z.of_nat m < n <= 8 * Z.of_nat m + 8.
Proof.
  intros Hn. exists (Z.to_nat ((n + 7) / 8 - 1)).
  rewrite Z.quot_div_nonneg by lia.
  pose proof (Z.div_mod (n + 7) 8). pose proof (Z.mod_pos_bound (n + 7) 8). lia.
Qed.

Lemma be_encode_lookup m v j :
  (j < m)%nat → be_encode m v !! j = Some ((v / 256 ^ (Z.of_nat m - 1 - Z.of_nat j)) mod 256).
Proof.
  revert j. induction m as [|m IH]; intros j Hj; [lia|].
  rewrite be_encode_S. destruct j as [|j].
  - by replace (Z.of_nat (S m) - 1 - Z.of_nat 0) with (Z.of_nat m) by lia.
  - cbn [lookup list_lookup]. rewrite IH by lia.
    by replace (Z.of_nat (S m) - 1 - Z.of_nat (S j)) with (Z.of_nat m - 1 - Z.of_nat j) by lia.
Qed.

Lemma be_decode_snoc l b : be_decode (l ++ [b]) = b + 256 * be_decode l.
Proof. unfold be_decode. by rewrite reverse_snoc. Qed.

Lemma be_decode_range l : bytes l → 0 <= be_decode l < 256 ^ Z.of_nat (length l).
Proof.
  intros. unfold be_decode. rewrite <- length_reverse. by apply le_decode_range, Forall_reverse.
Qed.

(** ** Hexadecimal text *)

Definition hex_digit (d : Z) : string :=
  if d =? 0 then "0" else if d =? 1 then "1" else if d =? 2 then "2" else if d =? 3 then "3"
  else if d =? 4 then "4" else if d =? 5 then "5" else if d =? 6 then "6" else if d =? 7 then "7"
  else if d =? 8 then "8" else if d =? 9 then "9" else if d =? 10 then "A" else if d =? 11 then "B"
  else if d =? 12 then "C" else if d =? 13 then "D" else if d =? 14 then "E" else "F".

(** [std::uppercase << std::hex << setw(2) << setfill('0')] on a byte. *)
Definition hex_byte (b : Z) : string := hex_digit (b / 16) +:+ hex_digit (b mod 16).

(** [std::hex << std::uppercase] without padding. *)
Fixpoint hex_number (fuel : nat) (n : Z) : string :=
  match fuel with
  | O => ""
  | S fuel => (if n <? 16 then "" else hex_number fuel (n / 16)) +:+ hex_digit (n mod 16)
  end.
