(* ===== verification/Text.v ===== *)
(** * Text

    What the program uses of [std::string] and of the C character and number
    functions: classification and case, searching and [substr], and the text to
    integer conversion [std::stoull].  A [std::string] is a [string], one
    character per byte. *)

From S2P Require Import Prelude.
From stdpp Require Import pretty.
From Stdlib Require Import Ascii.

Local Open Scope Z_scope.

(** ** Characters *)

(** [std::tolower] in the C locale. *)
Definition tolower (c : ascii) : ascii :=
  let n := Ascii.nat_of_ascii c in
  if (65 <=? n)%nat && (n <=? 90)%nat then Ascii.ascii_of_nat (n + 32) else c.

(** [std::isspace] in the C locale. *)
Definition isspace (c : ascii) : bool :=
  let n := Ascii.nat_of_ascii c in (n =? 32)%nat || ((9 <=? n)%nat && (n <=? 13)%nat).

Definition digit_value (c : ascii) : option Z :=
  let n := Ascii.nat_of_ascii c in
  if (48 <=? n)%nat && (n <=? 57)%nat then Some (Z.of_nat (n - 48)) else None.

(** ** Strings *)

Fixpoint map_string (f : ascii → ascii) (s : string) : string :=
  match s with
  | EmptyString => EmptyString
  | String c s => String (f c) (map_string f s)
  end.

(** [find_first_of] and [find_last_of] over the characters that satisfy [p];
    [None] is [npos]. *)
Fixpoint find_first (p : ascii → bool) (s : string) : option nat :=
  match s with
  | EmptyString => None
  | String c s => if p c then Some 0%nat else S <$> find_first p s
  end.

Fixpoint find_last (p : ascii → bool) (s : string) : option nat :=
  match s with
  | EmptyString => None
  | String c s =>
      match find_last p s with
      | Some n => Some (S n)
      | None => if p c then Some 0%nat else None
      end
  end.

(** [s.substr(pos, n)] and [s.substr(pos)], for [pos <= s.size()]. *)
Definition substr (pos n : nat) (s : string) : string := String.substring pos n s.
Definition substr_from (pos : nat) (s : string) : string :=
  String.substring pos (String.length s - pos) s.

(** [s.find(c, pos)]. *)
Definition find_char (c : ascii) (pos : nat) (s : string) : option nat :=
  (λ n, pos + n)%nat <$> find_first (Ascii.eqb c) (substr_from pos s).

(** A string all of whose characters satisfy [p]. *)
Fixpoint all_chars (p : ascii → bool) (s : string) : bool :=
  match s with
  | EmptyString => true
  | String c s => p c && all_chars p s
  end.

(** ** Numbers in text *)

(** The digits at the front of a text, as [strtoull] reads them: their value
    (before any overflow check) and how many they are. *)
Fixpoint read_digits (acc : Z) (s : string) : Z * nat :=
  match s with
  | String c s' =>
      match digit_value c with
      | Some d => let '(v, n) := read_digits (10 * acc + d) s' in (v, S n)
      | None => (acc, 0%nat)
      end
  | EmptyString => (acc, 0%nat)
  end.

Fixpoint skip_space (s : string) : string :=
  match s with
  | String c s' => if isspace c then skip_space s' else s
  | EmptyString => s
  end.

Definition split_sign (s : string) : bool * string :=
  match s with
  | String "-" s' => (true, s')
  | String "+" s' => (false, s')
  | _ => (false, s)
  end.

(** [std::stoull]: leading white space, an optional sign, decimal digits;
    whatever follows is ignored.  A minus sign negates modulo 2^64. *)
Definition stoull (s : string) : result Z :=
  let '(neg, body) := split_sign (skip_space s) in
  let '(v, n) := read_digits 0 body in
  if (n =? 0)%nat then Err (invalid_argument "stoull")
  else if 2 ^ 64 <=? v then Err (out_of_range "stoull")
  else Ok (wrapu 64 (if neg : bool then - v else v)).

(** The number of characters a successful [std::stoull] reports in [*pos]. *)
Definition stoull_consumed (s : string) : nat :=
  let '(_, body) := split_sign (skip_space s) in
  (String.length s - String.length body + (read_digits 0 body).2)%nat.

(** What a C function sees of [c_str()]: the text up to the first zero. *)
Fixpoint c_text (s : string) : string :=
  match s with
  | EmptyString => ""
  | String c s => if Ascii.eqb c zero then "" else String c (c_text s)
  end.

Definition no_zero (s : string) : bool := all_chars (λ c, negb (Ascii.eqb c zero)) s.

(** ** Lemmas on strings *)

Lemma string_app_nil s : "" +:+ s = s.
Proof. reflexivity. Qed.
Lemma string_app_cons c s t : String c s +:+ t = String c (s +:+ t).
Proof. reflexivity. Qed.
Lemma string_app_nil_r s : s +:+ "" = s.
Proof. induction s as [|c s IH]; [done|]. by rewrite string_app_cons, IH. Qed.

Lemma string_length_app s t : String.length (s +:+ t) = (String.length s + String.length t)%nat.
Proof. induction s as [|c s IH]; [done|]. rewrite string_app_cons. cbn. by rewrite IH. Qed.

Lemma string_app_assoc s t u : s +:+ (t +:+ u) = (s +:+ t) +:+ u.
Proof. induction s as [|c s IH]; [done|]. rewrite !string_app_cons. by rewrite IH. Qed.

Lemma substring_0_app s t : String.substring 0 (String.length s) (s +:+ t) = s.
Proof.
  induction s as [|c s IH]; [by destruct t|]. rewrite string_app_cons. cbn. by rewrite IH.
Qed.

(** [substr] finds the middle of a concatenation, [substr_from] its end. *)
Lemma substr_app s t u : substr (String.length s) (String.length t) (s +:+ t +:+ u) = t.
Proof.
  unfold substr. induction s as [|c s IH]; [exact (substring_0_app t u)|].
  rewrite string_app_cons. exact IH.
Qed.

Lemma substr_from_app s t : substr_from (String.length s) (s +:+ t) = t.
Proof.
  unfold substr_from. rewrite string_length_app.
  replace (_ - _)%nat with (String.length t) by lia.
  pose proof (substr_app s t "") as H. by rewrite string_app_nil_r in H.
Qed.

Lemma all_chars_app p s t : all_chars p (s +:+ t) = all_chars p s && all_chars p t.
Proof.
  induction s as [|c s IH]; [done|]. rewrite string_app_cons. cbn. by rewrite IH, andb_assoc.
Qed.

Lemma all_chars_impl (p q : ascii → bool) s :
  (∀ c, p c = true → q c = true) → all_chars p s = true → all_chars q s = true.
Proof.
  intros Hpq. induction s as [|c s IH]; [done|]. cbn. rewrite !andb_true_iff. naive_solver.
Qed.

Lemma c_text_app s t : no_zero s = true → c_text (s +:+ t) = s +:+ c_text t.
Proof.
  unfold no_zero. induction s as [|c s IH]; [done|]. cbn [all_chars]. intros [Hc Hs]%andb_prop.
  apply negb_true_iff in Hc. rewrite string_app_cons. cbn [c_text]. by rewrite Hc, IH.
Qed.

Lemma find_first_None p s : find_first p s = None ↔ all_chars (λ c, negb (p c)) s = true.
Proof.
  induction s as [|c s IH]; [done|]. cbn. destruct (p c); [done|].
  cbn. rewrite fmap_None. exact IH.
Qed.

Lemma find_first_app p s t :
  all_chars (λ c, negb (p c)) s = true →
  find_first p (s +:+ t) = (λ n, String.length s + n)%nat <$> find_first p t.
Proof.
  induction s as [|c s IH].
  - intros _. rewrite string_app_nil. by destruct (find_first p t).
  - rewrite string_app_cons. cbn. destruct (p c); [done|]. cbn. intros Hs.
    rewrite (IH Hs). by destruct (find_first p t).
Qed.

(** A search that succeeds splits the text around what it found. *)
Lemma find_first_split p s n :
  find_first p s = Some n →
  ∃ u c v, s = u +:+ String c v ∧ n = String.length u ∧
           all_chars (λ c, negb (p c)) u = true ∧ p c = true.
Proof.
  revert n. induction s as [|c s IH]; intros n; [done|]. cbn. destruct (p c) eqn:Hc.
  - intros [= <-]. by exists "", c, s.
  - intros (m & Hm & ->)%fmap_Some. destruct (IH _ Hm) as (u & c' & v & -> & -> & Hu & Hc').
    exists (String c u), c', v. cbn. by rewrite Hc.
Qed.

Lemma find_last_app_None p s t :
  all_chars (λ c, negb (p c)) t = true → find_last p (s +:+ t) = find_last p s.
Proof.
  intros Ht. induction s as [|c s IH].
  - rewrite string_app_nil. induction t as [|c t IH]; [done|]. cbn in Ht |- *.
    destruct (p c); [done|]. by rewrite (IH Ht).
  - rewrite string_app_cons. cbn. by rewrite IH.
Qed.

Lemma find_last_snoc p s c :
  p c = true → find_last p (s +:+ String c "") = Some (String.length s).
Proof.
  intros Hc. induction s as [|c' s IH]; [by rewrite string_app_nil; simpl; rewrite Hc|].
  rewrite string_app_cons. cbn. by rewrite IH.
Qed.

Lemma find_last_split p s n :
  find_last p s = Some n →
  ∃ u c v, s = u +:+ String c v ∧ n = String.length u ∧ p c = true ∧
           all_chars (λ c, negb (p c)) v = true.
Proof.
  revert n. induction s as [|c s IH]; intros n; [done|]. cbn.
  destruct (find_last p s) as [m|] eqn:Hm.
  - intros [= <-]. destruct (IH _ eq_refl) as (u & c' & v & -> & -> & Hc & Hv).
    by exists (String c u), c', v.
  - destruct (p c) eqn:Hc; [|done]. intros [= <-]. exists "", c, s. split_and!; [done..|].
    clear IH Hc. induction s as [|c' s IH]; [done|]. cbn in Hm |- *.
    destruct (find_last p s); [done|]. destruct (p c'); [done|]. by apply IH.
Qed.

Lemma find_last_None p s : find_last p s = None → all_chars (λ c, negb (p c)) s = true.
Proof.
  induction s as [|c s IH]; [done|]. cbn. destruct (find_last p s); [done|].
  destruct (p c); [done|]. exact IH.
Qed.

Lemma find_char_at c s t u :
  all_chars (λ d, negb (Ascii.eqb c d)) t = true →
  find_char c (String.length s) (s +:+ t +:+ String c u) = Some (String.length s + String.length t)%nat.
Proof.
  intros Ht. unfold find_char. rewrite substr_from_app, find_first_app by done.
  cbn. rewrite Ascii.eqb_refl. cbn. f_equal. lia.
Qed.

Lemma find_char_None c s t :
  all_chars (λ d, negb (Ascii.eqb c d)) t = true → find_char c (String.length s) (s +:+ t) = None.
Proof.
  intros Ht. unfold find_char. rewrite substr_from_app.
  by apply find_first_None in Ht as ->.
Qed.

(** The same at the start of the text. *)
Lemma find_char_at_0 c t u :
  all_chars (λ d, negb (Ascii.eqb c d)) t = true →
  find_char c 0 (t +:+ String c u) = Some (String.length t).
Proof. exact (find_char_at c "" t u). Qed.

Lemma find_char_None_0 c t :
  all_chars (λ d, negb (Ascii.eqb c d)) t = true → find_char c 0 t = None.
Proof. exact (find_char_None c "" t). Qed.

Lemma substr_app_0 t u : substr 0 (String.length t) (t +:+ u) = t.
Proof. exact (substr_app "" t u). Qed.

(** ** Lemmas on numbers in text *)

Definition starts_with_digit (s : string) : bool :=
  match s with
  | String c _ => match digit_value c with Some _ => true | None => false end
  | EmptyString => false
  end.

Lemma stoull_range s v : stoull s = Ok v → inu 64 v.
Proof.
  unfold stoull. destruct (split_sign (skip_space s)) as [neg b].
  destruct (read_digits 0 b) as [v' n].
  destruct (n =? 0)%nat; [done|]. destruct (2 ^ 64 <=? v'); [done|].
  intros [= <-]. by apply inu_wrapu.
Qed.

Lemma read_digits_app s tail acc v n :
  starts_with_digit tail = false → read_digits acc s = (v, n) →
  read_digits acc (s +:+ tail) = (v, n).
Proof.
  intros Ht. revert acc v n. induction s as [|c s IH]; intros acc v n Hs.
  - rewrite string_app_nil. injection Hs as <- <-. destruct tail as [|c t]; [done|].
    cbn in Ht |- *. by destruct (digit_value c).
  - rewrite string_app_cons. cbn in Hs |- *. destruct (digit_value c) as [d|]; [|done].
    destruct (read_digits (10 * acc + d) s) as [v' n'] eqn:E.
    injection Hs as <- <-. by rewrite (IH _ _ _ E).
Qed.

Lemma skip_space_app s tail :
  skip_space s ≠ "" → skip_space (s +:+ tail) = skip_space s +:+ tail.
Proof.
  induction s as [|c s IH]; [done|]. rewrite string_app_cons. cbn.
  by destruct (isspace c).
Qed.

Lemma split_sign_app s tail :
  s ≠ "" → split_sign (s +:+ tail) = ((split_sign s).1, (split_sign s).2 +:+ tail).
Proof.
  destruct s as [|c s]; [done|]. intros _. rewrite string_app_cons. cbn.
  by destruct c as [[] [] [] [] [] [] [] []].
Qed.

Lemma stoull_app s tail v :
  starts_with_digit tail = false → stoull s = Ok v → stoull (s +:+ tail) = Ok v.
Proof.
  unfold stoull. intros Ht Hs.
  rewrite skip_space_app by (intros E; rewrite E in Hs; done).
  rewrite split_sign_app by (intros E; rewrite E in Hs; done).
  destruct (split_sign (skip_space s)) as [neg b]. cbn [fst snd].
  destruct (read_digits 0 b) as [v' n] eqn:Hd. by rewrite (read_digits_app _ _ _ _ _ Ht Hd).
Qed.

(** ** Decimal printing

    [std::to_string] and the like print a number as [pretty] does; reading it
    back gives the number. *)

Definition is_digit (c : ascii) : bool :=
  match digit_value c with Some _ => true | None => false end.

Lemma pretty_N_char_digit (x : N) :
  (x < 10)%N → digit_value (pretty_N_char x) = Some (Z.of_N x).
Proof.
  intros Hx.
  assert (x = 0 ∨ x = 1 ∨ x = 2 ∨ x = 3 ∨ x = 4 ∨ x = 5 ∨ x = 6 ∨ x = 7 ∨ x = 8 ∨ x = 9)%N as Hc
    by lia.
  by repeat destruct Hc as [->|Hc]; [..|rewrite Hc].
Qed.

Lemma read_digits_snoc ds c d acc v :
  read_digits acc ds = (v, String.length ds) → digit_value c = Some d →
  read_digits acc (ds +:+ String c "") = (10 * v + d, S (String.length ds)).
Proof.
  intros Hds Hc. revert acc v Hds. induction ds as [|c' ds IH]; intros acc v Hds.
  - injection Hds as <-. rewrite string_app_nil. cbn [read_digits]. by rewrite Hc.
  - rewrite string_app_cons. cbn [read_digits String.length] in *.
    destruct (digit_value c') as [d'|]; [|done].
    destruct (read_digits (10 * acc + d') ds) as [v' n'] eqn:E.
    injection Hds as <- ->. by rewrite (IH _ _ E).
Qed.

(** A printed number is a run of digits with its value. *)
Lemma pretty_N_digits (x : N) :
  (0 < x)%N → ∃ c ds, digit_value c ≠ None ∧ all_chars is_digit ds = true ∧
    read_digits 0 (String c ds) = (Z.of_N x, String.length (String c ds)) ∧
    ∀ s, pretty_N_go x s = String c ds +:+ s.
Proof.
  induction (N.lt_wf_0 x) as [x _ IH]. intros Hx.
  destruct (decide (x / 10 = 0)%N) as [H0|H0].
  - apply N.div_small_iff in H0; [|done].
    pose proof (pretty_N_char_digit x H0) as Hd. exists (pretty_N_char x), "".
    split_and!; [by rewrite Hd|done|cbn [read_digits]; by rewrite Hd|].
    intros s. rewrite pretty_N_go_step by done. rewrite N.mod_small, N.div_small by done.
    by rewrite pretty_N_go_0.
  - destruct (IH (x / 10)%N) as (c & ds & Hc & Hds & Hr & Hgo);
      [by apply N.div_lt | by apply N.neq_0_lt_0 |].
    assert (Hm : (x mod 10 < 10)%N) by (by apply N.mod_lt).
    pose proof (pretty_N_char_digit _ Hm) as Hd.
    exists c, (ds +:+ String (pretty_N_char (x mod 10)) "").
    split_and!; [done| | |].
    + rewrite all_chars_app, Hds. cbn [all_chars andb]. unfold is_digit. by rewrite Hd.
    + rewrite <- string_app_cons. rewrite (read_digits_snoc _ _ _ _ _ Hr Hd).
      rewrite string_length_app. f_equal; [|cbn; lia].
      pose proof (N.div_mod' x 10). lia.
    + intros s. rewrite pretty_N_go_step by done. rewrite Hgo.
      by rewrite <- string_app_cons, <- string_app_assoc.
Qed.

Lemma pretty_digits (z : Z) :
  0 <= z → ∃ c ds, digit_value c ≠ None ∧ all_chars is_digit ds = true ∧
    read_digits 0 (String c ds) = (z, String.length (String c ds)) ∧ pretty z = String c ds.
Proof.
  intros Hz. destruct (decide (z = 0)) as [->|Hn].
  { by exists "0"%char, "". }
  destruct (pretty_N_digits (Z.to_N z)) as (c & ds & Hc & Hds & Hr & Hgo); [lia|].
  exists c, ds. split_and!; [done|done|by rewrite Hr, Z2N.id|].
  destruct z as [|p|p]; [done| |lia].
  change (pretty (Z.pos p)) with (pretty_N_go (N.pos p) "").
  cbn [Z.to_N] in Hgo. by rewrite Hgo, string_app_nil_r.
Qed.

Lemma digit_not_space c : digit_value c ≠ None → isspace c = false.
Proof.
  unfold digit_value, isspace. destruct (_ && _)%bool eqn:E; [|done]. intros _.
  apply andb_true_iff in E as [E1 E2]. apply orb_false_iff. split; [|apply andb_false_iff]; lia.
Qed.

Lemma digit_not_sign c s : digit_value c ≠ None → split_sign (String c s) = (false, String c s).
Proof. by destruct c as [[] [] [] [] [] [] [] []]. Qed.

Lemma stoull_pretty z :
  inu 64 z → stoull (pretty z) = Ok z ∧ stoull_consumed (pretty z) = String.length (pretty z).
Proof.
  intros Hz. destruct (pretty_digits z) as (c & ds & Hc & _ & Hr & ->); [apply Hz|].
  unfold stoull, stoull_consumed. cbn [skip_space].
  rewrite (digit_not_space c Hc), (digit_not_sign c _ Hc), Hr. cbn [fst snd].
  rewrite (proj2 (Z.leb_gt _ _)) by apply Hz. rewrite wrapu_id by done. cbn [Nat.eqb].
  split; [done|lia].
Qed.

(** Every character of a printed number is a digit, and there is one. *)
Lemma pretty_all_digits z : 0 <= z → all_chars is_digit (pretty z) = true ∧ pretty z ≠ "".
Proof.
  intros Hz. destruct (pretty_digits z Hz) as (c & ds & Hc & Hds & _ & ->).
  cbn. unfold is_digit at 1. destruct (digit_value c); [|done]. by rewrite Hds.
Qed.

(** Digits are read to their end. *)
Lemma digits_no_zero s : all_chars is_digit s = true → no_zero s = true.
Proof. apply all_chars_impl. by intros [[] [] [] [] [] [] [] []]. Qed.

Lemma read_digits_all acc s : all_chars is_digit s = true → (read_digits acc s).2 = String.length s.
Proof.
  revert acc. induction s as [|c s IH]; intros acc; cbn; [done|]. unfold is_digit at 1.
  destruct (digit_value c) as [d|]; [|done]. cbn. intros Hs. specialize (IH (10 * acc + d) Hs).
  destruct (read_digits (10 * acc + d) s). cbn in *. congruence.
Qed.

(** ** Signed conversions

    [std::stoi] and [std::stoll]: like [stoull], within the range of a signed
    type of [w] bits. *)

Definition sto_signed (w : Z) (name s : string) : result Z :=
  let '(neg, body) := split_sign (skip_space s) in
  let '(v, n) := read_digits 0 body in
  let z := if neg : bool then - v else v in
  if (n =? 0)%nat then Err (invalid_argument name)
  else if decide (ins w z) then Ok z else Err (out_of_range name).

Definition stoi (s : string) : result Z := sto_signed 32 "stoi" s.
Definition stoll (s : string) : result Z := sto_signed 64 "stoll" s.

Lemma sto_signed_range w name s z : sto_signed w name s = Ok z → ins w z.
Proof.
  unfold sto_signed. destruct (split_sign _) as [neg body], (read_digits 0 body) as [v n].
  destruct (n =? 0)%nat; [done|]. case_decide as Hd; [|done]. by intros [= <-].
Qed.

Lemma sto_signed_pretty w name z : 0 <= z → ins w z → sto_signed w name (pretty z) = Ok z.
Proof.
  intros Hz Hw. destruct (pretty_digits z Hz) as (c & ds & Hc & _ & Hr & ->).
  unfold sto_signed. cbn [skip_space].
  rewrite (digit_not_space c Hc), (digit_not_sign c _ Hc), Hr. cbn [Nat.eqb].
  by rewrite decide_True.
Qed.
