(* ===== verification/MyLEHelper.v ===== *)
(** * MyLEHelper: little-endian buffer access

    [src/src/util/my_tools/MyLEHelper.cpp].  Writers append to a vector,
    readers take the buffer and the offset they advance.  Each is proved equal
    to the reference codec of [Bytes]. *)

From S2P Require Import Prelude.
From S2P Require Import Bytes.

Local Open Scope Z_scope.

(** ** Definitions *)

Definition ValidateBitLength (bit_len : Z) : outcome unit :=
  if (bit_len <=? 0) || (64 <? bit_len)
  then Throw (invalid_argument "bit_len must be in range [1, 64]")
  else Ret tt.

(** [offset + bytes_needed] is a [size_t] addition. *)
Definition EnsureReadable (buf : list Z) (offset bytes_needed : Z) : outcome unit :=
  if Z.of_nat (length buf) <? wrapu 64 (offset + bytes_needed)
  then Throw (out_of_range "buffer does not have enough bytes")
  else Ret tt.

Definition write_uint8 (buf : list Z) (value : Z) : list Z := buf ++ [value].

Definition write_uint16 (buf : list Z) (value : Z) : list Z :=
  let buf := buf ++ [wrapu 8 (Z.land value 255)] in
  buf ++ [wrapu 8 (Z.land (Z.shiftr value 8) 255)].

Definition write_int16 (buf : list Z) (value : Z) : list Z :=
  write_uint16 buf (wrapu 16 value).

Definition write_uint32 (buf : list Z) (value : Z) : list Z :=
  let buf := buf ++ [wrapu 8 (Z.land value 255)] in
  let buf := buf ++ [wrapu 8 (Z.land (Z.shiftr value 8) 255)] in
  let buf := buf ++ [wrapu 8 (Z.land (Z.shiftr value 16) 255)] in
  buf ++ [wrapu 8 (Z.land (Z.shiftr value 24) 255)].

Definition write_uint64 (buf : list Z) (value : Z) : list Z :=
  let buf := buf ++ [wrapu 8 (Z.land value 255)] in
  let buf := buf ++ [wrapu 8 (Z.land (Z.shiftr value 8) 255)] in
  let buf := buf ++ [wrapu 8 (Z.land (Z.shiftr value 16) 255)] in
  let buf := buf ++ [wrapu 8 (Z.land (Z.shiftr value 24) 255)] in
  let buf := buf ++ [wrapu 8 (Z.land (Z.shiftr value 32) 255)] in
  let buf := buf ++ [wrapu 8 (Z.land (Z.shiftr value 40) 255)] in
  let buf := buf ++ [wrapu 8 (Z.land (Z.shiftr value 48) 255)] in
  buf ++ [wrapu 8 (Z.land (Z.shiftr value 56) 255)].

Definition write_bits (buf : list Z) (value bit_len : Z) : outcome (list Z) :=
  _ ← ValidateBitLength bit_len;
  let byte_len := Z.quot (bit_len + 7) 8 in
  let buf := for_range (Z.to_nat byte_len)
    (λ i buf, buf ++ [wrapu 8 (Z.land (Z.shiftr value (Z.of_nat i * 8)) 255)]) buf in
  let extra_bits := byte_len * 8 - bit_len in
  let back := (length buf - 1)%nat in
  Ret (if 0 <? extra_bits
       then <[back := Z.land (buf !!! back) (wrapu 8 (Z.shiftr 255 extra_bits))]> buf
       else buf).

Definition read_uint8 : reader Z := λ buf offset,
  _ ← EnsureReadable buf offset 1;
  value ← vec_index buf offset;
  Ret (value, wrapu 64 (offset + 1)).

Definition read_uint16 : reader Z := λ buf offset,
  _ ← EnsureReadable buf offset 2;
  b0 ← vec_index buf offset;
  b1 ← vec_index buf (wrapu 64 (offset + 1));
  let value := wrapu 16 (Z.lor (wrapu 16 b0) (wrapu 16 (Z.shiftl b1 8))) in
  Ret (value, wrapu 64 (offset + 2)).

Definition read_int16 : reader Z := λ buf offset,
  '(v, offset) ← read_uint16 buf offset;
  Ret (wraps 16 v, offset).

Definition read_uint32 : reader Z := λ buf offset,
  _ ← EnsureReadable buf offset 4;
  b0 ← vec_index buf offset;
  b1 ← vec_index buf (wrapu 64 (offset + 1));
  b2 ← vec_index buf (wrapu 64 (offset + 2));
  b3 ← vec_index buf (wrapu 64 (offset + 3));
  let value := Z.lor (Z.lor (Z.lor (wrapu 32 b0)
                 (wrapu 32 (Z.shiftl (wrapu 32 b1) 8)))
                 (wrapu 32 (Z.shiftl (wrapu 32 b2) 16)))
                 (wrapu 32 (Z.shiftl (wrapu 32 b3) 24)) in
  Ret (value, wrapu 64 (offset + 4)).

Definition read_uint64 : reader Z := λ buf offset,
  _ ← EnsureReadable buf offset 8;
  b0 ← vec_index buf offset;
  b1 ← vec_index buf (wrapu 64 (offset + 1));
  b2 ← vec_index buf (wrapu 64 (offset + 2));
  b3 ← vec_index buf (wrapu 64 (offset + 3));
  b4 ← vec_index buf (wrapu 64 (offset + 4));
  b5 ← vec_index buf (wrapu 64 (offset + 5));
  b6 ← vec_index buf (wrapu 64 (offset + 6));
  b7 ← vec_index buf (wrapu 64 (offset + 7));
  let value := Z.lor (Z.lor (Z.lor (Z.lor (Z.lor (Z.lor (Z.lor (wrapu 64 b0)
                 (wrapu 64 (Z.shiftl (wrapu 64 b1) 8)))
                 (wrapu 64 (Z.shiftl (wrapu 64 b2) 16)))
                 (wrapu 64 (Z.shiftl (wrapu 64 b3) 24)))
                 (wrapu 64 (Z.shiftl (wrapu 64 b4) 32)))
                 (wrapu 64 (Z.shiftl (wrapu 64 b5) 40)))
                 (wrapu 64 (Z.shiftl (wrapu 64 b6) 48)))
                 (wrapu 64 (Z.shiftl (wrapu 64 b7) 56)) in
  Ret (value, wrapu 64 (offset + 8)).

(** [value |= (uint64_t)buf[offset + i] << (8 * i)] over the bytes of the
    field, then the mask to [bit_len] bits. *)
Definition read_bits (buf : list Z) (offset bit_len : Z) : outcome Z :=
  _ ← ValidateBitLength bit_len;
  let byte_len := Z.quot (bit_len + 7) 8 in
  _ ← EnsureReadable buf offset byte_len;
  value ← for_range (Z.to_nat byte_len) (λ i acc,
      value ← acc;
      b ← vec_index buf (wrapu 64 (offset + Z.of_nat i));
      Ret (Z.lor value (wrapu 64 (Z.shiftl (wrapu 64 b) (8 * Z.of_nat i))))) (Ret 0);
  Ret (if bit_len <? 64
       then Z.land value (wrapu 64 (wrapu 64 (Z.shiftl 1 bit_len) - 1))
       else value).

(** ** Writers append the reference encoding *)

Lemma write_uint8_app buf v : byte v → write_uint8 buf v = buf ++ le_encode 1 v.
Proof.
  intros Hv. unfold write_uint8. cbn [le_encode]. rewrite Z.mod_small; [done|].
  by unfold inu in Hv.
Qed.

Ltac writes_tac :=
  rewrite <- ?app_assoc; f_equal; cbn [le_encode app];
  rewrite ?shiftr_byte, ?wrapu_8_land by lia; rewrite ?Z.div_div by lia; done.

Lemma write_uint16_app buf v : write_uint16 buf v = buf ++ le_encode 2 v.
Proof. unfold write_uint16. writes_tac. Qed.

Lemma write_int16_app buf v : write_int16 buf v = buf ++ le_encode 2 (wrapu 16 v).
Proof. apply write_uint16_app. Qed.

Lemma write_uint32_app buf v : write_uint32 buf v = buf ++ le_encode 4 v.
Proof. unfold write_uint32. writes_tac. Qed.

Lemma write_uint64_app buf v : write_uint64 buf v = buf ++ le_encode 8 v.
Proof. unfold write_uint64. writes_tac. Qed.

(** ** Readers decode at the cursor *)

Lemma EnsureReadable_ok buf off rest n :
  cursor buf off rest → 0 <= n <= Z.of_nat (length rest) → EnsureReadable buf off n = Ret tt.
Proof.
  intros Hc Hn. pose proof (cursor_bounds _ _ _ Hc). unfold EnsureReadable.
  rewrite wrapu_id by (unfold inu; lia). by destruct (_ <? _) eqn:E; [lia|].
Qed.

Lemma EnsureReadable_short buf off rest n :
  cursor buf off rest → Z.of_nat (length rest) < n < 2 ^ 63 →
  EnsureReadable buf off n = Throw (out_of_range "buffer does not have enough bytes").
Proof.
  intros Hc Hn. pose proof (cursor_bounds _ _ _ Hc). unfold EnsureReadable.
  rewrite wrapu_id by (unfold inu; lia). by destruct (_ <? _) eqn:E; [|lia].
Qed.

(** Reads the bytes at a cursor [Hc], then reassembles them. *)
Ltac reads_tac Hc :=
  pose proof (cursor_bounds _ _ _ Hc) as (?&?&?); rewrite ?length_app, ?length_cons in *;
  rewrite (EnsureReadable_ok _ _ _ _ Hc) by (rewrite ?length_app, ?length_cons; lia);
  cbn [mbind outcome_bind];
  rewrite (cursor_index0 _ _ _ _ Hc); cbn [mbind outcome_bind];
  repeat (erewrite (cursor_index_wrap _ _ _ _ _ Hc); [|reflexivity|lia]; cbn [mbind outcome_bind]).

Lemma read_uint8_at buf off b rest :
  cursor buf off (b :: rest) → read_uint8 buf off = Ret (b, off + 1).
Proof.
  intros Hc. unfold read_uint8. reads_tac Hc. by rewrite wrapu_id by (unfold inu; lia).
Qed.

(** Rewrites the shift-and-or of bytes as [le_decode], innermost first, and
    the surrounding conversions as identities. *)
Ltac assemble_step l b k :=
  rewrite (lor_le_snoc l b k) by (bytes_tac || done || (cbn [length]; lia)); cbn [app].

Lemma wrapu_le_decode w l :
  bytes l → 8 * Z.of_nat (length l) <= w → wrapu w (le_decode l) = le_decode l.
Proof.
  intros Hl Hw. apply wrapu_id. pose proof (le_decode_range l Hl) as Hr.
  change 256 with (2 ^ 8) in Hr. rewrite <- Z.pow_mul_r in Hr by lia.
  assert (2 ^ (8 * Z.of_nat (length l)) <= 2 ^ w) by (apply Z.pow_le_mono_r; lia).
  unfold inu. lia.
Qed.

Lemma read_uint16_at buf off b0 b1 rest :
  cursor buf off ([b0; b1] ++ rest) → read_uint16 buf off = Ret (le_decode [b0; b1], off + 2).
Proof.
  intros Hc. pose proof (cursor_bytes _ _ _ Hc) as Hb. cbn [app] in *.
  unfold read_uint16. reads_tac Hc. rewrite !Forall_cons in Hb. destruct_and!.
  replace (Z.shiftl b1 8) with (Z.shiftl (wrapu 16 b1) 8) by (by rewrite wrapu_byte).
  rewrite (wrapu_shiftl_byte 16 8 b1), (wrapu_byte 16 b0), <- (le_decode_1 b0) at 1 by (done || lia). assemble_step [b0] b1 8.
  rewrite wrapu_le_decode by (bytes_tac || done).
  by rewrite wrapu_id by (unfold inu; lia).
Qed.

Lemma read_uint32_at buf off b0 b1 b2 b3 rest :
  cursor buf off ([b0; b1; b2; b3] ++ rest) →
  read_uint32 buf off = Ret (le_decode [b0; b1; b2; b3], off + 4).
Proof.
  intros Hc. pose proof (cursor_bytes _ _ _ Hc) as Hb. cbn [app] in *.
  unfold read_uint32. reads_tac Hc. rewrite !Forall_cons in Hb. destruct_and!.
  rewrite !wrapu_shiftl_byte, (wrapu_byte _ b0), <- (le_decode_1 b0) at 1 by (done || lia).
  assemble_step [b0] b1 8. assemble_step [b0; b1] b2 16. assemble_step [b0; b1; b2] b3 24.
  by rewrite wrapu_id by (unfold inu; lia).
Qed.

Lemma read_uint64_at buf off b0 b1 b2 b3 b4 b5 b6 b7 rest :
  cursor buf off ([b0; b1; b2; b3; b4; b5; b6; b7] ++ rest) →
  read_uint64 buf off = Ret (le_decode [b0; b1; b2; b3; b4; b5; b6; b7], off + 8).
Proof.
  intros Hc. pose proof (cursor_bytes _ _ _ Hc) as Hb. cbn [app] in *.
  unfold read_uint64. reads_tac Hc. rewrite !Forall_cons in Hb. destruct_and!.
  rewrite !wrapu_shiftl_byte, (wrapu_byte _ b0), <- (le_decode_1 b0) at 1 by (done || lia).
  assemble_step [b0] b1 8. assemble_step [b0; b1] b2 16. assemble_step [b0; b1; b2] b3 24.
  assemble_step [b0; b1; b2; b3] b4 32. assemble_step [b0; b1; b2; b3; b4] b5 40.
  assemble_step [b0; b1; b2; b3; b4; b5] b6 48. assemble_step [b0; b1; b2; b3; b4; b5; b6] b7 56.
  by rewrite wrapu_id by (unfold inu; lia).
Qed.

(** ** Bind rules: a read at a cursor over an encoded value *)

Section bind_rules.
Context {A : Type} (k : Z → reader A) (buf : list Z) (off v : Z) (rest : list Z).

Lemma bind_read_uint8 :
  cursor buf off (le_encode 1 v ++ rest) → byte v →
  (read_uint8 ≫= k) buf off = k v buf (off + 1).
Proof.
  intros Hc Hv. cbn [mbind reader_bind]. unfold mbind, reader_bind.
  rewrite (read_uint8_at _ _ (v mod 256) rest) by exact Hc.
  by rewrite Z.mod_small by (unfold inu in Hv; lia).
Qed.

Lemma bind_read_uint16 :
  cursor buf off (le_encode 2 v ++ rest) → inu 16 v →
  (read_uint16 ≫= k) buf off = k v buf (off + 2).
Proof.
  intros Hc Hv. unfold mbind, reader_bind. erewrite read_uint16_at by exact Hc.
  change [_; _] with (le_encode 2 v). by rewrite le_decode_encode by exact Hv.
Qed.

Lemma bind_read_int16 :
  cursor buf off (le_encode 2 (wrapu 16 v) ++ rest) → ins 16 v →
  (read_int16 ≫= k) buf off = k v buf (off + 2).
Proof.
  intros Hc Hv. unfold mbind at 1, reader_bind at 1, read_int16.
  erewrite read_uint16_at by exact Hc. cbn [mbind outcome_bind].
  change [_; _] with (le_encode 2 (wrapu 16 v)).
  by rewrite le_decode_encode, wraps_wrapu, wraps_id by (done || by apply inu_wrapu).
Qed.

Lemma bind_read_uint32 :
  cursor buf off (le_encode 4 v ++ rest) → inu 32 v →
  (read_uint32 ≫= k) buf off = k v buf (off + 4).
Proof.
  intros Hc Hv. unfold mbind, reader_bind. erewrite read_uint32_at by exact Hc.
  change [_; _; _; _] with (le_encode 4 v). by rewrite le_decode_encode by exact Hv.
Qed.

Lemma bind_read_uint64 :
  cursor buf off (le_encode 8 v ++ rest) → inu 64 v →
  (read_uint64 ≫= k) buf off = k v buf (off + 8).
Proof.
  intros Hc Hv. unfold mbind, reader_bind. erewrite read_uint64_at by exact Hc.
  change [_; _; _; _; _; _; _; _] with (le_encode 8 v). by rewrite le_decode_encode by exact Hv.
Qed.
End bind_rules.

(** ** Bit fields *)

Lemma ValidateBitLength_ok n : 1 <= n <= 64 → ValidateBitLength n = Ret tt.
Proof. intros. unfold ValidateBitLength. by destruct (_ || _) eqn:E; [lia|]. Qed.

Lemma ValidateBitLength_bad n :
  n < 1 ∨ 64 < n →
  ValidateBitLength n = Throw (invalid_argument "bit_len must be in range [1, 64]").
Proof. intros. unfold ValidateBitLength. by destruct (_ || _) eqn:E; [|lia]. Qed.

Lemma write_loop m buf v :
  for_range m (λ i buf, buf ++ [wrapu 8 (Z.land (Z.shiftr v (Z.of_nat i * 8)) 255)]) buf
  = buf ++ le_encode m v.
Proof.
  induction m as [|m IH]; [by rewrite app_nil_r|].
  rewrite for_range_S, IH, le_encode_snoc, <- app_assoc, pow256_pow2, shiftr_byte by lia.
  by rewrite (Z.mul_comm 8).
Qed.

Lemma write_bits_app buf v n :
  1 <= n <= 64 →
  write_bits buf v n = Ret (buf ++ le_encode (Z.to_nat (Z.quot (n + 7) 8)) (v mod 2 ^ n)).
Proof.
  intros Hn. unfold write_bits. rewrite ValidateBitLength_ok by done.
  cbn [mbind outcome_bind]. destruct (byte_len_spec n Hn) as (m & Hm & -> & Hex & Hn8).
  rewrite Nat2Z.id, write_loop, !le_encode_snoc, le_encode_mod, top_byte_mod by lia.
  set (x := v / 256 ^ Z.of_nat m). rewrite app_assoc, length_app, Nat.add_sub.
  destruct (0 <? _) eqn:E.
  - rewrite list_lookup_total_middle by done. rewrite land_mask_byte by lia.
    rewrite insert_app_r_alt, Nat.sub_diag by done. cbn. rewrite <- app_assoc. do 4 f_equal.
    change 256 with (2 ^ 8). rewrite Z.mod_mod_divide; [do 2 f_equal; lia|].
    exists (2 ^ (Z.of_nat (S m) * 8 - n)). rewrite <- Z.pow_add_r by lia. f_equal; lia.
  - rewrite <- app_assoc. do 4 f_equal. change 256 with (2 ^ 8). do 2 f_equal. lia.
Qed.

Lemma read_loop buf off l rest :
  cursor buf off (l ++ rest) → (length l <= 8)%nat →
  for_range (length l) (λ i acc,
      value ← acc;
      b ← vec_index buf (wrapu 64 (off + Z.of_nat i));
      Ret (Z.lor value (wrapu 64 (Z.shiftl (wrapu 64 b) (8 * Z.of_nat i))))) (Ret 0)
  = Ret (le_decode l).
Proof.
  intros Hc H8. rewrite <- (firstn_all l) at 2.
  apply (for_range_invariant (λ i acc, acc = Ret (le_decode (take i l)))); [done|].
  intros i acc Hi ->. cbn [mbind outcome_bind].
  destruct (lookup_lt_is_Some_2 l i Hi) as [b Hb].
  pose proof (cursor_bytes _ _ _ Hc) as [Hl _]%Forall_app.
  assert (byte b) by (by eapply Forall_lookup_1 in Hl).
  erewrite cursor_index_wrap; [|done| |lia].
  2:{ rewrite Nat2Z.id, lookup_app_l by done. done. }
  cbn [mbind outcome_bind]. rewrite wrapu_shiftl_byte by (done || lia).
  rewrite lor_le_snoc; [by erewrite take_S_r | by apply Forall_take | done |].
  rewrite length_take. lia.
Qed.

Lemma read_bits_at buf off v rest n :
  1 <= n <= 64 → 0 <= v < 2 ^ n →
  cursor buf off (le_encode (Z.to_nat (Z.quot (n + 7) 8)) v ++ rest) →
  read_bits buf off n = Ret v.
Proof.
  intros Hn Hv Hc. unfold read_bits. rewrite ValidateBitLength_ok by done.
  cbn [mbind outcome_bind]. destruct (byte_len_spec n Hn) as (m & Hm & HS & Hex & Hn8).
  rewrite HS in *. rewrite Nat2Z.id in *.
  rewrite (EnsureReadable_ok _ _ _ _ Hc) by (rewrite length_app, length_le_encode; lia).
  cbn [mbind outcome_bind].
  pose proof (read_loop buf off (le_encode (S m) v) rest Hc) as Hloop.
  rewrite length_le_encode in Hloop. rewrite Hloop by lia. cbn [mbind outcome_bind].
  rewrite le_decode_encode.
  2:{ rewrite pow256_pow2. assert (2 ^ n <= 2 ^ (8 * Z.of_nat (S m))) by (apply Z.pow_le_mono_r; lia). lia. }
  destruct (n <? 64) eqn:E; [|done].
  by rewrite mask_ones_64, Z.land_ones, Z.mod_small by lia.
Qed.

(** A bit field written by [write_bits] is read back by [read_bits] as the
    value truncated to its bit length, for every length in [1, 64]; any other
    length is rejected by both with [invalid_argument] and nothing is written. *)
Theorem le_bits_roundtrip buf v n tail :
  bytes buf → bytes tail → Z.of_nat (length buf) + 8 + Z.of_nat (length tail) < 2 ^ 63 →
  (1 <= n <= 64 →
     ∃ buf', write_bits buf v n = Ret buf' ∧
             read_bits (buf' ++ tail) (Z.of_nat (length buf)) n = Ret (v mod 2 ^ n)) ∧
  (n < 1 ∨ 64 < n →
     write_bits buf v n = Throw (invalid_argument "bit_len must be in range [1, 64]") ∧
     read_bits buf 0 n = Throw (invalid_argument "bit_len must be in range [1, 64]")).
Proof.
  intros Hb Ht Hlen. split; intros Hn.
  - exists (buf ++ le_encode (Z.to_nat (Z.quot (n + 7) 8)) (v mod 2 ^ n)).
    split; [by apply write_bits_app|].
    eapply (read_bits_at _ _ _ tail); [done|apply Z.mod_pos_bound, Z.pow_pos_nonneg; lia|].
    destruct (byte_len_spec n Hn) as (m & Hm & -> & _).
    exists buf. rewrite <- app_assoc, !length_app, length_le_encode.
    split_and!; [done|done|lia|]. apply Forall_app; auto using le_encode_bytes.
  - unfold write_bits, read_bits. by rewrite ValidateBitLength_bad.
Qed.

Lemma le_bits_roundtrip_witness :
  write_bits [1; 2] 0xABCDEF 13 = Ret [1; 2; 0xEF; 0x0D] ∧
  ∃ buf', write_bits [1; 2] 0xABCDEF 13 = Ret buf' ∧
          read_bits (buf' ++ [7]) 2 13 = Ret (0xABCDEF mod 2 ^ 13).
Proof.
  split; [reflexivity|].
  apply (le_bits_roundtrip [1; 2] 0xABCDEF 13 [7]); [bytes_tac|bytes_tac| |]; simpl; lia.
Defined.
