(* ===== verification/MyBEHelper.v ===== *)
(** * MyBEHelper: big-endian buffer access

    [src/src/util/my_tools/MyBEHelper.cpp].  The mirror image of [MyLEHelper]:
    the most significant byte first. *)

From S2P Require Import Prelude.
From S2P Require Import Bytes.

Local Open Scope Z_scope.

(** ** Definitions *)

Definition ValidateBitLength (bit_len : Z) : outcome unit :=
  if (bit_len <=? 0) || (64 <? bit_len)
  then Throw (invalid_argument "bit_len must be in range [1, 64]")
  else Ret tt.

Definition EnsureReadable (buf : list Z) (offset bytes_needed : Z) : outcome unit :=
  if Z.of_nat (length buf) <? wrapu 64 (offset + bytes_needed)
  then Throw (out_of_range "buffer does not have enough bytes")
  else Ret tt.

Definition write_uint8 (buf : list Z) (value : Z) : list Z := buf ++ [value].

Definition write_uint16 (buf : list Z) (value : Z) : list Z :=
  let buf := buf ++ [wrapu 8 (Z.land (Z.shiftr value 8) 255)] in
  buf ++ [wrapu 8 (Z.land value 255)].

(** [value] is an [int16_t]: its right shift is arithmetic. *)
Definition write_int16 (buf : list Z) (value : Z) : list Z :=
  let buf := buf ++ [wrapu 8 (Z.land (Z.shiftr value 8) 255)] in
  buf ++ [wrapu 8 (Z.land value 255)].

Definition write_uint32 (buf : list Z) (value : Z) : list Z :=
  let buf := buf ++ [wrapu 8 (Z.land (Z.shiftr value 24) 255)] in
  let buf := buf ++ [wrapu 8 (Z.land (Z.shiftr value 16) 255)] in
  let buf := buf ++ [wrapu 8 (Z.land (Z.shiftr value 8) 255)] in
  buf ++ [wrapu 8 (Z.land value 255)].

Definition write_uint64 (buf : list Z) (value : Z) : list Z :=
  let buf := buf ++ [wrapu 8 (Z.land (Z.shiftr value 56) 255)] in
  let buf := buf ++ [wrapu 8 (Z.land (Z.shiftr value 48) 255)] in
  let buf := buf ++ [wrapu 8 (Z.land (Z.shiftr value 40) 255)] in
  let buf := buf ++ [wrapu 8 (Z.land (Z.shiftr value 32) 255)] in
  let buf := buf ++ [wrapu 8 (Z.land (Z.shiftr value 24) 255)] in
  let buf := buf ++ [wrapu 8 (Z.land (Z.shiftr value 16) 255)] in
  let buf := buf ++ [wrapu 8 (Z.land (Z.shiftr value 8) 255)] in
  buf ++ [wrapu 8 (Z.land value 255)].

(** The loop counts [i] down from [byte_len - 1]. *)
Definition write_bits (buf : list Z) (value bit_len : Z) : outcome (list Z) :=
  _ ← ValidateBitLength bit_len;
  let byte_len := Z.quot (bit_len + 7) 8 in
  let start_index := length buf in
  let buf := for_range (Z.to_nat byte_len)
    (λ j buf, let i := byte_len - 1 - Z.of_nat j in
              buf ++ [wrapu 8 (Z.land (Z.shiftr value (i * 8)) 255)]) buf in
  let extra_bits := byte_len * 8 - bit_len in
  Ret (if 0 <? extra_bits
       then <[start_index := Z.land (buf !!! start_index) (wrapu 8 (Z.shiftr 255 extra_bits))]> buf
       else buf).

Definition read_uint8 : reader Z := λ buf offset,
  _ ← EnsureReadable buf offset 1;
  value ← vec_index buf offset;
  Ret (value, wrapu 64 (offset + 1)).

Definition read_uint16 : reader Z := λ buf offset,
  _ ← EnsureReadable buf offset 2;
  b0 ← vec_index buf offset;
  b1 ← vec_index buf (wrapu 64 (offset + 1));
  let value := wrapu 16 (Z.lor (Z.shiftl (wrapu 16 b0) 8) (wrapu 16 b1)) in
  Ret (value, wrapu 64 (offset + 2)).

Definition read_int16 : reader Z := λ buf offset,
  '(v, offset) ← read_uint16 buf offset;
  Ret (wraps 16 v, offset).

Definition read_uint32 : reader Z := λ buf offset,
  _ ← EnsureReadable buf offset 4;
  b0 ← vec_index buf offset;
  b1 ← vec_index buf (wrapu 64 (offset + 1));
  b2 ← vec_index buf (wrapu 64 (offset + 2));
  b3 ← vec_index buf (wrapu 64 (offset + 3));
  let value := Z.lor (Z.lor (Z.lor (wrapu 32 (Z.shiftl (wrapu 32 b0) 24))
                 (wrapu 32 (Z.shiftl (wrapu 32 b1) 16)))
                 (wrapu 32 (Z.shiftl (wrapu 32 b2) 8)))
                 (wrapu 32 b3) in
  Ret (value, wrapu 64 (offset + 4)).

Definition read_uint64 : reader Z := λ buf offset,
  _ ← EnsureReadable buf offset 8;
  b0 ← vec_index buf offset;
  b1 ← vec_index buf (wrapu 64 (offset + 1));
  b2 ← vec_index buf (wrapu 64 (offset + 2));
  b3 ← vec_index buf (wrapu 64 (offset + 3));
  b4 ← vec_index buf (wrapu 64 (offset + 4));
  b5 ← vec_index buf (wrapu 64 (offset + 5));
  b6 ← vec_index buf (wrapu 64 (offset + 6));
  b7 ← vec_index buf (wrapu 64 (offset + 7));
  let value := Z.lor (Z.lor (Z.lor (Z.lor (Z.lor (Z.lor (Z.lor (wrapu 64 (Z.shiftl (wrapu 64 b0) 56))
                 (wrapu 64 (Z.shiftl (wrapu 64 b1) 48)))
                 (wrapu 64 (Z.shiftl (wrapu 64 b2) 40)))
                 (wrapu 64 (Z.shiftl (wrapu 64 b3) 32)))
                 (wrapu 64 (Z.shiftl (wrapu 64 b4) 24)))
                 (wrapu 64 (Z.shiftl (wrapu 64 b5) 16)))
                 (wrapu 64 (Z.shiftl (wrapu 64 b6) 8)))
                 (wrapu 64 b7) in
  Ret (value, wrapu 64 (offset + 8)).

Definition read_bits (buf : list Z) (offset bit_len : Z) : outcome Z :=
  _ ← ValidateBitLength bit_len;
  let byte_len := Z.quot (bit_len + 7) 8 in
  _ ← EnsureReadable buf offset byte_len;
  value ← for_range (Z.to_nat byte_len) (λ i acc,
      value ← acc;
      b ← vec_index buf (wrapu 64 (offset + Z.of_nat i));
      Ret (Z.lor (wrapu 64 (Z.shiftl value 8)) b)) (Ret 0);
  Ret (if bit_len <? 64
       then Z.land value (wrapu 64 (wrapu 64 (Z.shiftl 1 bit_len) - 1))
       else value).

(** ** Writers append the reference encoding *)

Ltac be_writes_tac :=
  rewrite <- ?app_assoc; f_equal; rewrite !be_encode_S; unfold be_encode; cbn [le_encode app];
  rewrite ?shiftr_byte, ?wrapu_8_land by lia; rewrite ?Z.div_1_r;
  repeat (f_equal; try done).

Lemma be_write_uint16_app buf v : write_uint16 buf v = buf ++ be_encode 2 v.
Proof. unfold write_uint16. be_writes_tac. Qed.

Lemma be_write_int16_app buf v : write_int16 buf v = buf ++ be_encode 2 (wrapu 16 v).
Proof.
  unfold wrapu, be_encode. rewrite le_encode_mod by lia. fold (be_encode 2 v).
  apply be_write_uint16_app.
Qed.

Lemma be_write_uint32_app buf v : write_uint32 buf v = buf ++ be_encode 4 v.
Proof. unfold write_uint32. be_writes_tac. Qed.

Lemma be_write_uint64_app buf v : write_uint64 buf v = buf ++ be_encode 8 v.
Proof. unfold write_uint64. be_writes_tac. Qed.

(** ** Readers decode at the cursor *)

Lemma be_EnsureReadable_ok buf off rest n :
  cursor buf off rest → 0 <= n <= Z.of_nat (length rest) → EnsureReadable buf off n = Ret tt.
Proof.
  intros Hc Hn. pose proof (cursor_bounds _ _ _ Hc). unfold EnsureReadable.
  rewrite wrapu_id by (unfold inu; lia). by destruct (_ <? _) eqn:E; [lia|].
Qed.

Ltac be_reads_tac Hc :=
  pose proof (cursor_bounds _ _ _ Hc) as (?&?&?); rewrite ?length_app, ?length_cons in *;
  rewrite (be_EnsureReadable_ok _ _ _ _ Hc) by (rewrite ?length_app, ?length_cons; lia);
  cbn [mbind outcome_bind];
  rewrite (cursor_index0 _ _ _ _ Hc); cbn [mbind outcome_bind];
  repeat (erewrite (cursor_index_wrap _ _ _ _ _ Hc); [|reflexivity|lia]; cbn [mbind outcome_bind]).

Lemma be_read_uint8_at buf off b rest :
  cursor buf off (b :: rest) → read_uint8 buf off = Ret (b, off + 1).
Proof.
  intros Hc. unfold read_uint8. be_reads_tac Hc. by rewrite wrapu_id by (unfold inu; lia).
Qed.

(** Rewrites an or of shifted bytes as [le_decode], the least significant
    byte, which BE code names last, first. *)
Ltac be_assemble_step l b k :=
  rewrite (lor_le_snoc l b k) by (bytes_tac || done || (cbn [length]; lia)); cbn [app].

Lemma be_read_uint16_at buf off b0 b1 rest :
  cursor buf off ([b0; b1] ++ rest) → read_uint16 buf off = Ret (be_decode [b0; b1], off + 2).
Proof.
  intros Hc. pose proof (cursor_bytes _ _ _ Hc) as Hb. cbn [app] in *.
  unfold read_uint16. be_reads_tac Hc. rewrite !Forall_cons in Hb. destruct_and!.
  rewrite (wrapu_byte 16 b0), (wrapu_byte 16 b1), Z.lor_comm, <- (le_decode_1 b1) at 1 by (done || lia).
  be_assemble_step [b1] b0 8.
  assert (Hr : bytes [b1; b0]) by bytes_tac. apply le_decode_range in Hr.
  rewrite !wrapu_id; [done| unfold inu; lia | exact Hr].
Qed.

Lemma be_read_uint32_at buf off b0 b1 b2 b3 rest :
  cursor buf off ([b0; b1; b2; b3] ++ rest) →
  read_uint32 buf off = Ret (be_decode [b0; b1; b2; b3], off + 4).
Proof.
  intros Hc. pose proof (cursor_bytes _ _ _ Hc) as Hb. cbn [app] in *.
  unfold read_uint32. be_reads_tac Hc. rewrite !Forall_cons in Hb. destruct_and!.
  rewrite !wrapu_shiftl_byte, (wrapu_byte _ b3) by (done || lia).
  rewrite Z.lor_comm, (Z.lor_comm _ (Z.shiftl b2 8)), (Z.lor_comm _ (Z.shiftl b1 16)), !Z.lor_assoc.
  rewrite <- (le_decode_1 b3) at 1.
  be_assemble_step [b3] b2 8. be_assemble_step [b3; b2] b1 16. be_assemble_step [b3; b2; b1] b0 24.
  by rewrite wrapu_id by (unfold inu; lia).
Qed.

Lemma be_read_uint64_at buf off b0 b1 b2 b3 b4 b5 b6 b7 rest :
  cursor buf off ([b0; b1; b2; b3; b4; b5; b6; b7] ++ rest) →
  read_uint64 buf off = Ret (be_decode [b0; b1; b2; b3; b4; b5; b6; b7], off + 8).
Proof.
  intros Hc. pose proof (cursor_bytes _ _ _ Hc) as Hb. cbn [app] in *.
  unfold read_uint64. be_reads_tac Hc. rewrite !Forall_cons in Hb. destruct_and!.
  rewrite !wrapu_shiftl_byte, (wrapu_byte _ b7) by (done || lia).
  rewrite Z.lor_comm, (Z.lor_comm _ (Z.shiftl b6 8)), (Z.lor_comm _ (Z.shiftl b5 16)),
    (Z.lor_comm _ (Z.shiftl b4 24)), (Z.lor_comm _ (Z.shiftl b3 32)),
    (Z.lor_comm _ (Z.shiftl b2 40)), (Z.lor_comm _ (Z.shiftl b1 48)), !Z.lor_assoc.
  rewrite <- (le_decode_1 b7) at 1.
  be_assemble_step [b7] b6 8. be_assemble_step [b7; b6] b5 16. be_assemble_step [b7; b6; b5] b4 24.
  be_assemble_step [b7; b6; b5; b4] b3 32. be_assemble_step [b7; b6; b5; b4; b3] b2 40.
  be_assemble_step [b7; b6; b5; b4; b3; b2] b1 48.
  be_assemble_step [b7; b6; b5; b4; b3; b2; b1] b0 56.
  by rewrite wrapu_id by (unfold inu; lia).
Qed.

(** ** Bit fields *)

Lemma be_ValidateBitLength_ok n : 1 <= n <= 64 → ValidateBitLength n = Ret tt.
Proof. intros. unfold ValidateBitLength. by destruct (_ || _) eqn:E; [lia|]. Qed.

Lemma be_write_loop m buf v :
  for_range m (λ j buf, let i := Z.of_nat m - 1 - Z.of_nat j in
                        buf ++ [wrapu 8 (Z.land (Z.shiftr v (i * 8)) 255)]) buf
  = buf ++ be_encode m v.
Proof.
  rewrite <- (firstn_all (be_encode m v)), length_be_encode.
  apply (for_range_invariant (λ j b, b = buf ++ take j (be_encode m v))); [by rewrite app_nil_r|].
  intros j b Hj ->. cbv zeta. rewrite <- app_assoc. f_equal.
  erewrite take_S_r by (by apply be_encode_lookup). do 2 f_equal.
  rewrite shiftr_byte by lia. do 2 f_equal. change 256 with (2 ^ 8).
  rewrite <- Z.pow_mul_r by lia. f_equal. lia.
Qed.

Lemma be_write_bits_app buf v n :
  1 <= n <= 64 →
  write_bits buf v n = Ret (buf ++ be_encode (Z.to_nat (Z.quot (n + 7) 8)) (v mod 2 ^ n)).
Proof.
  intros Hn. unfold write_bits. rewrite be_ValidateBitLength_ok by done.
  cbn [mbind outcome_bind]. destruct (byte_len_spec n Hn) as (m & Hm & -> & Hex & Hn8).
  rewrite Nat2Z.id, be_write_loop, !be_encode_S, top_byte_mod by lia.
  unfold be_encode. rewrite le_encode_mod by lia.
  set (x := v / 256 ^ Z.of_nat m). destruct (0 <? _) eqn:E.
  - rewrite list_lookup_total_middle by done. rewrite land_mask_byte by lia.
    rewrite insert_app_r_alt, Nat.sub_diag by done. cbn. do 3 f_equal.
    change 256 with (2 ^ 8). rewrite Z.mod_mod_divide; [do 2 f_equal; lia|].
    exists (2 ^ (Z.of_nat (S m) * 8 - n)). rewrite <- Z.pow_add_r by lia. f_equal; lia.
  - do 3 f_equal. change 256 with (2 ^ 8). do 2 f_equal. lia.
Qed.

Lemma be_read_loop buf off l rest :
  cursor buf off (l ++ rest) → (length l <= 8)%nat →
  for_range (length l) (λ i acc,
      value ← acc;
      b ← vec_index buf (wrapu 64 (off + Z.of_nat i));
      Ret (Z.lor (wrapu 64 (Z.shiftl value 8)) b)) (Ret 0)
  = Ret (be_decode l).
Proof.
  intros Hc H8. rewrite <- (firstn_all l) at 2.
  apply (for_range_invariant (λ i acc, acc = Ret (be_decode (take i l)))); [done|].
  intros i acc Hi ->. cbn [mbind outcome_bind].
  destruct (lookup_lt_is_Some_2 l i Hi) as [b Hb].
  pose proof (cursor_bytes _ _ _ Hc) as [Hl _]%Forall_app.
  assert (byte b) as Hbb by (by eapply Forall_lookup_1 in Hl).
  erewrite cursor_index_wrap; [|done| |lia].
  2:{ rewrite Nat2Z.id, lookup_app_l by done. done. }
  cbn [mbind outcome_bind]. erewrite take_S_r, be_decode_snoc by done.
  pose proof (be_decode_range (take i l) (Forall_take _ _ _ Hl)) as Hr.
  rewrite length_take, Nat.min_l in Hr by lia.
  assert (256 ^ Z.of_nat i <= 2 ^ 56).
  { rewrite pow256_pow2. apply Z.pow_le_mono_r; lia. }
  rewrite wrapu_id by (unfold inu; rewrite Z.shiftl_mul_pow2 by lia; lia).
  by rewrite Z.lor_comm, lor_shiftl_add by (unfold inu in Hbb; lia).
Qed.

Lemma be_read_bits_at buf off v rest n :
  1 <= n <= 64 → 0 <= v < 2 ^ n →
  cursor buf off (be_encode (Z.to_nat (Z.quot (n + 7) 8)) v ++ rest) →
  read_bits buf off n = Ret v.
Proof.
  intros Hn Hv Hc. unfold read_bits. rewrite be_ValidateBitLength_ok by done.
  cbn [mbind outcome_bind]. destruct (byte_len_spec n Hn) as (m & Hm & HS & Hex & Hn8).
  rewrite HS in *. rewrite Nat2Z.id in *.
  rewrite (be_EnsureReadable_ok _ _ _ _ Hc) by (rewrite length_app, length_be_encode; lia).
  cbn [mbind outcome_bind].
  pose proof (be_read_loop buf off (be_encode (S m) v) rest Hc) as Hloop.
  rewrite length_be_encode in Hloop. rewrite Hloop by lia. cbn [mbind outcome_bind].
  rewrite be_decode_encode.
  2:{ rewrite pow256_pow2. assert (2 ^ n <= 2 ^ (8 * Z.of_nat (S m))) by (apply Z.pow_le_mono_r; lia). lia. }
  destruct (n <? 64) eqn:E; [|done].
  by rewrite mask_ones_64, Z.land_ones, Z.mod_small by lia.
Qed.

(** The big-endian bit field written by [write_bits] is the big-endian
    encoding of the truncated value in [(bit_len + 7) / 8] bytes, and
    [read_bits] at its offset returns that value whatever follows it. *)
Theorem be_bits_roundtrip buf v n tail :
  bytes buf → bytes tail → Z.of_nat (length buf) + 8 + Z.of_nat (length tail) < 2 ^ 63 →
  1 <= n <= 64 →
  ∃ field, write_bits buf v n = Ret (buf ++ field) ∧
           Z.of_nat (length field) = Z.quot (n + 7) 8 ∧
           be_decode field = v mod 2 ^ n ∧
           read_bits (buf ++ field ++ tail) (Z.of_nat (length buf)) n = Ret (v mod 2 ^ n).
Proof.
  intros Hb Ht Hlen Hn. pose proof (byte_len_spec n Hn) as (m & Hm & HS & Hex & Hn8).
  assert (Hr : 0 <= v mod 2 ^ n < 2 ^ n) by (apply Z.mod_pos_bound, Z.pow_pos_nonneg; lia).
  eexists. split; [by apply be_write_bits_app|]. rewrite HS, Nat2Z.id, length_be_encode.
  split_and!; [done| |].
  - apply be_decode_encode. rewrite pow256_pow2.
    assert (2 ^ n <= 2 ^ (8 * Z.of_nat (S m))) by (apply Z.pow_le_mono_r; lia). lia.
  - eapply (be_read_bits_at _ _ _ tail); [done..|]. rewrite HS, Nat2Z.id.
    exists buf. rewrite !length_app, length_be_encode.
    split_and!; [done|done|lia|]. apply Forall_app; auto using be_encode_bytes.
Qed.

Lemma be_bits_roundtrip_witness :
  write_bits [1; 2] 0xABCDEF 13 = Ret [1; 2; 0x0D; 0xEF] ∧
  ∃ field, write_bits [1; 2] 0xABCDEF 13 = Ret ([1; 2] ++ field) ∧
           Z.of_nat (length field) = 2 ∧ be_decode field = 0xABCDEF mod 2 ^ 13 ∧
           read_bits ([1; 2] ++ field ++ [9]) 2 13 = Ret (0xABCDEF mod 2 ^ 13).
Proof.
  split; [reflexivity|].
  apply (be_bits_roundtrip [1; 2] 0xABCDEF 13 [9]); [bytes_tac|bytes_tac| |]; simpl; lia.
Defined.
