(* ===== verification/FlyControlProtocol.v ===== *)
(** * Flight-control protocol data

    [src/src/util/my_fly_control/FlyControlProtocol.h]: the frame constants,
    frame types, command types and protocol structures.  Every structure is a
    record with one field per member, a default value (the member
    initialisers) and the predicate [_ok] that bounds each field by the width
    of its C++ type. *)

From S2P Require Import Prelude.

Local Open Scope Z_scope.

(** ** Constants *)

Definition FRAME_HEADER_0 : Z := 0xEB.
Definition FRAME_HEADER_1 : Z := 0x90.
Definition FRAME_TAIL_0 : Z := 0xED.
Definition FRAME_TAIL_1 : Z := 0xDE.
Definition FRAME_HEADER_LEN : nat := 2%nat.
Definition FRAME_TAIL_LEN : nat := 2%nat.
Definition FRAME_CHECKSUM_LEN : nat := 1%nat.
Definition FRAME_TYPE_HEARTBEAT : Z := 0x01.
Definition FRAME_TYPE_SET_DESTINATION : Z := 0x02.
Definition FRAME_TYPE_COMMAND : Z := 0x10.
Definition FRAME_TYPE_REPLY : Z := 0x20.
Definition FRAME_TYPE_GIMBAL_CONTROL : Z := 0x30.
Definition CMD_SET_DESTINATION : Z := 0x01.
Definition CMD_SET_ROUTE : Z := 0x02.
Definition CMD_SET_ANGLE : Z := 0x03.
Definition CMD_SET_SPEED : Z := 0x04.
Definition CMD_SET_ALTITUDE : Z := 0x05.
Definition CMD_POWER_SWITCH : Z := 0x06.
Definition CMD_PARACHUTE : Z := 0x07.
Definition CMD_BUTTON : Z := 0x09.
Definition CMD_SET_ORIGIN_RETURN : Z := 0x0A.
Definition CMD_SET_GEOFENCE : Z := 0x0B.
Definition CMD_SWITCH_MODE : Z := 0x0C.
Definition CMD_GUIDANCE : Z := 0x0D.
Definition CMD_GUIDANCE_NEW : Z := 0x0E.
Definition CMD_GIMBAL_ANG_RATE : Z := 0x0F.
Definition CMD_GIMBAL_ANGLE : Z := 0x10.
Definition CMD_TARGET_STATE : Z := 0x11.
Definition HEARTBEAT_FRAME_LEN : nat := 89%nat.

(** ** Structures *)

Record FaultBits := mkFaultBits {
  fb_link_lost : bool;
  fb_distance_exceed : bool;
  fb_attitude_exceed : bool;
  fb_altitude_too_low : bool;
  fb_altitude_too_high : bool;
  fb_voltage_too_low : bool;
  fb_mission_fault : bool;
  fb_gps_lost : bool;
  fb_takeoff_failed : bool;
  fb_attitude_error : bool;
  fb_return_timeout : bool;
  fb_return_dist_error : bool;
  fb_parachute_failed : bool
}.

Definition FaultBits_default : FaultBits := {|
  fb_link_lost := false;
  fb_distance_exceed := false;
  fb_attitude_exceed := false;
  fb_altitude_too_low := false;
  fb_altitude_too_high := false;
  fb_voltage_too_low := false;
  fb_mission_fault := false;
  fb_gps_lost := false;
  fb_takeoff_failed := false;
  fb_attitude_error := false;
  fb_return_timeout := false;
  fb_return_dist_error := false;
  fb_parachute_failed := false
|}.

#[export] Instance FaultBits_eq_dec : EqDecision FaultBits.
Proof. solve_decision. Defined.

Record HeartbeatData := mkHeartbeatData {
  hb_cnt : Z;
  hb_aircraft_id : Z;
  hb_run_mode : Z;
  hb_satellite_count : Z;
  hb_longitude : Z;
  hb_latitude : Z;
  hb_altitude : Z;
  hb_relative_alt : Z;
  hb_airspeed : Z;
  hb_groundspeed : Z;
  hb_velocity_x : Z;
  hb_velocity_y : Z;
  hb_velocity_z : Z;
  hb_accel_x : Z;
  hb_accel_y : Z;
  hb_accel_z : Z;
  hb_roll : Z;
  hb_pitch : Z;
  hb_yaw : Z;
  hb_flight_mode : Z;
  hb_current_waypoint : Z;
  hb_battery_voltage : Z;
  hb_battery_percent : Z;
  hb_battery_current : Z;
  hb_atm_pressure : Z;
  hb_utc_timestamp : Z;
  hb_fault_info : Z;
  hb_rotation_speed : Z;
  hb_throttle : Z;
  hb_target_altitude : Z;
  hb_target_speed : Z;
  hb_origin_distance : Z;
  hb_origin_heading : Z;
  hb_target_distance : Z;
  hb_flight_state : Z;
  hb_altitude_state : Z;
  hb_state_switch_src : Z;
  hb_flight_time : Z;
  hb_flight_range : Z;
  hb_reserved : Z
}.

Definition HeartbeatData_default : HeartbeatData := {|
  hb_cnt := 0;
  hb_aircraft_id := 0;
  hb_run_mode := 0;
  hb_satellite_count := 0;
  hb_longitude := 0;
  hb_latitude := 0;
  hb_altitude := 0;
  hb_relative_alt := 0;
  hb_airspeed := 0;
  hb_groundspeed := 0;
  hb_velocity_x := 0;
  hb_velocity_y := 0;
  hb_velocity_z := 0;
  hb_accel_x := 0;
  hb_accel_y := 0;
  hb_accel_z := 0;
  hb_roll := 0;
  hb_pitch := 0;
  hb_yaw := 0;
  hb_flight_mode := 0;
  hb_current_waypoint := 0;
  hb_battery_voltage := 0;
  hb_battery_percent := 0;
  hb_battery_current := 0;
  hb_atm_pressure := 0;
  hb_utc_timestamp := 0;
  hb_fault_info := 0;
  hb_rotation_speed := 0;
  hb_throttle := 0;
  hb_target_altitude := 0;
  hb_target_speed := 0;
  hb_origin_distance := 0;
  hb_origin_heading := 0;
  hb_target_distance := 0;
  hb_flight_state := 0;
  hb_altitude_state := 0;
  hb_state_switch_src := 0;
  hb_flight_time := 0;
  hb_flight_range := 0;
  hb_reserved := 0
|}.

Definition HeartbeatData_ok (x : HeartbeatData) : Prop :=
  inu 8 (hb_cnt x) ∧
  inu 8 (hb_aircraft_id x) ∧
  inu 8 (hb_run_mode x) ∧
  inu 8 (hb_satellite_count x) ∧
  ins 32 (hb_longitude x) ∧
  ins 32 (hb_latitude x) ∧
  inu 16 (hb_altitude x) ∧
  inu 16 (hb_relative_alt x) ∧
  inu 16 (hb_airspeed x) ∧
  inu 16 (hb_groundspeed x) ∧
  ins 16 (hb_velocity_x x) ∧
  ins 16 (hb_velocity_y x) ∧
  ins 16 (hb_velocity_z x) ∧
  ins 16 (hb_accel_x x) ∧
  ins 16 (hb_accel_y x) ∧
  ins 16 (hb_accel_z x) ∧
  ins 16 (hb_roll x) ∧
  ins 16 (hb_pitch x) ∧
  inu 16 (hb_yaw x) ∧
  inu 8 (hb_flight_mode x) ∧
  inu 16 (hb_current_waypoint x) ∧
  inu 16 (hb_battery_voltage x) ∧
  inu 8 (hb_battery_percent x) ∧
  inu 16 (hb_battery_current x) ∧
  inu 16 (hb_atm_pressure x) ∧
  inu 64 (hb_utc_timestamp x) ∧
  inu 16 (hb_fault_info x) ∧
  inu 16 (hb_rotation_speed x) ∧
  inu 16 (hb_throttle x) ∧
  inu 16 (hb_target_altitude x) ∧
  inu 16 (hb_target_speed x) ∧
  inu 16 (hb_origin_distance x) ∧
  inu 16 (hb_origin_heading x) ∧
  inu 16 (hb_target_distance x) ∧
  inu 8 (hb_flight_state x) ∧
  inu 8 (hb_altitude_state x) ∧
  inu 8 (hb_state_switch_src x) ∧
  inu 16 (hb_flight_time x) ∧
  inu 16 (hb_flight_range x) ∧
  inu 32 (hb_reserved x).

#[export] Instance HeartbeatData_eq_dec : EqDecision HeartbeatData.
Proof. solve_decision. Defined.

Record GimbalControlData := mkGimbalControlData {
  gc_cnt : Z;
  gc_enable : Z;
  gc_pitch_angle : Z;
  gc_yaw_angle : Z
}.

Definition GimbalControlData_default : GimbalControlData := {|
  gc_cnt := 0;
  gc_enable := 0;
  gc_pitch_angle := 0;
  gc_yaw_angle := 0
|}.

Definition GimbalControlData_ok (x : GimbalControlData) : Prop :=
  inu 8 (gc_cnt x) ∧
  inu 8 (gc_enable x) ∧
  ins 16 (gc_pitch_angle x) ∧
  ins 16 (gc_yaw_angle x).

#[export] Instance GimbalControlData_eq_dec : EqDecision GimbalControlData.
Proof. solve_decision. Defined.

Record CommandReplyData := mkCommandReplyData {
  cr_cnt : Z;
  cr_replied_cmd : Z;
  cr_result : Z
}.

Definition CommandReplyData_default : CommandReplyData := {|
  cr_cnt := 0;
  cr_replied_cmd := 0;
  cr_result := 0
|}.

Definition CommandReplyData_ok (x : CommandReplyData) : Prop :=
  inu 8 (cr_cnt x) ∧
  inu 8 (cr_replied_cmd x) ∧
  inu 8 (cr_result x).

#[export] Instance CommandReplyData_eq_dec : EqDecision CommandReplyData.
Proof. solve_decision. Defined.

Record SetDestinationData := mkSetDestinationData {
  sd_cmd_type : Z;
  sd_longitude : Z;
  sd_latitude : Z;
  sd_altitude : Z
}.

Definition SetDestinationData_default : SetDestinationData := {|
  sd_cmd_type := CMD_SET_DESTINATION;
  sd_longitude := 0;
  sd_latitude := 0;
  sd_altitude := 0
|}.

Definition SetDestinationData_ok (x : SetDestinationData) : Prop :=
  inu 8 (sd_cmd_type x) ∧
  ins 32 (sd_longitude x) ∧
  ins 32 (sd_latitude x) ∧
  inu 16 (sd_altitude x).

#[export] Instance SetDestinationData_eq_dec : EqDecision SetDestinationData.
Proof. solve_decision. Defined.

Record RoutePoint := mkRoutePoint {
  rp_longitude : Z;
  rp_latitude : Z;
  rp_altitude : Z;
  rp_index : Z;
  rp_speed : Z
}.

Definition RoutePoint_default : RoutePoint := {|
  rp_longitude := 0;
  rp_latitude := 0;
  rp_altitude := 0;
  rp_index := 0;
  rp_speed := 0
|}.

Definition RoutePoint_ok (x : RoutePoint) : Prop :=
  ins 32 (rp_longitude x) ∧
  ins 32 (rp_latitude x) ∧
  inu 16 (rp_altitude x) ∧
  inu 16 (rp_index x) ∧
  inu 16 (rp_speed x).

#[export] Instance RoutePoint_eq_dec : EqDecision RoutePoint.
Proof. solve_decision. Defined.

Record SetRouteData := mkSetRouteData {
  sr_cmd_type : Z;
  sr_points : list RoutePoint
}.

Definition SetRouteData_default : SetRouteData := {|
  sr_cmd_type := CMD_SET_ROUTE;
  sr_points := []
|}.

Definition SetRouteData_ok (x : SetRouteData) : Prop :=
  inu 8 (sr_cmd_type x) ∧
  Forall RoutePoint_ok (sr_points x).

#[export] Instance SetRouteData_eq_dec : EqDecision SetRouteData.
Proof. solve_decision. Defined.

Record SetAngleData := mkSetAngleData {
  sa_cmd_type : Z;
  sa_pitch : Z;
  sa_yaw : Z
}.

Definition SetAngleData_default : SetAngleData := {|
  sa_cmd_type := CMD_SET_ANGLE;
  sa_pitch := 0;
  sa_yaw := 0
|}.

Definition SetAngleData_ok (x : SetAngleData) : Prop :=
  inu 8 (sa_cmd_type x) ∧
  ins 16 (sa_pitch x) ∧
  inu 16 (sa_yaw x).

#[export] Instance SetAngleData_eq_dec : EqDecision SetAngleData.
Proof. solve_decision. Defined.

Record SetSpeedData := mkSetSpeedData {
  ss_cmd_type : Z;
  ss_speed : Z
}.

Definition SetSpeedData_default : SetSpeedData := {|
  ss_cmd_type := CMD_SET_SPEED;
  ss_speed := 0
|}.

Definition SetSpeedData_ok (x : SetSpeedData) : Prop :=
  inu 8 (ss_cmd_type x) ∧
  inu 16 (ss_speed x).

#[export] Instance SetSpeedData_eq_dec : EqDecision SetSpeedData.
Proof. solve_decision. Defined.

Record SetAltitudeData := mkSetAltitudeData {
  sal_cmd_type : Z;
  sal_altitude_type : Z;
  sal_altitude : Z
}.

Definition SetAltitudeData_default : SetAltitudeData := {|
  sal_cmd_type := CMD_SET_ALTITUDE;
  sal_altitude_type := 0;
  sal_altitude := 0
|}.

Definition SetAltitudeData_ok (x : SetAltitudeData) : Prop :=
  inu 8 (sal_cmd_type x) ∧
  inu 8 (sal_altitude_type x) ∧
  inu 16 (sal_altitude x).

#[export] Instance SetAltitudeData_eq_dec : EqDecision SetAltitudeData.
Proof. solve_decision. Defined.

Record PowerSwitchData := mkPowerSwitchData {
  ps_cmd_type : Z;
  ps_command : Z
}.

Definition PowerSwitchData_default : PowerSwitchData := {|
  ps_cmd_type := CMD_POWER_SWITCH;
  ps_command := 0
|}.

Definition PowerSwitchData_ok (x : PowerSwitchData) : Prop :=
  inu 8 (ps_cmd_type x) ∧
  inu 8 (ps_command x).

#[export] Instance PowerSwitchData_eq_dec : EqDecision PowerSwitchData.
Proof. solve_decision. Defined.

Record ParachuteData := mkParachuteData {
  pa_cmd_type : Z;
  pa_parachute_type : Z
}.

Definition ParachuteData_default : ParachuteData := {|
  pa_cmd_type := CMD_PARACHUTE;
  pa_parachute_type := 0
|}.

Definition ParachuteData_ok (x : ParachuteData) : Prop :=
  inu 8 (pa_cmd_type x) ∧
  inu 8 (pa_parachute_type x).

#[export] Instance ParachuteData_eq_dec : EqDecision ParachuteData.
Proof. solve_decision. Defined.

Record ButtonCommandData := mkButtonCommandData {
  bc_cmd_type : Z;
  bc_button : Z
}.

Definition ButtonCommandData_default : ButtonCommandData := {|
  bc_cmd_type := CMD_BUTTON;
  bc_button := 0
|}.

Definition ButtonCommandData_ok (x : ButtonCommandData) : Prop :=
  inu 8 (bc_cmd_type x) ∧
  inu 8 (bc_button x).

#[export] Instance ButtonCommandData_eq_dec : EqDecision ButtonCommandData.
Proof. solve_decision. Defined.

Record SetOriginReturnData := mkSetOriginReturnData {
  so_cmd_type : Z;
  so_point_type : Z;
  so_longitude : Z;
  so_latitude : Z;
  so_altitude : Z
}.

Definition SetOriginReturnData_default : SetOriginReturnData := {|
  so_cmd_type := CMD_SET_ORIGIN_RETURN;
  so_point_type := 0;
  so_longitude := 0;
  so_latitude := 0;
  so_altitude := 0
|}.

Definition SetOriginReturnData_ok (x : SetOriginReturnData) : Prop :=
  inu 8 (so_cmd_type x) ∧
  inu 8 (so_point_type x) ∧
  ins 32 (so_longitude x) ∧
  ins 32 (so_latitude x) ∧
  inu 16 (so_altitude x).

#[export] Instance SetOriginReturnData_eq_dec : EqDecision SetOriginReturnData.
Proof. solve_decision. Defined.

Record GeofencePoint := mkGeofencePoint {
  gp_longitude : Z;
  gp_latitude : Z;
  gp_altitude : Z;
  gp_index : Z
}.

Definition GeofencePoint_default : GeofencePoint := {|
  gp_longitude := 0;
  gp_latitude := 0;
  gp_altitude := 0;
  gp_index := 0
|}.

Definition GeofencePoint_ok (x : GeofencePoint) : Prop :=
  ins 32 (gp_longitude x) ∧
  ins 32 (gp_latitude x) ∧
  inu 16 (gp_altitude x) ∧
  inu 8 (gp_index x).

#[export] Instance GeofencePoint_eq_dec : EqDecision GeofencePoint.
Proof. solve_decision. Defined.

Record SetGeofenceData := mkSetGeofenceData {
  sg_cmd_type : Z;
  sg_points : list GeofencePoint
}.

Definition SetGeofenceData_default : SetGeofenceData := {|
  sg_cmd_type := CMD_SET_GEOFENCE;
  sg_points := []
|}.

Definition SetGeofenceData_ok (x : SetGeofenceData) : Prop :=
  inu 8 (sg_cmd_type x) ∧
  Forall GeofencePoint_ok (sg_points x).

#[export] Instance SetGeofenceData_eq_dec : EqDecision SetGeofenceData.
Proof. solve_decision. Defined.

Record SwitchModeData := mkSwitchModeData {
  sm_cmd_type : Z;
  sm_mode : Z
}.

Definition SwitchModeData_default : SwitchModeData := {|
  sm_cmd_type := CMD_SWITCH_MODE;
  sm_mode := 0
|}.

Definition SwitchModeData_ok (x : SwitchModeData) : Prop :=
  inu 8 (sm_cmd_type x) ∧
  inu 8 (sm_mode x).

#[export] Instance SwitchModeData_eq_dec : EqDecision SwitchModeData.
Proof. solve_decision. Defined.

Record GuidanceData := mkGuidanceData {
  gd_cmd_type : Z;
  gd_mode_switch : Z;
  gd_frame_id : Z;
  gd_track_id : Z;
  gd_target_lon : Z;
  gd_target_lat : Z;
  gd_target_alt : Z
}.

Definition GuidanceData_default : GuidanceData := {|
  gd_cmd_type := CMD_GUIDANCE;
  gd_mode_switch := 0;
  gd_frame_id := 0;
  gd_track_id := 0;
  gd_target_lon := 0;
  gd_target_lat := 0;
  gd_target_alt := 0
|}.

Definition GuidanceData_ok (x : GuidanceData) : Prop :=
  inu 8 (gd_cmd_type x) ∧
  inu 8 (gd_mode_switch x) ∧
  inu 32 (gd_frame_id x) ∧
  inu 32 (gd_track_id x) ∧
  ins 32 (gd_target_lon x) ∧
  ins 32 (gd_target_lat x) ∧
  inu 16 (gd_target_alt x).

#[export] Instance GuidanceData_eq_dec : EqDecision GuidanceData.
Proof. solve_decision. Defined.

Record GuidanceNewData := mkGuidanceNewData {
  gn_cmd_type : Z;
  gn_pitch_los_rate : Z;
  gn_yaw_los_rate : Z;
  gn_pitch_los_angle : Z;
  gn_yaw_los_angle : Z;
  gn_pitch_frame_angle : Z;
  gn_yaw_frame_angle : Z;
  gn_gimbal_pitch_angle : Z;
  gn_gimbal_yaw_angle : Z;
  gn_acc_x : Z;
  gn_acc_y : Z;
  gn_acc_z : Z;
  gn_gyro_x : Z;
  gn_gyro_y : Z;
  gn_gyro_z : Z;
  gn_target_id : Z;
  gn_target_type : Z;
  gn_target_lon : Z;
  gn_target_lat : Z;
  gn_target_alt : Z;
  gn_laser_range : Z;
  gn_status : Z
}.

Definition GuidanceNewData_default : GuidanceNewData := {|
  gn_cmd_type := CMD_GUIDANCE_NEW;
  gn_pitch_los_rate := 0;
  gn_yaw_los_rate := 0;
  gn_pitch_los_angle := 0;
  gn_yaw_los_angle := 0;
  gn_pitch_frame_angle := 0;
  gn_yaw_frame_angle := 0;
  gn_gimbal_pitch_angle := 0;
  gn_gimbal_yaw_angle := 0;
  gn_acc_x := 0;
  gn_acc_y := 0;
  gn_acc_z := 0;
  gn_gyro_x := 0;
  gn_gyro_y := 0;
  gn_gyro_z := 0;
  gn_target_id := 0;
  gn_target_type := 0;
  gn_target_lon := 0;
  gn_target_lat := 0;
  gn_target_alt := 0;
  gn_laser_range := 0;
  gn_status := 0
|}.

Definition GuidanceNewData_ok (x : GuidanceNewData) : Prop :=
  inu 8 (gn_cmd_type x) ∧
  ins 16 (gn_pitch_los_rate x) ∧
  ins 16 (gn_yaw_los_rate x) ∧
  ins 16 (gn_pitch_los_angle x) ∧
  ins 16 (gn_yaw_los_angle x) ∧
  ins 16 (gn_pitch_frame_angle x) ∧
  ins 16 (gn_yaw_frame_angle x) ∧
  ins 16 (gn_gimbal_pitch_angle x) ∧
  ins 16 (gn_gimbal_yaw_angle x) ∧
  ins 16 (gn_acc_x x) ∧
  ins 16 (gn_acc_y x) ∧
  ins 16 (gn_acc_z x) ∧
  ins 16 (gn_gyro_x x) ∧
  ins 16 (gn_gyro_y x) ∧
  ins 16 (gn_gyro_z x) ∧
  inu 16 (gn_target_id x) ∧
  inu 16 (gn_target_type x) ∧
  ins 32 (gn_target_lon x) ∧
  ins 32 (gn_target_lat x) ∧
  ins 32 (gn_target_alt x) ∧
  ins 32 (gn_laser_range x) ∧
  inu 8 (gn_status x).

#[export] Instance GuidanceNewData_eq_dec : EqDecision GuidanceNewData.
Proof. solve_decision. Defined.

Record GimbalAngRateData := mkGimbalAngRateData {
  gr_cmd_type : Z;
  gr_pitch_los_rate : Z;
  gr_yaw_los_rate : Z;
  gr_target_lon : Z;
  gr_target_lat : Z;
  gr_target_alt : Z;
  gr_laser_range : Z;
  gr_status : Z
}.

Definition GimbalAngRateData_default : GimbalAngRateData := {|
  gr_cmd_type := CMD_GIMBAL_ANG_RATE;
  gr_pitch_los_rate := 0;
  gr_yaw_los_rate := 0;
  gr_target_lon := 0;
  gr_target_lat := 0;
  gr_target_alt := 0;
  gr_laser_range := 0;
  gr_status := 0
|}.

Definition GimbalAngRateData_ok (x : GimbalAngRateData) : Prop :=
  inu 8 (gr_cmd_type x) ∧
  ins 32 (gr_pitch_los_rate x) ∧
  ins 32 (gr_yaw_los_rate x) ∧
  ins 32 (gr_target_lon x) ∧
  ins 32 (gr_target_lat x) ∧
  ins 32 (gr_target_alt x) ∧
  ins 32 (gr_laser_range x) ∧
  inu 8 (gr_status x).

#[export] Instance GimbalAngRateData_eq_dec : EqDecision GimbalAngRateData.
Proof. solve_decision. Defined.

Record GimbalAngleData := mkGimbalAngleData {
  ga_cmd_type : Z;
  ga_pitch_frame_angle : Z;
  ga_yaw_frame_angle : Z;
  ga_pitch_ang_rate : Z;
  ga_yaw_ang_rate : Z
}.

Definition GimbalAngleData_default : GimbalAngleData := {|
  ga_cmd_type := CMD_GIMBAL_ANGLE;
  ga_pitch_frame_angle := 0;
  ga_yaw_frame_angle := 0;
  ga_pitch_ang_rate := 0;
  ga_yaw_ang_rate := 0
|}.

Definition GimbalAngleData_ok (x : GimbalAngleData) : Prop :=
  inu 8 (ga_cmd_type x) ∧
  ins 32 (ga_pitch_frame_angle x) ∧
  ins 32 (ga_yaw_frame_angle x) ∧
  ins 32 (ga_pitch_ang_rate x) ∧
  ins 32 (ga_yaw_ang_rate x).

#[export] Instance GimbalAngleData_eq_dec : EqDecision GimbalAngleData.
Proof. solve_decision. Defined.

Record TargetStateData := mkTargetStateData {
  ts_cmd_type : Z;
  ts_pitch_axis_angle : Z;
  ts_yaw_axis_angle : Z;
  ts_target_vertical_ratio : Z;
  ts_target_horizontal_ratio : Z;
  ts_status : Z
}.

Definition TargetStateData_default : TargetStateData := {|
  ts_cmd_type := CMD_TARGET_STATE;
  ts_pitch_axis_angle := 0;
  ts_yaw_axis_angle := 0;
  ts_target_vertical_ratio := 0;
  ts_target_horizontal_ratio := 0;
  ts_status := 0
|}.

Definition TargetStateData_ok (x : TargetStateData) : Prop :=
  inu 8 (ts_cmd_type x) ∧
  ins 32 (ts_pitch_axis_angle x) ∧
  ins 32 (ts_yaw_axis_angle x) ∧
  inu 8 (ts_target_vertical_ratio x) ∧
  inu 8 (ts_target_horizontal_ratio x) ∧
  inu 8 (ts_status x).

#[export] Instance TargetStateData_eq_dec : EqDecision TargetStateData.
Proof. solve_decision. Defined.

Record ParsedFrame := mkParsedFrame {
  pf_cnt : Z;
  pf_frame_type : Z;
  pf_payload : list Z;
  pf_checksum : Z;
  pf_valid : bool
}.

Definition ParsedFrame_default : ParsedFrame := {|
  pf_cnt := 0;
  pf_frame_type := 0;
  pf_payload := [];
  pf_checksum := 0;
  pf_valid := false
|}.

Definition ParsedFrame_ok (x : ParsedFrame) : Prop :=
  inu 8 (pf_cnt x) ∧
  inu 8 (pf_frame_type x) ∧
  bytes (pf_payload x) ∧
  inu 8 (pf_checksum x).

#[export] Instance ParsedFrame_eq_dec : EqDecision ParsedFrame.
Proof. solve_decision. Defined.
