(* ===== verification/FlyControlFrame.v ===== *)
(** * Flight-control frame layer

    [src/src/util/my_fly_control/FlyControlFrame.cpp]: checksum, frame
    building, and the parser that recovers frames from a byte stream.  The
    parser's state is its receive buffer; [PopFrame] is its [while (true)]
    loop, one [pop_iter] per iteration, and [PopAll] the caller's
    [while (parser_.PopFrame(frame))]. *)

From S2P Require Import Prelude.
From S2P Require Import Bytes.
From S2P Require Import FlyControlProtocol.

Local Open Scope Z_scope.

(** ** Building frames *)

(** [sum] is a [uint32_t] accumulator. *)
Definition CalcChecksum (data : list Z) : Z :=
  wrapu 8 (Z.land (foldl (λ sum b, wrapu 32 (sum + b)) 0 data) 255).

Definition BuildFrame (cnt frame_type : Z) (payload : list Z) : list Z :=
  let frame := [] ++ [FRAME_HEADER_0] in
  let frame := frame ++ [FRAME_HEADER_1] in
  let frame := frame ++ [cnt] in
  let frame := frame ++ [frame_type] in
  let frame := frame ++ payload in
  let chk := CalcChecksum frame in
  let frame := frame ++ [chk] in
  let frame := frame ++ [FRAME_TAIL_0] in
  frame ++ [FRAME_TAIL_1].

(** ** The parser *)

Definition FeedData (buffer_ data : list Z) : list Z :=
  foldl (λ buffer b, buffer ++ [b]) buffer_ data.

Definition Reset (buffer_ : list Z) : list Z := [].

Definition BufferSize (buffer_ : list Z) : nat := length buffer_.

(** Drops bytes until the buffer starts with the header, or fewer than two
    bytes are left. *)
Fixpoint FindHeader (buffer_ : list Z) : bool * list Z :=
  match buffer_ with
  | b0 :: ((b1 :: _) as rest) =>
      if (b0 =? FRAME_HEADER_0) && (b1 =? FRAME_HEADER_1) then (true, buffer_)
      else FindHeader rest
  | _ => (false, buffer_)
  end.

Definition CMD_OVERHEAD : nat := (5 + 3)%nat.

(** Total length of a frame, 0 when it depends on the contents or the type is
    unknown. *)
Definition GetExpectedFrameLen (frame_type cmd_byte : Z) : nat :=
  if frame_type =? FRAME_TYPE_HEARTBEAT then HEARTBEAT_FRAME_LEN
  else if frame_type =? FRAME_TYPE_SET_DESTINATION then 18%nat
  else if frame_type =? FRAME_TYPE_REPLY then 9%nat
  else if frame_type =? FRAME_TYPE_GIMBAL_CONTROL then 12%nat
  else if frame_type =? FRAME_TYPE_COMMAND then
    if cmd_byte =? CMD_SET_ROUTE then 0%nat
    else if cmd_byte =? CMD_SET_GEOFENCE then 0%nat
    else if cmd_byte =? CMD_SET_ANGLE then (CMD_OVERHEAD + 4)%nat
    else if cmd_byte =? CMD_SET_SPEED then (CMD_OVERHEAD + 2)%nat
    else if cmd_byte =? CMD_SET_ALTITUDE then (CMD_OVERHEAD + 3)%nat
    else if cmd_byte =? CMD_POWER_SWITCH then (CMD_OVERHEAD + 1)%nat
    else if cmd_byte =? CMD_PARACHUTE then (CMD_OVERHEAD + 1)%nat
    else if cmd_byte =? CMD_BUTTON then (CMD_OVERHEAD + 1)%nat
    else if cmd_byte =? CMD_SET_ORIGIN_RETURN then (CMD_OVERHEAD + 11)%nat
    else if cmd_byte =? CMD_SWITCH_MODE then (CMD_OVERHEAD + 1)%nat
    else if cmd_byte =? CMD_GUIDANCE then (CMD_OVERHEAD + 19)%nat
    else if cmd_byte =? CMD_GUIDANCE_NEW then (CMD_OVERHEAD + 49)%nat
    else if cmd_byte =? CMD_GIMBAL_ANG_RATE then (CMD_OVERHEAD + 25)%nat
    else if cmd_byte =? CMD_GIMBAL_ANGLE then (CMD_OVERHEAD + 16)%nat
    else if cmd_byte =? CMD_TARGET_STATE then (CMD_OVERHEAD + 11)%nat
    else 0%nat
  else 0%nat.

Definition VAR_OVERHEAD : nat := 9.

(** Route and geofence frames: [count] points of 14 or 11 bytes. *)
Definition CalcVariableLenFrameLen (buffer_ : list Z) (frame_type : Z) : nat :=
  if negb (frame_type =? FRAME_TYPE_COMMAND) then 0%nat
  else if (length buffer_ <? 6)%nat then 0%nat
  else
    let cmd_byte := buffer_ !!! 4%nat in
    let count := buffer_ !!! 5%nat in
    if cmd_byte =? CMD_SET_ROUTE then (VAR_OVERHEAD + Z.to_nat count * 14)%nat
    else if cmd_byte =? CMD_SET_GEOFENCE then (VAR_OVERHEAD + Z.to_nat count * 11)%nat
    else 0%nat.

(** What one iteration of [PopFrame]'s loop does: [return false], [continue],
    or [return true] with the frame. *)
Inductive pop_step :=
| PopWait (buffer_ : list Z)
| PopContinue (buffer_ : list Z)
| PopFound (frame : ParsedFrame) (buffer_ : list Z).

(** Step 3: the frame length, 0 when it cannot be determined. *)
Definition expected_len (buffer_ : list Z) : nat :=
  let frame_type := buffer_ !!! 3%nat in
  let cmd_byte :=
    if (frame_type =? FRAME_TYPE_COMMAND) && (5 <=? length buffer_)%nat
    then buffer_ !!! 4%nat else 0 in
  let len := GetExpectedFrameLen frame_type cmd_byte in
  if (len =? 0)%nat then CalcVariableLenFrameLen buffer_ frame_type else len.

(** Steps 6 to 8: the frame of the first [len] bytes. *)
Definition take_frame (len : nat) (buffer_ : list Z) : ParsedFrame :=
  let chk_pos := (len - 3)%nat in
  let received_chk := buffer_ !!! chk_pos in
  let raw := take chk_pos buffer_ in
  let calc_chk := CalcChecksum raw in
  let payload_start := 4%nat in
  let payload_len := (chk_pos - payload_start)%nat in
  {| pf_cnt := buffer_ !!! 2%nat;
     pf_frame_type := buffer_ !!! 3%nat;
     pf_payload := take payload_len (drop payload_start buffer_);
     pf_checksum := received_chk;
     pf_valid := (calc_chk =? received_chk) |}.

(** Steps 2 to 8, on a buffer that starts with the header. *)
Definition pop_body (buffer_ : list Z) : pop_step :=
  if (length buffer_ <? 5)%nat then PopWait buffer_
  else
    let frame_type := buffer_ !!! 3%nat in
    let len := expected_len buffer_ in
    if (len =? 0)%nat then
      if negb (frame_type =? FRAME_TYPE_COMMAND) then PopContinue (drop 1 buffer_)
      else PopWait buffer_
    else if (length buffer_ <? len)%nat then PopWait buffer_
    else if negb (buffer_ !!! (len - 2)%nat =? FRAME_TAIL_0)
         || negb (buffer_ !!! (len - 1)%nat =? FRAME_TAIL_1)
    then PopContinue (drop 1 buffer_)
    else PopFound (take_frame len buffer_) (drop len buffer_).

Definition pop_iter (buffer_ : list Z) : pop_step :=
  let (found, buffer_) := FindHeader buffer_ in
  if found then pop_body buffer_ else PopWait buffer_.

Fixpoint pop_loop (fuel : nat) (buffer_ : list Z) : option (option ParsedFrame * list Z) :=
  match fuel with
  | O => None
  | S fuel =>
      match pop_iter buffer_ with
      | PopWait b => Some (None, b)
      | PopFound f b => Some (Some f, b)
      | PopContinue b => pop_loop fuel b
      end
  end.

(** [PopFrame]: the returned frame, if any, and the buffer left.  Each
    [continue] drops a byte, so one iteration per byte and a last one suffice
    ([PopFrame_total]). *)
Definition PopFrame (buffer_ : list Z) : option (option ParsedFrame * list Z) :=
  pop_loop (S (length buffer_)) buffer_.

(** [while (parser_.PopFrame(frame)) ...]: the frames in order. *)
Fixpoint pop_all_loop (fuel : nat) (buffer_ : list Z) : option (list ParsedFrame * list Z) :=
  match fuel with
  | O => None
  | S fuel =>
      match PopFrame buffer_ with
      | Some (Some f, b) => '(fs, b) ← pop_all_loop fuel b; Some (f :: fs, b)
      | Some (None, b) => Some ([], b)
      | None => None
      end
  end.

Definition PopAll (buffer_ : list Z) : option (list ParsedFrame * list Z) :=
  pop_all_loop (S (length buffer_)) buffer_.

Arguments PopFrame : simpl never.
Arguments PopAll : simpl never.

(** ** Checksum *)

Definition sumZ (l : list Z) : Z := foldr Z.add 0 l.

Lemma checksum_fold l acc :
  foldl (λ sum b, wrapu 32 (sum + b)) acc l mod 256 = (acc + sumZ l) mod 256.
Proof.
  revert acc. induction l as [|b l IH]; intros acc; cbn [foldl sumZ foldr]; [by rewrite Z.add_0_r|].
  rewrite IH. fold (sumZ l). unfold wrapu.
  rewrite <- Z.add_mod_idemp_l by done.
  rewrite Z.mod_mod_divide by (exists (2 ^ 24); reflexivity).
  rewrite Z.add_mod_idemp_l by done. f_equal. lia.
Qed.

(** The 32-bit accumulator may wrap; the low byte is the sum modulo 256. *)
Lemma CalcChecksum_sum l : CalcChecksum l = sumZ l mod 256.
Proof.
  unfold CalcChecksum. by rewrite wrapu_8_land, checksum_fold, Z.add_0_l.
Qed.

Lemma CalcChecksum_byte l : byte (CalcChecksum l).
Proof. rewrite CalcChecksum_sum. unfold inu. apply Z.mod_pos_bound. lia. Qed.

Lemma sumZ_app l k : sumZ (l ++ k) = sumZ l + sumZ k.
Proof. unfold sumZ. induction l; cbn [foldr app]; lia. Qed.

(** Changing one byte covered by the checksum changes the checksum, so
    the parser marks a frame with one corrupted byte invalid. *)
Theorem checksum_detects_one_byte l i b b' :
  l !! i = Some b → byte b → byte b' → b ≠ b' →
  CalcChecksum (<[i := b']> l) ≠ CalcChecksum l.
Proof.
  intros Hi Hb Hb' Hne. rewrite !CalcChecksum_sum. intros Heq.
  assert (Hl : l = take i l ++ b :: drop (S i) l) by (by rewrite take_drop_middle).
  rewrite (insert_take_drop _ _ _ (lookup_lt_Some _ _ _ Hi)) in Heq.
  rewrite Hl in Heq at 3. rewrite !sumZ_app in Heq. cbn [sumZ foldr] in Heq.
  unfold inu in *. change (2 ^ 8) with 256 in *.
  set (x := foldr Z.add 0 (drop (S i) l)) in *. set (y := sumZ (take i l)) in *.
  Z.to_euclidean_division_equations. lia.
Qed.

Lemma checksum_detects_one_byte_witness :
  CalcChecksum (<[2%nat := 5]> [0xEB; 0x90; 4; 0x20]) ≠ CalcChecksum [0xEB; 0x90; 4; 0x20].
Proof.
  apply (checksum_detects_one_byte _ 2 4 5); [reflexivity|unfold inu; lia|unfold inu; lia|done].
Defined.

(** ** Header search *)

Lemma FeedData_app b d : FeedData b d = b ++ d.
Proof.
  unfold FeedData. revert b. induction d as [|x d IH]; intros b; cbn [foldl].
  - by rewrite app_nil_r.
  - by rewrite IH, <- app_assoc.
Qed.

Definition at_header (b : list Z) : Prop := ∃ r, b = FRAME_HEADER_0 :: FRAME_HEADER_1 :: r.

Lemma FindHeader_at b : at_header b → FindHeader b = (true, b).
Proof. by intros [r ->]. Qed.

(** Unfolds [FindHeader] on a buffer of two bytes or more. *)
Lemma FindHeader_cons b0 b1 r :
  FindHeader (b0 :: b1 :: r) =
    if (b0 =? FRAME_HEADER_0) && (b1 =? FRAME_HEADER_1) then (true, b0 :: b1 :: r)
    else FindHeader (b1 :: r).
Proof. reflexivity. Qed.

Lemma FindHeader_spec b :
  ∃ skipped r, b = skipped ++ r ∧
    ((FindHeader b = (true, r) ∧ at_header r) ∨ (FindHeader b = (false, r) ∧ (length r < 2)%nat)).
Proof.
  induction b as [|b0 b IH]; [exists [], []; split; [reflexivity|right; split; [done|simpl; lia]]|].
  destruct b as [|b1 r]; [exists [], [b0]; split; [reflexivity|right; split; [done|simpl; lia]]|].
  rewrite FindHeader_cons. destruct (_ && _) eqn:E.
  - exists [], (b0 :: b1 :: r). split; [done|left]. split; [done|]. exists r.
    apply andb_prop in E as [->%Z.eqb_eq ->%Z.eqb_eq]. done.
  - destruct IH as (sk & r' & Heq & IH). exists (b0 :: sk), r'. rewrite Heq at 1. by split.
Qed.

Lemma FindHeader_app b x :
  match FindHeader b with
  | (true, r) => FindHeader (b ++ x) = (true, r ++ x)
  | (false, r) => FindHeader (b ++ x) = FindHeader (r ++ x)
  end.
Proof.
  induction b as [|b0 b IH]; [done|].
  destruct b as [|b1 r]; [done|].
  rewrite FindHeader_cons. cbn [app]. rewrite FindHeader_cons.
  destruct (_ && _); [done|]. destruct (FindHeader (b1 :: r)) as [[] r']; exact IH.
Qed.

Lemma FindHeader_length b : (length (FindHeader b).2 <= length b)%nat.
Proof.
  destruct (FindHeader_spec b) as (sk & r & -> & [[-> _]|[-> _]]);
    rewrite length_app; simpl; lia.
Qed.

(** ** One iteration *)

Lemma expected_len_app b x :
  (5 <= length b)%nat → expected_len b ≠ 0%nat → expected_len (b ++ x) = expected_len b.
Proof.
  intros Hb. unfold expected_len, CalcVariableLenFrameLen. rewrite length_app.
  rewrite !lookup_total_app_l by lia.
  replace (5 <=? length b)%nat with true by lia.
  replace (5 <=? length b + length x)%nat with true by lia. rewrite andb_true_r.
  destruct (GetExpectedFrameLen _ _ =? 0)%nat; [|done].
  destruct (negb _); [done|]. destruct (length b <? 6)%nat eqn:E; [done|].
  replace (length b + length x <? 6)%nat with false by lia.
  by rewrite !lookup_total_app_l by lia.
Qed.

(** An unknown frame type stays unknown whatever follows. *)
Lemma expected_len_unknown b x :
  (5 <= length b)%nat → expected_len b = 0%nat → b !!! 3%nat ≠ FRAME_TYPE_COMMAND →
  expected_len (b ++ x) = 0%nat.
Proof.
  intros Hb. unfold expected_len, CalcVariableLenFrameLen. rewrite length_app.
  rewrite !lookup_total_app_l by lia. intros He Hne.
  replace (b !!! 3%nat =? FRAME_TYPE_COMMAND) with false in * by lia. cbn in *.
  by destruct (GetExpectedFrameLen _ _ =? 0)%nat.
Qed.

Lemma expected_len_min b : expected_len b ≠ 0%nat → (9 <= expected_len b)%nat.
Proof.
  unfold expected_len, CalcVariableLenFrameLen, VAR_OVERHEAD.
  assert (Hg : ∀ t c, GetExpectedFrameLen t c ≠ 0%nat → (9 <= GetExpectedFrameLen t c)%nat).
  { intros t c. unfold GetExpectedFrameLen, HEARTBEAT_FRAME_LEN, CMD_OVERHEAD.
    repeat case_match; lia. }
  destruct (GetExpectedFrameLen _ _ =? 0)%nat eqn:E.
  - repeat case_match; lia.
  - intros _. apply Hg. lia.
Qed.

Lemma take_frame_app len b x :
  (9 <= len <= length b)%nat → take_frame len (b ++ x) = take_frame len b.
Proof.
  intros Hl. unfold take_frame. rewrite !lookup_total_app_l by lia.
  rewrite take_app_le, drop_app_le, take_app_le by (rewrite ?length_drop; lia). done.
Qed.

Lemma pop_body_app b x :
  match pop_body b with
  | PopWait r => r = b
  | PopContinue r => pop_body (b ++ x) = PopContinue (r ++ x)
  | PopFound f r => pop_body (b ++ x) = PopFound f (r ++ x)
  end.
Proof.
  unfold pop_body. destruct (length b <? 5)%nat eqn:E5; [done|].
  rewrite length_app, lookup_total_app_l by lia.
  replace (length b + length x <? 5)%nat with false by lia.
  destruct (expected_len b =? 0)%nat eqn:E0.
  { destruct (_ =? FRAME_TYPE_COMMAND) eqn:Et; [done|]. cbn [negb].
    rewrite expected_len_unknown by lia. simpl. by rewrite drop_app_le by lia. }
  pose proof (expected_len_min b). rewrite expected_len_app, E0 by lia.
  destruct (length b <? expected_len b)%nat eqn:El; [done|].
  replace (length b + length x <? expected_len b)%nat with false by lia.
  rewrite !lookup_total_app_l by lia.
  destruct (_ || _); [by rewrite drop_app_le by lia|].
  by rewrite take_frame_app, drop_app_le by lia.
Qed.

Lemma pop_iter_app b x :
  match pop_iter b with
  | PopWait r => pop_iter (b ++ x) = pop_iter (r ++ x)
  | PopContinue r => pop_iter (b ++ x) = PopContinue (r ++ x)
  | PopFound f r => pop_iter (b ++ x) = PopFound f (r ++ x)
  end.
Proof.
  unfold pop_iter. pose proof (FindHeader_app b x) as Hf.
  destruct (FindHeader_spec b) as (sk & r & _ & [[HF Hat]|[HF _]]); rewrite HF in *; rewrite Hf.
  - pose proof (pop_body_app r x) as Hb. destruct (pop_body r); [|done|done].
    subst. destruct Hat as [r' ->]. reflexivity.
  - done.
Qed.

Lemma pop_iter_length b :
  match pop_iter b with
  | PopWait r => (length r <= length b)%nat
  | PopContinue r | PopFound _ r => (length r < length b)%nat
  end.
Proof.
  unfold pop_iter. pose proof (FindHeader_length b) as Hl.
  destruct (FindHeader b) as [[] r]; simpl in Hl; [|done].
  unfold pop_body. destruct (length r <? 5)%nat eqn:E5; [done|].
  pose proof (expected_len_min r).
  destruct (expected_len r =? 0)%nat eqn:E0;
    [destruct (negb _); cbv beta iota; rewrite ?length_drop; lia|].
  destruct (length r <? expected_len r)%nat eqn:El; [done|].
  destruct (_ || _); cbv beta iota; rewrite length_drop; lia.
Qed.

(** ** The loop *)

Lemma pop_loop_fuel n m b r :
  pop_loop n b = Some r → (n <= m)%nat → pop_loop m b = Some r.
Proof.
  revert m b. induction n as [|n IH]; intros m b; [done|].
  intros Hp Hm. destruct m as [|m]; [lia|]. cbn [pop_loop] in *.
  destruct (pop_iter b); try done. apply IH; [done|lia].
Qed.

Lemma pop_loop_enough n b :
  (length b < n)%nat → ∃ r, pop_loop n b = Some r ∧ (length r.2 <= length b)%nat ∧
    (is_Some r.1 → (length r.2 < length b)%nat).
Proof.
  revert b. induction n as [|n IH]; intros b Hb; [lia|]. cbn [pop_loop].
  pose proof (pop_iter_length b) as Hl. destruct (pop_iter b) as [r|r|f r].
  - eexists. split; [done|]. simpl. split; [done|]. by intros [? ?].
  - destruct (IH r) as (r' & Hr & ? & ?); [lia|]. exists r'. split; [done|]. split; [lia|].
    intros ?. lia.
  - eexists. split; [done|]. simpl. lia.
Qed.

(** The fixpoint equation of the C++ loop. *)
Lemma PopFrame_unfold b :
  PopFrame b = match pop_iter b with
               | PopWait r => Some (None, r)
               | PopContinue r => PopFrame r
               | PopFound f r => Some (Some f, r)
               end.
Proof.
  unfold PopFrame at 1. cbn [pop_loop]. pose proof (pop_iter_length b) as Hl.
  destruct (pop_iter b) as [r|r|f r]; [done| |done].
  destruct (pop_loop_enough (S (length r)) r) as (r' & Hr & _); [lia|].
  unfold PopFrame. rewrite Hr. eapply pop_loop_fuel; [done|lia].
Qed.

(** Strong induction on the buffer's length. *)
Lemma buffer_ind (P : list Z → Prop) :
  (∀ b, (∀ r, (length r < length b)%nat → P r) → P b) → ∀ b, P b.
Proof.
  intros H b. remember (length b) as n eqn:Hn. revert b Hn.
  induction (lt_wf n) as [n _ IH]. intros b ->. apply H. intros r Hr. by eapply IH.
Qed.

(** C4: [PopFrame] always returns: the loop needs no more iterations than the
    buffer has bytes, never grows the buffer, and a returned frame consumes at
    least one byte; more fuel changes nothing. *)
Theorem PopFrame_total b n :
  ∃ f r, PopFrame b = Some (f, r) ∧ (length r <= length b)%nat ∧
         (is_Some f → (length r < length b)%nat) ∧
         pop_loop (S (length b) + n) b = PopFrame b.
Proof.
  destruct (pop_loop_enough (S (length b)) b) as ([f r] & Hp & ? & ?); [lia|].
  exists f, r. split_and!; [done..|]. unfold PopFrame. rewrite Hp.
  eapply pop_loop_fuel; [done|lia].
Qed.

(** More input after a frame does not change the frame; more input while
    waiting is as good as having it from the start. *)
Lemma PopFrame_app b x :
  match PopFrame b with
  | Some (Some f, r) => PopFrame (b ++ x) = Some (Some f, r ++ x)
  | Some (None, r) => PopFrame (b ++ x) = PopFrame (r ++ x)
  | None => False
  end.
Proof.
  induction b as [b IH] using buffer_ind.
  rewrite (PopFrame_unfold b). pose proof (pop_iter_length b) as Hl.
  pose proof (pop_iter_app b x) as Ha. destruct (pop_iter b) as [r|r|f r].
  - by rewrite (PopFrame_unfold (b ++ x)), Ha, <- PopFrame_unfold.
  - specialize (IH r Hl). rewrite (PopFrame_unfold (b ++ x)), Ha. exact IH.
  - by rewrite (PopFrame_unfold (b ++ x)), Ha.
Qed.

Lemma PopFrame_length b :
  match PopFrame b with
  | Some (Some _, r) => (length r < length b)%nat
  | Some (None, r) => (length r <= length b)%nat
  | None => False
  end.
Proof.
  unfold PopFrame. destruct (pop_loop_enough (S (length b)) b) as ([[f|] r] & -> & ? & Hf); [lia| |done].
  by apply Hf.
Qed.

Lemma pop_all_loop_fuel n m b r :
  pop_all_loop n b = Some r → (n <= m)%nat → pop_all_loop m b = Some r.
Proof.
  revert m b r. induction n as [|n IH]; intros m b r; [done|].
  intros Hp Hm. destruct m as [|m]; [lia|]. cbn [pop_all_loop] in *.
  destruct (PopFrame b) as [[[f|] b']|]; try done.
  destruct (pop_all_loop n b') as [[fs r']|] eqn:E; [|done].
  by rewrite (IH m b' _ E) by lia.
Qed.

Lemma pop_all_loop_enough n b :
  (length b < n)%nat → ∃ fs r, pop_all_loop n b = Some (fs, r).
Proof.
  revert b. induction n as [|n IH]; intros b Hb; [lia|]. cbn [pop_all_loop].
  pose proof (PopFrame_length b) as Hl. destruct (PopFrame b) as [[[f|] b']|]; [|by eexists _, _|done].
  destruct (IH b') as (fs & r & ->); [lia|]. by eexists _, _.
Qed.

Lemma PopAll_unfold b :
  PopAll b = match PopFrame b with
             | Some (Some f, b') => '(fs, r) ← PopAll b'; Some (f :: fs, r)
             | Some (None, b') => Some ([], b')
             | None => None
             end.
Proof.
  unfold PopAll at 1. cbn [pop_all_loop].
  pose proof (PopFrame_length b) as Hl. destruct (PopFrame b) as [[[f|] b']|]; [|done..].
  destruct (pop_all_loop_enough (S (length b')) b') as (fs & r & Hr); [lia|].
  unfold PopAll. by rewrite Hr, (pop_all_loop_fuel _ _ _ _ Hr) by lia.
Qed.

Lemma PopAll_total b : ∃ fs r, PopAll b = Some (fs, r).
Proof. apply pop_all_loop_enough. lia. Qed.

(** Draining a prefix first, then the rest, gives the same frames. *)
Lemma PopAll_app b x fs r :
  PopAll b = Some (fs, r) → PopAll (b ++ x) = ('(fs', r') ← PopAll (r ++ x); Some (fs ++ fs', r')).
Proof.
  revert fs r. induction b as [b IH] using buffer_ind. intros fs r.
  rewrite PopAll_unfold. pose proof (PopFrame_app b x) as Ha. pose proof (PopFrame_length b) as Hl.
  destruct (PopFrame b) as [[[f|] b']|]; [| |done].
  - destruct (PopAll b') as [[fs1 r1]|] eqn:E; [|done]. intros [= <- <-].
    rewrite PopAll_unfold, Ha, (IH _ Hl _ _ E). cbn.
    by destruct (PopAll (r1 ++ x)) as [[fs2 r2]|].
  - intros [= <- <-]. rewrite PopAll_unfold, Ha, <- PopAll_unfold.
    by destruct (PopAll (b' ++ x)) as [[fs' r']|].
Qed.

(** Feeding chunk by chunk and draining after each, as the receive thread
    does. *)
Fixpoint FeedAndPop (buffer_ : list Z) (chunks : list (list Z)) : option (list ParsedFrame * list Z) :=
  match chunks with
  | [] => Some ([], buffer_)
  | c :: chunks =>
      '(fs, b) ← PopAll (FeedData buffer_ c);
      '(fs', b') ← FeedAndPop b chunks;
      Some (fs ++ fs', b')
  end.

Lemma FeedAndPop_PopAll buffer_ c chunks :
  FeedAndPop buffer_ (c :: chunks) = PopAll (buffer_ ++ c ++ concat chunks).
Proof.
  revert buffer_ c. induction chunks as [|c' chunks IH]; intros b c.
  - cbn. rewrite FeedData_app, app_nil_r. destruct (PopAll _) as [[fs r]|]; [|done].
    cbn. by rewrite app_nil_r.
  - change (FeedAndPop b (c :: c' :: chunks)) with
      ('(fs, b) ← PopAll (FeedData b c);
       '(fs', b') ← FeedAndPop b (c' :: chunks); Some (fs ++ fs', b')).
    rewrite FeedData_app. destruct (PopAll_total (b ++ c)) as (fs & r & Hr).
    rewrite Hr. cbn [mbind option_bind]. rewrite IH. cbn [concat].
    by rewrite (app_assoc b), (PopAll_app _ _ _ _ Hr).
Qed.

(** C5: how the serial port splits the stream into reads does not matter: the
    frames and the bytes left are those of parsing the whole stream at once. *)
Theorem FeedAndPop_chunking buffer_ c chunks :
  FeedAndPop buffer_ (c :: chunks) = PopAll (buffer_ ++ c ++ concat chunks).
Proof. apply FeedAndPop_PopAll. Qed.

(** ** What a popped frame is *)

(** The bytes of a frame on the wire. *)
Definition frame_bytes (f : ParsedFrame) : list Z :=
  [FRAME_HEADER_0; FRAME_HEADER_1; pf_cnt f; pf_frame_type f] ++ pf_payload f
  ++ [pf_checksum f; FRAME_TAIL_0; FRAME_TAIL_1].

Definition frame_checksum (f : ParsedFrame) : Z :=
  CalcChecksum ([FRAME_HEADER_0; FRAME_HEADER_1; pf_cnt f; pf_frame_type f] ++ pf_payload f).

Lemma BuildFrame_bytes c t p :
  BuildFrame c t p = [FRAME_HEADER_0; FRAME_HEADER_1; c; t] ++ p ++
    [CalcChecksum ([FRAME_HEADER_0; FRAME_HEADER_1; c; t] ++ p); FRAME_TAIL_0; FRAME_TAIL_1].
Proof. unfold BuildFrame. cbn [app]. by rewrite <- !app_assoc. Qed.

Lemma length_BuildFrame c t p : length (BuildFrame c t p) = (length p + 7)%nat.
Proof. rewrite BuildFrame_bytes, !length_app. simpl. lia. Qed.

Lemma drop_last3 (b : list Z) len :
  (3 <= len <= length b)%nat →
  drop (len - 3) b = [b !!! (len - 3)%nat; b !!! (len - 2)%nat; b !!! (len - 1)%nat] ++ drop len b.
Proof.
  intros Hl.
  assert (Hd : ∀ i, (i < length b)%nat → drop i b = b !!! i :: drop (S i) b).
  { intros i Hi. destruct (lookup_lt_is_Some_2 b i Hi) as [y Hy].
    by rewrite (drop_S _ _ _ Hy), (list_lookup_total_correct _ _ _ Hy). }
  rewrite (Hd (len - 3)%nat) by lia. replace (S (len - 3)) with (len - 2)%nat by lia.
  rewrite (Hd (len - 2)%nat) by lia. replace (S (len - 2)) with (len - 1)%nat by lia.
  rewrite (Hd (len - 1)%nat) by lia. replace (S (len - 1)) with len by lia. done.
Qed.

Lemma take_frame_bytes b len :
  at_header b → (9 <= len <= length b)%nat →
  b !!! (len - 2)%nat = FRAME_TAIL_0 → b !!! (len - 1)%nat = FRAME_TAIL_1 →
  b = frame_bytes (take_frame len b) ++ drop len b ∧
  pf_valid (take_frame len b) = (frame_checksum (take_frame len b) =? pf_checksum (take_frame len b)).
Proof.
  intros [r ->] Hl H0 H1. destruct r as [|c [|t r]]; [simpl in Hl; lia..|].
  set (b := FRAME_HEADER_0 :: _) in *.
  assert (Hp : take (len - 3) b =
    [FRAME_HEADER_0; FRAME_HEADER_1; c; t] ++ take (len - 3 - 4) (drop 4 b)).
  { subst b. destruct len as [|[|[|[|[|[|[|len]]]]]]]; [lia..|]. cbn. by rewrite Nat.sub_0_r. }
  split.
  - rewrite <- (take_drop (len - 3) b) at 1. rewrite drop_last3, H0, H1, Hp by lia.
    unfold frame_bytes, take_frame. cbn [pf_cnt pf_frame_type pf_payload pf_checksum].
    by rewrite <- !app_assoc.
  - unfold frame_checksum, take_frame. cbn [pf_cnt pf_frame_type pf_payload pf_checksum pf_valid].
    rewrite Hp. done.
Qed.

Lemma pop_body_found b f r :
  at_header b → pop_body b = PopFound f r →
  b = frame_bytes f ++ r ∧ pf_valid f = (frame_checksum f =? pf_checksum f) ∧
  length b = (expected_len b + length r)%nat.
Proof.
  intros Hat. unfold pop_body. destruct (length b <? 5)%nat eqn:E5; [done|].
  pose proof (expected_len_min b).
  destruct (expected_len b =? 0)%nat eqn:E0; [by destruct (negb _)|].
  destruct (length b <? expected_len b)%nat eqn:El; [done|].
  destruct (_ || _) eqn:Et; [done|]. intros [= <- <-].
  apply orb_false_elim in Et as [H0%negb_false_iff%Z.eqb_eq H1%negb_false_iff%Z.eqb_eq].
  destruct (take_frame_bytes b (expected_len b)) as [Hb Hv]; [done|lia|done|done|].
  split_and!; [done..|]. rewrite length_drop. lia.
Qed.

Lemma pop_body_continue b r : pop_body b = PopContinue r → r = drop 1 b.
Proof. unfold pop_body. intros. repeat case_match; congruence. Qed.

(** The popped frame is a segment of the input of the expected length. *)
Lemma PopFrame_segment b f r :
  PopFrame b = Some (Some f, r) →
  ∃ skipped b', b = skipped ++ b' ∧ b' = frame_bytes f ++ r ∧
                pf_valid f = (frame_checksum f =? pf_checksum f) ∧
                length b' = (expected_len b' + length r)%nat.
Proof.
  revert f r. induction b as [b IH] using buffer_ind. intros f r Hp.
  rewrite PopFrame_unfold in Hp. pose proof (pop_iter_length b) as Hl.
  unfold pop_iter in *.
  destruct (FindHeader_spec b) as (sk & b' & Hb & [[HF Hat]|[HF _]]); rewrite HF in *; [|done].
  destruct (pop_body b') as [w|w|f' w] eqn:Ebody; [done| |].
  - destruct (IH w Hl f r Hp) as (sk' & b2 & Hw & Hv).
    apply pop_body_continue in Ebody as ->. exists (sk ++ take 1 b' ++ sk'), b2. split; [|done].
    rewrite Hb, <- (take_drop 1 b'), Hw at 1. by rewrite <- !app_assoc.
  - injection Hp as <- <-. destruct (pop_body_found b' f' w Hat Ebody) as (Hbytes & Hv & Hlen).
    by exists sk, b'.
Qed.

Lemma expected_len_max b : bytes b → (expected_len b <= 9 + 255 * 14)%nat.
Proof.
  intros Hb.
  assert (Hg : ∀ t c, (GetExpectedFrameLen t c <= 89)%nat).
  { intros t c. unfold GetExpectedFrameLen, HEARTBEAT_FRAME_LEN, CMD_OVERHEAD.
    repeat case_match; lia. }
  unfold expected_len, CalcVariableLenFrameLen, VAR_OVERHEAD.
  destruct (GetExpectedFrameLen _ _ =? 0)%nat; [|etrans; [apply Hg|lia]].
  destruct (negb _); [lia|]. destruct (length b <? 6)%nat eqn:E; [lia|].
  assert (byte (b !!! 5%nat)) as H5.
  { eapply Forall_lookup_1; [exact Hb|]. apply list_lookup_lookup_total_lt. lia. }
  unfold inu in H5. repeat case_match; lia.
Qed.

(** A buffer of bytes gives frames of bytes, of bounded length. *)
Lemma PopFrame_bytes b f r :
  bytes b → PopFrame b = Some (Some f, r) →
  bytes (pf_payload f) ∧ byte (pf_cnt f) ∧ byte (pf_frame_type f) ∧ bytes r ∧
  (length (pf_payload f) <= 9 + 255 * 14)%nat.
Proof.
  intros Hb Hp. destruct (PopFrame_segment _ _ _ Hp) as (sk & b' & -> & Hb' & _ & Hlen).
  apply Forall_app in Hb as [_ Hb]. pose proof (expected_len_max _ Hb) as Hm.
  rewrite Hb' in Hb, Hlen at 1. unfold frame_bytes in Hlen. rewrite !length_app in Hlen.
  apply Forall_app in Hb as [Hf Hr]. unfold frame_bytes in Hf.
  apply Forall_app in Hf as [Hh Hf]. apply Forall_app in Hf as [Hpl _].
  repeat (apply Forall_cons in Hh as [? Hh]). split_and!; [done..|]. lia.
Qed.

Lemma PopFrame_wait_bytes b r : bytes b → PopFrame b = Some (None, r) → bytes r.
Proof.
  revert r. induction b as [b IH] using buffer_ind. intros r Hb Hp.
  rewrite PopFrame_unfold in Hp. pose proof (pop_iter_length b) as Hl.
  unfold pop_iter in *.
  destruct (FindHeader_spec b) as (sk & b' & -> & [[HF Hat]|[HF _]]); rewrite HF in *;
    apply Forall_app in Hb as [_ Hb']; [|by injection Hp as <-].
  destruct (pop_body b') as [w|w|f' w] eqn:Ebody; [| |done].
  - injection Hp as <-. pose proof (pop_body_app b' []) as Ha. by rewrite Ebody in Ha; subst.
  - apply (IH w Hl); [|done]. apply pop_body_continue in Ebody as ->. by apply Forall_drop.
Qed.

(** A frame returned by [PopFrame] is a contiguous part of the input, from
    the header to the tail: the bytes before it are dropped, the bytes after it
    are kept.  It is marked valid exactly when its checksum byte is the
    checksum of its header, counter, type and payload, and then it is
    [BuildFrame] of its own fields. *)
Theorem PopFrame_sound b f r :
  PopFrame b = Some (Some f, r) →
  ∃ skipped, b = skipped ++ frame_bytes f ++ r ∧
             (pf_valid f = true ↔ pf_checksum f = frame_checksum f) ∧
             (pf_valid f = true →
                frame_bytes f = BuildFrame (pf_cnt f) (pf_frame_type f) (pf_payload f)).
Proof.
  intros Hp. destruct (PopFrame_segment _ _ _ Hp) as (sk & b' & -> & -> & Hv & _).
  exists sk. split; [done|]. rewrite Hv. split; [rewrite Z.eqb_eq; split; auto|].
  intros Hc%Z.eqb_eq. rewrite BuildFrame_bytes. unfold frame_bytes, frame_checksum in *.
  by rewrite <- Hc.
Qed.

Lemma length_frame_bytes f : length (frame_bytes f) = (length (pf_payload f) + 7)%nat.
Proof. unfold frame_bytes. rewrite !length_app. simpl. lia. Qed.

Lemma frame_bytes_trailer f rest i :
  (i < 3)%nat →
  (frame_bytes f ++ rest) !!! (length (pf_payload f) + 4 + i)%nat =
    [pf_checksum f; FRAME_TAIL_0; FRAME_TAIL_1] !!! i.
Proof.
  intros Hi. rewrite lookup_total_app_l by (rewrite length_frame_bytes; lia).
  unfold frame_bytes. rewrite app_assoc, lookup_total_app_r by (rewrite length_app; simpl; lia).
  f_equal. rewrite length_app. simpl. lia.
Qed.

Lemma take_frame_frame_bytes f rest :
  pf_valid f = (frame_checksum f =? pf_checksum f) →
  take_frame (length (frame_bytes f)) (frame_bytes f ++ rest) = f.
Proof.
  intros Hv. unfold take_frame. rewrite length_frame_bytes.
  replace (length (pf_payload f) + 7 - 3)%nat with (length (pf_payload f) + 4 + 0)%nat by lia.
  rewrite frame_bytes_trailer by lia. replace (_ + 0 - 4)%nat with (length (pf_payload f)) by lia.
  assert (Ht : take (length (pf_payload f) + 4 + 0) (frame_bytes f ++ rest) =
    [FRAME_HEADER_0; FRAME_HEADER_1; pf_cnt f; pf_frame_type f] ++ pf_payload f).
  { unfold frame_bytes. rewrite !app_assoc, <- (app_assoc _ _ rest). apply take_app_length'.
    rewrite length_app. simpl. lia. }
  rewrite Ht. fold (frame_checksum f).
  unfold frame_bytes. cbn [lookup_total list_lookup_total app drop].
  rewrite drop_0, <- app_assoc, take_app_length. destruct f; cbn in *. by rewrite Hv.
Qed.

(** A frame at the head of the buffer is popped whole, whatever follows it. *)
Lemma PopFrame_frame_bytes f rest :
  (2 <= length (pf_payload f))%nat →
  pf_valid f = (frame_checksum f =? pf_checksum f) →
  expected_len (frame_bytes f ++ rest) = length (frame_bytes f) →
  PopFrame (frame_bytes f ++ rest) = Some (Some f, rest).
Proof.
  intros Hp Hv Hlen. pose proof (length_frame_bytes f) as HL.
  rewrite PopFrame_unfold. unfold pop_iter. rewrite FindHeader_at by (by eexists).
  unfold pop_body. rewrite Hlen, length_app.
  replace (_ <? 5)%nat with false by lia. replace (_ =? 0)%nat with false by lia.
  replace (_ <? _)%nat with false by lia.
  replace (length (frame_bytes f) - 2)%nat with (length (pf_payload f) + 4 + 1)%nat by lia.
  replace (length (frame_bytes f) - 1)%nat with (length (pf_payload f) + 4 + 2)%nat by lia.
  rewrite !frame_bytes_trailer by lia. cbn [lookup_total list_lookup_total].
  rewrite !Z.eqb_refl. cbn [negb orb].
  by rewrite take_frame_frame_bytes, drop_app_length by done.
Qed.

(** The frame [BuildFrame c t p] is parsed as. *)
Definition built_frame (c t : Z) (p : list Z) : ParsedFrame :=
  {| pf_cnt := c; pf_frame_type := t; pf_payload := p;
     pf_checksum := CalcChecksum ([FRAME_HEADER_0; FRAME_HEADER_1; c; t] ++ p);
     pf_valid := true |}.

Lemma built_frame_bytes c t p : frame_bytes (built_frame c t p) = BuildFrame c t p.
Proof. by rewrite BuildFrame_bytes. Qed.

Lemma PopFrame_build c t p rest :
  (2 <= length p)%nat →
  expected_len (BuildFrame c t p ++ rest) = length (BuildFrame c t p) →
  PopFrame (BuildFrame c t p ++ rest) = Some (Some (built_frame c t p), rest).
Proof.
  rewrite <- built_frame_bytes. intros Hp Hlen. apply PopFrame_frame_bytes; [done| |done].
  by rewrite Z.eqb_refl.
Qed.

(** Bytes before a header that contain no header byte are skipped. *)
Lemma FindHeader_skip g b :
  FRAME_HEADER_0 ∉ g → at_header b → FindHeader (g ++ b) = (true, b).
Proof.
  intros Hg Hat. induction g as [|x g IH]; [by apply FindHeader_at|].
  apply not_elem_of_cons in Hg as [Hx Hg]. specialize (IH Hg).
  destruct (g ++ b) as [|y r] eqn:E; [by destruct Hat as [? ->]; destruct g|].
  cbn [app]. rewrite E, FindHeader_cons.
  replace (x =? FRAME_HEADER_0) with false by lia. exact IH.
Qed.

Lemma PopFrame_skip g b :
  FRAME_HEADER_0 ∉ g → at_header b → PopFrame (g ++ b) = PopFrame b.
Proof.
  intros. rewrite !PopFrame_unfold. unfold pop_iter. by rewrite FindHeader_skip, FindHeader_at.
Qed.

(** ** Unknown command bytes *)

(** A command byte whose frame length neither table knows. *)
Definition unknown_command (cmd : Z) : bool :=
  (GetExpectedFrameLen FRAME_TYPE_COMMAND cmd =? 0)%nat
  && negb (cmd =? CMD_SET_ROUTE) && negb (cmd =? CMD_SET_GEOFENCE).

(** Once a command frame with an unknown command byte is at the head of
    the buffer, the parser never delivers a frame again, whatever is received:
    it keeps waiting for a length it cannot determine, and the buffer grows by
    every byte fed. *)
Theorem unknown_command_stalls cnt cmd rest chunks :
  unknown_command cmd = true →
  let b := [FRAME_HEADER_0; FRAME_HEADER_1; cnt; FRAME_TYPE_COMMAND; cmd] ++ rest in
  FeedAndPop b chunks = Some ([], b ++ concat chunks).
Proof.
  intros Hcmd b.
  assert (Hst : ∀ x, PopAll (b ++ x) = Some ([], b ++ x)).
  { intros x. rewrite PopAll_unfold, PopFrame_unfold. unfold pop_iter.
    rewrite FindHeader_at by (by eexists). unfold pop_body, expected_len, CalcVariableLenFrameLen.
    unfold unknown_command in Hcmd. apply andb_prop in Hcmd as [[Hc Hr]%andb_prop Hg].
    cbn [b app lookup_total list_lookup_total length Nat.leb andb].
    rewrite Z.eqb_refl. cbn [andb negb]. rewrite Hc.
    replace (cmd =? CMD_SET_ROUTE) with false by lia.
    replace (cmd =? CMD_SET_GEOFENCE) with false by lia. by destruct (_ <? 6)%nat. }
  destruct chunks as [|c chunks]; [by cbn; rewrite app_nil_r|].
  rewrite FeedAndPop_PopAll, Hst. done.
Qed.

Lemma unknown_command_stalls_witness :
  FeedAndPop [0xEB; 0x90; 0; 0x10; 0x08] [[1; 0; 0xED; 0xDE]; [0xEB; 0x90; 1; 0x20; 3; 0; 0x9F; 0xED; 0xDE]]
  = Some ([], [0xEB; 0x90; 0; 0x10; 0x08] ++
              [1; 0; 0xED; 0xDE; 0xEB; 0x90; 1; 0x20; 3; 0; 0x9F; 0xED; 0xDE]).
Proof.
  apply (unknown_command_stalls 0 0x08 []
           [[1; 0; 0xED; 0xDE]; [0xEB; 0x90; 1; 0x20; 3; 0; 0x9F; 0xED; 0xDE]]).
  reflexivity.
Defined.

(** C6 witness. *)
Lemma PopFrame_sound_witness :
  ∃ skipped,
    [7; 0xEB; 0x90; 1; 0x20; 3; 0; 0x9F; 0xED; 0xDE; 5] =
      skipped ++ frame_bytes (built_frame 1 0x20 [3; 0]) ++ [5] ∧
    (pf_valid (built_frame 1 0x20 [3; 0]) = true ↔
       pf_checksum (built_frame 1 0x20 [3; 0]) = frame_checksum (built_frame 1 0x20 [3; 0])) ∧
    (pf_valid (built_frame 1 0x20 [3; 0]) = true →
       frame_bytes (built_frame 1 0x20 [3; 0]) = BuildFrame 1 0x20 [3; 0]).
Proof. apply (PopFrame_sound _ (built_frame 1 0x20 [3; 0]) [5]). vm_compute. reflexivity. Defined.
