(* ===== verification/FlyControlCodec.v ===== *)
(** * Flight-control codec

    [src/src/util/my_fly_control/FlyControlCodec.cpp]: decoders of the three
    frames the flight controller sends, encoders of the sixteen commands it
    accepts, fault bits and display names.  A decoder takes the payload and the
    structure it fills (the C++ out-parameter); an encoder writes the payload
    field by field and builds the frame. *)

From S2P Require Import Prelude.
From S2P Require Import Bytes.
From S2P Require Import MyLEHelper.
From S2P Require Import FlyControlProtocol.
From S2P Require Import FlyControlFrame.

Local Open Scope Z_scope.

(** ** Fault bits *)

Definition bit_of (val k : Z) : bool := negb (Z.land (Z.shiftr val k) 1 =? 0).

Definition FromU16 (val : Z) : FaultBits := {|
  fb_link_lost := bit_of val 0;
  fb_distance_exceed := bit_of val 1;
  fb_attitude_exceed := bit_of val 2;
  fb_altitude_too_low := bit_of val 4;
  fb_altitude_too_high := bit_of val 5;
  fb_voltage_too_low := bit_of val 6;
  fb_mission_fault := bit_of val 7;
  fb_gps_lost := bit_of val 8;
  fb_takeoff_failed := bit_of val 9;
  fb_attitude_error := bit_of val 10;
  fb_return_timeout := bit_of val 13;
  fb_return_dist_error := bit_of val 14;
  fb_parachute_failed := bit_of val 15
|}.

Definition or_bit (flag : bool) (k val : Z) : Z :=
  if flag then wrapu 16 (Z.lor val (Z.shiftl 1 k)) else val.

Definition ToU16 (fb : FaultBits) : Z :=
  let val := 0 in
  let val := or_bit (fb_link_lost fb) 0 val in
  let val := or_bit (fb_distance_exceed fb) 1 val in
  let val := or_bit (fb_attitude_exceed fb) 2 val in
  let val := or_bit (fb_altitude_too_low fb) 4 val in
  let val := or_bit (fb_altitude_too_high fb) 5 val in
  let val := or_bit (fb_voltage_too_low fb) 6 val in
  let val := or_bit (fb_mission_fault fb) 7 val in
  let val := or_bit (fb_gps_lost fb) 8 val in
  let val := or_bit (fb_takeoff_failed fb) 9 val in
  let val := or_bit (fb_attitude_error fb) 10 val in
  let val := or_bit (fb_return_timeout fb) 13 val in
  let val := or_bit (fb_return_dist_error fb) 14 val in
  let val := or_bit (fb_parachute_failed fb) 15 val in
  val.

(** ** Decoders *)

Definition DecodeHeartbeat (payload : list Z) (out : HeartbeatData) : outcome (bool * HeartbeatData) :=
  if (length payload <? 82)%nat then Ret (false, out)
  else
    let off := 0 in
    let read : reader HeartbeatData :=
      aircraft_id ← MyLEHelper.read_uint8;
      run_mode ← MyLEHelper.read_uint8;
      satellite_count ← MyLEHelper.read_uint8;
      longitude ← MyLEHelper.read_uint32;
      latitude ← MyLEHelper.read_uint32;
      altitude ← MyLEHelper.read_uint16;
      relative_alt ← MyLEHelper.read_uint16;
      airspeed ← MyLEHelper.read_uint16;
      groundspeed ← MyLEHelper.read_uint16;
      velocity_x ← MyLEHelper.read_int16;
      velocity_y ← MyLEHelper.read_int16;
      velocity_z ← MyLEHelper.read_int16;
      accel_x ← MyLEHelper.read_int16;
      accel_y ← MyLEHelper.read_int16;
      accel_z ← MyLEHelper.read_int16;
      roll ← MyLEHelper.read_int16;
      pitch ← MyLEHelper.read_int16;
      yaw ← MyLEHelper.read_uint16;
      flight_mode ← MyLEHelper.read_uint8;
      current_waypoint ← MyLEHelper.read_uint16;
      battery_voltage ← MyLEHelper.read_uint16;
      battery_percent ← MyLEHelper.read_uint8;
      battery_current ← MyLEHelper.read_uint16;
      atm_pressure ← MyLEHelper.read_uint16;
      utc_timestamp ← MyLEHelper.read_uint64;
      fault_info ← MyLEHelper.read_uint16;
      rotation_speed ← MyLEHelper.read_uint16;
      throttle ← MyLEHelper.read_uint16;
      target_altitude ← MyLEHelper.read_uint16;
      target_speed ← MyLEHelper.read_uint16;
      origin_distance ← MyLEHelper.read_uint16;
      origin_heading ← MyLEHelper.read_uint16;
      target_distance ← MyLEHelper.read_uint16;
      flight_state ← MyLEHelper.read_uint8;
      altitude_state ← MyLEHelper.read_uint8;
      state_switch_src ← MyLEHelper.read_uint8;
      flight_time ← MyLEHelper.read_uint16;
      flight_range ← MyLEHelper.read_uint16;
      reserved ← MyLEHelper.read_uint32;
      mret {| hb_cnt := hb_cnt out;
         hb_aircraft_id := aircraft_id;
         hb_run_mode := run_mode;
         hb_satellite_count := satellite_count;
         hb_longitude := wraps 32 longitude;
         hb_latitude := wraps 32 latitude;
         hb_altitude := altitude;
         hb_relative_alt := relative_alt;
         hb_airspeed := airspeed;
         hb_groundspeed := groundspeed;
         hb_velocity_x := velocity_x;
         hb_velocity_y := velocity_y;
         hb_velocity_z := velocity_z;
         hb_accel_x := accel_x;
         hb_accel_y := accel_y;
         hb_accel_z := accel_z;
         hb_roll := roll;
         hb_pitch := pitch;
         hb_yaw := yaw;
         hb_flight_mode := flight_mode;
         hb_current_waypoint := current_waypoint;
         hb_battery_voltage := battery_voltage;
         hb_battery_percent := battery_percent;
         hb_battery_current := battery_current;
         hb_atm_pressure := atm_pressure;
         hb_utc_timestamp := utc_timestamp;
         hb_fault_info := fault_info;
         hb_rotation_speed := rotation_speed;
         hb_throttle := throttle;
         hb_target_altitude := target_altitude;
         hb_target_speed := target_speed;
         hb_origin_distance := origin_distance;
         hb_origin_heading := origin_heading;
         hb_target_distance := target_distance;
         hb_flight_state := flight_state;
         hb_altitude_state := altitude_state;
         hb_state_switch_src := state_switch_src;
         hb_flight_time := flight_time;
         hb_flight_range := flight_range;
         hb_reserved := reserved |} in
    '(hb, _) ← read payload off;
    Ret (true, hb).

Definition DecodeGimbalControl (payload : list Z) (out : GimbalControlData) : outcome (bool * GimbalControlData) :=
  if (length payload <? 5)%nat then Ret (false, out)
  else
    let off := 0 in
    let read : reader GimbalControlData :=
      enable ← MyLEHelper.read_uint8;
      pitch_angle ← MyLEHelper.read_int16;
      yaw_angle ← MyLEHelper.read_int16;
      mret {| gc_cnt := gc_cnt out;
         gc_enable := enable;
         gc_pitch_angle := pitch_angle;
         gc_yaw_angle := yaw_angle |} in
    '(hb, _) ← read payload off;
    Ret (true, hb).

Definition DecodeCommandReply (payload : list Z) (out : CommandReplyData) : outcome (bool * CommandReplyData) :=
  if (length payload <? 2)%nat then Ret (false, out)
  else
    let off := 0 in
    let read : reader CommandReplyData :=
      replied_cmd ← MyLEHelper.read_uint8;
      result ← MyLEHelper.read_uint8;
      mret {| cr_cnt := cr_cnt out;
         cr_replied_cmd := replied_cmd;
         cr_result := result |} in
    '(hb, _) ← read payload off;
    Ret (true, hb).

(** ** Encoders *)

Definition EncodeSetDestination (cnt : Z) (data : SetDestinationData) : list Z :=
  let payload := [] in
  let payload := MyLEHelper.write_uint8 payload (sd_cmd_type data) in
  let payload := MyLEHelper.write_uint32 payload (wrapu 32 (sd_longitude data)) in
  let payload := MyLEHelper.write_uint32 payload (wrapu 32 (sd_latitude data)) in
  let payload := MyLEHelper.write_uint16 payload (sd_altitude data) in
  BuildFrame cnt FRAME_TYPE_SET_DESTINATION payload.

Definition EncodeSetRoute_point (payload : list Z) (pt : RoutePoint) : list Z :=
  let payload := MyLEHelper.write_uint32 payload (wrapu 32 (rp_longitude pt)) in
  let payload := MyLEHelper.write_uint32 payload (wrapu 32 (rp_latitude pt)) in
  let payload := MyLEHelper.write_uint16 payload (rp_altitude pt) in
  let payload := MyLEHelper.write_uint16 payload (rp_index pt) in
  MyLEHelper.write_uint16 payload (rp_speed pt).

Definition EncodeSetRoute (cnt : Z) (data : SetRouteData) : list Z :=
  let payload := [] in
  let payload := MyLEHelper.write_uint8 payload (sr_cmd_type data) in
  let payload := MyLEHelper.write_uint8 payload (wrapu 8 (Z.of_nat (length (sr_points data)))) in
  let payload := foldl EncodeSetRoute_point payload (sr_points data) in
  BuildFrame cnt FRAME_TYPE_COMMAND payload.

Definition EncodeSetAngle (cnt : Z) (data : SetAngleData) : list Z :=
  let payload := [] in
  let payload := MyLEHelper.write_uint8 payload (sa_cmd_type data) in
  let payload := MyLEHelper.write_int16 payload (sa_pitch data) in
  let payload := MyLEHelper.write_uint16 payload (sa_yaw data) in
  BuildFrame cnt FRAME_TYPE_COMMAND payload.

Definition EncodeSetSpeed (cnt : Z) (data : SetSpeedData) : list Z :=
  let payload := [] in
  let payload := MyLEHelper.write_uint8 payload (ss_cmd_type data) in
  let payload := MyLEHelper.write_uint16 payload (ss_speed data) in
  BuildFrame cnt FRAME_TYPE_COMMAND payload.

Definition EncodeSetAltitude (cnt : Z) (data : SetAltitudeData) : list Z :=
  let payload := [] in
  let payload := MyLEHelper.write_uint8 payload (sal_cmd_type data) in
  let payload := MyLEHelper.write_uint8 payload (sal_altitude_type data) in
  let payload := MyLEHelper.write_uint16 payload (sal_altitude data) in
  BuildFrame cnt FRAME_TYPE_COMMAND payload.

Definition EncodePowerSwitch (cnt : Z) (data : PowerSwitchData) : list Z :=
  let payload := [] in
  let payload := MyLEHelper.write_uint8 payload (ps_cmd_type data) in
  let payload := MyLEHelper.write_uint8 payload (ps_command data) in
  BuildFrame cnt FRAME_TYPE_COMMAND payload.

Definition EncodeParachute (cnt : Z) (data : ParachuteData) : list Z :=
  let payload := [] in
  let payload := MyLEHelper.write_uint8 payload (pa_cmd_type data) in
  let payload := MyLEHelper.write_uint8 payload (pa_parachute_type data) in
  BuildFrame cnt FRAME_TYPE_COMMAND payload.

Definition EncodeButtonCommand (cnt : Z) (data : ButtonCommandData) : list Z :=
  let payload := [] in
  let payload := MyLEHelper.write_uint8 payload (bc_cmd_type data) in
  let payload := MyLEHelper.write_uint8 payload (bc_button data) in
  BuildFrame cnt FRAME_TYPE_COMMAND payload.

Definition EncodeSetOriginReturn (cnt : Z) (data : SetOriginReturnData) : list Z :=
  let payload := [] in
  let payload := MyLEHelper.write_uint8 payload (so_cmd_type data) in
  let payload := MyLEHelper.write_uint8 payload (so_point_type data) in
  let payload := MyLEHelper.write_uint32 payload (wrapu 32 (so_longitude data)) in
  let payload := MyLEHelper.write_uint32 payload (wrapu 32 (so_latitude data)) in
  let payload := MyLEHelper.write_uint16 payload (so_altitude data) in
  BuildFrame cnt FRAME_TYPE_COMMAND payload.

Definition EncodeSetGeofence_point (payload : list Z) (pt : GeofencePoint) : list Z :=
  let payload := MyLEHelper.write_uint32 payload (wrapu 32 (gp_longitude pt)) in
  let payload := MyLEHelper.write_uint32 payload (wrapu 32 (gp_latitude pt)) in
  let payload := MyLEHelper.write_uint16 payload (gp_altitude pt) in
  MyLEHelper.write_uint8 payload (gp_index pt).

Definition EncodeSetGeofence (cnt : Z) (data : SetGeofenceData) : list Z :=
  let payload := [] in
  let payload := MyLEHelper.write_uint8 payload (sg_cmd_type data) in
  let payload := MyLEHelper.write_uint8 payload (wrapu 8 (Z.of_nat (length (sg_points data)))) in
  let payload := foldl EncodeSetGeofence_point payload (sg_points data) in
  BuildFrame cnt FRAME_TYPE_COMMAND payload.

Definition EncodeSwitchMode (cnt : Z) (data : SwitchModeData) : list Z :=
  let payload := [] in
  let payload := MyLEHelper.write_uint8 payload (sm_cmd_type data) in
  let payload := MyLEHelper.write_uint8 payload (sm_mode data) in
  BuildFrame cnt FRAME_TYPE_COMMAND payload.

Definition EncodeGuidance (cnt : Z) (data : GuidanceData) : list Z :=
  let payload := [] in
  let payload := MyLEHelper.write_uint8 payload (gd_cmd_type data) in
  let payload := MyLEHelper.write_uint8 payload (gd_mode_switch data) in
  let payload := MyLEHelper.write_uint32 payload (gd_frame_id data) in
  let payload := MyLEHelper.write_uint32 payload (gd_track_id data) in
  let payload := MyLEHelper.write_uint32 payload (wrapu 32 (gd_target_lon data)) in
  let payload := MyLEHelper.write_uint32 payload (wrapu 32 (gd_target_lat data)) in
  let payload := MyLEHelper.write_uint16 payload (gd_target_alt data) in
  BuildFrame cnt FRAME_TYPE_COMMAND payload.

Definition EncodeGuidanceNew (cnt : Z) (data : GuidanceNewData) : list Z :=
  let payload := [] in
  let payload := MyLEHelper.write_uint8 payload (gn_cmd_type data) in
  let payload := MyLEHelper.write_int16 payload (gn_pitch_los_rate data) in
  let payload := MyLEHelper.write_int16 payload (gn_yaw_los_rate data) in
  let payload := MyLEHelper.write_int16 payload (gn_pitch_los_angle data) in
  let payload := MyLEHelper.write_int16 payload (gn_yaw_los_angle data) in
  let payload := MyLEHelper.write_int16 payload (gn_pitch_frame_angle data) in
  let payload := MyLEHelper.write_int16 payload (gn_yaw_frame_angle data) in
  let payload := MyLEHelper.write_int16 payload (gn_gimbal_pitch_angle data) in
  let payload := MyLEHelper.write_int16 payload (gn_gimbal_yaw_angle data) in
  let payload := MyLEHelper.write_int16 payload (gn_acc_x data) in
  let payload := MyLEHelper.write_int16 payload (gn_acc_y data) in
  let payload := MyLEHelper.write_int16 payload (gn_acc_z data) in
  let payload := MyLEHelper.write_int16 payload (gn_gyro_x data) in
  let payload := MyLEHelper.write_int16 payload (gn_gyro_y data) in
  let payload := MyLEHelper.write_int16 payload (gn_gyro_z data) in
  let payload := MyLEHelper.write_uint16 payload (gn_target_id data) in
  let payload := MyLEHelper.write_uint16 payload (gn_target_type data) in
  let payload := MyLEHelper.write_uint32 payload (wrapu 32 (gn_target_lon data)) in
  let payload := MyLEHelper.write_uint32 payload (wrapu 32 (gn_target_lat data)) in
  let payload := MyLEHelper.write_uint32 payload (wrapu 32 (gn_target_alt data)) in
  let payload := MyLEHelper.write_uint32 payload (wrapu 32 (gn_laser_range data)) in
  let payload := MyLEHelper.write_uint8 payload (gn_status data) in
  BuildFrame cnt FRAME_TYPE_COMMAND payload.

Definition EncodeGimbalAngRate (cnt : Z) (data : GimbalAngRateData) : list Z :=
  let payload := [] in
  let payload := MyLEHelper.write_uint8 payload (gr_cmd_type data) in
  let payload := MyLEHelper.write_uint32 payload (wrapu 32 (gr_pitch_los_rate data)) in
  let payload := MyLEHelper.write_uint32 payload (wrapu 32 (gr_yaw_los_rate data)) in
  let payload := MyLEHelper.write_uint32 payload (wrapu 32 (gr_target_lon data)) in
  let payload := MyLEHelper.write_uint32 payload (wrapu 32 (gr_target_lat data)) in
  let payload := MyLEHelper.write_uint32 payload (wrapu 32 (gr_target_alt data)) in
  let payload := MyLEHelper.write_uint32 payload (wrapu 32 (gr_laser_range data)) in
  let payload := MyLEHelper.write_uint8 payload (gr_status data) in
  BuildFrame cnt FRAME_TYPE_COMMAND payload.

Definition EncodeGimbalAngle (cnt : Z) (data : GimbalAngleData) : list Z :=
  let payload := [] in
  let payload := MyLEHelper.write_uint8 payload (ga_cmd_type data) in
  let payload := MyLEHelper.write_uint32 payload (wrapu 32 (ga_pitch_frame_angle data)) in
  let payload := MyLEHelper.write_uint32 payload (wrapu 32 (ga_yaw_frame_angle data)) in
  let payload := MyLEHelper.write_uint32 payload (wrapu 32 (ga_pitch_ang_rate data)) in
  let payload := MyLEHelper.write_uint32 payload (wrapu 32 (ga_yaw_ang_rate data)) in
  BuildFrame cnt FRAME_TYPE_COMMAND payload.

Definition EncodeTargetState (cnt : Z) (data : TargetStateData) : list Z :=
  let payload := [] in
  let payload := MyLEHelper.write_uint8 payload (ts_cmd_type data) in
  let payload := MyLEHelper.write_uint32 payload (wrapu 32 (ts_pitch_axis_angle data)) in
  let payload := MyLEHelper.write_uint32 payload (wrapu 32 (ts_yaw_axis_angle data)) in
  let payload := MyLEHelper.write_uint8 payload (ts_target_vertical_ratio data) in
  let payload := MyLEHelper.write_uint8 payload (ts_target_horizontal_ratio data) in
  let payload := MyLEHelper.write_uint8 payload (ts_status data) in
  BuildFrame cnt FRAME_TYPE_COMMAND payload.

(** ** Display names *)

Definition GetCommandName (cmd_type : Z) : string :=
  if cmd_type =? CMD_SET_DESTINATION then "设置飞行目的地" else
  if cmd_type =? CMD_SET_ROUTE then "设置飞行航线" else
  if cmd_type =? CMD_SET_ANGLE then "角度控制" else
  if cmd_type =? CMD_SET_SPEED then "速度控制" else
  if cmd_type =? CMD_SET_ALTITUDE then "高度控制" else
  if cmd_type =? CMD_POWER_SWITCH then "载荷电源开关" else
  if cmd_type =? CMD_PARACHUTE then "开伞控制" else
  if cmd_type =? CMD_BUTTON then "指令按钮" else
  if cmd_type =? CMD_SET_ORIGIN_RETURN then "设置原点/返航点" else
  if cmd_type =? CMD_SET_GEOFENCE then "设置电子围栏" else
  if cmd_type =? CMD_SWITCH_MODE then "切换运行模式" else
  if cmd_type =? CMD_GUIDANCE then "末制导指令" else
  if cmd_type =? CMD_GUIDANCE_NEW then "末制导指令(新版)" else
  if cmd_type =? CMD_GIMBAL_ANG_RATE then "吊舱姿态-角速度模式" else
  if cmd_type =? CMD_GIMBAL_ANGLE then "吊舱姿态-角度模式" else
  if cmd_type =? CMD_TARGET_STATE then "识别目标状态" else
  "未知指令".

Definition GetFrameTypeName (frame_type : Z) : string :=
  if frame_type =? FRAME_TYPE_HEARTBEAT then "飞控心跳" else
  if frame_type =? FRAME_TYPE_SET_DESTINATION then "设置目的地" else
  if frame_type =? FRAME_TYPE_COMMAND then "飞行控制指令" else
  if frame_type =? FRAME_TYPE_REPLY then "指令回复" else
  if frame_type =? FRAME_TYPE_GIMBAL_CONTROL then "云台控制" else
  "未知帧类型".
