(* ===== verification/FlyControlCodecFacts.v ===== *)
(** * Flight-control codec: properties

    The wire format as a table of (width, value) pairs, the proof that each
    encoder writes its table and each decoder inverts it, and the composition
    with the frame parser: every command the server sends is recovered whole
    from the byte stream, and different commands have different encodings. *)

From S2P Require Import Prelude.
From S2P Require Import Bytes.
From S2P Require Import MyLEHelper.
From S2P Require Import FlyControlProtocol.
From S2P Require Import FlyControlFrame.
From S2P Require Import FlyControlCodec.

Local Open Scope Z_scope.

(** ** Wire tables *)

(** A field of [n] bytes holding the unsigned value [v], little-endian. *)
Definition wire (fields : list (nat * Z)) : list Z :=
  concat (map (λ '(n, v), le_encode n v) fields).

Lemma wire_cons n v fs : wire ((n, v) :: fs) = le_encode n v ++ wire fs.
Proof. reflexivity. Qed.

Lemma wire_app a b : wire (a ++ b) = wire a ++ wire b.
Proof. unfold wire. by rewrite map_app, concat_app. Qed.

Lemma wire_bytes fs : bytes (wire fs).
Proof.
  induction fs as [|[n v] fs IH]; [constructor|]. rewrite wire_cons.
  apply Forall_app. auto using le_encode_bytes.
Qed.

Lemma length_wire fs : length (wire fs) = sum_list (map fst fs).
Proof.
  induction fs as [|[n v] fs IH]; [done|].
  rewrite wire_cons, length_app, length_le_encode, IH. done.
Qed.

(** Fields of the same widths, in range: equal bytes, equal values. *)
Lemma wire_inj fs gs :
  map fst fs = map fst gs →
  Forall (λ '(n, v), 0 <= v < 256 ^ Z.of_nat n) fs →
  Forall (λ '(n, v), 0 <= v < 256 ^ Z.of_nat n) gs →
  wire fs = wire gs → fs = gs.
Proof.
  revert gs. induction fs as [|[n v] fs IH]; intros [|[m w] gs] Hw Hf Hg He; try done.
  injection Hw as -> Hw. apply Forall_cons in Hf as [Hv Hf]. apply Forall_cons in Hg as [Hv' Hg].
  rewrite !wire_cons in He. apply app_inj_1 in He as [He1 He2]; [|by rewrite !length_le_encode].
  f_equal; [|by apply IH]. f_equal. by eapply le_encode_inj.
Qed.

(** The bytes of a heartbeat after the counter: the layout in the comment of
    [DecodeHeartbeat]. *)
Definition heartbeat_fields (hb : HeartbeatData) : list (nat * Z) :=
  [(1%nat, hb_aircraft_id hb);
   (1%nat, hb_run_mode hb);
   (1%nat, hb_satellite_count hb);
   (4%nat, wrapu 32 (hb_longitude hb));
   (4%nat, wrapu 32 (hb_latitude hb));
   (2%nat, hb_altitude hb);
   (2%nat, hb_relative_alt hb);
   (2%nat, hb_airspeed hb);
   (2%nat, hb_groundspeed hb);
   (2%nat, wrapu 16 (hb_velocity_x hb));
   (2%nat, wrapu 16 (hb_velocity_y hb));
   (2%nat, wrapu 16 (hb_velocity_z hb));
   (2%nat, wrapu 16 (hb_accel_x hb));
   (2%nat, wrapu 16 (hb_accel_y hb));
   (2%nat, wrapu 16 (hb_accel_z hb));
   (2%nat, wrapu 16 (hb_roll hb));
   (2%nat, wrapu 16 (hb_pitch hb));
   (2%nat, hb_yaw hb);
   (1%nat, hb_flight_mode hb);
   (2%nat, hb_current_waypoint hb);
   (2%nat, hb_battery_voltage hb);
   (1%nat, hb_battery_percent hb);
   (2%nat, hb_battery_current hb);
   (2%nat, hb_atm_pressure hb);
   (8%nat, hb_utc_timestamp hb);
   (2%nat, hb_fault_info hb);
   (2%nat, hb_rotation_speed hb);
   (2%nat, hb_throttle hb);
   (2%nat, hb_target_altitude hb);
   (2%nat, hb_target_speed hb);
   (2%nat, hb_origin_distance hb);
   (2%nat, hb_origin_heading hb);
   (2%nat, hb_target_distance hb);
   (1%nat, hb_flight_state hb);
   (1%nat, hb_altitude_state hb);
   (1%nat, hb_state_switch_src hb);
   (2%nat, hb_flight_time hb);
   (2%nat, hb_flight_range hb);
   (4%nat, hb_reserved hb)].

Definition gimbal_fields (x : GimbalControlData) : list (nat * Z) :=
  [(1%nat, gc_enable x);
   (2%nat, wrapu 16 (gc_pitch_angle x));
   (2%nat, wrapu 16 (gc_yaw_angle x))].

Definition reply_fields (x : CommandReplyData) : list (nat * Z) :=
  [(1%nat, cr_replied_cmd x);
   (1%nat, cr_result x)].

(** ** Commands *)

(** The sixteen commands with an encoder. *)
Inductive command :=
| CSetDestination (d : SetDestinationData)
| CSetRoute (d : SetRouteData)
| CSetAngle (d : SetAngleData)
| CSetSpeed (d : SetSpeedData)
| CSetAltitude (d : SetAltitudeData)
| CPowerSwitch (d : PowerSwitchData)
| CParachute (d : ParachuteData)
| CButtonCommand (d : ButtonCommandData)
| CSetOriginReturn (d : SetOriginReturnData)
| CSetGeofence (d : SetGeofenceData)
| CSwitchMode (d : SwitchModeData)
| CGuidance (d : GuidanceData)
| CGuidanceNew (d : GuidanceNewData)
| CGimbalAngRate (d : GimbalAngRateData)
| CGimbalAngle (d : GimbalAngleData)
| CTargetState (d : TargetStateData).

Definition encode_command (cnt : Z) (c : command) : list Z :=
  match c with
  | CSetDestination d => EncodeSetDestination cnt d
  | CSetRoute d => EncodeSetRoute cnt d
  | CSetAngle d => EncodeSetAngle cnt d
  | CSetSpeed d => EncodeSetSpeed cnt d
  | CSetAltitude d => EncodeSetAltitude cnt d
  | CPowerSwitch d => EncodePowerSwitch cnt d
  | CParachute d => EncodeParachute cnt d
  | CButtonCommand d => EncodeButtonCommand cnt d
  | CSetOriginReturn d => EncodeSetOriginReturn cnt d
  | CSetGeofence d => EncodeSetGeofence cnt d
  | CSwitchMode d => EncodeSwitchMode cnt d
  | CGuidance d => EncodeGuidance cnt d
  | CGuidanceNew d => EncodeGuidanceNew cnt d
  | CGimbalAngRate d => EncodeGimbalAngRate cnt d
  | CGimbalAngle d => EncodeGimbalAngle cnt d
  | CTargetState d => EncodeTargetState cnt d
  end.

Definition command_frame_type (c : command) : Z :=
  match c with CSetDestination _ => FRAME_TYPE_SET_DESTINATION | _ => FRAME_TYPE_COMMAND end.

Definition command_byte (c : command) : Z :=
  match c with
  | CSetDestination _ => CMD_SET_DESTINATION
  | CSetRoute _ => CMD_SET_ROUTE
  | CSetAngle _ => CMD_SET_ANGLE
  | CSetSpeed _ => CMD_SET_SPEED
  | CSetAltitude _ => CMD_SET_ALTITUDE
  | CPowerSwitch _ => CMD_POWER_SWITCH
  | CParachute _ => CMD_PARACHUTE
  | CButtonCommand _ => CMD_BUTTON
  | CSetOriginReturn _ => CMD_SET_ORIGIN_RETURN
  | CSetGeofence _ => CMD_SET_GEOFENCE
  | CSwitchMode _ => CMD_SWITCH_MODE
  | CGuidance _ => CMD_GUIDANCE
  | CGuidanceNew _ => CMD_GUIDANCE_NEW
  | CGimbalAngRate _ => CMD_GIMBAL_ANG_RATE
  | CGimbalAngle _ => CMD_GIMBAL_ANGLE
  | CTargetState _ => CMD_TARGET_STATE
  end.

Definition command_cmd_type (c : command) : Z :=
  match c with
  | CSetDestination d => sd_cmd_type d
  | CSetRoute d => sr_cmd_type d
  | CSetAngle d => sa_cmd_type d
  | CSetSpeed d => ss_cmd_type d
  | CSetAltitude d => sal_cmd_type d
  | CPowerSwitch d => ps_cmd_type d
  | CParachute d => pa_cmd_type d
  | CButtonCommand d => bc_cmd_type d
  | CSetOriginReturn d => so_cmd_type d
  | CSetGeofence d => sg_cmd_type d
  | CSwitchMode d => sm_cmd_type d
  | CGuidance d => gd_cmd_type d
  | CGuidanceNew d => gn_cmd_type d
  | CGimbalAngRate d => gr_cmd_type d
  | CGimbalAngle d => ga_cmd_type d
  | CTargetState d => ts_cmd_type d
  end.

Definition route_point_fields (pt : RoutePoint) : list (nat * Z) :=
  [(4%nat, (wrapu 32 (rp_longitude pt)));
   (4%nat, (wrapu 32 (rp_latitude pt)));
   (2%nat, (rp_altitude pt));
   (2%nat, (rp_index pt));
   (2%nat, (rp_speed pt))].

Definition geofence_point_fields (pt : GeofencePoint) : list (nat * Z) :=
  [(4%nat, (wrapu 32 (gp_longitude pt)));
   (4%nat, (wrapu 32 (gp_latitude pt)));
   (2%nat, (gp_altitude pt));
   (1%nat, (gp_index pt))].

(** The fields of a command after its command byte. *)
Definition command_fields (c : command) : list (nat * Z) :=
  match c with
  | CSetDestination d =>
      [(4%nat, (wrapu 32 (sd_longitude d))); (4%nat, (wrapu 32 (sd_latitude d))); (2%nat, (sd_altitude d))]
  | CSetRoute d =>
      [(1%nat, (wrapu 8 (Z.of_nat (length (sr_points d)))))] ++ concat (map route_point_fields (sr_points d))
  | CSetAngle d =>
      [(2%nat, wrapu 16 (sa_pitch d)); (2%nat, (sa_yaw d))]
  | CSetSpeed d =>
      [(2%nat, (ss_speed d))]
  | CSetAltitude d =>
      [(1%nat, (sal_altitude_type d)); (2%nat, (sal_altitude d))]
  | CPowerSwitch d =>
      [(1%nat, (ps_command d))]
  | CParachute d =>
      [(1%nat, (pa_parachute_type d))]
  | CButtonCommand d =>
      [(1%nat, (bc_button d))]
  | CSetOriginReturn d =>
      [(1%nat, (so_point_type d)); (4%nat, (wrapu 32 (so_longitude d))); (4%nat, (wrapu 32 (so_latitude d))); (2%nat, (so_altitude d))]
  | CSetGeofence d =>
      [(1%nat, (wrapu 8 (Z.of_nat (length (sg_points d)))))] ++ concat (map geofence_point_fields (sg_points d))
  | CSwitchMode d =>
      [(1%nat, (sm_mode d))]
  | CGuidance d =>
      [(1%nat, (gd_mode_switch d)); (4%nat, (gd_frame_id d)); (4%nat, (gd_track_id d)); (4%nat, (wrapu 32 (gd_target_lon d))); (4%nat, (wrapu 32 (gd_target_lat d))); (2%nat, (gd_target_alt d))]
  | CGuidanceNew d =>
      [(2%nat, wrapu 16 (gn_pitch_los_rate d)); (2%nat, wrapu 16 (gn_yaw_los_rate d)); (2%nat, wrapu 16 (gn_pitch_los_angle d)); (2%nat, wrapu 16 (gn_yaw_los_angle d)); (2%nat, wrapu 16 (gn_pitch_frame_angle d)); (2%nat, wrapu 16 (gn_yaw_frame_angle d)); (2%nat, wrapu 16 (gn_gimbal_pitch_angle d)); (2%nat, wrapu 16 (gn_gimbal_yaw_angle d)); (2%nat, wrapu 16 (gn_acc_x d)); (2%nat, wrapu 16 (gn_acc_y d)); (2%nat, wrapu 16 (gn_acc_z d)); (2%nat, wrapu 16 (gn_gyro_x d)); (2%nat, wrapu 16 (gn_gyro_y d)); (2%nat, wrapu 16 (gn_gyro_z d)); (2%nat, (gn_target_id d)); (2%nat, (gn_target_type d)); (4%nat, (wrapu 32 (gn_target_lon d))); (4%nat, (wrapu 32 (gn_target_lat d))); (4%nat, (wrapu 32 (gn_target_alt d))); (4%nat, (wrapu 32 (gn_laser_range d))); (1%nat, (gn_status d))]
  | CGimbalAngRate d =>
      [(4%nat, (wrapu 32 (gr_pitch_los_rate d))); (4%nat, (wrapu 32 (gr_yaw_los_rate d))); (4%nat, (wrapu 32 (gr_target_lon d))); (4%nat, (wrapu 32 (gr_target_lat d))); (4%nat, (wrapu 32 (gr_target_alt d))); (4%nat, (wrapu 32 (gr_laser_range d))); (1%nat, (gr_status d))]
  | CGimbalAngle d =>
      [(4%nat, (wrapu 32 (ga_pitch_frame_angle d))); (4%nat, (wrapu 32 (ga_yaw_frame_angle d))); (4%nat, (wrapu 32 (ga_pitch_ang_rate d))); (4%nat, (wrapu 32 (ga_yaw_ang_rate d)))]
  | CTargetState d =>
      [(4%nat, (wrapu 32 (ts_pitch_axis_angle d))); (4%nat, (wrapu 32 (ts_yaw_axis_angle d))); (1%nat, (ts_target_vertical_ratio d)); (1%nat, (ts_target_horizontal_ratio d)); (1%nat, (ts_status d))]
  end.

(** A command the sender can build: the command byte of its structure is the
    default one, every field is in the range of its type, and the number of
    points fits the count byte. *)
Definition command_ok (c : command) : Prop :=
  command_cmd_type c = command_byte c ∧
  match c with
  | CSetDestination d => SetDestinationData_ok d
  | CSetRoute d => SetRouteData_ok d ∧ (length (sr_points d) < 256)%nat
  | CSetAngle d => SetAngleData_ok d
  | CSetSpeed d => SetSpeedData_ok d
  | CSetAltitude d => SetAltitudeData_ok d
  | CPowerSwitch d => PowerSwitchData_ok d
  | CParachute d => ParachuteData_ok d
  | CButtonCommand d => ButtonCommandData_ok d
  | CSetOriginReturn d => SetOriginReturnData_ok d
  | CSetGeofence d => SetGeofenceData_ok d ∧ (length (sg_points d) < 256)%nat
  | CSwitchMode d => SwitchModeData_ok d
  | CGuidance d => GuidanceData_ok d
  | CGuidanceNew d => GuidanceNewData_ok d
  | CGimbalAngRate d => GimbalAngRateData_ok d
  | CGimbalAngle d => GimbalAngleData_ok d
  | CTargetState d => TargetStateData_ok d
  end.
(** ** Encoders write their table *)

(** Turns a chain of writes into the concatenation of the encoded fields. *)
Ltac wire_writes :=
  rewrite ?write_uint16_app, ?write_int16_app, ?write_uint32_app, ?write_uint64_app;
  repeat (rewrite write_uint8_app by (done || by apply inu_wrapu));
  rewrite ?write_uint16_app, ?write_int16_app, ?write_uint32_app, ?write_uint64_app.

Ltac wire_assoc := rewrite <- ?app_assoc; cbn [app]; rewrite ?wire_cons, ?wire_app; done.

Lemma route_points_wire pts payload :
  foldl EncodeSetRoute_point payload pts = payload ++ wire (concat (map route_point_fields pts)).
Proof.
  revert payload. induction pts as [|pt pts IH]; intros payload; [by rewrite app_nil_r|].
  cbn [foldl map concat]. rewrite IH, wire_app. unfold EncodeSetRoute_point, route_point_fields.
  wire_writes. by rewrite <- !app_assoc.
Qed.

Lemma geofence_points_wire pts payload :
  Forall GeofencePoint_ok pts →
  foldl EncodeSetGeofence_point payload pts = payload ++ wire (concat (map geofence_point_fields pts)).
Proof.
  intros Hok. revert payload. induction Hok as [|pt pts Hpt _ IH]; intros payload; [by rewrite app_nil_r|].
  cbn [foldl map concat]. rewrite IH, wire_app. unfold EncodeSetGeofence_point, geofence_point_fields.
  unfold GeofencePoint_ok in Hpt. destruct_and!. wire_writes. by rewrite <- !app_assoc.
Qed.

(** Opens the width hypotheses of a well-formed structure. *)
Ltac open_ok H :=
  unfold SetDestinationData_ok, SetRouteData_ok, SetAngleData_ok, SetSpeedData_ok,
    SetAltitudeData_ok, PowerSwitchData_ok, ParachuteData_ok, ButtonCommandData_ok,
    SetOriginReturnData_ok, SetGeofenceData_ok, SwitchModeData_ok, GuidanceData_ok,
    GuidanceNewData_ok, GimbalAngRateData_ok, GimbalAngleData_ok, TargetStateData_ok in H;
  destruct_and? H.

Lemma encode_command_wire cnt c :
  command_ok c →
  encode_command cnt c =
    BuildFrame cnt (command_frame_type c) (wire ((1%nat, command_byte c) :: command_fields c)).
Proof.
  intros [Hcmd Hok].
  destruct c; cbn [encode_command command_cmd_type command_byte command_frame_type command_fields] in *;
    open_ok Hok;
    unfold EncodeSetDestination, EncodeSetRoute, EncodeSetAngle, EncodeSetSpeed, EncodeSetAltitude,
      EncodePowerSwitch, EncodeParachute, EncodeButtonCommand, EncodeSetOriginReturn,
      EncodeSetGeofence, EncodeSwitchMode, EncodeGuidance, EncodeGuidanceNew, EncodeGimbalAngRate,
      EncodeGimbalAngle, EncodeTargetState;
    rewrite Hcmd; f_equal; rewrite ?route_points_wire, ?geofence_points_wire by done;
    wire_writes; wire_assoc.
Qed.

(** ** Encode, then parse *)

Lemma wire_byte c fs : byte c → wire ((1%nat, c) :: fs) = c :: wire fs.
Proof. intros Hc. rewrite wire_cons. cbn [le_encode app]. by rewrite Z.mod_small. Qed.

Lemma expected_len_fixed cnt t c fs rest len :
  byte c → GetExpectedFrameLen t (if t =? FRAME_TYPE_COMMAND then c else 0) = len → len ≠ 0%nat →
  expected_len (BuildFrame cnt t (wire ((1%nat, c) :: fs)) ++ rest) = len.
Proof.
  intros Hc Hl Hne. rewrite BuildFrame_bytes, wire_byte by done. unfold expected_len.
  cbn [app lookup_total list_lookup_total length Nat.leb]. rewrite andb_true_r, Hl.
  by destruct (len =? 0)%nat eqn:E; [lia|].
Qed.

Lemma expected_len_variable cnt c n fs rest k :
  byte c → byte n → GetExpectedFrameLen FRAME_TYPE_COMMAND c = 0%nat →
  (c = CMD_SET_ROUTE ∧ k = 14%nat) ∨ (c = CMD_SET_GEOFENCE ∧ k = 11%nat) →
  expected_len (BuildFrame cnt FRAME_TYPE_COMMAND (wire ((1%nat, c) :: (1%nat, n) :: fs)) ++ rest)
  = (9 + Z.to_nat n * k)%nat.
Proof.
  intros Hbc Hbn Hl Hc. rewrite BuildFrame_bytes, !wire_byte by done.
  unfold expected_len, CalcVariableLenFrameLen.
  cbn [app lookup_total list_lookup_total length Nat.leb]. rewrite Z.eqb_refl.
  cbn [andb negb Nat.ltb Nat.leb]. rewrite Hl. by destruct Hc as [[-> ->]|[-> ->]].
Qed.

Lemma length_concat_fields {A} (f : A → list (nat * Z)) k l :
  (∀ x, sum_list (map fst (f x)) = k) → length (wire (concat (map f l))) = (length l * k)%nat.
Proof.
  intros Hf. induction l as [|x l IH]; [done|]. cbn [map concat length].
  rewrite wire_app, length_app, IH, length_wire, Hf. done.
Qed.

Lemma command_expected_len cnt c rest :
  command_ok c →
  let frame := BuildFrame cnt (command_frame_type c) (wire ((1%nat, command_byte c) :: command_fields c)) in
  expected_len (frame ++ rest) = length frame.
Proof.
  intros [_ Hok] frame. subst frame. rewrite length_BuildFrame.
  rewrite length_wire.
  destruct c; cbn [command_byte command_frame_type command_fields];
    try (apply expected_len_fixed; [done|reflexivity|done]).
  all: destruct Hok as [_ Hn]; cbn [app].
  - rewrite (expected_len_variable _ _ _ _ _ 14) by (done || (by left) || by apply inu_wrapu).
    rewrite wrapu_id by (unfold inu; lia). rewrite Nat2Z.id, <- length_wire, !wire_byte by (done || (unfold inu; lia)).
    cbn [length]. rewrite (length_concat_fields _ 14) by done. lia.
  - rewrite (expected_len_variable _ _ _ _ _ 11) by (done || (by right) || by apply inu_wrapu).
    rewrite wrapu_id by (unfold inu; lia). rewrite Nat2Z.id, <- length_wire, !wire_byte by (done || (unfold inu; lia)).
    cbn [length]. rewrite (length_concat_fields _ 11) by done. lia.
Qed.

Lemma command_payload_long c : (2 <= length (wire ((1%nat, command_byte c) :: command_fields c)))%nat.
Proof. rewrite length_wire. destruct c; cbn; lia. Qed.

(** The parse of an encoded command. *)
Definition command_frame (cnt : Z) (c : command) : ParsedFrame :=
  built_frame cnt (command_frame_type c) (wire ((1%nat, command_byte c) :: command_fields c)).

Lemma PopFrame_command cnt c rest :
  command_ok c →
  PopFrame (encode_command cnt c ++ rest) = Some (Some (command_frame cnt c), rest).
Proof.
  intros Hok. rewrite encode_command_wire by done.
  apply PopFrame_build; [apply command_payload_long|by apply command_expected_len].
Qed.

(** C1: every command, encoded and received whatever bytes follow, is popped
    as one valid frame with its counter, frame type and payload, and exactly
    its bytes are consumed: the length table of the parser agrees with all
    sixteen encoders. *)
Theorem encode_then_parse cnt c rest :
  command_ok c →
  PopFrame (encode_command cnt c ++ rest) = Some (Some (command_frame cnt c), rest).
Proof. apply PopFrame_command. Qed.

Lemma encode_then_parse_witness :
  command_ok (CSetRoute {| sr_cmd_type := 2; sr_points := [RoutePoint_default] |}) ∧
  PopFrame (encode_command 7 (CSetRoute {| sr_cmd_type := 2; sr_points := [RoutePoint_default] |}) ++ [1; 2]) =
    Some (Some (command_frame 7 (CSetRoute {| sr_cmd_type := 2; sr_points := [RoutePoint_default] |})), [1; 2]).
Proof.
  assert (Hok : command_ok (CSetRoute {| sr_cmd_type := 2; sr_points := [RoutePoint_default] |})).
  { split; [reflexivity|]. split; [|simpl; lia]. split; [unfold inu; simpl; lia|].
    constructor; [|constructor]. unfold RoutePoint_ok, inu, ins; simpl. lia. }
  split; [exact Hok|]. exact (encode_then_parse 7 _ [1; 2] Hok).
Defined.

(** A queue of commands sent back to back, delivered in reads of any
    sizes, is parsed into the same commands in the same order, with nothing
    left over. *)
Theorem command_stream_parsed cmds c chunks :
  Forall (λ '(cnt, c), command_ok c) cmds →
  concat (c :: chunks) = concat (map (λ '(cnt, c), encode_command cnt c) cmds) →
  FeedAndPop [] (c :: chunks) = Some (map (λ '(cnt, c), command_frame cnt c) cmds, []).
Proof.
  intros Hok Hcat. rewrite FeedAndPop_PopAll. cbn [app]. cbn [concat] in Hcat. rewrite Hcat.
  clear Hcat. induction Hok as [|[n d] cmds Hd _ IH]; [reflexivity|].
  cbn [map concat]. rewrite PopAll_unfold, PopFrame_command by done. by rewrite IH.
Qed.

Lemma command_stream_parsed_witness :
  let cmds := [(0, CSetSpeed {| ss_cmd_type := 4; ss_speed := 1500 |});
               (1, CParachute {| pa_cmd_type := 7; pa_parachute_type := 1 |})] in
  FeedAndPop [] [[0xEB; 0x90; 0]; [0x10; 4; 0xDC; 5; 0x70; 0xED; 0xDE; 0xEB];
                 [0x90; 1; 0x10; 7; 1; 0x94; 0xED; 0xDE]]
  = Some (map (λ '(cnt, c), command_frame cnt c) cmds, []).
Proof.
  intros cmds. apply (command_stream_parsed cmds).
  - repeat constructor; simpl; unfold SetSpeedData_ok, ParachuteData_ok, inu; simpl; lia.
  - vm_compute. reflexivity.
Defined.

(** ** Distinct commands have distinct encodings *)

Lemma BuildFrame_inj c t p c' t' p' :
  BuildFrame c t p = BuildFrame c' t' p' → c = c' ∧ t = t' ∧ p = p'.
Proof.
  intros He. pose proof (f_equal length He) as Hlen. rewrite !length_BuildFrame in Hlen.
  rewrite !BuildFrame_bytes in He. cbn [app] in He. injection He as -> -> He.
  apply app_inj_1 in He as [-> _]; [done|lia].
Qed.

Lemma point_fields_inj {A} (f : A → list (nat * Z)) l l' :
  (∀ x y, map fst (f x) = map fst (f y)) →
  length l = length l' → concat (map f l) = concat (map f l') →
  Forall2 (λ x y, f x = f y) l l'.
Proof.
  intros Hf. revert l'. induction l as [|x l IH]; intros [|y l'] Hlen He; try done.
  cbn [map concat] in He. apply app_inj_1 in He as [H1 H2].
  - constructor; [done|]. apply IH; [by injection Hlen|done].
  - specialize (Hf x y). apply (f_equal length) in Hf. by rewrite !length_map in Hf.
Qed.

Lemma wrapu_inj_signed w x y :
  0 < w → ins w x → ins w y → wrapu w x = wrapu w y → x = y.
Proof.
  intros Hw Hx Hy He. rewrite <- (wraps_id w x), <- (wraps_id w y) by done.
  by rewrite <- (wraps_wrapu w x), <- (wraps_wrapu w y), He.
Qed.

(** Proves that a table's values are in the range of their widths. *)
Ltac field_range :=
  first [ assumption | exact (inu_wrapu 8 _ eq_refl) | exact (inu_wrapu 16 _ ltac:(lia))
        | exact (inu_wrapu 32 _ ltac:(lia)) | exact (inu_wrapu 8 _ ltac:(lia)) ].
Ltac fields_range := repeat (apply Forall_cons_2; [field_range|]); try apply Forall_nil_2.

Lemma Forall_concat_fields {A} (P : nat * Z → Prop) (f : A → list (nat * Z)) (Q : A → Prop) l :
  (∀ x, Q x → Forall P (f x)) → Forall Q l → Forall P (concat (map f l)).
Proof. intros Hf. induction 1; cbn; [constructor|]. apply Forall_app. auto. Qed.

Lemma command_fields_range c :
  command_ok c → Forall (λ '(n, v), 0 <= v < 256 ^ Z.of_nat n) (command_fields c).
Proof.
  intros [_ Hok]. destruct c; cbn [command_fields app]; open_ok Hok; fields_range.
  - eapply Forall_concat_fields; [|done]. intros pt Hpt. unfold RoutePoint_ok in Hpt.
    destruct_and!. unfold route_point_fields. fields_range.
  - eapply Forall_concat_fields; [|done]. intros pt Hpt. unfold GeofencePoint_ok in Hpt.
    destruct_and!. unfold geofence_point_fields. fields_range.
Qed.

Lemma route_points_inj l l' :
  Forall RoutePoint_ok l → Forall RoutePoint_ok l' → length l = length l' →
  concat (map route_point_fields l) = concat (map route_point_fields l') → l = l'.
Proof.
  intros Hl Hl' Hlen He. apply point_fields_inj in He; [|done..].
  induction He as [|x y l l' Hxy _ IH]; [done|].
  apply Forall_cons in Hl as [Hx Hl]. apply Forall_cons in Hl' as [Hy Hl'].
  f_equal; [|apply IH; [done|done|by injection Hlen]].
  unfold RoutePoint_ok in *. destruct_and!. unfold route_point_fields in Hxy.
  destruct x, y; cbn in *. injection Hxy as ?%wrapu_inj_signed ?%wrapu_inj_signed ? ? ?; [by subst|done..].
Qed.

Lemma geofence_points_inj l l' :
  Forall GeofencePoint_ok l → Forall GeofencePoint_ok l' → length l = length l' →
  concat (map geofence_point_fields l) = concat (map geofence_point_fields l') → l = l'.
Proof.
  intros Hl Hl' Hlen He. apply point_fields_inj in He; [|done..].
  induction He as [|x y l l' Hxy _ IH]; [done|].
  apply Forall_cons in Hl as [Hx Hl]. apply Forall_cons in Hl' as [Hy Hl'].
  f_equal; [|apply IH; [done|done|by injection Hlen]].
  unfold GeofencePoint_ok in *. destruct_and!. unfold geofence_point_fields in Hxy.
  destruct x, y; cbn in *. injection Hxy as ?%wrapu_inj_signed ?%wrapu_inj_signed ? ?; [by subst|done..].
Qed.

Lemma command_byte_range c : byte (command_byte c).
Proof. destruct c; done. Qed.

Lemma widths_concat {A} (f : A → list (nat * Z)) ws l :
  (∀ x, map fst (f x) = ws) → map fst (concat (map f l)) = concat (replicate (length l) ws).
Proof.
  intros Hf. induction l as [|x l IH]; [done|].
  cbn [map concat length replicate]. by rewrite map_app, Hf, IH.
Qed.

(** Commands with the same command byte have tables of the same shape. *)
Lemma command_fields_widths c c' :
  command_ok c → command_ok c' → command_byte c = command_byte c' →
  wire (command_fields c) = wire (command_fields c') →
  map fst (command_fields c) = map fst (command_fields c').
Proof.
  intros [_ Hc] [_ Hc'] Hb Hw. destruct c, c'; try discriminate Hb; try reflexivity.
  all: destruct Hc as [_ Hc], Hc' as [_ Hc']; cbn [command_fields app] in *.
  all: rewrite !wire_byte in Hw by (by apply inu_wrapu); injection Hw as Hn _.
  all: rewrite !wrapu_id in Hn by (unfold inu; lia); apply Nat2Z.inj in Hn; cbn [map fst]; f_equal.
  - by rewrite !(widths_concat route_point_fields [4; 4; 2; 2; 2]%nat), Hn by done.
  - by rewrite !(widths_concat geofence_point_fields [4; 4; 2; 1]%nat), Hn by done.
Qed.

Lemma command_fields_inj c c' :
  command_ok c → command_ok c' → command_byte c = command_byte c' →
  command_fields c = command_fields c' → c = c'.
Proof.
  intros [Ht Hc] [Ht' Hc'] Hb Hf. destruct c as [[]|[]|[]|[]|[]|[]|[]|[]|[]|[]|[]|[]|[]|[]|[]|[]],
    c' as [[]|[]|[]|[]|[]|[]|[]|[]|[]|[]|[]|[]|[]|[]|[]|[]]; try discriminate Hb.
  all: cbn [command_fields app command_cmd_type command_byte] in *; open_ok Hc; open_ok Hc'; cbn in *.
  all: repeat match type of Hf with (_, _) :: _ = (_, _) :: _ =>
    first [injection Hf as ? Hf | injection Hf as ?] end.
  all: repeat match goal with
       | H : wrapu _ _ = wrapu _ _ |- _ => apply wrapu_inj_signed in H; [|done..]
       end.
  all: try (subst; done).
  all: rewrite !wrapu_id in * by (unfold inu; lia); do 2 f_equal; [by subst|].
  - apply route_points_inj; [done|done|lia|done].
  - apply geofence_points_inj; [done|done|lia|done].
Qed.

(** The encoding is injective: from the bytes of a frame, the counter and
    the whole command, every field and every point, are determined. *)
Theorem encode_command_inj cnt cnt' c c' :
  command_ok c → command_ok c' → encode_command cnt c = encode_command cnt' c' →
  cnt = cnt' ∧ c = c'.
Proof.
  intros Hc Hc' He. rewrite !encode_command_wire in He by done.
  apply BuildFrame_inj in He as (Hcnt & _ & Hw). split; [done|].
  rewrite !wire_byte in Hw by apply command_byte_range. injection Hw as Hb Hw.
  apply command_fields_inj; [done..|]. apply wire_inj; auto using command_fields_range.
  by apply command_fields_widths.
Qed.

Lemma encode_command_inj_witness :
  let c := CSetAngle {| sa_cmd_type := 3; sa_pitch := -250; sa_yaw := 9000 |} in
  command_ok c ∧ (3 = 3 ∧ c = c).
Proof.
  intros c. assert (Hok : command_ok c).
  { split; [reflexivity|]. unfold c, SetAngleData_ok, inu, ins; simpl; lia. }
  split; [exact Hok|]. exact (encode_command_inj 3 3 c c Hok Hok eq_refl).
Defined.

(** ** Decoders invert the wire tables *)

(** One field read at the cursor hypothesis [Hc]. *)
Ltac read_field Hc :=
  lazymatch type of Hc with
  | cursor ?b ?o (le_encode ?n ?v ++ ?rest) =>
      first
        [ rewrite (bind_read_uint8 _ b o v rest Hc) by (done || by apply inu_wrapu)
        | rewrite (bind_read_uint16 _ b o v rest Hc) by (done || by apply inu_wrapu)
        | lazymatch v with
          | wrapu 16 ?x => rewrite (bind_read_int16 _ b o x rest Hc) by done
          end
        | rewrite (bind_read_uint32 _ b o v rest Hc) by (done || by apply inu_wrapu)
        | rewrite (bind_read_uint64 _ b o v rest Hc) by done ];
      apply (cursor_advance _ _ _ _ n) in Hc; [|apply length_le_encode]
  end.

Ltac read_fields Hc := repeat read_field Hc.

Definition set_hb_cnt (c : Z) (hb : HeartbeatData) : HeartbeatData := {|
  hb_cnt := c;
  hb_aircraft_id := hb_aircraft_id hb;
  hb_run_mode := hb_run_mode hb;
  hb_satellite_count := hb_satellite_count hb;
  hb_longitude := hb_longitude hb;
  hb_latitude := hb_latitude hb;
  hb_altitude := hb_altitude hb;
  hb_relative_alt := hb_relative_alt hb;
  hb_airspeed := hb_airspeed hb;
  hb_groundspeed := hb_groundspeed hb;
  hb_velocity_x := hb_velocity_x hb;
  hb_velocity_y := hb_velocity_y hb;
  hb_velocity_z := hb_velocity_z hb;
  hb_accel_x := hb_accel_x hb;
  hb_accel_y := hb_accel_y hb;
  hb_accel_z := hb_accel_z hb;
  hb_roll := hb_roll hb;
  hb_pitch := hb_pitch hb;
  hb_yaw := hb_yaw hb;
  hb_flight_mode := hb_flight_mode hb;
  hb_current_waypoint := hb_current_waypoint hb;
  hb_battery_voltage := hb_battery_voltage hb;
  hb_battery_percent := hb_battery_percent hb;
  hb_battery_current := hb_battery_current hb;
  hb_atm_pressure := hb_atm_pressure hb;
  hb_utc_timestamp := hb_utc_timestamp hb;
  hb_fault_info := hb_fault_info hb;
  hb_rotation_speed := hb_rotation_speed hb;
  hb_throttle := hb_throttle hb;
  hb_target_altitude := hb_target_altitude hb;
  hb_target_speed := hb_target_speed hb;
  hb_origin_distance := hb_origin_distance hb;
  hb_origin_heading := hb_origin_heading hb;
  hb_target_distance := hb_target_distance hb;
  hb_flight_state := hb_flight_state hb;
  hb_altitude_state := hb_altitude_state hb;
  hb_state_switch_src := hb_state_switch_src hb;
  hb_flight_time := hb_flight_time hb;
  hb_flight_range := hb_flight_range hb;
  hb_reserved := hb_reserved hb
|}.

Lemma signed_of_wire w x : 0 < w → ins w x → wraps w (wrapu w x) = x.
Proof. intros. by rewrite wraps_wrapu, wraps_id. Qed.

Lemma DecodeHeartbeat_fields hb tail out :
  HeartbeatData_ok hb → bytes tail → Z.of_nat (length tail) < 2 ^ 62 →
  DecodeHeartbeat (wire (heartbeat_fields hb) ++ tail) out =
    Ret (true, set_hb_cnt (hb_cnt out) hb).
Proof.
  intros Hok Ht Hlen. unfold DecodeHeartbeat. rewrite length_app, length_wire.
  replace (_ <? 82)%nat with false by (symmetry; apply Nat.ltb_ge; simpl; lia).
  cbv zeta. set (buf := wire _ ++ tail).
  assert (Hc : cursor buf 0 buf).
  { apply cursor_start; subst buf; [apply Forall_app; auto using wire_bytes|].
    rewrite length_app, length_wire. simpl. lia. }
  unfold buf at 2, heartbeat_fields in Hc. rewrite !wire_cons, <- !app_assoc in Hc.
  unfold HeartbeatData_ok in Hok. destruct_and!. clearbody buf. read_fields Hc.
  cbn [mret reader_ret mbind outcome_bind]. unfold mret, reader_ret. cbn [mbind outcome_bind].
  by rewrite !signed_of_wire by done.
Qed.

(** Decoding inverts the heartbeat layout: the 82 bytes of the fields of
    any heartbeat, followed by anything, decode to that heartbeat; only the
    counter, which is not in the payload, is kept from the structure passed
    in. *)
Theorem DecodeHeartbeat_wire hb tail out :
  HeartbeatData_ok hb → bytes tail → Z.of_nat (length tail) < 2 ^ 62 →
  DecodeHeartbeat (wire (heartbeat_fields hb) ++ tail) out =
    Ret (true, set_hb_cnt (hb_cnt out) hb).
Proof. apply DecodeHeartbeat_fields. Qed.

(** Any payload is the encoding of some field values. *)
Lemma fields_exist ws l :
  bytes l → (sum_list ws <= length l)%nat →
  ∃ vs, length vs = length ws ∧ l = wire (zip ws vs) ++ drop (sum_list ws) l ∧
        Forall2 (λ w v, 0 <= v < 256 ^ Z.of_nat w) ws vs.
Proof.
  revert l. induction ws as [|w ws IH]; intros l Hl Hlen; [by exists []|].
  cbn [sum_list sum_list_with] in Hlen. destruct (le_encode_exists w l Hl) as (v & Hv & Hle); [simpl in Hlen; lia|].
  destruct (IH (drop w l)) as (vs & Hvs & Hd & Hr); [by apply Forall_drop|rewrite length_drop; simpl in *; lia|].
  exists (v :: vs). split_and!; [by simpl; f_equal| |by constructor].
  cbn [zip zip_with sum_list sum_list_with]. rewrite wire_cons, <- app_assoc, <- drop_drop.
  by rewrite Hle, Hd at 1.
Qed.

Definition heartbeat_widths : list nat := map fst (heartbeat_fields HeartbeatData_default).

Lemma DecodeHeartbeat_returns payload out :
  bytes payload → byte (hb_cnt out) → Z.of_nat (length payload) < 2 ^ 62 →
  if decide (length payload < 82)%nat
  then DecodeHeartbeat payload out = Ret (false, out)
  else ∃ hb, DecodeHeartbeat payload out = Ret (true, hb) ∧ HeartbeatData_ok hb ∧
             hb_cnt hb = hb_cnt out ∧ wire (heartbeat_fields hb) = take 82 payload.
Proof.
  intros Hb Hcnt Hlen. destruct (decide _) as [Hs|Hs].
  { unfold DecodeHeartbeat. by replace (_ <? 82)%nat with true by lia. }
  destruct (fields_exist heartbeat_widths payload Hb) as (vs & Hvs & Hp & Hr); [simpl; lia|].
  cbn [heartbeat_widths heartbeat_fields map fst length] in Hvs.
  do 39 (destruct vs as [|? vs]; [discriminate Hvs|]). destruct vs; [|discriminate Hvs]. clear Hvs.
  unfold heartbeat_widths in Hp, Hr. cbn [heartbeat_fields map fst] in Hr.
  repeat (apply Forall2_cons in Hr as [? Hr]). clear Hr.
  pose (build := λ aircraft_id run_mode satellite_count longitude latitude altitude relative_alt airspeed groundspeed velocity_x velocity_y velocity_z accel_x accel_y accel_z roll pitch yaw flight_mode current_waypoint battery_voltage battery_percent battery_current atm_pressure utc_timestamp fault_info rotation_speed throttle target_altitude target_speed origin_distance origin_heading target_distance flight_state altitude_state state_switch_src flight_time flight_range reserved,
    {| hb_cnt := hb_cnt out; hb_aircraft_id := aircraft_id; hb_run_mode := run_mode; hb_satellite_count := satellite_count; hb_longitude := wraps 32 longitude; hb_latitude := wraps 32 latitude; hb_altitude := altitude; hb_relative_alt := relative_alt; hb_airspeed := airspeed; hb_groundspeed := groundspeed; hb_velocity_x := wraps 16 velocity_x; hb_velocity_y := wraps 16 velocity_y; hb_velocity_z := wraps 16 velocity_z; hb_accel_x := wraps 16 accel_x; hb_accel_y := wraps 16 accel_y; hb_accel_z := wraps 16 accel_z; hb_roll := wraps 16 roll; hb_pitch := wraps 16 pitch; hb_yaw := yaw; hb_flight_mode := flight_mode; hb_current_waypoint := current_waypoint; hb_battery_voltage := battery_voltage; hb_battery_percent := battery_percent; hb_battery_current := battery_current; hb_atm_pressure := atm_pressure; hb_utc_timestamp := utc_timestamp; hb_fault_info := fault_info; hb_rotation_speed := rotation_speed; hb_throttle := throttle; hb_target_altitude := target_altitude; hb_target_speed := target_speed; hb_origin_distance := origin_distance; hb_origin_heading := origin_heading; hb_target_distance := target_distance; hb_flight_state := flight_state; hb_altitude_state := altitude_state; hb_state_switch_src := state_switch_src; hb_flight_time := flight_time; hb_flight_range := flight_range; hb_reserved := reserved |}).
  match type of Hp with
  | _ = wire (zip _ [?v0; ?v1; ?v2; ?v3; ?v4; ?v5; ?v6; ?v7; ?v8; ?v9; ?v10; ?v11; ?v12; ?v13; ?v14; ?v15; ?v16; ?v17; ?v18; ?v19; ?v20; ?v21; ?v22; ?v23; ?v24; ?v25; ?v26; ?v27; ?v28; ?v29; ?v30; ?v31; ?v32; ?v33; ?v34; ?v35; ?v36; ?v37; ?v38])  ++ _ =>
      exists (build v0 v1 v2 v3 v4 v5 v6 v7 v8 v9 v10 v11 v12 v13 v14 v15 v16 v17 v18 v19 v20 v21 v22 v23 v24 v25 v26 v27 v28 v29 v30 v31 v32 v33 v34 v35 v36 v37 v38)
  end.
  match goal with |- _ = Ret (true, ?h) ∧ _ => set (hb := h) end.
  assert (Hok : HeartbeatData_ok hb).
  { unfold HeartbeatData_ok, hb, build; cbn. split_and!; try assumption.
    all: apply ins_wraps; lia. }
  assert (Hw : wire (heartbeat_fields hb) = take 82 payload).
  { rewrite Hp at 1. symmetry. rewrite take_app_le by (by rewrite length_wire).
    rewrite take_ge by (by rewrite length_wire).
    unfold heartbeat_fields, hb, build; cbn [map fst zip zip_with].
    cbn [hb_cnt hb_aircraft_id hb_run_mode hb_satellite_count hb_longitude hb_latitude hb_altitude hb_relative_alt hb_airspeed hb_groundspeed hb_velocity_x hb_velocity_y hb_velocity_z hb_accel_x hb_accel_y hb_accel_z hb_roll hb_pitch hb_yaw hb_flight_mode hb_current_waypoint hb_battery_voltage hb_battery_percent hb_battery_current hb_atm_pressure hb_utc_timestamp hb_fault_info hb_rotation_speed hb_throttle hb_target_altitude hb_target_speed hb_origin_distance hb_origin_heading hb_target_distance hb_flight_state hb_altitude_state hb_state_switch_src hb_flight_time hb_flight_range hb_reserved].
    by rewrite !wrapu_wraps, !wrapu_id by (lia || assumption). }
  split_and!; [|done|done|done].
  rewrite <- (take_drop 82 payload), <- Hw at 1.
  rewrite DecodeHeartbeat_fields; [done|done|by apply Forall_drop|rewrite length_drop; lia].
Qed.

(** For every payload: shorter than 82 bytes, it is rejected and the
    structure is left as it was; otherwise decoding succeeds, no read is out
    of range, every field is in the range of its type, and re-encoding the
    fields gives back the first 82 bytes. *)
Theorem DecodeHeartbeat_total payload out :
  bytes payload → byte (hb_cnt out) → Z.of_nat (length payload) < 2 ^ 62 →
  if decide (length payload < 82)%nat
  then DecodeHeartbeat payload out = Ret (false, out)
  else ∃ hb, DecodeHeartbeat payload out = Ret (true, hb) ∧ HeartbeatData_ok hb ∧
             hb_cnt hb = hb_cnt out ∧ wire (heartbeat_fields hb) = take 82 payload.
Proof. apply DecodeHeartbeat_returns. Qed.

Lemma DecodeHeartbeat_wire_witness :
  DecodeHeartbeat (wire (heartbeat_fields HeartbeatData_default) ++ [1; 2]) HeartbeatData_default =
    Ret (true, set_hb_cnt 0 HeartbeatData_default).
Proof.
  apply (DecodeHeartbeat_wire HeartbeatData_default [1; 2] HeartbeatData_default);
    [unfold HeartbeatData_ok, inu, ins; simpl; lia|bytes_tac|simpl; lia].
Defined.

Lemma DecodeHeartbeat_total_witness :
  if decide (length (replicate 82 200%Z) < 82)%nat
  then DecodeHeartbeat (replicate 82 200) HeartbeatData_default = Ret (false, HeartbeatData_default)
  else ∃ hb, DecodeHeartbeat (replicate 82 200) HeartbeatData_default = Ret (true, hb) ∧
             HeartbeatData_ok hb ∧ hb_cnt hb = hb_cnt HeartbeatData_default ∧
             wire (heartbeat_fields hb) = take 82 (replicate 82 200).
Proof.
  apply (DecodeHeartbeat_total (replicate 82 200) HeartbeatData_default);
    [apply Forall_replicate; done|done|simpl; lia].
Defined.

(** The two short frames. *)
Lemma DecodeGimbalControl_wire x tail out :
  GimbalControlData_ok x → bytes tail → Z.of_nat (length tail) < 2 ^ 62 →
  DecodeGimbalControl (wire (gimbal_fields x) ++ tail) out =
    Ret (true, {| gc_cnt := gc_cnt out; gc_enable := gc_enable x;
                  gc_pitch_angle := gc_pitch_angle x; gc_yaw_angle := gc_yaw_angle x |}).
Proof.
  intros Hok Ht Hlen. unfold DecodeGimbalControl. rewrite length_app, length_wire.
  replace (_ <? 5)%nat with false by (symmetry; apply Nat.ltb_ge; simpl; lia).
  cbv zeta. set (buf := wire _ ++ tail).
  assert (Hc : cursor buf 0 buf).
  { apply cursor_start; subst buf; [apply Forall_app; auto using wire_bytes|].
    rewrite length_app, length_wire. simpl. lia. }
  unfold buf at 2, gimbal_fields in Hc. rewrite !wire_cons, <- !app_assoc in Hc.
  unfold GimbalControlData_ok in Hok. destruct_and!. clearbody buf. by read_fields Hc.
Qed.

Lemma DecodeCommandReply_wire x tail out :
  CommandReplyData_ok x → bytes tail → Z.of_nat (length tail) < 2 ^ 62 →
  DecodeCommandReply (wire (reply_fields x) ++ tail) out =
    Ret (true, {| cr_cnt := cr_cnt out; cr_replied_cmd := cr_replied_cmd x;
                  cr_result := cr_result x |}).
Proof.
  intros Hok Ht Hlen. unfold DecodeCommandReply. rewrite length_app, length_wire.
  replace (_ <? 2)%nat with false by (symmetry; apply Nat.ltb_ge; simpl; lia).
  cbv zeta. set (buf := wire _ ++ tail).
  assert (Hc : cursor buf 0 buf).
  { apply cursor_start; subst buf; [apply Forall_app; auto using wire_bytes|].
    rewrite length_app, length_wire. simpl. lia. }
  unfold buf at 2, reply_fields in Hc. rewrite !wire_cons, <- !app_assoc in Hc.
  unfold CommandReplyData_ok in Hok. destruct_and!. clearbody buf. by read_fields Hc.
Qed.

Definition gimbal_widths : list nat := map fst (gimbal_fields GimbalControlData_default).
Definition reply_widths : list nat := map fst (reply_fields CommandReplyData_default).

Lemma DecodeGimbalControl_returns payload out :
  bytes payload → byte (gc_cnt out) → Z.of_nat (length payload) < 2 ^ 62 →
  if decide (length payload < 5)%nat
  then DecodeGimbalControl payload out = Ret (false, out)
  else ∃ x, DecodeGimbalControl payload out = Ret (true, x) ∧ GimbalControlData_ok x ∧
            gc_cnt x = gc_cnt out ∧ wire (gimbal_fields x) = take 5 payload.
Proof.
  intros Hb Hcnt Hlen. destruct (decide _) as [Hs|Hs].
  { unfold DecodeGimbalControl. by replace (_ <? 5)%nat with true by lia. }
  destruct (fields_exist gimbal_widths payload Hb) as (vs & Hvs & Hp & Hr); [simpl; lia|].
  cbn in Hvs. destruct vs as [|e [|p [|y []]]]; try discriminate Hvs.
  unfold gimbal_widths in Hp, Hr. cbn [gimbal_fields map fst] in Hr.
  repeat (apply Forall2_cons in Hr as [? Hr]). clear Hr.
  set (x := {| gc_cnt := gc_cnt out; gc_enable := e; gc_pitch_angle := wraps 16 p;
               gc_yaw_angle := wraps 16 y |}).
  assert (Hok : GimbalControlData_ok x).
  { unfold GimbalControlData_ok, x; cbn. split_and!; try assumption. all: apply ins_wraps; lia. }
  assert (Hw : wire (gimbal_fields x) = take 5 payload).
  { rewrite Hp at 1. symmetry. rewrite take_app_le by (by rewrite length_wire).
    rewrite take_ge by (by rewrite length_wire).
    unfold gimbal_fields, x; cbn [map fst zip zip_with gc_enable gc_pitch_angle gc_yaw_angle].
    by rewrite !wrapu_wraps, !wrapu_id by (lia || assumption). }
  exists x. split_and!; [|done|done|done].
  rewrite <- (take_drop 5 payload), <- Hw at 1.
  rewrite DecodeGimbalControl_wire; [done|done|by apply Forall_drop|rewrite length_drop; lia].
Qed.

Lemma DecodeCommandReply_returns payload out :
  bytes payload → byte (cr_cnt out) → Z.of_nat (length payload) < 2 ^ 62 →
  if decide (length payload < 2)%nat
  then DecodeCommandReply payload out = Ret (false, out)
  else ∃ x, DecodeCommandReply payload out = Ret (true, x) ∧ CommandReplyData_ok x ∧
            cr_cnt x = cr_cnt out ∧ wire (reply_fields x) = take 2 payload.
Proof.
  intros Hb Hcnt Hlen. destruct (decide _) as [Hs|Hs].
  { unfold DecodeCommandReply. by replace (_ <? 2)%nat with true by lia. }
  destruct (fields_exist reply_widths payload Hb) as (vs & Hvs & Hp & Hr); [simpl; lia|].
  cbn in Hvs. destruct vs as [|c [|v []]]; try discriminate Hvs.
  unfold reply_widths in Hp, Hr. cbn [reply_fields map fst] in Hr.
  repeat (apply Forall2_cons in Hr as [? Hr]). clear Hr.
  set (x := {| cr_cnt := cr_cnt out; cr_replied_cmd := c; cr_result := v |}).
  assert (Hok : CommandReplyData_ok x) by (unfold CommandReplyData_ok, x; cbn; by split_and!).
  assert (Hw : wire (reply_fields x) = take 2 payload).
  { rewrite Hp at 1. symmetry. rewrite take_app_le by (by rewrite length_wire).
    by rewrite take_ge by (by rewrite length_wire). }
  exists x. split_and!; [|done|done|done].
  rewrite <- (take_drop 2 payload), <- Hw at 1.
  rewrite DecodeCommandReply_wire; [done|done|by apply Forall_drop|rewrite length_drop; lia].
Qed.

(** ** Fault bits *)

Lemma bit_of_testbit v k : 0 <= k → bit_of v k = Z.testbit v k.
Proof.
  intros Hk. unfold bit_of. change 1 with (Z.ones 1). rewrite Z.land_ones by lia.
  change (2 ^ 1) with 2. rewrite <- Z.bit0_mod, Z.shiftr_spec, Z.add_0_l by lia.
  by destruct (Z.testbit v k).
Qed.

Lemma or_bit_testbit f k v i :
  0 <= k → 0 <= i < 16 → Z.testbit (or_bit f k v) i = (f && (i =? k)) || Z.testbit v i.
Proof.
  intros Hk Hi. unfold or_bit, wrapu. destruct f; [|done].
  rewrite Z.mod_pow2_bits_low, Z.lor_spec, Z.shiftl_spec by lia.
  rewrite orb_comm. f_equal. destruct (i =? k) eqn:E.
  - by replace (i - k) with 0 by lia.
  - destruct (decide (i < k)); [by rewrite Z.testbit_neg_r by lia|].
    change 1 with (2 ^ 0). by rewrite Z.pow2_bits_false by lia.
Qed.

Lemma ToU16_range fb : inu 16 (ToU16 fb).
Proof.
  assert (Hor : ∀ f k v, inu 16 v → inu 16 (or_bit f k v)).
  { intros [] k v Hv; cbn; [by apply inu_wrapu|done]. }
  unfold ToU16. cbv zeta. by repeat apply Hor.
Qed.

(** The bits that have a name; 3, 11 and 12 are reserved. *)
Definition fault_mask : Z := 0xE7F7.

(** The flags and the word are two views of the same fault information:
    reading back a word made from flags gives the flags, and a word rebuilt
    from its flags is the word with the three reserved bits cleared. *)
Theorem fault_bits_roundtrip fb v :
  FromU16 (ToU16 fb) = fb ∧ (inu 16 v → ToU16 (FromU16 v) = Z.land v fault_mask).
Proof.
  split.
  - unfold FromU16, ToU16. cbv zeta. rewrite !bit_of_testbit, !or_bit_testbit by lia.
    rewrite !Z.testbit_0_l. destruct fb. cbn. by rewrite ?andb_false_r, ?andb_true_r, ?orb_false_r.
  - intros Hv. apply Z.bits_inj'. intros i Hi. rewrite Z.land_spec.
    destruct (decide (16 <= i)) as [Hge|Hlt].
    { rewrite <- (wrapu_id 16 _ (ToU16_range _)). unfold wrapu.
      rewrite Z.mod_pow2_bits_high by lia. symmetry. apply andb_false_intro2.
      apply Z.bits_above_log2; [done|]. change (Z.log2 fault_mask) with 15. lia. }
    unfold ToU16. cbv zeta. rewrite !or_bit_testbit, Z.testbit_0_l by lia.
    unfold FromU16. cbn [fb_link_lost fb_distance_exceed fb_attitude_exceed fb_altitude_too_low
      fb_altitude_too_high fb_voltage_too_low fb_mission_fault fb_gps_lost fb_takeoff_failed
      fb_attitude_error fb_return_timeout fb_return_dist_error fb_parachute_failed].
    rewrite !bit_of_testbit by lia.
    assert (i = 0 ∨ i = 1 ∨ i = 2 ∨ i = 3 ∨ i = 4 ∨ i = 5 ∨ i = 6 ∨ i = 7 ∨ i = 8 ∨ i = 9 ∨ i = 10
      ∨ i = 11 ∨ i = 12 ∨ i = 13 ∨ i = 14 ∨ i = 15) as Hc by lia.
    destruct_or! Hc; subst i; cbn [Z.eqb Pos.eqb]; rewrite ?andb_false_r, ?andb_true_r, ?orb_false_r;
      simpl; rewrite ?andb_false_r, ?andb_true_r; done.
Qed.

Lemma fault_bits_roundtrip_witness :
  FromU16 (ToU16 FaultBits_default) = FaultBits_default ∧
  ToU16 (FromU16 0xFFFF) = Z.land 0xFFFF fault_mask.
Proof.
  destruct (fault_bits_roundtrip FaultBits_default 0xFFFF) as [H1 H2].
  split; [exact H1|]. apply H2. unfold inu. lia.
Defined.
