(* ===== verification/Json.v ===== *)
(** * JSON values

    The program reads and builds JSON through the third-party nlohmann library.
    [JsonOps] is what it uses of that library, over an abstract type [J] of
    values; [JsonLaws] states the library's documented behaviour that proofs
    rely on.  [jvalue] is one concrete implementation, on which the witnesses
    evaluate. *)

From S2P Require Import Prelude.
From stdpp Require Import pretty.

(** What the type queries [is_null], [is_string], ... and [get<T>] see of a
    value. *)
Inductive jview :=
| JNull
| JBoolean (b : bool)
| JUnsigned (n : Z)        (** [is_number_unsigned], within uint64 *)
| JInteger (z : Z)         (** [is_number_integer] but not unsigned, within int64 *)
| JFloat
| JString (s : string)
| JArray
| JObject.

Class JsonOps (J : Type) := {
  j_view : J → jview;
  (** [contains(key)] and [at(key)]: the member of an object *)
  j_find : J → string → option J;
  (** elements of an array *)
  j_elems : J → list J;
  (** [dump()]: throws on text that is not UTF-8 *)
  j_dump : J → result string;
  (** [what()] of the error [get<T>], or [value(key, default)], throws on a
      value of another type *)
  j_type_error : J → string;
  j_bool : bool → J;
  j_number : Z → J;
  j_string : string → J;
  j_array : list J → J;
  (** the object of an initializer list of pairs *)
  j_object : list (string * J) → J
}.

Class JsonLaws (J : Type) `{JsonOps J} := {
  j_find_object l k : j_find (j_object l) k = assoc_find k l;
  j_elems_array l : j_elems (j_array l) = l;
  j_view_string s : j_view (j_string s) = JString s;
  j_view_bool b : j_view (j_bool b) = JBoolean b;
  (** a number is unsigned or signed by the C++ type it is built from *)
  j_view_number n : inu 64 n → j_view (j_number n) = JUnsigned n ∨ j_view (j_number n) = JInteger n;
  j_view_signed n : ins 64 n → j_view (j_number n) = JUnsigned n ∨ j_view (j_number n) = JInteger n;
  j_view_array l : j_view (j_array l) = JArray;
  j_view_object l : j_view (j_object l) = JObject;
  j_view_unsigned v n : j_view v = JUnsigned n → (0 <= n)%Z
}.

(** [get<bool>()] and [get<std::string>()]. *)
Definition j_get_bool `{JsonOps J} (v : J) : result bool :=
  match j_view v with JBoolean b => Ok b | _ => Err (other_error (j_type_error v)) end.
Definition j_get_string `{JsonOps J} (v : J) : result string :=
  match j_view v with JString s => Ok s | _ => Err (other_error (j_type_error v)) end.

(** [cfg.value(key, default)], with the [get<T>] of the type of [default]. *)
Definition j_value {A} `{JsonOps J} (get : J → result A) (cfg : J) (key : string) (default : A)
    : result A :=
  match j_view cfg with
  | JObject => match j_find cfg key with None => Ok default | Some v => get v end
  | _ => Err (other_error (j_type_error cfg))
  end.

Definition j_value_bool `{JsonOps J} (cfg : J) (key : string) (default : bool) : result bool :=
  j_value j_get_bool cfg key default.
Definition j_value_string `{JsonOps J} (cfg : J) (key default : string) : result string :=
  j_value j_get_string cfg key default.

(** [is_null]. *)
Definition j_is_null `{JsonOps J} (v : J) : bool :=
  match j_view v with JNull => true | _ => false end.

(** [cfg.at(key)] when [cfg.contains(key)] and the member is not null. *)
Definition present `{JsonOps J} (cfg : J) (key : string) : option J :=
  match j_find cfg key with
  | Some v => if j_is_null v then None else Some v
  | None => None
  end.

(** ** Lookups in an object just built *)

Lemma assoc_find_eq {V} k (v : V) l : assoc_find k ((k, v) :: l) = Some v.
Proof. cbn. by rewrite decide_True. Qed.

Lemma assoc_find_ne {V} k k' (v : V) l :
  String.eqb k' k = false → assoc_find k ((k', v) :: l) = assoc_find k l.
Proof. intros Hk%String.eqb_neq. cbn. by rewrite decide_False. Qed.

Section built.
Context {J : Type} `{JsonLaws J}.

Lemma j_is_null_bool b : j_is_null (j_bool b) = false.
Proof. unfold j_is_null. by rewrite j_view_bool. Qed.
Lemma j_is_null_string s : j_is_null (j_string s) = false.
Proof. unfold j_is_null. by rewrite j_view_string. Qed.
Lemma j_is_null_array l : j_is_null (j_array l) = false.
Proof. unfold j_is_null. by rewrite j_view_array. Qed.
Lemma j_is_null_number n : inu 64 n → j_is_null (j_number n) = false.
Proof. intros Hn. unfold j_is_null. by destruct (j_view_number n Hn) as [-> | ->]. Qed.

Lemma present_object l k :
  present (j_object l) k = v ← assoc_find k l; if j_is_null v then None else Some v.
Proof. unfold present. by rewrite j_find_object; destruct (assoc_find k l). Qed.
End built.

(** ** Traversal

    [items()] of an object, in the order of the keys, and a bound on the
    recursion over a value. *)

Class JsonItems (J : Type) `{JsonOps J} := {
  j_items : J → list (string * J);
  j_depth : J → nat
}.

Class JsonItemsLaws (J : Type) `{JsonItems J} := {
  j_find_items v k : j_view v = JObject → j_find v k = assoc_find k (j_items v);
  j_items_depth v k x : (k, x) ∈ j_items v → (j_depth x < j_depth v)%nat;
  j_elems_depth v x : x ∈ j_elems v → (j_depth x < j_depth v)%nat
}.

(** [v[key] = x] on an object; null becomes an object first, anything else
    throws. *)
Fixpoint assoc_set {V} (k : string) (v : V) (l : list (string * V)) : list (string * V) :=
  match l with
  | [] => [(k, v)]
  | (k', v') :: l => if decide (k' = k) then (k, v) :: l else (k', v') :: assoc_set k v l
  end.

Lemma assoc_find_set {V} k k' (v : V) l :
  assoc_find k' (assoc_set k v l) = if decide (k = k') then Some v else assoc_find k' l.
Proof.
  induction l as [|[k1 v1] l IH]; cbn [assoc_set]; [cbn; by repeat case_decide|].
  destruct (decide (k1 = k)) as [->|Hk]; cbn [assoc_find]; [by repeat case_decide|].
  rewrite IH. by repeat case_decide; subst.
Qed.

Definition j_set `{JsonItems J} (v : J) (key : string) (x : J) : result J :=
  match j_view v with
  | JObject => Ok (j_object (assoc_set key x (j_items v)))
  | JNull => Ok (j_object [(key, x)])
  | _ => Err (other_error (j_type_error v))
  end.

Lemma j_set_spec `{JsonLaws J, !JsonItems J, !JsonItemsLaws J} (v : J) key x v' :
  j_set v key x = Ok v' →
  j_view v' = JObject ∧ j_find v' key = Some x ∧
  ∀ k, k ≠ key → j_view v = JObject → j_find v' k = j_find v k.
Proof.
  unfold j_set. destruct (j_view v) eqn:Ev; try done; intros [= <-];
    rewrite j_view_object, j_find_object; cbn [assoc_find].
  - by rewrite decide_True.
  - rewrite assoc_find_set, decide_True by done. split; [done|]. split; [done|].
    intros k Hk _. by rewrite j_find_object, assoc_find_set, decide_False, j_find_items by done.
Qed.

(** [v.is_object()] and [v.contains(key) && v[key].is_object()]. *)
Definition j_is_object `{JsonOps J} (v : J) : bool :=
  match j_view v with JObject => true | _ => false end.
Definition j_object_at `{JsonOps J} (v : J) (key : string) : option J :=
  x ← j_find v key; if j_is_object x then Some x else None.

(** Evaluates lookups of literal keys in a literal object. *)
Ltac find_tac :=
  repeat first [rewrite assoc_find_eq | rewrite assoc_find_ne by reflexivity];
  cbn [assoc_find mbind option_bind].

(** ** A concrete implementation *)

Inductive jvalue :=
| VNull
| VBool (b : bool)
| VNum (z : Z)
| VFloat (dump : string)
| VStr (s : string)
| VArr (l : list jvalue)
| VObj (l : list (string * jvalue)).

#[export] Instance jvalue_ops : JsonOps jvalue := {|
  j_view v := match v with
              | VNull => JNull
              | VBool b => JBoolean b
              | VNum z => if (0 <=? z)%Z then JUnsigned z else JInteger z
              | VFloat _ => JFloat
              | VStr s => JString s
              | VArr _ => JArray
              | VObj _ => JObject
              end;
  j_find v k := match v with VObj l => assoc_find k l | _ => None end;
  j_elems v := match v with VArr l => l | _ => [] end;
  j_dump v := match v with VFloat d => Ok d | VNum z => Ok (pretty z) | _ => Ok "" end;
  j_type_error v := "[json.exception.type_error.302] type must be boolean";
  j_bool := VBool;
  j_number := VNum;
  j_string := VStr;
  j_array := VArr;
  j_object := VObj
|}.

#[export] Instance jvalue_laws : JsonLaws jvalue.
Proof.
  split; try reflexivity.
  { intros n [Hn _]. left. cbn. by destruct (0 <=? n)%Z eqn:E; [|lia]. }
  { intros n _. cbn. destruct (0 <=? n)%Z; tauto. }
  intros v n. destruct v as [| |z| | | |]; cbn; try done.
  destruct (0 <=? z)%Z eqn:E; intros [= <-]. lia.
Qed.

Fixpoint jvalue_depth (v : jvalue) : nat :=
  match v with
  | VArr l => Datatypes.S (foldr (λ x n, max (jvalue_depth x) n) 0%nat l)
  | VObj l => Datatypes.S (foldr (λ '(_, x) n, max (jvalue_depth x) n) 0%nat l)
  | _ => 0%nat
  end.

#[export] Instance jvalue_items : JsonItems jvalue := {|
  j_items v := match v with VObj l => l | _ => [] end;
  j_depth := jvalue_depth
|}.

#[export] Instance jvalue_items_laws : JsonItemsLaws jvalue.
Proof.
  split.
  - intros v k. destruct v as [| |z| | | |]; cbn; try done.
  - intros v k x. destruct v as [| | | | | |l]; cbn; try by intros ?%elem_of_nil.
    induction l as [|[k' y] l IH]; [by intros ?%elem_of_nil|].
    intros [[= -> ->]|Hx]%elem_of_cons; cbn; [lia|]. specialize (IH Hx). cbn in IH. lia.
  - intros v x. destruct v as [| | | | |l|]; cbn; try by intros ?%elem_of_nil.
    induction l as [|y l IH]; [by intros ?%elem_of_nil|].
    intros [->|Hx]%elem_of_cons; cbn; [lia|]. specialize (IH Hx). cbn in IH. lia.
Qed.
