(* ===== verification/FileTools.v ===== *)
(** * File tools

    Model of my_tools/MyFileTools.cpp: queries, creation, deletion and writing of
    text files over POSIX descriptors.  The file system is the parameter
    [Files F], its documented behaviour the class [FilesLaws]; [disk] is a small
    file system on which the witnesses evaluate. *)

From S2P Require Import Prelude Text.
From stdpp Require Import gmap strings.

Local Open Scope Z_scope.

(** What [stat] and [lstat] report. *)
Inductive file_kind := st_regular | st_other | st_enoent | st_error.

(** [O_WRONLY | O_CREAT] with [O_TRUNC], with [O_APPEND], and alone. *)
Inductive open_mode := O_trunc | O_append | O_plain.

Class Files (F : Type) := {
  fs_stat : F → string → file_kind;
  fs_lstat : F → string → file_kind;
  fs_open : string → open_mode → F → Z * F;
  fs_write : Z → string → F → Z * F;
  fs_close : Z → F → Z * F;
  fs_unlink : string → F → Z * F;
  (** the bytes of a file; empty when there is none *)
  fs_data : F → string → string
}.

Class FilesLaws (F : Type) `{Files F} := {
  (** the file a descriptor is open on, at its end *)
  fs_at : F → Z → option string;
  fs_open_ok p m f fd f' : fs_open p m f = (fd, f') → 0 <= fd →
    (m = O_plain ∨ fs_at f' fd = Some p) ∧
    fs_data f' p = match m with O_trunc => "" | _ => fs_data f p end;
  fs_open_failed p m f fd f' q : fs_open p m f = (fd, f') → fd < 0 → fs_data f' q = fs_data f q;
  (** a write to a regular file writes some of the bytes, or fails *)
  fs_write_spec fd p s f n f' : fs_at f fd = Some p → s ≠ "" → fs_write fd s f = (n, f') →
    (n < 0 ∧ fs_data f' p = fs_data f p) ∨
    (0 < n <= Z.of_nat (String.length s) ∧ fs_at f' fd = Some p ∧
     fs_data f' p = fs_data f p +:+ substr 0 (Z.to_nat n) s);
  fs_close_data fd f p : fs_data (fs_close fd f).2 p = fs_data f p;
  fs_unlink_gone p f : (fs_unlink p f).1 = 0 → fs_stat (fs_unlink p f).2 p = st_enoent
}.

Section tools.
Context {F : Type} `{Files F}.

Definition path_empty (s : string) : bool := match s with EmptyString => true | _ => false end.

Definition file_Exists (file_path : string) (f : F) : bool :=
  if path_empty file_path then false
  else match fs_stat f file_path with st_regular => true | _ => false end.

Definition CreateFile (file_path : string) (truncate_if_exists : bool) (f : F) : bool * F :=
  if path_empty file_path then (false, f)
  else
    let '(fd, f) := fs_open file_path (if truncate_if_exists then O_trunc else O_plain) f in
    if fd <? 0 then (false, f)
    else let '(r, f) := fs_close fd f in (r =? 0, f).

Definition DeleteFile (file_path : string) (f : F) : bool * F :=
  if path_empty file_path then (false, f)
  else match fs_lstat f file_path with
       | st_enoent => (true, f)
       | st_error | st_other => (false, f)
       | st_regular => let '(r, f) := fs_unlink file_path f in (r =? 0, f)
       end.

(** The loop of [WriteTextInternal] on the bytes not written yet: whether all
    were written; [None] when the fuel does not last. *)
Fixpoint write_all (fuel : nat) (fd : Z) (rest : string) (f : F) : option (bool * F) :=
  match rest with
  | EmptyString => Some (true, f)
  | _ =>
      match fuel with
      | O => None
      | Datatypes.S fuel =>
          let '(written, f) := fs_write fd rest f in
          if written <? 0 then Some (false, (fs_close fd f).2)
          else write_all fuel fd (substr_from (Z.to_nat written) rest) f
      end
  end.

Definition WriteTextInternal (file_path content : string) (mode : open_mode) (f : F) : option (bool * F) :=
  if path_empty file_path then Some (false, f)
  else
    let '(fd, f) := fs_open file_path mode f in
    if fd <? 0 then Some (false, f)
    else
      '(all, f) ← write_all (String.length content) fd content f;
      if negb all then Some (false, f)
      else let '(r, f) := fs_close fd f in Some (r =? 0, f).

Definition AppendText (file_path content : string) (f : F) : option (bool * F) :=
  WriteTextInternal file_path content O_append f.
Definition WriteText (file_path content : string) (f : F) : option (bool * F) :=
  WriteTextInternal file_path content O_trunc f.
End tools.

Section facts.
Context {F : Type} `{FilesLaws F}.
Implicit Types (f : F) (p s : string).

Lemma substr_split n s : (n <= String.length s)%nat → s = substr 0 n s +:+ substr_from n s.
Proof.
  revert s. induction n as [|n IH]; intros s Hn.
  - unfold substr_from, substr. rewrite Nat.sub_0_r.
    assert (E : String.substring 0 0 s = "") by (by destruct s). rewrite E.
    pose proof (substring_0_app s "") as Hs. rewrite string_app_nil_r in Hs. by rewrite Hs.
  - destruct s as [|c s]; cbn in Hn; [lia|].
    etrans; [|symmetry; apply string_app_cons]. f_equal. apply IH. lia.
Qed.

Lemma substr_from_length n s :
  (n <= String.length s)%nat → String.length (substr_from n s) = (String.length s - n)%nat.
Proof.
  intros Hn. pose proof (f_equal String.length (substr_split n s Hn)) as E.
  rewrite string_length_app in E.
  assert (Hl : String.length (substr 0 n s) = n); [|lia].
  clear E. revert s Hn. induction n as [|n IH]; intros [|c s] Hn; cbn in *; try lia.
  rewrite IH; lia.
Qed.

Lemma write_all_spec fuel fd p s f :
  fs_at f fd = Some p → (String.length s <= fuel)%nat →
  ∃ all f' k, write_all fuel fd s f = Some (all, f') ∧ (k <= String.length s)%nat ∧
    fs_data f' p = fs_data f p +:+ substr 0 k s ∧ (all = true → substr 0 k s = s).
Proof.
  revert s f. induction fuel as [|fuel IH]; intros s f Hat Hl.
  { destruct s; [|cbn in Hl; lia]. exists true, f, 0%nat. cbn. by rewrite string_app_nil_r. }
  destruct s as [|c s]; [exists true, f, 0%nat; cbn; by rewrite string_app_nil_r|].
  cbn [write_all]. destruct (fs_write fd (String c s) f) as [n f1] eqn:E.
  destruct (fs_write_spec fd p (String c s) f n f1 Hat ltac:(done) E)
    as [[Hn Hd]|([Hn Hle] & Hat1 & Hd)].
  - destruct (Z.ltb_spec n 0); [|lia]. exists false, (fs_close fd f1).2, 0%nat.
    split; [done|]. split; [lia|]. rewrite fs_close_data, Hd. split; [|done]. symmetry. apply string_app_nil_r.
  - destruct (Z.ltb_spec n 0); [lia|]. set (t := String c s) in *. set (m := Z.to_nat n) in *.
    assert (Hm : (m <= String.length t)%nat) by lia.
    pose proof (substr_from_length m t Hm) as Hlen.
    destruct (IH (substr_from m t) f1 Hat1 ltac:(lia)) as (all & f' & k & E' & Hk & Hd' & Hall).
    exists all, f', (m + k)%nat. split; [exact E'|]. split; [lia|].
    assert (Hcat : substr 0 (m + k) t = substr 0 m t +:+ substr 0 k (substr_from m t)).
    { clear -Hm. clearbody t m. revert t Hm. induction m as [|m IHm]; intros t Hm.
      - pose proof (substr_split 0 t ltac:(lia)) as Ht.
        assert (E : substr 0 0 t = "") by (by destruct t). rewrite E in Ht |- *.
        by rewrite <- (eq_trans Ht (string_app_nil _)).
      - destruct t as [|c0 t]; cbn in Hm; [lia|].
        etrans; [|symmetry; apply string_app_cons]. cbn [substr String.substring Nat.add].
        f_equal. apply IHm. lia. }
    rewrite Hcat, Hd', Hd, string_app_assoc. split; [done|].
    intros Ha. rewrite (Hall Ha). symmetry. by apply substr_split.
Qed.

(** Writing a text returns on every file system that makes progress:
    true only with the file holding exactly the text, after the old content when
    appending; false with a prefix of it written, so an overwritten file is lost. *)
Theorem WriteText_spec p s (append : bool) f :
  ∃ b f', (if append then AppendText p s f else WriteText p s f) = Some (b, f') ∧
    (b = true → fs_data f' p = (if append then fs_data f p else "") +:+ s) ∧
    (b = false → fs_data f' p = fs_data f p ∨
       ∃ k, (k <= String.length s)%nat ∧
            fs_data f' p = (if append then fs_data f p else "") +:+ substr 0 k s).
Proof.
  set (mode := if append then O_append else O_trunc).
  assert (Hgoal : ∃ b f', WriteTextInternal p s mode f = Some (b, f') ∧
    (b = true → fs_data f' p = (if append then fs_data f p else "") +:+ s) ∧
    (b = false → fs_data f' p = fs_data f p ∨
       ∃ k, (k <= String.length s)%nat ∧
            fs_data f' p = (if append then fs_data f p else "") +:+ substr 0 k s)).
  2: { by destruct append. }
  unfold WriteTextInternal. destruct (path_empty p); [exists false, f; naive_solver|].
  destruct (fs_open p mode f) as [fd f1] eqn:E1. destruct (Z.ltb_spec fd 0) as [Hfd|Hfd].
  { exists false, f1. split; [done|]. split; [done|]. left. by eapply fs_open_failed. }
  destruct (fs_open_ok _ _ _ _ _ E1 Hfd) as [Hat Hd1].
  assert (Hat' : fs_at f1 fd = Some p) by (destruct Hat as [Hm|]; [by destruct append|done]).
  assert (Hd2 : fs_data f1 p = if append then fs_data f p else "") by (by destruct append).
  destruct (write_all_spec (String.length s) fd p s f1 Hat' ltac:(lia)) as (all & f2 & k & E2 & Hk & Hd & Ha).
  rewrite E2. cbn [mbind option_bind]. destruct all; cbn [negb].
  - destruct (fs_close fd f2) as [r f3] eqn:E3.
    assert (Hd3 : fs_data f3 p = fs_data f2 p) by (by rewrite <- (fs_close_data fd f2 p), E3).
    exists (r =? 0), f3. split; [done|]. rewrite Hd3, Hd, Hd2. split; [by rewrite Ha|]. eauto.
  - exists false, f2. split; [done|]. split; [done|]. rewrite Hd, Hd2. eauto.
Qed.
End facts.

(** ** A small file system

    One file is open at a time; writes take at most four bytes and fail when the
    disk is full. *)

Record disk := Disk { dk_files : gmap string string; dk_open : option string; dk_free : nat }.

Definition disk_write (s : string) (d : disk) : Z * disk :=
  match dk_open d with
  | None => (-1, d)
  | Some p =>
      let n := Nat.min (Nat.min 4 (String.length s)) (dk_free d) in
      if decide (n = 0%nat) then (-1, d)
      else (Z.of_nat n,
            Disk (<[p := default "" (dk_files d !! p) +:+ substr 0 n s]> (dk_files d)) (Some p)
                 (dk_free d - n))
  end.

#[export] Instance disk_files : Files disk := {|
  fs_stat d p := if decide (is_Some (dk_files d !! p)) then st_regular else st_enoent;
  fs_lstat d p := if decide (is_Some (dk_files d !! p)) then st_regular else st_enoent;
  fs_open p m d :=
    (3, Disk (<[p := match m with O_trunc => "" | _ => default "" (dk_files d !! p) end]> (dk_files d))
             (Some p) (dk_free d));
  fs_write _ s d := disk_write s d;
  fs_close _ d := (0, Disk (dk_files d) None (dk_free d));
  fs_unlink p d := (0, Disk (delete p (dk_files d)) (dk_open d) (dk_free d));
  fs_data d p := default "" (dk_files d !! p)
|}.

#[export] Instance disk_laws : FilesLaws disk.
Proof.
  refine {| fs_at d _ := dk_open d |}.
  - intros p m f fd f'. cbn. intros [= <- <-] _. cbn. rewrite lookup_insert_eq. split; [by right|done].
  - intros p m f fd f' q. cbn. intros [= <- <-] ?. lia.
  - intros fd p s f n f'. cbn [fs_write disk_files fs_data]. unfold disk_write. intros ->. intros Hs.
    remember (Nat.min (Nat.min 4 (String.length s)) (dk_free f)) as k eqn:Ek.
    case_decide as Hd; intros [= <- <-]; [left; split; [lia|done]|right].
    split; [lia|]. split; [done|]. cbn [dk_files]. rewrite lookup_insert_eq. cbn [default].
    by rewrite Nat2Z.id.
  - done.
  - intros p f. cbn. intros _. by rewrite lookup_delete_eq, decide_False by (by intros []).
Defined.

(** C39 witness: a full disk keeps four bytes of the new text, the old one is
    gone. *)
Lemma WriteText_spec_witness :
  ∃ b f', WriteText "a.yaml" "new text" (Disk {["a.yaml" := "old"]} None 4) = Some (b, f') ∧
    (b = false → fs_data f' "a.yaml" = "old" ∨
       ∃ k, (k <= 8)%nat ∧ fs_data f' "a.yaml" = substr 0 k "new text") ∧
    b = false ∧ fs_data f' "a.yaml" = "new ".
Proof.
  destruct (WriteText_spec "a.yaml" "new text" false (Disk {["a.yaml" := "old"]} None 4))
    as (b & f' & E & _ & Hf).
  assert (E' : WriteText "a.yaml" "new text" (Disk {["a.yaml" := "old"]} None 4) = Some
     (false, Disk {["a.yaml" := "new "]} None 0)) by (vm_compute; reflexivity).
  exists b, f'. split; [exact E|]. split; [exact Hf|]. rewrite E' in E. injection E as <- <-.
  split; [done|]. vm_compute. reflexivity.
Defined.
