(* ===== verification/PodStream.v ===== *)
(** * The media relay manager

    Model of my_mediamtx_monitor/v2: PodConfig.cpp (configuration) and
    PodStreamManager.cpp, which watches the network to a camera pod with one
    thread and starts, stops and restarts the MediaMTX process with another.
    The operating system is the parameter [Os W] of [Processes].  One turn of a
    thread's loop is one operation; what it reads of the other thread is an
    argument. *)

From S2P Require Import Prelude Text Json Processes.
From stdpp Require Import pretty.
From Stdlib Require Import Ascii.

Local Open Scope Z_scope.

(** ** Configuration *)

Record PodConfig := {
  pc_open : bool;
  pc_pod_ip : string;
  pc_rtsp_port : string;
  pc_abs_mediamtx_path : string;
  (** a [std::map], in the order of the keys *)
  pc_stream_mapping : list (string * string);
  pc_monitor_period_ms : Z;
  pc_worker_period_ms : Z;
  pc_connect_debounce_count : Z;
  pc_disconnect_debounce_count : Z;
  pc_graceful_stop_timeout_ms : Z;
  pc_max_crash_count : Z;
  pc_crash_window_seconds : Z
}.

Definition PodConfig_default : PodConfig :=
  {| pc_open := false; pc_pod_ip := ""; pc_rtsp_port := "8555"; pc_abs_mediamtx_path := "";
     pc_stream_mapping := []; pc_monitor_period_ms := 500; pc_worker_period_ms := 200;
     pc_connect_debounce_count := 3; pc_disconnect_debounce_count := 3;
     pc_graceful_stop_timeout_ms := 3000; pc_max_crash_count := -1; pc_crash_window_seconds := 60 |}.

(** [map[key] = value]. *)
Fixpoint map_assign (k v : string) (l : list (string * string)) : list (string * string) :=
  match l with
  | [] => [(k, v)]
  | (k', v') :: l' =>
      match String.compare k k' with
      | Lt => (k, v) :: l
      | Eq => (k', v) :: l'
      | Gt => (k', v') :: map_assign k v l'
      end
  end.

(** [if (!s.empty() && s.front() == ':') s.erase(0, 1)]. *)
Definition drop_colon (s : string) : string :=
  match s with
  | String c s' => if Ascii.eqb c ":" then s' else s
  | EmptyString => s
  end.

Section config.
Context {J : Type} `{JsonItems J}.

(** The body of the loop over [paths]. *)
Definition add_path (m : list (string * string)) (path : string * J) : list (string * string) :=
  if j_is_object path.2 then
    match j_find path.2 "source" with
    | Some s => match j_view s with JString url => map_assign path.1 url m | _ => m end
    | None => m
    end
  else m.

(** The [mediamtx_json_config] node: port and streams. *)
Definition read_mediamtx (j : J) (port : string) : result (string * list (string * string)) :=
  port ← j_value j_get_string j "rtspAddress" port;
  mret (drop_colon port,
        match j_object_at j "paths" with
        | Some paths => foldl add_path [] (j_items paths)
        | None => []
        end).

Definition CreatePodByConfig (json : J) : result PodConfig :=
  op ← j_value j_get_bool json "mediamtx_enable" false;
  ip ← j_value j_get_string json "check_ip" "";
  path ← j_value j_get_string json "mediamtx_bin_path" "";
  '(port, streams) ← match j_object_at json "mediamtx_json_config" with
                     | Some j => read_mediamtx j (pc_rtsp_port PodConfig_default)
                     | None => mret (pc_rtsp_port PodConfig_default, [])
                     end;
  mret {| pc_open := op; pc_pod_ip := ip; pc_rtsp_port := port; pc_abs_mediamtx_path := path;
          pc_stream_mapping := streams; pc_monitor_period_ms := 500; pc_worker_period_ms := 200;
          pc_connect_debounce_count := 3; pc_disconnect_debounce_count := 3;
          pc_graceful_stop_timeout_ms := 3000; pc_max_crash_count := -1;
          pc_crash_window_seconds := 60 |}.
End config.

Definition str_empty (s : string) : bool := match s with EmptyString => true | _ => false end.

Definition IsValid {W} `{Os W} (c : PodConfig) (w : W) : bool :=
  if negb (pc_open c) then true
  else if str_empty (pc_pod_ip c) then false
  else if str_empty (pc_abs_mediamtx_path c) then false
  else if negb (os_executable w (pc_abs_mediamtx_path c)) then false
  else match pc_stream_mapping c with
       | [] => false
       | _ => negb (str_empty (pc_rtsp_port c))
       end.

(** ** Paths and the YAML text *)

Definition GetParentPath (path : string) : string :=
  if str_empty path then "."
  else match find_last (λ c, Ascii.eqb c "/") path with
       | None => "."
       | Some O => "/"
       | Some pos => substr 0 pos path
       end.

(** [s.back()]. *)
Fixpoint last_char (s : string) : option ascii :=
  match s with
  | EmptyString => None
  | String c EmptyString => Some c
  | String _ s => last_char s
  end.

Definition JoinPath (dir filename : string) : string :=
  match last_char dir with
  | None => filename
  | Some c => if Ascii.eqb c "/" then dir +:+ filename else dir +:+ "/" +:+ filename
  end.

Definition newline : string := String (ascii_of_nat 10) "".

Definition yaml_stream (s : string * string) : string :=
  "  " +:+ s.1 +:+ ":" +:+ newline +:+
  "    source: " +:+ s.2 +:+ newline +:+
  "    sourceOnDemand: no" +:+ newline.

Definition yaml_text (c : PodConfig) (timestamp : string) : string :=
  "# MediaMTX Configuration" +:+ newline +:+
  "# Auto-generated by PodStreamManager" +:+ newline +:+
  "# Generated at: " +:+ timestamp +:+ newline +:+
  newline +:+
  "rtspAddress: :" +:+ pc_rtsp_port c +:+ newline +:+
  newline +:+
  "paths:" +:+ newline +:+
  String.concat "" (map yaml_stream (pc_stream_mapping c)).

(** ** The manager *)

Inductive State := kIdle | kReady | kRunning | kStopping | kError.

#[export] Instance State_eq_dec : EqDecision State.
Proof. solve_decision. Defined.

Definition StateToString (s : State) : string :=
  match s with
  | kIdle => "空闲"
  | kReady => "就绪"
  | kRunning => "运行中"
  | kStopping => "停止中"
  | kError => "错误"
  end.

Definition kMaxBackoffLevel : Z := 5.
Definition kCooldownMs : Z := 2000.

Record PodStreamManager := {
  ps_config : PodConfig;
  ps_inited : bool;
  ps_quit : bool;
  ps_is_connected : bool;
  ps_mediamtx_pid : Z;
  ps_state : State;
  (** [joinable()] *)
  ps_monitor_th : bool;
  ps_worker_th : bool;
  ps_connect_success_count : Z;
  ps_connect_fail_count : Z;
  ps_crash_timestamps : list Z;
  ps_backoff_level : Z;
  ps_last_stop_time : Z
}.

Definition PodStreamManager_new : PodStreamManager :=
  {| ps_config := PodConfig_default; ps_inited := false; ps_quit := false; ps_is_connected := false;
     ps_mediamtx_pid := -1; ps_state := kIdle; ps_monitor_th := false; ps_worker_th := false;
     ps_connect_success_count := 0; ps_connect_fail_count := 0; ps_crash_timestamps := [];
     ps_backoff_level := 0; ps_last_stop_time := 0 |}.

Definition with_config (c : PodConfig) (m : PodStreamManager) : PodStreamManager :=
  {| ps_config := c; ps_inited := ps_inited m; ps_quit := ps_quit m;
     ps_is_connected := ps_is_connected m; ps_mediamtx_pid := ps_mediamtx_pid m;
     ps_state := ps_state m; ps_monitor_th := ps_monitor_th m; ps_worker_th := ps_worker_th m;
     ps_connect_success_count := ps_connect_success_count m;
     ps_connect_fail_count := ps_connect_fail_count m;
     ps_crash_timestamps := ps_crash_timestamps m; ps_backoff_level := ps_backoff_level m;
     ps_last_stop_time := ps_last_stop_time m |}.
Definition with_flags (inited quit : bool) (m : PodStreamManager) : PodStreamManager :=
  {| ps_config := ps_config m; ps_inited := inited; ps_quit := quit;
     ps_is_connected := ps_is_connected m; ps_mediamtx_pid := ps_mediamtx_pid m;
     ps_state := ps_state m; ps_monitor_th := ps_monitor_th m; ps_worker_th := ps_worker_th m;
     ps_connect_success_count := ps_connect_success_count m;
     ps_connect_fail_count := ps_connect_fail_count m;
     ps_crash_timestamps := ps_crash_timestamps m; ps_backoff_level := ps_backoff_level m;
     ps_last_stop_time := ps_last_stop_time m |}.
Definition with_threads (monitor worker : bool) (m : PodStreamManager) : PodStreamManager :=
  {| ps_config := ps_config m; ps_inited := ps_inited m; ps_quit := ps_quit m;
     ps_is_connected := ps_is_connected m; ps_mediamtx_pid := ps_mediamtx_pid m;
     ps_state := ps_state m; ps_monitor_th := monitor; ps_worker_th := worker;
     ps_connect_success_count := ps_connect_success_count m;
     ps_connect_fail_count := ps_connect_fail_count m;
     ps_crash_timestamps := ps_crash_timestamps m; ps_backoff_level := ps_backoff_level m;
     ps_last_stop_time := ps_last_stop_time m |}.
Definition with_pid (p : Z) (m : PodStreamManager) : PodStreamManager :=
  {| ps_config := ps_config m; ps_inited := ps_inited m; ps_quit := ps_quit m;
     ps_is_connected := ps_is_connected m; ps_mediamtx_pid := p;
     ps_state := ps_state m; ps_monitor_th := ps_monitor_th m; ps_worker_th := ps_worker_th m;
     ps_connect_success_count := ps_connect_success_count m;
     ps_connect_fail_count := ps_connect_fail_count m;
     ps_crash_timestamps := ps_crash_timestamps m; ps_backoff_level := ps_backoff_level m;
     ps_last_stop_time := ps_last_stop_time m |}.
Definition with_link (connected : bool) (succ fail : Z) (m : PodStreamManager) : PodStreamManager :=
  {| ps_config := ps_config m; ps_inited := ps_inited m; ps_quit := ps_quit m;
     ps_is_connected := connected; ps_mediamtx_pid := ps_mediamtx_pid m;
     ps_state := ps_state m; ps_monitor_th := ps_monitor_th m; ps_worker_th := ps_worker_th m;
     ps_connect_success_count := succ; ps_connect_fail_count := fail;
     ps_crash_timestamps := ps_crash_timestamps m; ps_backoff_level := ps_backoff_level m;
     ps_last_stop_time := ps_last_stop_time m |}.
Definition with_crashes (ts : list Z) (level : Z) (m : PodStreamManager) : PodStreamManager :=
  {| ps_config := ps_config m; ps_inited := ps_inited m; ps_quit := ps_quit m;
     ps_is_connected := ps_is_connected m; ps_mediamtx_pid := ps_mediamtx_pid m;
     ps_state := ps_state m; ps_monitor_th := ps_monitor_th m; ps_worker_th := ps_worker_th m;
     ps_connect_success_count := ps_connect_success_count m;
     ps_connect_fail_count := ps_connect_fail_count m;
     ps_crash_timestamps := ts; ps_backoff_level := level;
     ps_last_stop_time := ps_last_stop_time m |}.
Definition with_stop_time (t : Z) (m : PodStreamManager) : PodStreamManager :=
  {| ps_config := ps_config m; ps_inited := ps_inited m; ps_quit := ps_quit m;
     ps_is_connected := ps_is_connected m; ps_mediamtx_pid := ps_mediamtx_pid m;
     ps_state := ps_state m; ps_monitor_th := ps_monitor_th m; ps_worker_th := ps_worker_th m;
     ps_connect_success_count := ps_connect_success_count m;
     ps_connect_fail_count := ps_connect_fail_count m;
     ps_crash_timestamps := ps_crash_timestamps m; ps_backoff_level := ps_backoff_level m;
     ps_last_stop_time := t |}.

Definition Transition (next : State) (m : PodStreamManager) : PodStreamManager :=
  {| ps_config := ps_config m; ps_inited := ps_inited m; ps_quit := ps_quit m;
     ps_is_connected := ps_is_connected m; ps_mediamtx_pid := ps_mediamtx_pid m;
     ps_state := if decide (ps_state m = next) then ps_state m else next;
     ps_monitor_th := ps_monitor_th m; ps_worker_th := ps_worker_th m;
     ps_connect_success_count := ps_connect_success_count m;
     ps_connect_fail_count := ps_connect_fail_count m;
     ps_crash_timestamps := ps_crash_timestamps m; ps_backoff_level := ps_backoff_level m;
     ps_last_stop_time := ps_last_stop_time m |}.

Definition GetState (m : PodStreamManager) : State := ps_state m.

Definition GetStatusString (m : PodStreamManager) : string :=
  "状态: " +:+ StateToString (GetState m) +:+
  ", 网络: " +:+ (if ps_is_connected m then "已连接" else "未连接") +:+
  ", MediaMTX PID: " +:+ (if 0 <? ps_mediamtx_pid m then pretty (ps_mediamtx_pid m) else "无").

(** ** Crashes and back-off *)

Definition ms : Z := 1000000.

Definition RecordCrash (now : Z) (m : PodStreamManager) : PodStreamManager :=
  let window_start := now - pc_crash_window_seconds (ps_config m) * 1000 * ms in
  with_crashes (filter (λ t, ¬ t < window_start) (ps_crash_timestamps m ++ [now]))
               (if ps_backoff_level m <? kMaxBackoffLevel then ps_backoff_level m + 1
                else ps_backoff_level m) m.

Definition IsCrashingTooOften (m : PodStreamManager) : bool :=
  if pc_max_crash_count (ps_config m) <? 0 then false
  else pc_max_crash_count (ps_config m) <=? Z.of_nat (length (ps_crash_timestamps m)).

Definition GetBackoffDelayMs (m : PodStreamManager) : Z :=
  if ps_backoff_level m =? 0 then 0
  else if ps_backoff_level m <=? 1 then 1000
  else if ps_backoff_level m <=? 2 then 2000
  else if ps_backoff_level m <=? 3 then 4000
  else if ps_backoff_level m <=? 4 then 8000
  else 10000.

Definition ResetBackoff (m : PodStreamManager) : PodStreamManager :=
  with_crashes (ps_crash_timestamps m) 0 m.

Section manager.
Context {W : Type} `{Os W}.

(** ** Life cycle *)

Definition GetConfigPath (m : PodStreamManager) : string :=
  JoinPath (GetParentPath (pc_abs_mediamtx_path (ps_config m))) "mediamtx.yml".
Definition GetLogFilePath (m : PodStreamManager) : string :=
  JoinPath (GetParentPath (pc_abs_mediamtx_path (ps_config m))) "mediamtx.log".

Definition Init (config : PodConfig) (m : PodStreamManager) (w : W) : bool * PodStreamManager :=
  if ps_inited m then (false, m)
  else
    let m := with_config config (with_flags true (ps_quit m) m) in
    if negb (pc_open config) then (true, Transition kIdle (with_flags true true m))
    else if negb (IsValid config w) then (false, with_flags false (ps_quit m) m)
    else if negb (os_writable w (GetParentPath (pc_abs_mediamtx_path config))) then
      (false, with_flags false (ps_quit m) m)
    else (true, with_flags true true (Transition kReady m)).

Definition Start (m : PodStreamManager) : PodStreamManager :=
  if negb (ps_inited m) then m
  else if negb (pc_open (ps_config m)) then m
  else if ps_monitor_th m || ps_worker_th m then m
  else with_threads true true (with_flags (ps_inited m) false m).

(** ** The process *)

Definition IsMediaMtxAlive (m : PodStreamManager) (w : W) : bool * W :=
  if ps_mediamtx_pid m <=? 0 then (false, w)
  else let '(e, w) := os_kill (ps_mediamtx_pid m) 0 w in
       (if e =? 0 then true else negb (e =? ESRCH), w).

Definition ReapChildIfNeeded (m : PodStreamManager) (w : W) : bool * PodStreamManager * W :=
  let pid := ps_mediamtx_pid m in
  if pid <=? 0 then (false, m, w)
  else let '(r, w) := os_waitpid pid w in
       if r =? pid then (true, with_pid (-1) m, w) else (false, m, w).

(** [while (IsMediaMtxAlive())] of the graceful stop; [None] when the fuel
    does not last. *)
Fixpoint await_exit (fuel : nat) (start timeout : Z) (m : PodStreamManager) (w : W) : option W :=
  match fuel with
  | O => None
  | Datatypes.S fuel =>
      let '(alive, w) := IsMediaMtxAlive m w in
      if negb alive then Some w
      else if timeout <=? Z.quot (os_now w - start) ms then
        Some (os_kill (ps_mediamtx_pid m) SIGKILL w).2
      else await_exit fuel start timeout m (os_sleep (100 * ms) w)
  end.

Definition await_fuel (timeout : Z) : nat := (Z.to_nat (timeout / 100) + 2)%nat.

(** The wait for the exited process, [max_wait_attempts] times. *)
Fixpoint await_reap (attempts : nat) (pid : Z) (w : W) : W :=
  match attempts with
  | O => w
  | Datatypes.S attempts =>
      let '(r, w) := os_waitpid pid w in
      if r =? pid then w
      else if r <? 0 then w
      else await_reap attempts pid (os_sleep (100 * ms) w)
  end.

Definition StopMediaMtx (force_kill : bool) (m : PodStreamManager) (w : W)
    : option (PodStreamManager * W) :=
  let pid := ps_mediamtx_pid m in
  if pid <=? 0 then Some (m, w)
  else
    let '(alive, w) := IsMediaMtxAlive m w in
    if negb alive then let '(_, m, w) := ReapChildIfNeeded m w in Some (m, w)
    else
      let timeout := pc_graceful_stop_timeout_ms (ps_config m) in
      w ← (if force_kill then Some (os_kill pid SIGKILL w).2
           else let w := (os_kill pid SIGTERM w).2 in
                await_exit (await_fuel timeout) (os_now w) timeout m w);
      Some (with_pid (-1) m, await_reap 30 pid w).

Definition StartMediaMtx (m : PodStreamManager) (w : W) : bool * PodStreamManager * W :=
  let '(alive, w) := IsMediaMtxAlive m w in
  if alive then (true, m, w)
  else
    let '(pid, w) := os_fork w in
    if pid <? 0 then (false, m, w)
    else
      let m := with_pid pid m in
      let w := os_sleep (100 * ms) w in
      let '(alive, w) := IsMediaMtxAlive m w in
      if negb alive then let '(_, m, w) := ReapChildIfNeeded m w in (false, m, w)
      else (true, m, w).

(** ** The configuration file *)

Definition GenerateYamlContent (timestamp : string) (m : PodStreamManager) : string :=
  yaml_text (ps_config m) timestamp.

Definition PrepareMediaMtxConfig (timestamp : string) (m : PodStreamManager) (w : W) : bool * W :=
  let config_path := GetConfigPath m in
  let yaml_content := GenerateYamlContent timestamp m in
  let tmp_path := config_path +:+ ".tmp" in
  let '(opened, w) := os_create tmp_path w in
  if negb opened then (false, w)
  else
    let '(good, w) := os_put tmp_path yaml_content w in
    if negb good then (false, os_unlink tmp_path w)
    else
      let '(renamed, w) := os_rename tmp_path config_path w in
      if negb renamed then (false, os_unlink tmp_path w) else (true, w).

(** ** The threads *)

(** The local counters of the monitor thread. *)
Record monitor_locals := { local_success_count : Z; local_fail_count : Z }.

Definition monitor_start : monitor_locals := {| local_success_count := 0; local_fail_count := 0 |}.

(** One turn of [MonitorLoop], with the result of [ProbeConnectivityOnce]. *)
Definition MonitorLoop_iter (probe_ok : bool) (l : monitor_locals) (m : PodStreamManager)
    : monitor_locals * PodStreamManager :=
  let l := if probe_ok
           then {| local_success_count := local_success_count l + 1; local_fail_count := 0 |}
           else {| local_success_count := 0; local_fail_count := local_fail_count l + 1 |} in
  let connected :=
    if probe_ok then
      if negb (ps_is_connected m) &&
         (pc_connect_debounce_count (ps_config m) <=? local_success_count l)
      then true else ps_is_connected m
    else
      if ps_is_connected m &&
         (pc_disconnect_debounce_count (ps_config m) <=? local_fail_count l)
      then false else ps_is_connected m in
  (l, with_link connected (local_success_count l) (local_fail_count l) m).

(** The [kReady] case while connected.  [quit] and [still_connected] are what
    it reads after the back-off sleep. *)
Definition ready_connected (quit still_connected : bool) (timestamp : string)
    (m : PodStreamManager) (w : W) : PodStreamManager * W :=
  let elapsed := Z.quot (os_now w - ps_last_stop_time m) ms in
  if elapsed <? kCooldownMs then (m, w)
  else
    let backoff_ms := GetBackoffDelayMs m in
    let waits := 0 <? backoff_ms in
    let w := if waits then os_sleep (backoff_ms * ms) w else w in
    if waits && (quit || negb still_connected) then (m, w)
    else
      let '(prepared, w) := PrepareMediaMtxConfig timestamp m w in
      if negb prepared then (RecordCrash (os_now w) m, w)
      else
        let '(started, m, w) := StartMediaMtx m w in
        if negb started then (RecordCrash (os_now w) m, w)
        else (Transition kRunning m, w).

(** The [kRunning] case. *)
Definition running (connected child_exited : bool) (m : PodStreamManager) (w : W)
    : option (PodStreamManager * W) :=
  if negb connected then
    '(m, w) ← StopMediaMtx false (Transition kStopping m) w;
    Some (Transition kReady (with_stop_time (os_now w) m), w)
  else if child_exited then
    let m := RecordCrash (os_now w) m in
    Some (Transition (if IsCrashingTooOften m then kError else kReady) m, w)
  else
    let '(alive, w) := IsMediaMtxAlive m w in
    if negb alive then Some (Transition kReady (RecordCrash (os_now w) m), w)
    else Some (m, w).

(** One turn of [WorkerLoop]; [connected] is [is_connected_] at its start. *)
Definition WorkerLoop_iter (connected quit still_connected : bool) (timestamp : string)
    (m : PodStreamManager) (w : W) : option (PodStreamManager * W) :=
  let '(child_exited, m, w) := ReapChildIfNeeded m w in
  '(m, w) ← match GetState m with
            | kIdle => Some (m, w)
            | kReady =>
                Some (if connected then ready_connected quit still_connected timestamp m w
                      else (m, w))
            | kRunning => running connected child_exited m w
            | kStopping =>
                let '(alive, w) := IsMediaMtxAlive m w in
                if negb alive then
                  let '(_, m, w) := ReapChildIfNeeded m w in Some (Transition kReady m, w)
                else Some (m, w)
            | kError => Some (if negb (IsCrashingTooOften m) then Transition kReady m else m, w)
            end;
  Some (m, os_sleep (pc_worker_period_ms (ps_config m) * ms) w).

(** [Stop] before it joins the threads, and after. *)
Definition Stop_request (m : PodStreamManager) : PodStreamManager :=
  if ps_inited m then with_flags true true m else m.

Definition Stop_finish (m : PodStreamManager) (w : W) : option (PodStreamManager * W) :=
  if negb (ps_inited m) then Some (m, w)
  else
    let m := with_threads false false m in
    let '(alive, w) := IsMediaMtxAlive m w in
    '(m, w) ← (if alive then
                 '(m, w) ← StopMediaMtx false m w;
                 let '(alive, w) := IsMediaMtxAlive m w in
                 if alive then StopMediaMtx true m w else Some (m, w)
               else Some (m, w));
    let '(_, m, w) := ReapChildIfNeeded m w in
    Some (with_flags false (ps_quit m) (Transition kIdle m), w).
End manager.

(** ** The process *)

(** The process [p], if it is one, is a child, and every other child was sent
    SIGKILL: the wait for it was given up. *)
Definition accounted {W} `{Os W} (w : W) (p : Z) : Prop :=
  (0 < p → is_Some (os_child w p)) ∧
  ∀ q, is_Some (os_child w q) → (q = p ∧ 0 < p) ∨ (q, SIGKILL) ∈ os_sent w.

Section process_facts.
Context {W : Type} `{OsLaws W}.
Implicit Types (m : PodStreamManager) (w : W).

Lemma passes_but_child (X : Z → Prop) w w' q :
  passes_but X w w' → ¬ X q → is_Some (os_child w' q) → is_Some (os_child w q).
Proof.
  intros [_ Hb] Hq Hs. specialize (Hb q Hq). destruct (os_child w q); [by eexists|].
  cbn in Hb. rewrite Hb in Hs. by destruct Hs.
Qed.

Lemma accounted_still w w' p :
  accounted w p → passes_but (λ _, False) w w' → os_sent w `prefix_of` os_sent w' → accounted w' p.
Proof.
  intros [H1 H2] Hb [l Hl]. split.
  - intros Hp. destruct Hb as [_ Hb]. eapply may_become_Some; [apply Hb; tauto|by apply H1].
  - intros q Hq. apply (passes_but_child _ _ _ _ Hb) in Hq; [|tauto].
    destruct (H2 q Hq); [by left|right]. rewrite Hl. set_solver.
Qed.

Lemma accounted_passes w w' p : accounted w p → passes w w' → accounted w' p.
Proof. intros Ho [Hb Hs]. eapply accounted_still; [done..|by rewrite Hs]. Qed.

Lemma accounted_lost w w' p :
  accounted w p → passes_but (λ q, q = p) w w' → os_sent w `prefix_of` os_sent w' →
  (is_Some (os_child w' p) → (p, SIGKILL) ∈ os_sent w') → accounted w' (-1).
Proof.
  intros [_ Ho] Hb [l Hl] Hp. split; [lia|]. intros q Hq. right. destruct (decide (q = p)) as [->|Hne]; [by apply Hp|].
  apply (passes_but_child _ _ _ _ Hb) in Hq; [|done]. destruct (Ho q Hq) as [[-> _]|?]; [done|]. rewrite Hl. set_solver.
Qed.

Lemma accounted_gone w w' p :
  accounted w p → passes_but (λ q, q = p) w w' → os_sent w' = os_sent w → os_child w' p = None → accounted w' (-1).
Proof.
  intros Ho Hb Hs Hn. eapply accounted_lost; [done|done|by rewrite Hs|]. rewrite Hn. by intros [].
Qed.

Lemma accounted_killed w w' p :
  accounted w p → passes_but (λ q, q = p) w w' → os_sent w `prefix_of` os_sent w' →
  (p, SIGKILL) ∈ os_sent w' → accounted w' (-1).
Proof. intros. by eapply accounted_lost. Qed.

Lemma accounted_none w p : p <= 0 → accounted w p → accounted w (-1).
Proof. intros Hp [_ Ho]. split; [lia|]. intros q Hq. destruct (Ho q Hq); [lia|by right]. Qed.

Lemma accounted_new w : (∀ p, os_child w p = None) → accounted w (-1).
Proof. intros Hn. split; [lia|]. intros q. rewrite Hn. by intros []. Qed.

Lemma fork_accounted w p w' :
  accounted w (-1) → os_fork w = (p, w') → (p < 0 ∧ accounted w' (-1)) ∨ (0 < p ∧ accounted w' p).
Proof.
  intros Ho E. destruct (os_fork_spec _ _ _ E) as [[Hp Hw]|(Hp & _ & Hs & Hb & Hsent)].
  - left. split; [done|]. by eapply accounted_passes.
  - right. split; [done|]. split; [done|]. intros q Hq. destruct (decide (q = p)) as [->|Hne]; [by left|right].
    apply (passes_but_child _ _ _ _ Hb) in Hq; [|done]. rewrite Hsent. by destruct Ho as [_ Ho]; destruct (Ho q Hq) as [[_ ?]|].
Qed.

Lemma alive_child m w :
  0 < ps_mediamtx_pid m → is_Some (os_child w (ps_mediamtx_pid m)) →
  ∃ w', IsMediaMtxAlive m w = (true, w') ∧ passes w w'.
Proof.
  intros Hp Hc. unfold IsMediaMtxAlive. destruct (Z.leb_spec (ps_mediamtx_pid m) 0); [lia|].
  pose proof (os_kill_child _ 0 w Hp Hc) as Hz. pose proof (kill0_passes (ps_mediamtx_pid m) w) as Hk.
  destruct (os_kill _ 0 w) as [e w']. cbn in Hz, Hk. subst e. by exists w'.
Qed.

Lemma alive_none m w : ps_mediamtx_pid m <= 0 → IsMediaMtxAlive m w = (false, w).
Proof. intros Hp. unfold IsMediaMtxAlive. by destruct (Z.leb_spec (ps_mediamtx_pid m) 0); [|lia]. Qed.

Lemma reap_none m w : ps_mediamtx_pid m <= 0 → ReapChildIfNeeded m w = (false, m, w).
Proof. intros Hp. unfold ReapChildIfNeeded. by destruct (Z.leb_spec (ps_mediamtx_pid m) 0); [|lia]. Qed.

(** Reaping the manager's only child. *)
Lemma reap_spec m w b m' w' :
  ReapChildIfNeeded m w = (b, m', w') → accounted w (ps_mediamtx_pid m) →
  (b = false ∧ m' = m ∧ passes w w') ∨
  (b = true ∧ 0 < ps_mediamtx_pid m ∧ m' = with_pid (-1) m ∧ accounted w' (-1) ∧
   os_sent w' = os_sent w).
Proof.
  unfold ReapChildIfNeeded. intros Hr Ho. destruct (Z.leb_spec (ps_mediamtx_pid m) 0).
  { left. injection Hr as <- <- <-. done. }
  destruct (os_waitpid (ps_mediamtx_pid m) w) as [r w1] eqn:E.
  destruct (os_waitpid_spec _ _ _ _ ltac:(done) E) as [Hs [(-> & _ & Hp)|[(Hr0 & _ & Hp)|(-> & _ & Hn & Hp)]]].
  - destruct (Z.eqb_spec 0 (ps_mediamtx_pid m)); [lia|]. injection Hr as <- <- <-. by left.
  - destruct (Z.eqb_spec r (ps_mediamtx_pid m)); [lia|]. injection Hr as <- <- <-. by left.
  - rewrite Z.eqb_refl in Hr. injection Hr as <- <- <-. right.
    split_and!; try done. by eapply accounted_gone.
Qed.

(** The wait after SIGTERM does not see the process exit: it lasts the whole
    timeout and sends SIGKILL. *)
Lemma await_exit_kills fuel start timeout m w i :
  0 < ps_mediamtx_pid m → is_Some (os_child w (ps_mediamtx_pid m)) →
  start + 100 * ms * i <= os_now w → 0 <= i → timeout <= 100 * (i + Z.of_nat fuel - 1) →
  (0 < fuel)%nat →
  ∃ w1, await_exit fuel start timeout m w = Some (os_kill (ps_mediamtx_pid m) SIGKILL w1).2 ∧
        passes w w1 ∧ timeout <= Z.quot (os_now w1 - start) ms.
Proof.
  intros Hp. revert w i. induction fuel as [|fuel IH]; intros w i Hc Hi Hi0 Ht Hf; [lia|].
  cbn [await_exit]. destruct (alive_child m w Hp Hc) as (w1 & -> & Hw1). cbn.
  pose proof (passes_now _ _ Hw1) as Hn.
  destruct (Z.leb_spec timeout (Z.quot (os_now w1 - start) ms)) as [Hle|Hgt].
  { by exists w1. }
  destruct (IH (os_sleep (100 * ms) w1) (i + 1)) as (w2 & E & Hw2 & Hq).
  - rewrite <- passes_child by apply os_sleep_passes. by rewrite <- passes_child.
  - pose proof (os_sleep_now (100 * ms) w1). lia.
  - lia.
  - lia.
  - destruct fuel; [|lia]. exfalso.
    assert (i <= Z.quot (os_now w1 - start) (100 * ms)) by
      (apply Z.quot_le_lower_bound; unfold ms in *; lia).
    assert (100 * i <= Z.quot (os_now w1 - start) ms) by
      (apply Z.quot_le_lower_bound; unfold ms in *; lia).
    cbn in Ht. lia.
  - exists w2. split; [done|]. split; [|done].
    etrans; [exact Hw1|]. etrans; [apply os_sleep_passes|done].
Qed.

Lemma await_reap_passes n p w :
  0 < p → passes_but (λ q, q = p) w (await_reap n p w) ∧ os_sent (await_reap n p w) = os_sent w.
Proof.
  intros Hp. revert w. induction n as [|n IH]; intros w; cbn; [done|].
  destruct (os_waitpid p w) as [r w1] eqn:E.
  destruct (os_waitpid_spec _ _ _ _ Hp E) as [Hs Hr].
  assert (Hb : passes_but (λ q, q = p) w w1).
  { destruct Hr as [(_ & _ & [Hb _])|[(_ & _ & [Hb _])|(_ & _ & _ & Hb)]]; [..|done];
      by eapply passes_but_mono; [|exact Hb]. }
  destruct (r =? p); [done|]. destruct (r <? 0); [done|].
  destruct (IH (os_sleep (100 * ms) w1)) as [IH1 IH2].
  pose proof (os_sleep_passes (100 * ms) w1) as [Hsl Hss]. split.
  - etrans; [exact Hb|]. etrans; [|exact IH1]. by eapply passes_but_mono; [|exact Hsl].
  - congruence.
Qed.

(** With the process running (or exited and not waited for) a graceful stop
    ends, and sends both signals with the timeout in between. *)
Lemma graceful_kill m w :
  0 < ps_mediamtx_pid m → is_Some (os_child w (ps_mediamtx_pid m)) →
  ∃ w1 w2, passes_but (λ _, False) w w1 ∧
    os_sent w1 = os_sent w ++ [(ps_mediamtx_pid m, SIGTERM)] ∧
    is_Some (os_child w1 (ps_mediamtx_pid m)) ∧ w2 = (os_kill (ps_mediamtx_pid m) SIGKILL w1).2 ∧
    StopMediaMtx false m w = Some (with_pid (-1) m, await_reap 30 (ps_mediamtx_pid m) w2) ∧
    pc_graceful_stop_timeout_ms (ps_config m) * ms <= os_now w1 - os_now w.
Proof.
  intros Hp Hc. unfold StopMediaMtx. destruct (Z.leb_spec (ps_mediamtx_pid m) 0); [lia|].
  destruct (alive_child m w Hp Hc) as (w0 & -> & Hw0). cbn [negb].
  assert (Hc0 : is_Some (os_child w0 (ps_mediamtx_pid m))) by (by rewrite <- passes_child).
  destruct (kill_child _ SIGTERM w0 Hp ltac:(done) Hc0) as [Hb1 Hs1].
  pose proof (kill_still _ SIGTERM w0 Hc0) as Hc1.
  set (wt := (os_kill (ps_mediamtx_pid m) SIGTERM w0).2) in *.
  set (T := pc_graceful_stop_timeout_ms (ps_config m)).
  destruct (await_exit_kills (await_fuel T) (os_now wt) T m wt 0 Hp Hc1) as (w1 & E & Hw1 & HT);
    [lia..|unfold await_fuel; pose proof (Z.mul_div_le T 100 ltac:(lia));
      pose proof (Z.mod_pos_bound T 100 ltac:(lia)); pose proof (Z.div_mod T 100 ltac:(lia)); lia
    |unfold await_fuel; lia|].
  rewrite E. cbn [mbind option_bind]. exists w1, (os_kill (ps_mediamtx_pid m) SIGKILL w1).2.
  split_and!; try done.
  - eapply passes_but_passes; [exact Hw0|]. etrans; [exact Hb1|]. by destruct Hw1.
  - rewrite (passes_sent _ _ Hw1), Hs1. by rewrite (passes_sent _ _ Hw0).
  - by rewrite <- passes_child.
  - pose proof (passes_now _ _ Hw0). destruct Hb1 as [Hn1 _]. pose proof (passes_now _ _ Hw1) as Hn2.
    fold wt in Hn1. assert (Z.quot (os_now w1 - os_now wt) ms * ms <= os_now w1 - os_now wt).
    { rewrite Z.mul_comm. apply Z.mul_quot_le; unfold ms; lia. }
    unfold ms in *. nia.
Qed.

(** After a kill the wait for the process ends, with the process waited for or
    given up after thirty attempts. *)
Lemma kill_reap p w :
  0 < p → accounted w p → accounted (await_reap 30 p (os_kill p SIGKILL w).2) (-1).
Proof.
  intros Hp Ho. destruct (kill_child p SIGKILL w Hp ltac:(done) (proj1 Ho Hp)) as [Hb Hs].
  destruct (await_reap_passes 30 p (os_kill p SIGKILL w).2 Hp) as [Hr Hs2].
  eapply accounted_killed; [exact Ho| | |].
  - etrans; [|exact Hr]. eapply passes_but_mono; [|exact Hb]. by intros.
  - rewrite Hs2, Hs. by apply prefix_app_r.
  - rewrite Hs2, Hs. set_solver.
Qed.

Lemma stop_spec f m w :
  accounted w (ps_mediamtx_pid m) →
  ∃ w', StopMediaMtx f m w = Some (if 0 <? ps_mediamtx_pid m then with_pid (-1) m else m, w') ∧
        accounted w' (-1).
Proof.
  intros Ho. destruct (Z.ltb_spec 0 (ps_mediamtx_pid m)) as [Hp|Hp].
  - assert (Hc : is_Some (os_child w (ps_mediamtx_pid m))) by (by apply Ho).
    destruct f.
    + unfold StopMediaMtx. destruct (Z.leb_spec (ps_mediamtx_pid m) 0); [lia|].
      destruct (alive_child m w Hp Hc) as (w0 & -> & Hw0). cbn [negb mbind option_bind].
      eexists; split; [reflexivity|]. apply kill_reap; [done|]. by eapply accounted_passes.
    + destruct (graceful_kill m w Hp Hc) as (w1 & w2 & Hb & Hs1 & Hc1 & -> & -> & _).
      eexists; split; [reflexivity|]. apply kill_reap; [done|].
      eapply accounted_still; [done..|]. rewrite Hs1. by apply prefix_app_r.
  - unfold StopMediaMtx. destruct (Z.leb_spec (ps_mediamtx_pid m) 0); [|lia].
    eexists; split; [reflexivity|]. by eapply accounted_none.
Qed.
End process_facts.

(** ** The system

    The manager with its two threads, under the calls of one thread of the program.  [sy_monitor]
    and [sy_worker] say that a thread runs, [sy_stopping] that a call of [Stop]
    waits for them. *)

Record system (W : Type) := {
  sy_m : PodStreamManager;
  sy_w : W;
  sy_locals : monitor_locals;
  sy_monitor : bool;
  sy_worker : bool;
  sy_stopping : bool
}.
Arguments sy_m {W} _.
Arguments sy_w {W} _.
Arguments sy_locals {W} _.
Arguments sy_monitor {W} _.
Arguments sy_worker {W} _.
Arguments sy_stopping {W} _.

Definition sy_with {W} (m : PodStreamManager) (w : W) (s : system W) : system W :=
  {| sy_m := m; sy_w := w; sy_locals := sy_locals s; sy_monitor := sy_monitor s;
     sy_worker := sy_worker s; sy_stopping := sy_stopping s |}.
Definition sy_threads {W} (l : monitor_locals) (mon wrk : bool) (s : system W) : system W :=
  {| sy_m := sy_m s; sy_w := sy_w s; sy_locals := l; sy_monitor := mon;
     sy_worker := wrk; sy_stopping := sy_stopping s |}.
Definition sy_stop {W} (b : bool) (s : system W) : system W :=
  {| sy_m := sy_m s; sy_w := sy_w s; sy_locals := sy_locals s; sy_monitor := sy_monitor s;
     sy_worker := sy_worker s; sy_stopping := b |}.

Definition sy_new {W} (w : W) : system W :=
  {| sy_m := PodStreamManager_new; sy_w := w; sy_locals := monitor_start; sy_monitor := false;
     sy_worker := false; sy_stopping := false |}.

(** [Start] creates the threads when none are joinable. *)
Definition sy_start {W} (s : system W) : system W :=
  let m := Start (sy_m s) in
  if negb (ps_worker_th (sy_m s)) && ps_worker_th m
  then sy_threads monitor_start true true (sy_with m (sy_w s) s)
  else sy_with m (sy_w s) s.

Inductive sy_step {W} `{Os W} : system W → system W → Prop :=
| call_Init c s :
    sy_stopping s = false →
    sy_step s (sy_with (Init c (sy_m s) (sy_w s)).2 (sy_w s) s)
| call_Start s : sy_stopping s = false → sy_step s (sy_start s)
| call_Stop s :
    sy_stopping s = false →
    sy_step s (sy_stop true (sy_with (Stop_request (sy_m s)) (sy_w s) s))
| Stop_returns s m w :
    sy_stopping s = true → sy_monitor s = false → sy_worker s = false →
    Stop_finish (sy_m s) (sy_w s) = Some (m, w) →
    sy_step s (sy_stop false (sy_with m w s))
| monitor_turn probe l m s :
    sy_monitor s = true → ps_quit (sy_m s) = false →
    MonitorLoop_iter probe (sy_locals s) (sy_m s) = (l, m) →
    sy_step s (sy_threads l true (sy_worker s) (sy_with m (sy_w s) s))
| monitor_exit s :
    sy_monitor s = true → ps_quit (sy_m s) = true →
    sy_step s (sy_threads (sy_locals s) false (sy_worker s) s)
| worker_turn quit still timestamp m w s :
    sy_worker s = true → ps_quit (sy_m s) = false →
    WorkerLoop_iter (ps_is_connected (sy_m s)) quit still timestamp (sy_m s) (sy_w s) = Some (m, w) →
    sy_step s (sy_with m w s)
| worker_exit s :
    sy_worker s = true → ps_quit (sy_m s) = true →
    sy_step s (sy_threads (sy_locals s) (sy_monitor s) false s)
| environment w s : passes (sy_w s) w → sy_step s (sy_with (sy_m s) w s).

(** ** Invariant *)

Record relay_inv {W} `{Os W} (m : PodStreamManager) (w : W) : Prop := {
  inv_child : accounted w (ps_mediamtx_pid m);
  inv_pid : 0 < ps_mediamtx_pid m ∨ ps_mediamtx_pid m = -1;
  inv_running : ps_state m = kRunning ↔ 0 < ps_mediamtx_pid m;
  inv_stopping : ps_state m ≠ kStopping;
  inv_level : 0 <= ps_backoff_level m <= kMaxBackoffLevel;
  inv_error : ps_state m = kError → IsCrashingTooOften m = true;
  inv_uninit : ps_inited m = false → ps_state m = kIdle
}.

(** What the worker leaves alone. *)
Definition same_shell (m m' : PodStreamManager) : Prop :=
  ps_config m' = ps_config m ∧ ps_inited m' = ps_inited m ∧ ps_quit m' = ps_quit m ∧
  ps_is_connected m' = ps_is_connected m ∧
  ps_monitor_th m' = ps_monitor_th m ∧ ps_worker_th m' = ps_worker_th m ∧
  ps_connect_success_count m' = ps_connect_success_count m ∧
  ps_connect_fail_count m' = ps_connect_fail_count m.

Section invariant.
Context {W : Type} `{OsLaws W}.
Implicit Types (m : PodStreamManager) (w : W).

Lemma Transition_state s m : ps_state (Transition s m) = s.
Proof. cbn. by destruct (decide (ps_state m = s)). Qed.

Lemma PrepareMediaMtxConfig_passes ts m w b w' :
  PrepareMediaMtxConfig ts m w = (b, w') → passes w w'.
Proof.
  unfold PrepareMediaMtxConfig. set (tmp := _ +:+ ".tmp").
  pose proof (os_create_passes tmp w) as H1.
  destruct (os_create tmp w) as [o w1]. cbn in H1. destruct o; cbn [negb]; [|by intros [= <- <-]].
  pose proof (os_put_passes tmp (GenerateYamlContent ts m) w1) as H2.
  destruct (os_put tmp _ w1) as [g w2]. cbn in H2. destruct g; cbn [negb].
  - pose proof (os_rename_passes tmp (GetConfigPath m) w2) as H3.
    destruct (os_rename tmp _ w2) as [r w3]. cbn in H3. destruct r; cbn [negb]; intros [= <- <-].
    + by etrans; [exact H1|]; etrans.
    + etrans; [exact H1|]. etrans; [exact H2|]. etrans; [exact H3|]. apply os_unlink_passes.
  - intros [= <- <-]. etrans; [exact H1|]. etrans; [exact H2|]. apply os_unlink_passes.
Qed.

Lemma start_spec m w b m' w' :
  ps_mediamtx_pid m = -1 → accounted w (-1) → StartMediaMtx m w = (b, m', w') →
  (b = false ∧ m' = m ∧ accounted w' (-1)) ∨
  (∃ p, b = true ∧ 0 < p ∧ m' = with_pid p m ∧ accounted w' p).
Proof.
  intros Hp Ho. unfold StartMediaMtx. rewrite alive_none by lia.
  destruct (os_fork w) as [p w1] eqn:E. destruct (fork_accounted w p w1 Ho E) as [[Hn Ho1]|[Hpos Ho1]].
  { destruct (Z.ltb_spec p 0); [|lia]. intros [= <- <- <-]. by left. }
  destruct (Z.ltb_spec p 0); [lia|]. set (w2 := os_sleep (100 * ms) w1).
  assert (Ho2 : accounted w2 p) by (eapply accounted_passes, os_sleep_passes; done).
  destruct (alive_child (with_pid p m) w2) as (w3 & -> & Hw3); [done|by apply Ho2|].
  cbn [negb]. intros [= <- <- <-]. right. exists p. split_and!; try done.
  by eapply accounted_passes.
Qed.

Lemma RecordCrash_level now m :
  0 <= ps_backoff_level m <= kMaxBackoffLevel →
  0 <= ps_backoff_level (RecordCrash now m) <= kMaxBackoffLevel.
Proof. intros Hl. cbn. destruct (Z.ltb_spec (ps_backoff_level m) kMaxBackoffLevel); lia. Qed.

(** The invariant after a transition to a state without a process. *)
Lemma inv_no_process s m w :
  accounted w (-1) → ps_mediamtx_pid m = -1 → s ≠ kRunning → s ≠ kStopping →
  0 <= ps_backoff_level m <= kMaxBackoffLevel → (s = kError → IsCrashingTooOften m = true) →
  (ps_inited m = false → s = kIdle) → relay_inv (Transition s m) w.
Proof.
  intros Ho Hp Hr Hs Hl He Hi.
  split; rewrite ?Transition_state; cbn [ps_mediamtx_pid ps_backoff_level ps_inited Transition];
    rewrite ?Hp; try done. by right.
Qed.

Lemma inv_at_rest m w :
  accounted w (-1) → ps_mediamtx_pid m = -1 → ps_state m ≠ kRunning → ps_state m ≠ kStopping →
  0 <= ps_backoff_level m <= kMaxBackoffLevel → (ps_state m = kError → IsCrashingTooOften m = true) →
  (ps_inited m = false → ps_state m = kIdle) → relay_inv m w.
Proof. intros Ho Hp Hr Hs Hl He Hi. split; rewrite ?Hp; try done. by right. Qed.

Lemma relay_inv_passes m w w' : relay_inv m w → passes w w' → relay_inv m w'.
Proof. intros [] Hw. split; try done. by eapply accounted_passes. Qed.

Lemma start_now m w b m' w' :
  ps_mediamtx_pid m = -1 → accounted w (-1) → StartMediaMtx m w = (b, m', w') →
  os_now w <= os_now w'.
Proof.
  intros Hp Ho. unfold StartMediaMtx. rewrite alive_none by lia.
  destruct (os_fork w) as [p w1] eqn:E.
  assert (Hn1 : os_now w <= os_now w1).
  { destruct (os_fork_spec _ _ _ E) as [[_ Hw]|(_ & _ & _ & [Hw _] & _)]; [by apply passes_now|done]. }
  destruct (Z.ltb_spec p 0); [by intros [= <- <- <-]|].
  destruct (fork_accounted w p w1 Ho E) as [[? _]|[Hpos Ho1]]; [lia|].
  destruct (alive_child (with_pid p m) (os_sleep (100 * ms) w1)) as (w3 & -> & Hw3); [done| |].
  { rewrite <- passes_child by apply os_sleep_passes. by apply Ho1. }
  cbn [negb]. intros [= <- <- <-]. pose proof (passes_now _ _ Hw3).
  pose proof (passes_now _ _ (os_sleep_passes (100 * ms) w1)). lia.
Qed.

(** The [kReady] case. *)
Lemma ready_inv q c ts m w m' w' :
  relay_inv m w → ps_state m = kReady → ps_inited m = true →
  ready_connected q c ts m w = (m', w') → relay_inv m' w' ∧ same_shell m m'.
Proof.
  intros [Ho Hp Hr Hst Hl He Hu] Hs Hi.
  assert (Hp1 : ps_mediamtx_pid m = -1) by (destruct Hp as [Hp|]; [apply Hr in Hp; congruence|done]).
  rewrite Hp1 in Ho.
  assert (Hrest : ∀ w, accounted w (-1) → relay_inv m w).
  { intros w0 Hw0. apply inv_at_rest; try done; by rewrite ?Hs, ?Hi. }
  assert (Hcrash : ∀ t w, accounted w (-1) → relay_inv (RecordCrash t m) w).
  { intros t w0 Hw0. apply inv_at_rest; try done; try (by apply RecordCrash_level);
      cbn [ps_state RecordCrash with_crashes ps_inited]; by rewrite ?Hs, ?Hi. }
  unfold ready_connected. destruct (_ <? kCooldownMs); [intros [= <- <-]; split; [by apply Hrest|done]|].
  set (w1 := if 0 <? GetBackoffDelayMs m then _ else w).
  assert (Ho1 : accounted w1 (-1)).
  { unfold w1. destruct (0 <? _); [|done]. by eapply accounted_passes, os_sleep_passes. }
  destruct (_ && _); [intros [= <- <-]; split; [by apply Hrest|done]|].
  destruct (PrepareMediaMtxConfig ts m w1) as [b w2] eqn:E2.
  assert (Ho2 : accounted w2 (-1)) by (by eapply accounted_passes, PrepareMediaMtxConfig_passes).
  destruct b; cbn [negb]; [|intros [= <- <-]; split; [by apply Hcrash|done]].
  destruct (StartMediaMtx m w2) as [[b m3] w3] eqn:E3.
  destruct (start_spec m w2 b m3 w3 Hp1 Ho2 E3) as [(-> & -> & Ho3)|(p & -> & Hpos & -> & Ho3)];
    cbn [negb]; intros [= <- <-]; (split; [|done]); [by apply Hcrash|].
  split; rewrite ?Transition_state; cbn; try done; [by left|by rewrite Hi].
Qed.

(** The [kRunning] case, when the process was there before the reaping. *)
Lemma running_inv c e m w :
  ps_inited m = true → ps_state m = kRunning → 0 <= ps_backoff_level m <= kMaxBackoffLevel →
  accounted w (ps_mediamtx_pid m) →
  (e = false ∧ 0 < ps_mediamtx_pid m ∨ e = true ∧ ps_mediamtx_pid m = -1) →
  ∃ m' w', running c e m w = Some (m', w') ∧ relay_inv m' w' ∧ same_shell m m'.
Proof.
  intros Hi Hs Hl Ho He. unfold running. destruct c; cbn [negb].
  - destruct He as [[-> Hp]|[-> Hp]].
    + destruct (alive_child m w Hp ltac:(by apply Ho)) as (w1 & -> & Hw1). cbn [negb].
      eexists _, _. split; [done|]. split; [|done]. eapply relay_inv_passes; [|done].
      split; try done; [by left|by rewrite Hs|by rewrite Hs|by rewrite Hi].
    + eexists _, _. split; [done|]. rewrite Hp in Ho. split; [|done].
      apply inv_no_process; try done; [by destruct (IsCrashingTooOften _)..| | |].
      * by apply RecordCrash_level.
      * by destruct (IsCrashingTooOften _).
      * cbn. by rewrite Hi.
  - destruct (stop_spec false (Transition kStopping m) w Ho) as (w1 & -> & Ho1).
    cbn [mbind option_bind]. eexists _, _. split; [done|]. split.
    + apply inv_no_process; try done.
      * cbn. destruct (Z.ltb_spec 0 (ps_mediamtx_pid m)); cbn; lia.
      * cbn. by destruct (0 <? _).
      * cbn. destruct (0 <? _); cbn; by rewrite Hi.
    + by destruct (0 <? _).
Qed.

(** A turn of the worker returns and keeps the invariant. *)
Lemma worker_inv c q st ts m w :
  relay_inv m w → ps_inited m = true →
  ∃ m' w', WorkerLoop_iter c q st ts m w = Some (m', w') ∧ relay_inv m' w' ∧ same_shell m m'.
Proof.
  intros Hinv Hi. pose proof Hinv as [Ho Hp Hr Hst Hl He Hu]. unfold WorkerLoop_iter, GetState.
  destruct (ReapChildIfNeeded m w) as [[e m1] w1] eqn:E.
  assert (Hend : ∀ (o : option (PodStreamManager * W)),
    (∃ m' w', o = Some (m', w') ∧ relay_inv m' w' ∧ same_shell m m') →
    ∃ m' w', o ≫= (λ r : PodStreamManager * W, let '(m, w) := r in
                      Some (m, os_sleep (pc_worker_period_ms (ps_config m) * ms) w)) = Some (m', w')
             ∧ relay_inv m' w' ∧ same_shell m m').
  { intros o (m' & w' & -> & Hi' & Hs'). cbn [mbind option_bind]. eexists _, _. split; [done|].
    split; [|done]. eapply relay_inv_passes, os_sleep_passes; done. }
  apply Hend. clear Hend. destruct (reap_spec m w e m1 w1 E Ho) as [(-> & -> & Hw)|(-> & Hpos & -> & Ho1 & _)].
  - pose proof (relay_inv_passes _ _ _ Hinv Hw) as Hinv1. destruct (ps_state m) eqn:Hs.
    + by eexists _, _.
    + destruct c; [|by eexists _, _].
      destruct (ready_connected q st ts m w1) as [m2 w2] eqn:E2.
      destruct (ready_inv _ _ _ _ _ _ _ Hinv1 Hs Hi E2). by eexists _, _.
    + apply running_inv; try done; [apply Hinv1|left; split; [done|by apply Hr]].
    + done.
    + rewrite (He eq_refl). cbn [negb]. by eexists _, _.
  - assert (Hs : ps_state m = kRunning) by (by apply Hr). cbn [ps_state with_pid]. rewrite Hs.
    destruct (running_inv c true (with_pid (-1) m) w1) as (m' & w' & E' & Hi' & Hs'); try done.
    { by right. }
    by exists m', w'.
Qed.
End invariant.

Record system_inv {W} `{Os W} (s : system W) : Prop := {
  si_relay : relay_inv (sy_m s) (sy_w s);
  si_threads : ps_inited (sy_m s) = false → sy_monitor s = false ∧ sy_worker s = false
}.

Section system_facts.
Context {W : Type} `{OsLaws W}.
Implicit Types (m : PodStreamManager) (w : W) (s : system W).

Lemma Init_inv c m w : relay_inv m w → relay_inv (Init c m w).2 w.
Proof.
  intros Hinv. unfold Init. destruct (ps_inited m) eqn:Hi; [done|].
  destruct Hinv as [Ho Hp Hr Hst Hl He Hu]. specialize (Hu Hi).
  assert (Hp1 : ps_mediamtx_pid m = -1) by (destruct Hp as [Hp|]; [apply Hr in Hp; congruence|done]).
  rewrite Hp1 in Ho.
  destruct (negb (pc_open c)); [by apply inv_no_process|].
  destruct (negb (IsValid c w)); [|destruct (negb (os_writable w _))].
  1,2: apply inv_at_rest; cbn; rewrite ?Hu; done.
  cbn [snd]. pose proof (inv_no_process kReady (with_config c (with_flags true (ps_quit m) m)) w Ho Hp1)
    as [? ? ? ? ? ? ?]; done.
Qed.

Lemma Init_inited c m w : ps_inited m = true → (Init c m w).2 = m.
Proof. intros Hi. unfold Init. by rewrite Hi. Qed.

Lemma Stop_finish_spec m w :
  relay_inv m w →
  ∃ m' w', Stop_finish m w = Some (m', w') ∧ relay_inv m' w' ∧ ps_inited m' = false ∧ ps_mediamtx_pid m' = -1.
Proof.
  intros Hinv. unfold Stop_finish. pose proof Hinv as [Ho Hp Hr Hst Hl He Hu].
  destruct (ps_inited m) eqn:Hi; cbn [negb].
  2: { eexists _, _. split; [done|]. split_and!; try done. destruct Hp as [Hp|]; [|done].
       apply Hr in Hp. by rewrite Hu in Hp. }
  assert (Hfin : ∀ m0 w0, ps_mediamtx_pid m0 = -1 → accounted w0 (-1) →
    0 <= ps_backoff_level m0 <= kMaxBackoffLevel →
    relay_inv (with_flags false (ps_quit m0) (Transition kIdle m0)) w0).
  { intros m0 w0 Hp0 Ho0 Hl0. apply inv_at_rest; cbn [ps_state with_flags]; rewrite ?Transition_state; done. }
  set (mt := with_threads false false m).
  destruct (Z.ltb_spec 0 (ps_mediamtx_pid m)) as [Hpos|Hneg].
  - destruct (alive_child mt w Hpos ltac:(by apply Ho)) as (w1 & -> & Hw1).
    assert (Ho1 : accounted w1 (ps_mediamtx_pid mt)) by (by eapply accounted_passes).
    destruct (stop_spec false mt w1 Ho1) as (w2 & -> & Ho2).
    destruct (Z.ltb_spec 0 (ps_mediamtx_pid mt)); [|cbn in *; lia].
    cbn [mbind option_bind]. rewrite alive_none by (cbn; lia). cbn [mbind option_bind]. rewrite ?reap_none by (cbn; lia).
    eexists _, _. split; [done|]. split; [by apply Hfin|]. done.
  - assert (Hp1 : ps_mediamtx_pid m = -1) by lia. rewrite Hp1 in Ho.
    rewrite alive_none by (cbn; lia). cbn [mbind option_bind]. rewrite ?reap_none by (cbn; lia).
    eexists _, _. split; [done|]. split; [by apply Hfin|]. done.
Qed.

Lemma system_inv_step s s' : system_inv s → sy_step s s' → system_inv s'.
Proof.
  intros [Hr Ht]. destruct 1 as [c s Hs|s Hs|s Hs|s m w Hs Hm Hw E|probe l m s Hm Hq E|s Hm Hq
    |quit still ts m w s Hw Hq E|s Hw Hq|w s Hp].
  - split; cbn; [by apply Init_inv|]. destruct (ps_inited (sy_m s)) eqn:Hi.
    { rewrite Init_inited by done. congruence. } intros _. by apply Ht.
  - unfold sy_start, Start. destruct (ps_inited (sy_m s)) eqn:Hi; cbn [negb].
    2: { destruct (_ && _) eqn:E; [|split; cbn; [done|by intros _; apply Ht]].
         destruct (ps_worker_th (sy_m s)); discriminate E. }
    destruct (pc_open _); cbn [negb]; [|destruct (_ && _); (split; cbn; [done|congruence])].
    destruct (_ || _); [destruct (_ && _); (split; cbn; [done|congruence])|].
    destruct (_ && _); split; cbn; try congruence; destruct Hr; split; try done; cbn; congruence.
  - split; cbn; unfold Stop_request; destruct (ps_inited (sy_m s)) eqn:Hi; cbn; try done.
    + destruct Hr; split; try done. + intros _. by apply Ht.
  - destruct (Stop_finish_spec (sy_m s) (sy_w s) Hr) as (m' & w' & E' & Hr' & _ & _).
    rewrite E in E'. injection E' as <- <-. split; cbn; [done|]. by rewrite Hm, Hw.
  - injection E as _ <-. split; cbn; [destruct Hr; by split|]. intros Hi. destruct (Ht Hi). congruence.
  - split; cbn; [done|]. intros Hi. by split; [|apply Ht].
  - destruct (ps_inited (sy_m s)) eqn:Hi; [|by destruct (Ht eq_refl); congruence].
    destruct (worker_inv (ps_is_connected (sy_m s)) quit still ts _ _ Hr Hi) as (m' & w' & E' & Hr' & Hsh).
    rewrite E in E'. injection E' as <- <-. split; cbn; [done|]. destruct Hsh as (_ & -> & _). congruence.
  - split; cbn; [done|]. intros Hi. by split; [apply Ht|].
  - split; cbn; [|done]. by eapply relay_inv_passes.
Qed.

Lemma system_inv_reachable w0 s :
  (∀ p, os_child w0 p = None) → rtc sy_step (sy_new w0) s → system_inv s.
Proof.
  intros Hnew Hs. assert (Hi : system_inv (sy_new w0)).
  { split; [|done]. apply inv_at_rest; try done. by apply accounted_new. }
  clear Hnew. induction Hs as [|s1 s2 s3 Hst _ IH]; [done|]. apply IH. by eapply system_inv_step.
Qed.


(** The error state is final: whatever the threads, the environment and
    the calls other than Stop do, the manager stays in it and has no process,
    since the recorded crashes are only dropped when another crash is recorded. *)
Theorem error_state_final w0 s s' :
  (∀ p, os_child w0 p = None) → rtc sy_step (sy_new w0) s →
  ps_state (sy_m s) = kError → sy_stopping s = false →
  rtc (λ a b, sy_step a b ∧ sy_stopping b = false) s s' →
  ps_state (sy_m s') = kError ∧ ps_mediamtx_pid (sy_m s') = -1 ∧
  ∀ p, is_Some (os_child (sy_w s') p) → (p, SIGKILL) ∈ os_sent (sy_w s').
Proof.
  intros Hnew Hs He Hns Hs'. pose proof (system_inv_reachable w0 s Hnew Hs) as Hinv. clear Hs.
  induction Hs' as [s|s1 s2 s3 [Hst Hsp] _ IH].
  - destruct Hinv as [[[_ Ho] Hp Hrun _ _ _ _] _]. split; [done|].
    assert (Hpid : ps_mediamtx_pid (sy_m s) = -1) by (destruct Hp as [Hp|]; [apply Hrun in Hp; congruence|done]).
    split; [done|]. intros p Hc. destruct (Ho p Hc); [lia|done].
  - apply IH; [|done|by eapply system_inv_step]. clear IH. destruct Hinv as [[Ho Hp Hrun _ _ Hcr Hu] Ht].
    assert (Hin : ps_inited (sy_m s1) = true).
    { destruct (ps_inited (sy_m s1)); [done|]. by rewrite Hu in He. }
    assert (Hpid : ps_mediamtx_pid (sy_m s1) = -1) by (destruct Hp as [Hp|]; [apply Hrun in Hp; congruence|done]).
    destruct Hst as [c s Hs|s Hs|s Hs|s m w Hs Hm Hw E|probe l m s Hm Hq E|s Hm Hq
      |quit still ts m w s Hw Hq E|s Hw Hq|w s Hps]; try done.
    + cbn. by rewrite Init_inited.
    + unfold sy_start, Start. rewrite Hin. cbn [negb].
      destruct (pc_open _); cbn [negb]; [|by destruct (_ && _)].
      destruct (_ || _); by destruct (_ && _).
    + congruence.
    + by injection E as _ <-.
    + unfold WorkerLoop_iter in E. rewrite reap_none in E by lia. unfold GetState in E. rewrite He in E.
      rewrite Hcr in E by done. cbn in E. injection E as <- <-. done.
Qed.
End system_facts.

(** ** Debouncing *)

(** The length of the run of [x] a list ends in. *)
Definition trailing (x : bool) (l : list bool) : Z :=
  foldl (λ n y, if Bool.eqb y x then n + 1 else 0) 0 l.

(** [n] times [x] in a row. *)
Definition has_run (n : nat) (x : bool) (l : list bool) : Prop :=
  ∃ a b, l = a ++ replicate n x ++ b.

Section debounce.
Implicit Types (x : bool) (l ps : list bool).

Lemma trailing_snoc x y l : trailing x (l ++ [y]) = if Bool.eqb y x then trailing x l + 1 else 0.
Proof. unfold trailing. by rewrite foldl_app. Qed.

Lemma trailing_nonneg x l : 0 <= trailing x l.
Proof.
  induction l as [|y l IH] using rev_ind; [done|]. rewrite trailing_snoc. destruct (Bool.eqb y x); lia.
Qed.

Lemma trailing_run x l n : Z.of_nat n <= trailing x l ↔ ∃ a, l = a ++ replicate n x.
Proof.
  revert n. induction l as [|y l IH] using rev_ind; intros n.
  - change (trailing x []) with 0. split.
    + intros Hn. exists []. by destruct n; [|lia].
    + intros (a & Ha). symmetry in Ha. apply app_eq_nil in Ha as [_ Ha].
      destruct n; [lia|discriminate Ha].
  - rewrite trailing_snoc. destruct n as [|n].
    { split; [|intros _; destruct (Bool.eqb y x); [pose proof (trailing_nonneg x l)|]; lia].
      intros _. exists (l ++ [y]). by rewrite app_nil_r. }
    destruct (Bool.eqb y x) eqn:E.
    + apply Bool.eqb_prop in E as ->. rewrite Nat2Z.inj_succ.
      transitivity (Z.of_nat n <= trailing x l); [lia|]. rewrite IH. split; intros (a & Ha).
      * exists a. by rewrite Ha, replicate_S_end, app_assoc.
      * exists a. rewrite replicate_S_end, app_assoc in Ha. by apply app_inj_tail in Ha as [-> _].
    + split; [lia|]. intros (a & Ha). rewrite replicate_S_end, app_assoc in Ha.
      apply app_inj_tail in Ha as [_ ->]. by rewrite Bool.eqb_reflx in E.
Qed.

Lemma has_run_snoc n x y l :
  (0 < n)%nat → has_run n x (l ++ [y]) ↔ has_run n x l ∨ Z.of_nat n <= trailing x (l ++ [y]).
Proof.
  intros Hn. rewrite trailing_run. split.
  - intros (a & b & E). destruct b as [|z b] using rev_ind.
    + right. exists a. by rewrite E, app_nil_r.
    + left. exists a, b. rewrite !app_assoc in E. apply app_inj_tail in E as [-> _].
      by rewrite app_assoc.
  - intros [(a & b & ->)|(a & E)].
    + exists a, (b ++ [y]). by rewrite <- !app_assoc.
    + exists a, []. by rewrite E, app_nil_r.
Qed.

(** A run cannot reach back over an element of the other kind. *)
Lemma trailing_stop x y l l' : y ≠ x → trailing x (l ++ [y] ++ l') = trailing x l'.
Proof.
  intros Hy. induction l' as [|z l' IH] using rev_ind.
  - rewrite app_nil_r, trailing_snoc. apply Bool.eqb_false_iff in Hy. by rewrite Hy.
  - rewrite !app_assoc, trailing_snoc, trailing_snoc. rewrite <- app_assoc, IH. done.
Qed.

Lemma trailing_after n a l :
  (0 < n)%nat → trailing false (a ++ replicate n true ++ l) = trailing false l.
Proof.
  intros Hn. destruct n as [|n]; [lia|]. rewrite replicate_S_end, <- app_assoc, app_assoc.
  by apply trailing_stop.
Qed.

(** The monitor thread's turns on a sequence of probe results. *)
Definition monitor_run (ps : list bool) (lm : monitor_locals * PodStreamManager)
    : monitor_locals * PodStreamManager :=
  foldl (λ lm probe, MonitorLoop_iter probe lm.1 lm.2) lm ps.

Lemma monitor_run_snoc ps p lm :
  monitor_run (ps ++ [p]) lm = MonitorLoop_iter p (monitor_run ps lm).1 (monitor_run ps lm).2.
Proof. unfold monitor_run. by rewrite foldl_app. Qed.

Lemma monitor_run_locals ps m :
  let r := monitor_run ps (monitor_start, m) in
  local_success_count r.1 = trailing true ps ∧ local_fail_count r.1 = trailing false ps ∧
  ps_config r.2 = ps_config m.
Proof.
  induction ps as [|p ps IH] using rev_ind; [done|]. cbn zeta in *. rewrite monitor_run_snoc.
  rewrite !trailing_snoc. destruct IH as (<- & <- & <-). by destruct p.
Qed.

Lemma monitor_run_connected ps p m :
  let c := ps_is_connected (monitor_run ps (monitor_start, m)).2 in
  ps_is_connected (monitor_run (ps ++ [p]) (monitor_start, m)).2 =
  if p then c || (pc_connect_debounce_count (ps_config m) <=? trailing true (ps ++ [p]))
  else c && negb (pc_disconnect_debounce_count (ps_config m) <=? trailing false (ps ++ [p])).
Proof.
  cbn zeta. rewrite monitor_run_snoc, !trailing_snoc.
  destruct (monitor_run_locals ps m) as (H1 & H2 & H3).
  destruct p; cbn -[Z.leb]; rewrite ?H1, ?H2, ?H3; destruct (ps_is_connected _), (_ <=? _); done.
Qed.

(** The network counts as connected exactly when some run of successful
    probes of the configured length was not followed by a run of failed probes
    of the configured length, or it was connected before and there was no such
    run of failures; and the published counters are the lengths of the current
    runs. *)
Theorem debounce_spec ps m (n k : nat) :
  pc_connect_debounce_count (ps_config m) = Z.of_nat n → (0 < n)%nat →
  pc_disconnect_debounce_count (ps_config m) = Z.of_nat k → (0 < k)%nat →
  let m' := (monitor_run ps (monitor_start, m)).2 in
  (ps_is_connected m' = true ↔
     (∃ a b, ps = a ++ replicate n true ++ b ∧ ¬ has_run k false b) ∨
     (ps_is_connected m = true ∧ ¬ has_run k false ps)) ∧
  (ps ≠ [] → ps_connect_success_count m' = trailing true ps ∧
             ps_connect_fail_count m' = trailing false ps).
Proof.
  intros En Hn Ek Hk. cbn zeta. split.
  2: { destruct ps as [|p ps _] using rev_ind; [done|]. intros _.
       rewrite monitor_run_snoc, !trailing_snoc.
       destruct (monitor_run_locals ps m) as (<- & <- & _). by destruct p. }
  assert (Hnil : ¬ has_run k false []).
  { intros (a & b & E). symmetry in E. apply app_eq_nil in E as [_ E].
    apply app_eq_nil in E as [E _]. by destruct k; [lia|]. }
  induction ps as [|p ps IH] using rev_ind.
  { cbn. split; [by right|]. intros [(a & b & E & _)|[? _]]; [|done].
    symmetry in E. apply app_eq_nil in E as [_ E]. apply app_eq_nil in E as [E _].
    by destruct n; [lia|]. }
  rewrite monitor_run_connected, En, Ek. destruct p.
  - assert (Hr : ∀ l, has_run k false (l ++ [true]) ↔ has_run k false l).
    { intros l. rewrite has_run_snoc, trailing_snoc by done. cbn. split; [intros [?|?]; [done|lia]|by left]. }
    rewrite orb_true_iff, Z.leb_le, IH, trailing_run, Hr. split.
    + intros [[(a & b & -> & Hb)|Hc]|(a & E)]; [left|by right|left].
      * exists a, (b ++ [true]). by rewrite Hr, <- !app_assoc.
      * exists a, []. by rewrite app_nil_r.
    + intros [(a & b & E & Hb)|Hc]; [|by left; right]. destruct b as [|y b _] using rev_ind.
      { right. exists a. by rewrite E, app_nil_r. }
      left; left. exists a, b. rewrite !app_assoc in E. apply app_inj_tail in E as [-> <-].
      by rewrite <- app_assoc, <- Hr.
  - rewrite andb_true_iff, negb_true_iff, Z.leb_gt, IH. split.
    + intros [[(a & b & -> & Hb)|[Hc Hb]] Ht]; [left|right].
      * exists a, (b ++ [false]). rewrite <- !app_assoc in Ht |- *. split; [done|].
        rewrite trailing_after in Ht by done. rewrite has_run_snoc by done.
        intros [?|?]; [done|lia].
      * split; [done|]. rewrite has_run_snoc by done. intros [?|?]; [done|lia].
    + intros [(a & b & E & Hb)|[Hc Hb]].
      * destruct b as [|y b _] using rev_ind.
        { exfalso. destruct n as [|n]; [lia|]. rewrite app_nil_r, replicate_S_end, app_assoc in E.
          by apply app_inj_tail in E as [_ ?]. }
        rewrite !app_assoc in E. apply app_inj_tail in E as [-> <-]. rewrite <- !app_assoc.
        rewrite trailing_after by done. rewrite has_run_snoc in Hb by done.
        split; [left; exists a, b; by split; [|tauto]|lia].
      * rewrite has_run_snoc in Hb by done. split; [right; tauto|lia].
Qed.
End debounce.

(** ** Operations *)

Section operations.
Context {W : Type} `{OsLaws W}.
Implicit Types (m : PodStreamManager) (w : W).

(** Stopping the process gracefully always takes the whole timeout and
    always ends with SIGKILL, even when the process obeys SIGTERM at once: the
    loop asks with signal 0 whether the process exists, which an exited process
    does until it is waited for, and nobody waits for it in the loop. *)
Theorem graceful_stop_kills m w :
  0 < ps_mediamtx_pid m → is_Some (os_child w (ps_mediamtx_pid m)) →
  ∃ w', StopMediaMtx false m w = Some (with_pid (-1) m, w') ∧
    os_sent w' = os_sent w ++ [(ps_mediamtx_pid m, SIGTERM); (ps_mediamtx_pid m, SIGKILL)] ∧
    pc_graceful_stop_timeout_ms (ps_config m) * ms <= os_now w' - os_now w.
Proof.
  intros Hp Hc. destruct (graceful_kill m w Hp Hc) as (w1 & w2 & _ & Hs1 & Hc1 & -> & E & Ht).
  destruct (kill_child _ SIGKILL w1 Hp ltac:(done) Hc1) as [[Hn2 _] Hs2].
  destruct (await_reap_passes 30 _ (os_kill (ps_mediamtx_pid m) SIGKILL w1).2 Hp) as [[Hn3 _] Hs3].
  eexists. split; [exact E|]. split; [|lia]. by rewrite Hs3, Hs2, Hs1, <- app_assoc.
Qed.

Lemma length_tmp s : s +:+ ".tmp" ≠ s.
Proof. intros E. apply (f_equal String.length) in E. rewrite string_length_app in E. cbn in E. lia. Qed.

(** Writing the configuration is all or nothing. *)
Lemma PrepareMediaMtxConfig_spec ts m w b w' :
  PrepareMediaMtxConfig ts m w = (b, w') →
  os_file w' (GetConfigPath m) =
    if b then Some (GenerateYamlContent ts m) else os_file w (GetConfigPath m).
Proof.
  unfold PrepareMediaMtxConfig. set (f := GetConfigPath m). set (t := f +:+ ".tmp").
  assert (Hft : f ≠ t) by (intros E; by apply (length_tmp f)).
  pose proof (os_create_file t f w Hft) as H1. pose proof (os_create_new t w) as H1'.
  destruct (os_create t w) as [o w1]. cbn in H1, H1'. destruct o; cbn [negb]; [|by intros [= <- <-]].
  pose proof (os_put_file t (GenerateYamlContent ts m) f w1 Hft) as H2.
  pose proof (os_put_new t (GenerateYamlContent ts m) w1 (H1' eq_refl)) as H2'.
  destruct (os_put t _ w1) as [g w2]. cbn in H2, H2'.
  destruct g; cbn [negb]; [|intros [= <- <-]; rewrite os_unlink_file by done; congruence].
  pose proof (os_rename_failed t f f w2) as H3. pose proof (os_rename_done t f w2) as H3'.
  destruct (os_rename t f w2) as [r w3]. cbn in H3, H3'.
  destruct r; cbn [negb]; intros [= <- <-].
  - rewrite H3' by done. by apply H2'.
  - rewrite os_unlink_file, H3 by done. congruence.
Qed.

(** One turn of the worker in the ready state with the network up: during
    the two seconds after a stop nothing happens; otherwise the back-off of
    0, 1, 2, 4, 8 or 10 seconds passes, and then either the process runs with the
    configuration written, or the failure is recorded and the state kept. *)
Theorem worker_start_spec quit ts m w m' w' :
  relay_inv m w → ps_state m = kReady → ps_inited m = true → quit = false →
  WorkerLoop_iter true quit true ts m w = Some (m', w') →
  let delay := nth (Z.to_nat (ps_backoff_level m)) [0; 1000; 2000; 4000; 8000; 10000] 0 in
  (Z.quot (os_now w - ps_last_stop_time m) ms < kCooldownMs ∧ m' = m) ∨
  (delay * ms <= os_now w' - os_now w ∧
   ((ps_state m' = kRunning ∧ (∃ p, 0 < p ∧ m' = Transition kRunning (with_pid p m) ∧ accounted w' p)) ∨
    (ps_state m' = kReady ∧ ∃ t, m' = RecordCrash t m))).
Proof.
  intros Hinv Hs Hi -> E. cbn zeta. pose proof Hinv as [Ho Hp Hr Hst Hl _ _].
  assert (Hp1 : ps_mediamtx_pid m = -1) by (destruct Hp as [Hp|]; [apply Hr in Hp; congruence|done]).
  rewrite Hp1 in Ho. unfold WorkerLoop_iter in E. rewrite reap_none in E by lia.
  unfold GetState in E. rewrite Hs in E. cbn [mbind option_bind] in E.
  assert (Hd : nth (Z.to_nat (ps_backoff_level m)) [0; 1000; 2000; 4000; 8000; 10000] 0 = GetBackoffDelayMs m).
  { unfold GetBackoffDelayMs, kMaxBackoffLevel in *.
    assert (Hin : ps_backoff_level m = 0 ∨ ps_backoff_level m = 1 ∨ ps_backoff_level m = 2 ∨
                  ps_backoff_level m = 3 ∨ ps_backoff_level m = 4 ∨ ps_backoff_level m = 5) by lia.
    by destruct Hin as [->|[->|[->|[->|[->| ->]]]]]. }
  rewrite Hd. unfold ready_connected in E.
  destruct (Z.ltb_spec (Z.quot (os_now w - ps_last_stop_time m) ms) kCooldownMs) as [Hc|Hc].
  { left. by injection E as <- <-. }
  right. set (w1 := if 0 <? GetBackoffDelayMs m then _ else w) in *.
  assert (Hw1 : passes w w1).
  { unfold w1. destruct (0 <? _); [apply os_sleep_passes|done]. }
  assert (Hn1 : GetBackoffDelayMs m * ms <= os_now w1 - os_now w).
  { unfold w1. destruct (Z.ltb_spec 0 (GetBackoffDelayMs m)).
    - pose proof (os_sleep_now (GetBackoffDelayMs m * ms) w). lia.
    - unfold ms. lia. }
  rewrite andb_false_r in E.
  destruct (PrepareMediaMtxConfig ts m w1) as [b w2] eqn:E2.
  pose proof (PrepareMediaMtxConfig_passes _ _ _ _ _ E2) as Hw2.
  pose proof (passes_now _ _ Hw1). pose proof (passes_now _ _ Hw2).
  assert (Hsl : ∀ w0, os_now w0 <= os_now (os_sleep (pc_worker_period_ms (ps_config m) * ms) w0)).
  { intros w0. apply passes_now, os_sleep_passes. }
  destruct b; cbn [negb] in E.
  2: { injection E as <- <-. split; [specialize (Hsl w2); cbn in *; lia|]. right. cbn. eauto. }
  destruct (StartMediaMtx m w2) as [[b m3] w3] eqn:E3.
  assert (Ho2 : accounted w2 (-1)) by (by eapply accounted_passes, Hw2; eapply accounted_passes).
  pose proof (start_now _ _ _ _ _ Hp1 Ho2 E3).
  destruct (start_spec _ _ _ _ _ Hp1 Ho2 E3) as [(-> & -> & Ho3)|(p & -> & Hpos & -> & Ho3)];
    cbn [negb] in E; injection E as <- <-; (split; [specialize (Hsl w3); cbn in *; lia|]).
  - right. cbn. eauto.
  - left. split; [apply Transition_state|]. exists p. split_and!; try done.
    by eapply accounted_passes, os_sleep_passes.
Qed.
End operations.

(** ** Witnesses *)

Definition demo_config : PodConfig :=
  {| pc_open := true; pc_pod_ip := "192.168.10.251"; pc_rtsp_port := "8555";
     pc_abs_mediamtx_path := "/opt/mediamtx";
     pc_stream_mapping := [("video_r", "rtsp://192.168.10.251:8554/video_r")];
     pc_monitor_period_ms := 500; pc_worker_period_ms := 200; pc_connect_debounce_count := 1;
     pc_disconnect_debounce_count := 1; pc_graceful_stop_timeout_ms := 3000;
     pc_max_crash_count := 1; pc_crash_window_seconds := 60 |}.

(** A system on which MediaMTX exits by itself after [life] nanoseconds. *)
Definition demo_world (life : option Z) : sim := Sim 5000000000 ∅ 100 life (Some 1000000) [] ∅ true.

Example yaml_path : GetConfigPath (with_config demo_config PodStreamManager_new) = "/opt/mediamtx.yml".
Proof. reflexivity. Qed.

Example config_from_json :
  CreatePodByConfig (VObj [("mediamtx_enable", VBool true);
    ("mediamtx_json_config", VObj [("rtspAddress", VStr ":8600");
       ("paths", VObj [("b", VObj [("source", VStr "rtsp://b")]); ("a", VNum 1)])])]) =
  Ok {| pc_open := true; pc_pod_ip := ""; pc_rtsp_port := "8600"; pc_abs_mediamtx_path := "";
        pc_stream_mapping := [("b", "rtsp://b")]; pc_monitor_period_ms := 500;
        pc_worker_period_ms := 200; pc_connect_debounce_count := 3; pc_disconnect_debounce_count := 3;
        pc_graceful_stop_timeout_ms := 3000; pc_max_crash_count := -1; pc_crash_window_seconds := 60 |}.
Proof. reflexivity. Qed.

Lemma demo_world_empty life p : os_child (demo_world life) p = None.
Proof. cbn. unfold sim_child. cbn. by rewrite lookup_empty. Qed.

(** Evaluates the next step of a run. *)
Ltac run_step c := eapply rtc_l; [eapply c; vm_compute; reflexivity|].


(** The process exits by itself, once too often. *)
Lemma demo_error :
  ∃ s, rtc sy_step (sy_new (demo_world (Some 50000000))) s ∧ ps_state (sy_m s) = kError ∧
       sy_stopping s = false ∧ sy_monitor s = true.
Proof.
  eexists. split.
  - run_step (call_Init demo_config). run_step call_Start. run_step (monitor_turn true).
    run_step (worker_turn false true "12:00"). run_step (worker_turn false true "12:00"). apply rtc_refl.
  - split_and!; vm_compute; reflexivity.
Qed.


(** C35 witness: one crash with max_crash_count 1, then a turn of the monitor. *)
Lemma error_state_final_witness :
  ∃ s s', rtc sy_step (sy_new (demo_world (Some 50000000))) s ∧ sy_step s s' ∧
    ps_state (sy_m s') = kError ∧ ps_mediamtx_pid (sy_m s') = -1.
Proof.
  destruct demo_error as (s & Hs & He & Hn & Hm).
  assert (Hq : sy_step s (sy_with (sy_m s) (sy_w s) s)) by (by apply environment).
  exists s, (sy_with (sy_m s) (sy_w s) s). split; [done|]. split; [done|].
  destruct (error_state_final (demo_world (Some 50000000)) s (sy_with (sy_m s) (sy_w s) s)
              (demo_world_empty _) Hs He Hn) as (H1 & H2 & _); [by apply rtc_once|by split].
Defined.

(** C32 witness: three successes, then one failure. *)
Lemma debounce_spec_witness :
  ps_is_connected (monitor_run [false; true; true; true; false] (monitor_start, PodStreamManager_new)).2 = true.
Proof.
  apply (debounce_spec [false; true; true; true; false] PodStreamManager_new 3 3);
    [reflexivity|lia|reflexivity|lia|].
  left. exists [false], [false]. split; [reflexivity|]. intros (a & b & E).
  apply (f_equal length) in E. rewrite !length_app in E. cbn in E. lia.
Defined.

(** C38 witness: a process that obeys SIGTERM within a millisecond. *)
Lemma graceful_stop_kills_witness :
  let m := with_pid 100 (with_config demo_config PodStreamManager_new) in
  let w := (os_fork (demo_world None)).2 in
  ∃ w', StopMediaMtx false m w = Some (with_pid (-1) m, w') ∧
    os_sent w' = [(100, SIGTERM); (100, SIGKILL)] ∧ 3000 * ms <= os_now w' - os_now w.
Proof.
  destruct (graceful_stop_kills (with_pid 100 (with_config demo_config PodStreamManager_new))
              (os_fork (demo_world None)).2) as (w' & E & Hs & Ht);
    [done|vm_compute; by eexists|].
  exists w'. split; [exact E|]. split; [rewrite Hs; vm_compute; reflexivity|exact Ht].
Defined.

Definition demo_ready : PodStreamManager :=
  Transition kReady (with_config demo_config (with_flags true false (with_crashes [] 2 PodStreamManager_new))).

(** C33 witness: a start after two crashes. *)
Lemma worker_start_spec_witness :
  ∃ m' w', WorkerLoop_iter true false true "12:00" demo_ready (demo_world None) = Some (m', w') ∧
    2000 * ms <= os_now w' - os_now (demo_world None) ∧ ps_state m' = kRunning.
Proof.
  eexists _, _. split; [vm_compute; reflexivity|].
  edestruct (worker_start_spec false "12:00" demo_ready (demo_world None)) as [[Hc _]|[Hd [[Hr _]|[Hr _]]]];
    [|reflexivity..|vm_compute; reflexivity| | |].
  - apply inv_at_rest; try done. by apply accounted_new, demo_world_empty.
  - exfalso. by vm_compute in Hc.
  - split; [exact Hd|exact Hr].
  - exfalso. by vm_compute in Hr.
Defined.
