(* ===== verification/RtspRelay.v ===== *)
(** * The RTSP relay monitor

    Model of my_mediamtx_monitor/v1: RtspRelayMonitor.cpp, which reads its
    configuration, writes it as YAML for MediaMTX, and keeps that process running
    with one thread.  Processes are those of [Processes], files those of
    [FileTools]; what the machine answers (addresses, directory, reachability of
    the source, free ports) is an argument. *)

From S2P Require Import Prelude Text Json Processes FileTools.
From stdpp Require Import pretty.
From Stdlib Require Import Ascii.

Local Open Scope Z_scope.

Inductive RtspRelayState := STOPPED | STARTING | RUNNING | SOURCE_LOST | ERROR.

#[export] Instance RtspRelayState_eq_dec : EqDecision RtspRelayState.
Proof. solve_decision. Defined.

Definition RtspRelayStateToString (s : RtspRelayState) : string :=
  match s with
  | STOPPED => "STOPPED"
  | STARTING => "STARTING"
  | RUNNING => "RUNNING"
  | SOURCE_LOST => "SOURCE_LOST"
  | ERROR => "ERROR"
  end.

(** ** JSON to YAML *)

Definition nl : string := String (ascii_of_nat 10) "".
Definition quote : string := String (ascii_of_nat 34) "".

Fixpoint spaces (n : nat) : string :=
  match n with O => "" | Datatypes.S n => String " " (spaces n) end.

(** A loop that appends text. *)
Fixpoint append_all {A} (f : A → result string) (l : list A) : result string :=
  match l with
  | [] => Ok ""
  | a :: l => s ← f a; t ← append_all f l; Ok (s +:+ t)
  end.

Section yaml.
Context {J : Type} `{JsonItems J}.

(** The recursion over nested values; [JsonToYaml] starts it with the depth of
    the value, which suffices. *)
Fixpoint json_yaml (fuel : nat) (j : J) (indent : nat) : result string :=
  match fuel with
  | O => Ok ""
  | Datatypes.S fuel =>
      let pad := spaces (indent * 2) in
      match j_view j with
      | JObject =>
          append_all (λ '(key, value),
            match j_view value with
            | JObject =>
                t ← json_yaml fuel value (indent + 1); Ok (pad +:+ key +:+ ":" +:+ nl +:+ t)
            | JArray =>
                t ← append_all (λ elem,
                      match j_view elem with
                      | JObject | JArray =>
                          t ← json_yaml fuel elem (indent + 2); Ok (pad +:+ "  -" +:+ nl +:+ t)
                      | _ => t ← j_dump elem; Ok (pad +:+ "  - " +:+ t +:+ nl)
                      end) (j_elems value);
                Ok (pad +:+ key +:+ ":" +:+ nl +:+ t)
            | JString s => Ok (pad +:+ key +:+ ": " +:+ quote +:+ s +:+ quote +:+ nl)
            | JBoolean b => Ok (pad +:+ key +:+ ": " +:+ (if b then "yes" else "no") +:+ nl)
            | _ => t ← j_dump value; Ok (pad +:+ key +:+ ": " +:+ t +:+ nl)
            end) (j_items j)
      | _ => Ok ""
      end
  end.

Definition JsonToYaml (j : J) (indent : nat) : result string :=
  json_yaml (Datatypes.S (j_depth j)) j indent.
End yaml.

(** ** The monitor *)

Record RtspRelayMonitor (J : Type) := {
  rr_mediamtx_json_config : option J;
  rr_yaml_content : string;
  rr_local_ip : string;
  rr_yaml_file_name : string;
  rr_yaml_file_abs_path : string;
  rr_mediamtx_bin : string;
  rr_check_ip : string;
  rr_check_port : Z;
  rr_rtsp_listen_port : Z;
  rr_monitor_interval_sec : Z;
  rr_enable : bool;
  rr_running : bool;
  rr_config_initialized : bool;
  rr_relay_pid : Z;
  rr_monitor_thread : bool;                  (** [joinable()] *)
  rr_state : RtspRelayState;
  rr_info : option J
}.
Arguments rr_mediamtx_json_config {J} _.
Arguments rr_yaml_content {J} _.
Arguments rr_local_ip {J} _.
Arguments rr_yaml_file_name {J} _.
Arguments rr_yaml_file_abs_path {J} _.
Arguments rr_mediamtx_bin {J} _.
Arguments rr_check_ip {J} _.
Arguments rr_check_port {J} _.
Arguments rr_rtsp_listen_port {J} _.
Arguments rr_monitor_interval_sec {J} _.
Arguments rr_enable {J} _.
Arguments rr_running {J} _.
Arguments rr_config_initialized {J} _.
Arguments rr_relay_pid {J} _.
Arguments rr_monitor_thread {J} _.
Arguments rr_state {J} _.
Arguments rr_info {J} _.

Section monitor.
Context {J : Type} `{JsonItems J} {W : Type} `{Os W} `{Files W}.
Implicit Types (m : RtspRelayMonitor J) (w : W).

Definition RtspRelayMonitor_new : RtspRelayMonitor J :=
  {| rr_mediamtx_json_config := None; rr_yaml_content := ""; rr_local_ip := "";
     rr_yaml_file_name := "mediamtx.yaml"; rr_yaml_file_abs_path := "";
     rr_mediamtx_bin := "./mediamtx"; rr_check_ip := ""; rr_check_port := 2000;
     rr_rtsp_listen_port := 8555; rr_monitor_interval_sec := 5; rr_enable := false;
     rr_running := false; rr_config_initialized := false; rr_relay_pid := -1;
     rr_monitor_thread := false; rr_state := STOPPED; rr_info := None |}.

(** ** Configuration *)

(** The configuration fields [ParseConfig] assigns. *)
Record parsed := {
  cf_enable : bool; cf_check_ip : string; cf_check_port : Z; cf_yaml_file_name : string;
  cf_bin : string; cf_interval : Z; cf_json : option J; cf_listen_port : Z
}.

Definition parsed_of (m : RtspRelayMonitor J) : parsed :=
  {| cf_enable := rr_enable m; cf_check_ip := rr_check_ip m; cf_check_port := rr_check_port m;
     cf_yaml_file_name := rr_yaml_file_name m; cf_bin := rr_mediamtx_bin m;
     cf_interval := rr_monitor_interval_sec m; cf_json := rr_mediamtx_json_config m;
     cf_listen_port := rr_rtsp_listen_port m |}.

Definition with_parsed (c : parsed) (m : RtspRelayMonitor J) : RtspRelayMonitor J :=
  {| rr_mediamtx_json_config := cf_json c; rr_yaml_content := rr_yaml_content m;
     rr_local_ip := rr_local_ip m; rr_yaml_file_name := cf_yaml_file_name c;
     rr_yaml_file_abs_path := rr_yaml_file_abs_path m; rr_mediamtx_bin := cf_bin c;
     rr_check_ip := cf_check_ip c; rr_check_port := cf_check_port c;
     rr_rtsp_listen_port := cf_listen_port c; rr_monitor_interval_sec := cf_interval c;
     rr_enable := cf_enable c; rr_running := rr_running m;
     rr_config_initialized := rr_config_initialized m; rr_relay_pid := rr_relay_pid m;
     rr_monitor_thread := rr_monitor_thread m; rr_state := rr_state m; rr_info := rr_info m |}.

(** [cfg.contains(key) && cfg[key].is_...()]. *)
Definition bool_at (cfg : J) (key : string) : option bool :=
  x ← j_find cfg key; match j_view x with JBoolean b => Some b | _ => None end.
Definition string_at (cfg : J) (key : string) : option string :=
  x ← j_find cfg key; match j_view x with JString s => Some s | _ => None end.
Definition int_at (cfg : J) (key : string) : option Z :=
  x ← j_find cfg key; match j_view x with
                      | JUnsigned n | JInteger n => Some (wraps 32 n)
                      | _ => None
                      end.

(** [ParseConfig]: what was assigned when it returns is kept also when it
    returns false. *)
Definition ParseConfig (json : J) (c : parsed) : bool * parsed :=
  let c := {| cf_enable := default (cf_enable c) (bool_at json "mediamtx_enable");
              cf_check_ip := cf_check_ip c; cf_check_port := cf_check_port c;
              cf_yaml_file_name := cf_yaml_file_name c; cf_bin := cf_bin c;
              cf_interval := cf_interval c; cf_json := cf_json c;
              cf_listen_port := cf_listen_port c |} in
  match string_at json "check_ip" with
  | None => (false, c)
  | Some ip =>
      let interval := match int_at json "monitor_interval_sec" with
                      | Some n => if n <? 1 then 1 else n
                      | None => cf_interval c
                      end in
      let c := {| cf_enable := cf_enable c; cf_check_ip := ip;
                  cf_check_port := default (cf_check_port c) (int_at json "check_port");
                  cf_yaml_file_name := default (cf_yaml_file_name c) (string_at json "yaml_file_name");
                  cf_bin := match string_at json "mediamtx_bin_path" with
                            | Some b => b
                            | None => default (cf_bin c) (string_at json "mediamtx_bin")
                            end;
                  cf_interval := interval; cf_json := cf_json c;
                  cf_listen_port := cf_listen_port c |} in
      match j_object_at json "mediamtx_json_config" with
      | None => (false, c)
      | Some mc =>
          let port := match string_at mc "rtspAddress" with
                      | Some addr => match stoi addr with Ok p => p | Err _ => cf_listen_port c end
                      | None => cf_listen_port c
                      end in
          (true, {| cf_enable := cf_enable c; cf_check_ip := cf_check_ip c;
                    cf_check_port := cf_check_port c; cf_yaml_file_name := cf_yaml_file_name c;
                    cf_bin := cf_bin c; cf_interval := cf_interval c; cf_json := Some mc;
                    cf_listen_port := port |})
      end
  end.

(** [GenerateYAML]; [None] when the write does not end. *)
Definition GenerateYAML (m : RtspRelayMonitor J) (w : W) : option (bool * string * W) :=
  match (match rr_mediamtx_json_config m with Some j => JsonToYaml j 0 | None => Ok "" end) with
  | Err _ => Some (false, rr_yaml_content m, w)
  | Ok yaml =>
      if path_empty (rr_yaml_file_abs_path m) then Some (false, yaml, w)
      else
        let w := if file_Exists (rr_yaml_file_abs_path m) w
                 then (DeleteFile (rr_yaml_file_abs_path m) w).2 else w in
        '(ok, w) ← WriteText (rr_yaml_file_abs_path m) yaml w;
        Some (ok, yaml, w)
  end.

Definition with_paths (ip path : string) (m : RtspRelayMonitor J) : RtspRelayMonitor J :=
  {| rr_mediamtx_json_config := rr_mediamtx_json_config m; rr_yaml_content := rr_yaml_content m;
     rr_local_ip := ip; rr_yaml_file_name := rr_yaml_file_name m; rr_yaml_file_abs_path := path;
     rr_mediamtx_bin := rr_mediamtx_bin m; rr_check_ip := rr_check_ip m;
     rr_check_port := rr_check_port m; rr_rtsp_listen_port := rr_rtsp_listen_port m;
     rr_monitor_interval_sec := rr_monitor_interval_sec m; rr_enable := rr_enable m;
     rr_running := rr_running m; rr_config_initialized := rr_config_initialized m;
     rr_relay_pid := rr_relay_pid m; rr_monitor_thread := rr_monitor_thread m;
     rr_state := rr_state m; rr_info := rr_info m |}.
Definition with_yaml (yaml : string) (initialized : bool) (info : option J) (m : RtspRelayMonitor J)
    : RtspRelayMonitor J :=
  {| rr_mediamtx_json_config := rr_mediamtx_json_config m; rr_yaml_content := yaml;
     rr_local_ip := rr_local_ip m; rr_yaml_file_name := rr_yaml_file_name m;
     rr_yaml_file_abs_path := rr_yaml_file_abs_path m;
     rr_mediamtx_bin := rr_mediamtx_bin m; rr_check_ip := rr_check_ip m;
     rr_check_port := rr_check_port m; rr_rtsp_listen_port := rr_rtsp_listen_port m;
     rr_monitor_interval_sec := rr_monitor_interval_sec m; rr_enable := rr_enable m;
     rr_running := rr_running m; rr_config_initialized := initialized;
     rr_relay_pid := rr_relay_pid m; rr_monitor_thread := rr_monitor_thread m;
     rr_state := rr_state m; rr_info := info |}.

(** [info_] as [Init] builds it. *)
Definition stream_info (p : string * J) : J :=
  j_object ([("stream_name", j_string p.1)] ++
    (match string_at p.2 "source" with Some u => [("source_url", j_string u)] | None => [] end) ++
    (match bool_at p.2 "sourceOnDemand" with Some b => [("on_demand", j_bool b)] | None => [] end)).

Definition source_info (m : RtspRelayMonitor J) : J :=
  let streams := match rr_mediamtx_json_config m ≫= λ mc, j_object_at mc "paths" with
                 | Some paths => map stream_info (j_items paths)
                 | None => []
                 end in
  j_object ([("check_ip", j_string (rr_check_ip m)); ("check_port", j_number (rr_check_port m))] ++
    (match streams with [] => [] | _ => [("streams", j_array streams)] end)).

Definition make_info (m : RtspRelayMonitor J) : J :=
  let port := pretty (rr_rtsp_listen_port m) in
  j_object
    [("module", j_string "RtspRelayMonitor");
     ("enabled", j_bool (rr_enable m));
     ("source", source_info m);
     ("local", j_object
        [("rtsp_listen_port", j_number (rr_rtsp_listen_port m));
         ("rtsp_listen_address", j_string (rr_local_ip m +:+ ":" +:+ port));
         ("mediamtx_bin", j_string (rr_mediamtx_bin m));
         ("yaml_file", j_string (rr_yaml_file_abs_path m))]);
     ("pull_method", j_object
        [("protocol", j_string "RTSP");
         ("relay_url", j_string ("rtsp://" +:+ rr_local_ip m +:+ ":" +:+ port +:+ "/live"));
         ("description", j_string "通过 RTSP 协议从本机转发端口拉取视频流")]);
     ("monitor_interval_sec", j_number (rr_monitor_interval_sec m));
     ("help", j_object
        [("usage", j_string "本模块守护 MediaMTX 进程，周期探测 RTSP 源连通性，自动启停转发");
         ("api", j_array (map j_string
            ["/v1/mediamtx/online  — 存活检查"; "/v1/mediamtx/status  — 运行状态与心跳";
             "/v1/mediamtx/info    — 转发代理基本信息"; "/v1/mediamtx/start   — 启动监控";
             "/v1/mediamtx/stop    — 停止监控"]))])].

(** [Init], with the local address and the start directory. *)
Definition Init (json_config : J) (local_ip root_path : string) (m : RtspRelayMonitor J) (w : W)
    : option (bool * RtspRelayMonitor J * W) :=
  let '(ok, c) := ParseConfig json_config (parsed_of m) in
  let m := with_parsed c m in
  if negb ok then Some (false, m, w)
  else
    let m := with_paths local_ip (rr_yaml_file_abs_path m) m in
    if path_empty root_path then Some (false, m, w)
    else if path_empty (rr_yaml_file_name m) then Some (false, m, w)
    else
      let m := with_paths local_ip (root_path +:+ "/" +:+ rr_yaml_file_name m) m in
      '(ok, yaml, w) ← GenerateYAML m w;
      let m := with_yaml yaml (rr_config_initialized m) (rr_info m) m in
      if negb ok then Some (false, m, w)
      else Some (true, with_yaml yaml true (Some (make_info m)) m, w).

(** ** The process *)

Definition with_pid (pid : Z) (m : RtspRelayMonitor J) : RtspRelayMonitor J :=
  {| rr_mediamtx_json_config := rr_mediamtx_json_config m; rr_yaml_content := rr_yaml_content m;
     rr_local_ip := rr_local_ip m; rr_yaml_file_name := rr_yaml_file_name m;
     rr_yaml_file_abs_path := rr_yaml_file_abs_path m;
     rr_mediamtx_bin := rr_mediamtx_bin m; rr_check_ip := rr_check_ip m;
     rr_check_port := rr_check_port m; rr_rtsp_listen_port := rr_rtsp_listen_port m;
     rr_monitor_interval_sec := rr_monitor_interval_sec m; rr_enable := rr_enable m;
     rr_running := rr_running m; rr_config_initialized := rr_config_initialized m;
     rr_relay_pid := pid; rr_monitor_thread := rr_monitor_thread m;
     rr_state := rr_state m; rr_info := rr_info m |}.
Definition with_run (running thread : bool) (state : RtspRelayState) (m : RtspRelayMonitor J)
    : RtspRelayMonitor J :=
  {| rr_mediamtx_json_config := rr_mediamtx_json_config m; rr_yaml_content := rr_yaml_content m;
     rr_local_ip := rr_local_ip m; rr_yaml_file_name := rr_yaml_file_name m;
     rr_yaml_file_abs_path := rr_yaml_file_abs_path m;
     rr_mediamtx_bin := rr_mediamtx_bin m; rr_check_ip := rr_check_ip m;
     rr_check_port := rr_check_port m; rr_rtsp_listen_port := rr_rtsp_listen_port m;
     rr_monitor_interval_sec := rr_monitor_interval_sec m; rr_enable := rr_enable m;
     rr_running := running; rr_config_initialized := rr_config_initialized m;
     rr_relay_pid := rr_relay_pid m; rr_monitor_thread := thread;
     rr_state := state; rr_info := rr_info m |}.
Definition with_state (state : RtspRelayState) (m : RtspRelayMonitor J) : RtspRelayMonitor J :=
  with_run (rr_running m) (rr_monitor_thread m) state m.

Definition CheckProcessAlive (m : RtspRelayMonitor J) (w : W) : bool * RtspRelayMonitor J * W :=
  if rr_relay_pid m <=? 0 then (false, m, w)
  else
    let '(e, w) := os_kill (rr_relay_pid m) 0 w in
    if e =? 0 then (true, m, w)
    else let '(_, w) := os_waitpid (rr_relay_pid m) w in (false, with_pid (-1) m, w).

(** [StartRelayProcess], with the answer of [IsPortAvailable]. *)
Definition StartRelayProcess (port_free : bool) (m : RtspRelayMonitor J) (w : W)
    : bool * RtspRelayMonitor J * W :=
  if negb port_free then (false, m, w)
  else if negb (file_Exists (rr_yaml_file_abs_path m) w) then (false, m, w)
  else
    let '(pid, w) := os_fork w in
    if pid <? 0 then (false, m, w) else (true, with_pid pid m, w).

Definition second : Z := 1000000000.

(** The wait of [StopRelayProcess], one second per turn. *)
Fixpoint await_term (turns : nat) (pid : Z) (w : W) : W :=
  match turns with
  | O => w
  | Datatypes.S turns =>
      let '(e, w) := os_kill pid 0 (os_sleep second w) in
      if negb (e =? 0) then w else await_term turns pid w
  end.

Definition kTimeoutSec : nat := 5.

Definition StopRelayProcess (m : RtspRelayMonitor J) (w : W) : RtspRelayMonitor J * W :=
  if rr_relay_pid m <=? 0 then (m, w)
  else
    let pid := rr_relay_pid m in
    let w := await_term kTimeoutSec pid (os_kill pid SIGTERM w).2 in
    let '(e, w) := os_kill pid 0 w in
    let w := if e =? 0 then (os_kill pid SIGKILL w).2 else w in
    (with_pid (-1) m, (os_wait pid w).2).

(** ** Life cycle *)

Definition Start (m : RtspRelayMonitor J) : RtspRelayMonitor J :=
  if negb (rr_config_initialized m) then m
  else if rr_running m then m
  else with_run true true (rr_state m) m.

(** One turn of [MonitorLoop] after its sleep, with the answers of
    [CheckRtspSource] and [IsPortAvailable]. *)
Definition MonitorLoop_body (reachable port_free : bool) (m : RtspRelayMonitor J) (w : W)
    : RtspRelayMonitor J * W :=
  if negb (rr_enable m) then
    let '(m, w) := StopRelayProcess m w in (with_state STOPPED m, w)
  else if negb reachable then
    let '(m, w) := StopRelayProcess m w in (with_state SOURCE_LOST m, w)
  else
    let '(alive, m, w) := CheckProcessAlive m w in
    if negb alive then
      let '(started, m, w) := StartRelayProcess port_free m w in
      (with_state (if started then STARTING else ERROR) m, w)
    else (with_state RUNNING m, w).

(** [Stop] in its three steps: the flag, the process, and, when the thread has
    ended, the state. *)
Definition Stop_flag (m : RtspRelayMonitor J) : RtspRelayMonitor J :=
  with_run false (rr_monitor_thread m) (rr_state m) m.
Definition Stop_joined (m : RtspRelayMonitor J) : RtspRelayMonitor J :=
  with_run (rr_running m) false STOPPED m.

Definition IsRunning (m : RtspRelayMonitor J) : bool :=
  match rr_state m with RUNNING | STARTING => true | _ => false end.

Definition GetHeartbeat (m : RtspRelayMonitor J) : J :=
  j_object
    [("module", j_string "RtspRelayMonitor");
     ("state", j_string (RtspRelayStateToString (rr_state m)));
     ("enable", j_bool (rr_enable m));
     ("check_ip", j_string (rr_check_ip m));
     ("check_port", j_number (rr_check_port m));
     ("rtsp_listen_port", j_number (rr_rtsp_listen_port m));
     ("relay_pid", j_number (rr_relay_pid m));
     ("yaml_file", j_string (rr_yaml_file_abs_path m))].

Definition GetInfo (m : RtspRelayMonitor J) : option J := rr_info m.
End monitor.

(** ** The monitor and a client

    The monitor thread is asleep, or past its check of [running_] and before the
    body of its turn, or not there; the client may be inside [Stop]. *)

Inductive thread_at := th_none | th_sleep | th_body.
Inductive client_at := cl_idle | cl_flagged | cl_joining.

Record rsystem (J W : Type) := {
  rs_m : RtspRelayMonitor J; rs_w : W; rs_thread : thread_at; rs_client : client_at
}.
Arguments rs_m {J W} _.
Arguments rs_w {J W} _.
Arguments rs_thread {J W} _.
Arguments rs_client {J W} _.

Inductive rs_step {J W} `{JsonItems J} `{Os W} `{Files W} : rsystem J W → rsystem J W → Prop :=
| rs_start m w :
    rr_config_initialized m = true → rr_running m = false →
    rs_step {| rs_m := m; rs_w := w; rs_thread := th_none; rs_client := cl_idle |}
            {| rs_m := Start m; rs_w := w; rs_thread := th_sleep; rs_client := cl_idle |}
| rs_wakes m w c :
    rr_running m = true →
    rs_step {| rs_m := m; rs_w := w; rs_thread := th_sleep; rs_client := c |}
            {| rs_m := m; rs_w := w; rs_thread := th_body; rs_client := c |}
| rs_turn reachable port_free m w m' w' c :
    MonitorLoop_body reachable port_free m w = (m', w') →
    rs_step {| rs_m := m; rs_w := w; rs_thread := th_body; rs_client := c |}
            {| rs_m := m'; rs_w := w'; rs_thread := th_sleep; rs_client := c |}
| rs_exits m w c :
    rr_running m = false →
    rs_step {| rs_m := m; rs_w := w; rs_thread := th_sleep; rs_client := c |}
            {| rs_m := m; rs_w := w; rs_thread := th_none; rs_client := c |}
| rs_stop_flag m w t :
    rs_step {| rs_m := m; rs_w := w; rs_thread := t; rs_client := cl_idle |}
            {| rs_m := Stop_flag m; rs_w := w; rs_thread := t; rs_client := cl_flagged |}
| rs_stop_process m w m' w' t :
    StopRelayProcess m w = (m', w') →
    rs_step {| rs_m := m; rs_w := w; rs_thread := t; rs_client := cl_flagged |}
            {| rs_m := m'; rs_w := w'; rs_thread := t; rs_client := cl_joining |}
| rs_stop_joined m w :
    rs_step {| rs_m := m; rs_w := w; rs_thread := th_none; rs_client := cl_joining |}
            {| rs_m := Stop_joined m; rs_w := w; rs_thread := th_none; rs_client := cl_idle |}
| rs_time m w w' t c :
    passes w w' →
    rs_step {| rs_m := m; rs_w := w; rs_thread := t; rs_client := c |}
            {| rs_m := m; rs_w := w'; rs_thread := t; rs_client := c |}.

(** ** The YAML text *)

Section yaml_facts.
Context {J : Type} `{JsonItemsLaws J}.

Lemma append_all_ext {A} (f g : A → result string) l :
  (∀ a, a ∈ l → f a = g a) → append_all f l = append_all g l.
Proof.
  induction l as [|a l IH]; intros Hfg; [done|]. cbn. rewrite Hfg by apply list_elem_of_here.
  rewrite IH; [done|]. intros b Hb. apply Hfg. by apply list_elem_of_further.
Qed.

Lemma json_yaml_fuel n k j indent :
  (j_depth j < n)%nat → (j_depth j < k)%nat → json_yaml n j indent = json_yaml k j indent.
Proof.
  revert k j indent. induction n as [|n IH]; intros [|k] j indent Hn Hk; try lia.
  cbn [json_yaml]. destruct (j_view j); try done.
  apply append_all_ext. intros [key value] Hin. pose proof (j_items_depth j key value Hin).
  destruct (j_view value); try done.
  - f_equal. apply append_all_ext. intros elem He. pose proof (j_elems_depth value elem He).
    destruct (j_view elem); try done; by rewrite (IH k) by lia.
  - by rewrite (IH k) by lia.
Qed.

(** One member of an object. *)
Definition yaml_member (indent : nat) (kv : string * J) : result string :=
  let pad := spaces (indent * 2) in
  let '(key, value) := kv in
  match j_view value with
  | JObject => t ← JsonToYaml value (indent + 1); Ok (pad +:+ key +:+ ":" +:+ nl +:+ t)
  | JArray =>
      t ← append_all (λ elem,
            match j_view elem with
            | JObject => t ← JsonToYaml elem (indent + 2); Ok (pad +:+ "  -" +:+ nl +:+ t)
            | JArray => Ok (pad +:+ "  -" +:+ nl)
            | _ => t ← j_dump elem; Ok (pad +:+ "  - " +:+ t +:+ nl)
            end) (j_elems value);
      Ok (pad +:+ key +:+ ":" +:+ nl +:+ t)
  | JString s => Ok (pad +:+ key +:+ ": " +:+ quote +:+ s +:+ quote +:+ nl)
  | JBoolean b => Ok (pad +:+ key +:+ ": " +:+ (if b then "yes" else "no") +:+ nl)
  | _ => t ← j_dump value; Ok (pad +:+ key +:+ ": " +:+ t +:+ nl)
  end.

(** The YAML of an object is the YAML of its members in order, nested
    objects two columns further in; of anything else it is the empty text, so an
    array inside an array loses all its elements. *)
Theorem JsonToYaml_spec (j : J) indent :
  JsonToYaml j indent =
    match j_view j with JObject => append_all (yaml_member indent) (j_items j) | _ => Ok "" end.
Proof.
  unfold JsonToYaml at 1. cbn [json_yaml]. destruct (j_view j); try done.
  apply append_all_ext. intros [key value] Hin. pose proof (j_items_depth j key value Hin).
  unfold yaml_member. destruct (j_view value) eqn:Ev; try done.
  - f_equal. apply append_all_ext. intros elem He. pose proof (j_elems_depth value elem He).
    destruct (j_view elem) eqn:Ee; try done.
    + rewrite (json_yaml_fuel _ (Datatypes.S (j_depth elem))) by lia. cbn [json_yaml]. rewrite Ee.
      cbn. by rewrite string_app_nil_r.
    + by rewrite (json_yaml_fuel _ (Datatypes.S (j_depth elem))) by lia.
  - by rewrite (json_yaml_fuel _ (Datatypes.S (j_depth value))) by lia.
Qed.
End yaml_facts.

Example nested_array_lost :
  JsonToYaml (VObj [("a", VArr [VArr [VNum 1; VNum 2]]); ("b", VStr "x")]) 0 =
  Ok ("a:" +:+ nl +:+ "  -" +:+ nl +:+ "b: " +:+ quote +:+ "x" +:+ quote +:+ nl).
Proof. reflexivity. Qed.

(** C38 witness: the same configuration through the theorem. *)
Lemma JsonToYaml_spec_witness :
  JsonToYaml (VObj [("a", VArr [VNum 1]); ("b", VObj [("c", VBool true)])]) 0 =
  Ok ("a:" +:+ nl +:+ "  - 1" +:+ nl +:+ "b:" +:+ nl +:+ "  c: yes" +:+ nl).
Proof. etrans; [apply JsonToYaml_spec|]. vm_compute. reflexivity. Defined.

(** ** The process *)

Section process_facts.
Context {J : Type} `{JsonItems J} {W : Type} `{OsLaws W} `{Files W}.
Implicit Types (m : RtspRelayMonitor J) (w : W).

Lemma check_alive m w :
  0 < rr_relay_pid m → is_Some (os_child w (rr_relay_pid m)) →
  ∃ w', CheckProcessAlive m w = (true, m, w') ∧ passes w w'.
Proof.
  intros Hp Hc. unfold CheckProcessAlive. destruct (Z.leb_spec (rr_relay_pid m) 0); [lia|].
  pose proof (os_kill_child _ 0 w Hp Hc) as Hz. pose proof (kill0_passes (rr_relay_pid m) w) as Hk.
  destruct (os_kill _ 0 w) as [e w']. cbn in Hz, Hk. subst e. by exists w'.
Qed.

Lemma check_none m w : rr_relay_pid m <= 0 → CheckProcessAlive m w = (false, m, w).
Proof. intros Hp. unfold CheckProcessAlive. by destruct (Z.leb_spec (rr_relay_pid m) 0); [|lia]. Qed.

(** The wait after SIGTERM does not see the process exit. *)
Lemma await_term_passes n p w :
  0 < p → is_Some (os_child w p) →
  passes w (await_term n p w) ∧ os_now w + Z.of_nat n * second <= os_now (await_term n p w).
Proof.
  intros Hp. revert w. induction n as [|n IH]; intros w Hc; [split; [done|cbn; lia]|].
  cbn [await_term]. pose proof (os_sleep_passes second w) as Hs. pose proof (os_sleep_now second w) as Hn.
  assert (Hc1 : is_Some (os_child (os_sleep second w) p)) by (by rewrite <- passes_child).
  pose proof (os_kill_child _ 0 _ Hp Hc1) as Hz. pose proof (kill0_passes p (os_sleep second w)) as Hk.
  destruct (os_kill p 0 _) as [e w1]. cbn in Hz, Hk. subst e. cbn [Z.eqb negb].
  assert (Hc2 : is_Some (os_child w1 p)) by (by rewrite <- passes_child).
  destruct (IH w1 Hc2) as [IH1 IH2]. pose proof (passes_now _ _ Hk). split.
  - etrans; [exact Hs|]. by etrans.
  - lia.
Qed.

(** Stopping the relay process always takes five seconds and always ends
    with SIGKILL and the process waited for, however fast the process obeys
    SIGTERM; without a process nothing happens. *)
Theorem StopRelayProcess_spec m w m' w' :
  StopRelayProcess m w = (m', w') →
  (rr_relay_pid m <= 0 ∧ m' = m ∧ w' = w) ∨
  (0 < rr_relay_pid m ∧ m' = with_pid (-1) m ∧
   (is_Some (os_child w (rr_relay_pid m)) →
      os_child w' (rr_relay_pid m) = None ∧ passes_but (λ q, q = rr_relay_pid m) w w' ∧
      os_sent w' = os_sent w ++ [(rr_relay_pid m, SIGTERM); (rr_relay_pid m, SIGKILL)] ∧
      5 * second <= os_now w' - os_now w)).
Proof.
  unfold StopRelayProcess. destruct (Z.leb_spec (rr_relay_pid m) 0) as [Hn|Hp].
  { intros [= <- <-]. by left. }
  intros E. right. set (p := rr_relay_pid m) in *. destruct (os_kill p 0 _) as [e w2] eqn:E2.
  injection E as <- <-. split; [done|]. split; [done|]. intros Hc.
  destruct (kill_child p SIGTERM w Hp ltac:(done) Hc) as [Hb1 Hs1].
  pose proof (kill_still p SIGTERM w Hc) as Hc1. set (w0 := (os_kill p SIGTERM w).2) in *.
  destruct (await_term_passes kTimeoutSec p w0 Hp Hc1) as [Hw1 Ht1].
  set (w1 := await_term kTimeoutSec p w0) in *.
  assert (Hc2 : is_Some (os_child w1 p)) by (by rewrite <- passes_child).
  pose proof (os_kill_child _ 0 _ Hp Hc2) as Hz. pose proof (kill0_passes p w1) as Hw2.
  rewrite E2 in Hz, Hw2. cbn [fst snd] in Hz, Hw2. subst e. cbn [Z.eqb].
  assert (Hc3 : is_Some (os_child w2 p)) by (by rewrite <- passes_child).
  destruct (kill_child p SIGKILL w2 Hp ltac:(done) Hc3) as [Hb3 Hs3].
  set (w3 := (os_kill p SIGKILL w2).2) in *.
  destruct (os_wait p w3) as [r w4] eqn:E4. cbn [snd].
  destruct (os_wait_spec _ _ _ _ Hp E4) as (Hs4 & Hg & Hb4 & _).
  split; [done|]. split_and!.
  - assert (Hweak : ∀ a b : W, passes_but (λ _, False) a b → passes_but (λ q, q = p) a b).
    { intros a b. apply passes_but_mono. tauto. }
    etrans; [by apply Hweak|]. etrans; [apply Hweak, Hw1|]. etrans; [apply Hweak, Hw2|].
    etrans; [by apply Hweak|]. done.
  - pose proof (passes_sent _ _ Hw1) as E1. pose proof (passes_sent _ _ Hw2) as E2'.
    by rewrite Hs4, Hs3, E2', E1, Hs1, <- app_assoc.
  - pose proof (passes_now _ _ Hw2). destruct Hb1 as [? _], Hb3 as [? _], Hb4 as [? _].
    change (Z.of_nat kTimeoutSec) with 5 in Ht1. lia.
Qed.

(** Turns of the monitor while the source stays reachable, with time passing
    in between. *)
Inductive watch m w : RtspRelayMonitor J → W → Prop :=
| watch_none : watch m w m w
| watch_turn port_free m1 w1 m2 w2 :
    watch m w m1 w1 → MonitorLoop_body true port_free m1 w1 = (m2, w2) → watch m w m2 w2
| watch_time m1 w1 w2 : watch m w m1 w1 → passes w1 w2 → watch m w m1 w2.

(** C39: A relay process that has exited is never noticed: as long as the
    source stays reachable, every turn of the monitor reports RUNNING, keeps the
    dead process and starts no other, since the exited process still answers
    signal 0 until it is waited for. *)
Theorem relay_exit_unnoticed m w m' w' :
  rr_enable m = true → 0 < rr_relay_pid m → os_child w (rr_relay_pid m) = Some Zombie →
  watch m w m' w' →
  (m' = m ∨ m' = with_state RUNNING m) ∧ os_child w' (rr_relay_pid m) = Some Zombie ∧
  (∀ q, os_child w q = None → os_child w' q = None) ∧ os_sent w' = os_sent w.
Proof.
  intros He Hp Hz Hw. assert (Hpass : passes w w' ∧ (m' = m ∨ m' = with_state RUNNING m)).
  { induction Hw as [|pf m1 w1 m2 w2 _ [IHp IHm] E|m1 w1 w2 _ [IHp IHm] Hp1]; [split; [done|by left]| |].
    - assert (Hsame : rr_enable m1 = rr_enable m ∧ rr_relay_pid m1 = rr_relay_pid m ∧
                      with_state RUNNING m1 = with_state RUNNING m) by (by destruct IHm as [-> | ->]).
      destruct Hsame as (He1 & Hp1 & Hr1). unfold MonitorLoop_body in E. rewrite He1, He in E.
      cbn [negb] in E. destruct (check_alive m1 w1) as (w3 & E3 & Hw3).
      { by rewrite Hp1. } { rewrite Hp1. rewrite <- passes_child by done. by eexists. }
      rewrite E3 in E. cbn [negb] in E. injection E as <- <-. rewrite Hr1. split; [by etrans|by right].
    - split; [by etrans|done]. }
  destruct Hpass as [Hpass Hm]. split; [done|]. pose proof Hpass as [[_ Hc] Hs]. split_and!; [| |done].
  - specialize (Hc (rr_relay_pid m) ltac:(tauto)). by rewrite Hz in Hc.
  - intros q Hq. specialize (Hc q ltac:(tauto)). by rewrite Hq in Hc.
Qed.
End process_facts.

(** ** Runs *)

Record rs_inv {J W} `{Os W} (s : rsystem J W) : Prop := {
  ri_child : only_child (rs_w s) (rr_relay_pid (rs_m s));
  ri_pid : 0 < rr_relay_pid (rs_m s) ∨ rr_relay_pid (rs_m s) = -1;
  ri_running : rr_running (rs_m s) = true → rs_client s = cl_idle;
  ri_joining : rs_client s = cl_joining → rs_thread s ≠ th_body ∧ rr_relay_pid (rs_m s) = -1;
  ri_stopped : rr_running (rs_m s) = false → rs_client s = cl_idle →
               rs_thread s = th_none ∧ rr_relay_pid (rs_m s) = -1 ∧ rr_state (rs_m s) = STOPPED
}.

Section runs.
Context {J : Type} `{JsonItems J} {W : Type} `{OsLaws W} `{Files W}.
Implicit Types (m : RtspRelayMonitor J) (w : W) (s : rsystem J W).

Lemma stop_only m w m' w' :
  only_child w (rr_relay_pid m) → (0 < rr_relay_pid m ∨ rr_relay_pid m = -1) →
  StopRelayProcess m w = (m', w') →
  only_child w' (-1) ∧ rr_relay_pid m' = -1 ∧ rr_running m' = rr_running m ∧ rr_state m' = rr_state m.
Proof.
  intros Ho Hp E. destruct (StopRelayProcess_spec m w m' w' E) as [(Hn & -> & ->)|(Hpos & -> & Hk)].
  - destruct Hp as [|Hp]; [lia|]. by rewrite Hp in Ho.
  - destruct Hk as (Hg & Hb & _); [by apply Ho|]. split_and!; try done. by eapply only_child_gone.
Qed.

(** A turn of the monitor, whatever the machine answers. *)
Lemma body_only r pf m w m' w' :
  only_child w (rr_relay_pid m) → (0 < rr_relay_pid m ∨ rr_relay_pid m = -1) →
  MonitorLoop_body r pf m w = (m', w') →
  only_child w' (rr_relay_pid m') ∧ (0 < rr_relay_pid m' ∨ rr_relay_pid m' = -1) ∧
  rr_running m' = rr_running m.
Proof.
  intros Ho Hp. unfold MonitorLoop_body.
  destruct (StopRelayProcess m w) as [m1 w1] eqn:Es.
  destruct (stop_only m w m1 w1 Ho Hp Es) as (Ho1 & Hp1 & Hr1 & _).
  destruct (negb (rr_enable m)); [|destruct (negb r)].
  1,2: intros [= <- <-]; cbn; rewrite Hp1; split_and!; [done|by right|done].
  destruct Hp as [Hp|Hp].
  - destruct (check_alive m w Hp ltac:(by apply Ho)) as (w2 & -> & Hw2). cbn [negb].
    intros [= <- <-]. cbn. split_and!; [by eapply only_child_passes|by left|done].
  - rewrite check_none by lia. cbn [negb]. unfold StartRelayProcess. rewrite Hp in Ho.
    destruct (negb pf); [intros [= <- <-]; cbn; rewrite Hp; split_and!; [done|by right|done]|].
    destruct (negb _); [intros [= <- <-]; cbn; rewrite Hp; split_and!; [done|by right|done]|].
    destruct (os_fork w) as [p w2] eqn:Ef. destruct (fork_only w p w2 Ho Ef) as [[Hn Ho2]|[Hpos Ho2]].
    + destruct (Z.ltb_spec p 0); [|lia]. intros [= <- <-]. cbn. rewrite Hp. split_and!; [done|by right|done].
    + destruct (Z.ltb_spec p 0); [lia|]. intros [= <- <-]. cbn. split_and!; [done|by left|done].
Qed.

(** The step in which [Stop] ends the process does not fall between the check of
    [running_] and the body of the monitor's turn. *)
Definition no_race s s' : Prop := rs_client s' = cl_joining → rs_thread s' ≠ th_body.

Lemma rs_inv_step s s' : rs_inv s → rs_step s s' → no_race s s' → rs_inv s'.
Proof.
  intros [Ho Hp Hr Hj Hs] Hst Hnr.
  destruct Hst as [m w Hc Hrun|m w c Hrun|r pf m w m' w' c E|m w c Hrun|m w t|m w m' w' t E|m w
    |m w w' t c Hw]; cbn in *.
  - unfold Start. rewrite Hc, Hrun. cbn [negb]. split; cbn; try done. 
  - split; cbn; try done. 2: congruence. intros ->. specialize (Hr Hrun). done.
  - destruct (body_only _ _ _ _ _ _ Ho Hp E) as (Ho1 & Hp1 & Hr1).
    assert (Hcl : c ≠ cl_joining) by (intros ->; by destruct (Hj eq_refl)).
    split; cbn; rewrite ?Hr1; try done. intros Hf ->. by destruct (Hs Hf eq_refl).
  - split; cbn; try done. 1: intros Hc; by destruct (Hj Hc).
    intros Hf Hc. destruct (Hs Hf Hc) as (? & ? & ?). done.
  - split; cbn; try done.
  - destruct (stop_only _ _ _ _ Ho Hp E) as (Ho1 & Hp1 & Hr1 & _).
    split; cbn; rewrite ?Hp1, ?Hr1; try done; [by right| |].
    + intros Hf. by specialize (Hr Hf).
    + intros _. split; [by apply Hnr|done].
  - destruct (Hj eq_refl) as [_ Hp1]. split; cbn; done.
  - split; cbn; try done. by eapply only_child_passes.
Qed.

(** In every run in which Stop does not end the process between the
    monitor's check of running_ and the rest of its turn, the children are
    exactly the recorded process, and when the monitor is stopped there is no
    thread, no process, and the state is STOPPED. *)
Theorem relay_stop_clean m0 w0 s :
  rr_relay_pid m0 = -1 → rr_running m0 = false → rr_state m0 = STOPPED →
  (∀ p, os_child w0 p = None) →
  rtc (λ a b, rs_step a b ∧ no_race a b)
      {| rs_m := m0; rs_w := w0; rs_thread := th_none; rs_client := cl_idle |} s →
  (∀ p, is_Some (os_child (rs_w s) p) ↔ p = rr_relay_pid (rs_m s) ∧ 0 < p) ∧
  (rr_running (rs_m s) = false → rs_client s = cl_idle →
     rs_thread s = th_none ∧ rr_state (rs_m s) = STOPPED ∧ ∀ p, os_child (rs_w s) p = None).
Proof.
  intros Hp0 Hr0 Hs0 Hnew Hrun.
  assert (Hi : rs_inv {| rs_m := m0; rs_w := w0; rs_thread := th_none; rs_client := cl_idle |}).
  { split; cbn; rewrite ?Hp0, ?Hr0; try done; [|by right].
    intros q. rewrite Hnew. split; [by intros []|lia]. }
  assert (Hinv : rs_inv s).
  { clear Hp0 Hr0 Hs0 Hnew. induction Hrun as [|a b c [Hst Hnr] _ IH]; [done|].
    apply IH. by eapply rs_inv_step. }
  destruct Hinv as [Ho Hp _ _ Hstop]. split.
  - intros p. rewrite (Ho p). naive_solver.
  - intros Hf Hc. destruct (Hstop Hf Hc) as (Ht & Hpid & Hst). split_and!; [done..|].
    intros p. specialize (Ho p). rewrite Hpid in Ho. destruct (os_child (rs_w s) p); [|done].
    destruct (proj1 Ho) as [_ ?]; [eauto|lia].
Qed.
End runs.

(** ** Witnesses *)

(** The files of the small system. *)
#[export] Instance sim_files_ops : Files sim := {|
  fs_stat w p := if decide (is_Some (sim_files w !! p)) then st_regular else st_enoent;
  fs_lstat w p := if decide (is_Some (sim_files w !! p)) then st_regular else st_enoent;
  fs_open p m w :=
    (3, sim_with_files (<[p := match m with O_trunc => "" | _ => default "" (sim_files w !! p) end]>
                          (sim_files w)) w);
  fs_write _ s w := (Z.of_nat (String.length s), w);
  fs_close _ w := (0, w);
  fs_unlink p w := (0, sim_with_files (delete p (sim_files w)) w);
  fs_data w p := default "" (sim_files w !! p)
|}.

Definition demo_json : jvalue :=
  VObj [("mediamtx_enable", VBool true); ("check_ip", VStr "192.168.2.119");
        ("monitor_interval_sec", VNum 0);
        ("mediamtx_json_config", VObj [("rtspAddress", VStr "8600"); ("rtsp", VBool true)])].

Definition demo_sim (life : option Z) : sim := Sim 5000000000 ∅ 100 life None [] ∅ true.

Definition demo_init (life : option Z) : option (bool * RtspRelayMonitor jvalue * sim) :=
  Init demo_json "192.168.2.10" "/opt" RtspRelayMonitor_new (demo_sim life).

Definition demo_m (life : option Z) : RtspRelayMonitor jvalue :=
  match demo_init life with Some (_, m, _) => m | None => RtspRelayMonitor_new end.
Definition demo_w (life : option Z) : sim :=
  match demo_init life with Some (_, _, w) => w | None => demo_sim life end.

Example demo_init_ok :
  (λ '(ok, m, _), (ok, rr_enable m, rr_rtsp_listen_port m, rr_monitor_interval_sec m,
                   rr_yaml_file_abs_path m, rr_yaml_content m)) <$> demo_init None =
  Some (true, true, 8600, 1, "/opt/mediamtx.yaml",
        "rtspAddress: " +:+ quote +:+ "8600" +:+ quote +:+ nl +:+ "rtsp: yes" +:+ nl).
Proof. vm_compute. reflexivity. Qed.

Lemma demo_w_empty p : os_child (demo_w None) p = None.
Proof.
  assert (E : sim_children (demo_w None) = ∅) by (vm_compute; reflexivity).
  cbn. unfold sim_child. by rewrite E, lookup_empty.
Qed.

(** The client stops the monitor just after the monitor thread has found
    [running_] set: the call returns, with the state STOPPED and no thread, and
    the process the thread then started keeps running, recorded but unwatched. *)
Lemma stop_leaves_process :
  ∃ s, rtc rs_step {| rs_m := demo_m None; rs_w := demo_w None; rs_thread := th_none;
                      rs_client := cl_idle |} s ∧
       rs_client s = cl_idle ∧ rs_thread s = th_none ∧ rr_state (rs_m s) = STOPPED ∧
       rr_running (rs_m s) = false ∧ rr_relay_pid (rs_m s) = 100 ∧
       os_child (rs_w s) 100 = Some Alive.
Proof.
  eexists. split.
  - eapply rtc_l; [apply rs_start; vm_compute; reflexivity|].
    eapply rtc_l; [apply rs_wakes; vm_compute; reflexivity|].
    eapply rtc_l; [apply rs_stop_flag|].
    eapply rtc_l; [eapply rs_stop_process; vm_compute; reflexivity|].
    eapply rtc_l; [eapply (rs_turn true true); vm_compute; reflexivity|].
    eapply rtc_l; [eapply rs_exits; vm_compute; reflexivity|].
    eapply rtc_l; [eapply rs_stop_joined|]. apply rtc_refl.
  - split_and!; vm_compute; reflexivity.
Qed.

(** The same calls, the stop after the turn. *)
Lemma relay_stop_clean_witness :
  ∃ s, rtc (λ a b, rs_step a b ∧ no_race a b)
         {| rs_m := demo_m None; rs_w := demo_w None; rs_thread := th_none; rs_client := cl_idle |} s ∧
    rr_state (rs_m s) = STOPPED ∧ os_sent (rs_w s) = [(100, SIGTERM); (100, SIGKILL)] ∧
    ∀ p, os_child (rs_w s) p = None.
Proof.
  assert (Hrun : ∃ s, rtc (λ a b, rs_step a b ∧ no_race a b)
         {| rs_m := demo_m None; rs_w := demo_w None; rs_thread := th_none; rs_client := cl_idle |} s ∧
         rs_client s = cl_idle ∧ rr_running (rs_m s) = false ∧
         os_sent (rs_w s) = [(100, SIGTERM); (100, SIGKILL)]).
  { eexists. split.
    - eapply rtc_l; [split; [apply rs_start; vm_compute; reflexivity|done]|].
      eapply rtc_l; [split; [apply rs_wakes; vm_compute; reflexivity|done]|].
      eapply rtc_l; [split; [eapply (rs_turn true true); vm_compute; reflexivity|done]|].
      eapply rtc_l; [split; [apply rs_stop_flag|done]|].
      eapply rtc_l; [split; [eapply rs_stop_process; vm_compute; reflexivity|done]|].
      eapply rtc_l; [split; [eapply rs_exits; vm_compute; reflexivity|done]|].
      eapply rtc_l; [split; [eapply rs_stop_joined|done]|]. apply rtc_refl.
    - split_and!; vm_compute; reflexivity. }
  destruct Hrun as (s & Hs & Hc & Hr & Hsent). exists s. split; [done|].
  destruct (relay_stop_clean (demo_m None) (demo_w None) s) as [_ Hf];
    [vm_compute; reflexivity..|apply demo_w_empty|done|].
  destruct (Hf Hr Hc) as (_ & Hst & Hp). split; [done|]. split; [done|]. exact Hp.
Defined.

(** A process that obeys SIGTERM at once. *)
Lemma StopRelayProcess_spec_witness :
  let w := (os_fork (demo_sim (Some 0))).2 in
  ∃ m' w', StopRelayProcess (with_pid 100 (demo_m None)) w = (m', w') ∧
    os_sent w' = [(100, SIGTERM); (100, SIGKILL)] ∧ 5 * second <= os_now w' - os_now w.
Proof.
  cbn zeta. destruct (StopRelayProcess (with_pid 100 (demo_m None)) (os_fork (demo_sim (Some 0))).2)
    as [m' w'] eqn:E. exists m', w'. split; [done|].
  destruct (StopRelayProcess_spec _ _ _ _ E) as [[Hn _]|(_ & _ & Hk)]; [by vm_compute in Hn|].
  destruct Hk as (_ & _ & Hs & Ht); [vm_compute; by eexists|]. split; [|exact Ht].
  rewrite Hs. vm_compute. reflexivity.
Defined.

(** C39 witness: MediaMTX exits at once, as when it cannot be executed. *)
Lemma relay_exit_unnoticed_witness :
  let m := with_pid 100 (demo_m None) in
  let w := (os_fork (demo_sim (Some 0))).2 in
  ∃ m' w', MonitorLoop_body true true m w = (m', w') ∧ m' = with_state RUNNING m ∧
    os_child w' 100 = Some Zombie ∧ os_child w' 101 = None.
Proof.
  set (m := with_pid 100 (demo_m None)). set (w := (os_fork (demo_sim (Some 0))).2).
  cbn zeta. destruct (MonitorLoop_body true true m w) as [m' w'] eqn:E.
  destruct (relay_exit_unnoticed m w m' w') as (Hm & Hz & Hn & _).
  - vm_compute. reflexivity.
  - vm_compute. reflexivity.
  - vm_compute. reflexivity.
  - eapply watch_turn; [apply watch_none|exact E].
  - exists m', w'. split; [done|]. split; [|split; [exact Hz|]].
    + destruct Hm as [Hm|Hm]; [|exact Hm]. exfalso. apply (f_equal rr_state) in Hm.
      assert (Hx : rr_state m' = RUNNING).
      { change (rr_state (m', w').1 = RUNNING). rewrite <- E. vm_compute. reflexivity. }
      rewrite Hx in Hm. vm_compute in Hm. discriminate Hm.
    + apply Hn. vm_compute. reflexivity.
Defined.
