(* ===== verification/SerialPort.v ===== *)
(** * The serial port interface

    What [MySerial] promises the protocol drivers above it: the operations of
    its public interface as a class, and the laws those drivers rely on as a
    second class.  [MySerial] implements both over the third-party serial
    library; the flight-control driver and the gas detector are proved against this
    interface only. *)

From S2P Require Import Prelude.

Local Open Scope Z_scope.

(** The operations, over a state [S] and a configuration type [cfg].  An
    [option string] argument and result is the [std::string* err].  [Close]
    has no error argument: an exception of the device escapes from it. *)
Class SerialPort (cfg S : Type) := {
  sp_init : S;                                  (** default-constructed *)
  sp_Init : cfg → option string → S → bool * option string * S;
  sp_Open : option string → S → bool * option string * S;
  sp_Close : io S unit;
  sp_IsOpen : S → bool;
  sp_Write : list Z → option string → S → nat * option string * S;
  sp_ReadBytes : nat → option string → S → list Z * option string * S;
  sp_Available : option string → S → nat * option string * S;
  (** the bytes handed to the device so far *)
  sp_sent : S → list Z
}.

Class SerialPortLaws (cfg S : Type) `{SerialPort cfg S} := {
  sp_init_closed : sp_IsOpen sp_init = false;
  sp_Open_true e s e' s' : sp_Open e s = (true, e', s') → sp_IsOpen s' = true;
  sp_Open_sent e s : sp_sent (sp_Open e s).2 = sp_sent s;
  sp_Close_closed s s' : sp_Close s = (Ok tt, s') → sp_IsOpen s' = false;
  sp_Close_sent s : sp_sent (sp_Close s).2 = sp_sent s;
  (** a write sends a prefix of its argument, at least as long as it reports *)
  sp_Write_sent d e s n e' s' :
    sp_Write d e s = (n, e', s') →
    ∃ k, (n <= k <= length d)%nat ∧ sp_sent s' = sp_sent s ++ take k d;
  (** a read that reports no error returns at most the bytes asked for *)
  sp_ReadBytes_ok n s bs s' :
    sp_ReadBytes n (Some "") s = (bs, Some "", s') → (length bs <= n)%nat ∧ bytes bs;
  (** an error string stays one *)
  sp_ReadBytes_err n e s : is_Some (sp_ReadBytes n (Some e) s).1.2;
  sp_ReadBytes_sent n e s : sp_sent (sp_ReadBytes n e s).2 = sp_sent s;
  sp_Available_sent e s : sp_sent (sp_Available e s).2 = sp_sent s
}.
