(* ===== verification/MySerial.v ===== *)
(** * The serial port wrapper

    Model of my_serial/MySerial.cpp and MySerial.h: configuration parsing, the
    life cycle of the wrapped port, the guarded reads and writes, snapshots and
    self tests.  Every public method holds [mutex_] for its whole body, so each
    is one atomic operation on the state.  Logging is left out.

    The third-party [serial::Serial] is the class [SerialLib]; JSON values are
    [JsonOps]. *)

From S2P Require Import Prelude Text Json SerialPort.
From stdpp Require Import pretty.
From Stdlib Require Import Ascii.

Local Open Scope Z_scope.

Definition NormalizeToken (value : string) : string := map_string tolower value.

(** A [std::string] as the bytes it holds. *)
Definition bytes_of_string (s : string) : list Z :=
  map (λ c, Z.of_nat (Ascii.nat_of_ascii c)) (String.list_ascii_of_string s).
Definition string_of_bytes (l : list Z) : string :=
  String.string_of_list_ascii (map (λ z, Ascii.ascii_of_nat (Z.to_nat z)) l).

(** ** The serial library

    The enumerations of the library, by the enumerators the source names;
    [_raw] stands for any other value of the underlying integer type. *)

Inductive bytesize_t := fivebits | sixbits | sevenbits | eightbits | bytesize_raw (n : Z).
Inductive parity_t := parity_none | parity_odd | parity_even | parity_mark | parity_space
                    | parity_raw (n : Z).
Inductive stopbits_t := stopbits_one | stopbits_one_point_five | stopbits_two | stopbits_raw (n : Z).
Inductive flowcontrol_t := flowcontrol_none | flowcontrol_software | flowcontrol_hardware
                         | flowcontrol_raw (n : Z).

(** [serial::Timeout]: the simple constructor, or the five fields. *)
Inductive Timeout :=
| simpleTimeout (t : Z)
| FullTimeout (inter_byte read_constant read_multiplier write_constant write_multiplier : Z).

(** One configuration call on a [serial::Serial]. *)
Inductive setting :=
| setPort (port : string)
| setBaudrate (baudrate : Z)
| setTimeout (timeout : Timeout)
| setBytesize (b : bytesize_t)
| setParity (p : parity_t)
| setStopbits (s : stopbits_t)
| setFlowcontrol (f : flowcontrol_t).

(** [serial::PortInfo]. *)
Record PortInfo := { pi_port : string; pi_description : string; pi_hardware_id : string }.

Class SerialLib (L : Type) := {
  sl_new : L;
  sl_isOpen : L → bool;
  sl_set : setting → io L unit;
  sl_open : io L unit;
  sl_close : io L unit;
  sl_write : list Z → io L nat;
  sl_read : nat → io L (list Z);
  sl_readline : nat → string → io L string;
  sl_available : io L nat;
  (** the bytes handed to the device since the object was created *)
  sl_sent : L → list Z
}.

(** The documented behaviour of the library the wrapper relies on. *)
Class SerialLibLaws (L : Type) `{SerialLib L} := {
  sl_new_closed : sl_isOpen sl_new = false;
  sl_set_closed s l : sl_isOpen (sl_set s l).2 = sl_isOpen l;
  sl_open_open l l' : sl_open l = (Ok tt, l') → sl_isOpen l' = true;
  sl_open_sent l : sl_sent (sl_open l).2 = sl_sent l;
  sl_close_closed l l' : sl_close l = (Ok tt, l') → sl_isOpen l' = false;
  sl_close_sent l : sl_sent (sl_close l).2 = sl_sent l;
  sl_write_ok d l n l' : sl_write d l = (Ok n, l') →
    (n <= length d)%nat ∧ sl_sent l' = sl_sent l ++ take n d;
  sl_write_err d l e l' : sl_write d l = (Err e, l') →
    ∃ k, (k <= length d)%nat ∧ sl_sent l' = sl_sent l ++ take k d;
  sl_read_ok n l bs l' : sl_read n l = (Ok bs, l') → (length bs <= n)%nat ∧ bytes bs;
  (** its exceptions carry a message *)
  sl_read_what n l e l' : sl_read n l = (Err e, l') → exn_what e ≠ "";
  sl_read_sent n l : sl_sent (sl_read n l).2 = sl_sent l;
  sl_available_sent l : sl_sent (sl_available l).2 = sl_sent l
}.

(** ** Enumerations and their names *)

Definition ParseBytesize (value : string) : result bytesize_t :=
  let normalized := NormalizeToken value in
  if bool_decide (normalized = "fivebits" ∨ normalized = "5") then Ok fivebits
  else if bool_decide (normalized = "sixbits" ∨ normalized = "6") then Ok sixbits
  else if bool_decide (normalized = "sevenbits" ∨ normalized = "7") then Ok sevenbits
  else if bool_decide (normalized = "eightbits" ∨ normalized = "8") then Ok eightbits
  else Err (invalid_argument ("unsupported bytesize: " +:+ value)).

Definition ParseParity (value : string) : result parity_t :=
  let normalized := NormalizeToken value in
  if bool_decide (normalized = "none" ∨ normalized = "parity_none") then Ok parity_none
  else if bool_decide (normalized = "odd" ∨ normalized = "parity_odd") then Ok parity_odd
  else if bool_decide (normalized = "even" ∨ normalized = "parity_even") then Ok parity_even
  else if bool_decide (normalized = "mark" ∨ normalized = "parity_mark") then Ok parity_mark
  else if bool_decide (normalized = "space" ∨ normalized = "parity_space") then Ok parity_space
  else Err (invalid_argument ("unsupported parity: " +:+ value)).

Definition ParseStopbits (value : string) : result stopbits_t :=
  let normalized := NormalizeToken value in
  if bool_decide (normalized = "one" ∨ normalized = "1") then Ok stopbits_one
  else if bool_decide (normalized = "one_point_five" ∨ normalized = "1.5") then Ok stopbits_one_point_five
  else if bool_decide (normalized = "two" ∨ normalized = "2") then Ok stopbits_two
  else Err (invalid_argument ("unsupported stopbits: " +:+ value)).

Definition ParseFlowcontrol (value : string) : result flowcontrol_t :=
  let normalized := NormalizeToken value in
  if bool_decide (normalized = "none" ∨ normalized = "flowcontrol_none") then Ok flowcontrol_none
  else if bool_decide (normalized = "software" ∨ normalized = "flowcontrol_software")
  then Ok flowcontrol_software
  else if bool_decide (normalized = "hardware" ∨ normalized = "flowcontrol_hardware")
  then Ok flowcontrol_hardware
  else Err (invalid_argument ("unsupported flowcontrol: " +:+ value)).

Definition ToString_bytesize (value : bytesize_t) : string :=
  match value with
  | fivebits => "fivebits" | sixbits => "sixbits" | sevenbits => "sevenbits"
  | eightbits => "eightbits" | bytesize_raw _ => "unknown"
  end.

Definition ToString_parity (value : parity_t) : string :=
  match value with
  | parity_none => "none" | parity_odd => "odd" | parity_even => "even" | parity_mark => "mark"
  | parity_space => "space" | parity_raw _ => "unknown"
  end.

Definition ToString_stopbits (value : stopbits_t) : string :=
  match value with
  | stopbits_one => "one" | stopbits_one_point_five => "one_point_five" | stopbits_two => "two"
  | stopbits_raw _ => "unknown"
  end.

Definition ToString_flowcontrol (value : flowcontrol_t) : string :=
  match value with
  | flowcontrol_none => "none" | flowcontrol_software => "software"
  | flowcontrol_hardware => "hardware" | flowcontrol_raw _ => "unknown"
  end.

(** ** Options and snapshots *)

Record SerialInitOptions := {
  opt_port : string;
  opt_baudrate : Z;
  opt_timeout_ms : Z;
  opt_inter_byte_timeout_ms : Z;
  opt_read_timeout_constant_ms : Z;
  opt_read_timeout_multiplier_ms : Z;
  opt_write_timeout_constant_ms : Z;
  opt_write_timeout_multiplier_ms : Z;
  opt_bytesize : string;
  opt_parity : string;
  opt_stopbits : string;
  opt_flowcontrol : string;
  opt_auto_open : bool
}.

Definition SerialInitOptions_default : SerialInitOptions := {|
  opt_port := "";
  opt_baudrate := 9600;
  opt_timeout_ms := 1000;
  opt_inter_byte_timeout_ms := 0;
  opt_read_timeout_constant_ms := 1000;
  opt_read_timeout_multiplier_ms := 0;
  opt_write_timeout_constant_ms := 1000;
  opt_write_timeout_multiplier_ms := 0;
  opt_bytesize := "eightbits";
  opt_parity := "none";
  opt_stopbits := "one";
  opt_flowcontrol := "none";
  opt_auto_open := true
|}.

Record SerialPortSnapshot := {
  snap_initialized : bool;
  snap_open : bool;
  snap_port : string;
  snap_baudrate : Z;
  snap_timeout_ms : Z;
  snap_available_bytes : nat;
  snap_bytesize : string;
  snap_parity : string;
  snap_stopbits : string;
  snap_flowcontrol : string;
  snap_last_error : string
}.

Definition SerialPortSnapshot_default : SerialPortSnapshot := {|
  snap_initialized := false; snap_open := false; snap_port := ""; snap_baudrate := 0; snap_timeout_ms := 0;
  snap_available_bytes := 0; snap_bytesize := ""; snap_parity := ""; snap_stopbits := "";
  snap_flowcontrol := ""; snap_last_error := ""
|}.

Definition BuildTimeout (options : SerialInitOptions) : Timeout :=
  if (opt_inter_byte_timeout_ms options =? 0)
     && (opt_read_timeout_constant_ms options =? opt_timeout_ms options)
     && (opt_read_timeout_multiplier_ms options =? 0)
     && (opt_write_timeout_constant_ms options =? opt_timeout_ms options)
     && (opt_write_timeout_multiplier_ms options =? 0)
  then simpleTimeout (opt_timeout_ms options)
  else FullTimeout (opt_inter_byte_timeout_ms options) (opt_read_timeout_constant_ms options)
         (opt_read_timeout_multiplier_ms options) (opt_write_timeout_constant_ms options)
         (opt_write_timeout_multiplier_ms options).

(** ** Configuration *)

Section config.
Context {J : Type} `{JsonOps J}.

Definition field_error (field_name rest : string) : exn :=
  invalid_argument ("serial config field '" +:+ field_name +:+ rest).

Definition JsonValueToToken (value : J) (field_name : string) : result string :=
  match j_view value with
  | JString s => Ok (NormalizeToken s)
  | JUnsigned n => Ok (pretty n)
  | JInteger z => Ok (pretty z)
  | JFloat => d ← j_dump value; Ok (NormalizeToken d)
  | _ => Err (field_error field_name "' must be a string or number")
  end.

Fixpoint GetRequiredPortValue_loop (cfg : J) (keys : list string) : result string :=
  match keys with
  | [] => Err (invalid_argument "serial config missing non-empty field: port/device")
  | key :: keys =>
      match present cfg key with
      | None => GetRequiredPortValue_loop cfg keys
      | Some v =>
          match j_view v with
          | JString port =>
              if bool_decide (port = "") then GetRequiredPortValue_loop cfg keys else Ok port
          | _ => Err (field_error key "' must be a string")
          end
      end
  end.

Definition GetRequiredPortValue (cfg : J) : result string :=
  GetRequiredPortValue_loop cfg ["port"; "device"].

Definition UINT32_MAX : Z := 2 ^ 32 - 1.

(** The conversion of one present field. *)
Definition uint32_field (key : string) (value : J) : result Z :=
  match j_view value with
  | JUnsigned parsed =>
      if UINT32_MAX <? parsed then Err (field_error key "' is out of uint32 range") else Ok parsed
  | JInteger parsed =>
      if (parsed <? 0) || (UINT32_MAX <? parsed)
      then Err (field_error key "' is out of uint32 range") else Ok (wrapu 32 parsed)
  | JString s =>
      parsed ← stoull s;
      if UINT32_MAX <? parsed then Err (field_error key "' is out of uint32 range") else Ok parsed
  | _ => Err (field_error key "' must be an unsigned integer")
  end.

Fixpoint GetUint32Value (cfg : J) (keys : list string) (default_value : Z) : result Z :=
  match keys with
  | [] => Ok default_value
  | key :: keys =>
      match present cfg key with
      | None => GetUint32Value cfg keys default_value
      | Some v => uint32_field key v
      end
  end.

Fixpoint GetTokenValue (cfg : J) (keys : list string) (default_value : string) : result string :=
  match keys with
  | [] => Ok (NormalizeToken default_value)
  | key :: keys =>
      match present cfg key with
      | None => GetTokenValue cfg keys default_value
      | Some v => JsonValueToToken v key
      end
  end.

Definition ParseOptions (cfg : J) : result SerialInitOptions :=
  match j_view cfg with
  | JObject =>
      let options := SerialInitOptions_default in
      port ← GetRequiredPortValue cfg;
      baudrate ← GetUint32Value cfg ["baudrate"; "baud_rate"] (opt_baudrate options);
      timeout_ms ← GetUint32Value cfg ["timeout_ms"] (opt_timeout_ms options);
      inter_byte ← GetUint32Value cfg ["inter_byte_timeout_ms"] (opt_inter_byte_timeout_ms options);
      read_constant ← GetUint32Value cfg ["read_timeout_constant_ms"] timeout_ms;
      read_multiplier ← GetUint32Value cfg ["read_timeout_multiplier_ms"]
                          (opt_read_timeout_multiplier_ms options);
      write_constant ← GetUint32Value cfg ["write_timeout_constant_ms"] timeout_ms;
      write_multiplier ← GetUint32Value cfg ["write_timeout_multiplier_ms"]
                           (opt_write_timeout_multiplier_ms options);
      bytesize ← (t ← GetTokenValue cfg ["bytesize"; "data_bits"] (opt_bytesize options);
                  ParseBytesize t);
      parity ← (t ← GetTokenValue cfg ["parity"] (opt_parity options); ParseParity t);
      stopbits ← (t ← GetTokenValue cfg ["stopbits"; "stop_bits"] (opt_stopbits options);
                  ParseStopbits t);
      flowcontrol ← (t ← GetTokenValue cfg ["flowcontrol"; "flow_control"] (opt_flowcontrol options);
                     ParseFlowcontrol t);
      auto_open ← j_value_bool cfg "auto_open" (opt_auto_open options);
      Ok {| opt_port := port;
            opt_baudrate := baudrate;
            opt_timeout_ms := timeout_ms;
            opt_inter_byte_timeout_ms := inter_byte;
            opt_read_timeout_constant_ms := read_constant;
            opt_read_timeout_multiplier_ms := read_multiplier;
            opt_write_timeout_constant_ms := write_constant;
            opt_write_timeout_multiplier_ms := write_multiplier;
            opt_bytesize := ToString_bytesize bytesize;
            opt_parity := ToString_parity parity;
            opt_stopbits := ToString_stopbits stopbits;
            opt_flowcontrol := ToString_flowcontrol flowcontrol;
            opt_auto_open := auto_open |}
  | _ => Err (invalid_argument "serial config must be a json object")
  end.

End config.

(** ** The port object *)

(** [serial_] is the [unique_ptr]: [None] is a null pointer. *)
Record MySerial (L : Type) := {
  initialized_ : bool;
  last_error_ : string;
  options_ : SerialInitOptions;
  serial_ : option L
}.
Arguments initialized_ {L} _.
Arguments last_error_ {L} _.
Arguments options_ {L} _.
Arguments serial_ {L} _.

Definition MySerial_default {L} : MySerial L := {|
  initialized_ := false; last_error_ := ""; options_ := SerialInitOptions_default; serial_ := None
|}.

Definition set_last_error {L} (e : string) (s : MySerial L) : MySerial L := {|
  initialized_ := initialized_ s; last_error_ := e; options_ := options_ s; serial_ := serial_ s
|}.

Definition set_serial {L} (l : L) (s : MySerial L) : MySerial L := {|
  initialized_ := initialized_ s; last_error_ := last_error_ s; options_ := options_ s;
  serial_ := Some l
|}.

Section port.
Context {J : Type} `{JsonOps J} {L : Type} `{SerialLib L}.

(** A body passed to [ExecuteWithError] works on the object and on the local
    variable it captures by reference. *)
Definition body (V A : Type) : Type := io (MySerial L * V) A.

Definition assign {V} (v : V) : body V unit := λ '(s, _), (Ok tt, (s, v)).

(** [serial_->m()]: undefined on a null pointer; every body checks first. *)
Definition device {V A} (m : io L A) : body V A := λ '(s, v),
  match serial_ s with
  | Some l => let '(r, l') := m l in (r, (set_serial l' s, v))
  | None => (Err (other_error "null pointer"), (s, v))
  end.

Definition serial_isOpen (s : MySerial L) : bool :=
  match serial_ s with Some l => sl_isOpen l | None => false end.

Definition check_initialized {V} : body V unit := λ '(s, v),
  if negb (initialized_ s) || bool_decide (serial_ s = None)
  then (Err (runtime_error "MySerial is not initialized"), (s, v)) else (Ok tt, (s, v)).

Definition check_open {V} : body V unit := λ '(s, v),
  if negb (serial_isOpen s) then (Err (runtime_error "Serial port is not open"), (s, v))
  else (Ok tt, (s, v)).

(** Runs a body; an exception becomes [false] and the error texts. *)
Definition ExecuteWithError {V} (err : option string) (fn : body V unit) (s : MySerial L) (v : V)
    : bool * option string * MySerial L * V :=
  match fn (s, v) with
  | (Ok _, (s', v')) => (true, set_err err "", set_last_error "" s', v')
  | (Err ex, (s', v')) => (false, set_err err (exn_what ex), set_last_error (exn_what ex) s', v')
  end.

(** The configuration of a new library object. *)
Definition configure (o : SerialInitOptions) : io L unit :=
  _ ← sl_set (setPort (opt_port o));
  _ ← sl_set (setBaudrate (opt_baudrate o));
  _ ← sl_set (setTimeout (BuildTimeout o));
  b ← io_lift (ParseBytesize (opt_bytesize o)); _ ← sl_set (setBytesize b);
  p ← io_lift (ParseParity (opt_parity o)); _ ← sl_set (setParity p);
  t ← io_lift (ParseStopbits (opt_stopbits o)); _ ← sl_set (setStopbits t);
  f ← io_lift (ParseFlowcontrol (opt_flowcontrol o)); _ ← sl_set (setFlowcontrol f);
  if opt_auto_open o then sl_open else mret tt.

(** The [try] block up to the commit.  [cfg.dump(4)] is an argument of the
    first log call inside it. *)
Definition Init_try (cfg : J) (s : MySerial L) : result (SerialInitOptions * L) :=
  _ ← j_dump cfg;
  _ ← match serial_ s with
      | Some l => if sl_isOpen l then (sl_close l).1 else Ok tt
      | None => Ok tt
      end;
  parsed_options ← ParseOptions cfg;
  match configure parsed_options sl_new with
  | (Ok _, new_serial) => Ok (parsed_options, new_serial)
  | (Err ex, _) => Err ex
  end.

Definition Init (cfg : J) (err : option string) (s : MySerial L) : bool * option string * MySerial L :=
  match Init_try cfg s with
  | Ok (parsed_options, new_serial) =>
      (true, set_err err "",
       {| initialized_ := true; last_error_ := ""; options_ := parsed_options;
          serial_ := Some new_serial |})
  | Err ex =>
      (false, set_err err (exn_what ex),
       {| initialized_ := false; last_error_ := exn_what ex; options_ := SerialInitOptions_default;
          serial_ := None |})
  end.

Definition Open (err : option string) (s : MySerial L) : bool * option string * MySerial L :=
  let '(ok, err, s', _) := ExecuteWithError err
    (_ ← check_initialized; if serial_isOpen s then mret tt else device sl_open) s tt in
  (ok, err, s').

Definition Close : io (MySerial L) unit := λ s,
  match serial_ s with
  | Some l =>
      if sl_isOpen l then let '(r, l') := sl_close l in (r, set_serial l' s) else (Ok tt, s)
  | None => (Ok tt, s)
  end.

Definition IsOpen (s : MySerial L) : bool := serial_isOpen s.

(** The overload on bytes. *)
Definition Write (data : list Z) (err : option string) (s : MySerial L)
    : nat * option string * MySerial L :=
  let '(_, err, s', written) := ExecuteWithError err
    (_ ← check_initialized; _ ← check_open; n ← device (sl_write data); assign n) s 0%nat in
  (written, err, s').

(** The overload on text. *)
Definition Write_string (data : string) (err : option string) (s : MySerial L)
    : nat * option string * MySerial L :=
  let '(_, err, s', written) := ExecuteWithError err
    (_ ← check_initialized; _ ← check_open; n ← device (sl_write (bytes_of_string data)); assign n)
    s 0%nat in
  (written, err, s').

Definition Read (size : nat) (err : option string) (s : MySerial L)
    : string * option string * MySerial L :=
  let '(_, err, s', result) := ExecuteWithError err
    (_ ← check_initialized; _ ← check_open;
     bs ← device (sl_read size); assign (string_of_bytes bs)) s "" in
  (result, err, s').

(** [result.resize(size)] comes before the read, so the zeros stay in the
    result when the read throws. *)
Definition ReadBytes (size : nat) (err : option string) (s : MySerial L)
    : list Z * option string * MySerial L :=
  let '(_, err, s', result) := ExecuteWithError err
    (_ ← check_initialized; _ ← check_open;
     _ ← assign (replicate size 0);
     bs ← device (sl_read size); assign bs) s [] in
  (result, err, s').

Definition ReadLine (max_size : nat) (eol : string) (err : option string) (s : MySerial L)
    : string * option string * MySerial L :=
  let '(_, err, s', result) := ExecuteWithError err
    (_ ← check_initialized; _ ← check_open;
     l ← device (sl_readline max_size eol); assign l) s "" in
  (result, err, s').

Definition Available (err : option string) (s : MySerial L) : nat * option string * MySerial L :=
  let '(_, err, s', available) := ExecuteWithError err
    (_ ← check_initialized; _ ← check_open; n ← device sl_available; assign n) s 0%nat in
  (available, err, s').

(** [serial::list_ports()] is the argument [ports]. *)
Definition ListAvailablePorts (ports : list PortInfo) : list J :=
  map (λ p, j_object [("port", j_string (pi_port p));
                      ("description", j_string (pi_description p));
                      ("hardware_id", j_string (pi_hardware_id p))]) ports.

Definition GetSnapshot (s : MySerial L) : SerialPortSnapshot * MySerial L :=
  match serial_ s with
  | Some l =>
      if initialized_ s then
        let o := options_ s in
        let snapshot n e := {|
          snap_initialized := true; snap_open := sl_isOpen l; snap_port := opt_port o;
          snap_baudrate := opt_baudrate o; snap_timeout_ms := opt_timeout_ms o;
          snap_available_bytes := n; snap_bytesize := opt_bytesize o;
          snap_parity := opt_parity o; snap_stopbits := opt_stopbits o;
          snap_flowcontrol := opt_flowcontrol o; snap_last_error := e |} in
        if sl_isOpen l then
          match sl_available l with
          | (Ok n, l') => (snapshot n (last_error_ s), set_serial l' s)
          | (Err ex, l') => (snapshot 0%nat (exn_what ex), set_serial l' s)
          end
        else (snapshot 0%nat (last_error_ s), s)
      else
        ({| snap_initialized := initialized_ s; snap_open := false; snap_port := "";
            snap_baudrate := 0; snap_timeout_ms := 0; snap_available_bytes := 0;
            snap_bytesize := ""; snap_parity := ""; snap_stopbits := ""; snap_flowcontrol := "";
            snap_last_error := last_error_ s |}, s)
  | None =>
      ({| snap_initialized := initialized_ s; snap_open := false; snap_port := "";
          snap_baudrate := 0; snap_timeout_ms := 0; snap_available_bytes := 0;
          snap_bytesize := ""; snap_parity := ""; snap_stopbits := ""; snap_flowcontrol := "";
          snap_last_error := last_error_ s |}, s)
  end.

Definition snapshot_json (snapshot : SerialPortSnapshot) : J :=
  j_object [("initialized", j_bool (snap_initialized snapshot));
            ("open", j_bool (snap_open snapshot));
            ("port", j_string (snap_port snapshot));
            ("baudrate", j_number (snap_baudrate snapshot));
            ("timeout_ms", j_number (snap_timeout_ms snapshot));
            ("available_bytes", j_number (Z.of_nat (snap_available_bytes snapshot)));
            ("bytesize", j_string (snap_bytesize snapshot));
            ("parity", j_string (snap_parity snapshot));
            ("stopbits", j_string (snap_stopbits snapshot));
            ("flowcontrol", j_string (snap_flowcontrol snapshot));
            ("last_error", j_string (snap_last_error snapshot))].

Definition GetSnapshotJson (s : MySerial L) : J * MySerial L :=
  let '(snapshot, s) := GetSnapshot s in (snapshot_json snapshot, s).

Record SerialSelfCheckResult := {
  sc_success : bool;
  sc_summary : string;
  sc_detail : J
}.

(** The [port_found] loop over [detail["available_ports"]]. *)
Fixpoint port_found (items : list J) (port : string) : result bool :=
  match items with
  | [] => Ok false
  | item :: items =>
      p ← j_value_string item "port" "";
      if bool_decide (p = port) then Ok true else port_found items port
  end.

Definition SelfCheck (ports : list PortInfo) (s : MySerial L)
    : result SerialSelfCheckResult * MySerial L :=
  let '(sj, s) := GetSnapshotJson s in
  let available_ports := j_array (ListAvailablePorts ports) in
  let detail checks := j_object [("snapshot", sj); ("available_ports", available_ports);
                                 ("checks", checks)] in
  let '(snapshot, s) := GetSnapshot s in
  if negb (snap_initialized snapshot) then
    (Ok {| sc_success := false; sc_summary := "serial not initialized";
           sc_detail := detail (j_object [("initialized", j_bool false); ("open", j_bool false)]) |},
     s)
  else
    (found ← port_found (j_elems available_ports) (snap_port snapshot);
     Ok {| sc_success := snap_open snapshot;
           sc_summary := if snap_open snapshot then "serial self check passed"
                         else "serial self check failed";
           sc_detail := detail (j_object [("initialized", j_bool (snap_initialized snapshot));
                                          ("open", j_bool (snap_open snapshot));
                                          ("configured_port_found", j_bool found);
                                          ("available_bytes_non_negative", j_bool true)]) |}, s).

Definition SelfTestLoopback (payload : string) (read_size : nat) (s : MySerial L)
    : SerialSelfCheckResult * MySerial L :=
  let expected_size := if (read_size =? 0)%nat then String.length payload else read_size in
  let '(written, err, s) := Write_string payload (Some "") s in
  let err := default "" err in
  if negb (bool_decide (err = "")) then
    ({| sc_success := false; sc_summary := "write failed: " +:+ err;
        sc_detail := j_object [("payload", j_string payload)] |}, s)
  else
    let '(received, err, s) := Read expected_size (Some err) s in
    let err := default "" err in
    if negb (bool_decide (err = "")) then
      ({| sc_success := false; sc_summary := "read failed: " +:+ err;
          sc_detail := j_object [("payload", j_string payload);
                                 ("written_size", j_number (Z.of_nat written))] |}, s)
    else
      let success := bool_decide (received = payload) in
      let '(sj, s) := GetSnapshotJson s in
      ({| sc_success := success;
          sc_summary := if success then "serial loopback self test passed"
                        else "serial loopback self test mismatch";
          sc_detail := j_object [("payload", j_string payload);
                                 ("written_size", j_number (Z.of_nat written));
                                 ("expected_size", j_number (Z.of_nat expected_size));
                                 ("received", j_string received);
                                 ("snapshot", sj)] |}, s).

End port.

(** ** Parsed options *)

Lemma parse_ToString_bytesize s b :
  ParseBytesize s = Ok b → ParseBytesize (ToString_bytesize b) = Ok b.
Proof. unfold ParseBytesize at 1. repeat case_bool_decide; intros [= <-]; reflexivity. Qed.
Lemma parse_ToString_parity s b :
  ParseParity s = Ok b → ParseParity (ToString_parity b) = Ok b.
Proof. unfold ParseParity at 1. repeat case_bool_decide; intros [= <-]; reflexivity. Qed.
Lemma parse_ToString_stopbits s b :
  ParseStopbits s = Ok b → ParseStopbits (ToString_stopbits b) = Ok b.
Proof. unfold ParseStopbits at 1. repeat case_bool_decide; intros [= <-]; reflexivity. Qed.
Lemma parse_ToString_flowcontrol s b :
  ParseFlowcontrol s = Ok b → ParseFlowcontrol (ToString_flowcontrol b) = Ok b.
Proof. unfold ParseFlowcontrol at 1. repeat case_bool_decide; intros [= <-]; reflexivity. Qed.

(** What [Init] may assume of parsed options: a port name, 32-bit numbers,
    canonical enumeration names. *)
Record options_ok (o : SerialInitOptions) : Prop := {
  ok_port : opt_port o ≠ "";
  ok_baudrate : inu 32 (opt_baudrate o);
  ok_timeouts : Forall (inu 32) [opt_timeout_ms o; opt_inter_byte_timeout_ms o;
    opt_read_timeout_constant_ms o; opt_read_timeout_multiplier_ms o;
    opt_write_timeout_constant_ms o; opt_write_timeout_multiplier_ms o];
  ok_bytesize : ∃ b, ParseBytesize (opt_bytesize o) = Ok b ∧ opt_bytesize o = ToString_bytesize b;
  ok_parity : ∃ b, ParseParity (opt_parity o) = Ok b ∧ opt_parity o = ToString_parity b;
  ok_stopbits : ∃ b, ParseStopbits (opt_stopbits o) = Ok b ∧ opt_stopbits o = ToString_stopbits b;
  ok_flowcontrol : ∃ b, ParseFlowcontrol (opt_flowcontrol o) = Ok b ∧
                        opt_flowcontrol o = ToString_flowcontrol b
}.

Section config_facts.
Context {J : Type} `{JsonLaws J}.

Lemma GetRequiredPortValue_nonempty (cfg : J) keys p :
  GetRequiredPortValue_loop cfg keys = Ok p → p ≠ "".
Proof.
  induction keys as [|k keys IH]; cbn; [done|].
  destruct (present cfg k) as [v|]; [|done].
  destruct (j_view v); try done. case_bool_decide; [done|]. by intros [= <-].
Qed.

Lemma uint32_field_range k (v : J) n : uint32_field k v = Ok n → inu 32 n.
Proof.
  unfold uint32_field, UINT32_MAX. destruct (j_view v) as [|b|u|z| |s| |] eqn:Hv; try done.
  - apply j_view_unsigned in Hv. case_match; intros ?; simplify_eq. width_lia.
  - case_match; intros ?; simplify_eq. by apply inu_wrapu.
  - intros (u & Hu & E)%bind_Ok. apply stoull_range in Hu.
    case_match; simplify_eq. width_lia.
Qed.

Lemma GetUint32Value_range (cfg : J) keys d n :
  inu 32 d → GetUint32Value cfg keys d = Ok n → inu 32 n.
Proof.
  intros Hd. induction keys as [|k keys IH]; cbn; [by intros [= <-]|].
  destruct (present cfg k) as [v|]; [|done]. apply uint32_field_range.
Qed.

Lemma ParseOptions_ok (cfg : J) o : ParseOptions cfg = Ok o → options_ok o.
Proof.
  unfold ParseOptions. destruct (j_view cfg); try done. intros Hp.
  repeat match type of Hp with
  | _ ≫= _ = Ok _ => apply bind_Ok in Hp; destruct Hp as (? & ? & Hp)
  end.
  repeat match goal with
  | E : _ ≫= _ = Ok _ |- _ => apply bind_Ok in E; destruct E as (? & ? & E)
  | E : GetUint32Value _ _ _ = Ok _ |- _ =>
      apply GetUint32Value_range in E; [|assumption || (cbn; width_lia)]
  end.
  injection Hp as <-. split; cbn; try done.
  - by eapply GetRequiredPortValue_nonempty.
  - by repeat (apply Forall_cons_2; [assumption|]).
  - eexists. split; [|reflexivity]. by eapply parse_ToString_bytesize.
  - eexists. split; [|reflexivity]. by eapply parse_ToString_parity.
  - eexists. split; [|reflexivity]. by eapply parse_ToString_stopbits.
  - eexists. split; [|reflexivity]. by eapply parse_ToString_flowcontrol.
Qed.
End config_facts.

(** ** Lenient numbers *)

(** A numeric field given as text is read from its first digits: when a
    text is accepted, the same text followed by anything that does not start
    with a digit ("9600" and "9600abc") is accepted with the same value. *)
Theorem uint32_text_trailing {J} `{JsonLaws J} key s tail v :
  starts_with_digit tail = false →
  uint32_field key (j_string s) = Ok v →
  uint32_field key (j_string (s +:+ tail)) = Ok v.
Proof.
  intros Ht. unfold uint32_field. rewrite !j_view_string.
  intros (u & Hu & Hv)%bind_Ok. by rewrite (stoull_app _ _ _ Ht Hu).
Qed.

Lemma uint32_text_trailing_witness :
  uint32_field "baudrate" (VStr "-18446744073709551615") = Ok 1 ∧
  uint32_field "baudrate" (VStr "9600abc") = Ok 9600.
Proof.
  split; [reflexivity|].
  change (VStr "9600abc") with (j_string ("9600" +:+ "abc") : jvalue).
  apply uint32_text_trailing; reflexivity.
Defined.

(** ** Initialisation *)

Section port_facts.
Context {J : Type} `{JsonLaws J} {L : Type} `{SerialLibLaws L}.

Lemma configure_open o (l : L) :
  sl_isOpen l = false → ∀ l', configure o l = (Ok tt, l') → sl_isOpen l' = opt_auto_open o.
Proof.
  intros Hl l' Hc. unfold configure in Hc.
  repeat match type of Hc with
  | (sl_set ?s ≫= _) ?x = _ =>
      apply io_bind_Ok in Hc; destruct Hc as (? & ? & Hs & Hc);
      pose proof (sl_set_closed s x) as Hcl; rewrite Hs in Hcl; cbn in Hcl; rewrite Hl in Hcl;
      clear Hs Hl; rename Hcl into Hl
  | (io_lift _ ≫= _) _ = _ =>
      apply io_bind_Ok in Hc; destruct Hc as (? & ? & Hs & Hc); injection Hs as _ <-
  end.
  destruct (opt_auto_open o); [by eapply sl_open_open|].
  by injection Hc as <-.
Qed.

(** The only failures left once the options are parsed are the library's: the
    canonical names parse again. *)
Lemma configure_library o (l : L) e l' :
  options_ok o → configure o l = (Err e, l') →
  (∃ st l1, sl_set st l1 = (Err e, l')) ∨ (∃ l1, sl_open l1 = (Err e, l')).
Proof.
  intros Ho Hc.
  destruct (ok_bytesize _ Ho) as (b & Hb & _), (ok_parity _ Ho) as (p & Hp & _),
           (ok_stopbits _ Ho) as (t & Ht & _), (ok_flowcontrol _ Ho) as (f & Hf & _).
  unfold configure in Hc. rewrite Hb, Hp, Ht, Hf in Hc.
  repeat match type of Hc with
  | (sl_set ?s ≫= ?k) ?x = _ =>
      change ((sl_set s ≫= k) x) with
        (match sl_set s x with (Ok a, s') => k a s' | (Err e, s') => (Err e, s') end) in Hc;
      let r := fresh "r" in let x' := fresh "x" in let E := fresh "E" in
      destruct (sl_set s x) as [r x'] eqn:E; destruct r; [|left; simplify_eq; by eauto]
  | (io_lift (Ok ?a) ≫= ?k) ?x = _ => change ((io_lift (Ok a) ≫= k) x) with (k a x) in Hc; cbv beta in Hc
  end.
  destruct (opt_auto_open o); [right; by eauto|done].
Qed.

(** Why [Init] failed. *)
Inductive init_failure (cfg : J) (s : MySerial L) (ex : exn) : Prop :=
| dump_failed : j_dump cfg = Err ex → init_failure cfg s ex
| close_failed l l' : serial_ s = Some l → sl_close l = (Err ex, l') → init_failure cfg s ex
| config_rejected : ParseOptions cfg = Err ex → init_failure cfg s ex
| setting_failed st l l' : sl_set st l = (Err ex, l') → init_failure cfg s ex
| open_failed l l' : sl_open l = (Err ex, l') → init_failure cfg s ex.

Lemma Init_try_failure (cfg : J) (s : MySerial L) ex :
  Init_try cfg s = Err ex → init_failure cfg s ex.
Proof.
  unfold Init_try. destruct (j_dump cfg) eqn:Hd; cbn; [|by intros [= ->]; constructor].
  destruct (serial_ s) as [l|] eqn:Hs; [destruct (sl_isOpen l)|]; cbn;
    [destruct (sl_close l) as [[[]|] l'] eqn:Hc; cbn; [|intros [= ->]; by eapply close_failed]| |].
  all: destruct (ParseOptions cfg) as [o|] eqn:Ho; cbn; [|by intros [= ->]; apply config_rejected].
  all: destruct (configure o sl_new) as [[[]|e] l1] eqn:Hcf; [done|]; intros [= ->].
  all: destruct (configure_library _ _ _ _ (ParseOptions_ok _ _ Ho) Hcf) as [(?&?&?)|(?&?)];
    [by eapply setting_failed|by eapply open_failed].
Qed.
End port_facts.

(** [Init] is all or nothing, whatever the object went through before.
    On success the object holds a configured port, open exactly when asked for,
    and the parsed options, which are well formed; on failure it is back to the
    uninitialised state, apart from the error text the caller also gets, and the
    cause is the log dump, the old port's close, the configuration or a call of
    the serial library, never the second parse of the canonical names. *)
Theorem Init_spec {J} `{JsonLaws J} {L} `{SerialLibLaws L}
    (cfg : J) err (s : MySerial L) ok err' s' :
  Init cfg err s = (ok, err', s') →
  if ok then
    ∃ o l, ParseOptions cfg = Ok o ∧ options_ok o ∧ configure o sl_new = (Ok tt, l) ∧
           s' = {| initialized_ := true; last_error_ := ""; options_ := o; serial_ := Some l |} ∧
           IsOpen s' = opt_auto_open o ∧ err' = set_err err ""
  else
    s' = set_last_error (last_error_ s') MySerial_default ∧ IsOpen s' = false ∧
    err' = set_err err (last_error_ s') ∧
    ∃ ex, last_error_ s' = exn_what ex ∧ init_failure cfg s ex.
Proof.
  unfold Init. destruct (Init_try cfg s) as [[o l]|ex] eqn:E; intros [= <- <- <-].
  2: { split_and!; try done. exists ex. split; [done|by apply Init_try_failure]. }
  unfold Init_try in E.
  apply bind_Ok in E as (? & _ & E). apply bind_Ok in E as (? & _ & E).
  apply bind_Ok in E as (o' & Ho & E).
  destruct (configure o' sl_new) as [[[]|] l'] eqn:Hc; [|done]. injection E as -> ->.
  exists o, l. split_and!; try done; [by eapply ParseOptions_ok|].
  by eapply configure_open; [apply sl_new_closed|].
Qed.

(** ** Guarded access *)

Section access.
Context {J : Type} `{JsonOps J} {L : Type} `{SerialLib L}.

(** What every read and write does: nothing but report without an open port,
    else one call of the library. *)
Lemma access_spec {V A} (m : io L A) (f : A → V) err (s : MySerial L) v :
  ExecuteWithError err
    (_ ← check_initialized; _ ← check_open; a ← device m; assign (f a)) s v =
  match serial_ s with
  | Some l =>
      if initialized_ s then
        if sl_isOpen l then
          match m l with
          | (Ok a, l') => (true, set_err err "", set_last_error "" (set_serial l' s), f a)
          | (Err e, l') =>
              (false, set_err err (exn_what e), set_last_error (exn_what e) (set_serial l' s), v)
          end
        else (false, set_err err "Serial port is not open",
              set_last_error "Serial port is not open" s, v)
      else (false, set_err err "MySerial is not initialized",
            set_last_error "MySerial is not initialized" s, v)
  | None => (false, set_err err "MySerial is not initialized",
             set_last_error "MySerial is not initialized" s, v)
  end.
Proof.
  unfold ExecuteWithError, mbind, io_bind, check_initialized, check_open, device, serial_isOpen.
  destruct s as [i e o [l|]]; cbn; [|by rewrite orb_true_r].
  destruct i; cbn; [|done]. destruct (sl_isOpen l); cbn; [|done].
  by destruct (m l) as [[a|x] l'].
Qed.

(** [ReadBytes] differs from that shape by the early [resize]. *)
Lemma ReadBytes_access size err (s : MySerial L) :
  ReadBytes size err s =
  match serial_ s with
  | Some l =>
      if initialized_ s then
        if sl_isOpen l then
          match sl_read size l with
          | (Ok bs, l') => (bs, set_err err "", set_last_error "" (set_serial l' s))
          | (Err e, l') =>
              (replicate size 0, set_err err (exn_what e),
               set_last_error (exn_what e) (set_serial l' s))
          end
        else ([], set_err err "Serial port is not open",
              set_last_error "Serial port is not open" s)
      else ([], set_err err "MySerial is not initialized",
            set_last_error "MySerial is not initialized" s)
  | None => ([], set_err err "MySerial is not initialized",
             set_last_error "MySerial is not initialized" s)
  end.
Proof.
  unfold ReadBytes, ExecuteWithError, mbind, io_bind, check_initialized, check_open, device,
    serial_isOpen.
  destruct s as [i e o [l|]]; cbn; [|by rewrite orb_true_r].
  destruct i; cbn; [|done]. destruct (sl_isOpen l); cbn; [|done].
  by destruct (sl_read size l) as [[a|x] l'].
Qed.

Lemma Open_spec err (s : MySerial L) :
  Open err s =
  match serial_ s with
  | Some l =>
      if initialized_ s then
        if sl_isOpen l then (true, set_err err "", set_last_error "" s)
        else match sl_open l with
             | (Ok _, l') => (true, set_err err "", set_last_error "" (set_serial l' s))
             | (Err e, l') =>
                 (false, set_err err (exn_what e), set_last_error (exn_what e) (set_serial l' s))
             end
      else (false, set_err err "MySerial is not initialized",
            set_last_error "MySerial is not initialized" s)
  | None => (false, set_err err "MySerial is not initialized",
             set_last_error "MySerial is not initialized" s)
  end.
Proof.
  unfold Open, ExecuteWithError, mbind, io_bind, check_initialized, device, serial_isOpen.
  destruct s as [i e o [l|]]; cbn; [|by rewrite orb_true_r].
  destruct i; cbn; [|done]. destruct (sl_isOpen l); cbn; [done|].
  by destruct (sl_open l) as [[a|x] l'].
Qed.
End access.

(** ** The life of a port *)

(** A call of the public interface. *)
Inductive call (J : Type) :=
| call_Init (cfg : J) (err : option string)
| call_Open (err : option string)
| call_Close
| call_Write (data : list Z) (err : option string)
| call_Write_string (data : string) (err : option string)
| call_Read (size : nat) (err : option string)
| call_ReadBytes (size : nat) (err : option string)
| call_ReadLine (max_size : nat) (eol : string) (err : option string)
| call_Available (err : option string)
| call_GetSnapshot
| call_SelfCheck (ports : list PortInfo)
| call_SelfTestLoopback (payload : string) (read_size : nat).
Arguments call_Init {J} _ _.
Arguments call_Open {J} _.
Arguments call_Close {J}.
Arguments call_Write {J} _ _.
Arguments call_Write_string {J} _ _.
Arguments call_Read {J} _ _.
Arguments call_ReadBytes {J} _ _.
Arguments call_ReadLine {J} _ _ _.
Arguments call_Available {J} _.
Arguments call_GetSnapshot {J}.
Arguments call_SelfCheck {J} _.
Arguments call_SelfTestLoopback {J} _ _.

Section life.
Context {J : Type} `{JsonLaws J} {L : Type} `{SerialLibLaws L}.

Definition run_call (c : call J) (s : MySerial L) : MySerial L :=
  match c with
  | call_Init cfg err => (Init cfg err s).2
  | call_Open err => (Open err s).2
  | call_Close => (Close s).2
  | call_Write data err => (Write data err s).2
  | call_Write_string data err => (Write_string data err s).2
  | call_Read size err => (Read size err s).2
  | call_ReadBytes size err => (ReadBytes size err s).2
  | call_ReadLine max_size eol err => (ReadLine max_size eol err s).2
  | call_Available err => (Available err s).2
  | call_GetSnapshot => (GetSnapshot s).2
  | call_SelfCheck ports => (SelfCheck (J := J) ports s).2
  | call_SelfTestLoopback payload read_size => (SelfTestLoopback (J := J) payload read_size s).2
  end.

(** The object invariant: a library object exists exactly when initialised;
    its options are then well formed, and otherwise the defaults. *)
Definition serial_wf (s : MySerial L) : Prop :=
  (initialized_ s = true ↔ is_Some (serial_ s)) ∧
  (if initialized_ s then options_ok (options_ s) else options_ s = SerialInitOptions_default).

Lemma wf_set_last_error e s : serial_wf s → serial_wf (set_last_error e s).
Proof. done. Qed.

Lemma wf_set_serial l l' s : serial_ s = Some l → serial_wf s → serial_wf (set_serial l' s).
Proof. intros Hl [Hi Ho]. split; [|done]. cbn. rewrite Hi, Hl. split; by eauto. Qed.

Lemma wf_access {V A} (m : io L A) (f : A → V) err s v :
  serial_wf s →
  serial_wf (ExecuteWithError err
    (_ ← check_initialized; _ ← check_open; a ← device m; assign (f a)) s v).1.2.
Proof.
  intros Hs. rewrite access_spec. destruct (serial_ s) as [l|] eqn:Hl; [|done].
  destruct (initialized_ s); [|done]. destruct (sl_isOpen l); [|done].
  by destruct (m l) as [[a|x] l']; eapply wf_set_serial.
Qed.

Lemma wf_GetSnapshot s : serial_wf s → serial_wf (GetSnapshot s).2.
Proof.
  intros Hs. unfold GetSnapshot. destruct (serial_ s) as [l|] eqn:Hl; [|done].
  destruct (initialized_ s); [|done]. destruct (sl_isOpen l); [|done].
  by destruct (sl_available l) as [[a|x] l']; eapply wf_set_serial.
Qed.

(** The state component of an access, whichever result it is packed with. *)
Ltac wf_access_tac :=
  match goal with
  | |- context [ExecuteWithError ?e ?b ?s ?v] =>
      let H := fresh in
      assert (H : serial_wf (ExecuteWithError e b s v).1.2) by (apply wf_access; assumption);
      destruct (ExecuteWithError e b s v) as [[[? ?] ?] ?]; cbn in H |- *
  end.

Lemma wf_Write_string d err s : serial_wf s → serial_wf (Write_string d err s).2.
Proof. intros Hs. unfold Write_string. by wf_access_tac. Qed.
Lemma wf_Read n err s : serial_wf s → serial_wf (Read n err s).2.
Proof. intros Hs. unfold Read. by wf_access_tac. Qed.

Lemma wf_Init cfg err s : serial_wf (Init cfg err s).2.
Proof.
  destruct (Init cfg err s) as [[ok err'] s'] eqn:E. unfold Init in E.
  destruct (Init_try cfg s) as [[o l]|ex] eqn:Ht; injection E as <- <- <-; cbn.
  2: { split; [|done]. cbn. split; [done|by intros []]. }
  split; cbn; [split; by eauto|]. unfold Init_try in Ht.
  apply bind_Ok in Ht as (? & _ & Ht). apply bind_Ok in Ht as (? & _ & Ht).
  apply bind_Ok in Ht as (o' & Ho & Ht).
  destruct (configure o' sl_new) as [[?|] ?]; [|done]. injection Ht as -> ->.
  by eapply ParseOptions_ok.
Qed.

Lemma wf_SelfTestLoopback payload n s :
  serial_wf s → serial_wf (SelfTestLoopback (J := J) payload n s).2.
Proof.
  intros Hs. unfold SelfTestLoopback, GetSnapshotJson.
  pose proof (wf_Write_string payload (Some "") s Hs) as Hw1.
  destruct (Write_string payload (Some "") s) as [[w e] s1]. cbn in Hw1 |- *.
  destruct (negb _); [done|].
  match goal with |- context [Read ?n ?e ?s] =>
    pose proof (wf_Read n e s Hw1) as Hw2; destruct (Read n e s) as [[r e2] s2] end.
  cbn in Hw2 |- *. destruct (negb _); [done|].
  pose proof (wf_GetSnapshot s2 Hw2) as Hw3. by destruct (GetSnapshot s2).
Qed.

Lemma wf_run_call c s : serial_wf s → serial_wf (run_call c s).
Proof.
  intros Hs. destruct c; cbn [run_call].
  - apply wf_Init.
  - rewrite Open_spec. destruct (serial_ s) as [l|] eqn:Hl; [|done].
    destruct (initialized_ s); [|done]. destruct (sl_isOpen l); [done|].
    by destruct (sl_open l) as [[]]; eapply wf_set_serial.
  - unfold Close. destruct (serial_ s) as [l|] eqn:Hl; [|done].
    destruct (sl_isOpen l); [|done]. destruct (sl_close l). by eapply wf_set_serial.
  - unfold Write. by wf_access_tac.
  - by apply wf_Write_string.
  - by apply wf_Read.
  - rewrite ReadBytes_access. destruct (serial_ s) as [l|] eqn:Hl; [|done].
    destruct (initialized_ s); [|done]. destruct (sl_isOpen l); [|done].
    by destruct (sl_read size l) as [[]]; eapply wf_set_serial.
  - unfold ReadLine. by wf_access_tac.
  - unfold Available. by wf_access_tac.
  - by apply wf_GetSnapshot.
  - unfold SelfCheck, GetSnapshotJson. pose proof (wf_GetSnapshot s Hs) as Hw1.
    destruct (GetSnapshot s) as [sn s1]. cbn in Hw1 |- *.
    pose proof (wf_GetSnapshot s1 Hw1) as Hw2. destruct (GetSnapshot s1) as [sn2 s2].
    cbn in Hw2 |- *. by destruct (negb _).
  - by apply wf_SelfTestLoopback.
Qed.

(** Whatever sequence of calls a port object went through, a library
    object exists exactly when the object is initialised, and its options are
    then well formed and otherwise the defaults. *)
Theorem MySerial_invariant (calls : list (call J)) :
  serial_wf (foldl (λ s c, run_call c s) MySerial_default calls).
Proof.
  assert (Hd : serial_wf (MySerial_default : MySerial L)).
  { split; [|done]. cbn. split; [done|by intros []]. }
  revert Hd. generalize (MySerial_default : MySerial L).
  induction calls as [|c calls IH]; intros s Hs; [done|]. apply IH. by apply wf_run_call.
Qed.
End life.

(** ** [MySerial] as a serial port *)

Section implements.
Context {J : Type} `{JsonLaws J} {L : Type} `{SerialLibLaws L}.

#[export] Instance MySerial_port : SerialPort J (MySerial L) := {|
  sp_init := MySerial_default;
  sp_Init := Init;
  sp_Open := Open;
  sp_Close := Close;
  sp_IsOpen := IsOpen;
  sp_Write := Write;
  sp_ReadBytes := ReadBytes;
  sp_Available := Available;
  sp_sent s := match serial_ s with Some l => sl_sent l | None => [] end
|}.

#[export] Instance MySerial_laws : SerialPortLaws J (MySerial L).
Proof.
  split; cbn.
  - done.
  - intros e s e' s'. rewrite Open_spec. unfold IsOpen, serial_isOpen.
    destruct (serial_ s) as [l|] eqn:Hl; [|done]. destruct (initialized_ s); [|done].
    destruct (sl_isOpen l) eqn:Ho; [intros [= _ <-]; cbn; by rewrite Hl|].
    destruct (sl_open l) as [[[]|] l'] eqn:E; intros [= _ <-]. cbn. by eapply sl_open_open.
  - intros e s. rewrite Open_spec.
    destruct (serial_ s) as [l|] eqn:Hl; [|cbn; by rewrite Hl].
    destruct (initialized_ s); [|cbn; by rewrite Hl].
    destruct (sl_isOpen l) eqn:Ho; [cbn; by rewrite Hl|].
    pose proof (sl_open_sent l) as Hs. by destruct (sl_open l) as [[] l'] eqn:E.
  - intros s s'. unfold Close, IsOpen, serial_isOpen.
    destruct (serial_ s) as [l|] eqn:Hl; [|intros [= <-]; by rewrite Hl].
    destruct (sl_isOpen l) eqn:Ho; [|intros [= <-]; by rewrite Hl].
    destruct (sl_close l) as [[[]|] l'] eqn:E; intros [= <-]. by eapply sl_close_closed.
  - intros s. unfold Close. destruct (serial_ s) as [l|] eqn:Hl; [|cbn; by rewrite Hl].
    destruct (sl_isOpen l) eqn:Ho; [|cbn; by rewrite Hl].
    pose proof (sl_close_sent l) as Hs. by destruct (sl_close l) as [[] l'] eqn:E.
  - intros d e s n e' s'. unfold Write. rewrite access_spec.
    destruct (serial_ s) as [l|] eqn:Hl;
      [|intros [= <- _ <-]; exists 0%nat; cbn; rewrite Hl; split; [lia|done]].
    destruct (initialized_ s);
      [|intros [= <- _ <-]; exists 0%nat; cbn; rewrite Hl, app_nil_r; split; [lia|done]].
    destruct (sl_isOpen l);
      [|intros [= <- _ <-]; exists 0%nat; cbn; rewrite Hl, app_nil_r; split; [lia|done]].
    destruct (sl_write d l) as [[a|x] l'] eqn:E; intros [= <- _ <-]; cbn.
    + destruct (sl_write_ok _ _ _ _ E). exists a. split; [lia|done].
    + destruct (sl_write_err _ _ _ _ E) as (k & ? & ?). exists k. split; [lia|done].
  - intros n s bs s'. rewrite ReadBytes_access. destruct (serial_ s) as [l|] eqn:Hl; [|done].
    destruct (initialized_ s); [|done]. destruct (sl_isOpen l); [|done].
    destruct (sl_read n l) as [[a|x] l'] eqn:E; intros Hr.
    + injection Hr as <- _. by eapply sl_read_ok.
    + injection Hr as _ Hw _. by apply sl_read_what in E.
  - intros n e s. rewrite ReadBytes_access. destruct (serial_ s) as [l|]; [|by eexists].
    destruct (initialized_ s); [|by eexists]. destruct (sl_isOpen l); [|by eexists].
    destruct (sl_read n l) as [[] l']; by eexists.
  - intros n e s. rewrite ReadBytes_access. destruct (serial_ s) as [l|] eqn:Hl; [|cbn; by rewrite Hl].
    destruct (initialized_ s); [|cbn; by rewrite Hl]. destruct (sl_isOpen l); [|cbn; by rewrite Hl].
    pose proof (sl_read_sent n l) as Hs. by destruct (sl_read n l) as [[] l'] eqn:E.
  - intros e s. unfold Available. rewrite access_spec. destruct (serial_ s) as [l|] eqn:Hl; [|cbn; by rewrite Hl].
    destruct (initialized_ s); [|cbn; by rewrite Hl]. destruct (sl_isOpen l); [|cbn; by rewrite Hl].
    pose proof (sl_available_sent l) as Hs. by destruct (sl_available l) as [[] l'] eqn:E.
Qed.
End implements.

(** ** A loopback device

    A device that echoes what it is sent and may have its receiver fail: the
    concrete library the witnesses run on. *)

Record loopback := { lb_open : bool; lb_sent : list Z; lb_rx : list Z; lb_broken : bool }.

#[export] Instance loopback_lib : SerialLib loopback := {|
  sl_new := {| lb_open := false; lb_sent := []; lb_rx := []; lb_broken := false |};
  sl_isOpen := lb_open;
  sl_set _ l := (Ok tt, l);
  sl_open l := (Ok tt, {| lb_open := true; lb_sent := lb_sent l; lb_rx := []; lb_broken := lb_broken l |});
  sl_close l := (Ok tt, {| lb_open := false; lb_sent := lb_sent l; lb_rx := []; lb_broken := lb_broken l |});
  sl_write d l := (Ok (length d), {| lb_open := lb_open l; lb_sent := lb_sent l ++ d;
                                     lb_rx := lb_rx l ++ d; lb_broken := lb_broken l |});
  sl_read n l :=
    if lb_broken l then (Err (other_error "read failed"), l)
    else (Ok (map (wrapu 8) (take n (lb_rx l))),
          {| lb_open := lb_open l; lb_sent := lb_sent l; lb_rx := drop n (lb_rx l);
             lb_broken := lb_broken l |});
  sl_readline n eol l := (Ok (string_of_bytes (take n (lb_rx l))), l);
  sl_available l := (Ok (length (lb_rx l)), l);
  sl_sent := lb_sent
|}.

#[export] Instance loopback_laws : SerialLibLaws loopback.
Proof.
  split; cbn; try done.
  - by intros l l' [= <-].
  - by intros l l' [= <-].
  - intros d l n l' [= <- <-]. by rewrite firstn_all.
  - intros n l bs l'. destruct (lb_broken l); [done|]. intros [= <- <-].
    rewrite length_map, length_take. split; [lia|].
    apply Forall_map, Forall_forall. intros x _. by apply inu_wrapu.
  - intros n l e l'. destruct (lb_broken l); [|done]. by intros [= <- <-].
  - intros n l. by destruct (lb_broken l).
Qed.

Definition loopback_cfg : jvalue :=
  VObj [("device", VStr "/dev/ttyUSB0"); ("baud_rate", VStr " 115200"); ("data_bits", VNum 8);
        ("stop_bits", VFloat "1.5"); ("parity", VStr "Parity_Even")].

Definition loopback_init : MySerial loopback :=
  Eval vm_compute in (Init loopback_cfg None MySerial_default).2.

Lemma loopback_init_eq err :
  Init loopback_cfg err (MySerial_default : MySerial loopback) = (true, set_err err "", loopback_init).
Proof. vm_compute. reflexivity. Qed.

Lemma Init_spec_witness : IsOpen loopback_init = true.
Proof.
  destruct (Init_spec _ _ _ _ _ _ (loopback_init_eq (Some "old"))) as (o & l & Ho & _ & _ & _ & Hopen & _).
  rewrite Hopen. vm_compute in Ho. by injection Ho as <-.
Defined.

Lemma MySerial_invariant_witness :
  serial_wf (foldl (λ s c, run_call c s) (MySerial_default : MySerial loopback)
    [call_Write [1; 2] None; call_Init loopback_cfg None; call_Write_string "ping" (Some "");
     call_SelfTestLoopback "echo" 0; call_Close; call_Init (VNum 3) None]).
Proof. apply MySerial_invariant. Defined.

(** What [ReadBytes] returns when the device fails during the read: not
    the empty vector but [size] zero bytes, with the device's message in [err]
    and in [last_error_].  A caller that passes no error string cannot tell
    them from data. *)
Theorem ReadBytes_failed_read {L} `{SerialLib L} size err (s : MySerial L) l ex l' :
  initialized_ s = true → serial_ s = Some l → sl_isOpen l = true →
  sl_read size l = (Err ex, l') →
  ReadBytes size err s =
    (replicate size 0, set_err err (exn_what ex), set_last_error (exn_what ex) (set_serial l' s)).
Proof. intros Hi Hl Ho Hr. by rewrite ReadBytes_access, Hl, Hi, Ho, Hr. Qed.

Definition broken_port : MySerial loopback := {|
  initialized_ := true; last_error_ := ""; options_ := SerialInitOptions_default;
  serial_ := Some {| lb_open := true; lb_sent := []; lb_rx := [7]; lb_broken := true |}
|}.

Lemma ReadBytes_failed_read_witness :
  (ReadBytes 3 None broken_port).1 = ([0; 0; 0], None).
Proof. by erewrite ReadBytes_failed_read by reflexivity. Defined.

(** The loopback self test succeeds over a device that echoes: when the
    write goes through whole and the read that follows returns the payload, the
    verdict is a pass; any difference, short read or error is a failure. *)
Theorem SelfTestLoopback_verdict {J} `{JsonLaws J} {L} `{SerialLibLaws L}
    payload n (s : MySerial L) r s' :
  SelfTestLoopback (J := J) payload n s = (r, s') →
  sc_success r = true ↔
  ∃ w s1 s2, Write_string payload (Some "") s = (w, Some "", s1) ∧
    Read (if (n =? 0)%nat then String.length payload else n) (Some "") s1
      = (payload, Some "", s2).
Proof.
  unfold SelfTestLoopback.
  destruct (Write_string payload (Some "") s) as [[w e] s1] eqn:Hw.
  assert (He : is_Some e).
  { unfold Write_string in Hw. rewrite access_spec in Hw.
    by repeat case_match; simplify_eq; eauto. }
  destruct He as [e' ->]. cbn [default from_option id].
  case_bool_decide as He; cbn [negb]; [subst e'|].
  2: { intros [= <- <-]. cbn. split; [done|]. intros (?&?&?&[= <- -> <-]&_). done. }
  match goal with |- context [Read ?k _ s1] =>
    destruct (Read k (Some "") s1) as [[b e2] s2] eqn:Hr end.
  assert (He : is_Some e2).
  { unfold Read in Hr. rewrite access_spec in Hr. by repeat case_match; simplify_eq; eauto. }
  destruct He as [e' ->]. cbn [default from_option id].
  case_bool_decide as He; cbn [negb]; [subst e'|].
  2: { intros [= <- <-]. cbn. split; [done|]. intros (?&?&?&[= <- <-]&Hr2).
       rewrite Hr in Hr2. by injection Hr2 as _ ->. }
  destruct (GetSnapshotJson s2) as [sj s3]. intros [= <- <-]. cbn.
  rewrite bool_decide_eq_true. split.
  - intros ->. by eauto 10.
  - intros (?&?&?&[= <- <-]&Hr2). rewrite Hr in Hr2. by injection Hr2 as ->.
Qed.

Lemma SelfTestLoopback_verdict_witness :
  sc_success (SelfTestLoopback (J := jvalue) "echo" 0
                loopback_init).1 = true.
Proof.
  match goal with |- sc_success (SelfTestLoopback ?p ?n ?s).1 = _ =>
    destruct (SelfTestLoopback (J := jvalue) p n s) as [r s'] eqn:E;
    apply (SelfTestLoopback_verdict (J := jvalue) p n s r s' E) end.
  vm_compute. by eauto.
Defined.
