(* ===== verification/GasDetectorConfig.v ===== *)
(** * The gas detector's configuration

    Model of my_gas_detector_poll: the text and JSON helpers of
    MyGasDetectorPollInternal.h, MyGasDetectorPollConfig.cpp, and
    [GasDetectorPoll::ParseConfig] in MyGasDetectorPoll.cpp. *)

From S2P Require Import Prelude Text Json MySerial.
From stdpp Require Import pretty.
From Stdlib Require Import Ascii.

Local Open Scope Z_scope.

(** ** Text *)

Definition kMaxResponseSize : nat := 260.
Definition kDefaultReadSliceTimeoutMs : Z := 50.

(** The characters of the literal [" \t\r\n"]. *)
Definition blank (c : ascii) : bool :=
  let n := Ascii.nat_of_ascii c in (n =? 32)%nat || (n =? 9)%nat || (n =? 13)%nat || (n =? 10)%nat.
Definition solid (c : ascii) : bool := negb (blank c).

Definition TrimCopy (value : string) : string :=
  match find_first solid value with
  | None => ""
  | Some begin =>
      match find_last solid value with
      | Some end_ => substr begin (end_ - begin + 1)%nat value
      | None => ""
      end
  end.

Definition LowerCopy (value : string) : string := map_string tolower value.

Definition field_exn (field_name rest : string) : exn :=
  invalid_argument ("字段 " +:+ field_name +:+ rest).

(** [std::stoull] itself throws on overflow, so that [errno] is never
    [ERANGE] after it returns. *)
Definition ParseUnsignedText (text field_name : string) : result Z :=
  let normalized := TrimCopy text in
  match normalized with
  | EmptyString => Err (field_exn field_name " 不能为空")
  | String c _ =>
      if Ascii.eqb c "-" then Err (field_exn field_name " 不能为负数") else
      parsed ← stoull normalized;
      if negb (stoull_consumed normalized =? String.length normalized)%nat
      then Err (field_exn field_name " 必须是十进制整数") else Ok parsed
  end.

(** ** JSON fields *)

Section json.
Context {J : Type} `{JsonOps J}.

Definition FindValue (object : J) (keys : list string) : option J :=
  match j_view object with
  | JObject =>
      (fix loop keys := match keys with
       | [] => None
       | key :: keys => match present object key with Some v => Some v | None => loop keys end
       end) keys
  | _ => None
  end.

(** [serial_config] is [None] when it is the same object as [config]. *)
Definition FindConfigValue (config : J) (serial_config : option J) (keys : list string) : option J :=
  match FindValue config keys with
  | Some v => Some v
  | None => match serial_config with Some sc => FindValue sc keys | None => None end
  end.

Definition JsonString (value : J) (field_name : string) (allow_number : bool) : result string :=
  match j_view value with
  | JString s => Ok s
  | JUnsigned _ | JInteger _ | JFloat =>
      if allow_number then j_dump value
      else Err (field_exn field_name " 必须是字符串")
  | _ => Err (field_exn field_name (" 必须是字符串" +:+ (if allow_number then "或数字" else "")))
  end.

Definition JsonUnsigned (value : J) (field_name : string) (default_value : Z) : result Z :=
  match j_view value with
  | JUnsigned n => Ok n
  | JInteger parsed =>
      if parsed <? 0 then Err (field_exn field_name " 不能为负数") else Ok (wrapu 64 parsed)
  | JString s => ParseUnsignedText s field_name
  | JNull => Ok default_value
  | _ => Err (field_exn field_name " 必须是非负整数")
  end.

Definition ToUint32 (value : Z) (field_name : string) : result Z :=
  if 2 ^ 32 - 1 <? value then Err (field_exn field_name " 超出 uint32 范围") else Ok (wrapu 32 value).

Definition ToUint16 (value : Z) (field_name : string) : result Z :=
  if 2 ^ 16 - 1 <? value then Err (field_exn field_name " 超出 uint16 范围") else Ok (wrapu 16 value).

Definition INT_MIN : Z := - 2 ^ 31.
Definition INT_MAX : Z := 2 ^ 31 - 1.

(** [is_number_integer] also holds of an unsigned number, which [get<int64_t>]
    converts. *)
Definition JsonInteger (value : J) (field_name : string) (default_value : Z) : result Z :=
  let signed parsed :=
    if (parsed <? INT_MIN) || (INT_MAX <? parsed)
    then Err (field_exn field_name " 超出 int 范围") else Ok parsed in
  match j_view value with
  | JInteger parsed => signed parsed
  | JUnsigned n => signed (wraps 64 n)
  | JString s =>
      parsed ← ParseUnsignedText s field_name;
      if INT_MAX <? parsed then Err (field_exn field_name " 超出 int 范围") else Ok parsed
  | JNull => Ok default_value
  | _ => Err (field_exn field_name " 必须是整数")
  end.

Definition JsonBoolean (value : J) (field_name : string) (default_value : bool) : result bool :=
  let wrong := Err (field_exn field_name " 必须是布尔值") in
  match j_view value with
  | JBoolean b => Ok b
  | JUnsigned _ | JInteger _ =>
      n ← JsonUnsigned value field_name (if default_value then 1 else 0); Ok (negb (n =? 0))
  | JString s =>
      let normalized := LowerCopy (TrimCopy s) in
      if bool_decide (normalized ∈ ["true"; "1"; "yes"; "on"]) then Ok true
      else if bool_decide (normalized ∈ ["false"; "0"; "no"; "off"]) then Ok false
      else wrong
  | _ => wrong
  end.

(** [*keys.begin()]. *)
Definition first_key (keys : list string) : string := default "" (head keys).

Definition GetStringValue (config : J) (serial_config : option J) (keys : list string)
    (default_value : string) (allow_number : bool) : result string :=
  match FindConfigValue config serial_config keys with
  | None => Ok default_value
  | Some value => JsonString value (first_key keys) allow_number
  end.

Definition GetUnsignedValue (config : J) (serial_config : option J) (keys : list string)
    (default_value : Z) : result Z :=
  match FindConfigValue config serial_config keys with
  | None => Ok default_value
  | Some value => JsonUnsigned value (first_key keys) default_value
  end.

Definition GetIntegerValue (config : J) (serial_config : option J) (keys : list string)
    (default_value : Z) : result Z :=
  match FindConfigValue config serial_config keys with
  | None => Ok default_value
  | Some value => JsonInteger value (first_key keys) default_value
  end.

Definition GetBooleanValue (config : J) (serial_config : option J) (keys : list string)
    (default_value : bool) : result bool :=
  match FindConfigValue config serial_config keys with
  | None => Ok default_value
  | Some value => JsonBoolean value (first_key keys) default_value
  end.
End json.

(** ** Addresses

    The vector being filled and the set of the addresses seen. *)

Definition seen_addresses : Type := list Z * gset Z.

Definition address_range_error : exn := invalid_argument "设备地址必须在 1～255 之间".

Definition AppendAddress (address : Z) (st : seen_addresses) : result seen_addresses :=
  let '(addresses, seen) := st in
  if (address <? 1) || (255 <? address) then Err address_range_error
  else if bool_decide (address ∈ seen) then Ok (addresses, seen)
  else Ok (addresses ++ [wrapu 8 address], {[address]} ∪ seen).

(** The body of the loop over the items of the text. *)
Definition ParseAddressItem (item : string) (st : seen_addresses) : result seen_addresses :=
  match find_char "-" 0 item with
  | None =>
      address ← ParseUnsignedText item "addresses";
      if 255 <? address then Err address_range_error else AppendAddress address st
  | Some dash =>
      match find_char "-" (dash + 1) item with
      | Some _ => Err (invalid_argument "addresses 范围格式错误")
      | None =>
          start ← ParseUnsignedText (TrimCopy (substr 0 dash item)) "addresses";
          end_ ← ParseUnsignedText (TrimCopy (substr_from (dash + 1) item)) "addresses";
          if (255 <? start) || (255 <? end_) then Err address_range_error
          else if end_ <? start then Err (invalid_argument "addresses 范围的起始地址不能大于结束地址")
          else result_fold AppendAddress (seqZ start (end_ - start + 1)) st
      end
  end.

Fixpoint ParseAddressText_loop (fuel : nat) (normalized : string) (begin : nat)
    (st : seen_addresses) : result seen_addresses :=
  match fuel with
  | O => Ok st
  | S fuel =>
      if (begin <? String.length normalized)%nat then
        let comma := find_char "," begin normalized in
        let item := TrimCopy (match comma with
                              | None => substr_from begin normalized
                              | Some comma => substr begin (comma - begin) normalized
                              end) in
        if bool_decide (item = "") then Err (invalid_argument "addresses 存在空地址项")
        else
          st ← ParseAddressItem item st;
          match comma with
          | None => Ok st
          | Some comma => ParseAddressText_loop fuel normalized (comma + 1) st
          end
      else Ok st
  end.

(** Every turn advances [begin], so the length bounds the number of turns. *)
Definition ParseAddressText (text : string) (st : seen_addresses) : result seen_addresses :=
  let normalized := TrimCopy text in
  if bool_decide (normalized = "") then Err (invalid_argument "addresses 不能为空")
  else ParseAddressText_loop (S (String.length normalized)) normalized 0 st.

Section addresses.
Context {J : Type} `{JsonOps J}.

(** An address given as a number. *)
Definition ParseAddressNumber (value : J) (st : seen_addresses) : result seen_addresses :=
  address ← JsonUnsigned value "addresses" 0;
  if 255 <? address then Err address_range_error else AppendAddress address st.

Definition ParseAddressValue (value : J) (st : seen_addresses) : result seen_addresses :=
  match j_view value with
  | JString s => ParseAddressText s st
  | _ => ParseAddressNumber value st
  end.

Definition ParseAddresses (value : J) : result (list Z) :=
  st ← match j_view value with
       | JString s => ParseAddressText s ([], ∅)
       | JArray => result_fold ParseAddressValue (j_elems value) ([], ∅)
       | _ => ParseAddressNumber value ([], ∅)
       end;
  if bool_decide (st.1 = []) then Err (invalid_argument "addresses 不能为空") else Ok st.1.
End addresses.

(** ** The configuration *)

Record GasDetectorPollConfig := {
  gc_enabled : bool;
  gc_device : string;
  gc_baud_rate : Z;
  gc_data_bits : Z;
  gc_stop_bits : Z;
  gc_parity : string;
  gc_flowcontrol : string;
  gc_addresses : list Z;
  gc_interval_ms : Z;
  gc_timeout_ms : Z;
  gc_start_register : Z;
  gc_register_count : Z;
  gc_read_slice_timeout_ms : Z;
  gc_log_raw_frame : bool;
  gc_debug_log_enabled : bool;
  gc_simulate_mode : bool
}.

Definition GasDetectorPollConfig_default : GasDetectorPollConfig := {|
  gc_enabled := true;
  gc_device := "/dev/ttyUSB0";
  gc_baud_rate := 9600;
  gc_data_bits := 8;
  gc_stop_bits := 1;
  gc_parity := "none";
  gc_flowcontrol := "none";
  gc_addresses := [1; 2; 3; 4; 5; 6];
  gc_interval_ms := 500;
  gc_timeout_ms := 400;
  gc_start_register := 0;
  gc_register_count := 10;
  gc_read_slice_timeout_ms := kDefaultReadSliceTimeoutMs;
  gc_log_raw_frame := true;
  gc_debug_log_enabled := false;
  gc_simulate_mode := false
|}.

Section config.
Context {J : Type} `{JsonOps J}.

Definition GasDetectorPollConfig_ToJson (c : GasDetectorPollConfig) : J :=
  j_object [("enabled", j_bool (gc_enabled c));
            ("device", j_string (gc_device c));
            ("baud_rate", j_number (gc_baud_rate c));
            ("data_bits", j_number (gc_data_bits c));
            ("stop_bits", j_number (gc_stop_bits c));
            ("parity", j_string (gc_parity c));
            ("flowcontrol", j_string (gc_flowcontrol c));
            ("addresses", j_array (map j_number (gc_addresses c)));
            ("interval_ms", j_number (gc_interval_ms c));
            ("timeout_ms", j_number (gc_timeout_ms c));
            ("start_register", j_number (gc_start_register c));
            ("register_count", j_number (gc_register_count c));
            ("read_slice_timeout_ms", j_number (gc_read_slice_timeout_ms c));
            ("log_raw_frame", j_bool (gc_log_raw_frame c));
            ("debug_log_enabled", j_bool (gc_debug_log_enabled c));
            ("simulate_mode", j_bool (gc_simulate_mode c))].

(** The checks at the end of [ParseConfig], and the clamping of the slice. *)
Definition check_config (p : GasDetectorPollConfig) : result GasDetectorPollConfig :=
  if gc_enabled p && bool_decide (gc_device p = "")
  then Err (invalid_argument "enabled=true 时 device/port 不能为空")
  else if gc_baud_rate p =? 0 then Err (invalid_argument "baud_rate 必须大于 0")
  else if (gc_data_bits p <? 5) || (8 <? gc_data_bits p)
  then Err (invalid_argument "data_bits 必须在 5～8 范围内")
  else if negb (gc_stop_bits p =? 1) && negb (gc_stop_bits p =? 2)
  then Err (invalid_argument "stop_bits 当前仅支持 1 或 2")
  else if gc_interval_ms p =? 0 then Err (invalid_argument "interval_ms 必须大于 0")
  else if gc_timeout_ms p =? 0 then Err (invalid_argument "timeout_ms 必须大于 0")
  else if negb (gc_register_count p =? 10)
  then Err (invalid_argument "当前气体检测仪协议固定读取 10 个寄存器，register_count 必须为 10")
  else if gc_read_slice_timeout_ms p =? 0
  then Err (invalid_argument "read_slice_timeout_ms 必须大于 0")
  else
    let slice := if gc_timeout_ms p <? gc_read_slice_timeout_ms p then gc_timeout_ms p
                 else gc_read_slice_timeout_ms p in
    if bool_decide (gc_addresses p = []) then Err (invalid_argument "至少需要配置一个设备地址")
    else Ok {|
      gc_enabled := gc_enabled p; gc_device := gc_device p; gc_baud_rate := gc_baud_rate p;
      gc_data_bits := gc_data_bits p; gc_stop_bits := gc_stop_bits p; gc_parity := gc_parity p;
      gc_flowcontrol := gc_flowcontrol p; gc_addresses := gc_addresses p;
      gc_interval_ms := gc_interval_ms p; gc_timeout_ms := gc_timeout_ms p;
      gc_start_register := gc_start_register p; gc_register_count := gc_register_count p;
      gc_read_slice_timeout_ms := slice; gc_log_raw_frame := gc_log_raw_frame p;
      gc_debug_log_enabled := gc_debug_log_enabled p; gc_simulate_mode := gc_simulate_mode p |}.

Definition ParseConfig (config : J) : result GasDetectorPollConfig :=
  match j_view config with
  | JObject =>
      let serial_config :=
        match j_find config "serial" with
        | Some v => match j_view v with JObject => Some v | _ => None end
        | None => None
        end in
      let d := GasDetectorPollConfig_default in
      let get_bool := GetBooleanValue config serial_config in
      let get_string keys def := GetStringValue config serial_config keys def false in
      let get_u32 keys def name := n ← GetUnsignedValue config serial_config keys def; ToUint32 n name in
      let get_u16 keys def name := n ← GetUnsignedValue config serial_config keys def; ToUint16 n name in
      enabled ← get_bool ["enabled"] (gc_enabled d);
      device ← get_string ["device"; "port"] (gc_device d);
      baud_rate ← get_u32 ["baud_rate"; "baudrate"] (gc_baud_rate d) "baud_rate";
      data_bits ← GetIntegerValue config serial_config ["data_bits"; "bytesize"] (gc_data_bits d);
      stop_bits ← GetIntegerValue config serial_config ["stop_bits"; "stopbits"] (gc_stop_bits d);
      parity ← get_string ["parity"] (gc_parity d);
      flowcontrol ← get_string ["flowcontrol"; "flow_control"] (gc_flowcontrol d);
      addresses ← match FindConfigValue config serial_config ["addresses"; "address"] with
                  | Some v => ParseAddresses v
                  | None => Ok (gc_addresses d)
                  end;
      interval_ms ← get_u32 ["interval_ms"; "poll_interval_ms"] (gc_interval_ms d) "interval_ms";
      timeout_ms ← get_u32 ["timeout_ms"; "response_timeout_ms"] (gc_timeout_ms d) "timeout_ms";
      start_register ← get_u16 ["start_register"] (gc_start_register d) "start_register";
      register_count ← get_u16 ["register_count"; "count"] (gc_register_count d) "register_count";
      slice ← match FindConfigValue config serial_config ["read_slice_timeout_ms"] with
              | Some v => n ← JsonUnsigned v "read_slice_timeout_ms" (gc_read_slice_timeout_ms d);
                          ToUint32 n "read_slice_timeout_ms"
              | None => Ok (Z.min timeout_ms kDefaultReadSliceTimeoutMs)
              end;
      log_raw_frame ← get_bool ["log_raw_frame"; "verbose_log"] (gc_log_raw_frame d);
      debug_log_enabled ← get_bool ["debug_log_enabled"] (gc_debug_log_enabled d);
      simulate_mode ← get_bool ["simulate_mode"] (gc_simulate_mode d);
      check_config {|
        gc_enabled := enabled; gc_device := TrimCopy device; gc_baud_rate := baud_rate;
        gc_data_bits := data_bits; gc_stop_bits := stop_bits;
        gc_parity := LowerCopy (TrimCopy parity);
        gc_flowcontrol := LowerCopy (TrimCopy flowcontrol); gc_addresses := addresses;
        gc_interval_ms := interval_ms; gc_timeout_ms := timeout_ms;
        gc_start_register := start_register; gc_register_count := register_count;
        gc_read_slice_timeout_ms := slice; gc_log_raw_frame := log_raw_frame;
        gc_debug_log_enabled := debug_log_enabled; gc_simulate_mode := simulate_mode |}
  | _ => Err (invalid_argument "气体检测仪配置必须是 JSON 对象")
  end.

(** The configuration [Init] builds for the serial port. *)
Definition port_config (p : GasDetectorPollConfig) : J :=
  j_object [("device", j_string (gc_device p));
            ("baud_rate", j_number (gc_baud_rate p));
            ("data_bits", j_number (gc_data_bits p));
            ("stop_bits", j_number (gc_stop_bits p));
            ("parity", j_string (gc_parity p));
            ("flowcontrol", j_string (gc_flowcontrol p));
            ("timeout_ms", j_number (gc_read_slice_timeout_ms p));
            ("auto_open", j_bool true)].
End config.

(** ** Trimming

    A text is tight when it starts and ends with a character that is not
    blank; [TrimCopy] takes the blanks off around a tight text. *)

Definition tight (t : string) : Prop :=
  (∃ c u, t = String c u ∧ solid c = true) ∧ (∃ u c, t = u +:+ String c "" ∧ solid c = true).

Lemma blank_not_solid s : all_chars blank s = true → all_chars (λ c, negb (solid c)) s = true.
Proof. apply all_chars_impl. intros c. unfold solid. by rewrite negb_involutive. Qed.

Lemma not_solid_blank s : all_chars (λ c, negb (solid c)) s = true → all_chars blank s = true.
Proof. apply all_chars_impl. intros c. unfold solid. by rewrite negb_involutive. Qed.

Lemma TrimCopy_pad a t b :
  all_chars blank a = true → all_chars blank b = true → tight t → TrimCopy (a +:+ t +:+ b) = t.
Proof.
  intros Ha Hb [(c & u & Ht & Hc) (w & d & Ht' & Hd)]. unfold TrimCopy.
  apply blank_not_solid in Ha, Hb.
  rewrite (find_first_app _ a) by done.
  replace (find_first solid (t +:+ b)) with (Some 0%nat)
    by (rewrite Ht, string_app_cons; cbn; by rewrite Hc).
  rewrite string_app_assoc, find_last_app_None by done.
  replace (find_last solid (a +:+ t)) with (Some (String.length (a +:+ w)))
    by (rewrite Ht', string_app_assoc; symmetry; by apply find_last_snoc).
  cbn. rewrite Nat.add_0_r, string_length_app.
  replace (_ - _ + 1)%nat with (String.length t)
    by (rewrite Ht', string_length_app; cbn; lia).
  rewrite <- string_app_assoc. apply substr_app.
Qed.

Lemma TrimCopy_tight t : tight t → TrimCopy t = t.
Proof.
  intros Ht. rewrite <- (TrimCopy_pad "" t "") at 2 by done.
  by rewrite string_app_nil, string_app_nil_r.
Qed.

(** What [TrimCopy] does to any text. *)
Lemma TrimCopy_cases s :
  (TrimCopy s = "" ∧ all_chars blank s = true) ∨
  (∃ a b, s = a +:+ TrimCopy s +:+ b ∧ all_chars blank a = true ∧ all_chars blank b = true ∧
          tight (TrimCopy s)).
Proof.
  destruct (find_first solid s) as [n|] eqn:Hf.
  2: { left. split; [unfold TrimCopy; by rewrite Hf|].
       by apply not_solid_blank, find_first_None. }
  right. apply find_first_split in Hf as (a & c & v & -> & _ & Ha & Hc).
  destruct (find_last solid (String c v)) as [m|] eqn:Hl.
  2: { apply find_last_None in Hl. cbn in Hl. by rewrite Hc in Hl. }
  apply find_last_split in Hl as (u & d & b & Hs & _ & Hd & Hb).
  assert (Ht : tight (u +:+ String d "")).
  { split; [|by eauto]. destruct u as [|c' u]; [by exists d, ""|].
    exists c', (u +:+ String d ""). rewrite string_app_cons. split; [done|].
    rewrite string_app_cons in Hs. by injection Hs as <- _. }
  exists a, b. apply not_solid_blank in Ha, Hb.
  assert (Hs' : String c v = (u +:+ String d "") +:+ b).
  { by rewrite Hs, <- string_app_assoc, string_app_cons. }
  rewrite Hs', TrimCopy_pad by done. done.
Qed.

Lemma TrimCopy_idemp s : TrimCopy (TrimCopy s) = TrimCopy s.
Proof.
  destruct (TrimCopy_cases s) as [[-> _]|(a & b & _ & _ & _ & Ht)]; [done|].
  by apply TrimCopy_tight.
Qed.

Lemma map_string_app f s t : map_string f (s +:+ t) = map_string f s +:+ map_string f t.
Proof. induction s as [|c s IH]; [done|]. rewrite !string_app_cons. cbn. by rewrite IH. Qed.

Lemma solid_tolower c : solid (tolower c) = solid c.
Proof. by destruct c as [[] [] [] [] [] [] [] []]. Qed.
Lemma tolower_idemp c : tolower (tolower c) = tolower c.
Proof. by destruct c as [[] [] [] [] [] [] [] []]. Qed.

Lemma LowerCopy_idemp s : LowerCopy (LowerCopy s) = LowerCopy s.
Proof.
  unfold LowerCopy. induction s as [|c s IH]; [done|]. cbn [map_string].
  by rewrite IH, tolower_idemp.
Qed.

Lemma tight_LowerCopy t : tight t → tight (LowerCopy t).
Proof.
  intros [(c & u & Hc & Hs) (w & d & Hd & Hs')]. unfold LowerCopy. split.
  - exists (tolower c), (map_string tolower u). by rewrite Hc, solid_tolower.
  - exists (map_string tolower w), (tolower d). by rewrite Hd, map_string_app, solid_tolower.
Qed.

(** The normal form of the parity and flow-control fields is a fixed point. *)
Lemma LowerTrim_idemp s :
  LowerCopy (TrimCopy (LowerCopy (TrimCopy s))) = LowerCopy (TrimCopy s).
Proof.
  destruct (TrimCopy_cases s) as [[-> _]|(a & b & _ & _ & _ & Ht)]; [done|].
  by rewrite (TrimCopy_tight (LowerCopy _)), LowerCopy_idemp by (by apply tight_LowerCopy).
Qed.

(** ** Numbers *)

Lemma all_tight s : all_chars solid s = true → s ≠ "" → tight s.
Proof.
  intros Hs Hn. split.
  - destruct s as [|c u]; [done|]. exists c, u. cbn in Hs. by apply andb_true_iff in Hs as [-> _].
  - destruct (find_last (λ _, true) s) as [n|] eqn:Hl.
    + apply find_last_split in Hl as (u & c & v & -> & _ & _ & Hv).
      destruct v as [|d v]; [|done]. exists u, c. split; [done|].
      rewrite all_chars_app in Hs. cbn in Hs. destruct (solid c); [done|].
      by rewrite andb_false_r in Hs.
    + apply find_last_None in Hl. by destruct s.
Qed.

Lemma digit_solid c : is_digit c = true → solid c = true.
Proof. by destruct c as [[] [] [] [] [] [] [] []]. Qed.
Lemma digit_not_dash c : is_digit c = true → negb (Ascii.eqb "-" c) = true.
Proof. by destruct c as [[] [] [] [] [] [] [] []]. Qed.
Lemma digit_not_comma c : is_digit c = true → negb (Ascii.eqb "," c) = true.
Proof. by destruct c as [[] [] [] [] [] [] [] []]. Qed.
Lemma blank_not_dash c : blank c = true → negb (Ascii.eqb "-" c) = true.
Proof. by destruct c as [[] [] [] [] [] [] [] []]. Qed.
Lemma blank_not_comma c : blank c = true → negb (Ascii.eqb "," c) = true.
Proof. by destruct c as [[] [] [] [] [] [] [] []]. Qed.

Lemma tight_pretty z : 0 <= z → tight (pretty z).
Proof.
  intros Hz. destruct (pretty_all_digits z Hz) as [Hd Hn].
  apply all_tight; [|done]. by eapply all_chars_impl; [apply digit_solid|].
Qed.

Lemma ParseUnsignedText_pretty z field : inu 64 z → ParseUnsignedText (pretty z) field = Ok z.
Proof.
  intros Hz. assert (H0 : 0 <= z) by apply Hz. unfold ParseUnsignedText.
  rewrite TrimCopy_tight by (by apply tight_pretty).
  destruct (stoull_pretty z Hz) as [Hs Hc]. destruct (pretty_all_digits z H0) as [Hd Hn].
  destruct (pretty z) as [|c s] eqn:E; [done|]. cbn in Hd. apply andb_true_iff in Hd as [Hd _].
  apply digit_not_dash in Hd. rewrite Ascii.eqb_sym in Hd. destruct (Ascii.eqb c "-"); [done|].
  rewrite Hs, Hc. cbn [mbind result_bind]. by rewrite Nat.eqb_refl.
Qed.

Lemma ParseUnsignedText_trim s field : ParseUnsignedText (TrimCopy s) field = ParseUnsignedText s field.
Proof. unfold ParseUnsignedText. by rewrite TrimCopy_idemp. Qed.

Lemma ParseUnsignedText_range s field z : ParseUnsignedText s field = Ok z → inu 64 z.
Proof.
  unfold ParseUnsignedText. destruct (TrimCopy s) as [|c t]; [done|].
  destruct (Ascii.eqb c "-"); [done|]. intros (v & Hv & E)%bind_Ok.
  apply stoull_range in Hv. case_match; by simplify_eq.
Qed.

(** ** The list of addresses

    [distinct] is the reference for the vector with its set: the first
    occurrence of every address, in order. *)

Definition keep_new (acc : list Z) (a : Z) : list Z :=
  if bool_decide (a ∈ acc) then acc else acc ++ [a].
Definition distinct (l : list Z) : list Z := foldl keep_new [] l.

Definition is_address (a : Z) : Prop := 1 <= a <= 255.
#[export] Instance is_address_dec a : Decision (is_address a).
Proof. unfold is_address. apply _. Defined.

(** The set is the set of the vector's elements, which are distinct
    addresses. *)
Definition addresses_ok (st : seen_addresses) : Prop :=
  st.2 = list_to_set st.1 ∧ NoDup st.1 ∧ Forall is_address st.1.

Lemma addresses_ok_nil : addresses_ok ([], ∅).
Proof. split_and!; [done|constructor|constructor]. Qed.

Lemma AppendAddress_spec a st :
  addresses_ok st →
  AppendAddress a st =
    if decide (is_address a) then Ok (keep_new st.1 a, list_to_set (keep_new st.1 a))
    else Err address_range_error.
Proof.
  destruct st as [l s]. intros (Hs & Hn & Hf). cbn [fst snd] in *. subst s. unfold AppendAddress, is_address.
  case_decide as Ha.
  2: { destruct (a <? 1) eqn:E1; [done|]. destruct (255 <? a) eqn:E2; [done|]. lia. }
  rewrite (proj2 (Z.ltb_ge _ _)), (proj2 (Z.ltb_ge 255 a)) by lia. cbn [orb].
  unfold keep_new. rewrite (bool_decide_ext _ (a ∈ l)) by apply elem_of_list_to_set.
  case_bool_decide; [done|]. rewrite wrapu_id by width_lia. do 2 f_equal.
  apply leibniz_equiv. set_solver.
Qed.

Lemma keep_new_ok a l :
  is_address a → NoDup l → Forall is_address l → addresses_ok (keep_new l a, list_to_set (keep_new l a)).
Proof.
  intros Ha Hn Hf. unfold keep_new. case_bool_decide as Hin; [done|].
  split_and!; cbn; [done| |].
  - apply NoDup_app. split_and!; [done| |by apply NoDup_singleton].
    intros x Hx ->%list_elem_of_singleton. done.
  - apply Forall_app. by split; [|apply Forall_singleton].
Qed.

Lemma AppendAddress_ok a st st' : addresses_ok st → AppendAddress a st = Ok st' → addresses_ok st'.
Proof.
  intros Hst. rewrite (AppendAddress_spec _ _ Hst). case_decide; [|done]. intros [= <-].
  destruct Hst as (_ & ? & ?). by apply keep_new_ok.
Qed.

Lemma fold_AppendAddress l st :
  Forall is_address l → addresses_ok st →
  result_fold AppendAddress l st = Ok (foldl keep_new st.1 l, list_to_set (foldl keep_new st.1 l)).
Proof.
  intros Hl. revert st. induction Hl as [|a l Ha Hl IH]; intros st Hst.
  - destruct st as [v s], Hst as [Hs _]. cbn in *. by rewrite Hs.
  - cbn [result_fold foldl]. rewrite (AppendAddress_spec _ _ Hst). rewrite decide_True by done.
    destruct Hst as (_ & Hn & Hf). change (mbind ?f (Ok ?x)) with (f x). cbn beta.
    rewrite IH by (by apply keep_new_ok). done.
Qed.

Lemma ParseAddressItem_ok item st st' :
  addresses_ok st → ParseAddressItem item st = Ok st' → addresses_ok st'.
Proof.
  intros Hst. unfold ParseAddressItem. destruct (find_char "-" 0 item) as [dash|].
  - destruct (find_char _ _ _); [done|]. intros (a & _ & (b & _ & E)%bind_Ok)%bind_Ok.
    destruct (_ || _); [done|]. destruct (b <? a); [done|]. revert E.
    by apply (result_fold_invariant addresses_ok); [intros; eapply AppendAddress_ok|].
  - intros (a & _ & E)%bind_Ok. destruct (255 <? a); [done|]. by eapply AppendAddress_ok.
Qed.

Lemma ParseAddressText_loop_ok fuel s begin st st' :
  addresses_ok st → ParseAddressText_loop fuel s begin st = Ok st' → addresses_ok st'.
Proof.
  revert begin st. induction fuel as [|fuel IH]; intros begin st Hst; [by intros [= <-]|].
  cbn [ParseAddressText_loop]. destruct (begin <? _)%nat; [|by intros [= <-]].
  case_bool_decide; [done|]. intros (st1 & H1 & E)%bind_Ok.
  apply ParseAddressItem_ok in H1; [|done].
  destruct (find_char _ _ _); [by eapply IH|by injection E as <-].
Qed.

Lemma ParseAddressText_ok s st st' :
  addresses_ok st → ParseAddressText s st = Ok st' → addresses_ok st'.
Proof. unfold ParseAddressText. case_bool_decide; [done|]. apply ParseAddressText_loop_ok. Qed.

Section addresses_facts.
Context {J : Type} `{JsonLaws J}.

Lemma ParseAddressNumber_ok (v : J) st st' :
  addresses_ok st → ParseAddressNumber v st = Ok st' → addresses_ok st'.
Proof.
  intros Hst (a & _ & E)%bind_Ok. destruct (255 <? a); [done|]. by eapply AppendAddress_ok.
Qed.

Lemma ParseAddressValue_ok (v : J) st st' :
  addresses_ok st → ParseAddressValue v st = Ok st' → addresses_ok st'.
Proof.
  intros Hst. unfold ParseAddressValue.
  destruct (j_view v); by apply ParseAddressNumber_ok || apply ParseAddressText_ok.
Qed.

Lemma ParseAddresses_ok (v : J) l :
  ParseAddresses v = Ok l → l ≠ [] ∧ NoDup l ∧ Forall is_address l.
Proof.
  intros (st & Hst & E)%bind_Ok.
  assert (Hok : addresses_ok st).
  { destruct (j_view v); revert Hst; try (by apply ParseAddressNumber_ok, addresses_ok_nil).
    - by apply ParseAddressText_ok, addresses_ok_nil.
    - apply (result_fold_invariant addresses_ok); [|apply addresses_ok_nil].
      intros. by eapply ParseAddressValue_ok. }
  case_bool_decide; [done|]. injection E as <-. destruct Hok as (_ & ? & ?). done.
Qed.
End addresses_facts.

(** ** Address texts

    The syntax the address field is written in: single addresses and ranges,
    with any blanks around the numbers, separated by commas. *)

Inductive address_item :=
| OneAddress (a : Z)
| AddressRange (a : Z) (s1 s2 : string) (b : Z).

Definition item_text (x : address_item) : string :=
  match x with
  | OneAddress a => pretty a
  | AddressRange a s1 s2 b => (pretty a +:+ s1) +:+ String "-" (s2 +:+ pretty b)
  end.

Definition item_addresses (x : address_item) : list Z :=
  match x with
  | OneAddress a => [a]
  | AddressRange a _ _ b => seqZ a (b - a + 1)
  end.

Definition item_ok (x : address_item) : Prop :=
  match x with
  | OneAddress a => is_address a
  | AddressRange a s1 s2 b =>
      is_address a ∧ is_address b ∧ a <= b ∧ all_chars blank s1 = true ∧ all_chars blank s2 = true
  end.

(** An item between two runs of blanks. *)
Definition padded : Type := string * address_item * string.
Definition padded_text (p : padded) : string := p.1.1 +:+ item_text p.1.2 +:+ p.2.
Definition padded_ok (p : padded) : Prop :=
  all_chars blank p.1.1 = true ∧ item_ok p.1.2 ∧ all_chars blank p.2 = true.

Fixpoint addresses_text (l : list padded) : string :=
  match l with
  | [] => ""
  | [p] => padded_text p
  | p :: l => padded_text p +:+ String "," (addresses_text l)
  end.

Definition listed_addresses (l : list padded) : list Z := l ≫= λ p, item_addresses p.1.2.

Lemma item_addresses_ok x : item_ok x → Forall is_address (item_addresses x).
Proof.
  destruct x as [a|a s1 s2 b]; cbn.
  - intros. by apply Forall_singleton.
  - intros (Ha & Hb & _). apply Forall_seqZ. unfold is_address in *. lia.
Qed.

Lemma item_tight x : item_ok x → tight (item_text x).
Proof.
  destruct x as [a|a s1 s2 b]; cbn.
  - intros Ha. apply tight_pretty. unfold is_address in Ha. lia.
  - intros (Ha & Hb & _). unfold is_address in *. split.
    + destruct (tight_pretty a) as [(c & u & -> & Hc) _]; [lia|]. rewrite !string_app_cons. by eauto.
    + destruct (tight_pretty b) as [_ (u & c & -> & Hc)]; [lia|].
      exists ((pretty a +:+ s1) +:+ String "-" (s2 +:+ u)), c. split; [|done].
      rewrite <- (string_app_assoc (pretty a +:+ s1)), string_app_cons.
      by rewrite <- (string_app_assoc s2).
Qed.

Lemma item_no_comma x : item_ok x → all_chars (λ d, negb (Ascii.eqb "," d)) (item_text x) = true.
Proof.
  assert (Hp : ∀ z, is_address z → all_chars (λ d, negb (Ascii.eqb "," d)) (pretty z) = true).
  { intros z Hz. eapply all_chars_impl; [apply digit_not_comma|].
    apply pretty_all_digits. unfold is_address in Hz. lia. }
  destruct x as [a|a s1 s2 b]; cbn; [apply Hp|].
  intros (Ha & Hb & _ & H1 & H2). rewrite !all_chars_app. cbn [all_chars]. rewrite all_chars_app.
  rewrite !Hp by done. by rewrite !(all_chars_impl blank _ _ blank_not_comma) by done.
Qed.

Lemma ParseAddressItem_text x st :
  item_ok x → addresses_ok st →
  ParseAddressItem (item_text x) st = result_fold AppendAddress (item_addresses x) st.
Proof.
  assert (Hp : ∀ z, is_address z → ParseUnsignedText (pretty z) "addresses" = Ok z).
  { intros z Hz. apply ParseUnsignedText_pretty. unfold is_address in Hz. width_lia. }
  assert (Hd : ∀ z, is_address z → all_chars (λ d, negb (Ascii.eqb "-" d)) (pretty z) = true).
  { intros z Hz. eapply all_chars_impl; [apply digit_not_dash|].
    apply pretty_all_digits. unfold is_address in Hz. lia. }
  assert (Ht : ∀ z, is_address z → tight (pretty z)).
  { intros z Hz. apply tight_pretty. unfold is_address in Hz. lia. }
  destruct x as [a|a s1 s2 b]; cbn [item_text item_addresses item_ok]; unfold ParseAddressItem.
  - intros Ha Hst. rewrite find_char_None_0 by auto. rewrite Hp by done.
    cbn [mbind result_bind result_fold]. unfold is_address in Ha.
    rewrite (proj2 (Z.ltb_ge _ _)) by lia. by destruct (AppendAddress a st).
  - intros (Ha & Hb & Hab & H1 & H2) Hst.
    pose proof (λ s, all_chars_impl blank _ s blank_not_dash) as Hnd.
    rewrite find_char_at_0
      by (by rewrite all_chars_app, Hd, Hnd).
    change (String "-" (s2 +:+ pretty b)) with ("-" +:+ (s2 +:+ pretty b)).
    rewrite string_app_assoc.
    replace (String.length (pretty a +:+ s1) + 1)%nat
      with (String.length ((pretty a +:+ s1) +:+ "-")) by (rewrite (string_length_app _ "-"); done).
    rewrite find_char_None, substr_from_app by (by rewrite all_chars_app, Hd, Hnd).
    rewrite <- (string_app_assoc (pretty a +:+ s1)).
    rewrite substr_app_0.
    pose proof (TrimCopy_pad "" (pretty a) s1 eq_refl H1 (Ht a Ha)) as Ha'.
    rewrite string_app_nil in Ha'. rewrite Ha', Hp by done. cbn [mbind result_bind].
    pose proof (TrimCopy_pad s2 (pretty b) "" H2 eq_refl (Ht b Hb)) as Hb'.
    rewrite string_app_nil_r in Hb'. rewrite Hb', Hp by done.
    cbn [mbind result_bind]. unfold is_address in *.
    by rewrite (proj2 (Z.ltb_ge 255 a)), (proj2 (Z.ltb_ge 255 b)), (proj2 (Z.ltb_ge b a)) by lia.
Qed.

Lemma padded_trim p : padded_ok p → TrimCopy (padded_text p) = item_text p.1.2.
Proof. intros (Ha & Hx & Hb). apply TrimCopy_pad; [done..|]. by apply item_tight. Qed.

Lemma tight_nonempty t : tight t → t ≠ "".
Proof. by intros [(c & u & -> & _) _]. Qed.

Lemma padded_no_comma p :
  padded_ok p → all_chars (λ d, negb (Ascii.eqb "," d)) (padded_text p) = true.
Proof.
  intros (Ha & Hx & Hb). unfold padded_text. rewrite !all_chars_app, item_no_comma by done.
  by rewrite !(all_chars_impl blank _ _ blank_not_comma) by done.
Qed.

Lemma length_padded p : padded_ok p → (1 <= String.length (padded_text p))%nat.
Proof.
  intros (_ & Hx & _). apply item_tight, tight_nonempty in Hx. unfold padded_text.
  rewrite !string_length_app. destruct (item_text p.1.2); [done|]. cbn. lia.
Qed.

Lemma length_addresses_text l :
  Forall padded_ok l → (length l <= String.length (addresses_text l))%nat.
Proof.
  induction 1 as [|p l Hp Hl IH]; [done|]. apply length_padded in Hp.
  destruct l as [|q l]; [cbn; lia|].
  change (addresses_text (p :: q :: l)) with (padded_text p +:+ String "," (addresses_text (q :: l))).
  rewrite string_length_app. cbn [String.length length] in IH |- *. lia.
Qed.

(** The loop, started after [u], reads the items that follow. *)
Lemma loop_items fuel l u st :
  Forall padded_ok l → addresses_ok st → l ≠ [] → (length l <= fuel)%nat →
  ParseAddressText_loop fuel (u +:+ addresses_text l) (String.length u) st =
    result_fold AppendAddress (listed_addresses l) st.
Proof.
  intros Hl. revert fuel u st. induction Hl as [|p l Hp Hl IH]; intros fuel u st Hst Hn Hf; [done|].
  destruct fuel as [|fuel]; [cbn in Hf; lia|]. cbn [ParseAddressText_loop].
  pose proof (length_padded p Hp) as Hlen.
  assert (Hne : bool_decide (item_text p.1.2 = "") = false).
  { apply bool_decide_eq_false_2, tight_nonempty, item_tight. by destruct Hp as (_ & ? & _). }
  assert (Hit : ParseAddressItem (item_text p.1.2) st = result_fold AppendAddress (item_addresses p.1.2) st)
    by (apply ParseAddressItem_text; [by destruct Hp as (_ & ? & _)|done]).
  pose proof (item_addresses_ok p.1.2 ltac:(by destruct Hp as (_ & ? & _))) as Hadr.
  destruct l as [|q l].
  - cbn [addresses_text listed_addresses mbind list_bind]. rewrite app_nil_r.
    rewrite (proj2 (Nat.ltb_lt _ _)) by (rewrite string_length_app; lia).
    rewrite find_char_None by (by apply padded_no_comma).
    rewrite substr_from_app, padded_trim, Hne, Hit by done.
    by rewrite fold_AppendAddress.
  - change (addresses_text (p :: q :: l)) with (padded_text p +:+ String "," (addresses_text (q :: l))).
    rewrite (proj2 (Nat.ltb_lt _ _)) by (rewrite !string_length_app; lia).
    rewrite find_char_at by (by apply padded_no_comma).
    replace (_ + _ - _)%nat with (String.length (padded_text p)) by lia.
    rewrite substr_app, padded_trim, Hne, Hit by done.
    change (listed_addresses (p :: q :: l)) with (item_addresses p.1.2 ++ listed_addresses (q :: l)).
    rewrite result_fold_app. rewrite fold_AppendAddress by done.
    change (mbind ?f (Ok ?x)) with (f x). cbn beta.
    change (String "," ?t) with ("," +:+ t). rewrite (string_app_assoc _ ","), (string_app_assoc u).
    replace (_ + _ + 1)%nat with (String.length (u +:+ padded_text p +:+ ","))
      by (rewrite !string_length_app; cbn; lia).
    apply IH; [|done|cbn in Hf |- *; lia].
    pose proof (fold_AppendAddress _ _ Hadr Hst) as Hfo.
    eapply (result_fold_invariant addresses_ok); [|exact Hst|exact Hfo].
    intros. by eapply AppendAddress_ok.
Qed.

(** Trimming the whole text only takes the blanks before the first item and
    after the last one. *)
Lemma strip_first l :
  Forall padded_ok l → l ≠ [] →
  ∃ a l', addresses_text l = a +:+ addresses_text l' ∧ all_chars blank a = true ∧
    Forall padded_ok l' ∧ l' ≠ [] ∧ listed_addresses l' = listed_addresses l ∧
    ∃ c u, addresses_text l' = String c u ∧ solid c = true.
Proof.
  intros Hl Hn. destruct Hl as [|[[a x] b] l (Ha & Hx & Hb) Hl]; [done|]. cbn [fst snd] in *.
  exists a, ((("", x), b) :: l).
  destruct (item_tight x Hx) as [(c & u & Hc & Hs) _].
  split_and!; [|done| |done|done|].
  - destruct l; unfold addresses_text, padded_text; fold addresses_text; cbn [fst snd];
      by rewrite string_app_nil, <- ?string_app_assoc.
  - by constructor.
  - destruct l; unfold addresses_text, padded_text; fold addresses_text; cbn [fst snd];
      rewrite string_app_nil, Hc, !string_app_cons; by eauto.
Qed.

Lemma strip_last l :
  Forall padded_ok l → l ≠ [] →
  ∃ l' b, addresses_text l = addresses_text l' +:+ b ∧ all_chars blank b = true ∧
    Forall padded_ok l' ∧ l' ≠ [] ∧ listed_addresses l' = listed_addresses l ∧
    ∃ u c, addresses_text l' = u +:+ String c "" ∧ solid c = true.
Proof.
  induction 1 as [|p l Hp Hl IH]; [done|]. intros _. destruct l as [|q l].
  - destruct p as [[a x] b], Hp as (Ha & Hx & Hb). cbn [fst snd] in *.
    destruct (item_tight x Hx) as [_ (u & c & Hc & Hs)].
    exists [((a, x), "")], b. split_and!; [|done|by repeat constructor|done|done|].
    + cbn. unfold padded_text. cbn [fst snd]. by rewrite string_app_nil_r, string_app_assoc.
    + exists (a +:+ u), c. split; [|done]. cbn. unfold padded_text. cbn [fst snd].
      by rewrite string_app_nil_r, Hc, string_app_assoc.
  - destruct IH as (l' & b & Ht & Hb & Hl' & Hn & Hlist & u & c & Hu & Hc); [done|].
    destruct l' as [|q' l']; [done|]. exists (p :: q' :: l'), b.
    change (addresses_text (p :: ?q :: ?l)) with (padded_text p +:+ String "," (addresses_text (q :: l))).
    split_and!; [|done|by constructor|done| |].
    + by rewrite Ht, <- string_app_assoc, string_app_cons.
    + change (listed_addresses (p :: ?l)) with (item_addresses p.1.2 ++ listed_addresses l).
      by rewrite Hlist.
    + exists (padded_text p +:+ String "," u), c. split; [|done].
      by rewrite Hu, <- string_app_assoc, string_app_cons.
Qed.

Lemma ends_suffix a t u c :
  t ≠ "" → a +:+ t = u +:+ String c "" → ∃ u', t = u' +:+ String c "".
Proof.
  intros Ht. revert u. induction a as [|d a IH]; intros u Hu; [by exists u|].
  destruct u as [|e u].
  - rewrite string_app_cons, string_app_nil in Hu. injection Hu as _ Hu.
    destruct a; [|done]. by rewrite string_app_nil in Hu.
  - rewrite !string_app_cons in Hu. injection Hu as _ Hu. by apply (IH u).
Qed.

Lemma TrimCopy_addresses l :
  Forall padded_ok l → l ≠ [] →
  ∃ l', TrimCopy (addresses_text l) = addresses_text l' ∧ Forall padded_ok l' ∧ l' ≠ [] ∧
    listed_addresses l' = listed_addresses l ∧ tight (addresses_text l').
Proof.
  intros Hl Hn.
  destruct (strip_last l Hl Hn) as (l1 & b & Ht & Hb & Hl1 & Hn1 & Hlist & u & c & Hu & Hc).
  destruct (strip_first l1 Hl1 Hn1) as (a & l2 & Ht2 & Ha & Hl2 & Hn2 & Hlist2 & d & v & Hd & Hs).
  exists l2. assert (Htight : tight (addresses_text l2)).
  { split; [by eauto|]. destruct (ends_suffix a (addresses_text l2) u c) as [u' ->]; [|by rewrite <- Ht2|by eauto].
    by rewrite Hd. }
  split_and!; [|done|done|by rewrite Hlist2|done].
  by rewrite Ht, Ht2, <- string_app_assoc, TrimCopy_pad.
Qed.

Lemma ParseAddressText_items l st :
  Forall padded_ok l → l ≠ [] → addresses_ok st →
  ParseAddressText (addresses_text l) st =
    Ok (foldl keep_new st.1 (listed_addresses l), list_to_set (foldl keep_new st.1 (listed_addresses l))).
Proof.
  intros Hl Hn Hst. unfold ParseAddressText.
  destruct (TrimCopy_addresses l Hl Hn) as (l' & -> & Hl' & Hn' & <- & Ht).
  rewrite bool_decide_eq_false_2 by (by apply tight_nonempty).
  pose proof (length_addresses_text l' Hl') as Hlen.
  pose proof (loop_items (S (String.length (addresses_text l'))) l' "" st Hl' Hst Hn') as Hloop.
  rewrite string_app_nil in Hloop. cbn [String.length] in Hloop. rewrite Hloop by lia.
  apply fold_AppendAddress; [|done]. unfold listed_addresses. apply Forall_bind.
  eapply Forall_impl; [exact Hl'|]. intros p (_ & Hx & _). by apply item_addresses_ok.
Qed.

Lemma listed_nonempty l : Forall padded_ok l → l ≠ [] → listed_addresses l ≠ [].
Proof.
  intros Hl. destruct Hl as [|p l (_ & Hx & _) Hl]; [done|]. intros _.
  change (listed_addresses (p :: l)) with (item_addresses p.1.2 ++ listed_addresses l).
  destruct p as [[a x] b]. destruct x as [z|z s1 s2 w]; [done|]. cbn [fst snd item_addresses].
  cbn in Hx. rewrite seqZ_cons by lia. done.
Qed.

Lemma foldl_keep_new_nonempty l acc : acc ≠ [] ∨ l ≠ [] → foldl keep_new acc l ≠ [].
Proof.
  revert acc. induction l as [|a l IH]; intros acc; [naive_solver|]. intros _. cbn.
  apply IH. left. unfold keep_new. case_bool_decide as E; [by intros ->; set_solver|].
  by destruct acc.
Qed.

Section address_texts.
Context {J : Type} `{JsonLaws J}.

(** An address text lists addresses and ranges separated by commas, with
    any blanks around the numbers; parsing it gives the addresses it lists, each
    once, in the order of their first occurrence. *)
Theorem ParseAddresses_text (l : list padded) :
  Forall padded_ok l → l ≠ [] →
  ParseAddresses (j_string (addresses_text l) : J) = Ok (distinct (listed_addresses l)).
Proof.
  intros Hl Hn. unfold ParseAddresses. rewrite j_view_string, ParseAddressText_items
    by (done || apply addresses_ok_nil). cbn [mbind result_bind fst].
  rewrite bool_decide_eq_false_2; [done|].
  apply foldl_keep_new_nonempty. right. by apply listed_nonempty.
Qed.

Lemma keep_new_NoDup acc l : NoDup (acc ++ l) → foldl keep_new acc l = acc ++ l.
Proof.
  revert acc. induction l as [|a l IH]; intros acc Hn; cbn; [by rewrite app_nil_r|].
  unfold keep_new at 2. rewrite bool_decide_eq_false_2.
  - rewrite IH; by rewrite <- app_assoc.
  - apply NoDup_app in Hn as (_ & Hn & _). intros Hin. apply (Hn a Hin). by left.
Qed.

(** The list form of the field, as [ToJson] writes it. *)
Lemma ParseAddresses_list (l : list Z) :
  Forall is_address l → NoDup l → l ≠ [] → ParseAddresses (j_array (map j_number l) : J) = Ok l.
Proof.
  intros Hl Hd Hn. unfold ParseAddresses. rewrite j_view_array, j_elems_array.
  assert (Hf : ∀ st, addresses_ok st →
    result_fold ParseAddressValue (map j_number l : list J) st = result_fold AppendAddress l st).
  { clear Hd Hn. induction Hl as [|a l Ha Hl IH]; intros st Hst; [done|]. cbn [map result_fold].
    unfold is_address in Ha.
    assert (Hv : ParseAddressValue (j_number a : J) st = AppendAddress a st).
    { unfold ParseAddressValue, ParseAddressNumber, JsonUnsigned.
      destruct (j_view_number a) as [-> | ->]; [width_lia|..];
        rewrite ?(proj2 (Z.ltb_ge a 0)) by lia; cbn [mbind result_bind];
        rewrite ?wrapu_id by width_lia; by rewrite (proj2 (Z.ltb_ge _ _)) by lia. }
    rewrite Hv. destruct (AppendAddress a st) as [st'|] eqn:E; [|done].
    cbn [mbind result_bind]. apply IH. by eapply AppendAddress_ok. }
  rewrite Hf, fold_AppendAddress by (done || apply addresses_ok_nil).
  cbn [mbind result_bind fst]. rewrite keep_new_NoDup by done. by rewrite bool_decide_eq_false_2.
Qed.
End address_texts.

Definition demo_items : list padded :=
  [(("  ", OneAddress 3), " "); (("", AddressRange 1 " " "  " 5), ""); ((" ", OneAddress 200), "  ")].

Lemma ParseAddresses_text_witness :
  addresses_text demo_items = "  3 ,1 -  5, 200  " ∧
  ParseAddresses (VStr "  3 ,1 -  5, 200  ") = Ok [3; 1; 2; 4; 5; 200].
Proof.
  split; [reflexivity|]. change (VStr "  3 ,1 -  5, 200  ") with (j_string (addresses_text demo_items) : jvalue).
  rewrite ParseAddresses_text; [reflexivity| |done].
  repeat constructor; vm_compute; done.
Defined.

(** ** Well-formed configurations *)

Record config_ok (p : GasDetectorPollConfig) : Prop := {
  ok_device : gc_enabled p = true → gc_device p ≠ "";
  ok_device_trim : TrimCopy (gc_device p) = gc_device p;
  ok_baud_rate : inu 32 (gc_baud_rate p) ∧ gc_baud_rate p ≠ 0;
  ok_data_bits : 5 <= gc_data_bits p <= 8;
  ok_stop_bits : gc_stop_bits p = 1 ∨ gc_stop_bits p = 2;
  ok_parity : LowerCopy (TrimCopy (gc_parity p)) = gc_parity p;
  ok_flowcontrol : LowerCopy (TrimCopy (gc_flowcontrol p)) = gc_flowcontrol p;
  ok_addresses : gc_addresses p ≠ [] ∧ NoDup (gc_addresses p) ∧ Forall is_address (gc_addresses p);
  ok_interval : inu 32 (gc_interval_ms p) ∧ gc_interval_ms p ≠ 0;
  ok_timeout : inu 32 (gc_timeout_ms p);
  ok_start_register : inu 16 (gc_start_register p);
  ok_register_count : gc_register_count p = 10;
  ok_slice : 0 < gc_read_slice_timeout_ms p <= gc_timeout_ms p
}.

Section config_facts.
Context {J : Type} `{JsonLaws J}.

Lemma ToUint32_range n f v : 0 <= n → ToUint32 n f = Ok v → inu 32 v ∧ v = n.
Proof.
  unfold ToUint32. intros Hn. case_match; intros [= <-].
  split; [by apply inu_wrapu|apply wrapu_id; width_lia].
Qed.

Lemma ToUint16_range n f v : 0 <= n → ToUint16 n f = Ok v → inu 16 v ∧ v = n.
Proof.
  unfold ToUint16. intros Hn. case_match; intros [= <-].
  split; [by apply inu_wrapu|apply wrapu_id; width_lia].
Qed.

Lemma JsonUnsigned_nonneg (v : J) f d n : 0 <= d → JsonUnsigned v f d = Ok n → 0 <= n.
Proof.
  intros Hd. unfold JsonUnsigned. destruct (j_view v) eqn:Hv; try done.
  - by intros [= <-].
  - intros [= <-]. by eapply j_view_unsigned.
  - case_match; intros [= <-]. by apply inu_wrapu.
  - intros Ht%ParseUnsignedText_range. apply Ht.
Qed.

Lemma GetUnsignedValue_nonneg (c : J) sc keys d n :
  0 <= d → GetUnsignedValue c sc keys d = Ok n → 0 <= n.
Proof.
  intros Hd. unfold GetUnsignedValue. destruct (FindConfigValue c sc keys); [|by intros [= <-]].
  by apply JsonUnsigned_nonneg.
Qed.

Lemma check_config_ok p q :
  inu 32 (gc_baud_rate p) → inu 32 (gc_interval_ms p) → inu 32 (gc_timeout_ms p) →
  inu 32 (gc_read_slice_timeout_ms p) → inu 16 (gc_start_register p) →
  TrimCopy (gc_device p) = gc_device p →
  LowerCopy (TrimCopy (gc_parity p)) = gc_parity p →
  LowerCopy (TrimCopy (gc_flowcontrol p)) = gc_flowcontrol p →
  (gc_addresses p ≠ [] → NoDup (gc_addresses p) ∧ Forall is_address (gc_addresses p)) →
  check_config p = Ok q → config_ok q.
Proof.
  intros Hb Hi Ht Hs Hr Hd Hp Hf Ha. unfold check_config.
  destruct (gc_enabled p && bool_decide (gc_device p = "")) eqn:Hen; [done|].
  repeat match goal with |- (if ?b then _ else _) = _ → _ => destruct b eqn:?; [done|] end.
  case_bool_decide as Had; [done|]. intros [= <-].
  split; cbn; try done; try lia.
  - intros He. rewrite He in Hen. by apply bool_decide_eq_false in Hen.
  - split; [done|lia].
  - split; [done|by apply Ha].
  - split; [done|lia].
  - case_match; unfold_width; lia.
Qed.

Lemma ParseConfig_wf (c : J) p : ParseConfig c = Ok p → config_ok p.
Proof.
  unfold ParseConfig. destruct (j_view c); try done. cbv zeta.
  match goal with |- context [GetBooleanValue c ?x] => generalize x; intros sc end. intros Hp.
  repeat match type of Hp with
  | _ ≫= _ = Ok _ => apply bind_Ok in Hp; destruct Hp as (? & ? & Hp)
  end.
  repeat match goal with
  | E : (_ ← GetUnsignedValue _ _ _ _; _) = Ok _ |- _ =>
      apply bind_Ok in E; destruct E as (? & ?%GetUnsignedValue_nonneg & E); [|cbn; lia];
      first [apply ToUint32_range in E | apply ToUint16_range in E]; [|done]
  end.
  revert Hp. apply check_config_ok; cbn; try tauto.
  - match goal with E : match FindConfigValue _ _ ["read_slice_timeout_ms"] with _ => _ end = Ok _ |- _ =>
      revert E end.
    destruct (FindConfigValue c sc ["read_slice_timeout_ms"]) as [v|].
    + intros (n & Hn%JsonUnsigned_nonneg & E)%bind_Ok; [|cbn; unfold kDefaultReadSliceTimeoutMs; lia].
      by apply ToUint32_range in E as [? _].
    + intros [= <-]. unfold kDefaultReadSliceTimeoutMs. width_lia.
  - by apply TrimCopy_idemp.
  - apply LowerTrim_idemp.
  - apply LowerTrim_idemp.
  - intros _.
    match goal with E : match FindConfigValue _ _ ["addresses"; "address"] with _ => _ end = Ok _ |- _ =>
      revert E end.
    destruct (FindConfigValue c sc ["addresses"; "address"]) as [v|].
    + intros (_ & ? & ?)%ParseAddresses_ok. done.
    + intros [= <-]. split; [apply (bool_decide_unpack _); by vm_compute|].
      by repeat (apply Forall_cons_2; [unfold is_address; lia|]).
Qed.
End config_facts.

(** ** Reading back what [ToJson] and [Init] write *)

Section readback.
Context {J : Type} `{JsonLaws J}.

Lemma FindValue_object (l : list (string * J)) keys :
  FindValue (j_object l) keys = foldr (λ key rest, match present (j_object l) key with Some v => Some v | None => rest end) None keys.
Proof. unfold FindValue. rewrite j_view_object. by induction keys as [|k keys IH]; [|cbn; rewrite IH]. Qed.

(** The first key of a request is a member of the object. *)
Lemma FindConfigValue_object (l : list (string * J)) key keys v :
  assoc_find key l = Some v → j_is_null v = false →
  FindConfigValue (j_object l) None (key :: keys) = Some v.
Proof.
  intros Hf Hn. unfold FindConfigValue. rewrite FindValue_object. cbn [foldr].
  by rewrite present_object, Hf; cbn; rewrite Hn.
Qed.

Lemma JsonUnsigned_number n f d : inu 64 n → JsonUnsigned (j_number n : J) f d = Ok n.
Proof.
  intros Hn. unfold JsonUnsigned. destruct (j_view_number n Hn) as [-> | ->]; [done|].
  rewrite (proj2 (Z.ltb_ge _ _)) by apply Hn. by rewrite wrapu_id.
Qed.

Lemma GetUnsignedValue_object l key keys n d :
  assoc_find key l = Some (j_number n) → inu 64 n →
  GetUnsignedValue (j_object l : J) None (key :: keys) d = Ok n.
Proof.
  intros Hf Hn. unfold GetUnsignedValue.
  rewrite (FindConfigValue_object _ _ _ _ Hf) by (by apply j_is_null_number).
  by apply JsonUnsigned_number.
Qed.

Lemma GetIntegerValue_object l key keys n d :
  assoc_find key l = Some (j_number n) → 0 <= n <= INT_MAX →
  GetIntegerValue (j_object l : J) None (key :: keys) d = Ok n.
Proof.
  unfold INT_MAX. intros Hf Hn. unfold GetIntegerValue.
  rewrite (FindConfigValue_object _ _ _ _ Hf) by (apply j_is_null_number; width_lia).
  unfold JsonInteger, INT_MIN, INT_MAX. destruct (j_view_number n) as [-> | ->]; [width_lia|..];
    rewrite ?(wraps_id 64) by width_lia; by rewrite !(proj2 (Z.ltb_ge _ _)) by lia.
Qed.

Lemma GetBooleanValue_object l key keys b d :
  assoc_find key l = Some (j_bool b) → GetBooleanValue (j_object l : J) None (key :: keys) d = Ok b.
Proof.
  intros Hf. unfold GetBooleanValue. rewrite (FindConfigValue_object _ _ _ _ Hf) by apply j_is_null_bool.
  unfold JsonBoolean. by rewrite j_view_bool.
Qed.

Lemma GetStringValue_object l key keys s d a :
  assoc_find key l = Some (j_string s) → GetStringValue (j_object l : J) None (key :: keys) d a = Ok s.
Proof.
  intros Hf. unfold GetStringValue. rewrite (FindConfigValue_object _ _ _ _ Hf) by apply j_is_null_string.
  unfold JsonString. by rewrite j_view_string.
Qed.

Lemma ToUint32_id n f : inu 32 n → ToUint32 n f = Ok n.
Proof.
  intros Hn. unfold ToUint32. rewrite (proj2 (Z.ltb_ge _ _)) by width_lia. by rewrite wrapu_id.
Qed.
Lemma ToUint16_id n f : inu 16 n → ToUint16 n f = Ok n.
Proof.
  intros Hn. unfold ToUint16. rewrite (proj2 (Z.ltb_ge _ _)) by width_lia. by rewrite wrapu_id.
Qed.

Lemma check_config_id p : config_ok p → check_config p = Ok p.
Proof.
  intros [Hdev _ [Hb Hb0] Hdb Hsb _ _ (Ha & _) [_ Hi0] Ht _ Hrc Hs]. unfold check_config.
  assert (gc_enabled p && bool_decide (gc_device p = "") = false) as ->.
  { destruct (gc_enabled p); [|done]. by apply bool_decide_eq_false, Hdev. }
  repeat match goal with |- (if ?b then _ else _) = _ => replace b with false by lia end.
  rewrite bool_decide_eq_false_2 by done. cbv zeta.
  replace (gc_timeout_ms p <? gc_read_slice_timeout_ms p) with false by lia. by destruct p.
Qed.

(** C38: every configuration [ParseConfig] returns is well formed: the
    numbers are in range, the text fields are trimmed and lower case, the
    addresses are distinct values between 1 and 255 and not empty, and one read
    never waits longer than the whole response may take.  It is also a fixed
    point: what [GetConfig] reports for it is accepted by [ParseConfig] again and
    gives the same configuration. *)
Theorem ParseConfig_typed (c : J) p :
  ParseConfig c = Ok p → config_ok p ∧ ParseConfig (GasDetectorPollConfig_ToJson p : J) = Ok p.
Proof.
  intros Hp%ParseConfig_wf. split; [done|]. unfold ParseConfig, GasDetectorPollConfig_ToJson.
  rewrite j_view_object, j_find_object. find_tac. cbv zeta.
  pose proof (check_config_id p Hp) as Hid.
  destruct Hp as [Hdev Htrim [Hb Hb0] Hdb Hsb Hpar Hflow (Ha & Hnd & Hadr) [Hi Hi0] Ht Hsr Hrc Hs].
  repeat match goal with
  | |- context [GetBooleanValue (j_object _) None (_ :: _) _] =>
      erewrite GetBooleanValue_object by (find_tac; reflexivity)
  | |- context [GetStringValue (j_object _) None (_ :: _) _ _] =>
      erewrite GetStringValue_object by (find_tac; reflexivity)
  | |- context [GetIntegerValue (j_object _) None (_ :: _) _] =>
      erewrite GetIntegerValue_object by (find_tac; reflexivity || (unfold INT_MAX; lia))
  | |- context [GetUnsignedValue (j_object _) None (_ :: _) _] =>
      erewrite GetUnsignedValue_object by (find_tac; reflexivity || width_lia)
  end.
  erewrite !FindConfigValue_object;
    [|find_tac; reflexivity|apply j_is_null_array
     |find_tac; reflexivity|apply j_is_null_number; width_lia].
  rewrite (ParseAddresses_list _ Hadr Hnd Ha).
  cbn [mbind result_bind].
  rewrite JsonUnsigned_number by width_lia. cbn [mbind result_bind].
  rewrite !ToUint32_id by width_lia. cbn [mbind result_bind].
  rewrite !ToUint16_id by width_lia. cbn [mbind result_bind].
  rewrite Htrim, Hpar, Hflow. by destruct p.
Qed.
End readback.

(** ** The serial port's view of the configuration *)

Definition data_bits_bytesize (n : Z) : bytesize_t :=
  if n =? 5 then fivebits else if n =? 6 then sixbits else if n =? 7 then sevenbits else eightbits.
Definition stop_bits_stopbits (n : Z) : stopbits_t :=
  if n =? 1 then stopbits_one else stopbits_two.

Section port_view.
Context {J : Type} `{JsonLaws J}.

Lemma uint32_field_number key n : inu 32 n → uint32_field key (j_number n : J) = Ok n.
Proof.
  intros Hn. unfold uint32_field, UINT32_MAX.
  destruct (j_view_number n) as [-> | ->]; [width_lia|..].
  - by rewrite (proj2 (Z.ltb_ge _ _)) by width_lia.
  - rewrite (proj2 (Z.ltb_ge _ _)), (proj2 (Z.ltb_ge _ n)) by width_lia. by rewrite wrapu_id.
Qed.

Lemma JsonValueToToken_number key n : inu 64 n → JsonValueToToken (j_number n : J) key = Ok (pretty n).
Proof. intros Hn. unfold JsonValueToToken. by destruct (j_view_number n Hn) as [-> | ->]. Qed.

Lemma JsonValueToToken_string key s : JsonValueToToken (j_string s : J) key = Ok (NormalizeToken s).
Proof. unfold JsonValueToToken. by rewrite j_view_string. Qed.

Lemma LowerTrim_lower s : LowerCopy (TrimCopy s) = s → NormalizeToken s = s.
Proof. intros Hs. rewrite <- Hs at 1. change (NormalizeToken ?t) with (LowerCopy t). by rewrite LowerCopy_idemp. Qed.

Lemma ParseBytesize_data_bits n :
  5 <= n <= 8 → ParseBytesize (pretty n) = Ok (data_bits_bytesize n).
Proof.
  intros Hn. assert (n = 5 ∨ n = 6 ∨ n = 7 ∨ n = 8) as Hc by lia.
  by repeat destruct Hc as [->|Hc]; [..|rewrite Hc].
Qed.

Lemma ParseStopbits_stop_bits n :
  n = 1 ∨ n = 2 → ParseStopbits (pretty n) = Ok (stop_bits_stopbits n).
Proof. by intros [-> | ->]. Qed.

(** The two parsers agree on the port: for a well-formed configuration
    with a device, the object [Init] hands to the serial port is accepted
    exactly when its parity and flow control are ones the port knows, with the
    device, rate, data and stop bits of the configuration, opened at once, and
    with the read slice as the time-out of every read and write. *)
Theorem port_config_options p :
  config_ok p → gc_device p ≠ "" →
  ParseOptions (port_config p : J) =
    (parity ← ParseParity (gc_parity p);
     flow ← ParseFlowcontrol (gc_flowcontrol p);
     let slice := gc_read_slice_timeout_ms p in
     Ok {| opt_port := gc_device p; opt_baudrate := gc_baud_rate p; opt_timeout_ms := slice;
           opt_inter_byte_timeout_ms := 0; opt_read_timeout_constant_ms := slice;
           opt_read_timeout_multiplier_ms := 0; opt_write_timeout_constant_ms := slice;
           opt_write_timeout_multiplier_ms := 0;
           opt_bytesize := ToString_bytesize (data_bits_bytesize (gc_data_bits p));
           opt_parity := ToString_parity parity;
           opt_stopbits := ToString_stopbits (stop_bits_stopbits (gc_stop_bits p));
           opt_flowcontrol := ToString_flowcontrol flow; opt_auto_open := true |}).
Proof.
  intros [_ _ [Hb _] Hdb Hsb Hpar Hflow _ _ Ht _ _ Hs] Hdev.
  unfold ParseOptions, port_config. rewrite j_view_object. cbv zeta.
  unfold GetRequiredPortValue. cbn [GetRequiredPortValue_loop GetUint32Value GetTokenValue].
  unfold j_value_bool, j_value, j_get_bool. rewrite ?j_view_object, !present_object, !j_find_object. find_tac.
  rewrite !j_is_null_string, !j_is_null_number by width_lia.
  rewrite j_view_string, bool_decide_eq_false_2 by done. cbn [mbind result_bind].
  rewrite !uint32_field_number by width_lia. cbn [mbind result_bind].
  rewrite !JsonValueToToken_number, !JsonValueToToken_string by width_lia. cbn [mbind result_bind].
  rewrite ParseBytesize_data_bits, ParseStopbits_stop_bits by done.
  rewrite !LowerTrim_lower by done. cbn [mbind result_bind].
  destruct (ParseParity (gc_parity p)); [|done]. cbn [mbind result_bind].
  destruct (ParseFlowcontrol (gc_flowcontrol p)); [|done]. cbn [mbind result_bind].
  by rewrite j_view_bool.
Qed.
End port_view.

(** *** Witnesses *)

Definition demo_cfg : jvalue :=
  VObj [("enabled", VStr " Yes "); ("addresses", VStr "1-3, 9"); ("parity", VStr " EVEN");
        ("serial", VObj [("port", VStr " /dev/ttyS1 "); ("baudrate", VStr "19200"); ("stopbits", VNum 2)]);
        ("timeout_ms", VNum 30)].

Definition demo_config : GasDetectorPollConfig :=
  Eval vm_compute in match ParseConfig demo_cfg with Ok p => p | Err _ => GasDetectorPollConfig_default end.

Lemma demo_config_eq : ParseConfig demo_cfg = Ok demo_config.
Proof. vm_compute. reflexivity. Qed.

Lemma ParseConfig_typed_witness :
  gc_addresses demo_config = [1; 2; 3; 9] ∧
  ParseConfig (GasDetectorPollConfig_ToJson demo_config : jvalue) = Ok demo_config.
Proof.
  split; [reflexivity|].
  exact (proj2 (ParseConfig_typed demo_cfg demo_config demo_config_eq)).
Defined.

Lemma demo_config_ok : config_ok demo_config.
Proof.
  split; cbn; try done; try width_lia; try (split; [width_lia|done]); try (by right).
  split_and!; [done|apply (bool_decide_unpack _); by vm_compute|].
  by repeat (apply Forall_cons_2; [unfold is_address; lia|]).
Qed.

Lemma port_config_options_witness :
  BuildTimeout <$> match ParseOptions (port_config demo_config : jvalue) with Ok o => Some o | Err _ => None end
    = Some (simpleTimeout 30).
Proof. rewrite port_config_options; [reflexivity|apply demo_config_ok|done]. Defined.
