(* ===== verification/Double.v ===== *)
(** * Doubles

    IEEE binary64, by the Standard Library's executable specification, and what
    the program does with it: conversion from integers, scaling, quotients, and
    printing with a fixed number of decimals, exchange with JSON. *)

From S2P Require Import Prelude Json.
From Stdlib Require Import SpecFloat Ascii.
From stdpp Require Import pretty.

Local Open Scope Z_scope.

Definition double := spec_float.
Definition double_of_Z (z : Z) : double := binary_normalize 53 1024 z 0 false.

(** The literal 1e-k (the correctly rounded quotient of two exact numbers), and
    an integer times it. *)
Definition double_1em (k : Z) : double := SFdiv 53 1024 (double_of_Z 1) (double_of_Z (10 ^ k)).
Definition scaled (z k : Z) : double := SFmul 53 1024 (double_of_Z z) (double_1em k).

Definition double_add (x y : double) : double := SFadd 53 1024 x y.
Definition double_sub (x y : double) : double := SFsub 53 1024 x y.
Definition double_div (x y : double) : double := SFdiv 53 1024 x y.

(** ** Printing

    [std::fixed << std::setprecision(k)]: the exact value of the double rounded
    to [k] decimals, ties to even. *)

(** [n / d] rounded to an integer, ties to even. *)
Definition round_even (n d : Z) : Z :=
  let q := n / d in
  let r := n mod d in
  if 2 * r <? d then q else if d <? 2 * r then q + 1 else if Z.even q then q else q + 1.

Fixpoint zeros (n : nat) : string :=
  match n with O => "" | S n => String "0"%char (zeros n) end.

Definition pad_zeros (width : nat) (s : string) : string :=
  zeros (width - String.length s) +:+ s.

(** [n] units of the [k]-th decimal. *)
Definition decimal_text (n : Z) (k : nat) : string :=
  match k with
  | O => pretty n
  | _ => pretty (n / 10 ^ Z.of_nat k) +:+ "." +:+ pad_zeros k (pretty (n mod 10 ^ Z.of_nat k))
  end.

Definition fixed_text (d : double) (k : nat) : string :=
  match d with
  | S754_zero s => (if s then "-" else "") +:+ decimal_text 0 k
  | S754_infinity s => if s then "-inf" else "inf"
  | S754_nan => "nan"
  | S754_finite s m e =>
      let n := Z.pos m * 10 ^ Z.of_nat k in
      (if s then "-" else "") +:+
      decimal_text (if 0 <=? e then n * 2 ^ e else round_even n (2 ^ (- e))) k
  end.

(** ** Numbers in JSON

    What the library converts: a JSON float to an [int] and to a [double], and
    a [double] to JSON. *)

Class JsonNumbers (J : Type) `{JsonOps J} := {
  j_float_int : J → Z;
  j_float_double : J → double;
  j_double : double → J
}.

(** [get<int>()], which takes any number and a boolean, and [get<double>()],
    which takes any number. *)
Definition j_get_int `{JsonNumbers J} (v : J) : result Z :=
  match j_view v with
  | JUnsigned n | JInteger n => Ok (wraps 32 n)
  | JFloat => Ok (j_float_int v)
  | JBoolean b => Ok (if b then 1 else 0)
  | _ => Err (other_error (j_type_error v))
  end.

Definition j_get_double `{JsonNumbers J} (v : J) : result double :=
  match j_view v with
  | JUnsigned n | JInteger n => Ok (double_of_Z n)
  | JFloat => Ok (j_float_double v)
  | _ => Err (other_error (j_type_error v))
  end.

#[export] Instance jvalue_numbers : JsonNumbers jvalue := {|
  j_float_int _ := 0;
  j_float_double _ := double_of_Z 0;
  j_double d := VFloat (fixed_text d 6)
|}.

(** ** Truncation

    [static_cast<int64_t>(d)], undefined when the truncated value is not one. *)

Definition double_trunc (d : double) : option Z :=
  match d with
  | S754_zero _ => Some 0
  | S754_finite s m e =>
      let n := if 0 <=? e then Z.pos m * 2 ^ e else Z.pos m / 2 ^ (- e) in
      Some (if s then - n else n)
  | _ => None
  end.

Definition double_to_int64 (d : double) : outcome Z :=
  match double_trunc d with
  | Some z => if decide (ins 64 z) then Ret z else Undef
  | None => Undef
  end.

(** [d != 0.0], which a NaN is. *)
Definition double_nonzero (d : double) : bool :=
  match d with S754_zero _ => false | _ => true end.

Lemma digits2_pos_lower p : 2 ^ (Z.pos (digits2_pos p) - 1) <= Z.pos p.
Proof.
  induction p as [p IH|p IH|]; cbn [digits2_pos]; [..|done];
    rewrite Pos2Z.inj_succ; (replace (Z.succ _ - 1) with (Z.succ (Z.pos (digits2_pos p) - 1)) by lia);
    rewrite Z.pow_succ_r by lia; lia.
Qed.

Lemma digits2_pos_shift m k :
  Z.pos (digits2_pos (Pos.iter xO m k)) = Z.pos (digits2_pos m) + Z.pos k.
Proof.
  revert m. induction k as [|k IH] using Pos.peano_ind; intros m; [cbn; lia|].
  rewrite Pos.iter_succ. cbn [digits2_pos]. rewrite Pos2Z.inj_succ, IH. lia.
Qed.

Lemma iter_xO m k : Z.pos (Pos.iter xO m k) = Z.pos m * 2 ^ Z.pos k.
Proof.
  induction k as [|k IH] using Pos.peano_ind; [cbn; lia|].
  rewrite Pos.iter_succ, Pos2Z.inj_succ, Z.pow_succ_r by lia. lia.
Qed.

(** A mantissa of full width is kept by rounding. *)
Lemma round_full_width s m e :
  Z.pos (digits2_pos m) = 53 → -1074 <= e <= 971 →
  binary_round_aux 53 1024 s (Z.pos m) e loc_Exact = S754_finite s m e.
Proof.
  intros Hd He. unfold binary_round_aux, shr_fexp. cbn [shr_record_of_loc Zdigits2].
  rewrite Hd. unfold fexp, emin. replace (_ - e) with 0 by lia. cbn [shr shr_m loc_of_shr_record round_nearest_even Zdigits2].
  rewrite Hd. replace (_ - e) with 0 by lia. cbn [shr shr_m].
  by rewrite (proj2 (Z.leb_le _ _)) by lia.
Qed.

Lemma binary_round_int s m :
  Z.pos m < 2 ^ 53 →
  ∃ m' e', binary_round 53 1024 s m 0 = S754_finite s m' e' ∧
    e' <= 0 ∧ Z.pos m' = Z.pos m * 2 ^ (- e').
Proof.
  intros Hm. pose proof (digits2_pos_lower m) as Hl.
  assert (Hd : Z.pos (digits2_pos m) <= 53).
  { destruct (Z.le_gt_cases (Z.pos (digits2_pos m)) 53) as [|Hgt]; [done|].
    pose proof (Z.pow_le_mono_r 2 53 (Z.pos (digits2_pos m) - 1)). lia. }
  unfold binary_round, shl_align, fexp, emin.
  replace (Z.max _ _ - 0) with (Z.pos (digits2_pos m) - 53) by lia.
  replace (Z.max _ _) with (Z.pos (digits2_pos m) - 53) by lia.
  destruct (Z.pos (digits2_pos m) - 53) as [|k|k] eqn:Ek; [| lia|].
  - exists m, 0. rewrite round_full_width by lia. split_and!; [done|done|]. cbn. lia.
  - exists (Pos.iter xO m k), (Z.neg k). rewrite round_full_width; [..|lia].
    + split_and!; [done|lia|]. by rewrite iter_xO, Pos2Z.opp_neg.
    + rewrite digits2_pos_shift. lia.
Qed.

(** Integers below 2^53 survive the way through a double. *)
Lemma double_of_Z_exact z : - 2 ^ 53 < z < 2 ^ 53 → double_trunc (double_of_Z z) = Some z.
Proof.
  intros Hz. unfold double_of_Z, binary_normalize. destruct z as [|m|m]; [done|..];
    (destruct (binary_round_int false m) as (m1 & e1 & E1 & He1 & Hm1); [lia|];
     destruct (binary_round_int true m) as (m2 & e2 & E2 & He2 & Hm2); [lia|];
     rewrite ?E1, ?E2; cbn [double_trunc]).
  1: rename He1 into He, Hm1 into Hm, e1 into e, m1 into m'.
  2: rename He2 into He, Hm2 into Hm, e2 into e, m2 into m'.
  all: destruct (Z.leb_spec 0 e);
    [replace e with 0 in * by lia; rewrite Z.mul_1_r in *; cbn in Hm; f_equal; lia|].
  all: rewrite Hm, Z.div_mul by (apply Z.pow_nonzero; lia); done.
Qed.

Lemma double_to_int64_exact z : - 2 ^ 53 < z < 2 ^ 53 → double_to_int64 (double_of_Z z) = Ret z.
Proof.
  intros Hz. unfold double_to_int64. rewrite double_of_Z_exact by done.
  rewrite decide_True; [done|]. unfold ins. lia.
Qed.
