(* ===== verification/MyContext.v ===== *)
(** * The runtime context

    Model of my_context: a store of named JSON values with description, type and
    time stamps, read through typed getters.  Every public method holds the mutex
    for its effect and is one operation; the clock is an argument. *)

From S2P Require Import Prelude Text Json Double.
From stdpp Require Import gmap sorting pretty.

Local Open Scope Z_scope.

Inductive ContextValueType := CNull | CBoolean | CInteger | CDouble | CString | CObject | CArray.

Record ContextEntry (J : Type) := {
  ce_name : string;
  ce_value : J;
  ce_description : string;
  ce_type : ContextValueType;
  ce_created_at_ms : Z;
  ce_updated_at_ms : Z
}.
Arguments ce_name {J} _.
Arguments ce_value {J} _.
Arguments ce_description {J} _.
Arguments ce_type {J} _.
Arguments ce_created_at_ms {J} _.
Arguments ce_updated_at_ms {J} _.

Definition TypeToString (t : ContextValueType) : string :=
  match t with
  | CBoolean => "boolean"
  | CInteger => "integer"
  | CDouble => "double"
  | CString => "string"
  | CObject => "object"
  | CArray => "array"
  | CNull => "null"
  end.

Section context.
Context {J : Type} `{JsonOps J}.

(** The unordered map from names to entries. *)
Abbreviation entries := (gmap string (ContextEntry J)).
Implicit Types (name description : string) (value : J) (now : Z) (m : entries).

Definition DeduceType value : ContextValueType :=
  match j_view value with
  | JBoolean _ => CBoolean
  | JInteger _ | JUnsigned _ => CInteger
  | JFloat => CDouble
  | JString _ => CString
  | JObject => CObject
  | JArray => CArray
  | JNull => CNull
  end.

Definition ToJson (e : ContextEntry J) : J :=
  j_object
    [("name", j_string (ce_name e));
     ("value", ce_value e);
     ("description", j_string (ce_description e));
     ("type", j_string (TypeToString (ce_type e)));
     ("created_at_ms", j_number (ce_created_at_ms e));
     ("updated_at_ms", j_number (ce_updated_at_ms e))].

(** ** Writing *)

Definition SetLocked name value description now m : entries :=
  match m !! name with
  | None =>
      <[name := {| ce_name := name; ce_value := value; ce_description := description;
                   ce_type := DeduceType value; ce_created_at_ms := now;
                   ce_updated_at_ms := now |}]> m
  | Some e =>
      <[name := {| ce_name := ce_name e; ce_value := value;
                   ce_description := match description with
                                     | EmptyString => ce_description e
                                     | _ => description
                                     end;
                   ce_type := DeduceType value; ce_created_at_ms := ce_created_at_ms e;
                   ce_updated_at_ms := now |}]> m
  end.

Definition Set_ name value description now m : bool * entries :=
  match name with
  | EmptyString => (false, m)
  | _ => (true, SetLocked name value description now m)
  end.

Definition SetBool name (value : bool) description now m : bool * entries :=
  Set_ name (j_bool value) description now m.
Definition SetInt name (value : Z) description now m : bool * entries :=
  Set_ name (j_number value) description now m.
Definition SetString name (value : string) description now m : bool * entries :=
  Set_ name (j_string value) description now m.
Definition SetDouble `{!JsonNumbers J} name (value : double) description now m : bool * entries :=
  Set_ name (j_double value) description now m.

(** The error text is kept as it was on success. *)
Definition UpdateValue name value (error_out : string) now m : bool * string * entries :=
  match name with
  | EmptyString => (false, "name 不能为空", m)
  | _ =>
      match m !! name with
      | None => (false, "上下文不存在: " +:+ name, m)
      | Some e =>
          (true, error_out,
           <[name := {| ce_name := ce_name e; ce_value := value; ce_description := ce_description e;
                        ce_type := DeduceType value; ce_created_at_ms := ce_created_at_ms e;
                        ce_updated_at_ms := now |}]> m)
      end
  end.

Definition UpdateDescription name description (error_out : string) now m : bool * string * entries :=
  match name with
  | EmptyString => (false, "name 不能为空", m)
  | _ =>
      match m !! name with
      | None => (false, "上下文不存在: " +:+ name, m)
      | Some e =>
          (true, error_out,
           <[name := {| ce_name := ce_name e; ce_value := ce_value e; ce_description := description;
                        ce_type := ce_type e; ce_created_at_ms := ce_created_at_ms e;
                        ce_updated_at_ms := now |}]> m)
      end
  end.

Definition Erase name m : bool * entries :=
  match m !! name with None => (false, m) | Some _ => (true, delete name m) end.
Definition Clear (m : entries) : entries := ∅.

(** ** Reading *)

Definition Has name m : bool := match m !! name with None => false | Some _ => true end.
Definition GetEntry name m : option (ContextEntry J) := m !! name.
Definition GetValue name m : option J := ce_value <$> m !! name.

Definition GetString name (default_value : string) m : string :=
  match GetValue name m with
  | None => default_value
  | Some v =>
      match j_view v with
      | JString s => s
      | _ => match j_dump v with Ok s => s | Err _ => default_value end
      end
  end.

Section numbers.
Context `{!JsonNumbers J}.

Definition GetBool name (default_value : bool) m : bool :=
  match GetValue name m with
  | None => default_value
  | Some v =>
      match j_view v with
      | JBoolean b => b
      | JUnsigned _ | JInteger _ | JFloat =>
          match j_get_double v with Ok d => double_nonzero d | Err _ => default_value end
      | JString s => String.eqb s "true" || String.eqb s "1"
      | _ => default_value
      end
  end.

(** Numbers go through [get<double>()] and a cast back. *)
Definition GetInt name (default_value : Z) m : outcome Z :=
  match GetValue name m with
  | None => Ret default_value
  | Some v =>
      match j_view v with
      | JUnsigned _ | JInteger _ | JFloat =>
          match j_get_double v with Ok d => double_to_int64 d | Err _ => Ret default_value end
      | JBoolean b => Ret (if b then 1 else 0)
      | JString s => match stoll s with Ok z => Ret z | Err _ => Ret default_value end
      | _ => Ret default_value
      end
  end.

(** [stod] is the C library's conversion. *)
Definition GetDouble (stod : string → result double) name (default_value : double) m : double :=
  match GetValue name m with
  | None => default_value
  | Some v =>
      match j_view v with
      | JUnsigned _ | JInteger _ | JFloat =>
          match j_get_double v with Ok d => d | Err _ => default_value end
      | JBoolean b => if b then double_of_Z 1 else double_of_Z 0
      | JString s => match stod s with Ok d => d | Err _ => default_value end
      | _ => default_value
      end
  end.
End numbers.

(** ** Reports *)

Definition Size m : nat := size m.

(** [a.name < b.name], by bytes. *)
Definition entry_le (a b : ContextEntry J) : Prop := String.le (ce_name a) (ce_name b).

#[export] Instance entry_le_dec : RelDecision entry_le := λ a b, decide (String.le (ce_name a) (ce_name b)).

Definition sorted_entries m : list (ContextEntry J) :=
  merge_sort entry_le (map snd (map_to_list m)).

Definition GetAllJson m : J :=
  let items := map ToJson (sorted_entries m) in
  j_object [("count", j_number (Z.of_nat (length items))); ("items", j_array items)].

Definition GetEntryJson name m : option J := ToJson <$> GetEntry name m.
End context.

(** ** A variable and its history

    The abstract store: what a reader sees of a name is determined by the calls
    that touched it since it last did not exist. *)

Inductive ctx_call (J : Type) :=
| call_Set (name : string) (value : J) (description : string)
| call_UpdateValue (name : string) (value : J)
| call_UpdateDescription (name description : string)
| call_Erase (name : string)
| call_Clear.
Arguments call_Set {J} _ _ _.
Arguments call_UpdateValue {J} _ _.
Arguments call_UpdateDescription {J} _ _.
Arguments call_Erase {J} _.
Arguments call_Clear {J}.

Section history.
Context {J : Type} `{JsonLaws J}.
Abbreviation entries := (gmap string (ContextEntry J)).
Implicit Types (name : string) (m : entries) (l calls : list (Z * ctx_call J)).

(** A call at a time. *)
Definition run_call m (c : Z * ctx_call J) : entries :=
  match c with
  | (now, call_Set name value description) => (Set_ name value description now m).2
  | (now, call_UpdateValue name value) => (UpdateValue name value "" now m).2
  | (now, call_UpdateDescription name description) => (UpdateDescription name description "" now m).2
  | (_, call_Erase name) => (Erase name m).2
  | (_, call_Clear) => Clear m
  end.

Definition life_step name l (c : Z * ctx_call J) : list (Z * ctx_call J) :=
  match c.2 with
  | call_Set n _ _ => if decide (n = name) then l ++ [c] else l
  | call_UpdateValue n _ | call_UpdateDescription n _ =>
      if decide (n = name) then match l with [] => [] | _ => l ++ [c] end else l
  | call_Erase n => if decide (n = name) then [] else l
  | call_Clear => []
  end.

(** The calls that touched the present variable [name]. *)
Definition life name calls : list (Z * ctx_call J) := foldl (life_step name) [] calls.

Definition written (c : Z * ctx_call J) : option J :=
  match c.2 with call_Set _ v _ | call_UpdateValue _ v => Some v | _ => None end.
Definition described (c : Z * ctx_call J) : option string :=
  match c.2 with
  | call_Set _ _ EmptyString => None
  | call_Set _ _ d | call_UpdateDescription _ d => Some d
  | _ => None
  end.

(** Created by the first call, updated by the last; value and description are
    the last ones given. *)
Definition entry_of name l : option (ContextEntry J) :=
  first ← head l;
  final ← last l;
  value ← last (omap written l);
  Some {| ce_name := name; ce_value := value;
          ce_description := default "" (last (omap described l));
          ce_type := DeduceType value;
          ce_created_at_ms := first.1; ce_updated_at_ms := final.1 |}.

Lemma omap_snoc {A B} (f : A → option B) (l : list A) x :
  last (omap f (l ++ [x])) = match f x with Some y => Some y | None => last (omap f l) end.
Proof.
  rewrite omap_app. cbn. destruct (f x); [by rewrite last_snoc|by rewrite app_nil_r].
Qed.

Lemma entry_of_snoc name l c e :
  entry_of name l = Some e →
  entry_of name (l ++ [c]) =
    Some {| ce_name := name;
            ce_value := default (ce_value e) (written c);
            ce_description := default (ce_description e) (described c);
            ce_type := DeduceType (default (ce_value e) (written c));
            ce_created_at_ms := ce_created_at_ms e; ce_updated_at_ms := c.1 |}.
Proof.
  unfold entry_of. destruct l as [|a l]; [done|]. cbn [head]. cbn [mbind option_bind app].
  destruct (last (a :: l)) as [f|] eqn:Ef; [|by apply last_None in Ef]. cbn [mbind option_bind].
  destruct (last (omap written (a :: l))) as [v|] eqn:Ev; [|done]. cbn [mbind option_bind].
  intros [= <-]. cbn [ce_value ce_description ce_created_at_ms].
  change (a :: l ++ [c]) with ((a :: l) ++ [c]). rewrite last_snoc, !omap_snoc, Ev.
  cbn [mbind option_bind]. by destruct (written c), (described c).
Qed.

Lemma entry_of_name name l e : entry_of name l = Some e → ce_name e = name ∧ ce_type e = DeduceType (ce_value e).
Proof.
  unfold entry_of. destruct (head l), (last l), (last (omap written l)); cbn; try done.
  by intros [= <-].
Qed.

(** The name a call is about, if it is not about all. *)
Definition call_name (c : ctx_call J) : option string :=
  match c with
  | call_Set n _ _ | call_UpdateValue n _ | call_UpdateDescription n _ | call_Erase n => Some n
  | call_Clear => None
  end.

Lemma run_call_other name m l now c n :
  call_name c = Some n → n ≠ name →
  run_call m (now, c) !! name = m !! name ∧ life_step name l (now, c) = l.
Proof.
  intros Hc Hn. destruct c; try done; injection Hc as ->;
    cbn [run_call life_step snd]; rewrite decide_False by done; (split; [|done]).
  - unfold Set_, SetLocked. destruct n; [done|]. cbn [snd].
    by destruct (m !! String _ _); rewrite lookup_insert_ne.
  - unfold UpdateValue. destruct n; [done|]. destruct (m !! String _ _); cbn [snd]; [|done].
    by rewrite lookup_insert_ne.
  - unfold UpdateDescription. destruct n; [done|]. destruct (m !! String _ _); cbn [snd]; [|done].
    by rewrite lookup_insert_ne.
  - unfold Erase. destruct (m !! n); cbn [snd]; [|done]. by rewrite lookup_delete_ne.
Qed.

Lemma run_call_absent name m now c :
  name ≠ "" → call_name c = Some name → m !! name = None →
  run_call m (now, c) !! name = entry_of name (life_step name [] (now, c)).
Proof.
  intros Hne Hc Hm. destruct c; try done; injection Hc as ->;
    cbn [run_call life_step snd]; rewrite decide_True by done.
  - unfold Set_, SetLocked. rewrite Hm. destruct name; [done|]. cbn [snd].
    rewrite lookup_insert_eq. by destruct description.
  - unfold UpdateValue. rewrite Hm. by destruct name.
  - unfold UpdateDescription. rewrite Hm. by destruct name.
  - unfold Erase. by rewrite Hm.
Qed.

Lemma run_call_present name m l now c e :
  name ≠ "" → call_name c = Some name → m !! name = Some e → entry_of name l = Some e →
  run_call m (now, c) !! name = entry_of name (life_step name l (now, c)).
Proof.
  intros Hne Hc Hm Hl. pose proof (entry_of_snoc name l (now, c) e Hl) as Hs.
  pose proof (entry_of_name name l e Hl) as [Hn Ht].
  assert (Hcons : ∃ a l', l = a :: l') by (destruct l; [done|by eauto]).
  destruct Hcons as (a & l' & El). destruct c; try done; injection Hc as ->;
    cbn [run_call life_step snd] in *; rewrite decide_True by done;
    cbn [written described snd fst] in Hs; rewrite ?El in *.
  - unfold Set_, SetLocked. rewrite Hm, Hs. destruct name; [done|]. cbn [snd].
    rewrite lookup_insert_eq, Hn. by destruct description.
  - unfold UpdateValue. rewrite Hm, Hs. destruct name; [done|]. cbn [snd].
    by rewrite lookup_insert_eq, Hn.
  - unfold UpdateDescription. rewrite Hm, Hs. destruct name; [done|]. cbn [snd].
    by rewrite lookup_insert_eq, Hn, Ht.
  - unfold Erase. rewrite Hm. cbn [snd]. by rewrite lookup_delete_eq.
Qed.

(** A life begins with the call that created the variable. *)
Definition begun l : Prop := match l with [] => True | c :: _ => is_Some (written c) end.

Lemma begun_step name l c : begun l → begun (life_step name l c).
Proof.
  intros Hl. unfold life_step. destruct c as [now []]; cbn [snd]; try destruct (decide _); try done;
    destruct l; cbn in *; eauto.
Qed.

Lemma begun_entry name l : begun l → l ≠ [] → is_Some (entry_of name l).
Proof.
  destruct l as [|c l]; [done|]. intros [v Hv] _. unfold entry_of. cbn [head mbind option_bind].
  destruct (last (c :: l)) eqn:El; [|by apply last_None in El]. cbn [mbind option_bind].
  destruct (last (omap written (c :: l))) eqn:Ew; [by eexists|].
  apply last_None in Ew. cbn in Ew. by rewrite Hv in Ew.
Qed.

Definition run calls : entries := foldl run_call ∅ calls.

Lemma run_snoc calls c : run (calls ++ [c]) = run_call (run calls) c.
Proof. unfold run. by rewrite foldl_app. Qed.

Lemma life_snoc name calls c : life name (calls ++ [c]) = life_step name (life name calls) c.
Proof. unfold life. by rewrite foldl_app. Qed.

Lemma life_begun name calls : begun (life name calls).
Proof.
  induction calls as [|c calls IH] using rev_ind; [done|]. rewrite life_snoc. by apply begun_step.
Qed.

Lemma run_history calls name : name ≠ "" → run calls !! name = entry_of name (life name calls).
Proof.
  intros Hne. induction calls as [|c calls IH] using rev_ind; [done|].
  rewrite run_snoc, life_snoc. pose proof (life_begun name calls) as Hb.
  set (l := life name calls) in *. set (m := run calls) in *. clearbody l m. destruct c as [now c].
  destruct (call_name c) as [n|] eqn:Ec; [|by destruct c].
  destruct (decide (n = name)) as [->|Hn].
  2: { destruct (run_call_other name m l now c n Ec Hn) as [-> ->]. done. }
  destruct (m !! name) as [e|] eqn:Em; [by apply run_call_present with e|].
  destruct (decide (l = [])) as [->|Hl]; [by apply run_call_absent|].
  destruct (begun_entry name l Hb Hl) as [e He]. by rewrite He in IH.
Qed.

Lemma run_no_empty calls : run calls !! "" = None.
Proof.
  induction calls as [|[now c] calls IH] using rev_ind; [done|]. rewrite run_snoc.
  destruct (call_name c) as [n|] eqn:Ec; [|by destruct c].
  destruct (decide (n = "")) as [->|Hn].
  - destruct c; try done; injection Ec as ->; cbn [run_call Set_ UpdateValue UpdateDescription snd]; try done.
    unfold Erase. by rewrite IH.
  - by destruct (run_call_other "" (run calls) [] now c n Ec Hn) as [-> _].
Qed.

(** Entries are stored under their own name. *)
Definition keyed (m : entries) : Prop := ∀ name e, m !! name = Some e → ce_name e = name.

Lemma run_keyed calls : keyed (run calls).
Proof.
  intros name e He. destruct (decide (name = "")) as [->|Hne]; [by rewrite run_no_empty in He|].
  rewrite run_history in He by done. by apply entry_of_name in He as [? _].
Qed.

#[local] Instance entry_le_trans : Transitive (entry_le (J := J)).
Proof. intros a b c. unfold entry_le. apply transitivity. Qed.
#[local] Instance entry_le_total : Total (entry_le (J := J)).
Proof. intros a b. unfold entry_le. apply total, _. Qed.

Lemma sorted_entries_perm m : sorted_entries m ≡ₚ map snd (map_to_list m).
Proof. apply merge_sort_Permutation. Qed.

Lemma sorted_names m : StronglySorted String.le (map ce_name (sorted_entries m)).
Proof.
  pose proof (StronglySorted_merge_sort entry_le (map snd (map_to_list m))) as Hs.
  unfold sorted_entries. induction Hs as [|e l _ IH Hall]; cbn; constructor; [done|].
  apply Forall_map. eapply Forall_impl; [exact Hall|]. by intros.
Qed.

Lemma names_perm m : keyed m → map ce_name (sorted_entries m) ≡ₚ map fst (map_to_list m).
Proof.
  intros Hk. rewrite sorted_entries_perm, map_map. apply Permutation_refl'.
  apply map_ext_in. intros [n e] Hin. cbn. apply Hk, elem_of_map_to_list. by apply list_elem_of_In.
Qed.

Lemma names_entries m :
  keyed m → omap (λ name, GetEntryJson name m) (map ce_name (sorted_entries m)) = map ToJson (sorted_entries m).
Proof.
  intros Hk. assert (Hall : Forall (λ e, m !! ce_name e = Some e) (sorted_entries m)).
  { apply Forall_forall. intros e He. rewrite sorted_entries_perm in He.
    apply list_elem_of_fmap in He as ([n e'] & -> & Hin%elem_of_map_to_list). cbn.
    by rewrite (Hk n e'). }
  induction Hall as [|e l He _ IH]; [done|]. cbn. unfold GetEntryJson at 1, GetEntry. rewrite He. cbn.
  by f_equal.
Qed.

(** C25: After any calls at any times, what a reader finds under a name is
    given by the calls that touched it since it was last absent: it exists when
    there are any, was created by the first and updated at the last, holds the
    last value and the last description given, and its type is that of its
    value.  The empty name is never bound, and every report lists each bound
    name once, in increasing order, with its count. *)
Theorem context_refines calls :
  (∀ name, name ≠ "" → GetEntry name (run calls) = entry_of name (life name calls)) ∧
  GetEntry "" (run calls) = None ∧
  ∃ names, StronglySorted String.le names ∧ NoDup names ∧
    (∀ name, name ∈ names ↔ Has name (run calls) = true) ∧
    length names = Size (run calls) ∧
    GetAllJson (run calls) =
      j_object [("count", j_number (Z.of_nat (length names)));
                ("items", j_array (omap (λ name, GetEntryJson name (run calls)) names))].
Proof.
  split; [intros name; apply run_history|]. split; [apply run_no_empty|].
  pose proof (run_keyed calls) as Hk. set (m := run calls) in *.
  exists (map ce_name (sorted_entries m)). split_and!.
  - apply sorted_names.
  - rewrite names_perm by done. apply NoDup_fst_map_to_list.
  - intros name. rewrite names_perm by done. unfold Has. split.
    + intros ([n e] & -> & Hin%elem_of_map_to_list)%list_elem_of_fmap. cbn. by rewrite Hin.
    + destruct (m !! name) as [e|] eqn:Em; [|done]. intros _.
      apply list_elem_of_fmap. exists (name, e). split; [done|]. by apply elem_of_map_to_list.
  - rewrite length_map, sorted_entries_perm, length_map. unfold Size. by rewrite length_map_to_list.
  - unfold GetAllJson. by rewrite names_entries, !length_map.
Qed.
End history.

(** ** Typed access *)

Section typed.
Context {J : Type} `{JsonLaws J} `{!JsonNumbers J}.
Abbreviation entries := (gmap string (ContextEntry J)).
Implicit Types (name : string) (m : entries).

Lemma GetValue_Set name value d now m :
  name ≠ "" → GetValue name (Set_ name value d now m).2 = Some value.
Proof.
  intros Hn. unfold GetValue, Set_, SetLocked. destruct name; [done|]. cbn [snd].
  by destruct (m !! String _ _); rewrite lookup_insert_eq.
Qed.

(** What a typed setter stored the getter of its type gives back, an
    integer as long as it is below 2^53 in size since the getter goes through a
    double; a boolean reads as 0 or 1 and a number as non-zero; and no other name
    is touched. *)
Theorem context_typed name d now m :
  name ≠ "" →
  (∀ b e, GetBool name e (SetBool name b d now m).2 = b ∧
          GetInt name 0 (SetBool name b d now m).2 = Ret (if b then 1 else 0)) ∧
  (∀ s e, GetString name e (SetString name s d now m).2 = s) ∧
  (∀ z e, - 2 ^ 53 < z < 2 ^ 53 →
     GetInt name e (SetInt name z d now m).2 = Ret z ∧
     (0 <= z → GetInt name e (SetString name (pretty z) d now m).2 = Ret z)) ∧
  (∀ v name', name' ≠ name → GetEntry name' (Set_ name v d now m).2 = GetEntry name' m).
Proof.
  intros Hn. unfold SetBool, SetString, SetInt, GetBool, GetInt, GetString.
  split_and!.
  - intros b e. rewrite GetValue_Set, j_view_bool by done. done.
  - intros s e. by rewrite GetValue_Set, j_view_string by done.
  - intros z e Hz. rewrite !GetValue_Set, !j_view_string by done. split.
    + unfold j_get_double. destruct (j_view_signed z) as [-> | ->]; [unfold ins; lia|..];
        by apply double_to_int64_exact.
    + intros Hp. unfold stoll. by rewrite sto_signed_pretty by (unfold ins; lia).
  - intros v name' Hne. unfold GetEntry, Set_, SetLocked. destruct name; [done|]. cbn [snd].
    by destruct (m !! String _ _); rewrite lookup_insert_ne.
Qed.
End typed.

(** An integer of more than 53 bits comes back as another one, and reading the
    largest one is undefined: its double is 2^63. *)
Lemma context_int_lossy :
  GetInt "n" 0 (SetInt (J := jvalue) "n" (2 ^ 53 + 1) "" 0 ∅).2 = Ret (2 ^ 53) ∧
  GetInt "n" 0 (SetInt (J := jvalue) "n" (2 ^ 63 - 1) "" 0 ∅).2 = Undef.
Proof. by vm_compute. Qed.

Definition demo_calls : list (Z * ctx_call jvalue) :=
  [(10, call_Set "b" (VNum 1) "first"); (11, call_Set "a" (VStr "x") "");
   (12, call_UpdateValue "b" (VBool true)); (13, call_Set "b" (VNum 7) "");
   (14, call_Erase "a"); (15, call_UpdateDescription "b" "last"); (16, call_Set "c" VNull "");
   (17, call_Set "" VNull "refused")].

(** C25 witness: a history with updates, an erased and a refused name. *)
Lemma context_refines_witness :
  GetEntry "b" (run demo_calls) =
    Some {| ce_name := "b"; ce_value := VNum 7; ce_description := "last"; ce_type := CInteger;
            ce_created_at_ms := 10; ce_updated_at_ms := 15 |} ∧
  GetEntry "a" (run demo_calls) = None.
Proof.
  destruct (context_refines demo_calls) as (Hn & _ & _).
  split; (etrans; [by apply Hn|]); vm_compute; reflexivity.
Defined.

(** A negative integer under a fresh name. *)
Lemma context_typed_witness :
  GetInt "speed" 0 (SetInt (J := jvalue) "speed" (-40) "" 5 ∅).2 = Ret (-40).
Proof.
  destruct (context_typed (J := jvalue) "speed" "" 5 ∅) as (_ & _ & Hz & _); [discriminate|].
  exact (proj1 (Hz (-40) 0 ltac:(lia))).
Defined.
