(* ===== verification/Heartbeat.v ===== *)
(** * The heartbeat manager

    Model of my_heartbeat: configuration, the worker's turn, the snapshot, the
    MQTT message with its topic, start and stop.  The publisher, the summary of
    the edges, the process id, the host name and the clock are parameters. *)

From S2P Require Import Prelude Text Json Double.
From Stdlib Require Import Ascii.

Local Open Scope Z_scope.

(** ** Replacing text *)

(** [s.find(key)] and [t.find(key, pos)] for [pos <= t.size()]. *)
Fixpoint find_text (key s : string) : option nat :=
  if String.prefix key s then Some 0%nat
  else match s with EmptyString => None | String _ s => S <$> find_text key s end.
Definition find_text_from (key : string) (pos : nat) (t : string) : option nat :=
  Nat.add pos <$> find_text key (substr_from pos t).

(** [t.replace(pos, n, source)]. *)
Definition replace_at (pos n : nat) (source t : string) : string :=
  substr 0 pos t +:+ source +:+ substr_from (pos + n) t.

Fixpoint replace_loop (fuel : nat) (key source : string) (pos : nat) (t : string) : option string :=
  match fuel with
  | O => None
  | S fuel =>
      match find_text_from key pos t with
      | None => Some t
      | Some pos =>
          replace_loop fuel key source (pos + String.length source)
            (replace_at pos (String.length key) source t)
      end
  end.

Definition source_key : string := "{source}".

(** Every turn drops the key's length from the text not yet searched. *)
Definition formatTopic (fmt source : string) : option string :=
  replace_loop (S (String.length fmt)) source_key source 0 fmt.

(** Each occurrence of [key], left to right and without overlaps, replaced;
    [skip] characters belong to an occurrence already replaced. *)
Fixpoint subst (key source : string) (skip : nat) (s : string) : string :=
  match s with
  | EmptyString => ""
  | String c s' =>
      match skip with
      | S skip => subst key source skip s'
      | O => if String.prefix key s then source +:+ subst key source (String.length key - 1) s'
             else String c (subst key source 0 s')
      end
  end.

Lemma find_text_None key source s : find_text key s = None → subst key source 0 s = s.
Proof.
  induction s as [|c s IH]; [done|]. cbn [find_text subst].
  destruct (String.prefix key (String c s)); [done|].
  destruct (find_text key s); [done|]. intros _. by rewrite IH.
Qed.

Lemma subst_skip key source a b : subst key source (String.length a) (a +:+ b) = subst key source 0 b.
Proof. induction a as [|c a IH]; [by destruct b|]. exact IH. Qed.

Lemma prefix_split key s : String.prefix key s = true → ∃ b, s = key +:+ b.
Proof.
  revert s. induction key as [|c key IH]; intros s; [by exists s|].
  destruct s as [|d s]; [done|]. cbn. destruct (ascii_dec c d) as [->|]; [|done].
  intros (b & ->)%IH. by exists b.
Qed.

Lemma find_text_Some key source s n :
  key ≠ "" → find_text key s = Some n →
  ∃ a b, s = a +:+ key +:+ b ∧ String.length a = n ∧
         subst key source 0 s = a +:+ source +:+ subst key source 0 b.
Proof.
  intros Hk. revert n. induction s as [|c s IH]; intros n.
  - cbn [find_text]. destruct (String.prefix key "") eqn:Ep; [|done]. by destruct key.
  - cbn [find_text]. destruct (String.prefix key (String c s)) eqn:Ep.
    + intros [= <-]. destruct (prefix_split _ _ Ep) as [b Hb]. exists "", b.
      split; [done|]. split; [done|]. cbn [subst]. rewrite Ep, string_app_nil. f_equal.
      destruct key as [|d key]; [done|]. injection Hb as -> ->. cbn [String.length].
      replace (S (String.length key) - 1)%nat with (String.length key) by lia. apply subst_skip.
    + destruct (find_text key s) as [k|]; [|done]. intros [= <-].
      destruct (IH k eq_refl) as (a & b & -> & Ha & Hs). exists (String c a), b.
      split; [done|]. cbn [String.length subst]. rewrite Ha. split; [done|].
      rewrite Ep. by rewrite Hs.
Qed.

Lemma replace_loop_spec fuel key source before rest :
  key ≠ "" → (String.length rest < fuel)%nat →
  replace_loop fuel key source (String.length before) (before +:+ rest) =
    Some (before +:+ subst key source 0 rest).
Proof.
  intros Hk. revert before rest. induction fuel as [|fuel IH]; intros before rest Hf; [lia|].
  cbn [replace_loop]. unfold find_text_from. rewrite substr_from_app.
  destruct (find_text key rest) as [n|] eqn:Ef; cbn [fmap option_fmap option_map].
  2: { by rewrite find_text_None. }
  destruct (find_text_Some key source rest n Hk Ef) as (a & b & -> & <- & Hs). rewrite Hs.
  assert (Hl : (1 <= String.length key)%nat) by (destruct key; [done|cbn; lia]).
  rewrite !string_length_app in Hf. specialize (IH (before +:+ a +:+ source) b).
  rewrite !string_length_app in IH. rewrite Nat.add_assoc in IH. unfold replace_at.
  rewrite <- (string_length_app before a).
  replace (before +:+ a +:+ key +:+ b) with ((before +:+ a) +:+ key +:+ b) at 1
    by (by rewrite !string_app_assoc).
  rewrite substr_app_0.
  rewrite <- (string_length_app (before +:+ a) key).
  replace (before +:+ a +:+ key +:+ b) with (((before +:+ a) +:+ key) +:+ b)
    by (by rewrite !string_app_assoc).
  rewrite substr_from_app, string_length_app.
  rewrite !string_app_assoc in *. apply IH. lia.
Qed.

(** The topic is the format with every place holder replaced by the
    source, left to right: the loop ends on every format, text without a place
    holder is kept, and what follows the first place holder is treated the same
    way, the inserted source never being searched again. *)
Theorem formatTopic_spec fmt source :
  formatTopic fmt source = Some (subst source_key source 0 fmt) ∧
  match find_text source_key fmt with
  | None => formatTopic fmt source = Some fmt
  | Some n => ∃ a b, fmt = a +:+ source_key +:+ b ∧ String.length a = n ∧
      formatTopic fmt source = Some (a +:+ source +:+ subst source_key source 0 b)
  end.
Proof.
  assert (E : formatTopic fmt source = Some (subst source_key source 0 fmt)).
  { apply (replace_loop_spec _ source_key source "" fmt); [done|lia]. }
  split; [done|]. rewrite E. destruct (find_text source_key fmt) as [n|] eqn:Ef.
  - destruct (find_text_Some source_key source fmt n) as (a & b & -> & Ha & ->); eauto.
  - by rewrite find_text_None.
Qed.

(** ** The manager *)

(** What [Init] and [SetMqttPublishConfig] read from the configuration. *)
Record settings := {
  interval_sec : Z;
  simple_json4log : bool;
  source_id : string;
  topic_fmt : string;
  qos : Z;
  retain_ : bool;
  start_time : Z
}.

(** Two of the JSON members are null at first, which is [None]; [hm_worker] is
    whether the thread object is joinable. *)
Record HeartbeatManager (J P : Type) := {
  hm_running : bool;
  hm_worker : bool;
  hm_publisher : option P;
  hm_settings : settings;
  hm_seq : Z;
  hm_config : option J;
  hm_data : option J
}.
Arguments hm_running {J P} _.
Arguments hm_worker {J P} _.
Arguments hm_publisher {J P} _.
Arguments hm_settings {J P} _.
Arguments hm_seq {J P} _.
Arguments hm_config {J P} _.
Arguments hm_data {J P} _.

(** The MQTT publisher: [Publish(topic, payload, qos, retain)], which may throw. *)
Class Publisher (P : Type) := {
  pub_Publish : string → string → Z → bool → P → result bool * P
}.

Definition settings_default : settings :=
  {| interval_sec := 5; simple_json4log := false; source_id := ""; topic_fmt := "system/heartbeats";
     qos := 1; retain_ := false; start_time := 0 |}.

Section manager.
Context {J : Type} `{JsonItems J, !JsonNumbers J} {P : Type} `{Publisher P}.
Implicit Types (m : HeartbeatManager J P).

Definition HeartbeatManager_new : HeartbeatManager J P :=
  {| hm_running := false; hm_worker := false; hm_publisher := None; hm_settings := settings_default;
     hm_seq := 0; hm_config := None; hm_data := None |}.

Definition with_threads (running worker : bool) m : HeartbeatManager J P :=
  {| hm_running := running; hm_worker := worker; hm_publisher := hm_publisher m;
     hm_settings := hm_settings m; hm_seq := hm_seq m; hm_config := hm_config m; hm_data := hm_data m |}.
Definition with_publisher (p : option P) (seq : Z) m : HeartbeatManager J P :=
  {| hm_running := hm_running m; hm_worker := hm_worker m; hm_publisher := p;
     hm_settings := hm_settings m; hm_seq := seq; hm_config := hm_config m; hm_data := hm_data m |}.
Definition with_config (config : option J) m : HeartbeatManager J P :=
  {| hm_running := hm_running m; hm_worker := hm_worker m; hm_publisher := hm_publisher m;
     hm_settings := hm_settings m; hm_seq := hm_seq m; hm_config := config; hm_data := hm_data m |}.
Definition with_settings (c : settings) m : HeartbeatManager J P :=
  {| hm_running := hm_running m; hm_worker := hm_worker m; hm_publisher := hm_publisher m;
     hm_settings := c; hm_seq := hm_seq m; hm_config := hm_config m; hm_data := hm_data m |}.
Definition with_data (data : option J) m : HeartbeatManager J P :=
  {| hm_running := hm_running m; hm_worker := hm_worker m; hm_publisher := hm_publisher m;
     hm_settings := hm_settings m; hm_seq := hm_seq m; hm_config := hm_config m; hm_data := data |}.

(** The publisher of the MQTT service may be null. *)
Definition SetPublisher (service : option P) m : HeartbeatManager J P :=
  with_publisher service (hm_seq m) m.

Definition SetMqttPublishConfig (topic : string) (q : Z) (r : bool) m : HeartbeatManager J P :=
  let c := hm_settings m in
  with_settings {| interval_sec := interval_sec c; simple_json4log := simple_json4log c;
                   source_id := source_id c;
                   topic_fmt := match topic with EmptyString => topic_fmt c | _ => topic end;
                   qos := q; retain_ := r; start_time := start_time c |} m.

(** [config_.value(key, default)], which throws on null too. *)
Definition config_value {A} (get : J → result A) (m : HeartbeatManager J P) (key : string) (default : A)
    : result A :=
  match hm_config m with
  | None => Err (other_error "[json.exception.type_error.306] cannot use value() with null")
  | Some cfg => j_value get cfg key default
  end.

(** Each assignment of [Init] takes effect when its value is read. *)
Definition assign {A} (get : HeartbeatManager J P → result A) (set : A → settings → settings)
    : io (HeartbeatManager J P) unit :=
  λ m, match get m with
       | Ok a => (Ok tt, with_settings (set a (hm_settings m)) m)
       | Err ex => (Err ex, m)
       end.

Definition set_interval a (c : settings) : settings :=
  {| interval_sec := a; simple_json4log := simple_json4log c; source_id := source_id c;
     topic_fmt := topic_fmt c; qos := qos c; retain_ := retain_ c; start_time := start_time c |}.
Definition set_simple a (c : settings) : settings :=
  {| interval_sec := interval_sec c; simple_json4log := a; source_id := source_id c;
     topic_fmt := topic_fmt c; qos := qos c; retain_ := retain_ c; start_time := start_time c |}.
Definition set_source a (c : settings) : settings :=
  {| interval_sec := interval_sec c; simple_json4log := simple_json4log c; source_id := a;
     topic_fmt := topic_fmt c; qos := qos c; retain_ := retain_ c; start_time := start_time c |}.
Definition set_topic a (c : settings) : settings :=
  {| interval_sec := interval_sec c; simple_json4log := simple_json4log c; source_id := source_id c;
     topic_fmt := a; qos := qos c; retain_ := retain_ c; start_time := start_time c |}.
Definition set_qos a (c : settings) : settings :=
  {| interval_sec := interval_sec c; simple_json4log := simple_json4log c; source_id := source_id c;
     topic_fmt := topic_fmt c; qos := a; retain_ := retain_ c; start_time := start_time c |}.
Definition set_retain a (c : settings) : settings :=
  {| interval_sec := interval_sec c; simple_json4log := simple_json4log c; source_id := source_id c;
     topic_fmt := topic_fmt c; qos := qos c; retain_ := a; start_time := start_time c |}.
Definition set_start a (c : settings) : settings :=
  {| interval_sec := interval_sec c; simple_json4log := simple_json4log c; source_id := source_id c;
     topic_fmt := topic_fmt c; qos := qos c; retain_ := retain_ c; start_time := a |}.

(** [host] is what [gethostname] gives, [None] when it fails. *)
Definition source_or_host (host : option string) (source : string) : string :=
  match source with
  | EmptyString => match host with Some hn => hn | None => "unknown" end
  | _ => source
  end.

Definition Init (config : J) (host : option string) (now : Z) : io (HeartbeatManager J P) unit :=
  λ m,
  (_ ← (λ m, (Ok tt, with_config (Some config) m));
   _ ← io_lift (j_dump config);
   _ ← assign (λ m, config_value j_get_int m "interval_sec" 5) set_interval;
   _ ← assign (λ m, config_value j_get_bool m "simple_json4log" false) set_simple;
   _ ← assign (λ m, config_value j_get_string m "source_id" "") set_source;
   _ ← assign (λ m, Ok (source_or_host host (source_id (hm_settings m)))) set_source;
   _ ← assign (λ m, config_value j_get_string m "topic_fmt" (topic_fmt (hm_settings m))) set_topic;
   _ ← assign (λ m, config_value j_get_int m "qos" (qos (hm_settings m))) set_qos;
   _ ← assign (λ m, config_value j_get_bool m "retain" (retain_ (hm_settings m))) set_retain;
   assign (λ _, Ok now) set_start) m.

(** [get<nlohmann::json>()], which takes anything. *)
Definition j_get_json (v : J) : result J := Ok v.

(** [BuildHeartbeat] up to its critical section: the new heartbeat, and the
    summary of the edges stored in the old one.  [now], [now'] are the two
    readings of the clock, [edges] the answer of the edge manager. *)
Definition BuildHeartbeat_edge (pid now now' : Z) (edges : result J) : io (HeartbeatManager J P) J :=
  λ m,
  (base ← io_lift (config_value j_get_json m "base" (j_object []));
   base ← io_lift (j_set base "pid" (j_number pid));
   base ← io_lift (j_set base "timestamp" (j_number now));
   base ← io_lift (j_set base "uptime_sec" (j_number (now' - start_time (hm_settings m))));
   extra ← io_lift (config_value j_get_json m "extra" (j_object []));
   summary ← io_lift edges;
   data ← io_lift (match hm_data m with
                   | None => Ok (j_object [("edge_summary", summary)])
                   | Some data => j_set data "edge_summary" summary
                   end);
   (λ m, (Ok (j_object [("base", base); ("extra", extra)]), with_data (Some data) m))) m.

(** The critical section. *)
Definition BuildHeartbeat_store (hb : J) m : HeartbeatManager J P := with_data (Some hb) m.

Definition GetHeartbeatSnapshot m : option J := hm_data m.
Definition GetInitConfig m : option J := hm_config m.

(** Only the dump can fail; the turn catches it. *)
Definition LogHeartbeatData m : result unit :=
  match GetHeartbeatSnapshot m with
  | None => Ok tt
  | Some snapshot =>
      if simple_json4log (hm_settings m) then
        match j_find snapshot "base" with
        | Some base => _ ← j_dump base; Ok tt
        | None => _ ← j_dump snapshot; Ok tt
        end
      else _ ← j_dump snapshot; Ok tt
  end.

Definition SendHeartbeat m : result unit :=
  sender ← config_value j_get_string m "sender" "log";
  if String.eqb sender "log" then LogHeartbeatData m else Ok tt.

(** The message and whether it was published; a missing publisher, and an
    exception of the publisher, are logged.  An exception of the dump leaves. *)
Definition SendOnceByMQTT (now : Z) : io (HeartbeatManager J P) bool :=
  λ m,
  match hm_publisher m with
  | None => (Ok false, m)
  | Some p =>
      let c := hm_settings m in
      let seq := wrapu 64 (hm_seq m + 1) in
      let m := with_publisher (Some p) seq m in
      let payload := j_object
        [("version", j_string "1.0"); ("source", j_string (source_id c)); ("type", j_string "heartbeat");
         ("timestamp", j_number now); ("seq", j_number seq); ("status", j_string "online")] in
      match j_dump payload with
      | Err ex => (Err ex, m)
      | Ok s =>
          match formatTopic (topic_fmt c) (source_id c) with
          | None => (Ok false, m)
          | Some topic =>
              let '(r, p) := pub_Publish topic s (qos c) (retain_ c) p in
              let m := with_publisher (Some p) seq m in
              match r with Ok ok => (Ok ok, m) | Err _ => (Ok false, m) end
          end
      end
  end.

(** Whether a thread is created, and the object; [None] is the assignment to a
    joinable thread object, which ends the program. *)
Definition Start m : option (bool * HeartbeatManager J P) :=
  if hm_running m then Some (false, m)
  else if hm_worker m then None
  else Some (true, with_threads true true m).

(** [Stop] up to the join, and whether it goes on to it. *)
Definition Stop_flag m : bool * HeartbeatManager J P :=
  if hm_running m then (hm_worker m, with_threads false (hm_worker m) m) else (false, m).
Definition Stop_joined m : HeartbeatManager J P := with_threads (hm_running m) false m.

(** Seconds slept between two turns while the manager runs. *)
Definition pause m : nat := Z.to_nat (interval_sec (hm_settings m)).

(** ** The worker and the calls of other threads *)

(** Where the worker is: about to test [running_], between the two halves of
    [BuildHeartbeat], or gone. *)
Inductive hb_pc := hb_none | hb_top | hb_store (hb : J).

Record hb_system := {
  hb_m : HeartbeatManager J P;
  hb_w : hb_pc;
  hb_joining : bool;      (** a caller of [Stop] is in the join *)
  hb_dead : bool          (** [std::terminate] was called *)
}.

Definition hb_with (m : HeartbeatManager J P) (w : hb_pc) (s : hb_system) : hb_system :=
  {| hb_m := m; hb_w := w; hb_joining := hb_joining s; hb_dead := hb_dead s |}.

Inductive hb_step : hb_system → hb_system → Prop :=
| step_init s config host now r m :
    hb_dead s = false → Init config host now (hb_m s) = (r, m) → hb_step s (hb_with m (hb_w s) s)
| step_publisher s p :
    hb_dead s = false → hb_step s (hb_with (SetPublisher p (hb_m s)) (hb_w s) s)
| step_mqtt s topic q r :
    hb_dead s = false → hb_step s (hb_with (SetMqttPublishConfig topic q r (hb_m s)) (hb_w s) s)
| step_start s created m :
    hb_dead s = false → Start (hb_m s) = Some (created, m) →
    hb_step s (hb_with m (if created then hb_top else hb_w s) s)
| step_start_joinable s :
    hb_dead s = false → Start (hb_m s) = None →
    hb_step s {| hb_m := hb_m s; hb_w := hb_w s; hb_joining := hb_joining s; hb_dead := true |}
| step_stop s join m :
    hb_dead s = false → Stop_flag (hb_m s) = (join, m) →
    hb_step s {| hb_m := m; hb_w := hb_w s; hb_joining := hb_joining s || join; hb_dead := false |}
| step_joined s :
    hb_dead s = false → hb_joining s = true → hb_w s = hb_none →
    hb_step s {| hb_m := Stop_joined (hb_m s); hb_w := hb_none; hb_joining := false; hb_dead := false |}
| step_exit s :
    hb_dead s = false → hb_w s = hb_top → hm_running (hb_m s) = false →
    hb_step s (hb_with (hb_m s) hb_none s)
| step_build s pid now now' edges r m :
    hb_dead s = false → hb_w s = hb_top → hm_running (hb_m s) = true →
    BuildHeartbeat_edge pid now now' edges (hb_m s) = (r, m) →
    hb_step s (hb_with m (match r with Ok hb => hb_store hb | Err _ => hb_top end) s)
| step_store s hb :
    hb_dead s = false → hb_w s = hb_store hb →
    hb_step s (hb_with (BuildHeartbeat_store hb (hb_m s)) hb_top s).

Definition hb_new : hb_system :=
  {| hb_m := HeartbeatManager_new; hb_w := hb_none; hb_joining := false; hb_dead := false |}.
End manager.
Arguments hb_pc J : clear implicits.
Arguments hb_system J P : clear implicits.

(** ** The snapshot *)

Section heartbeat.
Context {J : Type} `{JsonItems J, !JsonLaws J, !JsonItemsLaws J, !JsonNumbers J} {P : Type} `{Publisher P}.
Implicit Types (m : HeartbeatManager J P) (s : hb_system J P).

(** A heartbeat has the process fields in its base, and no edge summary. *)
Definition heartbeat_shape (v : J) : Prop :=
  j_find v "edge_summary" = None ∧ is_Some (j_find v "extra") ∧
  ∃ base, j_find v "base" = Some base ∧
    is_Some (j_find base "pid") ∧ is_Some (j_find base "timestamp") ∧ is_Some (j_find base "uptime_sec").

Lemma assign_frame {A} (get : HeartbeatManager J P → result A) set m r m' :
  assign get set m = (r, m') →
  hm_data m' = hm_data m ∧ hm_config m' = hm_config m ∧
  hm_running m' = hm_running m ∧ hm_worker m' = hm_worker m.
Proof. unfold assign. destruct (get m); by intros [= <- <-]. Qed.

(** What a sequence of assignments leaves alone. *)
Definition same_threads m m' : Prop :=
  hm_data m' = hm_data m ∧ hm_running m' = hm_running m ∧ hm_worker m' = hm_worker m ∧
  (is_Some (hm_config m) → is_Some (hm_config m')).

Definition keeps_threads {A} (f : io (HeartbeatManager J P) A) : Prop :=
  ∀ m r m', f m = (r, m') → same_threads m m'.

Lemma keeps_bind {A B} (f : io (HeartbeatManager J P) A) (g : A → io (HeartbeatManager J P) B) :
  keeps_threads f → (∀ a, keeps_threads (g a)) → keeps_threads (f ≫= g).
Proof.
  intros Hf Hg m r m'. unfold mbind, io_bind. destruct (f m) as [[a|ex] m1] eqn:Ef.
  - intros Eg. apply Hf in Ef as (E1 & E2 & E3 & E4). apply Hg in Eg as (F1 & F2 & F3 & F4).
    split_and!; [congruence..|auto].
  - intros [= <- <-]. by eapply Hf.
Qed.

Lemma keeps_assign {A} (get : HeartbeatManager J P → result A) set : keeps_threads (assign get set).
Proof. intros m r m' (E1 & E2 & E3 & E4)%assign_frame. split_and!; congruence. Qed.

Lemma keeps_lift {A} (x : result A) : keeps_threads (io_lift x).
Proof. intros m r m' [= <- <-]. by split_and!. Qed.

Lemma Init_frame config host now : keeps_threads (Init config host now).
Proof.
  apply keeps_bind; [|intros []].
  - intros m1 r1 m2 [= <- <-]. by split_and!.
  - apply keeps_bind; [apply keeps_lift|]. intros _.
    do 7 (apply keeps_bind; [apply keeps_assign|intros []]). apply keeps_assign.
Qed.

Lemma build_edge_spec pid now now' edges m r m' :
  BuildHeartbeat_edge pid now now' edges m = (r, m') →
  hm_running m' = hm_running m ∧ hm_worker m' = hm_worker m ∧ hm_config m' = hm_config m ∧
  match r with
  | Ok hb => heartbeat_shape hb ∧ is_Some (hm_config m)
  | Err _ => hm_data m' = hm_data m
  end.
Proof.
  unfold BuildHeartbeat_edge, mbind, io_bind, io_lift.
  destruct (config_value j_get_json m "base" _) as [base|ex] eqn:Ec; [|by intros [= <- <-]].
  assert (Hc : is_Some (hm_config m)) by (unfold config_value in Ec; by destruct (hm_config m)).
  destruct (j_set base "pid" _) as [b1|ex] eqn:E1; [|by intros [= <- <-]].
  destruct (j_set b1 "timestamp" _) as [b2|ex] eqn:E2; [|by intros [= <- <-]].
  destruct (j_set b2 "uptime_sec" _) as [b3|ex] eqn:E3; [|by intros [= <- <-]].
  destruct (config_value j_get_json m "extra" _) as [extra|ex]; [|by intros [= <- <-]].
  destruct edges as [summary|ex]; [|by intros [= <- <-]].
  destruct (match hm_data m with None => _ | Some _ => _ end) as [data|ex]; [|by intros [= <- <-]].
  intros [= <- <-]. split_and!; try done. unfold heartbeat_shape. rewrite !j_find_object.
  cbn [assoc_find]. repeat (rewrite decide_True by done) || rewrite decide_False by done.
  apply j_set_spec in E1 as (V1 & F1 & _), E2 as (V2 & F2 & O2), E3 as (V3 & F3 & O3).
  split; [done|]. split; [by eexists|]. exists b3. split; [done|].
  rewrite F3, !O3, F2, O2, F1 by done. split_and!; by eexists.
Qed.

(** The invariant of the threads and the data. *)
Record hb_inv s : Prop := {
  hi_alive : hb_w s ≠ hb_none → hm_worker (hb_m s) = true;
  hi_running : hm_running (hb_m s) = true → hb_w s ≠ hb_none;
  hi_joining : hb_joining s = true → hm_worker (hb_m s) = true ∧ hm_running (hb_m s) = false;
  hi_data : match hb_w s with
            | hb_store hb => heartbeat_shape hb ∧ is_Some (hm_config (hb_m s))
            | _ => ∀ v, hm_data (hb_m s) = Some v → heartbeat_shape v
            end;
  hi_null : hm_config (hb_m s) = None → hm_data (hb_m s) = None
}.

Lemma hb_inv_same s m' : hb_inv s → same_threads (hb_m s) m' → hb_inv (hb_with m' (hb_w s) s).
Proof.
  intros [Ha Hr Hj Hd Hn] (Ed & Er & Ew & Ec). split; cbn; rewrite ?Er, ?Ew, ?Ed; try done.
  - destruct (hb_w s); try done. split; [apply Hd|]. apply Ec, Hd.
  - intros E. apply Hn. destruct (hm_config (hb_m s)); [|done].
    destruct (Ec ltac:(by eexists)) as [c Hc]. congruence.
Qed.

Lemma hb_inv_step s s' : hb_dead s' = false → hb_inv s → hb_step s s' → hb_inv s'.
Proof.
  intros Hlive Hs Hstep. destruct Hstep as [s config host now r m _ E|s p _|s topic q r _|s created m _ E|s _ E|s join m _ E|s _ Hj Hw|s _ Hw Hr|s pid now now' edges r m _ Hw Hr E|s hb _ Hw].
  - apply hb_inv_same; [done|by eapply Init_frame].
  - by apply hb_inv_same.
  - by apply hb_inv_same.
  - unfold Start in E. destruct (hm_running (hb_m s)) eqn:Er; [|destruct (hm_worker (hb_m s)) eqn:Ew; [done|]];
      injection E as <- <-; [by destruct s|]. destruct Hs as [Ha Hr Hj Hd Hn].
    assert (Hnone : hb_w s = hb_none) by (destruct (hb_w s); [done|by rewrite Ha in Ew..]).
    split; cbn; try done.
    + intros Hjj. destruct (Hj Hjj). congruence.
    + by rewrite Hnone in Hd.
  - done.
  - destruct Hs as [Ha Hr Hj Hd Hn]. unfold Stop_flag in E.
    destruct (hm_running (hb_m s)) eqn:Er; injection E as <- <-; cbn; split; cbn; rewrite ?Er; try done.
    + intros [Hx|Hx]%orb_prop; [by destruct (Hj Hx)|done].
    + rewrite orb_false_r. intros Hx. by destruct (Hj Hx).
  - destruct Hs as [Ha Hr Hjj Hd Hn]. split; cbn; try done.
    + intros Hx. by destruct (Hr Hx).
    + by rewrite Hw in Hd.
  - destruct Hs as [Ha Hrr Hj Hd Hn]. rewrite Hw in *. split; cbn; try done.
    intros Hx. congruence.
  - destruct Hs as [Ha Hrr Hj Hd Hn]. rewrite Hw in *.
    apply build_edge_spec in E as (E1 & E2 & E3 & E4). split; cbn; rewrite ?E1, ?E2, ?E3; try done.
    + intros _. by apply Ha.
    + by destruct r.
    + destruct r; [done|]. by rewrite E4.
    + destruct r as [hb|ex]; [destruct E4 as [_ [c Hc]]; congruence|by rewrite E4].
  - destruct Hs as [Ha Hrr Hj Hd Hn]. rewrite Hw in *. split; cbn; try done.
    + intros _. by apply Ha.
    + intros v [= <-]. apply Hd.
    + destruct Hd as [_ [c Hc]]. congruence.
Qed.

Lemma hb_dead_final s s' : hb_step s s' → hb_dead s = false.
Proof. by destruct 1. Qed.

Lemma hb_inv_reachable s :
  rtc hb_step (hb_new : hb_system J P) s → hb_dead s = false → hb_inv s.
Proof.
  intros Hr Hlive. assert (H0' : hb_inv (hb_new : hb_system J P)) by (by split; cbn).
  induction Hr as [|s1 s2 s3 H12 H23 IH]; [done|]. apply (IH Hlive).
  eapply hb_inv_step; [|done..]. destruct H23 as [|s2 s4 s5 Hst _]; [done|]. by eapply hb_dead_final.
Qed.

(** After any calls of clients and turns of the worker that have not
    ended the program, a snapshot taken between two turns is null or a heartbeat
    with its process fields and extra section and never the edge summary that
    each turn stores first; it stays null as long as nobody called Init; and a
    worker runs at least while the manager is started. *)
Theorem heartbeat_snapshot s :
  rtc hb_step (hb_new : hb_system J P) s → hb_dead s = false →
  (∀ hb, hb_w s ≠ hb_store hb) →
  (∀ v, GetHeartbeatSnapshot (hb_m s) = Some v → heartbeat_shape v) ∧
  (GetInitConfig (hb_m s) = None → GetHeartbeatSnapshot (hb_m s) = None) ∧
  (hm_running (hb_m s) = true → hb_w s ≠ hb_none).
Proof.
  intros Hr Hlive Hw. pose proof (hb_inv_reachable s Hr Hlive) as Hs.
  destruct Hs as [Ha Hrr Hj Hd Hn]. split; [|done]. destruct (hb_w s) as [| |hb]; try done.
  by destruct (Hw hb).
Qed.
End heartbeat.

(** ** A concrete run *)

Record demo_publisher := { dp_topics : list string }.
#[export] Instance demo_publisher_pub : Publisher demo_publisher := {|
  pub_Publish topic _ _ _ p := (Ok true, {| dp_topics := dp_topics p ++ [topic] |})
|}.

Definition demo_config : jvalue :=
  VObj [("base", VObj [("role", VStr "uav")]); ("interval_sec", VNum 0);
        ("source_id", VStr "x{source}"); ("topic_fmt", VStr "a/{source}/b{source}")].

Definition demo_inited : HeartbeatManager jvalue demo_publisher :=
  (Init demo_config None 100 HeartbeatManager_new).2.

(** C39 witness: the start, one turn, the snapshot after it. *)
Lemma heartbeat_snapshot_witness :
  ∃ (s : hb_system jvalue demo_publisher) v, rtc hb_step hb_new s ∧
    GetHeartbeatSnapshot (hb_m s) = Some v ∧ heartbeat_shape v.
Proof.
  assert (Hrun : ∃ s : hb_system jvalue demo_publisher, rtc hb_step hb_new s ∧ hb_dead s = false ∧
            hb_w s = hb_top ∧ is_Some (hm_data (hb_m s))).
  { eexists. split.
    - eapply rtc_l; [by eapply (step_init _ demo_config None 100)|].
      eapply rtc_l; [by eapply step_start|].
      eapply rtc_l; [by eapply (step_build _ 7 105 105 (Ok (VObj [("edges", VNum 2)])))|].
      eapply rtc_l; [by eapply step_store|]. apply rtc_refl.
    - split; [reflexivity|]. split; [reflexivity|]. by eexists. }
  destruct Hrun as (s & Hr & Hd & Hw & [v Hv]). exists s, v. split; [done|]. split; [done|].
  destruct (heartbeat_snapshot s Hr Hd) as (Hshape & _); [by rewrite Hw|]. by apply Hshape.
Defined.

(** While the new heartbeat is not stored yet, the old one shows the summary. *)
Lemma edge_summary_discarded :
  let half := BuildHeartbeat_edge 7 105 105 (Ok (VNum 2)) demo_inited in
  (GetHeartbeatSnapshot half.2 = Some (VObj [("edge_summary", VNum 2)])) ∧
  (∀ hb, half.1 = Ok hb → j_find hb "edge_summary" = None) ∧ pause demo_inited = 0%nat.
Proof. split; [reflexivity|]. split; [|reflexivity]. by intros hb [= <-]. Qed.

(** Without a configuration every turn throws. *)
Lemma turn_without_config pid now now' edges :
  ∃ ex, BuildHeartbeat_edge pid now now' edges (HeartbeatManager_new : HeartbeatManager jvalue demo_publisher)
        = (Err ex, HeartbeatManager_new).
Proof. by eexists. Qed.

(** A [Start] while a [Stop] waits in its join assigns to a joinable thread. *)
Lemma start_during_stop :
  ∃ s : hb_system jvalue demo_publisher, rtc hb_step hb_new s ∧ hb_dead s = true.
Proof.
  eexists. split.
  - eapply rtc_l; [by eapply step_start|].
    eapply rtc_l; [by eapply step_stop|].
    eapply rtc_l; [by eapply step_start_joinable|]. apply rtc_refl.
  - reflexivity.
Qed.

(** The message goes to the topic of the format, the source inserted verbatim. *)
Lemma demo_topic :
  (SendOnceByMQTT 9 (SetPublisher (Some {| dp_topics := [] |}) demo_inited)).1 = Ok true ∧
  formatTopic "a/{source}/b{source}" "x{source}" = Some "a/x{source}/bx{source}".
Proof. split; reflexivity. Qed.
