(* ===== verification/AirdropLock.v ===== *)
(** * The airdrop lock

    Model of my_airdrop_lock: configuration, normalisation of the duty-cycle
    command, life cycle, and the commands sent over the serial port, which is the
    interface [SerialPort].  Each public method holds the mutex for its whole
    body and is one operation. *)

From S2P Require Import Prelude Text Json SerialPort MySerial Double GasDetectorConfig.
From stdpp Require Import pretty.
From Stdlib Require Import Ascii.

Local Open Scope Z_scope.

Inductive AirdropLockState := Uninitialized | Disabled | Closed | Open | Error.

#[export] Instance AirdropLockState_eq_dec : EqDecision AirdropLockState.
Proof. solve_decision. Defined.

Definition StateToString (s : AirdropLockState) : string :=
  match s with
  | Uninitialized => "uninitialized"
  | Disabled => "disabled"
  | Closed => "closed"
  | Open => "open"
  | Error => "error"
  end.

Record AirdropLockConfig := {
  al_enabled : bool;
  al_device : string;
  al_baud_rate : Z;
  al_data_bits : Z;
  al_stop_bits : Z;
  al_default_pwm_frequency : string;
  al_open_cmd : string;
  al_lock_cmd : string
}.

Definition AirdropLockConfig_default : AirdropLockConfig :=
  {| al_enabled := false; al_device := "/dev/ttyUSB0"; al_baud_rate := 9600; al_data_bits := 8;
     al_stop_bits := 1; al_default_pwm_frequency := "50"; al_open_cmd := "D005";
     al_lock_cmd := "D010" |}.

(** ** Text *)

(** [std::isprint] and [std::isdigit] in the C locale. *)
Definition isprint (c : ascii) : bool :=
  let n := Ascii.nat_of_ascii c in (32 <=? n)%nat && (n <=? 126)%nat.

Definition IsAsciiCommand (command : string) : bool :=
  match command with EmptyString => false | _ => all_chars isprint command end.

(** [while (digits.size() < 3) digits.insert(digits.begin(), '0')]. *)
Definition pad3 (digits : string) : string := pad_zeros 3 digits.

(** [value.erase(value.begin())] of a leading F or f. *)
Definition drop_F (value : string) : string :=
  match value with
  | String c s => if Ascii.eqb c "F" || Ascii.eqb c "f" then s else value
  | EmptyString => value
  end.

Definition NormalizeDutyCycleCommand (duty_cycle : string) : result string :=
  match TrimCopy duty_cycle with
  | EmptyString => Err (invalid_argument "占空比/频率不能为空")
  | value =>
      let value := drop_F value in
      match value with
      | EmptyString => Err (invalid_argument "占空比/频率必须是数字，示例：50 或 F050")
      | _ =>
          if negb (all_chars is_digit value)
          then Err (invalid_argument "占空比/频率必须是数字，示例：50 或 F050")
          else
            numeric_value ← stoi value;
            if (numeric_value <? 0) || (999 <? numeric_value)
            then Err (invalid_argument "占空比/频率范围必须在 0~999 之间")
            else Ok ("F" +:+ pad3 (pretty numeric_value))
      end
  end.

(** ** Configuration *)

Section config.
Context {J : Type} `{JsonOps J}.

Definition JsonStringOrNumber (json : J) (key default_value : string) : result string :=
  match present json key with
  | None => Ok default_value
  | Some value =>
      match j_view value with
      | JString s => Ok s
      | JUnsigned _ | JInteger _ | JFloat => j_dump value
      | _ => Err (invalid_argument ("字段 " +:+ key +:+ " 必须是字符串或数字"))
      end
  end.

Definition JsonIntValue (json : J) (key : string) (default_value : Z) : result Z :=
  match present json key with
  | None => Ok default_value
  | Some value =>
      match j_view value with
      | JUnsigned n | JInteger n => Ok (wraps 32 n)
      | JString s => stoi s
      | _ => Err (invalid_argument ("字段 " +:+ key +:+ " 必须是整数或整数字符串"))
      end
  end.

(** The checks at the end of [ParseConfig]. *)
Definition check_config (parsed : AirdropLockConfig) : result AirdropLockConfig :=
  if al_enabled parsed && match al_device parsed with EmptyString => true | _ => false end
  then Err (invalid_argument "enabled=true 时 device 不能为空")
  else if al_baud_rate parsed <=? 0 then Err (invalid_argument "baud_rate 必须大于 0")
  else if (al_data_bits parsed <? 5) || (8 <? al_data_bits parsed)
  then Err (invalid_argument "data_bits 必须在 5~8 范围内")
  else if negb (al_stop_bits parsed =? 1) && negb (al_stop_bits parsed =? 2)
  then Err (invalid_argument "stop_bits 当前仅支持 1 或 2")
  else if negb (IsAsciiCommand (al_open_cmd parsed)) || negb (IsAsciiCommand (al_lock_cmd parsed))
  then Err (invalid_argument "open_cmd 和 lock_cmd 必须是非空可打印 ASCII 命令")
  else Ok parsed.

Definition ParseConfig (config : J) : result AirdropLockConfig :=
  if negb (j_is_object config) then Err (invalid_argument "空投锁初始化参数必须是 JSON 对象")
  else
    let parsed := AirdropLockConfig_default in
    enabled ← j_value j_get_bool config "enabled" (al_enabled parsed);
    device ← JsonStringOrNumber config "device" (al_device parsed);
    baud_rate ← JsonIntValue config "baud_rate" (al_baud_rate parsed);
    data_bits ← JsonIntValue config "data_bits" (al_data_bits parsed);
    stop_bits ← JsonIntValue config "stop_bits" (al_stop_bits parsed);
    frequency ← JsonStringOrNumber config "default_PWM_frequency" (al_default_pwm_frequency parsed);
    open_cmd ← JsonStringOrNumber config "open_cmd" (al_open_cmd parsed);
    lock_cmd ← JsonStringOrNumber config "lock_cmd" (al_lock_cmd parsed);
    check_config {| al_enabled := enabled; al_device := TrimCopy device; al_baud_rate := baud_rate;
                    al_data_bits := data_bits; al_stop_bits := stop_bits;
                    al_default_pwm_frequency := TrimCopy frequency;
                    al_open_cmd := TrimCopy open_cmd; al_lock_cmd := TrimCopy lock_cmd |}.

Definition ToJson (c : AirdropLockConfig) : J :=
  j_object
    [("enabled", j_bool (al_enabled c));
     ("device", j_string (al_device c));
     ("baud_rate", j_number (al_baud_rate c));
     ("data_bits", j_number (al_data_bits c));
     ("stop_bits", j_number (al_stop_bits c));
     ("default_PWM_frequency", j_string (al_default_pwm_frequency c));
     ("open_cmd", j_string (al_open_cmd c));
     ("lock_cmd", j_string (al_lock_cmd c))].

(** The object [Init] hands to the serial port. *)
Definition serial_config (c : AirdropLockConfig) : J :=
  j_object
    [("device", j_string (al_device c));
     ("baud_rate", j_number (al_baud_rate c));
     ("data_bits", j_number (al_data_bits c));
     ("stop_bits", j_number (al_stop_bits c));
     ("parity", j_string "none");
     ("flowcontrol", j_string "none");
     ("timeout_ms", j_number 1000);
     ("auto_open", j_bool true)].
End config.

(** ** The manager *)

Record AirdropLockManager (J S : Type) := {
  am_initialized : bool;
  am_state : AirdropLockState;
  am_config : AirdropLockConfig;
  am_init_config : J;
  am_last_error : string;
  am_last_command : string;
  am_current_duty_cycle : string;
  am_serial : S
}.
Arguments am_initialized {J S} _.
Arguments am_state {J S} _.
Arguments am_config {J S} _.
Arguments am_init_config {J S} _.
Arguments am_last_error {J S} _.
Arguments am_last_command {J S} _.
Arguments am_current_duty_cycle {J S} _.
Arguments am_serial {J S} _.

Section manager.
Context {J : Type} `{JsonOps J} {S : Type} `{SerialPort J S}.
Implicit Types m : AirdropLockManager J S.

Definition AirdropLockManager_new : AirdropLockManager J S :=
  {| am_initialized := false; am_state := Uninitialized; am_config := AirdropLockConfig_default;
     am_init_config := j_object []; am_last_error := ""; am_last_command := "";
     am_current_duty_cycle := ""; am_serial := sp_init |}.

Definition with_state (i : bool) (s : AirdropLockState) m : AirdropLockManager J S :=
  {| am_initialized := i; am_state := s; am_config := am_config m;
     am_init_config := am_init_config m; am_last_error := am_last_error m;
     am_last_command := am_last_command m; am_current_duty_cycle := am_current_duty_cycle m;
     am_serial := am_serial m |}.
Definition with_serial (s : S) m : AirdropLockManager J S :=
  {| am_initialized := am_initialized m; am_state := am_state m; am_config := am_config m;
     am_init_config := am_init_config m; am_last_error := am_last_error m;
     am_last_command := am_last_command m; am_current_duty_cycle := am_current_duty_cycle m;
     am_serial := s |}.
Definition with_report (error command duty : string) m : AirdropLockManager J S :=
  {| am_initialized := am_initialized m; am_state := am_state m; am_config := am_config m;
     am_init_config := am_init_config m; am_last_error := error;
     am_last_command := command; am_current_duty_cycle := duty; am_serial := am_serial m |}.

Definition SetErrorLocked (error : string) m : AirdropLockManager J S :=
  with_state (am_initialized m) (if al_enabled (am_config m) then Error else Disabled)
    (with_report error (am_last_command m) (am_current_duty_cycle m) m).

(** [SetErrorLocked(error); if (err) *err = last_error_; return false]. *)
Definition failed (error : string) (err : option string) m
    : bool * option string * AirdropLockManager J S :=
  (false, set_err err error, SetErrorLocked error m).

Definition SendCommandLocked (command action_name : string) (err : option string) m
    : bool * option string * AirdropLockManager J S :=
  if negb (am_initialized m) && negb (String.prefix "初始化" action_name)
  then failed "空投锁管理器尚未初始化" err m
  else if negb (al_enabled (am_config m)) then failed "空投锁模块已禁用，拒绝下发设备命令" err m
  else if negb (sp_IsOpen (am_serial m)) then failed "空投锁串口未打开" err m
  else
    let '(written, e, s) := sp_Write (bytes_of_string command) (Some "") (am_serial m) in
    let write_error := default "" e in
    let m := with_serial s m in
    if negb (String.eqb write_error "") || negb (written =? String.length command)%nat
    then failed ("命令发送失败，action=" +:+ action_name +:+ ", command=" +:+ command +:+
                 ", written=" +:+ pretty (Z.of_nat written) +:+ ", error=" +:+ write_error) err m
    else (true, set_err err "", with_report "" command (am_current_duty_cycle m) m).

(** The body of the [try] in [Init]. *)
Definition Init_try (config : J) (err : option string) m
    : result (bool * option string) * AirdropLockManager J S :=
  match ParseConfig config with
  | Err ex => (Err ex, m)
  | Ok c =>
      let m := {| am_initialized := false; am_state := if al_enabled c then Closed else Disabled;
                  am_config := c; am_init_config := config; am_last_error := "";
                  am_last_command := ""; am_current_duty_cycle := "";
                  am_serial := am_serial m |} in
      if negb (al_enabled c) then
        let '(r, s) := sp_Close (am_serial m) in
        let m := with_serial s m in
        match r with
        | Err ex => (Err ex, m)
        | Ok _ => (Ok (true, set_err err ""), with_state true (am_state m) m)
        end
      else
        let '(ok, e, s) := sp_Init (serial_config c) (Some "") (am_serial m) in
        let m := with_serial s m in
        if negb ok then
          let '(b, err, m) := failed ("串口初始化失败: " +:+ default "" e) err m in (Ok (b, err), m)
        else (Ok (true, set_err err ""), with_state true Closed m)
  end.

(** [Init] dumps the configuration for its log line before the [try]. *)
Definition Init (config : J) (err : option string) m
    : result (bool * option string) * AirdropLockManager J S :=
  match j_dump config with
  | Err ex => (Err ex, m)
  | Ok _ =>
      match Init_try config err m with
      | (Ok r, m) => (Ok r, m)
      | (Err ex, m) => let '(b, err, m) := failed (exn_what ex) err m in (Ok (b, err), m)
      end
  end.

Definition Start m : bool := am_initialized m.

(** An exception of [Close] leaves [Stop]. *)
Definition Stop m : result bool * AirdropLockManager J S :=
  let '(r, s) := sp_Close (am_serial m) in
  let m := with_serial s m in
  match r with
  | Err ex => (Err ex, m)
  | Ok _ => (Ok true, with_state false Uninitialized m)
  end.

(** An exception of the normalisation leaves [SetDutyCycle]. *)
Definition SetDutyCycle (duty_cycle : string) (err : option string) m
    : result (bool * option string) * AirdropLockManager J S :=
  match NormalizeDutyCycleCommand duty_cycle with
  | Err ex => (Err ex, m)
  | Ok command =>
      let '(ok, err, m) := SendCommandLocked command "设置占空比/频率" err m in
      if negb ok then (Ok (false, err), m)
      else (Ok (true, err), with_report (am_last_error m) (am_last_command m) (TrimCopy duty_cycle) m)
  end.

Definition SetDutyCycle_int (duty_cycle : Z) (err : option string) m
    : result (bool * option string) * AirdropLockManager J S :=
  SetDutyCycle (pretty duty_cycle) err m.

Definition OpenDropper (err : option string) m : bool * option string * AirdropLockManager J S :=
  let '(ok, err, m) := SendCommandLocked (al_open_cmd (am_config m)) "打开空投锁" err m in
  if negb ok then (false, err, m) else (true, err, with_state (am_initialized m) Open m).

Definition CloseDropper (err : option string) m : bool * option string * AirdropLockManager J S :=
  let '(ok, err, m) := SendCommandLocked (al_lock_cmd (am_config m)) "关闭空投锁" err m in
  if negb ok then (false, err, m) else (true, err, with_state (am_initialized m) Closed m).

(** [FristPowerOnProtection] takes no lock of its own and sleeps a second before
    each of its two parts. *)
Definition protect_duty m : bool * AirdropLockManager J S :=
  match NormalizeDutyCycleCommand (al_default_pwm_frequency (am_config m)) with
  | Err _ => (false, m)
  | Ok duty_cmd =>
      match SetDutyCycle duty_cmd (Some "") m with
      | (Err _, m) | (Ok (false, _), m) => (false, m)
      | (Ok (true, _), m) =>
          (true, with_report (am_last_error m) (am_last_command m) (al_default_pwm_frequency (am_config m)) m)
      end
  end.
Definition protect_lock m : bool * AirdropLockManager J S :=
  let '(ok, _, m) := SendCommandLocked (al_lock_cmd (am_config m)) "关闭空投锁" (Some "") m in (ok, m).

Definition FristPowerOnProtection m : bool * AirdropLockManager J S :=
  let '(ok, m) := protect_duty m in if negb ok then (false, m) else protect_lock m.

Definition GetStatus m : J :=
  j_object
    [("initialized", j_bool (am_initialized m));
     ("enabled", j_bool (al_enabled (am_config m)));
     ("state", j_string (StateToString (am_state m)));
     ("is_open", j_bool (bool_decide (am_state m = Open)));
     ("serial_open", j_bool (sp_IsOpen (am_serial m)));
     ("config", ToJson (am_config m));
     ("init_config", am_init_config m);
     ("current_duty_cycle", j_string (am_current_duty_cycle m));
     ("last_command", j_string (am_last_command m));
     ("last_error", j_string (am_last_error m))].
End manager.

(** ** The duty-cycle command *)

Lemma drop_F_digits s : all_chars is_digit s = true → drop_F s = s.
Proof.
  destruct s as [|c s]; [done|]. cbn [all_chars]. intros [Hc _]%andb_prop. unfold drop_F.
  destruct (Ascii.eqb_spec c "F") as [->|_]; [done|].
  by destruct (Ascii.eqb_spec c "f") as [->|_].
Qed.

Lemma read_digits_nonneg s acc : 0 <= acc → 0 <= (read_digits acc s).1.
Proof.
  revert acc. induction s as [|c s IH]; intros acc Ha; [done|]. cbn [read_digits].
  destruct (digit_value c) as [d|] eqn:Ed; [|done].
  assert (Hd : 0 <= d).
  { revert Ed. unfold digit_value. destruct (_ && _); [|done]. intros [= <-]. lia. }
  specialize (IH (10 * acc + d)). destruct (read_digits _ s). cbn in *. apply IH. lia.
Qed.

Lemma stoi_digits s :
  s ≠ "" → all_chars is_digit s = true →
  stoi s = if decide (ins 32 (read_digits 0 s).1) then Ok (read_digits 0 s).1
           else Err (out_of_range "stoi").
Proof.
  intros Hne Hd. pose proof (read_digits_all 0 s Hd) as Hlen. destruct s as [|c s]; [done|].
  assert (Hc : digit_value c ≠ None).
  { cbn [all_chars] in Hd. apply andb_prop in Hd as [Hc _]. unfold is_digit in Hc.
    by destruct (digit_value c). }
  unfold stoi, sto_signed. cbn [skip_space]. rewrite (digit_not_space c Hc), (digit_not_sign c _ Hc).
  destruct (read_digits 0 (String c s)) as [v n]. cbn [fst snd] in *. by rewrite Hlen.
Qed.

(** The command of a number: F and three digits. *)
Definition duty_command (n : Z) : string := "F" +:+ pad3 (pretty n).

Lemma duty_commands :
  Forall (λ n, NormalizeDutyCycleCommand (duty_command n) = Ok (duty_command n) ∧
               NormalizeDutyCycleCommand (pretty n) = Ok (duty_command n) ∧
               String.length (duty_command n) = 4%nat) (seqZ 0 1000).
Proof.
  assert (Hb : forallb (λ n, match NormalizeDutyCycleCommand (duty_command n),
                                   NormalizeDutyCycleCommand (pretty n) with
                             | Ok a, Ok b => String.eqb a (duty_command n) && String.eqb b (duty_command n)
                             | _, _ => false
                             end && (String.length (duty_command n) =? 4)%nat) (seqZ 0 1000) = true)
    by (vm_compute; reflexivity).
  apply Forall_forall. intros n Hn. rewrite forallb_forall in Hb.
  specialize (Hb n ltac:(by apply list_elem_of_In)). cbn beta in Hb.
  destruct (NormalizeDutyCycleCommand (duty_command n)); [|done].
  destruct (NormalizeDutyCycleCommand (pretty n)); [|done].
  apply andb_prop in Hb as [[->%String.eqb_eq ->%String.eqb_eq]%andb_prop H4%Nat.eqb_eq]. done.
Qed.

Lemma duty_command_fixed n : 0 <= n <= 999 → NormalizeDutyCycleCommand (duty_command n) = Ok (duty_command n).
Proof.
  intros Hn. pose proof duty_commands as Hall. rewrite Forall_forall in Hall.
  apply Hall. apply elem_of_seqZ. lia.
Qed.

(** A duty cycle is accepted exactly when it is, blanks around it aside,
    an optional F or f and digits of value at most 999; the command is then F and
    that value in three digits, whatever the number of leading zeros, and the
    command normalises to itself. *)
Theorem duty_command_spec s :
  (∀ c, NormalizeDutyCycleCommand s = Ok c ↔
     ∃ t, t ≠ "" ∧ all_chars is_digit t = true ∧
          (TrimCopy s = t ∨ TrimCopy s = String "F" t ∨ TrimCopy s = String "f" t) ∧
          (read_digits 0 t).1 <= 999 ∧ c = duty_command (read_digits 0 t).1) ∧
  (∀ c, NormalizeDutyCycleCommand s = Ok c → NormalizeDutyCycleCommand c = Ok c).
Proof.
  assert (Hiff : ∀ c, NormalizeDutyCycleCommand s = Ok c ↔
     ∃ t, t ≠ "" ∧ all_chars is_digit t = true ∧
          (TrimCopy s = t ∨ TrimCopy s = String "F" t ∨ TrimCopy s = String "f" t) ∧
          (read_digits 0 t).1 <= 999 ∧ c = duty_command (read_digits 0 t).1).
  2: { split; [done|]. intros c (t & _ & _ & _ & Hr & ->)%Hiff. apply duty_command_fixed.
       pose proof (read_digits_nonneg t 0 ltac:(lia)). lia. }
  intros c. unfold NormalizeDutyCycleCommand. split.
  - destruct (TrimCopy s) as [|a r] eqn:Es; [done|]. set (t := drop_F (String a r)).
    assert (Ht : String a r = t ∨ String a r = String "F" t ∨ String a r = String "f" t).
    { unfold t, drop_F. destruct (Ascii.eqb_spec a "F") as [->|]; [by right; left|].
      destruct (Ascii.eqb_spec a "f") as [->|]; [by right; right|by left]. }
    clearbody t. intros E. exists t. destruct t as [|b u] eqn:Et; [done|]. rewrite <- Et in *.
    assert (Hne : t ≠ "") by (by rewrite Et). clear Et.
    destruct (all_chars is_digit t) eqn:Hd; [|done]. cbn [negb] in E.
    rewrite stoi_digits in E by done. destruct (decide _); [|done].
    cbn [mbind result_bind] in E. destruct (_ || _) eqn:Ho in E; [done|]. injection E as <-.
    apply orb_false_iff in Ho as [_ Ho]. split_and!; [done|done|done|lia|done].
  - intros (t & Hne & Hd & Hs & Hr & ->). pose proof (read_digits_nonneg t 0 ltac:(lia)) as Hn.
    assert (Hf : ∃ a r, TrimCopy s = String a r ∧ drop_F (String a r) = t).
    { destruct Hs as [->|[->| ->]]; [|by exists "F"%char, t|by exists "f"%char, t].
      destruct t as [|a r]; [done|]. exists a, r. split; [done|by apply drop_F_digits]. }
    destruct Hf as (a & r & -> & ->). destruct t as [|b u] eqn:Et; [done|]. rewrite <- Et in *. clear Et.
    rewrite Hd. cbn [negb]. rewrite stoi_digits by done.
    rewrite decide_True by (unfold ins; lia). cbn [mbind result_bind].
    rewrite (proj2 (Z.ltb_ge _ _)) by lia. by rewrite (proj2 (Z.ltb_ge _ _)) by lia.
Qed.

(** ** Configuration *)

Record config_ok (c : AirdropLockConfig) : Prop := {
  ca_device : TrimCopy (al_device c) = al_device c;
  ca_enabled : al_enabled c = true → al_device c ≠ "";
  ca_rate : 0 < al_baud_rate c < 2 ^ 31;
  ca_bits : 5 <= al_data_bits c <= 8;
  ca_stop : al_stop_bits c = 1 ∨ al_stop_bits c = 2;
  ca_frequency : TrimCopy (al_default_pwm_frequency c) = al_default_pwm_frequency c;
  ca_open : TrimCopy (al_open_cmd c) = al_open_cmd c ∧ IsAsciiCommand (al_open_cmd c) = true;
  ca_lock : TrimCopy (al_lock_cmd c) = al_lock_cmd c ∧ IsAsciiCommand (al_lock_cmd c) = true
}.

Lemma config_default_ok : config_ok AirdropLockConfig_default.
Proof. split; try done; cbn; auto; lia. Qed.

Lemma lock_check_config c c' :
  check_config c = Ok c' ↔
  c' = c ∧ (al_enabled c = true → al_device c ≠ "") ∧ 0 < al_baud_rate c ∧ 5 <= al_data_bits c <= 8 ∧
  (al_stop_bits c = 1 ∨ al_stop_bits c = 2) ∧
  IsAsciiCommand (al_open_cmd c) = true ∧ IsAsciiCommand (al_lock_cmd c) = true.
Proof.
  unfold check_config. set (e := match al_device c with EmptyString => true | _ => false end).
  assert (He : (al_enabled c = true → al_device c ≠ "") ↔ al_enabled c && e = false).
  { unfold e. destruct (al_enabled c), (al_device c); cbn; split; try done; naive_solver. }
  rewrite He. destruct (al_enabled c && e); [split; [done|naive_solver]|].
  destruct (Z.leb_spec (al_baud_rate c) 0); [split; [done|lia]|].
  destruct (Z.ltb_spec (al_data_bits c) 5); [split; [done|lia]|].
  destruct (Z.ltb_spec 8 (al_data_bits c)); [split; [done|lia]|]. cbn [orb].
  destruct (Z.eqb_spec (al_stop_bits c) 1), (Z.eqb_spec (al_stop_bits c) 2); cbn [negb andb];
    try (split; [done|lia]);
    (destruct (IsAsciiCommand (al_open_cmd c)), (IsAsciiCommand (al_lock_cmd c)); cbn [negb orb];
      [split; [intros [= <-]; split_and!; auto; lia|naive_solver]|split; [done|naive_solver]..]).
Qed.

Section config_facts.
Context {J : Type} `{JsonLaws J}.
Implicit Types (json : J) (c : AirdropLockConfig).

Lemma JsonIntValue_range json key d z : ins 32 d → JsonIntValue json key d = Ok z → ins 32 z.
Proof.
  intros Hd. unfold JsonIntValue. destruct (present json key) as [v|]; [|by intros [= <-]].
  destruct (j_view v); try done.
  1,2: intros [= <-]; apply ins_wraps; lia. apply sto_signed_range.
Qed.

Lemma ParseConfig_ok json c : ParseConfig json = Ok c → config_ok c.
Proof.
  unfold ParseConfig. destruct (negb (j_is_object json)); [done|].
  intros (enabled & _ & (device & _ & (rate & Hr & (bits & _ & (stop & _ & (freq & _ & (op & _ &
    (lo & _ & E)%bind_Ok)%bind_Ok)%bind_Ok)%bind_Ok)%bind_Ok)%bind_Ok)%bind_Ok)%bind_Ok.
  apply JsonIntValue_range in Hr; [|unfold ins; cbn; lia].
  apply lock_check_config in E as (-> & He & Hrate & Hb & Hs & Ho & Hl). cbn in *.
  unfold ins in Hr. split; cbn; rewrite ?TrimCopy_idemp; try done. lia.
Qed.

Lemma string_member json key s d :
  j_find json key = Some (j_string s) → JsonStringOrNumber json key d = Ok s.
Proof.
  intros Hf. unfold JsonStringOrNumber, present. rewrite Hf, j_is_null_string, j_view_string. done.
Qed.

Lemma int_member json key n d :
  j_find json key = Some (j_number n) → 0 <= n < 2 ^ 31 → JsonIntValue json key d = Ok n.
Proof.
  intros Hf Hn. unfold JsonIntValue, present. rewrite Hf, j_is_null_number by width_lia.
  assert (Hw : wraps 32 n = n) by (apply wraps_id; [lia|unfold ins; lia]).
  destruct (j_view_number n) as [-> | ->]; [width_lia|by rewrite Hw..].
Qed.

(** A configuration that is accepted is well formed, is read back
    unchanged from the JSON the status reports, and, when enabled, the object
    handed to the serial port is accepted by the port's own parser with the
    device, rate, data and stop bits of the configuration. *)
Theorem airdrop_config_roundtrip json c :
  ParseConfig json = Ok c →
  config_ok c ∧ ParseConfig (ToJson c : J) = Ok c ∧
  (al_enabled c = true →
   ParseOptions (serial_config c : J) =
     Ok {| opt_port := al_device c; opt_baudrate := al_baud_rate c; opt_timeout_ms := 1000;
           opt_inter_byte_timeout_ms := 0; opt_read_timeout_constant_ms := 1000;
           opt_read_timeout_multiplier_ms := 0; opt_write_timeout_constant_ms := 1000;
           opt_write_timeout_multiplier_ms := 0;
           opt_bytesize := ToString_bytesize (data_bits_bytesize (al_data_bits c));
           opt_parity := ToString_parity parity_none;
           opt_stopbits := ToString_stopbits (stop_bits_stopbits (al_stop_bits c));
           opt_flowcontrol := ToString_flowcontrol flowcontrol_none; opt_auto_open := true |}).
Proof.
  intros Hp. pose proof (ParseConfig_ok _ _ Hp) as Hok. clear Hp json. split; [done|].
  destruct Hok as [Hd He Hr Hb Hs Hf [Ho Ho'] [Hl Hl']]. split.
  - assert (Hview : j_view (ToJson c : J) = JObject) by apply j_view_object.
    assert (Hfind : ∀ k, j_find (ToJson c : J) k = assoc_find k
      [("enabled", j_bool (al_enabled c)); ("device", j_string (al_device c));
       ("baud_rate", j_number (al_baud_rate c)); ("data_bits", j_number (al_data_bits c));
       ("stop_bits", j_number (al_stop_bits c));
       ("default_PWM_frequency", j_string (al_default_pwm_frequency c));
       ("open_cmd", j_string (al_open_cmd c)); ("lock_cmd", j_string (al_lock_cmd c))])
      by (intros; apply j_find_object).
    unfold ParseConfig, j_is_object, j_value, j_get_bool. rewrite Hview. cbn [negb].
    rewrite Hfind. find_tac. rewrite j_view_bool. cbn [mbind result_bind].
    rewrite (string_member _ "device" (al_device c)) by (by rewrite Hfind).
    rewrite (int_member _ "baud_rate" (al_baud_rate c)) by first [by rewrite Hfind|lia].
    rewrite (int_member _ "data_bits" (al_data_bits c)) by first [by rewrite Hfind|lia].
    rewrite (int_member _ "stop_bits" (al_stop_bits c)) by first [by rewrite Hfind|lia].
    rewrite (string_member _ "default_PWM_frequency" (al_default_pwm_frequency c)) by (by rewrite Hfind).
    rewrite (string_member _ "open_cmd" (al_open_cmd c)) by (by rewrite Hfind).
    rewrite (string_member _ "lock_cmd" (al_lock_cmd c)) by (by rewrite Hfind).
    cbn [mbind result_bind]. rewrite Hd, Hf, Ho, Hl. apply lock_check_config. cbn.
    split; [by destruct c|]. split_and!; try done; lia.
  - intros Hen. specialize (He Hen). unfold ParseOptions, serial_config. rewrite j_view_object. cbv zeta.
    unfold GetRequiredPortValue. cbn [GetRequiredPortValue_loop GetUint32Value GetTokenValue].
    unfold j_value_bool, j_value, j_get_bool. rewrite ?j_view_object, !present_object, !j_find_object. find_tac.
    rewrite !j_is_null_string, !j_is_null_number by width_lia.
    rewrite j_view_string, bool_decide_eq_false_2 by done. cbn [mbind result_bind].
    rewrite !uint32_field_number by width_lia. cbn [mbind result_bind].
    rewrite !JsonValueToToken_number, !JsonValueToToken_string by width_lia. cbn [mbind result_bind].
    rewrite ParseBytesize_data_bits, ParseStopbits_stop_bits by done. cbn [mbind result_bind].
    change (ParseParity (NormalizeToken "none")) with (Ok parity_none).
    change (ParseFlowcontrol (NormalizeToken "none")) with (Ok flowcontrol_none).
    cbn [mbind result_bind]. by rewrite j_view_bool.
Qed.
End config_facts.

(** ** Commands *)

Section commands.
Context {J : Type} `{JsonLaws J} {S : Type} `{SerialPortLaws J S}.
Implicit Types m : AirdropLockManager J S.

(** A command may be sent: initialized, enabled, and the port open. *)
Definition ready m : bool := am_initialized m && al_enabled (am_config m) && sp_IsOpen (am_serial m).

Definition refused_state m : AirdropLockState := if al_enabled (am_config m) then Error else Disabled.

(** What sending a command does, for the two verdicts. *)
Record sent_whole (command : string) m m' : Prop := {
  sw_ready : ready m = true;
  sw_sent : sp_sent (am_serial m') = sp_sent (am_serial m) ++ bytes_of_string command;
  sw_command : am_last_command m' = command;
  sw_error : am_last_error m' = ""
}.
Record sent_part (command : string) m m' : Prop := {
  st_sent : ∃ k, sp_sent (am_serial m') = sp_sent (am_serial m) ++ take k (bytes_of_string command);
  st_refused : ready m = false → sp_sent (am_serial m') = sp_sent (am_serial m);
  st_state : am_state m' = refused_state m;
  st_command : am_last_command m' = am_last_command m;
  st_error : am_last_error m' ≠ ""
}.

Definition same_setup m m' : Prop :=
  am_initialized m' = am_initialized m ∧ am_config m' = am_config m ∧
  am_init_config m' = am_init_config m.

Lemma failed_spec command error err m ok e m' :
  error ≠ "" → ready m = false → failed error err m = (ok, e, m') →
  ok = false ∧ e = set_err err error ∧ same_setup m m' ∧
  am_current_duty_cycle m' = am_current_duty_cycle m ∧ sent_part command m m'.
Proof.
  intros He Hr [= <- <- <-]. split_and!; try done. split; cbn; try done.
  exists 0%nat. by rewrite take_0, app_nil_r.
Qed.

Lemma length_bytes_of_string s : length (bytes_of_string s) = String.length s.
Proof. induction s as [|c s IH]; [done|]. cbn. f_equal. apply IH. Qed.

Lemma app_ne_empty_l a b : a ≠ "" → a +:+ b ≠ "".
Proof. by destruct a. Qed.

Lemma SendCommandLocked_spec command action err m ok e m' :
  String.prefix "初始化" action = false →
  SendCommandLocked command action err m = (ok, e, m') →
  same_setup m m' ∧ am_current_duty_cycle m' = am_current_duty_cycle m ∧
  e = set_err err (am_last_error m') ∧
  if ok then sent_whole command m m' ∧ am_state m' = am_state m else sent_part command m m'.
Proof.
  intros Ha. unfold SendCommandLocked. rewrite Ha. cbn [negb]. rewrite andb_true_r.
  assert (Href : ∀ error, error ≠ "" → ready m = false → failed error err m = (ok, e, m') →
    same_setup m m' ∧ am_current_duty_cycle m' = am_current_duty_cycle m ∧
    e = set_err err (am_last_error m') ∧
    if ok then sent_whole command m m' ∧ am_state m' = am_state m else sent_part command m m').
  { intros error He Hr E. pose proof E as E'. injection E' as _ _ Em.
    apply (failed_spec command) in E as (-> & -> & Hs & Hd & Hp); [|done..].
    split_and!; [done|done|by rewrite <- Em|done]. }
  destruct (am_initialized m) eqn:Ei; cbn [negb];
    [|intros E; eapply Href; [|unfold ready; by rewrite Ei|exact E]; done].
  destruct (al_enabled (am_config m)) eqn:Een; cbn [negb];
    [|intros E; eapply Href; [|unfold ready; by rewrite Ei, Een|exact E]; done].
  destruct (sp_IsOpen (am_serial m)) eqn:Eo; cbn [negb];
    [|intros E; eapply Href; [|unfold ready; by rewrite Ei, Een, Eo|exact E]; done].
  clear Href. destruct (sp_Write _ _ _) as [[n we] s'] eqn:Ew.
  destruct (sp_Write_sent _ _ _ _ _ _ Ew) as (k & Hk & Hsent).
  rewrite length_bytes_of_string in Hk.
  assert (Hready : ready m = true) by (unfold ready; by rewrite Ei, Een, Eo).
  destruct (_ || _) eqn:Eok.
  - intros [= <- <- <-]. split_and!; try done. split; try done.
    + by exists k.
    + by rewrite Hready.
  - intros [= <- <- <-]. apply orb_false_iff in Eok as [_ En].
    apply negb_false_iff, Nat.eqb_eq in En. subst n.
    split_and!; try done. split; try done. cbn.
    rewrite Hsent, take_ge; [done|]. rewrite length_bytes_of_string. lia.
Qed.

Definition gate (opening : bool) : option string → AirdropLockManager J S →
    bool * option string * AirdropLockManager J S :=
  if opening then OpenDropper else CloseDropper.
Definition gate_command (opening : bool) (c : AirdropLockConfig) : string :=
  if opening then al_open_cmd c else al_lock_cmd c.

Lemma gate_spec (opening : bool) err m ok e m' :
  gate opening err m = (ok, e, m') →
  same_setup m m' ∧ am_current_duty_cycle m' = am_current_duty_cycle m ∧
  e = set_err err (am_last_error m') ∧
  if ok then sent_whole (gate_command opening (am_config m)) m m' ∧
             am_state m' = (if opening then Open else Closed)
  else sent_part (gate_command opening (am_config m)) m m'.
Proof.
  destruct opening; cbn [gate gate_command]; unfold OpenDropper, CloseDropper;
    destruct (SendCommandLocked _ _ err m) as [[b e1] m1] eqn:E;
    apply SendCommandLocked_spec in E as (Hs & Hd & He & Hcase); try reflexivity;
    destruct b; cbn [negb]; intros [= <- <- <-]; split_and!; try done;
    destruct Hcase as [[? ? ? ?] Hst]; by split.
Qed.

(** Opening and closing the lock answer true exactly when the lock was
    initialized, enabled and its port open and the whole command reached the
    port, and then the state is the one asked for with no error; otherwise at
    most a part of the command was sent, none of it when the lock was not
    ready, the state is Error, or Disabled for a disabled lock, and the error
    text is set.  The configuration and the current duty cycle never change. *)
Theorem airdrop_command_spec (opening : bool) err m ok e m' :
  gate opening err m = (ok, e, m') →
  same_setup m m' ∧ am_current_duty_cycle m' = am_current_duty_cycle m ∧
  e = set_err err (am_last_error m') ∧
  if ok then sent_whole (gate_command opening (am_config m)) m m' ∧
             am_state m' = (if opening then Open else Closed)
  else sent_part (gate_command opening (am_config m)) m m'.
Proof. apply gate_spec. Qed.

(** ** Sequences of calls *)

(** The public calls that change the state; [FristPowerOnProtection] by its two
    parts, between which other calls may come. *)
Inductive al_call :=
| call_Init (config : J) (err : option string)
| call_Stop
| call_SetDutyCycle (duty_cycle : string) (err : option string)
| call_SetDutyCycle_int (duty_cycle : Z) (err : option string)
| call_OpenDropper (err : option string)
| call_CloseDropper (err : option string)
| call_FristPowerOnProtection_duty
| call_FristPowerOnProtection_lock.

Definition run_call m (c : al_call) : AirdropLockManager J S :=
  match c with
  | call_Init config err => (Init config err m).2
  | call_Stop => (Stop m).2
  | call_SetDutyCycle d err => (SetDutyCycle d err m).2
  | call_SetDutyCycle_int d err => (SetDutyCycle_int d err m).2
  | call_OpenDropper err => (OpenDropper err m).2
  | call_CloseDropper err => (CloseDropper err m).2
  | call_FristPowerOnProtection_duty => (protect_duty m).2
  | call_FristPowerOnProtection_lock => (protect_lock m).2
  end.

Definition is_protection (c : al_call) : bool :=
  match c with call_FristPowerOnProtection_lock => true | _ => false end.

(** The state is one of those the flags allow. *)
Definition state_fits m : Prop :=
  if am_initialized m then
    if al_enabled (am_config m) then am_state m ∈ [Closed; Open; Error] else am_state m = Disabled
  else am_state m ∈ [Uninitialized; Error; Disabled].

(** The bytes sent end with the whole open command and complete commands after
    it: duty cycles and, with [locks], lock commands. *)
Definition opened (locks : bool) m : Prop :=
  ∃ before commands,
    Forall (λ c, (∃ n, 0 <= n <= 999 ∧ c = duty_command n) ∨ (locks = true ∧ c = al_lock_cmd (am_config m))) commands ∧
    sp_sent (am_serial m) =
      before ++ bytes_of_string (al_open_cmd (am_config m)) ++ concat (map bytes_of_string commands).

Record lock_ok (locks : bool) m : Prop := {
  lo_config : config_ok (am_config m);
  lo_state : state_fits m;
  lo_open : am_state m = Open → opened locks m
}.

Lemma refused_fits m : refused_state m ≠ Open ∧
  (am_initialized m = true → state_fits (with_state true (refused_state m) m)) ∧
  (am_initialized m = false → state_fits (with_state false (refused_state m) m)).
Proof.
  unfold refused_state, state_fits. cbn. destruct (al_enabled (am_config m)); split_and!;
    intros; set_solver.
Qed.

Lemma opened_snoc l m c :
  (∃ n, 0 <= n <= 999 ∧ c = duty_command n) ∨ (l = true ∧ c = al_lock_cmd (am_config m)) →
  opened l m →
  ∃ before commands,
    Forall (λ c, (∃ n, 0 <= n <= 999 ∧ c = duty_command n) ∨ (l = true ∧ c = al_lock_cmd (am_config m))) commands ∧
    sp_sent (am_serial m) ++ bytes_of_string c =
      before ++ bytes_of_string (al_open_cmd (am_config m)) ++ concat (map bytes_of_string commands).
Proof.
  intros Hc (before & cs & Hcs & ->). exists before, (cs ++ [c]). split.
  - apply Forall_app_2; [done|by apply Forall_singleton].
  - by rewrite map_app, concat_app, <- !app_assoc; cbn; rewrite app_nil_r.
Qed.

Lemma sent_part_ok l command m m' :
  lock_ok l m → same_setup m m' → sent_part command m m' → lock_ok l m'.
Proof.
  intros [Hc Hf Ho] (Hi & Hcfg & _) [_ _ Hst _ _].
  destruct (refused_fits m) as (Hno & Ht & Hfl).
  split; [by rewrite Hcfg| |by rewrite Hst].
  unfold state_fits in *. rewrite Hi, Hcfg, Hst. destruct (am_initialized m); [by apply Ht|by apply Hfl].
Qed.

Lemma gate_ok l opening err m : lock_ok l m → lock_ok l (gate opening err m).2.
Proof.
  intros Hm. destruct (gate opening err m) as [[ok e] m'] eqn:E. cbn [snd].
  apply gate_spec in E as (Hset & _ & _ & Hcase). destruct ok; [|by eapply sent_part_ok].
  destruct Hcase as [[Hr Hsent _ _] Hst], Hm as [Hc _ _], Hset as (Hi & Hcfg & _).
  unfold ready in Hr. apply andb_prop in Hr as [[Hi' He]%andb_prop _].
  split; [by rewrite Hcfg| |].
  - unfold state_fits. rewrite Hi, Hi', Hcfg, He, Hst. destruct opening; set_solver.
  - rewrite Hst. destruct opening; [|done]. intros _. exists (sp_sent (am_serial m)), [].
    split; [done|]. rewrite Hsent, Hcfg. cbn. by rewrite app_nil_r.
Qed.

Lemma duty_range s c : NormalizeDutyCycleCommand s = Ok c → ∃ n, 0 <= n <= 999 ∧ c = duty_command n.
Proof.
  unfold NormalizeDutyCycleCommand. destruct (TrimCopy s) as [|a r]; [done|].
  destruct (drop_F _) as [|b t]; [done|]. destruct (negb _); [done|].
  intros (n & _ & E)%bind_Ok. destruct (Z.ltb_spec n 0), (Z.ltb_spec 999 n); try done.
  injection E as <-. exists n. split; [lia|done].
Qed.

Lemma SetDutyCycle_ok l d err m : lock_ok l m → lock_ok l (SetDutyCycle d err m).2.
Proof.
  intros Hm. unfold SetDutyCycle. destruct (NormalizeDutyCycleCommand d) as [c|] eqn:En; [|done].
  destruct (SendCommandLocked _ _ err m) as [[ok e] m'] eqn:E.
  apply SendCommandLocked_spec in E as (Hset & _ & _ & Hcase); [|done].
  destruct ok; cbn [negb snd]; [|by eapply sent_part_ok].
  destruct Hcase as [[_ Hsent _ _] Hst], Hm as [Hc Hf Ho], Hset as (Hi & Hcfg & _).
  apply duty_range in En as (n & Hn & ->).
  split; cbn; [by rewrite Hcfg| |].
  - revert Hf. unfold state_fits. cbn. by rewrite Hi, Hcfg, Hst.
  - rewrite Hst. intros Hopen. unfold opened. cbn. rewrite Hcfg, Hsent. apply opened_snoc; [by left; exists n|by apply Ho].
Qed.

(** The first part of the protection is a duty cycle. *)
Lemma protect_duty_ok l m : lock_ok l m → lock_ok l (protect_duty m).2.
Proof.
  intros Hm. unfold protect_duty. destruct (NormalizeDutyCycleCommand _) as [c|]; [|done].
  pose proof (SetDutyCycle_ok l c (Some "") m Hm) as Hok.
  destruct (SetDutyCycle _ _ _) as [[[[] e]|ex] m']; [|done..]. cbn [snd] in *. by destruct Hok as [? ? ?].
Qed.

(** The second sends the lock command and leaves the state. *)
Lemma protect_lock_ok m : lock_ok true m → lock_ok true (protect_lock m).2.
Proof.
  intros Hm. unfold protect_lock. destruct (SendCommandLocked _ _ _ m) as [[ok e] m'] eqn:E.
  apply SendCommandLocked_spec in E as (Hset & _ & _ & Hcase); [|done]. cbn [snd].
  destruct ok; [|by eapply sent_part_ok].
  destruct Hcase as [[_ Hsent _ _] Hst], Hm as [Hc Hf Ho], Hset as (Hi & Hcfg & _). split; [by rewrite Hcfg| |].
  - revert Hf. unfold state_fits. by rewrite Hi, Hcfg, Hst.
  - rewrite Hst. intros Hopen. unfold opened. rewrite Hcfg, Hsent. apply opened_snoc; [by right|by apply Ho].
Qed.

Lemma Stop_ok l m : lock_ok l m → lock_ok l (Stop m).2.
Proof.
  intros [Hc Hf Ho]. unfold Stop. pose proof (sp_Close_sent (am_serial m)) as Hs.
  destruct (sp_Close _) as [[[]|ex] s']; cbn [snd] in *; split; cbn; try done.
  - unfold state_fits. cbn. set_solver.
  - intros (b & ds & Hd & E)%Ho. exists b, ds. cbn. by rewrite Hs.
Qed.

Lemma Init_ok l config err m : lock_ok l m → lock_ok l (Init config err m).2.
Proof.
  intros [Hc Hf Ho]. unfold Init. destruct (j_dump config); [|by split].
  unfold Init_try, failed, SetErrorLocked. destruct (ParseConfig config) as [c|ex] eqn:Ep.
  2: { destruct (refused_fits m) as (Hno & Ht & Hfl). split; cbn; [done| |by intros].
       revert Ht Hfl. unfold state_fits. cbn. destruct (am_initialized m); [intros Ht _; by apply Ht|intros _ Hfl; by apply Hfl]. }
  apply ParseConfig_ok in Ep. cbn [al_enabled am_config am_serial]. destruct (al_enabled c) eqn:Een; cbn [negb].
  - destruct (sp_Init _ _ _) as [[ok e] s']. destruct ok; cbn; split; cbn; rewrite ?Een; try done;
      unfold state_fits; cbn; rewrite ?Een; set_solver.
  - destruct (sp_Close _) as [[[]|ex] s']; cbn; split; cbn; rewrite ?Een; try done;
      unfold state_fits; cbn; rewrite ?Een; set_solver.
Qed.

Lemma new_ok l : lock_ok l AirdropLockManager_new.
Proof. split; cbn; [apply config_default_ok|unfold state_fits; cbn; set_solver|done]. Qed.

(** C17: After any sequence of calls, the two parts of the protection on
    power-on among them, whatever the port does: the configuration is a
    well-formed one, the reported state is one the flags allow (closed, open or
    error for an initialized enabled lock; disabled for an initialized disabled
    one; never closed or open otherwise), and the lock is reported open only when
    the bytes sent end with the complete open command followed by complete
    duty-cycle commands alone - unless the protection was called, which sends the
    lock command without changing the state: then lock commands may be among
    them. *)
Theorem airdrop_invariant (calls : list al_call) :
  let m := foldl run_call AirdropLockManager_new calls in
  config_ok (am_config m) ∧ state_fits m ∧
  (am_state m = Open → opened (existsb is_protection calls) m).
Proof.
  intros m. enough (Hm : lock_ok (existsb is_protection calls) m) by by destruct Hm. subst m.
  assert (Hl : Forall (λ c, is_protection c = true → existsb is_protection calls = true) calls).
  { apply Forall_forall. intros c Hc Hp. apply existsb_exists. exists c. by split; [apply list_elem_of_In|]. }
  revert Hl. generalize (existsb is_protection calls). intros l Hl. pose proof (new_ok l) as Hm. revert Hl Hm.
  generalize AirdropLockManager_new.
  induction calls as [|c calls IH]; intros m Hl Hm; [done|].
  apply Forall_cons in Hl as [Hc Hl]. apply IH; [done|]. clear IH.
  destruct c; cbn [run_call].
  - by apply Init_ok.
  - by apply Stop_ok.
  - by apply SetDutyCycle_ok.
  - by apply SetDutyCycle_ok.
  - by apply (gate_ok l true).
  - by apply (gate_ok l false).
  - by apply protect_duty_ok.
  - destruct l; [by apply protect_lock_ok|]. by specialize (Hc eq_refl).
Qed.
End commands.

(** ** A concrete run *)

Definition demo_config : jvalue :=
  VObj [("enabled", VBool true); ("device", VStr " /dev/ttyS3 "); ("baud_rate", VStr "9600");
        ("default_PWM_frequency", VNum 50); ("lock_cmd", VStr "D010")].

Definition demo_calls : list (al_call (J := jvalue)) :=
  [call_Init demo_config None; call_OpenDropper (Some ""); call_SetDutyCycle " f50 " None].

Definition demo_ready : AirdropLockManager jvalue (MySerial loopback) := (Init demo_config None AirdropLockManager_new).2.

(** C38 witness: a configuration with texts for numbers and blanks. *)
Lemma airdrop_config_roundtrip_witness :
  ∃ c, ParseConfig demo_config = Ok c ∧ al_device c = "/dev/ttyS3" ∧ ParseConfig (ToJson c : jvalue) = Ok c.
Proof.
  destruct (ParseConfig demo_config) as [c|ex] eqn:E; [|vm_compute in E; discriminate E].
  exists c. split; [done|]. destruct (airdrop_config_roundtrip _ _ E) as (_ & Hr & _).
  split; [|exact Hr]. vm_compute in E. by injection E as <-.
Defined.

(** C17 witness: opening the lock of the demonstration. *)
Lemma airdrop_command_spec_witness :
  ∃ m' : AirdropLockManager jvalue (MySerial loopback), (OpenDropper (Some "old") demo_ready).2 = m' ∧ am_state m' = Open ∧
    sp_sent (am_serial m') = [68; 48; 48; 53].
Proof.
  destruct (gate true (Some "old") demo_ready) as [[ok e] m'] eqn:E.
  pose proof (airdrop_command_spec _ _ _ _ _ _ E) as (_ & _ & _ & Hcase).
  assert (Hok : ok = true) by (vm_compute in E; by injection E as <- _ _). subst ok.
  destruct Hcase as [[_ Hs _ _] Hst]. exists m'. cbn [gate] in E. rewrite E. cbn [snd].
  split; [done|]. split; [exact Hst|]. rewrite Hs. vm_compute. reflexivity.
Defined.

(** C17 witness: an opened lock whose duty cycle was then set. *)
Lemma airdrop_invariant_witness :
  let m : AirdropLockManager jvalue (MySerial loopback) := foldl run_call AirdropLockManager_new demo_calls in
  am_state m = Open ∧ opened false m ∧
  sp_sent (am_serial m) = bytes_of_string "D005F050".
Proof.
  intros m. assert (Hs : am_state m = Open) by (vm_compute; reflexivity).
  split; [exact Hs|]. split; [|vm_compute; reflexivity].
  destruct (airdrop_invariant (S := MySerial loopback) demo_calls) as (_ & _ & Ho). by apply Ho.
Defined.

(** Two ways to write the same duty cycle. *)
Lemma duty_command_spec_witness :
  NormalizeDutyCycleCommand " f0007 " = Ok "F007" ∧ NormalizeDutyCycleCommand "F007" = Ok "F007".
Proof.
  assert (E : NormalizeDutyCycleCommand " f0007 " = Ok "F007").
  { apply (proj1 (duty_command_spec " f0007 ")). exists "0007". vm_compute. split_and!; try done; auto. }
  split; [exact E|]. exact (proj2 (duty_command_spec " f0007 ") _ E).
Defined.

(** The protection on power-on, called on an open lock, sends the lock
    command last and leaves the state open. *)
Lemma protection_leaves_open :
  let m := (FristPowerOnProtection (foldl run_call AirdropLockManager_new demo_calls : AirdropLockManager jvalue (MySerial loopback))).2 in
  am_state m = Open ∧ am_last_command m = "D010".
Proof. by vm_compute. Qed.

(** [Init] of an enabled lock reports it closed without a byte sent. *)
Lemma init_sends_nothing : am_state demo_ready = Closed ∧ sp_sent (am_serial demo_ready) = [].
Proof. by vm_compute. Qed.

(** A second [Init] whose configuration is refused leaves the lock usable over
    the old port, in the state Error, and a duty cycle set after an error
    clears the error text and not the state. *)
Lemma refused_reinit_stays_usable :
  let m := (Init (VNum 3) None demo_ready).2 in
  am_initialized m = true ∧ am_state m = Error ∧
  let m' := (SetDutyCycle "50" None m).2 in
  am_state m' = Error ∧ am_last_error m' = "" ∧ sp_sent (am_serial m') = bytes_of_string "F050".
Proof. by vm_compute. Qed.
