(* ===== verification/GasDetectorModbus.v ===== *)
(** * The gas detector's Modbus protocol

    Model of my_gas_detector_poll: the naming tables and the number formatting of
    MyGasDetectorPollInternal.h, MyGasDetectorData.cpp, and from
    MyGasDetectorPoll.cpp the CRC, the request, and the parsing of a response.

    The time stamp [TimestampNow()] and the measured time [elapsed_ms] are
    arguments. *)

From S2P Require Import Prelude Bytes Json Double.
From stdpp Require Import pretty.

Local Open Scope Z_scope.

(** ** Names and texts *)

Definition FormatScaled (raw : Z) (decimals : Z) : string :=
  if decimals <=? 0 then pretty raw
  else fixed_text (double_div (double_of_Z raw) (double_of_Z (10 ^ decimals))) (Z.to_nat decimals).

Definition FormatFixed1 (value : double) : string := fixed_text value 1.

Definition UnitName (code : Z) : string :=
  match code with
  | 0 => "ppm" | 2 => "%LEL" | 4 => "%VOL" | 6 => "mg/m³" | 8 => "ppb" | 10 => "℃"
  | _ => "未知单位(编码0x" +:+ hex_number 8 (wrapu 32 code) +:+ ")"
  end.

Definition DecimalPlaces (code : Z) : Z :=
  match code with 0 => 0 | 4 => 1 | 8 => 2 | 12 => 3 | _ => 0 end.

Definition status_names : list string :=
  ["预热"; "正常工作"; "数据错误"; "传感器故障"; "预警"; "低报"; "高报"; "访问故障"; "超量程"; "需要标定"; "超时"; "STEL报警";
   "TWA报警"; "保留"; "保留"; "通信故障"].

Definition StatusName (code : Z) : string :=
  if code <? 0 then "未知状态" else default "未知状态" (status_names !! Z.to_nat code).

Definition gas_names : list string :=
  ["NULL"; "AR"; "ASH3"; "B2H6"; "BR2"; "CO"; "CO2"; "COCL2"; "CH2O"; "CH2O2"; "CH3BR";
   "CH4"; "CH4O"; "CH4S"; "CH5N"; "CH6O"; "CIC"; "CL2"; "CLO2"; "C2CL4"; "C2HCL3"; "C2H2";
   "C2H3CL"; "C2H"; "C2H4O"; "C2H6O"; "C3H3N"; "C3H4"; "C3H6"; "C3H8"; "C4H8O2"; "C4H8S";
   "C4H10"; "C4H10O"; "C5H12"; "C6H6"; "C6H6S"; "C6H12"; "C6H14"; "C7H8"; "C7H16"; "C8H8";
   "C8H10"; "C8H18"; "CS2"; "EX"; "ETO"; "F2"; "FX"; "GEH4"; "H2"; "H2O2"; "H2S"; "HCL";
   "HCN"; "HBR"; "HE"; "HF"; "KR"; "N2"; "NO2"; "NOX"; "NF3"; "NH3"; "N2"; "N2O"; "N2H4";
   "O2"; "O3"; "PH3"; "PID"; "P2O5"; "SO2"; "SO2F2"; "SIH4"; "SIF4"; "SF6"; "THT"; "TVOC";
   "VOC"; "VOCS"; "SO3"; "NMHC"; "温度"; "湿度"; "风速"; "风向"].

Definition gas_chinese : list (Z * string) :=
  [(1, "氩气"); (2, "砷化氢"); (3, "乙硼烷"); (4, "溴气");
   (5, "一氧化碳"); (6, "二氧化碳"); (7, "光气"); (8, "甲醛");
   (11, "甲烷"); (17, "氯气"); (18, "二氧化氯"); (21, "乙炔");
   (29, "丙烷"); (35, "苯"); (39, "甲苯"); (44, "二硫化碳");
   (47, "氟气"); (50, "氢气"); (52, "硫化氢"); (53, "氯化氢");
   (54, "氰化氢"); (56, "氦气"); (57, "氟化氢"); (60, "二氧化氮");
   (63, "氨气"); (67, "氧气"); (68, "臭氧"); (69, "磷化氢");
   (72, "二氧化硫"); (76, "六氟化硫")].

Definition chinese_name (code : Z) : string :=
  default "" (snd <$> head (filter (λ p, p.1 = code) gas_chinese)).

Definition GasName (code : Z) : string :=
  let symbol := if code <? 0 then "未知" else default "未知" (gas_names !! Z.to_nat code) in
  let chinese := chinese_name code in
  if bool_decide (chinese = "") then symbol else symbol +:+ "(" +:+ chinese +:+ ")".

Definition ExceptionName (code : Z) : string :=
  match code with
  | 1 => "非法功能" | 2 => "非法数据地址" | 3 => "非法数据值" | 4 => "从站设备故障" | _ => "未知异常"
  end.

Definition HexFrame (data : list Z) : string := String.concat " " (map hex_byte data).

(** [std::setw(4) << std::setfill('0')] in hexadecimal. *)
Definition hex_word (w : Z) : string := hex_byte (w / 256) +:+ hex_byte (w mod 256).

(** ** The result of one query *)

Record GasDetectorData := {
  gd_address : Z;
  gd_valid : bool;
  gd_timeout : bool;
  gd_crc_ok : bool;
  gd_function_code : Z;
  gd_byte_count : Z;
  gd_exception_code : Z;
  gd_crc_received : Z;
  gd_crc_calculated : Z;
  gd_elapsed_ms : double;
  gd_definition_register : Z;
  gd_unit : string;
  gd_decimal_places : Z;
  gd_concentration_register : Z;
  gd_concentration : double;
  gd_concentration_text : string;
  gd_low_alarm_register : Z;
  gd_low_alarm : double;
  gd_low_alarm_text : string;
  gd_high_alarm_register : Z;
  gd_high_alarm : double;
  gd_high_alarm_text : string;
  gd_range_register : Z;
  gd_range_value : double;
  gd_range_text : string;
  gd_status_register : Z;
  gd_status : string;
  gd_ad_register : Z;
  gd_ad_value : Z;
  gd_temperature_register : Z;
  gd_temperature : double;
  gd_gas_code : Z;
  gd_gas : string;
  gd_gas_register : Z;
  gd_humidity_register : Z;
  gd_humidity : double;
  gd_timestamp : string;
  gd_error : string;
  gd_sequence : Z
}.

(** A result in which only the fields of the message header are set; the rest is
    what the constructor gives. *)
Definition header_data (address : Z) (timeout crc_ok : bool)
    (function_code byte_count exception_code crc_received crc_calculated : Z)
    (elapsed_ms : double) (timestamp error : string) : GasDetectorData := {|
  gd_address := address; gd_valid := false; gd_timeout := timeout; gd_crc_ok := crc_ok;
  gd_function_code := function_code; gd_byte_count := byte_count;
  gd_exception_code := exception_code; gd_crc_received := crc_received;
  gd_crc_calculated := crc_calculated; gd_elapsed_ms := elapsed_ms;
  gd_definition_register := 0; gd_unit := "未知"; gd_decimal_places := 0;
  gd_concentration_register := 0; gd_concentration := double_of_Z 0; gd_concentration_text := "0";
  gd_low_alarm_register := 0; gd_low_alarm := double_of_Z 0; gd_low_alarm_text := "0";
  gd_high_alarm_register := 0; gd_high_alarm := double_of_Z 0; gd_high_alarm_text := "0";
  gd_range_register := 0; gd_range_value := double_of_Z 0; gd_range_text := "0";
  gd_status_register := 0; gd_status := "未查询"; gd_ad_register := 0; gd_ad_value := 0;
  gd_temperature_register := 0; gd_temperature := double_of_Z 0; gd_gas_code := 0;
  gd_gas := "NULL"; gd_gas_register := 0; gd_humidity_register := 0;
  gd_humidity := double_of_Z 0; gd_timestamp := timestamp; gd_error := error; gd_sequence := 0
|}.

Definition GasDetectorData_default : GasDetectorData :=
  header_data 0 false false 0 0 0 0 0 (double_of_Z 0) "" "尚未查询".

(** The assignments the program makes to a result it holds. *)
Definition set_gd_header (address : Z) (error : string) (sequence : Z) (r : GasDetectorData)
    : GasDetectorData := {|
  gd_address := address; gd_valid := gd_valid r; gd_timeout := gd_timeout r;
  gd_crc_ok := gd_crc_ok r; gd_function_code := gd_function_code r;
  gd_byte_count := gd_byte_count r; gd_exception_code := gd_exception_code r;
  gd_crc_received := gd_crc_received r; gd_crc_calculated := gd_crc_calculated r;
  gd_elapsed_ms := gd_elapsed_ms r; gd_definition_register := gd_definition_register r;
  gd_unit := gd_unit r; gd_decimal_places := gd_decimal_places r;
  gd_concentration_register := gd_concentration_register r;
  gd_concentration := gd_concentration r; gd_concentration_text := gd_concentration_text r;
  gd_low_alarm_register := gd_low_alarm_register r; gd_low_alarm := gd_low_alarm r;
  gd_low_alarm_text := gd_low_alarm_text r; gd_high_alarm_register := gd_high_alarm_register r;
  gd_high_alarm := gd_high_alarm r; gd_high_alarm_text := gd_high_alarm_text r;
  gd_range_register := gd_range_register r; gd_range_value := gd_range_value r;
  gd_range_text := gd_range_text r; gd_status_register := gd_status_register r;
  gd_status := gd_status r; gd_ad_register := gd_ad_register r; gd_ad_value := gd_ad_value r;
  gd_temperature_register := gd_temperature_register r; gd_temperature := gd_temperature r;
  gd_gas_code := gd_gas_code r; gd_gas := gd_gas r; gd_gas_register := gd_gas_register r;
  gd_humidity_register := gd_humidity_register r; gd_humidity := gd_humidity r;
  gd_timestamp := gd_timestamp r; gd_error := error; gd_sequence := sequence
|}.
Definition set_gd_address (a : Z) (r : GasDetectorData) : GasDetectorData :=
  set_gd_header a (gd_error r) (gd_sequence r) r.
Definition set_gd_error (e : string) (r : GasDetectorData) : GasDetectorData :=
  set_gd_header (gd_address r) e (gd_sequence r) r.
Definition set_gd_sequence (n : Z) (r : GasDetectorData) : GasDetectorData :=
  set_gd_header (gd_address r) (gd_error r) n r.

(** [j_double] stores a double in a JSON value. *)
Section json.
Context {J : Type} `{JsonOps J} (j_double : double → J).

Definition GasDetectorData_ToJson (r : GasDetectorData) : J := j_object [
  ("address", j_number (gd_address r));
  ("valid", j_bool (gd_valid r));
  ("timeout", j_bool (gd_timeout r));
  ("crc_ok", j_bool (gd_crc_ok r));
  ("function_code", j_number (gd_function_code r));
  ("byte_count", j_number (gd_byte_count r));
  ("exception_code", j_number (gd_exception_code r));
  ("crc_received", j_number (gd_crc_received r));
  ("crc_calculated", j_number (gd_crc_calculated r));
  ("elapsed_ms", j_double (gd_elapsed_ms r));
  ("definition_register", j_number (gd_definition_register r));
  ("unit", j_string (gd_unit r));
  ("decimal_places", j_number (gd_decimal_places r));
  ("concentration_register", j_number (gd_concentration_register r));
  ("concentration", j_double (gd_concentration r));
  ("concentration_text", j_string (gd_concentration_text r));
  ("low_alarm_register", j_number (gd_low_alarm_register r));
  ("low_alarm", j_double (gd_low_alarm r));
  ("low_alarm_text", j_string (gd_low_alarm_text r));
  ("high_alarm_register", j_number (gd_high_alarm_register r));
  ("high_alarm", j_double (gd_high_alarm r));
  ("high_alarm_text", j_string (gd_high_alarm_text r));
  ("range_register", j_number (gd_range_register r));
  ("range_value", j_double (gd_range_value r));
  ("range_text", j_string (gd_range_text r));
  ("status_register", j_number (gd_status_register r));
  ("status_code", j_number (gd_status_register r));
  ("status", j_string (gd_status r));
  ("ad_register", j_number (gd_ad_register r));
  ("ad_value", j_number (gd_ad_value r));
  ("temperature_register", j_number (gd_temperature_register r));
  ("temperature", j_double (gd_temperature r));
  ("gas_code", j_number (gd_gas_code r));
  ("gas", j_string (gd_gas r));
  ("gas_register", j_number (gd_gas_register r));
  ("humidity_register", j_number (gd_humidity_register r));
  ("humidity", j_double (gd_humidity r));
  ("timestamp", j_string (gd_timestamp r));
  ("error", j_string (gd_error r));
  ("sequence", j_number (gd_sequence r))].

Definition ToSimpleCNJson (r : GasDetectorData) : J := j_object [
  ("地址", j_number (gd_address r));
  ("数据有效", j_bool (gd_valid r));
  ("单位", j_string (gd_unit r));
  ("小数位", j_number (gd_decimal_places r));
  ("当前检测气体浓度", j_double (gd_concentration r));
  ("低报警阈值", j_double (gd_low_alarm r));
  ("高报警阈值", j_double (gd_high_alarm r));
  ("气体量程", j_double (gd_range_value r));
  ("传感器工作状态", j_string (gd_status r));
  ("传感器工作状态编码", j_number (gd_status_register r));
  ("传感器实时AD值", j_number (gd_ad_value r));
  ("环境温度值", j_double (gd_temperature r));
  ("气体类型编码", j_number (gd_gas_code r));
  ("气体类型表", j_string (gd_gas r));
  ("环境湿度值", j_double (gd_humidity r))].

Definition ToSimpleENJson (r : GasDetectorData) : J := j_object [
  ("address", j_number (gd_address r));
  ("data_valid", j_bool (gd_valid r));
  ("unit", j_string (gd_unit r));
  ("decimal_places", j_number (gd_decimal_places r));
  ("current_concentration", j_double (gd_concentration r));
  ("low_alarm_threshold", j_double (gd_low_alarm r));
  ("high_alarm_threshold", j_double (gd_high_alarm r));
  ("gas_range", j_double (gd_range_value r));
  ("sensor_work_status", j_string (gd_status r));
  ("sensor_work_status_code", j_number (gd_status_register r));
  ("sensor_realtime_ad_value", j_number (gd_ad_value r));
  ("environment_temperature", j_double (gd_temperature r));
  ("gas_type_code", j_number (gd_gas_code r));
  ("gas_type", j_string (gd_gas r));
  ("environment_humidity", j_double (gd_humidity r))].
End json.

(** ** CRC and request *)

(** One turn of the inner loop, and of the outer loop. *)
Definition crc_bit (crc : Z) : Z :=
  if negb (Z.land crc 1 =? 0) then Z.lxor (Z.shiftr crc 1) 0xA001 else Z.shiftr crc 1.

Definition crc_byte (crc b : Z) : Z := Nat.iter 8 crc_bit (wrapu 16 (Z.lxor crc b)).

Definition Crc16Modbus (data : list Z) : Z := foldl crc_byte 0xFFFF data.

Definition BuildRequest (address start_register count : Z) : list Z :=
  let body := [address; 0x03;
               Z.land (Z.shiftr start_register 8) 0xFF; Z.land start_register 0xFF;
               Z.land (Z.shiftr count 8) 0xFF; Z.land count 0xFF] in
  let crc := Crc16Modbus body in
  body ++ [Z.land crc 0xFF; Z.land (Z.shiftr crc 8) 0xFF].

(** ** Parsing a response *)

(** The loop that fills [registers]. *)
Definition read_register (response : list Z) (index : nat) : outcome Z :=
  let offset := Z.of_nat (3 + index * 2) in
  hi ← vec_index response offset;
  lo ← vec_index response (offset + 1);
  Ret (wrapu 16 (Z.lor (Z.shiftl hi 8) lo)).

Fixpoint read_registers (response : list Z) (indices : list nat) : outcome (list Z) :=
  match indices with
  | [] => Ret []
  | i :: indices => r ← read_register response i; rest ← read_registers response indices;
                    Ret (r :: rest)
  end.

(** The valid result: everything computed from the registers. *)
Definition registers_data (address crc : Z) (byte_count : Z) (elapsed_ms : double)
    (timestamp : string) (registers : list Z) : GasDetectorData :=
  let r i := nth i registers 0 in
  let unit_code := Z.land (Z.shiftr (r 0%nat) 12) 0x0F in
  let decimal_code := Z.land (Z.shiftr (r 0%nat) 8) 0x0F in
  let decimals := DecimalPlaces decimal_code in
  let gas_code := Z.land (Z.shiftr (r 8%nat) 8) 0xFF in {|
  gd_address := address; gd_valid := true; gd_timeout := false; gd_crc_ok := true;
  gd_function_code := 0x03; gd_byte_count := byte_count; gd_exception_code := 0;
  gd_crc_received := crc; gd_crc_calculated := crc; gd_elapsed_ms := elapsed_ms;
  gd_definition_register := r 0%nat; gd_unit := UnitName unit_code; gd_decimal_places := decimals;
  gd_concentration_register := r 1%nat; gd_concentration := double_of_Z (r 1%nat);
  gd_concentration_text := FormatScaled (r 1%nat) decimals;
  gd_low_alarm_register := r 2%nat; gd_low_alarm := double_of_Z (r 2%nat);
  gd_low_alarm_text := pretty (r 2%nat);
  gd_high_alarm_register := r 3%nat; gd_high_alarm := double_of_Z (r 3%nat);
  gd_high_alarm_text := pretty (r 3%nat);
  gd_range_register := r 4%nat; gd_range_value := double_of_Z (r 4%nat);
  gd_range_text := pretty (r 4%nat);
  gd_status_register := r 5%nat; gd_status := StatusName (r 5%nat);
  gd_ad_register := r 6%nat; gd_ad_value := r 6%nat;
  gd_temperature_register := r 7%nat;
  gd_temperature := double_div (double_sub (double_of_Z (r 7%nat)) (double_of_Z 500)) (double_of_Z 10);
  gd_gas_code := gas_code; gd_gas := GasName gas_code; gd_gas_register := r 8%nat;
  gd_humidity_register := r 9%nat;
  gd_humidity := double_div (double_of_Z (r 9%nat)) (double_of_Z 10);
  gd_timestamp := timestamp; gd_error := ""; gd_sequence := 0
|}.

(** A failing parse stores its text in the result and in [*error]. *)
Definition parse_failure (data : GasDetectorData) (error : option string)
    : outcome (bool * option GasDetectorData * option string) :=
  Ret (false, Some data, set_err error (gd_error data)).

(** [result] is [None] for a null pointer.  Accesses outside the response are
    undefined. *)
Definition ParseResponse (response : list Z) (expected_address expected_register_count : Z)
    (elapsed_ms : double) (timestamp : string) (result : option GasDetectorData)
    (error : option string) : outcome (bool * option GasDetectorData * option string) :=
  match result with
  | None => Ret (false, None, set_err error "解析输出对象为空")
  | Some _ =>
      let size := Z.of_nat (length response) in
      let failed crc_ok function_code byte_count exception_code received calculated text :=
        parse_failure (header_data expected_address false crc_ok function_code byte_count
                         exception_code received calculated elapsed_ms timestamp text) error in
      if size <? 5 then
        failed false 0 0 0 0 0 ("报文长度不足：至少需要 5 字节，实际收到 " +:+ pretty size +:+ " 字节")
      else
        lo ← vec_index response (size - 2);
        hi ← vec_index response (size - 1);
        let crc_received := wrapu 16 (Z.lor lo (wrapu 16 (Z.shiftl hi 8))) in
        let crc_calculated := Crc16Modbus (take (length response - 2) response) in
        if negb (crc_received =? crc_calculated) then
          failed false 0 0 0 crc_received crc_calculated
            ("CRC 校验失败：接收 CRC=0x" +:+ hex_word crc_received +:+
             "，计算 CRC=0x" +:+ hex_word crc_calculated)
        else
          r0 ← vec_index response 0;
          r1 ← vec_index response 1;
          r2 ← vec_index response 2;
          if negb (r0 =? expected_address) then
            failed true r1 0 0 crc_received crc_calculated
              ("从站地址错误：期望 " +:+ pretty expected_address +:+ "，实际 " +:+ pretty r0)
          else if negb (Z.land r1 0x80 =? 0) then
            failed true r1 0 r2 crc_received crc_calculated
              ("Modbus 异常响应：异常码 0x" +:+ hex_byte r2 +:+ "（" +:+ ExceptionName r2 +:+ "）" +:+
               (if negb (size =? 5)
                then "，异常帧长度错误，期望 5 字节，实际 " +:+ pretty size +:+ " 字节" else ""))
          else if negb (r1 =? 0x03) then
            failed true r1 0 0 crc_received crc_calculated
              ("功能码错误：期望 0x03，实际 0x" +:+ hex_byte r1)
          else
            let expected_byte_count := expected_register_count * 2 in
            let expected_frame_size := expected_byte_count + 5 in
            if negb (r2 =? expected_byte_count) || negb (size =? expected_frame_size) then
              failed true r1 r2 0 crc_received crc_calculated
                ("响应长度错误：期望数据区 " +:+ pretty expected_byte_count +:+ " 字节、完整帧 " +:+
                 pretty expected_frame_size +:+ " 字节，实际声明 " +:+ pretty r2 +:+
                 " 字节、收到 " +:+ pretty size +:+ " 字节")
            else
              registers ← read_registers response (seq 0 10);
              Ret (true,
                   Some (registers_data expected_address crc_received r2 elapsed_ms timestamp registers),
                   set_err error "")
  end.

Definition MakeFailureResult (address : Z) (elapsed_ms : double) (error : string) (timeout : bool)
    (timestamp : string) : GasDetectorData :=
  header_data address timeout false 0 0 0 0 0 elapsed_ms timestamp error.

(** ** The CRC as a linear map

    Feeding bytes is shifting the whole message, as one little-endian number,
    through the register: the CRC of n bytes is 8n turns of the bit loop on the
    message xored into the initial value.  The turn is linear, and injective on
    16-bit values because the polynomial has its top bit set. *)

Lemma land_1 z : Z.land z 1 = z mod 2.
Proof. change (Z.land z 1) with (Z.land z (Z.ones 1)). by rewrite Z.land_ones. Qed.

Lemma crc_bit_lxor x y : crc_bit (Z.lxor x y) = Z.lxor (crc_bit x) (crc_bit y).
Proof.
  assert (Hb : ∀ z, crc_bit z = Z.lxor (Z.shiftr z 1) (if Z.testbit z 0 then 0xA001 else 0)).
  { intros z. unfold crc_bit. rewrite land_1, Z.bit0_odd, Zmod_odd.
    destruct (Z.odd z); cbn; [done|by rewrite Z.lxor_0_r]. }
  rewrite !Hb, Z.shiftr_lxor, Z.lxor_spec.
  rewrite !Z.lxor_assoc. f_equal. rewrite <- !(Z.lxor_assoc _ (Z.shiftr y 1)).
  rewrite (Z.lxor_comm _ (Z.shiftr y 1)), Z.lxor_assoc. f_equal.
  by destruct (Z.testbit x 0), (Z.testbit y 0).
Qed.

Lemma iter_S {A} (f : A → A) n x : Nat.iter (S n) f x = f (Nat.iter n f x).
Proof. reflexivity. Qed.

Lemma crc_bits_lxor n x y :
  Nat.iter n crc_bit (Z.lxor x y) = Z.lxor (Nat.iter n crc_bit x) (Nat.iter n crc_bit y).
Proof. induction n as [|n IH]; [done|]. by rewrite !iter_S, IH, crc_bit_lxor. Qed.

Lemma iter_plus {A} (f : A → A) m n x : Nat.iter (m + n) f x = Nat.iter m f (Nat.iter n f x).
Proof. induction m as [|m IH]; [done|]. cbn [Nat.add]. by rewrite !iter_S, IH. Qed.

Lemma crc_bit_double x : crc_bit (2 * x) = x.
Proof.
  unfold crc_bit. rewrite land_1, Z.mul_comm, Z.mod_mul by lia. cbn [Z.eqb negb].
  rewrite Z.shiftr_div_pow2 by lia. by rewrite Z.div_mul.
Qed.

Lemma crc_bits_pow n x : Nat.iter n crc_bit (2 ^ Z.of_nat n * x) = x.
Proof.
  revert x. induction n as [|n IH]; intros x; [change (2 ^ Z.of_nat 0 * x = x); lia|].
  rewrite <- Nat.add_1_r, iter_plus. change (Nat.iter 1 crc_bit ?z) with (crc_bit z).
  replace (2 ^ Z.of_nat (n + 1) * x) with (2 * (2 ^ Z.of_nat n * x)).
  - by rewrite crc_bit_double, IH.
  - rewrite Nat2Z.inj_add, Z.pow_add_r by lia. change (2 ^ Z.of_nat 1) with 2. lia.
Qed.

Lemma crc_bit_range x : inu 16 x → inu 16 (crc_bit x).
Proof.
  intros Hx. assert (Hs : 0 <= Z.shiftr x 1 < 2 ^ 15).
  { rewrite Z.shiftr_div_pow2 by lia. width_lia. }
  unfold crc_bit. destruct (negb _); [|unfold inu; lia].
  apply inu_lxor; unfold inu; lia.
Qed.

Lemma crc_bits_range n x : inu 16 x → inu 16 (Nat.iter n crc_bit x).
Proof. intros Hx. induction n as [|n IH]; [done|]. cbn. by apply crc_bit_range. Qed.

Lemma crc_bit_zero x : inu 16 x → crc_bit x = 0 → x = 0.
Proof.
  intros Hx. unfold crc_bit. rewrite land_1.
  destruct (x mod 2 =? 0) eqn:E; cbn [negb]; rewrite Z.shiftr_div_pow2 by lia; change (2 ^ 1) with 2.
  - width_lia.
  - intros H0%Z.lxor_eq. width_lia.
Qed.

Lemma crc_bits_zero n x : inu 16 x → Nat.iter n crc_bit x = 0 → x = 0.
Proof.
  intros Hx. induction n as [|n IH]; [done|]. rewrite iter_S. intros H0. apply IH.
  apply crc_bit_zero; [by apply crc_bits_range|done].
Qed.

(** A byte in front of a number: the sum is the exclusive or. *)
Lemma byte_lxor b n : byte b → 0 <= n → b + 256 * n = Z.lxor b (256 * n).
Proof.
  intros Hb Hn. apply Z.add_nocarry_lxor, Z.bits_inj'. intros i Hi.
  rewrite Z.land_spec, Z.bits_0. change 256 with (2 ^ 8). rewrite Z.mul_comm.
  destruct (decide (i < 8)).
  - rewrite Z.mul_pow2_bits_low by lia. apply andb_false_r.
  - rewrite <- (Z.mod_small b (2 ^ 8)) by done. by rewrite Z.mod_pow2_bits_high by lia.
Qed.

Lemma lxor_byte_range c b : inu 16 c → byte b → inu 16 (Z.lxor c b).
Proof. intros Hc Hb. apply inu_lxor; [lia|done|width_lia]. Qed.

(** The CRC of a message in closed form. *)
Lemma crc_from c l :
  inu 16 c → bytes l →
  foldl crc_byte c l = Nat.iter (8 * length l) crc_bit (Z.lxor c (le_decode l)).
Proof.
  intros Hc Hl. revert c Hc. induction Hl as [|b l Hb Hl IH]; intros c Hc.
  - cbn. by rewrite Z.lxor_0_r.
  - pose proof (lxor_byte_range c b Hc Hb) as Hcb.
    pose proof (le_decode_range l Hl) as [Hn _].
    cbn [foldl]. unfold crc_byte at 2. rewrite wrapu_id by done.
    rewrite IH by (by apply crc_bits_range).
    cbn [length le_decode]. replace (8 * S (length l))%nat with (8 * length l + 8)%nat by lia.
    rewrite iter_plus. f_equal.
    rewrite <- (crc_bits_pow 8 (le_decode l)) at 1. rewrite <- crc_bits_lxor. f_equal.
    rewrite Z.lxor_assoc. f_equal. change (2 ^ Z.of_nat 8) with 256. by rewrite byte_lxor.
Qed.

Lemma crc_range c l : inu 16 c → bytes l → inu 16 (foldl crc_byte c l).
Proof.
  intros Hc Hl. revert c Hc. induction Hl as [|b l Hb Hl IH]; intros c Hc; [done|]. cbn [foldl].
  apply IH. unfold crc_byte. rewrite wrapu_id by (by apply lxor_byte_range).
  by apply crc_bits_range, lxor_byte_range.
Qed.

(** A frame ends with the CRC of what precedes it, low byte first, exactly when
    the CRC of the whole frame is zero. *)
Lemma crc_residue body lo hi :
  bytes (body ++ [lo; hi]) →
  lo + 256 * hi = Crc16Modbus body ↔ Crc16Modbus (body ++ [lo; hi]) = 0.
Proof.
  intros [Hb Ht]%Forall_app. unfold Crc16Modbus. rewrite foldl_app.
  assert (Hc : inu 16 (foldl crc_byte 0xFFFF body)) by (by apply crc_range).
  rewrite (crc_from (foldl _ _ _)) by done. replace (le_decode [lo; hi]) with (lo + 256 * hi) by (cbn; lia).
  inversion_clear Ht as [|? ? Hlo Hhi']. inversion_clear Hhi' as [|? ? Hhi _].
  split.
  - intros E. rewrite <- E, Z.lxor_nilpotent. reflexivity.
  - intros H0. apply crc_bits_zero in H0; [by apply Z.lxor_eq in H0|].
    set (x := foldl _ _ _) in *. rewrite byte_lxor by (done || apply Hhi).
    rewrite <- Z.lxor_assoc. apply inu_lxor; [lia|by apply lxor_byte_range|width_lia].
Qed.

(** ** Reading the response *)

Lemma vec_index_app (pre : list Z) x rest i :
  i = Z.of_nat (length pre) → vec_index (pre ++ x :: rest) i = Ret x.
Proof.
  intros ->. unfold vec_index. rewrite (proj2 (Z.ltb_ge _ _)) by lia. rewrite Nat2Z.id.
  by rewrite list_lookup_middle.
Qed.

Lemma split_last2 (l : list Z) : (2 <= length l)%nat → ∃ b lo hi, l = b ++ [lo; hi].
Proof.
  intros Hl. exists (take (length l - 2) l).
  destruct (drop (length l - 2) l) as [|x [|y [|z t]]] eqn:E;
    pose proof (f_equal length E) as Hlen; rewrite length_drop in Hlen; cbn in Hlen; try lia.
  exists x, y. by rewrite <- E, take_drop.
Qed.

Lemma crc_field lo hi :
  byte lo → byte hi → wrapu 16 (Z.lor lo (wrapu 16 (Z.shiftl hi 8))) = lo + 256 * hi.
Proof.
  intros Hlo Hhi. rewrite (wrapu_id 16 (Z.shiftl hi 8)).
  - rewrite lor_shiftl_add by width_lia. change (2 ^ 8) with 256. apply wrapu_id. width_lia.
  - rewrite Z.shiftl_mul_pow2 by lia. change (2 ^ 8) with 256. width_lia.
Qed.

Lemma register_field lo hi :
  byte lo → byte hi → wrapu 16 (Z.lor (Z.shiftl hi 8) lo) = lo + 256 * hi.
Proof.
  intros Hlo Hhi. rewrite Z.lor_comm, lor_shiftl_add by width_lia. change (2 ^ 8) with 256.
  apply wrapu_id. width_lia.
Qed.

(** What follows the CRC check, on the first three bytes of a response of [size]
    bytes whose CRC is [crc]. *)
Definition after_crc (response : list Z) (r0 r1 r2 crc expected_address expected_register_count : Z)
    (elapsed_ms : double) (timestamp : string) (error : option string)
    : outcome (bool * option GasDetectorData * option string) :=
  let size := Z.of_nat (length response) in
  let failed byte_count exception_code text :=
    parse_failure (header_data expected_address false true r1 byte_count exception_code crc crc
                     elapsed_ms timestamp text) error in
  if negb (r0 =? expected_address) then
    failed 0 0 ("从站地址错误：期望 " +:+ pretty expected_address +:+ "，实际 " +:+ pretty r0)
  else if negb (Z.land r1 0x80 =? 0) then
    failed 0 r2
      ("Modbus 异常响应：异常码 0x" +:+ hex_byte r2 +:+ "（" +:+ ExceptionName r2 +:+ "）" +:+
       (if negb (size =? 5)
        then "，异常帧长度错误，期望 5 字节，实际 " +:+ pretty size +:+ " 字节" else ""))
  else if negb (r1 =? 0x03) then
    failed 0 0 ("功能码错误：期望 0x03，实际 0x" +:+ hex_byte r1)
  else
    let expected_byte_count := expected_register_count * 2 in
    let expected_frame_size := expected_byte_count + 5 in
    if negb (r2 =? expected_byte_count) || negb (size =? expected_frame_size) then
      failed r2 0
        ("响应长度错误：期望数据区 " +:+ pretty expected_byte_count +:+ " 字节、完整帧 " +:+
         pretty expected_frame_size +:+ " 字节，实际声明 " +:+ pretty r2 +:+
         " 字节、收到 " +:+ pretty size +:+ " 字节")
    else
      registers ← read_registers response (seq 0 10);
      Ret (true,
           Some (registers_data expected_address crc r2 elapsed_ms timestamp registers),
           set_err error "").

Lemma ParseResponse_long r0 r1 r2 rest lo hi body address count ms ts r err :
  r0 :: r1 :: r2 :: rest = body ++ [lo; hi] → bytes (body ++ [lo; hi]) →
  (2 <= length rest)%nat →
  ParseResponse (r0 :: r1 :: r2 :: rest) address count ms ts (Some r) err =
    if lo + 256 * hi =? Crc16Modbus body
    then after_crc (r0 :: r1 :: r2 :: rest) r0 r1 r2 (lo + 256 * hi) address count ms ts err
    else parse_failure (header_data address false false 0 0 0 (lo + 256 * hi) (Crc16Modbus body) ms ts
           ("CRC 校验失败：接收 CRC=0x" +:+ hex_word (lo + 256 * hi) +:+
            "，计算 CRC=0x" +:+ hex_word (Crc16Modbus body))) err.
Proof.
  intros E Hb Hlen. unfold ParseResponse.
  assert (Hlb : (length body = length rest + 1)%nat).
  { apply (f_equal length) in E. rewrite length_app in E. cbn in E. lia. }
  set (size := Z.of_nat (length (r0 :: r1 :: r2 :: rest))).
  assert (Hsize : size = Z.of_nat (length body) + 2) by (subst size; cbn [length]; lia).
  replace (size <? 5) with false by lia.
  replace (vec_index (r0 :: r1 :: r2 :: rest) (size - 2)) with (Ret lo)
    by (rewrite E, (vec_index_app body lo [hi]); [done|lia]).
  replace (vec_index (r0 :: r1 :: r2 :: rest) (size - 1)) with (Ret hi).
  2: { rewrite E. change [lo; hi] with ([lo] ++ [hi]). rewrite app_assoc, vec_index_app; [done|].
       rewrite length_app. cbn [length]. lia. }
  cbn [mbind outcome_bind].
  apply Forall_app in Hb as [Hb Ht]. inversion_clear Ht as [|? ? Hlo Ht']. inversion_clear Ht' as [|? ? Hhi _].
  rewrite crc_field by done. cbv zeta.
  replace (take (length (r0 :: r1 :: r2 :: rest) - 2) (r0 :: r1 :: r2 :: rest)) with body
    by (rewrite E, length_app, Nat.add_sub, take_app_length; done).
  destruct (lo + 256 * hi =? Crc16Modbus body) eqn:Hc; [|done].
  apply Z.eqb_eq in Hc. rewrite <- Hc. reflexivity.
Qed.

(** The registers, two bytes each, high byte first. *)
Fixpoint be_words (l : list Z) : list Z :=
  match l with
  | hi :: lo :: l => lo + 256 * hi :: be_words l
  | _ => []
  end.

Lemma read_registers_words n pre data t k :
  length pre = (3 + 2 * k)%nat → length data = (2 * n)%nat → bytes data →
  read_registers (pre ++ data ++ t) (seq k n) = Ret (be_words data).
Proof.
  revert pre data k. induction n as [|n IH]; intros pre data k Hp Hd Hb.
  - by destruct data.
  - destruct data as [|hi [|lo data]]; [done|cbn in Hd; lia|].
    inversion_clear Hb as [|? ? Hhi Hb']. inversion_clear Hb' as [|? ? Hlo Hb].
    cbn [seq read_registers be_words]. unfold read_register. cbv zeta.
    change ((hi :: lo :: data) ++ t) with (hi :: lo :: data ++ t).
    rewrite (vec_index_app pre hi _ (Z.of_nat (3 + k * 2))) by lia. cbn [mbind outcome_bind].
    replace (pre ++ hi :: lo :: data ++ t) with ((pre ++ [hi]) ++ lo :: data ++ t)
      by (by rewrite <- app_assoc).
    rewrite (vec_index_app _ lo _ (Z.of_nat (3 + k * 2) + 1))
      by (rewrite length_app; cbn [length]; lia). cbn [mbind outcome_bind].
    replace ((pre ++ [hi]) ++ lo :: data ++ t) with ((pre ++ [hi; lo]) ++ data ++ t)
      by (by rewrite <- !app_assoc).
    cbn [length] in Hd. rewrite (IH (pre ++ [hi; lo]) data (S k)) by (done || (rewrite length_app; cbn [length]; lia) || lia).
    cbn [mbind outcome_bind]. by rewrite register_field.
Qed.

Definition register_bytes (regs : list Z) : list Z := regs ≫= be_encode 2.

Lemma be_encode_2 w : be_encode 2 w = [(w / 256) mod 256; w mod 256].
Proof. reflexivity. Qed.

Lemma be_words_register_bytes regs : Forall (inu 16) regs → be_words (register_bytes regs) = regs.
Proof.
  induction 1 as [|w regs Hw _ IH]; [done|]. unfold register_bytes in *. cbn [mbind list_bind].
  rewrite be_encode_2. cbn [app be_words]. rewrite IH. f_equal. width_lia.
Qed.

Lemma register_bytes_be_words n l :
  length l = (2 * n)%nat → bytes l → register_bytes (be_words l) = l ∧
  length (be_words l) = n ∧ Forall (inu 16) (be_words l).
Proof.
  revert l. induction n as [|n IH]; intros l Hl Hb; [by destruct l|].
  destruct l as [|hi [|lo l]]; [done|cbn in Hl; lia|].
  inversion_clear Hb as [|? ? Hhi Hb']. inversion_clear Hb' as [|? ? Hlo Hb].
  cbn [length] in Hl. destruct (IH l) as (IH1 & IH2 & IH3); [lia|done|].
  unfold register_bytes in *. cbn [be_words mbind list_bind]. rewrite be_encode_2.
  rewrite IH1. cbn [app length]. rewrite IH2. split_and!; [|done|].
  - f_equal; [width_lia|]. f_equal. width_lia.
  - constructor; [width_lia|done].
Qed.

Lemma length_register_bytes regs : length (register_bytes regs) = (2 * length regs)%nat.
Proof.
  induction regs as [|w regs IH]; [done|]. unfold register_bytes in *. cbn [mbind list_bind].
  rewrite length_app, IH, length_be_encode. cbn [length]. lia.
Qed.

Lemma register_bytes_bytes regs : bytes (register_bytes regs).
Proof.
  unfold register_bytes. apply Forall_bind, Forall_true. intros w. apply be_encode_bytes.
Qed.

(** ** Theorems on responses *)

(** The reply of a device that follows the protocol. *)
Definition reply_frame (address : Z) (regs : list Z) : list Z :=
  let body := [address; 0x03; 2 * Z.of_nat (length regs)] ++ register_bytes regs in
  body ++ le_encode 2 (Crc16Modbus body).

#[global] Arguments reply_frame _ _ : simpl never.
#[global] Arguments Crc16Modbus _ : simpl never.

Lemma le_encode_2 w : le_encode 2 w = [w mod 256; (w / 256) mod 256].
Proof. reflexivity. Qed.

(** A response of at least five bytes: header, data, CRC. *)
Lemma response_parts (l : list Z) :
  (5 <= length l)%nat → ∃ r0 r1 r2 data lo hi, l = r0 :: r1 :: r2 :: data ++ [lo; hi].
Proof.
  destruct l as [|r0 [|r1 [|r2 l]]]; cbn [length]; try lia. intros Hl.
  destruct (split_last2 l) as (data & lo & hi & ->); [lia|]. by exists r0, r1, r2, data, lo, hi.
Qed.

Lemma ParseResponse_parts r0 r1 r2 data lo hi address count ms ts r err :
  bytes (r0 :: r1 :: r2 :: data ++ [lo; hi]) →
  ParseResponse (r0 :: r1 :: r2 :: data ++ [lo; hi]) address count ms ts (Some r) err =
    let crc := Crc16Modbus (r0 :: r1 :: r2 :: data) in
    if lo + 256 * hi =? crc
    then after_crc (r0 :: r1 :: r2 :: data ++ [lo; hi]) r0 r1 r2 crc address count ms ts err
    else parse_failure (header_data address false false 0 0 0 (lo + 256 * hi) crc ms ts
           ("CRC 校验失败：接收 CRC=0x" +:+ hex_word (lo + 256 * hi) +:+
            "，计算 CRC=0x" +:+ hex_word crc)) err.
Proof.
  intros Hb. rewrite (ParseResponse_long _ _ _ _ lo hi (r0 :: r1 :: r2 :: data))
    by (done || (rewrite length_app; cbn [length]; lia)).
  cbv zeta. destruct (lo + 256 * hi =? Crc16Modbus (r0 :: r1 :: r2 :: data)) eqn:E; [|done].
  apply Z.eqb_eq in E. by rewrite E.
Qed.

Lemma ParseResponse_short response address count ms ts r err :
  (length response < 5)%nat →
  ParseResponse response address count ms ts (Some r) err =
    parse_failure (header_data address false false 0 0 0 0 0 ms ts
      ("报文长度不足：至少需要 5 字节，实际收到 " +:+ pretty (Z.of_nat (length response)) +:+ " 字节")) err.
Proof.
  intros Hl. unfold ParseResponse. by replace (Z.of_nat (length response) <? 5) with true by lia.
Qed.

(** The header of a parsed result. *)
Definition crc_of (response : list Z) : Z := Crc16Modbus (take (length response - 2) response).

Lemma crc_of_parts body lo hi : crc_of (body ++ [lo; hi]) = Crc16Modbus body.
Proof. unfold crc_of. by rewrite length_app, Nat.add_sub, take_app_length. Qed.

Lemma reply_frame_parts address regs :
  let body := address :: 3 :: 2 * Z.of_nat (length regs) :: register_bytes regs in
  let crc := Crc16Modbus body in
  reply_frame address regs = body ++ [crc mod 256; (crc / 256) mod 256].
Proof. reflexivity. Qed.

Lemma reply_frame_bytes address regs :
  byte address → (length regs <= 127)%nat → bytes (reply_frame address regs).
Proof.
  intros Ha Hl. rewrite reply_frame_parts. apply Forall_app. split.
  - constructor; [done|]. constructor; [width_lia|]. constructor; [width_lia|].
    apply register_bytes_bytes.
  - constructor; [width_lia|]. constructor; [width_lia|done].
Qed.

(** A response is accepted exactly when it is the reply of the polled
    device carrying ten registers, with a correct CRC; the result then holds
    those registers, and the error text is cleared. *)
Lemma ParseResponse_genuine response address ms ts r err d e :
  bytes response → byte address →
  ParseResponse response address 10 ms ts (Some r) err = Ret (true, d, e) ↔
  ∃ regs, length regs = 10%nat ∧ Forall (inu 16) regs ∧ response = reply_frame address regs ∧
    d = Some (registers_data address (crc_of response) 20 ms ts regs) ∧ e = set_err err "".
Proof.
  intros Hb Ha. split.
  - destruct (decide (length response < 5)%nat) as [Hs|Hs]; [by rewrite ParseResponse_short|].
    destruct (response_parts response) as (r0 & r1 & r2 & data & lo & hi & ->); [lia|].
    rewrite ParseResponse_parts by done. cbv zeta.
    destruct (lo + 256 * hi =? Crc16Modbus (r0 :: r1 :: r2 :: data)) eqn:Hc; [|done].
    apply Z.eqb_eq in Hc. unfold after_crc.
    destruct (r0 =? address) eqn:H0; [|done]. destruct (Z.land r1 128 =? 0); [|done].
    destruct (r1 =? 3) eqn:H1; [|done]. cbn [negb].
    destruct (negb (r2 =? 10 * 2) || _) eqn:H2; [done|].
    apply orb_false_iff in H2 as [H2 H3]. rewrite negb_false_iff in H2, H3.
    apply Z.eqb_eq in H0, H1, H2, H3. subst r0 r1 r2.
    rewrite length_cons, length_cons, length_cons, length_app in H3. cbn [length] in H3.
    change (address :: ?x :: ?y :: data ++ [lo; hi]) with ([address; x; y] ++ data ++ [lo; hi]) in Hb |- *.
    apply Forall_app in Hb as [_ Hb]. apply Forall_app in Hb as [Hbd Hbl].
    rewrite (read_registers_words 10 [address; 3; 10 * 2] data [lo; hi]) by (done || lia).
    cbn [mbind outcome_bind]. intros [= <- <-].
    destruct (register_bytes_be_words 10 data) as (Hr1 & Hr2 & Hr3); [lia|done|].
    exists (be_words data). split_and!; [done|done| |f_equal; f_equal|done].
    + rewrite reply_frame_parts, Hr1, Hr2. cbn [app]. do 4 f_equal.
      change (2 * Z.of_nat 10) with (10 * 2). rewrite <- Hc.
      inversion_clear Hbl as [|? ? Hlo Hbl']. inversion_clear Hbl' as [|? ? Hhi _].
      f_equal; [width_lia|]. f_equal. width_lia.
    + symmetry. exact (crc_of_parts (address :: 3 :: 10 * 2 :: data) lo hi).
  - intros (regs & Hl & Hr & -> & -> & ->). revert Hb. rewrite reply_frame_parts, Hl.
    change (2 * Z.of_nat 10) with 20. intros Hb. pose proof Hb as [Hbody _]%Forall_app.
    rewrite crc_of_parts. rewrite <- !app_comm_cons in Hb |- *.
    rewrite ParseResponse_parts by done. cbv zeta.
    set (crc := Crc16Modbus (address :: 3 :: 20 :: register_bytes regs)) in *.
    assert (Hcr : inu 16 crc) by (by apply crc_range).
    replace (crc mod 256 + 256 * ((crc / 256) mod 256)) with crc by width_lia.
    rewrite Z.eqb_refl. unfold after_crc. rewrite Z.eqb_refl.
    rewrite !length_cons, length_app, length_register_bytes, Hl.
    change (address :: 3 :: 20 :: register_bytes regs ++ ?t) with ([address; 3; 20] ++ register_bytes regs ++ t).
    rewrite (read_registers_words 10) by (done || apply register_bytes_bytes || rewrite length_register_bytes, Hl; done).
    by rewrite be_words_register_bytes.
Qed.

Definition demo_registers : list Z := [0x0400; 1234; 50; 100; 999; 1; 20000; 752; 0x0500; 455].
Definition demo_reply : list Z := Eval vm_compute in reply_frame 3 demo_registers.

Lemma ParseResponse_genuine_witness :
  ∃ d, ParseResponse demo_reply 3 10 (double_of_Z 12) "now" (Some GasDetectorData_default) (Some "old")
         = Ret (true, Some d, Some "") ∧
       (gd_concentration_text d, gd_unit d, gd_gas d, gd_status d) =
         ("123.4", "ppm", "CO(一氧化碳)", "正常工作").
Proof.
  exists (registers_data 3 (crc_of demo_reply) 20 (double_of_Z 12) "now" demo_registers).
  split; [|reflexivity].
  apply ParseResponse_genuine; [apply (bool_decide_unpack _); by vm_compute|width_lia|].
  exists demo_registers. split_and!; try reflexivity.
  apply (bool_decide_unpack _). by vm_compute.
Defined.

(** Parsing never reads outside the response when at least ten registers
    were asked for, and a result tells a failure from a success consistently:
    the text in the result and in [*error] is empty exactly for a success, and
    the result is for the polled address. *)
Lemma ParseResponse_total response address count ms ts r err :
  bytes response → 10 <= count →
  ∃ b d, ParseResponse response address count ms ts (Some r) err = Ret (b, Some d, set_err err (gd_error d)) ∧
    gd_valid d = b ∧ (gd_error d = "" ↔ b = true) ∧ gd_address d = address ∧ gd_timeout d = false.
Proof.
  intros Hb Hc.
  assert (Hf : ∀ ok fc bc ec rc cc text, text ≠ "" →
    ∃ b d, parse_failure (header_data address false ok fc bc ec rc cc ms ts text) err
             = Ret (b, Some d, set_err err (gd_error d)) ∧
      gd_valid d = b ∧ (gd_error d = "" ↔ b = true) ∧ gd_address d = address ∧ gd_timeout d = false).
  { intros. by do 2 eexists. }
  destruct (decide (length response < 5)%nat) as [Hs|Hs].
  { rewrite ParseResponse_short by done. by apply Hf. }
  destruct (response_parts response) as (r0 & r1 & r2 & data & lo & hi & ->); [lia|].
  rewrite ParseResponse_parts by done. cbv zeta.
  destruct (lo + 256 * hi =? Crc16Modbus (r0 :: r1 :: r2 :: data)); [|by apply Hf].
  unfold after_crc.
  destruct (negb (r0 =? address)); [by apply Hf|]. destruct (negb (Z.land r1 128 =? 0)); [by apply Hf|].
  destruct (negb (r1 =? 3)); [by apply Hf|].
  destruct (negb (r2 =? count * 2) || _) eqn:H2; [by apply Hf|].
  apply orb_false_iff in H2 as [_ H3]. rewrite negb_false_iff in H3. apply Z.eqb_eq in H3.
  rewrite !length_cons, length_app in H3. cbn [length] in H3.
  rewrite <- (take_drop 20 data). rewrite <- (app_assoc (take 20 data)).
  change (r0 :: r1 :: r2 :: ?l) with ([r0; r1; r2] ++ l).
  rewrite (read_registers_words 10); [|done|rewrite length_take; lia|].
  - cbn [mbind outcome_bind].
    match goal with |- context [Some (registers_data ?a ?b ?c ?d ?e ?f)] =>
      by exists true, (registers_data a b c d e f) end.
  - rewrite !Forall_cons, Forall_app in Hb. apply Forall_take, Hb.
Qed.

Lemma ParseResponse_total_witness :
  ∃ b d, ParseResponse [1; 3; 20; 0; 0; 9; 9] 1 10 (double_of_Z 0) "now" (Some GasDetectorData_default) None
    = Ret (b, Some d, None) ∧ gd_error d ≠ "".
Proof.
  destruct (ParseResponse_total [1; 3; 20; 0; 0; 9; 9] 1 10 (double_of_Z 0) "now" GasDetectorData_default None)
    as (b & d & H & _ & He & _); [apply (bool_decide_unpack _); by vm_compute|lia|].
  exists b, d. split; [exact H|]. rewrite He. intros ->. vm_compute in H. discriminate.
Defined.

(** The count matters: with fewer registers than ten the loop over ten reads
    past the end of an accepted frame. *)
Example read_past_the_end :
  ParseResponse (reply_frame 1 []) 1 0 (double_of_Z 0) "now" (Some GasDetectorData_default) None = Undef.
Proof. vm_compute. reflexivity. Qed.

Lemma burst_nonzero n w j :
  0 < w < 2 ^ 16 → 0 <= j → inu (8 * Z.of_nat n) (w * 2 ^ j) →
  Nat.iter (8 * n) crc_bit (w * 2 ^ j) ≠ 0.
Proof.
  intros Hw Hj [_ Hr] H0.
  assert (Hjn : j <= Z.of_nat (8 * n)).
  { apply Z.le_ngt. intros Hn. assert (2 ^ (8 * Z.of_nat n) <= 2 ^ j) by (apply Z.pow_le_mono_r; lia). nia. }
  replace (8 * n)%nat with ((8 * n - Z.to_nat j) + Z.to_nat j)%nat in H0 by lia.
  rewrite iter_plus, Z.mul_comm in H0. rewrite <- (Z2Nat.id j) in H0 at 3 by done.
  rewrite crc_bits_pow in H0. apply crc_bits_zero in H0; [lia|]. unfold inu. lia.
Qed.

(** C37: error detection.  When the CRC check passes on a response, it fails
    on every response of the same length that differs from it by a burst of at
    most sixteen bits (the bits in the order in which the line carries them):
    the damaged response is rejected. *)
Theorem ParseResponse_detects_burst f f' w j address count ms ts r err b d e :
  bytes f → bytes f' → length f' = length f → 0 < w < 2 ^ 16 → 0 <= j →
  Z.lxor (le_decode f) (le_decode f') = w * 2 ^ j →
  ParseResponse f address count ms ts (Some r) err = Ret (b, Some d, e) → gd_crc_ok d = true →
  ∃ d', ParseResponse f' address count ms ts (Some r) err = Ret (false, Some d', set_err err (gd_error d')) ∧
    gd_crc_ok d' = false.
Proof.
  intros Hf Hf' Hlen Hw Hj Hx Hp Hok.
  destruct (decide (length f < 5)%nat) as [Hs|Hs].
  { rewrite ParseResponse_short in Hp by done. by injection Hp as <- <- <-. }
  assert (H0 : Crc16Modbus f = 0).
  { destruct (response_parts f) as (r0 & r1 & r2 & data & lo & hi & ->); [lia|].
    rewrite ParseResponse_parts in Hp by done. cbv zeta in Hp.
    destruct (lo + 256 * hi =? Crc16Modbus (r0 :: r1 :: r2 :: data)) eqn:Hc;
      [|by injection Hp as <- <- <-].
    apply (crc_residue (r0 :: r1 :: r2 :: data)); [done|]. by apply Z.eqb_eq. }
  assert (H1 : Crc16Modbus f' ≠ 0).
  { intros H1. unfold Crc16Modbus in H0, H1. rewrite crc_from in H0, H1 by done.
    rewrite Hlen in H1. apply (burst_nonzero (length f) w j); try done.
    - rewrite <- Hx. pose proof (le_decode_range f' Hf') as Hr'. rewrite Hlen in Hr'.
      pose proof (le_decode_range f Hf) as Hr. rewrite pow256_pow2 in Hr, Hr'.
      by apply inu_lxor; [lia|..].
    - rewrite <- Hx, <- (Z.lxor_0_r (Z.lxor _ _)), <- (Z.lxor_nilpotent 65535).
      rewrite Z.lxor_assoc, (Z.lxor_comm (le_decode f')), Z.lxor_assoc.
      rewrite <- (Z.lxor_assoc (le_decode f)), (Z.lxor_comm (le_decode f)).
      by rewrite crc_bits_lxor, H0, H1. }
  destruct (response_parts f') as (r0 & r1 & r2 & data & lo & hi & ->); [lia|].
  rewrite ParseResponse_parts by done. cbv zeta.
  destruct (lo + 256 * hi =? Crc16Modbus (r0 :: r1 :: r2 :: data)) eqn:Hc.
  - apply Z.eqb_eq, (crc_residue (r0 :: r1 :: r2 :: data)) in Hc; done.
  - by eexists.
Qed.

Definition demo_data : GasDetectorData := Eval vm_compute in
  match ParseResponse demo_reply 3 10 (double_of_Z 12) "now" (Some GasDetectorData_default) None with
  | Ret (_, Some d, _) => d
  | _ => GasDetectorData_default
  end.
(** Two bytes of the reply damaged, five bits apart at most. *)
Definition damaged_reply : list Z := Eval vm_compute in <[7%nat:=0x80]> (<[8%nat:=0x30]> demo_reply).

Lemma ParseResponse_detects_burst_witness :
  ∃ d', ParseResponse damaged_reply 3 10 (double_of_Z 12) "now"
          (Some GasDetectorData_default) None = Ret (false, Some d', set_err None (gd_error d')) ∧
    gd_crc_ok d' = false.
Proof.
  apply (ParseResponse_detects_burst demo_reply damaged_reply 5 63 3 10 (double_of_Z 12) "now"
    GasDetectorData_default None true demo_data None).
  - apply (bool_decide_unpack _). by vm_compute.
  - apply (bool_decide_unpack _). by vm_compute.
  - reflexivity.
  - lia.
  - lia.
  - vm_compute. reflexivity.
  - vm_compute. reflexivity.
  - reflexivity.
Defined.
