(* ===== verification/GasDetectorPoll.v ===== *)
(** * Polling the gas detectors

    Model of my_gas_detector_poll/MyGasDetectorPoll.cpp and MyGasDetectorPoll.h
    over the [SerialPort] interface: one poll of a device (clearing the input,
    request, response, parsing), the statistics and latest results, the status
    reports, and [Init], [Start] and [Stop].

    What the code reads of its surroundings while it polls - the stop flag, which
    another thread may set at any moment, the clock in nanoseconds, the printed
    time stamp - comes from a list of readings; a loop uses up one per turn, and
    [None] means that the list ended before the loop did.  The worker thread and
    the order of its steps with the calls of other threads are in
    [GasDetectorSystem].  Log lines, [LogSummary] and what only they use are left
    out. *)

From S2P Require Import Prelude Bytes Json SerialPort MySerial Double GasDetectorConfig GasDetectorModbus.
From stdpp Require Import pretty.

Local Open Scope Z_scope.

Inductive PollState := Uninitialized | Disabled | Initialized | Running | Error.

#[export] Instance PollState_eq_dec : EqDecision PollState.
Proof. solve_decision. Defined.

Definition StateToString (state : PollState) : string :=
  match state with
  | Uninitialized => "uninitialized" | Disabled => "disabled" | Initialized => "initialized"
  | Running => "running" | Error => "error"
  end.

(** The six counters and [next_sequence_], all 64 bits wide. *)
Record statistics := {
  request_count_ : Z;
  success_count_ : Z;
  timeout_count_ : Z;
  invalid_frame_count_ : Z;
  crc_error_count_ : Z;
  cycle_count_ : Z;
  next_sequence_ : Z
}.

Definition statistics_zero : statistics := {|
  request_count_ := 0; success_count_ := 0; timeout_count_ := 0; invalid_frame_count_ := 0;
  crc_error_count_ := 0; cycle_count_ := 0; next_sequence_ := 1
|}.

(** [++n] on a [uint64_t]. *)
Definition incr (n : Z) : Z := wrapu 64 (n + 1).
Definition incr_if (b : bool) (n : Z) : Z := if b then incr n else n.

(** One reading of the stop flag, the clock and the time stamp. *)
Record reading := { rd_stop : bool; rd_now : Z; rd_stamp : string }.

(** The worker: where it is in [WorkerLoop], and its local variables. *)
Inductive worker_pc :=
| WStart                                    (** before the first statement *)
| WWhile                                    (** the test of the [while] *)
| WFor (rest : list Z)                      (** the head of the [for], [rest] to go *)
| WWait (a : Z) (rest : list Z)             (** entering [WaitUntil] *)
| WPred (a : Z) (rest : list Z)             (** about to test the wait predicate *)
| WDeciding (a : Z) (rest : list Z)         (** found it false, not yet blocked *)
| WBlocked (a : Z) (rest : list Z)          (** blocked on [wait_condition_] *)
| WCount (a : Z) (rest : list Z)            (** past the wait *)
| WPoll (a : Z) (rest : list Z)             (** request counted *)
| WStore (a : Z) (rest : list Z) (result : GasDetectorData) (response : list Z)
| WCycle                                    (** the end of a cycle *)
| WExited.                                  (** returned from [WorkerLoop] *)

Record worker := { wk_pc : worker_pc; wk_config : GasDetectorPollConfig; wk_next_request_at : Z }.

Section poll.
Context {J S : Type} `{JsonOps J} `{SerialPort J S}.

(** [gp_worker] is [worker_]: [None] when it is not joinable. *)
Record GasDetectorPoll := {
  gp_stop_requested : bool;
  gp_worker : option worker;
  gp_initialized : bool;
  gp_running : bool;
  gp_communication_ok : bool;
  gp_debug_log_enabled : bool;
  gp_simulate_mode : bool;
  gp_state : PollState;
  gp_config : GasDetectorPollConfig;
  gp_init_config : J;
  gp_latest_results : list GasDetectorData;
  gp_stats : statistics;
  gp_last_error : string;
  gp_last_frame : string;
  gp_serial : S
}.

Definition GasDetectorPoll_new : GasDetectorPoll := {|
  gp_stop_requested := false; gp_worker := None; gp_initialized := false; gp_running := false;
  gp_communication_ok := false; gp_debug_log_enabled := false; gp_simulate_mode := false;
  gp_state := Uninitialized; gp_config := GasDetectorPollConfig_default;
  gp_init_config := j_object []; gp_latest_results := []; gp_stats := statistics_zero;
  gp_last_error := ""; gp_last_frame := ""; gp_serial := sp_init
|}.

Definition with_stop (b : bool) (s : GasDetectorPoll) : GasDetectorPoll := {|
  gp_stop_requested := b; gp_worker := gp_worker s; gp_initialized := gp_initialized s;
  gp_running := gp_running s; gp_communication_ok := gp_communication_ok s;
  gp_debug_log_enabled := gp_debug_log_enabled s; gp_simulate_mode := gp_simulate_mode s;
  gp_state := gp_state s; gp_config := gp_config s; gp_init_config := gp_init_config s;
  gp_latest_results := gp_latest_results s; gp_stats := gp_stats s;
  gp_last_error := gp_last_error s; gp_last_frame := gp_last_frame s; gp_serial := gp_serial s
|}.

Definition with_worker (w : option worker) (s : GasDetectorPoll) : GasDetectorPoll := {|
  gp_stop_requested := gp_stop_requested s; gp_worker := w; gp_initialized := gp_initialized s;
  gp_running := gp_running s; gp_communication_ok := gp_communication_ok s;
  gp_debug_log_enabled := gp_debug_log_enabled s; gp_simulate_mode := gp_simulate_mode s;
  gp_state := gp_state s; gp_config := gp_config s; gp_init_config := gp_init_config s;
  gp_latest_results := gp_latest_results s; gp_stats := gp_stats s;
  gp_last_error := gp_last_error s; gp_last_frame := gp_last_frame s; gp_serial := gp_serial s
|}.

Definition with_serial (p : S) (s : GasDetectorPoll) : GasDetectorPoll := {|
  gp_stop_requested := gp_stop_requested s; gp_worker := gp_worker s;
  gp_initialized := gp_initialized s; gp_running := gp_running s;
  gp_communication_ok := gp_communication_ok s;
  gp_debug_log_enabled := gp_debug_log_enabled s; gp_simulate_mode := gp_simulate_mode s;
  gp_state := gp_state s; gp_config := gp_config s; gp_init_config := gp_init_config s;
  gp_latest_results := gp_latest_results s; gp_stats := gp_stats s;
  gp_last_error := gp_last_error s; gp_last_frame := gp_last_frame s; gp_serial := p
|}.

(** The fields the life cycle changes together. *)
Definition with_life (initialized running communication_ok : bool) (state : PollState)
    (last_error : string) (s : GasDetectorPoll) : GasDetectorPoll := {|
  gp_stop_requested := gp_stop_requested s; gp_worker := gp_worker s;
  gp_initialized := initialized; gp_running := running; gp_communication_ok := communication_ok;
  gp_debug_log_enabled := gp_debug_log_enabled s; gp_simulate_mode := gp_simulate_mode s;
  gp_state := state; gp_config := gp_config s; gp_init_config := gp_init_config s;
  gp_latest_results := gp_latest_results s; gp_stats := gp_stats s;
  gp_last_error := last_error; gp_last_frame := gp_last_frame s; gp_serial := gp_serial s
|}.

(** The fields a stored result changes together. *)
Definition with_results (latest : list GasDetectorData) (stats : statistics)
    (communication_ok : bool) (last_error last_frame : string) (s : GasDetectorPoll)
    : GasDetectorPoll := {|
  gp_stop_requested := gp_stop_requested s; gp_worker := gp_worker s;
  gp_initialized := gp_initialized s; gp_running := gp_running s;
  gp_communication_ok := communication_ok;
  gp_debug_log_enabled := gp_debug_log_enabled s; gp_simulate_mode := gp_simulate_mode s;
  gp_state := gp_state s; gp_config := gp_config s; gp_init_config := gp_init_config s;
  gp_latest_results := latest; gp_stats := stats;
  gp_last_error := last_error; gp_last_frame := last_frame; gp_serial := gp_serial s
|}.

(** ** One poll *)

(** Clearing the input; the chunks are at most 512 bytes. *)
Fixpoint DiscardInputBuffer (readings : list reading) (p : S) : option (bool * S * list reading) :=
  match readings with
  | [] => None
  | t :: readings =>
      if rd_stop t then Some (false, p, readings)
      else
        let '(available, available_error, p) := sp_Available (Some "") p in
        if negb (bool_decide (default "" available_error = "")) then Some (false, p, readings)
        else if (available =? 0)%nat then Some (true, p, readings)
        else
          let '(discarded, read_error, p) := sp_ReadBytes (Nat.min available 512) (Some "") p in
          if negb (bool_decide (default "" read_error = "")) then Some (false, p, readings)
          else if bool_decide (discarded = []) then Some (false, p, readings)
          else DiscardInputBuffer readings p
  end.

(** [result] holds what has been read so far. *)
Fixpoint ReadUpTo_loop (size : nat) (deadline : Z) (readings : list reading) (result : list Z)
    (error : option string) (p : S) : option (list Z * option string * S * list reading) :=
  if negb (length result <? size)%nat then Some (result, error, p, readings)
  else
    match readings with
    | [] => None
    | t :: readings =>
        if rd_stop t then Some (result, error, p, readings)
        else if deadline <=? rd_now t then Some (result, error, p, readings)
        else
          let '(chunk, read_error, p) := sp_ReadBytes (size - length result) (Some "") p in
          if negb (bool_decide (default "" read_error = ""))
          then Some (result, set_err error (default "" read_error), p, readings)
          else ReadUpTo_loop size deadline readings (result ++ chunk) error p
    end.

Definition ReadUpTo (size : nat) (deadline : Z) (readings : list reading) (error : option string)
    (p : S) : option (list Z * option string * S * list reading) :=
  ReadUpTo_loop size deadline readings [] error p.

(** [error != 0 && error->empty()]. *)
Definition error_empty (error : option string) : bool :=
  match error with Some "" => true | _ => false end.

Definition ReadResponse (deadline : Z) (readings : list reading) (error : option string) (p : S)
    : option (list Z * option string * S * list reading) :=
  let error := set_err error "" in
  '(header, error, p, readings) ← ReadUpTo 3 deadline readings error p;
  match header with
  | _ :: h1 :: h2 :: _ =>
      let remaining := if negb (Z.land h1 0x80 =? 0) then 2%nat else (Z.to_nat h2 + 2)%nat in
      if (kMaxResponseSize <? length header + remaining)%nat then
        Some (header, set_err error "响应声明长度超过 Modbus RTU 最大帧长度", p, readings)
      else
        '(body, error, p, readings) ← ReadUpTo remaining deadline readings error p;
        let frame := header ++ body in
        let error :=
          if (length frame <? 3 + remaining)%nat && error_empty error
          then set_err error ("响应帧未读取完整：期望 " +:+ pretty (Z.of_nat (3 + remaining)) +:+
                              " 字节，实际收到 " +:+ pretty (Z.of_nat (length frame)) +:+ " 字节")
          else error in
        Some (frame, error, p, readings)
  | _ =>
      let error :=
        if error_empty error && negb (bool_decide (header = []))
        then set_err error ("响应头不完整：期望 3 字节，实际收到 " +:+
                            pretty (Z.of_nat (length header)) +:+ " 字节")
        else error in
      Some (header, error, p, readings)
  end.

(** [duration_cast<microseconds>(now - started).count() / 1000.0]. *)
Definition elapsed_ms (started now : Z) : double :=
  double_div (double_of_Z (Z.quot (now - started) 1000)) (double_of_Z 1000).

Definition next_reading (readings : list reading) : option (reading * list reading) :=
  match readings with [] => None | t :: readings => Some (t, readings) end.

(** [result.error = parse_error] when the latter is not empty.  A response read
    out of range has no result; [ParseResponse_total] excludes it for the register
    count every configuration has. *)
Definition parsed_result (out : outcome (bool * option GasDetectorData * option string))
    : option GasDetectorData :=
  match out with
  | Ret (_, Some d, Some parse_error) =>
      Some (if bool_decide (parse_error = "") then d else set_gd_error parse_error d)
  | _ => None
  end.

(** The part of the loop body of [WorkerLoop] that talks to the device: the
    result and the response it stores. *)
Definition poll (config : GasDetectorPollConfig) (address : Z) (readings : list reading) (p : S)
    : option (GasDetectorData * list Z * S * list reading) :=
  let request := BuildRequest address (gc_start_register config) (gc_register_count config) in
  '(t0, readings) ← next_reading readings;
  let started := rd_now t0 in
  '(cleared, p, readings) ← DiscardInputBuffer readings p;
  if negb cleared then
    '(t, readings) ← next_reading readings;
    Some (MakeFailureResult address (elapsed_ms started (rd_now t)) "发送前清理串口接收缓存失败" false
            (rd_stamp t), [], p, readings)
  else
    let '(written, write_error, p) := sp_Write request (Some "") p in
    let write_error := default "" write_error in
    if negb (bool_decide (write_error = "")) || negb (written =? length request)%nat then
      '(t, readings) ← next_reading readings;
      let message := "请求发送失败：实际写入 " +:+ pretty (Z.of_nat written) +:+ " 字节，期望 " +:+
                     pretty (Z.of_nat (length request)) +:+ " 字节" +:+
                     (if bool_decide (write_error = "") then "" else "，原因：" +:+ write_error) in
      Some (MakeFailureResult address (elapsed_ms started (rd_now t)) message false (rd_stamp t),
            [], p, readings)
    else
      let deadline := started + gc_timeout_ms config * 1000000 in
      '(response, read_error, p, readings) ← ReadResponse deadline readings (Some "") p;
      let read_error := default "" read_error in
      '(t, readings) ← next_reading readings;
      let elapsed := elapsed_ms started (rd_now t) in
      if bool_decide (response = []) then
        let message :=
          if bool_decide (read_error = "")
          then "通信超时：在 " +:+ pretty (gc_timeout_ms config) +:+ " ms 内未收到任何数据"
          else "读取响应失败：" +:+ read_error in
        Some (MakeFailureResult address elapsed message (bool_decide (read_error = "")) (rd_stamp t),
              response, p, readings)
      else if negb (bool_decide (read_error = "")) then
        Some (MakeFailureResult address elapsed ("读取响应失败：" +:+ read_error) false (rd_stamp t),
              response, p, readings)
      else
        d ← parsed_result (ParseResponse response address (gc_register_count config) elapsed
                             (rd_stamp t) (Some GasDetectorData_default) (Some ""));
        Some (d, response, p, readings).

(** ** Results and statistics *)

(** Replaces the first entry with the address, or appends. *)
Fixpoint replace_result (stored : GasDetectorData) (latest : list GasDetectorData)
    : list GasDetectorData :=
  match latest with
  | [] => [stored]
  | d :: latest =>
      if gd_address d =? gd_address stored then stored :: latest
      else d :: replace_result stored latest
  end.

Definition count_result (stored : GasDetectorData) (response : list Z) (n : statistics) : statistics := {|
  request_count_ := request_count_ n;
  success_count_ := incr_if (gd_valid stored) (success_count_ n);
  timeout_count_ := incr_if (negb (gd_valid stored) && gd_timeout stored) (timeout_count_ n);
  invalid_frame_count_ := incr_if (negb (gd_valid stored)) (invalid_frame_count_ n);
  crc_error_count_ :=
    incr_if (negb (gd_valid stored) && (negb (gd_crc_ok stored) && (5 <=? length response)%nat))
      (crc_error_count_ n);
  cycle_count_ := cycle_count_ n;
  next_sequence_ := incr (next_sequence_ n)
|}.

Definition StoreResult (result : GasDetectorData) (response : list Z) (s : GasDetectorPoll)
    : GasDetectorPoll :=
  let stored := set_gd_sequence (next_sequence_ (gp_stats s)) result in
  with_results (replace_result stored (gp_latest_results s))
    (count_result stored response (gp_stats s)) (gd_valid stored)
    (if gd_valid stored then "" else gd_error stored)
    (if bool_decide (response = []) then "" else HexFrame response) s.

Definition count_request (s : GasDetectorPoll) : GasDetectorPoll :=
  let n := gp_stats s in
  with_results (gp_latest_results s)
    {| request_count_ := incr (request_count_ n); success_count_ := success_count_ n;
       timeout_count_ := timeout_count_ n; invalid_frame_count_ := invalid_frame_count_ n;
       crc_error_count_ := crc_error_count_ n; cycle_count_ := cycle_count_ n;
       next_sequence_ := next_sequence_ n |}
    (gp_communication_ok s) (gp_last_error s) (gp_last_frame s) s.

Definition count_cycle (s : GasDetectorPoll) : GasDetectorPoll :=
  let n := gp_stats s in
  with_results (gp_latest_results s)
    {| request_count_ := request_count_ n; success_count_ := success_count_ n;
       timeout_count_ := timeout_count_ n; invalid_frame_count_ := invalid_frame_count_ n;
       crc_error_count_ := crc_error_count_ n; cycle_count_ := incr (cycle_count_ n);
       next_sequence_ := next_sequence_ n |}
    (gp_communication_ok s) (gp_last_error s) (gp_last_frame s) s.

(** The handler of an exception [what] thrown inside the worker's loop. *)
Definition worker_failed (what : string) (s : GasDetectorPoll) : GasDetectorPoll :=
  with_life (gp_initialized s) false false Error ("工作线程异常退出：" +:+ what) s.

(** ** Life cycle *)

(** The part of [StopInternalLocked] after the join; an exception of [Close]
    escapes. *)
Definition stop_close (s : GasDetectorPoll) : result unit * GasDetectorPoll :=
  match sp_Close (gp_serial s) with
  | (Ok _, p) =>
      (Ok tt, with_stop false (with_life false false false Uninitialized "" (with_serial p s)))
  | (Err e, p) => (Err e, with_serial p s)
  end.

(** [Init] after the old worker is stopped. *)
Definition initial_results (addresses : list Z) : list GasDetectorData :=
  map (λ a, set_gd_address a GasDetectorData_default) addresses.

Definition init_reset (parsed : GasDetectorPollConfig) (config : J) (s : GasDetectorPoll)
    : GasDetectorPoll := {|
  gp_stop_requested := gp_stop_requested s; gp_worker := gp_worker s;
  gp_initialized := false; gp_running := false; gp_communication_ok := false;
  gp_debug_log_enabled := gc_debug_log_enabled parsed; gp_simulate_mode := gc_simulate_mode parsed;
  gp_state := if gc_enabled parsed then Initialized else Disabled;
  gp_config := parsed; gp_init_config := config;
  gp_latest_results := initial_results (gc_addresses parsed);
  gp_stats := statistics_zero; gp_last_error := ""; gp_last_frame := ""; gp_serial := gp_serial s
|}.

Definition init_open (parsed : GasDetectorPollConfig) (config : J) (err : option string)
    (s : GasDetectorPoll) : bool * option string * GasDetectorPoll :=
  let s := init_reset parsed config s in
  if negb (gc_enabled parsed) then
    (true, set_err err "",
     with_life true (gp_running s) (gp_communication_ok s) (gp_state s) (gp_last_error s) s)
  else
    let '(ok, serial_error, p) := sp_Init (port_config parsed : J) (Some "") (gp_serial s) in
    let s := with_serial p s in
    if negb ok then
      let message := "串口初始化失败：" +:+ default "" serial_error in
      (false, set_err err message,
       with_life false (gp_running s) (gp_communication_ok s) Error message s)
    else
      (true, set_err err "",
       with_life true (gp_running s) (gp_communication_ok s) Initialized "" s).

(** [spawn] is the text of the exception the thread's constructor throws, if it
    does.  Nobody else changes the object between the checks and the creation of
    the thread: there is no worker then, and [lifecycle_mutex_] is held. *)
Definition Start (spawn : option string) (s : GasDetectorPoll) : bool * GasDetectorPoll :=
  if negb (gp_initialized s) then
    (false, with_life (gp_initialized s) (gp_running s) (gp_communication_ok s) Error
              "模块尚未初始化，不能启动" s)
  else if negb (gc_enabled (gp_config s)) then
    (true, with_life (gp_initialized s) (gp_running s) (gp_communication_ok s) Disabled
             (gp_last_error s) s)
  else if gp_running s || match gp_worker s with Some _ => true | None => false end then (true, s)
  else if negb (sp_IsOpen (gp_serial s)) then
    (false, with_life (gp_initialized s) (gp_running s) (gp_communication_ok s) Error
              "串口未打开，不能启动工作线程" s)
  else
    let s := with_life (gp_initialized s) true false Running "" (with_stop false s) in
    match spawn with
    | None => (true, with_worker (Some {| wk_pc := WStart; wk_config := GasDetectorPollConfig_default;
                                          wk_next_request_at := 0 |}) s)
    | Some what =>
        (false, with_life (gp_initialized s) false (gp_communication_ok s) Error
                  ("创建工作线程失败：" +:+ what) (with_stop true s))
    end.

(** ** Reports *)

Definition statistics_json (n : statistics) : J :=
  j_object [("request_count", j_number (request_count_ n));
            ("success_count", j_number (success_count_ n));
            ("timeout_count", j_number (timeout_count_ n));
            ("invalid_frame_count", j_number (invalid_frame_count_ n));
            ("crc_error_count", j_number (crc_error_count_ n));
            ("cycle_count", j_number (cycle_count_ n))].

Definition Status (j_double : double → J) (s : GasDetectorPoll) : J :=
  j_object [("initialized", j_bool (gp_initialized s));
            ("enabled", j_bool (gc_enabled (gp_config s)));
            ("running", j_bool (gp_running s));
            ("state", j_string (StateToString (gp_state s)));
            ("communication_ok", j_bool (gp_communication_ok s));
            ("serial_open", j_bool (sp_IsOpen (gp_serial s)));
            ("device", j_string (gc_device (gp_config s)));
            ("config", GasDetectorPollConfig_ToJson (gp_config s));
            ("init_config", gp_init_config s);
            ("statistics", statistics_json (gp_stats s));
            ("last_error", j_string (gp_last_error s));
            ("last_frame", j_string (gp_last_frame s));
            ("results", j_array (map (GasDetectorData_ToJson j_double) (gp_latest_results s)))].

Definition StatusSimpleCN (j_double : double → J) (s : GasDetectorPoll) : J :=
  j_object [("工作线程运行", j_bool (gp_running s));
            ("串口联通", j_bool (sp_IsOpen (gp_serial s) && gp_communication_ok s));
            ("传感器", j_array (map (ToSimpleCNJson j_double) (gp_latest_results s)))].

Definition StatusSimpleEN (j_double : double → J) (s : GasDetectorPoll) : J :=
  j_object [("worker_running", j_bool (gp_running s));
            ("serial_connected", j_bool (sp_IsOpen (gp_serial s) && gp_communication_ok s));
            ("sensors", j_array (map (ToSimpleENJson j_double) (gp_latest_results s)))].

Definition GetConfig (s : GasDetectorPoll) : J := GasDetectorPollConfig_ToJson (gp_config s).
Definition IsRunning (s : GasDetectorPoll) : bool := gp_running s.
Definition GetLatestResults (s : GasDetectorPoll) : list GasDetectorData := gp_latest_results s.
End poll.
Arguments GasDetectorPoll J S : clear implicits.

(** ** What one poll does *)

Definition late (deadline : Z) (t : reading) : bool := rd_stop t || (deadline <=? rd_now t).
Definition late_count (deadline : Z) (l : list reading) : nat :=
  length (filter (λ t, late deadline t = true) l).

Lemma late_count_cons d t l :
  late_count d (t :: l) = ((if late d t then 1 else 0) + late_count d l)%nat.
Proof.
  unfold late_count. rewrite filter_cons. destruct (late d t).
  - by rewrite decide_True.
  - by rewrite decide_False.
Qed.

Section poll_facts.
Context {J S : Type} `{JL : JsonLaws J} `{SL : SerialPortLaws J S}.

(** What a read loop leaves: bytes, at most as many as asked for, nothing sent,
    and at most one late reading used up. *)
Lemma ReadUpTo_loop_spec size deadline readings result error p r error' p' readings' :
  bytes result → (length result <= size)%nat →
  ReadUpTo_loop size deadline readings result error p = Some (r, error', p', readings') →
  bytes r ∧ (length r <= size)%nat ∧ sp_sent p' = sp_sent p ∧
  (late_count deadline readings <= late_count deadline readings' + 1)%nat.
Proof.
  revert result p. induction readings as [|t readings IH]; intros result p Hb Hl; cbn [ReadUpTo_loop].
  - destruct (negb _); [|done]. intros [= <- <- <- <-]. split_and!; [done..|]. lia.
  - destruct (negb _); [intros [= <- <- <- <-]; split_and!; [done..|]; lia|].
    rewrite late_count_cons. unfold late.
    destruct (rd_stop t); [intros [= <- <- <- <-]; split_and!; [done..|]; cbn; lia|].
    destruct (deadline <=? rd_now t); [intros [= <- <- <- <-]; split_and!; [done..|]; cbn; lia|].
    destruct (sp_ReadBytes _ _ _) as [[chunk e] p1] eqn:Hr.
    pose proof (sp_ReadBytes_sent (size - length result) (Some "") p) as Hs. rewrite Hr in Hs. cbn in Hs.
    destruct (bool_decide_reflect (default "" e = "")) as [He|He]; cbn [negb orb].
    2: { intros [= <- <- <- <-]. split_and!; [done..|]. lia. }
    intros Hloop. pose proof (sp_ReadBytes_err (size - length result) "" p) as [e' He'].
    rewrite Hr in He'. cbn in He'. subst e. cbn in He. subst e'.
    apply sp_ReadBytes_ok in Hr as [Hlen Hbc].
    apply IH in Hloop as (? & ? & Hs' & ?); [|by apply Forall_app|rewrite length_app; lia].
    split_and!; [done..|by rewrite Hs'|lia].
Qed.

(** Time or a stop request ends the loop. *)
Lemma ReadUpTo_loop_returns size deadline readings result error p :
  (1 <= late_count deadline readings)%nat →
  is_Some (ReadUpTo_loop size deadline readings result error p).
Proof.
  revert result p. induction readings as [|t readings IH]; intros result p; [cbn; lia|].
  rewrite late_count_cons. unfold late. cbn [ReadUpTo_loop]. intros Hl.
  destruct (negb _); [by eexists|]. destruct (rd_stop t); [by eexists|].
  destruct (deadline <=? rd_now t); [by eexists|]. cbn [orb] in Hl.
  destruct (sp_ReadBytes _ _ _) as [[chunk e] p1]. destruct (negb _); [by eexists|]. apply IH. lia.
Qed.

(** The two reads of a response. *)
Lemma ReadResponse_spec deadline readings error p r error' p' readings' :
  ReadResponse deadline readings error p = Some (r, error', p', readings') →
  bytes r ∧ (length r <= kMaxResponseSize)%nat ∧ sp_sent p' = sp_sent p ∧
  (late_count deadline readings <= late_count deadline readings' + 2)%nat.
Proof.
  unfold ReadResponse. cbv zeta.
  destruct (ReadUpTo 3 _ _ _ _) as [[[[header e1] p1] rd1]|] eqn:H1; [|done]. cbn [mbind option_bind].
  apply ReadUpTo_loop_spec in H1 as (Hb1 & Hl1 & Hs1 & Hc1); [|done|cbn; lia].
  assert (Hshort : (length header <= kMaxResponseSize)%nat) by (unfold kMaxResponseSize; lia).
  destruct header as [|h0 [|h1 [|h2 header]]];
    [intros [= <- <- <- <-]; split_and!; [done..|lia] .. |].
  set (remaining := if negb (Z.land h1 128 =? 0) then 2%nat else (Z.to_nat h2 + 2)%nat).
  destruct (kMaxResponseSize <? _)%nat eqn:Hmax; [intros [= <- <- <- <-]; split_and!; [done..|lia]|].
  destruct (ReadUpTo remaining _ _ _ _) as [[[[body e2] p2] rd2]|] eqn:H2; [|done]. cbn [mbind option_bind].
  apply ReadUpTo_loop_spec in H2 as (Hb2 & Hl2 & Hs2 & Hc2); [|done|cbn; lia].
  intros [= <- _ <- <-]. apply Nat.ltb_ge in Hmax.
  change (h0 :: h1 :: h2 :: header ++ body) with ((h0 :: h1 :: h2 :: header) ++ body). split_and!.
  - by apply Forall_app.
  - rewrite length_app. lia.
  - by rewrite Hs2.
  - lia.
Qed.

(** Reading a response ends, whatever the device does, once the deadline
    has passed or a stop is requested: two late readings are enough. *)
Lemma ReadResponse_returns deadline readings error p :
  (2 <= late_count deadline readings)%nat →
  is_Some (ReadResponse deadline readings error p).
Proof.
  intros Hl. unfold ReadResponse. cbv zeta.
  destruct (ReadUpTo_loop_returns 3 deadline readings [] (set_err error "") p) as [[[[header e1] p1] rd1] H1];
    [lia|].
  unfold ReadUpTo. rewrite H1. cbn [mbind option_bind].
  apply ReadUpTo_loop_spec in H1 as (_ & _ & _ & Hc1); [|done|cbn; lia].
  destruct header as [|h0 [|h1 [|h2 header]]]; try by eexists.
  destruct (kMaxResponseSize <? _)%nat; [by eexists|].
  match goal with |- context [ReadUpTo_loop ?n deadline rd1 [] e1 p1] =>
    destruct (ReadUpTo_loop_returns n deadline rd1 [] e1 p1) as [[[[body e2] p2] rd2] H2]; [lia|] end.
  rewrite H2. by eexists.
Qed.

(** Clearing the input sends nothing; a stop request ends it, and it uses up one
    stopped reading at most. *)
Definition stop_count (l : list reading) : nat := length (filter (λ t, rd_stop t = true) l).

Lemma stop_count_cons t l :
  stop_count (t :: l) = ((if rd_stop t then 1 else 0) + stop_count l)%nat.
Proof.
  unfold stop_count. rewrite filter_cons. destruct (rd_stop t).
  - by rewrite decide_True.
  - by rewrite decide_False.
Qed.

Lemma stop_late deadline l : (stop_count l <= late_count deadline l)%nat.
Proof.
  induction l as [|t l IH]; [done|]. rewrite stop_count_cons, late_count_cons. unfold late.
  destruct (rd_stop t); cbn [orb]; lia.
Qed.

Lemma DiscardInputBuffer_spec readings p ok p' readings' :
  DiscardInputBuffer readings p = Some (ok, p', readings') →
  sp_sent p' = sp_sent p ∧ (stop_count readings <= stop_count readings' + 1)%nat.
Proof.
  revert p. induction readings as [|t readings IH]; intros p; [done|]. cbn [DiscardInputBuffer].
  rewrite stop_count_cons. destruct (rd_stop t); [intros [= <- <- <-]; split; [done|lia]|].
  pose proof (sp_Available_sent (Some "") p) as Ha.
  destruct (sp_Available (Some "") p) as [[n e] p1]. cbn in Ha.
  destruct (negb _); [intros [= <- <- <-]; split; [done|lia]|].
  destruct (n =? 0)%nat; [intros [= <- <- <-]; split; [done|lia]|].
  pose proof (sp_ReadBytes_sent (Nat.min n 512) (Some "") p1) as Hr.
  destruct (sp_ReadBytes _ _ p1) as [[bs e'] p2]. cbn in Hr.
  destruct (negb _); [intros [= <- <- <-]; split; [by rewrite Hr|lia]|].
  case_bool_decide; [intros [= <- <- <-]; split; [by rewrite Hr|lia]|].
  intros (-> & ?)%IH. split; [by rewrite Hr|lia].
Qed.

Lemma DiscardInputBuffer_returns readings p :
  (1 <= stop_count readings)%nat → is_Some (DiscardInputBuffer readings p).
Proof.
  revert p. induction readings as [|t readings IH]; intros p; [cbn; lia|]. cbn [DiscardInputBuffer].
  rewrite stop_count_cons. destruct (rd_stop t); [by eexists|]. intros Hs.
  destruct (sp_Available (Some "") p) as [[n e] p1]. destruct (negb _); [by eexists|].
  destruct (n =? 0)%nat; [by eexists|]. destruct (sp_ReadBytes _ _ p1) as [[bs e'] p2].
  destruct (negb _); [by eexists|]. case_bool_decide; [by eexists|]. apply IH. lia.
Qed.

Lemma next_reading_returns readings :
  (1 <= length readings)%nat → ∃ t l, next_reading readings = Some (t, l) ∧ readings = t :: l.
Proof. destruct readings as [|t l]; cbn; [lia|]. by exists t, l. Qed.

Lemma late_count_length d l : (late_count d l <= length l)%nat.
Proof. apply length_filter. Qed.

(** Parsing succeeds for a well-formed configuration. *)
Lemma parsed_result_total config response address elapsed stamp :
  config_ok config → bytes response →
  ∃ d, parsed_result (ParseResponse response address (gc_register_count config) elapsed stamp
         (Some GasDetectorData_default) (Some "")) = Some d ∧
    gd_address d = address ∧ gd_timeout d = false ∧ (gd_error d = "" ↔ gd_valid d = true).
Proof.
  intros Hok Hb. rewrite (ok_register_count _ Hok).
  destruct (ParseResponse_total response address 10 elapsed stamp GasDetectorData_default (Some "") Hb)
    as (b & d & -> & Hv & He & Ha & Ht); [lia|]. cbn.
  case_bool_decide as E; eexists; (split; [reflexivity|]).
  - by rewrite <- Hv in He.
  - cbn. rewrite Hv. done.
Qed.

Lemma length_BuildRequest a r c : length (BuildRequest a r c) = 8%nat.
Proof. reflexivity. Qed.

(** A poll always ends.  It returns when three readings after the input
    was cleared are past the deadline, and in any case when a stop is requested
    and the flag was then looked at five times, whatever the device does and
    sends. *)
Theorem poll_returns config address readings p :
  config_ok config →
  (5 <= stop_count readings)%nat ∨
  (∃ t0 rest ok p1 rest', readings = t0 :: rest ∧ DiscardInputBuffer rest p = Some (ok, p1, rest') ∧
     (3 <= late_count (rd_now t0 + gc_timeout_ms config * 1000000) rest')%nat) →
  is_Some (poll config address readings p).
Proof.
  intros Hok Hr.
  assert (∃ t0 rest ok p1 rest', readings = t0 :: rest ∧ DiscardInputBuffer rest p = Some (ok, p1, rest') ∧
     (3 <= late_count (rd_now t0 + gc_timeout_ms config * 1000000) rest')%nat)
    as (t0 & rest & ok & p1 & rest' & -> & Hd & Hl).
  { destruct Hr as [Hr|Hr]; [|done]. destruct readings as [|t0 rest]; [cbn in Hr; lia|].
    rewrite stop_count_cons in Hr.
    assert (4 <= stop_count rest)%nat by (destruct (rd_stop t0); lia).
    destruct (DiscardInputBuffer_returns rest p) as [[[ok p1] rest'] Hd]; [lia|].
    exists t0, rest, ok, p1, rest'. split_and!; [done..|].
    apply DiscardInputBuffer_spec in Hd as [_ Hs].
    pose proof (stop_late (rd_now t0 + gc_timeout_ms config * 1000000) rest'). lia. }
  clear Hr. unfold poll. cbn [next_reading mbind option_bind]. rewrite Hd. cbn [mbind option_bind].
  pose proof (late_count_length (rd_now t0 + gc_timeout_ms config * 1000000) rest') as Hlen.
  destruct ok; cbn [negb].
  2: { destruct (next_reading_returns rest') as (t & l & -> & _); [lia|]. by eexists. }
  destruct (sp_Write _ _ p1) as [[written e] p2].
  destruct (negb _ || negb _).
  { destruct (next_reading_returns rest') as (t & l & -> & _); [lia|]. by eexists. }
  destruct (ReadResponse_returns (rd_now t0 + gc_timeout_ms config * 1000000) rest' (Some "") p2)
    as [[[[response e2] p3] rest2] Hresp]; [lia|].
  rewrite Hresp. cbn [mbind option_bind].
  apply ReadResponse_spec in Hresp as (Hb & _ & _ & Hc).
  pose proof (late_count_length (rd_now t0 + gc_timeout_ms config * 1000000) rest2).
  destruct (next_reading_returns rest2) as (t & l & -> & _); [lia|]. cbn [mbind option_bind].
  case_bool_decide; [by eexists|]. destruct (negb _); [by eexists|].
  destruct (parsed_result_total config response address (elapsed_ms (rd_now t0) (rd_now t)) (rd_stamp t))
    as (d & -> & _); [done..|]. by eexists.
Qed.

(** What a poll may do and say, whatever the port does: it sends at most
    its request and reads at most 260 bytes; its result is for the polled
    address and carries an error text exactly when it is not valid; and a valid
    result comes from a genuine reply of that device, whose ten registers it
    holds. *)
Lemma poll_spec config address readings p d response p' readings' :
  config_ok config → byte address →
  poll config address readings p = Some (d, response, p', readings') →
  gd_address d = address ∧ (gd_error d = "" ↔ gd_valid d = true) ∧
  (length response <= 260)%nat ∧
  (∃ k, (k <= 8)%nat ∧ sp_sent p' = sp_sent p ++
     take k (BuildRequest address (gc_start_register config) (gc_register_count config))) ∧
  (gd_valid d = true → ∃ regs elapsed stamp, length regs = 10%nat ∧ Forall (inu 16) regs ∧
     response = reply_frame address regs ∧
     d = registers_data address (crc_of response) 20 elapsed stamp regs).
Proof.
  intros Hok Ha. unfold poll.
  destruct readings as [|t0 rest]; [done|]. cbn [next_reading mbind option_bind].
  destruct (DiscardInputBuffer rest p) as [[[cleared p1] rest1]|] eqn:Hd; [|done].
  apply DiscardInputBuffer_spec in Hd as [Hs1 _]. cbn [mbind option_bind].
  set (request := BuildRequest _ _ _). destruct cleared; cbn [negb].
  2: { destruct rest1; [done|]. intros [= <- <- <- <-]. cbn. split_and!; [done|done|lia| |done].
       exists 0%nat. split; [lia|]. by rewrite Hs1, app_nil_r. }
  destruct (sp_Write request (Some "") p1) as [[written e] p2] eqn:Hw.
  apply sp_Write_sent in Hw as (k & Hk & Hs2). change (length request) with 8%nat in Hk.
  destruct (negb _ || negb _).
  { destruct rest1; [done|]. intros [= <- <- <- <-]. cbn [gd_address gd_error gd_valid MakeFailureResult header_data].
    split_and!; [done|done|cbn; lia| |done]. exists k. split; [lia|]. by rewrite Hs2, Hs1. }
  destruct (ReadResponse _ rest1 _ p2) as [[[[resp e2] p3] rest2]|] eqn:Hresp; [|done].
  apply ReadResponse_spec in Hresp as (Hb & Hlen & Hs3 & _). cbn [mbind option_bind].
  assert (Hsent : ∃ k, (k <= 8)%nat ∧ sp_sent p3 = sp_sent p ++ take k request).
  { exists k. split; [lia|]. by rewrite Hs3, Hs2, Hs1. }
  destruct rest2 as [|t rest2]; [done|]. cbn [next_reading mbind option_bind].
  case_bool_decide as He.
  { intros [= <- <- <- <-]. cbn [gd_address gd_error gd_valid MakeFailureResult header_data].
    split_and!; try done. by case_bool_decide. }
  case_bool_decide as He2; cbn [negb].
  2: { intros [= <- <- <- <-]. cbn [gd_address gd_error gd_valid MakeFailureResult header_data].
       by split_and!. }
  destruct (parsed_result_total config resp address (elapsed_ms (rd_now t0) (rd_now t)) (rd_stamp t))
    as (d' & Hp & Hda & _ & Herr); [done..|].
  rewrite Hp. cbn [mbind option_bind]. intros [= <- <- <- <-]. split_and!; [done..|].
  intros Hv. revert Hp. rewrite (ok_register_count _ Hok).
  destruct (ParseResponse_total resp address 10 (elapsed_ms (rd_now t0) (rd_now t)) (rd_stamp t)
    GasDetectorData_default (Some "") Hb) as (b & d & HP & Hvd & Hed & _); [lia|].
  rewrite HP. cbn [parsed_result set_err fmap option_fmap option_map].
  destruct b.
  - rewrite (proj2 Hed eq_refl), bool_decide_eq_true_2 by done. intros [= ->].
    apply ParseResponse_genuine in HP as (regs & Hl & Hr & Hre & Hd2 & _); [|done..].
    apply (inj Some) in Hd2. exists regs, (elapsed_ms (rd_now t0) (rd_now t)), (rd_stamp t).
    split_and!; [exact Hl|exact Hr|exact Hre|exact Hd2].
  - intros [= Hd']. assert (gd_valid d' = false); [|congruence].
    subst d'. by case_bool_decide.
Qed.

(** C40: The traffic of a poll is bounded, whatever the port does: it sends at
    most the eight bytes of its request, in order and starting with the first,
    and returns a response of at most 260 bytes, all of them read from the port
    (each a byte); a valid result needs exactly 25 of them. *)
Theorem poll_bounds config address readings p d response p' readings' :
  config_ok config → is_address address →
  poll config address readings p = Some (d, response, p', readings') →
  (∃ k, (k <= 8)%nat ∧ sp_sent p' = sp_sent p ++
     take k (BuildRequest address (gc_start_register config) (gc_register_count config))) ∧
  (length response <= 260)%nat ∧ (gd_valid d = true → length response = 25%nat).
Proof.
  intros Hok Ha Hp. assert (Hb : byte address) by (unfold is_address in Ha; width_lia).
  destruct (poll_spec _ _ _ _ _ _ _ _ Hok Hb Hp) as (_ & _ & Hl & Hs & Hv). split_and!; [done..|].
  intros Hd. destruct (Hv Hd) as (regs & _ & _ & Hlr & _ & -> & _).
  rewrite reply_frame_parts, !length_app. cbn [length]. by rewrite length_register_bytes, Hlr.
Qed.
End poll_facts.

(** ** A device that answers

    [pending p rx]: the bytes [rx] wait in the port [p].  A read takes any number
    of them, but at least one when there is one; a write adds the device's
    answer. *)
Class Device (S J : Type) `{SerialPort J S} (pending : S → list Z → Prop)
    (answer : list Z → list Z) := {
  dev_available p rx : pending p rx →
    ∃ p', sp_Available (Some "") p = (length rx, Some "", p') ∧ pending p' rx;
  dev_read p rx n : pending p rx →
    ∃ k p', sp_ReadBytes n (Some "") p = (take k rx, Some "", p') ∧ (k <= n)%nat ∧
      ((0 < n)%nat → rx ≠ [] → (0 < k)%nat) ∧ pending p' (drop k rx);
  dev_write p rx d : pending p rx →
    ∃ p', sp_Write d (Some "") p = (length d, Some "", p') ∧ pending p' (rx ++ answer d)
}.

Section device.
Context {J S : Type} `{JL : JsonLaws J} `{SL : SerialPortLaws J S} {pending answer}
        `{!Device S J pending answer}.

Lemma discard_pending readings p rx :
  pending p rx → stop_count readings = 0%nat → (length rx < length readings)%nat →
  ∃ p' l rest, DiscardInputBuffer readings p = Some (true, p', rest) ∧ pending p' [] ∧
    readings = l ++ rest ∧ (length l <= length rx + 1)%nat.
Proof.
  revert p rx. induction readings as [|t readings IH]; intros p rx Hp Hs Hl; [cbn in Hl; lia|].
  rewrite stop_count_cons in Hs. cbn [DiscardInputBuffer].
  destruct (rd_stop t) eqn:Ht; [lia|].
  destruct (dev_available p rx Hp) as (p1 & -> & Hp1). cbn [default from_option id].
  rewrite bool_decide_eq_true_2 by done. cbn [negb].
  destruct (length rx =? 0)%nat eqn:E.
  { apply Nat.eqb_eq, nil_length_inv in E. subst rx. exists p1, [t], readings. by split_and!; [..|cbn; lia]. }
  apply Nat.eqb_neq in E.
  destruct (dev_read p1 rx (Nat.min (length rx) 512) Hp1) as (k & p2 & -> & Hk & Hk0 & Hp2).
  cbn [default from_option id]. rewrite bool_decide_eq_true_2 by done. cbn [negb].
  assert (0 < k)%nat by (apply Hk0; [lia|by intros ->]).
  rewrite bool_decide_eq_false_2.
  2: { intros Htk. apply (f_equal length) in Htk. rewrite length_take in Htk. cbn in Htk. lia. }
  cbn [length] in Hl. destruct (IH p2 (drop k rx) Hp2) as (p' & l & rest & Hd & Hp' & -> & Hlen);
    [lia|rewrite length_drop; lia|].
  exists p', (t :: l), rest. split_and!; [done..|]. rewrite length_drop in Hlen. cbn [length]. lia.
Qed.

Lemma ReadUpTo_pending size deadline readings result error p rx :
  pending p rx → late_count deadline readings = 0%nat → (length result <= size)%nat →
  (size - length result <= length rx)%nat → (size - length result <= length readings)%nat →
  ∃ p' l rest, ReadUpTo_loop size deadline readings result error p =
      Some (result ++ take (size - length result) rx, error, p', rest) ∧
    pending p' (drop (size - length result) rx) ∧ readings = l ++ rest ∧
    (length l <= size - length result)%nat.
Proof.
  revert result p rx. induction readings as [|t readings IH]; intros result p rx Hp Hs Hr Hx Hl; cbn [ReadUpTo_loop].
  - assert (size - length result = 0)%nat as E by (cbn in Hl; lia).
    replace (length result <? size)%nat with false by lia. cbn [negb].
    exists p, [], []. rewrite E, take_0, drop_0, app_nil_r. by split_and!; [..|cbn; lia].
  - destruct (length result <? size)%nat eqn:Hlt; cbn [negb].
    2: { assert (size - length result = 0)%nat as E by lia. exists p, [], (t :: readings).
         rewrite E, take_0, drop_0, app_nil_r. by split_and!; [..|cbn; lia]. }
    apply Nat.ltb_lt in Hlt. rewrite late_count_cons in Hs. unfold late in Hs.
    destruct (rd_stop t); [cbn in Hs; lia|]. destruct (deadline <=? rd_now t); [cbn in Hs; lia|].
    destruct (dev_read p rx (size - length result) Hp) as (k & p1 & -> & Hk & Hk0 & Hp1).
    cbn [default from_option id]. rewrite bool_decide_eq_true_2 by done. cbn [negb].
    assert (0 < k)%nat by (apply Hk0; [lia|intros ->; cbn in Hx; lia]).
    assert (Hlk : length (take k rx) = k) by (rewrite length_take; lia).
    cbn [length] in Hl.
    destruct (IH (result ++ take k rx) p1 (drop k rx) Hp1) as (p' & l & rest & Hd & Hp' & -> & Hlen);
      rewrite ?length_app, ?Hlk, ?length_drop; [cbn in Hs; lia|lia..|].
    rewrite length_app, Hlk in Hd, Hp', Hlen.
    exists p', (t :: l), rest. split_and!; [|..|cbn [length]; lia].
    + rewrite Hd. do 4 f_equal. rewrite <- app_assoc. f_equal.
      rewrite take_take_drop. f_equal. lia.
    + rewrite drop_drop in Hp'. by replace (size - length result)%nat with (k + (size - (length result + k)))%nat by lia.
    + done.
Qed.

Lemma stop_count_app l l' : stop_count (l ++ l') = (stop_count l + stop_count l')%nat.
Proof. unfold stop_count. by rewrite filter_app, length_app. Qed.
Lemma late_count_app d l l' : late_count d (l ++ l') = (late_count d l + late_count d l')%nat.
Proof. unfold late_count. by rewrite filter_app, length_app. Qed.

Lemma ReadResponse_pending deadline readings p h0 h1 h2 body extra :
  pending p ((h0 :: h1 :: h2 :: body) ++ extra) → late_count deadline readings = 0%nat →
  length body = (if negb (Z.land h1 0x80 =? 0) then 2%nat else (Z.to_nat h2 + 2)%nat) →
  (length body <= 257)%nat → (3 + length body <= length readings)%nat →
  ∃ p' l rest, ReadResponse deadline readings (Some "") p = Some (h0 :: h1 :: h2 :: body, Some "", p', rest) ∧
    pending p' extra ∧ readings = l ++ rest ∧ (length l <= 3 + length body)%nat.
Proof.
  intros Hp Hlate Hbody Hmax Hlen. unfold ReadResponse, ReadUpTo. cbv zeta. rewrite set_err_Some.
  destruct (ReadUpTo_pending 3 deadline readings [] (Some "") p _ Hp Hlate)
    as (p1 & l1 & rd1 & Hr & Hp1 & -> & Hl1); [cbn; lia..|].
  rewrite Hr. clear Hr. cbn [length Nat.sub app take drop mbind option_bind] in Hp1, Hl1 |- *.
  rewrite take_0. rewrite drop_0 in Hp1. rewrite <- Hbody. replace (kMaxResponseSize <? _)%nat with false
    by (symmetry; apply Nat.ltb_ge; unfold kMaxResponseSize; cbn [length]; lia).
  rewrite length_app in Hlen. rewrite late_count_app in Hlate.
  destruct (ReadUpTo_pending (length body) deadline rd1 [] (Some "") p1 _ Hp1)
    as (p2 & l2 & rd2 & Hr & Hp2 & -> & Hl2); rewrite ?length_app; [lia|cbn; lia..|].
  rewrite Hr. clear Hr. cbn [length app mbind option_bind] in Hp2, Hl2 |- *. rewrite Nat.sub_0_r in *.
  rewrite take_app_length. rewrite drop_app_length in Hp2.
  replace (Datatypes.S (Datatypes.S (Datatypes.S (length body))) <? 3 + length body)%nat with false
    by (symmetry; apply Nat.ltb_ge; lia).
  cbn [andb]. exists p2, (l1 ++ l2), rd2. split_and!; [done|done|by rewrite app_assoc|].
  rewrite length_app. lia.
Qed.

(** A device that follows the protocol is understood: whatever was left
    in the input, and however its reply is cut into reads, a poll that is not
    stopped and not past its deadline returns the registers of the reply as a
    valid result, and leaves what follows the reply in the port. *)
Theorem poll_device config address regs stale extra t0 readings p :
  config_ok config → is_address address → length regs = 10%nat → Forall (inu 16) regs →
  pending p stale →
  answer (BuildRequest address (gc_start_register config) 10) = reply_frame address regs ++ extra →
  late_count (rd_now t0 + gc_timeout_ms config * 1000000) readings = 0%nat →
  (length stale + 27 <= length readings)%nat →
  ∃ t p' rest, t ∈ readings ∧ pending p' extra ∧
    poll config address (t0 :: readings) p =
      Some (registers_data address (crc_of (reply_frame address regs)) 20
              (elapsed_ms (rd_now t0) (rd_now t)) (rd_stamp t) regs,
            reply_frame address regs, p', rest).
Proof.
  intros Hok Ha Hlr Hregs Hp Hans Hlate Hlen. unfold poll. cbn [next_reading mbind option_bind].
  rewrite (ok_register_count _ Hok).
  set (deadline := rd_now t0 + gc_timeout_ms config * 1000000) in *.
  set (frame := reply_frame address regs) in *.
  assert (Hfl : length frame = 25%nat).
  { subst frame. rewrite reply_frame_parts. rewrite !length_app. cbn [length].
    rewrite length_register_bytes, Hlr. done. }
  pose proof (stop_late deadline readings).
  destruct (discard_pending readings p stale Hp) as (p1 & l1 & rd1 & -> & Hp1 & -> & Hl1); [lia|lia|].
  cbn [mbind option_bind negb].
  destruct (dev_write p1 [] (BuildRequest address (gc_start_register config) 10) Hp1) as (p2 & -> & Hp2).
  rewrite Hans in Hp2. cbn [app] in Hp2. cbn [default from_option id].
  rewrite bool_decide_eq_true_2 by done. rewrite Nat.eqb_refl. cbn [negb orb].
  rewrite late_count_app in Hlate. rewrite length_app in Hlen.
  assert (Hf : ∃ body, frame = address :: 3 :: 20 :: body ∧ length body = 22%nat).
  { exists (drop 3 frame). rewrite length_drop, Hfl. split; [|done].
    subst frame. rewrite reply_frame_parts, Hlr. reflexivity. }
  destruct Hf as (body & Hf & Hbl). rewrite Hf in Hp2.
  destruct (ReadResponse_pending deadline rd1 p2 address 3 20 body extra Hp2)
    as (p3 & l2 & rd2 & -> & Hp3 & -> & Hl2); [lia|by rewrite Hbl|lia|lia|].
  cbn [mbind option_bind default from_option id]. rewrite length_app in Hlen.
  destruct rd2 as [|t rd2]; [cbn in Hlen; lia|]. cbn [next_reading mbind option_bind].
  rewrite bool_decide_eq_false_2 by done. rewrite bool_decide_eq_true_2 by done. cbn [negb].
  rewrite <- Hf. exists t, p3, rd2. split_and!; [set_solver|done|].
  assert (HP : ParseResponse frame address 10 (elapsed_ms (rd_now t0) (rd_now t)) (rd_stamp t)
            (Some GasDetectorData_default) (Some "") =
          Ret (true, Some (registers_data address (crc_of frame) 20 (elapsed_ms (rd_now t0) (rd_now t))
                             (rd_stamp t) regs), Some "")).
  { apply ParseResponse_genuine; [|unfold is_address in Ha; width_lia|by exists regs].
    by apply reply_frame_bytes; [unfold is_address in Ha; width_lia|lia]. }
  rewrite HP. cbn [parsed_result]. by rewrite bool_decide_eq_true_2.
Qed.
End device.

(** ** A detector on the line

    A concrete port with a detector behind it: it answers the request for the ten
    registers of device 3, and a read returns two bytes at most. *)

Record slave := { sv_open : bool; sv_rx : list Z; sv_sent : list Z }.

Definition slave_answer (request : list Z) : list Z :=
  if bool_decide (request = BuildRequest 3 0 10) then demo_reply else [].

#[export] Instance slave_port : SerialPort jvalue slave := {|
  sp_init := {| sv_open := false; sv_rx := []; sv_sent := [] |};
  sp_Init cfg e p := (true, set_err e "", {| sv_open := true; sv_rx := []; sv_sent := sv_sent p |});
  sp_Open e p := (true, set_err e "", {| sv_open := true; sv_rx := sv_rx p; sv_sent := sv_sent p |});
  sp_Close p := (Ok tt, {| sv_open := false; sv_rx := []; sv_sent := sv_sent p |});
  sp_IsOpen := sv_open;
  sp_Write d e p := (length d, set_err e "", {| sv_open := sv_open p; sv_rx := sv_rx p ++ slave_answer d;
                                                sv_sent := sv_sent p ++ d |});
  sp_ReadBytes n e p := (map (wrapu 8) (take (Nat.min n 2) (sv_rx p)), set_err e "",
                         {| sv_open := sv_open p; sv_rx := drop (Nat.min n 2) (sv_rx p); sv_sent := sv_sent p |});
  sp_Available e p := (length (sv_rx p), set_err e "", p);
  sp_sent := sv_sent
|}.

Lemma map_wrapu_bytes l : bytes l → map (wrapu 8) l = l.
Proof. induction 1 as [|b l Hb Hl IH]; [done|]. cbn. by rewrite IH, wrapu_id. Qed.

#[export] Instance slave_laws : SerialPortLaws jvalue slave.
Proof.
  split; cbn; try done.
  - by intros e s e' s' [= <- <-].
  - by intros s s' [= <-].
  - intros d e s n e' s' [= <- <- <-]. exists (length d). cbn. rewrite firstn_all. split; [lia|done].
  - intros n s bs s' [= <- <-]. rewrite length_map, length_take. split; [lia|].
    apply Forall_map, Forall_true. intros x. by apply inu_wrapu.
Qed.

#[export] Instance slave_device :
  Device slave jvalue (λ p rx, sv_rx p = rx ∧ bytes rx) slave_answer.
Proof.
  split; cbn.
  - intros p rx [<- Hb]. by exists p.
  - intros p rx n [<- Hb]. exists (Nat.min n 2).
    rewrite map_wrapu_bytes by (by apply Forall_take). eexists. split; [reflexivity|].
    split_and!; [lia|lia|done|by apply Forall_drop].
  - intros p rx d [<- Hb]. eexists. split; [reflexivity|]. cbn. split; [done|].
    apply Forall_app. split; [done|]. unfold slave_answer. case_bool_decide; [|done].
    apply (bool_decide_unpack _). by vm_compute.
Qed.

Definition quiet_reading : reading := {| rd_stop := false; rd_now := 1000; rd_stamp := "now" |}.
Definition stopped_reading : reading := {| rd_stop := true; rd_now := 1000; rd_stamp := "now" |}.
Definition slave_start : slave := {| sv_open := true; sv_rx := [7; 7; 7]; sv_sent := [] |}.

Lemma default_config_ok : config_ok GasDetectorPollConfig_default.
Proof.
  split; cbn; try done; try width_lia; try (split; [width_lia|done]); try (by left).
  split_and!; [done|apply (bool_decide_unpack _); by vm_compute|].
  by repeat (apply Forall_cons_2; [unfold is_address; lia|]).
Qed.

Lemma poll_returns_witness :
  is_Some (poll GasDetectorPollConfig_default 3 (replicate 5 stopped_reading) slave_start).
Proof. apply poll_returns; [apply default_config_ok|left; vm_compute; lia]. Defined.

Lemma poll_device_witness :
  ∃ d p' rest, poll GasDetectorPollConfig_default 3 (quiet_reading :: replicate 30 quiet_reading) slave_start
    = Some (d, demo_reply, p', rest) ∧ gd_concentration_text d = "123.4" ∧ sv_rx p' = [].
Proof.
  destruct (poll_device GasDetectorPollConfig_default 3 demo_registers [7; 7; 7] [] quiet_reading
    (replicate 30 quiet_reading) slave_start) as (t & p' & rest & _ & [Hrx _] & Hp).
  - apply default_config_ok.
  - unfold is_address. lia.
  - reflexivity.
  - apply (bool_decide_unpack _). by vm_compute.
  - split; [reflexivity|]. apply (bool_decide_unpack _). by vm_compute.
  - vm_compute. reflexivity.
  - vm_compute. reflexivity.
  - cbn. lia.
  - do 3 eexists. split; [exact Hp|]. split; [reflexivity|exact Hrx].
Defined.

Definition slave_poll : GasDetectorData * list Z * slave * list reading := Eval vm_compute in
  default (GasDetectorData_default, [], slave_start, [])
    (poll GasDetectorPollConfig_default 3 (replicate 31 quiet_reading) slave_start).

Lemma slave_poll_eq :
  poll GasDetectorPollConfig_default 3 (replicate 31 quiet_reading) slave_start = Some slave_poll.
Proof. vm_compute. reflexivity. Qed.

Lemma poll_bounds_witness :
  (length slave_poll.1.1.2 <= 260)%nat ∧ length slave_poll.1.1.2 = 25%nat.
Proof.
  destruct (poll_bounds GasDetectorPollConfig_default 3 (replicate 31 quiet_reading) slave_start
    slave_poll.1.1.1 slave_poll.1.1.2 slave_poll.1.2 slave_poll.2) as (_ & Hl & Hv).
  - apply default_config_ok.
  - unfold is_address. lia.
  - exact slave_poll_eq.
  - split; [exact Hl|]. apply Hv. reflexivity.
Defined.
