(* ===== verification/CondVar.v ===== *)
(** * Condition variables

    The threads of a monitor are a list of states.  A thread that blocked on a
    condition variable is [waiting] in it; a notification moves it to an awake
    state, in which it competes for the mutex again.  [notify_one] wakes any one
    waiting thread, and does nothing when there is none; [notify_all] wakes all
    of them.  The queues count their waiting and awake threads with [count]. *)

From S2P Require Import Prelude.

Definition count {T} (P : T → bool) (ts : list T) : nat := length (filter (λ t, P t = true) ts).

Lemma count_cons {T} (P : T → bool) t ts :
  count P (t :: ts) = ((if P t then 1 else 0) + count P ts)%nat.
Proof.
  unfold count. rewrite filter_cons. destruct (P t) eqn:E.
  - by rewrite decide_True.
  - by rewrite decide_False by congruence.
Qed.

(** Replacing one thread's state. *)
Lemma count_insert {T} (P : T → bool) ts i t t' :
  ts !! i = Some t →
  (count P (<[i := t']> ts) + (if P t then 1 else 0) = count P ts + (if P t' then 1 else 0))%nat.
Proof.
  revert i. induction ts as [|x ts IH]; intros [|i]; intros Hi; try discriminate Hi.
  - injection Hi as ->. cbn [list_insert insert]. change (<[0:=t']> (t :: ts)) with (t' :: ts).
    rewrite !count_cons. lia.
  - change (<[Datatypes.S i:=t']> (x :: ts)) with (x :: <[i:=t']> ts).
    rewrite !count_cons. specialize (IH i Hi). lia.
Qed.

Lemma count_zero {T} (P : T → bool) ts :
  count P ts = 0%nat ↔ ∀ i t, ts !! i = Some t → P t = false.
Proof.
  induction ts as [|x ts IH]; [by split|]. rewrite count_cons. split.
  - intros Hc [|i] t; cbn.
    + intros [= <-]. destruct (P x); [lia|done].
    + intros Ht. eapply IH; [lia|done].
  - intros Hall. pose proof (Hall 0%nat x eq_refl) as Hx. rewrite Hx. cbn. apply IH.
    intros i t Ht. by apply (Hall (Datatypes.S i)).
Qed.

Section notify.
Context {T : Type} (waiting : T → bool) (wake : T → T).

Inductive notify_one (ts : list T) : list T → Prop :=
| notify_some i t : ts !! i = Some t → waiting t = true → notify_one ts (<[i := wake t]> ts)
| notify_none : count waiting ts = 0%nat → notify_one ts ts.

Definition notify_all (ts : list T) : list T :=
  map (λ t, if waiting t then wake t else t) ts.

(** Notifying does not touch a thread that is not waiting. *)
Lemma notify_one_lookup ts ts' i t :
  notify_one ts ts' → ts !! i = Some t → waiting t = false → ts' !! i = Some t.
Proof.
  intros [j t' Hj Hw|_] Hi Hn; [|done]. rewrite list_lookup_insert_ne; [done|].
  intros ->. congruence.
Qed.

(** One waiting thread fewer and one awake thread more, or no thread waits. *)
Lemma notify_one_count (awake : T → bool) ts ts' :
  (∀ t, waiting t = true → awake t = false ∧ awake (wake t) = true ∧ waiting (wake t) = false) →
  notify_one ts ts' →
  (count waiting ts = 0%nat ∧ ts' = ts) ∨
  (count waiting ts' + 1 = count waiting ts ∧ count awake ts' = count awake ts + 1)%nat.
Proof.
  intros Hw [i t Hi Ht|H0]; [right|by left]. destruct (Hw t Ht) as (Ha & Ha' & Hw').
  pose proof (count_insert waiting ts i t (wake t) Hi) as H1.
  pose proof (count_insert awake ts i t (wake t) Hi) as H2.
  rewrite Ht, Hw' in H1. rewrite Ha, Ha' in H2. lia.
Qed.

Lemma notify_one_other (P : T → bool) ts ts' :
  (∀ t, waiting t = true → P (wake t) = P t) → notify_one ts ts' → count P ts' = count P ts.
Proof.
  intros Hw [i t Hi Ht|H0]; [|done]. pose proof (count_insert P ts i t (wake t) Hi) as H1.
  rewrite (Hw t Ht) in H1. lia.
Qed.

Lemma notify_all_count (P : T → bool) ts :
  (∀ t, waiting t = true → P (wake t) = P t) → count P (notify_all ts) = count P ts.
Proof.
  intros Hw. induction ts as [|t ts IH]; [done|]. cbn [notify_all map].
  rewrite !count_cons. unfold notify_all in IH. rewrite IH. f_equal.
  destruct (waiting t) eqn:E; [by rewrite Hw|done].
Qed.

Lemma notify_all_none ts : (∀ t, waiting t = true → waiting (wake t) = false) →
  count waiting (notify_all ts) = 0%nat.
Proof.
  intros Hw. induction ts as [|t ts IH]; [done|]. cbn [notify_all map].
  rewrite count_cons. unfold notify_all in IH. rewrite IH.
  destruct (waiting t) eqn:E; [by rewrite Hw|by rewrite E].
Qed.
End notify.
Arguments notify_all : simpl never.
Arguments count : simpl never.
