(* ===== verification/GasDetectorSystem.v ===== *)
(** * The gas detector's threads

    The worker thread of [GasDetectorPoll] and the calls of other threads, as a
    step relation, and an abstract specification it implements.

    A step is one critical section or one access to shared state of the code:
    [WorkerLoop] and [WaitUntil] are cut at every test of the stop flag, at the
    wait and at every section of [mutex_]; [Init] and [Stop] are cut at the
    setting of the flag, the notification and the join; [lifecycle_mutex_] keeps
    at most one of them, or of [Start], under way, and what they do after the
    join, when no worker is left, is one step.  The readings of the flag and the
    clock within one exchange with the device are arbitrary. *)

From S2P Require Import Prelude Bytes Json SerialPort MySerial CondVar Double GasDetectorConfig GasDetectorModbus GasDetectorPoll.

Local Open Scope Z_scope.

Section system.
Context {J S : Type} `{JL : JsonLaws J} `{SL : SerialPortLaws J S}.

(** What follows the stopping of the worker. *)
Inductive after_stop :=
| KStop
| KInit (parsed : GasDetectorPollConfig) (config : J).

Inductive life_phase :=
| LIdle                     (** no [Init] or [Stop] under way *)
| LNotify (k : after_stop)  (** the flag is set, nobody notified yet *)
| LJoin (k : after_stop).   (** joining the worker *)

Record system := { gp : GasDetectorPoll J S; life : life_phase }.

Definition system_new : system := {| gp := GasDetectorPoll_new; life := LIdle |}.

Definition with_gp (s : GasDetectorPoll J S) (y : system) : system := {| gp := s; life := life y |}.

Definition set_pc (pc : worker_pc) (w : worker) : worker := {|
  wk_pc := pc; wk_config := wk_config w; wk_next_request_at := wk_next_request_at w
|}.

(** [wait_condition_.notify_all()]. *)
Definition notify (s : GasDetectorPoll J S) : GasDetectorPoll J S :=
  match gp_worker s with
  | Some w => match wk_pc w with
              | WBlocked a rest => with_worker (Some (set_pc (WPred a rest) w)) s
              | _ => s
              end
  | None => s
  end.

Definition joinable_done (w : option worker) : Prop :=
  match w with Some w => wk_pc w = WExited | None => True end.

(** From the join on: the rest of [StopInternalLocked], and of [Init]. *)
Definition finish (k : after_stop) (s : GasDetectorPoll J S) : GasDetectorPoll J S :=
  match stop_close (with_worker None s) with
  | (Ok _, s) => match k with
                 | KStop => s
                 | KInit parsed config => (init_open parsed config None s).2
                 end
  | (Err _, s) => s
  end.

(** [next_request_at] after a result is stored. *)
Definition next_request (w : worker) (now : Z) : Z :=
  let next := wk_next_request_at w + gc_interval_ms (wk_config w) * 1000000 in
  if next <? now then now else next.

(** Where the code may throw inside the worker's [try]. *)
Definition may_throw (pc : worker_pc) : bool :=
  match pc with WStart | WExited | WDeciding _ _ | WBlocked _ _ => false | _ => true end.

(** [stopped pc] is where the worker goes when it finds the flag set. *)
Definition unless_stop (s : GasDetectorPoll J S) (stopped going : worker_pc) : worker_pc :=
  if gp_stop_requested s then stopped else going.

(** The worker's steps, with the clock at most [limit]. *)
Inductive worker_step (spurious : bool) (limit : Z) (w : worker) (s : GasDetectorPoll J S)
    : worker_pc → GasDetectorPoll J S → Prop :=
| w_while : wk_pc w = WWhile →
    worker_step spurious limit w s (unless_stop s WExited (WFor (gc_addresses (wk_config w)))) s
| w_for_end : wk_pc w = WFor [] → worker_step spurious limit w s WCycle s
| w_for a rest : wk_pc w = WFor (a :: rest) →
    worker_step spurious limit w s (unless_stop s WWhile (WWait a rest)) s
| w_wait a rest : wk_pc w = WWait a rest →
    worker_step spurious limit w s (unless_stop s WWhile (WPred a rest)) s
| w_pred a rest : wk_pc w = WPred a rest →
    worker_step spurious limit w s (unless_stop s WWhile (WDeciding a rest)) s
| w_block a rest : wk_pc w = WDeciding a rest →
    worker_step spurious limit w s (WBlocked a rest) s
| w_spurious a rest : wk_pc w = WBlocked a rest → spurious = true →
    worker_step spurious limit w s (WPred a rest) s
| w_timeout a rest : wk_pc w = WBlocked a rest → wk_next_request_at w <= limit →
    worker_step spurious limit w s (unless_stop s WWhile (WCount a rest)) s
| w_count a rest : wk_pc w = WCount a rest →
    worker_step spurious limit w s (WPoll a rest) (count_request s)
| w_poll a rest readings d response p readings' : wk_pc w = WPoll a rest →
    poll (wk_config w) a readings (gp_serial s) = Some (d, response, p, readings') →
    worker_step spurious limit w s (WStore a rest d response) (with_serial p s)
| w_cycle : wk_pc w = WCycle → worker_step spurious limit w s WWhile (count_cycle s)
| w_throw what : may_throw (wk_pc w) = true →
    worker_step spurious limit w s WExited (worker_failed what s).

Inductive gd_step (spurious : bool) (limit : Z) : system → system → Prop :=
| step_start y spawn b s : life y = LIdle → Start spawn (gp y) = (b, s) →
    gd_step spurious limit y (with_gp s y)
| step_stop y : life y = LIdle →
    gd_step spurious limit y {| gp := with_stop true (gp y); life := LNotify KStop |}
| step_init y config parsed : life y = LIdle → ParseConfig config = Ok parsed →
    gd_step spurious limit y {| gp := with_stop true (gp y); life := LNotify (KInit parsed config) |}
| step_notify y k : life y = LNotify k →
    gd_step spurious limit y {| gp := notify (gp y); life := LJoin k |}
| step_finish y k : life y = LJoin k → joinable_done (gp_worker (gp y)) →
    gd_step spurious limit y {| gp := finish k (gp y); life := LIdle |}
| step_enter y w now : gp_worker (gp y) = Some w → wk_pc w = WStart →
    gd_step spurious limit y (with_gp (with_worker (Some {|
      wk_pc := WWhile; wk_config := gp_config (gp y); wk_next_request_at := now |}) (gp y)) y)
| step_worker y w pc s : gp_worker (gp y) = Some w → worker_step spurious limit w (gp y) pc s →
    gd_step spurious limit y (with_gp (with_worker (Some (set_pc pc w)) s) y)
| step_store y w a rest d response now : gp_worker (gp y) = Some w →
    wk_pc w = WStore a rest d response →
    gd_step spurious limit y (with_gp (with_worker (Some {|
      wk_pc := WFor rest; wk_config := wk_config w; wk_next_request_at := next_request w now |})
      (StoreResult d response (gp y))) y).

(** ** The specification

    The configuration, if there was an [Init] so far, and a log of the results
    stored since the last one, each with its number; only sound results are
    logged, and everything the object reports about the polling is a function of
    the log. *)

Record spec_state := {
  spec_config : option GasDetectorPollConfig;
  spec_log : list (GasDetectorData * list Z)
}.

Definition spec_addresses (a : spec_state) : list Z :=
  match spec_config a with Some config => gc_addresses config | None => [] end.

(** What [poll_spec] establishes of a result. *)
Definition sound_result (addresses : list Z) (d : GasDetectorData) (response : list Z) : Prop :=
  gd_address d ∈ addresses ∧ (gd_error d = "" ↔ gd_valid d = true) ∧
  (length response <= 260)%nat ∧
  (gd_valid d = true → ∃ regs elapsed stamp, length regs = 10%nat ∧ Forall (inu 16) regs ∧
     response = reply_frame (gd_address d) regs ∧
     d = registers_data (gd_address d) (crc_of response) 20 elapsed stamp regs).

Definition spec_number (a : spec_state) : Z := wrapu 64 (Z.of_nat (length (spec_log a)) + 1).

Inductive spec_step (a : spec_state) : spec_state → Prop :=
| spec_reset config : config_ok config → spec_step a {| spec_config := Some config; spec_log := [] |}
| spec_store d response : sound_result (spec_addresses a) d response →
    spec_step a {| spec_config := spec_config a;
                   spec_log := spec_log a ++ [(set_gd_sequence (spec_number a) d, response)] |}.

(** The latest result of an address: the last one logged, or the initial one. *)
Definition latest_of (log : list (GasDetectorData * list Z)) (address : Z) : GasDetectorData :=
  foldl (λ cur x, if gd_address x.1 =? address then x.1 else cur)
    (set_gd_address address GasDetectorData_default) log.

Definition crc_failure (x : GasDetectorData * list Z) : bool :=
  negb (gd_valid x.1) && (negb (gd_crc_ok x.1) && (5 <=? length x.2)%nat).

Definition frame_of (log : list (GasDetectorData * list Z)) : string :=
  match last log with
  | Some (_, response) => if bool_decide (response = []) then "" else HexFrame response
  | None => ""
  end.

(** What the object reports is what the log says. *)
Record reports (s : GasDetectorPoll J S) (a : spec_state) : Prop := {
  rep_config : gp_config s = default GasDetectorPollConfig_default (spec_config a);
  rep_results : gp_latest_results s = map (latest_of (spec_log a)) (spec_addresses a);
  rep_success : success_count_ (gp_stats s) = wrapu 64 (Z.of_nat (count (λ x, gd_valid x.1) (spec_log a)));
  rep_invalid : invalid_frame_count_ (gp_stats s) =
                wrapu 64 (Z.of_nat (count (λ x, negb (gd_valid x.1)) (spec_log a)));
  rep_timeout : timeout_count_ (gp_stats s) =
                wrapu 64 (Z.of_nat (count (λ x, negb (gd_valid x.1) && gd_timeout x.1) (spec_log a)));
  rep_crc : crc_error_count_ (gp_stats s) = wrapu 64 (Z.of_nat (count crc_failure (spec_log a)));
  rep_sequence : next_sequence_ (gp_stats s) = spec_number a;
  rep_frame : gp_last_frame s = frame_of (spec_log a)
}.

Definition spec_new : spec_state := {| spec_config := None; spec_log := [] |}.

(** ** The implementation follows the specification *)

Lemma count_snoc {T} (P : T → bool) l x : count P (l ++ [x]) = (count P l + (if P x then 1 else 0))%nat.
Proof.
  unfold count. rewrite filter_app, length_app. f_equal. rewrite filter_cons.
  destruct (P x); [by rewrite decide_True|by rewrite decide_False].
Qed.

Lemma incr_if_count {T} (P : T → bool) l x :
  incr_if (P x) (wrapu 64 (Z.of_nat (count P l))) = wrapu 64 (Z.of_nat (count P (l ++ [x]))).
Proof.
  rewrite count_snoc. unfold incr_if, incr, wrapu. destruct (P x).
  - rewrite Z.add_mod_idemp_l by done. f_equal. lia.
  - do 2 f_equal. lia.
Qed.

Lemma gd_address_sequence n d : gd_address (set_gd_sequence n d) = gd_address d.
Proof. reflexivity. Qed.

Lemma replace_result_map (f : Z → GasDetectorData) stored l :
  (∀ x, gd_address (f x) = x) → NoDup l → gd_address stored ∈ l →
  replace_result stored (map f l) = map (λ x, if gd_address stored =? x then stored else f x) l.
Proof.
  intros Hf Hn. induction Hn as [|x l Hx Hn IH]; intros Hin; [by apply not_elem_of_nil in Hin|].
  cbn [map replace_result]. rewrite Hf, (Z.eqb_sym (gd_address stored)).
  destruct (x =? gd_address stored) eqn:E.
  - apply Z.eqb_eq in E. f_equal. apply map_ext_in. intros y Hy. rewrite <- E.
    destruct (x =? y) eqn:E'; [|done]. apply Z.eqb_eq in E'. subst y.
    by apply list_elem_of_In in Hy.
  - apply Z.eqb_neq in E. rewrite IH; [done|]. apply elem_of_cons in Hin as [Hin|Hin]; [by subst|done].
Qed.

Lemma latest_of_address log x : gd_address (latest_of log x) = x.
Proof.
  unfold latest_of. assert (Hi : gd_address (set_gd_address x GasDetectorData_default) = x) by done.
  revert Hi. generalize (set_gd_address x GasDetectorData_default). induction log as [|[d r] log IH];
    intros cur Hc; [done|]. cbn [foldl]. apply IH. cbn [fst]. destruct (gd_address d =? x) eqn:E; [|done].
  by apply Z.eqb_eq.
Qed.

Definition spec_logged (a : spec_state) (d : GasDetectorData) (response : list Z) : spec_state := {|
  spec_config := spec_config a;
  spec_log := spec_log a ++ [(set_gd_sequence (spec_number a) d, response)]
|}.

Lemma reports_store s a d response :
  reports s a → NoDup (spec_addresses a) → gd_address d ∈ spec_addresses a →
  reports (StoreResult d response s) (spec_logged a d response).
Proof.
  intros [Hc Hr Hs Hi Ht Hcrc Hq Hf] Hn Hin.
  unfold StoreResult. rewrite Hq. set (stored := set_gd_sequence (spec_number a) d).
  split; cbn [gp_config gp_latest_results gp_stats gp_last_frame with_results count_result
              success_count_ invalid_frame_count_ timeout_count_ crc_error_count_ next_sequence_
              spec_config spec_log spec_logged].
  - done.
  - rewrite Hr. change (spec_addresses (spec_logged a d response)) with (spec_addresses a).
    rewrite replace_result_map by (done || apply latest_of_address).
    apply map_ext. intros x. unfold latest_of. rewrite foldl_app. reflexivity.
  - rewrite Hs. apply (incr_if_count (λ x, gd_valid x.1) _ (stored, response)).
  - rewrite Hi. apply (incr_if_count (λ x, negb (gd_valid x.1)) _ (stored, response)).
  - rewrite Ht. apply (incr_if_count (λ x, negb (gd_valid x.1) && gd_timeout x.1) _ (stored, response)).
  - rewrite Hcrc. apply (incr_if_count crc_failure _ (stored, response)).
  - unfold spec_number, incr, spec_logged. cbn [spec_log]. rewrite length_app. cbn [length].
    rewrite Hq. unfold spec_number, wrapu. rewrite Z.add_mod_idemp_l by done. f_equal. lia.
  - unfold frame_of. by rewrite last_snoc.
Qed.

(** Steps that leave alone what is reported about the polling. *)
Definition same_report (s s' : GasDetectorPoll J S) : Prop :=
  gp_config s' = gp_config s ∧ gp_latest_results s' = gp_latest_results s ∧
  gp_last_frame s' = gp_last_frame s ∧
  success_count_ (gp_stats s') = success_count_ (gp_stats s) ∧
  invalid_frame_count_ (gp_stats s') = invalid_frame_count_ (gp_stats s) ∧
  timeout_count_ (gp_stats s') = timeout_count_ (gp_stats s) ∧
  crc_error_count_ (gp_stats s') = crc_error_count_ (gp_stats s) ∧
  next_sequence_ (gp_stats s') = next_sequence_ (gp_stats s).

Lemma reports_same s s' a : same_report s s' → reports s a → reports s' a.
Proof.
  intros (E1 & E2 & E3 & E4 & E5 & E6 & E7 & E8) []. split; congruence.
Qed.

Definition pc_addresses (pc : worker_pc) : list Z :=
  match pc with
  | WFor rest => rest
  | WWait a rest | WPred a rest | WDeciding a rest | WBlocked a rest | WCount a rest
  | WPoll a rest | WStore a rest _ _ => a :: rest
  | _ => []
  end.

(** The worker works on the configuration and holds only sound results. *)
Definition pc_ok (config : GasDetectorPollConfig) (w : worker) : Prop :=
  wk_pc w ≠ WStart →
  wk_config w = config ∧ Forall (λ a, a ∈ gc_addresses config) (pc_addresses (wk_pc w)) ∧
  match wk_pc w with
  | WStore _ _ d response => sound_result (gc_addresses config) d response
  | _ => True
  end.

Definition pending_ok (l : life_phase) : Prop :=
  match l with
  | LIdle => True
  | LNotify k | LJoin k => match k with KInit parsed _ => config_ok parsed | KStop => True end
  end.

Record sim (y : system) (a : spec_state) : Prop := {
  sim_reports : reports (gp y) a;
  sim_config : config_ok (gp_config (gp y));
  sim_initialized : gp_initialized (gp y) = true ∨ is_Some (gp_worker (gp y)) → is_Some (spec_config a);
  sim_pending : pending_ok (life y);
  sim_worker w : gp_worker (gp y) = Some w → pc_ok (gp_config (gp y)) w
}.

Lemma sim_new : sim system_new spec_new.
Proof.
  split; cbn; try done.
  - apply default_config_ok.
  - by intros [?|[]].
Qed.

Lemma sim_config_eq y a : sim y a → is_Some (spec_config a) → spec_config a = Some (gp_config (gp y)).
Proof. intros Hsim [c Hc]. rewrite (rep_config _ _ (sim_reports _ _ Hsim)), Hc. done. Qed.

Lemma spec_addresses_config y a :
  sim y a → is_Some (gp_worker (gp y)) → spec_addresses a = gc_addresses (gp_config (gp y)).
Proof.
  intros Hsim Hw. unfold spec_addresses.
  by rewrite (sim_config_eq _ _ Hsim) by (apply (sim_initialized _ _ Hsim); by right).
Qed.

(** *** The worker *)

Lemma same_report_refl s : same_report s s.
Proof. by split_and!. Qed.

(** Whatever a worker's step does, it keeps the reports, the configuration and
    the life-cycle flag, and holds only addresses and results it may hold. *)
Lemma worker_step_ok spurious limit w s pc s' :
  config_ok (gp_config s) → pc_ok (gp_config s) w →
  worker_step spurious limit w s pc s' →
  same_report s s' ∧ gp_initialized s' = gp_initialized s ∧ pc_ok (gp_config s) (set_pc pc w).
Proof.
  intros Hc Hw Hstep.
  assert (Hgo : ∀ pc', wk_pc w ≠ WStart →
    Forall (λ a, a ∈ gc_addresses (gp_config s)) (pc_addresses pc') →
    match pc' with WStore _ _ d r => sound_result (gc_addresses (gp_config s)) d r | _ => True end →
    pc_ok (gp_config s) (set_pc pc' w)).
  { intros pc' Hs Ha Hst _. destruct (Hw Hs) as (E & _). by split_and!. }
  destruct Hstep as [E|E|x rest E|x rest E|x rest E|x rest E|x rest E _|x rest E _|x rest E
    |x rest rds d resp p rds' E Hp|E|what E];
    unfold unless_stop; try (split_and!; [by apply same_report_refl|done|]);
    try (assert (Hs : wk_pc w ≠ WStart) by (by rewrite E);
         destruct (Hw Hs) as (Ec & Ha & _); rewrite E in Ha; cbn [pc_addresses] in Ha);
    try (by apply Hgo); try (by destruct (gp_stop_requested s); apply Hgo).
  - destruct (gp_stop_requested s); apply Hgo; try done. cbn. rewrite Ec. by apply Forall_forall.
  - split_and!; [by split_and!|done|by apply Hgo].
  - split_and!; [by split_and!|done|]. apply Hgo; [done|done|]. rewrite Ec in Hp.
    inversion_clear Ha as [|? ? Hx _].
    assert (Hax : is_address x).
    { destruct (ok_addresses _ Hc) as (_ & _ & Hf). rewrite Forall_forall in Hf. by apply Hf. }
    apply poll_spec in Hp as (Hd & He & Hl & _ & Hv);
      [|done|unfold is_address in Hax; width_lia].
    unfold sound_result. rewrite Hd. by split_and!.
  - split_and!; [by split_and!|done|by apply Hgo].
  - split_and!; [by split_and!|done|]. assert (Hs : wk_pc w ≠ WStart) by (intros E'; by rewrite E' in E).
    by apply Hgo.
Qed.

Lemma sim_same y a s l w :
  sim y a → same_report (gp y) s →
  (gp_initialized s = true ∨ is_Some (gp_worker s) →
   gp_initialized (gp y) = true ∨ is_Some (gp_worker (gp y))) →
  gp_worker s = w → (∀ w', w = Some w' → pc_ok (gp_config (gp y)) w') → pending_ok l →
  sim {| gp := s; life := l |} a.
Proof.
  intros [Hr Hc Hi Hp Hw] Hs Hini <- Hw' Hl. pose proof Hs as (E & _).
  split; cbn; [by eapply reports_same|by rewrite E|naive_solver|done|]. rewrite E. exact Hw'.
Qed.

(** *** The life cycle *)

Lemma Start_report spawn s b s' :
  Start spawn s = (b, s') → same_report s s' ∧
    (gp_initialized s' = true → gp_initialized s = true) ∧
    (gp_worker s' = gp_worker s ∨
     gp_initialized s = true ∧ ∃ w, gp_worker s' = Some w ∧ wk_pc w = WStart).
Proof.
  unfold Start. destruct (gp_initialized s) eqn:Hi; cbn [negb].
  2: { intros [= <- <-]. split_and!; [by split_and!|done|by left]. }
  destruct (negb _); [intros [= <- <-]; split_and!; [by split_and!|done|by left]|].
  destruct (_ || _); [intros [= <- <-]; split_and!; [by split_and!|done|by left]|].
  destruct (negb _); [intros [= <- <-]; split_and!; [by split_and!|done|by left]|].
  destruct spawn; intros [= <- <-]; (split_and!; [by split_and!|done|]); [by left|right].
  split; [done|]. by eexists.
Qed.

Lemma reports_reset parsed config s : reports (init_reset parsed config s) {| spec_config := Some parsed; spec_log := [] |}.
Proof. split; try done. Qed.

Lemma init_open_report parsed config err s ok err' s' :
  init_open parsed config err s = (ok, err', s') →
  same_report (init_reset parsed config s) s' ∧ gp_worker s' = gp_worker s.
Proof.
  unfold init_open. destruct (negb _); [intros [= <- <- <-]; by split_and!|].
  destruct (sp_Init _ _ _) as [[b e] p]. destruct (negb b); intros [= <- <- <-]; by split_and!.
Qed.

Lemma stop_close_report s r s' :
  stop_close s = (r, s') → same_report s s' ∧ gp_worker s' = gp_worker s ∧
    (gp_initialized s' = true → gp_initialized s = true).
Proof.
  unfold stop_close. destruct (sp_Close (gp_serial s)) as [[[]|e] p]; intros [= <- <-]; by split_and!.
Qed.

Lemma sim_finish y a k :
  sim y a → pending_ok (LJoin k) →
  ∃ a', (a' = a ∨ spec_step a a') ∧ sim {| gp := finish k (gp y); life := LIdle |} a'.
Proof.
  intros Hsim Hk. unfold finish.
  destruct (stop_close (with_worker None (gp y))) as [r s1] eqn:Hcl.
  apply stop_close_report in Hcl as (Hs1 & Hw1 & Hi1). cbn in Hw1, Hi1.
  assert (Hsim1 : sim {| gp := s1; life := LIdle |} a).
  { eapply (sim_same y a s1 LIdle None); [done|exact Hs1| |done|done|done].
    rewrite Hw1. intros [Hi|[? [=]]]. left. by apply Hi1. }
  destruct r; [|by exists a; split; [left|]]. destruct k as [|parsed config]; [by exists a; split; [left|]|].
  destruct (init_open parsed config None s1) as [[ok e] s2] eqn:Hio. cbn [snd].
  apply init_open_report in Hio as [Hs2 Hw2].
  exists {| spec_config := Some parsed; spec_log := [] |}. split; [right; by constructor|].
  split; cbn [gp life].
  - eapply reports_same; [exact Hs2|]. apply reports_reset.
  - by destruct Hs2 as (-> & _).
  - by eexists.
  - done.
  - intros w. by rewrite Hw2, Hw1.
Qed.

Lemma gd_simulation spurious limit y y' a :
  sim y a → gd_step spurious limit y y' → ∃ a', (a' = a ∨ spec_step a a') ∧ sim y' a'.
Proof.
  intros Hsim Hstep. pose proof Hsim as [Hr Hc Hi Hp Hw].
  destruct Hstep as [y spawn b s Hl Hs|y Hl|y config parsed Hl Hs|y k Hl|y k Hl Hj|y w now Hwk E
    |y w pc s Hwk Hs|y w x rest d response now Hwk E].
  - exists a. split; [by left|]. apply Start_report in Hs as (Hsr & Hi' & Hw').
    unfold with_gp. eapply sim_same; [done|done| |reflexivity| |done].
    + destruct Hw' as [-> |[Hini _]]; naive_solver.
    + intros w Hw2. destruct Hw' as [E|(_ & w0 & E & Hpc)].
      * apply Hw. congruence.
      * rewrite E in Hw2. injection Hw2 as <-. intros Hn. by rewrite Hpc in Hn.
  - exists a. split; [by left|]. by eapply (sim_same y a (with_stop true (gp y))).
  - exists a. split; [by left|]. eapply (sim_same y a (with_stop true (gp y))); try done.
    cbn. by eapply ParseConfig_wf.
  - exists a. split; [by left|]. rewrite Hl in Hp.
    unfold notify. destruct (gp_worker (gp y)) as [w|] eqn:Hwk.
    2: { by eapply (sim_same y a). }
    destruct (wk_pc w) eqn:Epc;
      try (by eapply (sim_same y a); [done|apply same_report_refl|done|exact Hwk|apply Hw|done]).
    eapply (sim_same y a); [done|by split_and!| |reflexivity| |done].
    + intros _. right. by rewrite Hwk.
    + intros w' [= <-] Hn. destruct (Hw w eq_refl) as (E1 & E2 & _); [by rewrite Epc|].
      rewrite Epc in E2. by split_and!.
  - rewrite Hl in Hp. apply sim_finish; [done|exact Hp].
  - exists a. split; [by left|]. unfold with_gp.
    eapply sim_same; [done|by split_and!| |reflexivity| |done].
    + intros _. right. by rewrite Hwk.
    + intros w' [= <-] _. by split_and!; [..|constructor|].
  - exists a. split; [by left|].
    apply worker_step_ok in Hs as (Hsr & Hini & Hpc); [|done|by apply Hw].
    unfold with_gp. eapply sim_same; [done| | |reflexivity| |done].
    + by destruct Hsr as (?&?&?&?&?&?&?&?); split_and!.
    + intros _. right. by rewrite Hwk.
    + by intros w' [= <-].
  - assert (Hwo : is_Some (gp_worker (gp y))) by (by rewrite Hwk).
    destruct (Hw _ Hwk) as (Ec & Ha & Hso); [by rewrite E|]. rewrite E in Ha, Hso. cbn [pc_addresses] in Ha.
    pose proof (spec_addresses_config _ _ Hsim Hwo) as Haddr.
    exists (spec_logged a d response). split; [right; constructor; by rewrite Haddr|].
    unfold with_gp. split; cbn [gp life].
    + eapply reports_same; [|apply reports_store; [exact Hr| |]].
      * by split_and!.
      * rewrite Haddr. by destruct (ok_addresses _ Hc) as (_ & ? & _).
      * rewrite Haddr. by destruct Hso.
    + done.
    + intros _. apply Hi. by right.
    + done.
    + intros w' [= <-] _. cbn. inversion_clear Ha. by split_and!.
Qed.

(** C15: refinement.  Whatever the order of calls and steps of the worker, the
    counters, the latest results, the numbering and the last frame the object
    reports are those of a run of the specification, which only logs sound
    results of configured addresses. *)
Theorem gas_detector_refines spurious limit y :
  rtc (gd_step spurious limit) system_new y →
  ∃ a, rtc spec_step spec_new a ∧ reports (gp y) a.
Proof.
  intros Hrtc. assert (∃ a, rtc spec_step spec_new a ∧ sim y a) as (a & Ha & Hsim).
  { pattern y. eapply rtc_ind_r; [| |exact Hrtc].
    - exists spec_new. split; [by apply rtc_refl|apply sim_new].
    - intros y1 y2 _ Hstep (a & Ha & Hsim).
      destruct (gd_simulation _ _ _ _ _ Hsim Hstep) as (a' & [-> |Hs] & Hsim'); [by eauto|].
      exists a'. split; [by eapply rtc_r|done]. }
  exists a. split; [done|apply Hsim].
Qed.

(** ** The life cycle, when closing the port does not throw *)

Section reliable.
Context (close_ok : ∀ p : S, (sp_Close p).1 = Ok tt).

Definition live (s : GasDetectorPoll J S) : Prop := ∃ w, gp_worker s = Some w ∧ wk_pc w ≠ WExited.

Record life_inv (y : system) : Prop := {
  li_running : gp_running (gp y) = true → is_Some (gp_worker (gp y));
  li_worker : is_Some (gp_worker (gp y)) →
    gp_initialized (gp y) = true ∧ gc_enabled (gp_config (gp y)) = true;
  li_live : live (gp y) → gp_running (gp y) = true;
  li_exited w : gp_worker (gp y) = Some w → wk_pc w = WExited →
    gp_running (gp y) = true → gp_stop_requested (gp y) = true;
  li_idle : life y = LIdle → is_Some (gp_worker (gp y)) → gp_stop_requested (gp y) = false;
  li_state : gp_state (gp y) = Running ↔ gp_running (gp y) = true
}.

Lemma no_worker_not_live s : gp_worker s = None → ¬ live s.
Proof. intros Hn (w & Hw & _). congruence. Qed.

(** The invariant without a worker. *)
Lemma life_no_worker y :
  gp_worker (gp y) = None → gp_running (gp y) = false → gp_state (gp y) ≠ Running → life_inv y.
Proof.
  intros Hn Hr Hs. split; rewrite ?Hn, ?Hr; try done; try (by intros []); try (by intros _ []).
  by intros ?%no_worker_not_live.
Qed.

Lemma life_new : life_inv system_new.
Proof. by apply life_no_worker. Qed.

Lemma finish_worker k s : gp_worker (finish k s) = None ∧ gp_running (finish k s) = false ∧
  gp_state (finish k s) ≠ Running.
Proof.
  unfold finish, stop_close. cbn. pose proof (close_ok (gp_serial s)) as Hc.
  destruct (sp_Close (gp_serial s)) as [[[]|e] p]; [|done]. destruct k as [|parsed config]; [done|].
  unfold init_open. destruct (gc_enabled parsed) eqn:He; cbn [negb]; cbn; [|by rewrite He].
  destruct (sp_Init _ _ p) as [[[] e] p']; done.
Qed.

Lemma life_Start spawn s b s' l :
  life_inv {| gp := s; life := LIdle |} → Start spawn s = (b, s') → life_inv {| gp := s'; life := l |} .
Proof.
  intros [Hr Hw Hl He Hi Hs]. cbn in *. unfold Start.
  assert (Hno : ∀ s2, gp_worker s = None → gp_worker s2 = None → gp_running s2 = gp_running s →
    gp_state s2 ≠ Running → life_inv {| gp := s2; life := l |}).
  { intros s2 Hn Hn2 Hr2 Hs2. assert (Hrf : gp_running s = false).
    { destruct (gp_running s); [|done]. rewrite Hn in Hr. by destruct Hr. }
    apply life_no_worker; cbn; congruence. }
  destruct (gp_initialized s) eqn:Hini; cbn [negb].
  2: { intros [= <- <-]. assert (gp_worker s = None).
       { destruct (gp_worker s); [|done]. by destruct Hw as [[=] _]. }
       by apply Hno. }
  destruct (gc_enabled (gp_config s)) eqn:Hen; cbn [negb].
  2: { intros [= <- <-]. assert (gp_worker s = None).
       { destruct (gp_worker s); [|done]. by destruct Hw as [_ [=]]. }
       by apply Hno. }
  destruct (gp_running s) eqn:Hrun; cbn [orb].
  { intros [= <- <-]. split; cbn; rewrite ?Hrun, ?Hini, ?Hen; try done.
    intros _. by apply Hi. }
  destruct (gp_worker s) as [w|] eqn:Hwk.
  { intros [= <- <-]. split; cbn; rewrite ?Hrun, ?Hini, ?Hen, ?Hwk; try done.
    intros _. by apply Hi. }
  destruct (negb _); [intros [= <- <-]; by apply Hno|].
  destruct spawn; intros [= <- <-].
  - by apply life_no_worker.
  - split; cbn; rewrite ?Hini, ?Hen; try done. by intros w [= <-].
Qed.

Lemma worker_step_life spurious limit w s pc s' :
  worker_step spurious limit w s pc s' →
  wk_pc w ≠ WExited ∧ gp_stop_requested s' = gp_stop_requested s ∧
  gp_config s' = gp_config s ∧ gp_initialized s' = gp_initialized s ∧
  ((pc ≠ WExited ∨ gp_stop_requested s = true) ∧ gp_running s' = gp_running s ∧ gp_state s' = gp_state s ∨
   pc = WExited ∧ gp_running s' = false ∧ gp_state s' = Error).
Proof.
  intros Hs. assert (Hne : wk_pc w ≠ WExited) by (destruct Hs; congruence || (by destruct (wk_pc w))).
  split; [done|].
  destruct Hs; unfold unless_stop; [..|by split_and!; [done..|right]];
    destruct (gp_stop_requested s) eqn:Es; (split_and!; [exact Es || done..|left; split_and!; [|done..]]);
    first [by left|by right].
Qed.

Lemma life_phase_change y l : life_inv y → l ≠ LIdle → life_inv {| gp := gp y; life := l |}.
Proof. intros [] Hl. by split. Qed.

Lemma life_step spurious limit y y' : life_inv y → gd_step spurious limit y y' → life_inv y'.
Proof.
  intros Hinv Hstep. pose proof Hinv as [Hr Hw Hl He Hi Hst].
  assert (Hflag : ∀ k, life_inv {| gp := with_stop true (gp y); life := LNotify k |}).
  { intros k. by split. }
  assert (Hset : ∀ w w' l, gp_worker (gp y) = Some w → wk_pc w ≠ WExited → wk_pc w' ≠ WExited →
    (l = LIdle → life y = LIdle) →
    life_inv {| gp := with_worker (Some w') (gp y); life := l |}).
  { intros w w' l Hwk Hn Hn' Hlife. assert (gp_running (gp y) = true) by (apply Hl; by exists w).
    rewrite Hwk in Hw, Hi. split; cbn; try done.
    - intros _. by apply Hw.
    - intros w2 [= <-] E. done.
    - intros E _. apply Hi; [by apply Hlife|done]. }
  destruct Hstep as [y spawn b s Hli Hs|y Hli|y config parsed Hli Hs|y k Hli|y k Hli Hj|y w now Hwk E
    |y w pc s Hwk Hs|y w x rest d response now Hwk E].
  - unfold with_gp. eapply life_Start; [|done]. destruct y as [s0 l0]. cbn in Hli. by subst l0.
  - apply Hflag.
  - apply Hflag.
  - unfold notify. destruct (gp_worker (gp y)) as [w|] eqn:Hwk; [|by apply life_phase_change].
    destruct (wk_pc w) eqn:Epc; try (by apply life_phase_change).
    apply (Hset w); by rewrite ?Epc.
  - destruct (finish_worker k (gp y)) as (E1 & E2 & E3).
    by apply life_no_worker.
  - unfold with_gp. apply (Hset w); by rewrite ?E.
  - apply worker_step_life in Hs as (Hn & Hstop & Hc & Hini & Hcase).
    assert (Hrun : gp_running (gp y) = true) by (apply Hl; by exists w).
    assert (Hwk' : is_Some (gp_worker (gp y))) by (by rewrite Hwk).
    unfold with_gp. split; cbn; rewrite ?Hstop, ?Hc, ?Hini; try done.
    + intros _. by apply Hw.
    + intros (w' & [= <-] & Hpc). cbn in Hpc. destruct Hcase as [(_ & -> & _)|(-> & _)]; [done|done].
    + intros w' [= <-] Hpc Hrun'. cbn in Hpc.
      destruct Hcase as [([Hx|Hx] & _)|(_ & Hx & _)]; [done|done|congruence].
    + intros Hli _. by apply Hi.
    + destruct Hcase as [(_ & -> & ->)|(_ & -> & ->)]; [done|done].
  - unfold with_gp. assert (Hn : wk_pc w ≠ WExited) by (by rewrite E).
    assert (Hrun : gp_running (gp y) = true) by (apply Hl; by exists w).
    assert (Hwk' : is_Some (gp_worker (gp y))) by (by rewrite Hwk).
    split; cbn; try done.
    + intros _. by apply Hw.
    + by intros w' [= <-] Hpc.
    + intros Hli _. by apply Hi.
Qed.

Lemma life_reachable spurious limit y : rtc (gd_step spurious limit) system_new y → life_inv y.
Proof.
  intros Hr. pattern y. eapply rtc_ind_r; [apply life_new| |exact Hr].
  intros y1 y2 _ Hs Hi. by eapply life_step.
Qed.

(** The life cycle, over every order of calls and steps of the worker,
    when closing the port does not throw.  While no [Init] or [Stop] is under
    way, [IsRunning] and the state [Running] say exactly that a worker is alive;
    there is a worker only after a successful [Init] of an enabled configuration,
    and no stop request is left over for it.  When the worker died of an
    exception, [Start] still answers true and starts nothing: only [Stop] and
    [Init] get the polling going again. *)
Theorem gas_detector_lifecycle spurious limit y :
  rtc (gd_step spurious limit) system_new y → life y = LIdle →
  (IsRunning (gp y) = true ↔ live (gp y)) ∧ (gp_state (gp y) = Running ↔ IsRunning (gp y) = true) ∧
  (is_Some (gp_worker (gp y)) → gp_initialized (gp y) = true ∧ gc_enabled (gp_config (gp y)) = true ∧
     gp_stop_requested (gp y) = false) ∧
  (is_Some (gp_worker (gp y)) ∧ ¬ live (gp y) → IsRunning (gp y) = false ∧
     ∀ spawn, Start spawn (gp y) = (true, gp y)).
Proof.
  intros Hrtc Hli. apply life_reachable in Hrtc as [Hr Hw Hl He Hi Hst]. unfold IsRunning.
  assert (Hlive : gp_running (gp y) = true ↔ live (gp y)).
  { split; [|done]. intros Hrun. destruct (Hr Hrun) as [w Hwk]. exists w. split; [done|].
    intros Hpc. specialize (He w Hwk Hpc Hrun). rewrite Hi in He; [done|done|by rewrite Hwk]. }
  split_and!; [done|done| |].
  - intros Hwk. destruct (Hw Hwk). by split_and!; [..|apply Hi].
  - intros [Hwk Hn]. assert (Hrun : gp_running (gp y) = false).
    { destruct (gp_running (gp y)); [|done]. by destruct Hn, Hlive as [Hlive _]; apply Hlive. }
    split; [done|]. intros spawn. unfold Start. destruct (Hw Hwk) as [-> ->]. cbn [negb].
    rewrite Hrun. cbn [orb]. by destruct (gp_worker (gp y)); [|destruct Hwk].
Qed.
End reliable.

(** ** A stop request that is not noticed *)

(** [StopInternalLocked] sets the flag and notifies without [wait_mutex_].
    When the worker has found the flag clear and is about to block, the
    notification finds nobody waiting, and the worker blocks all the same: the
    caller of [Stop] then waits in the join, and as long as the clock has not
    reached the time of the next request, with no spurious wake-up, nothing can
    happen any more. *)
Theorem gas_stop_lost_wakeup y w a rest limit :
  gp_worker (gp y) = Some w → wk_pc w = WDeciding a rest → life y = LIdle →
  limit < wk_next_request_at w →
  ∃ y', rtc (gd_step false limit) y y' ∧ life y' = LJoin KStop ∧ gp_stop_requested (gp y') = true ∧
    ∀ y'', ¬ gd_step false limit y' y''.
Proof.
  intros Hw Hpc Hl Hlim.
  set (y1 := {| gp := with_stop true (gp y); life := LNotify KStop |}).
  set (y2 := {| gp := with_stop true (gp y); life := LJoin KStop |}).
  set (y3 := with_gp (with_worker (Some (set_pc (WBlocked a rest) w)) (with_stop true (gp y))) y2).
  exists y3. split_and!; [|done|done|].
  - eapply rtc_l; [by apply step_stop|]. fold y1. eapply rtc_l.
    { apply (step_notify _ _ y1 KStop). done. }
    replace (notify (gp y1)) with (gp y1) by (unfold notify; cbn; by rewrite Hw, Hpc).
    fold y2. apply rtc_once. apply (step_worker _ _ y2 w); [done|]. by apply w_block.
  - intros y'' Hs. inversion Hs as [? ? ? ? Hli|? Hli|? ? ? Hli|? ? Hli|? ? Hli Hj|? w' ? Hw' E
      |? w' ? ? Hw' Hst|? w' ? ? ? ? ? Hw' E]; subst; try done.
    + injection Hw' as <-. done.
    + injection Hw' as <-. inversion Hst; subst; try done. cbn in *. lia.
    + injection Hw' as <-. done.
Qed.
End system.
Arguments system J S : clear implicits.

(** ** A concrete run

    One detector, polled once; then the worker waits for the next request. *)

Definition run_cfg : jvalue := VObj [("device", VStr "/dev/ttyS1"); ("addresses", VNum 3)].
Definition run_config : GasDetectorPollConfig := Eval vm_compute in
  match ParseConfig run_cfg with Ok p => p | Err _ => GasDetectorPollConfig_default end.
Definition run_started : GasDetectorPoll jvalue slave := Eval vm_compute in
  (Start None (finish (KInit run_config run_cfg) (with_stop true GasDetectorPoll_new))).2.

Lemma run_started_reachable :
  rtc (gd_step false 0) system_new {| gp := run_started; life := LIdle |}.
Proof.
  eapply rtc_l; [apply (step_init _ _ _ run_cfg run_config); [reflexivity|vm_compute; reflexivity]|].
  eapply rtc_l; [eapply step_notify; reflexivity|].
  eapply rtc_l; [eapply step_finish; [reflexivity|exact I]|].
  eapply rtc_l; [|apply rtc_refl].
  exact (step_start _ _ {| gp := finish (KInit run_config run_cfg) (with_stop true GasDetectorPoll_new);
                           life := LIdle |} None true run_started eq_refl eq_refl).
Qed.

(** One step of the worker by the given rule, and the evaluation of the state. *)
Ltac eval_state :=
  match goal with |- rtc _ ?y _ => let y' := eval vm_compute in y in change y with y' end.
Ltac run_rule rule :=
  eapply rtc_l; [eapply step_worker; [reflexivity|apply rule; reflexivity || (vm_compute; discriminate)]|];
  eval_state.

Definition run_readings : list reading := replicate 31 {| rd_stop := false; rd_now := 0; rd_stamp := "now" |}.
Definition run_poll : GasDetectorData * list Z * slave * list reading := Eval vm_compute in
  default (GasDetectorData_default, [], slave_start, [])
    (poll run_config 3 run_readings (gp_serial run_started)).
Lemma run_poll_eq :
  poll run_config 3 run_readings {| sv_open := true; sv_rx := []; sv_sent := [] |} =
    Some (run_poll.1.1.1, run_poll.1.1.2, run_poll.1.2, run_poll.2).
Proof. vm_compute. reflexivity. Qed.

Lemma run_reachable :
  ∃ y w, rtc (gd_step false 0) system_new y ∧ life y = LIdle ∧
    success_count_ (gp_stats (gp y : GasDetectorPoll jvalue slave)) = 1 ∧
    gp_worker (gp y) = Some w ∧ wk_pc w = WDeciding 3 [] ∧ wk_next_request_at w = 500000000.
Proof.
  do 2 eexists. split.
  - etransitivity; [exact run_started_reachable|].
    eapply rtc_l; [eapply (step_enter _ _ _ _ 0); reflexivity|]. eval_state.
    run_rule w_while. run_rule w_for. run_rule w_wait. run_rule w_pred. run_rule w_block.
    run_rule w_timeout. run_rule w_count.
    eapply rtc_l; [eapply step_worker; [reflexivity|eapply w_poll; [reflexivity|exact run_poll_eq]]|].
    eval_state.
    eapply rtc_l; [eapply (step_store _ _ _ _ _ _ _ _ 0); reflexivity|]. eval_state.
    run_rule w_for_end. run_rule w_cycle. run_rule w_while. run_rule w_for. run_rule w_wait. run_rule w_pred.
    apply rtc_refl.
  - by split_and!.
Qed.

Lemma gas_detector_refines_witness :
  ∃ y a, rtc (gd_step false 0) system_new y ∧ reports (gp y : GasDetectorPoll jvalue slave) a ∧
    wrapu 64 (Z.of_nat (count (λ x, gd_valid x.1) (spec_log a))) = 1.
Proof.
  destruct run_reachable as (y & w & Hr & _ & Hs & _).
  destruct (gas_detector_refines _ _ _ Hr) as (a & _ & Ha).
  exists y, a. split_and!; [exact Hr|exact Ha|]. rewrite <- Hs. symmetry. apply (rep_success _ _ Ha).
Defined.

Lemma gas_stop_lost_wakeup_witness :
  ∃ y y', rtc (gd_step false 0) system_new y ∧ rtc (gd_step false 499999999) y y' ∧
    life (y' : system jvalue slave) = LJoin KStop ∧ ∀ y'', ¬ gd_step false 499999999 y' y''.
Proof.
  destruct run_reachable as (y & w & Hr & Hl & _ & Hw & Hpc & Hn).
  destruct (gas_stop_lost_wakeup y w 3 [] 499999999 Hw Hpc Hl) as (y' & Hy' & Hl' & _ & Hstuck);
    [rewrite Hn; reflexivity|].
  exists y, y'. split_and!; [exact Hr|exact Hy'|exact Hl'|exact Hstuck].
Defined.

(** A worker that dies of an exception. *)
Lemma dead_reachable :
  ∃ y w, rtc (gd_step false 0) system_new y ∧ life y = LIdle ∧
    gp_worker (gp y : GasDetectorPoll jvalue slave) = Some w ∧ wk_pc w = WExited.
Proof.
  do 2 eexists. split.
  - etransitivity; [exact run_started_reachable|].
    eapply rtc_l; [eapply (step_enter _ _ _ _ 0); reflexivity|]. eval_state.
    eapply rtc_l; [eapply step_worker; [reflexivity|apply (w_throw _ _ _ _ "bad_alloc"); reflexivity]|].
    apply rtc_refl.
  - by split_and!.
Qed.

Lemma slave_close_ok (p : slave) : (sp_Close (cfg := jvalue) p).1 = Ok tt.
Proof. reflexivity. Qed.

Lemma gas_detector_lifecycle_witness :
  ∃ y : system jvalue slave, rtc (gd_step false 0) system_new y ∧ IsRunning (gp y) = false ∧
    Start None (gp y) = (true, gp y).
Proof.
  destruct dead_reachable as (y & w & Hr & Hl & Hw & Hpc). exists y.
  destruct (gas_detector_lifecycle slave_close_ok false 0 y Hr Hl) as (Hrun & _ & _ & Hdead).
  destruct Hdead as [Hn Hst]; [|split_and!; [exact Hr|exact Hn|apply Hst]].
  split; [by rewrite Hw|]. intros (w' & Hw' & Hn). congruence.
Defined.
