(* ===== verification/MyFlyControl.v ===== *)
(** * The flight controller driver

    Model of my_fly_control/MyFlyControl.cpp and MyFlyControl.h over the
    [SerialPort] interface: life cycle, the receive loop and frame dispatch,
    callbacks, heartbeat queries and the sixteen send functions.

    The receive thread is the repetition of [ReceiveLoop_iter]; the frames it
    reads, in what pieces and with what errors, are whatever the port's
    [sp_ReadBytes] returns.  A registered callback is a value of an abstract
    type, and calling it is an event the iteration returns.  The locks protect
    single assignments and calls, so those operations are atomic; the sections of
    [Start] and [Stop], which take none, are given apart.  Logging, and the
    formatting done only for it, is left out except [BytesToHexString]. *)

From S2P Require Import Prelude Bytes Json FlyControlProtocol FlyControlFrame FlyControlCodec FlyControlCodecFacts SerialPort Double.
From stdpp Require Import pretty.

Local Open Scope Z_scope.

(** ** Text of bytes *)

(** The stream is still in hexadecimal mode when the number of omitted bytes is
    written; a 64-bit count has at most sixteen digits. *)
Definition BytesToHexString (data : list Z) (max_bytes : nat) : string :=
  match data with
  | [] => "<empty>"
  | _ =>
      let limit := Nat.min (length data) max_bytes in
      String.concat " " (map hex_byte (take limit data)) +:+
      (if (limit <? length data)%nat
       then " ...( +" +:+ hex_number 16 (Z.of_nat (length data - limit)) +:+ " bytes)" else "")
  end.

(** ** State *)

Section driver.
Context {cfg S : Type} `{SerialPort cfg S} {CBh CBr CBg : Type}.

(** [fc_recv_thread] says whether [recv_thread_] holds a thread; a callback
    field is [None] when the [std::function] is empty. *)
Record MyFlyControl := {
  fc_serial : S;
  fc_parser : list Z;
  fc_running : bool;
  fc_recv_thread : bool;
  fc_latest_hb : HeartbeatData;
  fc_has_hb : bool;
  fc_cnt : Z;
  fc_on_heartbeat : option CBh;
  fc_on_reply : option CBr;
  fc_on_gimbal : option CBg
}.

Definition MyFlyControl_default : MyFlyControl := {|
  fc_serial := sp_init; fc_parser := []; fc_running := false; fc_recv_thread := false;
  fc_latest_hb := HeartbeatData_default; fc_has_hb := false; fc_cnt := 0;
  fc_on_heartbeat := None; fc_on_reply := None; fc_on_gimbal := None |}.

Definition set_fc_serial (x : S) (s : MyFlyControl) : MyFlyControl := {|
  fc_serial := x; fc_parser := fc_parser s; fc_running := fc_running s;
  fc_recv_thread := fc_recv_thread s; fc_latest_hb := fc_latest_hb s; fc_has_hb := fc_has_hb s;
  fc_cnt := fc_cnt s; fc_on_heartbeat := fc_on_heartbeat s; fc_on_reply := fc_on_reply s;
  fc_on_gimbal := fc_on_gimbal s |}.
Definition set_fc_parser (x : list Z) (s : MyFlyControl) : MyFlyControl := {|
  fc_serial := fc_serial s; fc_parser := x; fc_running := fc_running s;
  fc_recv_thread := fc_recv_thread s; fc_latest_hb := fc_latest_hb s; fc_has_hb := fc_has_hb s;
  fc_cnt := fc_cnt s; fc_on_heartbeat := fc_on_heartbeat s; fc_on_reply := fc_on_reply s;
  fc_on_gimbal := fc_on_gimbal s |}.
Definition set_fc_running (x : bool) (s : MyFlyControl) : MyFlyControl := {|
  fc_serial := fc_serial s; fc_parser := fc_parser s; fc_running := x;
  fc_recv_thread := fc_recv_thread s; fc_latest_hb := fc_latest_hb s; fc_has_hb := fc_has_hb s;
  fc_cnt := fc_cnt s; fc_on_heartbeat := fc_on_heartbeat s; fc_on_reply := fc_on_reply s;
  fc_on_gimbal := fc_on_gimbal s |}.
Definition set_fc_recv_thread (x : bool) (s : MyFlyControl) : MyFlyControl := {|
  fc_serial := fc_serial s; fc_parser := fc_parser s; fc_running := fc_running s;
  fc_recv_thread := x; fc_latest_hb := fc_latest_hb s; fc_has_hb := fc_has_hb s;
  fc_cnt := fc_cnt s; fc_on_heartbeat := fc_on_heartbeat s; fc_on_reply := fc_on_reply s;
  fc_on_gimbal := fc_on_gimbal s |}.
Definition set_fc_latest_hb (x : HeartbeatData) (s : MyFlyControl) : MyFlyControl := {|
  fc_serial := fc_serial s; fc_parser := fc_parser s; fc_running := fc_running s;
  fc_recv_thread := fc_recv_thread s; fc_latest_hb := x; fc_has_hb := fc_has_hb s;
  fc_cnt := fc_cnt s; fc_on_heartbeat := fc_on_heartbeat s; fc_on_reply := fc_on_reply s;
  fc_on_gimbal := fc_on_gimbal s |}.
Definition set_fc_has_hb (x : bool) (s : MyFlyControl) : MyFlyControl := {|
  fc_serial := fc_serial s; fc_parser := fc_parser s; fc_running := fc_running s;
  fc_recv_thread := fc_recv_thread s; fc_latest_hb := fc_latest_hb s; fc_has_hb := x;
  fc_cnt := fc_cnt s; fc_on_heartbeat := fc_on_heartbeat s; fc_on_reply := fc_on_reply s;
  fc_on_gimbal := fc_on_gimbal s |}.
Definition set_fc_cnt (x : Z) (s : MyFlyControl) : MyFlyControl := {|
  fc_serial := fc_serial s; fc_parser := fc_parser s; fc_running := fc_running s;
  fc_recv_thread := fc_recv_thread s; fc_latest_hb := fc_latest_hb s; fc_has_hb := fc_has_hb s;
  fc_cnt := x; fc_on_heartbeat := fc_on_heartbeat s; fc_on_reply := fc_on_reply s;
  fc_on_gimbal := fc_on_gimbal s |}.
Definition set_fc_on_heartbeat (x : option CBh) (s : MyFlyControl) : MyFlyControl := {|
  fc_serial := fc_serial s; fc_parser := fc_parser s; fc_running := fc_running s;
  fc_recv_thread := fc_recv_thread s; fc_latest_hb := fc_latest_hb s; fc_has_hb := fc_has_hb s;
  fc_cnt := fc_cnt s; fc_on_heartbeat := x; fc_on_reply := fc_on_reply s;
  fc_on_gimbal := fc_on_gimbal s |}.
Definition set_fc_on_reply (x : option CBr) (s : MyFlyControl) : MyFlyControl := {|
  fc_serial := fc_serial s; fc_parser := fc_parser s; fc_running := fc_running s;
  fc_recv_thread := fc_recv_thread s; fc_latest_hb := fc_latest_hb s; fc_has_hb := fc_has_hb s;
  fc_cnt := fc_cnt s; fc_on_heartbeat := fc_on_heartbeat s; fc_on_reply := x;
  fc_on_gimbal := fc_on_gimbal s |}.
Definition set_fc_on_gimbal (x : option CBg) (s : MyFlyControl) : MyFlyControl := {|
  fc_serial := fc_serial s; fc_parser := fc_parser s; fc_running := fc_running s;
  fc_recv_thread := fc_recv_thread s; fc_latest_hb := fc_latest_hb s; fc_has_hb := fc_has_hb s;
  fc_cnt := fc_cnt s; fc_on_heartbeat := fc_on_heartbeat s; fc_on_reply := fc_on_reply s;
  fc_on_gimbal := x |}.

(** ** Life cycle *)

Definition Init (c : cfg) (err : option string) (s : MyFlyControl)
    : bool * option string * MyFlyControl :=
  let '(ok, err, serial) := sp_Init c err (fc_serial s) in (ok, err, set_fc_serial serial s).

Definition Start (err : option string) (s : MyFlyControl) : bool * option string * MyFlyControl :=
  if fc_running s then (false, set_err err "飞控模块已在运行", s)
  else
    let '(ok, err, s) :=
      if negb (sp_IsOpen (fc_serial s)) then
        let '(ok, err, serial) := sp_Open err (fc_serial s) in (ok, err, set_fc_serial serial s)
      else (true, err, s) in
    if negb ok then (false, err, s)
    else
      let s := set_fc_parser (Reset (fc_parser s)) s in
      let s := set_fc_running true s in
      (true, err, set_fc_recv_thread true s).

(** Joining the thread lets the iteration in flight finish: that iteration is
    the one before this step. *)
Definition Stop : io MyFlyControl unit := λ s,
  if negb (fc_running s) then (Ok tt, s)
  else
    let s := set_fc_running false s in
    let s := set_fc_recv_thread false s in
    let '(r, serial) := sp_Close (fc_serial s) in (r, set_fc_serial serial s).

(** [Start] and [Stop] take no lock: between these sections other threads run.
    [Start_thread] assigns [recv_thread_]; over a thread that was not joined the
    assignment ends the program. *)
Definition Start_open (err : option string) (s : MyFlyControl) : bool * option string * MyFlyControl :=
  if negb (sp_IsOpen (fc_serial s)) then
    let '(ok, err, serial) := sp_Open err (fc_serial s) in (ok, err, set_fc_serial serial s)
  else (true, err, s).
Definition Start_reset (s : MyFlyControl) : MyFlyControl := set_fc_parser (Reset (fc_parser s)) s.
Definition Start_flag (s : MyFlyControl) : MyFlyControl := set_fc_running true s.
Definition Start_thread (s : MyFlyControl) : option MyFlyControl :=
  if fc_recv_thread s then None else Some (set_fc_recv_thread true s).
Definition Stop_flag (s : MyFlyControl) : MyFlyControl := set_fc_running false s.
Definition Stop_join (s : MyFlyControl) : MyFlyControl := set_fc_recv_thread false s.
Definition Stop_close : io MyFlyControl unit := λ s,
  let '(r, serial) := sp_Close (fc_serial s) in (r, set_fc_serial serial s).

(** Uninterrupted, the sections are the methods. *)
Lemma Start_sections err s :
  fc_recv_thread s = fc_running s →
  Start err s =
    if fc_running s then (false, set_err err "飞控模块已在运行", s)
    else
      let '(ok, err, s) := Start_open err s in
      if negb ok then (false, err, s)
      else match Start_thread (Start_flag (Start_reset s)) with
           | Some s => (true, err, s)
           | None => (true, err, s)
           end.
Proof.
  intros Hr. unfold Start, Start_open, Start_thread, Start_flag, Start_reset.
  destruct (fc_running s) eqn:E; [done|]. destruct (negb (sp_IsOpen (fc_serial s))); cbn.
  - destruct (sp_Open err (fc_serial s)) as [[ok e] p]. destruct ok; [|done]. cbn. by rewrite Hr.
  - by rewrite Hr.
Qed.
Lemma Stop_sections s :
  Stop s = if negb (fc_running s) then (Ok tt, s) else Stop_close (Stop_join (Stop_flag s)).
Proof. reflexivity. Qed.

Definition IsRunning (s : MyFlyControl) : bool := fc_running s.

(** ** Callbacks and queries *)

Definition SetOnHeartbeat (cb : option CBh) (s : MyFlyControl) : MyFlyControl := set_fc_on_heartbeat cb s.
Definition SetOnCommandReply (cb : option CBr) (s : MyFlyControl) : MyFlyControl := set_fc_on_reply cb s.
Definition SetOnGimbalControl (cb : option CBg) (s : MyFlyControl) : MyFlyControl := set_fc_on_gimbal cb s.

Definition GetLatestHeartbeat (s : MyFlyControl) : HeartbeatData := fc_latest_hb s.
Definition GetFaultBits (s : MyFlyControl) : FaultBits := FromU16 (hb_fault_info (fc_latest_hb s)).
Definition HasHeartbeat (s : MyFlyControl) : bool := fc_has_hb s.

(** [j_double] stores a double in a JSON value. *)
Definition HeartbeatToJson {J} `{JsonOps J} (j_double : double → J) (hb : HeartbeatData) : J :=
  j_object
    [("cnt", j_number (hb_cnt hb));
     ("aircraft_id", j_number (hb_aircraft_id hb));
     ("run_mode", j_number (hb_run_mode hb));
     ("satellite_count", j_number (hb_satellite_count hb));
     ("longitude", j_double (scaled (hb_longitude hb) 7));
     ("latitude", j_double (scaled (hb_latitude hb) 7));
     ("altitude", j_double (scaled (hb_altitude hb) 1));
     ("relative_alt", j_double (scaled (hb_relative_alt hb) 1));
     ("airspeed", j_double (scaled (hb_airspeed hb) 2));
     ("groundspeed", j_double (scaled (hb_groundspeed hb) 2));
     ("velocity_x", j_double (scaled (hb_velocity_x hb) 2));
     ("velocity_y", j_double (scaled (hb_velocity_y hb) 2));
     ("velocity_z", j_double (scaled (hb_velocity_z hb) 2));
     ("accel_x", j_double (scaled (hb_accel_x hb) 2));
     ("accel_y", j_double (scaled (hb_accel_y hb) 2));
     ("accel_z", j_double (scaled (hb_accel_z hb) 2));
     ("roll", j_double (scaled (hb_roll hb) 2));
     ("pitch", j_double (scaled (hb_pitch hb) 2));
     ("yaw", j_double (scaled (hb_yaw hb) 2));
     ("flight_mode", j_number (hb_flight_mode hb));
     ("current_waypoint", j_number (hb_current_waypoint hb));
     ("battery_voltage", j_double (scaled (hb_battery_voltage hb) 2));
     ("battery_percent", j_number (hb_battery_percent hb));
     ("battery_current", j_double (scaled (hb_battery_current hb) 1));
     ("atm_pressure", j_double (scaled (hb_atm_pressure hb) 2));
     ("utc_timestamp", j_number (hb_utc_timestamp hb));
     ("fault_info", j_number (hb_fault_info hb));
     ("rotation_speed", j_number (hb_rotation_speed hb));
     ("throttle", j_number (hb_throttle hb));
     ("target_altitude", j_double (scaled (hb_target_altitude hb) 1));
     ("target_speed", j_double (scaled (hb_target_speed hb) 2));
     ("origin_distance", j_number (hb_origin_distance hb));
     ("origin_heading", j_double (scaled (hb_origin_heading hb) 2));
     ("target_distance", j_number (hb_target_distance hb));
     ("flight_state", j_number (hb_flight_state hb));
     ("altitude_state", j_number (hb_altitude_state hb));
     ("state_switch_src", j_number (hb_state_switch_src hb));
     ("flight_time", j_number (hb_flight_time hb));
     ("flight_range", j_number (hb_flight_range hb))].

Definition GetLatestHeartbeatJson {J} `{JsonOps J} (j_double : double → J) (s : MyFlyControl) : J :=
  HeartbeatToJson j_double (fc_latest_hb s).

(** ** Sending *)

Definition SendRawData (data : list Z) (err : option string) (s : MyFlyControl)
    : bool * option string * MyFlyControl :=
  let '(written, err, serial) := sp_Write data err (fc_serial s) in
  ((written =? length data)%nat, err, set_fc_serial serial s).

(** [cnt_.fetch_add(1)] on an atomic byte: the old value. *)
Definition NextCnt (s : MyFlyControl) : Z * MyFlyControl :=
  (fc_cnt s, set_fc_cnt (wrapu 8 (fc_cnt s + 1)) s).

Definition SendSetDestination (lon lat alt : Z) (err : option string) (s : MyFlyControl) :=
  let data := {| sd_cmd_type := sd_cmd_type SetDestinationData_default;
                 sd_longitude := lon; sd_latitude := lat; sd_altitude := alt |} in
  let '(cnt, s) := NextCnt s in
  SendRawData (EncodeSetDestination cnt data) err s.

Definition SendSetRoute (points : list RoutePoint) (err : option string) (s : MyFlyControl) :=
  if (length points =? 0)%nat || (50 <? length points)%nat
  then (false, set_err err "航线点数量必须在 1~50 之间", s)
  else
    let data := {| sr_cmd_type := sr_cmd_type SetRouteData_default; sr_points := points |} in
    let '(cnt, s) := NextCnt s in
    SendRawData (EncodeSetRoute cnt data) err s.

Definition SendSetAngle (pitch yaw : Z) (err : option string) (s : MyFlyControl) :=
  let data := {| sa_cmd_type := sa_cmd_type SetAngleData_default; sa_pitch := pitch; sa_yaw := yaw |} in
  let '(cnt, s) := NextCnt s in
  SendRawData (EncodeSetAngle cnt data) err s.

Definition SendSetSpeed (speed : Z) (err : option string) (s : MyFlyControl) :=
  let data := {| ss_cmd_type := ss_cmd_type SetSpeedData_default; ss_speed := speed |} in
  let '(cnt, s) := NextCnt s in
  SendRawData (EncodeSetSpeed cnt data) err s.

Definition SendSetAltitude (alt_type altitude : Z) (err : option string) (s : MyFlyControl) :=
  let data := {| sal_cmd_type := sal_cmd_type SetAltitudeData_default;
                 sal_altitude_type := alt_type; sal_altitude := altitude |} in
  let '(cnt, s) := NextCnt s in
  SendRawData (EncodeSetAltitude cnt data) err s.

Definition SendPowerSwitch (command : Z) (err : option string) (s : MyFlyControl) :=
  let data := {| ps_cmd_type := ps_cmd_type PowerSwitchData_default; ps_command := command |} in
  let '(cnt, s) := NextCnt s in
  SendRawData (EncodePowerSwitch cnt data) err s.

Definition SendParachute (parachute_type : Z) (err : option string) (s : MyFlyControl) :=
  let data := {| pa_cmd_type := pa_cmd_type ParachuteData_default;
                 pa_parachute_type := parachute_type |} in
  let '(cnt, s) := NextCnt s in
  SendRawData (EncodeParachute cnt data) err s.

Definition SendButtonCommand (button : Z) (err : option string) (s : MyFlyControl) :=
  let data := {| bc_cmd_type := bc_cmd_type ButtonCommandData_default; bc_button := button |} in
  let '(cnt, s) := NextCnt s in
  SendRawData (EncodeButtonCommand cnt data) err s.

Definition SendSetOriginReturn (point_type lon lat alt : Z) (err : option string) (s : MyFlyControl) :=
  let data := {| so_cmd_type := so_cmd_type SetOriginReturnData_default;
                 so_point_type := point_type; so_longitude := lon; so_latitude := lat;
                 so_altitude := alt |} in
  let '(cnt, s) := NextCnt s in
  SendRawData (EncodeSetOriginReturn cnt data) err s.

Definition SendSetGeofence (points : list GeofencePoint) (err : option string) (s : MyFlyControl) :=
  if (length points <? 3)%nat || (50 <? length points)%nat
  then (false, set_err err "电子围栏点数量必须在 3~50 之间", s)
  else
    let data := {| sg_cmd_type := sg_cmd_type SetGeofenceData_default; sg_points := points |} in
    let '(cnt, s) := NextCnt s in
    SendRawData (EncodeSetGeofence cnt data) err s.

Definition SendSwitchMode (mode : Z) (err : option string) (s : MyFlyControl) :=
  let data := {| sm_cmd_type := sm_cmd_type SwitchModeData_default; sm_mode := mode |} in
  let '(cnt, s) := NextCnt s in
  SendRawData (EncodeSwitchMode cnt data) err s.

Definition SendGuidance (data : GuidanceData) (err : option string) (s : MyFlyControl) :=
  let '(cnt, s) := NextCnt s in SendRawData (EncodeGuidance cnt data) err s.
Definition SendGuidanceNew (data : GuidanceNewData) (err : option string) (s : MyFlyControl) :=
  let '(cnt, s) := NextCnt s in SendRawData (EncodeGuidanceNew cnt data) err s.
Definition SendGimbalAngRate (data : GimbalAngRateData) (err : option string) (s : MyFlyControl) :=
  let '(cnt, s) := NextCnt s in SendRawData (EncodeGimbalAngRate cnt data) err s.
Definition SendGimbalAngle (data : GimbalAngleData) (err : option string) (s : MyFlyControl) :=
  let '(cnt, s) := NextCnt s in SendRawData (EncodeGimbalAngle cnt data) err s.
Definition SendTargetState (data : TargetStateData) (err : option string) (s : MyFlyControl) :=
  let '(cnt, s) := NextCnt s in SendRawData (EncodeTargetState cnt data) err s.

(** ** Receiving *)

(** A call of a registered callback. *)
Inductive event :=
| on_heartbeat_ (cb : CBh) (hb : HeartbeatData)
| on_reply_ (cb : CBr) (reply : CommandReplyData)
| on_gimbal_ (cb : CBg) (gimbal : GimbalControlData).

(** [if (cb) cb(x)]. *)
Definition call {CB X} (mk : CB → X → event) (cb : option CB) (x : X) : list event :=
  match cb with Some cb => [mk cb x] | None => [] end.

Definition with_hb_cnt (c : Z) : HeartbeatData := set_hb_cnt c HeartbeatData_default.

Definition HandleFrame (frame : ParsedFrame) (s : MyFlyControl) : outcome (list event * MyFlyControl) :=
  if pf_frame_type frame =? FRAME_TYPE_HEARTBEAT then
    '(ok, hb) ← DecodeHeartbeat (pf_payload frame) (with_hb_cnt (pf_cnt frame));
    if (ok : bool) then
      let s := set_fc_has_hb true (set_fc_latest_hb hb s) in
      Ret (call on_heartbeat_ (fc_on_heartbeat s) hb, s)
    else Ret ([], s)
  else if pf_frame_type frame =? FRAME_TYPE_REPLY then
    '(ok, reply) ← DecodeCommandReply (pf_payload frame)
        {| cr_cnt := pf_cnt frame; cr_replied_cmd := cr_replied_cmd CommandReplyData_default;
           cr_result := cr_result CommandReplyData_default |};
    if (ok : bool) then Ret (call on_reply_ (fc_on_reply s) reply, s) else Ret ([], s)
  else if pf_frame_type frame =? FRAME_TYPE_GIMBAL_CONTROL then
    '(ok, gimbal) ← DecodeGimbalControl (pf_payload frame)
        {| gc_cnt := pf_cnt frame; gc_enable := gc_enable GimbalControlData_default;
           gc_pitch_angle := gc_pitch_angle GimbalControlData_default;
           gc_yaw_angle := gc_yaw_angle GimbalControlData_default |};
    if (ok : bool) then Ret (call on_gimbal_ (fc_on_gimbal s) gimbal, s) else Ret ([], s)
  else Ret ([], s).

(** The inner [while (parser_.PopFrame(frame))] loop.  [None] of the parser
    model (out of fuel) is impossible; the loop's own fuel is the buffer's
    length plus one. *)
Fixpoint drain (fuel : nat) (s : MyFlyControl) : option (outcome (list event * MyFlyControl)) :=
  match fuel with
  | O => None
  | Datatypes.S fuel =>
      match PopFrame (fc_parser s) with
      | None => None
      | Some (None, buffer) => Some (Ret ([], set_fc_parser buffer s))
      | Some (Some frame, buffer) =>
          let s := set_fc_parser buffer s in
          if negb (pf_valid frame) then drain fuel s
          else
            match HandleFrame frame s with
            | Ret (evs, s) =>
                match drain fuel s with
                | Some (Ret (evs', s)) => Some (Ret (evs ++ evs', s))
                | r => r
                end
            | Throw e => Some (Throw e)
            | Undef => Some Undef
            end
      end
  end.

Definition READ_BUF_SIZE : nat := 256.

(** One iteration of the loop, the [running_] test included: [None] when the
    loop ends (or the fuel would run out). *)
Definition ReceiveLoop_iter (s : MyFlyControl) : option (outcome (list event * MyFlyControl)) :=
  if negb (fc_running s) then None
  else
    let '(bytes, err, serial) := sp_ReadBytes READ_BUF_SIZE (Some "") (fc_serial s) in
    let s := set_fc_serial serial s in
    if negb (bool_decide (err = Some "")) then Some (Ret ([], s))
    else match bytes with
         | [] => Some (Ret ([], s))
         | _ =>
             let s := set_fc_parser (FeedData (fc_parser s) bytes) s in
             drain (Datatypes.S (length (fc_parser s))) s
         end.

(** The first [n] iterations of the receive thread. *)
Fixpoint ReceiveLoop (n : nat) (s : MyFlyControl) : option (outcome (list event * MyFlyControl)) :=
  match n with
  | O => Some (Ret ([], s))
  | Datatypes.S n =>
      if negb (fc_running s) then Some (Ret ([], s))
      else
        match ReceiveLoop_iter s with
        | Some (Ret (evs, s)) =>
            match ReceiveLoop n s with
            | Some (Ret (evs', s)) => Some (Ret (evs ++ evs', s))
            | r => r
            end
        | r => r
        end
  end.

End driver.
Arguments MyFlyControl : clear implicits.
Arguments event : clear implicits.
