(* ===== verification/MyFlyControlFacts.v ===== *)
(** * The flight controller driver: what it guarantees

    Receiving: the receive thread's effect depends only on the byte stream the
    port delivered, it never throws, and the latest heartbeat is the last valid
    one of the stream.  Sending: what a send request puts on the wire, and the
    numbering of a session of requests.  Life cycle: start, stop and the state
    invariant. *)

From S2P Require Import Prelude Bytes FlyControlProtocol FlyControlFrame FlyControlCodec FlyControlCodecFacts Json SerialPort MySerial Double MyFlyControl.

Local Open Scope Z_scope.

(** A parser buffer with nothing left to pop. *)
Definition drained (b : list Z) : Prop := PopAll b = Some ([], b).

Lemma PopFrame_wait_again b r : PopFrame b = Some (None, r) → PopFrame r = Some (None, r).
Proof.
  intros Hb. pose proof (PopFrame_app b []) as Ha. rewrite Hb, !app_nil_r in Ha. congruence.
Qed.

Lemma PopAll_rest b fs r : PopAll b = Some (fs, r) → drained r.
Proof.
  unfold drained. revert fs r. induction b as [b IH] using buffer_ind. intros fs r.
  rewrite PopAll_unfold. pose proof (PopFrame_length b) as Hl.
  destruct (PopFrame b) as [[[f|] b']|] eqn:E; [| |done].
  - destruct (PopAll b') as [[fs1 r1]|] eqn:E1; [|done]. intros [= <- <-]. by eapply IH.
  - intros [= <- <-]. by rewrite PopAll_unfold, (PopFrame_wait_again _ _ E).
Qed.

Lemma PopAll_bytes b fs r : bytes b → PopAll b = Some (fs, r) → bytes r.
Proof.
  revert fs r. induction b as [b IH] using buffer_ind. intros fs r Hb.
  rewrite PopAll_unfold. pose proof (PopFrame_length b) as Hl.
  destruct (PopFrame b) as [[[f|] b']|] eqn:E; [| |done].
  - destruct (PopAll b') as [[fs1 r1]|] eqn:E1; [|done]. intros [= <- <-].
    eapply IH; [done| |done]. by apply (PopFrame_bytes _ _ _ Hb E).
  - intros [= <- <-]. by eapply PopFrame_wait_bytes.
Qed.

(** A frame such as the parser makes from bytes. *)
Definition frame_ok (f : ParsedFrame) : Prop :=
  bytes (pf_payload f) ∧ byte (pf_cnt f) ∧ (length (pf_payload f) <= 9 + 255 * 14)%nat.

Section receive.
Context {cfg S : Type} `{SerialPortLaws cfg S} {CBh CBr CBg : Type}.
Implicit Types s : MyFlyControl S CBh CBr CBg.

(** ** Dispatch *)

(** The heartbeat a frame carries, if it is one that decodes. *)
Definition frame_heartbeat (f : ParsedFrame) : option HeartbeatData :=
  if pf_frame_type f =? FRAME_TYPE_HEARTBEAT then
    match DecodeHeartbeat (pf_payload f) (with_hb_cnt (pf_cnt f)) with
    | Ret (true, hb) => Some hb
    | _ => None
    end
  else None.

(** [HandleFrame] always returns, and changes the heartbeat fields only. *)
Lemma HandleFrame_returns f s :
  frame_ok f →
  ∃ evs, HandleFrame f s = Ret (evs,
    match frame_heartbeat f with
    | Some hb => set_fc_has_hb true (set_fc_latest_hb hb s)
    | None => s
    end).
Proof.
  intros (Hb & Hc & Hl). unfold HandleFrame, frame_heartbeat.
  assert (Hl' : Z.of_nat (length (pf_payload f)) < 2 ^ 62) by lia.
  destruct (_ =? FRAME_TYPE_HEARTBEAT).
  { pose proof (DecodeHeartbeat_returns _ (with_hb_cnt (pf_cnt f)) Hb Hc Hl') as Hd.
    destruct (decide _); [rewrite Hd; by eexists|].
    destruct Hd as (hb & -> & _). by eexists. }
  destruct (_ =? FRAME_TYPE_REPLY).
  { match goal with |- context [DecodeCommandReply _ ?o] =>
      pose proof (DecodeCommandReply_returns _ o Hb Hc Hl') as Hd end.
    destruct (decide _); [rewrite Hd; by eexists|].
    destruct Hd as (x & -> & _). by eexists. }
  destruct (_ =? FRAME_TYPE_GIMBAL_CONTROL); [|by eexists].
  match goal with |- context [DecodeGimbalControl _ ?o] =>
    pose proof (DecodeGimbalControl_returns _ o Hb Hc Hl') as Hd end.
  destruct (decide _); [rewrite Hd; by eexists|].
  destruct Hd as (x & -> & _). by eexists.
Qed.

(** [HandleFrame] does not look at the port, the parser or the counter. *)
Lemma HandleFrame_frame f s evs s' b p :
  HandleFrame f s = Ret (evs, s') →
  HandleFrame f (set_fc_parser b (set_fc_serial p s)) =
    Ret (evs, set_fc_parser b (set_fc_serial p s')).
Proof.
  unfold HandleFrame. destruct (_ =? FRAME_TYPE_HEARTBEAT).
  { destruct (DecodeHeartbeat _ _) as [[[] hb]| |]; try done; by intros [= <- <-]. }
  destruct (_ =? FRAME_TYPE_REPLY).
  { destruct (DecodeCommandReply _ _) as [[[] x]| |]; try done; by intros [= <- <-]. }
  destruct (_ =? FRAME_TYPE_GIMBAL_CONTROL); [|by intros [= <- <-]].
  destruct (DecodeGimbalControl _ _) as [[[] x]| |]; try done; by intros [= <- <-].
Qed.

(** Handling a list of frames, those with a wrong checksum skipped. *)
Fixpoint handle_frames (fs : list ParsedFrame) s : outcome (list (event CBh CBr CBg) * MyFlyControl S CBh CBr CBg) :=
  match fs with
  | [] => Ret ([], s)
  | f :: fs =>
      if negb (pf_valid f) then handle_frames fs s
      else '(evs, s) ← HandleFrame f s; '(evs', s) ← handle_frames fs s; Ret (evs ++ evs', s)
  end.

Definition at_port (b : list Z) (p : S) s := set_fc_parser b (set_fc_serial p s).

Lemma handle_frames_returns fs s b p :
  Forall frame_ok fs →
  ∃ evs s', handle_frames fs s = Ret (evs, s') ∧
            handle_frames fs (at_port b p s) = Ret (evs, at_port b p s') ∧
            s' = set_fc_has_hb (fc_has_hb s') (set_fc_latest_hb (fc_latest_hb s') s).
Proof.
  intros Hfs. revert s. induction Hfs as [|f fs Hf _ IH]; intros s;
    [eexists _, _; split_and!; [done..|by destruct s]|].
  cbn [handle_frames]. destruct (negb _); [apply IH|].
  destruct (HandleFrame_returns f s Hf) as (evs & Hh).
  set (s1 := match frame_heartbeat f with Some _ => _ | None => s end) in *. rewrite Hh.
  unfold at_port. rewrite (HandleFrame_frame _ _ _ _ _ _ Hh). cbn [mbind outcome_bind].
  destruct (IH s1) as (evs' & s' & -> & Hat & Hs'). unfold at_port in Hat. rewrite Hat.
  eexists _, _. split_and!; [done..|]. rewrite Hs' at 1. subst s1. by destruct (frame_heartbeat f).
Qed.

Lemma handle_frames_app fs gs s :
  handle_frames (fs ++ gs) s =
    '(evs, s) ← handle_frames fs s; '(evs', s) ← handle_frames gs s; Ret (evs ++ evs', s).
Proof.
  revert s. induction fs as [|f fs IH]; intros s.
  { cbn. by destruct (handle_frames gs s) as [[]| |]. }
  cbn [handle_frames app]. destruct (negb _); [apply IH|].
  destruct (HandleFrame f s) as [[evs s1]| |]; cbn; try done. rewrite IH.
  destruct (handle_frames fs s1) as [[evs1 s2]| |]; cbn; try done.
  destruct (handle_frames gs s2) as [[evs2 s3]| |]; cbn; try done. by rewrite app_assoc.
Qed.

Lemma PopAll_frames_ok b fs r : bytes b → PopAll b = Some (fs, r) → Forall frame_ok fs.
Proof.
  revert fs r. induction b as [b IH] using buffer_ind. intros fs r Hb.
  rewrite PopAll_unfold. pose proof (PopFrame_length b) as Hl.
  destruct (PopFrame b) as [[[f|] b']|] eqn:E; [| |done].
  - destruct (PopAll b') as [[fs1 r1]|] eqn:E1; [|done]. intros [= <- <-].
    destruct (PopFrame_bytes _ _ _ Hb E) as (? & ? & ? & ? & ?). constructor; [done|by eapply IH].
  - by intros [= <- <-].
Qed.

(** ** The inner loop *)

Lemma drain_spec fuel s fs r :
  bytes (fc_parser s) → (length (fc_parser s) < fuel)%nat →
  PopAll (fc_parser s) = Some (fs, r) →
  drain fuel s = Some ('(evs, s') ← handle_frames fs s; Ret (evs, set_fc_parser r s')).
Proof.
  revert s fs r. induction fuel as [|fuel IH]; intros s fs r Hb Hf Hp; [lia|].
  cbn [drain]. rewrite PopAll_unfold in Hp. pose proof (PopFrame_length (fc_parser s)) as Hl.
  destruct (PopFrame (fc_parser s)) as [[[f|] b]|] eqn:E; [| |done].
  2: { injection Hp as <- <-. done. }
  destruct (PopAll b) as [[fs1 r1]|] eqn:E1; [|done]. injection Hp as <- <-.
  destruct (PopFrame_bytes _ _ _ Hb E) as (? & ? & ? & Hbb & ?).
  assert (Hok : Forall frame_ok fs1) by (by eapply PopAll_frames_ok).
  assert (Hset : ∀ s1, set_fc_parser r1 (set_fc_parser b s1) = set_fc_parser r1 s1) by done.
  assert (Hpar : ∀ s1, set_fc_parser b s1 = at_port b (fc_serial s1) s1) by (by intros []).
  cbn [handle_frames]. destruct (pf_valid f); cbn [negb].
  - destruct (HandleFrame_returns f s) as (evs & Hh); [done|]. rewrite Hh. cbn [mbind outcome_bind].
    set (s1 := match frame_heartbeat f with Some _ => _ | None => s end) in *.
    assert (Hser : fc_serial s1 = fc_serial s) by (subst s1; by destruct (frame_heartbeat f)).
    rewrite Hpar. unfold at_port. rewrite (HandleFrame_frame _ _ _ _ _ _ Hh).
    rewrite <- Hser. change (set_fc_parser b (set_fc_serial (fc_serial s1) s1)) with (at_port b (fc_serial s1) s1).
    rewrite (IH (at_port b (fc_serial s1) s1) fs1 r1); [|exact Hbb|simpl; lia|exact E1].
    destruct (handle_frames_returns fs1 s1 b (fc_serial s1) Hok) as (evs' & s' & -> & -> & ->).
    done.
  - rewrite (IH (set_fc_parser b s) fs1 r1); [|exact Hbb|simpl; lia|exact E1]. rewrite Hpar.
    destruct (handle_frames_returns fs1 s b (fc_serial s) Hok) as (evs' & s' & -> & -> & Hs'). cbn. by rewrite Hs'.
Qed.

(** ** The receive thread *)

(** What [n] reads of the port deliver, reads with an error skipped, and the
    port afterwards. *)
Fixpoint received (n : nat) (p : S) : list Z * S :=
  match n with
  | O => ([], p)
  | Datatypes.S n =>
      let '(bs, err, p) := sp_ReadBytes READ_BUF_SIZE (Some "") p in
      let '(rest, p) := received n p in
      ((if bool_decide (err = Some "") then bs else []) ++ rest, p)
  end.

Lemma received_bytes n p : bytes (received n p).1.
Proof.
  revert p. induction n as [|n IH]; intros p; cbn [received]; [constructor|].
  destruct (sp_ReadBytes _ _ p) as [[bs err] p'] eqn:E. specialize (IH p').
  destruct (received n p') as [rest p'']. cbn in *. apply Forall_app. split; [|done].
  case_bool_decide; [|constructor]. subst err. by apply (sp_ReadBytes_ok _ _ _ _ E).
Qed.

Lemma ReceiveLoop_iter_spec s fs r bs p :
  fc_running s = true → bytes (fc_parser s) → drained (fc_parser s) →
  received 1 (fc_serial s) = (bs, p) →
  PopAll (fc_parser s ++ bs) = Some (fs, r) →
  ReceiveLoop_iter s = Some ('(evs, s') ← handle_frames fs s; Ret (evs, at_port r p s')).
Proof.
  intros Hrun Hb Hd Hrec Hp. cbn [received] in Hrec.
  pose proof (received_bytes 1 (fc_serial s)) as Hbs. cbn [received] in Hbs.
  unfold ReceiveLoop_iter. rewrite Hrun. cbn [negb].
  destruct (sp_ReadBytes _ _ (fc_serial s)) as [[bs' err] p'] eqn:E.
  rewrite app_nil_r in Hrec, Hbs. injection Hrec as <- <-. cbn [fst] in Hbs.
  assert (Hnone : ∀ s0 : MyFlyControl S CBh CBr CBg, fc_serial s0 = p' → at_port (fc_parser s0) p' s0 = s0)
    by (by intros [] <-).
  assert (Hempty : PopAll (fc_parser s ++ []) = Some (fs, r) →
    Some (Ret ([], set_fc_serial p' s)) =
    Some ('(evs, s') ← handle_frames fs s; Ret (evs, at_port r p' s'))).
  { rewrite app_nil_r, Hd. by intros [= <- <-]. }
  case_bool_decide as He; cbn [negb]; [|by apply Hempty].
  destruct bs' as [|x bs']; [by apply Hempty|]. clear Hempty.
  set (bs := x :: bs') in *. rewrite FeedData_app.
  set (s1 := set_fc_parser (fc_parser (set_fc_serial p' s) ++ bs) (set_fc_serial p' s)).
  assert (Hb1 : bytes (fc_parser s1)) by (apply Forall_app; by split).
  rewrite (drain_spec _ s1 fs r Hb1); [|lia|exact Hp].
  assert (Hok : Forall frame_ok fs) by (eapply PopAll_frames_ok; [exact Hb1|exact Hp]).
  change s1 with (at_port (fc_parser s ++ bs) p' s).
  destruct (handle_frames_returns fs s (fc_parser s ++ bs) p' Hok) as (evs & s' & -> & -> & Hs').
  cbn. by rewrite Hs'.
Qed.

Lemma ReceiveLoop_spec n s fs r bs p :
  fc_running s = true → bytes (fc_parser s) → drained (fc_parser s) →
  received n (fc_serial s) = (bs, p) →
  PopAll (fc_parser s ++ bs) = Some (fs, r) →
  ReceiveLoop n s = Some ('(evs, s') ← handle_frames fs s; Ret (evs, at_port r p s')).
Proof.
  revert s fs r bs p. induction n as [|n IH]; intros s fs r bs p Hrun Hb Hd Hrec Hp.
  { injection Hrec as <- <-. rewrite app_nil_r, Hd in Hp. injection Hp as <- <-. by destruct s. }
  cbn [ReceiveLoop]. rewrite Hrun. cbn [negb].
  destruct (received 1 (fc_serial s)) as [bs1 p1] eqn:E1.
  assert (Hsplit : ∃ bs2, received n p1 = (bs2, p) ∧ bs = bs1 ++ bs2).
  { cbn [received] in E1, Hrec. destruct (sp_ReadBytes _ _ _) as [[b1 e1] q1].
    injection E1 as <- <-. destruct (received n q1) as [rest q2]. injection Hrec as <- <-.
    exists rest. by rewrite app_nil_r. }
  destruct Hsplit as (bs2 & E2 & ->).
  assert (Hbs1 : bytes bs1) by (pose proof (received_bytes 1 (fc_serial s)) as Hx; by rewrite E1 in Hx).
  destruct (PopAll_total (fc_parser s ++ bs1)) as (fs1 & r1 & Hp1).
  rewrite (ReceiveLoop_iter_spec s fs1 r1 bs1 p1) by done.
  assert (Hb1 : bytes (fc_parser s ++ bs1)) by (apply Forall_app; by split).
  assert (Hok1 : Forall frame_ok fs1) by (by eapply PopAll_frames_ok).
  destruct (handle_frames_returns fs1 s r1 p1 Hok1) as (evs1 & s1 & Hh1 & Hh1' & Hs1).
  rewrite Hh1. cbn [mbind outcome_bind].
  rewrite app_assoc, (PopAll_app _ _ _ _ Hp1) in Hp.
  destruct (PopAll (r1 ++ bs2)) as [[fs2 r2]|] eqn:Hp2; [|done]. injection Hp as <- <-.
  assert (Hr1 : bytes r1) by (by eapply PopAll_bytes).
  assert (Hrun1 : fc_running s1 = true) by (by rewrite Hs1).
  rewrite (IH (at_port r1 p1 s1) fs2 r2 bs2 p) by (done || by eapply PopAll_rest).
  assert (Hok2 : Forall frame_ok fs2).
  { eapply PopAll_frames_ok; [|exact Hp2]. apply Forall_app. split; [done|].
    pose proof (received_bytes n p1) as Hx. by rewrite E2 in Hx. }
  rewrite handle_frames_app, Hh1. cbn [mbind outcome_bind].
  destruct (handle_frames_returns fs2 s1 r1 p1 Hok2) as (evs2 & s2 & -> & -> & Hs2).
  cbn. by rewrite Hs2.
Qed.

End receive.

(** ** What the frames of a stream amount to *)

Section effect.
Context {cfg S : Type} `{SerialPortLaws cfg S} {CBh CBr CBg : Type}.
Implicit Types s : MyFlyControl S CBh CBr CBg.

Definition frame_reply (f : ParsedFrame) : option CommandReplyData :=
  match DecodeCommandReply (pf_payload f)
          {| cr_cnt := pf_cnt f; cr_replied_cmd := 0; cr_result := 0 |} with
  | Ret (true, x) => Some x
  | _ => None
  end.

Definition frame_gimbal (f : ParsedFrame) : option GimbalControlData :=
  match DecodeGimbalControl (pf_payload f)
          {| gc_cnt := pf_cnt f; gc_enable := 0; gc_pitch_angle := 0; gc_yaw_angle := 0 |} with
  | Ret (true, x) => Some x
  | _ => None
  end.

(** The callback calls a frame causes. *)
Definition frame_events s (f : ParsedFrame) : list (event CBh CBr CBg) :=
  if pf_frame_type f =? FRAME_TYPE_HEARTBEAT then
    match frame_heartbeat f with Some x => call on_heartbeat_ (fc_on_heartbeat s) x | None => [] end
  else if pf_frame_type f =? FRAME_TYPE_REPLY then
    match frame_reply f with Some x => call on_reply_ (fc_on_reply s) x | None => [] end
  else if pf_frame_type f =? FRAME_TYPE_GIMBAL_CONTROL then
    match frame_gimbal f with Some x => call on_gimbal_ (fc_on_gimbal s) x | None => [] end
  else [].

Definition valid_frames (fs : list ParsedFrame) : list ParsedFrame :=
  filter (λ f, pf_valid f = true) fs.

Definition heartbeats (fs : list ParsedFrame) : list HeartbeatData :=
  omap frame_heartbeat (valid_frames fs).

(** The state with the effect of the heartbeats. *)
Definition take_heartbeats (hbs : list HeartbeatData) s : MyFlyControl S CBh CBr CBg :=
  set_fc_has_hb (fc_has_hb s || negb (bool_decide (hbs = [])))
    (set_fc_latest_hb (default (fc_latest_hb s) (last hbs)) s).

Lemma HandleFrame_effect f s :
  frame_ok f →
  HandleFrame f s = Ret (frame_events s f,
    match frame_heartbeat f with
    | Some hb => set_fc_has_hb true (set_fc_latest_hb hb s)
    | None => s
    end).
Proof.
  intros Hf. destruct (HandleFrame_returns f s Hf) as (evs & Hh). rewrite Hh. do 2 f_equal.
  unfold HandleFrame in Hh. unfold frame_events, frame_reply, frame_gimbal.
  unfold frame_heartbeat in *. destruct (_ =? FRAME_TYPE_HEARTBEAT).
  { destruct (DecodeHeartbeat _ _) as [[[] hb]| |]; cbn in Hh; congruence. }
  destruct (_ =? FRAME_TYPE_REPLY).
  { cbn [CommandReplyData_default cr_replied_cmd cr_result] in Hh.
    destruct (DecodeCommandReply _ _) as [[[] x]| |]; cbn in Hh; congruence. }
  destruct (_ =? FRAME_TYPE_GIMBAL_CONTROL); [|congruence].
  cbn [GimbalControlData_default gc_enable gc_pitch_angle gc_yaw_angle] in Hh.
  destruct (DecodeGimbalControl _ _) as [[[] x]| |]; cbn in Hh; congruence.
Qed.

Lemma take_heartbeats_cons hb hbs s :
  take_heartbeats hbs (set_fc_has_hb true (set_fc_latest_hb hb s)) = take_heartbeats (hb :: hbs) s.
Proof.
  unfold take_heartbeats, set_fc_has_hb, set_fc_latest_hb. cbn. f_equal.
  - rewrite last_cons. by destruct (last hbs).
  - by destruct (fc_has_hb s).
Qed.

Lemma take_heartbeats_nil s : take_heartbeats [] s = s.
Proof. destruct s. unfold take_heartbeats, set_fc_has_hb; cbn. by rewrite orb_false_r. Qed.

Lemma handle_frames_effect fs s :
  Forall frame_ok fs →
  handle_frames fs s =
    Ret (concat (map (frame_events s) (valid_frames fs)), take_heartbeats (heartbeats fs) s).
Proof.
  intros Hfs. revert s. induction Hfs as [|f fs Hf _ IH]; intros s.
  { cbn. by rewrite take_heartbeats_nil. }
  cbn [handle_frames]. unfold heartbeats, valid_frames. rewrite filter_cons.
  destruct (pf_valid f); cbn [negb].
  2: { rewrite IH. by rewrite decide_False by done. }
  rewrite decide_True by done. rewrite HandleFrame_effect by done. cbn [mbind outcome_bind].
  rewrite IH. cbn [mbind outcome_bind omap list_omap map concat].
  destruct (frame_heartbeat f) as [hb|]; [by rewrite take_heartbeats_cons|done].
Qed.

End effect.

(** C3: the receive thread, run for any number of iterations from a running
    driver, never throws and never reads out of range, and what it does depends
    only on the bytes received, not on how the port cut them into reads or on
    failed reads in between: the callbacks called are those of the valid frames
    of the stream, in order, the latest heartbeat is the last valid one that
    decodes, and the bytes kept are the incomplete rest. *)
Theorem ReceiveLoop_stream {cfg S} `{SerialPortLaws cfg S} {CBh CBr CBg}
    n (s : MyFlyControl S CBh CBr CBg) bs p :
  fc_running s = true → bytes (fc_parser s) → drained (fc_parser s) →
  received n (fc_serial s) = (bs, p) →
  ∃ fs rest,
    PopAll (fc_parser s ++ bs) = Some (fs, rest) ∧ drained rest ∧
    ReceiveLoop n s =
      Some (Ret (concat (map (frame_events s) (valid_frames fs)),
                 at_port rest p (take_heartbeats (heartbeats fs) s))).
Proof.
  intros Hrun Hb Hd Hrec. destruct (PopAll_total (fc_parser s ++ bs)) as (fs & r & Hp).
  exists fs, r. split_and!; [done|by eapply PopAll_rest|].
  assert (Hbs : bytes (fc_parser s ++ bs)).
  { apply Forall_app. split; [done|].
    pose proof (received_bytes n (fc_serial s)) as Hx. by rewrite Hrec in Hx. }
  rewrite (ReceiveLoop_spec n s fs r bs p) by done.
  rewrite handle_frames_effect by (by eapply PopAll_frames_ok). done.
Qed.

(** A driver over the loopback device with a stream waiting in its receiver. *)
Definition waiting_driver (rx : list Z) : MyFlyControl (MySerial loopback) nat nat nat := {|
  fc_serial := {| initialized_ := true; last_error_ := ""; options_ := SerialInitOptions_default;
                  serial_ := Some {| lb_open := true; lb_sent := []; lb_rx := rx; lb_broken := false |} |};
  fc_parser := []; fc_running := true; fc_recv_thread := true;
  fc_latest_hb := HeartbeatData_default; fc_has_hb := false; fc_cnt := 0;
  fc_on_heartbeat := None; fc_on_reply := Some 7%nat; fc_on_gimbal := None |}.

Lemma ReceiveLoop_stream_witness :
  ∃ s', ReceiveLoop 3 (waiting_driver ([1; 2] ++ BuildFrame 9 FRAME_TYPE_REPLY [4; 0] ++ [0xEB; 0x90]))
    = Some (Ret ([on_reply_ 7%nat {| cr_cnt := 9; cr_replied_cmd := 4; cr_result := 0 |}], s')) ∧
    fc_parser s' = [0xEB; 0x90].
Proof.
  set (s := waiting_driver _).
  destruct (received 3 (fc_serial s)) as [bs p] eqn:Hr.
  destruct (ReceiveLoop_stream 3 s bs p) as (fs & rest & Hp & _ & Hl);
    [reflexivity|constructor|reflexivity|exact Hr|].
  rewrite Hl. vm_compute in Hr. injection Hr as <- <-.
  vm_compute in Hp. injection Hp as <- <-. eexists. split; reflexivity.
Defined.

(** ** Requests *)

(** A call of one of the sixteen send functions. *)
Inductive request :=
| rq_SetDestination (lon lat alt : Z)
| rq_SetRoute (points : list RoutePoint)
| rq_SetAngle (pitch yaw : Z)
| rq_SetSpeed (speed : Z)
| rq_SetAltitude (alt_type altitude : Z)
| rq_PowerSwitch (command : Z)
| rq_Parachute (parachute_type : Z)
| rq_ButtonCommand (button : Z)
| rq_SetOriginReturn (point_type lon lat alt : Z)
| rq_SetGeofence (points : list GeofencePoint)
| rq_SwitchMode (mode : Z)
| rq_Guidance (data : GuidanceData)
| rq_GuidanceNew (data : GuidanceNewData)
| rq_GimbalAngRate (data : GimbalAngRateData)
| rq_GimbalAngle (data : GimbalAngleData)
| rq_TargetState (data : TargetStateData).

(** The command a request asks for; [None] for a refused number of points. *)
Definition request_command (r : request) : option command :=
  match r with
  | rq_SetDestination lon lat alt => Some (CSetDestination (mkSetDestinationData 0x01 lon lat alt))
  | rq_SetRoute points =>
      if decide (1 <= length points <= 50)%nat then Some (CSetRoute (mkSetRouteData 0x02 points))
      else None
  | rq_SetAngle pitch yaw => Some (CSetAngle (mkSetAngleData 0x03 pitch yaw))
  | rq_SetSpeed speed => Some (CSetSpeed (mkSetSpeedData 0x04 speed))
  | rq_SetAltitude t a => Some (CSetAltitude (mkSetAltitudeData 0x05 t a))
  | rq_PowerSwitch c => Some (CPowerSwitch (mkPowerSwitchData 0x06 c))
  | rq_Parachute t => Some (CParachute (mkParachuteData 0x07 t))
  | rq_ButtonCommand b => Some (CButtonCommand (mkButtonCommandData CMD_BUTTON b))
  | rq_SetOriginReturn t lon lat alt =>
      Some (CSetOriginReturn (mkSetOriginReturnData CMD_SET_ORIGIN_RETURN t lon lat alt))
  | rq_SetGeofence points =>
      if decide (3 <= length points <= 50)%nat
      then Some (CSetGeofence (mkSetGeofenceData CMD_SET_GEOFENCE points)) else None
  | rq_SwitchMode m => Some (CSwitchMode (mkSwitchModeData CMD_SWITCH_MODE m))
  | rq_Guidance d => Some (CGuidance d)
  | rq_GuidanceNew d => Some (CGuidanceNew d)
  | rq_GimbalAngRate d => Some (CGimbalAngRate d)
  | rq_GimbalAngle d => Some (CGimbalAngle d)
  | rq_TargetState d => Some (CTargetState d)
  end.

Definition refusal (r : request) : string :=
  match r with rq_SetGeofence _ => "电子围栏点数量必须在 3~50 之间" | _ => "航线点数量必须在 1~50 之间" end.

(** The arguments are in the ranges of their types. *)
Definition request_ok (r : request) : Prop :=
  match request_command r with Some c => command_ok c | None => True end.

Section send.
Context {cfg S : Type} `{SerialPortLaws cfg S} {CBh CBr CBg : Type}.
Implicit Types s : MyFlyControl S CBh CBr CBg.

Definition run_request (r : request) (err : option string) s :=
  match r with
  | rq_SetDestination lon lat alt => SendSetDestination lon lat alt err s
  | rq_SetRoute points => SendSetRoute points err s
  | rq_SetAngle pitch yaw => SendSetAngle pitch yaw err s
  | rq_SetSpeed speed => SendSetSpeed speed err s
  | rq_SetAltitude t a => SendSetAltitude t a err s
  | rq_PowerSwitch c => SendPowerSwitch c err s
  | rq_Parachute t => SendParachute t err s
  | rq_ButtonCommand b => SendButtonCommand b err s
  | rq_SetOriginReturn t lon lat alt => SendSetOriginReturn t lon lat alt err s
  | rq_SetGeofence points => SendSetGeofence points err s
  | rq_SwitchMode m => SendSwitchMode m err s
  | rq_Guidance d => SendGuidance d err s
  | rq_GuidanceNew d => SendGuidanceNew d err s
  | rq_GimbalAngRate d => SendGimbalAngRate d err s
  | rq_GimbalAngle d => SendGimbalAngle d err s
  | rq_TargetState d => SendTargetState d err s
  end.

(** All sixteen are the same: number, encode, write; or refuse. *)
Lemma run_request_spec r err s :
  run_request r err s =
  match request_command r with
  | Some c => SendRawData (encode_command (fc_cnt s) c) err (set_fc_cnt (wrapu 8 (fc_cnt s + 1)) s)
  | None => (false, set_err err (refusal r), s)
  end.
Proof.
  destruct r as [| points | | | | | | | | points | | | | | |]; try reflexivity; cbn [run_request request_command].
  - unfold SendSetRoute. destruct (decide _).
    + by replace (_ || _) with false by lia.
    + by replace (_ || _) with true by lia.
  - unfold SendSetGeofence. destruct (decide _).
    + by replace (_ || _) with false by lia.
    + by replace (_ || _) with true by lia.
Qed.

(** What a write leaves on the wire. *)
Lemma SendRawData_wire data err s ok err' s' :
  SendRawData data err s = (ok, err', s') →
  ∃ k p, (k <= length data)%nat ∧ sp_sent p = sp_sent (fc_serial s) ++ take k data ∧
         s' = set_fc_serial p s ∧ (ok = true → k = length data).
Proof.
  unfold SendRawData. destruct (sp_Write data err (fc_serial s)) as [[w e] p] eqn:E.
  intros [= <- <- <-]. destruct (sp_Write_sent _ _ _ _ _ _ E) as (k & Hk & Hs).
  exists k, p. split_and!; [lia|done|done|]. intros Hw%Nat.eqb_eq. lia.
Qed.

Definition run_session (rs : list (request * option string)) s : list bool * MyFlyControl S CBh CBr CBg :=
  foldl (λ '(oks, s) '(r, err), let '(ok, _, s) := run_request r err s in (oks ++ [ok], s)) ([], s) rs.

Lemma run_session_from rs oks s :
  foldl (λ '(oks, s) '(r, err), let '(ok, _, s) := run_request r err s in (oks ++ [ok], s)) (oks, s) rs
  = (oks ++ (run_session rs s).1, (run_session rs s).2).
Proof.
  unfold run_session. revert oks s. induction rs as [|[r err] rs IH]; intros oks s.
  { cbn. by rewrite app_nil_r. }
  cbn [foldl]. destruct (run_request r err s) as [[ok e] s1]. rewrite IH, (IH ([] ++ [ok])).
  cbn [fst snd app]. by rewrite <- app_assoc.
Qed.

Lemma run_session_cons r err rs s :
  run_session ((r, err) :: rs) s =
    let '(ok, _, s1) := run_request r err s in
    (ok :: (run_session rs s1).1, (run_session rs s1).2).
Proof.
  unfold run_session at 1. cbn [foldl]. destruct (run_request r err s) as [[ok e] s1].
  by rewrite run_session_from.
Qed.

(** The frames of a list of commands numbered from [c]. *)
Fixpoint numbered (c : Z) (cmds : list command) : list (Z * command) :=
  match cmds with
  | [] => []
  | d :: cmds => (c, d) :: numbered (wrapu 8 (c + 1)) cmds
  end.

Lemma session_wire rs s :
  Forall (λ r, request_ok r.1) rs →
  (run_session rs s).1 = map (λ r, bool_decide (is_Some (request_command r.1))) rs →
  let cmds := omap (λ r, request_command r.1) rs in
  Forall command_ok cmds ∧
  sp_sent (fc_serial (run_session rs s).2) =
    sp_sent (fc_serial s) ++ concat (map (λ '(n, c), encode_command n c) (numbered (fc_cnt s) cmds)).
Proof.
  intros Hok. revert s. induction Hok as [|[r err] rs Hr _ IH]; intros s;
    [split; [constructor|by rewrite app_nil_r]|].
  rewrite run_session_cons. destruct (run_request r err s) as [[ok e] s1] eqn:E.
  rewrite run_request_spec in E. cbn [fst snd map omap list_omap] in *. unfold request_ok in Hr.
  destruct (request_command r) as [c|].
  - intros Hres. pose proof (f_equal head Hres) as Ht. pose proof (f_equal tail Hres) as Hrest.
    cbn in Ht, Hrest. injection Ht as ->. destruct (IH s1 Hrest) as [Hc Hw].
    destruct (SendRawData_wire _ _ _ _ _ _ E) as (k & p & _ & Hs & -> & Hk).
    specialize (Hk eq_refl). subst k.
    rewrite firstn_all in Hs. split; [by constructor|].
    cbn in Hw |- *. by rewrite Hw, Hs, <- app_assoc.
  - injection E as <- <- <-. intros Hres. pose proof (f_equal tail Hres) as Hrest. cbn in Hrest.
    by apply IH.
Qed.

Lemma PopAll_commands l :
  Forall command_ok (snd <$> l) →
  PopAll (concat (map (λ '(n, c), encode_command n c) l)) =
    Some (map (λ '(n, c), command_frame n c) l, []).
Proof.
  induction l as [|[n c] l IH]; intros Hok; [reflexivity|].
  apply Forall_cons in Hok as [Hc Hok]. cbn [map concat].
  by rewrite PopAll_unfold, PopFrame_command, IH.
Qed.

Lemma numbered_commands c cmds : snd <$> numbered c cmds = cmds.
Proof.
  revert c. induction cmds as [|d cmds IH]; intros c; [done|]. cbn. f_equal. apply IH.
Qed.

Lemma numbered_imap c cmds :
  inu 8 c → numbered c cmds = imap (λ i d, ((c + Z.of_nat i) mod 256, d)) cmds.
Proof.
  revert c. induction cmds as [|d cmds IH]; intros c Hc; [done|]. cbn [numbered imap].
  unfold inu in Hc. f_equal; [f_equal; symmetry; rewrite Z.add_0_r; apply Z.mod_small; lia|].
  rewrite IH by (apply inu_wrapu; lia). apply imap_ext. intros i x _. cbn. f_equal.
  unfold wrapu. change (2 ^ 8) with 256. rewrite Zplus_mod_idemp_l. f_equal. lia.
Qed.

Lemma session_counter rs s :
  inu 8 (fc_cnt s) →
  fc_cnt (run_session rs s).2 = (fc_cnt s + Z.of_nat (length (omap (λ r, request_command r.1) rs))) mod 256.
Proof.
  revert s. induction rs as [|[r err] rs IH]; intros s Hs.
  { cbn. rewrite Z.add_0_r. symmetry. apply Z.mod_small. exact Hs. }
  rewrite run_session_cons. destruct (run_request r err s) as [[ok e] s1] eqn:E.
  rewrite run_request_spec in E. cbn [snd omap list_omap fst]. destruct (request_command r) as [c|].
  - destruct (SendRawData_wire _ _ _ _ _ _ E) as (k & p & _ & _ & -> & _).
    rewrite IH by (apply inu_wrapu; lia). cbn [fc_cnt set_fc_serial set_fc_cnt length].
    unfold wrapu. change (2 ^ 8) with 256. rewrite Zplus_mod_idemp_l. f_equal. cbn. lia.
  - injection E as <- <- <-. by apply IH.
Qed.

End send.

(** C2: a session of send requests, over a port that takes whole writes: the
    bytes put on the wire, received in reads of any sizes, are parsed into exactly
    the commands of the requests that passed the point-count guards, in order, with
    the counters consecutive modulo 256 from the driver's counter, which is left
    after the last of them, and with nothing left over; a refused request sends
    nothing and uses no number. *)
Theorem send_session {cfg S} `{SerialPortLaws cfg S} {CBh CBr CBg} rs
    (s : MyFlyControl S CBh CBr CBg) :
  Forall (λ r, request_ok r.1) rs →
  (run_session rs s).1 = map (λ r, bool_decide (is_Some (request_command r.1))) rs →
  inu 8 (fc_cnt s) →
  let cmds := omap (λ r, request_command r.1) rs in
  let frame i c := command_frame ((fc_cnt s + Z.of_nat i) mod 256) c in
  ∃ wire,
    sp_sent (fc_serial (run_session rs s).2) = sp_sent (fc_serial s) ++ wire ∧
    fc_cnt (run_session rs s).2 = (fc_cnt s + Z.of_nat (length cmds)) mod 256 ∧
    ∀ c chunks, concat (c :: chunks) = wire →
      FeedAndPop [] (c :: chunks) = Some (imap frame cmds, []).
Proof.
  intros Hok Hres Hn cmds frame. destruct (session_wire rs s Hok Hres) as [Hc Hw].
  eexists. split; [exact Hw|]. split; [by apply session_counter|].
  intros c chunks Hcat. rewrite FeedAndPop_PopAll. cbn [app]. cbn [concat] in Hcat. rewrite Hcat.
  rewrite PopAll_commands by (by rewrite numbered_commands). do 2 f_equal.
  rewrite numbered_imap by done. by apply list_eq; intros i; rewrite list_lookup_fmap, !list_lookup_imap, <- option_fmap_compose.
Qed.

Lemma send_session_witness :
  let s := set_fc_cnt 255 (waiting_driver []) in
  let rs := [(rq_SetSpeed 1500, Some ""); (rq_SetRoute [], None); (rq_Parachute 1, None)] in
  ∃ wire,
    sp_sent (fc_serial (run_session rs s).2) = sp_sent (fc_serial s) ++ wire ∧
    fc_cnt (run_session rs s).2 = 1 ∧
    FeedAndPop [] [take 3 wire; drop 3 wire] =
      Some ([command_frame 255 (CSetSpeed (mkSetSpeedData 4 1500));
             command_frame 0 (CParachute (mkParachuteData 7 1))], []).
Proof.
  intros s rs. destruct (send_session rs s) as (wire & Hw & Hc & Hp).
  - repeat apply Forall_cons_2; try apply Forall_nil_2; unfold request_ok; cbn; try done;
      (split; [reflexivity|]); unfold SetSpeedData_ok, ParachuteData_ok, inu; cbn; lia.
  - reflexivity.
  - unfold inu; cbn; lia.
  - exists wire. split; [exact Hw|]. split; [exact Hc|]. apply Hp. cbn [concat]. by rewrite app_nil_r, take_drop.
Defined.

(** A single request, on every branch.  Refused: nothing is written, the
    state is unchanged and the error text says why.  Otherwise the counter
    advances by one modulo 256 even when the write fails, nothing but the port
    and the counter changes, the wire gets a prefix of the encoded frame, and
    [true] means the whole frame. *)
Theorem request_spec {cfg S} `{SerialPortLaws cfg S} {CBh CBr CBg} r err
    (s : MyFlyControl S CBh CBr CBg) ok err' s' :
  run_request r err s = (ok, err', s') →
  match request_command r with
  | None => ok = false ∧ s' = s ∧ err' = set_err err (refusal r)
  | Some c =>
      ∃ k p, s' = set_fc_serial p (set_fc_cnt (wrapu 8 (fc_cnt s + 1)) s) ∧
             sp_sent p = sp_sent (fc_serial s) ++ take k (encode_command (fc_cnt s) c) ∧
             (ok = true → k = length (encode_command (fc_cnt s) c))
  end.
Proof.
  rewrite run_request_spec. destruct (request_command r) as [c|]; [|by intros [= <- <- <-]].
  intros Hs. destruct (SendRawData_wire _ _ _ _ _ _ Hs) as (k & p & _ & Hw & -> & Hk).
  by exists k, p.
Qed.

Lemma request_spec_witness :
  ∃ s', run_request (rq_SetGeofence []) (Some "") (waiting_driver []) =
          (false, Some "电子围栏点数量必须在 3~50 之间", s') ∧ s' = waiting_driver [].
Proof.
  eexists. split; [reflexivity|].
  by destruct (request_spec (rq_SetGeofence []) (Some "") (waiting_driver []) _ _ _ eq_refl)
    as (_ & Hs & _).
Defined.

(** ** Life cycle *)


Section life.
Context {cfg S : Type} `{SerialPortLaws cfg S} {CBh CBr CBg : Type}.
Implicit Types s : MyFlyControl S CBh CBr CBg.

(** One step of the driver: a call by the application, or an iteration of the
    receive thread while it exists. *)
Inductive driver_step : MyFlyControl S CBh CBr CBg → MyFlyControl S CBh CBr CBg → Prop :=
| step_Init c err s : driver_step s (MyFlyControl.Init c err s).2
| step_Start err s : driver_step s (Start err s).2
| step_Stop s : driver_step s (Stop s).2
| step_SetOnHeartbeat cb s : driver_step s (SetOnHeartbeat cb s)
| step_SetOnCommandReply cb s : driver_step s (SetOnCommandReply cb s)
| step_SetOnGimbalControl cb s : driver_step s (SetOnGimbalControl cb s)
| step_Send r err s : driver_step s (run_request r err s).2
| step_Receive s evs s' : ReceiveLoop_iter s = Some (Ret (evs, s')) → driver_step s s'.

(** The driver's invariant: the thread exists exactly while running, the
    parser holds bytes with no frame left in them, the counter and the latest
    heartbeat are in range, and before the first heartbeat it is the default
    one. *)
Record driver_wf s : Prop := {
  wf_thread : fc_recv_thread s = fc_running s;
  wf_bytes : bytes (fc_parser s);
  wf_drained : drained (fc_parser s);
  wf_cnt : byte (fc_cnt s);
  wf_hb : HeartbeatData_ok (fc_latest_hb s);
  wf_no_hb : fc_has_hb s = false → fc_latest_hb s = HeartbeatData_default
}.

Lemma HeartbeatData_default_ok : HeartbeatData_ok HeartbeatData_default.
Proof. unfold HeartbeatData_ok, inu, ins. cbn. lia. Qed.

Lemma driver_wf_init : driver_wf MyFlyControl_default.
Proof. split; cbn; try done; try apply HeartbeatData_default_ok; constructor. Qed.

Lemma frame_heartbeat_ok f hb :
  frame_ok f → frame_heartbeat f = Some hb → HeartbeatData_ok hb.
Proof.
  intros (Hb & Hc & Hl). unfold frame_heartbeat. destruct (_ =? _); [|done].
  pose proof (DecodeHeartbeat_returns _ (with_hb_cnt (pf_cnt f)) Hb Hc ltac:(lia)) as Hd.
  destruct (decide _); [by rewrite Hd|].
  destruct Hd as (x & -> & Hx & _). by intros [= <-].
Qed.

Lemma heartbeats_ok fs : Forall frame_ok fs → Forall HeartbeatData_ok (heartbeats fs).
Proof.
  intros Hfs. apply Forall_forall. intros hb (f & Hin & Hf)%list_elem_of_omap.
  unfold valid_frames in Hin. apply list_elem_of_filter in Hin as [_ Hin].
  rewrite Forall_forall in Hfs. by eapply frame_heartbeat_ok; [apply Hfs|].
Qed.

Lemma take_heartbeats_wf fs s b p :
  Forall frame_ok fs → bytes b → drained b → driver_wf s →
  driver_wf (at_port b p (take_heartbeats (heartbeats fs) s)).
Proof.
  intros Hfs Hb Hd Hs. pose proof (heartbeats_ok fs Hfs) as Hh.
  split; cbn; try done; try apply Hs.
  - destruct (last (heartbeats fs)) as [hb|] eqn:E; [|apply Hs]. cbn.
    apply last_Some_elem_of in E. by eapply Forall_forall in Hh.
  - intros [Hn Hd']%orb_false_elim. apply negb_false_iff, bool_decide_eq_true in Hd' as ->.
    by apply (wf_no_hb s Hs).
Qed.

(** An iteration of a well-formed running driver returns, and keeps it so. *)
Lemma ReceiveLoop_iter_wf s :
  driver_wf s → fc_running s = true →
  ∃ evs s', ReceiveLoop_iter s = Some (Ret (evs, s')) ∧ driver_wf s' ∧ fc_running s' = true.
Proof.
  intros Hs Hrun. destruct (received 1 (fc_serial s)) as [bs p] eqn:Hr.
  assert (Hbs : bytes (fc_parser s ++ bs)).
  { apply Forall_app. split; [apply Hs|].
    pose proof (received_bytes 1 (fc_serial s)) as Hx. by rewrite Hr in Hx. }
  destruct (PopAll_total (fc_parser s ++ bs)) as (fs & r & Hp).
  rewrite (ReceiveLoop_iter_spec s fs r bs p) by (done || apply Hs).
  assert (Hok : Forall frame_ok fs) by (by eapply PopAll_frames_ok).
  rewrite handle_frames_effect by done. cbn [mbind outcome_bind].
  eexists _, _. split_and!; [done| |done].
  apply take_heartbeats_wf; [done|by eapply PopAll_bytes|by eapply PopAll_rest|done].
Qed.

Lemma driver_wf_serial p s : driver_wf s → driver_wf (set_fc_serial p s).
Proof. intros []; by split. Qed.

Lemma driver_wf_step s s' : driver_wf s → driver_step s s' → driver_wf s'.
Proof.
  intros Hs Hstep. destruct Hstep as [c err s|err s|s|cb s|cb s|cb s|r err s|s evs s' Hit].
  - unfold MyFlyControl.Init. destruct (sp_Init c err _) as [[ok e] p]. by apply driver_wf_serial.
  - unfold Start. destruct (fc_running s) eqn:Hrun; [done|].
    destruct (negb (sp_IsOpen _)); [destruct (sp_Open err _) as [[[] e] p]|]; cbn.
    2: by apply driver_wf_serial.
    all: destruct Hs; split; cbn; try done; constructor.
  - unfold Stop. destruct (fc_running s) eqn:Hrun; [cbn|done].
    destruct (sp_Close _) as [r p]. destruct Hs. by split.
  - destruct Hs; by split.
  - destruct Hs; by split.
  - destruct Hs; by split.
  - rewrite run_request_spec. destruct (request_command r) as [c|]; [|done].
    unfold SendRawData. destruct (sp_Write _ _ _) as [[w e] p]. destruct Hs. split; cbn; try done.
    by apply inu_wrapu.
  - assert (Hrun : fc_running s = true).
    { unfold ReceiveLoop_iter in Hit. by destruct (fc_running s). }
    destruct (ReceiveLoop_iter_wf s Hs Hrun) as (evs' & s2 & Hit' & Hw & _).
    rewrite Hit in Hit'. by injection Hit' as _ ->.
Qed.

End life.

(** In every state the driver can reach from construction, by any calls
    of the application interleaved with iterations of the receive thread, the
    thread exists exactly while the driver runs, the counter and the latest
    heartbeat are in range, the heartbeat is the default one until the first
    is received, and, while running, the next iteration of the receive thread
    returns normally: no input makes it throw, read out of range or loop. *)
Theorem driver_reachable_safe {cfg S} `{SerialPortLaws cfg S} {CBh CBr CBg}
    (s : MyFlyControl S CBh CBr CBg) :
  rtc driver_step MyFlyControl_default s →
  driver_wf s ∧
  (fc_running s = true →
   ∃ evs s', ReceiveLoop_iter s = Some (Ret (evs, s')) ∧ driver_step s s').
Proof.
  intros Hr.
  assert (Hs : driver_wf s).
  { remember MyFlyControl_default as s0 eqn:E. assert (H0w : driver_wf s0) by (subst; apply driver_wf_init).
    clear E. induction Hr as [|s0 s1 s2 Hstep _ IH]; [done|]. by apply IH; eapply driver_wf_step. }
  split; [done|]. intros Hrun.
  destruct (ReceiveLoop_iter_wf s Hs Hrun) as (evs & s' & Hit & _).
  exists evs, s'. split; [done|]. by econstructor.
Qed.

Lemma driver_reachable_safe_witness :
  let s := (Start None (MyFlyControl.Init loopback_cfg None
              (MyFlyControl_default (S := MySerial loopback) (CBh := nat) (CBr := nat) (CBg := nat))).2).2 in
  fc_running s = true ∧ ∃ evs s', ReceiveLoop_iter s = Some (Ret (evs, s')) ∧ driver_step s s'.
Proof.
  intros s. assert (Hrun : fc_running s = true) by (vm_compute; reflexivity).
  split; [exact Hrun|]. apply (driver_reachable_safe s); [|exact Hrun].
  eapply rtc_l; [apply (step_Init loopback_cfg None)|].
  eapply rtc_l; [apply (step_Start None)|]. apply rtc_refl.
Defined.

(** Starting and stopping.  [Start] is refused without effect while
    running; when it succeeds the port is open and the thread runs on an empty
    parser buffer; when it fails nothing is running.  [Stop] on a stopped
    driver does nothing; on a running one it always leaves it stopped without
    a thread, and closes the port unless the port's own close throws. *)
Theorem start_stop_spec {cfg S} `{SerialPortLaws cfg S} {CBh CBr CBg}
    err (s : MyFlyControl S CBh CBr CBg) :
  (let '(ok, err', s') := Start err s in
   if fc_running s then ok = false ∧ s' = s ∧ err' = set_err err "飞控模块已在运行"
   else fc_running s' = ok ∧
        (ok = true → sp_IsOpen (fc_serial s') = true ∧ fc_recv_thread s' = true ∧ fc_parser s' = [])) ∧
  (let '(r, s') := Stop s in
   fc_running s' = false ∧
   (fc_running s = false → r = Ok tt ∧ s' = s) ∧
   (fc_running s = true → fc_recv_thread s' = false ∧
                          (r = Ok tt → sp_IsOpen (fc_serial s') = false))).
Proof.
  split.
  - unfold Start. destruct (fc_running s) eqn:Hrun; [done|].
    destruct (sp_IsOpen (fc_serial s)) eqn:Ho; cbn; [by rewrite Ho|].
    destruct (sp_Open err (fc_serial s)) as [[[] e] p] eqn:E; cbn; [|done].
    split; [done|]. intros _. split; [by eapply sp_Open_true|done].
  - unfold Stop. destruct (fc_running s) eqn:Hrun; cbn; [|done].
    destruct (sp_Close (fc_serial s)) as [r p] eqn:E. cbn. split_and!; [done..|].
    intros _. split; [done|]. intros ->. by eapply sp_Close_closed.
Qed.

Lemma start_stop_spec_witness :
  (Start (Some "") (waiting_driver [])).1 = (false, Some "飞控模块已在运行").
Proof.
  pose proof (start_stop_spec (Some "") (waiting_driver [])) as [Hs _].
  destruct (Start (Some "") (waiting_driver [])) as [[ok e] s']. cbn in Hs.
  destruct Hs as (-> & _ & ->). reflexivity.
Defined.
