(* ===== verification/MyFlyControlManager.v ===== *)
(** * The flight controller manager

    Model of my_fly_control/MyFlyControlManager.cpp and MyFlyControlManager.h:
    the singleton that hands out one driver object, replaces it on [Shutdown]
    and forwards every call to it.

    [controller_] is a [shared_ptr], and a call keeps its own copy of it while
    it works outside [mutex_]; so the drivers live in a store, by identity, and
    a call that is not one critical section is modelled by its sections:
    [Init_enter], [Init_run] and [Init_commit] for [Init], the lookup and the
    forwarded call for the others, the forwarded [Start] and [Stop] themselves
    by the sections of MyFlyControl.v, since they take no lock.  Composed without
    interruption they are the manager's methods; [mgr_step] interleaves the
    sections of concurrent calls and the drivers' receive threads.  A data race
    on a field without a lock is an interleaving of these sections here.  A driver is not removed from the store
    when the last pointer to it goes away; its destructor is [Stop]. *)

From S2P Require Import Prelude Json FlyControlProtocol FlyControlFrame FlyControlCodec FlyControlCodecFacts SerialPort MySerial Double MyFlyControl MyFlyControlFacts.

Local Open Scope Z_scope.

Section manager.
Context {cfg S : Type} `{SerialPort cfg S} {CBh CBr CBg : Type}.
Local Abbreviation driver := (MyFlyControl S CBh CBr CBg).

Record Manager := {
  mg_heap : gmap nat driver;
  mg_next : nat;
  controller_ : option nat;
  initialized_ : bool
}.

(** The driver behind a pointer. *)
Definition deref (m : Manager) (id : nat) : driver := default MyFlyControl_default (mg_heap m !! id).

Definition store (id : nat) (c : driver) (m : Manager) : Manager := {|
  mg_heap := <[id := c]> (mg_heap m); mg_next := mg_next m;
  controller_ := controller_ m; initialized_ := initialized_ m |}.

(** [controller_ = std::make_shared<MyFlyControl>()]. *)
Definition fresh_controller (m : Manager) : Manager := {|
  mg_heap := <[mg_next m := MyFlyControl_default]> (mg_heap m); mg_next := Datatypes.S (mg_next m);
  controller_ := Some (mg_next m); initialized_ := initialized_ m |}.

Definition set_initialized (b : bool) (m : Manager) : Manager := {|
  mg_heap := mg_heap m; mg_next := mg_next m; controller_ := controller_ m; initialized_ := b |}.

Definition Manager_default : Manager :=
  fresh_controller {| mg_heap := ∅; mg_next := 0; controller_ := None; initialized_ := false |}.

(** [controller->Stop()] on the driver behind a pointer. *)
Definition stop_controller (id : nat) : io Manager unit := λ m,
  let '(r, c) := MyFlyControl.Stop (deref m id) in (r, store id c m).

(** The destructor. *)
Definition Destroy : io Manager unit := λ m,
  let old_controller := controller_ m in
  let m := {| mg_heap := mg_heap m; mg_next := mg_next m; controller_ := None;
              initialized_ := false |} in
  match old_controller with Some id => stop_controller id m | None => (Ok tt, m) end.

Definition GetControllerSnapshot (m : Manager) : option nat := controller_ m.

Definition GetInitializedController (err : option string) (m : Manager) : option nat * option string :=
  match controller_ m with
  | Some id =>
      if initialized_ m then (Some id, err)
      else (None, set_err err "飞控管理器尚未初始化，请先调用 Init")
  | None => (None, set_err err "飞控管理器尚未初始化，请先调用 Init")
  end.

(** ** Init: three sections *)

(** The first critical section: the driver to initialise, or the refusal. *)
Definition Init_enter (err : option string) (m : Manager) : option nat * option string * Manager :=
  let m := match controller_ m with None => fresh_controller m | Some _ => m end in
  match controller_ m with
  | Some id =>
      if MyFlyControl.IsRunning (deref m id)
      then (None, set_err err "飞控正在运行，请先调用 Stop 后再重新初始化", m)
      else (Some id, err, m)
  | None => (None, err, m)
  end.

(** [controller->Init(cfg, err)], outside the lock. *)
Definition Init_run (id : nat) (c : cfg) (err : option string) (m : Manager)
    : bool * option string * Manager :=
  let '(ok, err, d) := MyFlyControl.Init c err (deref m id) in (ok, err, store id d m).

(** The last critical section: the result counts only if the driver is still
    the current one. *)
Definition Init_commit (id : nat) (m : Manager) : Manager :=
  if decide (controller_ m = Some id) then set_initialized true m else m.

Definition Init (c : cfg) (err : option string) (m : Manager) : bool * option string * Manager :=
  match Init_enter err m with
  | (None, err, m) => (false, err, m)
  | (Some id, err, m) =>
      let '(ok, err, m) := Init_run id c err m in
      if negb ok then (false, err, m) else (true, err, Init_commit id m)
  end.

(** ** The other methods *)

Definition Start_run (id : nat) (err : option string) (m : Manager) : bool * option string * Manager :=
  let '(ok, err, d) := MyFlyControl.Start err (deref m id) in (ok, err, store id d m).

Definition Start (err : option string) (m : Manager) : bool * option string * Manager :=
  match GetInitializedController err m with
  | (Some id, err) => Start_run id err m
  | (None, err) => (false, err, m)
  end.

Definition Stop : io Manager unit := λ m,
  match GetControllerSnapshot m with Some id => stop_controller id m | None => (Ok tt, m) end.

(** The critical section of [Shutdown]: the old driver is taken out. *)
Definition Shutdown_swap (m : Manager) : option nat * Manager :=
  (controller_ m, set_initialized false (fresh_controller m)).

Definition Shutdown : io Manager unit := λ m,
  let '(old_controller, m) := Shutdown_swap m in
  match old_controller with Some id => stop_controller id m | None => (Ok tt, m) end.

Definition IsInitialized (m : Manager) : bool := initialized_ m.

Definition IsRunning (m : Manager) : bool :=
  match GetControllerSnapshot m with
  | Some id => MyFlyControl.IsRunning (deref m id)
  | None => false
  end.

(** A setter forwarded to the current driver. *)
Definition on_current (f : driver → driver) (m : Manager) : Manager :=
  match GetControllerSnapshot m with Some id => store id (f (deref m id)) m | None => m end.

Definition SetOnHeartbeat (cb : option CBh) := on_current (MyFlyControl.SetOnHeartbeat cb).
Definition SetOnCommandReply (cb : option CBr) := on_current (MyFlyControl.SetOnCommandReply cb).
Definition SetOnGimbalControl (cb : option CBg) := on_current (MyFlyControl.SetOnGimbalControl cb).

Definition GetLatestHeartbeat (m : Manager) : HeartbeatData :=
  match GetControllerSnapshot m with
  | Some id => MyFlyControl.GetLatestHeartbeat (deref m id)
  | None => HeartbeatData_default
  end.

Definition GetLatestHeartbeatJson {J} `{JsonOps J} (j_double : double → J) (m : Manager) : J :=
  match GetControllerSnapshot m with
  | Some id => MyFlyControl.GetLatestHeartbeatJson j_double (deref m id)
  | None => j_object []
  end.

Definition GetFaultBits (m : Manager) : FaultBits :=
  match GetControllerSnapshot m with
  | Some id => MyFlyControl.GetFaultBits (deref m id)
  | None => FromU16 0
  end.

Definition HasHeartbeat (m : Manager) : bool :=
  match GetControllerSnapshot m with
  | Some id => MyFlyControl.HasHeartbeat (deref m id)
  | None => false
  end.

(** A send call forwarded to the initialised driver. *)
Definition forward_run (id : nat) (f : option string → driver → bool * option string * driver)
    (err : option string) (m : Manager) : bool * option string * Manager :=
  let '(ok, err, d) := f err (deref m id) in (ok, err, store id d m).

Definition forward (f : option string → driver → bool * option string * driver)
    (err : option string) (m : Manager) : bool * option string * Manager :=
  match GetInitializedController err m with
  | (Some id, err) => forward_run id f err m
  | (None, err) => (false, err, m)
  end.

Definition SendSetDestination (lon lat alt : Z) (err : option string) (m : Manager) :=
  forward (λ err, MyFlyControl.SendSetDestination lon lat alt err) err m.
Definition SendSetRoute (points : list RoutePoint) (err : option string) (m : Manager) :=
  forward (λ err, MyFlyControl.SendSetRoute points err) err m.
Definition SendSetAngle (pitch yaw : Z) (err : option string) (m : Manager) :=
  forward (λ err, MyFlyControl.SendSetAngle pitch yaw err) err m.
Definition SendSetSpeed (speed : Z) (err : option string) (m : Manager) :=
  forward (λ err, MyFlyControl.SendSetSpeed speed err) err m.
Definition SendSetAltitude (alt_type altitude : Z) (err : option string) (m : Manager) :=
  forward (λ err, MyFlyControl.SendSetAltitude alt_type altitude err) err m.
Definition SendPowerSwitch (command : Z) (err : option string) (m : Manager) :=
  forward (λ err, MyFlyControl.SendPowerSwitch command err) err m.
Definition SendParachute (parachute_type : Z) (err : option string) (m : Manager) :=
  forward (λ err, MyFlyControl.SendParachute parachute_type err) err m.
Definition SendButtonCommand (button : Z) (err : option string) (m : Manager) :=
  forward (λ err, MyFlyControl.SendButtonCommand button err) err m.
Definition SendSetOriginReturn (point_type lon lat alt : Z) (err : option string) (m : Manager) :=
  forward (λ err, MyFlyControl.SendSetOriginReturn point_type lon lat alt err) err m.
Definition SendSetGeofence (points : list GeofencePoint) (err : option string) (m : Manager) :=
  forward (λ err, MyFlyControl.SendSetGeofence points err) err m.
Definition SendSwitchMode (mode : Z) (err : option string) (m : Manager) :=
  forward (λ err, MyFlyControl.SendSwitchMode mode err) err m.
Definition SendGuidance (data : GuidanceData) (err : option string) (m : Manager) :=
  forward (λ err, MyFlyControl.SendGuidance data err) err m.
Definition SendGuidanceNew (data : GuidanceNewData) (err : option string) (m : Manager) :=
  forward (λ err, MyFlyControl.SendGuidanceNew data err) err m.
Definition SendGimbalAngRate (data : GimbalAngRateData) (err : option string) (m : Manager) :=
  forward (λ err, MyFlyControl.SendGimbalAngRate data err) err m.
Definition SendGimbalAngle (data : GimbalAngleData) (err : option string) (m : Manager) :=
  forward (λ err, MyFlyControl.SendGimbalAngle data err) err m.
Definition SendTargetState (data : TargetStateData) (err : option string) (m : Manager) :=
  forward (λ err, MyFlyControl.SendTargetState data err) err m.

Definition run_request (r : request) (err : option string) (m : Manager) :=
  match r with
  | rq_SetDestination lon lat alt => SendSetDestination lon lat alt err m
  | rq_SetRoute points => SendSetRoute points err m
  | rq_SetAngle pitch yaw => SendSetAngle pitch yaw err m
  | rq_SetSpeed speed => SendSetSpeed speed err m
  | rq_SetAltitude t a => SendSetAltitude t a err m
  | rq_PowerSwitch c => SendPowerSwitch c err m
  | rq_Parachute t => SendParachute t err m
  | rq_ButtonCommand b => SendButtonCommand b err m
  | rq_SetOriginReturn t lon lat alt => SendSetOriginReturn t lon lat alt err m
  | rq_SetGeofence points => SendSetGeofence points err m
  | rq_SwitchMode m' => SendSwitchMode m' err m
  | rq_Guidance d => SendGuidance d err m
  | rq_GuidanceNew d => SendGuidanceNew d err m
  | rq_GimbalAngRate d => SendGimbalAngRate d err m
  | rq_GimbalAngle d => SendGimbalAngle d err m
  | rq_TargetState d => SendTargetState d err m
  end.

(** ** Concurrent calls *)

(** A callback to register. *)
Inductive callback :=
| cb_heartbeat (cb : option CBh)
| cb_reply (cb : option CBr)
| cb_gimbal (cb : option CBg).
Definition set_callback (cb : callback) (d : driver) : driver :=
  match cb with
  | cb_heartbeat cb => MyFlyControl.SetOnHeartbeat cb d
  | cb_reply cb => MyFlyControl.SetOnCommandReply cb d
  | cb_gimbal cb => MyFlyControl.SetOnGimbalControl cb d
  end.

(** What a call in progress does next: a section of the manager's method, or of
    the driver's [Start] or [Stop]. *)
Inductive pending :=
| p_Init_run (id : nat) (c : cfg) (err : option string)
| p_Init_commit (id : nat)
| p_Start (id : nat) (err : option string)
| p_Start_open (id : nat) (err : option string)
| p_Start_reset (id : nat)
| p_Start_flag (id : nat)
| p_Start_thread (id : nat)
| p_Stop (id : nat)
| p_Stop_flag (id : nat)
| p_Stop_join (id : nat)
| p_Stop_close (id : nat)
| p_Send (id : nat) (r : request) (err : option string)
| p_Set (id : nat) (cb : callback).

(** The manager, the calls in progress, the drivers whose receive thread is in its
    loop, whether the program was terminated, and (for the proofs) the drivers
    whose [Init] has succeeded at least once. *)
Record system := {
  sys_mgr : Manager;
  sys_calls : list pending;
  sys_threads : list nat;
  sys_terminated : bool;
  sys_inited : gset nat
}.
Definition with_calls (ps : list pending) (st : system) : system := {|
  sys_mgr := sys_mgr st; sys_calls := ps; sys_threads := sys_threads st;
  sys_terminated := sys_terminated st; sys_inited := sys_inited st |}.
Definition with_mgr (m : Manager) (st : system) : system := {|
  sys_mgr := m; sys_calls := sys_calls st; sys_threads := sys_threads st;
  sys_terminated := sys_terminated st; sys_inited := sys_inited st |}.
Definition with_threads (l : list nat) (st : system) : system := {|
  sys_mgr := sys_mgr st; sys_calls := sys_calls st; sys_threads := l;
  sys_terminated := sys_terminated st; sys_inited := sys_inited st |}.
Definition terminated (st : system) : system := {|
  sys_mgr := sys_mgr st; sys_calls := sys_calls st; sys_threads := sys_threads st;
  sys_terminated := true; sys_inited := sys_inited st |}.
Definition init_done (id : nat) (st : system) : system := {|
  sys_mgr := sys_mgr st; sys_calls := sys_calls st; sys_threads := sys_threads st;
  sys_terminated := sys_terminated st; sys_inited := {[id]} ∪ sys_inited st |}.
Definition begin (p : pending) (st : system) : system := with_calls (p :: sys_calls st) st.
(** The driver behind a pointer, replaced. *)
Definition at_driver (id : nat) (d : driver) (st : system) : system := with_mgr (store id d (sys_mgr st)) st.
Definition driver_of (id : nat) (st : system) : driver := deref (sys_mgr st) id.

(** A call enters a method. *)
Inductive enter_step st : system → Prop :=
| enter_Init c err id err' m' :
    Init_enter err (sys_mgr st) = (Some id, err', m') → enter_step st (begin (p_Init_run id c err') (with_mgr m' st))
| refuse_Init err err' m' :
    Init_enter err (sys_mgr st) = (None, err', m') → enter_step st (with_mgr m' st)
| enter_Start err id err' :
    GetInitializedController err (sys_mgr st) = (Some id, err') → enter_step st (begin (p_Start id err') st)
| enter_Stop id :
    GetControllerSnapshot (sys_mgr st) = Some id → enter_step st (begin (p_Stop id) st)
| enter_Shutdown id m' :
    Shutdown_swap (sys_mgr st) = (Some id, m') → enter_step st (begin (p_Stop id) (with_mgr m' st))
| enter_Send r err id err' :
    GetInitializedController err (sys_mgr st) = (Some id, err') → enter_step st (begin (p_Send id r err') st)
| enter_Set cb id :
    GetControllerSnapshot (sys_mgr st) = Some id → enter_step st (begin (p_Set id cb) st).

(** A section of a call: what follows it, if anything, and the system. *)
Inductive section_step st : pending → option pending → system → Prop :=
| run_Init_ok id c err err' m' :
    Init_run id c err (sys_mgr st) = (true, err', m') →
    section_step st (p_Init_run id c err) (Some (p_Init_commit id)) (init_done id (with_mgr m' st))
| run_Init_fail id c err err' m' :
    Init_run id c err (sys_mgr st) = (false, err', m') →
    section_step st (p_Init_run id c err) None (with_mgr m' st)
| commit_Init id :
    section_step st (p_Init_commit id) None (with_mgr (Init_commit id (sys_mgr st)) st)
| run_Start_refused id err :
    MyFlyControl.IsRunning (driver_of id st) = true → section_step st (p_Start id err) None st
| run_Start_check id err :
    MyFlyControl.IsRunning (driver_of id st) = false →
    section_step st (p_Start id err) (Some (p_Start_open id err)) st
| run_Start_open id err ok err' d :
    Start_open err (driver_of id st) = (ok, err', d) →
    section_step st (p_Start_open id err) (if ok then Some (p_Start_reset id) else None) (at_driver id d st)
| run_Start_reset id :
    section_step st (p_Start_reset id) (Some (p_Start_flag id)) (at_driver id (Start_reset (driver_of id st)) st)
| run_Start_flag id :
    section_step st (p_Start_flag id) (Some (p_Start_thread id)) (at_driver id (Start_flag (driver_of id st)) st)
| run_Start_thread id d :
    Start_thread (driver_of id st) = Some d →
    section_step st (p_Start_thread id) None (with_threads (id :: sys_threads st) (at_driver id d st))
| run_Start_terminates id :
    Start_thread (driver_of id st) = None → section_step st (p_Start_thread id) None (terminated st)
| run_Stop_idle id :
    MyFlyControl.IsRunning (driver_of id st) = false → section_step st (p_Stop id) None st
| run_Stop_check id :
    MyFlyControl.IsRunning (driver_of id st) = true → section_step st (p_Stop id) (Some (p_Stop_flag id)) st
| run_Stop_flag id :
    section_step st (p_Stop_flag id) (Some (p_Stop_join id)) (at_driver id (Stop_flag (driver_of id st)) st)
| run_Stop_join id :
    id ∉ sys_threads st →
    section_step st (p_Stop_join id) (Some (p_Stop_close id)) (at_driver id (Stop_join (driver_of id st)) st)
| run_Stop_close id :
    section_step st (p_Stop_close id) None (at_driver id (Stop_close (driver_of id st)).2 st)
| run_Send id r err :
    section_step st (p_Send id r err) None
      (with_mgr (forward_run id (λ err, MyFlyControlFacts.run_request r err) err (sys_mgr st)).2 st)
| run_Set id cb :
    section_step st (p_Set id cb) None (at_driver id (set_callback cb (driver_of id st)) st).

(** A turn of a receive thread, or its end. *)
Inductive thread_step st : system → Prop :=
| receive id evs d' :
    id ∈ sys_threads st → ReceiveLoop_iter (driver_of id st) = Some (Ret (evs, d')) →
    thread_step st (at_driver id d' st)
| leave l1 id l2 :
    sys_threads st = l1 ++ id :: l2 → MyFlyControl.IsRunning (driver_of id st) = false →
    thread_step st (with_threads (l1 ++ l2) st).

Inductive mgr_step st st' : Prop :=
| step_enter : sys_terminated st = false → enter_step st st' → mgr_step st st'
| step_section ps1 p ps2 next st1 :
    sys_terminated st = false → sys_calls st = ps1 ++ p :: ps2 → section_step st p next st1 →
    st' = with_calls (ps1 ++ option_list next ++ ps2) st1 → mgr_step st st'
| step_thread : sys_terminated st = false → thread_step st st' → mgr_step st st'.

Definition system_init : system :=
  {| sys_mgr := Manager_default; sys_calls := []; sys_threads := []; sys_terminated := false; sys_inited := ∅ |}.

End manager.
Arguments Manager : clear implicits.
Arguments pending : clear implicits.
Arguments system : clear implicits.

(** ** The invariant of concurrent use *)

(** The driver a call in progress works on. *)
Definition pending_id {cfg CBh CBr CBg} (p : pending cfg CBh CBr CBg) : nat :=
  match p with
  | p_Init_run id _ _ | p_Init_commit id | p_Start id _ | p_Start_open id _ | p_Start_reset id
  | p_Start_flag id | p_Start_thread id | p_Stop id | p_Stop_flag id | p_Stop_join id | p_Stop_close id
  | p_Send id _ _ | p_Set id _ => id
  end.

(** Calls that were let through because the manager was initialised, or that
    are about to declare it so. *)
Definition needs_init {cfg CBh CBr CBg} (p : pending cfg CBh CBr CBg) : bool :=
  match p with
  | p_Init_commit _ | p_Start _ _ | p_Start_open _ _ | p_Start_reset _ | p_Start_flag _ | p_Start_thread _
  | p_Send _ _ _ => true
  | _ => false
  end.

Section invariant.
Context {cfg S : Type} `{SerialPortLaws cfg S} {CBh CBr CBg : Type}.
Implicit Types m : Manager S CBh CBr CBg.
Implicit Types st : system cfg S CBh CBr CBg.
Implicit Types d : MyFlyControl S CBh CBr CBg.

(** The driver's invariant but for the thread: interrupted, [Start] and [Stop]
    leave the flag and the thread apart. *)
Record driver_data d : Prop := {
  data_bytes : bytes (fc_parser d);
  data_drained : drained (fc_parser d);
  data_cnt : byte (fc_cnt d);
  data_hb : HeartbeatData_ok (fc_latest_hb d);
  data_no_hb : fc_has_hb d = false → fc_latest_hb d = HeartbeatData_default
}.

(** An initialised manager holds a driver whose [Init] succeeded; a call let
    through as initialised works on such a driver; every driver's data is well
    formed; a driver has at most one receive thread, which it holds. *)
Record mgr_wf st : Prop := {
  wf_drivers id : driver_data (driver_of id st);
  wf_threads : NoDup (sys_threads st) ∧
    ∀ id, id ∈ sys_threads st → (id < mg_next (sys_mgr st))%nat ∧ fc_recv_thread (driver_of id st) = true;
  wf_current id : controller_ (sys_mgr st) = Some id → (id < mg_next (sys_mgr st))%nat;
  wf_initialized : initialized_ (sys_mgr st) = true →
    ∃ id, controller_ (sys_mgr st) = Some id ∧ id ∈ sys_inited st;
  wf_inited id : id ∈ sys_inited st → (id < mg_next (sys_mgr st))%nat;
  wf_calls : Forall (λ p, (pending_id p < mg_next (sys_mgr st))%nat ∧
                          (needs_init p = true → pending_id p ∈ sys_inited st)) (sys_calls st)
}.

Lemma driver_data_default : driver_data MyFlyControl_default.
Proof. destruct (driver_wf_init (cfg := cfg) (S := S) (CBh := CBh) (CBr := CBr) (CBg := CBg)). by split. Qed.

Lemma driver_data_serial p d : driver_data d → driver_data (set_fc_serial p d).
Proof. by intros []. Qed.

Lemma deref_store m id d i : deref (store id d m) i = if decide (id = i) then d else deref m i.
Proof. unfold deref. cbn. rewrite lookup_insert. by destruct (decide _). Qed.

(** Changing one driver's data keeps the invariant. *)
Lemma wf_at_driver st id d :
  mgr_wf st → driver_data d → (fc_recv_thread (driver_of id st) = true → fc_recv_thread d = true) →
  mgr_wf (at_driver id d st).
Proof.
  intros [Hd [Hn Ht] Hc Hi Hg Hp] Hd' Hk.
  assert (E : ∀ i, driver_of i (at_driver id d st) = if decide (id = i) then d else driver_of i st)
    by (intros i; apply deref_store).
  split; try done.
  - intros i. rewrite E. case_decide; [done|apply Hd].
  - split; [done|]. intros i Hin. destruct (Ht i Hin) as [Hlt Hr]. split; [exact Hlt|].
    rewrite E. case_decide; [|done]. subst i. by apply Hk.
Qed.

Lemma wf_with_calls st ps :
  mgr_wf st → Forall (λ p, (pending_id p < mg_next (sys_mgr st))%nat ∧
                           (needs_init p = true → pending_id p ∈ sys_inited st)) ps →
  mgr_wf (with_calls ps st).
Proof. by intros []; split. Qed.

Lemma wf_begin st p :
  mgr_wf st → (pending_id p < mg_next (sys_mgr st))%nat → (needs_init p = true → pending_id p ∈ sys_inited st) →
  mgr_wf (begin p st).
Proof. intros Hs H1 H2. apply wf_with_calls; [done|]. constructor; [done|apply Hs]. Qed.

(** A fresh driver comes with [initialized_] false. *)
Lemma wf_fresh st :
  mgr_wf st → mgr_wf (with_mgr (set_initialized false (fresh_controller (sys_mgr st))) st).
Proof.
  intros [Hd [Hn Ht] Hc Hi Hg Hp].
  assert (E : ∀ i, driver_of i (with_mgr (set_initialized false (fresh_controller (sys_mgr st))) st) =
                   if decide (mg_next (sys_mgr st) = i) then MyFlyControl_default else driver_of i st)
    by (intros i; unfold driver_of, deref; cbn; rewrite lookup_insert; by destruct (decide _)).
  split; cbn in *; try done.
  - intros i. rewrite E. case_decide; [apply driver_data_default|apply Hd].
  - split; [done|]. intros i Hin. destruct (Ht i Hin) as [Hlt Hr]. split; [lia|].
    rewrite E, decide_False by lia. exact Hr.
  - intros id [= <-]. lia.
  - intros id Hid%Hg. lia.
  - eapply Forall_impl; [exact Hp|]. cbn. intros p [? ?]. split; [lia|done].
Qed.

Lemma GetInitializedController_wf st err id err' :
  mgr_wf st → GetInitializedController err (sys_mgr st) = (Some id, err') → id ∈ sys_inited st.
Proof.
  intros Hs. unfold GetInitializedController. pose proof (wf_initialized _ Hs) as Hi.
  destruct (controller_ (sys_mgr st)) as [c|]; [|done]. destruct (initialized_ (sys_mgr st)); [|done]. intros [= <- _].
  destruct (Hi eq_refl) as (? & [= <-] & ?). done.
Qed.

Lemma Init_enter_wf st err o err' m' :
  mgr_wf st → Init_enter err (sys_mgr st) = (o, err', m') →
  mgr_wf (with_mgr m' st) ∧ (∀ id, o = Some id → (id < mg_next m')%nat).
Proof.
  intros Hs. unfold Init_enter. destruct (controller_ (sys_mgr st)) as [c|] eqn:Hc.
  - assert (Hsame : with_mgr (sys_mgr st) st = st) by by destruct st.
    rewrite Hc. destruct (MyFlyControl.IsRunning _); intros [= <- <- <-]; rewrite Hsame; split; try done.
    intros id [= <-]. by apply (wf_current _ Hs).
  - assert (Hini : initialized_ (sys_mgr st) = false).
    { destruct (initialized_ (sys_mgr st)) eqn:E; [|done].
      destruct (wf_initialized _ Hs E) as (? & Hx & _). congruence. }
    assert (Hf : set_initialized false (fresh_controller (sys_mgr st)) = fresh_controller (sys_mgr st)).
    { unfold set_initialized, fresh_controller. cbn. by rewrite Hini. }
    pose proof (wf_fresh _ Hs) as Hw. rewrite Hf in Hw.
    cbn [fresh_controller controller_]. destruct (MyFlyControl.IsRunning _); intros [= <- <- <-];
      split; try done. intros id [= <-]. cbn. lia.
Qed.

Lemma wf_enter st st' : mgr_wf st → enter_step st st' → mgr_wf st'.
Proof.
  intros Hs Hstep. destruct Hstep as [c err id err' m' E|err err' m' E|err id err' E|id E|id m' E|r err id err' E|cb id E].
  - destruct (Init_enter_wf _ _ _ _ _ Hs E) as [Hw Hid]. by apply wf_begin; [|apply Hid|].
  - by apply (Init_enter_wf _ _ _ _ _ Hs E).
  - apply wf_begin; [done| |intros _]; cbn; [apply (wf_inited _ Hs)|]; by eapply GetInitializedController_wf.
  - apply wf_begin; [done| |done]. by apply (wf_current _ Hs).
  - injection E as Hc <-. apply wf_begin; [by apply wf_fresh| |done].
    cbn. pose proof (wf_current _ Hs id Hc) as Hlt. lia.
  - apply wf_begin; [done| |intros _]; cbn; [apply (wf_inited _ Hs)|]; by eapply GetInitializedController_wf.
  - apply wf_begin; [done| |done]. by apply (wf_current _ Hs).
Qed.

Lemma run_request_data r err d ok err' d' :
  MyFlyControlFacts.run_request r err d = (ok, err', d') → driver_data d →
  driver_data d' ∧ fc_recv_thread d' = fc_recv_thread d.
Proof.
  rewrite run_request_spec. destruct (request_command r) as [c|]; [|by intros [= _ _ <-]].
  intros Hs Hd. destruct (SendRawData_wire _ _ _ _ _ _ Hs) as (k & p & _ & _ & -> & _).
  split; [|done]. apply driver_data_serial. destruct Hd. split; try done. apply inu_wrapu. lia.
Qed.

(** What follows a section works on the same driver. *)
Ltac next_call :=
  let q := fresh in
  intros q [= <-]; split; [done|cbn; intros ?; try done; eauto].

(** What a section does to the invariant, and to what follows it. *)
Lemma wf_section st p next st' :
  mgr_wf st → (pending_id p < mg_next (sys_mgr st))%nat → (needs_init p = true → pending_id p ∈ sys_inited st) →
  section_step st p next st' →
  mgr_wf st' ∧ mg_next (sys_mgr st') = mg_next (sys_mgr st) ∧ sys_inited st ⊆ sys_inited st' ∧
  sys_calls st' = sys_calls st ∧
  ∀ q, next = Some q → pending_id q = pending_id p ∧ (needs_init q = true → pending_id p ∈ sys_inited st').
Proof.
  intros Hs Hid Hni Hstep.
  destruct Hstep as [id c err err' m' E|id c err err' m' E|id|id err E|id err E|id err ok err' d E|id|id|id d E|id E|id E|id E|id|id E|id|id r err|id cb];
    cbn [pending_id needs_init] in Hid, Hni; pose proof (wf_drivers _ Hs id) as Hd.
  - unfold Init_run, MyFlyControl.Init in E. destruct (sp_Init _ _ _) as [[ok e] p]. injection E as -> -> <-.
    pose proof (wf_at_driver _ id (set_fc_serial p (driver_of id st)) Hs (driver_data_serial _ _ Hd) ltac:(done)) as Hw.
    split; [|split; [done|split; [set_solver|split; [done|]]]].
    + destruct Hw as [H1 H2 H3 H4 H5 H6]. split; try done.
      * intros Hini. destruct (H4 Hini) as (i & ? & ?). exists i. split; [done|]. cbn in *. set_solver.
      * cbn in *. intros i [->%elem_of_singleton|Hi]%elem_of_union; [done|by apply H5].
      * eapply Forall_impl; [exact H6|]. cbn. intros q [? Hn]. split; [done|]. set_solver.
    + intros q [= <-]. split; [done|]. cbn. set_solver.
  - unfold Init_run, MyFlyControl.Init in E. destruct (sp_Init _ _ _) as [[ok e] p]. injection E as -> -> <-.
    split; [|by split_and!]. by apply (wf_at_driver _ id); [|apply driver_data_serial|].
  - split; [|unfold Init_commit; by destruct (decide _)]. unfold Init_commit. destruct (decide _) as [Hc|]; [|by destruct st].
    destruct Hs as [H1 H2 H3 H4 H5 H6]. split; try done. intros _. exists id. split; [done|]. by apply Hni.
  - by split.
  - split; [done|]. split_and!; try done. by next_call.
  - unfold Start_open in E.
    assert (Hd' : driver_data d ∧ fc_recv_thread d = fc_recv_thread (driver_of id st)).
    { destruct (negb _); [|by injection E as _ _ <-]. destruct (sp_Open _ _) as [[ok' e] p].
      injection E as _ _ <-. split; [by apply driver_data_serial|done]. }
    destruct Hd' as [Hd1 Hd2]. split; [apply wf_at_driver; [done|done|by rewrite Hd2]|]. split_and!; try done.
    destruct ok; [next_call|done].
  - split; [apply wf_at_driver; [done| |done]|]; [destruct Hd, (driver_data_default); by split|].
    split_and!; try done; next_call.
  - split; [apply wf_at_driver; [done| |done]|]; [by destruct Hd|].
    split_and!; try done; next_call.
  - unfold Start_thread in E. destruct (fc_recv_thread (driver_of id st)) eqn:Er; [done|]. injection E as <-.
    split; [|by split_and!].
    pose proof (wf_at_driver _ id (set_fc_recv_thread true (driver_of id st)) Hs ltac:(by destruct Hd) ltac:(done)) as Hw.
    destruct Hw as [H1 [H2 H2'] H3 H4 H5 H6]. split; try done. cbn [sys_threads with_threads]. split.
    + constructor; [|exact H2]. intros Hin. destruct (wf_threads _ Hs) as [_ Ht]. destruct (Ht id Hin) as [_ Hr]. congruence.
    + intros i [->|Hin]%elem_of_cons; [|by apply H2']. split; [exact Hid|].
      unfold driver_of. cbn. rewrite deref_store, decide_True by done. done.
  - split; [|by split_and!]. by destruct Hs.
  - by split.
  - split; [done|]. split_and!; try done; next_call.
  - split; [apply wf_at_driver; [done| |done]|]; [by destruct Hd|]. split_and!; try done; next_call.
  - split; [|split_and!; try done; next_call].
    destruct Hs as [H1 [H2 H2'] H3 H4 H5 H6]. split; try done.
    + intros i. unfold driver_of. cbn. rewrite deref_store. case_decide; [by destruct Hd|apply H1].
    + split; [done|]. intros i Hin. destruct (H2' i Hin) as [? ?]. split; [done|].
      unfold driver_of. cbn. rewrite deref_store, decide_False; [done|]. intros ->. done.
  - unfold Stop_close. destruct (sp_Close _) as [r p]. split; [|by split_and!].
    by apply wf_at_driver; [|apply driver_data_serial|].
  - unfold forward_run. fold (driver_of id st).
    destruct (MyFlyControlFacts.run_request r err (driver_of id st)) as [[ok e] d] eqn:E.
    destruct (run_request_data _ _ _ _ _ _ E Hd) as [H1 H2]. split; [|by split_and!].
    by apply (wf_at_driver _ id); [|done|rewrite H2].
  - split; [|by split_and!]. apply wf_at_driver; [done|by destruct Hd, cb|by destruct cb].
Qed.

Lemma wf_thread_step st st' : mgr_wf st → thread_step st st' → mgr_wf st'.
Proof.
  intros Hs Hstep. destruct Hstep as [id evs d' Hin E|l1 id l2 El Hr].
  - destruct (wf_threads _ Hs) as [_ Ht]. destruct (Ht id Hin) as [_ Hth].
    assert (Hrun : fc_running (driver_of id st) = true).
    { unfold ReceiveLoop_iter in E. by destruct (fc_running (driver_of id st)). }
    assert (Hw : driver_wf (driver_of id st)).
    { destruct (wf_drivers _ Hs id). split; try done. by rewrite Hth, Hrun. }
    destruct (ReceiveLoop_iter_wf _ Hw Hrun) as (evs' & d'' & E' & Hw' & Hr').
    rewrite E in E'. injection E' as <- <-. apply wf_at_driver; [done|by destruct Hw'|].
    intros _. rewrite (wf_thread _ Hw'). exact Hr'.
  - destruct Hs as [H1 [H2 H2'] H3 H4 H5 H6]. split; try done. cbn [sys_threads with_threads].
    rewrite El in H2, H2'. split; [apply NoDup_app in H2 as (Ha & Hb & Hc); apply NoDup_cons in Hc as [_ Hc]; apply NoDup_app;
      repeat split; try done; intros x Hx Hx2; apply (Hb x Hx); by right|].
    intros i Hin. apply H2'. apply elem_of_app in Hin as [?|?]; apply elem_of_app; [by left|right; by right].
Qed.

Lemma mgr_wf_step st st' : mgr_wf st → mgr_step st st' → mgr_wf st'.
Proof.
  intros Hs [_ Hstep|ps1 p ps2 next st1 _ Hcalls Hstep ->|_ Hstep];
    [by eapply wf_enter| |by eapply wf_thread_step].
  pose proof (wf_calls _ Hs) as Hp. rewrite Hcalls in Hp. apply Forall_app in Hp as [Hp1 Hp2].
  apply Forall_cons in Hp2 as [[Hid Hni] Hp2].
  destruct (wf_section _ _ _ _ Hs Hid Hni Hstep) as (Hw & Hn & Hg & _ & Hq).
  apply wf_with_calls; [done|]. rewrite Hn.
  assert (Hmono : ∀ l, Forall (λ p : pending cfg CBh CBr CBg, (pending_id p < mg_next (sys_mgr st))%nat ∧
      (needs_init p = true → pending_id p ∈ sys_inited st)) l →
    Forall (λ p : pending cfg CBh CBr CBg, (pending_id p < mg_next (sys_mgr st))%nat ∧
      (needs_init p = true → pending_id p ∈ sys_inited st1)) l).
  { intros l Hl. eapply Forall_impl; [exact Hl|]. cbn. intros q [? ?]. split; [done|]. set_solver. }
  apply Forall_app. split; [by apply Hmono|]. apply Forall_app. split; [|by apply Hmono].
  destruct next as [q|]; [|constructor]. destruct (Hq q eq_refl) as [E Hx]. constructor; [|constructor].
  rewrite E. by split.
Qed.

Lemma mgr_wf_init : mgr_wf system_init.
Proof.
  split; cbn; try done.
  - intros id. unfold driver_of, deref. cbn. rewrite lookup_insert. case_decide; apply driver_data_default.
  - split; [constructor|]. by intros id ?%elem_of_nil.
  - intros id [= <-]. lia.
Qed.

(** The manager's send functions are the driver's, forwarded. *)
Lemma run_request_forward r err m :
  run_request r err m = forward (λ err, MyFlyControlFacts.run_request r err) err m.
Proof. by destruct r. Qed.
End invariant.

(** C6: whatever calls are in progress at once, interrupted between the
    critical sections of the manager and between the unlocked sections of the
    driver's [Start] and [Stop], and interleaved with the receive threads: the
    manager is marked initialised only while its current driver is one whose own
    [Init] succeeded (a driver's identity is never reused, so the success is
    later than the last [Shutdown]); a start or send is only ever forwarded to
    such a driver; a driver never has two receive threads, and one that has a
    receive thread still holds it; and every driver's parser, counter and
    heartbeat are well formed. *)
Theorem manager_invariant {cfg S} `{SerialPortLaws cfg S} {CBh CBr CBg}
    (st : system cfg S CBh CBr CBg) :
  rtc mgr_step system_init st → mgr_wf st.
Proof.
  intros Hr. remember system_init as s0 eqn:E.
  assert (Hw : mgr_wf s0) by (subst; apply mgr_wf_init). clear E.
  induction Hr as [|s0 s1 s2 Hstep _ IH]; [done|]. by apply IH; eapply mgr_wf_step.
Qed.

(** A manager over the loopback device, initialised and stopped. *)
Definition loopback_manager : Manager (MySerial loopback) nat nat nat :=
  (Init loopback_cfg None Manager_default).2.

Local Abbreviation loopback_system := (system jvalue (MySerial loopback) nat nat nat).
Local Abbreviation loopback_call := (pending jvalue nat nat nat).

(** The system over the loopback device after [Init]. *)
Lemma loopback_inited :
  rtc mgr_step (system_init : loopback_system)
    {| sys_mgr := loopback_manager; sys_calls := []; sys_threads := []; sys_terminated := false;
       sys_inited := {[0%nat]} ∪ ∅ |}.
Proof.
  eapply rtc_l; [apply step_enter; [done|]; eapply (enter_Init _ loopback_cfg None); reflexivity|].
  eapply rtc_l; [eapply (step_section _ _ [] _ []); [done..| |reflexivity];
                 eapply run_Init_ok; vm_compute; reflexivity|].
  eapply rtc_l; [eapply (step_section _ _ [] _ []); [done..| |reflexivity]; apply commit_Init|].
  match goal with |- rtc _ ?a ?b => replace b with a by (vm_compute; reflexivity) end. apply rtc_refl.
Defined.

(** The sections of a [Start] whose checks pass, the calls before and after
    it in progress not moving. *)
Ltac section_of ps1 ps2 :=
  eapply rtc_l; [eapply (step_section _ _ ps1 _ ps2); [done..| |reflexivity]|].

Lemma manager_invariant_witness :
  mgr_wf ({| sys_mgr := (Start None loopback_manager).2; sys_calls := []; sys_threads := [0%nat];
             sys_terminated := false; sys_inited := {[0%nat]} ∪ ∅ |} : loopback_system).
Proof.
  apply (manager_invariant (cfg := jvalue)). etransitivity; [apply loopback_inited|].
  eapply rtc_l; [apply step_enter; [done|]; eapply (enter_Start _ None); vm_compute; reflexivity|].
  section_of (@nil loopback_call) (@nil loopback_call); [apply run_Start_check; reflexivity|].
  section_of (@nil loopback_call) (@nil loopback_call); [eapply (run_Start_open _ _ _ true); vm_compute; reflexivity|].
  section_of (@nil loopback_call) (@nil loopback_call); [apply run_Start_reset|].
  section_of (@nil loopback_call) (@nil loopback_call); [apply run_Start_flag|].
  section_of (@nil loopback_call) (@nil loopback_call); [eapply run_Start_thread; vm_compute; reflexivity|].
  match goal with |- rtc _ ?a ?b => replace b with a by (vm_compute; reflexivity) end. apply rtc_refl.
Defined.

(** Re-initialising an initialised, stopped manager with a configuration
    its port rejects: [Init] returns false, but the manager keeps saying it is
    initialised, although the driver's port is now back to the uninitialised
    state: a start is still let through, and fails in the port. *)
Theorem failed_reinit_stays_initialized {J} `{JsonLaws J} {L} `{SerialLibLaws L} {CBh CBr CBg}
    (c : J) err (m : Manager (MySerial L) CBh CBr CBg) err' m' err2 :
  IsInitialized m = true → IsRunning m = false → controller_ m ≠ None →
  Init c err m = (false, err', m') →
  IsInitialized m' = true ∧
  ∃ id, controller_ m' = Some id ∧ MySerial.initialized_ (fc_serial (deref m' id)) = false ∧
        (Start err2 m').1 = (false, set_err err2 "MySerial is not initialized").
Proof.
  unfold IsInitialized, IsRunning, GetControllerSnapshot.
  intros Hi Hrun Hc Hinit. destruct (controller_ m) as [id|] eqn:E; [|done]. clear Hc.
  unfold Init, Init_enter in Hinit. rewrite E, E, Hrun in Hinit. unfold Init_run in Hinit.
  unfold MyFlyControl.Init in Hinit.
  destruct (sp_Init c err (fc_serial (deref m id))) as [[ok e] p] eqn:Hp.
  destruct ok; [discriminate Hinit|]. injection Hinit as <- <-. cbn.
  cbn in Hp. unfold MySerial.Init in Hp.
  destruct (Init_try c (fc_serial (deref m id))) as [[o l]|ex]; [discriminate Hp|].
  injection Hp as <- <-. split; [done|]. exists id. split; [done|].
  assert (Hd : ∀ d, deref (store id d m) id = d).
  { intros d. unfold deref. cbn. by rewrite lookup_insert_eq. }
  rewrite Hd. split; [done|]. unfold Start, GetInitializedController. cbn. rewrite E, Hi.
  unfold Start_run, MyFlyControl.Start. rewrite Hd. unfold MyFlyControl.IsRunning in Hrun. cbn.
  by rewrite Hrun.
Qed.

Lemma failed_reinit_stays_initialized_witness :
  IsInitialized (Init (VObj []) None loopback_manager).2 = true.
Proof.
  destruct (Init (VObj []) None loopback_manager) as [[ok e] m'] eqn:E.
  assert (Hok : ok = false) by (vm_compute in E; by injection E).
  subst ok. apply (failed_reinit_stays_initialized (VObj []) None loopback_manager e m' None);
    [vm_compute; reflexivity|vm_compute; reflexivity|vm_compute; discriminate|exact E].
Defined.

(** The running check of [Init] does not protect the call it guards: a
    [Start] may come between them, so a manager can reach a state in which an
    [Init] call that passed the check is about to re-initialise the port of a
    driver that is running. *)
Theorem init_start_race :
  ∃ st : loopback_system,
    rtc mgr_step system_init st ∧
    ∃ id c err, p_Init_run id c err ∈ sys_calls st ∧
                MyFlyControl.IsRunning (deref (sys_mgr st) id) = true.
Proof.
  eexists. split.
  - etransitivity; [apply loopback_inited|].
    eapply rtc_l; [apply step_enter; [done|]; eapply (enter_Start _ None); vm_compute; reflexivity|].
    eapply rtc_l; [apply step_enter; [done|]; eapply (enter_Init _ loopback_cfg None); vm_compute; reflexivity|].
    section_of [p_Init_run 0 loopback_cfg None : loopback_call] (@nil loopback_call); [apply run_Start_check; reflexivity|].
    section_of [p_Init_run 0 loopback_cfg None : loopback_call] (@nil loopback_call); [eapply (run_Start_open _ _ _ true); vm_compute; reflexivity|].
    section_of [p_Init_run 0 loopback_cfg None : loopback_call] (@nil loopback_call); [apply run_Start_reset|].
    section_of [p_Init_run 0 loopback_cfg None : loopback_call] (@nil loopback_call); [apply run_Start_flag|].
    apply rtc_refl.
  - exists 0%nat, loopback_cfg, None. split; [apply list_elem_of_here|]. vm_compute. reflexivity.
Qed.

(** Two [Start] calls that both pass the running check both create a thread:
    the second assigns over a thread nobody joined, which ends the program. *)
Theorem start_start_race :
  ∃ st : loopback_system, rtc mgr_step system_init st ∧ sys_terminated st = true.
Proof.
  eexists. split.
  - etransitivity; [apply loopback_inited|].
    eapply rtc_l; [apply step_enter; [done|]; eapply (enter_Start _ None); vm_compute; reflexivity|].
    eapply rtc_l; [apply step_enter; [done|]; eapply (enter_Start _ None); vm_compute; reflexivity|].
    section_of [p_Start 0 None : loopback_call] (@nil loopback_call); [apply run_Start_check; reflexivity|].
    section_of (@nil loopback_call) [p_Start_open 0 None : loopback_call]; [apply run_Start_check; reflexivity|].
    section_of (@nil loopback_call) [p_Start_open 0 None : loopback_call]; [eapply (run_Start_open _ _ _ true); vm_compute; reflexivity|].
    section_of (@nil loopback_call) [p_Start_open 0 None : loopback_call]; [apply run_Start_reset|].
    section_of (@nil loopback_call) [p_Start_open 0 None : loopback_call]; [apply run_Start_flag|].
    section_of (@nil loopback_call) [p_Start_open 0 None : loopback_call]; [eapply run_Start_thread; vm_compute; reflexivity|].
    section_of (@nil loopback_call) (@nil loopback_call); [eapply (run_Start_open _ _ _ true); vm_compute; reflexivity|].
    section_of (@nil loopback_call) (@nil loopback_call); [apply run_Start_reset|].
    section_of (@nil loopback_call) (@nil loopback_call); [apply run_Start_flag|].
    section_of (@nil loopback_call) (@nil loopback_call); [apply run_Start_terminates; vm_compute; reflexivity|].
    apply rtc_refl.
  - reflexivity.
Qed.

(** [Shutdown], uninterrupted: the manager is left uninitialised on a
    fresh driver with every field at its default; the old driver is stopped
    without a thread, and no other driver changes. *)
Theorem Shutdown_spec {cfg S} `{SerialPort cfg S} {CBh CBr CBg}
    (m : Manager S CBh CBr CBg) r m' :
  (∀ id, controller_ m = Some id → (id < mg_next m)%nat) →
  Shutdown m = (r, m') →
  IsInitialized m' = false ∧ IsRunning m' = false ∧ HasHeartbeat m' = false ∧
  controller_ m' = Some (mg_next m) ∧ deref m' (mg_next m) = MyFlyControl_default ∧
  (∀ id, controller_ m = Some id → MyFlyControl.IsRunning (deref m' id) = false) ∧
  (∀ id, controller_ m ≠ Some id → id ≠ mg_next m → deref m' id = deref m id).
Proof.
  intros Hlt. unfold Shutdown, Shutdown_swap.
  set (mf := set_initialized false (fresh_controller m)).
  assert (Hd : ∀ m0 i d j, deref (store (S := S) (CBh := CBh) (CBr := CBr) (CBg := CBg) i d m0) j
                           = if decide (i = j) then d else deref m0 j).
  { intros m0 i d j. unfold deref. cbn. rewrite lookup_insert. by destruct (decide _). }
  assert (Hf : ∀ j, deref mf j = if decide (mg_next m = j) then MyFlyControl_default else deref m j).
  { intros j. unfold deref, mf. cbn. rewrite lookup_insert. by destruct (decide _). }
  destruct (controller_ m) as [id|] eqn:E.
  - specialize (Hlt id eq_refl). unfold stop_controller.
    destruct (MyFlyControl.Stop (deref mf id)) as [r' d] eqn:Hs. intros [= <- <-].
    unfold IsRunning, HasHeartbeat, GetControllerSnapshot. cbn [store controller_ mf set_initialized fresh_controller].
    rewrite Hd, Hf, (decide_False (P := id = mg_next m)), (decide_True (P := mg_next m = mg_next m)) by lia.
    split_and!; try done.
    + intros i [= <-]. rewrite Hd, decide_True by done.
      unfold MyFlyControl.Stop in Hs. unfold MyFlyControl.IsRunning.
      destruct (fc_running (deref mf id)) eqn:Hr; cbn in Hs; [|injection Hs as _ <-; done].
      destruct (sp_Close _) as [? ?]. by injection Hs as _ <-.
    + intros i Hi Hne. rewrite Hd, Hf, decide_False, decide_False by congruence. done.
  - intros [= <- <-]. unfold IsRunning, HasHeartbeat, GetControllerSnapshot.
    cbn [controller_ mf set_initialized fresh_controller]. fold mf.
    rewrite Hf, (decide_True (P := mg_next m = mg_next m)) by lia.
    split_and!; try done. intros i _ Hne. rewrite Hf, decide_False by congruence. done.
Qed.

Lemma Shutdown_spec_witness :
  IsInitialized (Shutdown (Start None loopback_manager).2).2 = false ∧
  MyFlyControl.IsRunning (deref (Shutdown (Start None loopback_manager).2).2 0) = false.
Proof.
  destruct (Shutdown (Start None loopback_manager).2) as [r m'] eqn:E.
  assert (Hc : controller_ (Start None loopback_manager).2 = Some 0%nat) by (vm_compute; reflexivity).
  destruct (Shutdown_spec (Start None loopback_manager).2 r m') as (Hi & _ & _ & _ & _ & Hs & _).
  - rewrite Hc. intros id [= <-]. apply Nat.ltb_lt. vm_compute. reflexivity.
  - exact E.
  - split; [exact Hi|]. apply Hs, Hc.
Defined.
