(* ===== verification/ThreadSafeQueue.v ===== *)
(** * The bounded blocking queue

    Model of tools/thread_safe_queue/thread_safe_queue.h.  [push_section] and
    [pop_section] are what a thread does from the moment it holds [mutex_] until
    it returns or blocks: a thread that is woken starts its [while] test again
    from there.  [tsq_step] runs any number of threads over one queue: calls,
    blocking, wake-ups (spurious ones too), timeouts and the unblocking
    operations.  Logging is left out, and with it [usedLog_]. *)

From S2P Require Import Prelude CondVar.

Section queue.
Context {T : Type}.

(** ** The queue and its critical sections *)

Record ThreadSafeQueue := {
  queue_ : list T;
  max_size_ : nat;
  shutdown_ : bool
}.

Definition ThreadSafeQueue_default : ThreadSafeQueue :=
  {| queue_ := []; max_size_ := 1000; shutdown_ := false |}.

Definition set_queue (l : list T) (q : ThreadSafeQueue) : ThreadSafeQueue :=
  {| queue_ := l; max_size_ := max_size_ q; shutdown_ := shutdown_ q |}.

Definition init (max_size : nat) (q : ThreadSafeQueue) : ThreadSafeQueue :=
  {| queue_ := queue_ q; max_size_ := max_size; shutdown_ := shutdown_ q |}.
Definition setMaxSize (max_size : nat) (q : ThreadSafeQueue) : ThreadSafeQueue :=
  {| queue_ := queue_ q; max_size_ := max_size; shutdown_ := shutdown_ q |}.

(** A section ends with the call's result or by waiting on the condition
    variable. *)
Inductive section (R : Type) :=
| Done (r : R)
| Block.
Arguments Done {R} _.
Arguments Block {R}.

Definition push_section (item : T) (block : bool) (q : ThreadSafeQueue)
    : section bool * ThreadSafeQueue :=
  if negb block && (max_size_ q <=? length (queue_ q))%nat then (Done false, q)
  else if block && ((max_size_ q <=? length (queue_ q))%nat && negb (shutdown_ q)) then (Block, q)
  else if shutdown_ q then (Done false, q)
  else (Done true, set_queue (queue_ q ++ [item]) q).

(** [Done None] is [return false]; the timed and the untimed wait differ only
    in how the wait can end. *)
Definition pop_section (block : bool) (q : ThreadSafeQueue) : section (option T) * ThreadSafeQueue :=
  match queue_ q with
  | [] =>
      if negb block then (Done None, q)
      else if negb (shutdown_ q) then (Block, q)
      else (Done None, q)
  | x :: rest => (Done (Some x), set_queue rest q)
  end.

(** [wait_until] reported a timeout: the call returns false at once. *)
Definition pop_timeout (q : ThreadSafeQueue) : option T * ThreadSafeQueue := (None, q).

Definition clear (q : ThreadSafeQueue) : ThreadSafeQueue := set_queue [] q.
Definition size (q : ThreadSafeQueue) : nat := length (queue_ q).
Definition empty (q : ThreadSafeQueue) : bool := match queue_ q with [] => true | _ => false end.
Definition shutdown (q : ThreadSafeQueue) : ThreadSafeQueue :=
  {| queue_ := queue_ q; max_size_ := max_size_ q; shutdown_ := true |}.

(** ** Threads *)

(** A thread is outside the queue, blocked in [cond_not_full_] or
    [cond_not_empty_], or notified and about to take the mutex again; [timed]
    says whether a pop has a deadline. *)
Inductive thread :=
| Idle
| PushWait (item : T)
| PushWoken (item : T)
| PopWait (timed : bool)
| PopWoken (timed : bool).

Definition push_waiting (t : thread) : bool := match t with PushWait _ => true | _ => false end.
Definition push_awake (t : thread) : bool := match t with PushWoken _ => true | _ => false end.
Definition pop_waiting (t : thread) : bool := match t with PopWait _ => true | _ => false end.
Definition pop_awake (t : thread) : bool := match t with PopWoken _ => true | _ => false end.

Definition push_wake (t : thread) : thread :=
  match t with PushWait x => PushWoken x | _ => t end.
Definition pop_wake (t : thread) : thread :=
  match t with PopWait b => PopWoken b | _ => t end.

(** Who may run a push (pop) section: a thread making the call, or one that
    blocked in it and was woken. *)
Inductive may_push : thread → T → bool → Prop :=
| push_call x block : may_push Idle x block
| push_retry x : may_push (PushWoken x) x true.

Inductive may_pop : thread → bool → bool → Prop :=
| pop_call block timed : may_pop Idle block timed
| pop_retry timed : may_pop (PopWoken timed) true timed.

(** The state of the system; [accepted] and [removed] record the items that
    entered and left the queue (by a pop or a clear), in order, and [widest]
    the largest capacity so far. *)
Record state := {
  sq : ThreadSafeQueue;
  threads : list thread;
  accepted : list T;
  removed : list T;
  widest : nat
}.

(** What kind of step it was. *)
Inductive label := LCall | LTimeout | LResize | LSpurious.

Inductive tsq_step : label → state → state → Prop :=
| push_done q ts acc rem w i t x block q' ts' :
    ts !! i = Some t → may_push t x block → push_section x block q = (Done true, q') →
    notify_one pop_waiting pop_wake (<[i := Idle]> ts) ts' →
    tsq_step LCall {| sq := q; threads := ts; accepted := acc; removed := rem; widest := w |}
      {| sq := q'; threads := ts'; accepted := acc ++ [x]; removed := rem; widest := w |}
| push_refused q ts acc rem w i t x block q' :
    ts !! i = Some t → may_push t x block → push_section x block q = (Done false, q') →
    tsq_step LCall {| sq := q; threads := ts; accepted := acc; removed := rem; widest := w |}
      {| sq := q'; threads := <[i := Idle]> ts; accepted := acc; removed := rem; widest := w |}
| push_blocks q ts acc rem w i t x block q' :
    ts !! i = Some t → may_push t x block → push_section x block q = (Block, q') →
    tsq_step LCall {| sq := q; threads := ts; accepted := acc; removed := rem; widest := w |}
      {| sq := q'; threads := <[i := PushWait x]> ts; accepted := acc; removed := rem; widest := w |}
| pop_done q ts acc rem w i t block timed x q' ts' :
    ts !! i = Some t → may_pop t block timed → pop_section block q = (Done (Some x), q') →
    notify_one push_waiting push_wake (<[i := Idle]> ts) ts' →
    tsq_step LCall {| sq := q; threads := ts; accepted := acc; removed := rem; widest := w |}
      {| sq := q'; threads := ts'; accepted := acc; removed := rem ++ [x]; widest := w |}
| pop_nothing q ts acc rem w i t block timed q' :
    ts !! i = Some t → may_pop t block timed → pop_section block q = (Done None, q') →
    tsq_step LCall {| sq := q; threads := ts; accepted := acc; removed := rem; widest := w |}
      {| sq := q'; threads := <[i := Idle]> ts; accepted := acc; removed := rem; widest := w |}
| pop_blocks q ts acc rem w i t block timed q' :
    ts !! i = Some t → may_pop t block timed → pop_section block q = (Block, q') →
    tsq_step LCall {| sq := q; threads := ts; accepted := acc; removed := rem; widest := w |}
      {| sq := q'; threads := <[i := PopWait timed]> ts; accepted := acc; removed := rem; widest := w |}
| pop_expires q ts acc rem w i t :
    ts !! i = Some t → t = PopWait true ∨ t = PopWoken true →
    tsq_step LTimeout {| sq := q; threads := ts; accepted := acc; removed := rem; widest := w |}
      {| sq := (pop_timeout q).2; threads := <[i := Idle]> ts; accepted := acc; removed := rem;
         widest := w |}
| spurious_push q ts acc rem w i x :
    ts !! i = Some (PushWait x) →
    tsq_step LSpurious {| sq := q; threads := ts; accepted := acc; removed := rem; widest := w |}
      {| sq := q; threads := <[i := PushWoken x]> ts; accepted := acc; removed := rem; widest := w |}
| spurious_pop q ts acc rem w i b :
    ts !! i = Some (PopWait b) →
    tsq_step LSpurious {| sq := q; threads := ts; accepted := acc; removed := rem; widest := w |}
      {| sq := q; threads := <[i := PopWoken b]> ts; accepted := acc; removed := rem; widest := w |}
| clear_step q ts acc rem w :
    tsq_step LCall {| sq := q; threads := ts; accepted := acc; removed := rem; widest := w |}
      {| sq := clear q; threads := notify_all push_waiting push_wake ts; accepted := acc;
         removed := rem ++ queue_ q; widest := w |}
| shutdown_step q ts acc rem w :
    tsq_step LCall {| sq := q; threads := ts; accepted := acc; removed := rem; widest := w |}
      {| sq := shutdown q;
         threads := notify_all pop_waiting pop_wake (notify_all push_waiting push_wake ts);
         accepted := acc; removed := rem; widest := w |}
| resize_step q ts acc rem w n :
    tsq_step LResize {| sq := q; threads := ts; accepted := acc; removed := rem; widest := w |}
      {| sq := setMaxSize n q; threads := ts; accepted := acc; removed := rem;
         widest := Nat.max w n |}.

Definition any_step (s s' : state) : Prop := ∃ l, tsq_step l s s'.

(** Steps other than timeouts and changes of capacity. *)
Definition plain_step (s s' : state) : Prop := ∃ l, l ≠ LTimeout ∧ l ≠ LResize ∧ tsq_step l s s'.

Definition start (n : nat) (capacity : nat) : state := {|
  sq := init capacity ThreadSafeQueue_default; threads := replicate n Idle;
  accepted := []; removed := []; widest := capacity |}.

End queue.
Arguments ThreadSafeQueue : clear implicits.
Arguments thread : clear implicits.
Arguments state : clear implicits.
Arguments Done {R} _.
Arguments Block {R}.

(** ** Order, capacity and shutdown *)

Section facts.
Context {T : Type}.
Implicit Types q : ThreadSafeQueue T.

Lemma push_section_Done x block q q' :
  push_section x block q = (Done true, q') →
  shutdown_ q = false ∧ (length (queue_ q) < max_size_ q)%nat ∧ q' = set_queue (queue_ q ++ [x]) q.
Proof.
  unfold push_section. destruct block, (shutdown_ q), (_ <=? _)%nat eqn:E; cbn; intros [=]; subst;
    split_and!; done || lia.
Qed.

Lemma push_section_Block x block q q' :
  push_section x block q = (Block, q') →
  shutdown_ q = false ∧ (max_size_ q <= length (queue_ q))%nat ∧ q' = q.
Proof.
  unfold push_section. destruct block, (shutdown_ q), (_ <=? _)%nat eqn:E; cbn; intros [=]; subst;
    split_and!; done || lia.
Qed.

Lemma push_section_refused x block q q' :
  push_section x block q = (Done false, q') →
  q' = q ∧ ((block = false ∧ (max_size_ q <= length (queue_ q))%nat) ∨ shutdown_ q = true).
Proof.
  unfold push_section. destruct block, (shutdown_ q), (_ <=? _)%nat eqn:E; cbn; intros [=]; subst;
    split; try done; (by right) || (left; split; [done|lia]).
Qed.

Lemma pop_section_Some block q x q' :
  pop_section block q = (Done (Some x), q') → queue_ q = x :: queue_ q' ∧ q' = set_queue (queue_ q') q.
Proof.
  unfold pop_section. destruct (queue_ q) as [|y l]; [by repeat case_match; intros [=]|].
  by intros [= <- <-].
Qed.

Lemma pop_section_None block q q' :
  pop_section block q = (Done None, q') →
  q' = q ∧ queue_ q = [] ∧ (block = false ∨ shutdown_ q = true).
Proof.
  unfold pop_section. destruct (queue_ q) as [|y l]; [|by intros [=]].
  destruct block; cbn; [destruct (shutdown_ q); cbn|]; intros [=]; subst; auto.
Qed.

Lemma pop_section_Block block q q' :
  pop_section block q = (Block, q') → q' = q ∧ queue_ q = [] ∧ shutdown_ q = false ∧ block = true.
Proof.
  unfold pop_section. destruct (queue_ q) as [|y l]; [|by intros [=]].
  destruct block; cbn; [destruct (shutdown_ q); cbn|]; intros [=]; subst; auto.
Qed.

(** Items leave in the order they came in; never more than the widest capacity;
    after a shutdown nobody is blocked. *)
Record tsq_ok (s : state T) : Prop := {
  ok_order : accepted s = removed s ++ queue_ (sq s);
  ok_max : (max_size_ (sq s) <= widest s)%nat;
  ok_length : (length (queue_ (sq s)) <= widest s)%nat;
  ok_shutdown : shutdown_ (sq s) = true →
    count push_waiting (threads s) = 0%nat ∧ count pop_waiting (threads s) = 0%nat
}.

(** A thread that stops waiting, or never was, keeps the count at zero. *)
Lemma count_insert_zero (P : thread T → bool) ts i t t' :
  ts !! i = Some t → P t' = false → count P ts = 0%nat → count P (<[i := t']> ts) = 0%nat.
Proof. intros Hi Ht H0. pose proof (count_insert P ts i t t' Hi) as Hc. rewrite Ht, H0 in Hc. lia. Qed.

Lemma notify_pop_zero (P : thread T → bool) ts ts' :
  (∀ t, pop_waiting t = true → P (pop_wake t) = P t ∨ P (pop_wake t) = false) →
  notify_one pop_waiting pop_wake ts ts' → count P ts = 0%nat → count P ts' = 0%nat.
Proof.
  intros HP [i t Hi Ht|_] H0; [|done]. eapply count_insert_zero; [done| |done].
  destruct (HP t Ht) as [->|]; [|done]. rewrite count_zero in H0. by eapply H0.
Qed.

Lemma tsq_ok_step l s s' : tsq_ok s → tsq_step l s s' → tsq_ok s'.
Proof.
  intros [Ho Hm Hl Hs] Hstep. destruct Hstep; cbn in *.
  - destruct (push_section_Done _ _ _ _ H1) as (Hsh & Hlt & ->). split; cbn.
    + by rewrite Ho, app_assoc.
    + done.
    + rewrite length_app. cbn. lia.
    + congruence.
  - destruct (push_section_refused _ _ _ _ H1) as [-> _]. split; cbn; try done.
    intros Hsh. destruct (Hs Hsh). split; by eapply count_insert_zero.
  - destruct (push_section_Block _ _ _ _ H1) as (Hsh & _ & ->). split; cbn; try done. congruence.
  - destruct (pop_section_Some _ _ _ _ H1) as [Hq Hq']. split; cbn.
    + by rewrite Ho, Hq, <- app_assoc.
    + by rewrite Hq'.
    + rewrite Hq in Hl. cbn in Hl. lia.
    + rewrite Hq'. cbn. intros Hsh. destruct (Hs Hsh) as [Hs1 Hs2].
      assert (He : ts' = <[i:=Idle]> ts).
      { destruct H2 as [j t' Hj Hw|_]; [|done]. exfalso.
        assert (H0' : count push_waiting (<[i:=Idle]> ts) = 0%nat) by (by eapply count_insert_zero).
        rewrite count_zero in H0'. by rewrite (H0' j t' Hj) in Hw. }
      subst ts'. split; by eapply count_insert_zero.
  - destruct (pop_section_None _ _ _ H1) as [-> _]. split; cbn; try done.
    intros Hsh. destruct (Hs Hsh). split; by eapply count_insert_zero.
  - destruct (pop_section_Block _ _ _ H1) as (-> & _ & Hsh & _). split; cbn; try done. congruence.
  - split; cbn; try done. intros Hsh. destruct (Hs Hsh). split; by eapply count_insert_zero.
  - split; cbn; try done. intros Hsh. destruct (Hs Hsh). split; by eapply count_insert_zero.
  - split; cbn; try done. intros Hsh. destruct (Hs Hsh). split; by eapply count_insert_zero.
  - split; cbn; [by rewrite app_nil_r|done|lia|]. intros Hsh. destruct (Hs Hsh) as [Hs1 Hs2]. split.
    + apply notify_all_none. by intros [].
    + rewrite notify_all_count; [done|]. by intros [].
  - split; cbn; try done. intros _. split.
    + rewrite notify_all_count by (by intros []). apply notify_all_none. by intros [].
    + apply notify_all_none. by intros [].
  - split; cbn; [done|lia|lia|done].
Qed.

Lemma tsq_ok_start n cap : tsq_ok (start (T := T) n cap).
Proof. split; cbn; try done; lia. Qed.

Lemma tsq_ok_reachable n cap s : rtc any_step (start (T := T) n cap) s → tsq_ok s.
Proof.
  intros Hr. pose proof (tsq_ok_start n cap) as Hok. revert Hok.
  induction Hr as [|s0 s1 s2 [l Hstep] _ IH]; [done|]. intros Hok.
  by eapply IH, tsq_ok_step.
Qed.
End facts.

(** C35: any number of threads calling one queue, with every interleaving,
    spurious wake-up, timeout, clear, shutdown and change of capacity: items
    leave the queue in the order they were accepted, none lost or duplicated;
    it never holds more than the largest capacity it was given; and once it is
    shut down no thread is blocked in it. *)
Theorem tsq_fifo_bounded {T} n cap (s : state T) :
  rtc any_step (start n cap) s →
  accepted s = removed s ++ queue_ (sq s) ∧
  (length (queue_ (sq s)) <= widest s)%nat ∧
  (shutdown_ (sq s) = true → ∀ i t, threads s !! i = Some t →
     push_waiting t = false ∧ pop_waiting t = false).
Proof.
  intros Hr. destruct (tsq_ok_reachable n cap s Hr) as [Ho Hm Hl Hs]. split_and!; [done..|].
  intros Hsh i t Hi. destruct (Hs Hsh) as [H1 H2]. rewrite count_zero in H1, H2. by eauto.
Qed.

(** ** Wake-ups *)

Section wakeups.
Context {T : Type}.

(** Every item beyond the awake consumers finds no consumer asleep; every free
    place beyond the awake producers finds no producer asleep. *)
Definition awake_ok (s : state T) : Prop :=
  (0 < count pop_waiting (threads s) →
   length (queue_ (sq s)) <= count pop_awake (threads s))%nat ∧
  (0 < count push_waiting (threads s) →
   max_size_ (sq s) - length (queue_ (sq s)) <= count push_awake (threads s))%nat.

Lemma awake_ok_shut (s : state T) : tsq_ok s → shutdown_ (sq s) = true → awake_ok s.
Proof. intros Hok Hs. destruct (ok_shutdown s Hok Hs) as [H1 H2]. split; lia. Qed.

(** The four counts after one thread's state changes. *)
Ltac counts Hi t' :=
  let a := fresh "C" in let b := fresh "C" in let c := fresh "C" in let d := fresh "C" in
  pose proof (count_insert pop_waiting _ _ _ t' Hi) as a;
  pose proof (count_insert pop_awake _ _ _ t' Hi) as b;
  pose proof (count_insert push_waiting _ _ _ t' Hi) as c;
  pose proof (count_insert push_awake _ _ _ t' Hi) as d;
  cbn [pop_waiting pop_awake push_waiting push_awake] in a, b, c, d.

Lemma awake_ok_step (s s' : state T) : tsq_ok s → awake_ok s → plain_step s s' → awake_ok s'.
Proof.
  intros Hok [Hpop Hpush] (l & Ht & Hr & Hstep).
  pose proof (tsq_ok_step _ _ _ Hok Hstep) as Hok'.
  destruct Hstep; cbn in *; try done.
  - destruct (push_section_Done _ _ _ _ H1) as (_ & Hlt & ->). counts H (@Idle T).
    unfold awake_ok; cbn. rewrite length_app. cbn.
    rewrite (notify_one_other pop_waiting pop_wake push_waiting _ ts') by (done || by intros []).
    rewrite (notify_one_other pop_waiting pop_wake push_awake _ ts') by (done || by intros []).
    destruct (notify_one_count pop_waiting pop_wake pop_awake _ ts' ltac:(by intros []) H2) as [[H3 ->]|[H3 H4]];
      destruct H0; cbn in *; split; lia.
  - destruct (push_section_refused _ _ _ _ H1) as [-> [[-> _]|Hsh]]; [|by apply awake_ok_shut].
    inversion H0; subst. rewrite list_insert_id by done. by split.
  - destruct (push_section_Block _ _ _ _ H1) as (_ & Hlt & ->). counts H (PushWait x).
    destruct H0; cbn in *; split; cbn; lia.
  - destruct (pop_section_Some _ _ _ _ H1) as [Hq Hq']. counts H (@Idle T).
    rewrite Hq in Hpop, Hpush. cbn in Hpop, Hpush.
    unfold awake_ok; cbn. rewrite Hq'. cbn.
    rewrite (notify_one_other push_waiting push_wake pop_waiting _ ts') by (done || by intros []).
    rewrite (notify_one_other push_waiting push_wake pop_awake _ ts') by (done || by intros []).
    destruct (notify_one_count push_waiting push_wake push_awake _ ts' ltac:(by intros []) H2) as [[H3 ->]|[H3 H4]];
      destruct H0; cbn in *; split; lia.
  - destruct (pop_section_None _ _ _ H1) as (-> & Hq & _). counts H (@Idle T).
    unfold awake_ok; cbn. rewrite Hq in *. cbn in *. destruct H0; cbn in *; split; lia.
  - destruct (pop_section_Block _ _ _ H1) as (-> & Hq & _). counts H (@PopWait T timed).
    unfold awake_ok; cbn. rewrite Hq in *. cbn in *. destruct H0; cbn in *; split; lia.
  - counts H (PushWoken x). split; cbn; lia.
  - counts H (@PopWoken T b). split; cbn; lia.
  - split; cbn; [lia|]. rewrite notify_all_none; [lia|]. by intros [].
  - by apply awake_ok_shut.
Qed.
End wakeups.

(** As long as no pop times out and the capacity is not changed, no
    wake-up is lost: in every reachable state, a consumer is blocked while the
    queue holds items only if at least as many consumers as there are items are
    already awake to take them, and a producer is blocked while there is room
    only if as many producers as there are free places are awake. *)
Theorem tsq_no_lost_wakeup {T} n cap (s : state T) :
  rtc plain_step (start n cap) s → awake_ok s.
Proof.
  intros Hr.
  assert (H0 : tsq_ok (start (T := T) n cap) ∧ awake_ok (start (T := T) n cap)).
  { split; [apply tsq_ok_start|].
    assert (Hz : ∀ P : thread T → bool, P Idle = false → count P (replicate n Idle) = 0%nat).
    { intros P HP. apply count_zero. intros i t Hi. apply lookup_replicate in Hi as [-> _]. done. }
    split; cbn; rewrite Hz by done; lia. }
  revert H0. induction Hr as [|s0 s1 s2 Hstep _ IH]; [by intros []|]. intros [Hok Haw].
  apply IH. split; [|by eapply awake_ok_step].
  destruct Hstep as (l & _ & _ & Hstep). by eapply tsq_ok_step.
Qed.

(** Raising the capacity does not wake the producers that wait for room:
    a reachable state has a thread blocked in a push while there is room, the
    queue is open and no other thread is inside it. *)
Theorem tsq_resize_keeps_pusher_blocked :
  ∃ (s : state nat) i x,
    rtc any_step (start 1 1) s ∧ threads s !! i = Some (PushWait x) ∧
    (length (queue_ (sq s)) < max_size_ (sq s))%nat ∧ shutdown_ (sq s) = false ∧
    ∀ j t, threads s !! j = Some t → j ≠ i → t = Idle.
Proof.
  eexists _, 0%nat, 8%nat. split.
  - eapply rtc_l; [eexists; eapply (push_done _ [Idle] [] [] 1 0 Idle 7 true); [done|constructor|done|by apply notify_none]|].
    eapply rtc_l; [eexists; eapply (push_blocks _ [Idle] [7%nat] [] 1 0 Idle 8 true); [done|constructor|done]|].
    eapply rtc_l; [eexists; apply (resize_step _ _ _ _ _ 5)|]. apply rtc_refl.
  - split_and!; [done|cbn; lia|done|]. intros [|j] t; [done|]. done.
Qed.

(** A pop whose deadline passes after it was notified swallows the
    wake-up: it returns false without looking at the queue again, so a
    reachable state has a thread blocked in a pop without deadline while the
    queue holds an item and no other thread is inside it. *)
Theorem tsq_timeout_swallows_wakeup :
  ∃ (s : state nat) i,
    rtc any_step (start 3 10) s ∧ threads s !! i = Some (PopWait false) ∧
    queue_ (sq s) ≠ [] ∧ shutdown_ (sq s) = false ∧
    ∀ j t, threads s !! j = Some t → j ≠ i → t = Idle.
Proof.
  eexists _, 1%nat. split.
  - eapply rtc_l; [eexists; eapply (pop_blocks _ _ _ _ _ 0 Idle true true); [done|constructor|done]|].
    eapply rtc_l; [eexists; eapply (pop_blocks _ _ _ _ _ 1 Idle true false); [done|constructor|done]|].
    eapply rtc_l; [eexists; eapply (push_done _ _ _ _ _ 2 Idle 7 true); [done|constructor|done|]|].
    { by apply (notify_some _ _ _ 0 (PopWait true)). }
    eapply rtc_l; [eexists; eapply (pop_expires _ _ _ _ _ 0); [done|by right]|]. apply rtc_refl.
  - split_and!; [done|done|done|]. intros [|[|[|j]]] t; cbn; try done; by intros [= <-].
Qed.

Lemma tsq_fifo_bounded_witness :
  ∃ s : state nat, rtc any_step (start 1 2) s ∧ accepted s = removed s ++ queue_ (sq s) ∧
                   accepted s = [7%nat; 8%nat].
Proof.
  eexists. split; [|split].
  - eapply rtc_l; [eexists; eapply (push_done _ [Idle] [] [] 2 0 Idle 7 true); [done|constructor|done|by apply notify_none]|].
    eapply rtc_l; [eexists; eapply (push_done _ [Idle] [7%nat] [] 2 0 Idle 8 true); [done|constructor|done|by apply notify_none]|].
    eapply rtc_l; [eexists; eapply (pop_done _ [Idle] _ [] 2 0 Idle true false 7%nat); [done|constructor|done|by apply notify_none]|].
    apply rtc_refl.
  - refine (proj1 (tsq_fifo_bounded 1 2 _ _)).
    eapply rtc_l; [eexists; eapply (push_done _ [Idle] [] [] 2 0 Idle 7 true); [done|constructor|done|by apply notify_none]|].
    eapply rtc_l; [eexists; eapply (push_done _ [Idle] [7%nat] [] 2 0 Idle 8 true); [done|constructor|done|by apply notify_none]|].
    eapply rtc_l; [eexists; eapply (pop_done _ [Idle] _ [] 2 0 Idle true false 7%nat); [done|constructor|done|by apply notify_none]|].
    apply rtc_refl.
  - reflexivity.
Defined.

Lemma tsq_no_lost_wakeup_witness :
  awake_ok {| sq := set_queue [7%nat] (init 2 ThreadSafeQueue_default); threads := [PopWoken false; Idle];
              accepted := [7%nat]; removed := []; widest := 2 |}.
Proof.
  apply (tsq_no_lost_wakeup 2 2).
  eapply rtc_l; [exists LCall; split_and!; [done|done|]; eapply (pop_blocks _ _ _ _ _ 0 Idle true false); [done|constructor|done]|].
  eapply rtc_l; [exists LCall; split_and!; [done|done|]; eapply (push_done _ _ _ _ _ 1 Idle 7%nat true); [done|constructor|done|]|].
  { by apply (notify_some _ _ _ 0 (PopWait false)). }
  apply rtc_refl.
Defined.
