(* ===== verification/BlockingQueue.v ===== *)
(** * The MQTT send and receive queue

    Model of my_fast_MQTT/BlockingQueue.hpp.  Pushes never block; a pop waits
    with a predicate, so a pop whose deadline passes tests the queue once more
    before it gives up.  [bq_step] runs any number of consumers over one queue
    while other threads push, clear and shut down. *)

From S2P Require Import Prelude CondVar.

Section queue.
Context {T : Type}.

Record BlockingQueue := {
  queue_ : list T;
  max_size_ : nat;
  shutdown_ : bool
}.

(** The constructor; capacity 0 means no limit. *)
Definition BlockingQueue_new (max_size : nat) : BlockingQueue :=
  {| queue_ := []; max_size_ := max_size; shutdown_ := false |}.

Definition set_queue (l : list T) (q : BlockingQueue) : BlockingQueue :=
  {| queue_ := l; max_size_ := max_size_ q; shutdown_ := shutdown_ q |}.

(** Both overloads; [true] comes with a [notify_one]. *)
Definition Push (value : T) (q : BlockingQueue) : bool * BlockingQueue :=
  if shutdown_ q then (false, q)
  else if negb (max_size_ q =? 0)%nat && (max_size_ q <=? length (queue_ q))%nat then (false, q)
  else (true, set_queue (queue_ q ++ [value]) q).

(** The predicate of both waits. *)
Definition ready (q : BlockingQueue) : bool :=
  negb (match queue_ q with [] => true | _ => false end) || shutdown_ q.

(** What follows the wait: [None] is [return false]. *)
Definition take_front (q : BlockingQueue) : option T * BlockingQueue :=
  match queue_ q with
  | [] => (None, q)
  | x :: rest => (Some x, set_queue rest q)
  end.

(** [Pop], and [Pop] with a deadline, from the moment the mutex is held:
    [None] is blocking in the wait. *)
Definition Pop (q : BlockingQueue) : option (option T * BlockingQueue) :=
  if ready q then Some (take_front q) else None.

(** The deadline passed: [wait_for] returns the predicate. *)
Definition Pop_expired (q : BlockingQueue) : option T * BlockingQueue :=
  if negb (ready q) then (None, q) else take_front q.

Definition Shutdown (q : BlockingQueue) : BlockingQueue :=
  {| queue_ := queue_ q; max_size_ := max_size_ q; shutdown_ := true |}.
Definition Clear (q : BlockingQueue) : BlockingQueue := set_queue [] q.
Definition Size (q : BlockingQueue) : nat := length (queue_ q).
Definition Empty (q : BlockingQueue) : bool := match queue_ q with [] => true | _ => false end.
Definition IsShutdown (q : BlockingQueue) : bool := shutdown_ q.

(** ** Consumers *)

Inductive consumer :=
| Idle
| PopWait (timed : bool)
| PopWoken (timed : bool).

Definition waiting (t : consumer) : bool := match t with PopWait _ => true | _ => false end.
Definition awake (t : consumer) : bool := match t with PopWoken _ => true | _ => false end.
Definition wake (t : consumer) : consumer := match t with PopWait b => PopWoken b | _ => t end.

Inductive may_pop : consumer → bool → Prop :=
| pop_call timed : may_pop Idle timed
| pop_retry timed : may_pop (PopWoken timed) timed.

(** [accepted] and [removed]: the items that entered and left, in order. *)
Record state := {
  bq : BlockingQueue;
  consumers : list consumer;
  accepted : list T;
  removed : list T
}.

Inductive bq_step : state → state → Prop :=
| push_done q ts acc rem x q' ts' :
    Push x q = (true, q') → notify_one waiting wake ts ts' →
    bq_step {| bq := q; consumers := ts; accepted := acc; removed := rem |}
            {| bq := q'; consumers := ts'; accepted := acc ++ [x]; removed := rem |}
| pop_some q ts acc rem i t timed x q' :
    ts !! i = Some t → may_pop t timed → Pop q = Some (Some x, q') →
    bq_step {| bq := q; consumers := ts; accepted := acc; removed := rem |}
            {| bq := q'; consumers := <[i := Idle]> ts; accepted := acc; removed := rem ++ [x] |}
| pop_none q ts acc rem i t timed q' :
    ts !! i = Some t → may_pop t timed → Pop q = Some (None, q') →
    bq_step {| bq := q; consumers := ts; accepted := acc; removed := rem |}
            {| bq := q'; consumers := <[i := Idle]> ts; accepted := acc; removed := rem |}
| pop_blocks q ts acc rem i t timed :
    ts !! i = Some t → may_pop t timed → Pop q = None →
    bq_step {| bq := q; consumers := ts; accepted := acc; removed := rem |}
            {| bq := q; consumers := <[i := PopWait timed]> ts; accepted := acc; removed := rem |}
| pop_expires q ts acc rem i t o q' :
    ts !! i = Some t → t = PopWait true ∨ t = PopWoken true → Pop_expired q = (o, q') →
    bq_step {| bq := q; consumers := ts; accepted := acc; removed := rem |}
            {| bq := q'; consumers := <[i := Idle]> ts; accepted := acc;
               removed := rem ++ match o with Some x => [x] | None => [] end |}
| spurious q ts acc rem i b :
    ts !! i = Some (PopWait b) →
    bq_step {| bq := q; consumers := ts; accepted := acc; removed := rem |}
            {| bq := q; consumers := <[i := PopWoken b]> ts; accepted := acc; removed := rem |}
| clear_step q ts acc rem :
    bq_step {| bq := q; consumers := ts; accepted := acc; removed := rem |}
            {| bq := Clear q; consumers := ts; accepted := acc; removed := rem ++ queue_ q |}
| shutdown_step q ts acc rem :
    bq_step {| bq := q; consumers := ts; accepted := acc; removed := rem |}
            {| bq := Shutdown q; consumers := notify_all waiting wake ts; accepted := acc;
               removed := rem |}.

Definition start (n max_size : nat) : state :=
  {| bq := BlockingQueue_new max_size; consumers := replicate n Idle; accepted := []; removed := [] |}.

End queue.
Arguments BlockingQueue : clear implicits.
Arguments state : clear implicits.

Section facts.
Context {T : Type}.

(** Order, capacity, shutdown, wake-ups. *)
Record bq_ok (max_size : nat) (s : state T) : Prop := {
  ok_order : accepted s = removed s ++ queue_ (bq s);
  ok_max : max_size_ (bq s) = max_size;
  ok_length : max_size ≠ 0%nat → (length (queue_ (bq s)) <= max_size)%nat;
  ok_shutdown : shutdown_ (bq s) = true → count waiting (consumers s) = 0%nat;
  ok_awake : (0 < count waiting (consumers s) →
              length (queue_ (bq s)) <= count awake (consumers s))%nat
}.

Lemma Push_true (x : T) q q' :
  Push x q = (true, q') →
  shutdown_ q = false ∧ q' = set_queue (queue_ q ++ [x]) q ∧
  (max_size_ q ≠ 0%nat → (length (queue_ q) < max_size_ q)%nat).
Proof.
  unfold Push. destruct (shutdown_ q); [done|]. destruct (_ && _) eqn:E; intros [=]; subst.
  split_and!; [done..|]. lia.
Qed.

Lemma take_front_spec (q : BlockingQueue T) o q' :
  take_front q = (o, q') →
  q' = set_queue (queue_ q') q ∧
  queue_ q = match o with Some x => [x] | None => [] end ++ queue_ q'.
Proof.
  unfold take_front. destruct q as [[|x l] m s]; cbn; by intros [= <- <-].
Qed.

(** Taking the front away in any of the pops. *)
Lemma bq_ok_take m q ts acc rem i t o q' :
  bq_ok m {| bq := q; consumers := ts; accepted := acc; removed := rem |} →
  ts !! i = Some t → take_front q = (o, q') →
  bq_ok m {| bq := q'; consumers := <[i := Idle]> ts; accepted := acc;
             removed := rem ++ match o with Some x => [x] | None => [] end |}.
Proof.
  intros [Ho Hm Hl Hs Ha] Hi Hf. cbn in *.
  pose proof (count_insert waiting _ _ _ Idle Hi) as C1.
  pose proof (count_insert awake _ _ _ Idle Hi) as C2. cbn [waiting awake] in C1, C2.
  destruct (take_front_spec _ _ _ Hf) as [Hq' Hq]. split; cbn.
  - by rewrite Ho, Hq, app_assoc.
  - by rewrite Hq'.
  - intros H0. specialize (Hl H0). rewrite Hq, length_app in Hl. lia.
  - rewrite Hq'. cbn. intros Hsh. specialize (Hs Hsh). lia.
  - rewrite Hq, length_app in Ha. intros Hw.
    assert (Ha' : (length (queue_ q') <= count awake ts)%nat) by lia.
    destruct o as [x|].
    + cbn in Ha. destruct (awake t); lia.
    + unfold take_front in Hf. destruct (queue_ q) eqn:E; [|done]. injection Hf as <-.
      rewrite E. cbn. lia.
Qed.

Lemma bq_ok_step m (s s' : state T) : bq_ok m s → bq_step s s' → bq_ok m s'.
Proof.
  intros Hok Hstep. destruct Hstep.
  - destruct (Push_true _ _ _ H) as (Hsh & -> & Hlt). destruct Hok as [Ho Hm Hl Hs Ha]. cbn in *.
    destruct (notify_one_count waiting wake awake _ ts' ltac:(by intros []) H0) as [[H3 ->]|[H3 H4]];
      (split; cbn; [by rewrite Ho, app_assoc|done| |congruence|]);
      rewrite length_app; cbn; lia.
  - unfold Pop in H1. destruct (ready q); [|done]. injection H1 as H1.
    by apply (bq_ok_take _ _ _ _ _ _ _ _ _ Hok H H1).
  - unfold Pop in H1. destruct (ready q); [|done]. injection H1 as H1.
    rewrite <- (app_nil_r rem). by apply (bq_ok_take _ _ _ _ _ _ _ _ _ Hok H H1).
  - assert (Hq : queue_ q = [] ∧ shutdown_ q = false).
    { unfold Pop, ready in H1. destruct (queue_ q), (shutdown_ q); done. }
    destruct Hq as [Hq Hsh]. destruct Hok as [Ho Hm Hl Hs Ha]. cbn in *.
    split; cbn; try done; [congruence|]. rewrite Hq. cbn. lia.
  - unfold Pop_expired in H1. destruct (ready q) eqn:Er; cbn in H1.
    + by apply (bq_ok_take _ _ _ _ _ _ _ _ _ Hok H H1).
    + injection H1 as <- <-. apply (bq_ok_take _ _ _ _ _ _ _ None q Hok H).
      unfold take_front, ready in *. by destruct (queue_ q).
  - destruct Hok as [Ho Hm Hl Hs Ha]. cbn in *.
    pose proof (count_insert waiting _ _ _ (PopWoken b) H) as C1.
    pose proof (count_insert awake _ _ _ (PopWoken b) H) as C2. cbn [waiting awake] in C1, C2.
    split; cbn; try done; lia || (intros Hsh; specialize (Hs Hsh); lia).
  - destruct Hok as [Ho Hm Hl Hs Ha]. split; cbn in *; try done; try lia. by rewrite app_nil_r.
  - destruct Hok as [Ho Hm Hl Hs Ha]. split; cbn in *; try done.
    + intros _. apply notify_all_none. by intros [].
    + rewrite notify_all_none by (by intros []). lia.
Qed.
End facts.

(** C36: any number of consumers, with every interleaving of pushes, pops
    with and without deadline, spurious wake-ups, clears and a shutdown: items
    leave in the order they were accepted, none lost or duplicated; a limited
    queue never exceeds its limit; after the shutdown no consumer is blocked;
    and no wake-up is lost, deadlines included: a consumer is blocked while
    the queue holds items only if as many consumers as items are awake. *)
Theorem blocking_queue_correct {T} n max_size (s : state T) :
  rtc bq_step (start n max_size) s →
  accepted s = removed s ++ queue_ (bq s) ∧
  (max_size ≠ 0%nat → (length (queue_ (bq s)) <= max_size)%nat) ∧
  (shutdown_ (bq s) = true → count waiting (consumers s) = 0%nat) ∧
  ((0 < count waiting (consumers s))%nat →
   (length (queue_ (bq s)) <= count awake (consumers s))%nat).
Proof.
  intros Hr.
  assert (H0 : bq_ok max_size (start (T := T) n max_size)).
  { assert (Hz : ∀ P : consumer → bool, P Idle = false → count P (replicate n Idle) = 0%nat).
    { intros P HP. apply count_zero. intros i t Hi. apply lookup_replicate in Hi as [-> _]. done. }
    split; cbn; try done; rewrite ?Hz by done; lia. }
  revert H0. induction Hr as [|s0 s1 s2 Hstep _ IH]; [by intros []|].
  intros Hok. by eapply IH, bq_ok_step.
Qed.

Lemma blocking_queue_correct_witness :
  ∃ s : state nat, rtc bq_step (start 2 1) s ∧ queue_ (bq s) = [7%nat] ∧
    (length (queue_ (bq s)) <= count awake (consumers s))%nat.
Proof.
  set (s := {| bq := set_queue [7%nat] (BlockingQueue_new 1); consumers := [PopWoken true; PopWait false];
               accepted := [7%nat]; removed := [] |}).
  assert (Hr : rtc bq_step (start 2 1) s).
  { eapply rtc_l; [eapply (pop_blocks _ _ _ _ 0 Idle true); [done|constructor|done]|].
    eapply rtc_l; [eapply (pop_blocks _ _ _ _ 1 Idle false); [done|constructor|done]|].
    eapply rtc_l; [eapply (push_done _ _ _ _ 7%nat); [done|by apply (notify_some _ _ _ 0 (PopWait true))]|].
    apply rtc_refl. }
  exists s. split; [exact Hr|]. split; [reflexivity|].
  apply (blocking_queue_correct 2 1 s Hr). vm_compute. lia.
Defined.
