(* ===== verification/FastMQTT.v ===== *)
(** * The MQTT client

    Model of my_fast_MQTT/FastMQTT.cpp and FastMQTTTypes.hpp: configuration,
    life cycle, publication, the table of callbacks, the handlers the mosquitto
    library calls, dispatch, and the waits between connection attempts.  What an
    operation asks of the library is recorded in a log; what the library answers
    is an argument.  The threads are in [FastMQTTThreads]. *)

From S2P Require Import Prelude Json Double BlockingQueue.
From stdpp Require Import sorting pretty.

Local Open Scope Z_scope.

(** ** Configuration *)

Record BrokerConfig := {
  br_host : string;
  br_port : Z;
  br_client_id : string;
  br_username : string;
  br_password : string;
  br_keep_alive : Z;
  br_clean_session : bool;
  br_auto_reconnect : bool;
  br_connect_timeout_ms : Z
}.
Definition BrokerConfig_default : BrokerConfig := {|
  br_host := "127.0.0.1"; br_port := 1883; br_client_id := ""; br_username := ""; br_password := "";
  br_keep_alive := 60; br_clean_session := true; br_auto_reconnect := true;
  br_connect_timeout_ms := 5000 |}.

Record ThreadConfig := { th_send_queue_size : Z; th_recv_queue_size : Z }.
Definition ThreadConfig_default : ThreadConfig :=
  {| th_send_queue_size := 1000; th_recv_queue_size := 1000 |}.

Record DefaultConfig := { df_qos : Z; df_retain : bool }.
Definition DefaultConfig_default : DefaultConfig := {| df_qos := 1; df_retain := false |}.

Record FastMQTTConfig := {
  cf_enable : bool;
  cf_broker : BrokerConfig;
  cf_thread : ThreadConfig;
  cf_def : DefaultConfig
}.
Definition FastMQTTConfig_default : FastMQTTConfig := {|
  cf_enable := true; cf_broker := BrokerConfig_default; cf_thread := ThreadConfig_default;
  cf_def := DefaultConfig_default |}.

Section config.
Context {J : Type} `{JsonNumbers J}.
(** [get<size_t>()] of a JSON float. *)
Variable float_size : J → Z.

Definition j_get_size (v : J) : result Z :=
  match j_view v with
  | JUnsigned n | JInteger n => Ok (wrapu 64 n)
  | JFloat => Ok (wrapu 64 (float_size v))
  | JBoolean b => Ok (if b then 1 else 0)
  | _ => Err (other_error (j_type_error v))
  end.

Definition broker_from (b : J) (cfg : BrokerConfig) : result BrokerConfig :=
  host ← j_value_string b "host" (br_host cfg);
  port ← j_value j_get_int b "port" (br_port cfg);
  client_id ← j_value_string b "client_id" (br_client_id cfg);
  username ← j_value_string b "username" (br_username cfg);
  password ← j_value_string b "password" (br_password cfg);
  keep_alive ← j_value j_get_int b "keep_alive" (br_keep_alive cfg);
  clean_session ← j_value_bool b "clean_session" (br_clean_session cfg);
  auto_reconnect ← j_value_bool b "auto_reconnect" (br_auto_reconnect cfg);
  connect_timeout_ms ← j_value j_get_int b "connect_timeout_ms" (br_connect_timeout_ms cfg);
  Ok {| br_host := host; br_port := port; br_client_id := client_id; br_username := username;
        br_password := password; br_keep_alive := keep_alive; br_clean_session := clean_session;
        br_auto_reconnect := auto_reconnect; br_connect_timeout_ms := connect_timeout_ms |}.

Definition thread_from (t : J) (cfg : ThreadConfig) : result ThreadConfig :=
  send ← j_value j_get_size t "send_queue_size" (th_send_queue_size cfg);
  recv ← j_value j_get_size t "recv_queue_size" (th_recv_queue_size cfg);
  Ok {| th_send_queue_size := send; th_recv_queue_size := recv |}.

Definition default_from (d : J) (cfg : DefaultConfig) : result DefaultConfig :=
  qos ← j_value j_get_int d "qos" (df_qos cfg);
  retain ← j_value_bool d "retain" (df_retain cfg);
  Ok {| df_qos := qos; df_retain := retain |}.

(** [if (m.contains(key) && m[key].is_object())] read the section. *)
Definition section_from {A} (read : J → A → result A) (m : J) (key : string) (cfg : A) : result A :=
  match j_object_at m key with Some v => read v cfg | None => Ok cfg end.

Definition FromJson (j : J) : result FastMQTTConfig :=
  let m := default j (j_object_at j "mqtt") in
  enable ← j_value_bool m "enable" true;
  broker ← section_from broker_from m "broker" BrokerConfig_default;
  thread ← section_from thread_from m "thread" ThreadConfig_default;
  def ← section_from default_from m "default" DefaultConfig_default;
  Ok {| cf_enable := enable; cf_broker := broker; cf_thread := thread; cf_def := def |}.
End config.

(** ** State *)

Inductive LifecycleState := Uninitialized | Initialized | Starting | Running | Stopping | Stopped.
#[export] Instance LifecycleState_eq_dec : EqDecision LifecycleState.
Proof. solve_decision. Defined.

Definition LifecycleState_number (s : LifecycleState) : Z :=
  match s with
  | Uninitialized => 0 | Initialized => 1 | Starting => 2 | Running => 3 | Stopping => 4 | Stopped => 5
  end.
Definition LifecycleStateToString (s : LifecycleState) : string :=
  match s with
  | Uninitialized => "Uninitialized"
  | Initialized => "Initialized"
  | Starting => "Starting"
  | Running => "Running"
  | Stopping => "Stopping"
  | Stopped => "Stopped"
  end.

Record Message := {
  msg_topic : string;
  msg_payload : string;
  msg_qos : Z;
  msg_retain : bool;
  msg_timestamp : Z
}.

(** The counters and times of [Statistics], 64 bits wide. *)
Inductive counter :=
| reconnect_count | last_connect_time | last_send_time | last_recv_time | send_success | send_failed
| recv_count | callback_failed | send_dropped | recv_dropped.
#[export] Instance counter_eq_dec : EqDecision counter.
Proof. solve_decision. Defined.

Definition Statistics : Type := counter → Z.
Definition Statistics_zero : Statistics := λ _, 0.
Definition store (c : counter) (v : Z) (st : Statistics) : Statistics :=
  λ c', if decide (c' = c) then v else st c'.
Definition fetch_add (c : counter) (st : Statistics) : Statistics := store c (wraps 64 (st c + 1)) st.

Lemma store_eq c v st : store c v st c = v.
Proof. unfold store. by rewrite decide_True. Qed.
Lemma store_ne c c' v st : c' ≠ c → store c v st c' = st c'.
Proof. intros Hc. unfold store. by rewrite decide_False. Qed.

Section client.
(** The callbacks of the other parts. *)
Context {C : Type}.

Record CallbackEntry := {
  ce_handle : Z;
  ce_filter : string;
  ce_callback : C;
  ce_qos : Z
}.

(** [broker_connected_], [session_connected_] and [ready_]. *)
Record Link := { lk_broker_connected : bool; lk_session_connected : bool; lk_ready : bool }.
Definition link_down : Link :=
  {| lk_broker_connected := false; lk_session_connected := false; lk_ready := false |}.

(** What passes between the client and the library, as far as the broker is
    concerned: the calls, a subscription with whether the library took it
    ([MOSQ_ERR_SUCCESS]), and [Connected], a connection the library reports. *)
Inductive mosq_call :=
| LibInit
| LibCleanup
| New (client_id : option string) (clean_session : bool)
| SetLogin (username : string) (password : option string)
| Connect (host : string) (port keep_alive : Z)
| Reconnect
| Disconnect
| Destroyed
| Subscribe (topic : string) (qos : Z) (accepted : bool)
| Unsubscribe (topic : string)
| PublishCall (m : Message)
| Connected.

(** [mq_mosq]: there is a handle.  [mq_threads]: the four thread objects are
    joinable.  [mq_lib_ref] is the global [g_lib_ref], [mq_calls] the log. *)
Record FastMQTT := {
  mq_config : FastMQTTConfig;
  mq_state : LifecycleState;
  mq_ip_alive : bool;
  mq_link : Link;
  mq_running : bool;
  mq_mosq : bool;
  mq_send_queue : option (BlockingQueue Message);
  mq_recv_queue : option (BlockingQueue Message);
  mq_callbacks : gmap string (list CallbackEntry);
  mq_next_handle : Z;
  mq_threads : bool;
  mq_backoff_index : nat;
  mq_stats : Statistics;
  mq_lib_ref : Z;
  mq_calls : list mosq_call
}.
Implicit Types (q : FastMQTT) (topic : string) (m : Message).

Definition FastMQTT_new : FastMQTT := {|
  mq_config := FastMQTTConfig_default; mq_state := Uninitialized; mq_ip_alive := false;
  mq_link := link_down; mq_running := false; mq_mosq := false; mq_send_queue := None;
  mq_recv_queue := None; mq_callbacks := ∅; mq_next_handle := 1; mq_threads := false;
  mq_backoff_index := 0; mq_stats := Statistics_zero; mq_lib_ref := 0; mq_calls := [] |}.

Definition with_config (x : FastMQTTConfig) q : FastMQTT := {|
  mq_config := x; mq_state := mq_state q; mq_ip_alive := mq_ip_alive q; mq_link := mq_link q;
  mq_running := mq_running q; mq_mosq := mq_mosq q; mq_send_queue := mq_send_queue q;
  mq_recv_queue := mq_recv_queue q; mq_callbacks := mq_callbacks q;
  mq_next_handle := mq_next_handle q; mq_threads := mq_threads q;
  mq_backoff_index := mq_backoff_index q; mq_stats := mq_stats q; mq_lib_ref := mq_lib_ref q;
  mq_calls := mq_calls q |}.
Definition with_ip_alive (x : bool) q : FastMQTT := {|
  mq_config := mq_config q; mq_state := mq_state q; mq_ip_alive := x; mq_link := mq_link q;
  mq_running := mq_running q; mq_mosq := mq_mosq q; mq_send_queue := mq_send_queue q;
  mq_recv_queue := mq_recv_queue q; mq_callbacks := mq_callbacks q;
  mq_next_handle := mq_next_handle q; mq_threads := mq_threads q;
  mq_backoff_index := mq_backoff_index q; mq_stats := mq_stats q; mq_lib_ref := mq_lib_ref q;
  mq_calls := mq_calls q |}.
Definition with_link (x : Link) q : FastMQTT := {|
  mq_config := mq_config q; mq_state := mq_state q; mq_ip_alive := mq_ip_alive q; mq_link := x;
  mq_running := mq_running q; mq_mosq := mq_mosq q; mq_send_queue := mq_send_queue q;
  mq_recv_queue := mq_recv_queue q; mq_callbacks := mq_callbacks q;
  mq_next_handle := mq_next_handle q; mq_threads := mq_threads q;
  mq_backoff_index := mq_backoff_index q; mq_stats := mq_stats q; mq_lib_ref := mq_lib_ref q;
  mq_calls := mq_calls q |}.
Definition with_running (x : bool) q : FastMQTT := {|
  mq_config := mq_config q; mq_state := mq_state q; mq_ip_alive := mq_ip_alive q;
  mq_link := mq_link q; mq_running := x; mq_mosq := mq_mosq q; mq_send_queue := mq_send_queue q;
  mq_recv_queue := mq_recv_queue q; mq_callbacks := mq_callbacks q;
  mq_next_handle := mq_next_handle q; mq_threads := mq_threads q;
  mq_backoff_index := mq_backoff_index q; mq_stats := mq_stats q; mq_lib_ref := mq_lib_ref q;
  mq_calls := mq_calls q |}.
Definition with_threads (x : bool) q : FastMQTT := {|
  mq_config := mq_config q; mq_state := mq_state q; mq_ip_alive := mq_ip_alive q;
  mq_link := mq_link q; mq_running := mq_running q; mq_mosq := mq_mosq q;
  mq_send_queue := mq_send_queue q; mq_recv_queue := mq_recv_queue q;
  mq_callbacks := mq_callbacks q; mq_next_handle := mq_next_handle q; mq_threads := x;
  mq_backoff_index := mq_backoff_index q; mq_stats := mq_stats q; mq_lib_ref := mq_lib_ref q;
  mq_calls := mq_calls q |}.
Definition with_backoff_index (x : nat) q : FastMQTT := {|
  mq_config := mq_config q; mq_state := mq_state q; mq_ip_alive := mq_ip_alive q;
  mq_link := mq_link q; mq_running := mq_running q; mq_mosq := mq_mosq q;
  mq_send_queue := mq_send_queue q; mq_recv_queue := mq_recv_queue q;
  mq_callbacks := mq_callbacks q; mq_next_handle := mq_next_handle q; mq_threads := mq_threads q;
  mq_backoff_index := x; mq_stats := mq_stats q; mq_lib_ref := mq_lib_ref q;
  mq_calls := mq_calls q |}.
Definition with_stats (x : Statistics) q : FastMQTT := {|
  mq_config := mq_config q; mq_state := mq_state q; mq_ip_alive := mq_ip_alive q;
  mq_link := mq_link q; mq_running := mq_running q; mq_mosq := mq_mosq q;
  mq_send_queue := mq_send_queue q; mq_recv_queue := mq_recv_queue q;
  mq_callbacks := mq_callbacks q; mq_next_handle := mq_next_handle q; mq_threads := mq_threads q;
  mq_backoff_index := mq_backoff_index q; mq_stats := x; mq_lib_ref := mq_lib_ref q;
  mq_calls := mq_calls q |}.
Definition with_callbacks (x : gmap string (list CallbackEntry)) q : FastMQTT := {|
  mq_config := mq_config q; mq_state := mq_state q; mq_ip_alive := mq_ip_alive q;
  mq_link := mq_link q; mq_running := mq_running q; mq_mosq := mq_mosq q;
  mq_send_queue := mq_send_queue q; mq_recv_queue := mq_recv_queue q; mq_callbacks := x;
  mq_next_handle := mq_next_handle q; mq_threads := mq_threads q;
  mq_backoff_index := mq_backoff_index q; mq_stats := mq_stats q; mq_lib_ref := mq_lib_ref q;
  mq_calls := mq_calls q |}.
Definition with_next_handle (x : Z) q : FastMQTT := {|
  mq_config := mq_config q; mq_state := mq_state q; mq_ip_alive := mq_ip_alive q;
  mq_link := mq_link q; mq_running := mq_running q; mq_mosq := mq_mosq q;
  mq_send_queue := mq_send_queue q; mq_recv_queue := mq_recv_queue q;
  mq_callbacks := mq_callbacks q; mq_next_handle := x; mq_threads := mq_threads q;
  mq_backoff_index := mq_backoff_index q; mq_stats := mq_stats q; mq_lib_ref := mq_lib_ref q;
  mq_calls := mq_calls q |}.
Definition SetState (x : LifecycleState) q : FastMQTT := {|
  mq_config := mq_config q; mq_state := x; mq_ip_alive := mq_ip_alive q; mq_link := mq_link q;
  mq_running := mq_running q; mq_mosq := mq_mosq q; mq_send_queue := mq_send_queue q;
  mq_recv_queue := mq_recv_queue q; mq_callbacks := mq_callbacks q;
  mq_next_handle := mq_next_handle q; mq_threads := mq_threads q;
  mq_backoff_index := mq_backoff_index q; mq_stats := mq_stats q; mq_lib_ref := mq_lib_ref q;
  mq_calls := mq_calls q |}.
Definition with_send (x : option (BlockingQueue Message)) q : FastMQTT := {|
  mq_config := mq_config q; mq_state := mq_state q; mq_ip_alive := mq_ip_alive q;
  mq_link := mq_link q; mq_running := mq_running q; mq_mosq := mq_mosq q; mq_send_queue := x;
  mq_recv_queue := mq_recv_queue q; mq_callbacks := mq_callbacks q;
  mq_next_handle := mq_next_handle q; mq_threads := mq_threads q;
  mq_backoff_index := mq_backoff_index q; mq_stats := mq_stats q; mq_lib_ref := mq_lib_ref q;
  mq_calls := mq_calls q |}.
Definition with_recv (x : option (BlockingQueue Message)) q : FastMQTT := {|
  mq_config := mq_config q; mq_state := mq_state q; mq_ip_alive := mq_ip_alive q;
  mq_link := mq_link q; mq_running := mq_running q; mq_mosq := mq_mosq q;
  mq_send_queue := mq_send_queue q; mq_recv_queue := x; mq_callbacks := mq_callbacks q;
  mq_next_handle := mq_next_handle q; mq_threads := mq_threads q;
  mq_backoff_index := mq_backoff_index q; mq_stats := mq_stats q; mq_lib_ref := mq_lib_ref q;
  mq_calls := mq_calls q |}.
(** The handle and the reference count change together. *)
Definition with_handle (x : bool) (n : Z) q : FastMQTT := {|
  mq_config := mq_config q; mq_state := mq_state q; mq_ip_alive := mq_ip_alive q;
  mq_link := mq_link q; mq_running := mq_running q; mq_mosq := x;
  mq_send_queue := mq_send_queue q; mq_recv_queue := mq_recv_queue q;
  mq_callbacks := mq_callbacks q; mq_next_handle := mq_next_handle q; mq_threads := mq_threads q;
  mq_backoff_index := mq_backoff_index q; mq_stats := mq_stats q; mq_lib_ref := n;
  mq_calls := mq_calls q |}.
(** The library is called. *)
Definition called (l : list mosq_call) q : FastMQTT := {|
  mq_config := mq_config q; mq_state := mq_state q; mq_ip_alive := mq_ip_alive q;
  mq_link := mq_link q; mq_running := mq_running q; mq_mosq := mq_mosq q;
  mq_send_queue := mq_send_queue q; mq_recv_queue := mq_recv_queue q;
  mq_callbacks := mq_callbacks q; mq_next_handle := mq_next_handle q; mq_threads := mq_threads q;
  mq_backoff_index := mq_backoff_index q; mq_stats := mq_stats q; mq_lib_ref := mq_lib_ref q;
  mq_calls := mq_calls q ++ l |}.

(** *** Waits between connection attempts *)

Definition kBackoffTable : list Z := [1; 2; 5; 10; 20; 30].
Definition kBackoffTableSize : nat := length kBackoffTable.

Definition NextBackoffSeconds q : Z * FastMQTT :=
  let idx := mq_backoff_index q in
  let q := if (idx + 1 <? kBackoffTableSize)%nat then with_backoff_index (idx + 1) q else q in
  (default 0 (kBackoffTable !! (if (idx <? kBackoffTableSize)%nat then idx else kBackoffTableSize - 1)%nat), q).
Definition ResetBackoff q : FastMQTT := with_backoff_index 0 q.

(** *** Life cycle *)

(** [g_lib_ref.fetch_add(1) == 0] and [g_lib_ref.fetch_sub(1) == 1]. *)
Definition acquire_library q : FastMQTT :=
  let n := mq_lib_ref q in
  with_handle (mq_mosq q) (n + 1) (if decide (n = 0) then called [LibInit] q else q).
Definition release_library q : FastMQTT :=
  let n := mq_lib_ref q in
  with_handle (mq_mosq q) (n - 1) (if decide (n = 1) then called [LibCleanup] q else q).

Definition nonempty (s : string) : option string := match s with EmptyString => None | _ => Some s end.

(** What follows [mosquitto_new] in [Initialize]. *)
Definition set_up (c : FastMQTTConfig) q : FastMQTT :=
  let b := cf_broker c in
  let q := match nonempty (br_username b) with
           | Some user => called [SetLogin user (nonempty (br_password b))] q
           | None => q
           end in
  let q := with_send (Some (BlockingQueue_new (Z.to_nat (th_send_queue_size (cf_thread c))))) q in
  let q := with_recv (Some (BlockingQueue_new (Z.to_nat (th_recv_queue_size (cf_thread c))))) q in
  SetState Initialized q.

(** [Initialize] once the configuration is parsed; [created]: whether
    [mosquitto_new] returned a handle. *)
Definition configure (c : FastMQTTConfig) (created : bool) q : bool * FastMQTT :=
  let q := with_config c q in
  if negb (cf_enable c) then (true, SetState Initialized q)
  else match br_host (cf_broker c) with
       | EmptyString => (false, q)
       | _ =>
           let q := acquire_library q in
           let q := called [New (nonempty (br_client_id (cf_broker c))) (br_clean_session (cf_broker c))] q in
           if negb created then (false, release_library q)
           else (true, set_up c (with_handle true (mq_lib_ref q) q))
       end.

Definition Start q : bool * FastMQTT :=
  if negb (bool_decide (mq_state q = Initialized)) then (false, q)
  else if negb (cf_enable (mq_config q)) then (false, q)
  else
    let q := ResetBackoff (with_running true (SetState Starting q)) in
    (true, SetState Running (with_threads true q)).

(** [Stop] up to the joins, when there is something to stop, ... *)
Definition stops q : bool := bool_decide (mq_state q = Running ∨ mq_state q = Starting).
Definition stop_begin q : FastMQTT :=
  let q := with_running false (SetState Stopping q) in
  let q := with_send (Shutdown <$> mq_send_queue q) q in
  let q := with_recv (Shutdown <$> mq_recv_queue q) q in
  if mq_mosq q then called [Disconnect] q else q.

(** ... and after them. *)
Definition stop_end q : FastMQTT :=
  let q := with_link link_down (with_threads false q) in
  SetState Stopped (with_ip_alive false q).

Definition ClearAllCallbacks q : FastMQTT := with_callbacks ∅ q.

(** [Destroy], after its [Stop]. *)
Definition destroy_end q : FastMQTT :=
  let q := if mq_mosq q
           then release_library (with_handle false (mq_lib_ref q) (called [Destroyed] q)) else q in
  let q := ClearAllCallbacks q in
  SetState Uninitialized (with_recv None (with_send None q)).

(** *** Publication *)

Definition Publish topic (payload : string) (qos : Z) (retain : bool) (now : Z) q : bool * FastMQTT :=
  if negb (bool_decide (mq_state q = Running)) then (false, q)
  else match mq_send_queue q with
       | None => (false, q)
       | Some s =>
           let msg := {| msg_topic := topic; msg_payload := payload; msg_qos := qos;
                         msg_retain := retain; msg_timestamp := now |} in
           let '(ok, s) := Push msg s in
           if ok then (true, with_send (Some s) q)
           else (false, with_stats (fetch_add send_dropped (mq_stats q)) q)
       end.
Definition Publish_qos topic payload (qos now : Z) q : bool * FastMQTT :=
  Publish topic payload qos (df_retain (cf_def (mq_config q))) now q.
Definition Publish_default topic payload (now : Z) q : bool * FastMQTT :=
  Publish topic payload (df_qos (cf_def (mq_config q))) (df_retain (cf_def (mq_config q))) now q.

(** [DoPublish]; [sent]: the library took the message. *)
Definition DoPublish (msg : Message) (sent : bool) q : bool * FastMQTT :=
  if negb (mq_mosq q) || negb (lk_broker_connected (mq_link q)) then (false, q)
  else (sent, called [PublishCall msg] q).

(** A turn of [SenderLoop] with a message in hand. *)
Definition send (msg : Message) (sent : bool) (now : Z) q : FastMQTT :=
  let '(ok, q) := DoPublish msg sent q in
  if ok then with_stats (store last_send_time now (fetch_add send_success (mq_stats q))) q
  else with_stats (fetch_add send_failed (mq_stats q)) q.

(** *** The table of callbacks *)

(** [RegisterCallback] of a callback that is not empty, up to the end of its
    critical section: [next_handle_] has 64 bits. *)
Definition register_insert topic (cb : C) (qos : Z) q : Z * FastMQTT :=
  let handle := mq_next_handle q in
  let entry := {| ce_handle := handle; ce_filter := topic; ce_callback := cb; ce_qos := qos |} in
  let l := default [] (mq_callbacks q !! topic) in
  (handle, with_callbacks (<[topic := l ++ [entry]]> (mq_callbacks q))
             (with_next_handle (wrapu 64 (handle + 1)) q)).

(** ... the test whether to subscribe at once, and the subscription, which reads
    the handle again; an error code is logged, and nothing else. *)
Definition register_test q : bool := lk_session_connected (mq_link q) && mq_mosq q.
Definition register_subscribe topic (qos : Z) (accepted : bool) q : FastMQTT :=
  called [Subscribe topic qos (mq_mosq q && accepted)] q.

Definition RegisterCallback topic (cb : option C) (qos : Z) (accepted : bool) q : Z * FastMQTT :=
  match cb with
  | None => (0, q)
  | Some cb =>
      let '(handle, q) := register_insert topic cb qos q in
      (handle, if register_test q then register_subscribe topic qos accepted q else q)
  end.

(** The topics in the order [std::map] keeps them. *)
Definition topic_le (x y : string * list CallbackEntry) : Prop := String.le x.1 y.1.
#[export] Instance topic_le_dec x y : Decision (topic_le x y).
Proof. apply _. Defined.
Definition callback_items q : list (string * list CallbackEntry) :=
  merge_sort topic_le (map_to_list (mq_callbacks q)).

(** The topic goes: the broker is told when there is a session. *)
Definition drop_topic topic q : FastMQTT :=
  let q := if lk_session_connected (mq_link q) && mq_mosq q then called [Unsubscribe topic] q else q in
  with_callbacks (delete topic (mq_callbacks q)) q.

(** [vec.erase] of the first entry with the handle, if there is one. *)
Fixpoint erase_handle (handle : Z) (l : list CallbackEntry) : option (list CallbackEntry) :=
  match l with
  | [] => None
  | e :: l => if decide (ce_handle e = handle) then Some l else (e ::.) <$> erase_handle handle l
  end.

Fixpoint unregister (handle : Z) (items : list (string * list CallbackEntry)) q : bool * FastMQTT :=
  match items with
  | [] => (false, q)
  | (topic, vec) :: items =>
      match erase_handle handle vec with
      | Some [] => (true, drop_topic topic q)
      | Some vec => (true, with_callbacks (<[topic := vec]> (mq_callbacks q)) q)
      | None => unregister handle items q
      end
  end.
Definition UnregisterCallback (handle : Z) q : bool * FastMQTT := unregister handle (callback_items q) q.

Definition ClearCallback topic q : FastMQTT :=
  match mq_callbacks q !! topic with Some _ => drop_topic topic q | None => q end.

(** *** What the library calls *)

(** The statements of the handlers: each is one atomic store or one critical
    section, and other threads run between them. *)
Inductive handler_op :=
| StoreBroker (b : bool)
| StoreSession (b : bool)
| StoreReady (b : bool)
| StoreReadyEnabled
| StoreConnectTime (now : Z)
| CallResetBackoff.

(** What a statement makes of the three flags, ... *)
Definition link_op (enable : bool) (lk : Link) (op : handler_op) : Link :=
  let 'Build_Link broker session ready := lk in
  match op with
  | StoreBroker b => Build_Link b session ready
  | StoreSession b => Build_Link broker b ready
  | StoreReady b => Build_Link broker session b
  | StoreReadyEnabled => Build_Link broker session enable
  | StoreConnectTime _ | CallResetBackoff => lk
  end.
(** ... and of the client. *)
Definition run_op (op : handler_op) q : FastMQTT :=
  match op with
  | StoreConnectTime now => with_stats (store last_connect_time now (mq_stats q)) q
  | CallResetBackoff => ResetBackoff q
  | _ => with_link (link_op (cf_enable (mq_config q)) (mq_link q) op) q
  end.

Definition stores_down : list handler_op := [StoreBroker false; StoreSession false; StoreReady false].

(** [HandleConnect] up to [ResubscribeAll]. *)
Definition HandleConnect (rc now : Z) : list handler_op :=
  if decide (rc = 0)
  then [StoreBroker true; StoreSession true; StoreReadyEnabled; StoreConnectTime now; CallResetBackoff]
  else stores_down.

Definition HandleDisconnect : list handler_op := stores_down.

(** The copy [ResubscribeAll] makes, and one of its subscriptions. *)
Definition resubscriptions q : list (string * Z) :=
  map (λ '(topic, l), (topic, match l with [] => 1 | e :: _ => ce_qos e end)) (callback_items q).
Definition resubscribe (s : string * Z) (accepted : bool) q : FastMQTT :=
  if mq_mosq q then called [Subscribe s.1 s.2 accepted] q else q.

(** [None] is a null message or topic. *)
Definition HandleMessage (msg : option Message) (now : Z) q : FastMQTT :=
  match msg, mq_recv_queue q with
  | Some msg, Some r =>
      let m := {| msg_topic := msg_topic msg; msg_payload := msg_payload msg; msg_qos := msg_qos msg;
                  msg_retain := msg_retain msg; msg_timestamp := now |} in
      let q := with_stats (store last_recv_time now (fetch_add recv_count (mq_stats q))) q in
      let '(ok, r) := Push m r in
      if ok then with_recv (Some r) q
      else with_stats (fetch_add recv_dropped (mq_stats q)) q
  | _, _ => q
  end.

(** *** Dispatch *)

(** [mosquitto_topic_matches_sub]: [None] is an error code. *)
Context (topic_matches_sub : string → string → option bool).
Definition TopicMatch (filter topic : string) : bool := default false (topic_matches_sub filter topic).

(** [matched]: each hit goes to the front. *)
Definition matched topic q : list CallbackEntry :=
  foldl (λ acc '(filter, l), if TopicMatch filter topic then foldl (λ acc e, e :: acc) acc l else acc)
    [] (callback_items q).

(** A callback that throws counts, and the next one runs all the same. *)
Definition run_callback (returned : bool) q : FastMQTT :=
  if returned then q else with_stats (fetch_add callback_failed (mq_stats q)) q.
Definition DispatchToCallbacks (returns : CallbackEntry → bool) (msg : Message) q
    : list CallbackEntry * FastMQTT :=
  let l := matched (msg_topic msg) q in
  (l, foldl (λ q e, run_callback (returns e) q) q l).

(** *** Queries *)

Definition IsReady q : bool := lk_ready (mq_link q).
Definition IsConnected q : bool := lk_broker_connected (mq_link q).
Definition IsIPAlive q : bool := mq_ip_alive q.
Definition IsEnabled q : bool := cf_enable (mq_config q).
Definition queue_size (o : option (BlockingQueue Message)) : nat :=
  match o with Some s => BlockingQueue.Size s | None => 0%nat end.
Definition GetSendQueueSize q : nat := queue_size (mq_send_queue q).
Definition GetReceiveQueueSize q : nat := queue_size (mq_recv_queue q).
End client.
Arguments CallbackEntry : clear implicits.
Arguments FastMQTT : clear implicits.

(** ** Configuration and reports in JSON *)

Section json.
Context {J C : Type} `{JsonNumbers J}.
Context (float_size : J → Z).
Implicit Types (q : FastMQTT C).

(** A configuration that cannot be read leaves everything as it was. *)
Definition Initialize (config : J) (created : bool) q : bool * FastMQTT C :=
  if negb (bool_decide (mq_state q = Uninitialized)) then (false, q)
  else match FromJson float_size config with
       | Err _ => (false, q)
       | Ok c => configure c created q
       end.

Definition size_json (n : nat) : J := j_number (Z.of_nat n).

Definition callback_json (x : string * list (CallbackEntry C)) : J :=
  j_object [("topic", j_string x.1); ("callback_count", size_json (length x.2));
            ("handles", j_array (map (λ e, j_number (ce_handle e)) x.2));
            ("qos_list", j_array (map (λ e, j_number (ce_qos e)) x.2))].

Definition thread_json q : J :=
  j_object [("alive", j_bool (mq_threads q)); ("running", j_bool (mq_running q && mq_threads q))].

Definition Status q : J :=
  let b := cf_broker (mq_config q) in
  let items := callback_items q in
  j_object [
    ("state", j_number (LifecycleState_number (mq_state q)));
    ("ready", j_bool (lk_ready (mq_link q)));
    ("broker_connected", j_bool (lk_broker_connected (mq_link q)));
    ("session_connected", j_bool (lk_session_connected (mq_link q)));
    ("ip_alive", j_bool (mq_ip_alive q));
    ("broker_host", j_string (br_host b));
    ("broker_port", j_number (br_port b));
    ("broker_endpoint", j_string (br_host b +:+ ":" +:+ pretty (br_port b)));
    ("send_queue_capacity", j_number (th_send_queue_size (cf_thread (mq_config q))));
    ("recv_queue_capacity", j_number (th_recv_queue_size (cf_thread (mq_config q))));
    ("callback_count", size_json (list_sum (map (λ x, length x.2) items)));
    ("topic_count", size_json (length items));
    ("callback_topics", j_array (map callback_json items));
    ("send_queue_size", size_json (GetSendQueueSize q));
    ("recv_queue_size", size_json (GetReceiveQueueSize q));
    ("queues", j_object [("send", size_json (GetSendQueueSize q)); ("recv", size_json (GetReceiveQueueSize q))]);
    ("threads", j_object [("conn_thread", thread_json q); ("recv_thread", thread_json q);
                          ("disp_thread", thread_json q); ("send_thread", thread_json q)])].

Definition GetStatistics q : J :=
  let st := mq_stats q in
  j_object [
    ("reconnect_count", j_number (st reconnect_count)); ("last_connect_time", j_number (st last_connect_time));
    ("last_send_time", j_number (st last_send_time)); ("last_recv_time", j_number (st last_recv_time));
    ("send_success", j_number (st send_success)); ("send_failed", j_number (st send_failed));
    ("recv_count", j_number (st recv_count)); ("callback_failed", j_number (st callback_failed));
    ("send_dropped", j_number (st send_dropped)); ("recv_dropped", j_number (st recv_dropped))].

Definition GetHealthStatus q : J :=
  let st := mq_stats q in
  j_object [
    ("enable", j_bool (IsEnabled q)); ("state", j_string (LifecycleStateToString (mq_state q)));
    ("ready", j_bool (IsReady q)); ("broker_connected", j_bool (IsConnected q)); ("ip_alive", j_bool (IsIPAlive q));
    ("reconnect_count", j_number (st reconnect_count)); ("last_connect_time", j_number (st last_connect_time));
    ("last_send_time", j_number (st last_send_time)); ("last_recv_time", j_number (st last_recv_time));
    ("send_queue_size", size_json (GetSendQueueSize q)); ("recv_queue_size", size_json (GetReceiveQueueSize q));
    ("send_success", j_number (st send_success)); ("send_failed", j_number (st send_failed));
    ("recv_count", j_number (st recv_count)); ("callback_failed", j_number (st callback_failed))].
End json.

(** ** Waits *)

Section waits.
Context {C : Type}.
Implicit Types (q : FastMQTT C).

(** The first [n] waits. *)
Fixpoint waits (n : nat) q : list Z :=
  match n with
  | O => []
  | S n => let '(w, q) := NextBackoffSeconds q in w :: waits n q
  end.

Lemma waits_spec n q k :
  mq_backoff_index q = k → (k < kBackoffTableSize)%nat →
  waits n q = map (λ i, default 0 (kBackoffTable !! (min (k + i) 5)%nat)) (seq 0 n).
Proof.
  revert q k. induction n as [|n IH]; intros q k Hq Hk; [done|].
  cbn [waits seq map]. unfold NextBackoffSeconds. rewrite Hq. f_equal.
  - do 2 f_equal. unfold kBackoffTableSize in *. cbn in Hk. case_match eqn:E; [lia|].
    apply Nat.ltb_ge in E. cbn in E. lia.
  - rewrite <- seq_shift, map_map. unfold kBackoffTableSize in *. cbn [length kBackoffTable] in *.
    destruct (k + 1 <? 6)%nat eqn:E.
    + apply Nat.ltb_lt in E. rewrite (IH _ (k + 1)%nat); [|done|done].
      apply map_ext. intros i. do 3 f_equal. lia.
    + apply Nat.ltb_ge in E. rewrite (IH _ k); [|done|done].
      apply map_ext. intros i. do 2 f_equal. lia.
Qed.

(** The waits after a reset are 1, 2, 5, 10, 20, 30, and 30 from then on. *)
Theorem backoff_sequence n q :
  waits n (ResetBackoff q) = take n [1; 2; 5; 10; 20; 30] ++ replicate (n - 6) 30.
Proof.
  rewrite (waits_spec _ _ 0) by (done || cbn; lia).
  destruct (decide (n <= 6)%nat) as [Hn|Hn].
  - do 7 (destruct n as [|n]; [done|]). lia.
  - replace n with (6 + (n - 6))%nat at 1 by lia. rewrite seq_app, map_app.
    rewrite take_ge by (cbn; lia). f_equal. generalize (n - 6)%nat as k. intros k.
    change (0 + 6)%nat with 6%nat. clear Hn. generalize (le_n 6). generalize 6%nat at 2 3 as j.
    induction k as [|k IH]; intros j Hj; [done|]. cbn [seq map replicate]. f_equal.
    + by rewrite (Nat.min_r (0 + j) 5) by lia.
    + apply IH. lia.
Qed.
End waits.

(** ** The table of callbacks *)

Section table.
Context {C : Type}.
Implicit Types (q : FastMQTT C) (topic : string) (e : CallbackEntry C).

#[local] Instance topic_le_trans : Transitive (topic_le (C := C)).
Proof. intros a b c. unfold topic_le. apply transitivity. Qed.
#[local] Instance topic_le_total : Total (topic_le (C := C)).
Proof. intros a b. unfold topic_le. apply total, _. Qed.

Lemma callback_items_perm q : callback_items q ≡ₚ map_to_list (mq_callbacks q).
Proof. apply merge_sort_Permutation. Qed.
Lemma callback_items_sorted q : StronglySorted topic_le (callback_items q).
Proof. apply (StronglySorted_merge_sort topic_le). Qed.
Lemma callback_items_in q topic l : (topic, l) ∈ callback_items q ↔ mq_callbacks q !! topic = Some l.
Proof. rewrite callback_items_perm. apply elem_of_map_to_list. Qed.
Lemma callback_items_topics q : NoDup (callback_items q).*1.
Proof. rewrite callback_items_perm. apply NoDup_fst_map_to_list. Qed.

(** The table refines the list of the callbacks registered and not removed, in
    the order of their registration: a topic has the entries with its filter, and
    none is kept for a topic without an entry. *)
Definition entries_of q topic : list (CallbackEntry C) := default [] (mq_callbacks q !! topic).

Record table_abs q (l : list (CallbackEntry C)) : Prop := {
  ta_entries topic : entries_of q topic = filter (λ e, ce_filter e = topic) l;
  ta_nonempty topic : mq_callbacks q !! topic ≠ Some [];
  ta_handles : NoDup (map ce_handle l);
  ta_given : Forall (λ e, 1 <= ce_handle e < mq_next_handle q) l
}.

Lemma table_abs_new : table_abs FastMQTT_new [].
Proof. split; try constructor; intros topic; unfold entries_of; cbn; by rewrite ?lookup_empty. Qed.

Lemma ta_lookup q l topic v :
  table_abs q l → mq_callbacks q !! topic = Some v → v = filter (λ e, ce_filter e = topic) l.
Proof. intros Ha Hv. rewrite <- (ta_entries _ _ Ha). unfold entries_of. by rewrite Hv. Qed.

Lemma ta_in q l topic v e : table_abs q l → mq_callbacks q !! topic = Some v → e ∈ v ↔ ce_filter e = topic ∧ e ∈ l.
Proof. intros Ha Hv. by rewrite (ta_lookup _ _ _ _ Ha Hv), list_elem_of_filter. Qed.

Lemma ta_topic q l e : table_abs q l → e ∈ l → ∃ v, mq_callbacks q !! ce_filter e = Some v ∧ e ∈ v.
Proof.
  intros Ha He. assert (Hin : e ∈ entries_of q (ce_filter e)) by (rewrite (ta_entries _ _ Ha); by apply list_elem_of_filter).
  unfold entries_of in Hin. destruct (mq_callbacks q !! ce_filter e) as [v|]; [by exists v|].
  by apply elem_of_nil in Hin.
Qed.

(** Only the table and the next handle matter. *)
Lemma table_abs_ext q q' l :
  mq_callbacks q' = mq_callbacks q → mq_next_handle q' = mq_next_handle q → table_abs q l → table_abs q' l.
Proof. intros Hc Hn [He Hne Hh Hg]. split; unfold entries_of; rewrite ?Hc, ?Hn; done. Qed.

Lemma filter_none {A} (P : A → Prop) `{∀ x, Decision (P x)} (l : list A) :
  (∀ x, x ∈ l → ¬ P x) → filter P l = [].
Proof. intros Hn. apply elem_of_nil_inv. intros x [Hp Hx]%list_elem_of_filter. by apply (Hn x). Qed.

Lemma filter_all {A} (P : A → Prop) `{∀ x, Decision (P x)} (l : list A) :
  (∀ x, x ∈ l → P x) → filter P l = l.
Proof.
  induction l as [|a l IH]; intros Hl; [done|]. rewrite filter_cons_True by (apply Hl; left).
  f_equal. apply IH. intros x Hx. apply Hl. by right.
Qed.

(** What a removal does to the list. *)
Lemma table_abs_filter (P : CallbackEntry C → Prop) `{∀ e, Decision (P e)} q q' l :
  (∀ topic, entries_of q' topic = filter P (entries_of q topic)) →
  (∀ topic, mq_callbacks q' !! topic ≠ Some []) → mq_next_handle q' = mq_next_handle q →
  table_abs q l → table_abs q' (filter P l).
Proof.
  intros He' Hne' Hn [He Hne Hh Hg]. split; [|done|..].
  - intros topic. rewrite He', He, !list_filter_filter. apply list_filter_iff. intros e. tauto.
  - eapply (sublist_NoDup _ (ce_handle <$> l)); [done|]. apply fmap_sublist, sublist_filter.
  - rewrite Hn. apply Forall_forall. intros e [_ Hin]%list_elem_of_filter. by eapply Forall_forall in Hg.
Qed.

Lemma table_abs_drop topic q l :
  table_abs q l → table_abs (drop_topic topic q) (filter (λ e, ce_filter e ≠ topic) l).
Proof.
  intros Ha.
  assert (mq_callbacks (drop_topic topic q) = delete topic (mq_callbacks q) ∧
          mq_next_handle (drop_topic topic q) = mq_next_handle q) as [Hc Hn]
    by (unfold drop_topic; by case_match).
  eapply table_abs_filter; [..|done|exact Ha].
  - intros t. unfold entries_of. rewrite Hc. destruct (decide (t = topic)) as [->|Ht].
    + rewrite lookup_delete_eq. symmetry. apply filter_none. intros e He Hf. apply Hf.
      fold (entries_of q topic) in He. rewrite (ta_entries _ _ Ha) in He. by apply list_elem_of_filter in He as [-> _].
    + rewrite lookup_delete_ne by done. symmetry. apply filter_all. intros e He.
      fold (entries_of q t) in He. rewrite (ta_entries _ _ Ha) in He. by apply list_elem_of_filter in He as [-> _].
  - intros t. rewrite Hc. destruct (decide (t = topic)) as [->|Ht].
    + by rewrite lookup_delete_eq.
    + rewrite lookup_delete_ne by done. apply (ta_nonempty _ _ Ha).
Qed.

Lemma table_abs_register topic cb qos q l h q' :
  table_abs q l → 1 <= mq_next_handle q → mq_next_handle q + 1 < 2 ^ 64 →
  register_insert topic cb qos q = (h, q') →
  h = mq_next_handle q ∧ mq_next_handle q' = h + 1 ∧
  table_abs q' (l ++ [{| ce_handle := h; ce_filter := topic; ce_callback := cb; ce_qos := qos |}]).
Proof.
  unfold register_insert. intros [He Hne Hh Hg] H1 Hw [= <- <-]. split; [done|].
  assert (Hn : wrapu 64 (mq_next_handle q + 1) = mq_next_handle q + 1)
    by (apply wrapu_id; unfold inu; lia).
  split; [exact Hn|]. split; cbn.
  - intros t. rewrite filter_app, <- He. destruct (decide (topic = t)) as [->|Ht].
    + rewrite filter_singleton_True by done. unfold entries_of. cbn. by rewrite lookup_insert_eq.
    + rewrite filter_singleton_False, app_nil_r by done. unfold entries_of. cbn. by rewrite lookup_insert_ne.
  - intros t. destruct (decide (topic = t)) as [->|Ht].
    + rewrite lookup_insert_eq. by intros [= [_ [=]]%app_nil].
    + by rewrite lookup_insert_ne.
  - rewrite map_app. apply NoDup_app. split; [done|]. split; [|apply NoDup_singleton].
    intros x ([] & -> & Hin)%list_elem_of_fmap [= E]%list_elem_of_singleton.
    eapply Forall_forall in Hin; [|exact Hg]. cbn in *. lia.
  - rewrite Hn. apply Forall_app. split; [|apply Forall_singleton; cbn; lia].
    eapply Forall_impl; [exact Hg|]. intros e. cbn. lia.
Qed.

Lemma erase_handle_spec h (l : list (CallbackEntry C)) :
  NoDup (map ce_handle l) →
  match erase_handle h l with
  | Some l' => (∃ e, e ∈ l ∧ ce_handle e = h) ∧ l' = filter (λ e, ce_handle e ≠ h) l
  | None => ∀ e, e ∈ l → ce_handle e ≠ h
  end.
Proof.
  induction l as [|a l IH]; intros Hn; [by intros e ?%elem_of_nil|].
  apply NoDup_cons in Hn as [Ha Hn]. specialize (IH Hn). cbn [erase_handle].
  destruct (decide (ce_handle a = h)) as [<-|Hh].
  - split; [exists a; split; [left|done]|]. rewrite filter_cons_False by naive_solver.
    symmetry. apply filter_all. intros e He E. apply Ha. rewrite <- E. apply list_elem_of_fmap. by exists e.
  - destruct (erase_handle h l) as [l'|].
    + cbn [fmap option_fmap option_map]. destruct IH as [(e & He & Ee) ->]. split; [exists e; split; [by right|done]|].
      by rewrite filter_cons_True.
    + intros e [->|He]%elem_of_cons; [done|by apply IH].
Qed.

Lemma handle_inj (l : list (CallbackEntry C)) e e' :
  NoDup (map ce_handle l) → e ∈ l → e' ∈ l → ce_handle e = ce_handle e' → e = e'.
Proof.
  induction l as [|a l IH]; intros Hn He He' E; [by apply elem_of_nil in He|].
  apply NoDup_cons in Hn as [Ha Hn].
  assert (Hout : ∀ x, x ∈ l → ce_handle x ≠ ce_handle a).
  { intros x Hx Ex. apply Ha. rewrite <- Ex. apply list_elem_of_fmap. by exists x. }
  apply elem_of_cons in He as [->|He], He' as [->|He']; [done| | |by apply IH].
  - by destruct (Hout e').
  - by destruct (Hout e).
Qed.

Lemma unregister_spec h items q l b q' :
  table_abs q l → (∀ t v, (t, v) ∈ items → mq_callbacks q !! t = Some v) →
  unregister h items q = (b, q') →
  if b then (∃ e, e ∈ l ∧ ce_handle e = h) ∧ table_abs q' (filter (λ e, ce_handle e ≠ h) l)
  else q' = q ∧ ∀ t v e, (t, v) ∈ items → e ∈ v → ce_handle e ≠ h.
Proof.
  intros Ha. induction items as [|[t v] items IH]; intros Hi; cbn [unregister].
  { intros [= <- <-]. split; [done|]. by intros t v e ?%elem_of_nil. }
  assert (Hv : mq_callbacks q !! t = Some v) by (apply Hi; left).
  assert (Hnd : NoDup (map ce_handle v)).
  { rewrite (ta_lookup _ _ _ _ Ha Hv). eapply (sublist_NoDup _ (ce_handle <$> l)); [apply Ha|].
    apply fmap_sublist, sublist_filter. }
  pose proof (erase_handle_spec h v Hnd) as He. destruct (erase_handle h v) as [v'|].
  2: { intros Hu. specialize (IH (λ t v Hin, Hi t v (list_elem_of_further _ _ _ Hin)) Hu).
       destruct b; [done|]. destruct IH as [-> IH]. split; [done|].
       intros t' v' e' [[= -> ->]|Hin]%elem_of_cons; [apply He|by eapply IH]. }
  destruct He as [(e & Hin & Eh) Hv']. pose proof (proj1 (ta_in _ _ _ _ _ Ha Hv) Hin) as [Et Hl].
  assert (Hother : ∀ e', e' ∈ l → ce_handle e' = h → ce_filter e' = t).
  { intros e' He' Eh'. rewrite <- Et. f_equal. eapply handle_inj; [apply Ha| | |]; congruence. }
  assert (Hrem : ∀ q', mq_callbacks q' = (if decide (v' = []) then delete t else <[t := v']>) (mq_callbacks q) →
                       mq_next_handle q' = mq_next_handle q →
                       table_abs q' (filter (λ e, ce_handle e ≠ h) l)).
  { intros q1 Hc Hn. eapply table_abs_filter; [..|exact Hn|exact Ha].
    - intros t'. unfold entries_of. rewrite Hc. destruct (decide (t' = t)) as [->|Ht].
      + rewrite Hv. cbn. rewrite <- Hv'. case_decide as E; [by rewrite E, lookup_delete_eq|by rewrite lookup_insert_eq].
      + transitivity (entries_of q t'); [unfold entries_of; case_decide; [by rewrite lookup_delete_ne|by rewrite lookup_insert_ne]|].
        symmetry. apply filter_all. intros e' He'. fold (entries_of q t') in He'. rewrite (ta_entries _ _ Ha) in He'.
        apply list_elem_of_filter in He' as [Et' He']. intros Eh'. apply Ht. by rewrite <- Et', (Hother e').
    - intros t'. rewrite Hc. pose proof (ta_nonempty _ _ Ha t') as Hne.
      destruct (decide (t' = t)) as [->|Ht]; case_decide as E;
        rewrite ?lookup_delete_eq, ?lookup_insert_eq, ?lookup_delete_ne, ?lookup_insert_ne by done; congruence. }
  destruct v' as [|e1 v']; intros [= <- <-]; (split; [by exists e|]); apply Hrem; unfold drop_topic; by repeat case_match.
Qed.

(** C22: the table of callbacks refines a list: a registration appends one entry with
    a new positive handle, removing a handle answers whether it was there and
    removes just that entry, and clearing a topic or everything removes just
    that. *)
Theorem callback_table_refines q l :
  table_abs q l →
  (∀ topic cb qos accepted, 1 <= mq_next_handle q → mq_next_handle q + 1 < 2 ^ 64 →
     let '(h, q') := RegisterCallback topic (Some cb) qos accepted q in
     h = mq_next_handle q ∧ (h ∉ map ce_handle l) ∧
     table_abs q' (l ++ [{| ce_handle := h; ce_filter := topic; ce_callback := cb; ce_qos := qos |}])) ∧
  (∀ topic qos accepted, RegisterCallback topic None qos accepted q = (0, q)) ∧
  (∀ h, let '(b, q') := UnregisterCallback h q in
        b = bool_decide (h ∈ map ce_handle l) ∧ table_abs q' (filter (λ e, ce_handle e ≠ h) l)) ∧
  (∀ topic, table_abs (ClearCallback topic q) (filter (λ e, ce_filter e ≠ topic) l)) ∧
  table_abs (ClearAllCallbacks q) [].
Proof.
  intros Ha. split; [|split; [done|split; [|split]]].
  - intros topic cb qos accepted H1 Hw. unfold RegisterCallback.
    destruct (register_insert topic cb qos q) as [h q'] eqn:E.
    destruct (table_abs_register _ _ _ _ _ _ _ Ha H1 Hw E) as (-> & _ & Ha'). split; [done|]. split.
    + intros (e & Ee & He)%list_elem_of_fmap. pose proof (ta_given _ _ Ha) as Hg.
      eapply Forall_forall in Hg; [|exact He]. lia.
    + eapply table_abs_ext; [..|exact Ha']; unfold register_subscribe; by case_match.
  - intros h. destruct (UnregisterCallback h q) as [b q'] eqn:E.
    apply (unregister_spec _ _ _ _ _ _ Ha) in E; [|intros; by apply callback_items_in].
    destruct b.
    + destruct E as [(e & He & <-) Ha']. split; [|done]. symmetry. apply bool_decide_eq_true.
      apply list_elem_of_fmap. by exists e.
    + destruct E as [-> Hno].
      assert (Hall : ∀ e, e ∈ l → ce_handle e ≠ h).
      { intros e He. destruct (ta_topic _ _ _ Ha He) as (v & Hv & Hin).
        eapply Hno; [|exact Hin]. by apply callback_items_in. }
      rewrite filter_all by done. split; [|done]. symmetry. apply bool_decide_eq_false.
      by intros (e & -> & He)%list_elem_of_fmap; apply (Hall e).
  - intros topic. unfold ClearCallback. destruct (mq_callbacks q !! topic) as [v|] eqn:Ev; [by apply table_abs_drop|].
    rewrite filter_all; [done|]. intros e He Ef. destruct (ta_topic _ _ _ Ha He) as (v & Hv & _). congruence.
  - split; [..|constructor|constructor]; intros topic; unfold entries_of; cbn; by rewrite lookup_empty.
Qed.
End table.

(** ** Dispatch *)

Lemma wraps_add_l w x y : wraps w (wraps w x + y) = wraps w (x + y).
Proof.
  unfold wraps. f_equal. set (h := 2 ^ (w - 1)).
  replace ((x + h) mod 2 ^ w - h + y + h) with ((x + h) mod 2 ^ w + y) by lia.
  rewrite Zplus_mod_idemp_l. f_equal. lia.
Qed.

Section dispatch.
Context {C : Type} (topic_matches_sub : string → string → option bool).
Implicit Types (q : FastMQTT C) (l : list (CallbackEntry C)) (topic : string).

Lemma join_cons {A} (l : list A) (ls : list (list A)) : mjoin (l :: ls) = l ++ mjoin ls.
Proof. reflexivity. Qed.

Lemma foldl_cons l acc : foldl (λ acc e, e :: acc) acc l = reverse l ++ acc.
Proof.
  revert acc. induction l as [|e l IH]; intros acc; [done|]. cbn [foldl]. rewrite IH, reverse_cons.
  by rewrite <- app_assoc.
Qed.

Definition hits topic q : list (string * list (CallbackEntry C)) :=
  filter (λ x, TopicMatch topic_matches_sub x.1 topic = true) (callback_items q).

Lemma matched_hits topic q :
  matched topic_matches_sub topic q = reverse (mjoin (map snd (hits topic q))).
Proof.
  unfold matched, hits. rewrite <- (app_nil_r (reverse _)). generalize (@nil (CallbackEntry C)) as acc.
  induction (callback_items q) as [|[f l] items IH]; intros acc; [done|]. cbn [foldl].
  destruct (TopicMatch topic_matches_sub f topic) eqn:Ef.
  - rewrite filter_cons_True by done. cbn [map mjoin list_join snd]. rewrite IH, foldl_cons, reverse_app. by rewrite <- app_assoc.
  - rewrite filter_cons_False by (cbn; congruence). by rewrite IH.
Qed.

Lemma matched_filter topic q l f :
  table_abs q l →
  filter (λ e, ce_filter e = f) (matched topic_matches_sub topic q) =
  if TopicMatch topic_matches_sub f topic then reverse (filter (λ e, ce_filter e = f) l) else [].
Proof.
  intros Ha. rewrite matched_hits, filter_reverse. unfold hits.
  assert (Hent : ∀ g v e, (g, v) ∈ callback_items q → e ∈ v → ce_filter e = g).
  { intros g v e Hin%callback_items_in He. by apply (ta_in _ _ _ _ _ Ha Hin) in He as [<- _]. }
  assert (Hval : ∀ v, (f, v) ∈ callback_items q → v = filter (λ e, ce_filter e = f) l).
  { intros v Hin%callback_items_in. by apply (ta_lookup _ _ _ _ Ha). }
  assert (Hno : f ∉ map fst (callback_items q) → filter (λ e, ce_filter e = f) l = []).
  { intros Hf. rewrite <- (ta_entries _ _ Ha). unfold entries_of.
    destruct (mq_callbacks q !! f) as [v|] eqn:Ev; [|done]. exfalso. apply Hf, list_elem_of_fmap.
    exists (f, v). by rewrite callback_items_in. }
  pose proof (callback_items_topics q : NoDup (map fst (callback_items q))) as Hnd.
  assert (Hmid : ∀ items, items ⊆ callback_items q → NoDup (map fst items) →
    filter (λ e, ce_filter e = f)
      (mjoin (map snd (filter (λ x, TopicMatch topic_matches_sub x.1 topic = true) items))) =
    if bool_decide (f ∈ map fst items) && TopicMatch topic_matches_sub f topic
    then filter (λ e, ce_filter e = f) l else []).
  { induction items as [|[g v] items IH]; intros Hs Hd; [done|]. apply NoDup_cons in Hd as [Hg Hd].
    assert (Hgv : (g, v) ∈ callback_items q) by (apply Hs; left).
    specialize (IH (λ x Hx, Hs x (list_elem_of_further _ _ _ Hx)) Hd).
    destruct (decide (g = f)) as [->|Hne].
    - rewrite (bool_decide_eq_false_2 _ Hg) in IH. cbn [andb] in IH. rewrite bool_decide_eq_true_2 by (cbn; left). cbn [andb].
      destruct (TopicMatch topic_matches_sub f topic) eqn:Ef.
      + rewrite filter_cons_True by done. cbn [map snd]. rewrite join_cons, filter_app.
        rewrite IH, app_nil_r, <- (Hval v) by done.
        apply filter_all. intros e He. by apply (Hent f v).
      + rewrite filter_cons_False by (cbn; congruence). exact IH.
    - assert (Hb : bool_decide (f ∈ g :: map fst items) = bool_decide (f ∈ map fst items)).
      { apply bool_decide_ext. rewrite elem_of_cons. naive_solver. }
      cbn [map fst]. rewrite Hb, <- IH. destruct (TopicMatch topic_matches_sub g topic) eqn:Eg.
      2: { by rewrite filter_cons_False by (cbn; congruence). }
      rewrite filter_cons_True by done.
      cbn [map snd]. rewrite join_cons, filter_app.
      rewrite (filter_none _ v); [done|].
      intros e He. by rewrite (Hent g v e Hgv He). }
  rewrite Hmid by done. destruct (TopicMatch topic_matches_sub f topic); [|by rewrite andb_false_r].
  rewrite andb_true_r. case_bool_decide as Hf; [done|]. by rewrite Hno.
Qed.

(** Sections of the list by its filters. *)
Lemma sections_perm (fs : list string) l l' :
  (∀ e, e ∈ l ++ l' → ce_filter e ∈ fs) → NoDup fs →
  (∀ f, f ∈ fs → filter (λ e, ce_filter e = f) l ≡ₚ filter (λ e, ce_filter e = f) l') → l ≡ₚ l'.
Proof.
  revert l l'. induction fs as [|f fs IH]; intros l l' Hin Hd Hp.
  { assert (Hnil : l ++ l' = []) by (apply elem_of_nil_inv; intros e He%Hin; by apply elem_of_nil in He).
    by apply app_eq_nil in Hnil as [-> ->]. }
  apply NoDup_cons in Hd as [Hf Hd].
  rewrite <- (filter_app_complement (λ e, ce_filter e = f) l), <- (filter_app_complement (λ e, ce_filter e = f) l').
  apply Permutation_app; [apply Hp; left|]. apply IH; [|done|].
  - intros e He. assert (Hs : e ∈ l ++ l' ∧ ce_filter e ≠ f).
    { apply elem_of_app in He as [[Hne He]%list_elem_of_filter|[Hne He]%list_elem_of_filter];
        (split; [apply elem_of_app; tauto|done]). }
    destruct Hs as [[->|Hfs]%Hin%elem_of_cons Hne]; done.
  - intros g Hg. rewrite !list_filter_filter.
    assert (E : ∀ k : list (CallbackEntry C), filter (λ e, ce_filter e = g ∧ ce_filter e ≠ f) k = filter (λ e, ce_filter e = g) k).
    { intros k. apply list_filter_iff. intros e. split; [tauto|]. intros <-. split; [done|]. congruence. }
    rewrite !E. apply Hp. by right.
Qed.

(** A message runs the callbacks whose filter matches its topic, each once and
    no other, those of one filter from the latest registered to the first; one
    that throws is counted and stops none of the others. *)
Theorem dispatch_spec returns (msg : Message) q l :
  table_abs q l →
  let '(ran, q') := DispatchToCallbacks topic_matches_sub returns msg q in
  ran ≡ₚ filter (λ e, TopicMatch topic_matches_sub (ce_filter e) (msg_topic msg) = true) l ∧
  (∀ f, filter (λ e, ce_filter e = f) ran =
        reverse (filter (λ e, ce_filter e = f ∧ TopicMatch topic_matches_sub f (msg_topic msg) = true) l)) ∧
  wraps 64 (mq_stats q' callback_failed) =
    wraps 64 (mq_stats q callback_failed + Z.of_nat (length (filter (λ e, returns e = false) ran))) ∧
  mq_callbacks q' = mq_callbacks q.
Proof.
  intros Ha. unfold DispatchToCallbacks.
  set (ran := matched _ _ _).
  assert (Hsec : ∀ f, filter (λ e, ce_filter e = f) ran =
        reverse (filter (λ e, ce_filter e = f ∧ TopicMatch topic_matches_sub f (msg_topic msg) = true) l)).
  { intros f. unfold ran. rewrite (matched_filter _ q l) by done. destruct (TopicMatch _ f _).
    - f_equal. apply list_filter_iff. intros e. tauto.
    - rewrite (filter_none _ l); [done|]. by intros e _ [_ ?]. }
  split; [|split; [exact Hsec|]].
  - eapply (sections_perm (remove_dups (map ce_filter (ran ++ l)))); [|apply NoDup_remove_dups|].
    + intros e He. apply elem_of_remove_dups, list_elem_of_fmap. exists e. split; [done|].
      apply elem_of_app in He as [He|[_ He]%list_elem_of_filter]; apply elem_of_app; tauto.
    + intros f _. rewrite Hsec, list_filter_filter, reverse_Permutation.
      erewrite list_filter_iff; [done|]. intros e. cbn. naive_solver.
  - clearbody ran. clear Hsec. revert q Ha. induction ran as [|e ran IH]; intros q Ha.
    { cbn. by rewrite Z.add_0_r. }
    cbn [foldl]. destruct (IH (run_callback (returns e) q)) as [H1 H2].
    { eapply table_abs_ext; [..|exact Ha]; unfold run_callback; by case_match. }
    unfold run_callback in *. destruct (returns e) eqn:Er.
    + rewrite filter_cons_False by congruence. done.
    + rewrite filter_cons_True by done. split; [|exact H2]. rewrite H1. cbn [length].
      unfold fetch_add, store. cbn [with_stats mq_stats]. rewrite decide_True by done.
      rewrite wraps_add_l. f_equal. lia.
Qed.
End dispatch.

Lemma callback_table_refines_witness :
  let '(h, q) := RegisterCallback "a" (Some 7%nat) 1 true FastMQTT_new in
  h = 1 ∧ table_abs q [{| ce_handle := 1; ce_filter := "a"; ce_callback := 7%nat; ce_qos := 1 |}].
Proof.
  destruct (callback_table_refines (C := nat) FastMQTT_new [] table_abs_new) as [Hreg _].
  pose proof (Hreg "a" 7%nat 1 true ltac:(done) ltac:(done)) as Hr.
  destruct (RegisterCallback "a" (Some 7%nat) 1 true FastMQTT_new) as [h q]. destruct Hr as (-> & _ & Ha). by split.
Defined.

Lemma dispatch_spec_witness :
  let q := (RegisterCallback "a" (Some 8%nat) 1 false (RegisterCallback "a" (Some 7%nat) 1 true FastMQTT_new).2).2 in
  let m := {| msg_topic := "a"; msg_payload := ""; msg_qos := 0; msg_retain := false; msg_timestamp := 0 |} in
  map ce_callback (DispatchToCallbacks (λ f t, Some (String.eqb f t)) (λ e, Z.odd (ce_handle e)) m q).1 = [8%nat; 7%nat] ∧
  mq_stats (DispatchToCallbacks (λ f t, Some (String.eqb f t)) (λ e, Z.odd (ce_handle e)) m q).2 callback_failed = 1.
Proof.
  intros q m. split; [by vm_compute|].
  destruct (table_abs_register "a" 7%nat 1 FastMQTT_new [] 1 _ table_abs_new ltac:(done) ltac:(done) eq_refl) as (_ & _ & H1).
  destruct (table_abs_register "a" 8%nat 1 _ _ 2 _ H1 ltac:(done) ltac:(done) eq_refl) as (_ & _ & H2).
  pose proof (dispatch_spec (λ f t, Some (String.eqb f t)) (λ e, Z.odd (ce_handle e)) m q _ H2) as Hd.
  by vm_compute.
Defined.
