(* ===== verification/FastMQTTThreads.v ===== *)
(** * The threads of the MQTT client

    The four threads of my_fast_MQTT/FastMQTT.cpp, the handlers the library calls
    from the network loop, and the calls of the other parts, as a step relation.
    A step is one test, one store or one critical section.  The operations of the
    life cycle exclude each other by [lifecycle_mutex_]; [Destroy] is taken to
    hold it from its [Stop] on, and what follows the joins, when no thread is
    left, is one step. *)

From S2P Require Import Prelude BlockingQueue FastMQTT.
From stdpp Require Import gmap.

Local Open Scope Z_scope.

Section threads.
Context {C : Type} (topic_matches_sub : string → string → option bool).

(** [ConnectionManagerLoop]; the wait is in steps of 100 ms. *)
Inductive conn_pc := CTop | CProbe | CWait (n : nat) | COut.

(** [ReceiverLoop].  [RNet] is the test of the inner loop, [RLoop] inside
    [mosquitto_loop], [ROps l after] before the statements [l] of a handler or of the
    end of the inner loop, [RCopy] and [RSubs] in the [ResubscribeAll] of a
    [HandleConnect], [RDown] after the inner loop; [RWait n last]: the thread
    leaves after the wait when [last]. *)
Inductive after_ops := ToLoop | ToCopy | ToDown.
#[local] Instance after_ops_eq_dec : EqDecision after_ops.
Proof. solve_decision. Defined.
Inductive recv_pc :=
| RTop (ever_connected : bool)
| RConnect (ever_connected : bool)
| RNet
| RLoop
| ROps (l : list handler_op) (after : after_ops)
| RCopy
| RSubs (l : list (string * Z))
| RDown
| RWait (n : nat) (last : bool)
| ROut.

(** [DispatcherLoop]: [DCalls] has the callbacks still to run. *)
Inductive disp_pc := DTop | DPop | DRun (m : Message) | DCalls (m : Message) (l : list (CallbackEntry C)) | DOut.

(** [SenderLoop]. *)
Inductive send_pc := STop | SPop | SSend (m : Message) | SOut.

(** What became of a message taken from the send queue: the library took it, it
    did not, or the queue was destroyed. *)
Inductive fate := Sent | Failed | Discarded.
#[export] Instance fate_eq_dec : EqDecision fate.
Proof. solve_decision. Defined.

(** [sy_stopping]: a [Stop] waits for the threads, for [Destroy] if [true].
    [sy_registering]: registrations between their critical section and their
    subscription, with whether they are past the test.  The rest records the messages: accepted by [Publish], and
    what became of them; received into the queue, and taken for dispatch
    ([true]) or discarded. *)
Record mqtt := {
  sy_client : FastMQTT C;
  sy_conn : conn_pc;
  sy_recv : recv_pc;
  sy_disp : disp_pc;
  sy_send : send_pc;
  sy_stopping : option bool;
  sy_registering : list (string * Z * bool);
  sy_accepted : list Message;
  sy_sent : list (Message * fate);
  sy_arrived : list Message;
  sy_consumed : list (Message * bool)
}.
Implicit Types (s : mqtt).

Definition mqtt_new : mqtt := {|
  sy_client := FastMQTT_new; sy_conn := COut; sy_recv := ROut; sy_disp := DOut; sy_send := SOut;
  sy_stopping := None; sy_registering := []; sy_accepted := []; sy_sent := []; sy_arrived := [];
  sy_consumed := [] |}.

Definition with_client (q : FastMQTT C) s : mqtt := {|
  sy_client := q; sy_conn := sy_conn s; sy_recv := sy_recv s; sy_disp := sy_disp s;
  sy_send := sy_send s; sy_stopping := sy_stopping s; sy_registering := sy_registering s;
  sy_accepted := sy_accepted s; sy_sent := sy_sent s; sy_arrived := sy_arrived s;
  sy_consumed := sy_consumed s |}.
Definition conn_at (pc : conn_pc) (q : FastMQTT C) s : mqtt := {|
  sy_client := q; sy_conn := pc; sy_recv := sy_recv s; sy_disp := sy_disp s; sy_send := sy_send s;
  sy_stopping := sy_stopping s; sy_registering := sy_registering s; sy_accepted := sy_accepted s;
  sy_sent := sy_sent s; sy_arrived := sy_arrived s; sy_consumed := sy_consumed s |}.
Definition recv_at (pc : recv_pc) (q : FastMQTT C) s : mqtt := {|
  sy_client := q; sy_conn := sy_conn s; sy_recv := pc; sy_disp := sy_disp s; sy_send := sy_send s;
  sy_stopping := sy_stopping s; sy_registering := sy_registering s; sy_accepted := sy_accepted s;
  sy_sent := sy_sent s; sy_arrived := sy_arrived s; sy_consumed := sy_consumed s |}.
Definition disp_at (pc : disp_pc) (q : FastMQTT C) s : mqtt := {|
  sy_client := q; sy_conn := sy_conn s; sy_recv := sy_recv s; sy_disp := pc; sy_send := sy_send s;
  sy_stopping := sy_stopping s; sy_registering := sy_registering s; sy_accepted := sy_accepted s;
  sy_sent := sy_sent s; sy_arrived := sy_arrived s; sy_consumed := sy_consumed s |}.
Definition send_at (pc : send_pc) (q : FastMQTT C) s : mqtt := {|
  sy_client := q; sy_conn := sy_conn s; sy_recv := sy_recv s; sy_disp := sy_disp s; sy_send := pc;
  sy_stopping := sy_stopping s; sy_registering := sy_registering s; sy_accepted := sy_accepted s;
  sy_sent := sy_sent s; sy_arrived := sy_arrived s; sy_consumed := sy_consumed s |}.
Definition stopping (x : option bool) (q : FastMQTT C) s : mqtt := {|
  sy_client := q; sy_conn := sy_conn s; sy_recv := sy_recv s; sy_disp := sy_disp s;
  sy_send := sy_send s; sy_stopping := x; sy_registering := sy_registering s;
  sy_accepted := sy_accepted s; sy_sent := sy_sent s; sy_arrived := sy_arrived s;
  sy_consumed := sy_consumed s |}.
Definition registering (l : list (string * Z * bool)) (q : FastMQTT C) s : mqtt := {|
  sy_client := q; sy_conn := sy_conn s; sy_recv := sy_recv s; sy_disp := sy_disp s;
  sy_send := sy_send s; sy_stopping := sy_stopping s; sy_registering := l;
  sy_accepted := sy_accepted s; sy_sent := sy_sent s; sy_arrived := sy_arrived s;
  sy_consumed := sy_consumed s |}.
Definition published (l : list Message) (q : FastMQTT C) s : mqtt := {|
  sy_client := q; sy_conn := sy_conn s; sy_recv := sy_recv s; sy_disp := sy_disp s;
  sy_send := sy_send s; sy_stopping := sy_stopping s; sy_registering := sy_registering s;
  sy_accepted := sy_accepted s ++ l; sy_sent := sy_sent s; sy_arrived := sy_arrived s;
  sy_consumed := sy_consumed s |}.
Definition resolved (l : list (Message * fate)) s : mqtt := {|
  sy_client := sy_client s; sy_conn := sy_conn s; sy_recv := sy_recv s; sy_disp := sy_disp s;
  sy_send := sy_send s; sy_stopping := sy_stopping s; sy_registering := sy_registering s;
  sy_accepted := sy_accepted s; sy_sent := sy_sent s ++ l; sy_arrived := sy_arrived s;
  sy_consumed := sy_consumed s |}.
Definition received (l : list Message) s : mqtt := {|
  sy_client := sy_client s; sy_conn := sy_conn s; sy_recv := sy_recv s; sy_disp := sy_disp s;
  sy_send := sy_send s; sy_stopping := sy_stopping s; sy_registering := sy_registering s;
  sy_accepted := sy_accepted s; sy_sent := sy_sent s; sy_arrived := sy_arrived s ++ l;
  sy_consumed := sy_consumed s |}.
Definition taken (l : list (Message * bool)) s : mqtt := {|
  sy_client := sy_client s; sy_conn := sy_conn s; sy_recv := sy_recv s; sy_disp := sy_disp s;
  sy_send := sy_send s; sy_stopping := sy_stopping s; sy_registering := sy_registering s;
  sy_accepted := sy_accepted s; sy_sent := sy_sent s; sy_arrived := sy_arrived s;
  sy_consumed := sy_consumed s ++ l |}.
(** [Start] makes the threads. *)
Definition spawned (q : FastMQTT C) s : mqtt := {|
  sy_client := q; sy_conn := CTop; sy_recv := RTop false; sy_disp := DTop; sy_send := STop;
  sy_stopping := sy_stopping s; sy_registering := sy_registering s; sy_accepted := sy_accepted s;
  sy_sent := sy_sent s; sy_arrived := sy_arrived s; sy_consumed := sy_consumed s |}.

(** All threads have left their loops. *)
Definition all_out s : Prop :=
  sy_conn s = COut ∧ sy_recv s = ROut ∧ sy_disp s = DOut ∧ sy_send s = SOut.

Definition queued (o : option (BlockingQueue Message)) : list Message :=
  match o with Some b => queue_ b | None => [] end.

(** What is left in the queues when they are destroyed. *)
Definition destroyed s : mqtt :=
  let q := sy_client s in
  taken (map (λ m, (m, false)) (queued (mq_recv_queue q)))
    (resolved (map (λ m, (m, Discarded)) (queued (mq_send_queue q))) (stopping None (destroy_end q) s)).

(** A timed [Pop]: from the moment the queue is ready, or at the deadline. *)
Definition pops (b : BlockingQueue Message) (o : option Message) (b' : BlockingQueue Message) : Prop :=
  Pop b = Some (o, b') ∨ Pop_expired b = (o, b').

(** What follows a wait of [n] seconds. *)
Definition wait_for_retry (last : bool) s : mqtt :=
  let '(n, q) := NextBackoffSeconds (sy_client s) in recv_at (RWait (Z.to_nat (n * 10)) last) q s.

(** [HandleMessage], with a message that fits the queue recorded. *)
Definition message_in (msg : option Message) (now : Z) s : mqtt :=
  let q := sy_client s in
  let q' := HandleMessage msg now q in
  received (drop (length (queued (mq_recv_queue q))) (queued (mq_recv_queue q'))) (recv_at RLoop q' s).


(** ** Steps *)

(** The calls of the other parts. *)
Inductive api_step s : mqtt → Prop :=
| step_initialize c created :
    sy_stopping s = None → mq_state (sy_client s) = Uninitialized →
    api_step s (with_client (configure c created (sy_client s)).2 s)
| step_start q :
    sy_stopping s = None → Start (sy_client s) = (true, q) → api_step s (spawned q s)
| step_stop for_destroy :
    sy_stopping s = None → stops (sy_client s) = true →
    api_step s (stopping (Some for_destroy) (stop_begin (sy_client s)) s)
| step_stopped :
    sy_stopping s = Some false → all_out s → api_step s (stopping None (stop_end (sy_client s)) s)
| step_destroyed :
    sy_stopping s = Some true → all_out s → api_step s (destroyed (with_client (stop_end (sy_client s)) s))
| step_destroy_idle :
    sy_stopping s = None → stops (sy_client s) = false → api_step s (destroyed s)
| step_publish topic payload qos retain now b q :
    Publish topic payload qos retain now (sy_client s) = (b, q) →
    api_step s (published (if b then [{| msg_topic := topic; msg_payload := payload; msg_qos := qos;
                                         msg_retain := retain; msg_timestamp := now |}] else []) q s)
| step_register topic cb qos :
    api_step s (registering ((topic, qos, false) :: sy_registering s)
                  (register_insert topic cb qos (sy_client s)).2 s)
| step_register_test l1 topic qos l2 :
    sy_registering s = l1 ++ (topic, qos, false) :: l2 →
    api_step s (registering (l1 ++ (if register_test (sy_client s) then [(topic, qos, true)] else []) ++ l2)
                  (sy_client s) s)
| step_subscribe l1 topic qos l2 accepted :
    sy_registering s = l1 ++ (topic, qos, true) :: l2 →
    api_step s (registering (l1 ++ l2) (register_subscribe topic qos accepted (sy_client s)) s)
| step_unregister handle :
    api_step s (with_client (UnregisterCallback handle (sy_client s)).2 s)
| step_clear topic : api_step s (with_client (ClearCallback topic (sy_client s)) s)
| step_clear_all : api_step s (with_client (ClearAllCallbacks (sy_client s)) s).

(** [while (running_.load())]. *)
Definition while_running {A} s (inside outside : A) : A :=
  if mq_running (sy_client s) then inside else outside.

Inductive conn_step s : mqtt → Prop :=
| conn_top : sy_conn s = CTop → conn_step s (conn_at (while_running s CProbe COut) (sy_client s) s)
| conn_probe alive :
    sy_conn s = CProbe → conn_step s (conn_at (CWait 20) (with_ip_alive alive (sy_client s)) s)
| conn_wait n :
    sy_conn s = CWait (S n) → conn_step s (conn_at (while_running s (CWait n) CTop) (sy_client s) s)
| conn_waited : sy_conn s = CWait 0 → conn_step s (conn_at CTop (sy_client s) s).

(** The attempt to connect: the first one, or a counted reconnection. *)
Definition attempt (ever_connected : bool) (q : FastMQTT C) : FastMQTT C :=
  if ever_connected
  then called [Reconnect] (with_stats (fetch_add reconnect_count (mq_stats q)) q)
  else let b := cf_broker (mq_config q) in called [Connect (br_host b) (br_port b) (br_keep_alive b)] q.
Definition auto_reconnect s : bool := br_auto_reconnect (cf_broker (mq_config (sy_client s))).

(** What the library reports with a return code of 0. *)
Definition reported (rc : Z) (q : FastMQTT C) : FastMQTT C := if decide (rc = 0) then called [Connected] q else q.
Definition after_handler (a : after_ops) : recv_pc :=
  match a with ToLoop => RLoop | ToCopy => RCopy | ToDown => RDown end.

Inductive recv_step s : mqtt → Prop :=
| recv_top ever :
    sy_recv s = RTop ever → recv_step s (recv_at (while_running s (RConnect ever) ROut) (sy_client s) s)
| recv_connected ever :
    sy_recv s = RConnect ever → recv_step s (recv_at RNet (attempt ever (sy_client s)) s)
| recv_refused ever :
    sy_recv s = RConnect ever →
    recv_step s (wait_for_retry (negb (auto_reconnect s)) (with_client (attempt ever (sy_client s)) s))
| recv_net : sy_recv s = RNet → recv_step s (recv_at (while_running s RLoop RDown) (sy_client s) s)
| recv_on_connect rc now :
    sy_recv s = RLoop →
    recv_step s (recv_at (ROps (HandleConnect rc now) (if decide (rc = 0) then ToCopy else ToLoop))
                   (reported rc (sy_client s)) s)
| recv_op op l a :
    sy_recv s = ROps (op :: l) a → recv_step s (recv_at (ROps l a) (run_op op (sy_client s)) s)
| recv_ops_done a : sy_recv s = ROps [] a → recv_step s (recv_at (after_handler a) (sy_client s) s)
| recv_copy : sy_recv s = RCopy → recv_step s (recv_at (RSubs (resubscriptions (sy_client s))) (sy_client s) s)
| recv_subscribe x l accepted :
    sy_recv s = RSubs (x :: l) → recv_step s (recv_at (RSubs l) (resubscribe x accepted (sy_client s)) s)
| recv_subscribed : sy_recv s = RSubs [] → recv_step s (recv_at RLoop (sy_client s) s)
| recv_on_disconnect :
    sy_recv s = RLoop → recv_step s (recv_at (ROps HandleDisconnect ToLoop) (sy_client s) s)
| recv_on_message msg now : sy_recv s = RLoop → recv_step s (message_in msg now s)
| recv_loop_returns : sy_recv s = RLoop → recv_step s (recv_at RNet (sy_client s) s)
| recv_loop_fails :
    sy_recv s = RLoop → recv_step s (recv_at (ROps stores_down ToDown) (sy_client s) s)
| recv_down :
    sy_recv s = RDown →
    recv_step s (if negb (mq_running (sy_client s)) then recv_at (RTop true) (sy_client s) s
                 else if negb (auto_reconnect s) then recv_at ROut (sy_client s) s
                 else wait_for_retry false s)
| recv_wait n last :
    sy_recv s = RWait (S n) last →
    recv_step s (recv_at (RWait (while_running s n 0%nat) last) (sy_client s) s)
| recv_waited last :
    sy_recv s = RWait 0 last → recv_step s (recv_at (if last then ROut else RTop true) (sy_client s) s).

Inductive disp_step s : mqtt → Prop :=
| disp_top : sy_disp s = DTop → disp_step s (disp_at (while_running s DPop DOut) (sy_client s) s)
| disp_pop b o b' :
    sy_disp s = DPop → mq_recv_queue (sy_client s) = Some b → pops b o b' →
    disp_step s (disp_at (match o with Some m => DRun m | None => DTop end)
                   (FastMQTT.with_recv (Some b') (sy_client s)) s)
| disp_run m :
    sy_disp s = DRun m →
    disp_step s (taken [(m, true)]
                   (disp_at (DCalls m (matched topic_matches_sub (msg_topic m) (sy_client s))) (sy_client s) s))
| disp_call m e l returned :
    sy_disp s = DCalls m (e :: l) → disp_step s (disp_at (DCalls m l) (run_callback returned (sy_client s)) s)
| disp_done m : sy_disp s = DCalls m [] → disp_step s (disp_at DTop (sy_client s) s).

Inductive send_step s : mqtt → Prop :=
| send_top : sy_send s = STop → send_step s (send_at (while_running s SPop SOut) (sy_client s) s)
| send_pop b o b' :
    sy_send s = SPop → mq_send_queue (sy_client s) = Some b → pops b o b' →
    send_step s (send_at (match o with Some m => SSend m | None => STop end)
                   (FastMQTT.with_send (Some b') (sy_client s)) s)
| send_publish m took now :
    sy_send s = SSend m →
    send_step s (resolved [(m, if (DoPublish m took (sy_client s)).1 then Sent else Failed)]
                   (send_at STop (send m took now (sy_client s)) s)).

Inductive mqtt_step s s' : Prop :=
| by_api : api_step s s' → mqtt_step s s'
| by_conn : conn_step s s' → mqtt_step s s'
| by_recv : recv_step s s' → mqtt_step s s'
| by_disp : disp_step s s' → mqtt_step s s'
| by_send : send_step s s' → mqtt_step s s'.

Definition mqtt_reachable : mqtt → Prop := rtc mqtt_step mqtt_new.
(** ** What the steps of the threads keep *)

Record same_life s s' : Prop := {
  sl_threads : mq_threads (sy_client s') = mq_threads (sy_client s);
  sl_mosq : mq_mosq (sy_client s') = mq_mosq (sy_client s);
  sl_ref : mq_lib_ref (sy_client s') = mq_lib_ref (sy_client s);
  sl_state : mq_state (sy_client s') = mq_state (sy_client s);
  sl_running : mq_running (sy_client s') = mq_running (sy_client s);
  sl_config : mq_config (sy_client s') = mq_config (sy_client s);
  sl_stopping : sy_stopping s' = sy_stopping s;
  sl_send : is_Some (mq_send_queue (sy_client s')) ↔ is_Some (mq_send_queue (sy_client s));
  sl_recv : is_Some (mq_recv_queue (sy_client s')) ↔ is_Some (mq_recv_queue (sy_client s))
}.

(** Opens the operations of the client down to their tests. *)
Ltac open_client :=
  unfold message_in, wait_for_retry, send, HandleMessage, reported, run_op, DoPublish,
    ResetBackoff, resubscribe, run_callback, attempt, register_insert, register_subscribe,
    ClearCallback, drop_topic, ClearAllCallbacks, NextBackoffSeconds in *.
Ltac cases := repeat (case_match; simplify_eq/=).
Ltac step_cases := open_client; cbn; cases; simplify_eq/=.

(** [is_Some] of a queue before and after. *)
Ltac some_tac := split; intros [? ?]; simplify_eq; eauto.

Lemma unregister_keeps (P : FastMQTT C → Prop) h items (q : FastMQTT C) :
  P q → (∀ topic, P (drop_topic topic q)) →
  (∀ topic v, P (FastMQTT.with_callbacks (<[topic := v]> (mq_callbacks q)) q)) →
  P (unregister h items q).2.
Proof.
  intros H1 H2 H3. induction items as [|[topic v] items IH]; [done|]. cbn [unregister].
  destruct (erase_handle h v) as [[|e v']|]; [apply H2|apply H3|exact IH].
Qed.

Lemma recv_same_life s s' : recv_step s s' → same_life s s'.
Proof. intros Hs. destruct Hs; (split; step_cases; done || some_tac). Qed.
Lemma thread_same_life s s' : conn_step s s' ∨ disp_step s s' ∨ send_step s s' → same_life s s'.
Proof.
  intros [Hs|[Hs|Hs]]; destruct Hs; (split; step_cases; done || some_tac).
Qed.

(** The threads a step belongs to exist. *)
Lemma thread_not_out s s' :
  conn_step s s' ∨ recv_step s s' ∨ disp_step s s' ∨ send_step s s' → ¬ all_out s.
Proof. intros [Hs|[Hs|[Hs|Hs]]] (Hc & Hr & Hd & Hn); destruct Hs; congruence. Qed.

(** ** The life cycle *)

Record life_ok s : Prop := {
  lf_threads :
    let q := sy_client s in
    if mq_threads q
    then mq_mosq q = true ∧ mq_running q = bool_decide (sy_stopping s = None) ∧
         mq_state q = (if mq_running q then Running else Stopping)
    else all_out s ∧ mq_running q = false ∧ sy_stopping s = None ∧ mq_link q = link_down ∧
         (mq_state q = Uninitialized ∨ mq_state q = Initialized ∨ mq_state q = Stopped);
  lf_handle : mq_lib_ref (sy_client s) = (if mq_mosq (sy_client s) then 1 else 0);
  lf_send : is_Some (mq_send_queue (sy_client s)) ↔ mq_mosq (sy_client s) = true;
  lf_recv : is_Some (mq_recv_queue (sy_client s)) ↔ mq_mosq (sy_client s) = true;
  lf_uninit : mq_state (sy_client s) = Uninitialized → mq_mosq (sy_client s) = false;
  lf_init : mq_state (sy_client s) = Initialized → mq_mosq (sy_client s) = cf_enable (mq_config (sy_client s))
}.

Lemma life_ok_new : life_ok mqtt_new.
Proof. split; cbn; try done; [|by split; [intros [??]|]..]. by split_and!; try (by left). Qed.

(** Any step with the same life cycle keeps it, unless it lets a thread or a link
    out of nowhere. *)
Lemma life_ok_same s s' :
  same_life s s' → (mq_threads (sy_client s) = false → all_out s → all_out s' ∧ mq_link (sy_client s') = mq_link (sy_client s)) →
  life_ok s → life_ok s'.
Proof.
  intros [E1 E2 E3 E4 E5 E6 E7 E8 E9] Hout [L1 L2 L3 L4 L5 L6].
  split; cbv zeta in *; rewrite ?E1, ?E2, ?E3, ?E4, ?E5, ?E6, ?E7, ?E8, ?E9; try done.
  destruct (mq_threads (sy_client s)); [done|]. destruct L1 as (Ho & Hr & Hs & Hl & Hst).
  destruct (Hout eq_refl Ho) as [Ho' ->]. done.
Qed.

(** The calls that leave the life cycle, the threads and the link alone. *)
Definition quiet s s' : Prop :=
  same_life s s' ∧ mq_link (sy_client s') = mq_link (sy_client s) ∧
  sy_conn s' = sy_conn s ∧ sy_recv s' = sy_recv s ∧ sy_disp s' = sy_disp s ∧ sy_send s' = sy_send s.

Ltac quiet_tac := split; [split; step_cases; done || some_tac|]; step_cases; done.

Lemma quiet_publish topic payload qos retain now b q l s :
  Publish topic payload qos retain now (sy_client s) = (b, q) → quiet s (published l q s).
Proof. unfold Publish. intros Hp. repeat case_match; simplify_eq; quiet_tac. Qed.
Lemma quiet_register topic cb qos l s :
  quiet s (registering l (register_insert topic cb qos (sy_client s)).2 s).
Proof. quiet_tac. Qed.
Lemma quiet_subscribe topic qos accepted l s :
  quiet s (registering l (register_subscribe topic qos accepted (sy_client s)) s).
Proof. quiet_tac. Qed.
Lemma quiet_registering l s : quiet s (registering l (sy_client s) s).
Proof. quiet_tac. Qed.
Lemma quiet_drop topic s : quiet s (with_client (drop_topic topic (sy_client s)) s).
Proof. quiet_tac. Qed.
Lemma quiet_callbacks m s : quiet s (with_client (FastMQTT.with_callbacks m (sy_client s)) s).
Proof. quiet_tac. Qed.
Lemma quiet_refl s : quiet s (with_client (sy_client s) s).
Proof. quiet_tac. Qed.
Lemma quiet_unregister h s : quiet s (with_client (UnregisterCallback h (sy_client s)).2 s).
Proof.
  apply (unregister_keeps (λ q, quiet s (with_client q s)));
    [apply quiet_refl|intros topic; apply quiet_drop|intros; apply quiet_callbacks].
Qed.
Lemma quiet_clear topic s : quiet s (with_client (ClearCallback topic (sy_client s)) s).
Proof. unfold ClearCallback. case_match; [apply quiet_drop|apply quiet_refl]. Qed.

Lemma life_ok_quiet s s' : quiet s s' → life_ok s → life_ok s'.
Proof.
  intros (Hs & Hl & Ec & Er & Ed & En). apply life_ok_same; [done|]. intros _ (Hc & Hr & Hd & Hn).
  split; [|done]. unfold all_out. by rewrite Ec, Er, Ed, En.
Qed.

Lemma life_ok_initialize c created s :
  sy_stopping s = None → mq_state (sy_client s) = Uninitialized → life_ok s →
  life_ok (with_client (configure c created (sy_client s)).2 s).
Proof.
  intros Hst Hq [L1 L2 L3 L4 L5 L6]. pose proof (L5 Hq) as Hm. rewrite Hm in L2, L3, L4.
  destruct (mq_threads (sy_client s)) eqn:Et; cbv zeta in L1.
  { rewrite Et in L1. destruct L1 as (L1 & _). congruence. }
  rewrite Et in L1. destruct L1 as (Ho & Hr & _ & Hl & Hs).
  unfold configure, set_up, acquire_library, release_library, nonempty.
  split; cbn; repeat case_match; simplify_eq/=; rewrite ?Et, ?Hm, ?L2 in *; try done; try some_tac.
  all: first [intros _; by destruct (cf_enable c)|congruence|split_and!; done || tauto].
Qed.

Lemma life_ok_stop_end x s :
  all_out s → life_ok s → sy_stopping s = Some x → life_ok (stopping None (stop_end (sy_client s)) s).
Proof.
  intros Ho [L1 L2 L3 L4 L5 L6] Hst. cbv zeta in L1.
  destruct (mq_threads (sy_client s)); [|by destruct L1 as (_ & _ & ? & _); congruence].
  destruct L1 as (Hm & Hr & Hs). rewrite Hst in Hr. rewrite bool_decide_eq_false_2 in Hr by done.
  split; cbn; try done. split_and!; [exact Ho|done|done|done|tauto].
Qed.

Lemma life_ok_destroyed s :
  sy_stopping s = None → stops (sy_client s) = false → life_ok s → life_ok (destroyed s).
Proof.
  intros Hst Hno [L1 L2 L3 L4 L5 L6]. cbv zeta in L1. unfold stops in Hno.
  destruct (mq_threads (sy_client s)) eqn:Et.
  { destruct L1 as (_ & Hr & Hs). rewrite Hst, bool_decide_eq_true_2 in Hr by done.
    rewrite Hr in Hs. rewrite Hs in Hno. by rewrite bool_decide_eq_true_2 in Hno by (by left). }
  destruct L1 as (Ho & Hr & _ & Hl & Hs).
  unfold destroyed, destroy_end, release_library.
  destruct (mq_mosq (sy_client s)) eqn:Em; cbn [mq_lib_ref with_handle called];
    rewrite ?L2, ?decide_True by done; split; cbn; rewrite ?Et, ?Em, ?L2; try done; try some_tac.
  all: split; [exact Ho|]; by repeat split; auto.
Qed.

Lemma life_ok_start q s :
  sy_stopping s = None → FastMQTT.Start (sy_client s) = (true, q) → life_ok s → life_ok (spawned q s).
Proof.
  unfold Start. intros Hst. case_bool_decide as Hi; [|done]. destruct (cf_enable _) eqn:Ec; [|done].
  intros [= <-] [L1 L2 L3 L4 L5 L6]. cbv zeta in L1. pose proof (L6 Hi) as Hm. rewrite Ec in Hm.
  split; cbn; rewrite ?Hm in *; try done. by rewrite Hst, bool_decide_eq_true_2.
Qed.

Lemma life_ok_stop d s :
  sy_stopping s = None → stops (sy_client s) = true → life_ok s →
  life_ok (stopping (Some d) (stop_begin (sy_client s)) s).
Proof.
  unfold stops. intros Hst Hs%bool_decide_eq_true [L1 L2 L3 L4 L5 L6]. cbv zeta in L1.
  destruct (mq_threads (sy_client s)) eqn:Et.
  2: { destruct L1 as (_ & _ & _ & _ & L1). destruct Hs, L1 as [|[|]]; congruence. }
  destruct L1 as (Hm & Hr & _). rewrite Hm in L3, L4. unfold stop_begin. cbn. rewrite Hm.
  split; cbn; rewrite ?Et, ?Hm, ?L2, ?fmap_is_Some; try done. by rewrite Hm.
Qed.

Lemma life_ok_step s s' : mqtt_step s s' → life_ok s → life_ok s'.
Proof.
  intros Hstep Hok. destruct Hstep as [Ha|Hc|Hr|Hd|Hn].
  - destruct Ha.
    + by apply life_ok_initialize.
    + by apply life_ok_start.
    + by apply life_ok_stop.
    + by eapply life_ok_stop_end.
    + change (destroyed _) with (destroyed (stopping None (stop_end (sy_client s)) s)).
      apply life_ok_destroyed; [done|done|]. by eapply life_ok_stop_end.
    + by apply life_ok_destroyed.
    + eapply life_ok_quiet; [by eapply quiet_publish|done].
    + eapply life_ok_quiet; [apply quiet_register|done].
    + eapply life_ok_quiet; [apply quiet_registering|done].
    + eapply life_ok_quiet; [apply quiet_subscribe|done].
    + eapply life_ok_quiet; [apply quiet_unregister|done].
    + eapply life_ok_quiet; [apply quiet_clear|done].
    + eapply life_ok_quiet; [apply quiet_callbacks|done].
  - eapply life_ok_same; [apply thread_same_life; eauto| |done].
    intros _ Ho. by destruct (thread_not_out s s'); eauto.
  - eapply life_ok_same; [by apply recv_same_life| |done].
    intros _ Ho. by destruct (thread_not_out s s'); eauto.
  - eapply life_ok_same; [apply thread_same_life; eauto| |done].
    intros _ Ho. by destruct (thread_not_out s s'); eauto.
  - eapply life_ok_same; [apply thread_same_life; eauto| |done].
    intros _ Ho. by destruct (thread_not_out s s'); eauto.
Qed.

(** ** The flow of messages *)

Definition send_hand s : list Message := match sy_send s with SSend m => [m] | _ => [] end.
Definition disp_hand s : list Message := match sy_disp s with DRun m => [m] | _ => [] end.
Definition fates (f : fate) s : Z := Z.of_nat (length (filter (λ x, x.2 = f) (sy_sent s))).

Record flow_ok s : Prop := {
  fl_sent : sy_accepted s = map fst (sy_sent s) ++ send_hand s ++ queued (mq_send_queue (sy_client s));
  fl_arrived : sy_arrived s = map fst (sy_consumed s) ++ disp_hand s ++ queued (mq_recv_queue (sy_client s));
  fl_success : mq_stats (sy_client s) send_success = wraps 64 (fates Sent s);
  fl_failed : mq_stats (sy_client s) send_failed = wraps 64 (fates Failed s);
  fl_count : mq_stats (sy_client s) recv_count =
             wraps 64 (Z.of_nat (length (sy_arrived s)) + mq_stats (sy_client s) recv_dropped)
}.

(** What the flow depends on. *)
Definition flow s :=
  (sy_accepted s, sy_sent s, sy_arrived s, sy_consumed s, send_hand s ++ queued (mq_send_queue (sy_client s)),
   disp_hand s ++ queued (mq_recv_queue (sy_client s)), mq_stats (sy_client s) send_success,
   mq_stats (sy_client s) send_failed, mq_stats (sy_client s) recv_count, mq_stats (sy_client s) recv_dropped).

Lemma flow_ok_same s s' : flow s' = flow s → flow_ok s → flow_ok s'.
Proof.
  unfold flow. intros [= E1 E2 E3 E4 E5 E6 E7 E8 E9 E10] [F1 F2 F3 F4 F5].
  split; unfold fates in *; congruence.
Qed.

Lemma flow_ok_new : flow_ok mqtt_new.
Proof. by split. Qed.

Lemma pops_queue (b b' : BlockingQueue Message) o : pops b o b' → queue_ b = option_list o ++ queue_ b'.
Proof.
  intros [Hp|Hp].
  - unfold Pop in Hp. destruct (ready b); [|done]. injection Hp as Hp. apply take_front_spec in Hp as [_ ->]. by destruct o.
  - unfold Pop_expired in Hp. destruct (ready b); cbn in Hp; [apply take_front_spec in Hp as [_ ->]; by destruct o|].
    by injection Hp as <- <-.
Qed.

Lemma flow_conn s s' : conn_step s s' → flow s' = flow s.
Proof. intros Hs. by destruct Hs; unfold while_running; step_cases. Qed.

Lemma wraps_count st c : wraps 64 (wraps 64 st + 1) = wraps 64 c → wraps 64 (st + 1) = wraps 64 c.
Proof. by rewrite wraps_add_l. Qed.

Lemma flow_ok_disp s s' : disp_step s s' → flow_ok s → flow_ok s'.
Proof.
  intros Hs. destruct Hs as [Hd|b o b' Hd Hq Hp|m Hd|m e l r Hd|m Hd].
  - apply flow_ok_same. unfold flow, disp_hand, while_running. cbn. rewrite Hd. by destruct (mq_running (sy_client s)).
  - apply flow_ok_same. unfold flow, disp_hand. cbn. rewrite Hd, Hq. cbn.
    rewrite (pops_queue _ _ _ Hp). by destruct o.
  - intros [F1 F2 F3 F4 F5]. split; try done. unfold disp_hand in *. cbn. rewrite Hd in F2.
    rewrite F2, map_app. by rewrite <- app_assoc.
  - apply flow_ok_same. unfold flow, disp_hand, run_callback. cbn. rewrite Hd. by destruct r.
  - apply flow_ok_same. unfold flow, disp_hand. cbn. by rewrite Hd.
Qed.

Lemma fates_app f s l : fates f (resolved l s) = fates f s + Z.of_nat (length (filter (λ x, x.2 = f) l)).
Proof. unfold fates. cbn. rewrite filter_app, length_app. lia. Qed.

Lemma flow_ok_send s s' : send_step s s' → flow_ok s → flow_ok s'.
Proof.
  intros Hs. destruct Hs as [Hn|b o b' Hn Hq Hp|m took now Hn].
  - apply flow_ok_same. unfold flow, send_hand, while_running. cbn. rewrite Hn. by destruct (mq_running (sy_client s)).
  - apply flow_ok_same. unfold flow, send_hand. cbn. rewrite Hn, Hq. cbn.
    rewrite (pops_queue _ _ _ Hp). by destruct o.
  - intros [F1 F2 F3 F4 F5]. unfold send. destruct (DoPublish m took (sy_client s)) as [ok q] eqn:Ep.
    assert (Hq : mq_stats q = mq_stats (sy_client s) ∧ mq_send_queue q = mq_send_queue (sy_client s) ∧
                 mq_recv_queue q = mq_recv_queue (sy_client s)).
    { unfold DoPublish in Ep. by case_match; simplify_eq/=. }
    destruct Hq as (Est & Esq & Erq). cbn [fst].
    unfold send_hand in F1. rewrite Hn in F1.
    split; rewrite ?fates_app; destruct ok; cbn; rewrite ?Est, ?Esq, ?Erq; try done;
      unfold fetch_add, store, send_hand, fates in *; cbn; rewrite ?Est, ?F3, ?F4, ?wraps_add_l, ?Z.add_0_r; try done.
    all: rewrite F1, map_app; by rewrite <- app_assoc.
Qed.

Lemma flow_recv s s' :
  recv_step s s' → (∃ msg now, s' = message_in msg now s) ∨ flow s' = flow s.
Proof.
  intros Hs. destruct Hs; try (by left; eauto); right; unfold flow, wait_for_retry, NextBackoffSeconds; cbn;
    try done; open_client; unfold fetch_add, store; repeat (case_match; cbn); done.
Qed.

Lemma flow_ok_message msg now s : flow_ok s → flow_ok (message_in msg now s).
Proof.
  intros Hok. unfold message_in, HandleMessage.
  assert (Hsame : flow_ok (received (drop (length (queued (mq_recv_queue (sy_client s))))
                             (queued (mq_recv_queue (sy_client s)))) (recv_at RLoop (sy_client s) s))).
  { eapply flow_ok_same; [|exact Hok]. rewrite drop_all. unfold flow. cbn. by rewrite app_nil_r. }
  destruct msg as [m|]; [|exact Hsame]. destruct (mq_recv_queue (sy_client s)) as [b|] eqn:Eb; [|by rewrite Eb].
  clear Hsame. destruct Hok as [F1 F2 F3 F4 F5]. rewrite Eb in F2. cbn in F2.
  set (m' := {| msg_topic := _ |}). destruct (Push m' b) as [ok b'] eqn:Ep. destruct ok.
  - apply Push_true in Ep as (_ & -> & _). split; cbn; unfold fetch_add, disp_hand in *; cbn;
      rewrite ?store_eq, ?store_ne, ?store_eq, ?store_ne by done; try done.
    + rewrite drop_app_length, F2. by rewrite <- !app_assoc.
    + rewrite drop_app_length, F5, wraps_add_l, length_app.
      cbn. f_equal. lia.
  - cbn. rewrite Eb. cbn. rewrite drop_all.
    split; cbn; unfold fetch_add, disp_hand in *; cbn;
      rewrite ?store_eq, ?store_ne, ?store_eq, ?store_ne, ?app_nil_r, ?Eb by done; try done.
    rewrite F5, wraps_add_l. rewrite (Z.add_comm (Z.of_nat _) (wraps 64 _)), wraps_add_l. f_equal. lia.
Qed.

Lemma flow_ok_publish topic payload qos retain now b q s :
  Publish topic payload qos retain now (sy_client s) = (b, q) → flow_ok s →
  flow_ok (published (if b then [{| msg_topic := topic; msg_payload := payload; msg_qos := qos;
                                    msg_retain := retain; msg_timestamp := now |}] else []) q s).
Proof.
  unfold Publish. intros Hp Hok. set (m := {| msg_topic := topic |}) in *.
  assert (Hsame : flow_ok (published [] (sy_client s) s)).
  { eapply flow_ok_same; [|exact Hok]. unfold flow. cbn. by rewrite app_nil_r. }
  destruct (bool_decide _); cbn in Hp; [|by injection Hp as <- <-].
  destruct (mq_send_queue (sy_client s)) as [k|] eqn:Ek; [|by injection Hp as <- <-].
  destruct (Push m k) as [ok k'] eqn:E. destruct ok; injection Hp as <- <-.
  - apply Push_true in E as (_ & -> & _). destruct Hok as [F1 F2 F3 F4 F5]. rewrite Ek in F1.
    split; cbn; try done. rewrite F1. unfold send_hand. cbn. by rewrite <- !app_assoc.
  - eapply flow_ok_same; [|exact Hsame]. done.
Qed.

(** The flow does not depend on the table, nor on the calls. *)
Lemma flow_unregister h s : flow (with_client (UnregisterCallback h (sy_client s)).2 s) = flow s.
Proof.
  apply (unregister_keeps (λ q, flow (with_client q s) = flow s)); [done| |done].
  intros topic. unfold drop_topic. by case_match.
Qed.

Lemma flow_ok_destroyed s : send_hand s = [] → disp_hand s = [] → flow_ok s → flow_ok (destroyed s).
Proof.
  intros Hsh Hdh [F1 F2 F3 F4 F5].
  assert (Hq : mq_stats (destroy_end (sy_client s)) = mq_stats (sy_client s)).
  { unfold destroy_end, release_library. by repeat (case_match; cbn). }
  assert (Hn : ∀ f, f ≠ Discarded → ∀ l : list Message,
             filter (λ x, x.2 = f) (map (λ m, (m, Discarded)) l) = []).
  { intros f Hf l. apply filter_none. by intros x (m & -> & _)%list_elem_of_fmap. }
  split; unfold fates, send_hand, disp_hand in *; cbn -[destroy_end filter]; rewrite ?Hq; try done.
  - rewrite Hsh, F1, Hsh. cbn. rewrite map_app, map_map, map_id, app_nil_r. done.
  - rewrite Hdh, F2, Hdh. cbn. rewrite map_app, map_map, map_id, app_nil_r. done.
  - by rewrite filter_app, Hn, app_nil_r.
  - by rewrite filter_app, Hn, app_nil_r.
Qed.

Lemma flow_ok_api s s' : life_ok s → api_step s s' → flow_ok s → flow_ok s'.
Proof.
  intros Hl Ha Hok. destruct Ha as [c created Hst Hq|q Hst Hs|d Hst Hs|Hst Ho|Hst Ho|Hst Hs|topic payload qos retain now b q Hp
    |topic cb qos|l1 topic qos l2 Hr|l1 topic qos l2 accepted Hr|h|topic|].
  - pose proof (lf_uninit _ Hl Hq) as Hm.
    assert (E1 : mq_send_queue (sy_client s) = None) by (apply eq_None_not_Some; rewrite (lf_send _ Hl); congruence).
    assert (E2 : mq_recv_queue (sy_client s) = None) by (apply eq_None_not_Some; rewrite (lf_recv _ Hl); congruence).
    eapply flow_ok_same; [|exact Hok]. unfold flow. rewrite E1, E2.
    unfold configure, set_up, acquire_library, release_library. cbn. repeat (case_match; cbn); rewrite ?E1, ?E2; done.
  - unfold Start in Hs. destruct (bool_decide (mq_state _ = Initialized)) eqn:Hi; [|done].
    apply bool_decide_eq_true in Hi. destruct (cf_enable _); [|done]. injection Hs as <-.
    pose proof (lf_threads _ Hl) as Ht. cbv zeta in Ht.
    destruct (mq_threads (sy_client s)) eqn:Et.
    { destruct Ht as (_ & _ & Ht). rewrite Hi in Ht. by destruct (mq_running _). }
    destruct Ht as ((_ & _ & Hd & Hn) & _).
    eapply flow_ok_same; [|exact Hok]. unfold flow, send_hand, disp_hand. cbn. by rewrite Hd, Hn.
  - eapply flow_ok_same; [|exact Hok]. unfold flow, stop_begin. cbn.
    by destruct (mq_mosq (sy_client s)), (mq_send_queue (sy_client s)), (mq_recv_queue (sy_client s)).
  - by eapply flow_ok_same; [|exact Hok].
  - destruct Ho as (_ & _ & Hd & Hn). apply flow_ok_destroyed; [unfold send_hand; cbn; by rewrite Hn
      |unfold disp_hand; cbn; by rewrite Hd|]. by eapply flow_ok_same; [|exact Hok].
  - pose proof (lf_threads _ Hl) as Ht. cbv zeta in Ht.
    destruct (mq_threads (sy_client s)) eqn:Et.
    { destruct Ht as (_ & Hr & Ht). rewrite Hst, bool_decide_eq_true_2 in Hr by done. rewrite Hr in Ht.
      unfold stops in Hs. rewrite Ht, bool_decide_eq_true_2 in Hs; [done|by left]. }
    destruct Ht as ((_ & _ & Hd & Hn) & _).
    apply flow_ok_destroyed; [unfold send_hand; by rewrite Hn|unfold disp_hand; by rewrite Hd|done].
  - by apply flow_ok_publish.
  - by eapply flow_ok_same; [|exact Hok].
  - by eapply flow_ok_same; [|exact Hok].
  - by eapply flow_ok_same; [|exact Hok].
  - eapply flow_ok_same; [apply flow_unregister|done].
  - eapply flow_ok_same; [|exact Hok]. unfold ClearCallback, drop_topic. by repeat case_match.
  - by eapply flow_ok_same; [|exact Hok].
Qed.

Lemma flow_ok_step s s' : mqtt_step s s' → life_ok s → flow_ok s → flow_ok s'.
Proof.
  intros [Ha|Hc|Hr|Hd|Hn] Hl Hok.
  - by eapply flow_ok_api.
  - eapply flow_ok_same; [by apply flow_conn|done].
  - destruct (flow_recv _ _ Hr) as [(msg & now & ->)|E]; [by apply flow_ok_message|by eapply flow_ok_same].
  - by eapply flow_ok_disp.
  - by eapply flow_ok_send.
Qed.

(** ** Subscriptions *)

(** The topics subscribed on the connection the log ends with, and those whose last
    subscription on it the library refused. *)
Definition subscription (t : gset string) (c : mosq_call) : gset string :=
  match c with
  | Connected => ∅
  | Subscribe topic _ accepted => if accepted then {[topic]} ∪ t else t
  | Unsubscribe topic => t ∖ {[topic]}
  | _ => t
  end.
Definition subscribed (calls : list mosq_call) : gset string := foldl subscription ∅ calls.
Definition refusal (t : gset string) (c : mosq_call) : gset string :=
  match c with
  | Connected => ∅
  | Subscribe topic _ accepted => if accepted then t ∖ {[topic]} else {[topic]} ∪ t
  | Unsubscribe topic => t ∖ {[topic]}
  | _ => t
  end.
Definition refused (calls : list mosq_call) : gset string := foldl refusal ∅ calls.

(** The topics the library has been asked for. *)
Definition asked s : gset string := subscribed (mq_calls (sy_client s)) ∪ refused (mq_calls (sy_client s)).

Lemma subscribed_app calls l : subscribed (calls ++ l) = foldl subscription (subscribed calls) l.
Proof. apply foldl_app. Qed.
Lemma refused_app calls l : refused (calls ++ l) = foldl refusal (refused calls) l.
Proof. apply foldl_app. Qed.

Lemma asked_subscribe calls topic qos accepted :
  subscribed (calls ++ [Subscribe topic qos accepted]) ∪ refused (calls ++ [Subscribe topic qos accepted]) =
  {[topic]} ∪ (subscribed calls ∪ refused calls).
Proof.
  rewrite subscribed_app, refused_app. cbn. apply set_eq. intros t. destruct (decide (t = topic)); destruct accepted; set_solver.
Qed.

Definition session s : bool := lk_session_connected (mq_link (sy_client s)).
Definition registering_topics s : list string := map (λ x, x.1.1) (sy_registering s).

(** The subscription of the topic is asked for, or will be: by the registration
    that put it into the table, or by the resubscription that follows the report of
    a connection. *)
Definition resubscribing s : Prop := sy_recv s = RCopy ∨ ∃ l, sy_recv s = ROps l ToCopy.
Definition covered s topic : Prop :=
  topic ∈ asked s ∨ topic ∈ registering_topics s ∨
  resubscribing s ∨ ∃ l, sy_recv s = RSubs l ∧ topic ∈ map fst l.

(** The statements of a handler still to run, and the flags they lead to. *)
Definition pending_ops s : list handler_op := match sy_recv s with ROps l _ => l | _ => [] end.
Definition settled_link s : Link :=
  foldl (link_op (cf_enable (mq_config (sy_client s)))) (mq_link (sy_client s)) (pending_ops s).
Definition agree (enable : bool) (lk : Link) : Prop :=
  lk_broker_connected lk = lk_session_connected lk ∧ lk_ready lk = lk_session_connected lk && enable.

Record link_ok s : Prop := {
  lo_agree : agree (cf_enable (mq_config (sy_client s))) (settled_link s);
  lo_ops l a : sy_recv s = ROps l a → a ≠ ToCopy → StoreSession true ∉ l;
  lo_subscribed topic : session s = true → is_Some (mq_callbacks (sy_client s) !! topic) → covered s topic
}.

(** The steps that neither connect, subscribe nor touch the table. *)
Definition same_link s s' : Prop :=
  mq_link (sy_client s') = mq_link (sy_client s) ∧
  cf_enable (mq_config (sy_client s')) = cf_enable (mq_config (sy_client s)) ∧
  mq_callbacks (sy_client s') = mq_callbacks (sy_client s) ∧
  asked s' = asked s ∧
  sy_registering s' = sy_registering s ∧
  (∀ l a, sy_recv s' = ROps l a → sy_recv s = ROps l a) ∧
  (∀ l a, sy_recv s = ROps l a → sy_recv s' = ROps l a) ∧
  (sy_recv s = RCopy → sy_recv s' = RCopy) ∧ (∀ l, sy_recv s = RSubs l → sy_recv s' = RSubs l).

Lemma pending_same s s' :
  (∀ l a, sy_recv s' = ROps l a → sy_recv s = ROps l a) →
  (∀ l a, sy_recv s = ROps l a → sy_recv s' = ROps l a) → pending_ops s' = pending_ops s.
Proof.
  intros H1 H2. unfold pending_ops.
  destruct (sy_recv s) eqn:E; try by rewrite (H2 _ _ eq_refl).
  all: destruct (sy_recv s') eqn:E'; try done; by specialize (H1 _ _ eq_refl).
Qed.

Lemma link_ok_same s s' : same_link s s' → link_ok s → link_ok s'.
Proof.
  intros (E1 & E2 & E3 & E4 & E5 & E6 & E6' & E7 & E8) [L1 L2 L3].
  split; unfold session, settled_link in *; rewrite ?E1, ?E2, ?E3.
  - by rewrite (pending_same s s').
  - intros l a Hr. by apply L2, E6.
  - intros topic Hs Ht. destruct (L3 topic Hs Ht) as [H1|[H1|[[H1|[l H1]]|(l & H1 & Hl)]]];
      unfold covered, resubscribing, registering_topics in *; rewrite ?E4, ?E5; eauto 10.
Qed.

(** Without a session there is nothing to cover. *)
Lemma link_ok_down s :
  mq_link (sy_client s) = link_down → sy_recv s = ROut → link_ok s.
Proof.
  intros Hl Hr. split; unfold session, settled_link, pending_ops; rewrite ?Hl, ?Hr; try done.
Qed.

Ltac same_link_tac :=
  unfold same_link, asked, while_running; repeat split; step_cases; rewrite ?subscribed_app, ?refused_app; try done; congruence.

Lemma link_ok_publish topic payload qos retain now b q l s :
  Publish topic payload qos retain now (sy_client s) = (b, q) → same_link s (published l q s).
Proof. unfold Publish. intros Hp. repeat case_match; simplify_eq; same_link_tac. Qed.

Lemma link_ok_others s s' : conn_step s s' ∨ disp_step s s' ∨ send_step s s' → same_link s s'.
Proof. intros [Hs|[Hs|Hs]]; destruct Hs; same_link_tac. Qed.

Lemma run_op_spec op (q : FastMQTT C) :
  mq_link (run_op op q) = link_op (cf_enable (mq_config q)) (mq_link q) op ∧
  mq_config (run_op op q) = mq_config q ∧ mq_callbacks (run_op op q) = mq_callbacks q ∧
  mq_calls (run_op op q) = mq_calls q.
Proof. unfold run_op, ResetBackoff. by destruct op, (mq_link q) as [??] eqn:E; cbn; rewrite ?E. Qed.

(** A session comes from one statement. *)
Lemma link_op_session enable lk op :
  lk_session_connected (link_op enable lk op) = true → lk_session_connected lk = true ∨ op = StoreSession true.
Proof. destruct lk, op as [b|[]|b| |now|]; cbn; naive_solver. Qed.

Lemma link_ok_op op l a s :
  sy_recv s = ROps (op :: l) a → link_ok s → link_ok (recv_at (ROps l a) (run_op op (sy_client s)) s).
Proof.
  intros Hr [L1 L2 L3]. destruct (run_op_spec op (sy_client s)) as (E1 & E2 & E3 & E4). split.
  - unfold settled_link, pending_ops in *. cbn. rewrite Hr in L1. by rewrite E1, E2.
  - cbn. intros l' a' [= <- <-] Ha Hin. apply (L2 _ _ Hr Ha). by right.
  - intros topic. unfold session. cbn. rewrite E1, E3. intros Hs Ht.
    destruct (decide (a = ToCopy)) as [->|Ha]; [right; right; left; right; by exists l|].
    apply link_op_session in Hs as [Hs| ->]; [|by destruct (L2 _ _ Hr Ha); left].
    destruct (L3 topic Hs Ht) as [Hc|[Hc|[[Hc|[l' Hc]]|(l' & Hc & _)]]]; try congruence.
    + left. unfold asked in *. cbn. by rewrite E4.
    + by right; left.
Qed.

(** A handler begins, or the end of the inner loop. *)
Lemma link_ok_ops l a (q : FastMQTT C) s :
  sy_recv s = RLoop → mq_link q = mq_link (sy_client s) → mq_config q = mq_config (sy_client s) →
  mq_callbacks q = mq_callbacks (sy_client s) → (a = ToCopy ∨ mq_calls q = mq_calls (sy_client s)) →
  (∀ lk, agree (cf_enable (mq_config q)) (foldl (link_op (cf_enable (mq_config q))) lk l)) →
  (a ≠ ToCopy → StoreSession true ∉ l) → link_ok s → link_ok (recv_at (ROps l a) q s).
Proof.
  intros Hr E1 E2 E3 E4 Ha Hl [L1 L2 L3]. split; [apply Ha|by intros l' a' [= <- <-]|].
  intros topic. unfold session. cbn. rewrite E1, E3. intros Hs Ht.
  destruct E4 as [->|E4]; [right; right; left; right; by exists l|].
  destruct (L3 topic Hs Ht) as [Hc|[Hc|[[Hc|[l' Hc]]|(l' & Hc & _)]]]; try congruence.
  - left. unfold asked in *. cbn. by rewrite E4.
  - by right; left.
Qed.

Lemma agree_ops enable lk rc now :
  agree enable (foldl (link_op enable) lk (HandleConnect rc now)) ∧ agree enable (foldl (link_op enable) lk stores_down).
Proof. unfold HandleConnect, agree. destruct lk. by case_decide. Qed.

Lemma down_no_session : StoreSession true ∉ stores_down.
Proof. unfold stores_down. rewrite !elem_of_cons, elem_of_nil. naive_solver. Qed.

Lemma link_ok_resubscribe x l accepted s :
  mq_mosq (sy_client s) = true → sy_recv s = RSubs (x :: l) → link_ok s →
  link_ok (recv_at (RSubs l) (resubscribe x accepted (sy_client s)) s).
Proof.
  intros Hm Hr [L1 L2 L3]. unfold resubscribe. rewrite Hm.
  split; [unfold settled_link, pending_ops in *; cbn; by rewrite Hr in L1|done|].
  intros topic Ho Ht. unfold covered, asked, registering_topics, resubscribing. cbn. rewrite asked_subscribe.
  destruct (L3 topic Ho Ht) as [Hc|[Hc|[[Hc|[l' Hc]]|(l' & Hc & Hin)]]]; try congruence.
  - left. unfold asked in Hc. set_solver.
  - by right; left.
  - rewrite Hr in Hc. injection Hc as <-. cbn in Hin. apply elem_of_cons in Hin as [->|Hin]; [left; set_solver|].
    right. right. right. by exists l.
Qed.

Lemma link_ok_recv s s' : life_ok s → recv_step s s' → link_ok s → link_ok s'.
Proof.
  intros Hl Hs Hok. destruct Hs as [ever Hr|ever Hr|ever Hr|Hr|rc now Hr|op l a Hr|a Hr|Hr|x l accepted Hr|Hr|Hr|msg now Hr|Hr|Hr|Hr|n last Hr|last Hr].
  all: try (eapply link_ok_same; [|exact Hok]; same_link_tac).
  - apply link_ok_ops; try done; unfold reported; case_decide; subst; auto; cbn; try (intros lk; apply agree_ops).
    intros _. unfold HandleConnect. rewrite decide_False by done. apply down_no_session.
  - by apply link_ok_op.
  - destruct Hok as [L1 L2 L3]. unfold settled_link, pending_ops in L1. rewrite Hr in L1.
    split; [unfold settled_link, pending_ops; by destruct a|by destruct a|].
    intros topic Ho Ht. destruct (L3 topic Ho Ht) as [Hc|[Hc|[[Hc|[l Hc]]|(l & Hc & _)]]]; [by left|by right; left| | |]; try congruence.
    rewrite Hr in Hc. injection Hc as <- ->. right. right. left. by left.
  - destruct Hok as [L1 L2 L3]. unfold settled_link, pending_ops in L1. rewrite Hr in L1. split; [done|done|].
    intros topic _ [v Hv]. right. right. right.
    exists (resubscriptions (sy_client s)). split; [done|]. apply list_elem_of_fmap.
    exists (topic, match v with [] => 1 | e :: _ => ce_qos e end). split; [done|].
    apply list_elem_of_fmap. exists (topic, v). split; [done|]. by apply callback_items_in.
  - apply link_ok_resubscribe; [|done|done]. pose proof (lf_threads _ Hl) as Ht. cbv zeta in Ht.
    destruct (mq_threads (sy_client s)); [|by destruct Ht as ((_ & ? & _) & _); congruence]. by destruct Ht.
  - destruct Hok as [L1 L2 L3]. unfold settled_link, pending_ops in L1. rewrite Hr in L1. split; [done|done|].
    intros topic Ho Ht. destruct (L3 topic Ho Ht) as [Hc|[Hc|[[Hc|[l Hc]]|(l' & Hc & Hin)]]]; [by left|by right; left|congruence..|].
    rewrite Hr in Hc. injection Hc as <-. by apply elem_of_nil in Hin.
  - apply link_ok_ops; try done; auto; [intros lk; apply (agree_ops _ _ 0 0)|].
    intros _. apply down_no_session.
  - apply link_ok_ops; try done; auto; [intros lk; apply (agree_ops _ _ 0 0)|].
    intros _. apply down_no_session.
Qed.

(** The table changes: the topics that stay or come are covered. *)
Lemma link_ok_table s s' :
  mq_link (sy_client s') = mq_link (sy_client s) →
  cf_enable (mq_config (sy_client s')) = cf_enable (mq_config (sy_client s)) →
  sy_recv s' = sy_recv s →
  (∀ topic, is_Some (mq_callbacks (sy_client s') !! topic) → session s = true →
     (is_Some (mq_callbacks (sy_client s) !! topic) → covered s topic) →
     topic ∈ asked s' ∨ topic ∈ registering_topics s' ∨
     covered s topic ∧ (topic ∈ asked s → topic ∈ asked s') ∧
       (topic ∈ registering_topics s → topic ∈ registering_topics s' ∨ topic ∈ asked s')) →
  link_ok s → link_ok s'.
Proof.
  intros E1 E2 E3 Ht [L1 L2 L3].
  split; unfold session, settled_link, pending_ops in *; rewrite ?E1, ?E2, ?E3; try done.
  intros topic Ho Hs. destruct (Ht topic Hs Ho) as [H1|[H1|(Hc & Hsub & Hreg)]]; [auto|by left|by right; left|].
  unfold covered, resubscribing in *. rewrite E3. destruct Hc as [Hc|[Hc|Hc]]; [by left; auto| |by right; right].
  destruct (Hreg Hc); [by right; left|by left].
Qed.

Lemma link_ok_drop topic s : link_ok s → link_ok (with_client (drop_topic topic (sy_client s)) s).
Proof.
  intros Hok. apply (link_ok_table s); [| |done| |done]; [unfold drop_topic; by case_match..|].
  intros t Ht Hs Hc. unfold drop_topic in *.
  assert (Hne : t ≠ topic ∧ is_Some (mq_callbacks (sy_client s) !! t)).
  { destruct (decide (t = topic)) as [->|Hne]; [|split; [done|]].
    - destruct Ht as [v Hv]. revert Hv. case_match; cbn; by rewrite lookup_delete_eq.
    - destruct Ht as [v Hv]. exists v. revert Hv. case_match; cbn; by rewrite lookup_delete_ne. }
  destruct Hne as [Hne Hin]. right. right. split; [by apply Hc|]. split; [|by left].
  unfold asked. case_match; cbn; [|done]. rewrite subscribed_app, refused_app. cbn. set_solver.
Qed.

Lemma link_ok_unregister h s : link_ok s → link_ok (with_client (UnregisterCallback h (sy_client s)).2 s).
Proof.
  intros Hok. unfold UnregisterCallback.
  assert (Hkeep : ∀ items, (∀ t v, (t, v) ∈ items → mq_callbacks (sy_client s) !! t = Some v) →
                  link_ok (with_client (unregister h items (sy_client s)).2 s)).
  { induction items as [|[t v] items IH]; intros Hi; cbn [unregister].
    { by eapply link_ok_same; [|exact Hok]. }
    destruct (erase_handle h v) as [[|e v']|]; [by apply link_ok_drop| |].
    2: { apply IH. intros t' v' Hin. apply Hi. by right. }
    apply (link_ok_table s); try done. cbn. intros t' Ht' Hs Hc. right. right. split; [|by split; [|left]].
    apply Hc. destruct (decide (t' = t)) as [->|Hne].
    - exists v. apply Hi. left.
    - by rewrite lookup_insert_ne in Ht'. }
  apply Hkeep. intros t v. apply callback_items_in.
Qed.

(** A registration goes on to its subscription, or ends without one when there is no
    session; ... *)
Lemma link_ok_register_test l1 topic qos l2 s :
  life_ok s → sy_registering s = l1 ++ (topic, qos, false) :: l2 → link_ok s →
  link_ok (registering (l1 ++ (if register_test (sy_client s) then [(topic, qos, true)] else []) ++ l2) (sy_client s) s).
Proof.
  intros Hl Hr. apply link_ok_table; try done. intros t Hin Hs Hc. right. right. split; [by apply Hc|]. split; [done|].
  intros Hreg. left. unfold registering_topics in *. cbn.
  assert (Htest : register_test (sy_client s) = true).
  { unfold register_test, session in *. rewrite Hs. pose proof (lf_threads _ Hl) as Ht. cbv zeta in Ht.
    destruct (mq_threads (sy_client s)); [tauto|]. destruct Ht as (_ & _ & _ & Hd & _). by rewrite Hd in Hs. }
  rewrite Htest. by rewrite Hr, !map_app in *.
Qed.

(** ... and the subscription is asked for. *)
Lemma link_ok_register_subscribe l1 topic qos l2 accepted s :
  sy_registering s = l1 ++ (topic, qos, true) :: l2 → link_ok s →
  link_ok (registering (l1 ++ l2) (register_subscribe topic qos accepted (sy_client s)) s).
Proof.
  intros Hr. apply link_ok_table; try done. intros t Hin Hs Hc. right. right. split; [by apply Hc|].
  unfold asked. cbn. rewrite asked_subscribe. split; [set_solver|].
  unfold registering_topics. cbn. rewrite Hr, !map_app. cbn. rewrite !elem_of_app, elem_of_cons. set_solver.
Qed.

Lemma link_ok_api s s' : life_ok s → api_step s s' → link_ok s → link_ok s'.
Proof.
  intros Hl Ha Hok. pose proof (lf_threads _ Hl) as Ht. cbv zeta in Ht.
  assert (Hdown : sy_stopping s = None → mq_state (sy_client s) ≠ Running →
    mq_link (sy_client s) = link_down ∧ sy_recv s = ROut).
  { intros Hst Hs. destruct (mq_threads (sy_client s)); [|by destruct Ht as ((_ & ? & _) & _ & _ & ? & _)].
    destruct Ht as (_ & Hr & Hs'). rewrite Hst, bool_decide_eq_true_2 in Hr by done. rewrite Hr in Hs'. done. }
  destruct Ha as [c created Hst Hq|q Hst Hs|d Hst Hs|Hst Ho|Hst Ho|Hst Hs|topic payload qos retain now b q Hp
    |topic cb qos|l1 topic qos l2 Hr|l1 topic qos l2 accepted Hr|h|topic|].
  - destruct Hdown as [Hd Hr]; [done|congruence|]. apply link_ok_down; [|done]. rewrite <- Hd.
    unfold configure, set_up, acquire_library, release_library. by repeat (case_match; cbn).
  - unfold Start in Hs. destruct (bool_decide (mq_state _ = Initialized)) eqn:Hi; [|done].
    apply bool_decide_eq_true in Hi. destruct (cf_enable _) eqn:En; [|done]. injection Hs as <-.
    destruct Hdown as [Hd Hr]; [done|congruence|]. split; unfold settled_link, session; cbn; rewrite ?Hd; try done.
  - eapply link_ok_same; [|exact Hok]. unfold stop_begin. same_link_tac.
  - apply link_ok_down; [done|apply Ho].
  - apply link_ok_down; [|apply Ho]. unfold destroyed, destroy_end, release_library. by repeat (case_match; cbn).
  - destruct Hdown as [Hd Hr]; [done| |].
    + intros E. unfold stops in Hs. rewrite E, bool_decide_eq_true_2 in Hs; [done|by left].
    + apply link_ok_down; [|done]. rewrite <- Hd. unfold destroyed, destroy_end, release_library. by repeat (case_match; cbn).
  - eapply link_ok_same; [by eapply link_ok_publish|done].
  - apply (link_ok_table s); try done. cbn. intros t Hin Hs Hc.
    destruct (decide (t = topic)) as [->|Hne]; [right; left; left|].
    rewrite lookup_insert_ne in Hin by done. right. right. split; [by apply Hc|]. split; [done|]. left. by right.
  - by apply link_ok_register_test.
  - by apply link_ok_register_subscribe.
  - by apply link_ok_unregister.
  - unfold ClearCallback. destruct (mq_callbacks (sy_client s) !! topic); [by apply link_ok_drop|].
    by eapply link_ok_same; [|exact Hok].
  - apply (link_ok_table s); try done. cbn. intros t [v Hv]. by rewrite lookup_empty in Hv.
Qed.

Lemma link_ok_step s s' : mqtt_step s s' → life_ok s → link_ok s → link_ok s'.
Proof.
  intros [Ha|Hc|Hr|Hd|Hn] Hl Hok; [by eapply link_ok_api| |by eapply link_ok_recv|..];
    (eapply link_ok_same; [apply link_ok_others; eauto|done]).
Qed.

Lemma mqtt_ok s : mqtt_reachable s → life_ok s ∧ flow_ok s ∧ link_ok s.
Proof.
  unfold mqtt_reachable. intros Hr.
  assert (Hi : life_ok mqtt_new ∧ flow_ok mqtt_new ∧ link_ok mqtt_new).
  { split; [apply life_ok_new|]. split; [apply flow_ok_new|]. by apply link_ok_down. }
  revert Hi. induction Hr as [|s s1 s2 Hs _ IH]; [done|]. intros (Hl & Hf & Hk). apply IH.
  split; [by eapply life_ok_step|]. split; [by eapply flow_ok_step|by eapply link_ok_step].
Qed.

(** ** Stopping *)

(** A step of a thread itself: not one of the calls the library makes from
    inside [mosquitto_loop]. *)
Definition from_library s s' : Prop :=
  sy_recv s = RLoop ∧ (sy_recv s' = RLoop ∨ ∃ l a, sy_recv s' = ROps l a ∧ a ≠ ToDown).
Inductive own_step s s' : Prop :=
| own_conn : conn_step s s' → own_step s s'
| own_recv : recv_step s s' → ¬ from_library s s' → own_step s s'
| own_disp : disp_step s s' → own_step s s'
| own_send : send_step s s' → own_step s s'.

(** How many steps each thread has left once [running_] is false. *)
Definition conn_left s : nat :=
  match sy_conn s with COut => 0 | CTop => 1 | CWait _ => 2 | CProbe => 3 end.
Definition recv_left s : nat :=
  match sy_recv s with
  | ROut => 0 | RTop _ => 1 | RWait 0 _ => 2 | RDown => 2 | RWait (S _) _ => 3 | RNet => 3
  | ROps l ToDown => 3 + length l | RLoop => 7 | RConnect _ => 4 | ROps l ToLoop => 8 + length l
  | RSubs l => 8 + length l
  | RCopy => 9 + length (resubscriptions (sy_client s))
  | ROps l ToCopy => 10 + length (resubscriptions (sy_client s)) + length l
  end.
Definition table_size (q : FastMQTT C) : nat := list_sum (map (λ x, length x.2) (callback_items q)).
Definition disp_left s : nat :=
  match sy_disp s with
  | DOut => 0 | DTop => 1 | DCalls _ l => 2 + length l
  | DRun _ => 3 + table_size (sy_client s) | DPop => 4 + table_size (sy_client s)
  end.
Definition send_left s : nat :=
  match sy_send s with SOut => 0 | STop => 1 | SSend _ => 2 | SPop => 3 end.
Definition steps_left s : nat := conn_left s + recv_left s + disp_left s + send_left s.

Lemma matched_size topic (q : FastMQTT C) : (length (matched topic_matches_sub topic q) <= table_size q)%nat.
Proof.
  rewrite matched_hits, length_reverse. unfold hits, table_size.
  induction (callback_items q) as [|[f l] items IH]; [done|].
  rewrite filter_cons. cbn [map]. change (list_sum (?a :: ?b)) with (a + list_sum b)%nat. cbn [snd].
  case_decide; [|lia]. cbn [map snd]. rewrite join_cons, length_app. lia.
Qed.

(** What a thread step leaves to the other threads. *)
Definition table_kept s s' : Prop := mq_callbacks (sy_client s') = mq_callbacks (sy_client s).

Lemma recv_left_other s s' :
  table_kept s s' → sy_recv s' = sy_recv s → recv_left s' = recv_left s.
Proof. unfold table_kept, recv_left, resubscriptions, callback_items. intros Ht ->. by rewrite Ht. Qed.
Lemma disp_left_other s s' :
  table_kept s s' → sy_disp s' = sy_disp s → disp_left s' = disp_left s.
Proof. unfold table_kept, disp_left, table_size, callback_items. intros Ht ->. by rewrite Ht. Qed.

(** The steps of one thread: the table and the other threads stay. *)
Ltac frame_tac Hs := destruct Hs; unfold table_kept; repeat split; step_cases; done.
Lemma conn_frame s s' : conn_step s s' →
  table_kept s s' ∧ sy_recv s' = sy_recv s ∧ sy_disp s' = sy_disp s ∧ sy_send s' = sy_send s.
Proof. intros Hs. frame_tac Hs. Qed.
Lemma recv_frame s s' : recv_step s s' →
  table_kept s s' ∧ sy_conn s' = sy_conn s ∧ sy_disp s' = sy_disp s ∧ sy_send s' = sy_send s.
Proof. intros Hs. frame_tac Hs. Qed.
Lemma disp_frame s s' : disp_step s s' →
  table_kept s s' ∧ sy_conn s' = sy_conn s ∧ sy_recv s' = sy_recv s ∧ sy_send s' = sy_send s.
Proof. intros Hs. frame_tac Hs. Qed.
Lemma send_frame s s' : send_step s s' →
  table_kept s s' ∧ sy_conn s' = sy_conn s ∧ sy_recv s' = sy_recv s ∧ sy_disp s' = sy_disp s.
Proof. intros Hs. frame_tac Hs. Qed.

Lemma conn_left_step s s' : mq_running (sy_client s) = false → conn_step s s' → (conn_left s' < conn_left s)%nat.
Proof.
  intros Hr Hs. destruct Hs as [Hc|alive Hc|n Hc|Hc]; unfold conn_left, while_running; cbn; rewrite Hc, ?Hr; lia.
Qed.
Lemma send_left_step s s' : mq_running (sy_client s) = false → send_step s s' → (send_left s' < send_left s)%nat.
Proof.
  intros Hr Hs. destruct Hs as [Hc|b o b' Hc Hq Hp|m took now Hc]; unfold send_left, while_running; cbn;
    rewrite Hc, ?Hr; [lia|destruct o; lia|lia].
Qed.
Lemma disp_left_step s s' : mq_running (sy_client s) = false → disp_step s s' → (disp_left s' < disp_left s)%nat.
Proof.
  intros Hr Hs. destruct Hs as [Hc|b o b' Hc Hq Hp|m Hc|m e l r Hc|m Hc]; unfold disp_left, while_running; cbn;
    rewrite Hc, ?Hr; [lia| | | |lia].
  - unfold table_size, callback_items. cbn. destruct o; lia.
  - pose proof (matched_size (msg_topic m) (sy_client s)). lia.
  - cbn. lia.
Qed.
Lemma recv_left_step s s' :
  mq_running (sy_client s) = false → recv_step s s' →
  ¬ from_library s s' → (recv_left s' < recv_left s)%nat.
Proof.
  intros Hr Hs Hno. unfold from_library in Hno.
  destruct Hs as [ever Hc|ever Hc|ever Hc|Hc|rc now Hc|op l a Hc|a Hc|Hc|x l accepted Hc|Hc|Hc|msg now Hc|Hc|Hc|Hc|n last Hc|last Hc];
    unfold recv_left, while_running, wait_for_retry, NextBackoffSeconds, message_in in *; cbn in *; rewrite Hc, ?Hr; cbn; try lia.
  - destruct (Z.to_nat _); lia.
  - exfalso. apply Hno. split; [done|]. right. eexists _, _. split; [done|]. by case_decide.
  - unfold resubscriptions, callback_items. rewrite (proj1 (proj2 (proj2 (run_op_spec op (sy_client s))))).
    destruct a; lia.
  - destruct a; cbn; lia.
  - exfalso. apply Hno. split; [done|]. right. by eexists _, _.
  - exfalso. apply Hno. auto.
  - destruct last; lia.
Qed.

Lemma own_step_left s s' :
  mq_running (sy_client s) = false → own_step s s' →
  mq_running (sy_client s') = false ∧ (steps_left s' < steps_left s)%nat.
Proof.
  intros Hr Hs. unfold steps_left. destruct Hs as [Hs|Hs Hno|Hs|Hs].
  - destruct (conn_frame _ _ Hs) as (Ht & E1 & E2 & E3). pose proof (conn_left_step _ _ Hr Hs).
    rewrite (recv_left_other s s'), (disp_left_other s s') by done. unfold send_left. rewrite E3.
    split; [|lia]. by rewrite (sl_running _ _ (thread_same_life _ _ (or_introl Hs))).
  - destruct (recv_frame _ _ Hs) as (Ht & E1 & E2 & E3). pose proof (recv_left_step _ _ Hr Hs Hno).
    rewrite (disp_left_other s s') by done. unfold send_left, conn_left. rewrite E1, E3.
    split; [|lia]. by rewrite (sl_running _ _ (recv_same_life _ _ Hs)).
  - destruct (disp_frame _ _ Hs) as (Ht & E1 & E2 & E3). pose proof (disp_left_step _ _ Hr Hs).
    rewrite (recv_left_other s s') by done. unfold send_left, conn_left. rewrite E1, E3.
    split; [|lia]. by rewrite (sl_running _ _ (thread_same_life _ _ (or_intror (or_introl Hs)))).
  - destruct (send_frame _ _ Hs) as (Ht & E1 & E2 & E3). pose proof (send_left_step _ _ Hr Hs).
    rewrite (recv_left_other s s'), (disp_left_other s s') by done. unfold conn_left. rewrite E1.
    split; [|lia]. by rewrite (sl_running _ _ (thread_same_life _ _ (or_intror (or_intror Hs)))).
Qed.

Lemma pop_always (b : BlockingQueue Message) : ∃ o b', pops b o b'.
Proof. destruct (Pop_expired b) as [o b'] eqn:E. exists o, b'. by right. Qed.

(** A thread that has not left can move. *)
Lemma own_step_progress s : life_ok s → ¬ all_out s → ∃ s', own_step s s'.
Proof.
  intros Hl Hno. pose proof (lf_threads _ Hl) as Ht. cbv zeta in Ht.
  destruct (mq_threads (sy_client s)); [|tauto]. destruct Ht as (Hm & _).
  destruct (sy_conn s) as [| |[|n]|] eqn:Ec; [by eexists; apply own_conn; constructor 1|
    by eexists; apply own_conn; apply (conn_probe s true)|by eexists; apply own_conn; constructor 4|
    by eexists; apply own_conn; constructor 3|].
  destruct (sy_send s) as [| |m|] eqn:En; [by eexists; apply own_send; constructor 1| |
    by eexists; apply own_send; apply (send_publish s m true 0)|].
  { destruct (proj2 (lf_send _ Hl) Hm) as [b Hb]. destruct (pop_always b) as (o & b' & Hp).
    by eexists; apply own_send; eapply send_pop. }
  destruct (sy_disp s) as [| |m|m [|e l]|] eqn:Ed; [by eexists; apply own_disp; constructor 1| |
    by eexists; apply own_disp; constructor 3|by eexists; apply own_disp; econstructor 5|
    by eexists; apply own_disp; apply (disp_call s m e l true)|].
  { destruct (proj2 (lf_recv _ Hl) Hm) as [b Hb]. destruct (pop_always b) as (o & b' & Hp).
    by eexists; apply own_disp; eapply disp_pop. }
  assert (Hrecv : ∀ s', recv_step s s' → sy_recv s ≠ RLoop → ∃ s', own_step s s').
  { intros s' Hs Hne. exists s'. apply own_recv; [done|]. by intros [? _]. }
  destruct (sy_recv s) as [ever|ever| | |[|op l] a| |[|x l]| |[|n] last|] eqn:Er.
  - by eapply Hrecv; [constructor 1|].
  - by eapply Hrecv; [constructor 2|].
  - by eapply Hrecv; [constructor 4|].
  - eexists. apply own_recv; [by apply recv_loop_returns|]. cbn. intros [_ [|(l & a & ? & _)]]; done.
  - by eapply Hrecv; [eapply recv_ops_done|].
  - by eapply Hrecv; [eapply recv_op|].
  - by eapply Hrecv; [eapply recv_copy|].
  - by eapply Hrecv; [eapply recv_subscribed|].
  - by eapply Hrecv; [eapply (recv_subscribe _ _ _ true)|].
  - by eapply Hrecv; [eapply recv_down|].
  - by eapply Hrecv; [eapply recv_waited|].
  - by eapply Hrecv; [eapply recv_wait|].
  - by destruct Hno.
Qed.

(** C19: every message [Publish] accepted has left the queue in order, with
    one fate, is in the sender's hand or still queued, and so for every message
    received; the counters are the numbers of messages with each fate, and the
    messages received are those queued or counted as dropped. *)
Theorem mqtt_messages s :
  mqtt_reachable s →
  sy_accepted s = map fst (sy_sent s) ++ send_hand s ++ queued (mq_send_queue (sy_client s)) ∧
  sy_arrived s = map fst (sy_consumed s) ++ disp_hand s ++ queued (mq_recv_queue (sy_client s)) ∧
  mq_stats (sy_client s) send_success = wraps 64 (fates Sent s) ∧
  mq_stats (sy_client s) send_failed = wraps 64 (fates Failed s) ∧
  mq_stats (sy_client s) recv_count =
    wraps 64 (Z.of_nat (length (sy_arrived s)) + mq_stats (sy_client s) recv_dropped).
Proof. intros Hr. destruct (mqtt_ok s Hr) as (_ & [F1 F2 F3 F4 F5] & _). done. Qed.

(** C20: no topic is missed: with a session, no registration under way and the
    receiver outside the handlers, every topic of the table is subscribed on the
    present connection, or the library refused the last request for it, whatever
    order registrations, removals, connections and disconnections came in.  The
    three flags agree whenever the receiver is outside a handler, and the
    statements still to run in one make them agree. *)
Theorem mqtt_subscriptions s :
  mqtt_reachable s →
  agree (cf_enable (mq_config (sy_client s))) (settled_link s) ∧
  (pending_ops s = [] →
   lk_broker_connected (mq_link (sy_client s)) = session s ∧
   lk_ready (mq_link (sy_client s)) = session s && cf_enable (mq_config (sy_client s))) ∧
  (session s = true → sy_registering s = [] → sy_recv s = RNet ∨ sy_recv s = RLoop →
   ∀ topic, is_Some (mq_callbacks (sy_client s) !! topic) →
     topic ∈ subscribed (mq_calls (sy_client s)) ∨ topic ∈ refused (mq_calls (sy_client s))).
Proof.
  intros Hr. destruct (mqtt_ok s Hr) as (_ & _ & [L1 L2 L3]). split; [done|]. split.
  { intros Hp. unfold settled_link in L1. by rewrite Hp in L1. }
  intros Hs Hreg Hpc topic Ht. apply elem_of_union.
  destruct (L3 topic Hs Ht) as [Hc|[Hc|[[Hc|[l Hc]]|(l & Hc & _)]]]; [done| |destruct Hpc; congruence..].
  unfold registering_topics in Hc. rewrite Hreg in Hc. by apply elem_of_nil in Hc.
Qed.

(** The threads exist from [Start] to the end of [Stop], and only then is
    there a link; the library's handle exists exactly when both queues do and is
    counted once; without a handle nothing is initialised but a client that is
    not enabled. *)
Theorem mqtt_lifecycle s :
  mqtt_reachable s →
  (if mq_threads (sy_client s)
   then mq_mosq (sy_client s) = true ∧
        mq_state (sy_client s) = (if decide (sy_stopping s = None) then Running else Stopping) ∧
        mq_running (sy_client s) = bool_decide (sy_stopping s = None)
   else all_out s ∧ mq_link (sy_client s) = link_down ∧ mq_running (sy_client s) = false ∧
        (mq_state (sy_client s) = Uninitialized ∨ mq_state (sy_client s) = Initialized ∨
         mq_state (sy_client s) = Stopped)) ∧
  mq_lib_ref (sy_client s) = (if mq_mosq (sy_client s) then 1 else 0) ∧
  (is_Some (mq_send_queue (sy_client s)) ↔ mq_mosq (sy_client s) = true) ∧
  (is_Some (mq_recv_queue (sy_client s)) ↔ mq_mosq (sy_client s) = true) ∧
  (mq_state (sy_client s) = Uninitialized → mq_mosq (sy_client s) = false) ∧
  (mq_state (sy_client s) = Initialized → mq_mosq (sy_client s) = cf_enable (mq_config (sy_client s))).
Proof.
  intros Hr. destruct (mqtt_ok s Hr) as ([L1 L2 L3 L4 L5 L6] & _ & _). split; [|done].
  cbv zeta in L1. destruct (mq_threads (sy_client s)); [|tauto]. destruct L1 as (Hm & Hrun & Hs).
  split; [done|]. split; [|done]. rewrite Hs, Hrun. by case_decide; [rewrite bool_decide_eq_true_2|rewrite bool_decide_eq_false_2].
Qed.

(** C21: the joins of [Stop] return: once [running_] is false the threads take
    only boundedly many steps of their own, whatever they were doing, and as
    long as one has not left its loop some thread can move. *)
Theorem mqtt_stop_terminates s n s' :
  mqtt_reachable s → mq_running (sy_client s) = false → nsteps own_step n s s' →
  (n <= steps_left s)%nat ∧ (all_out s' ∨ ∃ s'', own_step s' s'').
Proof.
  intros Hr Hrun Hn.
  assert (Hboth : (n + steps_left s' <= steps_left s)%nat ∧ mqtt_reachable s').
  { revert Hr Hrun. induction Hn as [s|n s s1 s' Hs Hn IH]; intros Hr Hrun; [split; [lia|done]|].
    destruct (own_step_left _ _ Hrun Hs) as [Hrun' Hlt]. destruct IH as [Hle Hr']; [|done|].
    - eapply rtc_r; [exact Hr|]. destruct Hs; [by apply by_conn|by apply by_recv|by apply by_disp|by apply by_send].
    - split; [lia|done]. }
  destruct Hboth as [Hle Hr']. split; [lia|].
  destruct (decide (conn_left s' + recv_left s' + disp_left s' + send_left s' = 0)%nat) as [H0|H0].
  - left. unfold conn_left, recv_left, disp_left, send_left in H0. unfold all_out.
    destruct (sy_conn s'), (sy_recv s') as [| | | |? []| | | |[]|], (sy_disp s'), (sy_send s'); cbn in H0; done || lia.
  - right. apply own_step_progress; [by destruct (mqtt_ok s' Hr')|].
    intros (E1 & E2 & E3 & E4). unfold conn_left, recv_left, disp_left, send_left in H0.
    by rewrite E1, E2, E3, E4 in H0.
Qed.

End threads.

(** ** A run *)

Section run.
(** Filters without wildcards, callbacks as numbers. *)
Definition exact_filter (filter topic : string) : option bool := Some (String.eqb filter topic).

Definition small_config : FastMQTTConfig := {|
  cf_enable := true; cf_broker := BrokerConfig_default;
  cf_thread := {| th_send_queue_size := 2; th_recv_queue_size := 2 |}; cf_def := DefaultConfig_default |}.

(** Takes a step and evaluates the state it leads to. *)
Ltac run_step tac :=
  eapply rtc_l; [tac; reflexivity|];
  match goal with |- rtc _ ?s _ => let v := eval vm_compute in s in change s with v end.

(** Initialised, started, one callback registered, connected, one message sent
    and one received. *)
Lemma connected_run :
  ∃ s : mqtt (C := nat), mqtt_reachable exact_filter s ∧ session s = true ∧ sy_registering s = [] ∧
    sy_recv s = RLoop ∧ sy_stopping s = None ∧ stops (sy_client s) = true ∧
    is_Some (mq_callbacks (sy_client s) !! "status") ∧ refused (mq_calls (sy_client s)) = ∅ ∧ fates Sent s = 1 ∧
    sy_consumed s = [({| msg_topic := "status"; msg_payload := "up"; msg_qos := 1; msg_retain := false;
                         msg_timestamp := 9 |}, true)].
Proof.
  unfold mqtt_reachable. eexists. split.
  { run_step ltac:(apply by_api, (step_initialize _ small_config true)).
    run_step ltac:(apply by_api; eapply step_start).
    run_step ltac:(apply by_api, (step_register _ "status" 7%nat 1)).
    run_step ltac:(apply by_api; apply (step_register_test _ [] "status" 1 [])).
    run_step ltac:(apply by_recv, (recv_top _ false)).
    run_step ltac:(apply by_recv, (recv_connected _ false)).
    run_step ltac:(apply by_recv, recv_net).
    run_step ltac:(apply by_recv, (recv_on_connect _ 0 5)).
    do 5 run_step ltac:(apply by_recv; eapply recv_op).
    run_step ltac:(apply by_recv, (recv_ops_done _ ToCopy)).
    run_step ltac:(apply by_recv, recv_copy).
    run_step ltac:(apply by_recv, (recv_subscribe _ ("status", 1) [] true)).
    run_step ltac:(apply by_recv, recv_subscribed).
    run_step ltac:(apply by_api; eapply (step_publish _ "status" "on" 1 false 6)).
    run_step ltac:(apply by_send, send_top).
    run_step ltac:(apply by_send; eapply send_pop; [reflexivity|reflexivity|left]).
    run_step ltac:(apply by_send; eapply (send_publish _ _ true 8)).
    run_step ltac:(apply by_recv; apply (recv_on_message _ (Some {| msg_topic := "status"; msg_payload := "up";
                     msg_qos := 1; msg_retain := false; msg_timestamp := 0 |}) 9)).
    run_step ltac:(apply by_disp, disp_top).
    run_step ltac:(apply by_disp; eapply disp_pop; [reflexivity|reflexivity|left]).
    run_step ltac:(apply by_disp; eapply disp_run).
    apply rtc_refl. }
  repeat split; vm_compute; eauto.
Qed.

Lemma mqtt_messages_witness :
  ∃ s : mqtt (C := nat), fates Sent s = 1 ∧ mq_stats (sy_client s) send_success = wraps 64 1.
Proof.
  destruct connected_run as (s & Hr & _ & _ & _ & _ & _ & _ & _ & Hf & _). exists s. split; [exact Hf|].
  destruct (mqtt_messages exact_filter s Hr) as (_ & _ & E & _). rewrite E, Hf. reflexivity.
Defined.

Lemma mqtt_subscriptions_witness :
  ∃ s : mqtt (C := nat), session s = true ∧ "status" ∈ subscribed (mq_calls (sy_client s)).
Proof.
  destruct connected_run as (s & Hr & Hs & Hreg & Hpc & _ & _ & Ht & Href & _). exists s. split; [exact Hs|].
  destruct (mqtt_subscriptions exact_filter s Hr) as (_ & _ & Hsub).
  destruct (Hsub Hs Hreg (or_intror Hpc) "status" Ht) as [Hin|Hin]; [exact Hin|].
  rewrite Href in Hin. by apply elem_of_empty in Hin.
Defined.

Lemma mqtt_lifecycle_witness :
  ∃ s : mqtt (C := nat), session s = true ∧ mq_lib_ref (sy_client s) = (if mq_mosq (sy_client s) then 1 else 0).
Proof.
  destruct connected_run as (s & Hr & Hs & _). exists s. split; [exact Hs|].
  exact (proj1 (proj2 (mqtt_lifecycle exact_filter s Hr))).
Defined.

(** The client of [connected_run], told to stop, with the dispatcher in the
    middle of a message. *)
Lemma mqtt_stopping_run :
  ∃ s : mqtt (C := nat), mqtt_reachable exact_filter s ∧ mq_running (sy_client s) = false ∧ ¬ all_out s.
Proof.
  destruct connected_run as (s & Hr & _ & _ & Hpc & Hst & Hs & _).
  exists (stopping (Some false) (stop_begin (sy_client s)) s). split; [|split].
  - eapply rtc_r; [exact Hr|]. by apply by_api, step_stop.
  - unfold stop_begin. cbn. by case_match.
  - intros (_ & Ho & _). cbn in Ho. congruence.
Qed.

Lemma mqtt_stop_terminates_witness :
  ∃ s : mqtt (C := nat), mq_running (sy_client s) = false ∧ ∃ s', own_step exact_filter s s'.
Proof.
  destruct mqtt_stopping_run as (s & Hr & Hrun & Hno). exists s. split; [exact Hrun|].
  destruct (mqtt_stop_terminates exact_filter s 0 s Hr Hrun (nsteps_O _ s)) as [_ [Ho|Hs]]; [by destruct Hno|exact Hs].
Defined.

(** ** Findings *)

(** Clearing one topic unsubscribes it, clearing all of them does not. *)
Example clear_all_keeps_subscriptions :
  ∃ s : mqtt (C := nat), mqtt_reachable exact_filter s ∧ mq_callbacks (sy_client s) = ∅ ∧
    "status" ∈ subscribed (mq_calls (sy_client s)).
Proof.
  destruct connected_run as (s & Hr & Hs & Hreg & Hpc & _ & _ & Ht & Href & _).
  exists (with_client (ClearAllCallbacks (sy_client s)) s). split.
  - eapply rtc_r; [exact Hr|]. by apply by_api, step_clear_all.
  - split; [done|]. cbn. destruct (mqtt_ok _ _ Hr) as (_ & _ & [_ _ L]).
    destruct (L "status" Hs Ht) as [Hc|[Hc|[[Hc|[l Hc]]|(l & Hc & _)]]]; [|unfold registering_topics in Hc; rewrite Hreg in Hc; by apply elem_of_nil in Hc|congruence..].
    unfold asked in Hc. rewrite Href in Hc. set_solver.
Qed.

(** A callback is registered during the session; the library refuses the
    subscription, and the caller gets a handle all the same. *)
Example refused_subscription :
  ∃ s : mqtt (C := nat), mqtt_reachable exact_filter s ∧ session s = true ∧ sy_registering s = [] ∧
    is_Some (mq_callbacks (sy_client s) !! "#/a") ∧ ("#/a" ∉ subscribed (mq_calls (sy_client s))).
Proof.
  unfold mqtt_reachable. eexists. split.
  { run_step ltac:(apply by_api, (step_initialize _ small_config true)).
    run_step ltac:(apply by_api; eapply step_start).
    run_step ltac:(apply by_recv, (recv_top _ false)).
    run_step ltac:(apply by_recv, (recv_connected _ false)).
    run_step ltac:(apply by_recv, recv_net).
    run_step ltac:(apply by_recv, (recv_on_connect _ 0 5)).
    do 5 run_step ltac:(apply by_recv; eapply recv_op).
    run_step ltac:(apply by_recv, (recv_ops_done _ ToCopy)).
    run_step ltac:(apply by_recv, recv_copy).
    run_step ltac:(apply by_recv, recv_subscribed).
    run_step ltac:(apply by_api, (step_register _ "#/a" 7%nat 1)).
    run_step ltac:(apply by_api; apply (step_register_test _ [] "#/a" 1 [])).
    run_step ltac:(apply by_api; apply (step_subscribe _ [] "#/a" 1 [] false)).
    apply rtc_refl. }
  split; [done|]. split; [done|]. split; [by eexists|]. vm_compute. done.
Qed.

(** Without automatic reconnection the receiver leaves when the connection
    breaks; the client goes on as running and accepts messages that can only
    fail. *)
Example receiver_gone :
  ∃ s : mqtt (C := nat), mqtt_reachable exact_filter s ∧ mq_state (sy_client s) = Running ∧ sy_recv s = ROut ∧
    (Publish "a" "b" 0 false 0 (sy_client s)).1 = true ∧
    ∀ m took, (DoPublish m took (sy_client s)).1 = false.
Proof.
  unfold mqtt_reachable. eexists. split.
  { run_step ltac:(apply by_api, (step_initialize _ {| cf_enable := true;
      cf_broker := {| br_host := "h"; br_port := 1; br_client_id := ""; br_username := ""; br_password := "";
                      br_keep_alive := 1; br_clean_session := true; br_auto_reconnect := false;
                      br_connect_timeout_ms := 1 |};
      cf_thread := {| th_send_queue_size := 2; th_recv_queue_size := 2 |}; cf_def := DefaultConfig_default |} true)).
    run_step ltac:(apply by_api; eapply step_start).
    run_step ltac:(apply by_recv, (recv_top _ false)).
    run_step ltac:(apply by_recv, (recv_connected _ false)).
    run_step ltac:(apply by_recv, recv_net).
    run_step ltac:(apply by_recv, (recv_on_connect _ 0 5)).
    do 5 run_step ltac:(apply by_recv; eapply recv_op).
    run_step ltac:(apply by_recv, (recv_ops_done _ ToCopy)).
    run_step ltac:(apply by_recv, recv_copy).
    run_step ltac:(apply by_recv, recv_subscribed).
    run_step ltac:(apply by_recv, recv_loop_fails).
    do 3 run_step ltac:(apply by_recv; eapply recv_op).
    run_step ltac:(apply by_recv, (recv_ops_done _ ToDown)).
    run_step ltac:(apply by_recv, recv_down).
    apply rtc_refl. }
  repeat split.
Qed.
End run.
