(* ===== verification/SearchlightProtocol.v ===== *)
(** * The searchlight protocol

    Model of my_light/SearchlightProtocol.cpp and SearchlightProtocol.h (frame
    codec and hexadecimal text) and of SearchlightCommandBuilder.cpp (the
    command frames and their two-bit counter). *)

From S2P Require Import Prelude Bytes.
From Stdlib Require Import Ascii.

Local Open Scope Z_scope.

(** ** Codec *)

Definition kHeader0 : Z := 0x55.
Definition kHeader1 : Z := 0xAA.
Definition kCmdId : Z := 0xDC.
Definition kMaxPayloadLength : nat := 61.

Record DecodedFrame := {
  df_cmd_id : Z;
  df_length_byte : Z;
  df_body_length : Z;
  df_frame_counter : Z;
  df_payload : list Z;
  df_checksum : Z
}.

Definition DecodedFrame_default : DecodedFrame := {|
  df_cmd_id := 0; df_length_byte := 0; df_body_length := 0; df_frame_counter := 0;
  df_payload := []; df_checksum := 0 |}.

(** The exclusive or of the bytes from index 3, the length byte. *)
Definition checksum (frame_without_checksum : list Z) : Z :=
  if (length frame_without_checksum <=? 3)%nat then 0
  else foldl Z.lxor 0 (drop 3 frame_without_checksum).

Definition encode (cmd_id : Z) (payload : list Z) (frame_counter : Z) : list Z :=
  if (kMaxPayloadLength <? length payload)%nat then []
  else
    let body_length := wrapu 8 (Z.of_nat (length payload) + 2) in
    let length_byte :=
      wrapu 8 (Z.lor (Z.land body_length 0x3F) (Z.shiftl (Z.land frame_counter 0x03) 6)) in
    let frame := [kHeader0; kHeader1; cmd_id; length_byte] ++ payload in
    frame ++ [checksum frame].

(** The resynchronising loop at the top of [tryDecode]. *)
Fixpoint skip_to_header (buffer : list Z) : list Z :=
  match buffer with
  | b0 :: ((b1 :: _) as rest) =>
      if (b0 =? kHeader0) && (b1 =? kHeader1) then buffer else skip_to_header rest
  | _ => buffer
  end.

Definition byteToHex (value : Z) : string := hex_byte value.

Definition checksum_error (expected actual : Z) : string :=
  "校验失败，期望 0x" +:+ byteToHex expected +:+ "，实际 0x" +:+ byteToHex actual +:+
  "，已清空接收缓冲区".

(** The decoded frame, if any, the error text and the buffer left. *)
Definition tryDecode (buffer : list Z) : option DecodedFrame * string * list Z :=
  let buffer := skip_to_header buffer in
  if (length buffer <? 4)%nat then (None, "", buffer)
  else if negb (buffer !!! 2%nat =? kCmdId)
  then (None, "收到未知 CMD_ID，已丢弃当前缓冲区，避免帧错位", [])
  else
    let length_byte := buffer !!! 3%nat in
    let body_length := Z.land length_byte 0x3F in
    let frame_counter := Z.land (Z.shiftr length_byte 6) 0x03 in
    if (body_length <? 2) || (63 <? body_length) then (None, "长度字段非法，已清空接收缓冲区", [])
    else
      let payload_length := Z.to_nat (body_length - 2) in
      let total_length := (payload_length + 5)%nat in
      if (length buffer <? total_length)%nat then (None, "", buffer)
      else
        let candidate := take total_length buffer in
        let expected := checksum (take (total_length - 1) candidate) in
        let actual := candidate !!! (total_length - 1)%nat in
        if negb (expected =? actual) then (None, checksum_error expected actual, [])
        else
          (Some {| df_cmd_id := candidate !!! 2%nat;
                   df_length_byte := length_byte;
                   df_body_length := body_length;
                   df_frame_counter := frame_counter;
                   df_payload := take (total_length - 5) (drop 4 candidate);
                   df_checksum := actual |}, "", drop total_length buffer).

(** ** Hexadecimal text *)

Definition toHex (bytes : list Z) : string := String.concat " " (map byteToHex bytes).

(** The value of a hexadecimal digit, either case; [None] when [isxdigit] is
    false. *)
Definition hex_value (c : ascii) : option Z :=
  let n := Ascii.nat_of_ascii c in
  if (48 <=? n)%nat && (n <=? 57)%nat then Some (Z.of_nat (n - 48))
  else if (97 <=? n)%nat && (n <=? 102)%nat then Some (Z.of_nat (n - 87))
  else if (65 <=? n)%nat && (n <=? 70)%nat then Some (Z.of_nat (n - 55))
  else None.

(** [compact]: the digits of the text, as their values. *)
Fixpoint compact (hex_text : string) : list Z :=
  match hex_text with
  | EmptyString => []
  | String c s => match hex_value c with Some d => d :: compact s | None => compact s end
  end.

(** [strtol] of two digits, pair by pair. *)
Fixpoint pair_bytes (digits : list Z) : list Z :=
  match digits with
  | a :: b :: digits => wrapu 8 (16 * a + b) :: pair_bytes digits
  | _ => []
  end.

Definition fromHex (hex_text : string) : bool * list Z :=
  let compact := compact hex_text in
  if negb (length compact mod 2 =? 0)%nat then (false, []) else (true, pair_bytes compact).

(** ** Command frames *)

Definition clamp (value min_value max_value : Z) : Z :=
  if value <? min_value then min_value else if max_value <? value then max_value else value.

Definition appendBigEndianInt16 (payload : list Z) (value : Z) : list Z :=
  let safe := clamp value (-32768) 32767 in
  let raw := wrapu 16 safe in
  payload ++ [Z.land (Z.shiftr raw 8) 0xFF] ++ [Z.land raw 0xFF].

(** [while (payload.size() < 15) payload.push_back(0)]. *)
Definition pad15 (payload : list Z) : list Z := payload ++ replicate (15 - length payload) 0.

Definition makeLedPayload (op value : Z) : list Z := [0x2C; 0x74; op; value].

(** The builder is its [frame_counter_]. *)
Definition makeFrame (payload : list Z) (frame_counter_ : Z) : list Z * Z :=
  (encode kCmdId payload frame_counter_, Z.land (frame_counter_ + 1) 0x03).

Definition makeLedOn : Z → list Z * Z := makeFrame (makeLedPayload 0x01 0x00).
Definition makeLedOff : Z → list Z * Z := makeFrame (makeLedPayload 0x02 0x00).
Definition makeBrightness (level : Z) : Z → list Z * Z :=
  let safe_level := clamp level 0 100 in makeFrame (makeLedPayload 0x0A (wrapu 8 safe_level)).
Definition makeFlashEnable : Z → list Z * Z := makeFrame (makeLedPayload 0x09 0x00).
Definition makeFlashDisable : Z → list Z * Z := makeFrame (makeLedPayload 0x00 0x00).
Definition makeFlashHz (hz : Z) : Z → list Z * Z :=
  let safe_hz := clamp hz 1 50 in makeFrame (makeLedPayload 0x0B (wrapu 8 safe_hz)).
Definition makeServoHome : Z → list Z * Z := makeFrame (pad15 [0x30; 0x04]).

Definition unit_per_degree : Z := 182.

Definition makeServoMoveTo (x_degree y_degree : Z) : Z → list Z * Z :=
  let x_raw := clamp x_degree (-180) 180 * unit_per_degree in
  let y_raw := - clamp y_degree (-180) 180 * unit_per_degree in
  makeFrame (pad15 (appendBigEndianInt16 (appendBigEndianInt16 [0x30; 0x0B] x_raw) y_raw)).

(** ** What is decoded is what was encoded *)

Definition length_byte_of (payload : list Z) (frame_counter : Z) : Z :=
  Z.of_nat (length payload) + 2 + 64 * (frame_counter mod 4).

Lemma length_byte_spec payload c :
  (length payload <= kMaxPayloadLength)%nat → 0 <= c →
  wrapu 8 (Z.lor (Z.land (wrapu 8 (Z.of_nat (length payload) + 2)) 0x3F)
                 (Z.shiftl (Z.land c 0x03) 6)) = length_byte_of payload c.
Proof.
  unfold kMaxPayloadLength, length_byte_of. intros Hp Hc.
  rewrite (wrapu_id 8 (Z.of_nat (length payload) + 2)) by (unfold inu; lia).
  change 0x3F with (Z.ones 6). change 0x03 with (Z.ones 2).
  assert (0 <= c mod 4 < 4) by (apply Z.mod_pos_bound; lia).
  rewrite !Z.land_ones, Z.mod_small by lia. change (2 ^ 2) with 4.
  rewrite lor_shiftl_add by lia.
  rewrite wrapu_id by (unfold inu; lia). lia.
Qed.

Lemma encode_bytes cmd payload c :
  (length payload <= kMaxPayloadLength)%nat → 0 <= c →
  encode cmd payload c =
    let f := [kHeader0; kHeader1; cmd; length_byte_of payload c] ++ payload in f ++ [checksum f].
Proof.
  intros Hp Hc. unfold encode. replace (_ <? _)%nat with false by lia.
  by rewrite length_byte_spec.
Qed.

Definition at_light_header (b : list Z) : Prop := ∃ r, b = kHeader0 :: kHeader1 :: r.

Lemma skip_to_header_spec b :
  ∃ skipped r, b = skipped ++ r ∧ skip_to_header b = r ∧ (at_light_header r ∨ (length r < 2)%nat).
Proof.
  induction b as [|b0 b IH]; [exists [], []; split_and!; [done..|right; simpl; lia]|].
  destruct b as [|b1 r]; [exists [], [b0]; split_and!; [done..|right; simpl; lia]|].
  change (skip_to_header (b0 :: b1 :: r)) with
    (if (b0 =? kHeader0) && (b1 =? kHeader1) then b0 :: b1 :: r else skip_to_header (b1 :: r)).
  destruct (_ && _) eqn:E.
  - exists [], (b0 :: b1 :: r). split_and!; [done..|left]. exists r.
    by apply andb_prop in E as [->%Z.eqb_eq ->%Z.eqb_eq].
  - destruct IH as (sk & r' & Heq & Hs & Hr). exists (b0 :: sk), r'. by rewrite Heq at 1.
Qed.

Lemma skip_to_header_garbage g b :
  kHeader0 ∉ g → at_light_header b → skip_to_header (g ++ b) = b.
Proof.
  intros Hg Hb. induction g as [|x g IH]; [by destruct Hb as [r ->]|].
  apply not_elem_of_cons in Hg as [Hx Hg]. specialize (IH Hg).
  cbn [app]. destruct (g ++ b) as [|y r] eqn:E; [by destruct Hb as [? ->]; destruct g|].
  change (skip_to_header (x :: y :: r)) with
    (if (x =? kHeader0) && (y =? kHeader1) then x :: y :: r else skip_to_header (y :: r)).
  by replace (x =? kHeader0) with false by lia.
Qed.

(** A frame at the head of the buffer: [encode]'s bytes for some length byte,
    payload and checksum byte. *)
Definition light_frame (lb : Z) (payload : list Z) (cs : Z) : list Z :=
  [kHeader0; kHeader1; kCmdId; lb] ++ payload ++ [cs].

Definition frame_sum (lb : Z) (payload : list Z) : Z :=
  checksum ([kHeader0; kHeader1; kCmdId; lb] ++ payload).

(** What [tryDecode] does with a complete frame. *)
Lemma tryDecode_frame lb payload cs rest :
  Z.land lb 0x3F = Z.of_nat (length payload) + 2 → (length payload <= kMaxPayloadLength)%nat →
  tryDecode (light_frame lb payload cs ++ rest) =
    if frame_sum lb payload =? cs then
      (Some {| df_cmd_id := kCmdId; df_length_byte := lb;
               df_body_length := Z.of_nat (length payload) + 2;
               df_frame_counter := Z.land (Z.shiftr lb 6) 0x03;
               df_payload := payload; df_checksum := cs |}, "", rest)
    else (None, checksum_error (frame_sum lb payload) cs, []).
Proof.
  intros Hlb Hp. unfold tryDecode.
  assert (Hskip : skip_to_header (light_frame lb payload cs ++ rest) = light_frame lb payload cs ++ rest)
    by reflexivity.
  rewrite Hskip. set (b := light_frame lb payload cs ++ rest).
  assert (Hlen : length b = (length payload + 5 + length rest)%nat).
  { subst b. unfold light_frame. rewrite !length_app. simpl. lia. }
  replace (length b <? 4)%nat with false by lia.
  change (b !!! 2%nat) with kCmdId. change (b !!! 3%nat) with lb. rewrite Z.eqb_refl. cbn [negb].
  rewrite Hlb. unfold kMaxPayloadLength in Hp.
  replace (Z.of_nat (length payload) + 2 <? 2) with false by lia.
  replace (63 <? Z.of_nat (length payload) + 2) with false by lia. cbn [orb].
  replace (Z.to_nat (Z.of_nat (length payload) + 2 - 2)) with (length payload) by lia.
  replace (length b <? length payload + 5)%nat with false by lia.
  assert (Hl5 : length (light_frame lb payload cs) = (length payload + 5)%nat).
  { unfold light_frame. rewrite !length_app. simpl. lia. }
  assert (Htake : take (length payload + 5) b = light_frame lb payload cs)
    by (subst b; by apply take_app_length').
  assert (Hdrop : drop (length payload + 5) b = rest) by (subst b; by apply drop_app_length').
  rewrite Htake, Hdrop. replace (length payload + 5 - 1)%nat with (4 + length payload)%nat by lia.
  assert (Hpre : take (4 + length payload) (light_frame lb payload cs) =
                 [kHeader0; kHeader1; kCmdId; lb] ++ payload).
  { unfold light_frame. rewrite app_assoc. apply take_app_length'. rewrite length_app. done. }
  assert (Hcs : light_frame lb payload cs !!! (4 + length payload)%nat = cs).
  { unfold light_frame. rewrite app_assoc, lookup_total_app_r by (rewrite length_app; simpl; lia).
    by rewrite length_app, Nat.sub_diag. }
  rewrite Hpre, Hcs. fold (frame_sum lb payload).
  destruct (frame_sum lb payload =? cs); cbn [negb]; [|done].
  replace (length payload + 5 - 5)%nat with (length payload) by lia.
  change (drop 4 (light_frame lb payload cs)) with (payload ++ [cs]).
  by rewrite take_app_length.
Qed.

Lemma encode_light_frame payload c :
  (length payload <= kMaxPayloadLength)%nat → 0 <= c →
  encode kCmdId payload c =
    light_frame (length_byte_of payload c) payload (frame_sum (length_byte_of payload c) payload).
Proof.
  intros Hp Hc. rewrite encode_bytes by done. unfold light_frame, frame_sum. cbv zeta.
  by rewrite app_assoc.
Qed.

Lemma length_byte_fields payload c :
  (length payload <= kMaxPayloadLength)%nat → 0 <= c →
  Z.land (length_byte_of payload c) 0x3F = Z.of_nat (length payload) + 2 ∧
  Z.land (Z.shiftr (length_byte_of payload c) 6) 0x03 = c mod 4.
Proof.
  unfold kMaxPayloadLength, length_byte_of. intros Hp Hc.
  assert (0 <= c mod 4 < 4) by (apply Z.mod_pos_bound; lia).
  change 0x3F with (Z.ones 6). change 0x03 with (Z.ones 2).
  rewrite !Z.land_ones, Z.shiftr_div_pow2 by lia.
  change (2 ^ 6) with 64. change (2 ^ 2) with 4. split.
  - symmetry. apply (Z.mod_unique _ _ (c mod 4)); lia.
  - rewrite (Z.mul_comm 64), Z.div_add, Z.div_small, Z.add_0_l by lia.
    by rewrite Z.mod_mod.
Qed.

Lemma tryDecode_garbage g b :
  kHeader0 ∉ g → at_light_header b → tryDecode (g ++ b) = tryDecode b.
Proof.
  intros Hg Hb. unfold tryDecode. rewrite skip_to_header_garbage by done.
  destruct Hb as [r ->]. done.
Qed.

(** The decoded form of [encode kCmdId payload c]. *)
Definition light_decoded (payload : list Z) (c : Z) : DecodedFrame := {|
  df_cmd_id := kCmdId; df_length_byte := length_byte_of payload c;
  df_body_length := Z.of_nat (length payload) + 2; df_frame_counter := c mod 4;
  df_payload := payload; df_checksum := frame_sum (length_byte_of payload c) payload |}.

Lemma tryDecode_encode payload c rest :
  (length payload <= kMaxPayloadLength)%nat → 0 <= c →
  tryDecode (encode kCmdId payload c ++ rest) = (Some (light_decoded payload c), "", rest).
Proof.
  intros Hp Hc. destruct (length_byte_fields payload c Hp Hc) as [Hl Hf].
  rewrite encode_light_frame, tryDecode_frame by done. rewrite Z.eqb_refl, Hf. done.
Qed.

(** A proper beginning of a frame waits for the rest. *)
Lemma tryDecode_partial payload c k :
  (length payload <= kMaxPayloadLength)%nat → 0 <= c →
  (k < length (encode kCmdId payload c))%nat →
  tryDecode (take k (encode kCmdId payload c)) = (None, "", take k (encode kCmdId payload c)).
Proof.
  intros Hp Hc. destruct (length_byte_fields payload c Hp Hc) as [Hl _].
  rewrite encode_light_frame by done. set (lb := length_byte_of payload c) in *.
  unfold light_frame. set (tl := payload ++ _). intros Hk.
  assert (Htl : length tl = (length payload + 1)%nat) by (subst tl; rewrite length_app; simpl; lia).
  rewrite length_app, Htl in Hk. cbn [length] in Hk. unfold kMaxPayloadLength in Hp.
  do 4 (destruct k as [|k]; [reflexivity|]). cbn [app take].
  set (b := kHeader0 :: _). unfold tryDecode. change (skip_to_header b) with b.
  assert (Hb : length b = (4 + length (take k tl))%nat) by done.
  rewrite length_take, Htl in Hb. replace (length b <? 4)%nat with false by lia.
  change (b !!! 2%nat) with kCmdId. change (b !!! 3%nat) with lb. rewrite Z.eqb_refl, Hl. cbn [negb].
  replace (_ || _) with false by lia. by replace (_ <? _)%nat with true by lia.
Qed.

(** A frame encoded with any payload of at most 61 bytes and any counter,
    received behind bytes that hold no header byte and before anything else, is
    decoded with that payload and the counter modulo 4, without error, and
    exactly its bytes are consumed; a longer payload is refused with the empty
    frame. *)
Theorem searchlight_roundtrip g payload c rest :
  kHeader0 ∉ g → 0 <= c →
  if decide (length payload <= kMaxPayloadLength)%nat
  then tryDecode (g ++ encode kCmdId payload c ++ rest) = (Some (light_decoded payload c), "", rest)
  else encode kCmdId payload c = [].
Proof.
  intros Hg Hc. destruct (decide _) as [Hp|Hp].
  - rewrite tryDecode_garbage; [by apply tryDecode_encode|done|].
    rewrite encode_light_frame by done. by eexists.
  - unfold encode. by replace (_ <? _)%nat with true by lia.
Qed.

Lemma searchlight_roundtrip_witness :
  tryDecode ([1; 0xAA] ++ encode kCmdId [0x2C; 0x74; 0x01; 0x00] 6 ++ [0x55])
  = (Some (light_decoded [0x2C; 0x74; 0x01; 0x00] 6), "", [0x55]).
Proof. apply (searchlight_roundtrip [1; 0xAA] [0x2C; 0x74; 0x01; 0x00] 6 [0x55]); [set_solver|done]. Defined.

(** ** Every outcome of [tryDecode] *)

Lemma light_frame_split lb tl :
  byte lb → 2 <= Z.land lb 0x3F → (Z.to_nat (Z.land lb 0x3F - 2) + 1 <= length tl)%nat →
  ∃ payload cs rest,
    kHeader0 :: kHeader1 :: kCmdId :: lb :: tl = light_frame lb payload cs ++ rest ∧
    Z.land lb 0x3F = Z.of_nat (length payload) + 2 ∧ (length payload <= kMaxPayloadLength)%nat ∧
    lb = length_byte_of payload (Z.land (Z.shiftr lb 6) 0x03).
Proof.
  intros Hlb H2 Hlen. set (pl := Z.to_nat (Z.land lb 0x3F - 2)) in *.
  assert (H64 : Z.land lb 0x3F = lb mod 64) by (change 0x3F with (Z.ones 6); by rewrite Z.land_ones).
  assert (0 <= lb mod 64 < 64) by (apply Z.mod_pos_bound; lia).
  assert (Htp : length (take pl tl) = pl) by (rewrite length_take; lia).
  destruct (drop pl tl) as [|cs rest] eqn:Hd.
  { assert (Hdl : length (drop pl tl) = 0%nat) by (by rewrite Hd). rewrite length_drop in Hdl. lia. }
  exists (take pl tl), cs, rest. unfold light_frame, kMaxPayloadLength, length_byte_of. split_and!.
  - rewrite <- !app_assoc. cbn [app]. by rewrite <- Hd, take_drop.
  - rewrite Htp. unfold pl. lia.
  - rewrite Htp. unfold pl. lia.
  - rewrite Htp. unfold pl. rewrite Z2Nat.id, H64 by lia.
    change 0x03 with (Z.ones 2). rewrite Z.land_ones, Z.shiftr_div_pow2 by lia.
    change (2 ^ 6) with 64. change (2 ^ 2) with 4. unfold inu in Hlb.
    rewrite !(Z.mod_small (lb / 64)) by (Z.to_euclidean_division_equations; lia).
    pose proof (Z.div_mod lb 64). lia.
Qed.

(** Every outcome on any bytes, without an out-of-range access.  A
    decoded frame is genuine: its bytes, [encode] of its own payload and
    counter, are a segment of the buffer and exactly they and the bytes before
    them are consumed.  An error clears the buffer.  Otherwise nothing but
    bytes before a possible header is dropped. *)
Theorem tryDecode_sound b o err r :
  bytes b → tryDecode b = (o, err, r) →
  match o with
  | Some f =>
      err = "" ∧ f = light_decoded (df_payload f) (df_frame_counter f) ∧
      (length (df_payload f) <= kMaxPayloadLength)%nat ∧
      ∃ skipped, b = skipped ++ encode kCmdId (df_payload f) (df_frame_counter f) ++ r
  | None => if decide (err = "") then ∃ skipped, b = skipped ++ r else r = []
  end.
Proof.
  intros Hb Hdec. destruct (skip_to_header_spec b) as (sk & b' & -> & Hs & Hr).
  apply Forall_app in Hb as [_ Hb']. unfold tryDecode in Hdec. rewrite Hs in Hdec.
  destruct (length b' <? 4)%nat eqn:E4.
  { injection Hdec as <- <- <-. rewrite decide_True by done. by exists sk. }
  destruct Hr as [[tl ->]|Hr]; [|lia].
  destruct tl as [|cmd [|lb tl]]; [simpl in E4; lia..|].
  change ((_ :: _ :: cmd :: lb :: tl) !!! 2%nat) with cmd in Hdec.
  change ((_ :: _ :: cmd :: lb :: tl) !!! 3%nat) with lb in Hdec.
  destruct (cmd =? kCmdId) eqn:Ecmd; cbn [negb] in Hdec; [|by injection Hdec as <- <- <-].
  apply Z.eqb_eq in Ecmd as ->.
  do 3 (apply Forall_cons in Hb' as [_ Hb']). apply Forall_cons in Hb' as [Hlb Htl].
  destruct (_ || _) eqn:Ebl; [by injection Hdec as <- <- <-|].
  destruct (_ <? _)%nat eqn:El in Hdec.
  { injection Hdec as <- <- <-. rewrite decide_True by done. by exists sk. }
  destruct (light_frame_split lb tl Hlb) as (payload & cs & rest & Heq & Hl & Hp & Hlbp);
    [lia|simpl in El; lia|].
  assert (Hd2 : tryDecode (light_frame lb payload cs ++ rest) = (o, err, r)).
  { rewrite <- Heq. unfold tryDecode. change (skip_to_header (_ :: _ :: kCmdId :: lb :: tl))
      with (kHeader0 :: kHeader1 :: kCmdId :: lb :: tl).
    rewrite E4. change ((_ :: _ :: kCmdId :: lb :: tl) !!! 2%nat) with kCmdId.
    change ((_ :: _ :: kCmdId :: lb :: tl) !!! 3%nat) with lb.
    rewrite Z.eqb_refl, Ebl, El. exact Hdec. }
  clear Hdec. rewrite tryDecode_frame in Hd2 by done.
  destruct (frame_sum lb payload =? cs) eqn:Ecs; injection Hd2 as <- <- <-.
  2: { by rewrite decide_False. }
  apply Z.eqb_eq in Ecs as <-. cbn.
  assert (Hc : 0 <= Z.land (Z.shiftr lb 6) 0x03) by (apply Z.land_nonneg; right; lia).
  split_and!; [done| |done|].
  - unfold light_decoded. f_equal; [done| |by rewrite <- Hlbp].
    change 0x03 with (Z.ones 2). rewrite Z.land_ones by lia. by rewrite Z.mod_mod.
  - exists sk. f_equal. rewrite encode_light_frame by done. by rewrite <- Hlbp, <- Heq.
Qed.

Lemma tryDecode_sound_witness :
  ∃ skipped, [9; 0x55; 0xAA; 0xDC; 0x03; 7; 4; 1] =
             skipped ++ encode kCmdId [7] 0 ++ [1].
Proof.
  destruct (tryDecode_sound [9; 0x55; 0xAA; 0xDC; 0x03; 7; 4; 1]
              (Some (light_decoded [7] 0)) "" [1]) as (_ & _ & _ & H).
  - bytes_tac.
  - vm_compute. reflexivity.
  - exact H.
Defined.

(** A frame whose checksum byte is wrong takes with it everything that
    was received after it: the whole buffer is cleared, so a genuine frame right
    behind it is lost, while the same frame arriving in a later read would have
    been decoded. *)
Theorem bad_checksum_drops_rest payload c cs payload' c' :
  (length payload <= kMaxPayloadLength)%nat → (length payload' <= kMaxPayloadLength)%nat →
  0 <= c → 0 <= c' → cs ≠ frame_sum (length_byte_of payload c) payload →
  let bad := light_frame (length_byte_of payload c) payload cs in
  let good := encode kCmdId payload' c' in
  let err := checksum_error (frame_sum (length_byte_of payload c) payload) cs in
  tryDecode (bad ++ good) = (None, err, []) ∧
  tryDecode bad = (None, err, []) ∧
  tryDecode ([] ++ good) = (Some (light_decoded payload' c'), "", []).
Proof.
  intros Hp Hp' Hc Hc' Hcs. cbv zeta. destruct (length_byte_fields payload c Hp Hc) as [Hl _].
  assert (Hbad : ∀ rest, tryDecode (light_frame (length_byte_of payload c) payload cs ++ rest) =
    (None, checksum_error (frame_sum (length_byte_of payload c) payload) cs, [])).
  { intros rest. rewrite tryDecode_frame by done.
    by replace (_ =? cs) with false by (symmetry; apply Z.eqb_neq; congruence). }
  split_and!; [apply Hbad| |].
  - rewrite <- (app_nil_r (light_frame _ _ _)). apply Hbad.
  - cbn [app]. rewrite <- (app_nil_r (encode _ _ _)). by apply tryDecode_encode.
Qed.

Lemma bad_checksum_drops_rest_witness :
  (tryDecode ([0x55; 0xAA; 0xDC; 0x03; 7; 0] ++ encode kCmdId [0x30; 0x04] 1)).2 = [].
Proof.
  destruct (bad_checksum_drops_rest [7] 0 0 [0x30; 0x04] 1) as (H & _); [simpl; unfold kMaxPayloadLength; lia..|done|].
  change [0x55; 0xAA; 0xDC; 0x03; 7; 0] with (light_frame (length_byte_of [7] 0) [7] 0).
  by rewrite H.
Defined.

(** ** Hexadecimal text *)

Lemma hex_digit_value d : 0 <= d < 16 → ∃ c, hex_digit d = String c "" ∧ hex_value c = Some d.
Proof.
  intros Hd. assert (Hc : d = 0 ∨ d = 1 ∨ d = 2 ∨ d = 3 ∨ d = 4 ∨ d = 5 ∨ d = 6 ∨ d = 7 ∨ d = 8 ∨
    d = 9 ∨ d = 10 ∨ d = 11 ∨ d = 12 ∨ d = 13 ∨ d = 14 ∨ d = 15) by lia.
  repeat destruct Hc as [->|Hc]; [..|subst d]; eexists; split; reflexivity.
Qed.

Lemma compact_app s t : compact (s +:+ t) = compact s ++ compact t.
Proof.
  induction s as [|c s IH]; [done|].
  change (String c s +:+ t) with (String c (s +:+ t)). cbn. destruct (hex_value c); by rewrite IH.
Qed.

Lemma compact_byteToHex b : byte b → compact (byteToHex b) = [b / 16; b mod 16].
Proof.
  intros Hb. unfold byteToHex, hex_byte. rewrite compact_app. unfold inu in Hb.
  destruct (hex_digit_value (b / 16)) as (c1 & -> & H1); [Z.to_euclidean_division_equations; lia|].
  destruct (hex_digit_value (b mod 16)) as (c2 & -> & H2); [Z.to_euclidean_division_equations; lia|].
  cbn. by rewrite H1, H2.
Qed.

Lemma compact_toHex bs : bytes bs → compact (toHex bs) = concat (map (λ b, [b / 16; b mod 16]) bs).
Proof.
  unfold toHex. induction 1 as [|b bs Hb Hbs IH]; [done|].
  destruct bs as [|b2 bs]; [cbn; by rewrite compact_byteToHex|].
  change (String.concat " " (map byteToHex (b :: b2 :: bs)))
    with (byteToHex b +:+ (" " +:+ String.concat " " (map byteToHex (b2 :: bs)))).
  rewrite !compact_app, compact_byteToHex by done.
  cbn [map concat] in IH |- *. by rewrite IH.
Qed.

(** The hexadecimal text of any bytes is read back as those bytes. *)
Theorem fromHex_toHex bs : bytes bs → fromHex (toHex bs) = (true, bs).
Proof.
  intros Hb. unfold fromHex. rewrite compact_toHex by done.
  assert (Hl : length (concat (map (λ b, [b / 16; b mod 16]) bs)) = (length bs * 2)%nat).
  { clear Hb. induction bs as [|b bs IH]; [done|]. cbn [map concat]. rewrite length_app, IH. simpl. lia. }
  rewrite Hl, Nat.Div0.mod_mul. cbn [negb Nat.eqb]. f_equal. clear Hl.
  induction Hb as [|b bs Hbb _ IH]; [done|]. cbn [map concat app pair_bytes]. rewrite IH. f_equal.
  rewrite <- Z.div_mod by lia. by apply wrapu_id.
Qed.

Lemma fromHex_toHex_witness : fromHex (toHex [0; 0xAB; 255]) = (true, [0; 0xAB; 255]).
Proof. apply fromHex_toHex. bytes_tac. Defined.
