(* ===== verification/SearchlightState.v ===== *)
(** * The searchlight's state and command checks

    Model of my_light/SearchlightState.cpp and SearchlightState.h (what is known
    of the device from the frames it sends) and of the parameter checks in
    SearchlightLedController.cpp and SearchlightServoController.cpp.  The clock
    reading [nowMs()] is an argument; every method holds [mutex_] throughout. *)

From S2P Require Import Prelude Bytes SearchlightProtocol.
From Stdlib Require Import Ascii.
From stdpp Require Import pretty.

Local Open Scope Z_scope.

Inductive DevicePresence := PresenceUnknown | NoDevice | Online.
Inductive LedPowerState := LedUnknown | LedOff | LedOn.
Inductive FlashState := FlashUnknown | FlashDisabled | FlashEnabled.

#[export] Instance DevicePresence_eq_dec : EqDecision DevicePresence.
Proof. solve_decision. Defined.

Record SearchlightState := {
  presence_ : DevicePresence;
  led_ : LedPowerState;
  flash_ : FlashState;
  brightness_ : Z;
  flash_hz_ : Z;
  servo_x_degree_ : Z;
  servo_y_degree_ : Z;
  last_frame_counter_ : Z;
  last_cmd_id_ : Z;
  last_payload_hex_ : string;
  last_error_ : string;
  rx_frame_count_ : Z;
  checksum_error_count_ : Z;
  last_seen_ms_ : Z;
  last_queued_command_ : string;
  last_sent_command_ : string
}.

Definition SearchlightState_default : SearchlightState := {|
  presence_ := PresenceUnknown; led_ := LedUnknown; flash_ := FlashUnknown;
  brightness_ := -1; flash_hz_ := -1; servo_x_degree_ := 0; servo_y_degree_ := 0;
  last_frame_counter_ := 0; last_cmd_id_ := 0; last_payload_hex_ := ""; last_error_ := "";
  rx_frame_count_ := 0; checksum_error_count_ := 0; last_seen_ms_ := 0;
  last_queued_command_ := ""; last_sent_command_ := "" |}.

Definition set_presence_ (x : DevicePresence) (s : SearchlightState) : SearchlightState := {|
  presence_ := x; led_ := led_ s; flash_ := flash_ s; brightness_ := brightness_ s;
  flash_hz_ := flash_hz_ s; servo_x_degree_ := servo_x_degree_ s;
  servo_y_degree_ := servo_y_degree_ s; last_frame_counter_ := last_frame_counter_ s;
  last_cmd_id_ := last_cmd_id_ s; last_payload_hex_ := last_payload_hex_ s;
  last_error_ := last_error_ s; rx_frame_count_ := rx_frame_count_ s;
  checksum_error_count_ := checksum_error_count_ s; last_seen_ms_ := last_seen_ms_ s;
  last_queued_command_ := last_queued_command_ s; last_sent_command_ := last_sent_command_ s |}.
Definition set_led_ (x : LedPowerState) (s : SearchlightState) : SearchlightState := {|
  presence_ := presence_ s; led_ := x; flash_ := flash_ s; brightness_ := brightness_ s;
  flash_hz_ := flash_hz_ s; servo_x_degree_ := servo_x_degree_ s;
  servo_y_degree_ := servo_y_degree_ s; last_frame_counter_ := last_frame_counter_ s;
  last_cmd_id_ := last_cmd_id_ s; last_payload_hex_ := last_payload_hex_ s;
  last_error_ := last_error_ s; rx_frame_count_ := rx_frame_count_ s;
  checksum_error_count_ := checksum_error_count_ s; last_seen_ms_ := last_seen_ms_ s;
  last_queued_command_ := last_queued_command_ s; last_sent_command_ := last_sent_command_ s |}.
Definition set_flash_ (x : FlashState) (s : SearchlightState) : SearchlightState := {|
  presence_ := presence_ s; led_ := led_ s; flash_ := x; brightness_ := brightness_ s;
  flash_hz_ := flash_hz_ s; servo_x_degree_ := servo_x_degree_ s;
  servo_y_degree_ := servo_y_degree_ s; last_frame_counter_ := last_frame_counter_ s;
  last_cmd_id_ := last_cmd_id_ s; last_payload_hex_ := last_payload_hex_ s;
  last_error_ := last_error_ s; rx_frame_count_ := rx_frame_count_ s;
  checksum_error_count_ := checksum_error_count_ s; last_seen_ms_ := last_seen_ms_ s;
  last_queued_command_ := last_queued_command_ s; last_sent_command_ := last_sent_command_ s |}.
Definition set_brightness_ (x : Z) (s : SearchlightState) : SearchlightState := {|
  presence_ := presence_ s; led_ := led_ s; flash_ := flash_ s; brightness_ := x;
  flash_hz_ := flash_hz_ s; servo_x_degree_ := servo_x_degree_ s;
  servo_y_degree_ := servo_y_degree_ s; last_frame_counter_ := last_frame_counter_ s;
  last_cmd_id_ := last_cmd_id_ s; last_payload_hex_ := last_payload_hex_ s;
  last_error_ := last_error_ s; rx_frame_count_ := rx_frame_count_ s;
  checksum_error_count_ := checksum_error_count_ s; last_seen_ms_ := last_seen_ms_ s;
  last_queued_command_ := last_queued_command_ s; last_sent_command_ := last_sent_command_ s |}.
Definition set_flash_hz_ (x : Z) (s : SearchlightState) : SearchlightState := {|
  presence_ := presence_ s; led_ := led_ s; flash_ := flash_ s; brightness_ := brightness_ s;
  flash_hz_ := x; servo_x_degree_ := servo_x_degree_ s; servo_y_degree_ := servo_y_degree_ s;
  last_frame_counter_ := last_frame_counter_ s; last_cmd_id_ := last_cmd_id_ s;
  last_payload_hex_ := last_payload_hex_ s; last_error_ := last_error_ s;
  rx_frame_count_ := rx_frame_count_ s; checksum_error_count_ := checksum_error_count_ s;
  last_seen_ms_ := last_seen_ms_ s; last_queued_command_ := last_queued_command_ s;
  last_sent_command_ := last_sent_command_ s |}.
Definition set_last_error_ (x : string) (s : SearchlightState) : SearchlightState := {|
  presence_ := presence_ s; led_ := led_ s; flash_ := flash_ s; brightness_ := brightness_ s;
  flash_hz_ := flash_hz_ s; servo_x_degree_ := servo_x_degree_ s;
  servo_y_degree_ := servo_y_degree_ s; last_frame_counter_ := last_frame_counter_ s;
  last_cmd_id_ := last_cmd_id_ s; last_payload_hex_ := last_payload_hex_ s; last_error_ := x;
  rx_frame_count_ := rx_frame_count_ s; checksum_error_count_ := checksum_error_count_ s;
  last_seen_ms_ := last_seen_ms_ s; last_queued_command_ := last_queued_command_ s;
  last_sent_command_ := last_sent_command_ s |}.
Definition set_checksum_error_count_ (x : Z) (s : SearchlightState) : SearchlightState := {|
  presence_ := presence_ s; led_ := led_ s; flash_ := flash_ s; brightness_ := brightness_ s;
  flash_hz_ := flash_hz_ s; servo_x_degree_ := servo_x_degree_ s;
  servo_y_degree_ := servo_y_degree_ s; last_frame_counter_ := last_frame_counter_ s;
  last_cmd_id_ := last_cmd_id_ s; last_payload_hex_ := last_payload_hex_ s;
  last_error_ := last_error_ s; rx_frame_count_ := rx_frame_count_ s; checksum_error_count_ := x;
  last_seen_ms_ := last_seen_ms_ s; last_queued_command_ := last_queued_command_ s;
  last_sent_command_ := last_sent_command_ s |}.
Definition set_last_queued_command_ (x : string) (s : SearchlightState) : SearchlightState := {|
  presence_ := presence_ s; led_ := led_ s; flash_ := flash_ s; brightness_ := brightness_ s;
  flash_hz_ := flash_hz_ s; servo_x_degree_ := servo_x_degree_ s;
  servo_y_degree_ := servo_y_degree_ s; last_frame_counter_ := last_frame_counter_ s;
  last_cmd_id_ := last_cmd_id_ s; last_payload_hex_ := last_payload_hex_ s;
  last_error_ := last_error_ s; rx_frame_count_ := rx_frame_count_ s;
  checksum_error_count_ := checksum_error_count_ s; last_seen_ms_ := last_seen_ms_ s;
  last_queued_command_ := x; last_sent_command_ := last_sent_command_ s |}.
Definition set_last_sent_command_ (x : string) (s : SearchlightState) : SearchlightState := {|
  presence_ := presence_ s; led_ := led_ s; flash_ := flash_ s; brightness_ := brightness_ s;
  flash_hz_ := flash_hz_ s; servo_x_degree_ := servo_x_degree_ s;
  servo_y_degree_ := servo_y_degree_ s; last_frame_counter_ := last_frame_counter_ s;
  last_cmd_id_ := last_cmd_id_ s; last_payload_hex_ := last_payload_hex_ s;
  last_error_ := last_error_ s; rx_frame_count_ := rx_frame_count_ s;
  checksum_error_count_ := checksum_error_count_ s; last_seen_ms_ := last_seen_ms_ s;
  last_queued_command_ := last_queued_command_ s; last_sent_command_ := x |}.
Definition set_servo (x y : Z) (s : SearchlightState) : SearchlightState := {|
  presence_ := presence_ s; led_ := led_ s; flash_ := flash_ s; brightness_ := brightness_ s;
  flash_hz_ := flash_hz_ s; servo_x_degree_ := x; servo_y_degree_ := y;
  last_frame_counter_ := last_frame_counter_ s; last_cmd_id_ := last_cmd_id_ s;
  last_payload_hex_ := last_payload_hex_ s; last_error_ := last_error_ s;
  rx_frame_count_ := rx_frame_count_ s; checksum_error_count_ := checksum_error_count_ s;
  last_seen_ms_ := last_seen_ms_ s; last_queued_command_ := last_queued_command_ s;
  last_sent_command_ := last_sent_command_ s |}.

(** ** Reports of the device *)

Definition readBigEndianInt16 (high low : Z) : Z :=
  let raw := wrapu 16 (Z.lor (Z.shiftl high 8) low) in wraps 16 raw.

Definition applyPayloadLocked (payload : list Z) (s : SearchlightState) : SearchlightState :=
  if (4 <=? length payload)%nat && (payload !!! 0%nat =? 0x2C) && (payload !!! 1%nat =? 0x74) then
    let op := payload !!! 2%nat in
    let value := payload !!! 3%nat in
    if op =? 0x00 then set_flash_ FlashDisabled s
    else if op =? 0x01 then set_flash_ FlashDisabled (set_led_ LedOn s)
    else if op =? 0x02 then set_flash_ FlashDisabled (set_led_ LedOff s)
    else if op =? 0x09 then set_flash_ FlashEnabled (set_led_ LedOn s)
    else if op =? 0x0A then set_led_ LedOn (set_brightness_ value s)
    else if op =? 0x0B then set_flash_hz_ value s
    else s
  else if (2 <=? length payload)%nat && (payload !!! 0%nat =? 0x30) then
    let op := payload !!! 1%nat in
    if op =? 0x04 then set_servo 0 0 s
    else if (op =? 0x0B) && (6 <=? length payload)%nat then
      let x_raw := readBigEndianInt16 (payload !!! 2%nat) (payload !!! 3%nat) in
      let y_raw := readBigEndianInt16 (payload !!! 4%nat) (payload !!! 5%nat) in
      set_servo (Z.quot x_raw 182) (Z.quot (- y_raw) 182) s
    else s
  else s.

Definition markNoDevice (reason : string) (s : SearchlightState) : SearchlightState :=
  set_last_error_ reason (set_presence_ NoDevice s).

(** The part of [markOnlineByFrame] before the payload is applied. *)
Definition seen_online (now : Z) (frame : DecodedFrame) (s : SearchlightState) : SearchlightState := {|
    presence_ := Online; led_ := led_ s; flash_ := flash_ s; brightness_ := brightness_ s;
    flash_hz_ := flash_hz_ s; servo_x_degree_ := servo_x_degree_ s;
    servo_y_degree_ := servo_y_degree_ s; last_frame_counter_ := df_frame_counter frame;
    last_cmd_id_ := df_cmd_id frame; last_payload_hex_ := toHex (df_payload frame);
    last_error_ := ""; rx_frame_count_ := wrapu 64 (rx_frame_count_ s + 1);
    checksum_error_count_ := checksum_error_count_ s; last_seen_ms_ := now;
    last_queued_command_ := last_queued_command_ s;
    last_sent_command_ := last_sent_command_ s |}.

Definition markOnlineByFrame (now : Z) (frame : DecodedFrame) (s : SearchlightState) : SearchlightState :=
  applyPayloadLocked (df_payload frame) (seen_online now frame s).

Definition markChecksumError (error : string) (s : SearchlightState) : SearchlightState :=
  set_checksum_error_count_ (wrapu 64 (checksum_error_count_ s + 1)) (set_last_error_ error s).

Definition markCommandQueued (command : string) (s : SearchlightState) := set_last_queued_command_ command s.
Definition markCommandSent (command : string) (s : SearchlightState) := set_last_sent_command_ command s.
Definition markCommandFailed (command reason : string) (s : SearchlightState) : SearchlightState :=
  set_last_error_ (command +:+ " 发送失败：" +:+ reason) s.

(** Not a pure query: an expired deadline changes the state. *)
Definition isOnline (now offline_timeout_ms : Z) (s : SearchlightState) : bool * SearchlightState :=
  if negb (bool_decide (presence_ s = Online)) then (false, s)
  else if last_seen_ms_ s <=? 0 then
    (false, set_last_error_ "尚未收到任何有效串口帧" (set_presence_ NoDevice s))
  else
    let elapsed := now - last_seen_ms_ s in
    if offline_timeout_ms <? elapsed then
      (false, set_last_error_ ("超过 " +:+ pretty offline_timeout_ms +:+
                               "ms 未收到设备数据，状态切换为【无设备】")
                (set_presence_ NoDevice s))
    else (true, s).

Record SearchlightStatusSnapshot := {
  sn_presence : DevicePresence; sn_led : LedPowerState; sn_flash : FlashState; sn_brightness : Z;
  sn_flash_hz : Z; sn_servo_x_degree : Z; sn_servo_y_degree : Z; sn_last_frame_counter : Z;
  sn_last_cmd_id : Z; sn_last_payload_hex : string; sn_last_error : string;
  sn_rx_frame_count : Z; sn_checksum_error_count : Z; sn_last_seen_ms : Z
}.

Definition snapshot (s : SearchlightState) : SearchlightStatusSnapshot := {|
  sn_presence := presence_ s; sn_led := led_ s; sn_flash := flash_ s;
  sn_brightness := brightness_ s; sn_flash_hz := flash_hz_ s;
  sn_servo_x_degree := servo_x_degree_ s; sn_servo_y_degree := servo_y_degree_ s;
  sn_last_frame_counter := last_frame_counter_ s; sn_last_cmd_id := last_cmd_id_ s;
  sn_last_payload_hex := last_payload_hex_ s; sn_last_error := last_error_ s;
  sn_rx_frame_count := rx_frame_count_ s; sn_checksum_error_count := checksum_error_count_ s;
  sn_last_seen_ms := last_seen_ms_ s |}.

Definition presenceToText (value : DevicePresence) : string :=
  match value with PresenceUnknown => "未知" | NoDevice => "无设备" | Online => "在线" end.
Definition ledToText (value : LedPowerState) : string :=
  match value with LedUnknown => "未知" | LedOff => "关闭" | LedOn => "开启" end.
Definition flashToText (value : FlashState) : string :=
  match value with FlashUnknown => "未知" | FlashDisabled => "关闭" | FlashEnabled => "开启" end.

Definition quoted (s : string) : string :=
  String (Ascii.ascii_of_nat 34) (s +:+ String (Ascii.ascii_of_nat 34) "").

(** The status text: a JSON object written by hand, its strings not escaped. *)
Definition toStatusString (s : SearchlightState) : string :=
  let field name value := quoted name +:+ ":" +:+ value in
  "{" +:+ String.concat ","
    [field "device" (quoted (presenceToText (presence_ s)));
     field "led" (quoted (ledToText (led_ s)));
     field "flash" (quoted (flashToText (flash_ s)));
     field "brightness" (pretty (brightness_ s));
     field "flash_hz" (pretty (flash_hz_ s));
     field "servo_x_degree" (pretty (servo_x_degree_ s));
     field "servo_y_degree" (pretty (servo_y_degree_ s));
     field "last_frame_counter" (pretty (last_frame_counter_ s));
     field "last_cmd_id" (pretty (last_cmd_id_ s));
     field "last_payload_hex" (quoted (last_payload_hex_ s));
     field "rx_frame_count" (pretty (rx_frame_count_ s));
     field "checksum_error_count" (pretty (checksum_error_count_ s));
     field "last_seen_ms" (pretty (last_seen_ms_ s));
     field "last_error" (quoted (last_error_ s));
     field "last_queued_command" (quoted (last_queued_command_ s));
     field "last_sent_command" (quoted (last_sent_command_ s))] +:+ "}".

(** ** Checked commands

    Each build function returns its result, the frame and the builder's next
    counter.  A rejected parameter leaves the frame and the counter alone. *)

Definition built (f : list Z * Z) : bool * list Z * Z :=
  (negb (length f.1 =? 0)%nat, f.1, f.2).

Definition buildOpenLed (counter : Z) (frame : list Z) := built (makeLedOn counter).
Definition buildCloseLed (counter : Z) (frame : list Z) := built (makeLedOff counter).
Definition buildLightLevel (level counter : Z) (frame : list Z) : bool * list Z * Z :=
  if (level <? 0) || (100 <? level) then (false, frame, counter)
  else built (makeBrightness level counter).
Definition buildOpenFlash (counter : Z) (frame : list Z) := built (makeFlashEnable counter).
Definition buildCloseFlash (counter : Z) (frame : list Z) := built (makeFlashDisable counter).
Definition buildFlashHz (hz counter : Z) (frame : list Z) : bool * list Z * Z :=
  if (hz <=? 0) || (50 <? hz) then (false, frame, counter) else built (makeFlashHz hz counter).
Definition buildHome (counter : Z) (frame : list Z) := built (makeServoHome counter).
Definition buildMoveTo (x_degree y_degree counter : Z) (frame : list Z) : bool * list Z * Z :=
  if (x_degree <? -180) || (180 <? x_degree) || (y_degree <? -180) || (180 <? y_degree)
  then (false, frame, counter)
  else built (makeServoMoveTo x_degree y_degree counter).

(** ** The effect of a command the device reports back *)

Inductive light_command :=
| OpenLed | CloseLed | LightLevel (level : Z) | OpenFlash | CloseFlash | FlashHz (hz : Z)
| Home | MoveTo (x y : Z).

Definition build (c : light_command) (counter : Z) : bool * list Z * Z :=
  match c with
  | OpenLed => buildOpenLed counter []
  | CloseLed => buildCloseLed counter []
  | LightLevel l => buildLightLevel l counter []
  | OpenFlash => buildOpenFlash counter []
  | CloseFlash => buildCloseFlash counter []
  | FlashHz hz => buildFlashHz hz counter []
  | Home => buildHome counter []
  | MoveTo x y => buildMoveTo x y counter []
  end.

(** The parameters the checks let through. *)
Definition allowed (c : light_command) : Prop :=
  match c with
  | LightLevel l => 0 <= l <= 100
  | FlashHz hz => 1 <= hz <= 50
  | MoveTo x y => -180 <= x <= 180 ∧ -180 <= y <= 180
  | _ => True
  end.

#[export] Instance allowed_dec c : Decision (allowed c).
Proof. destruct c; apply _. Defined.

(** What the command asks for: led, flash, brightness, frequency and servo
    angles, [None] for what it leaves alone. *)
Definition commanded (c : light_command) (s : SearchlightState) : SearchlightState :=
  match c with
  | OpenLed => set_flash_ FlashDisabled (set_led_ LedOn s)
  | CloseLed => set_flash_ FlashDisabled (set_led_ LedOff s)
  | LightLevel l => set_led_ LedOn (set_brightness_ l s)
  | OpenFlash => set_flash_ FlashEnabled (set_led_ LedOn s)
  | CloseFlash => set_flash_ FlashDisabled s
  | FlashHz hz => set_flash_hz_ hz s
  | Home => set_servo 0 0 s
  | MoveTo x y => set_servo x y s
  end.

Lemma clamp_id v lo hi : lo <= v <= hi → clamp v lo hi = v.
Proof.
  intros. unfold clamp. replace (v <? lo) with false by lia. by replace (hi <? v) with false by lia.
Qed.

(** The two bytes of an angle are read back as it was. *)
Lemma readBigEndianInt16_append v :
  ins 16 v →
  readBigEndianInt16 (Z.land (Z.shiftr (wrapu 16 v) 8) 0xFF) (Z.land (wrapu 16 v) 0xFF) = v.
Proof.
  intros Hv. pose proof (inu_wrapu 16 v ltac:(lia)) as Hr. set (raw := wrapu 16 v) in *.
  unfold readBigEndianInt16. change 0xFF with (Z.ones 8).
  rewrite !Z.land_ones, Z.shiftr_div_pow2, Z.lor_comm by lia.
  rewrite lor_shiftl_add; [|lia|apply Z.mod_pos_bound; lia|apply Z.mod_pos_bound; lia].
  assert (Hraw : raw mod 2 ^ 8 + 2 ^ 8 * ((raw / 2 ^ 8) mod 2 ^ 8) = raw).
  { unfold inu in Hr. change (2 ^ 16) with 65536 in Hr. change (2 ^ 8) with 256.
    Z.to_euclidean_division_equations; lia. }
  rewrite Hraw, (wrapu_id 16 raw) by done. unfold raw. by rewrite wraps_wrapu, wraps_id.
Qed.

(** The payload of each command, when its parameters pass. *)
Definition command_payload (c : light_command) : list Z :=
  match c with
  | OpenLed => makeLedPayload 0x01 0
  | CloseLed => makeLedPayload 0x02 0
  | LightLevel l => makeLedPayload 0x0A l
  | OpenFlash => makeLedPayload 0x09 0
  | CloseFlash => makeLedPayload 0x00 0
  | FlashHz hz => makeLedPayload 0x0B hz
  | Home => pad15 [0x30; 0x04]
  | MoveTo x y => pad15 (appendBigEndianInt16 (appendBigEndianInt16 [0x30; 0x0B] (x * 182)) (- y * 182))
  end.

Lemma command_payload_length c : (length (command_payload c) <= kMaxPayloadLength)%nat.
Proof. unfold kMaxPayloadLength. destruct c; simpl; lia. Qed.

Lemma build_spec c counter :
  0 <= counter →
  build c counter =
    if decide (allowed c)
    then (true, encode kCmdId (command_payload c) counter, (counter + 1) mod 4)
    else (false, [], counter).
Proof.
  intros Hc.
  assert (Hb : ∀ p, (length p <= kMaxPayloadLength)%nat →
    built (makeFrame p counter) = (true, encode kCmdId p counter, (counter + 1) mod 4)).
  { intros p Hp. unfold built, makeFrame. cbn [fst snd]. change 0x03 with (Z.ones 2).
    rewrite Z.land_ones by lia. rewrite encode_light_frame by done. done. }
  destruct c as [| |l| | |hz| |x y]; cbn [build];
    try (rewrite decide_True by done; apply Hb; unfold kMaxPayloadLength; simpl; lia).
  - unfold buildLightLevel. destruct (decide _) as [Ha|Ha]; cbn in Ha.
    + replace (_ || _) with false by lia. unfold makeBrightness. rewrite clamp_id by lia.
      rewrite wrapu_id by (unfold inu; lia). apply Hb. unfold kMaxPayloadLength; simpl; lia.
    + by replace (_ || _) with true by lia.
  - unfold buildFlashHz. destruct (decide _) as [Ha|Ha]; cbn in Ha.
    + replace (_ || _) with false by lia. unfold makeFlashHz. rewrite clamp_id by lia.
      rewrite wrapu_id by (unfold inu; lia). apply Hb. unfold kMaxPayloadLength; simpl; lia.
    + by replace (_ || _) with true by lia.
  - unfold buildMoveTo. destruct (decide _) as [Ha|Ha]; cbn in Ha.
    + replace (_ || _) with false by lia. unfold makeServoMoveTo, unit_per_degree.
      rewrite !clamp_id by lia. apply (Hb (command_payload (MoveTo x y))), command_payload_length.
    + by replace (_ || _) with true by lia.
Qed.

Lemma applyPayload_command c s : allowed c → applyPayloadLocked (command_payload c) s = commanded c s.
Proof.
  destruct c as [| |l| | |hz| |x y]; try reflexivity. cbn [allowed]. intros [Hx Hy].
  cbn [command_payload commanded]. unfold applyPayloadLocked, pad15, appendBigEndianInt16.
  rewrite !clamp_id by lia. cbn [app length replicate Nat.sub Nat.leb andb lookup_total list_lookup_total].
  change (0x30 =? 0x2C) with false. change (0x30 =? 0x30) with true.
  change (0x0B =? 0x04) with false. change (0x0B =? 0x0B) with true. cbn [andb].
  rewrite !readBigEndianInt16_append by (unfold ins; change (2 ^ (16 - 1)) with 32768; lia).
  f_equal; [by rewrite Z.quot_mul|].
  replace (- (- y * 182)) with (y * 182) by lia. by rewrite Z.quot_mul.
Qed.

(** From a command to what is known of the device.  A parameter out of
    range is rejected and uses no counter.  Otherwise the frame that is built,
    reported back by the device and decoded, puts the state exactly where the
    command asks: the servo angles in degrees come back from their 16-bit units
    without rounding for the whole range, and the device counts as online. *)
Theorem light_command_echo c counter rest now s :
  0 <= counter →
  (allowed c →
   ∃ frame f, build c counter = (true, frame, (counter + 1) mod 4) ∧
     tryDecode (frame ++ rest) = (Some f, "", rest) ∧
     df_frame_counter f = counter mod 4 ∧
     markOnlineByFrame now f s = commanded c (seen_online now f s)) ∧
  (¬ allowed c → build c counter = (false, [], counter)).
Proof.
  intros Hc. rewrite build_spec by done. split.
  - intros Hal. eexists _, (light_decoded (command_payload c) counter).
    split; [|split; [apply tryDecode_encode; [apply command_payload_length|done]|split; [done|]]].
    + by rewrite decide_True.
    + unfold markOnlineByFrame. by apply applyPayload_command.
  - intros Hal. by rewrite decide_False.
Qed.

Lemma light_command_echo_witness :
  let '(_, frame, _) := build (MoveTo (-90) 45) 3 in
  ∃ f, tryDecode frame = (Some f, "", []) ∧
       servo_x_degree_ (markOnlineByFrame 1000 f SearchlightState_default) = -90 ∧
       servo_y_degree_ (markOnlineByFrame 1000 f SearchlightState_default) = 45.
Proof.
  destruct (light_command_echo (MoveTo (-90) 45) 3 [] 1000 SearchlightState_default) as [He _]; [lia|].
  destruct He as (frame & f & Hb & Hd & _ & Hm); [cbn; lia|].
  rewrite Hb. rewrite app_nil_r in Hd. exists f. by rewrite Hd, Hm.
Defined.

(** Once the deadline has passed the state is offline, and it stays so whatever
    the clock says until a frame is decoded. *)
Lemma isOnline_spec now timeout s :
  isOnline now timeout s =
    let ok := bool_decide (presence_ s = Online ∧ 0 < last_seen_ms_ s ∧ now - last_seen_ms_ s <= timeout) in
    (ok, if bool_decide (presence_ s = Online) && negb ok
         then set_last_error_ (if last_seen_ms_ s <=? 0 then "尚未收到任何有效串口帧"
                               else "超过 " +:+ pretty timeout +:+ "ms 未收到设备数据，状态切换为【无设备】")
                (set_presence_ NoDevice s)
         else s).
Proof.
  unfold isOnline. destruct (decide (presence_ s = Online)) as [Hp|Hp].
  2: { rewrite (bool_decide_false (presence_ s = Online)) by done. cbn.
       by rewrite bool_decide_false by naive_solver. }
  rewrite (bool_decide_true (presence_ s = Online)) by done. cbn.
  destruct (last_seen_ms_ s <=? 0) eqn:E0.
  { by rewrite bool_decide_false by lia. }
  destruct (timeout <? now - last_seen_ms_ s) eqn:Et.
  - by rewrite bool_decide_false by lia.
  - by rewrite bool_decide_true by (split_and!; [done|lia|lia]).
Qed.

Lemma isOnline_latched now timeout s s' now' timeout' :
  isOnline now timeout s = (false, s') → isOnline now' timeout' s' = (false, s').
Proof.
  unfold isOnline at 1. intros H. unfold isOnline.
  destruct (bool_decide (presence_ s = Online)) eqn:Hp; cbn in H.
  - destruct (_ <=? 0); [by injection H as <-|]. destruct (_ <? _); [by injection H as <-|done].
  - injection H as <-. by rewrite Hp.
Qed.
