(* ===== verification/LightSerialPort.v ===== *)
(** * The searchlight's serial port

    Model of my_light/SerialPort.cpp and SerialPort.h: opening, configuring,
    reading and writing a POSIX terminal.  The operating system is the parameter
    [Posix D], its documented behaviour the class [PosixLaws]; that a
    non-blocking write does not stay unready for ever is the separate class
    [PosixProgress].  [LightPort] is the interface the searchlight is proved
    against, [LightPortLaws] what it relies on; the port implements both. *)

From S2P Require Import Prelude Bytes.

Local Open Scope Z_scope.

(** ** The operating system *)

Inductive errno := EINTR | EAGAIN | EWOULDBLOCK | errno_other (n : Z).

Class Posix (D tio : Type) := {
  px_open : string → D → Z * D;
  px_close : Z → D → D;
  px_errno : D → errno;
  px_strerror : errno → string;
  (** [select] on one descriptor: seconds, microseconds *)
  px_select : Z → Z → Z → D → Z * D;
  (** the return value and the bytes stored *)
  px_read : Z → nat → D → Z * list Z * D;
  px_write : Z → list Z → D → Z * D;
  px_tcflush : Z → D → D;
  px_tcdrain : Z → D → D;
  px_tcgetattr : Z → D → option tio * D;
  px_tcsetattr : Z → tio → D → bool * D;
  px_cfmakeraw : tio → tio;
  px_cfsetispeed : Z → tio → tio;
  px_cfsetospeed : Z → tio → tio;
  px_c_cflag : tio → Z;
  px_set_c_cflag : Z → tio → tio;
  (** [c_cc[VMIN]] and [c_cc[VTIME]] *)
  px_set_vmin_vtime : Z → Z → tio → tio;
  px_CLOCAL : Z; px_CREAD : Z; px_PARENB : Z; px_CSTOPB : Z; px_CSIZE : Z; px_CS8 : Z; px_CRTSCTS : Z;
  px_B115200 : Z
}.

Class PosixLaws (D tio : Type) `{Posix D tio} := {
  px_sent : D → list Z;                         (** the bytes written so far *)
  px_open_sent f d : px_sent (px_open f d).2 = px_sent d;
  px_close_sent fd d : px_sent (px_close fd d) = px_sent d;
  px_select_sent fd s u d : px_sent (px_select fd s u d).2 = px_sent d;
  px_read_sent fd n d : px_sent (px_read fd n d).2 = px_sent d;
  px_tc_sent fd d : px_sent (px_tcflush fd d) = px_sent d ∧ px_sent (px_tcdrain fd d) = px_sent d ∧
    px_sent (px_tcgetattr fd d).2 = px_sent d;
  px_tcsetattr_sent fd t d : px_sent (px_tcsetattr fd t d).2 = px_sent d;
  px_read_bound fd size d n bs d' : px_read fd size d = (n, bs, d') →
    n <= Z.of_nat size ∧ (0 <= n → Z.of_nat (length bs) = n) ∧ bytes bs;
  px_write_sent fd bs d n d' : px_write fd bs d = (n, d') →
    n <= Z.of_nat (length bs) ∧ px_sent d' = px_sent d ++ take (Z.to_nat n) bs
}.

(** Calls of [write] that write nothing do not go on for ever. *)
Class PosixProgress (D tio : Type) `{Posix D tio} := {
  px_patience : D → nat;
  px_write_patience fd bs d n d' : px_write fd bs d = (n, d') → bs ≠ [] → n <= 0 →
    (px_patience d' < px_patience d)%nat
}.

(** ** The port *)

Module LightSerialPort.
Section port.
Context {D tio : Type} `{Posix D tio}.

Record SerialPort := {
  fd_ : Z;
  device_ : string;
  dev : D
}.

Definition SerialPort_new (d : D) : SerialPort := {| fd_ := -1; device_ := ""; dev := d |}.

Definition with_dev (p : SerialPort) (d : D) : SerialPort :=
  {| fd_ := fd_ p; device_ := device_ p; dev := d |}.

Definition baudToTermios (baud_rate : Z) : option Z :=
  if negb (baud_rate =? 115200) then None else Some px_B115200.

(** The terminal attributes [configure] asks for. *)
Definition raw_8n1 (speed : Z) (tty : tio) : tio :=
  let tty := px_cfsetospeed speed (px_cfsetispeed speed (px_cfmakeraw tty)) in
  let flag := Z.lor (px_c_cflag tty) (Z.lor px_CLOCAL px_CREAD) in
  let flag := Z.land (Z.land (Z.land flag (Z.lnot px_PARENB)) (Z.lnot px_CSTOPB)) (Z.lnot px_CSIZE) in
  let flag := Z.land (Z.lor flag px_CS8) (Z.lnot px_CRTSCTS) in
  px_set_vmin_vtime 0 0 (px_set_c_cflag flag tty).

Definition configure (baud_rate : Z) (p : SerialPort) : bool * SerialPort :=
  match baudToTermios baud_rate with
  | None => (false, p)
  | Some speed =>
      match px_tcgetattr (fd_ p) (dev p) with
      | (None, d) => (false, with_dev p d)
      | (Some tty, d) =>
          let '(ok, d) := px_tcsetattr (fd_ p) (raw_8n1 speed tty) d in (ok, with_dev p d)
      end
  end.

Definition closePort (p : SerialPort) : SerialPort :=
  if 0 <=? fd_ p then {| fd_ := -1; device_ := device_ p; dev := px_close (fd_ p) (dev p) |} else p.

Definition isOpen (p : SerialPort) : bool := 0 <=? fd_ p.

Definition openPort (device : string) (baud_rate : Z) (p : SerialPort) : bool * SerialPort :=
  let p := closePort p in
  let '(fd, d) := px_open device (dev p) in
  if fd <? 0 then (false, {| fd_ := fd; device_ := device_ p; dev := d |})
  else
    let '(ok, p) := configure baud_rate {| fd_ := fd; device_ := device; dev := d |} in
    if negb ok then (false, closePort p)
    else (true, with_dev p (px_tcflush (fd_ p) (dev p))).

(** The return value and the bytes put into the caller's buffer. *)
Definition readBytes (size : nat) (timeout_ms : Z) (p : SerialPort) : Z * list Z * SerialPort :=
  if fd_ p <? 0 then (-1, [], p)
  else
    let '(ready, d) := px_select (fd_ p) (Z.quot timeout_ms 1000) (Z.rem timeout_ms 1000 * 1000) (dev p) in
    if ready <? 0 then
      (match px_errno d with EINTR => 0 | _ => -1 end, [], with_dev p d)
    else if ready =? 0 then (0, [], with_dev p d)
    else
      let '(n, bs, d) := px_read (fd_ p) size d in
      if (n <? 0) && match px_errno d with EAGAIN | EWOULDBLOCK | EINTR => true | _ => false end
      then (0, [], with_dev p d)
      else (n, bs, with_dev p d).

(** The loop of [writeBytes]; [None] is out of fuel. *)
Fixpoint write_loop (fuel : nat) (fd : Z) (bytes : list Z) (total : nat) (d : D) : option (bool * string * D) :=
  match fuel with
  | O => None
  | Datatypes.S fuel =>
      if (total <? length bytes)%nat then
        let '(n, d) := px_write fd (drop total bytes) d in
        if n <? 0 then
          match px_errno d with
          | EINTR | EAGAIN | EWOULDBLOCK => write_loop fuel fd bytes total d
          | e => Some (false, px_strerror e, d)
          end
        else write_loop fuel fd bytes (total + Z.to_nat n) d
      else Some (true, "", d)
  end.

Definition writeBytes (fuel : nat) (bytes : list Z) (p : SerialPort) : option (bool * string * SerialPort) :=
  if fd_ p <? 0 then Some (false, "串口未打开", p)
  else
    match write_loop fuel (fd_ p) bytes 0 (dev p) with
    | None => None
    | Some (false, error, d) => Some (false, error, with_dev p d)
    | Some (true, error, d) => Some (true, error, with_dev p (px_tcdrain (fd_ p) d))
    end.
End port.
End LightSerialPort.
Arguments LightSerialPort.SerialPort D : clear implicits.

(** ** The interface of the port *)

Class LightPort (P : Type) := {
  lp_openPort : string → Z → P → bool * P;
  lp_closePort : P → P;
  lp_isOpen : P → bool;
  lp_readBytes : nat → Z → P → Z * list Z * P;
  lp_writeBytes : nat → list Z → P → option (bool * string * P)
}.

Class LightPortLaws (P : Type) `{LightPort P} := {
  lp_sent : P → list Z;
  lp_openPort_open f b p : lp_isOpen (lp_openPort f b p).2 = (lp_openPort f b p).1;
  lp_closePort_closed p : lp_isOpen (lp_closePort p) = false;
  lp_openPort_sent f b p : lp_sent (lp_openPort f b p).2 = lp_sent p;
  lp_closePort_sent p : lp_sent (lp_closePort p) = lp_sent p;
  lp_readBytes_sent n t p : lp_sent (lp_readBytes n t p).2 = lp_sent p;
  lp_readBytes_open n t p : lp_isOpen (lp_readBytes n t p).2 = lp_isOpen p;
  lp_readBytes_bound size t p n bs p' : lp_readBytes size t p = (n, bs, p') →
    n <= Z.of_nat size ∧ (0 < n → Z.of_nat (length bs) = n) ∧ bytes bs;
  (** success means that all the bytes were sent, failure a part of them *)
  lp_writeBytes_sent fuel bs p ok e p' : lp_writeBytes fuel bs p = Some (ok, e, p') →
    lp_isOpen p' = lp_isOpen p ∧
    ∃ k, lp_sent p' = lp_sent p ++ take k bs ∧ (ok = true → k = length bs)
}.

Section implementation.
Context {D tio : Type} `{PosixLaws D tio}.
Import LightSerialPort.

#[export] Instance LightSerialPort_LightPort : LightPort (SerialPort D) := {|
  lp_openPort := openPort; lp_closePort := closePort; lp_isOpen := isOpen;
  lp_readBytes := readBytes; lp_writeBytes := writeBytes
|}.

Lemma configure_facts b p :
  fd_ (configure b p).2 = fd_ p ∧ px_sent (dev (configure b p).2) = px_sent (dev p).
Proof.
  unfold configure. destruct (baudToTermios b) as [sp|]; [|done].
  destruct (px_tc_sent (fd_ p) (dev p)) as (_ & _ & Hg).
  destruct (px_tcgetattr _ _) as [[t|] d]; cbn in *; [|done].
  pose proof (px_tcsetattr_sent (fd_ p) (raw_8n1 sp t) d) as Hs.
  destruct (px_tcsetattr _ _ _) as [ok d']. cbn in *. by rewrite Hs, Hg.
Qed.

Lemma closePort_facts p : isOpen (closePort p) = false ∧ px_sent (dev (closePort p)) = px_sent (dev p).
Proof.
  unfold closePort, isOpen. destruct (0 <=? fd_ p) eqn:E; [|by rewrite E]. cbn. by rewrite px_close_sent.
Qed.

Lemma openPort_facts f b p :
  isOpen (openPort f b p).2 = (openPort f b p).1 ∧ px_sent (dev (openPort f b p).2) = px_sent (dev p).
Proof.
  unfold openPort. destruct (closePort_facts p) as [_ Hc].
  pose proof (px_open_sent f (dev (closePort p))) as Ho.
  destruct (px_open _ _) as [fd d]. cbn in Ho. destruct (fd <? 0) eqn:Efd.
  { cbn. split; [unfold isOpen; cbn; lia|by rewrite Ho, Hc]. }
  destruct (configure_facts b {| fd_ := fd; device_ := f; dev := d |}) as [Hf Hd].
  destruct (configure b _) as [ok q]. cbn [fst snd fd_ dev] in *.
  destruct ok; cbn [negb].
  - destruct (px_tc_sent (fd_ q) (dev q)) as (Hfl & _ & _). cbn. unfold isOpen. cbn.
    rewrite Hfl, Hd, Ho, Hc. split; [lia|done].
  - destruct (closePort_facts q) as [H1 H2]. cbn. by rewrite H1, H2, Hd, Ho.
Qed.

Lemma readBytes_facts size t p n bs p' :
  readBytes size t p = (n, bs, p') →
  n <= Z.of_nat size ∧ (0 < n → Z.of_nat (length bs) = n) ∧ bytes bs ∧
  isOpen p' = isOpen p ∧ px_sent (dev p') = px_sent (dev p).
Proof.
  unfold readBytes. destruct (fd_ p <? 0); [intros [= <- <- <-]; split_and!; [lia|lia|done..]|].
  pose proof (px_select_sent (fd_ p) (Z.quot t 1000) (Z.rem t 1000 * 1000) (dev p)) as Hs.
  destruct (px_select _ _ _ _) as [ready d]. cbn in Hs.
  destruct (ready <? 0).
  { intros [= <- <- <-]. split_and!; [destruct (px_errno d); lia|destruct (px_errno d); lia|done..]. }
  destruct (ready =? 0); [intros [= <- <- <-]; split_and!; [lia|lia|done..]|].
  pose proof (px_read_sent (fd_ p) size d) as Hr.
  destruct (px_read _ _ _) as [[n1 bs1] d1] eqn:Er. cbn in Hr.
  destruct (px_read_bound _ _ _ _ _ _ Er) as (Hn & Hl & Hb).
  destruct ((n1 <? 0) && _); intros [= <- <- <-]; split_and!; try done; try lia; cbn; by rewrite Hr, Hs.
Qed.

Lemma write_loop_sent fuel fd bs total d ok e d' :
  write_loop fuel fd bs total d = Some (ok, e, d') → (total <= length bs)%nat →
  ∃ k, px_sent d' = px_sent d ++ take k (drop total bs) ∧ (ok = true → k = length (drop total bs)).
Proof.
  revert total d. induction fuel as [|fuel IH]; intros total d; [done|]. cbn [write_loop].
  destruct (total <? length bs)%nat eqn:El.
  2: { intros [= <- <- <-] _. exists 0%nat. rewrite take_0, app_nil_r, length_drop. split; [done|lia]. }
  destruct (px_write fd (drop total bs) d) as [n d1] eqn:Ew. intros Hloop Ht.
  destruct (px_write_sent _ _ _ _ _ Ew) as [Hn Hs].
  destruct (n <? 0) eqn:En.
  - assert (Z.to_nat n = 0%nat) as Hz by lia. rewrite Hz, take_0, app_nil_r in Hs. rewrite <- Hs.
    destruct (px_errno d1); try (apply (IH total d1); [exact Hloop|done]).
    injection Hloop as <- <- <-. exists 0%nat. by rewrite take_0, app_nil_r.
  - rewrite length_drop in Hn.
    destruct (IH (total + Z.to_nat n)%nat d1 Hloop) as (k & Hk & Hok); [lia|].
    exists (Z.to_nat n + k)%nat. rewrite Hk, Hs, <- app_assoc. split.
    + f_equal. rewrite <- drop_drop. by rewrite take_take_drop.
    + intros Ho. rewrite Hok by done. rewrite !length_drop. lia.
Qed.

Lemma writeBytes_facts fuel bs p ok e p' :
  writeBytes fuel bs p = Some (ok, e, p') →
  isOpen p' = isOpen p ∧
  ∃ k, px_sent (dev p') = px_sent (dev p) ++ take k bs ∧ (ok = true → k = length bs).
Proof.
  unfold writeBytes. destruct (fd_ p <? 0).
  { intros [= <- <- <-]. split; [done|]. exists 0%nat. by rewrite take_0, app_nil_r. }
  destruct (write_loop _ _ _ _ _) as [[[ok1 e1] d1]|] eqn:El; [|done].
  destruct (write_loop_sent _ _ _ _ _ _ _ _ El) as (k & Hk & Hok); [lia|].
  rewrite drop_0 in *. destruct (px_tc_sent (fd_ p) d1) as (_ & Hd & _).
  destruct ok1; intros [= <- <- <-]; (split; [done|]); exists k; cbn; by rewrite ?Hd, Hk.
Qed.

#[export] Program Instance LightSerialPort_LightPortLaws : LightPortLaws (SerialPort D) := {|
  lp_sent p := px_sent (dev p)
|}.
Next Obligation. intros. apply openPort_facts. Qed.
Next Obligation. intros. apply closePort_facts. Qed.
Next Obligation. intros. apply openPort_facts. Qed.
Next Obligation. intros. apply closePort_facts. Qed.
Next Obligation. intros n t p. cbn. destruct (readBytes n t p) as [[k bs] p'] eqn:E. by destruct (readBytes_facts _ _ _ _ _ _ E) as (_ & _ & _ & ? & ?). Qed.
Next Obligation. intros n t p. cbn. destruct (readBytes n t p) as [[k bs] p'] eqn:E. by destruct (readBytes_facts _ _ _ _ _ _ E) as (_ & _ & _ & ? & ?). Qed.
Next Obligation. intros size t p n bs p' E. by destruct (readBytes_facts _ _ _ _ _ _ E) as (? & ? & ? & _). Qed.
Next Obligation. intros fuel bs p ok e p' E. by apply writeBytes_facts in E. Qed.

(** The loop ends: every call of [write] that does not advance uses patience. *)
Lemma write_loop_total `{!PosixProgress D tio} fd bs : ∀ total d,
  ∃ fuel r, write_loop fuel fd bs total d = Some r.
Proof.
  enough (Hm : ∀ m total k d, (length bs - total <= m)%nat → (px_patience d < k)%nat →
            ∃ fuel r, write_loop fuel fd bs total d = Some r)
    by (intros; eapply Hm; eauto).
  intros m. induction m as [m IHm] using lt_wf_ind. intros total k. revert total.
  induction k as [|k IHk]; intros total d Hm Hk; [lia|].
  destruct (decide (total < length bs)%nat) as [Hl|Hl].
  2: { exists 1%nat, (true, "", d). cbn [write_loop]. by replace (_ <? _)%nat with false by lia. }
  destruct (px_write fd (drop total bs) d) as [n d1] eqn:Ew.
  assert (Hnext : 0 <= n ∨ match px_errno d1 with errno_other _ => False | _ => True end →
            ∃ fuel r, write_loop fuel fd bs (total + Z.to_nat n) d1 = Some r).
  { intros _. destruct (decide (n <= 0)) as [Hn|Hn].
    - apply IHk; [lia|]. assert (drop total bs ≠ []) as Hne by
        (intros E; apply (f_equal length) in E; rewrite length_drop in E; cbn [length] in E; lia).
      pose proof (px_write_patience _ _ _ _ _ Ew Hne Hn). lia.
    - eapply (IHm (m - 1)%nat); [lia|lia|apply Nat.lt_succ_diag_r]. }
  destruct (decide (n < 0)) as [Hn|Hn].
  - replace (total + Z.to_nat n)%nat with total in Hnext by lia.
    destruct (px_errno d1) eqn:Ee.
    1-3: destruct Hnext as (fuel & r & Hr); [by right|]; exists (Datatypes.S fuel), r; cbn [write_loop];
         replace (_ <? _)%nat with true by lia; rewrite Ew, Ee; by replace (n <? 0) with true by lia.
    exists 1%nat, (false, px_strerror (errno_other n0), d1). cbn [write_loop].
    replace (_ <? _)%nat with true by lia. rewrite Ew, Ee. by replace (n <? 0) with true by lia.
  - destruct Hnext as (fuel & r & Hr); [left; lia|]. exists (Datatypes.S fuel), r. cbn [write_loop].
    replace (_ <? _)%nat with true by lia. rewrite Ew. by replace (n <? 0) with false by lia.
Qed.

(** [writeBytes] returns, however the system cuts the bytes up and however
    often it interrupts or refuses the call, short of refusing for ever.  It reports success exactly with
    all the bytes sent, in order and once; on failure a prefix was sent, with
    the port closed none. *)
Theorem writeBytes_spec `{!PosixProgress D tio} bs p :
  ∃ fuel ok e p' k, writeBytes fuel bs p = Some (ok, e, p') ∧
    px_sent (dev p') = px_sent (dev p) ++ take k bs ∧ (ok = true → k = length bs) ∧
    (isOpen p = false → ok = false ∧ px_sent (dev p') = px_sent (dev p)) ∧ isOpen p' = isOpen p.
Proof.
  assert (Ht : ∃ fuel r, writeBytes fuel bs p = Some r).
  { unfold writeBytes. destruct (fd_ p <? 0); [by eexists 0%nat, _|].
    destruct (write_loop_total (fd_ p) bs 0 (dev p)) as (fuel & [[[] e] d] & Hr);
      exists fuel; rewrite Hr; by eexists. }
  destruct Ht as (fuel & [[ok e] p'] & Hr). exists fuel, ok, e, p'.
  destruct (writeBytes_facts _ _ _ _ _ _ Hr) as (Ho & k & Hk & Hok). exists k. split_and!; try done.
  intros Hc. unfold writeBytes in Hr. unfold isOpen in Hc.
  replace (fd_ p <? 0) with true in Hr by lia. by injection Hr as <- <- <-.
Qed.
End implementation.

(** ** A scripted terminal *)

(** Chunks still to be read, a write count that makes every other call ask for
    a retry, and the bytes sent; a call writes at most three bytes. *)
Record script := { sc_input : list (list Z); sc_busy : bool; sc_sent : list Z }.

#[export] Instance script_Posix : Posix script unit := {|
  px_open _ d := (3, d); px_close _ d := d; px_errno _ := EAGAIN; px_strerror _ := "";
  px_select _ _ _ d := (if (length (sc_input d) =? 0)%nat then 0 else 1, d);
  px_read _ n d :=
    match sc_input d with
    | [] => (0, [], d)
    | c :: cs => let c := map (wrapu 8) (take n c) in
                 (Z.of_nat (length c), c, {| sc_input := cs; sc_busy := sc_busy d; sc_sent := sc_sent d |})
    end;
  px_write _ bs d :=
    if sc_busy d then (-1, {| sc_input := sc_input d; sc_busy := false; sc_sent := sc_sent d |})
    else let w := take 3 bs in
      (Z.of_nat (length w), {| sc_input := sc_input d; sc_busy := true; sc_sent := sc_sent d ++ w |});
  px_tcflush _ d := d; px_tcdrain _ d := d; px_tcgetattr _ d := (Some tt, d); px_tcsetattr _ _ d := (true, d);
  px_cfmakeraw t := t; px_cfsetispeed _ t := t; px_cfsetospeed _ t := t; px_c_cflag _ := 0;
  px_set_c_cflag _ t := t; px_set_vmin_vtime _ _ t := t;
  px_CLOCAL := 0; px_CREAD := 0; px_PARENB := 0; px_CSTOPB := 0; px_CSIZE := 0; px_CS8 := 0;
  px_CRTSCTS := 0; px_B115200 := 13
|}.

#[export] Program Instance script_PosixLaws : PosixLaws script unit := {| px_sent := sc_sent |}.
Solve Obligations with (try (intros; cbn; done)).
Next Obligation. intros fd n d. cbn. by destruct (sc_input d). Qed.
Next Obligation.
  intros fd size d n bs d'. cbn. destruct (sc_input d) as [|c cs]; intros [= <- <- <-].
  - split_and!; [lia|done|constructor].
  - split_and!.
    + rewrite length_map, length_take. lia.
    + done.
    + apply Forall_map, Forall_true. intros x. apply inu_wrapu. lia.
Qed.
Next Obligation.
  intros fd bs d n d'. cbn. destruct (sc_busy d); intros [= <- <-].
  - split; [lia|]. cbn. by rewrite app_nil_r.
  - cbn [sc_sent]. rewrite length_take, Nat2Z.id. split; [lia|].
    f_equal. destruct (decide (3 <= length bs)%nat).
    + by rewrite Nat.min_l by lia.
    + rewrite Nat.min_r, !take_ge by lia. done.
Qed.

#[export] Program Instance script_PosixProgress : PosixProgress script unit := {|
  px_patience d := if sc_busy d then 1%nat else 0%nat
|}.
Next Obligation.
  intros fd bs d n d'. cbn. destruct (sc_busy d); intros [= <- <-] Hne Hn; cbn in *; [lia|].
  destruct bs; [done|]. cbn in Hn. lia.
Qed.

Definition script_port (input : list (list Z)) : LightSerialPort.SerialPort script :=
  LightSerialPort.SerialPort_new {| sc_input := input; sc_busy := true; sc_sent := [] |}.

Lemma writeBytes_spec_witness :
  ∃ fuel p', LightSerialPort.writeBytes fuel [1; 2; 3; 4; 5; 6; 7]
               (LightSerialPort.openPort "/dev/ttyUSB0" 115200 (script_port [])).2 = Some (true, "", p') ∧
    sc_sent (LightSerialPort.dev p') = [1; 2; 3; 4; 5; 6; 7].
Proof.
  destruct (writeBytes_spec [1; 2; 3; 4; 5; 6; 7]
    (LightSerialPort.openPort "/dev/ttyUSB0" 115200 (script_port [])).2)
    as (fuel & ok & e & p' & k & Hr & Hs & Hok & _ & _).
  exists fuel. do 20 (destruct fuel as [|fuel]; [vm_compute in Hr; try discriminate Hr;
    injection Hr as <- <- <-; eexists; split; reflexivity|]).
  vm_compute in Hr. injection Hr as <- <- <-. eexists. split; reflexivity.
Defined.
