(* ===== verification/Searchlight.v ===== *)
(** * The searchlight

    Model of my_light/Searchlight.cpp and Searchlight.h, SearchlightConfig.cpp
    and the forwarding SearchlightManager.cpp: control calls that queue command
    frames, the worker thread that sends them, the read thread that decodes what
    the device reports, and their start and shutdown.

    [now] arguments are readings of the steady clock.  A call is modelled by its
    sections: the readiness check, the frame construction under [build_mutex_]
    and the queueing under [queue_mutex_]; [control] composes them, and
    [sl_step] interleaves the sections of concurrent calls with the two threads
    and a concurrent [shutdown]. *)

From S2P Require Import Prelude Bytes SearchlightProtocol SearchlightState LightSerialPort CondVar.
From stdpp Require Import pretty.

Local Open Scope Z_scope.

(** ** Configuration *)

Module SearchlightConfig.
Record SearchlightInitConfig := {
  driver : string;
  baud_rate : Z;
  print_raw_serial : bool;
  init_wait_ms : Z;
  offline_timeout_ms : Z
}.

Definition SearchlightInitConfig_default : SearchlightInitConfig := {|
  driver := "/dev/ttyUSB0"; baud_rate := 115200; print_raw_serial := false;
  init_wait_ms := 1200; offline_timeout_ms := 2000 |}.

Definition GetConfigStr (c : SearchlightInitConfig) : string :=
  "Driver: " +:+ driver c +:+ ", Baud Rate: " +:+ pretty (baud_rate c) +:+
  ", Print Raw Serial: " +:+ (if print_raw_serial c then "true" else "false") +:+
  ", Init Wait (ms): " +:+ pretty (init_wait_ms c) +:+
  ", Offline Timeout (ms): " +:+ pretty (offline_timeout_ms c).

Definition set_driver (driver_path : string) (c : SearchlightInitConfig) : SearchlightInitConfig := {|
  driver := driver_path; baud_rate := baud_rate c; print_raw_serial := print_raw_serial c;
  init_wait_ms := init_wait_ms c; offline_timeout_ms := offline_timeout_ms c |}.
Definition set_baud_rate (rate : Z) (c : SearchlightInitConfig) : SearchlightInitConfig := {|
  driver := driver c; baud_rate := rate; print_raw_serial := print_raw_serial c;
  init_wait_ms := init_wait_ms c; offline_timeout_ms := offline_timeout_ms c |}.
Definition set_print_raw_serial (print : bool) (c : SearchlightInitConfig) : SearchlightInitConfig := {|
  driver := driver c; baud_rate := baud_rate c; print_raw_serial := print;
  init_wait_ms := init_wait_ms c; offline_timeout_ms := offline_timeout_ms c |}.
Definition set_init_wait_ms (wait_ms : Z) (c : SearchlightInitConfig) : SearchlightInitConfig := {|
  driver := driver c; baud_rate := baud_rate c; print_raw_serial := print_raw_serial c;
  init_wait_ms := wait_ms; offline_timeout_ms := offline_timeout_ms c |}.
Definition set_offline_timeout_ms (timeout_ms : Z) (c : SearchlightInitConfig) : SearchlightInitConfig := {|
  driver := driver c; baud_rate := baud_rate c; print_raw_serial := print_raw_serial c;
  init_wait_ms := init_wait_ms c; offline_timeout_ms := timeout_ms |}.
End SearchlightConfig.
Import SearchlightConfig.

Module Searchlight.

Record LightTask := {
  command : string;
  parameters : list Z
}.

(** The locals of [readSerialLoop] kept from one turn to the next. *)
Record reader := {
  receive_buffer : list Z;
  was_online : bool
}.

Inductive read_thread :=
| Reading (r : reader)
| ReadExited.

(** Where the worker thread is.  [WTop]: at the loop head.  [WWait]: it wants
    [queue_mutex_] to evaluate the predicate of [wait].  [WDeciding]: it holds
    the mutex, the predicate was false, and it is about to block.  [WSending]: it
    has taken a task and released the mutex. *)
Inductive worker :=
| WTop
| WWait
| WDeciding
| WBlocked
| WSending (task : LightTask)
| WExited.

Section searchlight.
Context {P : Type} `{LightPort P}.

(** [read_serial] and [worker_thread] are the joinable threads. *)
Record Searchlight := {
  config_ : SearchlightInitConfig;
  serial_ : P;
  builder_ : Z;                       (** the builder's [frame_counter_] *)
  state_ : SearchlightState;
  running_ : bool;
  task_queue_ : list LightTask;
  read_serial : option read_thread;
  worker_thread : option worker
}.

Definition Searchlight_new (p : P) : Searchlight := {|
  config_ := SearchlightInitConfig_default; serial_ := p; builder_ := 0;
  state_ := SearchlightState_default; running_ := false; task_queue_ := [];
  read_serial := None; worker_thread := None |}.

Definition with_serial (p : P) (s : Searchlight) : Searchlight := {|
  config_ := config_ s; serial_ := p; builder_ := builder_ s; state_ := state_ s;
  running_ := running_ s; task_queue_ := task_queue_ s; read_serial := read_serial s;
  worker_thread := worker_thread s |}.
Definition with_config (c : SearchlightInitConfig) (s : Searchlight) : Searchlight := {|
  config_ := c; serial_ := serial_ s; builder_ := builder_ s; state_ := state_ s;
  running_ := running_ s; task_queue_ := task_queue_ s; read_serial := read_serial s;
  worker_thread := worker_thread s |}.
Definition with_builder (b : Z) (s : Searchlight) : Searchlight := {|
  config_ := config_ s; serial_ := serial_ s; builder_ := b; state_ := state_ s;
  running_ := running_ s; task_queue_ := task_queue_ s; read_serial := read_serial s;
  worker_thread := worker_thread s |}.
Definition with_state (st : SearchlightState) (s : Searchlight) : Searchlight := {|
  config_ := config_ s; serial_ := serial_ s; builder_ := builder_ s; state_ := st;
  running_ := running_ s; task_queue_ := task_queue_ s; read_serial := read_serial s;
  worker_thread := worker_thread s |}.
Definition with_running (b : bool) (s : Searchlight) : Searchlight := {|
  config_ := config_ s; serial_ := serial_ s; builder_ := builder_ s; state_ := state_ s;
  running_ := b; task_queue_ := task_queue_ s; read_serial := read_serial s;
  worker_thread := worker_thread s |}.
Definition with_queue (q : list LightTask) (s : Searchlight) : Searchlight := {|
  config_ := config_ s; serial_ := serial_ s; builder_ := builder_ s; state_ := state_ s;
  running_ := running_ s; task_queue_ := q; read_serial := read_serial s;
  worker_thread := worker_thread s |}.
Definition with_threads (r : option read_thread) (w : option worker) (s : Searchlight) : Searchlight := {|
  config_ := config_ s; serial_ := serial_ s; builder_ := builder_ s; state_ := state_ s;
  running_ := running_ s; task_queue_ := task_queue_ s; read_serial := r; worker_thread := w |}.

(** ** Control calls *)

Definition online (now : Z) (s : Searchlight) : bool * Searchlight :=
  let '(b, st) := isOnline now (offline_timeout_ms (config_ s)) (state_ s) in (b, with_state st s).

Definition ensureControlReady (now : Z) (s : Searchlight) : bool * Searchlight :=
  if negb (lp_isOpen (serial_ s)) then (false, s) else online now s.

(** [notify_one] on the queue's condition variable, on which only the worker
    waits: a blocked worker looks at its predicate again. *)
Definition notify (s : Searchlight) : Searchlight :=
  match worker_thread s with
  | Some WBlocked => with_threads (read_serial s) (Some WWait) s
  | _ => s
  end.

(** [enqueueCommand]'s section under [queue_mutex_]; what follows, up to the
    notification, runs without it. *)
Definition enqueue_push (command : string) (frame : list Z) (s : Searchlight) : Searchlight :=
  with_queue (task_queue_ s ++ [{| command := command; parameters := frame |}]) s.
Definition enqueue_mark (command : string) (s : Searchlight) : Searchlight :=
  with_state (markCommandQueued command (state_ s)) s.

Definition enqueueCommand (command : string) (frame : list Z) (s : Searchlight) : bool * Searchlight :=
  if (length frame =? 0)%nat then (false, s)
  else
    let s := enqueue_push command frame s in
    let s := enqueue_mark command s in
    (true, notify s).

(** The text a control call queues its command under. *)
Definition command_text (c : light_command) : string :=
  match c with
  | OpenLed => "开灯"
  | CloseLed => "关灯"
  | LightLevel level => "设置亮度 " +:+ pretty level
  | OpenFlash => "开启闪烁"
  | CloseFlash => "关闭闪烁"
  | FlashHz hz => "设置闪烁频率 " +:+ pretty hz +:+ "Hz"
  | Home => "伺服回中"
  | MoveTo x y => "伺服移动 x=" +:+ pretty x +:+ ",y=" +:+ pretty y
  end.

(** The section under [build_mutex_]. *)
Definition build_section (c : light_command) (s : Searchlight) : bool * list Z * Searchlight :=
  let '(ok, frame, counter) := build c (builder_ s) in (ok, frame, with_builder counter s).

(** The common shape of the eight control calls. *)
Definition control (c : light_command) (now : Z) (s : Searchlight) : bool * Searchlight :=
  let '(ready, s) := ensureControlReady now s in
  if negb ready then (false, s)
  else
    let '(ok, frame, s) := build_section c s in
    if negb ok then (false, s) else enqueueCommand (command_text c) frame s.

Definition setting_light_level (level : Z) := control (LightLevel level).
Definition setting_flash (hz : Z) := control (FlashHz hz).
Definition open_flash := control OpenFlash.
Definition close_flash := control CloseFlash.
Definition home := control Home.
Definition move_to (x y : Z) := control (MoveTo x y).
Definition open_led := control OpenLed.
Definition close_led := control CloseLed.

Definition get_status (now : Z) (s : Searchlight) : string * Searchlight :=
  let '(_, s) := online now s in (toStatusString (state_ s), s).

(** ** The read thread *)

(** The decoding loop; each decoded frame takes a clock reading.  [None] when
    the readings run out. *)
Fixpoint drain (nows : list Z) (buffer : list Z) (st : SearchlightState) :
    option (list Z * SearchlightState) :=
  match nows with
  | [] => None
  | now :: nows =>
      let '(frame, error, buffer) := tryDecode buffer in
      let st := if decide (error = "") then st else markChecksumError error st in
      match frame with
      | None => Some (buffer, st)
      | Some f => drain nows buffer (markOnlineByFrame now f st)
      end
  end.

(** One turn of [readSerialLoop] while [running_] is true.  The heartbeat
    report is logging. *)
Definition readSerialLoop (nows : list Z) (now : Z) (r : reader) (s : Searchlight) :
    option (reader * Searchlight) :=
  if negb (lp_isOpen (serial_ s)) then
    let '(_, p) := lp_openPort (driver (config_ s)) (baud_rate (config_ s)) (serial_ s) in
    Some ({| receive_buffer := []; was_online := was_online r |}, with_serial p s)
  else
    let '(n, temp, p) := lp_readBytes 256 100 (serial_ s) in
    let s := with_serial p s in
    if n <? 0 then
      let s := with_state (markNoDevice "串口 I/O 错误，设备已断开" (state_ s)) s in
      Some ({| receive_buffer := []; was_online := false |}, with_serial (lp_closePort (serial_ s)) s)
    else
      let drained :=
        if 0 <? n then drain nows (receive_buffer r ++ temp) (state_ s)
        else Some (receive_buffer r, state_ s) in
      match drained with
      | None => None
      | Some (buffer, st) =>
          let '(now_online, s) := online now (with_state st s) in
          Some ({| receive_buffer := buffer; was_online := now_online |}, s)
      end.

(** ** The worker thread *)

(** The loop head [while (running_.load())]. *)
Definition worker_head (s : Searchlight) : worker := if running_ s then WWait else WExited.

(** The worker's section under [queue_mutex_]: the predicate, and with it true
    the rest of the section. *)
Definition worker_section (s : Searchlight) : worker * Searchlight :=
  match task_queue_ s with
  | [] => if running_ s then (WDeciding, s) else (WExited, s)
  | task :: rest => (WSending task, with_queue rest s)
  end.

Definition worker_send (fuel : nat) (task : LightTask) (s : Searchlight) : option (bool * Searchlight) :=
  match lp_writeBytes fuel (parameters task) (serial_ s) with
  | None => None
  | Some (ok, error, p) =>
      let s := with_serial p s in
      Some (ok, with_state (if ok then markCommandSent (command task) (state_ s)
                            else markCommandFailed (command task) error (state_ s)) s)
  end.

(** ** Start and shutdown *)

(** [start], up to [waitInitialDeviceFrame].  [None] is [std::terminate]: the
    assignment to a thread that is still joinable. *)
Definition start_threads (s : Searchlight) : option Searchlight :=
  let s := with_running true s in
  match read_serial s, worker_thread s with
  | None, None => Some (with_threads (Some (Reading {| receive_buffer := []; was_online := false |}))
                          (Some WTop) s)
  | _, _ => None
  end.

(** One test of [waitInitialDeviceFrame]'s loop at [waited_ms]: [None] when the
    loop goes on after a sleep, otherwise it returns. *)
Definition waitInitialDeviceFrame (now waited_ms : Z) (s : Searchlight) : option unit * Searchlight :=
  if waited_ms <? init_wait_ms (config_ s) then
    let '(b, s) := online now s in (if b then Some tt else None, s)
  else (Some tt, with_state (markNoDevice "初始化等待超时，未读到有效串口帧" (state_ s)) s).

(** [shutdown] up to its early return: [true] when it goes on. *)
Definition shutdown_enter (s : Searchlight) : bool * Searchlight :=
  let was_running := running_ s in
  let s := with_running false s in
  (was_running || lp_isOpen (serial_ s), s).

Definition shutdown_notify (s : Searchlight) : Searchlight := notify s.
Definition shutdown_clear (s : Searchlight) : Searchlight := with_queue [] s.
Definition shutdown_close (s : Searchlight) : Searchlight := with_serial (lp_closePort (serial_ s)) s.

(** [initialize] after its call of [shutdown]. *)
Definition initialize (config : SearchlightInitConfig) (s : Searchlight) : Searchlight :=
  let s := with_config config s in
  if negb (baud_rate (config_ s) =? 115200) then
    with_state (markNoDevice "波特率非法，探照灯协议固定为 115200bps" (state_ s)) s
  else
    let '(ok, p) := lp_openPort (driver (config_ s)) (baud_rate (config_ s)) (serial_ s) in
    let s := with_serial p s in
    if negb ok then with_state (markNoDevice "串口打开失败，设备不存在或权限不足" (state_ s)) s
    else s.

(** ** All the threads together *)

(** Where the thread that initialises, starts and shuts down is; [k] is the
    configuration to go on with when [shutdown] was called by [initialize]. *)
Inductive phase :=
| LIdle
| LWaiting (waited_ms : Z)
| LNotify (k : option SearchlightInitConfig)
| LJoinRead (k : option SearchlightInitConfig)
| LJoinWorker (k : option SearchlightInitConfig)
| LClear (k : option SearchlightInitConfig)
| LClose (k : option SearchlightInitConfig).

(** A control call between its sections. *)
Inductive call :=
| Ready (c : light_command)
| Built (c : light_command) (frame : list Z)
| Pushed (c : light_command)
| Marked.

(** What became of a queued command. *)
Inductive fate := Sent | Failed | Discarded.

(** [accepted]: the commands queued so far; [gone]: those that left the queue
    for good, with their fate. *)
Record system := {
  sl : Searchlight;
  life : phase;
  calls : list call;
  accepted : list LightTask;
  gone : list (LightTask * fate)
}.

Definition with_sl (s : Searchlight) (y : system) : system :=
  {| sl := s; life := life y; calls := calls y; accepted := accepted y; gone := gone y |}.
Definition with_life (l : phase) (y : system) : system :=
  {| sl := sl y; life := l; calls := calls y; accepted := accepted y; gone := gone y |}.
Definition with_calls (cs : list call) (y : system) : system :=
  {| sl := sl y; life := life y; calls := cs; accepted := accepted y; gone := gone y |}.

Definition system_new (p : P) : system :=
  {| sl := Searchlight_new p; life := LIdle; calls := []; accepted := []; gone := [] |}.

(** After [shutdown] returns. *)
Definition after_shutdown (k : option SearchlightInitConfig) (s : Searchlight) : Searchlight :=
  match k with Some config => initialize config s | None => s end.

Definition set_worker (w : worker) (s : Searchlight) : Searchlight :=
  with_threads (read_serial s) (Some w) s.
Definition set_reader (r : read_thread) (s : Searchlight) : Searchlight :=
  with_threads (Some r) (worker_thread s) s.

(** [spurious] allows wake-ups without a notification. *)
Inductive sl_step (spurious : bool) : system → system → Prop :=
(** the thread that starts and stops *)
| sl_start y s : life y = LIdle → start_threads (sl y) = Some s →
    sl_step spurious y (with_life (LWaiting 0) (with_sl s y))
| sl_wait y now w r s : life y = LWaiting w → waitInitialDeviceFrame now w (sl y) = (r, s) →
    sl_step spurious y (with_life (match r with Some _ => LIdle | None => LWaiting (w + 50) end) (with_sl s y))
| sl_shutdown_skip y k s : life y = LIdle → shutdown_enter (sl y) = (false, s) →
    sl_step spurious y (with_sl (after_shutdown k s) y)
| sl_shutdown y k s : life y = LIdle → shutdown_enter (sl y) = (true, s) →
    sl_step spurious y (with_life (LNotify k) (with_sl s y))
| sl_notify y k : life y = LNotify k →
    sl_step spurious y (with_life (LJoinRead k) (with_sl (shutdown_notify (sl y)) y))
| sl_join_read y k : life y = LJoinRead k →
    (read_serial (sl y) = None ∨ read_serial (sl y) = Some ReadExited) →
    sl_step spurious y (with_life (LJoinWorker k)
      (with_sl (with_threads None (worker_thread (sl y)) (sl y)) y))
| sl_join_worker y k : life y = LJoinWorker k →
    (worker_thread (sl y) = None ∨ worker_thread (sl y) = Some WExited) →
    sl_step spurious y (with_life (LClear k)
      (with_sl (with_threads (read_serial (sl y)) None (sl y)) y))
| sl_clear y k : life y = LClear k →
    sl_step spurious y
      {| sl := shutdown_clear (sl y); life := LClose k; calls := calls y; accepted := accepted y;
         gone := gone y ++ map (λ t, (t, Discarded)) (task_queue_ (sl y)) |}
| sl_close y k : life y = LClose k →
    sl_step spurious y (with_life LIdle (with_sl (after_shutdown k (shutdown_close (sl y))) y))
(** the read thread *)
| sl_read y nows now r r' s : read_serial (sl y) = Some (Reading r) → running_ (sl y) = true →
    readSerialLoop nows now r (sl y) = Some (r', s) →
    sl_step spurious y (with_sl (set_reader (Reading r') s) y)
| sl_read_exit y r : read_serial (sl y) = Some (Reading r) → running_ (sl y) = false →
    sl_step spurious y (with_sl (set_reader ReadExited (sl y)) y)
(** the worker thread *)
| sl_worker_head y : worker_thread (sl y) = Some WTop →
    sl_step spurious y (with_sl (set_worker (worker_head (sl y)) (sl y)) y)
| sl_worker_section y w s : worker_thread (sl y) = Some WWait → worker_section (sl y) = (w, s) →
    sl_step spurious y (with_sl (set_worker w s) y)
| sl_worker_block y : worker_thread (sl y) = Some WDeciding →
    sl_step spurious y (with_sl (set_worker WBlocked (sl y)) y)
| sl_worker_spurious y : worker_thread (sl y) = Some WBlocked → spurious = true →
    sl_step spurious y (with_sl (set_worker WWait (sl y)) y)
| sl_worker_send y fuel task ok s : worker_thread (sl y) = Some (WSending task) →
    worker_send fuel task (sl y) = Some (ok, s) →
    sl_step spurious y
      {| sl := set_worker WTop s; life := life y; calls := calls y; accepted := accepted y;
         gone := gone y ++ [(task, if ok : bool then Sent else Failed)] |}
(** control calls *)
| sl_ready y c now ok s : ensureControlReady now (sl y) = (ok, s) →
    sl_step spurious y (with_calls (if ok : bool then calls y ++ [Ready c] else calls y) (with_sl s y))
| sl_build y i c ok frame s : calls y !! i = Some (Ready c) → build_section c (sl y) = (ok, frame, s) →
    sl_step spurious y (with_calls (if ok : bool then <[i := Built c frame]> (calls y) else delete i (calls y))
                          (with_sl s y))
| sl_enqueue_empty y i c : calls y !! i = Some (Built c []) →
    sl_step spurious y (with_calls (delete i (calls y)) y)
| sl_push y i c frame : calls y !! i = Some (Built c frame) → frame ≠ [] → worker_thread (sl y) ≠ Some WDeciding →
    sl_step spurious y
      {| sl := enqueue_push (command_text c) frame (sl y); life := life y; calls := <[i := Pushed c]> (calls y);
         accepted := accepted y ++ [{| command := command_text c; parameters := frame |}]; gone := gone y |}
| sl_mark y i c : calls y !! i = Some (Pushed c) →
    sl_step spurious y (with_calls (<[i := Marked]> (calls y)) (with_sl (enqueue_mark (command_text c) (sl y)) y))
| sl_enqueue_notify y i : calls y !! i = Some Marked →
    sl_step spurious y (with_calls (delete i (calls y)) (with_sl (notify (sl y)) y))
| sl_status y now text s : get_status now (sl y) = (text, s) →
    sl_step spurious y (with_sl s y).

(** ** Invariant *)

Context `{!LightPortLaws P}.

(** What most sections leave alone. *)
Definition quiet (s s' : Searchlight) : Prop :=
  builder_ s' = builder_ s ∧ running_ s' = running_ s ∧ task_queue_ s' = task_queue_ s ∧
  read_serial s' = read_serial s ∧ worker_thread s' = worker_thread s ∧
  lp_sent (serial_ s') = lp_sent (serial_ s).

#[local] Instance quiet_preorder : PreOrder quiet.
Proof. unfold quiet. split; [done|]. intros s1 s2 s3 (?&?&?&?&?&?) (?&?&?&?&?&?). split_and!; congruence. Qed.

Lemma online_quiet now s : quiet s (online now s).2.
Proof. unfold online. by destruct (isOnline _ _ _). Qed.

Lemma ensureControlReady_quiet now s : quiet s (ensureControlReady now s).2.
Proof. unfold ensureControlReady. destruct (negb _); [done|]. apply online_quiet. Qed.

Lemma get_status_quiet now s : quiet s (get_status now s).2.
Proof. unfold get_status. pose proof (online_quiet now s). by destruct (online now s). Qed.

Lemma waitInitialDeviceFrame_quiet now w s : quiet s (waitInitialDeviceFrame now w s).2.
Proof.
  unfold waitInitialDeviceFrame. destruct (w <? _); [|done].
  pose proof (online_quiet now s). by destruct (online now s) as [[] ?].
Qed.

Lemma readSerialLoop_quiet nows now r s r' s' :
  readSerialLoop nows now r s = Some (r', s') → quiet s s'.
Proof.
  unfold readSerialLoop. destruct (negb _).
  { pose proof (lp_openPort_sent (driver (config_ s)) (baud_rate (config_ s)) (serial_ s)) as Ho.
    destruct (lp_openPort _ _ _) as [ok p]. intros [= <- <-]. by split_and!. }
  pose proof (lp_readBytes_sent 256 100 (serial_ s)) as Hr.
  destruct (lp_readBytes _ _ _) as [[n temp] p]. cbn in Hr. destruct (n <? 0).
  { intros [= <- <-]. split_and!; try done. cbn. by rewrite lp_closePort_sent. }
  destruct (if 0 <? n then _ else _) as [[buf st]|]; [|done].
  pose proof (online_quiet now (with_state st (with_serial p s))) as Hq.
  destruct (online _ _) as [b s1]. intros [= <- <-]. etransitivity; [|exact Hq]. by split_and!.
Qed.

Lemma initialize_quiet c s : quiet s (initialize c s).
Proof.
  unfold initialize. destruct (negb _); [done|].
  pose proof (lp_openPort_sent (driver c) (baud_rate c) (serial_ s)) as Ho. cbn.
  destruct (lp_openPort _ _ _) as [ok p]. cbn in Ho. by destruct ok; split_and!.
Qed.

Lemma after_shutdown_quiet k s : quiet s (after_shutdown k s).
Proof. destruct k; [apply initialize_quiet|done]. Qed.

Lemma shutdown_close_quiet s : quiet s (shutdown_close s).
Proof. split_and!; try done. apply lp_closePort_sent. Qed.

Definition in_hand (w : option worker) : list LightTask :=
  match w with Some (WSending t) => [t] | _ => [] end.

(** A queued command: the frame of an allowed command with some counter. *)
Definition genuine (t : LightTask) : Prop :=
  ∃ c n, allowed c ∧ 0 <= n < 4 ∧
    t = {| command := command_text c; parameters := encode kCmdId (command_payload c) n |}.

Definition call_ok (c : call) : Prop :=
  match c with
  | Ready _ => True
  | Built c frame => genuine {| command := command_text c; parameters := frame |}
  | Pushed _ | Marked => True
  end.

(** A call that has queued its command and not notified yet. *)
Definition notifying (c : call) : Prop := match c with Pushed _ | Marked => True | _ => False end.

(** The bytes a task put on the wire. *)
Definition piece_ok (piece : list Z) (g : LightTask * fate) : Prop :=
  match g.2 with
  | Sent => piece = parameters g.1
  | Failed => ∃ k, piece = take k (parameters g.1)
  | Discarded => piece = []
  end.

Definition live (r : option read_thread) (w : option worker) : Prop :=
  match r, w with
  | Some (Reading _), Some w => w ≠ WExited
  | _, _ => False
  end.

(** Which threads there are in each phase. *)
Definition threads_phase (l : phase) (run : bool) (r : option read_thread) (w : option worker) : Prop :=
  match l with
  | LIdle => if run then live r w else r = None ∧ w = None
  | LWaiting _ => run = true ∧ live r w
  | LNotify _ | LJoinRead _ => run = false
  | LJoinWorker _ => run = false ∧ r = None
  | LClear _ | LClose _ => run = false ∧ r = None ∧ w = None
  end.

Definition threads_ok (y : system) : Prop :=
  threads_phase (life y) (running_ (sl y)) (read_serial (sl y)) (worker_thread (sl y)).

Lemma threads_phase_worker l run r w w' :
  threads_phase l run r (Some w) → (w' = WExited → run = false) → threads_phase l run r (Some w').
Proof. destruct l, run, r as [[]|]; cbn; intuition congruence. Qed.

Lemma threads_phase_reader l run r r' w :
  threads_phase l run (Some r) w → (r' = ReadExited → run = false) → threads_phase l run (Some r') w.
Proof. destruct l, run, r, r', w; cbn; intuition congruence. Qed.

(** A worker about to block finds the queue empty; over a blocked one a command
    waits only while the call that queued it has still to notify. *)
Definition awake (w : option worker) (q : list LightTask) (cs : list call) : Prop :=
  match w with
  | Some WDeciding => q = []
  | Some WBlocked => q = [] ∨ Exists notifying cs
  | _ => True
  end.

Record sl_inv (p0 : P) (y : system) : Prop := {
  inv_flow : accepted y = map fst (gone y) ++ in_hand (worker_thread (sl y)) ++ task_queue_ (sl y);
  inv_genuine : Forall genuine (accepted y);
  inv_calls : Forall call_ok (calls y);
  inv_builder : 0 <= builder_ (sl y) < 4;
  inv_sent : ∃ pieces, lp_sent (serial_ (sl y)) = lp_sent p0 ++ concat pieces ∧
               Forall2 piece_ok pieces (gone y);
  inv_awake : awake (worker_thread (sl y)) (task_queue_ (sl y)) (calls y);
  inv_threads : threads_ok y
}.

Lemma sl_inv_new p0 : sl_inv p0 (system_new p0).
Proof.
  split; try done. exists []. cbn. by rewrite app_nil_r.
Qed.

Lemma threads_ok_quiet y s : quiet (sl y) s → threads_ok (with_sl s y) ↔ threads_ok y.
Proof.
  intros (_ & Hr & _ & Ht & Hw & _). unfold threads_ok. cbn. by rewrite Hr, Ht, Hw.
Qed.

(** A step that is quiet on the searchlight and moves neither task nor call. *)
Lemma sl_inv_quiet p0 y s l : quiet (sl y) s → sl_inv p0 y →
  (threads_ok y → threads_ok (with_life l y)) → sl_inv p0 (with_life l (with_sl s y)).
Proof.
  intros Hq [? ? ? ? ? ? Ht] Hl. apply Hl in Ht.
  change (with_life l (with_sl s y)) with (with_sl s (with_life l y)).
  split; cbn; try done; try (by apply threads_ok_quiet);
    destruct Hq as (Hb & _ & Hqq & _ & Hw & Hs); by rewrite ?Hb, ?Hqq, ?Hw, ?Hs.
Qed.

Lemma sl_inv_sl p0 y s : quiet (sl y) s → sl_inv p0 y → sl_inv p0 (with_sl s y).
Proof. intros Hq Hi. change (with_sl s y) with (with_life (life y) (with_sl s y)). by apply sl_inv_quiet. Qed.

(** The worker moves without a task: to a place other than [WSending]. *)
Lemma sl_inv_worker p0 y w w' : sl_inv p0 y →
  worker_thread (sl y) = Some w → in_hand (Some w) = [] → in_hand (Some w') = [] →
  (w' = WExited → running_ (sl y) = false) → awake (Some w') (task_queue_ (sl y)) (calls y) →
  sl_inv p0 (with_sl (set_worker w' (sl y)) y).
Proof.
  intros [Hf ? ? ? ? ? Ht] Hw Hh Hh' He Hs. rewrite Hw, Hh in Hf.
  split; try done; [by cbn -[in_hand]; rewrite Hh'|].
  unfold threads_ok in *. rewrite Hw in Ht. by eapply threads_phase_worker.
Qed.

Lemma start_threads_spec s :
  start_threads s =
    match read_serial s, worker_thread s with
    | None, None => Some (with_threads (Some (Reading {| receive_buffer := []; was_online := false |}))
                            (Some WTop) (with_running true s))
    | _, _ => None
    end.
Proof. done. Qed.

Lemma shutdown_enter_spec s :
  shutdown_enter s = (running_ s || lp_isOpen (serial_ s), with_running false s).
Proof. done. Qed.

Lemma build_genuine c n frame n' : 0 <= n < 4 → build c n = (true, frame, n') →
  genuine {| command := command_text c; parameters := frame |} ∧ 0 <= n' < 4 ∧ frame ≠ [].
Proof.
  intros Hn. rewrite build_spec by lia. destruct (decide _) as [Ha|]; [|done].
  intros [= <- <-]. split_and!.
  - by exists c, n.
  - apply Z.mod_pos_bound. lia.
  - apply Z.mod_pos_bound. lia.
  - rewrite encode_light_frame by (try apply command_payload_length; lia). done.
Qed.

Lemma build_rejected c n frame n' : 0 <= n < 4 → build c n = (false, frame, n') → n' = n.
Proof. intros Hn. rewrite build_spec by lia. destruct (decide _); [done|]. by intros [= <- <-]. Qed.

Lemma notify_cases s :
  (worker_thread s = Some WBlocked ∧ notify s = set_worker WWait s) ∨
  (worker_thread s ≠ Some WBlocked ∧ notify s = s).
Proof.
  unfold notify, set_worker. destruct (worker_thread s) as [[]|]; (by left) || (right; split; [done|done]).
Qed.

Lemma sl_inv_notify p0 y : sl_inv p0 y → sl_inv p0 (with_sl (notify (sl y)) y).
Proof.
  intros Hi. destruct (notify_cases (sl y)) as [[Hw ->]|[_ ->]].
  - by eapply sl_inv_worker.
  - by apply (sl_inv_sl p0 y (sl y)).
Qed.

(** A call moves on, or ends, over a worker that it leaves awake. *)
Lemma sl_inv_calls p0 y cs : sl_inv p0 y → Forall call_ok cs →
  awake (worker_thread (sl y)) (task_queue_ (sl y)) cs → sl_inv p0 (with_calls cs y).
Proof. intros []. by split. Qed.

Lemma awake_calls w q cs cs' : (Exists notifying cs → Exists notifying cs') → awake w q cs → awake w q cs'.
Proof. destruct w as [[]|]; cbn; naive_solver. Qed.

Lemma notifying_lookup cs : Exists notifying cs ↔ ∃ c i, cs !! i = Some c ∧ notifying c.
Proof.
  rewrite Exists_exists. split.
  - intros (c & [i Hi]%list_elem_of_lookup & Hn). by exists c, i.
  - intros (c & i & Hi & Hn). exists c. split; [by eapply list_elem_of_lookup_2|done].
Qed.

(** A call without a notification to give leaves, another takes its place. *)
Lemma notifying_insert cs i c c' :
  cs !! i = Some c → (notifying c → notifying c') → Exists notifying cs → Exists notifying (<[i := c']> cs).
Proof.
  rewrite !notifying_lookup. intros Hi Hc (x & j & Hj & Hx). destruct (decide (i = j)) as [->|Hne].
  - exists c', j. rewrite list_lookup_insert_eq; [|by eapply lookup_lt_Some]. split; [done|]. apply Hc. congruence.
  - exists x, j. by rewrite list_lookup_insert_ne.
Qed.

Lemma notifying_delete cs i c :
  cs !! i = Some c → ¬ notifying c → Exists notifying cs → Exists notifying (delete i cs).
Proof.
  intros Hi Hc He. rewrite <- (take_drop_middle _ _ _ Hi), Exists_app, Exists_cons in He.
  rewrite delete_take_drop, Exists_app. tauto.
Qed.

(** A command joins the queue; the mutex is free, so that the worker is not
    about to block. *)
Lemma sl_inv_push p0 y i c frame : sl_inv p0 y →
  calls y !! i = Some (Built c frame) → worker_thread (sl y) ≠ Some WDeciding →
  sl_inv p0 {| sl := enqueue_push (command_text c) frame (sl y); life := life y; calls := <[i := Pushed c]> (calls y);
               accepted := accepted y ++ [{| command := command_text c; parameters := frame |}];
               gone := gone y |}.
Proof.
  intros [Hf Hge Hcs Hb Hse Hs Ht] Hc Hd.
  pose proof (proj1 (Forall_lookup _ _) Hcs _ _ Hc) as Hg. cbn in Hg. split; try done; cbn.
  - by rewrite Hf, <- !app_assoc.
  - by apply Forall_app; split; [|constructor].
  - by apply Forall_insert.
  - destruct (worker_thread (sl y)) as [[]|]; try done. right. apply notifying_lookup.
    exists (Pushed c), i. by rewrite list_lookup_insert_eq by (by eapply lookup_lt_Some).
Qed.

(** The worker takes the first task, or finds none. *)
Lemma sl_inv_section p0 y w s : sl_inv p0 y → worker_thread (sl y) = Some WWait →
  worker_section (sl y) = (w, s) → sl_inv p0 (with_sl (set_worker w s) y).
Proof.
  intros Hi Hw. unfold worker_section. destruct (task_queue_ (sl y)) as [|t q] eqn:Hq.
  - destruct (running_ (sl y)) eqn:Hr; intros [= <- <-]; by eapply sl_inv_worker.
  - intros [= <- <-]. destruct Hi as [Hf ? ? ? ? ? Ht]. split; try done.
    + cbn. by rewrite Hf, Hw, Hq.
    + unfold threads_ok in *. rewrite Hw in Ht. by eapply threads_phase_worker.
Qed.

Lemma sl_inv_send p0 y fuel task ok s : sl_inv p0 y → worker_thread (sl y) = Some (WSending task) →
  worker_send fuel task (sl y) = Some (ok, s) →
  sl_inv p0 {| sl := set_worker WTop s; life := life y; calls := calls y; accepted := accepted y;
               gone := gone y ++ [(task, if ok then Sent else Failed)] |}.
Proof.
  intros [Hf ? ? ? (pieces & Hp & Hps) ? Ht] Hw. unfold worker_send.
  destruct (lp_writeBytes _ _ _) as [[[ok1 e] p]|] eqn:Ewr; [|done]. intros [= -> <-].
  destruct (lp_writeBytes_sent _ _ _ _ _ _ Ewr) as (_ & k & Hk & Hok).
  rewrite Hw in Hf. split; try done; cbn.
  - by rewrite Hf, map_app, <- app_assoc.
  - exists (pieces ++ [take k (parameters task)]). split.
    + by rewrite Hk, Hp, concat_app, <- app_assoc; cbn; rewrite app_nil_r.
    + apply Forall2_app; [done|]. constructor; [|done]. unfold piece_ok. cbn. destruct ok; [|by exists k].
      by rewrite Hok, take_ge by done.
  - unfold threads_ok in *. rewrite Hw in Ht. by eapply threads_phase_worker.
Qed.

Lemma sl_inv_clear p0 y k : sl_inv p0 y → life y = LClear k →
  sl_inv p0 {| sl := shutdown_clear (sl y); life := LClose k; calls := calls y; accepted := accepted y;
               gone := gone y ++ map (λ t, (t, Discarded)) (task_queue_ (sl y)) |}.
Proof.
  intros [Hf ? ? ? (pieces & Hp & Hps) ? Ht] Hl. unfold threads_ok in Ht. rewrite Hl in Ht.
  destruct Ht as (Hr & Hrd & Hw). rewrite Hw in Hf. split; try done; cbn.
  - rewrite Hw, map_app, map_map, map_id, app_nil_r. exact Hf.
  - exists (pieces ++ map (λ _, []) (task_queue_ (sl y))). split.
    + rewrite Hp, concat_app.
      assert (Hn : ∀ l : list LightTask, concat (map (λ _, @nil Z) l) = []) by (by induction l).
      by rewrite Hn, app_nil_r.
    + apply Forall2_app; [done|]. clear.
      induction (task_queue_ (sl y)); cbn [map]; by constructor.
  - by rewrite Hw.
Qed.

Lemma sl_inv_build p0 y i c ok frame s : sl_inv p0 y → calls y !! i = Some (Ready c) →
  build_section c (sl y) = (ok, frame, s) →
  sl_inv p0 (with_calls (if ok then <[i := Built c frame]> (calls y) else delete i (calls y)) (with_sl s y)).
Proof.
  intros Hi Hc. unfold build_section. destruct (build c (builder_ (sl y))) as [[ok1 f1] n'] eqn:Eb.
  intros [= -> -> <-]. destruct Hi as [? ? Hcs Hb ? Ha ?]. destruct ok.
  - destruct (build_genuine c _ _ _ Hb Eb) as (Hg & Hn & _). split; try done; [by apply Forall_insert|].
    refine (awake_calls _ _ _ _ _ Ha). by apply (notifying_insert _ _ _ _ Hc).
  - apply build_rejected in Eb as ->; [|done]. split; try done; [by apply Forall_delete|].
    refine (awake_calls _ _ _ _ _ Ha). apply (notifying_delete _ _ _ Hc). by intros [].
Qed.

Lemma sl_inv_step p0 spurious y y' : sl_inv p0 y → sl_step spurious y y' → sl_inv p0 y'.
Proof.
  intros Hi Hstep. pose proof (inv_threads _ _ Hi) as Ht. unfold threads_ok in Ht.
  destruct Hstep as [y s Hl Hs|y now w r s Hl Hs|y k s Hl Hs|y k s Hl Hs|y k Hl|y k Hl Hr|y k Hl Hw
    |y k Hl|y k Hl|y nows now r r' s Hr Hrun Hs|y r Hr Hrun|y Hw|y w s Hw Hs|y Hw|y Hw _
    |y fuel task ok s Hw Hs|y c now ok s Hs|y i c ok frame s Hc Hs|y i c Hc|y i c frame Hc Hne Hw|y i c Hc|y i Hc|y now text s Hs];
    try rewrite Hl in Ht; cbn in Ht.
  - rewrite start_threads_spec in Hs. destruct (read_serial (sl y)) eqn:Er; [done|].
    destruct (worker_thread (sl y)) eqn:Ew; [done|]. injection Hs as <-.
    destruct Hi as [Hf ? ? ? ? ? ?]. rewrite Ew in Hf. by split.
  - pose proof (waitInitialDeviceFrame_quiet now w (sl y)) as Hq. rewrite Hs in Hq.
    apply sl_inv_quiet; [done..|]. intros _. unfold threads_ok. destruct Ht as [Hrun Ht].
    by destruct r; cbn; rewrite Hrun.
  - rewrite shutdown_enter_spec in Hs. injection Hs as Hs <-. apply orb_false_elim in Hs as [Hrun _].
    apply sl_inv_sl; [|done]. etransitivity; [|apply after_shutdown_quiet]. by split_and!.
  - rewrite shutdown_enter_spec in Hs. injection Hs as Hs <-. destruct Hi. by split.
  - apply (sl_inv_notify _ _) in Hi. unfold shutdown_notify. destruct Hi as [? ? ? ? ? ? Hti]. split; try done.
    unfold threads_ok in *. cbn in *. by rewrite Hl in Hti.
  - destruct Hi. by split.
  - assert (Hh : in_hand (worker_thread (sl y)) = []) by (by destruct Hw as [-> | ->]).
    destruct Hi as [Hf ? ? ? ? ? ?]. rewrite Hh in Hf. split; try done.
    by destruct Ht.
  - by apply sl_inv_clear.
  - apply sl_inv_quiet; [|done|].
    + etransitivity; [|apply after_shutdown_quiet]. apply shutdown_close_quiet.
    + intros _. unfold threads_ok. cbn. by destruct Ht as (-> & -> & ->).
  - pose proof (sl_inv_sl _ _ _ (readSerialLoop_quiet _ _ _ _ _ _ Hs) Hi) as Hi'.
    destruct (readSerialLoop_quiet _ _ _ _ _ _ Hs) as (_ & Hrun' & _ & Hr' & _).
    destruct Hi' as [? ? ? ? ? ? Ht']. split; try done. unfold threads_ok in *. cbn in *.
    rewrite Hr', Hr in Ht'. by eapply threads_phase_reader.
  - destruct Hi. split; try done. unfold threads_ok in *. rewrite Hr in Ht. by eapply threads_phase_reader.
  - eapply sl_inv_worker; try done; unfold worker_head; by destruct (running_ (sl y)).
  - by eapply sl_inv_section.
  - eapply sl_inv_worker; try done. left. pose proof (inv_awake _ _ Hi) as Ha. by rewrite Hw in Ha.
  - by eapply sl_inv_worker.
  - by eapply sl_inv_send.
  - pose proof (ensureControlReady_quiet now (sl y)) as Hq. rewrite Hs in Hq.
    pose proof (sl_inv_sl _ _ _ Hq Hi) as Hi'. destruct ok; [|by destruct Hi'].
    apply sl_inv_calls; [done|by apply Forall_app; split; [apply Hi|constructor]|].
    eapply awake_calls; [|apply Hi']. rewrite Exists_app. by left.
  - by apply sl_inv_build.
  - apply sl_inv_calls; [done|apply Forall_delete, Hi|].
    eapply awake_calls; [|apply Hi]. apply (notifying_delete _ _ _ Hc). by intros [].
  - by apply sl_inv_push.
  - assert (Hi' : sl_inv p0 (with_sl (enqueue_mark (command_text c) (sl y)) y)) by (by apply sl_inv_sl).
    apply (sl_inv_calls _ _ _ Hi'); [by apply Forall_insert; [apply Hi|]|].
    eapply awake_calls; [|apply Hi']. by apply (notifying_insert _ _ _ _ Hc).
  - apply (sl_inv_calls _ _ _ (sl_inv_notify _ _ Hi)); [apply Forall_delete, Hi|]. cbn [sl with_sl].
    destruct (notify_cases (sl y)) as [[_ ->]|[Hw ->]]; [done|].
    pose proof (inv_awake _ _ Hi) as Ha. by destruct (worker_thread (sl y)) as [[]|].
  - pose proof (get_status_quiet now (sl y)) as Hq. rewrite Hs in Hq. by apply sl_inv_sl.
Qed.

Lemma sl_inv_reachable p0 spurious y : rtc (sl_step spurious) (system_new p0) y → sl_inv p0 y.
Proof.
  intros Hr. pattern y. eapply rtc_ind_r; [apply sl_inv_new| |exact Hr].
  intros y1 y2 _ Hs Hi. by eapply sl_inv_step.
Qed.

(** C7: commands, over every interleaving of control calls, the two threads and
    any sequence of initialise, start and shutdown.  Each accepted command is a
    frame of an allowed command; it leaves the queue once and in the order of
    acceptance, sent, failed or discarded by a shutdown, and what is not gone is
    in the worker's hand or in the queue.  The bytes on the wire are the frames of
    the sent commands, in that order, with at most a part of each failed one in
    between.  The worker is never about to block while a command waits, and blocked
    over one only while a call that queued one has still to notify it.  With no shutdown going on, a [start] ends the process ([std::terminate])
    exactly when it is already running. *)
Theorem commands_flow p0 spurious y :
  rtc (sl_step spurious) (system_new p0) y →
  accepted y = map fst (gone y) ++ in_hand (worker_thread (sl y)) ++ task_queue_ (sl y) ∧
  Forall genuine (accepted y) ∧
  (∃ pieces, lp_sent (serial_ (sl y)) = lp_sent p0 ++ concat pieces ∧ Forall2 piece_ok pieces (gone y)) ∧
  (worker_thread (sl y) = Some WDeciding → task_queue_ (sl y) = []) ∧
  (worker_thread (sl y) = Some WBlocked → task_queue_ (sl y) = [] ∨
     ∃ c, c ∈ calls y ∧ notifying c) ∧
  (life y = LIdle → start_threads (sl y) = None ↔ running_ (sl y) = true).
Proof.
  intros Hr. apply sl_inv_reachable in Hr as [Hf Hg _ _ Hs Ha Ht]. split_and!; try done.
  1: { intros Hw. by rewrite Hw in Ha. }
  1: { intros Hw. rewrite Hw in Ha. destruct Ha as [Ha|(c & ? & ?)%Exists_exists]; [by left|]. right. by exists c. }
  intros Hl. unfold threads_ok in Ht. rewrite Hl in Ht. rewrite start_threads_spec. cbn in Ht.
  destruct (running_ (sl y)).
  - split; [done|]. intros _. by destruct (read_serial _) as [[]|], (worker_thread _).
  - by destruct Ht as [-> ->].
Qed.

(** A control call succeeds exactly when the port is open, a frame of the
    device was decoded within the offline timeout, and the parameters are in
    range.  It then appends the command's frame, with the next counter, to the
    queue; a refused call changes neither queue nor counter.  No call touches
    the port. *)
Theorem control_spec c now s :
  0 <= builder_ s →
  let ready := lp_isOpen (serial_ s) = true ∧ presence_ (state_ s) = Online ∧
               0 < last_seen_ms_ (state_ s) ∧
               now - last_seen_ms_ (state_ s) <= offline_timeout_ms (config_ s) in
  let '(ok, s') := control c now s in
  ok = bool_decide (ready ∧ allowed c) ∧ serial_ s' = serial_ s ∧
  if ok
  then task_queue_ s' = task_queue_ s ++
         [{| command := command_text c; parameters := encode kCmdId (command_payload c) (builder_ s) |}] ∧
       builder_ s' = (builder_ s + 1) mod 4
  else task_queue_ s' = task_queue_ s ∧ builder_ s' = builder_ s.
Proof.
  intros Hb. cbv zeta. unfold control, ensureControlReady, online. rewrite isOnline_spec. cbv zeta.
  destruct (lp_isOpen (serial_ s)) eqn:Eo; cbn [negb].
  2: { split_and!; try done; by rewrite bool_decide_false by naive_solver. }
  set (r := bool_decide (presence_ (state_ s) = Online ∧ _)).
  destruct r eqn:Er; cbn [negb].
  2: { split_and!; try done; apply bool_decide_eq_false in Er. by rewrite bool_decide_false by naive_solver. }
  apply bool_decide_eq_true in Er. unfold build_section. cbn [builder_ with_state].
  rewrite build_spec by done. destruct (decide (allowed c)) as [Ha|Ha]; cbn [negb].
  2: { split_and!; try done; by rewrite bool_decide_false by naive_solver. }
  assert (Hl : length (encode kCmdId (command_payload c) (builder_ s)) ≠ 0%nat).
  { rewrite encode_light_frame by (try apply command_payload_length; lia). done. }
  unfold enqueueCommand. replace (_ =? 0)%nat with false by lia.
  rewrite bool_decide_true by naive_solver. split; [done|].
  match goal with |- serial_ (notify ?x) = _ ∧ _ => destruct (notify_cases x) as [[_ ->]|[_ ->]] end;
    by split_and!.
Qed.

(** ** The read thread decodes the stream *)

(** What the frames tell about the device; the clock readings, the presence and
    the last error are left out. *)
Definition device_view (st : SearchlightState) :=
  (led_ st, flash_ st, brightness_ st, flash_hz_ st, servo_x_degree_ st, servo_y_degree_ st,
   last_frame_counter_ st, last_payload_hex_ st, rx_frame_count_ st, checksum_error_count_ st).

Definition same_device (st st' : SearchlightState) : Prop := device_view st = device_view st'.

#[local] Instance same_device_equivalence : Equivalence same_device.
Proof. unfold same_device. split; [intros a|intros a b|intros a b c]; congruence. Qed.

Lemma same_device_frame f now now' st st' :
  same_device st st' → same_device (markOnlineByFrame now f st) (markOnlineByFrame now' f st').
Proof.
  unfold same_device, device_view. intros [= ? ? ? ? ? ? ? ? ? ?].
  unfold markOnlineByFrame, applyPayloadLocked.
  repeat match goal with |- context [if ?b then _ else _] => destruct b end; cbn; congruence.
Qed.

#[local] Instance same_device_frame_proper f now :
  Proper (same_device ==> same_device) (markOnlineByFrame now f).
Proof. intros st st'. apply same_device_frame. Qed.

Lemma same_device_online now t st : same_device (isOnline now t st).2 st.
Proof.
  unfold isOnline. destruct (negb _); [done|]. destruct (_ <=? 0); [done|]. by destruct (_ <? _).
Qed.

(** A frame the device sends: payload and counter. *)
Definition sendable (f : list Z * Z) : Prop := (length f.1 <= kMaxPayloadLength)%nat ∧ 0 <= f.2.
Definition wire (f : list Z * Z) : list Z := encode kCmdId f.1 f.2.
Definition stream (fs : list (list Z * Z)) : list Z := concat (map wire fs).

(** The device as the frames report it. *)
Definition reported (fs : list (list Z * Z)) (st : SearchlightState) : SearchlightState :=
  foldl (λ st f, markOnlineByFrame 0 (light_decoded f.1 f.2) st) st fs.

#[local] Instance reported_proper fs : Proper (same_device ==> same_device) (reported fs).
Proof.
  unfold reported. induction fs as [|f fs IH]; intros st st' H'; [done|]. cbn. apply IH. by rewrite H'.
Qed.

(** No complete frame is left in the buffer. *)
Definition incomplete (buffer : list Z) (rest : list (list Z * Z)) : Prop :=
  match rest with [] => buffer = [] | f :: _ => (length buffer < length (wire f))%nat end.

Lemma drain_stream fs : ∀ nows b tail st,
  Forall sendable fs → b ++ tail = stream fs → (length fs < length nows)%nat →
  ∃ done rest buffer st', drain nows b st = Some (buffer, st') ∧ fs = done ++ rest ∧
    b = stream done ++ buffer ∧ incomplete buffer rest ∧ same_device st' (reported done st).
Proof.
  induction fs as [|f fs IH]; intros [|now nows] b tail st Hfs Hb Hn; [simpl in Hn; lia|..].
  - apply app_eq_nil in Hb as [-> ->]. by exists [], [], [], st.
  - simpl in Hn. lia.
  - apply Forall_cons in Hfs as [[Hp Hc] Hfs]. unfold stream in Hb. cbn [map concat] in Hb. fold (stream fs) in Hb.
    destruct (decide (length b < length (wire f))%nat) as [Hlt|Hge].
    + exists [], (f :: fs), b, st. split_and!; try done.
      assert (Hbt : b = take (length b) (wire f)).
      { pose proof (f_equal (take (length b)) Hb) as E.
        rewrite take_app_length, take_app_le in E by lia. done. }
      assert (Hd : tryDecode b = (None, "", b)).
      { pose proof (tryDecode_partial f.1 f.2 (length b) Hp Hc Hlt) as E. by unfold wire in Hbt; rewrite <- Hbt in E. }
      cbn [drain]. by rewrite Hd.
    + assert (Hbd : b = wire f ++ drop (length (wire f)) b).
      { pose proof (f_equal (take (length (wire f))) Hb) as E.
        rewrite take_app_le, take_app_length in E by lia. rewrite <- E at 1. by rewrite take_drop. }
      set (b' := drop _ b) in *. rewrite Hbd, <- app_assoc in Hb. apply app_inv_head in Hb.
      destruct (IH nows b' tail (markOnlineByFrame now (light_decoded f.1 f.2) st) Hfs Hb)
        as (dn & rest & buffer & st' & Hd & -> & Hb' & Hi & Hs); [simpl in Hn; lia|].
      exists (f :: dn), rest, buffer, st'. split_and!; try done.
      * rewrite Hbd. cbn [drain]. unfold wire. rewrite tryDecode_encode by done. by rewrite decide_True.
      * rewrite Hbd, Hb'. unfold stream. cbn [map concat]. by rewrite app_assoc.
      * rewrite Hs. cbn [reported foldl]. fold (reported dn). apply reported_proper. by apply same_device_frame.
Qed.

(** The port hands over the chunks one read at a time, an empty one on a
    timeout, and stays open. *)
Inductive reads : P → list (list Z) → Prop :=
| reads_nil p : reads p []
| reads_cons p c p' cs : lp_isOpen p = true → lp_readBytes 256 100 p = (Z.of_nat (length c), c, p') →
    reads p' cs → reads p (c :: cs).

(** The turns of [readSerialLoop], each with its clock readings. *)
Fixpoint read_turns (clock : list (list Z * Z)) (r : reader) (s : Searchlight) :
    option (reader * Searchlight) :=
  match clock with
  | [] => Some (r, s)
  | (nows, now) :: clock =>
      match readSerialLoop nows now r s with
      | None => None
      | Some (r, s) => read_turns clock r s
      end
  end.

(** One turn on a chunk. *)
Lemma readSerialLoop_chunk nows now r s c p' buffer st :
  lp_isOpen (serial_ s) = true → lp_readBytes 256 100 (serial_ s) = (Z.of_nat (length c), c, p') →
  (if (length c =? 0)%nat then Some (receive_buffer r, state_ s)
   else drain nows (receive_buffer r ++ c) (state_ s)) = Some (buffer, st) →
  ∃ r' s', readSerialLoop nows now r s = Some (r', s') ∧ receive_buffer r' = buffer ∧
    serial_ s' = p' ∧ same_device (state_ s') st.
Proof.
  intros Ho Hr Hd. unfold readSerialLoop. rewrite Ho, Hr. cbn [negb].
  replace (Z.of_nat (length c) <? 0) with false by lia.
  replace (0 <? Z.of_nat (length c)) with (negb (length c =? 0)%nat) by lia.
  assert (Hd' : (if negb (length c =? 0)%nat then drain nows (receive_buffer r ++ c) (state_ s)
                 else Some (receive_buffer r, state_ s)) = Some (buffer, st))
    by (by destruct (length c =? 0)%nat).
  cbn [state_ with_serial]. rewrite Hd'. unfold online. cbn [config_ state_ with_state with_serial].
  pose proof (same_device_online now (offline_timeout_ms (config_ s)) st) as Hs.
  destruct (isOnline _ _ _) as [b st']. by eexists _, _.
Qed.

(** However the reads cut the bytes the device sends, time-outs included,
    the read thread decodes exactly the frames that are complete, in order and
    each once, without an error, and keeps the incomplete rest for the next read.
    The turns return; each needs no more clock readings than there are frames,
    and one. *)
Theorem readSerialLoop_stream fs chunks tail clock r s :
  Forall sendable fs → receive_buffer r = [] → reads (serial_ s) chunks →
  concat chunks ++ tail = stream fs →
  length clock = length chunks → Forall (λ t, (length fs < length t.1)%nat) clock →
  ∃ r' s' done rest, read_turns clock r s = Some (r', s') ∧ fs = done ++ rest ∧
    concat chunks = stream done ++ receive_buffer r' ∧ incomplete (receive_buffer r') rest ∧
    same_device (state_ s') (reported done (state_ s)).
Proof.
  enough (Hgen : ∀ chunks fs clock r s, Forall sendable fs → reads (serial_ s) chunks →
    (receive_buffer r ++ concat chunks) ++ tail = stream fs → incomplete (receive_buffer r) fs →
    length clock = length chunks → Forall (λ t, (length fs < length t.1)%nat) clock →
    ∃ r' s' done rest, read_turns clock r s = Some (r', s') ∧ fs = done ++ rest ∧
      receive_buffer r ++ concat chunks = stream done ++ receive_buffer r' ∧
      incomplete (receive_buffer r') rest ∧ same_device (state_ s') (reported done (state_ s))).
  { intros Hfs Hb Hr Hc Hl Hcl. rewrite <- (app_nil_l (concat chunks)), <- Hb in Hc |- *.
    apply Hgen; try done. rewrite Hb. destruct fs as [|f fs]; [done|].
    apply Forall_cons in Hfs as [[Hp Hc'] _]. cbn. unfold wire. rewrite encode_light_frame by done. simpl. lia. }
  clear chunks fs clock r s. intros chunks.
  induction chunks as [|c cs IH]; intros fs [|[nows now] clock] r s Hfs Hr Hc Hi Hl Hcl; try done.
  { exists r, s, [], fs. split_and!; try done. cbn. by rewrite app_nil_r. }
  inversion Hr as [|? ? p' ? Ho Hrd Hr']; subst. cbn [concat] in Hc.
  apply Forall_cons in Hcl as [Hn Hcl]. cbn in Hn.
  assert (Hturn : ∃ dn rest buffer st, (if (length c =? 0)%nat then Some (receive_buffer r, state_ s)
     else drain nows (receive_buffer r ++ c) (state_ s)) = Some (buffer, st) ∧ fs = dn ++ rest ∧
     receive_buffer r ++ c = stream dn ++ buffer ∧ incomplete buffer rest ∧
     same_device st (reported dn (state_ s))).
  { destruct c as [|b c].
    - exists [], fs, (receive_buffer r), (state_ s). split_and!; try done. by rewrite app_nil_r.
    - apply (drain_stream fs nows _ (concat cs ++ tail)); try done. by rewrite <- Hc, <- !app_assoc. }
  destruct Hturn as (dn & rest & buffer & st & Hd & -> & Hb & Hi' & Hs).
  destruct (readSerialLoop_chunk nows now r s c p' buffer st Ho Hrd Hd) as (r1 & s1 & H1 & Hb1 & Hp1 & Hs1).
  destruct (IH rest clock r1 s1) as (r' & s' & dn' & rest' & H2 & -> & Hb' & Hi2 & Hs2); try done.
  - by apply Forall_app in Hfs as [_ Hfs].
  - by rewrite Hp1.
  - rewrite Hb1. unfold stream in Hc. rewrite map_app, concat_app in Hc. fold (stream dn) (stream rest) in Hc.
    rewrite app_assoc, Hb, <- !app_assoc in Hc. apply app_inv_head in Hc. by rewrite <- Hc, <- app_assoc.
  - by rewrite Hb1.
  - cbn in Hl. lia.
  - eapply Forall_impl; [exact Hcl|]. intros t Ht. cbn in Ht. rewrite length_app in Ht. lia.
  - exists r', s', (dn ++ dn'), rest'. split_and!; try done.
    + cbn [read_turns]. by rewrite H1.
    + by rewrite app_assoc.
    + cbn [concat]. rewrite app_assoc, Hb, <- app_assoc, <- Hb1, Hb'. unfold stream.
      by rewrite map_app, concat_app, <- app_assoc.
    + rewrite Hs2. unfold reported at 2. rewrite foldl_app. apply reported_proper. by rewrite Hs1.
Qed.

(** ** Shutdown and a worker about to block *)

(** The worker is blocked, [shutdown] waits for it, and nothing will notify. *)
Definition stuck (y : system) : Prop :=
  life y = LJoinWorker None ∧ worker_thread (sl y) = Some WBlocked ∧ running_ (sl y) = false ∧
  read_serial (sl y) = None ∧ lp_isOpen (serial_ (sl y)) = false ∧ calls y = [].

Lemma stuck_step y y' : stuck y → sl_step false y y' → stuck y'.
Proof.
  intros (Hl & Hw & Hrun & Hr & Ho & Hc) Hstep.
  destruct Hstep as [y s Hl' Hs|y now w r s Hl' Hs|y k s Hl' Hs|y k s Hl' Hs|y k Hl'|y k Hl' Hr'|y k Hl' Hw'
    |y k Hl'|y k Hl'|y nows now r r' s Hr' Hrun' Hs|y r Hr' Hrun'|y Hw'|y w s Hw' Hs|y Hw'|y Hw' Hsp
    |y fuel task ok s Hw' Hs|y c now ok s Hs|y i c ok frame s Hc' Hs|y i c Hc'|y i c frame Hc' Hne Hw'|y i c Hc'|y i Hc'|y now text s Hs];
    try congruence.
  - destruct Hw' as [Hw'|Hw']; congruence.
  - unfold ensureControlReady in Hs. rewrite Ho in Hs. injection Hs as <- <-. by split_and!.
  - by rewrite Hc in Hc'.
  - by rewrite Hc in Hc'.
  - by rewrite Hc in Hc'.
  - by rewrite Hc in Hc'.
  - by rewrite Hc in Hc'.
  - unfold get_status, online in Hs. destruct (isOnline _ _ _). injection Hs as _ <-. by split_and!.
Qed.

(** [waitInitialDeviceFrame] gives up when no frame arrives. *)
Lemma wait_gives_up n : ∀ s w cs ac go, presence_ (state_ s) ≠ Online →
  init_wait_ms (config_ s) <= w + 50 * Z.of_nat n →
  ∃ st, rtc (sl_step false)
    {| sl := s; life := LWaiting w; calls := cs; accepted := ac; gone := go |}
    {| sl := with_state st s; life := LIdle; calls := cs; accepted := ac; gone := go |}.
Proof.
  induction n as [|n IH]; intros s w cs ac go Hs Hw.
  - exists (markNoDevice "初始化等待超时，未读到有效串口帧" (state_ s)).
    eapply rtc_l; [|apply rtc_refl]. refine (sl_wait false {| sl := s; life := LWaiting w; calls := cs; accepted := ac; gone := go |}
      0 w (Some tt) _ eq_refl _).
    unfold waitInitialDeviceFrame. cbn [sl]. by replace (w <? _) with false by lia.
  - destruct (decide (w < init_wait_ms (config_ s))) as [Hlt|Hge].
    + destruct (IH s (w + 50) cs ac go Hs) as [st Hst]; [lia|]. exists st.
      eapply rtc_l; [|exact Hst]. refine (sl_wait false {| sl := s; life := LWaiting w; calls := cs; accepted := ac; gone := go |}
        0 w None s eq_refl _).
      unfold waitInitialDeviceFrame, online, isOnline. cbn [sl].
      replace (w <? _) with true by lia. rewrite bool_decide_false by done. cbn. by destruct s.
    + destruct (IH s w cs ac go Hs) as [st Hst]; [lia|]. by exists st.
Qed.

(** [shutdown] clears [running_] and notifies without taking
    [queue_mutex_], so both can fall between the worker's test of its predicate
    and its blocking.  From a fresh searchlight whose device never answers, start
    and shutdown reach a state in which the worker is blocked, [shutdown] waits for
    it to end, and that is so for ever, whatever anybody does, unless the system
    wakes the worker without a notification. *)
Theorem shutdown_lost_wakeup p :
  lp_isOpen p = false →
  ∃ y, rtc (sl_step false) (system_new p) y ∧ stuck y ∧
    ∀ y', rtc (sl_step false) y y' → stuck y'.
Proof.
  intros Ho.
  enough (∃ y, rtc (sl_step false) (system_new p) y ∧ stuck y) as (y & Hr & Hs).
  { exists y. split_and!; [done|done|]. intros y' Hr'. clear Hr.
    induction Hr' as [|? ? ? Hstep _ IH]; [done|]. apply IH. by eapply stuck_step. }
  destruct (start_threads (Searchlight_new p)) as [s0|] eqn:Es; [|done]. injection Es as Es.
  destruct (wait_gives_up 24 s0 0 [] [] []) as [st Hst]; [by subst|subst; cbn; lia|]. subst s0.
  eexists. split.
  - eapply rtc_l; [eapply sl_start; reflexivity|]. etransitivity; [exact Hst|]. clear Hst.
    eapply rtc_l; [eapply sl_worker_head; reflexivity|]. cbn.
    eapply rtc_l; [eapply sl_worker_section; reflexivity|]. cbn.
    eapply rtc_l; [eapply (sl_shutdown _ _ None); reflexivity|]. cbn.
    eapply rtc_l; [eapply sl_notify; reflexivity|]. cbn.
    eapply rtc_l; [eapply sl_worker_block; reflexivity|]. cbn.
    eapply rtc_l; [eapply sl_read_exit; reflexivity|]. cbn.
    eapply rtc_l; [eapply sl_join_read; [reflexivity|by right]|]. cbn.
    apply rtc_refl.
  - by split_and!.
Qed.
End searchlight.
Arguments Searchlight P : clear implicits.

(** ** Witnesses on the scripted terminal *)

Local Abbreviation port := (LightSerialPort.SerialPort script).

Lemma shutdown_lost_wakeup_witness :
  ∃ y : system (P:=port), rtc (sl_step false) (system_new (script_port [])) y ∧ stuck y.
Proof.
  assert (Ho : lp_isOpen (script_port []) = false) by reflexivity.
  destruct (shutdown_lost_wakeup (script_port []) Ho) as (y & Hr & Hs & _). by exists y.
Defined.

(** A device that reports its servo at home, then is told to switch on. *)
Definition demo_port : port := script_port [wire (command_payload Home, 2)].

Definition demo_opened : Searchlight port := initialize SearchlightInitConfig_default (Searchlight_new demo_port).

Lemma control_spec_witness :
  let s := with_state (seen_online 1000 (light_decoded [] 0) SearchlightState_default) demo_opened in
  (control (LightLevel 40) 2500 s).1 = true ∧ (control (LightLevel 101) 2500 s).1 = false ∧
  (control (LightLevel 40) 3500 s).1 = false.
Proof.
  cbv zeta. set (s := with_state _ _).
  pose proof (control_spec (LightLevel 40) 2500 s ltac:(done)) as H1.
  pose proof (control_spec (LightLevel 101) 2500 s ltac:(done)) as H2.
  pose proof (control_spec (LightLevel 40) 3500 s ltac:(done)) as H3.
  destruct (control (LightLevel 40) 2500 s), (control (LightLevel 101) 2500 s),
    (control (LightLevel 40) 3500 s). cbn [fst] in *.
  destruct H1 as [-> _], H2 as [-> _], H3 as [-> _]. vm_compute. done.
Defined.

Lemma readSerialLoop_stream_witness :
  let s := initialize SearchlightInitConfig_default
             (Searchlight_new (script_port [[0x55; 0xAA]; []; [0xDC; 0x03; 7; 4; 0x55]; [0xAA]])) in
  ∃ r' s', read_turns (replicate 4 (replicate 3 1000, 1000)) {| receive_buffer := []; was_online := false |} s
           = Some (r', s') ∧ receive_buffer r' = [0x55; 0xAA].
Proof.
  cbv zeta.
  destruct (readSerialLoop_stream [([7], 0); ([8], 1)] [[0x55; 0xAA]; []; [0xDC; 0x03; 7; 4; 0x55]; [0xAA]]
    [0xDC; 0x43; 8; 0x4B] (replicate 4 (replicate 3 1000, 1000))
    {| receive_buffer := []; was_online := false |}
    (initialize SearchlightInitConfig_default
       (Searchlight_new (script_port [[0x55; 0xAA]; []; [0xDC; 0x03; 7; 4; 0x55]; [0xAA]]))))
    as (r' & s' & dn & rest & H1 & H2 & H3 & _).
  - repeat constructor; cbn; unfold kMaxPayloadLength; simpl; lia.
  - reflexivity.
  - repeat (eapply reads_cons; [reflexivity|vm_compute; reflexivity|]). apply reads_nil.
  - vm_compute. reflexivity.
  - reflexivity.
  - repeat constructor; cbn; lia.
  - exists r', s'. split; [exact H1|]. vm_compute in H1. by injection H1 as <- _.
Defined.

(** From opening the port to the frame on the wire. *)
Lemma demo_run :
  ∃ y : system (P:=port), rtc (sl_step false) (system_new demo_port) y ∧
    gone y = [({| command := "开灯"; parameters := wire (command_payload OpenLed, 0) |}, Sent)].
Proof.
  eexists. split.
  - eapply rtc_l; [eapply (sl_shutdown_skip _ _ (Some SearchlightInitConfig_default)); [vm_compute; reflexivity ..]|].
    eapply rtc_l; [eapply sl_start; [vm_compute; reflexivity ..]|].
    eapply rtc_l; [eapply (sl_read _ _ [5; 5] 5); [vm_compute; reflexivity ..]|].
    eapply rtc_l; [eapply (sl_wait _ _ 5); [vm_compute; reflexivity ..]|].
    eapply rtc_l; [eapply (sl_ready _ _ OpenLed 6); [vm_compute; reflexivity ..]|].
    eapply rtc_l; [eapply (sl_build _ _ 0); [vm_compute; reflexivity ..]|].
    eapply rtc_l; [eapply (sl_push _ _ 0); [vm_compute; reflexivity|done|by vm_compute]|].
    eapply rtc_l; [eapply (sl_mark _ _ 0); vm_compute; reflexivity|].
    eapply rtc_l; [eapply (sl_enqueue_notify _ _ 0); vm_compute; reflexivity|].
    eapply rtc_l; [eapply sl_worker_head; [vm_compute; reflexivity ..]|].
    eapply rtc_l; [eapply sl_worker_section; [vm_compute; reflexivity ..]|].
    eapply rtc_l; [eapply (sl_worker_send _ _ 20); [vm_compute; reflexivity ..]|].
    apply rtc_refl.
  - vm_compute. reflexivity.
Qed.

Lemma commands_flow_witness :
  ∃ y : system (P:=port), length (gone y) = 1%nat ∧ length (accepted y) = (1 +
    length (in_hand (worker_thread (sl y)) ++ task_queue_ (sl y)))%nat ∧ Forall genuine (accepted y).
Proof.
  destruct demo_run as (y & Hr & Hg). exists y.
  destruct (commands_flow demo_port false y Hr) as (Hf & Hge & _).
  rewrite Hf, Hg, !length_app. split; [reflexivity|].
  split; [reflexivity|]. rewrite <- Hg, <- Hf. exact Hge.
Defined.
End Searchlight.
