(* ===== verification/TaskData.v ===== *)
(** * Commands, tasks and results

    Model of my_data: the identifiers, the raw command, the task with its
    result, the status snapshots, and their JSON forms (JsonUtil.cpp and the
    files of my_data/demo).  Enumerations are C++ [enum class]es over [int], so
    that [fromJson] may produce any [int]. *)

From S2P Require Import Prelude Text Json.
From stdpp Require Import pretty.
From Stdlib Require Import Ascii.

Local Open Scope Z_scope.

(** ** Enumerations *)

Definition Ec_Ok : Z := 0.
Definition InvalidCommand : Z := 1.
Definition UnknownDevice : Z := 2.
Definition DeviceOffline : Z := 3.
Definition Timeout : Z := 4.
Definition DriverError : Z := 5.
Definition Ec_EStop : Z := 6.
Definition InternalError : Z := 7.

Definition ErrorCode_text (code : Z) : string :=
  match code with
  | 0 => "Ok" | 1 => "InvalidCommand" | 2 => "UnknownDevice" | 3 => "DeviceOffline"
  | 4 => "Timeout" | 5 => "DriverError" | 6 => "EStop" | 7 => "InternalError"
  | _ => "UnknownErrorCode"
  end.

Definition Pending : Z := 0.

Definition TaskState_text (s : Z) : string :=
  match s with
  | 0 => "Pending" | 1 => "Running" | 2 => "Succeeded" | 3 => "Failed" | 4 => "Cancelled"
  | _ => "UnknownTaskState"
  end.

Definition ConnUnknown : Z := 0.
Definition ConnOnline : Z := 1.
Definition WorkIdle : Z := 0.
Definition WorkBusy : Z := 1.
Definition WorkFaulted : Z := 2.
Definition EdgeInitializing : Z := 0.
Definition EdgeRunning : Z := 1.
Definition EdgeEStop : Z := 2.
Definition EdgeDegraded : Z := 3.

(** ** Identifiers *)

(** [GenerateId] with the clock's reading and the shared counter [seq]. *)
Definition GenerateId (prefix : string) (now seq : Z) : string * Z :=
  (prefix +:+ "-" +:+ pretty now +:+ "-" +:+ pretty seq, wrapu 64 (seq + 1)).

(** ** Data *)

Section data.
Context {J : Type} `{JsonOps J}.

Record TaskResult := {
  tr_code : Z;
  tr_message : string;
  tr_started_at_ms : Z;
  tr_finished_at_ms : Z;
  tr_output : J
}.

Definition TaskResult_default : TaskResult := {|
  tr_code := Ec_Ok; tr_message := ""; tr_started_at_ms := 0; tr_finished_at_ms := 0;
  tr_output := j_object []
|}.

Record Task := {
  tk_task_id : string;
  tk_command_id : string;
  tk_trace_id : string;
  tk_span_id : string;
  tk_edge_id : string;
  tk_device_id : string;
  tk_capability : string;
  tk_action : string;
  tk_params : J;
  tk_idempotency_key : string;
  tk_dedup_window_ms : Z;
  tk_priority : Z;
  tk_created_at_ms : Z;
  tk_deadline_at_ms : Z;
  tk_policy : J;
  tk_state : Z;
  tk_result : TaskResult
}.

Definition Task_default : Task := {|
  tk_task_id := ""; tk_command_id := ""; tk_trace_id := ""; tk_span_id := ""; tk_edge_id := "";
  tk_device_id := ""; tk_capability := ""; tk_action := ""; tk_params := j_object [];
  tk_idempotency_key := ""; tk_dedup_window_ms := 0; tk_priority := 0; tk_created_at_ms := 0;
  tk_deadline_at_ms := 0; tk_policy := j_object []; tk_state := Pending;
  tk_result := TaskResult_default
|}.

Record RawCommand := {
  rc_command_id : string;
  rc_source : string;
  rc_payload : J;
  rc_received_at_ms : Z;
  rc_idempotency_key : string;
  rc_dedup_window_ms : Z
}.

Record DeviceStatus := {
  ds_device_id : string;
  ds_conn_state : Z;
  ds_work_state : Z;
  ds_running_task_id : string;
  ds_last_task_at_ms : Z;
  ds_last_seen_at_ms : Z;
  ds_last_error : string;
  ds_queue_depth : Z
}.

Definition DeviceStatus_default : DeviceStatus := {|
  ds_device_id := ""; ds_conn_state := ConnUnknown; ds_work_state := WorkIdle;
  ds_running_task_id := ""; ds_last_task_at_ms := 0; ds_last_seen_at_ms := 0;
  ds_last_error := ""; ds_queue_depth := 0
|}.

Record EdgeStatus := {
  es_edge_id : string;
  es_run_state : Z;
  es_boot_at_ms : Z;
  es_last_heartbeat_at_ms : Z;
  es_estop_active : bool;
  es_estop_reason : string;
  es_devices : gmap string DeviceStatus;
  es_tasks_pending_total : Z;
  es_tasks_running_total : Z;
  es_version : string
}.

(** ** JsonUtil

    [j.find(key)] on a value that is not an object finds nothing. *)

Definition GetStringOr (j : J) (key def : string) : string :=
  match j_find j key with
  | Some v => match j_view v with JString s => s | _ => def end
  | None => def
  end.

Definition GetIntOr (j : J) (key : string) (def : Z) : Z :=
  match j_find j key with
  | Some v => match j_view v with JUnsigned n | JInteger n => wraps 32 n | _ => def end
  | None => def
  end.

Definition GetInt64Or (j : J) (key : string) (def : Z) : Z :=
  match j_find j key with
  | Some v => match j_view v with JUnsigned n | JInteger n => wraps 64 n | _ => def end
  | None => def
  end.

(** [it != end && it->is_object()]. *)
Definition find_object (j : J) (key : string) : option J :=
  match j_find j key with
  | Some v => match j_view v with JObject => Some v | _ => None end
  | None => None
  end.

(** ** JSON forms *)

Definition TaskResult_toJson (r : TaskResult) : J := j_object [
  ("code", j_number (tr_code r));
  ("message", j_string (tr_message r));
  ("started_at_ms", j_number (tr_started_at_ms r));
  ("finished_at_ms", j_number (tr_finished_at_ms r));
  ("output", tr_output r)].

Definition TaskResult_fromJson (j : J) : TaskResult := {|
  tr_code := GetIntOr j "code" Ec_Ok;
  tr_message := GetStringOr j "message" "";
  tr_started_at_ms := GetInt64Or j "started_at_ms" 0;
  tr_finished_at_ms := GetInt64Or j "finished_at_ms" 0;
  tr_output := default (j_object []) (find_object j "output")
|}.

Definition Task_toJson (t : Task) : J := j_object [
  ("task_id", j_string (tk_task_id t));
  ("command_id", j_string (tk_command_id t));
  ("trace_id", j_string (tk_trace_id t));
  ("span_id", j_string (tk_span_id t));
  ("edge_id", j_string (tk_edge_id t));
  ("device_id", j_string (tk_device_id t));
  ("capability", j_string (tk_capability t));
  ("action", j_string (tk_action t));
  ("params", tk_params t);
  ("idempotency_key", j_string (tk_idempotency_key t));
  ("dedup_window_ms", j_number (tk_dedup_window_ms t));
  ("priority", j_number (tk_priority t));
  ("created_at_ms", j_number (tk_created_at_ms t));
  ("deadline_at_ms", j_number (tk_deadline_at_ms t));
  ("policy", tk_policy t);
  ("state", j_number (tk_state t));
  ("result", TaskResult_toJson (tk_result t))].

Definition Task_fromJson (j : J) : Task := {|
  tk_task_id := GetStringOr j "task_id" "";
  tk_command_id := GetStringOr j "command_id" "";
  tk_trace_id := GetStringOr j "trace_id" "";
  tk_span_id := GetStringOr j "span_id" "";
  tk_edge_id := GetStringOr j "edge_id" "";
  tk_device_id := GetStringOr j "device_id" "";
  tk_capability := GetStringOr j "capability" "";
  tk_action := GetStringOr j "action" "";
  tk_params := default (j_object []) (find_object j "params");
  tk_idempotency_key := GetStringOr j "idempotency_key" "";
  tk_dedup_window_ms := GetInt64Or j "dedup_window_ms" 0;
  tk_priority := GetIntOr j "priority" 0;
  tk_created_at_ms := GetInt64Or j "created_at_ms" 0;
  tk_deadline_at_ms := GetInt64Or j "deadline_at_ms" 0;
  tk_policy := default (j_object []) (find_object j "policy");
  tk_state := GetIntOr j "state" Pending;
  tk_result := match find_object j "result" with
               | Some r => TaskResult_fromJson r
               | None => TaskResult_default
               end
|}.

Definition RawCommand_toJson (c : RawCommand) : J := j_object [
  ("command_id", j_string (rc_command_id c));
  ("source", j_string (rc_source c));
  ("received_at_ms", j_number (rc_received_at_ms c));
  ("idempotency_key", j_string (rc_idempotency_key c));
  ("dedup_window_ms", j_number (rc_dedup_window_ms c));
  ("payload", rc_payload c)].

Definition RawCommand_fromJson (j : J) : RawCommand := {|
  rc_command_id := GetStringOr j "command_id" "";
  rc_source := GetStringOr j "source" "";
  rc_payload := default (j_object []) (find_object j "payload");
  rc_received_at_ms := GetInt64Or j "received_at_ms" 0;
  rc_idempotency_key := GetStringOr j "idempotency_key" "";
  rc_dedup_window_ms := GetInt64Or j "dedup_window_ms" 0
|}.

Definition DeviceStatus_toJson (s : DeviceStatus) : J := j_object [
  ("device_id", j_string (ds_device_id s));
  ("conn_state", j_number (ds_conn_state s));
  ("work_state", j_number (ds_work_state s));
  ("running_task_id", j_string (ds_running_task_id s));
  ("last_task_at_ms", j_number (ds_last_task_at_ms s));
  ("last_seen_at_ms", j_number (ds_last_seen_at_ms s));
  ("last_error", j_string (ds_last_error s));
  ("queue_depth", j_number (ds_queue_depth s))].

Definition DeviceStatus_fromJson (j : J) : DeviceStatus := {|
  ds_device_id := GetStringOr j "device_id" "";
  ds_conn_state := GetIntOr j "conn_state" 0;
  ds_work_state := GetIntOr j "work_state" 0;
  ds_running_task_id := GetStringOr j "running_task_id" "";
  ds_last_task_at_ms := GetInt64Or j "last_task_at_ms" 0;
  ds_last_seen_at_ms := GetInt64Or j "last_seen_at_ms" 0;
  ds_last_error := GetStringOr j "last_error" "";
  ds_queue_depth := GetInt64Or j "queue_depth" 0
|}.

(** [dev[id] = st.toJson()] for every device; the object sorts its keys. *)
Definition EdgeStatus_toJson (s : EdgeStatus) : J := j_object [
  ("edge_id", j_string (es_edge_id s));
  ("run_state", j_number (es_run_state s));
  ("boot_at_ms", j_number (es_boot_at_ms s));
  ("last_heartbeat_at_ms", j_number (es_last_heartbeat_at_ms s));
  ("estop_active", j_bool (es_estop_active s));
  ("estop_reason", j_string (es_estop_reason s));
  ("tasks_pending_total", j_number (es_tasks_pending_total s));
  ("tasks_running_total", j_number (es_tasks_running_total s));
  ("version", j_string (es_version s));
  ("devices", j_object (map (λ '(id, st), (id, DeviceStatus_toJson st)) (map_to_list (es_devices s))))].

(** [items v]: the members of an object, as its iterators see them. *)
Definition EdgeStatus_fromJson (items : J → list (string * J)) (j : J) : EdgeStatus := {|
  es_edge_id := GetStringOr j "edge_id" "";
  es_run_state := GetIntOr j "run_state" 0;
  es_boot_at_ms := GetInt64Or j "boot_at_ms" 0;
  es_last_heartbeat_at_ms := GetInt64Or j "last_heartbeat_at_ms" 0;
  es_estop_active := match j_find j "estop_active" with
                     | Some v => match j_view v with JBoolean b => b | _ => false end
                     | None => false
                     end;
  es_estop_reason := GetStringOr j "estop_reason" "";
  es_devices := match find_object j "devices" with
                | Some v => foldl (λ m '(id, st),
                    match j_view st with JObject => <[id := DeviceStatus_fromJson st]> m | _ => m end)
                    ∅ (items v)
                | None => ∅
                end;
  es_tasks_pending_total := GetInt64Or j "tasks_pending_total" 0;
  es_tasks_running_total := GetInt64Or j "tasks_running_total" 0;
  es_version := GetStringOr j "version" "0.1.0"
|}.

(** ** Texts for the log

    [dump] throws on text that is not UTF-8, and with it every text that
    contains a value. *)

Definition TaskResult_toString (r : TaskResult) : result string :=
  output ← j_dump (tr_output r);
  Ok ("TaskResult{code=" +:+ ErrorCode_text (tr_code r) +:+ ", message=" +:+ tr_message r +:+
      ", started_at_ms=" +:+ pretty (tr_started_at_ms r) +:+
      ", finished_at_ms=" +:+ pretty (tr_finished_at_ms r) +:+ ", output=" +:+ output +:+ "}").

Definition Task_toString (t : Task) : result string :=
  params ← j_dump (tk_params t);
  policy ← j_dump (tk_policy t);
  res ← TaskResult_toString (tk_result t);
  Ok ("Task{task_id=" +:+ tk_task_id t +:+ ", command_id=" +:+ tk_command_id t +:+
      ", edge_id=" +:+ tk_edge_id t +:+ ", device_id=" +:+ tk_device_id t +:+
      ", capability=" +:+ tk_capability t +:+ ", action=" +:+ tk_action t +:+
      ", params=" +:+ params +:+ ", idempotency_key=" +:+ tk_idempotency_key t +:+
      ", dedup_window_ms=" +:+ pretty (tk_dedup_window_ms t) +:+
      ", priority=" +:+ pretty (tk_priority t) +:+
      ", created_at_ms=" +:+ pretty (tk_created_at_ms t) +:+
      ", deadline_at_ms=" +:+ pretty (tk_deadline_at_ms t) +:+
      ", policy=" +:+ policy +:+ ", state=" +:+ TaskState_text (tk_state t) +:+
      ", result=" +:+ res +:+ "}").

Definition RawCommand_toString (c : RawCommand) : result string :=
  payload ← j_dump (rc_payload c);
  Ok ("RawCommand{command_id=" +:+ rc_command_id c +:+ ", source=" +:+ rc_source c +:+
      ", received_at_ms=" +:+ pretty (rc_received_at_ms c) +:+
      ", idempotency_key=" +:+ rc_idempotency_key c +:+
      ", dedup_window_ms=" +:+ pretty (rc_dedup_window_ms c) +:+
      ", payload=" +:+ payload +:+ "}").
End data.
Arguments TaskResult : clear implicits.
Arguments Task : clear implicits.
Arguments RawCommand : clear implicits.

(** ** Unique identifiers *)

Lemma split_at_last p a b a' b' c :
  p c = true → all_chars (λ c, negb (p c)) b = true → all_chars (λ c, negb (p c)) b' = true →
  a +:+ String c b = a' +:+ String c b' → a = a' ∧ b = b'.
Proof.
  intros Hp Hb Hb' He.
  assert (Hl : ∀ u v, all_chars (λ c, negb (p c)) v = true →
                find_last p (u +:+ String c v) = Some (String.length u)).
  { intros u v Hv. change (String c v) with (String c "" +:+ v).
    rewrite string_app_assoc, find_last_app_None by done. by apply find_last_snoc. }
  pose proof (Hl a b Hb) as H1. rewrite He, (Hl a' b' Hb') in H1. injection H1 as H1.
  assert (Ha : a = a').
  { rewrite <- (substring_0_app a (String c b)), He, <- H1. apply substring_0_app. }
  subst a'. apply (inj (String.append a)) in He. by injection He as ->.
Qed.

(** Two identifiers with the same prefix are equal only if they were generated
    at the same time with the same counter. *)
Lemma GenerateId_inj prefix now seq now' seq' :
  0 <= seq → 0 <= seq' →
  (GenerateId prefix now seq).1 = (GenerateId prefix now' seq').1 → now = now' ∧ seq = seq'.
Proof.
  intros Hs Hs' He. cbn [GenerateId fst] in He.
  apply (inj (String.append prefix)), (inj (String.append "-")) in He.
  assert (Hd : ∀ z, 0 <= z → all_chars (λ c, negb (Ascii.eqb c "-"%char)) (pretty z) = true).
  { intros z Hz. destruct (pretty_all_digits z Hz) as [Hz' _].
    eapply all_chars_impl; [|exact Hz']. intros c Hc.
    destruct (Ascii.eqb c "-"%char) eqn:E; [|done]. by apply Ascii.eqb_eq in E as ->. }
  apply (split_at_last (λ c, Ascii.eqb c "-"%char)) in He as [Hn Hq]; [|done|by apply Hd|by apply Hd].
  by apply (inj pretty) in Hn, Hq.
Qed.

(** ** The JSON forms can be read back *)

Section roundtrip.
Context {J : Type} `{JL : JsonLaws J}.

Lemma GetStringOr_built l k s def :
  assoc_find k l = Some (j_string s) → GetStringOr (j_object l) k def = s.
Proof. intros Hl. unfold GetStringOr. by rewrite j_find_object, Hl, j_view_string. Qed.

Lemma GetIntOr_built l k n def :
  assoc_find k l = Some (j_number n) → ins 32 n → GetIntOr (j_object l) k def = n.
Proof.
  intros Hl Hn. unfold GetIntOr. rewrite j_find_object, Hl.
  assert (Hn' : ins 64 n) by width_lia.
  destruct (j_view_signed n Hn') as [-> | ->]; by apply wraps_id.
Qed.

Lemma GetInt64Or_built l k n def :
  assoc_find k l = Some (j_number n) → ins 64 n → GetInt64Or (j_object l) k def = n.
Proof.
  intros Hl Hn. unfold GetInt64Or. rewrite j_find_object, Hl.
  destruct (j_view_signed n Hn) as [-> | ->]; by apply wraps_id.
Qed.

Lemma find_object_built l k v :
  assoc_find k l = Some v → j_view v = JObject → find_object (j_object l) k = Some v.
Proof. intros Hl Hv. unfold find_object. by rewrite j_find_object, Hl, Hv. Qed.

(** The fields of a task, a result and a command hold values of their types. *)
Definition TaskResult_ok (r : TaskResult J) : Prop :=
  ins 32 (tr_code r) ∧ ins 64 (tr_started_at_ms r) ∧ ins 64 (tr_finished_at_ms r) ∧
  j_view (tr_output r) = JObject.

Definition Task_ok (t : Task J) : Prop :=
  ins 64 (tk_dedup_window_ms t) ∧ ins 32 (tk_priority t) ∧ ins 64 (tk_created_at_ms t) ∧
  ins 64 (tk_deadline_at_ms t) ∧ ins 32 (tk_state t) ∧ j_view (tk_params t) = JObject ∧
  j_view (tk_policy t) = JObject ∧ TaskResult_ok (tk_result t).

Definition RawCommand_ok (c : RawCommand J) : Prop :=
  ins 64 (rc_received_at_ms c) ∧ ins 64 (rc_dedup_window_ms c) ∧ j_view (rc_payload c) = JObject.

Definition DeviceStatus_ok (s : DeviceStatus) : Prop :=
  ins 32 (ds_conn_state s) ∧ ins 32 (ds_work_state s) ∧ ins 64 (ds_last_task_at_ms s) ∧
  ins 64 (ds_last_seen_at_ms s) ∧ ins 64 (ds_queue_depth s).

Ltac built :=
  first [apply GetStringOr_built; find_tac; reflexivity
        |apply GetIntOr_built; [find_tac; reflexivity|done]
        |apply GetInt64Or_built; [find_tac; reflexivity|done]].

Lemma TaskResult_roundtrip r : TaskResult_ok r → TaskResult_fromJson (TaskResult_toJson r) = r.
Proof.
  destruct r. intros (? & ? & ? & Ho). cbn in *. unfold TaskResult_fromJson, TaskResult_toJson.
  rewrite (find_object_built _ "output" tr_output0) by (done || (find_tac; reflexivity)).
  cbn [default]. f_equal; built.
Qed.

Lemma Task_roundtrip t : Task_ok t → Task_fromJson (Task_toJson t) = t.
Proof.
  destruct t. intros (? & ? & ? & ? & ? & Hp & Hq & Hr). cbn in *.
  unfold Task_fromJson, Task_toJson. cbn [tk_task_id tk_command_id tk_trace_id tk_span_id
    tk_edge_id tk_device_id tk_capability tk_action tk_params tk_idempotency_key
    tk_dedup_window_ms tk_priority tk_created_at_ms tk_deadline_at_ms tk_policy tk_state tk_result].
  rewrite (find_object_built _ "params" tk_params0) by (done || (find_tac; reflexivity)).
  rewrite (find_object_built _ "policy" tk_policy0) by (done || (find_tac; reflexivity)).
  rewrite (find_object_built _ "result" (TaskResult_toJson tk_result0))
    by ((find_tac; reflexivity) || apply j_view_object).
  rewrite TaskResult_roundtrip by done. cbn [default]. f_equal; built.
Qed.

Lemma RawCommand_roundtrip c : RawCommand_ok c → RawCommand_fromJson (RawCommand_toJson c) = c.
Proof.
  destruct c. intros (? & ? & Hp). cbn in *. unfold RawCommand_fromJson, RawCommand_toJson.
  cbn [rc_command_id rc_source rc_payload rc_received_at_ms rc_idempotency_key rc_dedup_window_ms].
  rewrite (find_object_built _ "payload" rc_payload0) by (done || (find_tac; reflexivity)).
  cbn [default]. f_equal; built.
Qed.

Lemma DeviceStatus_roundtrip s : DeviceStatus_ok s → DeviceStatus_fromJson (DeviceStatus_toJson s) = s.
Proof.
  destruct s. intros (? & ? & ? & ? & ?). cbn in *. unfold DeviceStatus_fromJson, DeviceStatus_toJson.
  f_equal; built.
Qed.

(** A snapshot of the whole edge; [items] lists the members of an object, in the
    library's own order. *)
Definition EdgeStatus_ok (s : EdgeStatus) : Prop :=
  ins 32 (es_run_state s) ∧ ins 64 (es_boot_at_ms s) ∧ ins 64 (es_last_heartbeat_at_ms s) ∧
  ins 64 (es_tasks_pending_total s) ∧ ins 64 (es_tasks_running_total s) ∧
  map_Forall (λ _, DeviceStatus_ok) (es_devices s).

Lemma read_devices l (m : gmap string DeviceStatus) :
  l ≡ₚ map (λ '(id, st), (id, DeviceStatus_toJson st)) (map_to_list m) →
  map_Forall (λ _, DeviceStatus_ok) m →
  foldl (λ m '(id, st),
    match j_view st with JObject => <[id := DeviceStatus_fromJson st]> m | _ => m end) ∅ l = m.
Proof.
  intros Hl Hm.
  assert (He : ∀ (l : list (string * J)) (m0 : gmap string DeviceStatus),
    Forall (λ x, j_view x.2 = JObject) l →
    foldl (λ m '(id, st), match j_view st with JObject => <[id := DeviceStatus_fromJson st]> m | _ => m end) m0 l =
    foldr (λ (x : string * DeviceStatus) (m : gmap string DeviceStatus), <[x.1 := x.2]> m) m0 (reverse (map (λ x, (x.1, DeviceStatus_fromJson x.2)) l))).
  { clear. intros l. induction l as [|[id st] l IH]; intros m0 Hall; [done|].
    apply Forall_cons in Hall as [Hst Hall]. cbn in Hst. cbn [foldl map fst snd]. rewrite Hst, IH by done.
    by rewrite reverse_cons, foldr_app. }
  assert (Hf : map (λ x, (x.1, DeviceStatus_fromJson x.2)) l ≡ₚ map_to_list m).
  { rewrite Hl, map_map. rewrite <- (map_id (map_to_list m)) at 2.
    apply eq_subrelation; [apply _|]. apply map_ext_in. intros [id st] Hin%list_elem_of_In%elem_of_map_to_list. cbn.
    by rewrite DeviceStatus_roundtrip by (by apply (Hm id)). }
  rewrite He.
  - etransitivity; [|apply list_to_map_to_list].
    apply (list_to_map_proper (M := gmap string) (reverse (map _ l)) (map_to_list m)).
    + rewrite (reverse_Permutation (map _ l)), Hf. apply NoDup_fst_map_to_list.
    + by rewrite (reverse_Permutation (map _ l)).
  - rewrite Hl. apply Forall_forall. intros x Hx%list_elem_of_In%in_map_iff.
    destruct Hx as ([id st] & <- & _). cbn. apply j_view_object.
Qed.

Lemma EdgeStatus_roundtrip (items : J → list (string * J)) s :
  (∀ l, NoDup l.*1 → items (j_object l) ≡ₚ l) →
  EdgeStatus_ok s → EdgeStatus_fromJson items (EdgeStatus_toJson s) = s.
Proof.
  intros Hitems. destruct s as [? ? ? ? b ? m]. intros (? & ? & ? & ? & ? & Hm). cbn in *.
  unfold EdgeStatus_fromJson, EdgeStatus_toJson.
  cbn [es_edge_id es_run_state es_boot_at_ms es_last_heartbeat_at_ms es_estop_active
       es_estop_reason es_devices es_tasks_pending_total es_tasks_running_total es_version].
  erewrite (find_object_built _ "devices") by (apply j_view_object || (find_tac; reflexivity)).
  f_equal; try built.
  - rewrite j_find_object. find_tac. by rewrite j_view_bool.
  - apply read_devices; [|done]. apply Hitems. rewrite <- list_fmap_compose.
    erewrite list_fmap_ext; [apply (NoDup_fst_map_to_list m)|]. by intros ? [].
Qed.

(** Whatever is read back from JSON is well-formed, so that reading and
    printing again changes nothing more. *)
Lemma GetIntOr_range j k def : ins 32 def → ins 32 (GetIntOr j k def).
Proof.
  intros Hd. unfold GetIntOr. destruct (j_find j k) as [v|]; [|done].
  destruct (j_view v); done || by apply ins_wraps.
Qed.
Lemma GetInt64Or_range j k def : ins 64 def → ins 64 (GetInt64Or j k def).
Proof.
  intros Hd. unfold GetInt64Or. destruct (j_find j k) as [v|]; [|done].
  destruct (j_view v); done || by apply ins_wraps.
Qed.
Lemma find_object_view j k : j_view (default (j_object []) (find_object j k)) = JObject.
Proof.
  unfold find_object. destruct (j_find j k) as [v|]; [|apply j_view_object].
  destruct (j_view v) eqn:E; try apply j_view_object. done.
Qed.

Lemma TaskResult_fromJson_ok j : TaskResult_ok (TaskResult_fromJson j).
Proof.
  split_and!; [by apply GetIntOr_range|by apply GetInt64Or_range|by apply GetInt64Or_range|].
  apply find_object_view.
Qed.

Lemma Task_fromJson_ok j : Task_ok (Task_fromJson j).
Proof.
  split_and!; try (by apply GetIntOr_range); try (by apply GetInt64Or_range);
    try apply find_object_view. cbn. destruct (find_object j "result"); [apply TaskResult_fromJson_ok|].
  split_and!; try done. apply j_view_object.
Qed.

Lemma RawCommand_fromJson_ok j : RawCommand_ok (RawCommand_fromJson j).
Proof.
  split_and!; try (by apply GetInt64Or_range). apply find_object_view.
Qed.

(** Tasks, commands and edge snapshots whose fields hold values of their
    types are read back from their JSON form exactly as they were; and whatever
    JSON a task is read from, printing the task and reading it again gives the
    same task. *)
Theorem records_roundtrip (items : J → list (string * J)) :
  (∀ l, NoDup l.*1 → items (j_object l) ≡ₚ l) →
  (∀ t, Task_ok t → Task_fromJson (Task_toJson t) = t) ∧
  (∀ c, RawCommand_ok c → RawCommand_fromJson (RawCommand_toJson c) = c) ∧
  (∀ s, EdgeStatus_ok s → EdgeStatus_fromJson items (EdgeStatus_toJson s) = s) ∧
  (∀ j, Task_fromJson (Task_toJson (Task_fromJson j)) = Task_fromJson j).
Proof.
  intros Hitems. split_and!.
  - apply Task_roundtrip.
  - apply RawCommand_roundtrip.
  - intros s. by apply EdgeStatus_roundtrip.
  - intros j. apply Task_roundtrip, Task_fromJson_ok.
Qed.
End roundtrip.

Definition demo_device_status : DeviceStatus := {|
  ds_device_id := "d1"; ds_conn_state := ConnOnline; ds_work_state := WorkBusy;
  ds_running_task_id := "task-5-0"; ds_last_task_at_ms := -1; ds_last_seen_at_ms := 5;
  ds_last_error := ""; ds_queue_depth := 3 |}.

Definition demo_edge_status : EdgeStatus := {|
  es_edge_id := "e1"; es_run_state := EdgeRunning; es_boot_at_ms := 4; es_last_heartbeat_at_ms := 0;
  es_estop_active := true; es_estop_reason := "test"; es_devices := {["d1" := demo_device_status]};
  es_tasks_pending_total := 3; es_tasks_running_total := 1; es_version := "0.0" |}.

Lemma records_roundtrip_witness :
  EdgeStatus_fromJson (λ v, match v with VObj l => l | _ => [] end)
    (EdgeStatus_toJson demo_edge_status) = demo_edge_status ∧
  ds_last_task_at_ms <$> (es_devices demo_edge_status !! "d1") = Some (-1).
Proof.
  split; [|reflexivity].
  apply (records_roundtrip (J := jvalue) (λ v, match v with VObj l => l | _ => [] end)).
  - intros l _. reflexivity.
  - split_and!; apply (bool_decide_unpack _); by vm_compute.
Defined.
