(* ===== verification/MyControl.v ===== *)
(** * Command normalisers and demo controls

    Model of my_control without its queue and threads: [MyControl]'s factories,
    the four normalisers that make a task of a raw command, and the four demo
    controls that execute one. *)

From S2P Require Import Prelude Text Json Double TaskData.

Local Open Scope Z_scope.

Section control.
Context {J : Type} `{JsonNumbers J}.

(** ** Normalisers *)

Inductive normalizer :=
| UUVCommandNormalizer
| DepthSensorCommandNormalizer
| FlowSensorCommandNormalizer
| WindSensorCommandNormalizer.

Definition CreateNormalizer (type : string) : option normalizer :=
  if decide (type = "uuv" ∨ type = "UUV") then Some UUVCommandNormalizer
  else if decide (type = "depth_sensor") then Some DepthSensorCommandNormalizer
  else if decide (type = "flow_sensor") then Some FlowSensorCommandNormalizer
  else if decide (type = "wind_sensor") then Some WindSensorCommandNormalizer
  else None.

(** [GenerateId] on the counter shared by all threads. *)
Definition generate (prefix : string) (now : Z) : io Z string :=
  λ seq, let '(id, seq') := GenerateId prefix now seq in (Ok id, seq').

(** [x.empty()] and [!x.empty() ? x : y]. *)
Definition str_empty (s : string) : bool := match s with EmptyString => true | _ => false end.

(** From [my_data::Task task;] on; [clock] gives the readings of the clock, in
    order.  The text of the new task goes to the log, and making it throws when
    the parameters hold text that is not UTF-8. *)
Definition make_task (cmd : RawCommand J) (edge_id device_id capability action : string)
    (clock : nat → Z) : io Z (string + Task J) :=
  command_id ← (if negb (str_empty (rc_command_id cmd)) then mret (rc_command_id cmd)
                else generate "cmd" (clock 0%nat));
  task_id ← generate "task" (clock 1%nat);
  let task := {|
    tk_task_id := task_id; tk_command_id := command_id; tk_trace_id := ""; tk_span_id := "";
    tk_edge_id := edge_id; tk_device_id := device_id; tk_capability := capability;
    tk_action := action;
    tk_params := default (j_object []) (find_object (rc_payload cmd) "params");
    tk_idempotency_key := if negb (str_empty (rc_idempotency_key cmd)) then rc_idempotency_key cmd
                          else command_id;
    tk_dedup_window_ms := rc_dedup_window_ms cmd; tk_priority := 0;
    tk_created_at_ms := clock 2%nat; tk_deadline_at_ms := 0; tk_policy := j_object [];
    tk_state := Pending; tk_result := TaskResult_default |} in
  _ ← io_lift (Task_toString task);
  mret (inr task).

(** A failure: the message of [*err], after [text] went to the log. *)
Definition rejected (text : result string) (err : string) : io Z (string + Task J) :=
  _ ← io_lift text; mret (inl err).

(** The three sensors' normalisers: the device is required, the capability
    fixed, the action "read" unless given. *)
Definition Normalize_sensor (capability : string) (cmd : RawCommand J) (edge_id : string)
    (clock : nat → Z) : io Z (string + Task J) :=
  match j_view (rc_payload cmd) with
  | JObject =>
      let p := rc_payload cmd in
      let device_id := GetStringOr p "device_id" "" in
      if str_empty device_id then rejected (j_dump p) "missing required field: device_id"
      else make_task cmd edge_id device_id capability (GetStringOr p "action" "read") clock
  | _ => rejected (RawCommand_toString cmd) "payload is not a json object"
  end.

Definition DepthSensor_Normalize := Normalize_sensor "water_depth".
Definition FlowSensor_Normalize := Normalize_sensor "flow_speed".
Definition WindSensor_Normalize := Normalize_sensor "wind".

Definition UUV_Normalize (cmd : RawCommand J) (edge_id : string) (clock : nat → Z)
    : io Z (string + Task J) :=
  match j_view (rc_payload cmd) with
  | JObject =>
      let p := rc_payload cmd in
      let device_id := GetStringOr p "device_id" "" in
      let capability := GetStringOr p "capability" "" in
      let action := GetStringOr p "action" "" in
      if str_empty device_id || str_empty capability || str_empty action
      then rejected (j_dump p) "missing required fields: device_id/capability/action"
      else make_task cmd edge_id device_id capability action clock
  | _ => rejected (RawCommand_toString cmd) "payload is not a json object"
  end.

Definition Normalize (n : normalizer) : RawCommand J → string → (nat → Z) → io Z (string + Task J) :=
  match n with
  | UUVCommandNormalizer => UUV_Normalize
  | DepthSensorCommandNormalizer => DepthSensor_Normalize
  | FlowSensorCommandNormalizer => FlowSensor_Normalize
  | WindSensorCommandNormalizer => WindSensor_Normalize
  end.

(** ** Controls

    The fields of the four demo classes: [ct_base] holds the means of the values
    a sensor reads, in the order of [base_keys], and [ct_noise] their standard
    deviation. *)

Inductive control_kind := UUVControl | DepthSensorControl | FlowSensorControl | WindSensorDevice.

Record control := {
  ct_kind : control_kind;
  ct_device_name : string;
  ct_simulate_latency_ms : Z;
  ct_base : list double;
  ct_noise : double
}.

Definition CreateControl (type : string) : option control :=
  if decide (type = "uuv" ∨ type = "UUV") then
    Some {| ct_kind := UUVControl; ct_device_name := "uuv-demo"; ct_simulate_latency_ms := 200;
            ct_base := []; ct_noise := double_of_Z 0 |}
  else if decide (type = "depth_sensor") then
    Some {| ct_kind := DepthSensorControl; ct_device_name := "depth-sensor-demo";
            ct_simulate_latency_ms := 50; ct_base := [double_of_Z 10]; ct_noise := scaled 2 1 |}
  else if decide (type = "flow_sensor") then
    Some {| ct_kind := FlowSensorControl; ct_device_name := "flow-sensor-demo";
            ct_simulate_latency_ms := 50; ct_base := [scaled 8 1]; ct_noise := scaled 1 1 |}
  else if decide (type = "wind_sensor") then
    Some {| ct_kind := WindSensorDevice; ct_device_name := "split-speed-sensor-demo";
            ct_simulate_latency_ms := 50; ct_base := [scaled 2 1; scaled 1 1; double_of_Z 0];
            ct_noise := scaled 5 2 |}
  else None.

Definition base_keys (k : control_kind) : list string :=
  match k with
  | UUVControl => []
  | DepthSensorControl => ["depth_base_m"]
  | FlowSensorControl => ["flow_base_mps"]
  | WindSensorDevice => ["vx_base"; "vy_base"; "vz_base"]
  end.

Definition noise_key (k : control_kind) : option string :=
  match k with
  | UUVControl => None
  | DepthSensorControl => Some "depth_noise_m"
  | FlowSensorControl => Some "flow_noise_mps"
  | WindSensorDevice => Some "noise"
  end.

Definition with_name (x : string) (c : control) : control := {|
  ct_kind := ct_kind c; ct_device_name := x; ct_simulate_latency_ms := ct_simulate_latency_ms c;
  ct_base := ct_base c; ct_noise := ct_noise c |}.
Definition with_latency (x : Z) (c : control) : control := {|
  ct_kind := ct_kind c; ct_device_name := ct_device_name c; ct_simulate_latency_ms := x;
  ct_base := ct_base c; ct_noise := ct_noise c |}.
Definition with_base (i : nat) (x : double) (c : control) : control := {|
  ct_kind := ct_kind c; ct_device_name := ct_device_name c;
  ct_simulate_latency_ms := ct_simulate_latency_ms c; ct_base := <[i := x]> (ct_base c);
  ct_noise := ct_noise c |}.
Definition with_noise (x : double) (c : control) : control := {|
  ct_kind := ct_kind c; ct_device_name := ct_device_name c;
  ct_simulate_latency_ms := ct_simulate_latency_ms c; ct_base := ct_base c; ct_noise := x |}.

(** [field = cfg.value(key, field)]. *)
Definition assign {A} (get : J → result A) (cfg : J) (key : string) (cur : control → A)
    (upd : A → control → control) : io control unit :=
  λ c, match j_value get cfg key (cur c) with
       | Ok x => (Ok tt, upd x c)
       | Err e => (Err e, c)
       end.

Fixpoint assign_bases (cfg : J) (i : nat) (keys : list string) : io control unit :=
  match keys with
  | [] => mret tt
  | key :: keys =>
      _ ← assign j_get_double cfg key (λ c, default (double_of_Z 0) (ct_base c !! i)) (with_base i);
      assign_bases cfg (S i) keys
  end.

Definition Init_fields (cfg : J) (k : control_kind) : io control unit :=
  _ ← assign j_get_string cfg "device_name" ct_device_name with_name;
  _ ← assign j_get_int cfg "simulate_latency_ms" ct_simulate_latency_ms with_latency;
  _ ← assign_bases cfg 0 (base_keys k);
  match noise_key k with
  | Some key => assign j_get_double cfg key ct_noise with_noise
  | None => mret tt
  end.

(** What was assigned before an exception stays. *)
Definition Control_Init (cfg : J) (err : option string) (c : control) : bool * option string * control :=
  match Init_fields cfg (ct_kind c) c with
  | (Ok _, c') => (true, err, c')
  | (Err e, c') => (false, set_err err (exn_what e), c')
  end.

(** The capability a sensor answers to, and the rest of the message otherwise. *)
Definition own_capability (k : control_kind) : option (string * string) :=
  match k with
  | UUVControl => None
  | DepthSensorControl => Some ("water_depth", "depth sensor: ")
  | FlowSensorControl => Some ("flow_speed", "flow sensor: ")
  | WindSensorDevice => Some ("wind", "split speed sensor: ")
  end.

(** The test before the simulated latency. *)
Definition refusal (k : control_kind) (t : Task J) : option string :=
  match own_capability k with
  | None => if str_empty (tk_capability t) || str_empty (tk_action t)
            then Some "capability/action is empty" else None
  | Some (capability, name) =>
      if decide (tk_capability t = capability) then None
      else Some ("unsupported capability for " +:+ name +:+ tk_capability t)
  end.

(** Code, message and output of a task that was not refused; [draws] are the
    numbers the normal distribution gives. *)
Definition outcome_uuv (t : Task J) : Z * string * J :=
  let none := j_object [] in
  if decide (tk_capability t = "navigate") then
    if decide (tk_action t = "set") then (Ec_Ok, "navigate set ok", j_object [("accepted", j_bool true)])
    else if decide (tk_action t = "stop") then (Ec_Ok, "navigate stop ok", j_object [("stopped", j_bool true)])
    else (InvalidCommand, "unknown action for navigate", none)
  else if decide (tk_capability t = "sample_water") then
    if decide (tk_action t = "start") then
      (Ec_Ok, "sample start ok", j_object [("sample_id", j_string "demo-001")])
    else (InvalidCommand, "unknown action for sample_water", none)
  else if decide (tk_capability t = "estop") then (Ec_EStop, "estop requested", none)
  else (InvalidCommand, "unknown capability", none).

Definition sample (c : control) (draws : nat → double) (i : nat) : J :=
  j_double (double_add (default (double_of_Z 0) (ct_base c !! i)) (draws i)).

Definition outcome_sensor (c : control) (draws : nat → double) (t : Task J) : Z * string * J :=
  let unknown name := (InvalidCommand, "unknown action for " +:+ name +:+ ": " +:+ tk_action t, j_object []) in
  match ct_kind c with
  | UUVControl => outcome_uuv t
  | DepthSensorControl =>
      if decide (tk_action t = "read") then
        (Ec_Ok, "depth read ok", j_object [("depth_m", sample c draws 0); ("unit", j_string "m")])
      else if decide (tk_action t = "calibrate") then
        (Ec_Ok, "calibrate ok", j_object [("calibrated", j_bool true)])
      else unknown "water_depth"
  | FlowSensorControl =>
      if decide (tk_action t = "read") then
        (Ec_Ok, "flow read ok", j_object [("flow_mps", sample c draws 0); ("unit", j_string "m/s")])
      else unknown "flow_speed"
  | WindSensorDevice =>
      if decide (tk_action t = "read") then
        (Ec_Ok, "split speed read ok",
         j_object [("vx", sample c draws 0); ("vy", sample c draws 1); ("vz", sample c draws 2);
                   ("unit", j_string "m/s")])
      else unknown "wind"
  end.

(** The parameters go to the log first and the output last; either may throw. *)
Definition DoTask (c : control) (draws : nat → double) (started finished : Z) (t : Task J)
    : result (TaskResult J) :=
  _ ← j_dump (tk_params t);
  match refusal (ct_kind c) t with
  | Some message =>
      Ok {| tr_code := InvalidCommand; tr_message := message; tr_started_at_ms := started;
            tr_finished_at_ms := finished; tr_output := j_object [] |}
  | None =>
      let '(code, message, output) := outcome_sensor c draws t in
      _ ← j_dump output;
      Ok {| tr_code := code; tr_message := message; tr_started_at_ms := started;
            tr_finished_at_ms := finished; tr_output := output |}
  end.
End control.

Section facts.
Context {J : Type} `{JN : JsonNumbers J}.
Implicit Types (cmd : RawCommand J) (t : Task J).

(** The number in a task's id: [seq] itself when the command brought an id of
    its own, the one after it otherwise. *)
Definition task_number cmd (seq : Z) : Z :=
  if negb (str_empty (rc_command_id cmd)) then seq else wrapu 64 (seq + 1).

Lemma make_task_spec cmd edge_id device_id capability action clock seq r seq' :
  make_task cmd edge_id device_id capability action clock seq = (r, seq') →
  seq' = wrapu 64 (task_number cmd seq + 1) ∧
  ∀ x, r = Ok x → ∃ t, x = inr t ∧
    tk_device_id t = device_id ∧ tk_edge_id t = edge_id ∧ tk_capability t = capability ∧
    tk_action t = action ∧ tk_state t = Pending ∧ tk_created_at_ms t = clock 2%nat ∧
    (rc_command_id cmd ≠ "" → tk_command_id t = rc_command_id cmd) ∧
    tk_task_id t = (GenerateId "task" (clock 1%nat) (task_number cmd seq)).1.
Proof.
  unfold make_task, task_number, mbind, io_bind, io_lift, mret, io_ret, generate.
  destruct (rc_command_id cmd) as [|ch rest] eqn:E; cbn [str_empty negb];
    cbn [GenerateId fst];
    (match goal with |- context [Task_toString ?task] => destruct (Task_toString task) end);
    intros [= <- <-]; (split; [done|]); intros x; try discriminate;
    intros [= <-]; eexists; (split; [reflexivity|]); by split_and!.
Qed.

Lemma rejected_spec text err seq r seq' :
  rejected (J := J) text err seq = (r, seq') → seq' = seq ∧ ∀ x, r = Ok x → x = inl err.
Proof.
  unfold rejected, mbind, io_bind, io_lift, mret, io_ret. destruct text; intros [= <- <-];
    (split; [done|]); [by intros x [= <-]|done].
Qed.

Lemma str_empty_false s : str_empty s = false ↔ s ≠ "".
Proof. by destruct s. Qed.

(** What every normaliser does: it fails and leaves the counter alone, or makes
    a task for the device named in the payload, with an id of its own. *)
Lemma Normalize_spec n cmd edge_id clock seq r seq' :
  Normalize n cmd edge_id clock seq = (r, seq') →
  (seq' = seq ∧ ∀ x, r = Ok x → ∃ err, x = inl err) ∨
  (seq' = wrapu 64 (task_number cmd seq + 1) ∧
   ∀ x, r = Ok x → ∃ t, x = inr t ∧
     tk_device_id t = GetStringOr (rc_payload cmd) "device_id" "" ∧ tk_device_id t ≠ "" ∧
     tk_edge_id t = edge_id ∧ tk_state t = Pending ∧ tk_created_at_ms t = clock 2%nat ∧
     (rc_command_id cmd ≠ "" → tk_command_id t = rc_command_id cmd) ∧
     tk_task_id t = (GenerateId "task" (clock 1%nat) (task_number cmd seq)).1 ∧
     match n with
     | UUVCommandNormalizer => tk_capability t ≠ "" ∧ tk_action t ≠ ""
     | DepthSensorCommandNormalizer => tk_capability t = "water_depth"
     | FlowSensorCommandNormalizer => tk_capability t = "flow_speed"
     | WindSensorCommandNormalizer => tk_capability t = "wind"
     end).
Proof.
  assert (Hrej : ∀ text err, rejected text err seq = (r, seq') →
            seq' = seq ∧ ∀ x, r = Ok x → ∃ err, x = inl err).
  { intros text err Hr. destruct (rejected_spec _ _ _ _ _ Hr) as [-> Hx].
    split; [done|]. intros x Hx'. eexists. by apply Hx. }
  assert (Hsensor : ∀ capability, Normalize_sensor capability cmd edge_id clock seq = (r, seq') →
    (seq' = seq ∧ ∀ x, r = Ok x → ∃ err, x = inl err) ∨
    (seq' = wrapu 64 (task_number cmd seq + 1) ∧
     ∀ x, r = Ok x → ∃ t, x = inr t ∧
     tk_device_id t = GetStringOr (rc_payload cmd) "device_id" "" ∧ tk_device_id t ≠ "" ∧
     tk_edge_id t = edge_id ∧ tk_state t = Pending ∧ tk_created_at_ms t = clock 2%nat ∧
     (rc_command_id cmd ≠ "" → tk_command_id t = rc_command_id cmd) ∧
     tk_task_id t = (GenerateId "task" (clock 1%nat) (task_number cmd seq)).1 ∧
     tk_capability t = capability)).
  { intros capability. unfold Normalize_sensor.
    destruct (j_view (rc_payload cmd)); try (by intros Hr; left; eapply Hrej).
    destruct (str_empty _) eqn:E; [by intros Hr; left; eapply Hrej|].
    intros Hr. right. destruct (make_task_spec _ _ _ _ _ _ _ _ _ Hr) as [-> Hx]. split; [done|].
    intros x Hx'. destruct (Hx x Hx') as (t & -> & Hd & He & Hcap & _ & Hst & Hcr & Hid & Ht).
    apply str_empty_false in E. exists t. split_and!; try done. by rewrite Hd. }
  destruct n; [|by apply Hsensor..].
  cbn [Normalize]. unfold UUV_Normalize.
  destruct (j_view (rc_payload cmd)); try (by intros Hr; left; eapply Hrej).
  destruct (str_empty _ || str_empty _ || str_empty _) eqn:E; [by intros Hr; left; eapply Hrej|].
  apply orb_false_iff in E as [E E3]. apply orb_false_iff in E as [E1 E2].
  apply str_empty_false in E1, E2, E3.
  intros Hr. right. destruct (make_task_spec _ _ _ _ _ _ _ _ _ Hr) as [-> Hx]. split; [done|].
  intros x Hx'. destruct (Hx x Hx') as (t & -> & Hd & He & Hcap & Hact & Hst & Hcr & Hid & Ht).
  exists t. split_and!; try done; [by rewrite Hd|by rewrite Hcap|by rewrite Hact].
Qed.

(** The normaliser and the control that the factories make for one device
    type fit: a command the normaliser accepts is never refused by the control
    for its capability, so that what the task becomes depends on its action alone. *)
Theorem normalized_task_not_refused type n c cmd edge_id clock seq t seq' :
  CreateNormalizer type = Some n → CreateControl type = Some c →
  Normalize n cmd edge_id clock seq = (Ok (inr t), seq') →
  refusal (ct_kind c) t = None.
Proof.
  intros Hn Hc Ht. destruct (Normalize_spec _ _ _ _ _ _ _ Ht) as [[_ Hx]|[_ Hx]].
  { by destruct (Hx _ eq_refl). }
  destruct (Hx _ eq_refl) as (t' & [=<-] & Hf).
  unfold CreateNormalizer, CreateControl in *.
  repeat case_decide; simplify_eq; cbn;
    destruct_and!; unfold refusal; cbn; try by rewrite decide_True.
  destruct (tk_capability t), (tk_action t); done.
Qed.
End facts.

Definition demo_cmd : RawCommand jvalue := {|
  rc_command_id := ""; rc_source := "api"; rc_payload := VObj [("device_id", VStr "d1")];
  rc_received_at_ms := 5; rc_idempotency_key := ""; rc_dedup_window_ms := 0 |}.

Definition demo_sensor_task : Task jvalue := Eval vm_compute in
  match (Normalize DepthSensorCommandNormalizer demo_cmd "e" (λ _, 5) 0).1 with
  | Ok (inr t) => t | _ => Task_default end.

Lemma normalized_task_not_refused_witness :
  refusal DepthSensorControl demo_sensor_task = None ∧
  tk_task_id demo_sensor_task = "task-5-1" ∧ tk_action demo_sensor_task = "read".
Proof.
  assert (Ht : Normalize DepthSensorCommandNormalizer demo_cmd "e" (λ _, 5) 0 =
               (Ok (inr demo_sensor_task), 2)) by reflexivity.
  split; [|split; reflexivity].
  exact (normalized_task_not_refused "depth_sensor" _ _ demo_cmd "e" (λ _, 5) 0 demo_sensor_task 2
           eq_refl eq_refl Ht).
Defined.
