(* ===== verification/TaskQueue.v ===== *)
(** * The task queue

    Model of my_control/TaskQueue.cpp, the queue between an edge and its
    devices.  The critical sections are functions; [tq_step] runs any number of
    consumers over one queue while other threads push, clear and shut down.
    [Push] and [Shutdown] notify after they released the mutex, so that the
    notification is a step of its own. *)

From S2P Require Import Prelude CondVar.

Section queue.
Context {T : Type}.

Record TaskQueue := { tq_q : list T; tq_shutdown : bool }.

Definition TaskQueue_new : TaskQueue := {| tq_q := []; tq_shutdown := false |}.

(** The section of [Push]; [true]: the task was queued and a [notify_one]
    follows. *)
Definition Push (task : T) (q : TaskQueue) : bool * TaskQueue :=
  if tq_shutdown q then (false, q)
  else (true, {| tq_q := tq_q q ++ [task]; tq_shutdown := tq_shutdown q |}).

(** The predicate of both waits. *)
Definition pop_ready (q : TaskQueue) : bool :=
  tq_shutdown q || negb (match tq_q q with [] => true | _ => false end).

(** What follows the wait: [None] is [return false]. *)
Definition pop_front (q : TaskQueue) : option T * TaskQueue :=
  match tq_q q with
  | [] => (None, q)
  | out :: rest => (Some out, {| tq_q := rest; tq_shutdown := tq_shutdown q |})
  end.

(** [PopBlocking] from the moment the mutex is held: [None] is blocking. *)
Definition PopBlocking (q : TaskQueue) : option (option T * TaskQueue) :=
  if pop_ready q then Some (pop_front q) else None.

(** The deadline passed: [wait_until] returns the predicate. *)
Definition PopBlocking_expired (q : TaskQueue) : option T * TaskQueue :=
  if negb (pop_ready q) then (None, q) else pop_front q.

Definition Size (q : TaskQueue) : nat := length (tq_q q).
Definition Clear (q : TaskQueue) : TaskQueue := {| tq_q := []; tq_shutdown := tq_shutdown q |}.
Definition IsShutdown (q : TaskQueue) : bool := tq_shutdown q.

(** The section of [Shutdown]; [false]: it returns early and nobody is
    notified. *)
Definition Shutdown (q : TaskQueue) : bool * TaskQueue :=
  if tq_shutdown q then (false, q) else (true, {| tq_q := tq_q q; tq_shutdown := true |}).

(** ** Threads

    A consumer is outside, blocked, or awake again; [timed] tells whether the
    wait has a deadline. *)

Inductive consumer :=
| Outside
| Blocked (timed : bool)
| Awake (timed : bool).

Definition blocked (t : consumer) : bool := match t with Blocked _ => true | _ => false end.
Definition awake (t : consumer) : bool := match t with Awake _ => true | _ => false end.
Definition wake (t : consumer) : consumer := match t with Blocked b => Awake b | _ => t end.

Inductive pops : consumer → bool → Prop :=
| pops_call timed : pops Outside timed
| pops_again timed : pops (Awake timed) timed.

(** [due_one] pushes have not notified yet, nor have [due_all] shutdowns;
    [accepted] and [removed] are the tasks that entered and left, in order. *)
Record state := {
  tq : TaskQueue;
  consumers : list consumer;
  due_one : nat;
  due_all : nat;
  accepted : list T;
  removed : list T
}.

Definition with_consumers (ts : list consumer) (s : state) : state := {|
  tq := tq s; consumers := ts; due_one := due_one s; due_all := due_all s;
  accepted := accepted s; removed := removed s |}.

(** A consumer returned with [o]. *)
Definition returned (i : nat) (o : option T) (q : TaskQueue) (s : state) : state := {|
  tq := q; consumers := <[i := Outside]> (consumers s); due_one := due_one s; due_all := due_all s;
  accepted := accepted s; removed := removed s ++ option_list o |}.

Inductive tq_step (s : state) : state → Prop :=
| step_push task q : Push task (tq s) = (true, q) →
    tq_step s {| tq := q; consumers := consumers s; due_one := S (due_one s); due_all := due_all s;
                 accepted := accepted s ++ [task]; removed := removed s |}
| step_notify_one n ts : due_one s = S n → notify_one blocked wake (consumers s) ts →
    tq_step s {| tq := tq s; consumers := ts; due_one := n; due_all := due_all s;
                 accepted := accepted s; removed := removed s |}
| step_pop i t timed o q : consumers s !! i = Some t → pops t timed →
    PopBlocking (tq s) = Some (o, q) → tq_step s (returned i o q s)
| step_block i t timed : consumers s !! i = Some t → pops t timed → PopBlocking (tq s) = None →
    tq_step s (with_consumers (<[i := Blocked timed]> (consumers s)) s)
| step_expire i t o q : consumers s !! i = Some t → t = Blocked true ∨ t = Awake true →
    PopBlocking_expired (tq s) = (o, q) → tq_step s (returned i o q s)
| step_spurious i b : consumers s !! i = Some (Blocked b) →
    tq_step s (with_consumers (<[i := Awake b]> (consumers s)) s)
| step_clear :
    tq_step s {| tq := Clear (tq s); consumers := consumers s; due_one := due_one s;
                 due_all := due_all s; accepted := accepted s; removed := removed s ++ tq_q (tq s) |}
| step_shutdown q : Shutdown (tq s) = (true, q) →
    tq_step s {| tq := q; consumers := consumers s; due_one := due_one s; due_all := S (due_all s);
                 accepted := accepted s; removed := removed s |}
| step_notify_all n : due_all s = S n →
    tq_step s {| tq := tq s; consumers := notify_all blocked wake (consumers s); due_one := due_one s;
                 due_all := n; accepted := accepted s; removed := removed s |}.

Definition start (n : nat) : state := {|
  tq := TaskQueue_new; consumers := replicate n Outside; due_one := 0; due_all := 0;
  accepted := []; removed := [] |}.
End queue.
Arguments TaskQueue : clear implicits.
Arguments state : clear implicits.

Section facts.
Context {T : Type}.
Implicit Types (q : TaskQueue T) (s : state T).

(** Order and wake-ups: a thread is blocked on a queue with tasks only if for
    each of them somebody is awake or about to be notified, and on a queue that
    is shut down only while the notification of the shutdown is due. *)
Record tq_ok (s : state T) : Prop := {
  ok_order : accepted s = removed s ++ tq_q (tq s);
  ok_shutdown : tq_shutdown (tq s) = true → (0 < count blocked (consumers s))%nat → (0 < due_all s)%nat;
  ok_awake : (0 < count blocked (consumers s))%nat →
    (length (tq_q (tq s)) <= count awake (consumers s) + due_one s)%nat
}.

Lemma pop_front_spec q o q' :
  pop_front q = (o, q') → tq_shutdown q' = tq_shutdown q ∧ tq_q q = option_list o ++ tq_q q'.
Proof. unfold pop_front. destruct q as [[|x l] b]; cbn; by intros [= <- <-]. Qed.

(** A consumer that goes outside with what was at the front, if anything. *)
Lemma tq_ok_returned s i t o q :
  tq_ok s → consumers s !! i = Some t → pop_front (tq s) = (o, q) → tq_ok (returned i o q s).
Proof.
  intros [Ho Hs Ha] Hi Hf. destruct (pop_front_spec _ _ _ Hf) as [Hsh Hq].
  pose proof (count_insert blocked _ _ _ Outside Hi) as C1.
  pose proof (count_insert awake _ _ _ Outside Hi) as C2. cbn [blocked awake] in C1, C2.
  split; cbn.
  - by rewrite Ho, Hq, app_assoc.
  - rewrite Hsh. intros H1 H2. apply Hs; [done|lia].
  - intros Hb. assert (Ha' : (length (tq_q (tq s)) <= count awake (consumers s) + due_one s)%nat) by (apply Ha; lia).
    rewrite Hq, length_app in Ha'. destruct o as [x|]; cbn in Ha'.
    + destruct (awake t); lia.
    + assert (Hn : tq_q q = []).
      { unfold pop_front in Hf. destruct (tq_q (tq s)) eqn:E; [|done]. injection Hf as <-. exact E. }
      rewrite Hn. cbn. lia.
Qed.

Lemma tq_ok_step s s' : tq_ok s → tq_step s s' → tq_ok s'.
Proof.
  intros Hok [task q Hp|n ts Hn Ht|i t timed o q Hi Ht Hp|i t timed Hi Ht Hp|i t o q Hi Ht Hp
             |i b Hi| |q Hp|n Hn].
  - unfold Push in Hp. destruct (tq_shutdown (tq s)) eqn:E; [done|]. injection Hp as <-.
    destruct Hok as [Ho Hs Ha]. split; cbn; [by rewrite Ho, app_assoc|congruence|].
    rewrite length_app. cbn. intros Hb. specialize (Ha Hb). lia.
  - destruct Hok as [Ho Hs Ha].
    destruct (notify_one_count blocked wake awake _ _ ltac:(by intros []) Ht) as [[H1 ->]|[H1 H2]];
      split; cbn; try done; try lia; intros Hsh Hb; apply Hs; lia || done.
  - unfold PopBlocking in Hp. destruct (pop_ready (tq s)); [|done]. injection Hp as Hp.
    by apply (tq_ok_returned _ _ _ _ _ Hok Hi Hp).
  - assert (Hq : tq_q (tq s) = [] ∧ tq_shutdown (tq s) = false).
    { unfold PopBlocking, pop_ready in Hp. destruct (tq_q (tq s)), (tq_shutdown (tq s)); done. }
    destruct Hq as [Hq Hsh], Hok as [Ho Hs Ha].
    split; cbn; [done|congruence|]. rewrite Hq. cbn. lia.
  - unfold PopBlocking_expired in Hp. apply (tq_ok_returned _ _ _ _ _ Hok Hi).
    destruct (pop_ready (tq s)) eqn:E; cbn in Hp; [done|]. rewrite <- Hp.
    unfold pop_ready, pop_front in *. by destruct (tq_q (tq s)), (tq_shutdown (tq s)).
  - pose proof (count_insert blocked _ _ _ (Awake b) Hi) as C1.
    pose proof (count_insert awake _ _ _ (Awake b) Hi) as C2. cbn [blocked awake] in C1, C2.
    destruct Hok as [Ho Hs Ha]. split; cbn; [done|intros H1 H2; apply Hs; lia || done|lia].
  - destruct Hok as [Ho Hs Ha]. split; cbn; [by rewrite app_nil_r|done|lia].
  - unfold Shutdown in Hp. destruct (tq_shutdown (tq s)); [done|]. injection Hp as <-.
    destruct Hok as [Ho Hs Ha]. split; cbn; [done|lia|done].
  - destruct Hok as [Ho Hs Ha]. split; cbn; [done| |]; rewrite notify_all_none by (by intros []); lia.
Qed.

Lemma tq_ok_start n : tq_ok (start (T := T) n).
Proof.
  assert (Hz : count blocked (replicate n Outside) = 0%nat).
  { apply count_zero. intros i t Hi. by apply lookup_replicate in Hi as [-> _]. }
  split; cbn; [done|by intros|]. rewrite Hz. lia.
Qed.

Lemma tq_reachable n s : rtc tq_step (start n) s → tq_ok s.
Proof.
  intros Hr. pose proof (tq_ok_start n) as H0. revert H0.
  induction Hr as [|s0 s1 s2 Hstep _ IH]; [done|]. intros Hok. by eapply IH, tq_ok_step.
Qed.
End facts.

(** C33: any number of consumers of a task queue, with every interleaving of
    pushes, pops with and without deadline, time-outs, spurious wake-ups, clears,
    a shutdown and the notifications that follow the critical sections: tasks
    leave in the order they were accepted, none lost or duplicated; while a
    consumer is blocked, every queued task has a consumer that is awake or a
    notification that is due; and none stays blocked on a queue that is shut
    down once the notification of the shutdown is through. *)
Theorem task_queue_correct {T} n (s : state T) :
  rtc tq_step (start n) s →
  accepted s = removed s ++ tq_q (tq s) ∧
  ((0 < count blocked (consumers s))%nat →
   (length (tq_q (tq s)) <= count awake (consumers s) + due_one s)%nat) ∧
  (tq_shutdown (tq s) = true → due_all s = 0%nat → count blocked (consumers s) = 0%nat).
Proof.
  intros Hr. destruct (tq_reachable n s Hr) as [Ho Hs Ha]. split_and!; [done..|].
  intros H1 H2. specialize (Hs H1). lia.
Qed.

Lemma task_queue_correct_witness :
  ∃ s : state nat, rtc tq_step (start 2) s ∧ tq_q (tq s) = [7%nat] ∧ due_one s = 1%nat ∧
    (length (tq_q (tq s)) <= count awake (consumers s) + due_one s)%nat.
Proof.
  set (s := {| tq := {| tq_q := [7%nat]; tq_shutdown := false |};
               consumers := [Blocked true; Blocked false]; due_one := 1; due_all := 0;
               accepted := [7%nat]; removed := [] |}).
  assert (Hr : rtc tq_step (start 2) s).
  { eapply rtc_l; [by apply (step_block _ 0 Outside true); [|constructor|]|].
    eapply rtc_l; [by apply (step_block _ 1 Outside false); [|constructor|]|].
    eapply rtc_l; [by apply (step_push _ 7%nat)|]. apply rtc_refl. }
  exists s. split; [exact Hr|]. do 2 (split; [reflexivity|]).
  apply (task_queue_correct 2 s Hr). vm_compute. lia.
Defined.
