(* ===== verification/Workflow.v ===== *)
(** * The workflow thread of a device

    Model of my_control/demo/Workflow.cpp: the thread that takes the tasks of
    one device from its queue, runs the start callback, the control and the
    finish callback.  [run_step] is one step of [RunLoop]; [wf_step] interleaves
    it with the calls of other threads: [Start], [Stop] and [Join] take no lock,
    so that each is cut between its accesses of the flags and the thread.  The pop has a deadline, so that waking
    up is not needed for progress: at any moment the wait may end, with a task
    if there is one ([TaskQueue.tq_step] has the wait in detail). *)

From S2P Require Import Prelude Json CondVar TaskData TaskQueue.

Section workflow.
(** [S] is the state behind the callbacks, which other threads change by
    [owner_step]; [do_task t o] says that the control may end in [o] for [t]. *)
Context {J : Type} `{JsonOps J} {S : Type}.
Inductive ending :=
| Returns (r : TaskResult J)
| Throws (e : exn)
| ThrowsUnknown.                             (** not a [std::exception] *)

Context (do_task : Task J → ending → Prop).
Context (on_start : option (Task J → io S unit)).
Context (on_finish : option (Task J → TaskResult J → io S unit)).
Context (owner_step : S → S → Prop).

(** Where the thread is in [RunLoop]. *)
Inductive run_pc :=
| WhileStop                                  (** [while (!stop_)] *)
| TestEStop
| InPop
| TestShutdown                               (** the pop returned false *)
| AtStart (task : Task J)
| AtDoTask (task : Task J)
| AtFinish (task : Task J) (r : TaskResult J)
| AtExit                                     (** after the loop *)
| Returned.

(** [worker_] is [None] when the thread object is not joinable. *)
Record Workflow := { wf_running : bool; wf_stop : bool; wf_worker : option run_pc }.

Definition Workflow_new : Workflow := {| wf_running := false; wf_stop := false; wf_worker := None |}.

(** *** Start, Stop and Join, by sections *)

(** [running_.exchange(true)]: whether it was false. *)
Definition Start_exchange (w : Workflow) : bool * Workflow :=
  (negb (wf_running w), {| wf_running := true; wf_stop := wf_stop w; wf_worker := wf_worker w |}).
Definition Start_reset (w : Workflow) : Workflow :=
  {| wf_running := wf_running w; wf_stop := false; wf_worker := wf_worker w |}.
(** [None]: assigning a new thread to a joinable [worker_] calls
    [std::terminate]. *)
Definition Start_thread (w : Workflow) : option Workflow :=
  match wf_worker w with
  | Some _ => None
  | None => Some {| wf_running := wf_running w; wf_stop := wf_stop w; wf_worker := Some WhileStop |}
  end.

Definition Start (w : Workflow) : option (bool * Workflow) :=
  let '(go, w) := Start_exchange w in
  if negb go then Some (false, w) else pair true <$> Start_thread (Start_reset w).

Definition Stop_flag (w : Workflow) : Workflow :=
  {| wf_running := wf_running w; wf_stop := true; wf_worker := wf_worker w |}.

Definition Stop (w : Workflow) : Workflow := if negb (wf_running w) then w else Stop_flag w.

(** [None]: [join] blocks. *)
Definition Join_thread (w : Workflow) : option Workflow :=
  match wf_worker w with
  | Some Returned | None => Some {| wf_running := wf_running w; wf_stop := wf_stop w; wf_worker := None |}
  | Some _ => None
  end.
Definition Join_flag (w : Workflow) : Workflow :=
  {| wf_running := false; wf_stop := wf_stop w; wf_worker := wf_worker w |}.

Definition Join (w : Workflow) : option Workflow := Join_flag <$> Join_thread w.

Definition exception_result (message : string) : TaskResult J := {|
  tr_code := InternalError; tr_message := message; tr_started_at_ms := 0; tr_finished_at_ms := 0;
  tr_output := j_object []
|}.

(** The [try] around [DoTask]. *)
Definition task_result (o : ending) : TaskResult J :=
  match o with
  | Returns r => r
  | Throws e => exception_result ("DoTask exception: " +:+ exn_what e)
  | ThrowsUnknown => exception_result "DoTask unknown exception"
  end.

(** A callback whose exceptions are caught. *)
Definition guarded (f : option (io S unit)) (s : S) : S :=
  match f with Some f => (f s).2 | None => s end.

Inductive event :=
| Started (task : Task J)
| Executed (task : Task J) (r : TaskResult J)
| Finished (task : Task J) (r : TaskResult J).

(** What a call in progress does next. *)
Inductive call_pc := StartReset | StartThread | StopFlag | JoinFlag.

(** [calls]: the calls in progress.  [estop]: the flag, if one was set.  [taken] are the tasks popped, [log] what
    was done with them, [since] the pops since the flag was last changed. *)
Record wf_state := {
  wf : Workflow;
  calls : list call_pc;
  queue : TaskQueue (Task J);
  estop : bool;
  owner : S;
  accepted : list (Task J);
  taken : list (Task J);
  log : list event;
  since : nat
}.

Definition set_pc (pc : run_pc) (s : wf_state) : wf_state := {|
  calls := calls s;
  wf := {| wf_running := wf_running (wf s); wf_stop := wf_stop (wf s); wf_worker := Some pc |};
  queue := queue s; estop := estop s; owner := owner s; accepted := accepted s; taken := taken s;
  log := log s; since := since s
|}.

(** The pop returned [o] and left [q]. *)
Definition popped (o : option (Task J)) (q : TaskQueue (Task J)) (s : wf_state) : wf_state := {|
  calls := calls s;
  wf := {| wf_running := wf_running (wf s); wf_stop := wf_stop (wf s);
           wf_worker := Some (match o with Some t => AtStart t | None => TestShutdown end) |};
  queue := q; estop := estop s; owner := owner s; accepted := accepted s;
  taken := taken s ++ option_list o; log := log s; since := since s + length (option_list o)
|}.

Definition did (pc : run_pc) (e : event) (owner' : S) (s : wf_state) : wf_state := {|
  calls := calls s;
  wf := {| wf_running := wf_running (wf s); wf_stop := wf_stop (wf s); wf_worker := Some pc |};
  queue := queue s; estop := estop s; owner := owner'; accepted := accepted s; taken := taken s;
  log := log s ++ [e]; since := since s
|}.

(** The steps of the thread. *)
Inductive run_step (s : wf_state) : run_pc → wf_state → Prop :=
| run_while :
    run_step s WhileStop (set_pc (if wf_stop (wf s) then AtExit else TestEStop) s)
| run_estop :
    run_step s TestEStop (set_pc (if estop s then WhileStop else InPop) s)
| run_pop o q : PopBlocking (queue s) = Some (o, q) → run_step s InPop (popped o q s)
| run_pop_timeout o q : PopBlocking_expired (queue s) = (o, q) → run_step s InPop (popped o q s)
| run_shutdown :
    run_step s TestShutdown (set_pc (if IsShutdown (queue s) then AtExit else WhileStop) s)
| run_start t :
    run_step s (AtStart t)
      (did (AtDoTask t) (Started t) (guarded ((λ f, f t) <$> on_start) (owner s)) s)
| run_do t r : do_task t r →
    run_step s (AtDoTask t) (did (AtFinish t (task_result r)) (Executed t (task_result r)) (owner s) s)
| run_finish t r :
    run_step s (AtFinish t r)
      (did WhileStop (Finished t r) (guarded ((λ f, f t r) <$> on_finish) (owner s)) s)
| run_exit :
    run_step s AtExit
      {| wf := {| wf_running := false; wf_stop := wf_stop (wf s); wf_worker := Some Returned |}; calls := calls s;
         queue := queue s; estop := estop s; owner := owner s; accepted := accepted s;
         taken := taken s; log := log s; since := since s |}.

Definition with_wf (w : Workflow) (s : wf_state) : wf_state := {|
  wf := w; calls := calls s; queue := queue s; estop := estop s; owner := owner s; accepted := accepted s;
  taken := taken s; log := log s; since := since s
|}.

Definition with_calls (cs : list call_pc) (s : wf_state) : wf_state := {|
  wf := wf s; calls := cs; queue := queue s; estop := estop s; owner := owner s; accepted := accepted s;
  taken := taken s; log := log s; since := since s
|}.

(** The sections of the calls: what follows in the call, if anything. *)
Inductive call_step (s : wf_state) : call_pc → option call_pc → wf_state → Prop :=
| call_start_reset : call_step s StartReset (Some StartThread) (with_wf (Start_reset (wf s)) s)
| call_start_thread w : Start_thread (wf s) = Some w → call_step s StartThread None (with_wf w s)
| call_stop_flag : call_step s StopFlag None (with_wf (Stop_flag (wf s)) s)
| call_join_flag : call_step s JoinFlag None (with_wf (Join_flag (wf s)) s).

(** Who makes a step: the workflow's thread, a call of [Start] on its way to
    start one, or anything else. *)
Inductive label := Worker | Starting | Other.

Inductive wf_step : label → wf_state → wf_state → Prop :=
| step_worker s pc s' : wf_worker (wf s) = Some pc → run_step s pc s' → wf_step Worker s s'
| step_start s go w : Start_exchange (wf s) = (go, w) →
    wf_step Other s (with_calls (calls s ++ if go then [StartReset] else []) (with_wf w s))
| step_stop s :
    wf_step Other s (with_calls (calls s ++ if wf_running (wf s) then [StopFlag] else []) s)
| step_join s w : Join_thread (wf s) = Some w →
    wf_step Other s (with_calls (calls s ++ [JoinFlag]) (with_wf w s))
| step_call s c1 pc c2 next s' : calls s = c1 ++ pc :: c2 → call_step s pc next s' →
    wf_step (match pc with StartReset | StartThread => Starting | _ => Other end) s
      (with_calls (c1 ++ option_list next ++ c2) s')
| step_push s t q : Push t (queue s) = (true, q) →
    wf_step Other s {| wf := wf s; calls := calls s; queue := q; estop := estop s; owner := owner s;
                       accepted := accepted s ++ [t]; taken := taken s; log := log s; since := since s |}
| step_queue_shutdown s b q : Shutdown (queue s) = (b, q) →
    wf_step Other s {| wf := wf s; calls := calls s; queue := q; estop := estop s; owner := owner s;
                       accepted := accepted s; taken := taken s; log := log s; since := since s |}
| step_estop s b :
    wf_step Other s {| wf := wf s; calls := calls s; queue := queue s; estop := b; owner := owner s;
                       accepted := accepted s; taken := taken s; log := log s; since := 0 |}
| step_owner s o : owner_step (owner s) o →
    wf_step Other s {| wf := wf s; calls := calls s; queue := queue s; estop := estop s; owner := o;
                       accepted := accepted s; taken := taken s; log := log s; since := since s |}.

Inductive wf_run : list label → wf_state → wf_state → Prop :=
| run_nil s : wf_run [] s s
| run_cons l s s1 ls s2 : wf_step l s s1 → wf_run ls s1 s2 → wf_run (l :: ls) s s2.

Definition wf_start (owner0 : S) : wf_state := {|
  wf := Workflow_new; calls := []; queue := TaskQueue_new; estop := false; owner := owner0;
  accepted := []; taken := []; log := []; since := 0
|}.

(** ** What the thread did *)

Definition pc_of (w : Workflow) : run_pc := default Returned (wf_worker w).

(** A task that was executed leaves three entries in the log. *)
Definition entries (x : Task J * TaskResult J) : list event :=
  [Started x.1; Executed x.1 x.2; Finished x.1 x.2].

(** The task under way, and its entries so far. *)
Definition in_flight (pc : run_pc) : list (Task J) :=
  match pc with AtStart t | AtDoTask t | AtFinish t _ => [t] | _ => [] end.
Definition partial (pc : run_pc) : list event :=
  match pc with
  | AtDoTask t => [Started t]
  | AtFinish t r => [Started t; Executed t r]
  | _ => []
  end.

(** The result of a task: what its control returned, or an internal error that
    says what it threw. *)
Definition result_of (x : Task J * TaskResult J) : Prop :=
  do_task x.1 (Returns x.2) ∨
  (tr_code x.2 = InternalError ∧ tr_output x.2 = j_object [] ∧
   ((∃ e, do_task x.1 (Throws e) ∧ tr_message x.2 = "DoTask exception: " +:+ exn_what e) ∨
    (do_task x.1 ThrowsUnknown ∧ tr_message x.2 = "DoTask unknown exception"))).

Lemma task_result_of t o : do_task t o → result_of (t, task_result o).
Proof. destruct o as [r|e|]; intros Ho; [by left|right..]; do 2 (split; [done|]); [left; by exists e|by right]. Qed.

Record wf_ok (s : wf_state) : Prop := {
  ok_queue : accepted s = taken s ++ tq_q (queue s);
  ok_log : ∃ completed, taken s = completed.*1 ++ in_flight (pc_of (wf s)) ∧
             log s = concat (map entries completed) ++ partial (pc_of (wf s)) ∧
             Forall result_of completed;
  ok_result t r : pc_of (wf s) = AtFinish t r → result_of (t, r);
  ok_since : estop s = true → (since s + match pc_of (wf s) with InPop => 1 | _ => 0 end <= 1)%nat
}.

Lemma pop_takes q o q' : pop_front q = (o, q') → tq_q q = option_list o ++ tq_q (T := Task J) q'.
Proof. intros Hp. by apply pop_front_spec in Hp as [_ ->]. Qed.

Lemma expired_pop q : PopBlocking_expired (T := Task J) q = pop_front q.
Proof.
  unfold PopBlocking_expired, pop_ready, pop_front.
  by destruct (tq_q q), (tq_shutdown q).
Qed.

Lemma wf_ok_popped s o q :
  wf_ok s → wf_worker (wf s) = Some InPop → pop_front (queue s) = (o, q) → wf_ok (popped o q s).
Proof.
  intros [Hq (l & Ht & Hl & Hr) _ Hs] Hw Hp. apply pop_takes in Hp.
  unfold pc_of in *. rewrite Hw in *. cbn in Ht, Hl, Hs. rewrite app_nil_r in Ht, Hl.
  split; cbn.
  - by rewrite Hq, Hp, app_assoc.
  - exists l. unfold pc_of. cbn. destruct o; cbn; rewrite ?app_nil_r; split_and!; done || by rewrite Ht.
  - by destruct o.
  - intros He. specialize (Hs He). unfold pc_of. destruct o; cbn; lia.
Qed.

(** A step that moves between places without a task, or to the end. *)
Lemma wf_ok_move s w :
  wf_ok s → in_flight (pc_of (wf s)) = [] → in_flight (pc_of w) = [] →
  (pc_of w = InPop → pc_of (wf s) = TestEStop ∧ estop s = false ∨ pc_of (wf s) = InPop) →
  wf_ok (with_wf w s).
Proof.
  intros [Hq (l & Ht & Hl & Hr) _ Hs] H1 H2 H3.
  assert (Hn : ∀ pc, in_flight pc = [] → partial pc = []) by (by intros []).
  split; cbn.
  - done.
  - exists l. rewrite Ht, Hl, H1, H2, !Hn by done. done.
  - intros t r E. by rewrite E in H2.
  - intros He. specialize (Hs He). destruct (pc_of w) eqn:E; try lia.
    destruct (H3 eq_refl) as [[_ ?]|E']; [congruence|]. by rewrite E' in Hs.
Qed.

Lemma wf_ok_run s pc s' : wf_ok s → wf_worker (wf s) = Some pc → run_step s pc s' → wf_ok s'.
Proof.
  intros Hok Hw Hstep. assert (Hpc : pc_of (wf s) = pc) by (unfold pc_of; by rewrite Hw).
  destruct Hstep as [| |o q Hp|o q Hp| |t|t r Hr|t r|].
  - apply wf_ok_move; [done|by rewrite Hpc|by destruct (wf_stop _)|by destruct (wf_stop _)].
  - apply wf_ok_move; [done|by rewrite Hpc|by destruct (estop _)|].
    cbn. rewrite Hpc. destruct (estop s); [done|]. by left.
  - apply wf_ok_popped; [done..|]. unfold PopBlocking in Hp.
    destruct (pop_ready _); [|done]. by injection Hp as Hp.
  - apply wf_ok_popped; [done..|]. by rewrite <- expired_pop.
  - apply wf_ok_move; [done|by rewrite Hpc|by destruct (IsShutdown _)|by destruct (IsShutdown _)].
  - destruct Hok as [Hq (l & Ht & Hl & Hr) _ Hs]. rewrite Hpc in *. split; cbn; try done.
    exists l. cbn in *. by rewrite Hl, app_nil_r.
  - destruct Hok as [Hq (l & Ht & Hl & Hr') _ Hs]. rewrite Hpc in *. split; cbn; try done.
    + exists l. cbn in *. by rewrite Hl, <- app_assoc.
    + intros t' r'. unfold pc_of. cbn. intros [= <- <-]. by apply task_result_of.
  - destruct Hok as [Hq (l & Ht & Hl & Hr) Hf Hs]. rewrite Hpc in *. split; cbn; try done.
    exists (l ++ [(t, r)]). cbn in *. rewrite fmap_app, map_app, concat_app, Ht, Hl. cbn.
    rewrite <- !app_assoc, !app_nil_r. split_and!; [done..|].
    apply Forall_app. split; [done|]. apply Forall_singleton. by apply Hf.
  - apply (wf_ok_move s {| wf_running := false; wf_stop := wf_stop (wf s); wf_worker := Some Returned |});
      [done|by rewrite Hpc|done|done].
Qed.

Lemma wf_ok_calls s cs : wf_ok s → wf_ok (with_calls cs s).
Proof. by intros []. Qed.

(** A call that changes the flags only. *)
Lemma wf_ok_flags s w : wf_ok s → wf_worker w = wf_worker (wf s) → wf_ok (with_wf w s).
Proof.
  intros [Hq Hl Hr Hs] Hw. assert (E : pc_of w = pc_of (wf s)) by (unfold pc_of; by rewrite Hw).
  by split; cbn; rewrite ?E.
Qed.

Lemma wf_ok_call s pc next s' : wf_ok s → call_step s pc next s' → wf_ok s'.
Proof.
  intros Hok Hc. destruct Hc as [|w Hw| |]; [by apply wf_ok_flags| |by apply wf_ok_flags..].
  unfold Start_thread in Hw. destruct (wf_worker (wf s)) eqn:E; [done|]. injection Hw as <-.
  apply wf_ok_move; [done| |done|done]. unfold pc_of. by rewrite E.
Qed.

Lemma wf_ok_step l s s' : wf_ok s → wf_step l s s' → wf_ok s'.
Proof.
  intros Hok Hstep. destruct Hstep as [s pc s' Hw Hr|s b w Hs|s|s w Hj|s c1 pc c2 next s' _ Hc|s t q Hp|s b q Hp|s b|s o Ho].
  - by eapply wf_ok_run.
  - apply wf_ok_calls, wf_ok_flags; [done|]. by injection Hs as _ <-.
  - by apply wf_ok_calls.
  - apply wf_ok_calls, wf_ok_move; [done| | |]; unfold Join_thread in Hj; unfold pc_of;
      destruct (wf_worker (wf s)) as [[]|]; try done; by injection Hj as <-.
  - by eapply wf_ok_calls, wf_ok_call.
  - unfold Push in Hp. destruct (tq_shutdown (queue s)); [done|]. injection Hp as <-.
    destruct Hok as [Hq Hl Hr Hs]. split; cbn; try done. by rewrite Hq, app_assoc.
  - assert (Hq' : tq_q q = tq_q (queue s)).
    { unfold Shutdown in Hp. destruct (tq_shutdown (queue s)); by injection Hp as <- <-. }
    destruct Hok as [Hq Hl Hr Hs]. split; cbn; try done. by rewrite Hq'.
  - destruct Hok as [Hq Hl Hr Hs]. split; cbn; try done. intros _.
    destruct (pc_of (wf s)); lia.
  - destruct Hok as [Hq Hl Hr Hs]. by split.
Qed.

Lemma wf_ok_start owner0 : wf_ok (wf_start owner0).
Proof. split; cbn; [done|by exists []|done|done]. Qed.

Lemma wf_ok_reachable owner0 ls s : wf_run ls (wf_start owner0) s → wf_ok s.
Proof.
  pose proof (wf_ok_start owner0) as H0. revert H0. generalize (wf_start owner0). intros s0 H0 Hr.
  induction Hr as [|l s0 s1 ls s2 Hstep _ IH]; [done|]. by eapply IH, wf_ok_step.
Qed.

(** What the callbacks do to the state behind them: an exception out of one
    leaves what it had done. *)
Definition callback (e : event) (o : S) : S :=
  match e with
  | Started t => match on_start with Some f => (f t o).2 | None => o end
  | Executed _ _ => o
  | Finished t r => match on_finish with Some f => (f t r o).2 | None => o end
  end.

(** From [o], by the callbacks of the events in order and by changes of other
    threads in between. *)
Inductive owner_run (o : S) : list event → S → Prop :=
| owner_nil : owner_run o [] o
| owner_other l o1 o2 : owner_run o l o1 → owner_step o1 o2 → owner_run o l o2
| owner_callback l e o1 : owner_run o l o1 → owner_run o (l ++ [e]) (callback e o1).

Lemma owner_run_step o l s s' :
  owner_run o (log s) (owner s) → wf_step l s s' → owner_run o (log s') (owner s').
Proof.
  intros Ho Hstep.
  destruct Hstep as [s pc s' Hw Hr|s b w Hs|s|s w Hj|s c1 pc c2 next s' _ Hc|s t q Hp|s b q Hp|s b|s o1 Hs]; try exact Ho.
  - destruct Hr as [| |o1 q Hp|o1 q Hp| |t|t r Hr|t r|]; try exact Ho; cbn.
    + apply (owner_callback o _ (Started t)) in Ho. cbn in Ho. by destruct on_start.
    + apply (owner_callback o _ (Executed t (task_result r)) _ Ho).
    + apply (owner_callback o _ (Finished t r)) in Ho. cbn in Ho. by destruct on_finish.
  - by destruct Hc.
  - by eapply owner_other.
Qed.

Lemma owner_run_reachable owner0 ls s : wf_run ls (wf_start owner0) s → owner_run owner0 (log s) (owner s).
Proof.
  assert (H0 : owner_run owner0 (log (wf_start owner0)) (owner (wf_start owner0))) by constructor.
  revert H0. generalize (wf_start owner0). intros s0 H0 Hr.
  induction Hr as [|l s0 s1 ls s2 Hstep _ IH]; [done|]. by eapply IH, owner_run_step.
Qed.

(** ** Stopping *)

(** The steps left to the thread once it is asked to stop. *)
Definition steps_left (pc : run_pc) : nat :=
  match pc with
  | Returned => 0 | AtExit => 1 | WhileStop => 2 | AtFinish _ _ => 3 | AtDoTask _ => 4
  | AtStart _ => 5 | TestShutdown => 3 | InPop => 6 | TestEStop => 7
  end.

Lemma stopping_step l s s' :
  wf_stop (wf s) = true → l ≠ Starting → wf_step l s s' →
  wf_stop (wf s') = true ∧
  (steps_left (pc_of (wf s')) + match l with Worker => 1 | _ => 0 end <= steps_left (pc_of (wf s)))%nat.
Proof.
  intros Hst Hl Hstep.
  destruct Hstep as [s pc s' Hw Hr|s b w Hs|s|s w Hj|s c1 pc c2 next s' _ Hc|s t q Hp|s b q Hp|s b|s o Ho];
    try (split; cbn; [done|lia]).
  - assert (Hpc : pc_of (wf s) = pc) by (unfold pc_of; by rewrite Hw). rewrite Hpc.
    destruct Hr; (split; [exact Hst|]); unfold pc_of; cbn; try lia.
    + rewrite Hst. cbn. lia.
    + destruct (estop s); cbn; lia.
    + destruct o; cbn; lia.
    + destruct o; cbn; lia.
    + destruct (IsShutdown (queue s)); cbn; lia.
  - injection Hs as _ <-. split; [done|]. unfold pc_of. cbn. lia.
  - unfold Join_thread in Hj. unfold pc_of.
    destruct (wf_worker (wf s)) as [[]|]; try done; injection Hj as <-; cbn; by split; [|lia].
  - destruct Hc; try done; (split; [done|]); unfold pc_of; cbn; lia.
Qed.

Definition worker_steps (ls : list label) : nat :=
  count (λ l, match l with Worker => true | _ => false end) ls.

Lemma stopping_run ls s s' :
  wf_run ls s s' → wf_stop (wf s) = true → Starting ∉ ls →
  wf_stop (wf s') = true ∧
  (steps_left (pc_of (wf s')) + worker_steps ls <= steps_left (pc_of (wf s)))%nat.
Proof.
  unfold worker_steps. induction 1 as [s|l s s1 ls s2 Hstep _ IH]; intros Hst Hn; [split; [done|unfold count; cbn; lia]|].
  apply not_elem_of_cons in Hn as [Hl Hn].
  destruct (stopping_step _ _ _ Hst (not_eq_sym Hl) Hstep) as [Hst1 H1].
  destruct (IH Hst1 Hn) as [Hst2 H2]. split; [done|].
  rewrite count_cons. destruct l; cbn in H1 |- *; lia.
Qed.

(** The thread can always go on. *)
Lemma run_progress s pc :
  (∀ t, ∃ o, do_task t o) → pc ≠ Returned → ∃ s', run_step s pc s'.
Proof.
  intros Hd Hpc. destruct pc as [| | | |t|t|t r| |]; try done.
  3: { destruct (PopBlocking_expired (queue s)) as [o q] eqn:E. eexists. by eapply run_pop_timeout. }
  5: { destruct (Hd t) as [r Hr]. eexists. by constructor. }
  all: eexists; constructor.
Qed.

(** C8: whatever other threads do - pushing, shutting the queue down,
    stopping, joining and restarting the workflow, interrupted between their
    accesses of its flags, switching the emergency stop - every queued task
    leaves the queue in order and at most once, and what the log says of the
    tasks taken is: for each but the last, exactly one start callback, one
    execution and one finish callback, in this order and with the result the
    control returned, or an internal error with the text of what it threw; for
    the last one, as much of it as the thread has got to.  The state behind the
    callbacks is the one these calls, in this order, and the changes other
    threads make to it lead to. *)
Theorem workflow_exactly_once ls owner0 s :
  wf_run ls (wf_start owner0) s →
  accepted s = taken s ++ tq_q (queue s) ∧
  ∃ completed, taken s = completed.*1 ++ in_flight (pc_of (wf s)) ∧
    log s = concat (map entries completed) ++ partial (pc_of (wf s)) ∧
    Forall result_of completed ∧
  owner_run owner0 (log s) (owner s).
Proof.
  intros Hr. destruct (wf_ok_reachable _ _ _ Hr) as [Hq (l & Ht & Hl & Hf) _ _].
  split; [done|]. exists l. split_and!; [done..|by eapply owner_run_reachable].
Qed.

(** Once the emergency stop is set, and until it is cleared, the
    workflow takes at most one more task: the one for which it was already
    waiting. *)
Theorem estop_takes_at_most_one ls owner0 s :
  wf_run ls (wf_start owner0) s → estop s = true → (since s <= 1)%nat.
Proof. intros Hr He. destruct (wf_ok_reachable _ _ _ Hr) as [_ _ _ Hs]. specialize (Hs He). lia. Qed.

(** After a stop was requested, and unless the workflow is started
    again, its thread makes at most seven more steps, whatever is pushed and
    however often its flags change in between; and it can make them: until it has
    returned it always has a next step, provided the control returns. *)
Theorem workflow_stops ls s s' :
  wf_run ls s s' → wf_stop (wf s) = true → Starting ∉ ls →
  (worker_steps ls <= 7)%nat ∧
  ((∀ t, ∃ o, do_task t o) → pc_of (wf s') ≠ Returned → ∃ s'', wf_step Worker s' s'').
Proof.
  intros Hr Hst Hn. destruct (stopping_run _ _ _ Hr Hst Hn) as [_ Hs]. split.
  - assert (steps_left (pc_of (wf s)) <= 7)%nat by (destruct (pc_of (wf s)); cbn; lia). lia.
  - intros Hd Hpc. destruct (run_progress s' _ Hd Hpc) as [s'' Hs'']. exists s''.
    unfold pc_of in *. destruct (wf_worker (wf s')) as [pc|] eqn:E; [|done].
    by eapply step_worker.
Qed.
End workflow.

(** ** Concrete runs *)

Section runs.
Definition returns_default (t : Task jvalue) (o : ending (J := jvalue)) : Prop := o = Returns TaskResult_default.
Abbreviation run := (wf_run (S := unit) returns_default None None (λ _ _, False)).

Definition a_task : Task jvalue := Task_default.

(** The thread is waiting in the pop. *)
Definition waiting_state : wf_state (J := jvalue) (S := unit) := {|
  wf := {| wf_running := true; wf_stop := false; wf_worker := Some InPop |}; calls := [];
  queue := TaskQueue_new; estop := false; owner := tt; accepted := []; taken := []; log := []; since := 0
|}.

Lemma run_to_wait : run [Other; Starting; Starting; Worker; Worker] (wf_start tt) waiting_state.
Proof.
  eapply run_cons; [by eapply (step_start _ _ _ _ _ true)|].
  eapply run_cons; [by eapply (step_call _ _ _ _ _ [] StartReset []); [|apply call_start_reset]|].
  eapply run_cons; [by eapply (step_call _ _ _ _ _ [] StartThread []); [|eapply call_start_thread]|].
  eapply run_cons; [by eapply step_worker; [|apply run_while]|].
  eapply run_cons; [by eapply step_worker; [|apply run_estop]|]. apply run_nil.
Qed.

Lemma wf_run_app ls ls' s s' s'' : run ls s s' → run ls' s' s'' → run (ls ++ ls') s s''.
Proof. induction 1; [done|]. cbn. intros. eapply run_cons; [done|]. by apply IHwf_run. Qed.

(** A task pushed while the emergency stop is set is taken all the same. *)
Definition taken_state : wf_state (J := jvalue) (S := unit) := {|
  wf := {| wf_running := true; wf_stop := false; wf_worker := Some (AtStart a_task) |}; calls := [];
  queue := TaskQueue_new; estop := true; owner := tt; accepted := [a_task]; taken := [a_task];
  log := []; since := 1
|}.

Lemma estop_takes_one : run [Other; Starting; Starting; Worker; Worker; Other; Other; Worker] (wf_start tt) taken_state.
Proof.
  apply (wf_run_app _ [Other; Other; Worker] _ _ _ run_to_wait).
  eapply run_cons; [by apply (step_estop _ _ _ _ _ true)|].
  eapply run_cons; [by apply (step_push _ _ _ _ _ a_task)|].
  eapply run_cons; [by eapply step_worker; [|by eapply run_pop]|]. apply run_nil.
Qed.

Lemma estop_takes_at_most_one_witness :
  estop taken_state = true ∧ taken taken_state = [a_task] ∧ (since taken_state <= 1)%nat.
Proof.
  do 2 (split; [reflexivity|]).
  by apply (estop_takes_at_most_one returns_default None None (λ _ _, False) _ tt _ estop_takes_one).
Defined.

(** A control that throws: the task ends as an internal error. *)
Definition throws (t : Task jvalue) (o : ending (J := jvalue)) : Prop := o = Throws (runtime_error "no link").

Definition failed_result : TaskResult jvalue := {|
  tr_code := InternalError; tr_message := "DoTask exception: no link"; tr_started_at_ms := 0;
  tr_finished_at_ms := 0; tr_output := VObj [] |}.

(** Callbacks that count their calls. *)
Definition count_start (t : Task jvalue) : io nat unit := λ n, (Ok tt, n + 1)%nat.
Definition count_finish (t : Task jvalue) (r : TaskResult jvalue) : io nat unit := λ n, (Ok tt, n + 10)%nat.
Abbreviation counting := (wf_run throws (Some count_start) (Some count_finish) (λ _ _, False)).

Definition finished_state : wf_state (J := jvalue) (S := nat) := {|
  wf := {| wf_running := true; wf_stop := false; wf_worker := Some WhileStop |}; calls := [];
  queue := TaskQueue_new; estop := false; owner := 11%nat; accepted := [a_task]; taken := [a_task];
  log := [Started a_task; Executed a_task failed_result; Finished a_task failed_result]; since := 1
|}.

Lemma run_to_finish : ∃ ls, counting ls (wf_start 0%nat) finished_state.
Proof.
  eexists.
  eapply run_cons; [by apply (step_push _ _ _ _ _ a_task)|].
  eapply run_cons; [by eapply (step_start _ _ _ _ _ true)|].
  eapply run_cons; [by eapply (step_call _ _ _ _ _ [] StartReset []); [|apply call_start_reset]|].
  eapply run_cons; [by eapply (step_call _ _ _ _ _ [] StartThread []); [|eapply call_start_thread]|].
  eapply run_cons; [by eapply step_worker; [|apply run_while]|].
  eapply run_cons; [by eapply step_worker; [|apply run_estop]|].
  eapply run_cons; [by eapply step_worker; [|by eapply run_pop]|].
  eapply run_cons; [by eapply step_worker; [|apply run_start]|].
  eapply run_cons; [by eapply step_worker; [|by apply (run_do _ _ _ _ a_task (Throws (runtime_error "no link")))]|].
  eapply run_cons; [by eapply step_worker; [|apply run_finish]|]. apply run_nil.
Qed.

Lemma workflow_exactly_once_witness :
  ∃ completed, taken finished_state = completed.*1 ++ [] ∧
    log finished_state = concat (map entries completed) ++ [] ∧ Forall (result_of throws) completed ∧
    owner_run (Some count_start) (Some count_finish) (λ _ _, False) 0%nat (log finished_state) 11%nat.
Proof.
  destruct run_to_finish as [ls Hr].
  apply (workflow_exactly_once throws (Some count_start) (Some count_finish) (λ _ _, False) ls 0%nat _ Hr).
Defined.

(** A thread that left its loop because the queue was shut down cannot be
    followed by another: [running_] is false, but the thread object is still
    joinable, and [Start] ends the program. *)
Lemma start_after_exit :
  ∃ ls s, run ls (wf_start tt) s ∧ wf_running (wf s) = false ∧ Start (wf s) = None.
Proof.
  eexists _, _. split; [|split].
  - eapply (wf_run_app _ _ _ _ _ run_to_wait).
    eapply run_cons; [by apply (step_queue_shutdown _ _ _ _ _ true)|].
    eapply run_cons; [by eapply step_worker; [|by eapply run_pop]|].
    eapply run_cons; [by eapply step_worker; [|apply run_shutdown]|].
    eapply run_cons; [by eapply step_worker; [|apply run_exit]|]. apply run_nil.
  - reflexivity.
  - reflexivity.
Qed.

Definition stopped_state (pc : run_pc) : wf_state (J := jvalue) (S := unit) := {|
  wf := {| wf_running := true; wf_stop := true; wf_worker := Some pc |}; calls := [];
  queue := TaskQueue_new; estop := false; owner := tt; accepted := []; taken := []; log := []; since := 0
|}.

Lemma workflow_stops_witness :
  (worker_steps [Worker; Worker; Worker] <= 7)%nat ∧
  ∃ s, wf_step returns_default None None (λ _ _, False) Worker (stopped_state AtExit) s.
Proof.
  assert (Hr : run [Worker; Worker; Worker] (stopped_state InPop) (stopped_state AtExit)).
  { eapply run_cons; [eapply step_worker; [done|by apply (run_pop_timeout _ _ _ _ None TaskQueue_new)]|].
    eapply run_cons; [by eapply step_worker; [|apply run_shutdown]|].
    eapply run_cons; [by eapply step_worker; [|apply run_while]|]. apply run_nil. }
  assert (Hn : Starting ∉ [Worker; Worker; Worker]) by (by intros H; repeat apply elem_of_cons in H as [?|H]; try done; apply not_elem_of_nil in H).
  destruct (workflow_stops returns_default None None (λ _ _, False) _ _ _ Hr eq_refl Hn) as [H1 H2].
  split; [exact H1|]. apply H2; [|done]. intros t. by eexists.
Defined.
End runs.
