(* ===== verification/Device.v ===== *)
(** * Devices

    Model of my_device: [MyDevice]'s factory and the four demo devices, which
    differ in their names, the type of their control and in what goes to the log.
    A device owns a control and a workflow; the workflow's callbacks keep the
    device's status. *)

From S2P Require Import Prelude Text Json CondVar Double TaskData MyControl TaskQueue Workflow.

Local Open Scope Z_scope.

Section device.
Context {J : Type} `{JsonNumbers J}.

Inductive device_kind := UUVDevice | DepthSensorDevice | FlowSensorDevice | WindSensor_Device.

Definition Type_ (k : device_kind) : string :=
  match k with
  | UUVDevice => "uuv" | DepthSensorDevice => "depth_sensor"
  | FlowSensorDevice => "flow_sensor" | WindSensor_Device => "wind_sensor"
  end.

(** What the mutex [status_mu_] protects, and the clock's reading. *)
Record tracker := { tk_status : DeviceStatus; tk_running_task : option (Task J); tk_now : Z }.

Record device := {
  dv_kind : device_kind;
  dv_device_id : string;
  dv_device_name : string;
  dv_control : option control;
  dv_workflow : option (Workflow (J := J));
  dv_estop_set : bool;                        (** [estop_flag_] is not null *)
  dv_tracker : tracker
}.

Definition default_names (k : device_kind) : string * string :=
  match k with
  | UUVDevice => ("uuv-unknown", "uuv-demo")
  | DepthSensorDevice => ("depth-unknown", "depth-sensor-demo")
  | FlowSensorDevice => ("flow-unknown", "flow-sensor-demo")
  | WindSensor_Device => ("split-unknown", "split-speed-sensor-demo")
  end.

(** ** Status *)

Definition set_status (f : DeviceStatus → DeviceStatus) (s : tracker) : tracker :=
  {| tk_status := f (tk_status s); tk_running_task := tk_running_task s; tk_now := tk_now s |}.

Definition UpdateOnTaskStart (task : Task J) : io tracker unit := λ s,
  let st := tk_status s in
  (Ok tt, {| tk_status := {| ds_device_id := ds_device_id st; ds_conn_state := ds_conn_state st;
                             ds_work_state := WorkBusy; ds_running_task_id := tk_task_id task;
                             ds_last_task_at_ms := ds_last_task_at_ms st;
                             ds_last_seen_at_ms := tk_now s; ds_last_error := ds_last_error st;
                             ds_queue_depth := ds_queue_depth st |};
             tk_running_task := Some task; tk_now := tk_now s |}).

(** State and error text that a result leaves. *)
Definition state_after (r : TaskResult J) : Z := if tr_code r =? Ec_Ok then WorkIdle else WorkFaulted.
Definition error_after (r : TaskResult J) : string :=
  if tr_code r =? Ec_Ok then ""
  else if str_empty (tr_message r) then ErrorCode_text (tr_code r) else tr_message r.

Definition UpdateOnTaskFinish (task : Task J) (r : TaskResult J) : io tracker unit := λ s,
  let st := tk_status s in
  (Ok tt, {| tk_status := {| ds_device_id := ds_device_id st; ds_conn_state := ds_conn_state st;
                             ds_work_state := state_after r; ds_running_task_id := "";
                             ds_last_task_at_ms := tk_now s; ds_last_seen_at_ms := tk_now s;
                             ds_last_error := error_after r; ds_queue_depth := ds_queue_depth st |};
             tk_running_task := None; tk_now := tk_now s |}).

Definition GetStatusSnapshot (d : device) : DeviceStatus := tk_status (dv_tracker d).

Definition seen (now : Z) (st : DeviceStatus) : DeviceStatus := {|
  ds_device_id := ds_device_id st; ds_conn_state := ds_conn_state st;
  ds_work_state := ds_work_state st; ds_running_task_id := ds_running_task_id st;
  ds_last_task_at_ms := ds_last_task_at_ms st; ds_last_seen_at_ms := now;
  ds_last_error := ds_last_error st; ds_queue_depth := ds_queue_depth st |}.

(** Other threads: [Stop] records the time, and time passes. *)
Definition tracker_step (s s' : tracker) : Prop :=
  s' = set_status (seen (tk_now s)) s ∨
  ∃ now, s' = {| tk_status := tk_status s; tk_running_task := tk_running_task s; tk_now := now |}.

(** ** Construction *)

(** The constructor without arguments. *)
Definition Device_new (k : device_kind) (now : Z) : device :=
  let '(id, name) := default_names k in {|
  dv_kind := k; dv_device_id := id; dv_device_name := name; dv_control := None;
  dv_workflow := None; dv_estop_set := false;
  dv_tracker := {|
    tk_status := {| ds_device_id := id; ds_conn_state := ConnUnknown; ds_work_state := WorkIdle;
                    ds_running_task_id := ""; ds_last_task_at_ms := 0; ds_last_seen_at_ms := now;
                    ds_last_error := ""; ds_queue_depth := 0 |};
    tk_running_task := None; tk_now := now |} |}.

Definition with_names (id name : string) (d : device) : device := {|
  dv_kind := dv_kind d; dv_device_id := id; dv_device_name := name; dv_control := dv_control d;
  dv_workflow := dv_workflow d; dv_estop_set := dv_estop_set d; dv_tracker := dv_tracker d |}.
Definition with_control (c : option control) (d : device) : device := {|
  dv_kind := dv_kind d; dv_device_id := dv_device_id d; dv_device_name := dv_device_name d;
  dv_control := c; dv_workflow := dv_workflow d; dv_estop_set := dv_estop_set d;
  dv_tracker := dv_tracker d |}.
Definition with_workflow (w : option Workflow) (estop : bool) (d : device) : device := {|
  dv_kind := dv_kind d; dv_device_id := dv_device_id d; dv_device_name := dv_device_name d;
  dv_control := dv_control d; dv_workflow := w; dv_estop_set := estop; dv_tracker := dv_tracker d |}.
Definition with_tracker (s : tracker) (d : device) : device := {|
  dv_kind := dv_kind d; dv_device_id := dv_device_id d; dv_device_name := dv_device_name d;
  dv_control := dv_control d; dv_workflow := dv_workflow d; dv_estop_set := dv_estop_set d;
  dv_tracker := s |}.

(** The section of [Init] that puts the device online. *)
Definition online (now : Z) (d : device) : device :=
  with_tracker (set_status (λ st, {|
    ds_device_id := dv_device_id d; ds_conn_state := ConnOnline; ds_work_state := WorkIdle;
    ds_running_task_id := ds_running_task_id st; ds_last_task_at_ms := ds_last_task_at_ms st;
    ds_last_seen_at_ms := now; ds_last_error := ds_last_error st;
    ds_queue_depth := ds_queue_depth st |}) (dv_tracker d)) d.

(** The body of [Init]'s [try]; what was done before an exception stays. *)
Definition Init_try (cfg : J) (now : Z) (err : option string) (d : device)
    : result bool * option string * device :=
  match j_value j_get_string cfg "device_id" (dv_device_id d) with
  | Err e => (Err e, err, d)
  | Ok id =>
      let d := with_names id (dv_device_name d) d in
      match j_value j_get_string cfg "device_name" (dv_device_name d) with
      | Err e => (Err e, err, d)
      | Ok name =>
          let d := online now (with_names id name d) in
          match CreateControl (Type_ (dv_kind d)) with
          | None => (Ok false, set_err err ("CreateControl(" +:+ Type_ (dv_kind d) +:+ ") failed"),
                     with_control None d)
          | Some c =>
              let d := with_control (Some c) d in
              match j_value (λ v, Ok v) cfg "control" (j_object []) with
              | Err e => (Err e, err, d)
              | Ok control_cfg =>
                  match Control_Init control_cfg (Some "") c with
                  | (true, _, c) => (Ok true, err, with_control (Some c) d)
                  | (false, control_err, c) =>
                      (Ok false, set_err err (default "" control_err), with_control (Some c) d)
                  end
              end
          end
      end
  end.

(** [Init]; the configuration goes to the log before the [try]. *)
Definition Device_Init (cfg : J) (now : Z) (err : option string) (d : device)
    : result bool * option string * device :=
  match j_dump cfg with
  | Err e => (Err e, err, d)
  | Ok _ =>
      match Init_try cfg now err d with
      | (Err e, err, d) => (Ok false, set_err err (exn_what e), d)
      | r => r
      end
  end.

(** The constructor with a configuration.  All but the flow sensor's put the
    configuration into the log outside the [try]. *)
Definition Device_construct (k : device_kind) (cfg : J) (now : Z) (err : option string)
    : result device * option string :=
  let construct :=
    match Device_Init cfg now err (Device_new k now) with
    | (Err e, err, d) => (Ok d, set_err err (exn_what e))
    | (Ok _, err, d) => (Ok d, err)
    end in
  match k with
  | FlowSensorDevice => construct
  | _ => match j_dump cfg with Err e => (Err e, err) | Ok _ => construct end
  end.

Definition kind_of (type : string) : option device_kind :=
  if decide (type = "uuv" ∨ type = "UUV") then Some UUVDevice
  else if decide (type = "depth_sensor") then Some DepthSensorDevice
  else if decide (type = "flow_sensor") then Some FlowSensorDevice
  else if decide (type = "wind_sensor") then Some WindSensor_Device
  else None.

(** [MyDevice::Create]: a null pointer for an unknown type. *)
Definition Create (type : string) (cfg : J) (now : Z) (err : option string)
    : result (option device) * option string :=
  match kind_of type with
  | Some k => match Device_construct k cfg now err with
              | (Ok d, err) => (Ok (Some d), err)
              | (Err e, err) => (Err e, err)
              end
  | None => (Ok None, err)
  end.

(** ** Life *)

(** Replacing a workflow destroys the old one, which stops and joins it:
    [None] is blocking in that join. *)
Definition destroy (w : option (Workflow (J := J))) : option unit :=
  match w with
  | None => Some tt
  | Some w => match Join (Stop w) with Some _ => Some tt | None => None end
  end.

(** A new workflow always starts. *)
Definition Device_Start (estop_set : bool) (err : option string) (d : device)
    : option (bool * option string * device) :=
  match dv_control d with
  | None => Some (false, set_err err "device not initialized: control_ is null", d)
  | Some _ =>
      _ ← destroy (dv_workflow d);
      match Start Workflow_new with
      | Some (true, w) => Some (true, err, with_workflow (Some w) estop_set d)
      | Some (false, w) => Some (false, set_err err "workflow already running or start failed",
                                 with_workflow (Some w) estop_set d)
      | None => None
      end
  end.

Definition Device_Stop (now : Z) (d : device) : device :=
  let d := with_workflow (Stop <$> dv_workflow d) (dv_estop_set d) d in
  with_tracker (set_status (seen now) (dv_tracker d)) d.

(** [None]: blocked in the join. *)
Definition Device_Join (d : device) : option device :=
  match dv_workflow d with
  | None => Some d
  | Some w => (λ w, with_workflow (Some w) (dv_estop_set d) d) <$> Join w
  end.

(** ** The workflow of a device *)

Definition control_does (c : control) (t : Task J) (o : ending) : Prop :=
  ∃ draws started finished,
    o = match DoTask c draws started finished t with Ok r => Returns r | Err e => Throws e end.

Definition device_run (c : control) : list label → wf_state → wf_state → Prop :=
  wf_run (control_does c) (Some UpdateOnTaskStart) (Some UpdateOnTaskFinish) tracker_step.
End device.
Arguments tracker : clear implicits.
Arguments device : clear implicits.

Section tracking.
Context {J : Type} `{JN : JsonNumbers J}.

(** The result of the last task that was finished, from the workflow's log. *)
Definition last_finished (log : list (event (J := J))) : option (TaskResult J) :=
  foldl (λ acc e, match e with Finished _ r => Some r | _ => acc end) None log.

Definition busy_with (t : Task J) (s : tracker J) : Prop :=
  ds_work_state (tk_status s) = WorkBusy ∧ ds_running_task_id (tk_status s) = tk_task_id t ∧
  tk_running_task s = Some t.

Definition resting (last : option (TaskResult J)) (s : tracker J) : Prop :=
  ds_running_task_id (tk_status s) = "" ∧ tk_running_task s = None ∧
  ds_work_state (tk_status s) = match last with None => WorkIdle | Some r => state_after r end ∧
  ds_last_error (tk_status s) = match last with None => "" | Some r => error_after r end.

Definition tracked (s : wf_state (J := J)) : Prop :=
  match pc_of (wf s) with
  | AtDoTask t | AtFinish t _ => busy_with t (owner s)
  | _ => resting (last_finished (log s)) (owner s)
  end.

(** Steps that leave the tracker and the log alone and have no task between
    the two callbacks. *)
Definition quiet (pc : run_pc (J := J)) : bool :=
  match pc with AtDoTask _ | AtFinish _ _ => false | _ => true end.

Lemma tracked_quiet s s' :
  tracked s → quiet (pc_of (wf s)) = true → quiet (pc_of (wf s')) = true →
  owner s' = owner s → log s' = log s → tracked s'.
Proof.
  unfold tracked. intros Ht H1 H2 -> ->. destruct (pc_of (wf s)), (pc_of (wf s')); done.
Qed.

Lemma last_finished_snoc l e :
  last_finished (l ++ [e]) = match e with Finished _ r => Some r | _ => last_finished l end.
Proof. unfold last_finished. by rewrite foldl_app. Qed.

Lemma tracked_run do_task s pc s' :
  tracked s → wf_worker (wf s) = Some pc →
  run_step do_task (Some UpdateOnTaskStart) (Some UpdateOnTaskFinish) s pc s' → tracked s'.
Proof.
  intros Ht Hw Hstep. assert (Hpc : pc_of (wf s) = pc) by (unfold pc_of; by rewrite Hw).
  destruct Hstep.
  1, 2, 5: apply (tracked_quiet s); [done|by rewrite Hpc| |done|done];
    unfold pc_of; cbn; by case_match.
  1, 2: apply (tracked_quiet s); [done|by rewrite Hpc|unfold pc_of; cbn; by destruct o|done|done].
  4: apply (tracked_quiet s); [done|by rewrite Hpc|done|done|done].
  - done.
  - unfold tracked in *. rewrite Hpc in Ht. exact Ht.
  - unfold tracked. cbn. rewrite last_finished_snoc. done.
Qed.

Lemma tracked_step do_task l s s' :
  tracked s → wf_step do_task (Some UpdateOnTaskStart) (Some UpdateOnTaskFinish) tracker_step l s s' →
  tracked s'.
Proof.
  intros Ht Hstep.
  destruct Hstep as [s pc s' Hw Hr|s b w Hs|s|s w Hj|s c1 pc c2 next s' _ Hc|s t q Hp|s b q Hp|s b|s o Ho]; try exact Ht.
  - by eapply tracked_run.
  - injection Hs as _ <-. exact Ht.
  - unfold Join_thread in Hj. apply (tracked_quiet s); try done; unfold pc_of;
      destruct (wf_worker (wf s)) as [[]|]; try done; by injection Hj as <-.
  - destruct Hc as [|w Hw| |]; try exact Ht.
    unfold Start_thread in Hw. destruct (wf_worker (wf s)) eqn:E; [done|]. injection Hw as <-.
    apply (tracked_quiet s); try done. unfold pc_of. by rewrite E.
  - unfold tracked in *. cbn. destruct Ho as [-> | [now ->]]; exact Ht.
Qed.

(** The tracker of a device that was put online and has not run a task yet. *)
Definition fresh (s : tracker J) : Prop := resting None s.

Lemma tracked_reachable c ls s0 s : fresh s0 → device_run c ls (wf_start s0) s → tracked s.
Proof.
  intros H0 Hr. assert (Ht : tracked (wf_start (J := J) s0)) by exact H0. revert Ht Hr.
  generalize (wf_start (J := J) s0). intros s1 Ht Hr. unfold device_run in Hr.
  induction Hr as [|l s1 s2 ls s3 Hstep _ IH]; [done|]. by eapply IH, tracked_step.
Qed.

(** Whatever other threads do, a device's status is [Busy], with the id
    of the task, exactly while the control works on that task; otherwise no task
    id is shown, and the work state and the error text are what the last finished
    task left: idle without error after a success, faulted with its message
    after anything else, idle before the first task. *)
Theorem device_status_tracks c ls s0 s :
  fresh s0 → device_run c ls (wf_start s0) s →
  match pc_of (wf s) with
  | AtDoTask t | AtFinish t _ => busy_with t (owner s)
  | _ => resting (last_finished (log s)) (owner s)
  end.
Proof. intros H0 Hr. exact (tracked_reachable c ls s0 s H0 Hr). Qed.

(** ** Construction succeeds whatever the configuration *)

Lemma Init_try_keeps cfg now err (d : device J) r err' d' :
  Init_try cfg now err d = (r, err', d') →
  dv_workflow d' = dv_workflow d ∧ dv_kind d' = dv_kind d ∧
  (dv_control d' = dv_control d ∧
   (is_ok (j_value j_get_string cfg "device_id" (dv_device_id d)) &&
    is_ok (j_value j_get_string cfg "device_name" (dv_device_name d)) = false) ∨
   is_Some (dv_control d') ∧
   (is_ok (j_value j_get_string cfg "device_id" (dv_device_id d)) &&
    is_ok (j_value j_get_string cfg "device_name" (dv_device_name d)) = true)).
Proof.
  unfold Init_try. destruct (j_value j_get_string cfg "device_id" _) as [id|e] eqn:E1.
  2: { intros [= <- <- <-]. split_and!; try done. left. done. }
  cbn [dv_device_name with_names].
  destruct (j_value j_get_string cfg "device_name" _) as [name|e] eqn:E2.
  2: { intros [= <- <- <-]. split_and!; try done. left. done. }
  cbn [dv_kind online with_names with_tracker].
  assert (Hc : is_Some (CreateControl (Type_ (dv_kind d)))) by (by destruct (dv_kind d); eexists).
  destruct Hc as [c ->].
  destruct (j_value _ cfg "control" _) as [control_cfg|e].
  2: { intros [= <- <- <-]. split_and!; try done. right. by split; [eexists|]. }
  destruct (Control_Init control_cfg (Some "") c) as [[[] control_err] c'];
    intros [= <- <- <-]; (split_and!; try done); right; by split; [eexists|].
Qed.

(** For a known type [Create] always returns a device, never a null
    pointer - it throws only for a configuration whose text is not UTF-8 - and the
    device starts exactly when the device id and name in the configuration are
    strings or absent: that [Init] failed, for instance on the configuration of the
    control, is not noticed. *)
Theorem Create_ignores_failed_Init type k cfg now err estop_set text :
  kind_of type = Some k → j_dump (J := J) cfg = Ok text →
  ∃ d err', Create type cfg now err = (Ok (Some d), err') ∧ dv_kind d = k ∧
    ∃ started err'' d', Device_Start estop_set err' d = Some (started, err'', d') ∧
    started = (is_ok (j_value j_get_string cfg "device_id" (default_names k).1) &&
               is_ok (j_value j_get_string cfg "device_name" (default_names k).2)).
Proof.
  intros Hk Hd.
  assert (Hc : ∃ d err', Create type cfg now err = (Ok (Some d), err') ∧
                 ∃ r err0, Init_try cfg now err (Device_new k now) = (r, err0, d)).
  { unfold Create. rewrite Hk. unfold Device_construct, Device_Init. rewrite Hd.
    destruct (Init_try cfg now err (Device_new k now)) as [[[b|e] err0] d] eqn:E;
      exists d; eexists; (split; [by destruct k|by do 2 eexists]). }
  destruct Hc as (d & err' & -> & r & err0 & Hi). exists d, err'. split; [done|].
  destruct (Init_try_keeps _ _ _ _ _ _ _ Hi) as (Hw & Hkind & Hcase).
  assert (Hn : dv_kind (Device_new (J := J) k now) = k ∧ dv_workflow (Device_new (J := J) k now) = None ∧
               dv_control (Device_new (J := J) k now) = None ∧
               dv_device_id (Device_new (J := J) k now) = (default_names k).1 ∧
               dv_device_name (Device_new (J := J) k now) = (default_names k).2) by (by destruct k).
  destruct Hn as (N1 & N2 & N3 & N4 & N5). rewrite N1 in Hkind. rewrite N2 in Hw. rewrite N3, N4, N5 in Hcase.
  split; [done|]. unfold Device_Start. destruct Hcase as [[-> ->]|[[c ->] ->]].
  - by do 3 eexists.
  - rewrite Hw. cbn. by do 3 eexists.
Qed.
End tracking.

(** *** Witnesses *)

Definition demo_device_cfg : jvalue :=
  VObj [("device_id", VStr "d1"); ("control", VObj [("simulate_latency_ms", VStr "fast")])].

(** The control's configuration is wrong, [Init] fails, and the device is made
    and starts. *)
Lemma Create_ignores_failed_Init_witness :
  (Device_Init demo_device_cfg 5 (Some "") (Device_new DepthSensorDevice 5)).1.1 = Ok false ∧
  ∃ d err, Create "depth_sensor" demo_device_cfg 5 (Some "") = (Ok (Some d), err) ∧
    ∃ err' d', Device_Start true err d = Some (true, err', d').
Proof.
  split; [vm_compute; reflexivity|].
  assert (Hd : j_dump demo_device_cfg = Ok "") by reflexivity.
  destruct (Create_ignores_failed_Init "depth_sensor" DepthSensorDevice demo_device_cfg 5 (Some "") true ""
              eq_refl Hd) as (d & err & Hc & _ & started & err' & d' & Hs & Hb).
  exists d, err. split; [exact Hc|]. exists err', d'. rewrite Hs, Hb. vm_compute. reflexivity.
Defined.

Definition demo_task : Task jvalue := {|
  tk_task_id := "task-5-0"; tk_command_id := "cmd-5-0"; tk_trace_id := ""; tk_span_id := "";
  tk_edge_id := "e"; tk_device_id := "d1"; tk_capability := "water_depth"; tk_action := "calibrate";
  tk_params := VObj []; tk_idempotency_key := ""; tk_dedup_window_ms := 0; tk_priority := 0;
  tk_created_at_ms := 5; tk_deadline_at_ms := 0; tk_policy := VObj []; tk_state := Pending;
  tk_result := TaskResult_default |}.

Definition demo_control : control :=
  {| ct_kind := DepthSensorControl; ct_device_name := ""; ct_simulate_latency_ms := 50;
     ct_base := [double_of_Z 10]; ct_noise := double_of_Z 0 |}.

Definition demo_tracker : tracker jvalue :=
  dv_tracker (online 5 (with_names "d1" "" (Device_new DepthSensorDevice 5))).

Lemma demo_device_run :
  ∃ ls s, device_run demo_control ls (wf_start demo_tracker) s ∧
    pc_of (wf s) = AtDoTask demo_task.
Proof.
  eexists _, _. split.
  - eapply run_cons; [by eapply (step_start _ _ _ _ _ true)|].
    eapply run_cons; [by eapply (step_call _ _ _ _ _ [] StartReset []); [|apply call_start_reset]|].
    eapply run_cons; [by eapply (step_call _ _ _ _ _ [] StartThread []); [|eapply call_start_thread]|].
    eapply run_cons; [by apply (step_push _ _ _ _ _ demo_task)|].
    eapply run_cons; [by eapply step_worker; [|apply run_while]|].
    eapply run_cons; [by eapply step_worker; [|apply run_estop]|].
    eapply run_cons; [by eapply step_worker; [|by eapply run_pop]|].
    eapply run_cons; [by eapply step_worker; [|apply run_start]|]. apply run_nil.
  - reflexivity.
Qed.

Lemma device_status_tracks_witness :
  ∃ ls s, device_run demo_control ls (wf_start demo_tracker) s ∧
    ds_work_state (tk_status (owner s)) = WorkBusy ∧
    ds_running_task_id (tk_status (owner s)) = "task-5-0".
Proof.
  destruct demo_device_run as (ls & s & Hr & Hpc). exists ls, s. split; [exact Hr|].
  assert (Hf : fresh demo_tracker) by (by split_and!).
  pose proof (device_status_tracks demo_control ls demo_tracker s Hf Hr) as Ht.
  rewrite Hpc in Ht. destruct Ht as (H1 & H2 & _). split; [exact H1|exact H2].
Defined.
