(* ===== verification/BaseEdge.v ===== *)
(** * Edges

    Model of my_edge/BaseEdge.cpp and of the normalisation of UAVEdge.cpp and
    UNAEdge.cpp: the operations that run under [rw_mutex_], on the edge's
    devices, queues and run state.  The threads of an edge and the blocking
    parts of [Start] and [Shutdown] are in [EdgeThreads]. *)

From S2P Require Import Prelude Text Json Double TaskData MyControl TaskQueue Workflow Device.
From stdpp Require Import pretty.

Local Open Scope Z_scope.

(** ** Codes *)

Inductive SubmitCode :=
| Sub_Ok | Sub_NotRunning | Sub_EStop | Sub_InvalidCommand | Sub_UnknownDevice
| Sub_QueueShutdown | Sub_InternalError.

Inductive RunState := Initializing | Ready | Running | Stopping | Stopped | RunOver.

#[export] Instance RunState_eq_dec : EqDecision RunState.
Proof. solve_decision. Defined.

Definition RunStateToString (s : RunState) : string :=
  match s with
  | Initializing => "Initializing" | Ready => "Ready" | Running => "Running"
  | Stopping => "Stopping" | Stopped => "Stopped" | RunOver => "RunOver"
  end.

Record SubmitResult := {
  sr_code : SubmitCode;
  sr_message : string;
  sr_edge_id : string;
  sr_device_id : string;
  sr_command_id : string;
  sr_task_id : string;
  sr_queue_size_after : Z
}.

Section edge.
Context {J : Type} `{JsonNumbers J}.

(** What [Init] reads from the configuration, in the order it reads it. *)
Record Settings := mkSettings {
  se_edge_id : string;
  se_version : string;
  se_edge_type : string;
  se_allow_queue_when_estop : bool;
  se_self_action_enable : bool;
  se_self_device_id : string;
  se_snapshot_enable : bool;
  se_snapshot_interval_ms : Z
}.

(** The three maps from device ids. *)
Record Registry := {
  rg_types : gmap string string;
  rg_queues : gmap string (TaskQueue (Task J));
  rg_devices : gmap string (device J)
}.

Record SelfTask := { sf_task : Task J; sf_run_state : RunState; sf_executing : bool }.

(** Which thread objects are joinable. *)
Record Threads := { th_monitor : bool; th_action : bool; th_snapshot : bool }.

(** [be_handlers] are the actions that have a handler. *)
Record BaseEdge := {
  be_settings : Settings;
  be_boot_at_ms : Z;
  be_run_state : RunState;
  be_estop : bool;
  be_estop_reason : string;
  be_registry : Registry;
  be_self : SelfTask;
  be_threads : Threads;
  be_handlers : gset string
}.

Definition no_devices : Registry := {| rg_types := ∅; rg_queues := ∅; rg_devices := ∅ |}.
Definition no_self_task : SelfTask :=
  {| sf_task := Task_default; sf_run_state := RunOver; sf_executing := false |}.

Definition BaseEdge_new (edge_type : string) : BaseEdge := {|
  be_settings := mkSettings "edge-default" "0.0" edge_type false true "self" true 2000;
  be_boot_at_ms := 0; be_run_state := Initializing; be_estop := false; be_estop_reason := "";
  be_registry := no_devices; be_self := no_self_task;
  be_threads := {| th_monitor := false; th_action := false; th_snapshot := false |};
  be_handlers := ∅
|}.

Definition with_run_state (x : RunState) (e : BaseEdge) : BaseEdge := {|
  be_settings := be_settings e; be_boot_at_ms := be_boot_at_ms e; be_run_state := x;
  be_estop := be_estop e; be_estop_reason := be_estop_reason e; be_registry := be_registry e;
  be_self := be_self e; be_threads := be_threads e; be_handlers := be_handlers e |}.
Definition with_registry (x : Registry) (e : BaseEdge) : BaseEdge := {|
  be_settings := be_settings e; be_boot_at_ms := be_boot_at_ms e; be_run_state := be_run_state e;
  be_estop := be_estop e; be_estop_reason := be_estop_reason e; be_registry := x;
  be_self := be_self e; be_threads := be_threads e; be_handlers := be_handlers e |}.
Definition with_threads (x : Threads) (e : BaseEdge) : BaseEdge := {|
  be_settings := be_settings e; be_boot_at_ms := be_boot_at_ms e; be_run_state := be_run_state e;
  be_estop := be_estop e; be_estop_reason := be_estop_reason e; be_registry := be_registry e;
  be_self := be_self e; be_threads := x; be_handlers := be_handlers e |}.

Definition RegisterSelfTaskHandler (action : string) (e : BaseEdge) : BaseEdge := {|
  be_settings := be_settings e; be_boot_at_ms := be_boot_at_ms e; be_run_state := be_run_state e;
  be_estop := be_estop e; be_estop_reason := be_estop_reason e; be_registry := be_registry e;
  be_self := be_self e; be_threads := be_threads e; be_handlers := {[action]} ∪ be_handlers e |}.

(** ** Results of [Submit]

    The default argument of [task_id] is the literal [0], which initialises a
    [std::string] from a null pointer: undefined behaviour, for which the usual
    library throws [std::logic_error].  [None] is the default argument. *)

Definition string_from (s : option string) : outcome string :=
  match s with Some s => Ret s | None => Undef end.

Definition MakeResult (e : BaseEdge) (code : SubmitCode) (msg : string) (cmd : RawCommand J)
    (device_id : string) (task_id : option string) (queue_size_after : Z) : outcome SubmitResult :=
  task_id ← string_from task_id;
  Ret {| sr_code := code; sr_message := msg; sr_edge_id := se_edge_id (be_settings e);
         sr_device_id := device_id; sr_command_id := rc_command_id cmd; sr_task_id := task_id;
         sr_queue_size_after := queue_size_after |}.

(** ** Queues *)

Definition set_queue (device_id : string) (q : TaskQueue (Task J)) (e : BaseEdge) : BaseEdge :=
  with_registry {| rg_types := rg_types (be_registry e);
                   rg_queues := <[device_id := q]> (rg_queues (be_registry e));
                   rg_devices := rg_devices (be_registry e) |} e.

Definition AppendTaskToQueueLocked (device_id : string) (task : Task J) (err : option string)
    (e : BaseEdge) : bool * option string * BaseEdge :=
  match rg_queues (be_registry e) !! device_id with
  | None => (false, set_err err ("找不到 device_id=" +:+ device_id +:+ " 对应的队列"), e)
  | Some q =>
      if IsShutdown q then (false, set_err err ("队列已关闭，device_id=" +:+ device_id), e)
      else (true, err, set_queue device_id (Push task q).2 e)
  end.

Definition AppendTask (task : Task J) (e : BaseEdge) : bool * BaseEdge :=
  if str_empty (tk_device_id task) then (false, e)
  else let '(ok, _, e) := AppendTaskToQueueLocked (tk_device_id task) task (Some "") e in (ok, e).

Definition AppendJsonTask (taskj : J) (e : BaseEdge) : bool * BaseEdge :=
  AppendTask (Task_fromJson taskj) e.

(** ** Submit *)

(** [NormalizeCommandLocked] of UAVEdge and UNAEdge: [None] for [nullopt], with
    the text of [*err]. *)
Definition NormalizeCommandLocked (e : BaseEdge) (cmd : RawCommand J) (device_id device_type : string)
    (clock : nat → Z) : io Z (string + Task J) :=
  match CreateNormalizer device_type with
  | None => mret (inl ("创建 normalizer 失败：type=" +:+ device_type))
  | Some normalizer =>
      maybe_task ← Normalize normalizer cmd (se_edge_id (be_settings e)) clock;
      match maybe_task with
      | inl nerr => mret (inl (if str_empty nerr then "Normalize 失败" else "Normalize 失败：" +:+ nerr))
      | inr t =>
          let t := if str_empty (tk_device_id t) then
            {| tk_task_id := tk_task_id t; tk_command_id := tk_command_id t; tk_trace_id := tk_trace_id t;
               tk_span_id := tk_span_id t; tk_edge_id := tk_edge_id t; tk_device_id := device_id;
               tk_capability := tk_capability t; tk_action := tk_action t; tk_params := tk_params t;
               tk_idempotency_key := tk_idempotency_key t; tk_dedup_window_ms := tk_dedup_window_ms t;
               tk_priority := tk_priority t; tk_created_at_ms := tk_created_at_ms t;
               tk_deadline_at_ms := tk_deadline_at_ms t; tk_policy := tk_policy t;
               tk_state := tk_state t; tk_result := tk_result t |} else t in
          if decide (tk_device_id t = device_id) then mret (inr t)
          else mret (inl ("Normalize 输出的 task.device_id 与请求 device_id 不一致：" +:+
                          "task.device_id=" +:+ tk_device_id t +:+ ", req.device_id=" +:+ device_id))
      end
  end.

(** The steps 6 and 7: normalise and queue.  [seq] is the counter of
    [GenerateId]. *)
Definition Submit_routed (cmd : RawCommand J) (device_id type : string) (clock : nat → Z)
    (e : BaseEdge) (seq : Z) : outcome SubmitResult * BaseEdge * Z :=
  match NormalizeCommandLocked e cmd device_id type clock seq with
  | (Err ex, seq) => (Throw ex, e, seq)
  | (Ok (inl nerr), seq) =>
      (MakeResult e Sub_InvalidCommand
         (if str_empty nerr then "Normalize 失败" else "Normalize 失败: " +:+ nerr) cmd device_id None 0, e, seq)
  | (Ok (inr task), seq) =>
      let '(ok, qerr, e') := AppendTaskToQueueLocked device_id task (Some "") e in
      let qerr := default "" qerr in
      if negb ok then
        (MakeResult e' Sub_InternalError (if str_empty qerr then "入队失败" else "入队失败: " +:+ qerr)
           cmd device_id (Some (tk_task_id task)) 0, e', seq)
      else
        let qsize := match rg_queues (be_registry e') !! device_id with
                     | Some q => Z.of_nat (TaskQueue.Size q) | None => 0 end in
        (MakeResult e' Sub_Ok "已入队" cmd device_id (Some (tk_task_id task)) qsize, e', seq)
  end.

(** [Throw]: the payload, which goes to the log first, is not UTF-8. *)
Definition Submit (cmd : RawCommand J) (clock : nat → Z) (e : BaseEdge) (seq : Z)
    : outcome SubmitResult * BaseEdge * Z :=
  match j_dump (rc_payload cmd) with
  | Err ex => (Throw ex, e, seq)
  | Ok _ =>
      if decide (be_run_state e ≠ Running) then
        (MakeResult e Sub_NotRunning ("edge 未运行，run_state=" +:+ RunStateToString (be_run_state e))
           cmd "" None 0, e, seq)
      else if be_estop e && negb (se_allow_queue_when_estop (be_settings e)) then
        (MakeResult e Sub_EStop
           (if str_empty (be_estop_reason e) then "estop 已激活" else "estop 已激活: " +:+ be_estop_reason e)
           cmd "" None 0, e, seq)
      else match j_view (rc_payload cmd) with
      | JObject =>
          let device_id := GetStringOr (rc_payload cmd) "device_id" "" in
          if str_empty device_id then
            (MakeResult e Sub_InvalidCommand "缺少 payload.device_id" cmd "" None 0, e, seq)
          else match rg_types (be_registry e) !! device_id with
          | None => (MakeResult e Sub_UnknownDevice ("未知 device_id=" +:+ device_id) cmd device_id None 0,
                     e, seq)
          | Some type => Submit_routed cmd device_id type clock e seq
          end
      | _ => (MakeResult e Sub_InvalidCommand "payload 必须是对象" cmd "" None 0, e, seq)
      end
  end.

(** ** Emergency stop and status *)

Definition SetEStop (active : bool) (reason : string) (e : BaseEdge) : BaseEdge := {|
  be_settings := be_settings e; be_boot_at_ms := be_boot_at_ms e; be_run_state := be_run_state e;
  be_estop := active; be_estop_reason := reason; be_registry := be_registry e;
  be_self := be_self e; be_threads := be_threads e; be_handlers := be_handlers e |}.

Definition edge_run_state (e : BaseEdge) : Z :=
  match be_run_state e with
  | Initializing | Ready => EdgeInitializing
  | Running => if be_estop e then EdgeEStop else EdgeRunning
  | _ => EdgeDegraded
  end.

(** The depth of a device's queue, if it has one. *)
Definition queue_depth (e : BaseEdge) (device_id : string) : option Z :=
  (λ q, Z.of_nat (TaskQueue.Size q)) <$> rg_queues (be_registry e) !! device_id.

(** [ds.queue_depth] is set from the queue. *)
Definition snapshot_device (e : BaseEdge) (device_id : string) (d : device J) : DeviceStatus :=
  let ds := GetStatusSnapshot d in
  match queue_depth e device_id with
  | None => ds
  | Some n => {| ds_device_id := ds_device_id ds; ds_conn_state := ds_conn_state ds;
                 ds_work_state := ds_work_state ds; ds_running_task_id := ds_running_task_id ds;
                 ds_last_task_at_ms := ds_last_task_at_ms ds;
                 ds_last_seen_at_ms := ds_last_seen_at_ms ds; ds_last_error := ds_last_error ds;
                 ds_queue_depth := n |}
  end.

(** The loop over the devices: what it adds to [devices], [pending_total] and
    [running_total]. *)
Definition snapshot_step (e : BaseEdge) (x : string * device J)
    (acc : gmap string DeviceStatus * Z * Z) : gmap string DeviceStatus * Z * Z :=
  let '(m, pending, running) := acc in
  let ds := snapshot_device e x.1 x.2 in
  (<[x.1 := ds]> m, pending + default 0 (queue_depth e x.1),
   running + (if ds_work_state ds =? WorkBusy then 1 else 0)).

Definition Edge_GetStatusSnapshot (e : BaseEdge) : EdgeStatus :=
  let '(m, pending, running) :=
    foldr (snapshot_step e) (∅, 0, 0) (map_to_list (rg_devices (be_registry e))) in {|
  es_edge_id := se_edge_id (be_settings e); es_run_state := edge_run_state e;
  es_boot_at_ms := be_boot_at_ms e; es_last_heartbeat_at_ms := 0;
  es_estop_active := be_estop e; es_estop_reason := be_estop_reason e; es_devices := m;
  es_tasks_pending_total := pending + default 0 (queue_depth e (se_self_device_id (be_settings e)));
  es_tasks_running_total := running; es_version := se_version (be_settings e) |}.

Definition DumpInternalInfo (e : BaseEdge) : J := j_object [
  ("edge_id", j_string (se_edge_id (be_settings e)));
  ("edge_type", j_string (se_edge_type (be_settings e)));
  ("version", j_string (se_version (be_settings e)));
  ("run_state", j_string (RunStateToString (be_run_state e)));
  ("estop_active", j_bool (be_estop e));
  ("self_device_id", j_string (se_self_device_id (be_settings e)));
  ("self_action_enable", j_bool (se_self_action_enable (be_settings e)));
  ("snapshot_enable", j_bool (se_snapshot_enable (be_settings e)));
  ("snapshot_interval_ms", j_number (se_snapshot_interval_ms (be_settings e)));
  ("queues", j_object (map (λ '(id, q), (id, j_object [("name", j_string ("queue-" +:+ id));
                                                       ("size", j_number (Z.of_nat (TaskQueue.Size q)))]))
                           (map_to_list (rg_queues (be_registry e)))));
  ("devices", j_array (map (λ '(id, _), j_string id) (map_to_list (rg_devices (be_registry e)))))].
(** ** Init *)

(** The fields, in the order of the code; those before an exception stay. *)
Definition read_settings (cfg : J) (s : Settings) : result unit * Settings :=
  let '(mkSettings id v ty _ act self snap ms) := s in
  match j_value_string cfg "edge_id" id with Err x => (Err x, s) | Ok id =>
  match j_value_string cfg "version" v with
  | Err x => (Err x, mkSettings id v ty (se_allow_queue_when_estop s) act self snap ms) | Ok v =>
  match j_value_string cfg "edge_type" ty with
  | Err x => (Err x, mkSettings id v ty (se_allow_queue_when_estop s) act self snap ms) | Ok ty =>
  match j_value_bool cfg "allow_queue_when_estop" false with
  | Err x => (Err x, mkSettings id v ty (se_allow_queue_when_estop s) act self snap ms) | Ok allow =>
  match j_value_bool cfg "self_action_enable" act with
  | Err x => (Err x, mkSettings id v ty allow act self snap ms) | Ok act =>
  match j_value_string cfg "self_device_id" self with
  | Err x => (Err x, mkSettings id v ty allow act self snap ms) | Ok self =>
  match j_value_bool cfg "snapshot_enable" snap with
  | Err x => (Err x, mkSettings id v ty allow act self snap ms) | Ok snap =>
  match j_value j_get_int cfg "snapshot_interval_ms" ms with
  | Err x => (Err x, mkSettings id v ty allow act self snap ms)
  | Ok ms => (Ok tt, mkSettings id v ty allow act self snap ms)
  end end end end end end end end.

(** A new queue and the type, for a device or for the edge itself. *)
Definition register (device_id type : string) (r : Registry) : Registry := {|
  rg_types := <[device_id := type]> (rg_types r);
  rg_queues := <[device_id := TaskQueue_new]> (rg_queues r);
  rg_devices := rg_devices r |}.

Definition add_device (device_id : string) (d : device J) (r : Registry) : Registry := {|
  rg_types := rg_types r; rg_queues := rg_queues r;
  rg_devices := <[device_id := d]> (rg_devices r) |}.

(** The [try] of the loop over the devices; an exception keeps what was
    registered before it. *)
Definition init_device_try (idx : nat) (dcfg : J) (now : Z) (r : Registry) (err : option string)
    : result unit * Registry * option string :=
  match j_value_string dcfg "device_id" "" with Err x => (Err x, r, err) | Ok device_id =>
  match j_value_string dcfg "type" "" with Err x => (Err x, r, err) | Ok type =>
  if str_empty device_id || str_empty type then
    match j_dump dcfg with
    | Err x => (Err x, r, err)
    | Ok _ => (Ok tt, r, set_err err ("devices[" +:+ pretty (Z.of_nat idx) +:+ "] 缺少 device_id/type"))
    end
  else
    let r := register device_id type r in
    match Device.Create type dcfg now err with
    | (Err x, err) => (Err x, r, err)
    | (Ok None, err) => (Ok tt, r, set_err err ("创建设备失败: device_id=" +:+ device_id +:+ ", type=" +:+ type))
    | (Ok (Some d), err) => (Ok tt, add_device device_id d r, err)
    end
  end end.

Definition init_device (idx : nat) (dcfg : J) (now : Z) (r : Registry) (err : option string)
    : Registry * option string :=
  match init_device_try idx dcfg now r err with
  | (Ok _, r, err) => (r, err)
  | (Err x, r, err) => (r, set_err err ("Init 捕获异常: " +:+ exn_what x))
  end.

Fixpoint init_devices (idx : nat) (items : list J) (clock : nat → Z) (r : Registry)
    (err : option string) : Registry * option string :=
  match items with
  | [] => (r, err)
  | dcfg :: items =>
      let '(r, err) := init_device (S idx) dcfg (clock (S idx)) r err in
      init_devices (S idx) items clock r err
  end.

(** [devices_.clear()] joins the workflow of every device. *)
Definition all_joined (devices : gmap string (device J)) : bool :=
  forallb (λ x, match destroy (dv_workflow x.2) with Some _ => true | None => false end)
    (map_to_list devices).

(** [None]: blocked while the old devices are destroyed; an exception leaves
    the edge in [Initializing]. *)
Definition Edge_Init (cfg : J) (clock : nat → Z) (err : option string) (e : BaseEdge)
    : option (result bool * option string * BaseEdge) :=
  let '(r, settings) := read_settings cfg (be_settings e) in
  let e := {| be_settings := settings; be_boot_at_ms := be_boot_at_ms e;
              be_run_state := Initializing; be_estop := be_estop e;
              be_estop_reason := be_estop_reason e; be_registry := be_registry e;
              be_self := no_self_task; be_threads := be_threads e; be_handlers := be_handlers e |} in
  match r with
  | Err x => Some (Err x, err, e)
  | Ok _ =>
      if negb (all_joined (rg_devices (be_registry e))) then None else
      let r := register (se_self_device_id settings) "self" no_devices in
      let '(r, err) := match j_find cfg "devices" with
                       | Some v => match j_view v with
                                   | JArray => init_devices 0 (j_elems v) clock r err
                                   | _ => (r, err)
                                   end
                       | None => (r, err)
                       end in
      Some (Ok true, err, with_run_state Ready (RegisterSelfTaskHandler "say_hello"
            {| be_settings := settings; be_boot_at_ms := clock 0%nat; be_run_state := Initializing;
               be_estop := be_estop e; be_estop_reason := be_estop_reason e; be_registry := r;
               be_self := no_self_task; be_threads := be_threads e; be_handlers := be_handlers e |}))
  end.

(** [UNAEdge::Init] adds the edge's own actions; the vehicle is not modelled. *)
Definition UNAEdge_Init (cfg : J) (clock : nat → Z) (err : option string) (e : BaseEdge)
    : option (result bool * option string * BaseEdge) :=
  match Edge_Init cfg clock err e with
  | Some (Ok true, err, e) =>
      Some (Ok true, err, foldl (λ e action, RegisterSelfTaskHandler action e) e
                            ["up"; "down"; "stop"; "estop"])
  | r => r
  end.

(** ** Start and Shutdown

    The parts other than the joins of the edge's own threads. *)

(** A thread object that is joinable already is left alone. *)
Definition start_threads (e : BaseEdge) : BaseEdge := with_threads {|
  th_monitor := true;
  th_action := th_action (be_threads e) || se_self_action_enable (be_settings e);
  th_snapshot := th_snapshot (be_threads e) || se_snapshot_enable (be_settings e) |} e.

(** The loop over the devices, whose order the library chooses; it stops at the
    first failure, with the devices before it started. *)
Fixpoint start_devices (l : list (string * device J)) (err : option string) (e : BaseEdge)
    : option (bool * option string * BaseEdge) :=
  match l with
  | [] => Some (true, err, e)
  | (device_id, d) :: l =>
      match rg_queues (be_registry e) !! device_id with
      | None => Some (false, set_err err ("Start 失败: 找不到 device_id=" +:+ device_id +:+ " 对应的队列"), e)
      | Some q =>
          match Device_Start true (Some "") d with
          | None => None
          | Some (false, dev_err, _) =>
              Some (false, set_err err ("device.Start 失败: device_id=" +:+ device_id +:+ ", err=" +:+
                                        default "" dev_err), e)
          | Some (true, _, d) =>
              start_devices l err (with_registry (add_device device_id d (be_registry e)) e)
          end
      end
  end.

Definition Edge_Start (err : option string) (e : BaseEdge) : option (bool * option string * BaseEdge) :=
  if decide (be_run_state e ≠ Ready) then
    Some (false, set_err err ("Start 被拒绝: 当前 run_state=" +:+ RunStateToString (be_run_state e)), e)
  else
    let e := start_threads e in
    match start_devices (map_to_list (rg_devices (be_registry e))) err e with
    | Some (true, err, e) => Some (true, err, with_run_state Running e)
    | r => r
    end.

(** [Shutdown] once the snapshot and action threads are joined: [None] while a
    device's workflow has not returned. *)
Definition Edge_Shutdown (e : BaseEdge) : option BaseEdge :=
  match be_run_state e with
  | Stopped | Stopping => Some e
  | _ =>
      if negb (all_joined (rg_devices (be_registry e))) then None
      else Some (with_run_state Stopped (with_registry no_devices (with_threads {|
             th_monitor := th_monitor (be_threads e); th_action := false; th_snapshot := false |} e)))
  end.
End edge.
Arguments BaseEdge : clear implicits.
Arguments Registry : clear implicits.

Section facts.
Context {J : Type} `{JN : JsonNumbers J}.
Implicit Types (e : BaseEdge J) (r : Registry J) (cmd : RawCommand J) (t : Task J).

(** ** The registry

    Every registered device has a type and a queue that is not shut down, and
    every device object has a queue. *)
Record registry_ok r : Prop := {
  ok_types : dom (rg_types r) = dom (rg_queues r);
  ok_devices : dom (rg_devices r) ⊆ dom (rg_queues r);
  ok_open : map_Forall (λ _ q, tq_shutdown q = false) (rg_queues r)
}.

Lemma registry_ok_empty : registry_ok no_devices.
Proof. split; cbn; [by rewrite !dom_empty_L|by rewrite !dom_empty_L|apply map_Forall_empty]. Qed.

Lemma registry_ok_register device_id type r : registry_ok r → registry_ok (register device_id type r).
Proof.
  intros [Ht Hd Ho]. split; cbn.
  - by rewrite !dom_insert_L, Ht.
  - rewrite dom_insert_L. set_solver.
  - by apply map_Forall_insert_2.
Qed.

Lemma registry_ok_add_device device_id d r :
  registry_ok r → device_id ∈ dom (rg_queues r) → registry_ok (add_device device_id d r).
Proof.
  intros [Ht Hd Ho] Hin. split; cbn; [done| |done]. rewrite dom_insert_L. set_solver.
Qed.

Lemma registry_ok_queue device_id q r :
  registry_ok r → device_id ∈ dom (rg_queues r) → tq_shutdown q = false →
  registry_ok {| rg_types := rg_types r; rg_queues := <[device_id := q]> (rg_queues r);
                 rg_devices := rg_devices r |}.
Proof.
  intros [Ht Hd Ho] Hin Hq. split; cbn.
  - rewrite dom_insert_L, Ht. set_solver.
  - rewrite dom_insert_L. set_solver.
  - by apply map_Forall_insert_2.
Qed.

(** ** Submit *)

(** Where a command is routed to: to a registered device of an edge that is
    running and not stopped by an emergency. *)
Definition submit_target e cmd : option (string * string) :=
  if decide (be_run_state e = Running) then
    if be_estop e && negb (se_allow_queue_when_estop (be_settings e)) then None
    else match j_view (rc_payload cmd) with
         | JObject =>
             let device_id := GetStringOr (rc_payload cmd) "device_id" "" in
             if decide (device_id = "") then None
             else pair device_id <$> rg_types (be_registry e) !! device_id
         | _ => None
         end
  else None.

Definition queued (device_id : string) (q : TaskQueue (Task J)) t e : BaseEdge J :=
  set_queue device_id {| tq_q := tq_q q ++ [t]; tq_shutdown := false |} e.

Lemma NormalizeCommandLocked_device e cmd device_id type clock seq t seq' :
  NormalizeCommandLocked e cmd device_id type clock seq = (Ok (inr t), seq') → tk_device_id t = device_id.
Proof.
  unfold NormalizeCommandLocked. destruct (CreateNormalizer type); [|done].
  intros ([nerr|t'] & s1 & _ & Hr)%io_bind_Ok; [done|].
  destruct (decide _) as [Hd|]; [|done]. by injection Hr as <- _.
Qed.

Lemma AppendTaskToQueueLocked_open device_id t err e q :
  registry_ok (be_registry e) → rg_queues (be_registry e) !! device_id = Some q →
  AppendTaskToQueueLocked device_id t err e = (true, err, queued device_id q t e).
Proof.
  intros Hr Hq. pose proof (ok_open _ Hr device_id q Hq) as Ho. cbn in Ho.
  unfold AppendTaskToQueueLocked, IsShutdown, Push. by rewrite Hq, Ho.
Qed.

Lemma Submit_target cmd clock e seq text :
  j_dump (rc_payload cmd) = Ok text →
  Submit cmd clock e seq = match submit_target e cmd with
                           | None => (Undef, e, seq)
                           | Some (device_id, type) => Submit_routed cmd device_id type clock e seq
                           end.
Proof.
  intros Hd. unfold Submit, submit_target. rewrite Hd.
  destruct (decide (be_run_state e = Running)) as [Hr|Hr];
    [rewrite decide_False by tauto|by rewrite decide_True].
  destruct (be_estop e && _); [done|]. destruct (j_view (rc_payload cmd)); try done. cbv zeta.
  destruct (GetStringOr (rc_payload cmd) "device_id" "") eqn:E; [done|]. cbn [str_empty].
  rewrite decide_False by done. by destruct (rg_types (be_registry e) !! _).
Qed.

Lemma Submit_routed_spec cmd device_id type clock e seq :
  registry_ok (be_registry e) → rg_types (be_registry e) !! device_id = Some type →
  match NormalizeCommandLocked e cmd device_id type clock seq with
  | (Err x, seq') => Submit_routed cmd device_id type clock e seq = (Throw x, e, seq')
  | (Ok (inl _), seq') => Submit_routed cmd device_id type clock e seq = (Undef, e, seq')
  | (Ok (inr t), seq') => ∃ q, rg_queues (be_registry e) !! device_id = Some q ∧
      tk_device_id t = device_id ∧
      Submit_routed cmd device_id type clock e seq =
        (Ret {| sr_code := Sub_Ok; sr_message := "已入队"; sr_edge_id := se_edge_id (be_settings e);
                sr_device_id := device_id; sr_command_id := rc_command_id cmd;
                sr_task_id := tk_task_id t; sr_queue_size_after := Z.of_nat (length (tq_q q)) + 1 |},
         queued device_id q t e, seq')
  end.
Proof.
  intros Hr Ht. unfold Submit_routed.
  destruct (NormalizeCommandLocked e cmd device_id type clock seq) as [[[nerr|t]|x] seq'] eqn:En; [done| |done].
  assert (Hq : is_Some (rg_queues (be_registry e) !! device_id)).
  { apply elem_of_dom. rewrite <- (ok_types _ Hr). by apply elem_of_dom. }
  destruct Hq as [q Hq]. exists q. split; [done|].
  split; [by eapply NormalizeCommandLocked_device|].
  rewrite (AppendTaskToQueueLocked_open _ _ _ _ q) by done. cbn. rewrite lookup_insert_eq.
  unfold TaskQueue.Size. cbn. rewrite length_app, Nat2Z.inj_add. done.
Qed.

Lemma submit_target_type e cmd device_id type :
  submit_target e cmd = Some (device_id, type) → rg_types (be_registry e) !! device_id = Some type.
Proof.
  unfold submit_target. destruct (decide _); [|done]. destruct (be_estop e && _); [done|].
  destruct (j_view (rc_payload cmd)); try done. destruct (decide _); [done|].
  intros (ty & Hty & Heq)%fmap_Some. by injection Heq as -> ->.
Qed.

(** Nothing happens, or a task is queued and a result returned. *)
Lemma Submit_inv cmd clock e seq res e' seq' :
  registry_ok (be_registry e) → Submit cmd clock e seq = (res, e', seq') →
  e' = e ∧ (∀ x, res ≠ Ret x) ∨
  ∃ device_id q t x, rg_queues (be_registry e) !! device_id = Some q ∧
    e' = queued device_id q t e ∧ res = Ret x ∧ sr_code x = Sub_Ok.
Proof.
  intros Hr Hs. destruct (j_dump (rc_payload cmd)) as [text|x] eqn:Hd.
  2: { unfold Submit in Hs. rewrite Hd in Hs. injection Hs as <- <- <-. by left. }
  rewrite (Submit_target _ _ _ _ _ Hd) in Hs.
  destruct (submit_target e cmd) as [[device_id type]|] eqn:E; [|injection Hs as <- <- <-; by left].
  pose proof (Submit_routed_spec cmd device_id type clock e seq Hr (submit_target_type _ _ _ _ E)) as Hspec.
  rewrite Hs in Hspec.
  destruct (NormalizeCommandLocked e cmd device_id type clock seq) as [[[nerr|t]|x] seq1];
    [injection Hspec as -> -> ->; by left| |injection Hspec as -> -> ->; by left].
  destruct Hspec as (q & Hq & _ & [= -> -> ->]). right. by do 4 eexists.
Qed.

(** C9: submitting a command to an edge whose registry is in order: a
    payload that is not UTF-8 throws; a command without a target - because the
    edge does not run, is stopped by an emergency, or the payload is not an
    object, names no device or one that is not registered - and one that the
    normaliser rejects change nothing, and instead of the result with the code of
    the failure the edge constructs a string from a null pointer; any other
    command is appended, as a task for its device, to the device's queue, and
    only then is a result returned, with the task's id and the new length of the
    queue. *)
Theorem Submit_spec cmd clock e seq text :
  registry_ok (be_registry e) → j_dump (rc_payload cmd) = Ok text →
  match submit_target e cmd with
  | None => Submit cmd clock e seq = (Undef, e, seq)
  | Some (device_id, type) =>
      match NormalizeCommandLocked e cmd device_id type clock seq with
      | (Err x, seq') => Submit cmd clock e seq = (Throw x, e, seq')
      | (Ok (inl _), seq') => Submit cmd clock e seq = (Undef, e, seq')
      | (Ok (inr t), seq') => ∃ q, rg_queues (be_registry e) !! device_id = Some q ∧
          tk_device_id t = device_id ∧
          Submit cmd clock e seq =
            (Ret {| sr_code := Sub_Ok; sr_message := "已入队"; sr_edge_id := se_edge_id (be_settings e);
                    sr_device_id := device_id; sr_command_id := rc_command_id cmd;
                    sr_task_id := tk_task_id t; sr_queue_size_after := Z.of_nat (length (tq_q q)) + 1 |},
             queued device_id q t e, seq')
      end
  end.
Proof.
  intros Hr Hd. rewrite (Submit_target _ _ _ _ _ Hd).
  destruct (submit_target e cmd) as [[device_id type]|] eqn:E; [|done].
  apply Submit_routed_spec; [done|]. by apply submit_target_type with cmd.
Qed.

(** ** The other operations *)

Lemma init_device_ok idx dcfg now r err r' err' :
  init_device idx dcfg now r err = (r', err') → registry_ok r →
  registry_ok r' ∧ dom (rg_queues r) ⊆ dom (rg_queues r').
Proof.
  unfold init_device, init_device_try. intros Hi Hr.
  destruct (j_value_string dcfg "device_id" "") as [device_id|]; [|by injection Hi as <- <-].
  destruct (j_value_string dcfg "type" "") as [type|]; [|by injection Hi as <- <-].
  destruct (str_empty device_id || str_empty type).
  { destruct (j_dump dcfg); by injection Hi as <- <-. }
  cbv zeta in Hi. pose proof (registry_ok_register device_id type r Hr) as Hr'.
  assert (Hs : dom (rg_queues r) ⊆ dom (rg_queues (register device_id type r))).
  { cbn. rewrite dom_insert_L. set_solver. }
  destruct (Device.Create type dcfg now err) as [[[d|]|] err1]; injection Hi as <- <-; [|done..].
  split; [|done]. apply registry_ok_add_device; [done|]. cbn. rewrite dom_insert_L. set_solver.
Qed.

Lemma init_devices_ok idx items clock r err r' err' :
  init_devices idx items clock r err = (r', err') → registry_ok r →
  registry_ok r' ∧ dom (rg_queues r) ⊆ dom (rg_queues r').
Proof.
  revert idx r err. induction items as [|dcfg items IH]; intros idx r err; cbn;
    [by intros [= <- <-]|].
  destruct (init_device (S idx) dcfg (clock (S idx)) r err) as [r1 err1] eqn:E1. intros E2 Hr.
  destruct (init_device_ok _ _ _ _ _ _ _ E1 Hr) as [Hr1 Hs1].
  destruct (IH _ _ _ E2 Hr1) as [Hr2 Hs2]. split; [done|set_solver].
Qed.

(** An edge that was initialised serves at least itself. *)
Definition edge_ok e : Prop :=
  registry_ok (be_registry e) ∧
  (be_run_state e = Ready ∨ be_run_state e = Running →
   se_self_device_id (be_settings e) ∈ dom (rg_queues (be_registry e))) ∧
  (be_run_state e = Running → th_monitor (be_threads e) = true).

Lemma Edge_Init_ok cfg clock err e res err' e' :
  Edge_Init cfg clock err e = Some (res, err', e') → edge_ok e →
  edge_ok e' ∧ be_threads e' = be_threads e ∧
  match res with Ok b => b = true ∧ be_run_state e' = Ready | Err _ => be_run_state e' = Initializing end.
Proof.
  unfold Edge_Init. intros Hi (Hr & _ & _).
  destruct (read_settings cfg (be_settings e)) as [[[]|x] settings].
  2: { injection Hi as <- <- <-. split; [|done]. split; [done|]. split; cbn; [by intros [|]|done]. }
  destruct (negb _); [done|].
  pose proof (registry_ok_register (se_self_device_id settings) "self" _ registry_ok_empty) as H0.
  assert (Hself : se_self_device_id settings ∈
            dom (rg_queues (register (se_self_device_id settings) "self" (no_devices (J := J))))).
  { cbn. rewrite dom_insert_L. set_solver. }
  cbv zeta in Hi.
  match type of Hi with context [match ?m with (_, _) => _ end] => destruct m as [r1 err1] eqn:E end.
  injection Hi as <- <- <-. split; [|done].
  assert (Hr1 : registry_ok r1 ∧ se_self_device_id settings ∈ dom (rg_queues r1)).
  { destruct (j_find cfg "devices") as [v|]; [|by injection E as <- <-].
    destruct (j_view v); try (by injection E as <- <-).
    destruct (init_devices_ok _ _ _ _ _ _ _ E H0) as [Hr1 Hs]. split; [done|set_solver]. }
  split; [apply Hr1|]. split; [|done]. intros _. apply Hr1.
Qed.

Lemma start_devices_ok l err e b err' e' :
  start_devices l err e = Some (b, err', e') → registry_ok (be_registry e) →
  registry_ok (be_registry e') ∧ be_settings e' = be_settings e ∧ be_threads e' = be_threads e ∧
  be_run_state e' = be_run_state e ∧ rg_queues (be_registry e') = rg_queues (be_registry e).
Proof.
  revert e. induction l as [|[device_id d] l IH]; intros e; cbn; [by intros [= <- <- <-]|].
  destruct (rg_queues (be_registry e) !! device_id) as [q|] eqn:Hq; [|by intros [= <- <- <-]].
  destruct (Device_Start true (Some "") d) as [[[[] dev_err] d']|]; [|by intros [= <- <- <-]|done].
  intros Hs Hr. apply IH in Hs; [exact Hs|]. apply registry_ok_add_device; [done|].
  by eapply elem_of_dom_2.
Qed.

Lemma Edge_Start_ok err e b err' e' :
  Edge_Start err e = Some (b, err', e') → edge_ok e →
  edge_ok e' ∧ (th_monitor (be_threads e) = true → th_monitor (be_threads e') = true).
Proof.
  unfold Edge_Start. destruct (decide _) as [|Hready]; [by intros [= <- <- <-]|].
  assert (Hready' : be_run_state e = Ready) by (by destruct (decide (be_run_state e = Ready))).
  intros Hs (Hr & Hself & _).
  destruct (start_devices _ err (start_threads e)) as [[[[] err1] e1]|] eqn:E; [| |done];
    injection Hs as <- <- <-; destruct (start_devices_ok _ _ _ _ _ _ E Hr) as (Hr1 & Hs1 & Ht1 & Hst1 & Hq1).
  - split; [|intros _; cbn; by rewrite Ht1]. split; [done|]. split; cbn.
    + intros _. rewrite Hs1, Hq1. apply Hself. by left.
    + intros _. by rewrite Ht1.
  - split; [|intros _; by rewrite Ht1]. split; [done|]. split; [|by rewrite Hst1; cbn; rewrite Hready'].
    intros _. rewrite Hs1, Hq1. apply Hself. by left.
Qed.

(** ** An edge in use

    The calls of other threads in any order, and the devices' and the edge's own
    threads, which take tasks from the queues and change the devices. *)
Inductive edge_step e : BaseEdge J → Prop :=
| es_init cfg clock err res err' e' : Edge_Init cfg clock err e = Some (res, err', e') → edge_step e e'
| es_una_init cfg clock err res err' e' : UNAEdge_Init cfg clock err e = Some (res, err', e') → edge_step e e'
| es_start err b err' e' : Edge_Start err e = Some (b, err', e') → edge_step e e'
| es_submit cmd clock seq res e' seq' : Submit cmd clock e seq = (res, e', seq') → edge_step e e'
| es_append t b e' : AppendTask t e = (b, e') → edge_step e e'
| es_append_json taskj b e' : AppendJsonTask taskj e = (b, e') → edge_step e e'
| es_estop active reason : edge_step e (SetEStop active reason e)
| es_shutdown e' : Edge_Shutdown e = Some e' → edge_step e e'
| es_pop device_id q o q' : rg_queues (be_registry e) !! device_id = Some q →
    PopBlocking q = Some (o, q') → edge_step e (set_queue device_id q' e)
| es_device device_id d d' : rg_devices (be_registry e) !! device_id = Some d →
    edge_step e (with_registry (add_device device_id d' (be_registry e)) e).

Lemma edge_ok_queue device_id q q' e :
  edge_ok e → rg_queues (be_registry e) !! device_id = Some q → tq_shutdown q' = tq_shutdown q →
  edge_ok (set_queue device_id q' e).
Proof.
  intros (Hr & Hs & Hm) Hq Hsh. pose proof (ok_open _ Hr device_id q Hq) as Ho. cbn in Ho.
  split; [|split]; cbn.
  - apply registry_ok_queue; [done|by eapply elem_of_dom_2|congruence].
  - rewrite dom_insert_L. set_solver.
  - done.
Qed.

Lemma AppendTask_ok t e b e' :
  AppendTask t e = (b, e') → edge_ok e → edge_ok e' ∧ be_threads e' = be_threads e.
Proof.
  unfold AppendTask. destruct (str_empty _); [by intros [= <- <-]|]. intros Ha Hok.
  unfold AppendTaskToQueueLocked in Ha.
  destruct (rg_queues (be_registry e) !! tk_device_id t) as [q|] eqn:Hq; [|by injection Ha as <- <-].
  destruct (IsShutdown q) eqn:Hsh; injection Ha as <- <-; [done|]. split; [|done].
  apply (edge_ok_queue _ q); [done..|]. unfold Push. unfold IsShutdown in Hsh. by rewrite Hsh.
Qed.

Lemma edge_ok_step e e' :
  edge_step e e' → edge_ok e →
  edge_ok e' ∧ (th_monitor (be_threads e) = true → th_monitor (be_threads e') = true).
Proof.
  intros Hstep Hok. destruct Hstep as [cfg clock err r err' e' Hi|cfg clock err r err' e' Hi
    |err b err' e' Hs|cmd clock seq res e' seq' Hs|t b e' Ha|taskj b e' Ha|active reason|e' Hs
    |device_id q o q' Hq Hp|device_id d d' Hd].
  - destruct (Edge_Init_ok _ _ _ _ _ _ _ Hi Hok) as (H1 & -> & _). done.
  - unfold UNAEdge_Init in Hi. destruct (Edge_Init cfg clock err e) as [[[r1 err1] e1]|] eqn:E; [|done].
    destruct (Edge_Init_ok _ _ _ _ _ _ _ E Hok) as (H1 & H2 & _).
    destruct r1 as [[]|]; injection Hi as <- <- <-; (split; [exact H1|cbn; by rewrite H2]).
  - by eapply Edge_Start_ok.
  - destruct (Submit_inv _ _ _ _ _ _ _ (proj1 Hok) Hs) as [[-> _]|(device_id & q & t & x & Hq & -> & _)];
      [done|]. split; [|done]. apply (edge_ok_queue _ q); [done..|]. symmetry.
    exact (ok_open _ (proj1 Hok) device_id q Hq).
  - destruct (AppendTask_ok _ _ _ _ Ha Hok) as [H1 ->]. done.
  - destruct (AppendTask_ok _ _ _ _ Ha Hok) as [H1 ->]. done.
  - done.
  - unfold Edge_Shutdown in Hs. destruct (be_run_state e) eqn:E;
      try (injection Hs as <-; done);
      (destruct (negb _); [done|]); injection Hs as <-;
      (split; [split; [apply registry_ok_empty|split; [by intros [|]|done]]|done]).
  - split; [|done]. apply (edge_ok_queue _ q); [done..|]. unfold PopBlocking in Hp.
    destruct (pop_ready q); [|done]. injection Hp as Hp. by apply pop_front_spec in Hp as [-> _].
  - split; [|done]. destruct Hok as (Hr & Hs & Hm). split; [|done]. cbn.
    apply registry_ok_add_device; [done|]. apply elem_of_dom_2 in Hd.
    pose proof (ok_devices _ Hr). set_solver.
Qed.

Lemma edge_ok_reachable e e' :
  rtc edge_step e e' → edge_ok e →
  edge_ok e' ∧ (th_monitor (be_threads e) = true → th_monitor (be_threads e') = true).
Proof.
  induction 1 as [e|e e1 e' Hstep _ IH]; intros Hok; [done|].
  destruct (edge_ok_step _ _ Hstep Hok) as [H1 H2]. destruct (IH H1) as [H3 H4]. tauto.
Qed.

Lemma edge_ok_new edge_type : edge_ok (BaseEdge_new edge_type).
Proof. split; [apply registry_ok_empty|]. by split; [intros [|]|]. Qed.

(** C10: in every state an edge can reach, whatever is called in whatever
    order, every registered device has a type and a queue, every device object a
    queue, and no queue is shut down; an edge that is ready or running serves its
    own device id; and once an edge has run, its monitor thread stays joinable
    for ever: nothing ever joins it, so that destroying the edge ends the
    program. *)
Theorem edge_invariant edge_type e e' :
  rtc edge_step (BaseEdge_new edge_type) e → rtc edge_step e e' →
  registry_ok (be_registry e) ∧
  (be_run_state e = Ready ∨ be_run_state e = Running →
   se_self_device_id (be_settings e) ∈ dom (rg_queues (be_registry e))) ∧
  (be_run_state e = Running → th_monitor (be_threads e') = true).
Proof.
  intros H1 H2. destruct (edge_ok_reachable _ _ H1 (edge_ok_new edge_type)) as [Hok _].
  destruct (edge_ok_reachable _ _ H2 Hok) as [_ Hm]. destruct Hok as (Hr & Hs & Hmon). tauto.
Qed.

(** ** The status *)

Definition depth (e : BaseEdge J) (device_id : string) : Z := default 0 (queue_depth e device_id).

Lemma snapshot_fold e l :
  NoDup l.*1 →
  foldr (snapshot_step e) (∅, 0, 0) l =
    (list_to_map (map (λ x, (x.1, snapshot_device e x.1 x.2)) l),
     foldr Z.add 0 (map (λ x, depth e x.1) l),
     Z.of_nat (length (filter (λ x, ds_work_state (GetStatusSnapshot x.2) = WorkBusy) l))).
Proof.
  induction l as [|[device_id d] l IH]; intros Hn; [done|]. apply NoDup_cons in Hn as [_ Hn].
  cbn [foldr]. rewrite (IH Hn). cbn [snapshot_step map fst snd foldr]. rewrite filter_cons.
  assert (Hw : ds_work_state (snapshot_device e device_id d) = ds_work_state (GetStatusSnapshot d)).
  { unfold snapshot_device. by destruct (queue_depth e device_id). }
  rewrite Hw. cbn. unfold depth at 2. destruct (decide _) as [->|Hb].
  - f_equal; [f_equal; lia|]. cbn [length Z.eqb WorkBusy Pos.eqb]. lia.
  - apply Z.eqb_neq in Hb as ->. f_equal; [f_equal; lia|lia].
Qed.

(** A status snapshot shows each device with the status it reports and
    the depth of its queue; the pending total is the sum of the depths of the
    devices' queues and of the edge's own, and the running total the number of
    busy devices. *)
Theorem snapshot_spec e :
  let s := Edge_GetStatusSnapshot e in
  let l := map_to_list (rg_devices (be_registry e)) in
  (∀ device_id, es_devices s !! device_id = snapshot_device e device_id <$> rg_devices (be_registry e) !! device_id) ∧
  es_tasks_pending_total s =
    foldr Z.add 0 (map (λ x, depth e x.1) l) + depth e (se_self_device_id (be_settings e)) ∧
  es_tasks_running_total s =
    Z.of_nat (length (filter (λ x, ds_work_state (GetStatusSnapshot x.2) = WorkBusy) l)).
Proof.
  cbv zeta. unfold Edge_GetStatusSnapshot. rewrite snapshot_fold by apply NoDup_fst_map_to_list.
  split; [|done]. intros device_id. cbn [es_devices].
  assert (Hm : list_to_map (map (λ x, (x.1, snapshot_device e x.1 x.2)) (map_to_list (rg_devices (be_registry e)))) =
               map_imap (λ k d, Some (snapshot_device e k d)) (rg_devices (be_registry e)) :> gmap string DeviceStatus).
  { apply map_eq. intros k. rewrite map_lookup_imap. apply option_eq. intros ds.
    rewrite <- elem_of_list_to_map.
    - rewrite list_elem_of_fmap. split.
      + intros ([k' d] & [= -> ->] & Hin%elem_of_map_to_list). cbn. by rewrite Hin.
      + intros (d & Hd & [= <-])%bind_Some. exists (k, d). split; [done|]. by apply elem_of_map_to_list.
    - rewrite <- list_fmap_compose. erewrite list_fmap_ext; [apply NoDup_fst_map_to_list|]. done. }
  rewrite Hm, map_lookup_imap. by destruct (rg_devices (be_registry e) !! device_id).
Qed.
End facts.

(** *** Witnesses *)

Definition demo_edge_cfg : jvalue :=
  VObj [("edge_id", VStr "e1");
        ("devices", VArr [VObj [("device_id", VStr "d1"); ("type", VStr "depth_sensor")]])].

Definition demo_ready : BaseEdge jvalue :=
  match Edge_Init demo_edge_cfg (λ _, 5) None (BaseEdge_new "uav") with
  | Some (Ok true, _, e) => e
  | _ => BaseEdge_new "uav"
  end.

Definition demo_running : BaseEdge jvalue :=
  match Edge_Start None demo_ready with Some (true, _, e) => e | _ => demo_ready end.

Lemma demo_reachable : rtc edge_step (BaseEdge_new "uav") demo_running.
Proof.
  apply rtc_l with demo_ready.
  - apply (es_init _ demo_edge_cfg (λ _, 5) None (Ok true) None). vm_compute. reflexivity.
  - apply rtc_once. apply (es_start _ None true None). vm_compute. reflexivity.
Qed.

Lemma demo_running_state : be_run_state demo_running = Running.
Proof. vm_compute. reflexivity. Qed.

Lemma edge_invariant_witness :
  be_run_state demo_running = Running ∧
  th_monitor (be_threads (SetEStop true "test" demo_running)) = true.
Proof.
  split; [exact demo_running_state|].
  apply (edge_invariant "uav" demo_running (SetEStop true "test" demo_running) demo_reachable).
  - apply rtc_once, es_estop.
  - exact demo_running_state.
Defined.

Definition demo_edge_task : Task jvalue := Eval vm_compute in
  match (NormalizeCommandLocked demo_running demo_cmd "d1" "depth_sensor" (λ _, 5) 0).1 with
  | Ok (inr t) => t | _ => Task_default end.

(** A command for the registered device is queued; one for the edge itself has no
    normaliser and ends in the undefined string. *)
Lemma Submit_spec_witness :
  (∃ q res, Submit demo_cmd (λ _, 5) demo_running 0 = (Ret res, queued "d1" q demo_edge_task demo_running, 2) ∧
     sr_task_id res = "task-5-1" ∧ sr_code res = Sub_Ok) ∧
  (Submit {| rc_command_id := "c"; rc_source := ""; rc_payload := VObj [("device_id", VStr "self")];
             rc_received_at_ms := 0; rc_idempotency_key := ""; rc_dedup_window_ms := 0 |}
          (λ _, 5) demo_running 0).1.1 = Undef.
Proof.
  split; [|vm_compute; reflexivity].
  assert (Hr : registry_ok (be_registry demo_running)).
  { apply (edge_ok_reachable _ _ demo_reachable (edge_ok_new "uav")). }
  pose proof (Submit_spec demo_cmd (λ _, 5) demo_running 0 "" Hr eq_refl) as Hs.
  assert (Ht : submit_target demo_running demo_cmd = Some ("d1", "depth_sensor")) by (vm_compute; reflexivity).
  assert (Hn : NormalizeCommandLocked demo_running demo_cmd "d1" "depth_sensor" (λ _, 5) 0 =
               (Ok (inr demo_edge_task), 2)) by (vm_compute; reflexivity).
  rewrite Ht, Hn in Hs. destruct Hs as (q & _ & _ & ->). exists q. eexists. split; [reflexivity|].
  split; reflexivity.
Defined.
