(* ===== verification/UUVEdge.v ===== *)
(** * The UUV edge

    Model of my_edge/demo/UUVEdge.cpp, an edge of its own next to those that
    derive from BaseEdge: one normaliser per device type, made in [Init]; a
    thread for the edge's own tasks; no snapshot thread, since nothing sets
    [status_snapshot_enable_]. *)

From S2P Require Import Prelude Text Json Double TaskData MyControl TaskQueue Workflow Device BaseEdge.

Local Open Scope Z_scope.

Section uuv.
Context {J : Type} `{JsonNumbers J} `{!JsonItems J}.

(** The fields that [Init] reads, in its order. *)
Record uuv_settings := mk_uuv_settings {
  us_edge_id : string;
  us_version : string;
  us_edge_type : string;
  us_allow_queue_when_estop : bool;
  us_self_action_enable : bool;
  us_self_device_id : string
}.

(** [uu_action]: the thread object of the edge's own tasks is joinable. *)
Record UUVEdge := {
  uu_settings : uuv_settings;
  uu_boot_at_ms : Z;
  uu_run_state : RunState;
  uu_estop : bool;
  uu_estop_reason : string;
  uu_registry : Registry J;
  uu_normalizers : gmap string normalizer;
  uu_action : bool
}.
Implicit Types (e : UUVEdge) (err : option string).

Definition UUVEdge_new : UUVEdge := {|
  uu_settings := mk_uuv_settings "edge-unknown" "0.1.0" "uuv" false true "self";
  uu_boot_at_ms := 0; uu_run_state := Initializing; uu_estop := false; uu_estop_reason := "";
  uu_registry := no_devices; uu_normalizers := ∅; uu_action := false |}.

Definition uuv_state (x : RunState) e : UUVEdge := {|
  uu_settings := uu_settings e; uu_boot_at_ms := uu_boot_at_ms e; uu_run_state := x;
  uu_estop := uu_estop e; uu_estop_reason := uu_estop_reason e; uu_registry := uu_registry e;
  uu_normalizers := uu_normalizers e; uu_action := uu_action e |}.
Definition uuv_registry (x : Registry J) e : UUVEdge := {|
  uu_settings := uu_settings e; uu_boot_at_ms := uu_boot_at_ms e; uu_run_state := uu_run_state e;
  uu_estop := uu_estop e; uu_estop_reason := uu_estop_reason e; uu_registry := x;
  uu_normalizers := uu_normalizers e; uu_action := uu_action e |}.
Definition uuv_normalizers (x : gmap string normalizer) e : UUVEdge := {|
  uu_settings := uu_settings e; uu_boot_at_ms := uu_boot_at_ms e; uu_run_state := uu_run_state e;
  uu_estop := uu_estop e; uu_estop_reason := uu_estop_reason e; uu_registry := uu_registry e;
  uu_normalizers := x; uu_action := uu_action e |}.
Definition uuv_action (x : bool) e : UUVEdge := {|
  uu_settings := uu_settings e; uu_boot_at_ms := uu_boot_at_ms e; uu_run_state := uu_run_state e;
  uu_estop := uu_estop e; uu_estop_reason := uu_estop_reason e; uu_registry := uu_registry e;
  uu_normalizers := uu_normalizers e; uu_action := x |}.

Definition uuv_MakeResult e (code : SubmitCode) (msg : string) (cmd : RawCommand J)
    (device_id task_id : string) (queue_size_after : Z) : SubmitResult := {|
  sr_code := code; sr_message := msg; sr_edge_id := us_edge_id (uu_settings e);
  sr_device_id := device_id; sr_command_id := rc_command_id cmd; sr_task_id := task_id;
  sr_queue_size_after := queue_size_after |}.

(** ** Init *)

Definition EnsureNormalizerForTypeLocked (type : string) err e : bool * option string * UUVEdge :=
  match uu_normalizers e !! type with
  | Some _ => (true, err, e)
  | None =>
      match CreateNormalizer type with
      | None => (false, set_err err ("创建 Normalizer 失败，类型=" +:+ type), e)
      | Some n => (true, err, uuv_normalizers (<[type := n]> (uu_normalizers e)) e)
      end
  end.

Definition set_type (device_id type : string) (r : Registry J) : Registry J := {|
  rg_types := <[device_id := type]> (rg_types r); rg_queues := rg_queues r; rg_devices := rg_devices r |}.
Definition new_queue (device_id : string) (r : Registry J) : Registry J := {|
  rg_types := rg_types r; rg_queues := <[device_id := TaskQueue_new]> (rg_queues r);
  rg_devices := rg_devices r |}.

(** The [try] of the loop: [Ok true] when the item became a device; an exception
    keeps what was registered before it. *)
Definition uuv_item_try (dcfg : J) (now : Z) err e : result bool * option string * UUVEdge :=
  match j_value_string dcfg "device_id" "" with Err x => (Err x, err, e) | Ok device_id =>
  match j_value_string dcfg "type" "" with Err x => (Err x, err, e) | Ok type =>
  if str_empty device_id || str_empty type then
    match j_dump dcfg with
    | Err x => (Err x, err, e)
    | Ok _ => (Ok false, set_err err "设备配置项缺少 device_id/type", e)
    end
  else
    let e := uuv_registry (set_type device_id type (uu_registry e)) e in
    match EnsureNormalizerForTypeLocked type err e with
    | (false, err, e) => (Ok false, err, e)
    | (true, err, e) =>
        let e := uuv_registry (new_queue device_id (uu_registry e)) e in
        match Device.Create type dcfg now err with
        | (Err x, err) => (Err x, err, e)
        | (Ok None, err) => (Ok false, set_err err ("创建设备失败，类型=" +:+ type), e)
        | (Ok (Some d), err) => (Ok true, err, uuv_registry (add_device device_id d (uu_registry e)) e)
        end
    end
  end end.

(** Every item sets the run state. *)
Definition uuv_item (dcfg : J) (now : Z) err e : bool * option string * UUVEdge :=
  match uuv_item_try dcfg now err e with
  | (Ok true, err, e) => (true, err, uuv_state Ready e)
  | (Ok false, err, e) => (false, err, uuv_state Initializing e)
  | (Err x, err, e) => (false, set_err err ("捕获到异常: " +:+ exn_what x), uuv_state Initializing e)
  end.

Fixpoint uuv_items (idx : nat) (items : list J) (clock : nat → Z) (initStatus : bool) err e
    : bool * option string * UUVEdge :=
  match items with
  | [] => (initStatus, err, e)
  | dcfg :: items =>
      let '(ok, err, e) := uuv_item dcfg (clock (S idx)) err e in
      uuv_items (S idx) items clock (initStatus && ok) err e
  end.

(** The range [for] over a value: the elements, the members of an object, or
    the value itself. *)
Definition j_range (v : J) : list J :=
  match j_view v with
  | JNull => []
  | JArray => j_elems v
  | JObject => map snd (j_items v)
  | _ => [v]
  end.

(** The fields before an exception stay. *)
Definition uuv_read (cfg : J) (s : uuv_settings) : result unit * uuv_settings :=
  let '(mk_uuv_settings id v ty allow act self) := s in
  match j_value_string cfg "edge_id" id with Err x => (Err x, s) | Ok id =>
  match j_value_string cfg "version" v with
  | Err x => (Err x, mk_uuv_settings id v ty allow act self) | Ok v =>
  match j_value_string cfg "edge_type" ty with
  | Err x => (Err x, mk_uuv_settings id v ty allow act self) | Ok ty =>
  match j_value_bool cfg "allow_queue_when_estop" false with
  | Err x => (Err x, mk_uuv_settings id v ty allow act self) | Ok allow =>
  match j_value_bool cfg "self_action_enable" true with
  | Err x => (Err x, mk_uuv_settings id v ty allow act self) | Ok act =>
  match j_value_string cfg "self_device_id" self with
  | Err x => (Err x, mk_uuv_settings id v ty allow act self)
  | Ok self => (Ok tt, mk_uuv_settings id v ty allow act self)
  end end end end end end.

(** The edge with the settings, before the loop over the devices. *)
Definition uuv_cleared (s : uuv_settings) (now : Z) e : UUVEdge := {|
  uu_settings := s; uu_boot_at_ms := now; uu_run_state := uu_run_state e; uu_estop := uu_estop e;
  uu_estop_reason := uu_estop_reason e;
  uu_registry := if us_self_action_enable s then new_queue (us_self_device_id s) no_devices else no_devices;
  uu_normalizers := ∅; uu_action := uu_action e |}.
Definition uuv_settled (s : uuv_settings) e : UUVEdge := {|
  uu_settings := s; uu_boot_at_ms := uu_boot_at_ms e; uu_run_state := uu_run_state e;
  uu_estop := uu_estop e; uu_estop_reason := uu_estop_reason e; uu_registry := uu_registry e;
  uu_normalizers := uu_normalizers e; uu_action := uu_action e |}.

Definition no_devices_text : string := "边缘设备需要有末端设备，请补充Device设备信息".

(** [None]: blocked in the join of an old device.  After the message about the
    missing list the loop still indexes it: [Undef] when there is no such key. *)
Definition uuv_Init (cfg : J) (clock : nat → Z) err e : option (outcome bool * option string * UUVEdge) :=
  let '(r, s) := uuv_read cfg (uu_settings e) in
  match r with
  | Err x => Some (Throw x, err, uuv_settled s e)
  | Ok _ =>
      if negb (all_joined (rg_devices (uu_registry e))) then None else
      let e := uuv_cleared s (clock 0%nat) e in
      match j_find cfg "devices" with
      | None => Some (Undef, set_err err no_devices_text, uuv_state Initializing e)
      | Some v =>
          let '(initStatus, err, e) :=
            match j_view v with
            | JArray => (true, err, e)
            | _ => (false, set_err err no_devices_text, uuv_state Initializing e)
            end in
          let '(b, err, e) := uuv_items 0 (j_range v) clock initStatus err e in
          Some (Ret b, err, e)
      end
  end.

(** The constructor with a configuration makes an edge whether [Init] is content
    or not. *)
Definition UUVEdge_construct (cfg : J) (clock : nat → Z) err : option (outcome UUVEdge * option string) :=
  '(r, err, e) ← uuv_Init cfg clock err UUVEdge_new;
  Some (match r with Ret _ => Ret e | Throw x => Throw x | Undef => Undef end, err).

(** ** Start and Shutdown *)

Fixpoint uuv_start_devices (l : list (string * device J)) err e : option (bool * option string * UUVEdge) :=
  match l with
  | [] => Some (true, err, e)
  | (device_id, d) :: l =>
      match rg_queues (uu_registry e) !! device_id with
      | None => Some (false, set_err err ("缺少队列，device_id=" +:+ device_id), uuv_state Ready e)
      | Some q =>
          match Device_Start true (Some "") d with
          | None => None
          | Some (false, dev_err, d) =>
              Some (false, set_err err ("设备启动失败：device_id=" +:+ device_id +:+ ", err=" +:+ default "" dev_err),
                    uuv_state Ready (uuv_registry (add_device device_id d (uu_registry e)) e))
          | Some (true, _, d) =>
              uuv_start_devices l err (uuv_registry (add_device device_id d (uu_registry e)) e)
          end
      end
  end.

(** The snapshot thread is never enabled. *)
Definition StartSelfActionThreadLocked e : UUVEdge :=
  if us_self_action_enable (uu_settings e)
     && bool_decide (is_Some (rg_queues (uu_registry e) !! us_self_device_id (uu_settings e)))
  then uuv_action true e else e.

Definition uuv_Start err e : option (bool * option string * UUVEdge) :=
  if decide (uu_run_state e ≠ Ready) then
    Some (false, set_err err ("启动被拒绝：run_state=" +:+ RunStateToString (uu_run_state e)), e)
  else
    match uuv_start_devices (map_to_list (rg_devices (uu_registry e))) err e with
    | Some (true, err, e) => Some (true, err, StartSelfActionThreadLocked (uuv_state Running e))
    | r => r
    end.

(** Once the thread of the edge's own tasks is joined: [None] while a device's
    workflow has not returned. *)
Definition uuv_Shutdown e : option UUVEdge :=
  match uu_run_state e with
  | Stopped | Stopping => Some e
  | _ =>
      if negb (all_joined (rg_devices (uu_registry e))) then None
      else Some (uuv_state Stopped (uuv_registry no_devices (uuv_normalizers ∅ (uuv_action false e))))
  end.

(** ** Submit *)

Definition uuv_set_queue (device_id : string) (q : TaskQueue (Task J)) e : UUVEdge :=
  uuv_registry {| rg_types := rg_types (uu_registry e);
                  rg_queues := <[device_id := q]> (rg_queues (uu_registry e));
                  rg_devices := rg_devices (uu_registry e) |} e.

(** The step 7. *)
Definition uuv_push (cmd : RawCommand J) (device_id : string) (task : Task J) e : SubmitResult * UUVEdge :=
  match rg_queues (uu_registry e) !! device_id with
  | None => (uuv_MakeResult e Sub_InternalError ("缺少队列，device_id=" +:+ device_id) cmd device_id
               (tk_task_id task) 0, e)
  | Some q =>
      if IsShutdown q then
        (uuv_MakeResult e Sub_QueueShutdown "队列已关闭" cmd device_id (tk_task_id task) 0, e)
      else
        let q := (Push task q).2 in
        (uuv_MakeResult e Sub_Ok "已入队" cmd device_id (tk_task_id task) (Z.of_nat (TaskQueue.Size q)),
         uuv_set_queue device_id q e)
  end.

(** The steps 5 to 7; [seq] is the counter of [GenerateId]. *)
Definition uuv_routed (cmd : RawCommand J) (device_id type : string) (clock : nat → Z) e (seq : Z)
    : result SubmitResult * UUVEdge * Z :=
  match uu_normalizers e !! type with
  | None => (Ok (uuv_MakeResult e Sub_InternalError ("缺少 normalizer，类型=" +:+ type) cmd device_id "" 0), e, seq)
  | Some n =>
      match Normalize n cmd (us_edge_id (uu_settings e)) clock seq with
      | (Err ex, seq) => (Err ex, e, seq)
      | (Ok (inl nerr), seq) =>
          (Ok (uuv_MakeResult e Sub_InvalidCommand
                 (if str_empty nerr then "规范化失败" else "规范化失败: " +:+ nerr) cmd device_id "" 0), e, seq)
      | (Ok (inr task), seq) =>
          let '(r, e) := uuv_push cmd device_id task e in (Ok r, e, seq)
      end
  end.

Definition uuv_Submit (cmd : RawCommand J) (clock : nat → Z) e (seq : Z) : result SubmitResult * UUVEdge * Z :=
  match j_dump (rc_payload cmd) with
  | Err ex => (Err ex, e, seq)
  | Ok _ =>
      if decide (uu_run_state e ≠ Running) then
        (Ok (uuv_MakeResult e Sub_NotRunning ("边缘未运行，run_state=" +:+ RunStateToString (uu_run_state e))
               cmd "" "" 0), e, seq)
      else if uu_estop e && negb (us_allow_queue_when_estop (uu_settings e)) then
        (Ok (uuv_MakeResult e Sub_EStop
               (if str_empty (uu_estop_reason e) then "急停激活" else "急停激活: " +:+ uu_estop_reason e)
               cmd "" "" 0), e, seq)
      else match j_view (rc_payload cmd) with
      | JObject =>
          let device_id := GetStringOr (rc_payload cmd) "device_id" "" in
          if str_empty device_id then
            (Ok (uuv_MakeResult e Sub_InvalidCommand "缺少 payload.device_id" cmd "" "" 0), e, seq)
          else match rg_types (uu_registry e) !! device_id with
          | None => (Ok (uuv_MakeResult e Sub_UnknownDevice ("未知的 device_id=" +:+ device_id) cmd device_id "" 0),
                     e, seq)
          | Some type => uuv_routed cmd device_id type clock e seq
          end
      | _ => (Ok (uuv_MakeResult e Sub_InvalidCommand "payload 必须是对象" cmd "" "" 0), e, seq)
      end
  end.

(** ** Tasks appended from outside *)

Definition max_task_queue_size : nat := 1000.

(** Unlike [Submit] it has a limit, and does not ask whether the edge runs. *)
Definition AppendTaskToTargetTaskQueue (device_id : string) (task : Task J) e : bool * UUVEdge :=
  match rg_queues (uu_registry e) !! device_id with
  | None => (false, e)
  | Some q =>
      if (max_task_queue_size <=? TaskQueue.Size q)%nat then (false, e)
      else (true, uuv_set_queue device_id (Push task q).2 e)
  end.

Definition uuv_AppendTask (task : Task J) e : bool * UUVEdge :=
  if str_empty (tk_device_id task) then (false, e)
  else AppendTaskToTargetTaskQueue (tk_device_id task) task e.

Definition uuv_AppendJsonTask (task : J) e : bool * UUVEdge :=
  let device_id := GetStringOr task "device_id" "" in
  if str_empty device_id then (false, e)
  else AppendTaskToTargetTaskQueue device_id (Task_fromJson task) e.

(** ** Status *)

Definition uuv_SetEStop (active : bool) (reason : string) e : UUVEdge := {|
  uu_settings := uu_settings e; uu_boot_at_ms := uu_boot_at_ms e; uu_run_state := uu_run_state e;
  uu_estop := active; uu_estop_reason := reason; uu_registry := uu_registry e;
  uu_normalizers := uu_normalizers e; uu_action := uu_action e |}.

Definition uuv_edge_run_state e : Z :=
  match uu_run_state e with
  | Initializing | Ready => EdgeInitializing
  | Running => if uu_estop e then EdgeEStop else EdgeRunning
  | _ => EdgeDegraded
  end.

Definition uuv_depth e (device_id : string) : option Z :=
  (λ q, Z.of_nat (TaskQueue.Size q)) <$> rg_queues (uu_registry e) !! device_id.

Definition uuv_snapshot_device e (device_id : string) (d : device J) : DeviceStatus :=
  let ds := GetStatusSnapshot d in {|
  ds_device_id := ds_device_id ds; ds_conn_state := ds_conn_state ds; ds_work_state := ds_work_state ds;
  ds_running_task_id := ds_running_task_id ds; ds_last_task_at_ms := ds_last_task_at_ms ds;
  ds_last_seen_at_ms := ds_last_seen_at_ms ds; ds_last_error := ds_last_error ds;
  ds_queue_depth := default (ds_queue_depth ds) (uuv_depth e device_id) |}.

Definition uuv_snapshot_step e (x : string * device J) (acc : gmap string DeviceStatus * Z * Z)
    : gmap string DeviceStatus * Z * Z :=
  let '(m, pending, running) := acc in
  let ds := uuv_snapshot_device e x.1 x.2 in
  (<[x.1 := ds]> m, pending + default 0 (uuv_depth e x.1),
   running + (if ds_work_state ds =? WorkBusy then 1 else 0)).

Definition uuv_GetStatusSnapshot e : EdgeStatus :=
  let '(m, pending, running) :=
    foldr (uuv_snapshot_step e) (∅, 0, 0) (map_to_list (rg_devices (uu_registry e))) in {|
  es_edge_id := us_edge_id (uu_settings e); es_run_state := uuv_edge_run_state e;
  es_boot_at_ms := uu_boot_at_ms e; es_last_heartbeat_at_ms := 0;
  es_estop_active := uu_estop e; es_estop_reason := uu_estop_reason e; es_devices := m;
  es_tasks_pending_total := pending; es_tasks_running_total := running;
  es_version := us_version (uu_settings e) |}.

(** [null] is the JSON value of a default constructed one. *)
Definition uuv_DumpInternalInfo (null : J) e : J := j_object [
  ("edge_id", j_string (us_edge_id (uu_settings e)));
  ("edge_type", j_string (us_edge_type (uu_settings e)));
  ("version", j_string (us_version (uu_settings e)));
  ("run_state", j_string (RunStateToString (uu_run_state e)));
  ("estop_active", j_bool (uu_estop e));
  ("task-queues", j_object (map (λ '(id, q), (id, j_object [
     ("name", j_string ("queue-" +:+ id)); ("size", j_number (Z.of_nat (TaskQueue.Size q)))]))
     (map_to_list (rg_queues (uu_registry e)))));
  ("devices", j_object (map (λ '(id, _), (id, null)) (map_to_list (rg_devices (uu_registry e)))));
  ("normalizers", j_object (map (λ '(type, _), (type, null)) (map_to_list (uu_normalizers e))))].

Definition uuv_GetRunTimeStatusInfo e : J :=
  j_object [("name", j_string "UUVEdge"); ("state", j_string "active")].

(** ** The edge's own tasks *)

(** [None]: the queue is empty and open, the thread waits. *)
Definition GetSelfTask e : option (option (Task J) * UUVEdge) :=
  match rg_queues (uu_registry e) !! us_self_device_id (uu_settings e) with
  | None => Some (None, e)
  | Some q =>
      '(t, q) ← PopBlocking q;
      Some (t, uuv_set_queue (us_self_device_id (uu_settings e)) q e)
  end.

(** An exception of [params.value] is logged. *)
Definition ExecuteSelfTask (task : Task J) e : UUVEdge :=
  if String.eqb (tk_action task) "set_estop" then
    match j_value_bool (tk_params task) "active" false, j_value_string (tk_params task) "reason" "自我行动" with
    | Ok active, Ok reason => uuv_SetEStop active reason e
    | _, _ => e
    end
  else e.

(** One turn of [SelfActionLoop] in which the thread does not wait. *)
Definition self_turn e : option UUVEdge :=
  '(t, e) ← GetSelfTask e;
  Some (match t with Some task => ExecuteSelfTask task e | None => e end).
End uuv.
Arguments UUVEdge : clear implicits.

Section facts.
Context {J : Type} `{JsonNumbers J} `{!JsonItems J}.
Implicit Types (e : UUVEdge J) (cmd : RawCommand J) (err : option string) (dcfg : J).

(** ** What an item of the configuration makes *)

(** The factory makes a device of a known type, when the text of the item can go
    to the log. *)
Definition makes_device (type : string) (dcfg : J) : bool :=
  match kind_of type with
  | None => false
  | Some FlowSensorDevice => true
  | Some _ => is_ok (j_dump dcfg)
  end.

(** The id of the device that an item makes. *)
Definition item_device (dcfg : J) : option string :=
  match j_value_string dcfg "device_id" "", j_value_string dcfg "type" "" with
  | Ok device_id, Ok type =>
      if str_empty device_id || str_empty type || negb (makes_device type dcfg) then None
      else Some device_id
  | _, _ => None
  end.

Lemma normalizer_kind type : CreateNormalizer type = None ↔ kind_of type = None.
Proof. unfold CreateNormalizer, kind_of. repeat case_decide; done. Qed.

Lemma Create_spec type dcfg now err :
  let r := (Device.Create type dcfg now err).1 in
  if makes_device type dcfg then ∃ d, r = Ok (Some d) else ∀ d, r ≠ Ok (Some d).
Proof.
  unfold makes_device, Device.Create, Device_construct, Device_Init. destruct (kind_of type) as [k|]; [|done].
  destruct (j_dump dcfg) as [text|x]; cbn [is_ok].
  - destruct k, (Init_try dcfg now err (Device_new _ now)) as [[[b|y] err'] d]; cbn; eauto.
  - destruct k; cbn; eauto.
Qed.

(** The normalisers are those of their types, and a registered device whose type
    has one has a queue, open. *)
Record uuv_ok e : Prop := {
  uk_normalizers type n : uu_normalizers e !! type = Some n → CreateNormalizer type = Some n;
  uk_types device_id type n : rg_types (uu_registry e) !! device_id = Some type →
    CreateNormalizer type = Some n →
    uu_normalizers e !! type = Some n ∧ is_Some (rg_queues (uu_registry e) !! device_id);
  uk_devices device_id : is_Some (rg_devices (uu_registry e) !! device_id) →
    is_Some (rg_queues (uu_registry e) !! device_id);
  uk_open device_id q : rg_queues (uu_registry e) !! device_id = Some q → tq_shutdown q = false
}.

Lemma uuv_ok_state x e : uuv_ok e → uuv_ok (uuv_state x e).
Proof. intros []; by split. Qed.
Lemma uuv_ok_action x e : uuv_ok e → uuv_ok (uuv_action x e).
Proof. intros []; by split. Qed.

Lemma uuv_ok_queue device_id q e :
  tq_shutdown q = false → uuv_ok e → uuv_ok (uuv_set_queue device_id q e).
Proof.
  intros Hq [H1 H2 H3 H4]. split; cbn; [done| | |].
  - intros id type n Ht Hn. destruct (H2 id type n Ht Hn) as [? Hs]. split; [done|].
    destruct (decide (id = device_id)) as [->|]; [by rewrite lookup_insert_eq|by rewrite lookup_insert_ne].
  - intros id Hd. destruct (decide (id = device_id)) as [->|]; [by rewrite lookup_insert_eq|].
    rewrite lookup_insert_ne by done. by apply H3.
  - intros id q' [[_ <-]|[_ Hi]]%lookup_insert_Some; [done|by eapply H4].
Qed.

Lemma uuv_ok_device device_id d e :
  is_Some (rg_queues (uu_registry e) !! device_id) → uuv_ok e →
  uuv_ok (uuv_registry (add_device device_id d (uu_registry e)) e).
Proof.
  intros Hq [H1 H2 H3 H4]. split; cbn; [done|done| |done].
  intros id. destruct (decide (id = device_id)) as [->|]; [done|]. rewrite lookup_insert_ne by done. apply H3.
Qed.

(** The type and the queue of an item, with the normaliser in between. *)
Definition uuv_registered (device_id type : string) (n : normalizer) e : UUVEdge J :=
  uuv_registry (new_queue device_id (set_type device_id type (uu_registry e)))
    (uuv_normalizers (<[type := n]> (uu_normalizers e)) e).

Lemma uuv_ok_registered device_id type n e :
  CreateNormalizer type = Some n → uuv_ok e → uuv_ok (uuv_registered device_id type n e).
Proof.
  intros Hn [H1 H2 H3 H4]. split; cbn.
  - intros ty m [[<- <-]|[_ Hi]]%lookup_insert_Some; [done|by apply H1].
  - intros id ty m [[<- <-]|[Hne Hi]]%lookup_insert_Some Hm.
    + rewrite !lookup_insert_eq. split; [congruence|done].
    + destruct (H2 id ty m Hi Hm) as [Hty Hq]. rewrite (lookup_insert_ne (rg_queues _)) by done. split; [|done].
      destruct (decide (ty = type)) as [->|]; [rewrite lookup_insert_eq; congruence|by rewrite lookup_insert_ne].
  - intros id Hd. destruct (decide (id = device_id)) as [->|]; [by rewrite lookup_insert_eq|].
    rewrite lookup_insert_ne by done. by apply H3.
  - intros id q [[_ <-]|[_ Hi]]%lookup_insert_Some; [done|by eapply H4].
Qed.

Lemma uuv_ok_type device_id type e :
  CreateNormalizer type = None → uuv_ok e → uuv_ok (uuv_registry (set_type device_id type (uu_registry e)) e).
Proof.
  intros Hn [H1 H2 H3 H4]. split; cbn; [done| |done|done].
  intros id ty m [[<- <-]|[_ Hi]]%lookup_insert_Some; [congruence|by apply H2].
Qed.

Lemma Ensure_spec type err e :
  uuv_ok e →
  match CreateNormalizer type with
  | None => ∃ err', EnsureNormalizerForTypeLocked type err e = (false, err', e)
  | Some n => EnsureNormalizerForTypeLocked type err e =
      (true, err, uuv_normalizers (<[type := n]> (uu_normalizers e)) e)
  end.
Proof.
  intros He. unfold EnsureNormalizerForTypeLocked. destruct (uu_normalizers e !! type) as [n|] eqn:En.
  - rewrite (uk_normalizers e He _ _ En), insert_id by done. by destruct e.
  - destruct (CreateNormalizer type); eauto.
Qed.


(** What the devices of the edge become. *)
Definition with_device (o : option string) (ids : gset string) : gset string :=
  match o with Some device_id => {[device_id]} ∪ ids | None => ids end.

Definition devices_of e : gset string := dom (rg_devices (uu_registry e)).

(** After the id and the type are read. *)
Lemma uuv_item_typed device_id type dcfg now err e r err' e' :
  uuv_ok e →
  (let e := uuv_registry (set_type device_id type (uu_registry e)) e in
   match EnsureNormalizerForTypeLocked type err e with
   | (false, err, e) => (Ok false, err, e)
   | (true, err, e) =>
       let e := uuv_registry (new_queue device_id (uu_registry e)) e in
       match Device.Create type dcfg now err with
       | (Err x, err) => (Err x, err, e)
       | (Ok None, err) => (Ok false, set_err err ("创建设备失败，类型=" +:+ type), e)
       | (Ok (Some d), err) => (Ok true, err, uuv_registry (add_device device_id d (uu_registry e)) e)
       end
   end) = (r, err', e') →
  uuv_ok e' ∧
  devices_of e' = with_device (if makes_device type dcfg then Some device_id else None) (devices_of e) ∧
  (r = Ok true ↔ makes_device type dcfg = true).
Proof.
  intros He. cbn zeta. unfold EnsureNormalizerForTypeLocked. cbn [uuv_registry uu_normalizers].
  destruct (CreateNormalizer type) as [n|] eqn:En.
  - assert (He1 : uuv_ok (uuv_registered device_id type n e)) by by apply uuv_ok_registered.
    replace (match uu_normalizers e !! type with Some _ => _ | None => _ end)
      with (true, err, uuv_normalizers (<[type:=n]> (uu_normalizers e))
                         (uuv_registry (set_type device_id type (uu_registry e)) e)).
    2:{ destruct (uu_normalizers e !! type) as [n'|] eqn:En'; [|done].
        pose proof (uk_normalizers e He _ _ En') as En2. rewrite insert_id by congruence. done. }
    cbn zeta. pose proof (Create_spec type dcfg now err) as Hc. cbn zeta in Hc.
    destruct (Device.Create type dcfg now err) as [rc err1]. cbn [fst] in Hc.
    destruct (makes_device type dcfg).
    + destruct Hc as [d ->]. intros [= <- <- <-]. split_and!; [|by unfold devices_of; cbn; rewrite dom_insert_L|done].
      apply (uuv_ok_device device_id d (uuv_registered device_id type n e)); [|done].
      cbn. by rewrite lookup_insert_eq.
    + destruct rc as [[d|]|x]; [by destruct (Hc d)| |]; intros [= <- <- <-]; by split_and!.
  - assert (Hm : makes_device type dcfg = false)
      by (unfold makes_device; apply normalizer_kind in En; by rewrite En).
    destruct (uu_normalizers e !! type) as [n'|] eqn:En'.
    { pose proof (uk_normalizers e He _ _ En'). congruence. }
    rewrite Hm. intros [= <- <- <-]. split_and!; [by apply uuv_ok_type|done|done].
Qed.

Lemma uuv_item_try_spec dcfg now err e r err' e' :
  uuv_ok e → uuv_item_try dcfg now err e = (r, err', e') →
  uuv_ok e' ∧ devices_of e' = with_device (item_device dcfg) (devices_of e) ∧
  (r = Ok true ↔ is_Some (item_device dcfg)).
Proof.
  intros He. unfold uuv_item_try, item_device.
  assert (Hnone : is_Some (None : option string) ↔ False) by (split; [by intros []|done]).
  destruct (j_value_string dcfg "device_id" "") as [id|x];
    [|by intros [= <- <- <-]; rewrite Hnone; split_and!].
  destruct (j_value_string dcfg "type" "") as [type|x]; [|by intros [= <- <- <-]; rewrite Hnone; split_and!].
  destruct (str_empty id || str_empty type); cbn [orb].
  { destruct (j_dump dcfg); intros [= <- <- <-]; rewrite Hnone; by split_and!. }
  intros (He' & Hd & Hr)%uuv_item_typed; [|done]. split; [done|]. rewrite Hr.
  destruct (makes_device type dcfg); cbn [negb] in *; [|by rewrite Hnone].
  split; [done|]. split; [by eexists|done].
Qed.

Lemma uuv_item_spec dcfg now err e ok err' e' :
  uuv_ok e → uuv_item dcfg now err e = (ok, err', e') →
  uuv_ok e' ∧ devices_of e' = with_device (item_device dcfg) (devices_of e) ∧
  (ok = true ↔ is_Some (item_device dcfg)) ∧
  uu_run_state e' = (if ok then Ready else Initializing).
Proof.
  intros He. unfold uuv_item. destruct (uuv_item_try dcfg now err e) as [[r err1] e1] eqn:Et.
  destruct (uuv_item_try_spec _ _ _ _ _ _ _ He Et) as (He1 & Hd & Hr).
  destruct r as [[]|x]; intros [= <- <- <-]; (split_and!; [by apply uuv_ok_state|done| |done]); rewrite <- Hr;
    by split.
Qed.

(** The state that a list of items leaves: the last one decides. *)
Definition items_state (items : list J) (before : RunState) : RunState :=
  match last items with
  | None => before
  | Some dcfg => match item_device dcfg with Some _ => Ready | None => Initializing end
  end.

Lemma uuv_items_spec idx items clock b err e ok err' e' :
  uuv_ok e → uuv_items idx items clock b err e = (ok, err', e') →
  uuv_ok e' ∧ devices_of e' = list_to_set (omap item_device items) ∪ devices_of e ∧
  (ok = true ↔ b = true ∧ Forall (λ dcfg, is_Some (item_device dcfg)) items) ∧
  uu_run_state e' = items_state items (uu_run_state e).
Proof.
  revert idx b err e. induction items as [|dcfg items IH]; intros idx b err e He; cbn [uuv_items].
  - intros [= <- <- <-]. split_and!; [done| | |done]; [|rewrite Forall_nil; tauto].
    cbn. by rewrite (left_id_L ∅ (∪)).
  - destruct (uuv_item dcfg (clock (S idx)) err e) as [[ok1 err1] e1] eqn:Ei.
    destruct (uuv_item_spec _ _ _ _ _ _ _ He Ei) as (He1 & Hd1 & Hok1 & Hs1).
    intros Hi. destruct (IH _ _ _ _ He1 Hi) as (He' & Hd & Hok & Hs). split_and!; [done| | |].
    + rewrite Hd, Hd1. cbn. unfold with_device. destruct (item_device dcfg); [|done]. cbn.
      by rewrite (assoc_L (∪)), (comm_L (∪) _ {[ _ ]}).
    + rewrite Hok, Forall_cons, <- Hok1, andb_true_iff. tauto.
    + rewrite Hs, Hs1. unfold items_state. rewrite last_cons. destruct (last items); [done|].
      destruct (item_device dcfg) as [id|], ok1; try done.
      * exfalso. assert (false = true) by (apply Hok1; eauto). done.
      * exfalso. destruct Hok1 as [Hx _]. by destruct (Hx eq_refl).
Qed.

Lemma uuv_ok_cleared s now e : uuv_ok (uuv_cleared s now e).
Proof.
  split; cbn; try done.
  - intros id ty n Ht. destruct (us_self_action_enable s); cbn in Ht; by apply lookup_empty_Some in Ht.
  - intros id. destruct (us_self_action_enable s); cbn; rewrite ?lookup_empty; by intros [].
  - intros id q. destruct (us_self_action_enable s); cbn; [|by rewrite lookup_empty].
    intros [[_ <-]|[_ Hi]]%lookup_insert_Some; [done|by rewrite lookup_empty in Hi].
Qed.

Lemma uuv_cleared_devices s now e : devices_of (uuv_cleared s now e) = ∅.
Proof. unfold devices_of. cbn. destruct (us_self_action_enable s); apply dom_empty_L. Qed.

(** What [Init] leaves when it returns. *)
Lemma uuv_Init_spec cfg clock err e b err' e' :
  uuv_Init cfg clock err e = Some (Ret b, err', e') →
  uuv_ok e' ∧ ∃ v, j_find cfg "devices" = Some v ∧
  devices_of e' = list_to_set (omap item_device (j_range v)) ∧
  (b = true ↔ j_view v = JArray ∧ Forall (λ dcfg, is_Some (item_device dcfg)) (j_range v)) ∧
  uu_run_state e' = items_state (j_range v)
    (match j_view v with JArray => uu_run_state e | _ => Initializing end).
Proof.
  unfold uuv_Init. destruct (uuv_read cfg (uu_settings e)) as [[u|x] s]; [|done].
  destruct (negb _); [done|]. destruct (j_find cfg "devices") as [v|]; [|done].
  set (e0 := uuv_cleared s (clock 0%nat) e).
  set (start := match j_view v with JArray => (true, err, e0)
                | _ => (false, set_err err no_devices_text, uuv_state Initializing e0) end).
  assert (Hstart : ∃ err1 e1, start = (match j_view v with JArray => true | _ => false end, err1, e1) ∧
    uuv_ok e1 ∧ devices_of e1 = ∅ ∧
    uu_run_state e1 = match j_view v with JArray => uu_run_state e | _ => Initializing end).
  { pose proof (uuv_ok_cleared s (clock 0%nat) e) as He0.
    pose proof (uuv_cleared_devices s (clock 0%nat) e) as Hd0. subst start e0.
    destruct (j_view v); do 2 eexists; (split; [reflexivity|]); (split; [by try apply uuv_ok_state|done]). }
  destruct Hstart as (err1 & e1 & -> & He1 & Hd1 & Hs1).
  destruct (uuv_items 0 (j_range v) clock _ err1 e1) as [[b1 err2] e2] eqn:Ei.
  intros [= <- <- <-]. destruct (uuv_items_spec _ _ _ _ _ _ _ _ _ He1 Ei) as (He' & Hd & Hb & Hs).
  split; [done|]. exists v. split; [done|]. split_and!.
  - by rewrite Hd, Hd1, (right_id_L ∅ (∪)).
  - rewrite Hb. destruct (j_view v); intuition congruence.
  - by rewrite Hs, Hs1.
Qed.

Lemma uuv_Init_ok cfg clock err e r err' e' :
  uuv_ok e → uuv_Init cfg clock err e = Some (r, err', e') → uuv_ok e'.
Proof.
  intros He Hi. destruct r as [b|x|]; [by eapply uuv_Init_spec| |].
  - revert Hi. unfold uuv_Init. destruct (uuv_read cfg (uu_settings e)) as [[u|y] s].
    + destruct (negb _); [done|]. destruct (j_find cfg "devices"); [|done].
      destruct (match j_view _ with JArray => _ | _ => _ end) as [[b1 err1] e1].
      by destruct (uuv_items _ _ _ _ _ _) as [[? ?] ?].
    + intros [= _ _ <-]. destruct He; by split.
  - revert Hi. unfold uuv_Init. destruct (uuv_read cfg (uu_settings e)) as [[u|y] s]; [|done].
    destruct (negb _); [done|]. destruct (j_find cfg "devices").
    + destruct (match j_view _ with JArray => _ | _ => _ end) as [[b1 err1] e1].
      by destruct (uuv_items _ _ _ _ _ _) as [[? ?] ?].
    + intros [= _ <-]. apply uuv_ok_state, uuv_ok_cleared.
Qed.

Lemma uuv_start_devices_ok l err e b err' e' :
  uuv_ok e → uuv_start_devices l err e = Some (b, err', e') → uuv_ok e'.
Proof.
  revert err e. induction l as [|[id d] l IH]; intros err e He; cbn; [by intros [= <- <- <-]|].
  destruct (rg_queues (uu_registry e) !! id) as [q|] eqn:Eq; [|intros [= <- <- <-]; by apply uuv_ok_state].
  destruct (Device_Start true (Some "") d) as [[[[] dev_err] d']|]; [| |done].
  - apply IH, uuv_ok_device; [by eexists|done].
  - intros [= <- <- <-]. apply uuv_ok_state, uuv_ok_device; [by eexists|done].
Qed.

Lemma uuv_Start_ok err e b err' e' : uuv_ok e → uuv_Start err e = Some (b, err', e') → uuv_ok e'.
Proof.
  intros He. unfold uuv_Start. destruct (decide _); [by intros [= <- <- <-]|].
  destruct (uuv_start_devices _ err e) as [[[[] err1] e1]|] eqn:Es; [| |done];
    apply uuv_start_devices_ok in Es; try done; intros [= <- <- <-]; [|done].
  unfold StartSelfActionThreadLocked. destruct (_ && _); [apply uuv_ok_action|]; by apply uuv_ok_state.
Qed.

Lemma uuv_ok_empty x e :
  uuv_ok (uuv_state x (uuv_registry no_devices (uuv_normalizers ∅ (uuv_action false e)))).
Proof. split; cbn; intros *; rewrite ?lookup_empty; try done; by intros []. Qed.

Lemma Push_open {T} (t : T) q : tq_shutdown q = false → Push t q = (true, {| tq_q := tq_q q ++ [t]; tq_shutdown := false |}).
Proof. intros Hq. unfold Push. by rewrite Hq. Qed.

Lemma Append_spec device_id t e b e' :
  uuv_ok e → AppendTaskToTargetTaskQueue device_id t e = (b, e') →
  if b then ∃ q, rg_queues (uu_registry e) !! device_id = Some q ∧
      (length (tq_q q) < max_task_queue_size)%nat ∧
      e' = uuv_set_queue device_id {| tq_q := tq_q q ++ [t]; tq_shutdown := false |} e
  else e' = e.
Proof.
  intros He. unfold AppendTaskToTargetTaskQueue.
  destruct (rg_queues (uu_registry e) !! device_id) as [q|] eqn:Eq; [|by intros [= <- <-]].
  destruct (max_task_queue_size <=? Size q)%nat eqn:En; intros [= <- <-]; [done|].
  apply Nat.leb_gt in En. rewrite Push_open by by eapply uk_open. eauto.
Qed.

(** ** The calls, and the devices that run beside them *)

Inductive uuv_step e : UUVEdge J → Prop :=
| us_init cfg clock err r err' e' : uuv_Init cfg clock err e = Some (r, err', e') → uuv_step e e'
| us_start err b err' e' : uuv_Start err e = Some (b, err', e') → uuv_step e e'
| us_shutdown e' : uuv_Shutdown e = Some e' → uuv_step e e'
| us_submit cmd clock seq r e' seq' : uuv_Submit cmd clock e seq = (r, e', seq') → uuv_step e e'
| us_task t b e' : uuv_AppendTask t e = (b, e') → uuv_step e e'
| us_json t b e' : uuv_AppendJsonTask t e = (b, e') → uuv_step e e'
| us_estop active reason : uuv_step e (uuv_SetEStop active reason e)
| us_self e' : self_turn e = Some e' → uuv_step e e'
| us_pop device_id q t q' : rg_queues (uu_registry e) !! device_id = Some q →
    pop_front q = (Some t, q') → uuv_step e (uuv_set_queue device_id q' e)
| us_device device_id d d' : rg_devices (uu_registry e) !! device_id = Some d →
    uuv_step e (uuv_registry (add_device device_id d' (uu_registry e)) e).

Lemma pop_front_shutdown q o q' : pop_front (T := Task J) q = (o, q') → tq_shutdown q' = tq_shutdown q.
Proof. unfold pop_front. by destruct (tq_q q); intros [= <- <-]. Qed.

Lemma uuv_ok_estop active reason e : uuv_ok e → uuv_ok (uuv_SetEStop active reason e).
Proof. intros []; by split. Qed.

Lemma uuv_ok_self e e' : uuv_ok e → self_turn e = Some e' → uuv_ok e'.
Proof.
  intros He. unfold self_turn, GetSelfTask.
  destruct (rg_queues (uu_registry e) !! us_self_device_id (uu_settings e)) as [q|] eqn:Eq.
  - unfold PopBlocking. destruct (pop_ready q); [|done].
    destruct (pop_front q) as [o q1] eqn:Ep. cbn [mbind option_bind].
    assert (He1 : uuv_ok (uuv_set_queue (us_self_device_id (uu_settings e)) q1 e)).
    { apply uuv_ok_queue; [|done]. rewrite (pop_front_shutdown _ _ _ Ep). by eapply uk_open. }
    destruct o as [t|]; intros [= <-]; [|done]. unfold ExecuteSelfTask.
    repeat case_match; try done. by apply uuv_ok_estop.
  - by intros [= <-].
Qed.

(** What a call of [Submit] can do to the edge. *)
Inductive submitted cmd clock e seq : result SubmitResult → UUVEdge J → Z → Prop :=
| sub_refused res seq' :
    sr_code res ≠ Sub_Ok → sr_code res ≠ Sub_QueueShutdown →
    (sr_code res = Sub_InternalError → ∃ type,
       rg_types (uu_registry e) !! sr_device_id res = Some type ∧ kind_of type = None) →
    submitted cmd clock e seq (Ok res) e seq'
| sub_threw ex seq' : submitted cmd clock e seq (Err ex) e seq'
| sub_queued device_id type n q t seq' :
    uu_run_state e = Running → uu_estop e = false ∨ us_allow_queue_when_estop (uu_settings e) = true →
    GetStringOr (rc_payload cmd) "device_id" "" = device_id → device_id ≠ "" →
    rg_types (uu_registry e) !! device_id = Some type → CreateNormalizer type = Some n →
    Normalize n cmd (us_edge_id (uu_settings e)) clock seq = (Ok (inr t), seq') →
    rg_queues (uu_registry e) !! device_id = Some q →
    submitted cmd clock e seq
      (Ok (uuv_MakeResult e Sub_Ok "已入队" cmd device_id (tk_task_id t) (Z.of_nat (S (length (tq_q q))))))
      (uuv_set_queue device_id {| tq_q := tq_q q ++ [t]; tq_shutdown := false |} e) seq'.

Lemma uuv_Submit_submitted cmd clock e seq r e' seq' :
  uuv_ok e → uuv_Submit cmd clock e seq = (r, e', seq') → submitted cmd clock e seq r e' seq'.
Proof.
  intros He. unfold uuv_Submit. destruct (j_dump (rc_payload cmd)); [|intros [= <- <- <-]; constructor].
  destruct (decide _) as [|Hrun%dec_stable]; [by intros [= <- <- <-]; constructor|].
  destruct (uu_estop e && _) eqn:Ees; [by intros [= <- <- <-]; constructor|].
  destruct (j_view (rc_payload cmd)); try by intros [= <- <- <-]; constructor.
  destruct (str_empty _) eqn:Eid; [by intros [= <- <- <-]; constructor|]. apply str_empty_false in Eid.
  destruct (rg_types (uu_registry e) !! _) as [type|] eqn:Et; [|by intros [= <- <- <-]; constructor].
  unfold uuv_routed. destruct (uu_normalizers e !! type) as [n|] eqn:En.
  - pose proof (uk_normalizers e He _ _ En) as Hn.
    destruct (Normalize n cmd _ clock seq) as [[[nerr|t]|ex] seq1] eqn:Hnorm;
      [by intros [= <- <- <-]; constructor| |intros [= <- <- <-]; constructor].
    destruct (uk_types e He _ _ _ Et Hn) as [_ [q Hq]]. unfold uuv_push, IsShutdown.
    rewrite Hq, (uk_open e He _ _ Hq), (Push_open _ _ (uk_open e He _ _ Hq)).
    intros [= <- <- <-]. cbn [snd]. unfold Size. cbn [tq_q]. rewrite length_app, Nat.add_comm.
    eapply sub_queued; try done. destruct (uu_estop e), (us_allow_queue_when_estop (uu_settings e)); auto.
  - intros [= <- <- <-]. constructor; [done|done|]. intros _. exists type. split; [done|].
    apply normalizer_kind. destruct (CreateNormalizer type) as [n|] eqn:Hn; [|done].
    destruct (uk_types e He _ _ _ Et Hn) as [? _]. congruence.
Qed.

Lemma uuv_ok_step e e' : uuv_ok e → uuv_step e e' → uuv_ok e'.
Proof.
  intros He Hs.
  assert (Happ : ∀ id t b e1, AppendTaskToTargetTaskQueue id t e = (b, e1) → uuv_ok e1).
  { intros id t b e1 Ha. apply Append_spec in Ha; [|done]. destruct b; [|by subst].
    destruct Ha as (q & _ & _ & ->). by apply uuv_ok_queue. }
  destruct Hs as [cfg clock err r err' e' Hi|err b err' e' Hi|e' Hi|cmd clock seq r e' seq' Hi|t b e' Hi|t b e' Hi|
    |e' Hi|id q t q' Hq Hp|id d d' Hd].
  - by eapply uuv_Init_ok.
  - by eapply uuv_Start_ok.
  - revert Hi. unfold uuv_Shutdown. repeat case_match; try done; intros [= <-]; try done; apply uuv_ok_empty.
  - apply uuv_Submit_submitted in Hi; [|done]. destruct Hi; [done..|]. by apply uuv_ok_queue.
  - revert Hi. unfold uuv_AppendTask. destruct (str_empty _); [by intros [= _ <-]|]. apply Happ.
  - revert Hi. unfold uuv_AppendJsonTask. destruct (str_empty _); [by intros [= _ <-]|]. apply Happ.
  - by apply uuv_ok_estop.
  - by eapply uuv_ok_self.
  - apply uuv_ok_queue; [|done]. rewrite (pop_front_shutdown _ _ _ Hp). by eapply uk_open.
  - apply uuv_ok_device; [|done]. eapply uk_devices; [done|]. by eexists.
Qed.

Lemma uuv_ok_new : uuv_ok UUVEdge_new.
Proof. split; cbn; intros *; rewrite ?lookup_empty; try done; by intros []. Qed.

Lemma uuv_ok_reachable e : rtc uuv_step UUVEdge_new e → uuv_ok e.
Proof.
  assert (Hall : ∀ e1 e2, rtc uuv_step e1 e2 → uuv_ok e1 → uuv_ok e2).
  { intros e1 e2. induction 1 as [|e1 e2 e3 H12 _ IH]; [done|]. intros H1. by eapply IH, uuv_ok_step. }
  intros Hr. eapply Hall, uuv_ok_new. done.
Qed.

Lemma uuv_start_devices_dom l err e b err' e' :
  (∀ x, x ∈ l → x.1 ∈ devices_of e) → uuv_start_devices l err e = Some (b, err', e') →
  devices_of e' = devices_of e.
Proof.
  revert err e. induction l as [|[id d] l IH]; intros err e Hl; cbn; [by intros [= <- <- <-]|].
  assert (Hadd : ∀ d', devices_of (uuv_registry (add_device id d' (uu_registry e)) e) = devices_of e).
  { intros d'. unfold devices_of. cbn. rewrite dom_insert_L.
    apply subseteq_union_1_L, singleton_subseteq_l. apply (Hl (id, d)), list_elem_of_here. }
  destruct (rg_queues (uu_registry e) !! id); [|by intros [= <- <- <-]].
  destruct (Device_Start true (Some "") d) as [[[[] dev_err] d']|]; [| |done].
  - intros Hs. rewrite <- (Hadd d'). eapply IH; [|done]. intros x Hx. rewrite Hadd.
    apply Hl. by apply list_elem_of_further.
  - intros [= <- <- <-]. apply Hadd.
Qed.

Lemma uuv_Start_true err e err' e' :
  uuv_Start err e = Some (true, err', e') →
  uu_run_state e = Ready ∧ uu_run_state e' = Running ∧ devices_of e' = devices_of e.
Proof.
  unfold uuv_Start. destruct (decide _) as [|Hr%dec_stable]; [done|].
  destruct (uuv_start_devices _ err e) as [[[[] err1] e1]|] eqn:Es; [|done|done].
  apply uuv_start_devices_dom in Es.
  2:{ intros [id d] Hx%elem_of_map_to_list. apply elem_of_dom. by exists d. }
  intros [= <- <-]. split; [done|]. unfold StartSelfActionThreadLocked. by destruct (_ && _).
Qed.

(** When [Init] returns, the edge's devices are exactly those of the
    items that can become one; it returns true exactly when the list of devices
    is an array all of whose items became one.  Whether [Start] is accepted
    afterwards is another question: only the last item (without items the run
    state before) decides, and a start keeps the devices. *)
Theorem uuv_init_then_start cfg clock err e b err' e' :
  uuv_Init cfg clock err e = Some (Ret b, err', e') →
  ∃ v, j_find cfg "devices" = Some v ∧
  devices_of e' = list_to_set (omap item_device (j_range v)) ∧
  (b = true ↔ j_view v = JArray ∧ Forall (λ dcfg, is_Some (item_device dcfg)) (j_range v)) ∧
  ∀ err1 err2 e2, uuv_Start err1 e' = Some (true, err2, e2) →
    items_state (j_range v) (match j_view v with JArray => uu_run_state e | _ => Initializing end) = Ready ∧
    uu_run_state e2 = Running ∧ devices_of e2 = devices_of e'.
Proof.
  intros (He & v & Hf & Hd & Hb & Hs)%uuv_Init_spec. exists v. split_and!; [done..|].
  intros err1 err2 e2 (Hr & Hrun & Hd2)%uuv_Start_true. by rewrite <- Hs.
Qed.

(** C11: A command is accepted exactly when the edge runs, no emergency
    stop forbids it, its device is registered with a type that has a normaliser,
    and the normaliser makes a task of it: the task is then last in the queue of
    that device, the answer gives its id and the new length, and nothing else
    changes.  Every other answer changes nothing; an internal error means a type
    without normaliser, and the queue is never found closed. *)
Theorem uuv_submit_correct cmd clock e seq r e' seq' :
  rtc uuv_step UUVEdge_new e → uuv_Submit cmd clock e seq = (r, e', seq') →
  submitted cmd clock e seq r e' seq' ∧
  ∀ text device_id type n t seq1,
    j_dump (rc_payload cmd) = Ok text → uu_run_state e = Running →
    uu_estop e = false ∨ us_allow_queue_when_estop (uu_settings e) = true →
    j_view (rc_payload cmd) = JObject → GetStringOr (rc_payload cmd) "device_id" "" = device_id →
    device_id ≠ "" → rg_types (uu_registry e) !! device_id = Some type →
    CreateNormalizer type = Some n →
    Normalize n cmd (us_edge_id (uu_settings e)) clock seq = (Ok (inr t), seq1) →
    ∃ res, r = Ok res ∧ sr_code res = Sub_Ok ∧ sr_task_id res = tk_task_id t.
Proof.
  intros He%uuv_ok_reachable Hs. split; [by apply uuv_Submit_submitted|].
  intros text id type n t seq1 Hdump Hrun Hes Hview Hid Hne Ht Hn Hnorm.
  destruct (uk_types e He _ _ _ Ht Hn) as [Hn' [q Hq]]. revert Hs. unfold uuv_Submit.
  rewrite Hdump, decide_False by (intros ?; done). rewrite Hview, Hid, Ht.
  replace (uu_estop e && _) with false by (destruct Hes as [-> | ->]; [done|by rewrite andb_false_r]).
  replace (str_empty id) with false by (symmetry; by apply str_empty_false).
  unfold uuv_routed, uuv_push, IsShutdown. rewrite Hn', Hnorm, Hq, (uk_open e He _ _ Hq).
  intros [= <- _ _]. by eexists.
Qed.

(** A task from outside is accepted exactly when its device has a queue
    with fewer than 1000 tasks, and is then last in it; otherwise nothing
    changes.  So these calls never make a queue longer than 1000. *)
Theorem uuv_append_bound t e b e' :
  rtc uuv_step UUVEdge_new e → uuv_AppendTask t e = (b, e') →
  (b = true ↔ tk_device_id t ≠ "" ∧
     ∃ q, rg_queues (uu_registry e) !! tk_device_id t = Some q ∧ (length (tq_q q) < 1000)%nat) ∧
  (b = false → e' = e) ∧
  (b = true → ∃ q q', rg_queues (uu_registry e) !! tk_device_id t = Some q ∧
     e' = uuv_set_queue (tk_device_id t) q' e ∧ tq_q q' = tq_q q ++ [t] ∧ (length (tq_q q') <= 1000)%nat).
Proof.
  intros He%uuv_ok_reachable. unfold uuv_AppendTask.
  destruct (str_empty (tk_device_id t)) eqn:Eid.
  { intros [= <- <-]. split_and!; [|done|done]. split; [done|]. intros [Hne _].
    destruct (tk_device_id t); [done|discriminate]. }
  apply str_empty_false in Eid. intros Ha. pose proof (Append_spec _ _ _ _ _ He Ha) as Hs.
  destruct b.
  - destruct Hs as (q & Hq & Hlen & ->). unfold max_task_queue_size in Hlen. split_and!; [|done|].
    + split; [|done]. intros _. eauto.
    + intros _. eexists q, _. split_and!; [done|reflexivity|done|]. cbn. rewrite length_app. cbn. lia.
  - split_and!; [|done|done]. split; [done|]. intros (_ & q & Hq & Hlen). revert Ha.
    unfold AppendTaskToTargetTaskQueue, max_task_queue_size, Size. rewrite Hq.
    destruct (1000 <=? _)%nat eqn:En; [|done]. apply Nat.leb_le in En. lia.
Qed.
End facts.

(** *** Witnesses *)

Definition uuv_item_cfg (id type : string) : jvalue := VObj [("device_id", VStr id); ("type", VStr type)].
Definition uuv_cfg (items : list jvalue) : jvalue := VObj [("edge_id", VStr "u1"); ("devices", VArr items)].
Definition good_item : jvalue := uuv_item_cfg "d1" "depth_sensor".
Definition bad_item : jvalue := uuv_item_cfg "d2" "submarine".

Definition after_init (cfg : jvalue) : option (bool * UUVEdge jvalue) :=
  match uuv_Init cfg (λ _, 5) None UUVEdge_new with Some (Ret b, _, e) => Some (b, e) | _ => None end.
Definition uuv_ready : UUVEdge jvalue := default UUVEdge_new (snd <$> after_init (uuv_cfg [good_item])).
Definition uuv_running : UUVEdge jvalue :=
  match uuv_Start None uuv_ready with Some (true, _, e) => e | _ => uuv_ready end.

Lemma uuv_running_reachable : rtc uuv_step UUVEdge_new uuv_running.
Proof.
  apply rtc_l with uuv_ready.
  - apply (us_init _ (uuv_cfg [good_item]) (λ _, 5) None (Ret true) None). vm_compute. reflexivity.
  - apply rtc_once. apply (us_start _ None true None). vm_compute. reflexivity.
Qed.

(** A failed [Init] whose last device is good can be started; the order of the
    list decides.  An empty list is content and cannot be started. *)
Definition starts (cfg : jvalue) : option (bool * bool) :=
  '(b, e) ← after_init cfg;
  '(started, _, _) ← uuv_Start None e;
  Some (b, started).

Lemma init_and_start_disagree :
  starts (uuv_cfg [good_item]) = Some (true, true) ∧
  starts (uuv_cfg [bad_item; good_item]) = Some (false, true) ∧
  starts (uuv_cfg [good_item; bad_item]) = Some (false, false) ∧
  starts (uuv_cfg []) = Some (true, false).
Proof. vm_compute. done. Qed.

(** Without a list of devices the code indexes the missing member. *)
Lemma init_without_devices (e : UUVEdge jvalue) clock err :
  rg_devices (uu_registry e) = ∅ →
  ∃ err' e', uuv_Init (VObj [("edge_id", VStr "u1")]) clock err e = Some (Undef, err', e').
Proof.
  intros Hd. unfold uuv_Init. destruct (uu_settings e) as [id v ty al act self]. cbn.
  unfold all_joined. rewrite Hd. cbn. eauto.
Qed.

Lemma uuv_init_then_start_witness :
  devices_of uuv_ready = {["d1"]} ∧ uu_run_state uuv_running = Running.
Proof.
  destruct (uuv_init_then_start (uuv_cfg [good_item]) (λ _, 5) None UUVEdge_new true None uuv_ready)
    as (v & Hv & Hd & _ & Hs); [vm_compute; reflexivity|].
  injection Hv as <-. split; [exact Hd|].
  apply (Hs None None uuv_running). vm_compute. reflexivity.
Defined.

Definition uuv_demo_task : Task jvalue := Eval vm_compute in
  match (Normalize DepthSensorCommandNormalizer demo_cmd "u1" (λ _, 5) 0).1 with
  | Ok (inr t) => t | _ => Task_default end.

Lemma uuv_submit_correct_witness :
  ∃ res, (uuv_Submit demo_cmd (λ _, 5) uuv_running 0).1.1 = Ok res ∧ sr_code res = Sub_Ok ∧
         sr_task_id res = tk_task_id uuv_demo_task.
Proof.
  destruct (uuv_Submit demo_cmd (λ _, 5) uuv_running 0) as [[r e'] seq'] eqn:Es.
  destruct (uuv_submit_correct _ _ _ _ _ _ _ uuv_running_reachable Es) as [_ Hc].
  apply (Hc "" "d1" "depth_sensor" DepthSensorCommandNormalizer uuv_demo_task 2);
    try (vm_compute; reflexivity); [by left|done].
Defined.

Lemma uuv_append_bound_witness :
  ∃ e', uuv_AppendTask uuv_demo_task uuv_running = (true, e') ∧
        uuv_depth e' "d1" = Some 1.
Proof.
  destruct (uuv_AppendTask uuv_demo_task uuv_running) as [b e'] eqn:Ea.
  destruct (uuv_append_bound _ _ _ _ uuv_running_reachable Ea) as (Hb & _ & Ht).
  assert (b = true) as ->.
  { apply Hb. split; [done|]. eexists. split; [vm_compute; reflexivity|]. cbn. lia. }
  exists e'. split; [reflexivity|]. destruct (Ht eq_refl) as (q & q' & Hq & -> & Hq' & _).
  assert (Hnil : tq_q q = []) by (vm_compute in Hq; injection Hq as <-; reflexivity).
  unfold uuv_depth, uuv_set_queue. cbn [uu_registry uuv_registry rg_queues].
  change "d1" with (tk_device_id uuv_demo_task). rewrite lookup_insert_eq. cbn.
  unfold Size. rewrite Hq', Hnil. reflexivity.
Defined.
