(* ===== verification/EdgeManager.v ===== *)
(** * The edges of the process

    Model of my_edge/MyEdge.cpp, the factory of edges, and MyEdgeManager.cpp, the
    map from ids to edges.  What the manager asks of an edge is the class [IEdge];
    each public method holds the mutex for its whole body and is one operation. *)

From S2P Require Import Prelude Json Double TaskData MyControl TaskQueue Device BaseEdge UUVEdge.
From stdpp Require Import gmap.

(** The part of the interface IEdge the manager uses.  [None] is a call that does
    not return; the constructors of the edges are a parameter of the factory. *)
Class IEdge (J E : Type) := {
  ed_Id : E → string;
  ed_Start : option string → E → option (result bool * option string * E);
  ed_Shutdown : E → option (result unit * E);
  ed_GetStatusSnapshot : E → result J;          (** [GetStatusSnapshot().toJson()] *)
  ed_AppendJsonTask : J → E → result bool * E;
  ed_AppendTask : Task J → E → result bool * E;
  ed_DumpInternalInfo : E → result J;
  ed_GetRunTimeStatusInfo : E → result J
}.

(** No call renames an edge. *)
Class IEdgeLaws (J E : Type) `{IEdge J E} := {
  ed_Start_id e err r err' e' : ed_Start err e = Some (r, err', e') → ed_Id e' = ed_Id e;
  ed_Shutdown_id e r e' : ed_Shutdown e = Some (r, e') → ed_Id e' = ed_Id e;
  ed_AppendJsonTask_id t e : ed_Id (ed_AppendJsonTask t e).2 = ed_Id e;
  ed_AppendTask_id t e : ed_Id (ed_AppendTask t e).2 = ed_Id e
}.

(** ** The factory *)

Inductive edge_kind := kind_uuv | kind_tuna | kind_uav | kind_una.

Section factory.
Context {J E : Type}.
(** The constructors without and with a configuration. *)
Variable make : edge_kind → E.
Variable construct : edge_kind → J → option string → outcome E * option string.

Definition Create (type : string) : option E :=
  if String.eqb type "uuv" || String.eqb type "UUV" then Some (make kind_uuv)
  else if String.eqb type "uav" || String.eqb type "UAV" then Some (make kind_uav)
  else if String.eqb type "tuna" || String.eqb type "TUNA" then Some (make kind_tuna)
  else None.

(** One branch of [Create] with a configuration. *)
Definition create_kind (kind : edge_kind) (name : string) (cfg : J) (err : option string)
    : outcome (option E) * option string :=
  match construct kind cfg err with
  | (Ret e, err) => (Ret (Some e), err)
  | (Throw ex, err) => (Ret None, set_err err ("Failed to create " +:+ name +:+ " edge: " +:+ exn_what ex))
  | (Undef, err) => (Undef, err)
  end.

Definition Create_cfg (type : string) (cfg : J) (err : option string) : outcome (option E) * option string :=
  if String.eqb "uuv" type || String.eqb "UUV" type then create_kind kind_uuv "UUV" cfg err
  else if String.eqb "tuna" type || String.eqb "TUNA" type then create_kind kind_tuna "TUNA" cfg err
  else if String.eqb "uav" type || String.eqb "UAV" type then create_kind kind_uav "UAV" cfg err
  else if String.eqb "una" type || String.eqb "UNA" type then create_kind kind_una "UNA" cfg err
  else (Ret None, err).

(** The factory without a configuration knows every type the other knows, but
    the type una. *)
Lemma Create_lacks_una type cfg err e :
  (Create_cfg type cfg err).1 = Ret (Some e) →
  is_Some (Create type) ∨ type = "una" ∨ type = "UNA".
Proof.
  unfold Create_cfg, Create. rewrite !(String.eqb_sym _ type).
  destruct (String.eqb type "uuv" || _) eqn:E1; [by left; eexists|].
  destruct (String.eqb type "tuna" || String.eqb type "TUNA") eqn:E2.
  { left. destruct (String.eqb type "uav" || _); by eexists. }
  destruct (String.eqb type "uav" || _) eqn:E3; [by left; eexists|].
  destruct (String.eqb type "una" || _) eqn:E4; [|done].
  intros _. right. apply orb_prop in E4 as [->%String.eqb_eq| ->%String.eqb_eq]; tauto.
Qed.
End factory.

(** ** The manager *)

Section manager.
Context {J : Type} `{JsonOps J} {E : Type} `{IEdge J E}.
Abbreviation edges := (gmap string E).
Implicit Types (m : edges) (edge_id : string).

(** A null pointer is [None]; the edge that is not taken is destroyed. *)
Definition appendEdge (edge_ptr : option E) m : result bool * edges :=
  match edge_ptr with
  | None => (Ok false, m)
  | Some e =>
      match m !! ed_Id e with
      | Some _ => (Err (runtime_error ("ID 为 '" +:+ ed_Id e +:+ "' 的 Edge 已存在。")), m)
      | None => (Ok true, <[ed_Id e := e]> m)
      end
  end.

Definition getEdges m : list E := map snd (map_to_list m).
Definition getEdgeIds m : list string := map fst (map_to_list m).

Definition deleteEdgeById edge_id m : bool * edges :=
  match m !! edge_id with None => (false, m) | Some _ => (true, delete edge_id m) end.

(** The loops over all edges: an edge that fails or throws makes the answer
    false and the loop goes on. *)
Fixpoint each (f : E → option (bool * E)) (l : list (string * E)) m : option (bool * edges) :=
  match l with
  | [] => Some (true, m)
  | (edge_id, e) :: l =>
      '(ok, e) ← f e;
      '(all_success, m) ← each f l (<[edge_id := e]> m);
      Some (ok && all_success, m)
  end.

Definition start_edge (e : E) : option (bool * E) :=
  '(r, _, e) ← ed_Start (Some "") e;
  Some (match r with Ok ok => ok | Err _ => false end, e).
Definition stop_edge (e : E) : option (bool * E) :=
  '(r, e) ← ed_Shutdown e;
  Some (is_ok r, e).

Definition startAllEdges m : option (bool * edges) := each start_edge (map_to_list m) m.
Definition stopAllEdges m : option (bool * edges) := each stop_edge (map_to_list m) m.

(** The reference to a temporary when there is none: undefined when used. *)
Definition getEdgeById edge_id m : outcome E :=
  match m !! edge_id with Some e => Ret e | None => Undef end.

(** A snapshot that throws ends the loop with the members so far. *)
Fixpoint heartbeat_members (l : list (string * E)) : list (string * J) :=
  match l with
  | [] => []
  | (edge_id, e) :: l =>
      match ed_GetStatusSnapshot e with
      | Ok j => (edge_id, j) :: heartbeat_members l
      | Err _ => []
      end
  end.
Definition GetHeartbeatInfo m : J := j_object (heartbeat_members (map_to_list m)).

Definition HasEdge edge_id m : bool := match m !! edge_id with Some _ => true | None => false end.
Definition IsEmpty m : bool := bool_decide (m = ∅).

(** The placeholders: nothing is asked of the edge. *)
Definition SelectEdgeByIdDoAction edge_id (action : J) m : bool := false.
Definition setESTOP edge_id (estop : bool) m : bool := false.
Definition setAllEdgesESTOP (estop : bool) m : bool := true.
Definition getEdgeOnlineStatus edge_id m : bool := false.
Definition getAllEdgesOnlineStatus (status_map : gmap string bool) m : bool * gmap string bool :=
  (true, status_map).
Definition getOnlineEdges m : bool * list string := (true, map fst (map_to_list m)).
Definition getEdgeTaskStatus edge_id (task_status : J) m : bool * J :=
  match m !! edge_id with None => (false, task_status) | Some _ => (true, task_status) end.
Definition getEdgeHistoryTaskStatus edge_id (task_status : J) m : bool * J :=
  match m !! edge_id with None => (false, task_status) | Some _ => (true, task_status) end.

(** A call on one edge; an exception of the edge is a false. *)
Definition on_edge (f : E → result bool * E) edge_id m : bool * edges :=
  match m !! edge_id with
  | None => (false, m)
  | Some e =>
      let '(r, e) := f e in
      (match r with Ok ok => ok | Err _ => false end, <[edge_id := e]> m)
  end.

(** The log line makes the text of the task before the [try]. *)
Definition appendTaskToEdgeById edge_id (task : J) m : result bool * edges :=
  match j_dump task with
  | Err ex => (Err ex, m)
  | Ok _ => let '(ok, m) := on_edge (ed_AppendJsonTask task) edge_id m in (Ok ok, m)
  end.
Definition appendTaskToEdgeByIdV2 edge_id (task : Task J) m : result bool * edges :=
  match Task_toString task with
  | Err ex => (Err ex, m)
  | Ok _ => let '(ok, m) := on_edge (ed_AppendTask task) edge_id m in (Ok ok, m)
  end.

Definition info_of (f : E → result J) edge_id (info : J) m : bool * J :=
  match m !! edge_id with
  | None => (false, info)
  | Some e => match f e with Ok j => (true, j) | Err _ => (false, info) end
  end.
Definition getEdgeInternalDumpInfo edge_id (dump_info : J) m : bool * J :=
  info_of ed_DumpInternalInfo edge_id dump_info m.
Definition getEdgeRunTimeStatusInfo edge_id (status_info : J) m : bool * J :=
  info_of ed_GetRunTimeStatusInfo edge_id status_info m.

(** ** The calls that change the map *)

Inductive em_step m : edges → Prop :=
| em_append p r m' : appendEdge p m = (r, m') → em_step m m'
| em_delete edge_id : em_step m (deleteEdgeById edge_id m).2
| em_start b m' : startAllEdges m = Some (b, m') → em_step m m'
| em_stop b m' : stopAllEdges m = Some (b, m') → em_step m m'
| em_json_task edge_id t : em_step m (appendTaskToEdgeById edge_id t m).2
| em_task edge_id t : em_step m (appendTaskToEdgeByIdV2 edge_id t m).2.
End manager.

Section manager_facts.
Context {J : Type} `{JsonOps J} {E : Type} `{IEdgeLaws J E}.
Implicit Types (m : gmap string E) (edge_id : string).

Lemma each_spec f l m b m' :
  NoDup (map fst l) → each f l m = Some (b, m') →
  (∀ edge_id, edge_id ∉ map fst l → m' !! edge_id = m !! edge_id) ∧
  (∀ edge_id e, (edge_id, e) ∈ l → ∃ ok e', f e = Some (ok, e') ∧ m' !! edge_id = Some e') ∧
  (b = true ↔ ∀ edge_id e, (edge_id, e) ∈ l → ∃ e', f e = Some (true, e')).
Proof.
  revert m b m'. induction l as [|[i e] l IH]; intros m b m' Hd; cbn [each].
  - intros [= <- <-]. split_and!; [done|set_solver|]. split; [set_solver|done].
  - cbn [map fst] in Hd. apply NoDup_cons in Hd as [Hi Hd].
    destruct (f e) as [[ok e1]|] eqn:Ef; [|done]. cbn [mbind option_bind].
    destruct (each f l (<[i:=e1]> m)) as [[b1 m1]|] eqn:El; [|done]. cbn [mbind option_bind].
    intros [= <- <-]. destruct (IH _ _ _ Hd El) as (Hout & Hin & Hall).
    assert (Hi' : m1 !! i = Some e1) by (rewrite Hout, lookup_insert_eq by done; done).
    split_and!.
    + intros j Hj. cbn [map fst] in Hj. apply not_elem_of_cons in Hj as [Hne Hj].
      rewrite Hout by done. by apply lookup_insert_ne.
    + intros j e2 [[= -> ->]|Hj]%elem_of_cons; [by eauto|by apply Hin].
    + split.
      * intros [Hok Hb1]%andb_prop j e2 [[= -> ->]|Hj]%elem_of_cons; [by subst ok; eauto|].
        by apply Hall with j.
      * intros Hx. apply andb_true_intro. split.
        -- destruct (Hx i e) as [e2 He2]; [apply list_elem_of_here|]. congruence.
        -- apply Hall. intros j e2 Hj. apply (Hx j). by apply list_elem_of_further.
Qed.

Lemma each_map f m b m' :
  each f (map_to_list m) m = Some (b, m') →
  (∀ edge_id, m' !! edge_id = None ↔ m !! edge_id = None) ∧
  (∀ edge_id e, m !! edge_id = Some e → ∃ ok e', f e = Some (ok, e') ∧ m' !! edge_id = Some e') ∧
  (b = true ↔ ∀ edge_id e, m !! edge_id = Some e → ∃ e', f e = Some (true, e')).
Proof.
  intros (Hout & Hin & Hall)%each_spec; [|apply NoDup_fst_map_to_list].
  assert (Hl : ∀ i e, (i, e) ∈ map_to_list m ↔ m !! i = Some e) by (intros; apply elem_of_map_to_list).
  split_and!.
  - intros i. split; intros Hi.
    + destruct (m !! i) as [e|] eqn:Em; [|done]. destruct (Hin i e) as (ok & e' & _ & E'); [by apply Hl|].
      congruence.
    + rewrite Hout; [done|]. intros ([j e] & -> & Hj)%list_elem_of_fmap. apply Hl in Hj. cbn in Hi. congruence.
  - intros i e Hi. by apply Hin, Hl.
  - rewrite Hall. split; intros Hx i e Hi; apply (Hx i e); by apply Hl.
Qed.

(** C14: Starting, and stopping, all edges asks every edge exactly once,
    whatever the other edges answer or throw: no edge is added, lost or skipped,
    every edge is left as its own call leaves it, and the answer is true exactly
    when every call succeeded. *)
Theorem all_edges_isolated m b m' :
  (startAllEdges m = Some (b, m') →
   (∀ edge_id, HasEdge edge_id m' = HasEdge edge_id m) ∧
   (∀ edge_id e, m !! edge_id = Some e → ∃ r err e', ed_Start (Some "") e = Some (r, err, e') ∧ m' !! edge_id = Some e') ∧
   (b = true ↔ ∀ edge_id e, m !! edge_id = Some e → ∃ err e', ed_Start (Some "") e = Some (Ok true, err, e'))) ∧
  (stopAllEdges m = Some (b, m') →
   (∀ edge_id, HasEdge edge_id m' = HasEdge edge_id m) ∧
   (∀ edge_id e, m !! edge_id = Some e → ∃ r e', ed_Shutdown e = Some (r, e') ∧ m' !! edge_id = Some e') ∧
   (b = true ↔ ∀ edge_id e, m !! edge_id = Some e → ∃ e', ed_Shutdown e = Some (Ok tt, e'))).
Proof.
  assert (Hhas : (∀ i, m' !! i = None ↔ m !! i = None) → ∀ i, HasEdge i m' = HasEdge i m).
  { intros Hn i. specialize (Hn i). unfold HasEdge. destruct (m' !! i), (m !! i); naive_solver. }
  split; intros (Hn & Hin & Hall)%each_map; (split; [by apply Hhas|]); split.
  - intros i e Hi. destruct (Hin i e Hi) as (ok & e' & E' & Hm). unfold start_edge in E'.
    destruct (ed_Start (Some "") e) as [[[r err] e1]|]; [|done]. injection E' as _ ->. eauto 6.
  - rewrite Hall. split; intros Hx i e Hi; destruct (Hx i e Hi) as (e' & E').
    + unfold start_edge in E'. destruct (ed_Start (Some "") e) as [[[[[]|] err] e1]|]; try done; eauto.
    + destruct E' as (e1 & E'). unfold start_edge. rewrite E'. eexists. done.
  - intros i e Hi. destruct (Hin i e Hi) as (ok & e' & E' & Hm). unfold stop_edge in E'.
    destruct (ed_Shutdown e) as [[r e1]|]; [|done]. injection E' as _ ->. eauto 6.
  - rewrite Hall. split; intros Hx i e Hi; destruct (Hx i e Hi) as (e' & E').
    + unfold stop_edge in E'. destruct (ed_Shutdown e) as [[[[]|] e1]|]; try done; eauto.
    + unfold stop_edge. rewrite E'. eexists. done.
Qed.

(** Every edge is stored under its own id. *)
Definition filed m : Prop := ∀ edge_id e, m !! edge_id = Some e → ed_Id e = edge_id.

Lemma filed_insert m edge_id e : filed m → ed_Id e = edge_id → filed (<[edge_id := e]> m).
Proof.
  intros Hm He i e' [[<- <-]|[_ Hi]]%lookup_insert_Some; [done|by apply Hm].
Qed.

Lemma filed_each f m b m' :
  (∀ e ok e', f e = Some (ok, e') → ed_Id e' = ed_Id e) →
  filed m → each f (map_to_list m) m = Some (b, m') → filed m'.
Proof.
  intros Hf Hm (Hn & Hin & _)%each_map i e' Hi. destruct (m !! i) as [e|] eqn:Em.
  - destruct (Hin i e Em) as (ok & e1 & E1 & Hi1). rewrite Hi in Hi1. injection Hi1 as <-.
    rewrite (Hf _ _ _ E1). by apply Hm.
  - apply Hn in Em. congruence.
Qed.

Lemma filed_step m m' : filed m → em_step m m' → filed m'.
Proof.
  intros Hm Hs. destruct Hs as [p r m' E'|i|b m' E'|b m' E'|i t|i t].
  - unfold appendEdge in E'. destruct p as [e|]; [|by injection E' as _ <-].
    destruct (m !! ed_Id e); injection E' as _ <-; [done|by apply filed_insert].
  - unfold deleteEdgeById. destruct (m !! i) as [e0|]; [|done]. cbn [snd]. intros j e [_ Hj]%lookup_delete_Some. by apply Hm.
  - revert E'. apply filed_each; [|done]. unfold start_edge. intros e ok e'.
    destruct (ed_Start _ e) as [[[r err] e1]|] eqn:Es; [|done]. intros [= _ <-]. by eapply ed_Start_id.
  - revert E'. apply filed_each; [|done]. unfold stop_edge. intros e ok e'.
    destruct (ed_Shutdown e) as [[r e1]|] eqn:Es; [|done]. intros [= _ <-]. by eapply ed_Shutdown_id.
  - unfold appendTaskToEdgeById, on_edge. destruct (j_dump t); [|done].
    destruct (m !! i) as [e|] eqn:Em; [|done]. pose proof (ed_AppendJsonTask_id t e) as Hid.
    destruct (ed_AppendJsonTask t e). cbn in *. apply filed_insert; [done|]. rewrite Hid. by apply Hm.
  - unfold appendTaskToEdgeByIdV2, on_edge. destruct (Task_toString t); [|done].
    destruct (m !! i) as [e|] eqn:Em; [|done].
    pose proof (ed_AppendTask_id t e) as Hid. destruct (ed_AppendTask t e). cbn in *.
    apply filed_insert; [done|]. rewrite Hid. by apply Hm.
Qed.

(** After any calls every edge is found under its own id, and adding an
    edge answers true exactly when its id was free, in which case it is found and
    every other entry is kept; a taken id throws and changes nothing. *)
Theorem edge_manager_ids m :
  rtc em_step ∅ m →
  (∀ edge_id e, getEdgeById edge_id m = Ret e → ed_Id e = edge_id) ∧
  (∀ e r m', appendEdge (Some e) m = (r, m') →
     (r = Ok true ↔ HasEdge (ed_Id e) m = false) ∧
     (r = Ok true → getEdgeById (ed_Id e) m' = Ret e ∧
        ∀ i, i ≠ ed_Id e → m' !! i = m !! i) ∧
     (r ≠ Ok true → m' = m ∧ ∃ ex, r = Err ex)).
Proof.
  intros Hr. assert (Hm : filed m).
  { assert (H0' : filed (∅ : gmap string E)) by (intros i e Hi; by rewrite lookup_empty in Hi).
    induction Hr as [|m1 m2 m3 H12 _ IH]; [done|]. apply IH. by eapply filed_step. }
  split.
  - intros i e. unfold getEdgeById. destruct (m !! i) eqn:Ei; [|done]. intros [= <-]. by apply Hm.
  - intros e r m'. unfold appendEdge, HasEdge, getEdgeById.
    destruct (m !! ed_Id e) eqn:Ei; intros [= <- <-].
    + split_and!; [done|done|]. intros _. eauto.
    + split_and!; [done| |done]. intros _. rewrite lookup_insert_eq. split; [done|].
      intros i Hi. by apply lookup_insert_ne.
Qed.
End manager_facts.

(** ** The UUV edge as an edge of the manager *)

Section uuv.
Context {J : Type} `{JsonNumbers J} `{!JsonItems J}.
(** The JSON value null. *)
Variable null : J.

Definition uuv_IEdge : IEdge J (UUVEdge J) := {|
  ed_Id e := us_edge_id (uu_settings e);
  ed_Start err e :=
    match uuv_Start err e with Some (b, err, e) => Some (Ok b, err, e) | None => None end;
  ed_Shutdown e := (λ e, (Ok tt, e)) <$> uuv_Shutdown e;
  ed_GetStatusSnapshot e := Ok (EdgeStatus_toJson (uuv_GetStatusSnapshot e));
  ed_AppendJsonTask t e := let '(b, e) := uuv_AppendJsonTask t e in (Ok b, e);
  ed_AppendTask t e := let '(b, e) := uuv_AppendTask t e in (Ok b, e);
  ed_DumpInternalInfo e := Ok (uuv_DumpInternalInfo null e);
  ed_GetRunTimeStatusInfo e := Ok (uuv_GetRunTimeStatusInfo e)
|}.

Lemma uuv_start_devices_settings l err (e : UUVEdge J) b err' e' :
  uuv_start_devices l err e = Some (b, err', e') → uu_settings e' = uu_settings e.
Proof.
  revert err e. induction l as [|[id d] l IH]; intros err e; cbn; [by intros [= <- <- <-]|].
  destruct (rg_queues (uu_registry e) !! id); [|by intros [= <- <- <-]].
  destruct (Device_Start true (Some "") d) as [[[[] dev_err] d']|]; [|by intros [= <- <- <-]|done].
  by intros ->%IH.
Qed.

Lemma uuv_append_settings id t (e : UUVEdge J) :
  uu_settings (AppendTaskToTargetTaskQueue id t e).2 = uu_settings e.
Proof. unfold AppendTaskToTargetTaskQueue. by repeat case_match. Qed.

Lemma uuv_IEdge_laws : @IEdgeLaws J (UUVEdge J) uuv_IEdge.
Proof.
  split.
  - intros e err r err' e'. cbn. destruct (uuv_Start err e) as [[[b err1] e1]|] eqn:Es; [|done].
    intros [= _ _ <-]. f_equal. revert Es. unfold uuv_Start. destruct (decide _); [by intros [= _ _ <-]|].
    destruct (uuv_start_devices _ err e) as [[[[] err2] e2]|] eqn:Ed; [| |done];
      apply uuv_start_devices_settings in Ed; intros [= _ _ <-]; [|done].
    unfold StartSelfActionThreadLocked. by destruct (_ && _).
  - intros e r e'. cbn. unfold uuv_Shutdown. by repeat case_match; intros [= _ <-].
  - intros t e. cbn. unfold uuv_AppendJsonTask. destruct (str_empty _); [done|].
    pose proof (uuv_append_settings (GetStringOr t "device_id" "") (Task_fromJson t) e) as Ha.
    destruct (AppendTaskToTargetTaskQueue _ _ e). cbn in *. by rewrite Ha.
  - intros t e. cbn. unfold uuv_AppendTask. destruct (str_empty _); [done|].
    pose proof (uuv_append_settings (tk_device_id t) t e) as Ha.
    destruct (AppendTaskToTargetTaskQueue _ _ e). cbn in *. by rewrite Ha.
Qed.
End uuv.

(** *** Witnesses *)

#[local] Existing Instance uuv_IEdge_laws.
Definition demo_IEdge : IEdge jvalue (UUVEdge jvalue) := uuv_IEdge VNull.
#[local] Existing Instance demo_IEdge.

(** Two edges, of which one is ready; the other was never configured. *)
Definition demo_edges : gmap string (UUVEdge jvalue) :=
  (appendEdge (Some UUVEdge_new) (appendEdge (Some uuv_ready) ∅).2).2.

Lemma all_edges_isolated_witness :
  ∃ m', startAllEdges demo_edges = Some (false, m') ∧
        (∃ e, m' !! "u1" = Some e ∧ uu_run_state e = Running) ∧
        HasEdge "edge-unknown" m' = true.
Proof.
  destruct (startAllEdges demo_edges) as [[b m']|] eqn:Es; [|by vm_compute in Es].
  destruct (all_edges_isolated demo_edges b m') as [Hstart _].
  destruct (Hstart Es) as (Hhas & Hin & Hall). exists m'. split_and!.
  - assert (b = false) as ->; [|reflexivity]. destruct b; [|reflexivity].
    destruct (proj1 Hall eq_refl "edge-unknown" UUVEdge_new) as (err & e' & He'); [reflexivity|].
    by vm_compute in He'.
  - destruct (Hin "u1" uuv_ready) as (r & err & e' & He' & Hm); [vm_compute; reflexivity|].
    exists e'. split; [exact Hm|]. vm_compute in He'. injection He' as <- <- <-. reflexivity.
  - rewrite Hhas. reflexivity.
Defined.

Lemma edge_manager_ids_witness :
  ∃ e, getEdgeById "u1" demo_edges = Ret e ∧ ed_Id e = "u1".
Proof.
  exists uuv_ready. assert (Hget : getEdgeById "u1" demo_edges = Ret uuv_ready) by (vm_compute; reflexivity).
  split; [exact Hget|]. apply (edge_manager_ids demo_edges); [|exact Hget].
  apply rtc_l with (appendEdge (Some uuv_ready) ∅).2.
  - apply (em_append _ (Some uuv_ready) (Ok true)). vm_compute. reflexivity.
  - apply rtc_once. apply (em_append _ (Some UUVEdge_new) (Ok true)). vm_compute. reflexivity.
Defined.

(** The emergency stop of all edges answers true and leaves every edge running. *)
Lemma estop_of_all_edges_stops_nothing :
  setAllEdgesESTOP true demo_edges = true ∧ setESTOP "u1" true demo_edges = false ∧
  uu_estop <$> demo_edges !! "u1" = Some false.
Proof. vm_compute. done. Qed.

(** An edge that is not online one by one is online among all. *)
Lemma online_status_disagrees :
  getEdgeOnlineStatus "u1" demo_edges = false ∧ (getOnlineEdges demo_edges).2 = ["u1"; "edge-unknown"].
Proof. vm_compute. done. Qed.
