(* ===== verification/EdgeThreads.v ===== *)
(** * The threads of an edge

    The monitor, action and snapshot threads of my_edge/BaseEdge.cpp and the
    [Shutdown] of another thread, as a step relation.  The monitor takes a task
    from the edge's own queue and hands it to the action thread through
    [self_task] and its run state; the action thread runs the handler of the
    task's action; the snapshot thread holds [rw_mutex_] while it reports.

    A step is one test, one store or one critical section.  [rw_mutex_] is held
    exclusively by [Shutdown] or the snapshot thread, or by nobody; its shared
    and its short exclusive sections are single steps that need it free. *)

From S2P Require Import Prelude Json TaskData TaskQueue BaseEdge.
From stdpp Require Import gmap strings.

Section threads.
Context {J : Type} `{JsonOps J}.

(** What a registered handler does: it is [SayHelloAction], or it leaves the run
    state of the task alone, and returns or throws. *)
Inductive handler := SayHello | Plain.

(** [self_task_handlers_], and what [Init] of a base edge registers. *)
Definition RegisterSelfTaskHandler (action : string) (h : handler) (m : gmap string handler) : gmap string handler :=
  <[action := h]> m.
Definition base_handlers : gmap string handler := RegisterSelfTaskHandler "say_hello" SayHello ∅.

Context (handlers : gmap string handler).

(** The handler [TryInvokeSelfTaskHandler] calls, if it calls one. *)
Definition handler_of (t : Task J) : option handler :=
  if String.eqb (tk_action t) "" then None else handlers !! tk_action t.
Definition handled (t : Task J) : bool := bool_decide (is_Some (handler_of t)).

(** [SelfTaskMonitorLoop] with [FetchSelfTask]. *)
Inductive monitor_pc :=
| MWhile
| MTestState                     (** is there a task already? *)
| MLookup                        (** the shared section that finds the queue *)
| MTestShutdown                  (** [q->IsShutdown()] on the pointer it got *)
| MPop
| MStore (task : Task J)
| MSleep
| MReturned.

(** [SelfActionLoop] with [ExecuteSelfTask], [SayHelloAction] and
    [FinishSelfTask]. *)
Inductive action_pc :=
| AWhile
| ATestState
| ATestAgain
| ACopy
| AInvoke (task : Task J)
| AHello (task : Task J)
| AHelloLoop (task : Task J) (i : nat)
| AFinish (task : Task J)
| ASleep
| AReturned.

Inductive snapshot_pc := SWhile | SLock | SReport | SSleep | SReturned.

(** [Shutdown], from the moment it holds [rw_mutex_]. *)
Inductive shutdown_pc := DIdle | DJoinSnapshot | DJoinAction | DShutQueue | DClear | DDone.

Inductive holder := ByShutdown | BySnapshot.

(** [freed]: the queue the monitor may have a pointer to was destroyed; [broken]:
    it was used after that.  [et_popped] records the tasks taken from the queue,
    [et_executed] those whose handler was called. *)
Record edge_threads := {
  et_monitor : monitor_pc;
  et_action : action_pc;
  et_snapshot : snapshot_pc;
  et_shutdown : shutdown_pc;
  et_lock : option holder;
  et_queue : option (TaskQueue (Task J));
  et_freed : bool;
  et_self_task : Task J;
  et_state : RunState;
  et_action_stop : bool;
  et_snapshot_stop : bool;
  et_broken : bool;
  et_popped : list (Task J);
  et_executed : list (Task J)
}.

Definition executable (s : RunState) : bool :=
  match s with Initializing | Ready => true | _ => false end.

Definition with_monitor (pc : monitor_pc) (s : edge_threads) : edge_threads := {|
  et_monitor := pc; et_action := et_action s; et_snapshot := et_snapshot s;
  et_shutdown := et_shutdown s; et_lock := et_lock s; et_queue := et_queue s; et_freed := et_freed s;
  et_self_task := et_self_task s; et_state := et_state s; et_action_stop := et_action_stop s;
  et_snapshot_stop := et_snapshot_stop s; et_broken := et_broken s; et_popped := et_popped s;
  et_executed := et_executed s |}.

(** The monitor popped [t], or nothing. *)
Definition monitor_popped (o : option (Task J)) (q : TaskQueue (Task J)) (s : edge_threads) : edge_threads := {|
  et_monitor := match o with Some t => MStore t | None => MSleep end;
  et_action := et_action s; et_snapshot := et_snapshot s; et_shutdown := et_shutdown s;
  et_lock := et_lock s; et_queue := Some q; et_freed := et_freed s;
  et_self_task := et_self_task s; et_state := et_state s; et_action_stop := et_action_stop s;
  et_snapshot_stop := et_snapshot_stop s; et_broken := et_broken s;
  et_popped := et_popped s ++ option_list o; et_executed := et_executed s |}.

Definition monitor_stored (t : Task J) (s : edge_threads) : edge_threads := {|
  et_monitor := MSleep; et_action := et_action s; et_snapshot := et_snapshot s;
  et_shutdown := et_shutdown s; et_lock := et_lock s; et_queue := et_queue s; et_freed := et_freed s;
  et_self_task := t; et_state := Initializing; et_action_stop := et_action_stop s;
  et_snapshot_stop := et_snapshot_stop s; et_broken := et_broken s; et_popped := et_popped s;
  et_executed := et_executed s |}.

Definition used_after_free (s : edge_threads) : edge_threads := {|
  et_monitor := et_monitor s; et_action := et_action s; et_snapshot := et_snapshot s;
  et_shutdown := et_shutdown s; et_lock := et_lock s; et_queue := et_queue s; et_freed := et_freed s;
  et_self_task := et_self_task s; et_state := et_state s; et_action_stop := et_action_stop s;
  et_snapshot_stop := et_snapshot_stop s; et_broken := true; et_popped := et_popped s;
  et_executed := et_executed s |}.

(** The action thread goes to [pc], leaves the run state [x], and has executed
    [done_] more. *)
Definition act (pc : action_pc) (x : RunState) (done_ : list (Task J)) (s : edge_threads) : edge_threads := {|
  et_monitor := et_monitor s; et_action := pc; et_snapshot := et_snapshot s;
  et_shutdown := et_shutdown s; et_lock := et_lock s; et_queue := et_queue s; et_freed := et_freed s;
  et_self_task := et_self_task s; et_state := x; et_action_stop := et_action_stop s;
  et_snapshot_stop := et_snapshot_stop s; et_broken := et_broken s; et_popped := et_popped s;
  et_executed := et_executed s ++ done_ |}.

Definition snap (pc : snapshot_pc) (l : option holder) (s : edge_threads) : edge_threads := {|
  et_monitor := et_monitor s; et_action := et_action s; et_snapshot := pc;
  et_shutdown := et_shutdown s; et_lock := l; et_queue := et_queue s; et_freed := et_freed s;
  et_self_task := et_self_task s; et_state := et_state s; et_action_stop := et_action_stop s;
  et_snapshot_stop := et_snapshot_stop s; et_broken := et_broken s; et_popped := et_popped s;
  et_executed := et_executed s |}.

Definition with_queue (q : TaskQueue (Task J)) (s : edge_threads) : edge_threads := {|
  et_monitor := et_monitor s; et_action := et_action s; et_snapshot := et_snapshot s;
  et_shutdown := et_shutdown s; et_lock := et_lock s; et_queue := Some q; et_freed := et_freed s;
  et_self_task := et_self_task s; et_state := et_state s; et_action_stop := et_action_stop s;
  et_snapshot_stop := et_snapshot_stop s; et_broken := et_broken s; et_popped := et_popped s;
  et_executed := et_executed s |}.

(** [Shutdown] goes to [pc]. *)
Definition down (pc : shutdown_pc) (l : option holder) (q : option (TaskQueue (Task J)))
    (freed snapshot_stop action_stop : bool) (s : edge_threads) : edge_threads := {|
  et_monitor := et_monitor s; et_action := et_action s; et_snapshot := et_snapshot s;
  et_shutdown := pc; et_lock := l; et_queue := q; et_freed := freed;
  et_self_task := et_self_task s; et_state := et_state s; et_action_stop := action_stop;
  et_snapshot_stop := snapshot_stop; et_broken := et_broken s; et_popped := et_popped s;
  et_executed := et_executed s |}.

(** The monitor; its stop flag is never set.  The codes of [FetchSelfTask] are
    0 in [m_no_queue], 5 in [m_busy], 3 in [m_closed], 2 when the pop returns
    nothing and 1 in [m_store]. *)
Inductive monitor_step (s : edge_threads) : edge_threads → Prop :=
| m_while : et_monitor s = MWhile → monitor_step s (with_monitor MTestState s)
| m_busy : et_monitor s = MTestState → et_state s ≠ RunOver → monitor_step s (with_monitor MSleep s)
| m_free : et_monitor s = MTestState → et_state s = RunOver → monitor_step s (with_monitor MLookup s)
| m_no_queue : et_monitor s = MLookup → et_lock s = None → et_queue s = None →
    monitor_step s (with_monitor MReturned s)
| m_lookup q : et_monitor s = MLookup → et_lock s = None → et_queue s = Some q →
    monitor_step s (with_monitor MTestShutdown s)
| m_closed q : et_monitor s = MTestShutdown → et_queue s = Some q → IsShutdown q = true →
    monitor_step s (with_monitor MReturned s)
| m_open q : et_monitor s = MTestShutdown → et_queue s = Some q → IsShutdown q = false →
    monitor_step s (with_monitor MPop s)
| m_pop q o q' : et_monitor s = MPop → et_queue s = Some q →
    PopBlocking q = Some (o, q') ∨ PopBlocking_expired q = (o, q') →
    monitor_step s (monitor_popped o q' s)
| m_dangling : et_monitor s = MTestShutdown ∨ et_monitor s = MPop → et_freed s = true →
    monitor_step s (used_after_free s)
| m_store t : et_monitor s = MStore t → monitor_step s (monitor_stored t s)
| m_sleep : et_monitor s = MSleep → monitor_step s (with_monitor MWhile s).

(** The action thread. *)
Inductive action_step (s : edge_threads) : edge_threads → Prop :=
| a_while : et_action s = AWhile →
    action_step s (act (if et_action_stop s then AReturned else ATestState) (et_state s) [] s)
| a_test : et_action s = ATestState →
    action_step s (act (if executable (et_state s) then ATestAgain else ASleep) (et_state s) [] s)
| a_again : et_action s = ATestAgain →
    action_step s (act (if executable (et_state s) then ACopy else ASleep) (et_state s) [] s)
| a_copy : et_action s = ACopy → action_step s (act (AInvoke (et_self_task s)) (et_state s) [] s)
| a_invoke t : et_action s = AInvoke t →
    action_step s (act (match handler_of t with Some SayHello => AHello t | _ => AFinish t end)
                       (et_state s) (if handled t then [t] else []) s)
| a_hello t : et_action s = AHello t →
    action_step s (if executable (et_state s) then act (AHelloLoop t 0) Running [] s
                   else act (AFinish t) (et_state s) [] s)
| a_hello_stop t i : et_action s = AHelloLoop t i → (i < 5)%nat → et_action_stop s = true →
    action_step s (act (AFinish t) Stopped [] s)
| a_hello_next t i : et_action s = AHelloLoop t i → (i < 5)%nat → et_action_stop s = false →
    action_step s (act (AHelloLoop t (S i)) (et_state s) [] s)
| a_hello_done t i : et_action s = AHelloLoop t i → (5 <= i)%nat →
    action_step s (act (AFinish t) RunOver [] s)
| a_finish t : et_action s = AFinish t →
    action_step s (act ASleep (match et_state s with Stopping => Stopping | Stopped => Stopped
                               | _ => RunOver end) [] s)
| a_sleep : et_action s = ASleep → action_step s (act AWhile (et_state s) [] s).

Inductive snapshot_step (s : edge_threads) : edge_threads → Prop :=
| s_while : et_snapshot s = SWhile →
    snapshot_step s (snap (if et_snapshot_stop s then SReturned else SLock) (et_lock s) s)
| s_lock : et_snapshot s = SLock → et_lock s = None → snapshot_step s (snap SReport (Some BySnapshot) s)
| s_report : et_snapshot s = SReport → snapshot_step s (snap SSleep None s)
| s_sleep : et_snapshot s = SSleep → snapshot_step s (snap SWhile (et_lock s) s).

(** [Shutdown] stops and joins the snapshot thread, then the action thread, then
    shuts the queue down, and destroys it. *)
Inductive shutdown_step (s : edge_threads) : edge_threads → Prop :=
| d_begin : et_shutdown s = DIdle → et_lock s = None →
    shutdown_step s (down DJoinSnapshot (Some ByShutdown) (et_queue s) (et_freed s) true (et_action_stop s) s)
| d_snapshot : et_shutdown s = DJoinSnapshot → et_snapshot s = SReturned →
    shutdown_step s (down DJoinAction (et_lock s) (et_queue s) (et_freed s) (et_snapshot_stop s) true s)
| d_action : et_shutdown s = DJoinAction → et_action s = AReturned →
    shutdown_step s (down DShutQueue (et_lock s) (et_queue s) (et_freed s) (et_snapshot_stop s) (et_action_stop s) s)
| d_queue q : et_shutdown s = DShutQueue → et_queue s = Some q →
    shutdown_step s (down DClear (et_lock s) (Some (Shutdown q).2) (et_freed s) (et_snapshot_stop s) (et_action_stop s) s)
| d_clear : et_shutdown s = DClear →
    shutdown_step s (down DDone None None true (et_snapshot_stop s) (et_action_stop s) s).

Inductive et_step (s : edge_threads) : edge_threads → Prop :=
| et_monitor_step s' : monitor_step s s' → et_step s s'
| et_action_step s' : action_step s s' → et_step s s'
| et_snapshot_step s' : snapshot_step s s' → et_step s s'
| et_shutdown_step s' : shutdown_step s s' → et_step s s'
| et_append t q : et_lock s = None → et_queue s = Some q → et_step s (with_queue (Push t q).2 s).

(** After [Start]; the action and the snapshot thread may be switched off in the
    configuration, which is as if they had returned. *)
Definition et_start (action_enable snapshot_enable : bool) : edge_threads := {|
  et_monitor := MWhile; et_action := if action_enable then AWhile else AReturned;
  et_snapshot := if snapshot_enable then SWhile else SReturned; et_shutdown := DIdle;
  et_lock := None; et_queue := Some TaskQueue_new; et_freed := false;
  et_self_task := Task_default; et_state := RunOver; et_action_stop := false;
  et_snapshot_stop := false; et_broken := false; et_popped := []; et_executed := []
|}.

(** ** Tasks are handed over one at a time *)

(** The task that was taken from the queue and is not done with yet. *)
Definition pending (s : edge_threads) : list (Task J) :=
  match et_monitor s with
  | MStore t => [t]
  | _ => match et_state s, et_action s with
         | Initializing, AFinish _ => []
         | Initializing, _ => [et_self_task s]
         | _, _ => []
         end
  end.

(** The monitor has found no task and is about to bring one. *)
Definition fetching (pc : monitor_pc) : bool :=
  match pc with MLookup | MTestShutdown | MPop | MStore _ => true | _ => false end.

(** The action thread has found a task and is not done with it. *)
Definition executing (pc : action_pc) : bool :=
  match pc with ATestAgain | ACopy | AInvoke _ | AFinish _ => true | _ => false end.

Record handover (s : edge_threads) : Prop := {
  ho_state : et_state s = RunOver ∨ et_state s = Initializing;
  ho_monitor : fetching (et_monitor s) = true → et_state s = RunOver;
  ho_action : executing (et_action s) = true → et_state s = Initializing;
  ho_hello : match et_action s with
             | AHello _ | AHelloLoop _ _ => False
             | AInvoke t => t = et_self_task s
             | _ => True
             end;
  ho_tasks : ∃ over, et_popped s = over ++ pending s ∧
                     et_executed s = filter (λ t, handled t = true) over
}.

Lemma handover_monitor s s' : handover s → monitor_step s s' → handover s'.
Proof.
  intros [H1 H2 H3 H4 (over & H5 & H6)] Hstep. unfold pending in H5.
  destruct Hstep as [Hm|Hm Hst|Hm Hst|Hm Hl Hq|q Hm Hl Hq|q Hm Hq Hs|q Hm Hq Hs|q o q' Hm Hq Hp|Hm Hf|t Hm|Hm];
    try (rewrite Hm in *; split; unfold pending; cbn; try done; by exists over).
  - rewrite Hm in H2, H5. specialize (H2 eq_refl). rewrite H2, app_nil_r in H5.
    split; unfold pending; cbn; try done. exists over. split; [|done].
    rewrite H5, H2. by destruct o; cbn; rewrite ?app_nil_r.
  - split; unfold pending; cbn; try done. by exists over.
  - rewrite Hm in *. specialize (H2 eq_refl). rewrite H2 in *.
    split; cbn; try done; [by right| |].
    + destruct (et_action s) eqn:Ea; try done. by specialize (H3 eq_refl).
    + exists over. split; [|done]. rewrite H5. unfold pending. cbn. destruct (et_action s) eqn:Ea; try done.
      by specialize (H3 eq_refl).
Qed.

(** The call of the handler: the task is done with, and counts as executed when
    there was one. *)
Lemma handover_invoke t s :
  handler_of t ≠ Some SayHello → et_action s = AInvoke t → handover s →
  handover (act (match handler_of t with Some SayHello => AHello t | _ => AFinish t end)
                (et_state s) (if handled t then [t] else []) s).
Proof.
  intros Hplain Ha [H1 H2 H3 H4 (over & H5 & H6)]. rewrite Ha in H3, H4. specialize (H3 eq_refl). subst t.
  set (t := et_self_task s) in *. rewrite H3 in *.
  assert (Hn : match et_monitor s with MStore _ => False | _ => True end).
  { destruct (et_monitor s); try done. by specialize (H2 eq_refl). }
  assert (Hpc : match handler_of t with Some SayHello => AHello t | _ => AFinish t end = AFinish t).
  { by destruct (handler_of t) as [[]|]. }
  rewrite Hpc. split; cbn; try done. exists (over ++ [t]). unfold pending in *. cbn in *.
  rewrite Ha, H3 in H5. rewrite filter_app, H6. split.
  - rewrite H5. by destruct (et_monitor s); rewrite ?app_nil_r.
  - f_equal. rewrite filter_cons, filter_nil. destruct (handled t) eqn:Et; by case_decide.
Qed.

Lemma handover_action s s' :
  (∀ t, t ∈ et_popped s → handler_of t ≠ Some SayHello) → handover s → action_step s s' → handover s'.
Proof.
  intros Hplain Hok Hstep. pose proof Hok as [H1 H2 H3 H4 (over & H5 & H6)].
  destruct Hstep as [Ha|Ha|Ha|Ha|t Ha|t Ha|t i Ha Hi Hs|t i Ha Hi Hs|t i Ha Hi|t Ha|Ha];
    rewrite Ha in H3, H4; try done.
  - destruct (et_action_stop s); split; cbn; rewrite ?app_nil_r; try done;
      exists over; (split; [|done]); rewrite H5; unfold pending; cbn; by rewrite Ha.
  - destruct H1 as [H1|H1]; rewrite H1 in *; cbn;
      (split; cbn; rewrite ?app_nil_r; rewrite ?H1; try done; try tauto);
      exists over; (split; [|done]); rewrite H5; unfold pending; cbn; by rewrite Ha, H1.
  - specialize (H3 eq_refl). rewrite H3 in *. cbn.
    split; cbn; rewrite ?app_nil_r; try done. exists over. split; [|done]. rewrite H5. unfold pending. cbn. by rewrite Ha, H3.
  - specialize (H3 eq_refl). rewrite H3 in *. cbn.
    split; cbn; rewrite ?app_nil_r; try done. exists over. split; [|done]. rewrite H5. unfold pending. cbn. by rewrite Ha, H3.
  - apply handover_invoke; [|done|done]. apply Hplain. rewrite H5. specialize (H3 eq_refl). subst t.
    unfold pending. rewrite Ha, H3. apply elem_of_app. right.
    destruct (et_monitor s); try by left. specialize (H2 eq_refl). congruence.
  - specialize (H3 eq_refl). rewrite H3 in *.
    split; cbn; rewrite ?app_nil_r; try done; [by left|].
    exists over. split; [|done]. rewrite H5. unfold pending. cbn. rewrite Ha, H3.
    destruct (et_monitor s); try done.
  - split; cbn; rewrite ?app_nil_r; try done. exists over. split; [|done]. rewrite H5. unfold pending. cbn. by rewrite Ha.
Qed.

Lemma handover_step s s' :
  (∀ t, t ∈ et_popped s → handler_of t ≠ Some SayHello) → handover s → et_step s s' → handover s'.
Proof.
  intros Hplain Hok Hstep. destruct Hstep as [s' Hs|s' Hs|s' Hs|s' Hs|t q Hl Hq].
  - by eapply handover_monitor.
  - by eapply handover_action.
  - destruct Hok. by destruct Hs; split.
  - destruct Hok. by destruct Hs; split.
  - by destruct Hok; split.
Qed.

(** Tasks taken stay taken. *)
Lemma popped_step s s' : et_step s s' → ∃ l, et_popped s' = et_popped s ++ l.
Proof.
  intros Hstep. destruct Hstep as [s' Hs|s' Hs|s' Hs|s' Hs|t q Hl Hq].
  - destruct Hs; cbn; try (exists []; by rewrite app_nil_r). by eexists.
  - exists []. rewrite app_nil_r. destruct Hs; try done. by destruct (executable _).
  - exists []. rewrite app_nil_r. by destruct Hs.
  - exists []. rewrite app_nil_r. by destruct Hs.
  - exists []. by rewrite app_nil_r.
Qed.
Lemma popped_steps s s' : rtc et_step s s' → ∃ l, et_popped s' = et_popped s ++ l.
Proof.
  induction 1 as [s|s s1 s' Hs _ (l & IH)]; [exists []; by rewrite app_nil_r|].
  destruct (popped_step _ _ Hs) as [l1 E]. exists (l1 ++ l). by rewrite IH, E, app_assoc.
Qed.

Lemma handover_start a b : handover (et_start a b).
Proof. destruct a; split; cbn; try done; try (by left); by exists []. Qed.

Lemma handover_reachable a b s :
  (∀ t, t ∈ et_popped s → handler_of t ≠ Some SayHello) → rtc et_step (et_start a b) s → handover s.
Proof.
  intros Hplain Hr. pose proof (handover_start a b) as H0. revert H0.
  induction Hr as [|s0 s1 s2 Hstep Hr IH]; [done|]. intros Hok. apply IH; [done|].
  eapply handover_step; [|exact Hok|exact Hstep]. intros t Ht. apply Hplain.
  destruct (popped_steps s0 s2) as [l ->]; [by eapply rtc_l|]. apply elem_of_app. by left.
Qed.

(** The tasks that are to be executed. *)
Definition served (t : Task J) : Prop := tk_action t ≠ "" ∧ is_Some (handlers !! tk_action t).
#[local] Instance served_dec t : Decision (served t).
Proof. unfold served. apply _. Defined.

Lemma filter_served (l : list (Task J)) : filter served l = filter (λ t, handled t = true) l.
Proof.
  apply list_filter_iff. intros t. unfold served, handled, handler_of. rewrite bool_decide_eq_true.
  destruct (String.eqb_spec (tk_action t) ""); [|tauto]. split; [tauto|]. by intros [??].
Qed.

(** C34: as long as no task taken is for [SayHelloAction], every task that leaves
    the edge's own queue and whose action has a registered handler has it called
    exactly once and in order, whatever the other threads do: at any time all such
    tasks taken have been executed, except the last task if it is still being
    handed over; a task whose action is empty or has no handler is passed over. *)
Theorem self_tasks_exactly_once a b s :
  rtc et_step (et_start a b) s → (∀ t, t ∈ et_popped s → handler_of t ≠ Some SayHello) →
  filter served (et_popped s) = et_executed s ++ filter served (pending s) ∧
  (length (pending s) <= 1)%nat ∧ (∃ over, et_popped s = over ++ pending s).
Proof.
  intros Hr Hplain. destruct (handover_reachable a b s Hplain Hr) as [_ _ _ _ (over & H5 & H6)].
  split; [by rewrite !filter_served, H5, filter_app, H6|]. split; [|by exists over].
  unfold pending. destruct (et_monitor s); cbn; try lia; destruct (et_state s); cbn; try lia;
    destruct (et_action s); cbn; lia.
Qed.

(** ** Shutting down *)

(** [Shutdown] holds the mutex while it waits for the snapshot thread, which
    waits for the mutex. *)
Definition deadlocked (s : edge_threads) : Prop :=
  et_shutdown s = DJoinSnapshot ∧ et_snapshot s = SLock ∧ et_lock s = Some ByShutdown.

Lemma deadlocked_step s s' : deadlocked s → et_step s s' → deadlocked s'.
Proof.
  intros (H1 & H2 & H3) Hstep. destruct Hstep as [s' Hs|s' Hs|s' Hs|s' Hs|t q Hl Hq].
  - by destruct Hs.
  - destruct Hs; try done. by destruct (executable _).
  - destruct Hs; congruence.
  - destruct Hs; congruence.
  - congruence.
Qed.

Lemma deadlocked_forever s s' : rtc et_step s s' → deadlocked s → deadlocked s'.
Proof. induction 1 as [|x y z Hstep _ IH]; [done|]. intros Hd. by eapply IH, deadlocked_step. Qed.

(** [Shutdown] can deadlock with the snapshot thread: it can reach a state
    in which it waits, with the mutex, for that thread, which waits for the mutex,
    and whatever the threads do from there, [Shutdown] never returns. *)
Theorem shutdown_deadlock a :
  ∃ s, rtc et_step (et_start a true) s ∧ deadlocked s ∧
    ∀ s', rtc et_step s s' → et_shutdown s' = DJoinSnapshot.
Proof.
  eexists. split; [|split].
  - eapply rtc_l; [apply et_snapshot_step; by apply s_while|].
    eapply rtc_l; [apply et_shutdown_step; by apply d_begin|]. apply rtc_refl.
  - done.
  - intros s' Hr. by apply (deadlocked_forever _ _ Hr).
Qed.

(** [Shutdown] does not stop the monitor thread before it destroys the
    edge's own queue: the monitor can be waiting in that very queue, and uses it
    after it was destroyed. *)
Theorem monitor_use_after_free :
  ∃ s, rtc et_step (et_start false false) s ∧ et_shutdown s = DDone ∧ et_broken s = true.
Proof.
  eexists. split; [|split].
  - eapply rtc_l; [apply et_monitor_step; by apply m_while|].
    eapply rtc_l; [apply et_monitor_step; by apply m_free|].
    eapply rtc_l; [apply et_monitor_step; by eapply m_lookup|].
    eapply rtc_l; [apply et_monitor_step; by eapply m_open|].
    eapply rtc_l; [apply et_shutdown_step; by apply d_begin|].
    eapply rtc_l; [apply et_shutdown_step; by apply d_snapshot|].
    eapply rtc_l; [apply et_shutdown_step; by apply d_action|].
    eapply rtc_l; [apply et_shutdown_step; by eapply d_queue|].
    eapply rtc_l; [apply et_shutdown_step; by apply d_clear|].
    eapply rtc_l; [apply et_monitor_step; by apply m_dangling; [right|]|]. apply rtc_refl.
  - done.
  - done.
Qed.
End threads.

(** ** Tasks for [SayHelloAction] *)

Section hello.
Definition hello_task (id action : string) : Task jvalue := {|
  tk_task_id := id; tk_command_id := ""; tk_trace_id := ""; tk_span_id := ""; tk_edge_id := "";
  tk_device_id := "self"; tk_capability := ""; tk_action := action; tk_params := VObj [];
  tk_idempotency_key := ""; tk_dedup_window_ms := 0; tk_priority := 0; tk_created_at_ms := 0;
  tk_deadline_at_ms := 0; tk_policy := VObj []; tk_state := Pending; tk_result := TaskResult_default |}.

Tactic Notation "monitor" uconstr(c) := eapply rtc_l; [apply et_monitor_step; by eapply c|]; cbn.
Tactic Notation "action" uconstr(c) := eapply rtc_l; [apply et_action_step; by eapply c|]; cbn.

(** A task can be lost: [SayHelloAction] marks itself as over before
    [FinishSelfTask] does; in between, the monitor can bring the next task, and
    [FinishSelfTask] then marks that one as over although nothing executed it. *)
Theorem self_task_lost :
  ∃ s, rtc (et_step base_handlers) (et_start true true) s ∧
    et_popped s = [hello_task "t1" "say_hello"; hello_task "t2" "say_hello"] ∧
    et_executed s = [hello_task "t1" "say_hello"] ∧
    et_state s = RunOver ∧ et_monitor s = MSleep ∧ et_action s = ASleep.
Proof.
  eexists. split.
  - eapply rtc_l; [by apply (et_append _ _ (hello_task "t1" "say_hello") TaskQueue_new)|].
    eapply rtc_l; [by eapply (et_append _ _ (hello_task "t2" "say_hello"))|]. cbn.
    monitor m_while. monitor m_free. monitor m_lookup. monitor m_open.
    eapply rtc_l; [apply et_monitor_step; eapply m_pop; [done|done|by left]|]. cbn.
    monitor m_store.
    action a_while. action a_test. action a_again. action a_copy. action a_invoke. action a_hello.
    do 5 (eapply rtc_l; [apply et_action_step; eapply a_hello_next; [done|lia|done]|]; cbn).
    eapply rtc_l; [apply et_action_step; eapply a_hello_done; [done|lia]|]. cbn.
    monitor m_sleep. monitor m_while. monitor m_free. monitor m_lookup. monitor m_open.
    eapply rtc_l; [apply et_monitor_step; eapply m_pop; [done|done|by left]|]. cbn.
    monitor m_store. action a_finish. apply rtc_refl.
  - by split_and!.
Qed.

(** An edge with a handler of its own besides [SayHelloAction]: a task for it and
    one for no handler. *)
Definition up_handlers : gmap string handler := RegisterSelfTaskHandler "up" Plain base_handlers.

Lemma self_tasks_exactly_once_witness :
  ∃ s, rtc (et_step up_handlers) (et_start true true) s ∧
    et_popped s = [hello_task "t1" "up"; hello_task "t2" "sideways"] ∧
    et_executed s = [hello_task "t1" "up"] ∧ (length (pending s) <= 1)%nat.
Proof.
  assert (Hr : ∃ s, rtc (et_step up_handlers) (et_start true true) s ∧
                    et_popped s = [hello_task "t1" "up"; hello_task "t2" "sideways"] ∧ pending s = [hello_task "t2" "sideways"]).
  { eexists. split.
    - eapply rtc_l; [by apply (et_append _ _ (hello_task "t1" "up") TaskQueue_new)|].
      eapply rtc_l; [by eapply (et_append _ _ (hello_task "t2" "sideways"))|]. cbn.
      monitor m_while. monitor m_free. monitor m_lookup. monitor m_open.
      eapply rtc_l; [apply et_monitor_step; eapply m_pop; [done|done|by left]|]. cbn.
      monitor m_store.
      action a_while. action a_test. action a_again. action a_copy. action a_invoke. action a_finish.
      monitor m_sleep. monitor m_while. monitor m_free. monitor m_lookup. monitor m_open.
      eapply rtc_l; [apply et_monitor_step; eapply m_pop; [done|done|by left]|]. cbn.
      apply rtc_refl.
    - by split. }
  destruct Hr as (s & Hr & Hp & Hpend). exists s. do 2 (split; [assumption|]).
  destruct (self_tasks_exactly_once up_handlers true true s Hr) as (Hf & Hl & _).
  - rewrite Hp. intros t. rewrite !elem_of_cons, elem_of_nil. intros [->|[->|[]]]; vm_compute; discriminate.
  - split; [|exact Hl]. rewrite !filter_served, Hp, Hpend in Hf.
    assert (Hup : ∀ x y, filter (λ t, handled up_handlers t = true) [hello_task x "up"; hello_task y "sideways"] =
      [hello_task x "up"]) by reflexivity.
    assert (Hside : ∀ x, filter (λ t, handled up_handlers t = true) [hello_task x "sideways"] = []) by reflexivity.
    rewrite Hup, Hside, app_nil_r in Hf. symmetry. exact Hf.
Defined.
End hello.
