(* ===== verification/PodTypes.v ===== *)
(** * Pods: data and sessions

    Model of my_pod/common (codes, capabilities, results, records) and of the
    sessions: BaseSession.cpp with the placeholders of the two vendors. *)

From S2P Require Import Prelude Text Json Double.
From Stdlib Require Import Ascii.

Local Open Scope Z_scope.

(** ** Error codes and results *)

Inductive PodErrorCode :=
| Pe_SUCCESS | Pe_UNKNOWN_ERROR
| CONNECTION_FAILED | CONNECTION_TIMEOUT | ALREADY_CONNECTED | NOT_CONNECTED | DISCONNECT_FAILED
| SESSION_ERROR | SESSION_NOT_INITIALIZED | SEND_FAILED | RECEIVE_FAILED
| CAPABILITY_NOT_FOUND | CAPABILITY_NOT_SUPPORTED | CAPABILITY_INIT_FAILED
| PTZ_CONTROL_FAILED | LASER_MEASURE_FAILED | STREAM_START_FAILED | STREAM_STOP_FAILED
| IMAGE_CAPTURE_FAILED | CENTER_MEASURE_FAILED | POD_NOT_FOUND | POD_ALREADY_EXISTS.

#[export] Instance PodErrorCode_eq_dec : EqDecision PodErrorCode.
Proof. solve_decision. Defined.

(** The value of the enumerator, an int32. *)
Definition PodErrorCode_value (code : PodErrorCode) : Z :=
  match code with
  | Pe_SUCCESS => 0 | Pe_UNKNOWN_ERROR => -1
  | CONNECTION_FAILED => -100 | CONNECTION_TIMEOUT => -101 | ALREADY_CONNECTED => -102
  | NOT_CONNECTED => -103 | DISCONNECT_FAILED => -104
  | SESSION_ERROR => -200 | SESSION_NOT_INITIALIZED => -201 | SEND_FAILED => -202 | RECEIVE_FAILED => -203
  | CAPABILITY_NOT_FOUND => -300 | CAPABILITY_NOT_SUPPORTED => -301 | CAPABILITY_INIT_FAILED => -302
  | PTZ_CONTROL_FAILED => -400 | LASER_MEASURE_FAILED => -500
  | STREAM_START_FAILED => -600 | STREAM_STOP_FAILED => -601
  | IMAGE_CAPTURE_FAILED => -700 | CENTER_MEASURE_FAILED => -800
  | POD_NOT_FOUND => -900 | POD_ALREADY_EXISTS => -901
  end.

Definition podErrorCodeToString (code : PodErrorCode) : string :=
  match code with
  | Pe_SUCCESS => "成功" | Pe_UNKNOWN_ERROR => "未知错误"
  | CONNECTION_FAILED => "连接失败" | CONNECTION_TIMEOUT => "连接超时" | ALREADY_CONNECTED => "已连接"
  | NOT_CONNECTED => "未连接" | DISCONNECT_FAILED => "断开失败"
  | SESSION_ERROR => "会话错误" | SESSION_NOT_INITIALIZED => "会话未初始化" | SEND_FAILED => "发送失败"
  | RECEIVE_FAILED => "接收失败"
  | CAPABILITY_NOT_FOUND => "能力未找到" | CAPABILITY_NOT_SUPPORTED => "能力不支持"
  | CAPABILITY_INIT_FAILED => "能力初始化失败"
  | PTZ_CONTROL_FAILED => "云台控制失败" | LASER_MEASURE_FAILED => "激光测距失败"
  | STREAM_START_FAILED => "拉流启动失败" | STREAM_STOP_FAILED => "拉流停止失败"
  | IMAGE_CAPTURE_FAILED => "图像抓拍失败" | CENTER_MEASURE_FAILED => "中心测量失败"
  | POD_NOT_FOUND => "吊舱未找到" | POD_ALREADY_EXISTS => "吊舱已存在"
  end.

(** [PodResult<void>] is [PodResult unit], whose [pr_data] is always [None]. *)
Record PodResult (T : Type) := { pr_code : PodErrorCode; pr_message : string; pr_data : option T }.
Arguments pr_code {T} _.
Arguments pr_message {T} _.
Arguments pr_data {T} _.

Definition isSuccess {T} (r : PodResult T) : bool := bool_decide (pr_code r = Pe_SUCCESS).
Definition pod_success {T} (value : T) (msg : string) : PodResult T :=
  {| pr_code := Pe_SUCCESS; pr_message := msg; pr_data := Some value |}.
Definition pod_done (msg : string) : PodResult unit :=
  {| pr_code := Pe_SUCCESS; pr_message := msg; pr_data := None |}.
(** An empty message is replaced by the text of the code. *)
Definition pod_fail {T} (err : PodErrorCode) (msg : string) : PodResult T := {|
  pr_code := err; pr_message := match msg with EmptyString => podErrorCodeToString err | _ => msg end;
  pr_data := None |}.

(** ** States and vendors *)

Inductive PodVendor := Vendor_UNKNOWN | DJI | PINLING.
Inductive PodState := DISCONNECTED | CONNECTING | CONNECTED | Pod_ERROR.
Inductive StreamType := Stream_UNKNOWN | RTSP | RTMP | HLS | RAW.

#[export] Instance PodState_eq_dec : EqDecision PodState.
Proof. solve_decision. Defined.

Definition podVendorToString (v : PodVendor) : string :=
  match v with DJI => "DJI" | PINLING => "PINLING" | Vendor_UNKNOWN => "UNKNOWN" end.
Definition podStateToString (s : PodState) : string :=
  match s with
  | DISCONNECTED => "已断开" | CONNECTING => "连接中" | CONNECTED => "已连接" | Pod_ERROR => "异常"
  end.

Definition streamTypeToString (type : StreamType) : string :=
  match type with
  | RTSP => "RTSP" | RTMP => "RTMP" | HLS => "HLS" | RAW => "RAW" | Stream_UNKNOWN => "未知"
  end.

(** ** Records *)

Definition zero : double := double_of_Z 0.
(** The literal [n / 10^k]: the quotient of two exact doubles, rounded once. *)
Definition literal (n k : Z) : double := double_div (double_of_Z n) (double_of_Z (10 ^ k)).

Record PodStatus := {
  ps_state : PodState; ps_temperature : double; ps_voltage : double; ps_uptime_ms : Z; ps_error_msg : string
}.
Definition PodStatus_default : PodStatus := {|
  ps_state := DISCONNECTED; ps_temperature := zero; ps_voltage := zero; ps_uptime_ms := 0; ps_error_msg := "" |}.

Record PTZPose := { pz_yaw : double; pz_pitch : double; pz_roll : double; pz_zoom : double }.
Definition PTZPose_default : PTZPose :=
  {| pz_yaw := zero; pz_pitch := zero; pz_roll := zero; pz_zoom := double_of_Z 1 |}.

Record PTZCommand := { pc_yaw_speed : double; pc_pitch_speed : double; pc_zoom_speed : double }.

Record LaserInfo := {
  la_is_valid : bool; la_distance : double; la_latitude : double; la_longitude : double; la_altitude : double
}.
Definition LaserInfo_default : LaserInfo := {|
  la_is_valid := false; la_distance := zero; la_latitude := zero; la_longitude := zero; la_altitude := zero |}.

Record StreamInfo := {
  st_type : StreamType; st_url : string; st_width : Z; st_height : Z; st_fps : Z; st_is_active : bool
}.
Definition StreamInfo_default : StreamInfo := {|
  st_type := Stream_UNKNOWN; st_url := ""; st_width := 0; st_height := 0; st_fps := 0; st_is_active := false |}.

Record ImageFrame := {
  im_width : Z; im_height : Z; im_channels : Z; im_data : list Z; im_timestamp_ms : Z; im_format : string
}.

Record CenterMeasurementResult := {
  ce_is_valid : bool; ce_distance : double; ce_latitude : double; ce_longitude : double;
  ce_altitude : double; ce_center_x : double; ce_center_y : double
}.
Definition CenterMeasurementResult_default : CenterMeasurementResult := {|
  ce_is_valid := false; ce_distance := zero; ce_latitude := zero; ce_longitude := zero;
  ce_altitude := zero; ce_center_x := zero; ce_center_y := zero |}.

(** What the monitor of a pod collects. *)
Record PodRuntimeStatus := {
  rt_is_online : bool;
  rt_pod_status : PodStatus;
  rt_ptz_pose : PTZPose;
  rt_laser_info : LaserInfo;
  rt_stream_info : StreamInfo;
  rt_last_update_ms : Z;
  rt_online_update_ms : Z;
  rt_ptz_update_ms : Z;
  rt_laser_update_ms : Z;
  rt_stream_update_ms : Z
}.
Definition PodRuntimeStatus_default : PodRuntimeStatus := {|
  rt_is_online := false; rt_pod_status := PodStatus_default; rt_ptz_pose := PTZPose_default;
  rt_laser_info := LaserInfo_default; rt_stream_info := StreamInfo_default; rt_last_update_ms := 0;
  rt_online_update_ms := 0; rt_ptz_update_ms := 0; rt_laser_update_ms := 0; rt_stream_update_ms := 0 |}.

Record PodMonitorConfig := {
  mc_poll_interval_ms : Z;
  mc_status_interval_ms : Z;
  mc_ptz_interval_ms : Z;
  mc_laser_interval_ms : Z;
  mc_stream_interval_ms : Z;
  mc_online_window_size : Z;
  mc_online_threshold : Z;
  mc_enable_status_poll : bool;
  mc_enable_ptz_poll : bool;
  mc_enable_laser_poll : bool;
  mc_enable_stream_poll : bool;
  mc_auto_start : bool
}.
Definition PodMonitorConfig_default : PodMonitorConfig := {|
  mc_poll_interval_ms := 1000; mc_status_interval_ms := 5000; mc_ptz_interval_ms := 1000;
  mc_laser_interval_ms := 5000; mc_stream_interval_ms := 5000; mc_online_window_size := 3;
  mc_online_threshold := 2; mc_enable_status_poll := true; mc_enable_ptz_poll := true;
  mc_enable_laser_poll := false; mc_enable_stream_poll := true; mc_auto_start := true |}.

(** ** Capabilities *)

Inductive CapabilityType :=
| Cap_UNKNOWN | STATUS | HEARTBEAT | PTZ | LASER | STREAM | IMAGE | CENTER_MEASURE.

Definition capabilityTypeToString (type : CapabilityType) : string :=
  match type with
  | STATUS => "状态查询" | HEARTBEAT => "心跳检测" | PTZ => "云台控制" | LASER => "激光测距"
  | STREAM => "流媒体" | IMAGE => "图像抓拍" | CENTER_MEASURE => "中心点测量" | Cap_UNKNOWN => "未知能力"
  end.
Definition capabilityTypeToKey (type : CapabilityType) : string :=
  match type with
  | STATUS => "STATUS" | HEARTBEAT => "HEARTBEAT" | PTZ => "PTZ" | LASER => "LASER"
  | STREAM => "STREAM" | IMAGE => "IMAGE" | CENTER_MEASURE => "CENTER_MEASURE" | Cap_UNKNOWN => "UNKNOWN"
  end.

Definition separator (c : ascii) : bool := isspace c || Ascii.eqb c "_" || Ascii.eqb c "-".

Fixpoint normalizeCapabilityText (value : string) : string :=
  match value with
  | EmptyString => EmptyString
  | String c value =>
      if separator c then normalizeCapabilityText value
      else String (tolower c) (normalizeCapabilityText value)
  end.

(** [None]: the answer is false and the argument is left alone. *)
Definition capabilityTypeFromString (value : string) : option CapabilityType :=
  let normalized := normalizeCapabilityText value in
  let reads key name := String.eqb normalized key || String.eqb normalized name in
  match normalized with
  | EmptyString => None
  | _ =>
      if reads "status" "状态查询" then Some STATUS
      else if reads "heartbeat" "心跳检测" then Some HEARTBEAT
      else if reads "ptz" "云台控制" then Some PTZ
      else if reads "laser" "激光测距" then Some LASER
      else if reads "stream" "流媒体" then Some STREAM
      else if reads "image" "图像抓拍" then Some IMAGE
      else if reads "centermeasure" "中心点测量" then Some CENTER_MEASURE
      else None
  end.

(** The reading depends on the normalised text alone. *)
Lemma capability_normalized s s' :
  normalizeCapabilityText s = normalizeCapabilityText s' →
  capabilityTypeFromString s = capabilityTypeFromString s'.
Proof. unfold capabilityTypeFromString. by intros ->. Qed.

(** A capability is read back from its key and from its display name,
    whatever the case of the letters and with spaces, underscores and dashes
    anywhere; and what is read as a capability is, after normalisation, its key
    or its name. *)
Theorem capability_text (type : CapabilityType) (s : string) :
  capabilityTypeFromString s = Some type ↔
  type ≠ Cap_UNKNOWN ∧
  (normalizeCapabilityText s = normalizeCapabilityText (capabilityTypeToKey type) ∨
   normalizeCapabilityText s = capabilityTypeToString type).
Proof.
  split.
  - unfold capabilityTypeFromString. destruct (normalizeCapabilityText s) as [|c n] eqn:En; [done|].
    rewrite <- En. clear En.
    repeat match goal with |- context [if ?b then _ else _] => destruct b eqn:?; [intros [= <-]|] end; [..|done];
      (split; [done|]);
      match goal with H : _ || _ = true |- _ =>
        apply orb_prop in H as [->%String.eqb_eq| ->%String.eqb_eq]; [left|right]; reflexivity
      end.
  - intros [Hne [Hs|Hs]].
    + rewrite (capability_normalized _ _ Hs). by destruct type.
    + unfold capabilityTypeFromString. rewrite Hs. by destruct type.
Qed.

Lemma capability_text_witness :
  capabilityTypeFromString " Center-Measure" = Some CENTER_MEASURE ∧
  capabilityTypeFromString "云台控制" = Some PTZ ∧
  capabilityTypeFromString "zoom" ≠ Some PTZ.
Proof.
  split; [apply capability_text; split; [done|left; vm_compute; reflexivity]|].
  split; [apply capability_text; split; [done|right; vm_compute; reflexivity]|].
  vm_compute. done.
Defined.

(** ** Sessions

    BaseSession holds its mutex for each call.  What the subclasses put in the
    place of [doConnect] and the others are placeholders that answer at once. *)

Inductive session_kind := Base_session | Dji_session | Pinling_session.

Record BaseSession := {
  bs_kind : session_kind; bs_host : string; bs_port : Z; bs_connected : bool
}.

Definition BaseSession_new (kind : session_kind) : BaseSession :=
  {| bs_kind := kind; bs_host := ""; bs_port := 0; bs_connected := false |}.

Definition doConnect (kind : session_kind) : PodResult unit :=
  pod_done match kind with
           | Base_session => "基础连接成功（占位）"
           | Dji_session => "大疆设备连接成功（占位）"
           | Pinling_session => "品凌会话连接成功"
           end.
Definition doDisconnect (kind : session_kind) : PodResult unit :=
  pod_done match kind with
           | Base_session => "基础断开成功（占位）"
           | Dji_session => "大疆设备断开成功（占位）"
           | Pinling_session => "品凌会话断开成功"
           end.
Definition doSend (kind : session_kind) (data : list Z) : PodResult unit :=
  pod_done match kind with
           | Base_session => "发送成功（占位）"
           | Dji_session => "大疆数据发送成功（占位）"
           | Pinling_session => "成功"
           end.
Definition doReceive (kind : session_kind) (timeout_ms : Z) : PodResult (list Z) :=
  match kind with
  | Base_session => pod_success [0] "接收成功（占位）"
  | Dji_session => pod_success [170; 187] "大疆数据接收成功（占位）"
  | Pinling_session => pod_success [] "成功"
  end.

Definition session_connect (host : string) (port : Z) (s : BaseSession) : PodResult unit * BaseSession :=
  if bs_connected s then (pod_fail ALREADY_CONNECTED "会话已连接", s)
  else
    let result := doConnect (bs_kind s) in
    (result, {| bs_kind := bs_kind s; bs_host := host; bs_port := port; bs_connected := isSuccess result |}).

Definition session_disconnect (s : BaseSession) : PodResult unit * BaseSession :=
  if negb (bs_connected s) then (pod_fail NOT_CONNECTED "会话未连接", s)
  else (doDisconnect (bs_kind s),
        {| bs_kind := bs_kind s; bs_host := bs_host s; bs_port := bs_port s; bs_connected := false |}).

Definition sendRequest (data : list Z) (s : BaseSession) : PodResult unit :=
  if negb (bs_connected s) then pod_fail NOT_CONNECTED "" else doSend (bs_kind s) data.
Definition receiveResponse (timeout_ms : Z) (s : BaseSession) : PodResult (list Z) :=
  if negb (bs_connected s) then pod_fail NOT_CONNECTED "" else doReceive (bs_kind s) timeout_ms.

(** Two critical sections: [s'] is the session as the second one finds it. *)
Definition session_request (req : list Z) (timeout_ms : Z) (s s' : BaseSession) : PodResult (list Z) :=
  let sendResult := sendRequest req s in
  if negb (isSuccess sendResult) then pod_fail (pr_code sendResult) (pr_message sendResult)
  else receiveResponse timeout_ms s'.

(** A session is connected exactly after a [connect] that succeeded, and a
    connected session does not connect again. *)
Lemma session_connect_spec host port s :
  let '(r, s') := session_connect host port s in
  bs_connected s' = true ∧ (isSuccess r = negb (bs_connected s)) ∧
  (bs_connected s = true → s' = s ∧ pr_code r = ALREADY_CONNECTED) ∧
  (bs_connected s = false → bs_host s' = host ∧ bs_port s' = port ∧ bs_kind s' = bs_kind s).
Proof. unfold session_connect. by destruct (bs_connected s) eqn:E, (bs_kind s). Qed.
