(* ===== verification/PodMonitor.v ===== *)
(** * The monitor of a pod

    Model of my_pod/monitor/pod_monitor.cpp: the polls, the sliding window that
    decides whether a pod is online, one turn of the loop, its interruptible
    sleep, start and stop.  The pod is what the class [MonitoredPod] states. *)

From S2P Require Import Prelude Json Double PodTypes.

Local Open Scope Z_scope.

(** The virtual calls of the monitor; each may throw. *)
Class MonitoredPod (P : Type) := {
  mp_refreshDeviceStatus : P → result (PodResult unit) * P;
  mp_getDeviceStatus : P → result (PodResult PodStatus) * P;
  mp_getPose : P → result (PodResult PTZPose) * P;
  mp_laserMeasure : P → result (PodResult LaserInfo) * P;
  mp_getStreamInfo : P → result (PodResult StreamInfo) * P
}.

(** [mo_thread]: the thread object is joinable. *)
Record PodMonitor := {
  mo_config : PodMonitorConfig;
  mo_status : PodRuntimeStatus;
  mo_history : list bool;
  mo_running : bool;
  mo_thread : bool
}.
Implicit Types (m : PodMonitor) (cfg : PodMonitorConfig).

Definition PodMonitor_new : PodMonitor := {|
  mo_config := PodMonitorConfig_default; mo_status := PodRuntimeStatus_default; mo_history := [];
  mo_running := false; mo_thread := false |}.

Definition with_status (s : PodRuntimeStatus) m : PodMonitor := {|
  mo_config := mo_config m; mo_status := s; mo_history := mo_history m; mo_running := mo_running m;
  mo_thread := mo_thread m |}.
Definition with_window (h : list bool) (online : bool) m : PodMonitor :=
  let s := mo_status m in {|
  mo_config := mo_config m;
  mo_status := {|
    rt_is_online := online; rt_pod_status := rt_pod_status s; rt_ptz_pose := rt_ptz_pose s;
    rt_laser_info := rt_laser_info s; rt_stream_info := rt_stream_info s;
    rt_last_update_ms := rt_last_update_ms s; rt_online_update_ms := rt_online_update_ms s;
    rt_ptz_update_ms := rt_ptz_update_ms s; rt_laser_update_ms := rt_laser_update_ms s;
    rt_stream_update_ms := rt_stream_update_ms s |};
  mo_history := h; mo_running := mo_running m; mo_thread := mo_thread m |}.

Definition start cfg m : PodMonitor :=
  if mo_running m then m
  else {| mo_config := cfg; mo_status := PodRuntimeStatus_default; mo_history := [];
          mo_running := true; mo_thread := true |}.

(** The flag, and the join of the loop, which sees the flag at its next test. *)
Definition stop m : PodMonitor :=
  if negb (mo_running m) then m
  else {| mo_config := mo_config m; mo_status := mo_status m; mo_history := mo_history m;
          mo_running := false; mo_thread := false |}.

Definition updateConfig cfg m : PodMonitor := {|
  mo_config := cfg; mo_status := mo_status m; mo_history := mo_history m; mo_running := mo_running m;
  mo_thread := mo_thread m |}.

(** ** The window *)

(** The loop of [pop_front]. *)
Fixpoint trim (window_size : Z) (h : list bool) : list bool :=
  match h with
  | [] => []
  | _ :: h' => if window_size <? Z.of_nat (length h) then trim window_size h' else h
  end.

Definition success_count (h : list bool) : Z :=
  foldl (λ n (ok : bool), if ok then wrapu 32 (n + 1) else n) 0 h.

Definition updateOnlineWindow (ping_result : bool) m : PodMonitor :=
  let h := trim (mc_online_window_size (mo_config m)) (mo_history m ++ [ping_result]) in
  with_window h (mc_online_threshold (mo_config m) <=? success_count h) m.

(** ** The polls; [now] is the clock's reading when the result is stored *)

Section polls.
Context {P : Type} `{MonitoredPod P}.
Implicit Types p : P.

(** The data of a result that is a success and has some. *)
Definition got {T} (r : PodResult T) : option T := if isSuccess r then pr_data r else None.

Definition ping_ok (r : PodResult PodStatus) : bool :=
  match got r with Some s => bool_decide (ps_state s = CONNECTED) | None => false end.

(** The section after the window. *)
Definition store_status (now : Z) (r : PodResult PodStatus) m : PodMonitor :=
  let s := mo_status m in
  let ps := default (rt_pod_status s) (got r) in
  with_status {|
    rt_is_online := rt_is_online s;
    rt_pod_status := {|
      ps_state := if rt_is_online s then CONNECTED else DISCONNECTED;
      ps_temperature := ps_temperature ps; ps_voltage := ps_voltage ps; ps_uptime_ms := ps_uptime_ms ps;
      ps_error_msg := ps_error_msg ps |};
    rt_ptz_pose := rt_ptz_pose s; rt_laser_info := rt_laser_info s; rt_stream_info := rt_stream_info s;
    rt_last_update_ms := now; rt_online_update_ms := now; rt_ptz_update_ms := rt_ptz_update_ms s;
    rt_laser_update_ms := rt_laser_update_ms s; rt_stream_update_ms := rt_stream_update_ms s |} m.

Definition pollStatus (now : Z) m p : PodMonitor * P :=
  match mp_refreshDeviceStatus p with
  | (Err _, p) => (updateOnlineWindow false m, p)
  | (Ok _, p) =>
      match mp_getDeviceStatus p with
      | (Err _, p) => (updateOnlineWindow false m, p)
      | (Ok r, p) => (store_status now r (updateOnlineWindow (ping_ok r) m), p)
      end
  end.

Definition store_ptz (now : Z) (pose : PTZPose) m : PodMonitor :=
  let s := mo_status m in
  with_status {|
    rt_is_online := rt_is_online s; rt_pod_status := rt_pod_status s; rt_ptz_pose := pose;
    rt_laser_info := rt_laser_info s; rt_stream_info := rt_stream_info s; rt_last_update_ms := now;
    rt_online_update_ms := rt_online_update_ms s; rt_ptz_update_ms := now;
    rt_laser_update_ms := rt_laser_update_ms s; rt_stream_update_ms := rt_stream_update_ms s |} m.
Definition store_laser (now : Z) (info : LaserInfo) m : PodMonitor :=
  let s := mo_status m in
  with_status {|
    rt_is_online := rt_is_online s; rt_pod_status := rt_pod_status s; rt_ptz_pose := rt_ptz_pose s;
    rt_laser_info := info; rt_stream_info := rt_stream_info s; rt_last_update_ms := now;
    rt_online_update_ms := rt_online_update_ms s; rt_ptz_update_ms := rt_ptz_update_ms s;
    rt_laser_update_ms := now; rt_stream_update_ms := rt_stream_update_ms s |} m.
Definition store_stream (now : Z) (info : StreamInfo) m : PodMonitor :=
  let s := mo_status m in
  with_status {|
    rt_is_online := rt_is_online s; rt_pod_status := rt_pod_status s; rt_ptz_pose := rt_ptz_pose s;
    rt_laser_info := rt_laser_info s; rt_stream_info := info; rt_last_update_ms := now;
    rt_online_update_ms := rt_online_update_ms s; rt_ptz_update_ms := rt_ptz_update_ms s;
    rt_laser_update_ms := rt_laser_update_ms s; rt_stream_update_ms := now |} m.

(** A result without data, or an exception, goes to the log. *)
Definition stored {T} (store : T → PodMonitor → PodMonitor) (r : result (PodResult T)) m : PodMonitor :=
  match r with
  | Ok r => match got r with Some x => store x m | None => m end
  | Err _ => m
  end.

Definition pollPtz (now : Z) m p : PodMonitor * P :=
  if negb (rt_is_online (mo_status m)) then (m, p)
  else let '(r, p) := mp_getPose p in (stored (store_ptz now) r m, p).
Definition pollLaser (now : Z) m p : PodMonitor * P :=
  if negb (rt_is_online (mo_status m)) then (m, p)
  else let '(r, p) := mp_laserMeasure p in (stored (store_laser now) r m, p).
Definition pollStream (now : Z) m p : PodMonitor * P :=
  let '(r, p) := mp_getStreamInfo p in (stored (store_stream now) r m, p).

(** ** One turn of the loop *)

Inductive ability := A_status | A_ptz | A_laser | A_stream.

(** The four local variables of the loop, and the settings of each poll. *)
Definition timers := ability → Z.
Definition enabled cfg (a : ability) : bool :=
  match a with
  | A_status => mc_enable_status_poll cfg | A_ptz => mc_enable_ptz_poll cfg
  | A_laser => mc_enable_laser_poll cfg | A_stream => mc_enable_stream_poll cfg
  end.
Definition interval cfg (a : ability) : Z :=
  match a with
  | A_status => mc_status_interval_ms cfg | A_ptz => mc_ptz_interval_ms cfg
  | A_laser => mc_laser_interval_ms cfg | A_stream => mc_stream_interval_ms cfg
  end.
Definition set_timer (a : ability) (now : Z) (t : timers) : timers :=
  λ b, match a, b with
       | A_status, A_status | A_ptz, A_ptz | A_laser, A_laser | A_stream, A_stream => now
       | _, _ => t b
       end.

Definition due cfg (a : ability) (now : Z) (t : timers) : bool :=
  enabled cfg a && (interval cfg a <=? wrapu 64 (now - t a)).

Definition poll (a : ability) : Z → PodMonitor → P → PodMonitor * P :=
  match a with
  | A_status => pollStatus | A_ptz => pollPtz | A_laser => pollLaser | A_stream => pollStream
  end.

(** A poll, from its call to the reading of the clock that follows it. *)
Record poll_event := { pe_ability : ability; pe_start : Z; pe_end : Z }.

(** What a turn did: its snapshot of the configuration, the time it read first, its
    polls in order. *)
Record turn_log := { tl_config : PodMonitorConfig; tl_top : Z; tl_polls : list poll_event }.

(** One of the four [if]s.  [now] is read at the top of the turn; the poll is called
    at [started], its result is stored at [stored_at], and [after] is read when it is
    over. *)
Definition poll_if cfg (a : ability) (now started stored_at after : Z) (x : PodMonitor * P * timers)
    : PodMonitor * P * timers * list poll_event :=
  let '(m, p, t) := x in
  if due cfg a now t then
    let '(m, p) := poll a stored_at m p in
    (m, p, set_timer a after t, [{| pe_ability := a; pe_start := started; pe_end := after |}])
  else (m, p, t, []).

(** A call of [updateConfig] by another thread. *)
Definition update (u : option PodMonitorConfig) m : PodMonitor :=
  match u with Some cfg => updateConfig cfg m | None => m end.

(** The turn up to the sleep.  [clock] gives the time at its successive instants.
    [during] is an update after the snapshot and before the window is touched, the
    one place where the turn reads the configuration again. *)
Definition monitor_turn (during : option PodMonitorConfig) (clock : nat → Z) (x : PodMonitor * P * timers)
    : PodMonitor * P * timers * turn_log :=
  let '(m, p, t) := x in
  let cfg := mo_config m in
  let now := clock 0%nat in
  let '(x, l1) := poll_if cfg A_status now (clock 1%nat) (clock 2%nat) (clock 3%nat) (update during m, p, t) in
  let '(x, l2) := poll_if cfg A_ptz now (clock 4%nat) (clock 5%nat) (clock 6%nat) x in
  let '(x, l3) := poll_if cfg A_laser now (clock 7%nat) (clock 8%nat) (clock 9%nat) x in
  let '(x, l4) := poll_if cfg A_stream now (clock 10%nat) (clock 11%nat) (clock 12%nat) x in
  (x, {| tl_config := cfg; tl_top := now; tl_polls := l1 ++ l2 ++ l3 ++ l4 |}).

(** What the world does to a turn: an update before its snapshot, one during it, and
    its clock. *)
Record turn_env := {
  te_before : option PodMonitorConfig;
  te_during : option PodMonitorConfig;
  te_clock : nat → Z
}.

(** The loop, a turn for each element. *)
Fixpoint monitor_run (turns : list turn_env) (x : PodMonitor * P * timers)
    : PodMonitor * P * timers * list turn_log :=
  match turns with
  | [] => (x, [])
  | e :: turns =>
      let '(m, p, t) := x in
      let '(x, l) := monitor_turn (te_during e) (te_clock e) (update (te_before e) m, p, t) in
      let '(x, log) := monitor_run turns x in
      (x, l :: log)
  end.
End polls.

(** ** The sleep between two turns

    [running i] is the flag before slice [i]; the counter is a uint32.  [None]:
    the fuel is spent. *)
Definition step_ms : Z := 100.

Fixpoint sleep_slices (fuel : nat) (running : nat → bool) (i : nat) (poll_interval_ms slept : Z)
    : option (list Z) :=
  if (slept <? poll_interval_ms) && running i then
    match fuel with
    | O => None
    | S fuel =>
        cons (Z.min step_ms (poll_interval_ms - slept)) <$>
        sleep_slices fuel running (S i) poll_interval_ms (wrapu 32 (slept + step_ms))
    end
  else Some [].

(** ** The window is the last results *)

Definition last_n {A} (n : nat) (l : list A) : list A := drop (length l - n) l.
Definition count_ok (l : list bool) : nat := length (filter (λ b, b = true) l).

Lemma trim_spec w h : 0 <= w → trim w h = last_n (Z.to_nat w) h.
Proof.
  intros Hw. unfold last_n. induction h as [|b h IH]; [done|]. cbn [trim length].
  destruct (w <? Z.of_nat (S (length h))) eqn:E.
  - apply Z.ltb_lt in E. rewrite IH. replace (S (length h) - Z.to_nat w)%nat with (S (length h - Z.to_nat w)) by lia. done.
  - apply Z.ltb_ge in E. by replace (S (length h) - Z.to_nat w)%nat with 0%nat by lia.
Qed.

Lemma success_count_from n h :
  0 <= n → n + Z.of_nat (length h) < 2 ^ 32 →
  foldl (λ n (ok : bool), if ok then wrapu 32 (n + 1) else n) n h = n + Z.of_nat (count_ok h).
Proof.
  revert n. induction h as [|b h IH]; intros n Hn Hlen; cbn [foldl]; [unfold count_ok; cbn; lia|].
  cbn [length] in Hlen. unfold count_ok in *. rewrite filter_cons. destruct b.
  - rewrite wrapu_id by (unfold inu; lia). rewrite IH by lia. rewrite decide_True by done. cbn [length]. lia.
  - rewrite IH by lia. by rewrite decide_False.
Qed.

Lemma last_n_length {A} n (l : list A) : (length (last_n n l) <= n)%nat.
Proof. unfold last_n. rewrite length_drop. lia. Qed.

Lemma last_n_last_n {A} n (l : list A) x : last_n n (last_n n l ++ [x]) = last_n n (l ++ [x]).
Proof.
  unfold last_n. rewrite !length_app, length_drop. cbn [length].
  destruct (decide (length l < n)%nat) as [Hl|Hl].
  - replace (length l - n)%nat with 0%nat by lia. rewrite drop_0.
    by replace (length l - 0 + 1 - n)%nat with (length l + 1 - n)%nat by lia.
  - replace (length l - (length l - n) + 1 - n)%nat with 1%nat by lia.
    replace (length l + 1 - n)%nat with ((length l - n) + 1)%nat by lia.
    destruct n as [|n].
    + rewrite Nat.sub_0_r, drop_all, !drop_ge; [done|rewrite length_app; cbn; lia|cbn; lia].
    + rewrite <- drop_drop, (drop_app_le l) by lia. done.
Qed.

Lemma success_count_spec h : Z.of_nat (length h) < 2 ^ 32 → success_count h = Z.of_nat (count_ok h).
Proof. intros Hh. unfold success_count. rewrite success_count_from; lia. Qed.

(** A configuration whose numbers are uint32. *)
Definition cfg_ok cfg : Prop :=
  inu 32 (mc_online_window_size cfg) ∧ inu 32 (mc_online_threshold cfg) ∧
  inu 32 (mc_poll_interval_ms cfg) ∧ ∀ a, inu 32 (interval cfg a).

Definition window_of cfg (pings : list bool) : list bool :=
  last_n (Z.to_nat (mc_online_window_size cfg)) pings.
Definition online_of cfg (pings : list bool) : bool :=
  mc_online_threshold cfg <=? Z.of_nat (count_ok (window_of cfg pings)).

Lemma update_spec m (pings : list bool) b :
  cfg_ok (mo_config m) → mo_history m = window_of (mo_config m) pings →
  updateOnlineWindow b m =
    with_window (window_of (mo_config m) (pings ++ [b])) (online_of (mo_config m) (pings ++ [b])) m.
Proof.
  intros (Hw & _) Hh. unfold updateOnlineWindow, online_of. rewrite Hh, trim_spec by (unfold inu in Hw; lia).
  unfold window_of. rewrite last_n_last_n, success_count_spec; [done|].
  pose proof (last_n_length (Z.to_nat (mc_online_window_size (mo_config m))) (pings ++ [b])).
  unfold inu in Hw. lia.
Qed.

(** After any non-empty sequence of results, the window holds the last
    ones, never more than its size, and the pod counts as online exactly when at
    least the threshold of those are good.  So a threshold above the size is never
    met, and a threshold of zero always. *)
Theorem online_window cfg m (pings : list bool) :
  cfg_ok cfg → pings ≠ [] → mo_running m = false →
  let m' := foldl (λ m b, updateOnlineWindow b m) (start cfg m) pings in
  mo_history m' = window_of cfg pings ∧
  (length (mo_history m') <= Z.to_nat (mc_online_window_size cfg))%nat ∧
  (rt_is_online (mo_status m') = true ↔
   mc_online_threshold cfg <= Z.of_nat (count_ok (window_of cfg pings))) ∧
  (mc_online_window_size cfg < mc_online_threshold cfg → rt_is_online (mo_status m') = false).
Proof.
  intros Hcfg Hne Hrun. cbv zeta.
  assert (Hfold : ∀ l pre m0, mo_config m0 = cfg → mo_history m0 = window_of cfg pre →
    (l ≠ [] ∨ rt_is_online (mo_status m0) = online_of cfg pre) →
    let m1 := foldl (λ m b, updateOnlineWindow b m) m0 l in
    mo_history m1 = window_of cfg (pre ++ l) ∧ rt_is_online (mo_status m1) = online_of cfg (pre ++ l)).
  { induction l as [|b l IH]; intros pre m0 Hc Hh Hl; cbn [foldl].
    - rewrite app_nil_r. destruct Hl as [Hl|Hl]; done.
    - rewrite (update_spec m0 pre b) by (rewrite Hc; done).
      rewrite Hc. replace (pre ++ b :: l) with ((pre ++ [b]) ++ l) by (by rewrite <- app_assoc).
      apply IH; [done|done|by right]. }
  destruct (Hfold pings [] (start cfg m)) as [Hh Ho]; [|unfold start; rewrite Hrun; reflexivity|by left|].
  { unfold start. by rewrite Hrun. }
  cbn [app] in *. rewrite Hh, Ho.
  pose proof (last_n_length (Z.to_nat (mc_online_window_size cfg)) pings) as Hlen.
  split_and!; [done|done| |].
  - unfold online_of. apply Z.leb_le.
  - intros Hlt. unfold online_of. apply Z.leb_gt. unfold count_ok.
    pose proof (length_filter (λ b, b = true) (window_of cfg pings)). unfold window_of in *.
    destruct Hcfg as (Hw & _). unfold inu in Hw. lia.
Qed.

(** ** How often the monitor polls *)

Section schedule.
Context {P : Type} `{MonitoredPod P}.

#[local] Instance ability_eq_dec : EqDecision ability.
Proof. solve_decision. Defined.

(** Where the poll of an ability stands in a turn. *)
Definition place (a : ability) : nat :=
  match a with A_status => 0 | A_ptz => 3 | A_laser => 6 | A_stream => 9 end.
Definition event_of (clock : nat → Z) (a : ability) : poll_event :=
  {| pe_ability := a; pe_start := clock (place a + 1)%nat; pe_end := clock (place a + 3)%nat |}.

Lemma set_timer_spec a now t b : set_timer a now t b = if decide (a = b) then now else t b.
Proof. by destruct a, b. Qed.

Lemma poll_config a now m (p : P) : mo_config (poll a now m p).1 = mo_config m.
Proof.
  assert (Hst : ∀ T (store : T → PodMonitor → PodMonitor) r,
    (∀ x m, mo_config (store x m) = mo_config m) → mo_config (stored store r m) = mo_config m).
  { intros T store [r|e] Hs; cbn; [|done]. by destruct (got r). }
  destruct a; cbn [poll].
  - unfold pollStatus. destruct (mp_refreshDeviceStatus p) as [[?|?] p']; [|done].
    by destruct (mp_getDeviceStatus p') as [[?|?] ?].
  - unfold pollPtz. destruct (negb _); [done|]. destruct (mp_getPose p). by apply Hst.
  - unfold pollLaser. destruct (negb _); [done|]. destruct (mp_laserMeasure p). by apply Hst.
  - unfold pollStream. destruct (mp_getStreamInfo p). by apply Hst.
Qed.

Lemma poll_if_spec cfg a clock started stored_at after m (p : P) t :
  started = clock (place a + 1)%nat → after = clock (place a + 3)%nat →
  let '(m', p', t', l) := poll_if cfg a (clock 0%nat) started stored_at after (m, p, t) in
  mo_config m' = mo_config m ∧
  l = (if due cfg a (clock 0%nat) t then [event_of clock a] else []) ∧
  ∀ c, t' c = if bool_decide (a = c) && due cfg a (clock 0%nat) t then clock (place a + 3)%nat else t c.
Proof.
  intros -> ->. cbn [poll_if]. destruct (due cfg a (clock 0%nat) t) eqn:Ed.
  - pose proof (poll_config a stored_at m p) as Hc. destruct (poll a stored_at m p) as [m' p'].
    split_and!; [done|done|]. intros c. rewrite set_timer_spec.
    by destruct a, c.
  - split_and!; [done|done|]. intros c. by rewrite andb_false_r.
Qed.

(** The polls of a turn whose conditions are [d]. *)
Definition polls_if (clock : nat → Z) (d : ability → bool) : list poll_event :=
  (if d A_status then [event_of clock A_status] else []) ++ (if d A_ptz then [event_of clock A_ptz] else []) ++
  (if d A_laser then [event_of clock A_laser] else []) ++ (if d A_stream then [event_of clock A_stream] else []).

(** What a turn polls, and when. *)
Lemma monitor_turn_spec during clock m (p : P) t :
  let '(m', p', t', l) := monitor_turn during clock (m, p, t) in
  let d a := due (mo_config m) a (clock 0%nat) t in
  mo_config m' = mo_config (update during m) ∧ tl_config l = mo_config m ∧ tl_top l = clock 0%nat ∧
  tl_polls l = polls_if clock d ∧ (∀ a, t' a = if d a then clock (place a + 3)%nat else t a).
Proof.
  unfold monitor_turn.
  pose proof (poll_if_spec (mo_config m) A_status clock _ (clock 2%nat) _ (update during m) p t eq_refl eq_refl) as H1.
  cbn [place Nat.add] in H1. destruct (poll_if _ A_status _ _ _ _ _) as [[[m1 p1] t1] b1]. destruct H1 as (Hm1 & Hb1 & Ht1).
  pose proof (poll_if_spec (mo_config m) A_ptz clock _ (clock 5%nat) _ m1 p1 t1 eq_refl eq_refl) as H2.
  cbn [place Nat.add] in H2. destruct (poll_if _ A_ptz _ _ _ _ _) as [[[m2 p2] t2] b2]. destruct H2 as (Hm2 & Hb2 & Ht2).
  pose proof (poll_if_spec (mo_config m) A_laser clock _ (clock 8%nat) _ m2 p2 t2 eq_refl eq_refl) as H3.
  cbn [place Nat.add] in H3. destruct (poll_if _ A_laser _ _ _ _ _) as [[[m3 p3] t3] b3]. destruct H3 as (Hm3 & Hb3 & Ht3).
  pose proof (poll_if_spec (mo_config m) A_stream clock _ (clock 11%nat) _ m3 p3 t3 eq_refl eq_refl) as H4.
  cbn [place Nat.add] in H4. destruct (poll_if _ A_stream _ _ _ _ _) as [[[m4 p4] t4] b4]. destruct H4 as (Hm4 & Hb4 & Ht4).
  assert (Hsame : ∀ a u, u a = t a → due (mo_config m) a (clock 0%nat) u = due (mo_config m) a (clock 0%nat) t).
  { intros a u Hu. unfold due. by rewrite Hu. }
  rewrite (Hsame A_ptz) in Hb2, Ht2 by by rewrite Ht1.
  rewrite (Hsame A_laser) in Hb3, Ht3 by by rewrite Ht2, Ht1.
  rewrite (Hsame A_stream) in Hb4, Ht4 by by rewrite Ht3, Ht2, Ht1.
  cbv zeta. split_and!; [congruence|done|done| |].
  - unfold polls_if. cbn [tl_polls]. by rewrite Hb1, Hb2, Hb3, Hb4.
  - intros a. rewrite Ht4, Ht3, Ht2, Ht1. by destruct a.
Qed.

Lemma elem_of_polls_if clock d e : e ∈ polls_if clock d ↔ e = event_of clock (pe_ability e) ∧ d (pe_ability e) = true.
Proof.
  unfold polls_if. split.
  - rewrite !elem_of_app. intros [H1|[H1|[H1|H1]]]; revert H1; destruct (d _) eqn:Ed;
      rewrite ?list_elem_of_singleton, ?elem_of_nil; try done; by intros ->.
  - intros [-> Hd]. cbn in Hd. rewrite !elem_of_app. destruct (pe_ability e); rewrite Hd;
      rewrite !list_elem_of_singleton; tauto.
Qed.

Lemma polls_if_nodup clock d : NoDup (map pe_ability (polls_if clock d)).
Proof. unfold polls_if. destruct (d A_status), (d A_ptz), (d A_laser), (d A_stream); cbn; repeat constructor; set_solver. Qed.

(** A steady clock: no instant goes back, within a turn or between turns. *)
Fixpoint clocks_ok (prev : Z) (turns : list turn_env) : Prop :=
  match turns with
  | [] => True
  | e :: turns =>
      prev <= te_clock e 0%nat ∧ (∀ i j, (i <= j <= 12)%nat → te_clock e i <= te_clock e j) ∧
      inu 64 (te_clock e 12%nat) ∧ clocks_ok (te_clock e 12%nat) turns
  end.

Definition timers_ok (prev : Z) (t : timers) : Prop := ∀ a, 0 <= t a <= prev.

Lemma timers_ok_turn clock prev (t t' : timers) (d : ability → bool) :
  timers_ok prev t → prev <= clock 0%nat → (∀ i j, (i <= j <= 12)%nat → clock i <= clock j) →
  (∀ a, t' a = if d a then clock (place a + 3)%nat else t a) →
  timers_ok (clock 12%nat) t' ∧ ∀ a, t a <= t' a.
Proof.
  intros Ht Hp Hc Ht'. pose proof (Hc 0%nat 12%nat ltac:(lia)) as H0.
  split; intros a; rewrite Ht'; specialize (Ht a); pose proof (Hc 0%nat (place a + 3)%nat);
    pose proof (Hc (place a + 3)%nat 12%nat);
    assert (place a <= 9)%nat by (destruct a; cbn; lia); destruct (d a); lia.
Qed.

Lemma due_spec cfg a now t :
  0 <= t a <= now → inu 64 now → due cfg a now t = true ↔ enabled cfg a = true ∧ interval cfg a <= now - t a.
Proof.
  intros Ht Hn. unfold due. rewrite andb_true_iff, Z.leb_le, wrapu_id; [done|]. unfold inu in *. lia.
Qed.

(** The configurations that the turns see. *)
Fixpoint snapshots cfg (turns : list turn_env) : list PodMonitorConfig :=
  match turns with
  | [] => []
  | e :: turns => let cfg := default cfg (te_before e) in cfg :: snapshots (default cfg (te_during e)) turns
  end.

(** The polls of a run, each with its turn's configuration, and the end of the last
    poll of an ability, [t] before any. *)
Definition polls (log : list turn_log) : list (PodMonitorConfig * poll_event) :=
  log ≫= λ l, map (pair (tl_config l)) (tl_polls l).
Definition last_end (t : timers) (log : list turn_log) (a : ability) : Z :=
  foldl (λ z e, if decide (pe_ability e.2 = a) then pe_end e.2 else z) (t a) (polls log).

Lemma update_config u m : mo_config (update u m) = default (mo_config m) u.
Proof. by destruct u. Qed.

Lemma polls_if_last clock d cfg z a :
  foldl (λ z (e : PodMonitorConfig * poll_event), if decide (pe_ability e.2 = a) then pe_end e.2 else z) z
    (map (pair cfg) (polls_if clock d)) = if d a then clock (place a + 3)%nat else z.
Proof.
  unfold polls_if. destruct (d A_status) eqn:E1, (d A_ptz) eqn:E2, (d A_laser) eqn:E3, (d A_stream) eqn:E4;
    destruct a; cbn; by rewrite ?E1, ?E2, ?E3, ?E4.
Qed.

(** A run, taken apart at its first turn. *)
Lemma monitor_run_cons e turns prev m (p : P) t x log :
  clocks_ok prev (e :: turns) → timers_ok prev t → monitor_run (e :: turns) (m, p, t) = (x, log) →
  ∃ m1 p1 t1 l log1, let cfg := default (mo_config m) (te_before e) in
    let d a := due cfg a (te_clock e 0%nat) t in
    log = l :: log1 ∧ monitor_run turns (m1, p1, t1) = (x, log1) ∧ clocks_ok (te_clock e 12%nat) turns ∧
    timers_ok (te_clock e 12%nat) t1 ∧ (∀ a, t a <= t1 a) ∧
    mo_config m1 = default cfg (te_during e) ∧ tl_config l = cfg ∧ tl_top l = te_clock e 0%nat ∧
    tl_polls l = polls_if (te_clock e) d ∧ (∀ a, t1 a = if d a then te_clock e (place a + 3)%nat else t a) ∧
    (∀ a, d a = true ↔ enabled cfg a = true ∧ interval cfg a <= te_clock e 0%nat - t a).
Proof.
  intros (Hp & Hcl & H64 & Hc) Ht. cbn [monitor_run].
  pose proof (monitor_turn_spec (te_during e) (te_clock e) (update (te_before e) m) p t) as Hturn.
  destruct (monitor_turn _ _ _) as [[[m1 p1] t1] l]. rewrite !update_config in Hturn.
  destruct Hturn as (Hm & Hcfg & Htop & Hpolled & Ht1).
  destruct (timers_ok_turn _ _ _ _ _ Ht Hp Hcl Ht1) as [Hok Hle].
  destruct (monitor_run turns (m1, p1, t1)) as [x1 log1] eqn:Er. intros [= <- <-].
  exists m1, p1, t1, l, log1. cbv zeta. split_and!; try done. intros a. apply due_spec.
  - pose proof (Ht a). lia.
  - pose proof (Ht a). pose proof (Hcl 0%nat 12%nat). unfold inu in *. lia.
Qed.

(** A poll of a run starts at least its interval after the timer it started from. *)
Lemma monitor_run_since turns prev m (p : P) t x log :
  clocks_ok prev turns → timers_ok prev t → monitor_run turns (m, p, t) = (x, log) →
  ∀ cfg e, (cfg, e) ∈ polls log →
    interval cfg (pe_ability e) <= pe_start e - t (pe_ability e) ∧ pe_start e <= pe_end e.
Proof.
  revert prev m p t x log. induction turns as [|te turns IH]; intros prev m p t x log Hc Ht.
  { cbn. intros [= _ <-] cfg e. by rewrite elem_of_nil. }
  intros Hr. pose proof (proj1 (proj2 Hc)) as Hcl.
  destruct (monitor_run_cons _ _ _ _ _ _ _ _ Hc Ht Hr)
    as (m1 & p1 & t1 & l & log1 & -> & Hr1 & Hc1 & Hok & Hle & _ & Hcfg & _ & Hpolls & _ & Hdue).
  intros cfg e. unfold polls. rewrite bind_cons, elem_of_app. intros [Hin|Hin].
  - rewrite Hpolls in Hin. apply list_elem_of_fmap in Hin as (b & [= -> ->] & Hin).
    apply elem_of_polls_if in Hin as [He Hd]. apply Hdue in Hd as [_ Hi]. rewrite Hcfg.
    rewrite He. cbn [pe_start pe_end event_of pe_ability].
    assert (place (pe_ability b) <= 9)%nat by (destruct (pe_ability b); cbn; lia).
    pose proof (Hcl 0%nat (place (pe_ability b) + 1)%nat ltac:(lia)).
    pose proof (Hcl (place (pe_ability b) + 1)%nat (place (pe_ability b) + 3)%nat ltac:(lia)). lia.
  - destruct (IH _ _ _ _ _ _ Hc1 Hok Hr1 _ _ Hin) as [Hi Hs]. specialize (Hle (pe_ability e)). lia.
Qed.

(** Which abilities a turn polls, and with which configuration. *)
Lemma monitor_run_polls turns prev m (p : P) t x log :
  clocks_ok prev turns → timers_ok prev t → monitor_run turns (m, p, t) = (x, log) →
  map tl_config log = snapshots (mo_config m) turns ∧
  ∀ k l a, log !! k = Some l →
    (a ∈ map pe_ability (tl_polls l) ↔
     enabled (tl_config l) a = true ∧ interval (tl_config l) a <= tl_top l - last_end t (take k log) a).
Proof.
  revert prev m p t x log. induction turns as [|te turns IH]; intros prev m p t x log Hc Ht.
  { cbn. by intros [= _ <-]. }
  intros Hr. destruct (monitor_run_cons _ _ _ _ _ _ _ _ Hc Ht Hr)
    as (m1 & p1 & t1 & l & log1 & -> & Hr1 & Hc1 & Hok & _ & Hm & Hcfg & Htop & Hpolls & Ht1 & Hdue).
  destruct (IH _ _ _ _ _ _ Hc1 Hok Hr1) as [Hsn Hk]. rewrite Hm in Hsn. split.
  { cbn [map snapshots]. by rewrite Hcfg, Hsn. }
  intros [|k] l' a; cbn [lookup list_lookup take].
  - intros [= <-]. rewrite Hcfg, Htop. rewrite <- Hdue, Hpolls.
    rewrite list_elem_of_fmap. split.
    + intros (e & -> & He). by apply elem_of_polls_if in He as [_ Hd].
    + intros Hd. exists (event_of (te_clock te) a). split; [done|]. by apply elem_of_polls_if.
  - intros Hl. rewrite (Hk k l' a Hl). unfold last_end. cbn [polls]. unfold polls. rewrite bind_cons, foldl_app.
    assert (Hturn : t1 a = foldl (λ z (e : PodMonitorConfig * poll_event),
      if decide (pe_ability e.2 = a) then pe_end e.2 else z) (t a) (map (pair (tl_config l)) (tl_polls l))); [|rewrite Hturn; reflexivity].
    by rewrite Ht1, Hpolls, polls_if_last.
Qed.

(** C23: In one run of the loop, whatever the pod answers or throws, however long
    its polls take and however the configuration is changed meanwhile: a turn polls
    exactly the abilities that the configuration it read enables and whose interval
    has passed since the end of their last poll; and a poll starts at least the
    interval in force after every earlier poll of that ability was over. *)
Theorem poll_spacing turns prev m (p : P) x log :
  clocks_ok prev turns → 0 <= prev → monitor_run turns (m, p, λ _, 0) = (x, log) →
  map tl_config log = snapshots (mo_config m) turns ∧
  (∀ k l a, log !! k = Some l →
    (a ∈ map pe_ability (tl_polls l) ↔
     enabled (tl_config l) a = true ∧
     interval (tl_config l) a <= tl_top l - last_end (λ _, 0) (take k log) a)) ∧
  (∀ i j cfg cfg' e e', (i < j)%nat → polls log !! i = Some (cfg, e) → polls log !! j = Some (cfg', e') →
    pe_ability e = pe_ability e' →
    pe_start e <= pe_end e ∧ interval cfg' (pe_ability e') <= pe_start e' - pe_end e).
Proof.
  intros Hc Hprev Hr. assert (Ht : timers_ok prev (λ _, 0)) by (intros a; lia).
  destruct (monitor_run_polls _ _ _ _ _ _ _ Hc Ht Hr) as [Hsn Hk]. split; [done|]. split; [done|].
  clear Hsn Hk Hprev. revert prev m p x log Hc Ht Hr. generalize (λ _ : ability, 0) as t.
  induction turns as [|te turns IH]; intros t prev m p x log Hc Ht Hr i j cfg cfg' e e' Hij Hi Hj Ha.
  { injection Hr as _ <-. cbn in Hi. by rewrite lookup_nil in Hi. }
  destruct (monitor_run_since _ _ _ _ _ _ _ Hc Ht Hr cfg e) as [_ Hse]; [by eapply list_elem_of_lookup_2|].
  destruct (monitor_run_cons _ _ _ _ _ _ _ _ Hc Ht Hr)
    as (m1 & p1 & t1 & l & log1 & -> & Hr1 & Hc1 & Hok & _ & _ & _ & _ & Hpolls & Ht1 & _).
  split; [done|]. unfold polls in Hi, Hj. rewrite bind_cons in Hi, Hj. fold (polls log1) in Hi, Hj.
  rewrite lookup_app in Hi. destruct (map _ (tl_polls l) !! i) as [[c0 e0]|] eqn:Ei.
  - injection Hi as -> ->. apply list_lookup_fmap_Some in Ei as (e1 & [= -> ->] & Ei).
    rewrite lookup_app in Hj. destruct (map _ (tl_polls l) !! j) as [[c0 e0]|] eqn:Ej.
    + injection Hj as -> ->. apply list_lookup_fmap_Some in Ej as (e2 & [= -> ->] & Ej).
      pose proof (polls_if_nodup (te_clock te) (λ a, due (default (mo_config m) (te_before te)) a (te_clock te 0%nat) t)) as Hd.
      rewrite <- Hpolls in Hd.
      assert (i = j); [|lia].
      eapply (NoDup_lookup _ _ _ (pe_ability e1) Hd); apply list_lookup_fmap_Some; eauto.
    + apply list_elem_of_lookup_2 in Hj.
      destruct (monitor_run_since _ _ _ _ _ _ _ Hc1 Hok Hr1 _ _ Hj) as [Hi1 _].
      assert (Hin : e1 ∈ tl_polls l) by (by eapply list_elem_of_lookup_2). rewrite Hpolls in Hin.
      apply elem_of_polls_if in Hin as [He Hd]. rewrite <- Ha, Ht1, Hd in Hi1. rewrite He, <- Ha. done.
  - rewrite lookup_app in Hj. destruct (map _ (tl_polls l) !! j) as [[c0 e0]|] eqn:Ej.
    + exfalso. apply lookup_ge_None in Ei. apply lookup_lt_Some in Ej. lia.
    + eapply (IH t1 _ m1 p1 x log1 Hc1 Hok Hr1); [|exact Hi|exact Hj|done].
      apply lookup_ge_None in Ei. apply lookup_ge_None in Ej. lia.
Qed.

(** A turn touches the pod only through its five calls. *)
Lemma monitor_turn_pod (I : P → Prop) during clock m p t m' p' t' polled :
  (∀ p, I p → I (mp_refreshDeviceStatus p).2) → (∀ p, I p → I (mp_getDeviceStatus p).2) →
  (∀ p, I p → I (mp_getPose p).2) → (∀ p, I p → I (mp_laserMeasure p).2) →
  (∀ p, I p → I (mp_getStreamInfo p).2) →
  I p → monitor_turn during clock (m, p, t) = (m', p', t', polled) → I p'.
Proof.
  intros H1 H2 H3 H4 H5 Hp.
  assert (Hpoll : ∀ a now m p, I p → I (poll a now m p).2).
  { intros a now m0 p0 Hp0. destruct a; cbn [poll]; unfold pollStatus, pollPtz, pollLaser, pollStream.
    - specialize (H1 p0 Hp0). destruct (mp_refreshDeviceStatus p0) as [[?|?] p1]; [|done].
      specialize (H2 p1 H1). by destruct (mp_getDeviceStatus p1) as [[?|?] ?].
    - destruct (negb _); [done|]. specialize (H3 p0 Hp0). by destruct (mp_getPose p0).
    - destruct (negb _); [done|]. specialize (H4 p0 Hp0). by destruct (mp_laserMeasure p0).
    - specialize (H5 p0 Hp0). by destruct (mp_getStreamInfo p0). }
  assert (Hif : ∀ cfg a now start st after m p t, I p →
    let '(_, p', _, _) := poll_if cfg a now start st after (m, p, t) in I p').
  { intros cfg a now start st after m0 p0 t0 Hp0. cbn [poll_if]. destruct (due cfg a now t0); [|done].
    specialize (Hpoll a st m0 p0 Hp0). by destruct (poll a st m0 p0). }
  unfold monitor_turn.
  pose proof (Hif (mo_config m) A_status (clock 0%nat) (clock 1%nat) (clock 2%nat) (clock 3%nat) (update during m) p t Hp) as Hx0.
  destruct (poll_if _ A_status _ _ _ _ _) as [[[m1 p1] t1] l1].
  pose proof (Hif (mo_config m) A_ptz (clock 0%nat) (clock 4%nat) (clock 5%nat) (clock 6%nat) m1 p1 t1 Hx0) as Hx1.
  destruct (poll_if _ A_ptz _ _ _ _ _) as [[[m2 p2] t2] l2].
  pose proof (Hif (mo_config m) A_laser (clock 0%nat) (clock 7%nat) (clock 8%nat) (clock 9%nat) m2 p2 t2 Hx1) as Hx2.
  destruct (poll_if _ A_laser _ _ _ _ _) as [[[m3 p3] t3] l3].
  pose proof (Hif (mo_config m) A_stream (clock 0%nat) (clock 10%nat) (clock 11%nat) (clock 12%nat) m3 p3 t3 Hx2) as Hx3.
  destruct (poll_if _ A_stream _ _ _ _ _) as [[[m4 p4] t4] l4].
  by intros [= <- <- <- <-].
Qed.

(** Without the status poll the pod never counts as online, so that its pose is
    never asked for, although that poll is enabled and its time comes. *)
Lemma no_status_no_pose turns m (p : P) t m' p' t' log :
  Forall (λ e, te_before e = None ∧ te_during e = None) turns →
  mc_enable_status_poll (mo_config m) = false → mc_enable_stream_poll (mo_config m) = false →
  rt_is_online (mo_status m) = false →
  monitor_run turns (m, p, t) = ((m', p', t'), log) → p' = p ∧ mo_status m' = mo_status m.
Proof.
  intros Hall Hs Hst. revert m p t log Hs Hst.
  induction Hall as [|e turns [Hb Hd] _ IH]; intros m p t log Hs Hst Ho.
  { intros [= <- <- _ _]. done. }
  cbn [monitor_run]. rewrite Hb, Hd. cbn [update].
  assert (Hturn : ∃ t1 l, monitor_turn None (te_clock e) (m, p, t) = (m, p, t1, l)).
  { unfold monitor_turn, poll_if, due, enabled, update. rewrite Hs, Hst. cbn [andb]. cbv beta zeta.
    destruct (_ && _); cbn [poll]; unfold pollPtz, pollLaser; rewrite ?Ho; cbn [negb];
      destruct (_ && _); rewrite ?Ho; cbn [negb]; eauto. }
  destruct Hturn as (t1 & l & ->). destruct (monitor_run turns (m, p, t1)) as [[[m1 p1] t2] log1] eqn:Er.
  intros [= <- <- <- _]. by eapply IH.
Qed.
End schedule.

(** ** The sleep *)

Definition always (i : nat) : bool := true.

Lemma sleep_slices_total n fuel i poll slept :
  0 <= slept <= poll → poll <= 2 ^ 32 - 96 → slept mod 100 = 0 → poll - slept <= 100 * Z.of_nat n →
  (n <= fuel)%nat → ∃ l, sleep_slices fuel always i poll slept = Some l ∧
    foldr Z.add 0 l = poll - slept ∧ Forall (λ x, 0 < x <= step_ms) l.
Proof.
  revert fuel i slept. induction n as [|n IH]; intros fuel i slept Hs Hp Hm Hn Hf.
  - exists []. unfold sleep_slices, always. destruct fuel; cbn [andb];
      rewrite (proj2 (Z.ltb_ge slept poll)) by lia; (split; [done|split; [cbn; lia|done]]).
  - destruct (decide (slept < poll)) as [Hlt|Hge].
    2:{ exists []. destruct fuel; cbn [sleep_slices]; rewrite (proj2 (Z.ltb_ge slept poll)) by lia;
        (split; [done|split; [cbn; lia|done]]). }
    destruct fuel as [|fuel]; [lia|]. cbn [sleep_slices]. unfold always at 1.
    rewrite (proj2 (Z.ltb_lt slept poll)) by lia. cbn [andb]. unfold step_ms.
    assert (Hw : wrapu 32 (slept + 100) = slept + 100).
    { apply wrapu_id. unfold inu. Z.to_euclidean_division_equations. lia. }
    rewrite Hw. destruct (decide (poll - slept <= 100)) as [Hlast|Hmore].
    + exists [poll - slept]. rewrite Z.min_r by lia. destruct fuel; cbn [sleep_slices];
        rewrite (proj2 (Z.ltb_ge _ poll)) by lia; cbn; (split; [done|split; [lia|]]); by repeat constructor; lia.
    + destruct (IH fuel (S i) (slept + 100)) as (l & Hl & Hsum & Hall); [lia|lia| |lia|lia|].
      { Z.to_euclidean_division_equations. lia. }
      exists (100 :: l). rewrite Hl, Z.min_l by lia. split; [done|]. cbn [foldr]. split; [lia|].
      constructor; [lia|done].
Qed.

Lemma sleep_slices_forever fuel i poll slept :
  2 ^ 32 - 4 < poll < 2 ^ 32 → 0 <= slept < 2 ^ 32 → slept mod 4 = 0 →
  sleep_slices fuel always i poll slept = None.
Proof.
  revert i slept. induction fuel as [|fuel IH]; intros i slept Hp Hs Hm; cbn [sleep_slices];
    rewrite (proj2 (Z.ltb_lt slept poll)) by (Z.to_euclidean_division_equations; lia); [done|].
  cbn [andb always]. rewrite IH; [done|done| |].
  - unfold wrapu. pose proof (Z.mod_pos_bound (slept + step_ms) (2 ^ 32)). lia.
  - unfold wrapu, step_ms. change (2 ^ 32) with (4 * 2 ^ 30).
    rewrite Z.rem_mul_r by lia. rewrite Z.mul_comm, Z.mod_add by lia. rewrite Zmod_mod.
    Z.to_euclidean_division_equations; lia.
Qed.

(** When nobody stops the monitor, the sleep of a turn ends and lasts
    exactly the configured interval, in slices of at most 100 ms, as long as the
    interval is at most 4294967200 ms; from 4294967293 ms on, which a configured
    -1 becomes, the counter wraps around and the sleep never ends.  A stop is
    noticed at the next slice. *)
Theorem monitor_sleep poll :
  inu 32 poll →
  (poll <= 4294967200 → ∃ fuel l, sleep_slices fuel always 0 poll 0 = Some l ∧
     foldr Z.add 0 l = poll ∧ Forall (λ x, 0 < x <= 100) l) ∧
  (4294967292 < poll → ∀ fuel, sleep_slices fuel always 0 poll 0 = None) ∧
  (∀ fuel running i slept, running i = false → sleep_slices fuel running i poll slept = Some []).
Proof.
  intros Hp. unfold inu in Hp. split_and!.
  - intros Hle. exists (Z.to_nat (poll / 100 + 1)).
    destruct (sleep_slices_total (Z.to_nat (poll / 100 + 1)) (Z.to_nat (poll / 100 + 1)) 0 poll 0)
      as (l & Hl & Hsum & Hall); [lia|lia|done| |lia|].
    { rewrite Z2Nat.id; Z.to_euclidean_division_equations; lia. }
    exists l. split; [done|]. split; [lia|done].
  - intros Hgt fuel. apply sleep_slices_forever; [lia|lia|done].
  - intros fuel running i slept Hr. destruct fuel; cbn; rewrite Hr, andb_false_r; done.
Qed.

(** ** Status and window *)

(** Without an exception the state and the flag agree; after one only the flag
    follows the window. *)
Lemma pollStatus_agree {P} `{MonitoredPod P} now m (p : P) :
  let m' := (pollStatus now m p).1 in
  (∃ r r', (mp_refreshDeviceStatus p).1 = Ok r ∧ (mp_getDeviceStatus (mp_refreshDeviceStatus p).2).1 = Ok r') →
  (ps_state (rt_pod_status (mo_status m')) = CONNECTED ↔ rt_is_online (mo_status m') = true) ∧
  rt_last_update_ms (mo_status m') = now.
Proof.
  intros m' (r & r' & H1 & H2). subst m'. unfold pollStatus. destruct (mp_refreshDeviceStatus p) as [r1 p1].
  cbn in H1, H2. rewrite H1. destruct (mp_getDeviceStatus p1) as [r2 p2]. cbn in H2. rewrite H2.
  unfold store_status, with_status, updateOnlineWindow, with_window. cbn.
  by destruct (_ <=? _).
Qed.

(** *** Witnesses *)

(** A pod that counts its calls down and then throws. *)
#[local] Instance demo_pod : MonitoredPod nat := {|
  mp_refreshDeviceStatus n := match n with O => (Err (other_error "gone"), O) | S n => (Ok (pod_done ""), n) end;
  mp_getDeviceStatus n := (Ok (pod_success {| ps_state := CONNECTED; ps_temperature := zero; ps_voltage := zero;
                                               ps_uptime_ms := 0; ps_error_msg := "" |} ""), n);
  mp_getPose n := (Ok (pod_success PTZPose_default ""), n);
  mp_laserMeasure n := (Ok (pod_fail LASER_MEASURE_FAILED ""), n);
  mp_getStreamInfo n := (Ok (pod_success StreamInfo_default ""), n)
|}.

Definition demo_cfg : PodMonitorConfig := {|
  mc_poll_interval_ms := 1000; mc_status_interval_ms := 1000; mc_ptz_interval_ms := 3000;
  mc_laser_interval_ms := 5000; mc_stream_interval_ms := 5000; mc_online_window_size := 1;
  mc_online_threshold := 1; mc_enable_status_poll := true; mc_enable_ptz_poll := true;
  mc_enable_laser_poll := false; mc_enable_stream_poll := true; mc_auto_start := true |}.

(** Every poll lasts 20 ms; before the last turn another thread asks for a status
    poll every 500 ms. *)
Definition demo_env (u : option PodMonitorConfig) (now : Z) : turn_env :=
  {| te_before := u; te_during := None; te_clock i := now + 10 * Z.of_nat i |}.
Definition faster_cfg : PodMonitorConfig := {|
  mc_poll_interval_ms := 500; mc_status_interval_ms := 500; mc_ptz_interval_ms := 3000;
  mc_laser_interval_ms := 5000; mc_stream_interval_ms := 5000; mc_online_window_size := 1;
  mc_online_threshold := 1; mc_enable_status_poll := true; mc_enable_ptz_poll := true;
  mc_enable_laser_poll := false; mc_enable_stream_poll := true; mc_auto_start := true |}.
Definition demo_turns : list turn_env :=
  [demo_env None 10000; demo_env None 11000; demo_env None 12100; demo_env None 13200;
   demo_env (Some faster_cfg) 13800].

Definition demo_run : PodMonitor * nat * timers * list turn_log :=
  monitor_run demo_turns (start demo_cfg PodMonitor_new, 3%nat, λ _, 0).

(** The fourth status poll throws: the pod counts as offline while its state is
    still shown as connected. *)
Lemma thrown_status_stays_connected :
  rt_is_online (mo_status demo_run.1.1.1) = false ∧
  ps_state (rt_pod_status (mo_status demo_run.1.1.1)) = CONNECTED.
Proof. vm_compute. done. Qed.

Lemma demo_cfg_ok : cfg_ok PodMonitorConfig_default.
Proof.
  assert (Hd : ∀ z, (0 <=? z) && (z <? 2 ^ 32) = true → inu 32 z).
  { intros z [H1%Z.leb_le H2%Z.ltb_lt]%andb_prop. unfold inu. lia. }
  split_and!; try by apply Hd. by intros []; apply Hd.
Qed.

Lemma online_window_witness :
  rt_is_online (mo_status (foldl (λ m b, updateOnlineWindow b m) (start PodMonitorConfig_default PodMonitor_new)
                             [true; true; false; true])) = true.
Proof.
  apply (online_window PodMonitorConfig_default PodMonitor_new [true; true; false; true] demo_cfg_ok);
    [done|reflexivity|vm_compute; done].
Defined.

(** The second turn comes 1000 ms after the first, but only 970 ms after its status
    poll was over, and polls nothing. *)
Lemma poll_spacing_witness :
  map (λ x, (pe_ability x.2, pe_start x.2)) (polls demo_run.2) =
    [(A_status, 10010); (A_ptz, 10040); (A_stream, 10100); (A_status, 12110); (A_status, 13210);
     (A_ptz, 13240); (A_status, 13810)] ∧
  500 <= 13810 - 13230.
Proof.
  split; [vm_compute; reflexivity|].
  destruct demo_run as [x log] eqn:Er.
  assert (Hlog : log = demo_run.2) by (by rewrite Er).
  destruct (poll_spacing demo_turns 0 (start demo_cfg PodMonitor_new) 3%nat x log) as (_ & _ & Hs).
  - cbn. unfold inu. split_and!; try lia; intros i j Hi; lia.
  - lia.
  - rewrite <- Er. unfold demo_run. reflexivity.
  - apply (Hs 4%nat 6%nat demo_cfg faster_cfg {| pe_ability := A_status; pe_start := 13210; pe_end := 13230 |}
             {| pe_ability := A_status; pe_start := 13810; pe_end := 13830 |});
      [lia|rewrite Hlog; vm_compute; reflexivity|rewrite Hlog; vm_compute; reflexivity|reflexivity].
Defined.

Lemma monitor_sleep_witness :
  ∃ fuel l, sleep_slices fuel always 0 250 0 = Some l ∧ foldr Z.add 0 l = 250 ∧ Forall (λ x, 0 < x <= 100) l.
Proof. apply (monitor_sleep 250); [unfold inu; lia|lia]. Defined.
