(* ===== verification/Pod.v ===== *)
(** * Pods

    Model of my_pod/pod/base/base_pod.cpp, of the DJI pod and of what the three
    classes answer as placeholders.  [bp_class] tells which class the object has;
    the connection, status and camera control of the PINLING pod are in
    [PinlingPod].  A pod owns its session and its monitor. *)

From S2P Require Import Prelude Json Double PodTypes PodMonitor.

Local Open Scope Z_scope.

Section pod.
Context {J : Type} `{JsonOps J} `{!JsonItems J}.

Record PodInfo := {
  pi_pod_id : string;
  pi_pod_name : string;
  pi_vendor : PodVendor;
  pi_model : string;
  pi_firmware_ver : string;
  pi_ip_address : string;
  pi_port : Z;                     (** uint16 *)
  pi_raw_config : J
}.

(** What [resetRuntimeState] resets besides the state. *)
Record pod_cache := {
  ca_status : PodStatus;
  ca_alive : bool;
  ca_heartbeat_running : bool;
  ca_heartbeat_interval_ms : Z;
  ca_pose : PTZPose;
  ca_laser_enabled : bool;
  ca_last_laser : LaserInfo;
  ca_streaming : bool;
  ca_stream : StreamInfo;
  ca_last_center : CenterMeasurementResult;
  ca_continuous_measure : bool;
  ca_measure_interval_ms : Z
}.

(** [bp_capability] is [None] for the null value before [Init]. *)
Record BasePod := {
  bp_class : session_kind;
  bp_info : PodInfo;
  bp_state : PodState;
  bp_session : option BaseSession;
  bp_monitor : PodMonitor;
  bp_capability : option J;
  bp_cache : pod_cache
}.
Implicit Types (p : BasePod) (c : pod_cache).

Definition cache_reset : pod_cache := {|
  ca_status := PodStatus_default; ca_alive := false; ca_heartbeat_running := false;
  ca_heartbeat_interval_ms := 1000; ca_pose := PTZPose_default; ca_laser_enabled := false;
  ca_last_laser := LaserInfo_default; ca_streaming := false; ca_stream := StreamInfo_default;
  ca_last_center := CenterMeasurementResult_default; ca_continuous_measure := false;
  ca_measure_interval_ms := 500 |}.

(** The vendors' constructors make their session; BasePod has none. *)
Definition Pod_construct (class : session_kind) (info : PodInfo) : BasePod := {|
  bp_class := class; bp_info := info; bp_state := DISCONNECTED;
  bp_session := match class with Base_session => None | _ => Some (BaseSession_new class) end;
  bp_monitor := PodMonitor_new; bp_capability := None; bp_cache := cache_reset |}.

(** ** Stores to the fields *)

Definition setState (x : PodState) p : BasePod := {|
  bp_class := bp_class p; bp_info := bp_info p; bp_state := x; bp_session := bp_session p;
  bp_monitor := bp_monitor p; bp_capability := bp_capability p; bp_cache := bp_cache p |}.
Definition with_info (x : PodInfo) p : BasePod := {|
  bp_class := bp_class p; bp_info := x; bp_state := bp_state p; bp_session := bp_session p;
  bp_monitor := bp_monitor p; bp_capability := bp_capability p; bp_cache := bp_cache p |}.
Definition setSession (x : option BaseSession) p : BasePod := {|
  bp_class := bp_class p; bp_info := bp_info p; bp_state := bp_state p; bp_session := x;
  bp_monitor := bp_monitor p; bp_capability := bp_capability p; bp_cache := bp_cache p |}.
Definition with_pod_monitor (x : PodMonitor) p : BasePod := {|
  bp_class := bp_class p; bp_info := bp_info p; bp_state := bp_state p; bp_session := bp_session p;
  bp_monitor := x; bp_capability := bp_capability p; bp_cache := bp_cache p |}.
Definition with_capability (x : option J) p : BasePod := {|
  bp_class := bp_class p; bp_info := bp_info p; bp_state := bp_state p; bp_session := bp_session p;
  bp_monitor := bp_monitor p; bp_capability := x; bp_cache := bp_cache p |}.
Definition with_cache (x : pod_cache) p : BasePod := {|
  bp_class := bp_class p; bp_info := bp_info p; bp_state := bp_state p; bp_session := bp_session p;
  bp_monitor := bp_monitor p; bp_capability := bp_capability p; bp_cache := x |}.

Definition resetRuntimeState p : BasePod := with_cache cache_reset (setState DISCONNECTED p).

(** ** Monitor *)

Definition startMonitor (cfg : PodMonitorConfig) p : BasePod := with_pod_monitor (start cfg (bp_monitor p)) p.
Definition stopMonitor p : BasePod := with_pod_monitor (stop (bp_monitor p)) p.
Definition isMonitorRunning p : bool := mo_running (bp_monitor p).
Definition getRuntimeStatus p : PodRuntimeStatus := mo_status (bp_monitor p).

(** ** Configuration *)

(** [cfg.contains(key) && cfg[key].is_string()], or the old value. *)
Definition string_at (cfg : J) (key cur : string) : string :=
  match j_find cfg key with
  | Some v => match j_view v with JString s => s | _ => cur end
  | None => cur
  end.
(** [get<int>()] of an integer, stored in a uint16. *)
Definition port_at (cfg : J) (cur : Z) : Z :=
  match j_find cfg "port" with
  | Some v => match j_view v with
              | JUnsigned n | JInteger n => wrapu 16 (wraps 32 n)
              | _ => cur
              end
  | None => cur
  end.

Definition info_from (cfg : J) (i : PodInfo) : PodInfo := {|
  pi_pod_id := pi_pod_id i; pi_pod_name := string_at cfg "name" (pi_pod_name i); pi_vendor := pi_vendor i;
  pi_model := string_at cfg "model" (pi_model i);
  pi_firmware_ver := string_at cfg "firmware_ver" (pi_firmware_ver i);
  pi_ip_address := string_at cfg "ip" (pi_ip_address i); pi_port := port_at cfg (pi_port i);
  pi_raw_config := cfg |}.

(** The section goes to the log when it is an object. *)
Definition setCapabilityConfigs (section : J) p : result unit * BasePod :=
  let p := with_capability (Some section) p in
  if negb (j_is_object section) then (Ok tt, p)
  else match j_dump section with Err x => (Err x, p) | Ok _ => (Ok tt, p) end.

Definition isConnected p : bool := bool_decide (bp_state p = CONNECTED).

(** [BasePod::Init] up to the hook [onInit]: [Ok None] goes on with the hook. *)
Definition Init_common (cfg : J) p : result (option (PodResult unit)) * BasePod :=
  if negb (j_is_object cfg) then (Ok (Some (pod_fail Pe_UNKNOWN_ERROR "pod_config 不是有效的 object")), p)
  else if isConnected p then (Ok (Some (pod_fail ALREADY_CONNECTED "请先断开连接后再重新初始化")), p)
  else
    let p := if isMonitorRunning p then stopMonitor p else p in
    match j_dump cfg with
    | Err x => (Err x, p)
    | Ok _ =>
        let p := with_info (info_from cfg (bp_info p)) p in
        match match j_object_at cfg "capability" with
              | Some section => setCapabilityConfigs section p
              | None => (Ok tt, with_capability (Some (j_object [])) p)
              end with
        | (Err x, p) => (Err x, p)
        | (Ok _, p) => (Ok None, resetRuntimeState p)
        end
    end.

(** [Init] of the pods whose hook does nothing. *)
Definition BasePod_Init (cfg : J) p : result (PodResult unit) * BasePod :=
  match Init_common cfg p with
  | (Err x, p) => (Err x, p)
  | (Ok (Some r), p) => (Ok r, p)
  | (Ok None, p) => (Ok (pod_done "BasePod 初始化成功"), p)
  end.

Definition json_empty (v : J) : bool := match j_items v with [] => true | _ => false end.

(** The lambda [readConfig]. *)
Definition readConfig (type : CapabilityType) (source : option J) : J :=
  match source with
  | None => j_object []
  | Some source =>
      if negb (j_is_object source) then j_object []
      else match j_object_at source (capabilityTypeToKey type) with
           | Some v => v
           | None => default (j_object []) (j_object_at source (capabilityTypeToString type))
           end
  end.

Definition getCapabilityConfig (type : CapabilityType) p : J :=
  let config := readConfig type (bp_capability p) in
  if negb (json_empty config) then config
  else match j_object_at (pi_raw_config (bp_info p)) "capability" with
       | Some source =>
           let raw_config := readConfig type (Some source) in
           if negb (json_empty raw_config) then raw_config else j_object []
       | None => j_object []
       end.

(** Enabled unless [open] is a string other than enable. *)
Definition isCapabilityEnabled (type : CapabilityType) p : bool :=
  let config := getCapabilityConfig type p in
  if json_empty config then true
  else match j_find config "open" with
       | Some v => match j_view v with JString s => String.eqb s "enable" | _ => true end
       | None => true
       end.

(** The arguments go to the log. *)
Definition getCapabilityInitArgs (type : CapabilityType) p : result J :=
  match j_object_at (getCapabilityConfig type p) "init_args" with
  | Some args => match j_dump args with Err x => Err x | Ok _ => Ok args end
  | None => Ok (j_object [])
  end.

(** ** Connection *)

Definition BasePod_connect p : PodResult unit * BasePod :=
  if decide (bp_state p = CONNECTED) then (pod_fail ALREADY_CONNECTED "", p)
  else match bp_session p with
       | None => (pod_fail SESSION_NOT_INITIALIZED "", p)
       | Some s =>
           let p := setState CONNECTING p in
           let '(r, s) := session_connect (pi_ip_address (bp_info p)) (pi_port (bp_info p)) s in
           let p := setSession (Some s) p in
           (r, setState (if isSuccess r then CONNECTED else Pod_ERROR) p)
       end.

Definition BasePod_disconnect p : PodResult unit * BasePod :=
  if decide (bp_state p = DISCONNECTED) then (pod_fail NOT_CONNECTED "", p)
  else
    let '(r, s) := match bp_session p with
                   | Some s => if bs_connected s
                               then let '(r, s) := session_disconnect s in (r, Some s)
                               else (pod_done "成功", Some s)
                   | None => (pod_done "成功", None)
                   end in
    (r, setState DISCONNECTED (setSession s p)).

(** ** Placeholders

    The three classes differ in texts and constants; where PINLING does more, its
    own definitions are in [PinlingPod]. *)

Definition map_cache (f : pod_cache → pod_cache) p : BasePod := with_cache (f (bp_cache p)) p.

Definition set_cached_status (x : PodStatus) c : pod_cache := {|
  ca_status := x; ca_alive := ca_alive c; ca_heartbeat_running := ca_heartbeat_running c;
  ca_heartbeat_interval_ms := ca_heartbeat_interval_ms c; ca_pose := ca_pose c;
  ca_laser_enabled := ca_laser_enabled c; ca_last_laser := ca_last_laser c; ca_streaming := ca_streaming c;
  ca_stream := ca_stream c; ca_last_center := ca_last_center c;
  ca_continuous_measure := ca_continuous_measure c; ca_measure_interval_ms := ca_measure_interval_ms c |}.
Definition set_heart (alive running : bool) (ms : Z) c : pod_cache := {|
  ca_status := ca_status c; ca_alive := alive; ca_heartbeat_running := running;
  ca_heartbeat_interval_ms := ms; ca_pose := ca_pose c;
  ca_laser_enabled := ca_laser_enabled c; ca_last_laser := ca_last_laser c; ca_streaming := ca_streaming c;
  ca_stream := ca_stream c; ca_last_center := ca_last_center c;
  ca_continuous_measure := ca_continuous_measure c; ca_measure_interval_ms := ca_measure_interval_ms c |}.
Definition set_pose (x : PTZPose) c : pod_cache := {|
  ca_status := ca_status c; ca_alive := ca_alive c; ca_heartbeat_running := ca_heartbeat_running c;
  ca_heartbeat_interval_ms := ca_heartbeat_interval_ms c; ca_pose := x;
  ca_laser_enabled := ca_laser_enabled c; ca_last_laser := ca_last_laser c; ca_streaming := ca_streaming c;
  ca_stream := ca_stream c; ca_last_center := ca_last_center c;
  ca_continuous_measure := ca_continuous_measure c; ca_measure_interval_ms := ca_measure_interval_ms c |}.
Definition set_laser (enabled : bool) (last : LaserInfo) c : pod_cache := {|
  ca_status := ca_status c; ca_alive := ca_alive c; ca_heartbeat_running := ca_heartbeat_running c;
  ca_heartbeat_interval_ms := ca_heartbeat_interval_ms c; ca_pose := ca_pose c;
  ca_laser_enabled := enabled; ca_last_laser := last; ca_streaming := ca_streaming c;
  ca_stream := ca_stream c; ca_last_center := ca_last_center c;
  ca_continuous_measure := ca_continuous_measure c; ca_measure_interval_ms := ca_measure_interval_ms c |}.
Definition set_stream (streaming : bool) (x : StreamInfo) c : pod_cache := {|
  ca_status := ca_status c; ca_alive := ca_alive c; ca_heartbeat_running := ca_heartbeat_running c;
  ca_heartbeat_interval_ms := ca_heartbeat_interval_ms c; ca_pose := ca_pose c;
  ca_laser_enabled := ca_laser_enabled c; ca_last_laser := ca_last_laser c; ca_streaming := streaming;
  ca_stream := x; ca_last_center := ca_last_center c;
  ca_continuous_measure := ca_continuous_measure c; ca_measure_interval_ms := ca_measure_interval_ms c |}.
Definition set_center (last : CenterMeasurementResult) (running : bool) (ms : Z) c : pod_cache := {|
  ca_status := ca_status c; ca_alive := ca_alive c; ca_heartbeat_running := ca_heartbeat_running c;
  ca_heartbeat_interval_ms := ca_heartbeat_interval_ms c; ca_pose := ca_pose c;
  ca_laser_enabled := ca_laser_enabled c; ca_last_laser := ca_last_laser c; ca_streaming := ca_streaming c;
  ca_stream := ca_stream c; ca_last_center := last;
  ca_continuous_measure := running; ca_measure_interval_ms := ms |}.

(** A DJI pod answers that it is connected, whatever its state. *)
Definition getDeviceStatus p : PodResult PodStatus * BasePod :=
  match bp_class p with
  | Dji_session =>
      let s := ca_status (bp_cache p) in
      let s := {| ps_state := CONNECTED; ps_temperature := literal 355 1; ps_voltage := literal 120 1;
                  ps_uptime_ms := ps_uptime_ms s; ps_error_msg := ps_error_msg s |} in
      (pod_success s "获取大疆状态成功（占位）", map_cache (set_cached_status s) p)
  | _ => (pod_success (ca_status (bp_cache p)) "获取状态成功（占位）", p)
  end.
Definition refreshDeviceStatus p : PodResult unit * BasePod :=
  (pod_done match bp_class p with Dji_session => "大疆状态刷新成功（占位）" | _ => "刷新状态成功（占位）" end, p).

Definition sendHeartbeat p : PodResult bool * BasePod :=
  (pod_success true match bp_class p with
                    | Base_session => "心跳发送成功（占位）"
                    | Dji_session => "大疆心跳发送成功（占位）"
                    | Pinling_session => "品凌心跳发送成功（占位）"
                    end,
   map_cache (λ c, set_heart true (ca_heartbeat_running c) (ca_heartbeat_interval_ms c) c) p).
Definition startHeartbeat (interval_ms : Z) p : PodResult unit * BasePod :=
  (pod_done "心跳检测已启动（占位）", map_cache (λ c, set_heart (ca_alive c) true interval_ms c) p).
Definition stopHeartbeat p : PodResult unit * BasePod :=
  (pod_done "心跳检测已停止（占位）",
   map_cache (λ c, set_heart (ca_alive c) false (ca_heartbeat_interval_ms c) c) p).
Definition isAlive p : bool := ca_alive (bp_cache p).

Definition getPose p : PodResult PTZPose * BasePod :=
  (pod_success (ca_pose (bp_cache p))
     match bp_class p with Dji_session => "获取大疆云台姿态成功（占位）" | _ => "获取姿态成功（占位）" end, p).
Definition setPose (pose : PTZPose) p : PodResult unit * BasePod :=
  (pod_done match bp_class p with Dji_session => "大疆云台姿态设置成功（占位）" | _ => "设置姿态成功（占位）" end,
   map_cache (set_pose pose) p).
Definition controlSpeed (cmd : PTZCommand) p : PodResult unit * BasePod :=
  (pod_done match bp_class p with Dji_session => "大疆速度控制成功（占位）" | _ => "速度控制成功（占位）" end, p).
Definition stopPtz p : PodResult unit * BasePod :=
  (pod_done match bp_class p with Dji_session => "大疆云台已停止（占位）" | _ => "停止成功（占位）" end, p).
Definition goHome p : PodResult unit * BasePod :=
  (pod_done match bp_class p with Dji_session => "大疆云台回中成功（占位）" | _ => "回中成功（占位）" end,
   map_cache (set_pose PTZPose_default) p).

(** What a measurement answers. *)
Definition laser_reading (class : session_kind) : LaserInfo :=
  match class with
  | Base_session => {| la_is_valid := true; la_distance := literal 100 0; la_latitude := zero;
                       la_longitude := zero; la_altitude := zero |}
  | Dji_session => {| la_is_valid := true; la_distance := literal 2505 1; la_latitude := literal 30123456 6;
                      la_longitude := literal 120654321 6; la_altitude := literal 100 0 |}
  | Pinling_session => {| la_is_valid := true; la_distance := literal 180 0; la_latitude := literal 31234567 6;
                          la_longitude := literal 121456789 6; la_altitude := literal 50 0 |}
  end.
Definition laserMeasure p : PodResult LaserInfo * BasePod :=
  if negb (ca_laser_enabled (bp_cache p)) then
    (pod_fail LASER_MEASURE_FAILED match bp_class p with
                                   | Base_session => "激光器未开启" | Dji_session => "大疆激光器未开启"
                                   | Pinling_session => "品凌激光器未开启"
                                   end, p)
  else
    let info := laser_reading (bp_class p) in
    (pod_success info match bp_class p with
                      | Base_session => "测距成功（占位）" | Dji_session => "大疆激光测距成功（占位）"
                      | Pinling_session => "品凌激光测距成功（占位）"
                      end, map_cache (λ c, set_laser (ca_laser_enabled c) info c) p).
Definition enableLaser p : PodResult unit * BasePod :=
  (pod_done match bp_class p with
            | Base_session => "激光器已开启（占位）" | Dji_session => "大疆激光器已开启（占位）"
            | Pinling_session => "品凌激光器已开启（占位）"
            end, map_cache (λ c, set_laser true (ca_last_laser c) c) p).
Definition disableLaser p : PodResult unit * BasePod :=
  (pod_done match bp_class p with
            | Base_session => "激光器已关闭（占位）" | Dji_session => "大疆激光器已关闭（占位）"
            | Pinling_session => "品凌激光器已关闭（占位）"
            end, map_cache (λ c, set_laser false (ca_last_laser c) c) p).

(** Only BasePod tests whether a stream is running. *)
Definition startStream (type : StreamType) p : PodResult StreamInfo * BasePod :=
  let class := bp_class p in
  if match class with Base_session => ca_streaming (bp_cache p) | _ => false end then
    (pod_success (ca_stream (bp_cache p)) "已在拉流中", p)
  else
    let x := {| st_type := type;
                st_url := match class with
                          | Base_session => "rtsp://127.0.0.1:8554/mock"
                          | Dji_session => "rtsp://192.168.1.100:8554/dji_stream"
                          | Pinling_session => "rtsp://192.168.1.200:554/pinling_stream"
                          end;
                st_width := 1920; st_height := 1080;
                st_fps := match class with Pinling_session => 25 | _ => 30 end; st_is_active := true |} in
    (pod_success x match class with
                   | Base_session => "拉流启动成功（占位）" | Dji_session => "大疆拉流启动成功（占位）"
                   | Pinling_session => "品凌拉流启动成功（占位）"
                   end, map_cache (set_stream true x) p).
Definition stopStream p : PodResult unit * BasePod :=
  if match bp_class p with Base_session => negb (ca_streaming (bp_cache p)) | _ => false end then
    (pod_fail STREAM_STOP_FAILED "当前未在拉流", p)
  else
    let s := ca_stream (bp_cache p) in
    (pod_done match bp_class p with
              | Base_session => "拉流已停止（占位）" | Dji_session => "大疆拉流已停止（占位）"
              | Pinling_session => "品凌拉流已停止（占位）"
              end,
     map_cache (set_stream false {| st_type := st_type s; st_url := st_url s; st_width := st_width s;
                                    st_height := st_height s; st_fps := st_fps s; st_is_active := false |}) p).
Definition getStreamInfo p : PodResult StreamInfo * BasePod :=
  (pod_success (ca_stream (bp_cache p)) "获取流信息成功", p).
Definition isStreaming p : bool := ca_streaming (bp_cache p).

Definition captureImage p : PodResult ImageFrame :=
  let class := bp_class p in
  pod_success {| im_width := match class with Dji_session => 3840 | _ => 1920 end;
                 im_height := match class with Dji_session => 2160 | _ => 1080 end;
                 im_channels := 3; im_data := []; im_timestamp_ms := 0; im_format := "JPEG" |}
    match class with
    | Base_session => "抓拍成功（占位）" | Dji_session => "大疆图像抓拍成功（占位）"
    | Pinling_session => "品凌图像抓拍成功（占位）"
    end.
Definition saveImage (path : string) p : PodResult string :=
  pod_success path match bp_class p with
                   | Base_session => "保存成功（占位）" | Dji_session => "大疆图像保存成功（占位）"
                   | Pinling_session => "品凌图像保存成功（占位）"
                   end.

Definition center_reading (class : session_kind) : CenterMeasurementResult :=
  match class with
  | Base_session => {| ce_is_valid := true; ce_distance := literal 150 0; ce_latitude := zero;
                       ce_longitude := zero; ce_altitude := zero; ce_center_x := literal 960 0;
                       ce_center_y := literal 540 0 |}
  | Dji_session => {| ce_is_valid := true; ce_distance := literal 320 0; ce_latitude := literal 30123456 6;
                      ce_longitude := literal 120654321 6; ce_altitude := literal 85 0;
                      ce_center_x := literal 1920 0; ce_center_y := literal 1080 0 |}
  | Pinling_session => {| ce_is_valid := true; ce_distance := literal 200 0; ce_latitude := literal 31234567 6;
                          ce_longitude := literal 121456789 6; ce_altitude := literal 60 0;
                          ce_center_x := literal 960 0; ce_center_y := literal 540 0 |}
  end.
Definition centerMeasure p : PodResult CenterMeasurementResult * BasePod :=
  let r := center_reading (bp_class p) in
  (pod_success r match bp_class p with
                 | Base_session => "中心点测量成功（占位）" | Dji_session => "大疆中心点测量成功（占位）"
                 | Pinling_session => "品凌中心点测量成功（占位）"
                 end,
   map_cache (λ c, set_center r (ca_continuous_measure c) (ca_measure_interval_ms c) c) p).
Definition startContinuousMeasure (interval_ms : Z) p : PodResult unit * BasePod :=
  (pod_done "连续测量已启动（占位）", map_cache (λ c, set_center (ca_last_center c) true interval_ms c) p).
Definition stopContinuousMeasure p : PodResult unit * BasePod :=
  (pod_done "连续测量已停止（占位）",
   map_cache (λ c, set_center (ca_last_center c) false (ca_measure_interval_ms c) c) p).
Definition getLastMeasureResult p : PodResult CenterMeasurementResult :=
  pod_success (ca_last_center (bp_cache p)) "获取成功".

(** The pod as its monitor sees it. *)
Definition pod_monitored : MonitoredPod BasePod := {|
  mp_refreshDeviceStatus p := let '(r, p) := refreshDeviceStatus p in (Ok r, p);
  mp_getDeviceStatus p := let '(r, p) := getDeviceStatus p in (Ok r, p);
  mp_getPose p := let '(r, p) := getPose p in (Ok r, p);
  mp_laserMeasure p := let '(r, p) := laserMeasure p in (Ok r, p);
  mp_getStreamInfo p := let '(r, p) := getStreamInfo p in (Ok r, p)
|}.
End pod.
Arguments BasePod : clear implicits.
Arguments PodInfo : clear implicits.

Section facts.
Context {J : Type} `{JsonOps J} `{!JsonItems J}.
Implicit Types (p : BasePod J) (cfg : J).

(** ** The calls *)

Inductive pod_call :=
| Call_getDeviceStatus | Call_refreshDeviceStatus | Call_sendHeartbeat | Call_startHeartbeat (ms : Z)
| Call_stopHeartbeat | Call_getPose | Call_setPose (pose : PTZPose) | Call_controlSpeed (cmd : PTZCommand)
| Call_stopPtz | Call_goHome | Call_laserMeasure | Call_enableLaser | Call_disableLaser
| Call_startStream (type : StreamType) | Call_stopStream | Call_getStreamInfo | Call_centerMeasure
| Call_startContinuousMeasure (ms : Z) | Call_stopContinuousMeasure.

Definition run_pod_call (c : pod_call) p : BasePod J :=
  match c with
  | Call_getDeviceStatus => (getDeviceStatus p).2
  | Call_refreshDeviceStatus => (refreshDeviceStatus p).2
  | Call_sendHeartbeat => (sendHeartbeat p).2
  | Call_startHeartbeat ms => (startHeartbeat ms p).2
  | Call_stopHeartbeat => (stopHeartbeat p).2
  | Call_getPose => (getPose p).2
  | Call_setPose pose => (setPose pose p).2
  | Call_controlSpeed cmd => (controlSpeed cmd p).2
  | Call_stopPtz => (stopPtz p).2
  | Call_goHome => (goHome p).2
  | Call_laserMeasure => (laserMeasure p).2
  | Call_enableLaser => (enableLaser p).2
  | Call_disableLaser => (disableLaser p).2
  | Call_startStream type => (startStream type p).2
  | Call_stopStream => (stopStream p).2
  | Call_getStreamInfo => (getStreamInfo p).2
  | Call_centerMeasure => (centerMeasure p).2
  | Call_startContinuousMeasure ms => (startContinuousMeasure ms p).2
  | Call_stopContinuousMeasure => (stopContinuousMeasure p).2
  end.

(** [setSession] is public and takes any session, or none: [allowed] are the
    sessions it is called with, and the pods they are given to. *)
Inductive pod_step (allowed : option BaseSession → BasePod J → Prop) p : BasePod J → Prop :=
| po_init cfg r p' : BasePod_Init cfg p = (r, p') → pod_step allowed p p'
| po_connect r p' : BasePod_connect p = (r, p') → pod_step allowed p p'
| po_disconnect r p' : BasePod_disconnect p = (r, p') → pod_step allowed p p'
| po_setSession x : allowed x p → pod_step allowed p (setSession x p)
| po_setCapabilityConfigs section r p' : setCapabilityConfigs section p = (r, p') → pod_step allowed p p'
| po_startMonitor mc : pod_step allowed p (startMonitor mc p)
| po_stopMonitor : pod_step allowed p (stopMonitor p)
| po_call c : pod_step allowed p (run_pod_call c p)
| po_turn during clock t m' p' t' polled :
    @monitor_turn _ pod_monitored during clock (bp_monitor p, p, t) = (m', p', t', polled) →
    pod_step allowed p (with_pod_monitor m' p').

(** A session that is connected exactly when the pod it is given to is. *)
Definition agrees (x : option BaseSession) p : Prop := ∃ s, x = Some s ∧ bs_connected s = isConnected p.

(** What the placeholders and the monitor leave alone. *)
Definition same_link p p' : Prop :=
  bp_class p' = bp_class p ∧ bp_info p' = bp_info p ∧ bp_state p' = bp_state p ∧
  bp_session p' = bp_session p ∧ bp_capability p' = bp_capability p.

Lemma run_pod_call_link c p : same_link p (run_pod_call c p) ∧ bp_monitor (run_pod_call c p) = bp_monitor p.
Proof.
  destruct c; cbn [run_pod_call]; unfold getDeviceStatus, laserMeasure, startStream, stopStream;
    repeat (case_match; cbn [snd]); by repeat split.
Qed.

(** The state tells whether the session is connected. *)
Definition pod_ok p : Prop :=
  match bp_session p with
  | Some s => (bp_state p = CONNECTED ∧ bs_connected s = true) ∨
              (bp_state p = DISCONNECTED ∧ bs_connected s = false)
  | None => bp_state p = DISCONNECTED
  end.

Lemma pod_ok_link p p' : pod_ok p → same_link p p' → pod_ok p'.
Proof. unfold pod_ok. intros Hp (_ & _ & Hs & Hss & _). by rewrite Hs, Hss. Qed.

Lemma Init_common_cases cfg p r p' :
  Init_common cfg p = (r, p') →
  (bp_state p = CONNECTED → bp_state p' = CONNECTED) ∧
  (bp_state p' = bp_state p ∨ bp_state p' = DISCONNECTED) ∧
  bp_class p' = bp_class p ∧ bp_session p' = bp_session p ∧
  pi_pod_id (bp_info p') = pi_pod_id (bp_info p) ∧ pi_vendor (bp_info p') = pi_vendor (bp_info p) ∧
  (r = Ok None → bp_state p ≠ CONNECTED ∧ bp_state p' = DISCONNECTED ∧ bp_cache p' = cache_reset ∧
     bp_info p' = info_from cfg (bp_info p) ∧ mo_running (bp_monitor p') = false).
Proof.
  unfold Init_common. destruct (negb (j_is_object cfg)); [by intros [= <- <-]; split_and!; auto|].
  unfold isConnected. destruct (bool_decide _) eqn:Ec; [by intros [= <- <-]; split_and!; auto|].
  apply bool_decide_eq_false in Ec.
  assert (Hstop : same_link p (if isMonitorRunning p then stopMonitor p else p) ∧
                  mo_running (bp_monitor (if isMonitorRunning p then stopMonitor p else p)) = false).
  { unfold isMonitorRunning. destruct (mo_running (bp_monitor p)) eqn:Er; [|by repeat split].
    unfold stopMonitor, with_pod_monitor, stop. rewrite Er. by repeat split. }
  destruct Hstop as ((Hcl & Hin & Hst & Hse & Hca) & Hmo).
  destruct (j_dump cfg); [|intros [= <- <-]; split_and!; auto; congruence].
  destruct (j_object_at cfg "capability") as [section|]; unfold setCapabilityConfigs.
  - destruct (negb (j_is_object section)); [|destruct (j_dump section)]; intros [= <- <-]; cbn;
      rewrite ?Hin; split_and!; auto; congruence.
  - intros [= <- <-]; cbn; rewrite ?Hin; split_and!; auto; congruence.
Qed.

Lemma pod_ok_Init cfg p r p' : pod_ok p → BasePod_Init cfg p = (r, p') → pod_ok p'.
Proof.
  intros Hp. unfold BasePod_Init. destruct (Init_common cfg p) as [r1 p1] eqn:Ei.
  destruct (Init_common_cases _ _ _ _ Ei) as (Hc & Hs & _ & Hse & _).
  assert (p1 = p' → pod_ok p').
  { intros <-. unfold pod_ok in *. rewrite Hse. destruct (bp_session p) as [s|].
    - destruct Hp as [[Hp Hb]|[Hp Hb]]; [left; auto|right]. split; [|done]. destruct Hs; congruence.
    - destruct Hs; congruence. }
  destruct r1 as [[r1|]|x]; intros [= _ ->]; auto.
Qed.

Lemma BasePod_connect_ok p :
  pod_ok p → is_Some (bp_session p) →
  let '(r, p') := BasePod_connect p in
  bp_state p' = CONNECTED ∧ pod_ok p' ∧ is_Some (bp_session p') ∧
  (isSuccess r = bool_decide (bp_state p = DISCONNECTED)) ∧
  (bp_state p = CONNECTED → p' = p ∧ pr_code r = ALREADY_CONNECTED).
Proof.
  intros Hp [s Hs]. unfold BasePod_connect, pod_ok in *. rewrite Hs in *.
  destruct (decide (bp_state p = CONNECTED)) as [Hc|Hc]; cbn.
  - rewrite Hs, Hc in *. split_and!; [done|by destruct Hp as [?|[? ?]]; auto|by eexists|done|done].
  - destruct Hp as [[? _]|[Hd Hb]]; [done|]. unfold session_connect. rewrite Hb. cbn.
    rewrite Hd. destruct (bs_kind s); cbn; (split_and!; [done|by left|by eexists|done|done]).
Qed.

Lemma BasePod_disconnect_ok p :
  pod_ok p → is_Some (bp_session p) →
  let '(r, p') := BasePod_disconnect p in
  bp_state p' = DISCONNECTED ∧ pod_ok p' ∧ is_Some (bp_session p') ∧
  (isSuccess r = bool_decide (bp_state p = CONNECTED)) ∧
  (bp_state p = DISCONNECTED → p' = p ∧ pr_code r = NOT_CONNECTED).
Proof.
  intros Hp [s Hs]. unfold BasePod_disconnect, pod_ok in *. rewrite Hs in *.
  destruct (decide (bp_state p = DISCONNECTED)) as [Hc|Hc]; cbn.
  - rewrite Hs, Hc in *. split_and!; [done|by destruct Hp as [[? ?]|?]; auto|by eexists|done|done].
  - destruct Hp as [[Hd Hb]|[? _]]; [|done]. rewrite Hb. unfold session_disconnect. rewrite Hb. cbn.
    rewrite Hd. destruct (bs_kind s); cbn; (split_and!; [done|by right|by eexists|done|done]).
Qed.

Lemma setCapabilityConfigs_keeps section p r p' :
  setCapabilityConfigs section p = (r, p') →
  bp_class p' = bp_class p ∧ bp_info p' = bp_info p ∧ bp_state p' = bp_state p ∧ bp_session p' = bp_session p.
Proof.
  unfold setCapabilityConfigs. destruct (negb _); [by intros [= _ <-]|]. by destruct (j_dump _); intros [= _ <-].
Qed.

Lemma turn_link during clock m p t m' p' t' polled :
  @monitor_turn _ pod_monitored during clock (m, p, t) = (m', p', t', polled) → same_link p p'.
Proof.
  apply (monitor_turn_pod (λ x, same_link p x)); try done; intros q (H1 & H2 & H3 & H4 & H5); cbn.
  - destruct (run_pod_call_link Call_getDeviceStatus q) as [(L1 & L2 & L3 & L4 & L5) _]. cbn in *.
    destruct (getDeviceStatus q). cbn in *. repeat split; congruence.
  - destruct (run_pod_call_link Call_laserMeasure q) as [(L1 & L2 & L3 & L4 & L5) _]. cbn in *.
    destruct (laserMeasure q). cbn in *. repeat split; congruence.
Qed.

(** Between calls a pod is not connecting. *)
Definition settled_state p : Prop :=
  bp_state p = CONNECTED ∨ bp_state p = DISCONNECTED ∨ bp_state p = Pod_ERROR.

(** What every call does to state and id, and all but [setSession] to the
    session's class. *)
Lemma pod_step_base allowed p p' :
  pod_step allowed p p' → settled_state p →
  settled_state p' ∧ pi_pod_id (bp_info p') = pi_pod_id (bp_info p) ∧
  ((∀ x q, ¬ allowed x q) → bs_kind <$> bp_session p' = bs_kind <$> bp_session p).
Proof.
  intros Hs Hp. unfold settled_state in *.
  assert (Hlink : ∀ p', same_link p p' →
    (bp_state p' = CONNECTED ∨ bp_state p' = DISCONNECTED ∨ bp_state p' = Pod_ERROR) ∧
    pi_pod_id (bp_info p') = pi_pod_id (bp_info p) ∧
    ((∀ x q, ¬ allowed x q) → bs_kind <$> bp_session p' = bs_kind <$> bp_session p)).
  { intros p1 (_ & Hi & Hst & Hss & _). by rewrite Hi, Hst, Hss. }
  destruct Hs as [cfg r p' Hi|r p' Hc|r p' Hd|x Hx|sec r p' Hc|mc| |c|during clock t m' p' t' polled Ht].
  - unfold BasePod_Init in Hi. destruct (Init_common cfg p) as [r1 p1] eqn:Ei.
    destruct (Init_common_cases _ _ _ _ Ei) as (_ & Hst & _ & Hss & Hid & _).
    assert (p1 = p') as <- by (destruct r1 as [[r1|]|x]; by injection Hi).
    rewrite Hid, Hss. destruct Hst as [->| ->]; auto.
  - revert Hc. unfold BasePod_connect. destruct (decide _); [by intros [= _ <-]|].
    destruct (bp_session p) as [s|] eqn:Es; [|intros [= _ <-]; by rewrite Es].
    unfold session_connect. destruct (bs_connected s), s as [[] ? ? ?]; intros [= _ <-]; cbn; auto.
  - revert Hd. unfold BasePod_disconnect. destruct (decide _); [by intros [= _ <-]|].
    destruct (bp_session p) as [s|]; [|intros [= _ <-]; cbn; auto].
    destruct (bs_connected s) eqn:Eb; unfold session_disconnect; rewrite ?Eb; intros [= _ <-]; cbn; auto.
  - cbn. split; [done|]. split; [done|]. intros Hno. by destruct (Hno x p).
  - destruct (setCapabilityConfigs_keeps _ _ _ _ Hc) as (_ & -> & -> & ->). auto.
  - by apply Hlink.
  - by apply Hlink.
  - apply Hlink, run_pod_call_link.
  - destruct (turn_link _ _ _ _ _ _ _ _ _ Ht) as (H1 & H2 & H3 & H4 & H5). by apply Hlink.
Qed.

Lemma pod_step_ok allowed p p' :
  (∀ x q, allowed x q → agrees x q) →
  pod_step allowed p p' → pod_ok p → is_Some (bp_session p) → pod_ok p' ∧ is_Some (bp_session p').
Proof.
  intros Hall Hs Hp Hse.
  assert (Hlink : ∀ p', same_link p p' → pod_ok p' ∧ is_Some (bp_session p')).
  { intros p1 Hl. split; [by eapply pod_ok_link|]. destruct Hl as (_ & _ & _ & Hss & _). by rewrite Hss. }
  destruct Hs as [cfg r p' Hi|r p' Hc|r p' Hd|x Hx|sec r p' Hc|mc| |c|during clock t m' p' t' polled Ht].
  - split; [by eapply pod_ok_Init|]. unfold BasePod_Init in Hi. destruct (Init_common cfg p) as [r1 p1] eqn:Ei.
    destruct (Init_common_cases _ _ _ _ Ei) as (_ & _ & _ & Hss & _).
    assert (p1 = p') as <- by (destruct r1 as [[r1|]|x]; by injection Hi).
    by rewrite Hss.
  - pose proof (BasePod_connect_ok p Hp Hse) as Ho. rewrite Hc in Ho. by destruct Ho as (_ & ? & ? & _).
  - pose proof (BasePod_disconnect_ok p Hp Hse) as Ho. rewrite Hd in Ho. by destruct Ho as (_ & ? & ? & _).
  - destruct (Hall _ _ Hx) as (s & -> & Hb). split; [|by eexists]. unfold pod_ok, isConnected in *. cbn.
    destruct Hse as [s0 Hs0]. rewrite Hs0 in Hp. rewrite Hb.
    destruct Hp as [[-> _]|[-> _]]; [by left|by right].
  - destruct (setCapabilityConfigs_keeps _ _ _ _ Hc) as (_ & _ & Hst & Hss). unfold pod_ok in *. by rewrite Hst, Hss.
  - by apply Hlink.
  - by apply Hlink.
  - apply Hlink, run_pod_call_link.
  - destruct (turn_link _ _ _ _ _ _ _ _ _ Ht) as (H1 & H2 & H3 & H4 & H5). by apply Hlink.
Qed.

(** Connecting a pod, on every branch. *)
Definition connect_outcome p : Prop :=
  let '(r, p') := BasePod_connect p in
  if decide (bp_state p = CONNECTED) then r = pod_fail ALREADY_CONNECTED "" ∧ p' = p
  else match bp_session p with
       | None => r = pod_fail SESSION_NOT_INITIALIZED "" ∧ p' = p
       | Some s =>
           if bs_connected s then isSuccess r = false ∧ bp_state p' = Pod_ERROR ∧ bp_session p' = Some s
           else isSuccess r = true ∧ bp_state p' = CONNECTED ∧
                ∃ s', bp_session p' = Some s' ∧ bs_kind s' = bs_kind s ∧ bs_connected s' = true
       end.
(** Disconnecting it. *)
Definition disconnect_outcome p : Prop :=
  let '(r, p') := BasePod_disconnect p in
  if decide (bp_state p = DISCONNECTED) then r = pod_fail NOT_CONNECTED "" ∧ p' = p
  else isSuccess r = true ∧ bp_state p' = DISCONNECTED ∧
       bs_kind <$> bp_session p' = bs_kind <$> bp_session p ∧
       ∀ s, bp_session p' = Some s → bs_connected s = false.

Lemma connect_outcome_all p : connect_outcome p.
Proof.
  unfold connect_outcome, BasePod_connect. destruct (decide _); [done|]. destruct (bp_session p) as [s|]; [|done].
  unfold session_connect. destruct (bs_connected s); [done|]. destruct s as [[] ? ? ?]; cbn; (split; [done|]);
    (split; [done|]); by eexists.
Qed.

Lemma disconnect_outcome_all p : disconnect_outcome p.
Proof.
  unfold disconnect_outcome, BasePod_disconnect. destruct (decide _); [done|].
  destruct (bp_session p) as [s|]; [|by cbn; split_and!].
  destruct (bs_connected s) eqn:Eb.
  - unfold session_disconnect. rewrite Eb. destruct s as [[] ? ? ?]; cbn; split_and!; try done; by intros ? [= <-].
  - cbn. split_and!; try done. by intros ? [= <-].
Qed.

(** C24: Whatever calls a DJI pod gets, [setSession] with any session included,
    and its monitor makes: it keeps its id and is connected, disconnected or in
    error between calls; connecting and disconnecting do what their outcomes say.
    While every session it was given agreed with its state, it has a session, is
    connected exactly when that is, and never in error; a connect succeeds exactly
    when it is disconnected and a disconnect exactly when it is connected.  When it
    was given none, the session is still one of its own class. *)
Theorem pod_session_agree allowed info p :
  rtc (pod_step allowed) (Pod_construct Dji_session info) p →
  pi_pod_id (bp_info p) = pi_pod_id info ∧ settled_state p ∧ connect_outcome p ∧ disconnect_outcome p ∧
  ((∀ x q, allowed x q → agrees x q) →
     (bp_state p = CONNECTED ∨ bp_state p = DISCONNECTED) ∧
     (∃ s, bp_session p = Some s ∧ bs_connected s = isConnected p) ∧
     (isSuccess (BasePod_connect p).1 = true ↔ bp_state p = DISCONNECTED) ∧
     (isSuccess (BasePod_disconnect p).1 = true ↔ bp_state p = CONNECTED)) ∧
  ((∀ x q, ¬ allowed x q) → ∃ s, bp_session p = Some s ∧ bs_kind s = Dji_session).
Proof.
  intros Hr. set (p0 := Pod_construct Dji_session info) in *.
  assert (Hbase : settled_state p ∧ pi_pod_id (bp_info p) = pi_pod_id info ∧
    ((∀ x q, ¬ allowed x q) → bs_kind <$> bp_session p = Some Dji_session)).
  { pattern p. eapply rtc_ind_r; [|intros q q' _ Hq (Hs & Hi & Hk)|exact Hr]; [by split_and!; [right; left|..]|].
    destruct (pod_step_base _ _ _ Hq Hs) as (Hs' & Hi' & Hk'). split; [done|]. split; [congruence|].
    intros Hno. by rewrite Hk', Hk. }
  destruct Hbase as (Hs & Hi & Hk). split_and!; [done|done|apply connect_outcome_all|apply disconnect_outcome_all| |].
  - intros Hall.
    assert (Hok : pod_ok p ∧ is_Some (bp_session p)).
    { pattern p. eapply rtc_ind_r; [|intros q q' _ Hq [Hp Hse]|exact Hr]; [split; [by right|by eexists]|].
      by eapply pod_step_ok. }
    destruct Hok as [Hp Hse]. pose proof (BasePod_connect_ok p Hp Hse) as Hco.
    pose proof (BasePod_disconnect_ok p Hp Hse) as Hdi.
    destruct (BasePod_connect p) as [r p1], (BasePod_disconnect p) as [r2 p2]. cbn [fst].
    destruct Hco as (_ & _ & _ & -> & _), Hdi as (_ & _ & _ & -> & _). rewrite !bool_decide_eq_true.
    unfold pod_ok, isConnected in *. destruct Hse as [s Hs0]. rewrite Hs0 in *.
    destruct Hp as [[-> Hb]|[-> Hb]]; split_and!; try done; auto; by exists s.
  - intros Hno. specialize (Hk Hno). destruct (bp_session p) as [s|]; [|done]. exists s. by injection Hk.
Qed.

(** Without a session a connected pod stays connected. *)
Lemma session_taken_away info :
  let p := (BasePod_connect (Pod_construct (J := J) Dji_session info)).2 in
  isConnected (setSession None p) = true ∧ bp_session (setSession None p) = None.
Proof. done. Qed.

(** The status of a DJI pod says connected even for one that never was. *)
Lemma dji_status_ignores_state p :
  bp_class p = Dji_session → ∃ s, pr_data (getDeviceStatus p).1 = Some s ∧ ps_state s = CONNECTED.
Proof. intros Hc. unfold getDeviceStatus. rewrite Hc. eexists. by split. Qed.

(** A pod without session cannot connect. *)
Lemma base_pod_never_connects info :
  (BasePod_connect (Pod_construct (J := J) Base_session info)).1 = pod_fail SESSION_NOT_INITIALIZED "".
Proof. done. Qed.
End facts.

(** *** Witnesses *)

Definition demo_info : PodInfo jvalue := {|
  pi_pod_id := "pod1"; pi_pod_name := "pod"; pi_vendor := DJI; pi_model := ""; pi_firmware_ver := "";
  pi_ip_address := "10.0.0.2"; pi_port := 2000; pi_raw_config := VObj [] |}.
Definition demo_connected : BasePod jvalue := (BasePod_connect (Pod_construct Dji_session demo_info)).2.

Lemma pod_session_agree_witness :
  isConnected demo_connected = true ∧ (∃ s, bp_session demo_connected = Some s ∧ bs_connected s = true) ∧
  isSuccess (BasePod_connect demo_connected).1 = false.
Proof.
  assert (Hr : rtc (pod_step (λ _ _, False)) (Pod_construct Dji_session demo_info) demo_connected).
  { apply rtc_once. eapply po_connect. vm_compute. reflexivity. }
  destruct (pod_session_agree (λ _ _, False) demo_info demo_connected Hr) as (_ & _ & _ & _ & Ha & _).
  destruct Ha as (_ & Hs & Hc & _); [by intros|].
  assert (Hcon : isConnected demo_connected = true) by (vm_compute; reflexivity).
  split; [exact Hcon|]. rewrite Hcon in Hs. split; [exact Hs|].
  destruct (isSuccess (BasePod_connect demo_connected).1) eqn:Er; [|reflexivity].
  pose proof (proj1 Hc eq_refl) as Hd. vm_compute in Hd. discriminate.
Defined.
