(* ===== verification/PinlingPod.v ===== *)
(** * The PINLING pod

    Model of my_pod/pod/pinling/pinling_pod.cpp and of the life cycle of
    ViewLinkClient.cpp.  The vendor's library, the ping and the clock are read
    from arguments: an [attempt] holds what the library answers while one
    connection is tried. *)

From S2P Require Import Prelude Json Double PodTypes PodMonitor Pod.
From Stdlib Require Import SpecFloat.
From stdpp Require Import pretty.

Local Open Scope Z_scope.

(** ** The client of the vendor's library *)

(** The callbacks of the library set [vc_connected] at any time. *)
Record ViewLinkClient := { vc_initialized : bool; vc_connected : bool }.
Definition ViewLinkClient_new : ViewLinkClient := {| vc_initialized := false; vc_connected := false |}.

(** Return codes of [VLK_Init] and [VLK_Connect], whether the connection and the
    telemetry come before their deadlines, and whether the connection still stands
    after that. *)
Record attempt := { at_Init : Z; at_Connect : Z; at_connected : bool; at_telemetry : bool; at_still : bool }.

Definition Initialize (a : attempt) (c : ViewLinkClient) : result unit * ViewLinkClient :=
  if vc_initialized c then (Ok tt, c)
  else if negb (at_Init a =? 0) then
    (Err (runtime_error ("VLK_Init failed, error: " +:+ pretty (at_Init a))), c)
  else (Ok tt, {| vc_initialized := true; vc_connected := vc_connected c |}).

Definition client_Shutdown (c : ViewLinkClient) : ViewLinkClient :=
  if negb (vc_initialized c) then c else {| vc_initialized := false; vc_connected := false |}.

Definition client_Connect (a : attempt) : result unit :=
  if negb (at_Connect a =? 0) then Err (runtime_error ("VLK_Connect failed, error: " +:+ pretty (at_Connect a)))
  else Ok tt.

(** The flag as the callbacks leave it after the two waits. *)
Definition client_link (b : bool) (c : ViewLinkClient) : ViewLinkClient :=
  {| vc_initialized := vc_initialized c; vc_connected := b |}.

Section pinling.
Context {J : Type} `{JsonOps J} `{!JsonItems J}.

Record PinlingPod := {
  pl_pod : BasePod J;
  pl_client : ViewLinkClient;
  pl_sdk_connected : bool;
  pl_reconnect_enabled : bool;
  pl_reconnecting : bool;
  pl_last_attempt_ms : Z
}.
Implicit Types (p : PinlingPod).

Definition PinlingPod_construct (info : PodInfo J) : PinlingPod := {|
  pl_pod := Pod_construct Pinling_session info; pl_client := ViewLinkClient_new; pl_sdk_connected := false;
  pl_reconnect_enabled := false; pl_reconnecting := false; pl_last_attempt_ms := 0 |}.

Definition with_pod (x : BasePod J) p : PinlingPod := {|
  pl_pod := x; pl_client := pl_client p; pl_sdk_connected := pl_sdk_connected p;
  pl_reconnect_enabled := pl_reconnect_enabled p; pl_reconnecting := pl_reconnecting p;
  pl_last_attempt_ms := pl_last_attempt_ms p |}.
(** The client and [sdk_connected_]. *)
Definition with_client (x : ViewLinkClient) (connected : bool) p : PinlingPod := {|
  pl_pod := pl_pod p; pl_client := x; pl_sdk_connected := connected;
  pl_reconnect_enabled := pl_reconnect_enabled p; pl_reconnecting := pl_reconnecting p;
  pl_last_attempt_ms := pl_last_attempt_ms p |}.
Definition with_reconnect (enabled reconnecting : bool) (last : Z) p : PinlingPod := {|
  pl_pod := pl_pod p; pl_client := pl_client p; pl_sdk_connected := pl_sdk_connected p;
  pl_reconnect_enabled := enabled; pl_reconnecting := reconnecting; pl_last_attempt_ms := last |}.

(** ** The SDK's arguments *)

Record PinlingSdkConfig := { sd_ip : string; sd_port : Z; sd_link_type : string; sd_has_init_args : bool }.

Definition check_sdk (c : PinlingSdkConfig) : PodResult PinlingSdkConfig :=
  match sd_ip c with
  | EmptyString => pod_fail Pe_UNKNOWN_ERROR "PTZ 已启用但未提供可用 IP"
  | _ => if sd_port c =? 0 then pod_fail Pe_UNKNOWN_ERROR "PTZ 已启用但未提供可用端口"
         else pod_success c "成功"
  end.

(** The port of [init_args] is read as an [int] and must be a port. *)
Definition resolvePinlingSdkConfig (info : PodInfo J) (init_args : J) : PodResult PinlingSdkConfig :=
  if j_is_object init_args && negb (json_empty init_args) then
    let ip := string_at init_args "ip" (pi_ip_address info) in
    let link_type := string_at init_args "link_type" "tcp" in
    let with_port port :=
      check_sdk {| sd_ip := ip; sd_port := port; sd_link_type := link_type; sd_has_init_args := true |} in
    match j_view <$> j_find init_args "port" with
    | Some (JUnsigned n) | Some (JInteger n) =>
        let raw_port := wraps 32 n in
        if (raw_port <=? 0) || (65535 <? raw_port) then
          pod_fail Pe_UNKNOWN_ERROR "PTZ init_args.port 超出有效范围"
        else with_port raw_port
    | _ => with_port (pi_port info)
    end
  else check_sdk {| sd_ip := pi_ip_address info; sd_port := pi_port info; sd_link_type := "tcp";
                    sd_has_init_args := false |}.

(** ** Connecting the SDK *)

Definition ptz_enabled p : bool := isCapabilityEnabled PTZ (pl_pod p).

Definition connectSDK (a : attempt) p : PodResult unit * PinlingPod :=
  if vc_connected (pl_client p) then
    (pod_done "ViewLink SDK 已连接，跳过重复连接", with_client (pl_client p) true p)
  else
    match Initialize a (pl_client p) with
    | (Err x, c) =>
        (pod_fail CONNECTION_FAILED ("SDK 初始化失败: " +:+ exn_what x), with_client c false p)
    | (Ok _, c) =>
        match client_Connect a with
        | Err x =>
            (pod_fail CONNECTION_FAILED ("SDK 连接失败: " +:+ exn_what x),
             with_client (client_Shutdown c) false p)
        | Ok _ =>
            if negb (at_connected a) then
              (pod_fail CONNECTION_TIMEOUT "ViewLink SDK 连接超时", with_client (client_Shutdown c) false p)
            else (pod_done "ViewLink SDK 连接成功", with_client (client_link (at_still a) c) (at_still a) p)
        end
    end.

Definition kMaxRetryCount : nat := 3.

(** The loop; [attempts] gives what the library answers, in order. *)
Fixpoint retries (n : nat) (attempts : nat → attempt) (i : nat) (last : PodResult unit) p
    : PodResult unit * PinlingPod :=
  match n with
  | O => (last, p)
  | S n =>
      let '(r, p) := connectSDK (attempts i) p in
      if isSuccess r then (r, p) else retries n attempts (S i) r p
  end.

(** The default constructed result. *)
Definition no_result : PodResult unit := {| pr_code := Pe_SUCCESS; pr_message := ""; pr_data := None |}.

(** The log line reads [open] as a string, which throws when it is something
    else. *)
Definition connectFromConfig (attempts : nat → attempt) p : result (PodResult unit) * PinlingPod :=
  if negb (ptz_enabled p) then
    (Ok (pod_fail CAPABILITY_NOT_SUPPORTED "PTZ 能力未启用，跳过 ViewLink SDK 初始化"), p)
  else
    let ptz_cfg := getCapabilityConfig PTZ (pl_pod p) in
    match getCapabilityInitArgs PTZ (pl_pod p) with
    | Err x => (Err x, p)
    | Ok init_args =>
        let r := resolvePinlingSdkConfig (bp_info (pl_pod p)) init_args in
        if negb (isSuccess r) then (Ok (pod_fail (pr_code r) (pr_message r)), p)
        else
          match (if json_empty ptz_cfg then Ok "" else
                   _ ← j_value_string ptz_cfg "open" "<unset>"; j_value_string ptz_cfg "description" "") with
          | Err x => (Err x, p)
          | Ok _ => let '(r, p) := retries kMaxRetryCount attempts 0 no_result p in (Ok r, p)
          end
    end.

Definition disconnectSDK p : PinlingPod :=
  if negb (pl_sdk_connected p) && negb (vc_connected (pl_client p)) then with_client (pl_client p) false p
  else with_client (client_Shutdown (pl_client p)) false p.

Definition isSdkConnected p : bool := vc_connected (pl_client p).

Definition kReconnectCooldownMs : Z := 5000.

(** [reconnecting_] is set during the attempts and, when they throw, stays set. *)
Definition ensureSdkConnection (now_ms : Z) (attempts : nat → attempt) p : result (PodResult unit) * PinlingPod :=
  if negb (ptz_enabled p) then (Ok (pod_fail CAPABILITY_NOT_SUPPORTED "PTZ 能力未启用"), p)
  else
    let connected := vc_connected (pl_client p) in
    let p := with_client (pl_client p) connected p in
    if connected then (Ok (pod_done "ViewLink SDK 已连接"), p)
    else if bool_decide (ps_state (ca_status (bp_cache (pl_pod p))) ≠ CONNECTED) then
      (Ok (pod_fail NOT_CONNECTED "吊舱当前离线，跳过 SDK 重连"), p)
    else if negb (pl_reconnect_enabled p) then
      (Ok (pod_fail NOT_CONNECTED "ViewLink SDK 自动重连未启用"), p)
    else
      let last_ms := pl_last_attempt_ms p in
      if negb (last_ms =? 0) && (wrapu 64 (now_ms - last_ms) <? kReconnectCooldownMs) then
        (Ok (pod_fail NOT_CONNECTED "ViewLink SDK 重连冷却中"), p)
      else if pl_reconnecting p then (Ok (pod_fail NOT_CONNECTED "ViewLink SDK 重连进行中"), p)
      else
        match connectFromConfig attempts (with_reconnect (pl_reconnect_enabled p) true now_ms p) with
        | (Err x, p) => (Err x, p)
        | (Ok r, p) =>
            let p := with_client (pl_client p) (vc_connected (pl_client p)) p in
            (Ok r, with_reconnect (pl_reconnect_enabled p) false (pl_last_attempt_ms p) p)
        end.

(** ** Connection *)

(** The hook of [Init]. *)
Definition Pinling_onInit p : result (PodResult unit) * PinlingPod :=
  let p := if vc_connected (pl_client p) then disconnectSDK p else p in
  let p := with_reconnect false false 0 (with_client (pl_client p) false p) in
  if negb (ptz_enabled p) then (Ok (pod_done "PTZ 未启用，跳过品凌 SDK 初始化准备"), p)
  else match getCapabilityInitArgs PTZ (pl_pod p) with
       | Err x => (Err x, p)
       | Ok init_args =>
           let r := resolvePinlingSdkConfig (bp_info (pl_pod p)) init_args in
           if isSuccess r then (Ok (pod_done "PinlingPod 品凌特有初始化完成"), p)
           else (Ok (pod_fail (pr_code r) (pr_message r)), p)
       end.

Definition Pinling_Init (cfg : J) p : result (PodResult unit) * PinlingPod :=
  match Init_common cfg (pl_pod p) with
  | (Err x, b) => (Err x, with_pod b p)
  | (Ok (Some r), b) => (Ok r, with_pod b p)
  | (Ok None, b) =>
      match Pinling_onInit (with_pod b p) with
      | (Err x, p) => (Err x, p)
      | (Ok r, p) => if isSuccess r then (Ok (pod_done "PinlingPod 初始化成功"), p)
                     else (Ok r, with_pod (setState Pod_ERROR (pl_pod p)) p)
      end
  end.

(** The failure of the SDK is only logged. *)
Definition Pinling_connect (attempts : nat → attempt) p : result (PodResult unit) * PinlingPod :=
  let '(r, b) := BasePod_connect (pl_pod p) in
  let p := with_pod b p in
  if negb (isSuccess r) then (Ok r, p)
  else if negb (ptz_enabled p) then
    (Ok r, with_reconnect false (pl_reconnecting p) (pl_last_attempt_ms p) p)
  else
    match connectFromConfig attempts (with_reconnect true (pl_reconnecting p) (pl_last_attempt_ms p) p) with
    | (Err x, p) => (Err x, p)
    | (Ok _, p) => (Ok r, p)
    end.

Definition Pinling_disconnect p : PodResult unit * PinlingPod :=
  let p := disconnectSDK (with_reconnect false (pl_reconnecting p) (pl_last_attempt_ms p) p) in
  let '(r, b) := BasePod_disconnect (pl_pod p) in (r, with_pod b p).

(** ** Status *)

Definition with_state (x : PodState) p : PinlingPod := with_pod (setState x (pl_pod p)) p.
Definition with_cached (x : PodState) (msg : string) p : PinlingPod :=
  let s := ca_status (bp_cache (pl_pod p)) in
  with_pod (map_cache (set_cached_status {|
    ps_state := x; ps_temperature := ps_temperature s; ps_voltage := ps_voltage s;
    ps_uptime_ms := ps_uptime_ms s; ps_error_msg := msg |}) (pl_pod p)) p.

(** [ping] is the answer of the ping. *)
Definition Pinling_refreshDeviceStatus (ping : bool) (now_ms : Z) (attempts : nat → attempt) p
    : result (PodResult unit) * PinlingPod :=
  match pi_ip_address (bp_info (pl_pod p)) with
  | EmptyString =>
      let p := with_state Pod_ERROR (with_cached Pod_ERROR "PINLING设备 IP 未配置" p) in
      (Ok (pod_fail Pe_UNKNOWN_ERROR "PINLING设备 IP 未配置"), p)
  | _ =>
      let p := with_cached (if ping then CONNECTED else DISCONNECTED)
                 (if ping then "" else "Ping 探测失败，设备不可达") p in
      let p := with_client (pl_client p) (vc_connected (pl_client p)) p in
      if negb ping then
        (Ok (pod_done "通过 Ping 探测判定PINLING设备离线"), with_state DISCONNECTED (disconnectSDK p))
      else
        let online := pod_done "通过 Ping 探测判定PINLING设备在线" in
        if pl_reconnect_enabled p && negb (pl_sdk_connected p) then
          match ensureSdkConnection now_ms attempts p with
          | (Err x, p) => (Err x, p)
          | (Ok r, p) =>
              (Ok online, with_state (if isSuccess r then CONNECTED
                                      else if pl_reconnecting p then CONNECTING else Pod_ERROR) p)
          end
        else (Ok online, with_state (if pl_sdk_connected p then CONNECTED else DISCONNECTED) p)
  end.

Definition Pinling_getDeviceStatus (ping : bool) (now_ms : Z) (attempts : nat → attempt) p
    : result (PodResult PodStatus) * PinlingPod :=
  match Pinling_refreshDeviceStatus ping now_ms attempts p with
  | (Err x, p) => (Err x, p)
  | (Ok r, p) =>
      if negb (isSuccess r) then (Ok (pod_fail (pr_code r) (pr_message r)), p)
      else
        let s := ca_status (bp_cache (pl_pod p)) in
        (Ok (pod_success s (if bool_decide (ps_state s = CONNECTED)
                            then "通过 Ping 探测判定PINLING设备在线"
                            else "通过 Ping 探测判定PINLING设备离线")), p)
  end.

(** ** The camera

    What goes to the library; a float conversion of a magnification is left to
    it. *)

Inductive vlk_command :=
| TurnTo (yaw pitch : double) | ZoomTo (magnification : double) | Move (horizontal vertical : Z)
| ZoomIn (speed : Z) | ZoomOut (speed : Z) | StopMove | StopZoom | Home.

(** [static_cast] of a double to a [w]-bit integer: undefined when the truncated
    value does not fit. *)
Definition double_to_int (w : Z) (d : double) : outcome Z :=
  match double_trunc d with
  | Some z => if decide (ins w z) then Ret z else Undef
  | None => Undef
  end.

Definition double_gt (x y : double) : bool := SFltb y x.

(** After [ensureSdkConnection]. *)
Definition with_sdk (now_ms : Z) (attempts : nat → attempt) (msg : string)
    (commands : PinlingPod → outcome (list vlk_command)) p
    : outcome (PodResult unit * list vlk_command) * PinlingPod :=
  match ensureSdkConnection now_ms attempts p with
  | (Err x, p) => (Throw x, p)
  | (Ok r, p) =>
      if negb (isSuccess r) then
        (Ret (pod_fail (pr_code r) match pr_message r with EmptyString => "ViewLink SDK 未连接" | m => m end, []), p)
      else (l ← commands p; Ret (pod_done msg, l), p)
  end.

Definition Pinling_setPose (now_ms : Z) (attempts : nat → attempt) (pose : PTZPose) p :=
  with_sdk now_ms attempts "设置云台姿态指令已发送" (λ p,
    let current := pz_zoom (ca_pose (bp_cache (pl_pod p))) in
    Ret (TurnTo (pz_yaw pose) (pz_pitch pose) ::
         if double_gt (pz_zoom pose) zero &&
            double_gt (SFabs (double_sub (pz_zoom pose) current)) (double_1em 2)
         then [ZoomTo (pz_zoom pose)] else [])) p.

Definition Pinling_controlSpeed (now_ms : Z) (attempts : nat → attempt) (cmd : PTZCommand) p :=
  with_sdk now_ms attempts "云台速度控制指令已发送" (λ _,
    h_speed ← double_to_int 16 (SFmul 53 1024 (pc_yaw_speed cmd) (double_of_Z 100));
    v_speed ← double_to_int 16 (SFmul 53 1024 (pc_pitch_speed cmd) (double_of_Z 100));
    if double_gt (SFabs (pc_zoom_speed cmd)) (double_1em 2) then
      zoom_spd ← double_to_int 32 (pc_zoom_speed cmd);
      if 0 <? zoom_spd then Ret [Move h_speed v_speed; ZoomIn (Z.min zoom_spd 8)]
      else if zoom_spd =? - 2 ^ 31 then Undef
      else Ret [Move h_speed v_speed; ZoomOut (Z.min (- zoom_spd) 8)]
    else Ret [Move h_speed v_speed]) p.

Definition Pinling_stopPtz (now_ms : Z) (attempts : nat → attempt) p :=
  with_sdk now_ms attempts "云台已停止" (λ _, Ret [StopMove; StopZoom]) p.
Definition Pinling_goHome (now_ms : Z) (attempts : nat → attempt) p :=
  with_sdk now_ms attempts "云台回中指令已发送" (λ _, Ret [Home]) p.
Definition zoomTo (now_ms : Z) (attempts : nat → attempt) (magnification : double) p :=
  with_sdk now_ms attempts "变焦指令已发送" (λ _, Ret [ZoomTo magnification]) p.
Definition zoomSpeed (now_ms : Z) (attempts : nat → attempt) (speed : Z) p :=
  with_sdk now_ms attempts "变焦速度控制指令已发送" (λ _,
    if 0 <? speed then Ret [ZoomIn (Z.min speed 8)]
    else if speed <? 0 then
      if speed =? - 2 ^ 31 then Undef else Ret [ZoomOut (Z.min (- speed) 8)]
    else Ret [StopZoom]) p.
Definition stopZoom (now_ms : Z) (attempts : nat → attempt) p :=
  with_sdk now_ms attempts "变焦已停止" (λ _, Ret [StopZoom]) p.

(** [attitude] is the attitude of the telemetry, with its magnification, when it
    is valid. *)
Definition Pinling_getPose (now_ms : Z) (attempts : nat → attempt) (attitude : option PTZPose) p
    : result (PodResult PTZPose) * PinlingPod :=
  match ensureSdkConnection now_ms attempts p with
  | (Err x, p) => (Err x, p)
  | (Ok r, p) =>
      if negb (isSuccess r) then
        (Ok (pod_fail (pr_code r) match pr_message r with EmptyString => "ViewLink SDK 未连接" | m => m end), p)
      else match attitude with
           | None => (Ok (pod_success (ca_pose (bp_cache (pl_pod p))) "返回缓存姿态（遥测暂不可用）"), p)
           | Some pose => (Ok (pod_success pose "获取云台姿态成功"), with_pod (map_cache (set_pose pose) (pl_pod p)) p)
           end
  end.
End pinling.
Arguments PinlingPod : clear implicits.

Section facts.
Context {J : Type} `{JsonOps J} `{!JsonItems J}.
Implicit Types (p : PinlingPod J).

(** An attempt connects when both calls of the library and the wait succeed. *)
Definition connects (p_initialized : bool) (a : attempt) : bool :=
  (p_initialized || (at_Init a =? 0)) && (at_Connect a =? 0) && at_connected a.

Lemma connectSDK_spec a p r p' :
  connectSDK a p = (r, p') →
  pl_pod p' = pl_pod p ∧ pl_reconnect_enabled p' = pl_reconnect_enabled p ∧
  pl_reconnecting p' = pl_reconnecting p ∧ pl_last_attempt_ms p' = pl_last_attempt_ms p ∧
  (vc_connected (pl_client p) = false →
     isSuccess r = connects (vc_initialized (pl_client p)) a ∧
     vc_connected (pl_client p') = connects (vc_initialized (pl_client p)) a && at_still a ∧
     (isSuccess r = false → vc_connected (pl_client p') = false ∧ vc_initialized (pl_client p') = false)).
Proof.
  unfold connectSDK, connects, Initialize, client_Connect, client_Shutdown, client_link.
  destruct (vc_connected (pl_client p)) eqn:Ec; [by intros [= <- <-]|].
  destruct (vc_initialized (pl_client p)) eqn:Ei, (at_Init a =? 0), (at_Connect a =? 0), (at_connected a); cbn;
    intros [= <- <-]; cbn; rewrite ?Ei, ?Ec; cbn; rewrite ?Ei, ?Ec; split_and!; try done;
    intros; split_and!; try done; by destruct (at_still a).
Qed.

(** What an attempt and the SDK's reconnection leave alone. *)
Definition same_pod p p' : Prop :=
  pl_pod p' = pl_pod p ∧ pl_reconnect_enabled p' = pl_reconnect_enabled p ∧
  pl_last_attempt_ms p' = pl_last_attempt_ms p ∧ pl_reconnecting p' = pl_reconnecting p.

Lemma retries_same n attempts i last p r p' : retries n attempts i last p = (r, p') → same_pod p p'.
Proof.
  revert i last p. induction n as [|n IH]; intros i last p; cbn [retries]; [by intros [= _ <-]|].
  destruct (connectSDK (attempts i) p) as [r1 p1] eqn:Ec.
  destruct (connectSDK_spec _ _ _ _ Ec) as (H1 & H2 & H3 & H4 & _).
  destruct (isSuccess r1); [by intros [= _ <-]|]. intros (G1 & G2 & G3 & G4)%IH. split_and!; congruence.
Qed.

Lemma connectFromConfig_same attempts p r p' : connectFromConfig attempts p = (r, p') → same_pod p p'.
Proof.
  unfold connectFromConfig. destruct (negb (ptz_enabled p)); [by intros [= _ <-]|].
  destruct (getCapabilityInitArgs PTZ (pl_pod p)); [|by intros [= _ <-]].
  destruct (negb (isSuccess _)); [by intros [= _ <-]|].
  destruct (if json_empty _ then _ else _); [|by intros [= _ <-]].
  destruct (retries _ _ _ _ p) as [r1 p1] eqn:Er. intros [= _ <-]. by eapply retries_same.
Qed.

Lemma retries_spec n attempts i last p r p' :
  vc_connected (pl_client p) = false → (0 < n)%nat → retries n attempts i last p = (r, p') →
  isSuccess r = true ↔
  ∃ k, (k < n)%nat ∧ connects (bool_decide (k = 0%nat) && vc_initialized (pl_client p)) (attempts (i + k)%nat) = true.
Proof.
  revert i last p. induction n as [|n IH]; intros i last p Hc Hn; [lia|]. cbn [retries].
  destruct (connectSDK (attempts i) p) as [r1 p1] eqn:Ec.
  destruct (connectSDK_spec _ _ _ _ Ec) as (_ & _ & _ & _ & Hs). destruct (Hs Hc) as (Hs1 & _ & Hs3).
  destruct (isSuccess r1) eqn:E1.
  - intros [= <- <-]. rewrite E1. split; [|done]. intros _. exists 0%nat. split; [lia|].
    rewrite Nat.add_0_r, bool_decide_true by done. cbn [andb]. congruence.
  - destruct (Hs3 eq_refl) as [Hc1 Hi1]. destruct n as [|n].
    + cbn [retries]. intros [= <- <-]. rewrite E1. split; [done|]. intros (k & Hk & Hco).
      assert (k = 0%nat) as -> by lia. rewrite Nat.add_0_r, bool_decide_true in Hco by done.
      cbn [andb] in Hco. congruence.
    + intros Hr. apply (IH _ _ _ Hc1 ltac:(lia)) in Hr. rewrite Hr. clear Hr. split.
      * intros (k & Hk & Hco). exists (S k). split; [lia|]. rewrite bool_decide_false by lia. cbn [andb].
        rewrite Hi1, andb_false_r in Hco. by rewrite Nat.add_succ_r.
      * intros ([|k] & Hk & Hco).
        -- rewrite Nat.add_0_r, bool_decide_true in Hco by done. cbn [andb] in Hco. congruence.
        -- exists k. split; [lia|]. rewrite bool_decide_false in Hco by lia. cbn [andb] in Hco.
           rewrite Hi1, andb_false_r. by rewrite Nat.add_succ_r in Hco.
Qed.

(** Connecting the SDK makes at most three attempts and none after one
    that connects: it succeeds exactly when one of the three connects, and never
    touches the rest of the pod. *)
Theorem pinling_three_attempts attempts p r p' :
  vc_connected (pl_client p) = false → retries kMaxRetryCount attempts 0 no_result p = (r, p') →
  (isSuccess r = true ↔ ∃ k, (k < 3)%nat ∧
     connects (bool_decide (k = 0%nat) && vc_initialized (pl_client p)) (attempts k) = true) ∧
  same_pod p p' ∧
  (isSuccess r = false → isSdkConnected p' = false) ∧
  ∀ attempts', (∀ k, (k < 3)%nat → attempts' k = attempts k) → retries kMaxRetryCount attempts' 0 no_result p = (r, p').
Proof.
  intros Hc Hr. split_and!.
  - apply (retries_spec 3 attempts 0 no_result p r p' Hc ltac:(lia) Hr).
  - by eapply retries_same.
  - intros Hf. revert Hr. unfold kMaxRetryCount. cbn [retries].
    destruct (connectSDK (attempts 0%nat) p) as [r1 p1] eqn:E1.
    destruct (connectSDK_spec _ _ _ _ E1) as (_ & _ & _ & _ & H1). destruct (H1 Hc) as (_ & _ & H1').
    destruct (isSuccess r1) eqn:S1; [by intros [= -> ->]; congruence|]. destruct (H1' eq_refl) as [Hc1 _].
    destruct (connectSDK (attempts 1%nat) p1) as [r2 p2] eqn:E2.
    destruct (connectSDK_spec _ _ _ _ E2) as (_ & _ & _ & _ & H2). destruct (H2 Hc1) as (_ & _ & H2').
    destruct (isSuccess r2) eqn:S2; [by intros [= -> ->]; congruence|]. destruct (H2' eq_refl) as [Hc2 _].
    destruct (connectSDK (attempts 2%nat) p2) as [r3 p3] eqn:E3.
    destruct (connectSDK_spec _ _ _ _ E3) as (_ & _ & _ & _ & H3). destruct (H3 Hc2) as (_ & _ & H3').
    destruct (isSuccess r3) eqn:S3; intros [= -> ->]; [congruence|]. by destruct (H3' eq_refl).
  - intros attempts' Ha. rewrite <- Hr. unfold kMaxRetryCount. cbn [retries]. by rewrite !Ha by lia.
Qed.

(** ** The cooldown *)

(** Whether [ensureSdkConnection] calls the library. *)
Definition ensure_tries (now_ms : Z) p : bool :=
  ptz_enabled p && negb (vc_connected (pl_client p)) &&
  bool_decide (ps_state (ca_status (bp_cache (pl_pod p))) = CONNECTED) && pl_reconnect_enabled p &&
  ((pl_last_attempt_ms p =? 0) || (kReconnectCooldownMs <=? wrapu 64 (now_ms - pl_last_attempt_ms p))) &&
  negb (pl_reconnecting p).

Lemma ensure_spec now_ms attempts p r p' :
  ensureSdkConnection now_ms attempts p = (r, p') →
  pl_pod p' = pl_pod p ∧ pl_reconnect_enabled p' = pl_reconnect_enabled p ∧
  pl_last_attempt_ms p' = (if ensure_tries now_ms p then now_ms else pl_last_attempt_ms p) ∧
  (ensure_tries now_ms p = false → pl_client p' = pl_client p ∧ pl_reconnecting p' = pl_reconnecting p ∧
     ∀ attempts', ensureSdkConnection now_ms attempts' p = (r, p')).
Proof.
  unfold ensureSdkConnection, ensure_tries, ptz_enabled.
  destruct (isCapabilityEnabled PTZ (pl_pod p)) eqn:Eptz; cbn [negb andb]; [|intros [= <- <-]; by split_and!].
  destruct (vc_connected (pl_client p)) eqn:Ec; cbn [negb andb]; [intros [= <- <-]; by split_and!|].
  unfold with_client. cbn [pl_pod pl_client pl_reconnect_enabled pl_reconnecting pl_last_attempt_ms].
  destruct (decide (ps_state (ca_status (bp_cache (pl_pod p))) = CONNECTED)) as [Hs|Hs].
  2:{ rewrite (bool_decide_true (_ ≠ _)), (bool_decide_false (_ = _)) by done. cbn [andb].
      intros [= <- <-]. by split_and!. }
  rewrite (bool_decide_false (_ ≠ _)), (bool_decide_true (_ = _)) by tauto. cbn [andb].
  destruct (pl_reconnect_enabled p) eqn:Ee; cbn [negb andb]; [|intros [= <- <-]; by split_and!].
  rewrite (Z.leb_antisym _ kReconnectCooldownMs).
  destruct (pl_last_attempt_ms p =? 0) eqn:El; cbn [negb andb orb].
  - destruct (pl_reconnecting p) eqn:Er; cbn [negb andb]; [intros [= <- <-]; by split_and!|].
    destruct (connectFromConfig attempts _) as [r1 p1] eqn:Econ.
    destruct (connectFromConfig_same _ _ _ _ Econ) as (H1 & H2 & H3 & _). cbn in H1, H2, H3.
    destruct r1; intros [= _ <-]; cbn; split_and!; congruence || done.
  - destruct (wrapu 64 (now_ms - pl_last_attempt_ms p) <? kReconnectCooldownMs); cbn [negb andb];
      [intros [= <- <-]; by split_and!|].
    destruct (pl_reconnecting p) eqn:Er; cbn [negb andb]; [intros [= <- <-]; by split_and!|].
    destruct (connectFromConfig attempts _) as [r1 p1] eqn:Econ.
    destruct (connectFromConfig_same _ _ _ _ Econ) as (H1 & H2 & H3 & _). cbn in H1, H2, H3.
    destruct r1; intros [= _ <-]; cbn; split_and!; congruence || done.
Qed.

(** Calls of [ensureSdkConnection], with anything in between that does not store
    the time of the last attempt; the times at which the library is called. *)
Fixpoint reconnect_times (calls : list (Z * (nat → attempt) * (PinlingPod J → PinlingPod J))) p : list Z :=
  match calls with
  | [] => []
  | (now_ms, attempts, between) :: calls =>
      let p := between p in
      (if ensure_tries now_ms p then [now_ms] else []) ++
      reconnect_times calls (ensureSdkConnection now_ms attempts p).2
  end.

Definition keeps_last (f : PinlingPod J → PinlingPod J) : Prop :=
  ∀ p, pl_last_attempt_ms (f p) = pl_last_attempt_ms p.

(** Times of a steady clock that is past zero. *)
Fixpoint steady (prev : Z) (times : list Z) : Prop :=
  match times with [] => True | t :: times => prev <= t ∧ inu 64 t ∧ steady t times end.

Lemma reconnect_since calls prev p :
  Forall (λ c, keeps_last c.2) calls → 0 < prev → steady prev (map (λ c, c.1.1) calls) →
  0 <= pl_last_attempt_ms p <= prev →
  ∀ t, t ∈ reconnect_times calls p →
    prev <= t ∧ (pl_last_attempt_ms p ≠ 0 → kReconnectCooldownMs <= t - pl_last_attempt_ms p).
Proof.
  revert prev p. induction calls as [|[[now att] f] calls IH]; intros prev p Hf Hp Hs Hl t; cbn [reconnect_times].
  { by rewrite elem_of_nil. }
  apply Forall_cons in Hf as [Hf Hfs]. cbn in Hs, Hf. destruct Hs as (Hle & H64 & Hs).
  pose proof (Hf p) as Hfp.
  destruct (ensureSdkConnection now att (f p)) as [r p'] eqn:Ee.
  destruct (ensure_spec _ _ _ _ _ Ee) as (_ & _ & Hlast & _). cbn [snd].
  rewrite elem_of_app. intros [Hin|Hin].
  - destruct (ensure_tries now (f p)) eqn:Et; [|by rewrite elem_of_nil in Hin].
    apply list_elem_of_singleton in Hin as ->. split; [done|]. intros Hne.
    unfold ensure_tries in Et. rewrite !andb_true_iff, orb_true_iff in Et.
    destruct Et as [[_ [Hz|Hcool]] _]; [apply Z.eqb_eq in Hz; congruence|].
    apply Z.leb_le in Hcool. rewrite Hfp in Hcool. rewrite wrapu_id in Hcool; [done|]. unfold inu in *. lia.
  - assert (Hl' : 0 <= pl_last_attempt_ms p' <= now) by (rewrite Hlast, Hfp; destruct (ensure_tries _ _); lia).
    destruct (IH now p' Hfs ltac:(lia) Hs Hl' t Hin) as [Ht Hc]. split; [lia|]. intros Hne.
    rewrite Hlast, Hfp in Hc. destruct (ensure_tries _ _); [specialize (Hc ltac:(lia)); lia|by apply Hc].
Qed.

(** Whatever happens in between, short of an [Init], the library is asked
    to reconnect at most once in 5000 ms. *)
Theorem pinling_cooldown calls prev p i j t t' :
  Forall (λ c, keeps_last c.2) calls → 0 < prev → steady prev (map (λ c, c.1.1) calls) →
  0 <= pl_last_attempt_ms p <= prev → (i < j)%nat →
  reconnect_times calls p !! i = Some t → reconnect_times calls p !! j = Some t' → 5000 <= t' - t.
Proof.
  revert prev p i j. induction calls as [|[[now att] f] calls IH]; intros prev p i j Hf Hp Hs Hl Hij; cbn [reconnect_times].
  { by rewrite lookup_nil. }
  apply Forall_cons in Hf as [Hf Hfs]. cbn in Hs, Hf. destruct Hs as (Hle & H64 & Hs).
  pose proof (Hf p) as Hfp.
  destruct (ensureSdkConnection now att (f p)) as [r p'] eqn:Ee.
  destruct (ensure_spec _ _ _ _ _ Ee) as (_ & _ & Hlast & _). cbn [snd].
  assert (Hl' : 0 <= pl_last_attempt_ms p' <= now) by (rewrite Hlast, Hfp; destruct (ensure_tries _ _); lia).
  destruct (ensure_tries now (f p)) eqn:Et; cbn [app].
  - destruct i as [|i], j as [|j]; [lia| |lia|].
    + cbn [lookup list_lookup]. intros [= <-] Hj. apply list_elem_of_lookup_2 in Hj.
      destruct (reconnect_since calls now p' Hfs ltac:(lia) Hs Hl' t' Hj) as [_ Hc].
      rewrite Hlast in Hc. unfold kReconnectCooldownMs in Hc. apply Hc. lia.
    + cbn [lookup list_lookup]. apply (IH now p' i j Hfs ltac:(lia) Hs Hl'). lia.
  - apply (IH now p' i j Hfs ltac:(lia) Hs Hl' Hij).
Qed.

(** ** The state and the session *)

(** On a pod without PTZ whose session is connected, one status poll of a
    device that answers stores the state disconnected and leaves the session
    connected.  From then on a disconnect is refused without closing the session,
    and a connect is refused because the session is connected and leaves the pod
    in the error state. *)
Theorem pinling_poll_loses_connection p s now_ms attempts r p1 :
  ptz_enabled p = false → vc_connected (pl_client p) = false → pl_reconnect_enabled p = false →
  pi_ip_address (bp_info (pl_pod p)) ≠ "" → bp_session (pl_pod p) = Some s → bs_connected s = true →
  Pinling_refreshDeviceStatus true now_ms attempts p = (r, p1) →
  r = Ok (pod_done "通过 Ping 探测判定PINLING设备在线") ∧
  bp_state (pl_pod p1) = DISCONNECTED ∧ bp_session (pl_pod p1) = Some s ∧
  (let '(r, p2) := Pinling_disconnect p1 in
   pr_code r = NOT_CONNECTED ∧ bp_session (pl_pod p2) = Some s) ∧
  (∀ attempts', ∃ r p2, Pinling_connect attempts' p1 = (Ok r, p2) ∧ pr_code r = ALREADY_CONNECTED ∧
     bp_state (pl_pod p2) = Pod_ERROR).
Proof.
  intros Hptz Hvc Hre Hip Hs Hc. unfold Pinling_refreshDeviceStatus.
  destruct (pi_ip_address (bp_info (pl_pod p))) as [|ch ip] eqn:Eip; [done|]. cbn. rewrite Hvc, Hre. cbn.
  intros [= <- <-]. cbn. split; [done|]. split; [done|]. split; [done|]. split.
  - unfold Pinling_disconnect, disconnectSDK. cbn. rewrite Hvc. cbn. done.
  - intros attempts'. unfold Pinling_connect, BasePod_connect. cbn. rewrite Hs. unfold session_connect. rewrite Hc.
    cbn. do 2 eexists. split; [reflexivity|]. done.
Qed.

(** Once an attempt threw, [reconnecting_] stays set and no other is made. *)
Lemma reconnecting_is_final now_ms attempts p :
  pl_reconnecting p = true →
  ensure_tries now_ms p = false ∧ pl_reconnecting (ensureSdkConnection now_ms attempts p).2 = true.
Proof.
  intros Hr. assert (Ht : ensure_tries now_ms p = false) by (unfold ensure_tries; by rewrite Hr, andb_false_r).
  split; [done|]. destruct (ensureSdkConnection now_ms attempts p) as [r p'] eqn:Ee.
  destruct (ensure_spec _ _ _ _ _ Ee) as (_ & _ & _ & Hf). destruct (Hf Ht) as (_ & Hx & _). cbn. congruence.
Qed.
End facts.

(** *** Witnesses *)

Definition pin_info : PodInfo jvalue := {|
  pi_pod_id := "pod2"; pi_pod_name := "pod"; pi_vendor := PINLING; pi_model := ""; pi_firmware_ver := "";
  pi_ip_address := ""; pi_port := 0; pi_raw_config := VObj [] |}.
Definition pin_cfg (ptz : jvalue) : jvalue :=
  VObj [("ip", VStr "10.0.0.3"); ("port", VNum 2000); ("capability", VObj [("PTZ", ptz)])].
Definition ptz_off : jvalue := VObj [("open", VStr "disable")].
Definition ptz_on : jvalue := VObj [("open", VStr "enable")].
(** A flag where the code expects a text. *)
Definition ptz_flag : jvalue := VObj [("open", VBool true)].

Definition refused (i : nat) : attempt :=
  {| at_Init := 0; at_Connect := 7; at_connected := false; at_telemetry := false; at_still := false |}.
Definition third_time (i : nat) : attempt :=
  {| at_Init := 0; at_Connect := if bool_decide (i = 2%nat) then 0 else 7; at_connected := true;
     at_telemetry := true; at_still := true |}.

(** After [Init] and [connect]. *)
Definition pin_connected (ptz : jvalue) (attempts : nat → attempt) : PinlingPod jvalue :=
  (Pinling_connect attempts (Pinling_Init (pin_cfg ptz) (PinlingPod_construct pin_info)).2).2.

Lemma pinling_three_attempts_witness :
  isSdkConnected (pin_connected ptz_on third_time) = true ∧
  isSuccess (retries kMaxRetryCount third_time 0 no_result (PinlingPod_construct pin_info)).1 = true.
Proof.
  split; [vm_compute; reflexivity|].
  destruct (retries kMaxRetryCount third_time 0 no_result (PinlingPod_construct pin_info)) as [r p'] eqn:Er.
  apply (pinling_three_attempts third_time (PinlingPod_construct pin_info) r p' eq_refl Er).
  exists 2%nat. split; [lia|vm_compute; reflexivity].
Defined.

(** The second poll, 4 s after the first, leaves the library alone; the third
    asks it again. *)
Definition pin_polled : PinlingPod jvalue :=
  with_cached CONNECTED "" (pin_connected ptz_on refused).
Definition pin_calls : list (Z * (nat → attempt) * (PinlingPod jvalue → PinlingPod jvalue)) :=
  [(10000, refused, λ p, p); (14000, refused, λ p, p); (15000, third_time, λ p, p)].

Lemma pinling_cooldown_witness :
  reconnect_times pin_calls pin_polled = [10000; 15000] ∧ 5000 <= 15000 - 10000.
Proof.
  assert (Hr : reconnect_times pin_calls pin_polled = [10000; 15000]) by (vm_compute; reflexivity).
  split; [exact Hr|].
  apply (pinling_cooldown pin_calls 1 pin_polled 0 1); [|lia| |vm_compute; split; discriminate|lia| |].
  - unfold keeps_last. repeat constructor.
  - cbn. unfold inu. lia.
  - by rewrite Hr.
  - by rewrite Hr.
Defined.

Lemma pinling_poll_loses_connection_witness :
  bp_state (pl_pod (pin_connected ptz_off refused)) = CONNECTED ∧
  bp_state (pl_pod (Pinling_refreshDeviceStatus true 20000 refused (pin_connected ptz_off refused)).2) = DISCONNECTED.
Proof.
  split; [vm_compute; reflexivity|].
  destruct (Pinling_refreshDeviceStatus true 20000 refused (pin_connected ptz_off refused)) as [r p1] eqn:Er.
  destruct (bp_session (pl_pod (pin_connected ptz_off refused))) as [s|] eqn:Es; [|by vm_compute in Es].
  apply (pinling_poll_loses_connection (pin_connected ptz_off refused) s 20000 refused r p1);
    [vm_compute; reflexivity..|by vm_compute|exact Es| |exact Er].
  vm_compute in Es. injection Es as <-. reflexivity.
Defined.

(** With a flag for [open] the ability counts as enabled, [Init] is content, and
    [connect] throws; a later poll throws as well and leaves [reconnecting_] set
    for ever. *)
Lemma flag_for_open_throws :
  let p := (Pinling_Init (pin_cfg ptz_flag) (PinlingPod_construct pin_info)).2 in
  ptz_enabled p = true ∧
  (Pinling_Init (pin_cfg ptz_flag) (PinlingPod_construct pin_info)).1 = Ok (pod_done "PinlingPod 初始化成功") ∧
  is_ok (Pinling_connect third_time p).1 = false ∧
  pl_reconnecting (Pinling_refreshDeviceStatus true 20000 third_time (Pinling_connect third_time p).2).2 = true.
Proof. vm_compute. done. Qed.

(** A yaw speed of 400 degrees a second does not fit the library's [short]. *)
Lemma fast_yaw_undefined :
  (Pinling_controlSpeed 20000 third_time
     {| pc_yaw_speed := literal 400 0; pc_pitch_speed := zero; pc_zoom_speed := zero |}
     (pin_connected ptz_on third_time)).1 = Undef.
Proof. vm_compute. done. Qed.
