(* ===== verification/PodManager.v ===== *)
(** * The manager of the pods

    Model of my_pod/registry/pod_registry.cpp and manager/pod_manager.cpp.  What
    the manager asks of a pod is the class [IPod], which the pods of both vendors
    implement.  Each method holds the mutex for its whole body, but for the call
    on the pod in [connectPod] and [disconnectPod], which is a step of its own. *)

From S2P Require Import Prelude Json Double PodTypes PodMonitor Pod PinlingPod.
From stdpp Require Import gmap.

Local Open Scope Z_scope.

Class IPod (J P : Type) := {
  ip_info : P → PodInfo J;
  ip_state : P → PodState;
  ip_Init : J → P → result (PodResult unit) * P;
  ip_connect : P → result (PodResult unit) * P;
  ip_disconnect : P → PodResult unit * P;
  ip_startMonitor : PodMonitorConfig → P → P;
  ip_stopMonitor : P → P;
  ip_isMonitorRunning : P → bool;
  ip_runtime : P → PodRuntimeStatus;
  ip_make : session_kind → PodInfo J → P
}.

Definition ip_id {J P} `{IPod J P} (p : P) : string := pi_pod_id (ip_info p).
Definition ip_isConnected {J P} `{IPod J P} (p : P) : bool := bool_decide (ip_state p = CONNECTED).

(** A pod keeps its id; starting and stopping the monitor does so, and is all
    that changes whether it runs, but for [Init], which stops it; a connected pod
    that is disconnected is not connected any more. *)
Class IPodLaws (J P : Type) `{IPod J P} := {
  ip_make_spec k i : ip_info (ip_make k i) = i ∧ ip_isMonitorRunning (ip_make k i) = false ∧
    ip_isConnected (ip_make k i) = false;
  ip_Init_spec cfg p : ip_id (ip_Init cfg p).2 = ip_id p ∧
    (ip_isMonitorRunning p = false → ip_isMonitorRunning (ip_Init cfg p).2 = false);
  ip_connect_spec p : ip_id (ip_connect p).2 = ip_id p ∧
    ip_isMonitorRunning (ip_connect p).2 = ip_isMonitorRunning p;
  ip_disconnect_spec p : ip_id (ip_disconnect p).2 = ip_id p ∧
    ip_isMonitorRunning (ip_disconnect p).2 = ip_isMonitorRunning p ∧
    ip_isConnected (ip_disconnect p).2 = false;
  ip_start_spec mc p : ip_id (ip_startMonitor mc p) = ip_id p ∧ ip_isMonitorRunning (ip_startMonitor mc p) = true;
  ip_stop_spec p : ip_id (ip_stopMonitor p) = ip_id p ∧ ip_isMonitorRunning (ip_stopMonitor p) = false ∧
    ip_isConnected (ip_stopMonitor p) = ip_isConnected p
}.

(** ** The registry *)

Section registry.
Context {P : Type}.
Abbreviation registry := (gmap string P).
Implicit Types (m : registry) (pod_id : string).

(** A null pointer is refused; an entry is overwritten. *)
Definition registerPod pod_id (pod : option P) m : bool * registry :=
  match pod with None => (false, m) | Some p => (true, <[pod_id := p]> m) end.
Definition unregisterPod pod_id m : bool * registry :=
  match m !! pod_id with None => (false, m) | Some _ => (true, delete pod_id m) end.
Definition registry_getPod pod_id m : option P := m !! pod_id.
Definition hasPod pod_id m : bool := match m !! pod_id with Some _ => true | None => false end.
Definition listPodIds m : list string := map fst (map_to_list m).
Definition listPods m : list P := map snd (map_to_list m).
Definition registry_size m : nat := size m.
End registry.

(** ** The manager *)

Section manager.
Context {J : Type} `{JsonOps J} `{!JsonItems J} {P : Type} `{IPod J P}.
(** [get<uint32_t>()] of a JSON float. *)
Variable float_uint32 : J → Z.

Record PodManager := {
  mg_registry : gmap string P;
  mg_init_config : option J;          (** [None]: null *)
  mg_initialized : bool
}.
Implicit Types (g : PodManager) (pod_id : string) (cfg : J).

Definition PodManager_new : PodManager :=
  {| mg_registry := ∅; mg_init_config := None; mg_initialized := false |}.
Definition with_registry (m : gmap string P) g : PodManager :=
  {| mg_registry := m; mg_init_config := mg_init_config g; mg_initialized := mg_initialized g |}.

(** *** The configuration of a monitor *)

Definition j_get_uint32 (v : J) : result Z :=
  match j_view v with
  | JUnsigned n | JInteger n => Ok (wrapu 32 n)
  | JFloat => Ok (wrapu 32 (float_uint32 v))
  | JBoolean b => Ok (if b then 1 else 0)
  | _ => Err (other_error (j_type_error v))
  end.

(** [if (m.contains(key)) cur = m[key].get<T>()]. *)
Definition override {A} (get : J → result A) (m : J) (key : string) (cur : A) : result A :=
  match j_find m key with Some v => get v | None => Ok cur end.

(** The lambda [isOpen]. *)
Definition isOpen (capability : J) (key : string) : result bool :=
  match j_find capability key with
  | None => Ok false
  | Some cap =>
      if negb (j_is_object cap) then Ok false
      else s ← j_value_string cap "open" ""; Ok (String.eqb s "enable")
  end.

(** The lambda [applyMonitorSwitch]: [capability] tells whether the ability is
    open when there is a section of capabilities. *)
Definition applyMonitorSwitch (m : J) (key : string) (capability : option bool) (target : bool) : result bool :=
  match j_find m key with
  | None => Ok target
  | Some v =>
      requested ← j_get_bool v;
      Ok (match capability with Some enabled => enabled && requested | None => requested end)
  end.

(** The switches the capabilities derive: status, PTZ, laser, stream. *)
Definition open_switches (capability : J) : result (bool * bool * bool * bool) :=
  status ← isOpen capability "STATUS";
  ptz ← isOpen capability "PTZ";
  laser ← isOpen capability "LASER";
  stream ← isOpen capability "STREAM";
  Ok (status, ptz, laser, stream).

Definition parse_monitor (m : J) (open : option (bool * bool * bool * bool)) (d : PodMonitorConfig)
    : result PodMonitorConfig :=
  poll ← override j_get_uint32 m "poll_interval_ms" (mc_poll_interval_ms d);
  status_ms ← override j_get_uint32 m "status_interval_ms" (mc_status_interval_ms d);
  ptz_ms ← override j_get_uint32 m "ptz_interval_ms" (mc_ptz_interval_ms d);
  laser_ms ← override j_get_uint32 m "laser_interval_ms" (mc_laser_interval_ms d);
  stream_ms ← override j_get_uint32 m "stream_interval_ms" (mc_stream_interval_ms d);
  window ← override j_get_uint32 m "online_window_size" (mc_online_window_size d);
  threshold ← override j_get_uint32 m "online_threshold" (mc_online_threshold d);
  status ← applyMonitorSwitch m "enable_status_poll" ((λ x, x.1.1.1) <$> open) (mc_enable_status_poll d);
  ptz ← applyMonitorSwitch m "enable_ptz_poll" ((λ x, x.1.1.2) <$> open) (mc_enable_ptz_poll d);
  stream ← applyMonitorSwitch m "enable_stream_poll" ((λ x, x.2) <$> open) (mc_enable_stream_poll d);
  auto_start ← override j_get_bool m "auto_start" (mc_auto_start d);
  Ok {| mc_poll_interval_ms := poll; mc_status_interval_ms := status_ms; mc_ptz_interval_ms := ptz_ms;
        mc_laser_interval_ms := laser_ms; mc_stream_interval_ms := stream_ms;
        mc_online_window_size := window; mc_online_threshold := threshold;
        mc_enable_status_poll := status; mc_enable_ptz_poll := ptz;
        mc_enable_laser_poll := mc_enable_laser_poll d; mc_enable_stream_poll := stream;
        mc_auto_start := auto_start |}.

(** The defaults with the switches of the capabilities. *)
Definition derived (open : option (bool * bool * bool * bool)) : PodMonitorConfig :=
  let d := PodMonitorConfig_default in
  match open with
  | None => d
  | Some (status, ptz, laser, stream) =>
      {| mc_poll_interval_ms := mc_poll_interval_ms d; mc_status_interval_ms := mc_status_interval_ms d;
         mc_ptz_interval_ms := mc_ptz_interval_ms d; mc_laser_interval_ms := mc_laser_interval_ms d;
         mc_stream_interval_ms := mc_stream_interval_ms d; mc_online_window_size := mc_online_window_size d;
         mc_online_threshold := mc_online_threshold d; mc_enable_status_poll := status;
         mc_enable_ptz_poll := ptz; mc_enable_laser_poll := laser; mc_enable_stream_poll := stream;
         mc_auto_start := mc_auto_start d |}
  end.

Definition parseMonitorConfig (pod_cfg : J) : result PodMonitorConfig :=
  open ← match j_object_at pod_cfg "capability" with
         | Some capability => x ← open_switches capability; Ok (Some x)
         | None => Ok None
         end;
  match j_object_at pod_cfg "monitor" with
  | Some m => parse_monitor m open (derived open)
  | None => Ok (derived open)
  end.

(** *** Creating and adding pods *)

Definition vendor_of (k : session_kind) : PodVendor :=
  match k with Dji_session => DJI | Pinling_session => PINLING | Base_session => Vendor_UNKNOWN end.

(** The members in the order they are read; the port goes through an [int] into
    a uint16. *)
Definition createPod `{!JsonNumbers J} pod_id (pod_cfg : J) : result (option P) :=
  type ← j_value_string pod_cfg "type" "";
  name ← j_value_string pod_cfg "name" pod_id;
  ip ← j_value_string pod_cfg "ip" "";
  port ← j_value j_get_int pod_cfg "port" 0;
  model ← j_value_string pod_cfg "model" "";
  firmware ← j_value_string pod_cfg "firmware_ver" "";
  let info k := {| pi_pod_id := pod_id; pi_pod_name := name; pi_vendor := vendor_of k; pi_model := model;
                   pi_firmware_ver := firmware; pi_ip_address := ip; pi_port := wrapu 16 port;
                   pi_raw_config := pod_cfg |} in
  Ok (if String.eqb type "dji" then Some (ip_make Dji_session (info Dji_session))
      else if String.eqb type "pinling" then Some (ip_make Pinling_session (info Pinling_session))
      else None).

(** One item of [pod_args]: the pod to register, if it came that far. *)
Definition item_pod `{!JsonNumbers J} pod_id (pod_cfg : J) : result (option P) :=
  pod ← createPod pod_id pod_cfg;
  match pod with
  | None => Ok None
  | Some p =>
      match ip_Init pod_cfg p with
      | (Err x, _) => Err x
      | (Ok r, p) =>
          if negb (isSuccess r) then Ok None
          else match ip_connect p with
               | (Err x, _) => Err x
               | (Ok _, p) =>
                   mc ← parseMonitorConfig pod_cfg;
                   Ok (Some (if mc_auto_start mc then ip_startMonitor mc p else p))
               end
      end
  end.

(** An exception leaves the pods of the items before it registered. *)
Fixpoint init_items `{!JsonNumbers J} (items : list (string * J)) (m : gmap string P) : result unit * gmap string P :=
  match items with
  | [] => (Ok tt, m)
  | (pod_id, pod_cfg) :: items =>
      match item_pod pod_id pod_cfg with
      | Err x => (Err x, m)
      | Ok pod => init_items items (match pod with Some p => <[pod_id := p]> m | None => m end)
      end
  end.

Definition manager_Init `{!JsonNumbers J} (config : J) g : result bool * PodManager :=
  if mg_initialized g then (Ok true, g)
  else
    let g := {| mg_registry := mg_registry g; mg_init_config := Some config; mg_initialized := false |} in
    match j_dump config with
    | Err x => (Err x, g)
    | Ok _ =>
        match j_object_at config "pod_args" with
        | None => (Ok true, {| mg_registry := mg_registry g; mg_init_config := Some config; mg_initialized := true |})
        | Some pod_args =>
            match init_items (j_items pod_args) (mg_registry g) with
            | (Err x, m) => (Err x, with_registry m g)
            | (Ok _, m) => (Ok true, {| mg_registry := m; mg_init_config := Some config; mg_initialized := true |})
            end
        end
    end.

Definition IsInitialized g : bool := mg_initialized g.
Definition GetInitConfig g : option J := mg_init_config g.

Definition addPod (pod : option P) g : PodResult unit * PodManager :=
  match pod with
  | None => (pod_fail Pe_UNKNOWN_ERROR "吊舱实例为空", g)
  | Some p =>
      if hasPod (ip_id p) (mg_registry g) then (pod_fail POD_ALREADY_EXISTS "", g)
      else (pod_done "添加吊舱成功", with_registry (registerPod (ip_id p) (Some p) (mg_registry g)).2 g)
  end.

(** What happens to a pod before it leaves the manager. *)
Definition release (p : P) : P :=
  let p := if ip_isMonitorRunning p then ip_stopMonitor p else p in
  if ip_isConnected p then (ip_disconnect p).2 else p.

(** The pod that was removed comes last. *)
Definition removePod pod_id g : PodResult unit * PodManager * option P :=
  match registry_getPod pod_id (mg_registry g) with
  | None => (pod_fail POD_NOT_FOUND "", g, None)
  | Some p => (pod_done "移除吊舱成功", with_registry (unregisterPod pod_id (mg_registry g)).2 g, Some (release p))
  end.

(** [clear()] of a JSON value keeps its type. *)
Definition json_clear `{!JsonNumbers J} (v : J) : J :=
  match j_view v with
  | JObject => j_object []
  | JArray => j_array []
  | JString _ => j_string ""
  | JBoolean _ => j_bool false
  | JUnsigned _ | JInteger _ => j_number 0
  | JFloat => j_double zero
  | JNull => v
  end.

(** [Shutdown], and [ResetForTest], which does the same; the pods that were in the
    registry come last. *)
Definition manager_Shutdown `{!JsonNumbers J} g : PodManager * list P :=
  ({| mg_registry := ∅; mg_init_config := json_clear <$> mg_init_config g; mg_initialized := false |},
   map release (listPods (mg_registry g))).

Definition getPod pod_id g : option P := registry_getPod pod_id (mg_registry g).
Definition manager_size g : nat := registry_size (mg_registry g).

(** *** Connecting

    The lookup holds the mutex, the call on the pod does not: [on_pod] is the call,
    on the pod the lookup found, when it is still the one of the registry.
    [connectPod] and [disconnectPod] put the two together, with nothing in between;
    [mg_step] has them apart. *)

Definition put_pod pod_id (p : P) g : PodManager := with_registry (<[pod_id := p]> (mg_registry g)) g.

Definition on_pod {R} pod_id (call : P → R * P) (p : P) g : R * PodManager :=
  let '(r, p) := call p in (r, put_pod pod_id p g).

Definition connectPod pod_id g : result (PodResult unit) * PodManager :=
  match getPod pod_id g with
  | None => (Ok (pod_fail POD_NOT_FOUND ("吊舱不存在: " +:+ pod_id)), g)
  | Some p => on_pod pod_id ip_connect p g
  end.
Definition disconnectPod pod_id g : PodResult unit * PodManager :=
  match getPod pod_id g with
  | None => (pod_fail POD_NOT_FOUND ("吊舱不存在: " +:+ pod_id), g)
  | Some p => on_pod pod_id ip_disconnect p g
  end.

(** *** The snapshot *)

Definition snapshot_item (p : P) : J :=
  let info := ip_info p in
  j_object ([("pod_id", j_string (pi_pod_id info)); ("pod_name", j_string (pi_pod_name info));
             ("vendor", j_string (podVendorToString (pi_vendor info))); ("ip", j_string (pi_ip_address info));
             ("port", j_number (pi_port info)); ("state", j_string (podStateToString (ip_state p)));
             ("connected", j_bool (ip_isConnected p)); ("monitor_running", j_bool (ip_isMonitorRunning p))] ++
            if ip_isMonitorRunning p then
              [("is_online", j_bool (rt_is_online (ip_runtime p)));
               ("last_update_ms", j_number (rt_last_update_ms (ip_runtime p)))]
            else []).
Definition manager_snapshot g : J := j_array (map snapshot_item (listPods (mg_registry g))).

(** ** The calls

    [mg_lookup] is the section of [getPod], [connectPod] and [disconnectPod] under
    the mutex.  [mg_pod] is a call, without the mutex, on a pod that is in the
    registry, by whoever got it before; such a call on a pod that was removed in
    the meantime does not change the manager. *)

Inductive mg_step `{!JsonNumbers J} g : PodManager → Prop :=
| mg_init config r g' : manager_Init config g = (r, g') → mg_step g g'
| mg_add pod r g' : addPod pod g = (r, g') → mg_step g g'
| mg_remove pod_id : mg_step g (removePod pod_id g).1.2
| mg_shutdown : mg_step g (manager_Shutdown g).1
| mg_lookup pod_id p : getPod pod_id g = p → mg_step g g
| mg_pod {R} pod_id p (call : P → R * P) :
    getPod pod_id g = Some p → ip_id (call p).2 = ip_id p → mg_step g (on_pod pod_id call p g).2.
End manager.
Arguments PodManager : clear implicits.

Section facts.
Context {J : Type} `{JsonOps J, !JsonNumbers J, !JsonItems J} {P : Type} `{IPodLaws J P}.
Variable float_uint32 : J → Z.
Implicit Types (g : PodManager J P) (reg : gmap string P) (m pod_cfg : J).
Abbreviation parse := (parseMonitorConfig float_uint32).
Abbreviation item := (item_pod (P := P) float_uint32).

(** ** The monitor's configuration *)

Lemma override_uint32 m key cur z : inu 32 cur → override (j_get_uint32 float_uint32) m key cur = Ok z → inu 32 z.
Proof.
  intros Hc. unfold override, j_get_uint32. destruct (j_find m key) as [v|]; [|by intros [= <-]].
  destruct (j_view v); try done; intros [= <-]; try (by apply inu_wrapu).
  destruct b; unfold inu; lia.
Qed.

Lemma switch_tight m key enabled target b :
  (target = true → enabled = true) → applyMonitorSwitch m key (Some enabled) target = Ok b → b = true → enabled = true.
Proof.
  intros Ht. unfold applyMonitorSwitch. destruct (j_find m key) as [v|]; [|intros [= <-]; done].
  destruct (j_get_bool v); [|done]. intros [= <-]. by intros [? _]%andb_prop.
Qed.

Lemma derived_ok open : cfg_ok (derived open).
Proof.
  assert (Hd : ∀ z, (0 <=? z) && (z <? 2 ^ 32) = true → inu 32 z).
  { intros z [Hlo%Z.leb_le Hhi%Z.ltb_lt]%andb_prop. unfold inu. lia. }
  unfold cfg_ok. destruct open as [[[[? ?] ?] ?]|]; (split_and!; try by apply Hd); by intros []; apply Hd.
Qed.

(** The configuration of a monitor is made of uint32 numbers, and with a
    section of capabilities the monitor can only switch polls off: each poll that
    is enabled is one whose capability is open, and the laser is polled exactly
    when its capability is open.  Without such a section the laser is never
    polled. *)
Theorem monitor_config_tightens pod_cfg mc :
  parse pod_cfg = Ok mc →
  cfg_ok mc ∧
  match j_object_at pod_cfg "capability" with
  | Some capability =>
      ∃ status ptz laser stream, open_switches capability = Ok (status, ptz, laser, stream) ∧
      (mc_enable_status_poll mc = true → status = true) ∧ (mc_enable_ptz_poll mc = true → ptz = true) ∧
      mc_enable_laser_poll mc = laser ∧ (mc_enable_stream_poll mc = true → stream = true)
  | None => mc_enable_laser_poll mc = false
  end.
Proof.
  unfold parseMonitorConfig.
  assert (Hmon : ∀ open, match j_object_at pod_cfg "monitor" with
      | Some m => parse_monitor float_uint32 m open (derived open) | None => Ok (derived open) end = Ok mc →
    cfg_ok mc ∧ mc_enable_laser_poll mc = mc_enable_laser_poll (derived open) ∧
    ∀ status ptz laser stream, open = Some (status, ptz, laser, stream) →
      (mc_enable_status_poll mc = true → status = true) ∧ (mc_enable_ptz_poll mc = true → ptz = true) ∧
      (mc_enable_stream_poll mc = true → stream = true)).
  { intros open Hm. destruct (derived_ok open) as (Hw & Ht & Hp & Hi).
    destruct (j_object_at pod_cfg "monitor") as [m|].
    - revert Hm. unfold parse_monitor.
      repeat lazymatch goal with |- (?x ≫= _) = _ → _ =>
        let E := fresh "E" in destruct x eqn:E; cbn [mbind result_bind]; [|done] end.
      intros [= <-]. split; [|split; [done|]].
      + pose proof (Hi A_status) as Hst. pose proof (Hi A_ptz) as Hptz. pose proof (Hi A_laser) as Hla.
        pose proof (Hi A_stream) as Hstr. cbn [interval] in *.
        split_and!; try intros []; (eapply override_uint32; [|eassumption]); assumption.
      + intros status ptz laser stream ->. cbn in *. split_and!; by eapply switch_tight.
    - injection Hm as <-. split; [by apply derived_ok|]. split; [done|]. by intros status ptz laser stream ->. }
  destruct (j_object_at pod_cfg "capability") as [capability|].
  - destruct (open_switches capability) as [[[[status ptz] laser] stream]|x]; [|done]. cbn [mbind result_bind].
    intros (Hc & Hl & Hs)%Hmon. split; [done|]. exists status, ptz, laser, stream.
    destruct (Hs _ _ _ _ eq_refl) as (? & ? & ?). by split_and!.
  - cbn [mbind result_bind]. intros (Hc & Hl & _)%Hmon. by split.
Qed.

(** ** The registry *)

(** Every pod is filed under its own id. *)
Definition filed (reg : gmap string P) : Prop := ∀ pod_id p, reg !! pod_id = Some p → ip_id p = pod_id.

Lemma pod_filed_insert pod_id p reg : ip_id p = pod_id → filed reg → filed (<[pod_id := p]> reg).
Proof. intros Hi Hf id q. rewrite lookup_insert_Some. intros [[<- <-]|[_ Hq]]; [done|by apply Hf]. Qed.

Lemma createPod_spec pod_id pod_cfg p :
  createPod pod_id pod_cfg = Ok (Some p) → ip_id p = pod_id ∧ ip_isMonitorRunning p = false ∧ ip_isConnected p = false.
Proof.
  unfold createPod. repeat lazymatch goal with |- (?x ≫= _) = _ → _ => destruct x; cbn [mbind result_bind]; [|done] end.
  destruct (String.eqb _ "dji"); [|destruct (String.eqb _ "pinling"); [|done]]; intros [= <-];
    unfold ip_id; match goal with |- context [ip_make ?k ?i] => destruct (ip_make_spec k i) as (-> & -> & ->) end; done.
Qed.

(** A pod that [Init] files carries its id and runs its monitor when the
    configuration says so. *)
Lemma item_pod_spec pod_id pod_cfg p :
  item pod_id pod_cfg = Ok (Some p) →
  ip_id p = pod_id ∧ ∃ mc, parse pod_cfg = Ok mc ∧ ip_isMonitorRunning p = mc_auto_start mc.
Proof.
  unfold item_pod. destruct (createPod pod_id pod_cfg) as [[p0|]|] eqn:Ec; cbn [mbind result_bind]; [|done..].
  destruct (createPod_spec _ _ _ Ec) as (Hid & Hrun & _). pose proof (ip_Init_spec pod_cfg p0) as [Hi1 Hr1].
  destruct (ip_Init pod_cfg p0) as [[r|] p1]; [|done]. cbn in Hi1, Hr1.
  destruct (negb (isSuccess r)); [done|]. pose proof (ip_connect_spec p1) as [Hi2 Hr2].
  destruct (ip_connect p1) as [[r2|] p2]; [|done]. cbn in Hi2, Hr2.
  destruct (parse pod_cfg) as [mc|] eqn:Em; cbn [mbind result_bind]; [|done]. intros [= <-].
  assert (Hp2 : ip_id p2 = pod_id ∧ ip_isMonitorRunning p2 = false) by (rewrite Hi2, Hr2, Hi1; auto).
  destruct (ip_start_spec mc p2) as [Hs1 Hs2].
  destruct (mc_auto_start mc) eqn:Ea.
  - rewrite Hs1, Hs2. split; [apply Hp2|]. by exists mc.
  - split; [apply Hp2|]. exists mc. split; [done|]. rewrite Ea. apply Hp2.
Qed.

Lemma release_spec p :
  ip_id (release p) = ip_id p ∧ ip_isMonitorRunning (release p) = false ∧ ip_isConnected (release p) = false.
Proof.
  unfold release.
  set (q := if ip_isMonitorRunning p then _ else _).
  assert (Hq : ip_id q = ip_id p ∧ ip_isMonitorRunning q = false).
  { subst q. destruct (ip_isMonitorRunning p) eqn:Er; [|done]. by destruct (ip_stop_spec p) as (? & ? & _). }
  destruct Hq as [Hi Hr]. destruct (ip_isConnected q) eqn:Ec; [|done].
  destruct (ip_disconnect_spec q) as (Hd1 & Hd2 & Hd3). split_and!; congruence.
Qed.

Lemma init_items_spec items reg r reg' :
  NoDup (map fst items) → init_items float_uint32 items reg = (r, reg') →
  ∃ seen rest, items = seen ++ rest ∧ (r = Ok tt → rest = []) ∧
    (∀ x, r = Err x → ∃ pod_id pod_cfg rest', rest = (pod_id, pod_cfg) :: rest' ∧ item pod_id pod_cfg = Err x) ∧
    (∀ pod_id pod_cfg p, (pod_id, pod_cfg) ∈ seen → item pod_id pod_cfg = Ok (Some p) → reg' !! pod_id = Some p) ∧
    (∀ pod_id, (∀ pod_cfg p, (pod_id, pod_cfg) ∈ seen → item pod_id pod_cfg ≠ Ok (Some p)) →
       reg' !! pod_id = reg !! pod_id).
Proof.
  revert reg. induction items as [|[id cfg] items IH]; intros reg Hnd; cbn [init_items].
  { intros [= <- <-]. exists [], []. split_and!; try done. intros ??? Hn. by apply elem_of_nil in Hn. }
  cbn [map fst] in Hnd. apply NoDup_cons in Hnd as [Hni Hnd].
  destruct (item id cfg) as [op|x] eqn:Ei.
  2:{ intros [= <- <-]. exists [], ((id, cfg) :: items). split_and!; try done.
      - intros y [= <-]. by exists id, cfg, items.
      - intros ??? Hn. by apply elem_of_nil in Hn. }
  intros Hi. destruct (IH _ Hnd Hi) as (seen & rest & -> & Hok & Herr & Hin & Hout).
  assert (Hid : ∀ cfg', (id, cfg') ∉ seen).
  { intros cfg' Hc. apply Hni. rewrite map_app. apply elem_of_app. left. by apply (list_elem_of_fmap_2 fst) in Hc. }
  exists ((id, cfg) :: seen), rest. split_and!; try done.
  - intros pod_id pod_cfg p [[= -> ->]|Hs]%elem_of_cons Hp; [|by eapply Hin].
    rewrite Ei in Hp. injection Hp as ->. rewrite Hout; [apply lookup_insert_eq|].
    intros c q Hc. by apply Hid in Hc.
  - intros pod_id Hno. rewrite Hout.
    + destruct op as [p|]; [|done]. rewrite lookup_insert_ne; [done|]. intros ->.
      by apply (Hno cfg p); [left|].
    + intros c q Hc. apply Hno. by right.
Qed.

Lemma init_items_filed items reg r reg' :
  init_items float_uint32 items reg = (r, reg') → filed reg → filed reg'.
Proof.
  revert reg. induction items as [|[id cfg] items IH]; intros reg; cbn [init_items]; [by intros [= _ <-]|].
  destruct (item id cfg) as [[p|]|x] eqn:Ei; [|apply IH|by intros [= _ <-]].
  intros Hi Hf. apply (IH _ Hi), pod_filed_insert; [|done]. by destruct (item_pod_spec _ _ _ Ei).
Qed.

Lemma manager_Init_filed config g r g' :
  manager_Init float_uint32 config g = (r, g') → filed (mg_registry g) → filed (mg_registry g').
Proof.
  unfold manager_Init. destruct (mg_initialized g); [by intros [= _ <-]|].
  destruct (j_dump config); [|by intros [= _ <-]].
  destruct (j_object_at config "pod_args") as [args|]; [|by intros [= _ <-]]. cbn [mg_registry].
  destruct (init_items _ _ _) as [[[]|x] reg] eqn:Ei; intros [= _ <-]; by eapply init_items_filed.
Qed.

Lemma mg_step_filed g g' : mg_step float_uint32 g g' → filed (mg_registry g) → filed (mg_registry g').
Proof.
  intros Hs Hf. destruct Hs as [config r g' Hi|pod r g' Ha|pod_id| |pod_id p _|R pod_id p call Hp Hid].
  - by eapply manager_Init_filed.
  - revert Ha. unfold addPod. destruct pod as [p|]; [|by intros [= _ <-]].
    destruct (hasPod _ _); intros [= _ <-]; [done|]. by apply pod_filed_insert.
  - unfold removePod, unregisterPod, registry_getPod. destruct (mg_registry g !! pod_id) eqn:El; [|done].
    intros id q. cbn. rewrite lookup_delete_Some. intros [_ Hq]. by apply Hf.
  - intros id q. cbn. by rewrite lookup_empty.
  - done.
  - unfold on_pod. destruct (call p) as [r p']. apply pod_filed_insert; [|done]. cbn in Hid. rewrite Hid. by apply Hf.
Qed.

(** Uninterrupted, connecting and disconnecting are a lookup and a call. *)
Lemma connect_steps pod_id g :
  rtc (mg_step float_uint32) g (connectPod pod_id g).2 ∧ rtc (mg_step float_uint32) g (disconnectPod pod_id g).2.
Proof.
  unfold connectPod, disconnectPod. destruct (getPod pod_id g) as [p|] eqn:E; [|done].
  split; (eapply rtc_l; [by eapply (mg_lookup _ _ pod_id)|]); apply rtc_once;
    (eapply mg_pod; [done|]); [apply ip_connect_spec|apply ip_disconnect_spec].
Qed.

(** A pod that has left the manager. *)
Definition released (p : P) : Prop := ip_isMonitorRunning p = false ∧ ip_isConnected p = false.

(** C18: Whatever calls the manager got, each pod is filed under its own id.
    Adding a pod succeeds exactly when its id is free and then changes no other
    entry; a refused one changes nothing.  A removed pod and every pod at shutdown
    leaves with its monitor stopped and disconnected, and the entry is gone. *)
Theorem pod_manager_ids g :
  rtc (mg_step float_uint32) PodManager_new g →
  (∀ pod_id p, getPod pod_id g = Some p → ip_id p = pod_id) ∧
  (∀ p, let '(r, g') := addPod (Some p) g in
     (isSuccess r = true ↔ getPod (ip_id p) g = None) ∧ (isSuccess r = false → g' = g) ∧
     (isSuccess r = true → ∀ pod_id, getPod pod_id g' = if decide (pod_id = ip_id p) then Some p else getPod pod_id g)) ∧
  (∀ pod_id, let '(r, g', p) := removePod pod_id g in
     (isSuccess r = true ↔ is_Some (getPod pod_id g)) ∧
     (∀ id, getPod id g' = if decide (id = pod_id) then None else getPod id g) ∧
     (∀ q, p = Some q → ip_id q = pod_id ∧ released q)) ∧
  (let '(g', pods) := manager_Shutdown g in
   manager_size g' = 0%nat ∧ length pods = manager_size g ∧ Forall released pods).
Proof.
  intros Hr.
  assert (Hf : filed (mg_registry g)).
  { assert (Hall : ∀ a b, rtc (mg_step float_uint32) a b → filed (mg_registry a) → filed (mg_registry b)).
    { induction 1 as [|a b c Hab _ IH]; [done|]. intros Ha. by eapply IH, mg_step_filed. }
    apply (Hall _ _ Hr). intros id p. cbn. by rewrite lookup_empty. }
  split_and!; [exact Hf|..].
  - intros p. unfold addPod, hasPod, getPod, registry_getPod.
    destruct (mg_registry g !! ip_id p) eqn:El; cbn; split_and!; try done.
    intros _ id. case_decide as Hid; [by rewrite Hid, lookup_insert_eq|by rewrite lookup_insert_ne].
  - intros id. unfold removePod, unregisterPod, getPod, registry_getPod.
    destruct (mg_registry g !! id) as [p|] eqn:El; cbn; split_and!; try done.
    + intros id'. case_decide as Hid; [by rewrite Hid, lookup_delete_eq|by rewrite lookup_delete_ne].
    + intros q [= <-]. destruct (release_spec p) as (-> & ? & ?). split; [by apply Hf|done].
    + intros id'. case_decide as Hid; [by rewrite Hid|done].
  - unfold manager_Shutdown, manager_size, registry_size, listPods. cbn. split_and!.
    + apply map_size_empty.
    + by rewrite !length_map, length_map_to_list.
    + apply Forall_forall. intros q (p & -> & _)%list_elem_of_fmap. apply release_spec.
Qed.

(** What [Init] leaves behind.  When it succeeds, each item of [pod_args]
    whose pod is created, initialised and configured is filed under the item's key
    with the monitor running exactly when its configuration says so, an item that
    is refused is skipped, and no other entry changes.  When an item throws, the
    items before it are filed, those after it are not, and the manager stays
    uninitialised. *)
Theorem manager_init_files config pod_args g r g' :
  mg_initialized g = false → j_object_at config "pod_args" = Some pod_args → NoDup (map fst (j_items pod_args)) →
  is_ok (j_dump config) = true → manager_Init float_uint32 config g = (r, g') →
  ∃ seen rest, j_items pod_args = seen ++ rest ∧
    (r = Ok true ∧ rest = [] ∧ mg_initialized g' = true ∨
     ∃ x pod_id pod_cfg rest', r = Err x ∧ rest = (pod_id, pod_cfg) :: rest' ∧ item pod_id pod_cfg = Err x ∧
       mg_initialized g' = false) ∧
    (∀ pod_id pod_cfg p, (pod_id, pod_cfg) ∈ seen → item pod_id pod_cfg = Ok (Some p) →
       getPod pod_id g' = Some p ∧ ip_id p = pod_id ∧
       ∃ mc, parse pod_cfg = Ok mc ∧ ip_isMonitorRunning p = mc_auto_start mc) ∧
    (∀ pod_id, (∀ pod_cfg p, (pod_id, pod_cfg) ∈ seen → item pod_id pod_cfg ≠ Ok (Some p)) →
       getPod pod_id g' = getPod pod_id g).
Proof.
  intros Hn Ha Hnd Hd. unfold manager_Init. rewrite Hn, Ha. destruct (j_dump config); [|done]. cbn [mg_registry].
  destruct (init_items float_uint32 (j_items pod_args) (mg_registry g)) as [r1 reg] eqn:Ei.
  destruct (init_items_spec _ _ _ _ Hnd Ei) as (seen & rest & Hit & Hok & Herr & Hin & Hout).
  intros Hr. exists seen, rest.
  assert (Hreg : mg_registry g' = reg) by (destruct r1 as [[]|]; by injection Hr as <- <-).
  unfold getPod, registry_getPod. rewrite Hreg. split_and!; [done| | |done].
  - destruct r1 as [[]|x]; injection Hr as <- <-; [left; auto|right].
    destruct (Herr x eq_refl) as (id & cfg & rest' & ? & ?). by exists x, id, cfg, rest'.
  - intros id cfg p Hs Hp. split; [by eapply Hin|]. by apply item_pod_spec.
Qed.
End facts.

(** ** The pods of the two vendors

    A PINLING pod with what the vendor's library will answer to the [k]-th connect
    that goes on from now. *)

Section vendors.
Context {J : Type} `{JsonOps J} `{!JsonItems J}.

Record sdk_pod := { sp_pod : PinlingPod J; sp_library : nat → nat → attempt }.
Inductive vendor_pod := Dji_pod (p : BasePod J) | Pinling_pod (p : sdk_pod).

(** What the library will answer the pod of an id. *)
Variable library : string → nat → nat → attempt.

Definition vendor_base (p : vendor_pod) : BasePod J :=
  match p with Dji_pod p => p | Pinling_pod p => pl_pod (sp_pod p) end.
Definition on_base (f : BasePod J → BasePod J) (p : vendor_pod) : vendor_pod :=
  match p with
  | Dji_pod p => Dji_pod (f p)
  | Pinling_pod p => Pinling_pod {| sp_pod := with_pod (f (pl_pod (sp_pod p))) (sp_pod p); sp_library := sp_library p |}
  end.

#[export] Instance vendor_IPod : IPod J vendor_pod := {|
  ip_info p := bp_info (vendor_base p);
  ip_state p := bp_state (vendor_base p);
  ip_Init cfg p :=
    match p with
    | Dji_pod p => let '(r, p) := BasePod_Init cfg p in (r, Dji_pod p)
    | Pinling_pod p => let '(r, q) := Pinling_Init cfg (sp_pod p) in
                       (r, Pinling_pod {| sp_pod := q; sp_library := sp_library p |})
    end;
  ip_connect p :=
    match p with
    | Dji_pod p => let '(r, p) := BasePod_connect p in (Ok r, Dji_pod p)
    | Pinling_pod p => let '(r, q) := Pinling_connect (sp_library p 0%nat) (sp_pod p) in
                       (r, Pinling_pod {| sp_pod := q; sp_library := λ k, sp_library p (S k) |})
    end;
  ip_disconnect p :=
    match p with
    | Dji_pod p => let '(r, p) := BasePod_disconnect p in (r, Dji_pod p)
    | Pinling_pod p => let '(r, q) := Pinling_disconnect (sp_pod p) in
                       (r, Pinling_pod {| sp_pod := q; sp_library := sp_library p |})
    end;
  ip_startMonitor mc := on_base (startMonitor mc);
  ip_stopMonitor := on_base stopMonitor;
  ip_isMonitorRunning p := isMonitorRunning (vendor_base p);
  ip_runtime p := getRuntimeStatus (vendor_base p);
  ip_make k i :=
    match k with
    | Pinling_session => Pinling_pod {| sp_pod := PinlingPod_construct i; sp_library := library (pi_pod_id i) |}
    | _ => Dji_pod (Pod_construct k i)
    end
|}.

Lemma Init_common_keeps cfg (p : BasePod J) r p' :
  Init_common cfg p = (r, p') →
  pi_pod_id (bp_info p') = pi_pod_id (bp_info p) ∧
  (isMonitorRunning p = false → isMonitorRunning p' = false).
Proof.
  intros Hi. split; [by destruct (Init_common_cases _ _ _ _ Hi) as (_ & _ & _ & _ & ? & _)|].
  intros Hr. revert Hi. unfold Init_common. rewrite Hr. unfold setCapabilityConfigs.
  destruct (negb (j_is_object cfg)); [by intros [= _ <-]|]. destruct (isConnected p); [by intros [= _ <-]|].
  destruct (j_dump cfg); [|by intros [= _ <-]].
  destruct (j_object_at cfg "capability") as [c|]; [|by intros [= _ <-]].
  destruct (negb (j_is_object c)); [by intros [= _ <-]|]. destruct (j_dump c); by intros [= _ <-].
Qed.

Lemma BasePod_connect_keeps (p : BasePod J) :
  bp_info (BasePod_connect p).2 = bp_info p ∧ bp_monitor (BasePod_connect p).2 = bp_monitor p.
Proof.
  unfold BasePod_connect. destruct (decide _); [done|]. destruct (bp_session p); [|done].
  by destruct (session_connect _ _ _).
Qed.

Lemma BasePod_disconnect_keeps (p : BasePod J) :
  bp_info (BasePod_disconnect p).2 = bp_info p ∧ bp_monitor (BasePod_disconnect p).2 = bp_monitor p ∧
  bp_state (BasePod_disconnect p).2 = DISCONNECTED.
Proof.
  unfold BasePod_disconnect. destruct (decide _); [done|].
  by destruct (match bp_session p with Some _ => _ | None => _ end).
Qed.

Lemma disconnectSDK_pod (p : PinlingPod J) : pl_pod (disconnectSDK p) = pl_pod p.
Proof. unfold disconnectSDK. by destruct (_ && _). Qed.

Lemma Pinling_onInit_pod (p : PinlingPod J) : pl_pod (Pinling_onInit p).2 = pl_pod p.
Proof.
  unfold Pinling_onInit. repeat case_match; cbn; rewrite ?disconnectSDK_pod; done.
Qed.

Lemma Pinling_Init_keeps cfg (p : PinlingPod J) r p' :
  Pinling_Init cfg p = (r, p') →
  pi_pod_id (bp_info (pl_pod p')) = pi_pod_id (bp_info (pl_pod p)) ∧
  (isMonitorRunning (pl_pod p) = false → isMonitorRunning (pl_pod p') = false).
Proof.
  unfold Pinling_Init. destruct (Init_common cfg (pl_pod p)) as [[[r1|]|x] b] eqn:Ei;
    apply Init_common_keeps in Ei; [by intros [= _ <-]| |by intros [= _ <-]].
  pose proof (Pinling_onInit_pod (with_pod b p)) as Hp.
  destruct (Pinling_onInit (with_pod b p)) as [[r2|x] p2]; cbn in Hp; [destruct (isSuccess r2)|];
    intros [= _ <-]; cbn; rewrite ?Hp; apply Ei.
Qed.

Lemma Pinling_connect_keeps attempts (p : PinlingPod J) :
  bp_info (pl_pod (Pinling_connect attempts p).2) = bp_info (pl_pod p) ∧
  bp_monitor (pl_pod (Pinling_connect attempts p).2) = bp_monitor (pl_pod p).
Proof.
  unfold Pinling_connect. pose proof (BasePod_connect_keeps (pl_pod p)) as Hb.
  destruct (BasePod_connect (pl_pod p)) as [r b]. cbn [snd] in Hb.
  destruct (negb (isSuccess r)); [done|]. destruct (negb _); [done|].
  destruct (connectFromConfig attempts _) as [r1 p1] eqn:Ec.
  destruct (connectFromConfig_same _ _ _ _ Ec) as (Hp & _). cbn in Hp.
  destruct r1; cbn; by rewrite Hp.
Qed.

#[export] Instance vendor_IPodLaws : IPodLaws J vendor_pod.
Proof.
  split.
  - by intros [| |] i.
  - intros cfg [p|p]; unfold ip_id; cbn.
    + unfold BasePod_Init. destruct (Init_common cfg p) as [[[r|]|x] b] eqn:Ei;
        by apply Init_common_keeps in Ei.
    + destruct (Pinling_Init cfg (sp_pod p)) as [r q] eqn:Ei. by apply Pinling_Init_keeps in Ei.
  - intros [p|p]; unfold ip_id; cbn; unfold isMonitorRunning.
    + destruct (BasePod_connect_keeps p). destruct (BasePod_connect p). cbn in *. by split; congruence.
    + destruct (Pinling_connect_keeps (sp_library p 0%nat) (sp_pod p)).
      destruct (Pinling_connect _ _). cbn in *. by split; congruence.
  - intros [p|p]; unfold ip_id, ip_isConnected; cbn; unfold isMonitorRunning.
    + destruct (BasePod_disconnect_keeps p) as (? & ? & Hs). destruct (BasePod_disconnect p). cbn in *.
      rewrite Hs. split_and!; [congruence..|done].
    + unfold Pinling_disconnect. rewrite disconnectSDK_pod. cbn.
      destruct (BasePod_disconnect_keeps (pl_pod (sp_pod p))) as (? & ? & Hs).
      destruct (BasePod_disconnect _). cbn in *. rewrite Hs. split_and!; [congruence..|done].
  - intros mc p. assert (Hr : ∀ m, mo_running (start mc m) = true) by (intros m; unfold start; by destruct (mo_running m) eqn:?).
    by destruct p; split; [|apply Hr| |apply Hr].
  - intros p. assert (Hr : ∀ m, mo_running (stop m) = false) by (intros m; unfold stop; by destruct (mo_running m) eqn:?).
    destruct p; (split; [done|]; split; [apply Hr|done]).
Qed.
End vendors.
Arguments vendor_pod : clear implicits.

(** *** Witnesses *)

Definition no_library (pod_id : string) (k i : nat) : attempt := refused i.
#[local] Existing Instance vendor_IPod.
#[local] Instance fleet_IPod : IPod jvalue (vendor_pod jvalue) := vendor_IPod no_library.
#[local] Instance fleet_IPodLaws : IPodLaws jvalue (vendor_pod jvalue) := vendor_IPodLaws no_library.
Abbreviation fleet := (PodManager jvalue (vendor_pod jvalue)).

Definition dji_cfg : jvalue :=
  VObj [("type", VStr "dji"); ("ip", VStr "10.0.0.2"); ("capability", VObj [("STATUS", ptz_on); ("LASER", ptz_on)]);
        ("monitor", VObj [("enable_status_poll", VBool true); ("enable_ptz_poll", VBool true);
                          ("enable_laser_poll", VBool false); ("auto_start", VBool true)])].
(** A type without a class, and a capability whose [open] is a flag. *)
Definition odd_cfg : jvalue := VObj [("type", VStr "other")].
Definition flag_cfg : jvalue := VObj [("type", VStr "dji"); ("capability", VObj [("STATUS", ptz_flag)])].

Definition fleet_cfg : jvalue := VObj [("pod_args", VObj [("pod1", dji_cfg); ("pod2", odd_cfg); ("pod3", flag_cfg);
                                                          ("pod4", dji_cfg)])].

(** The polls the capabilities leave: STATUS and LASER, whatever the monitor's own
    section asks for. *)
Lemma monitor_config_tightens_witness :
  ∃ mc, parseMonitorConfig (λ _, 0) dji_cfg = Ok mc ∧ mc_enable_laser_poll mc = true ∧
        (mc_enable_ptz_poll mc = true → false = true).
Proof.
  destruct (parseMonitorConfig (λ _, 0) dji_cfg) as [mc|x] eqn:Em; [|by vm_compute in Em].
  exists mc. destruct (monitor_config_tightens (λ _, 0) dji_cfg mc Em) as (_ & status & ptz & laser & stream & Ho & _ & Hp & Hl & _).
  split; [reflexivity|]. vm_compute in Ho. injection Ho as <- <- <- <-. split; [exact Hl|exact Hp].
Defined.

Definition fleet_up : fleet := (manager_Init (λ _, 0) fleet_cfg PodManager_new).2.

Lemma pod_manager_ids_witness :
  ∃ p, getPod "pod1" fleet_up = Some p ∧ ip_id p = "pod1".
Proof.
  assert (Hr : rtc (mg_step (λ _, 0)) (PodManager_new : fleet) fleet_up).
  { eapply rtc_l; [|apply rtc_refl]. apply (mg_init (λ _, 0) PodManager_new fleet_cfg (manager_Init (λ _, 0) fleet_cfg (PodManager_new : fleet)).1).
    apply surjective_pairing. }
  destruct (pod_manager_ids (λ _, 0) fleet_up Hr) as (Hid & _).
  destruct (getPod "pod1" fleet_up) as [p|] eqn:Ep; [|by vm_compute in Ep].
  exists p. split; [reflexivity|]. by apply Hid.
Defined.

(** The third item throws: the first is filed and runs its monitor, the second is
    skipped, and the fourth is not reached. *)
Lemma manager_init_files_witness :
  mg_initialized fleet_up = false ∧ map fst (map_to_list (mg_registry fleet_up)) = ["pod1"] ∧
  ∃ seen rest, j_items (VObj [("pod1", dji_cfg); ("pod2", odd_cfg); ("pod3", flag_cfg); ("pod4", dji_cfg)]) = seen ++ rest ∧
    rest ≠ [].
Proof.
  split; [vm_compute; reflexivity|]. split; [vm_compute; reflexivity|].
  destruct (manager_Init (λ _, 0) fleet_cfg (PodManager_new : fleet)) as [r g'] eqn:Ei.
  destruct (manager_init_files (λ _, 0) fleet_cfg
    (VObj [("pod1", dji_cfg); ("pod2", odd_cfg); ("pod3", flag_cfg); ("pod4", dji_cfg)]) PodManager_new r g')
    as (seen & rest & Hs & Hr & _); [reflexivity|reflexivity| |reflexivity|exact Ei|].
  - apply (bool_decide_unpack (NoDup _)). vm_compute. exact I.
  - exists seen, rest. split; [exact Hs|]. destruct Hr as [(-> & _)|(x & id & cfg & rest' & _ & -> & _)]; [|discriminate].
    assert (Hx : is_ok (manager_Init (λ _, 0) fleet_cfg (PodManager_new : fleet)).1 = false) by (vm_compute; reflexivity).
    rewrite Ei in Hx. discriminate Hx.
Defined.
