(* ===== verification/Calendar.v ===== *)
(** * Broken-down time

    The Gregorian calendar as the C library applies it in [localtime_r] and
    [gmtime_r], defined without the code, and the two functions of
    my_tools/MyDateTime.cpp on years and months, proved to be about this calendar.
    A time zone, with its changes of offset and its [mktime], is a parameter. *)

From S2P Require Import Prelude.

Local Open Scope Z_scope.

(** ** Years and months of the code *)

Definition IsLeapYear (year : Z) : bool :=
  ((Z.rem year 4 =? 0) && negb (Z.rem year 100 =? 0)) || (Z.rem year 400 =? 0).

Definition days : list Z := [31; 28; 31; 30; 31; 30; 31; 31; 30; 31; 30; 31].

(** 0 for a month out of range. *)
Definition DaysInMonth (year month : Z) : Z :=
  if (month <? 1) || (12 <? month) then 0
  else if (month =? 2) && IsLeapYear year then 29
  else nth (Z.to_nat (month - 1)) days 0.

(** ** The library's calendar *)

Record tm := {
  tm_year : Z;    (** since 1900 *)
  tm_mon : Z;     (** since January *)
  tm_mday : Z;
  tm_hour : Z;
  tm_min : Z;
  tm_sec : Z;
  tm_wday : Z;    (** since Sunday *)
  tm_yday : Z;    (** since 1 January *)
  tm_isdst : Z    (** negative: not known *)
}.

Definition seconds_per_day : Z := 86400.

(** The Gregorian rule, and the days of the year before each month and after the
    last. *)
Definition leap (year : Z) : bool := (year mod 4 =? 0) && (negb (year mod 100 =? 0) || (year mod 400 =? 0)).
Definition mon_yday (year : Z) : list Z :=
  if leap year then [0; 31; 60; 91; 121; 152; 182; 213; 244; 274; 305; 335; 366]
  else [0; 31; 59; 90; 120; 151; 181; 212; 243; 273; 304; 334; 365].

(** For months from 1. *)
Definition before_month (year month : Z) : Z := nth (Z.to_nat (month - 1)) (mon_yday year) 0.
Definition month_length (year month : Z) : Z := before_month year (month + 1) - before_month year month.

(** The number of the first of January, counted from 1970. *)
Definition jan1 (year : Z) : Z :=
  365 * (year - 1970) + ((year - 1) / 4 - (year - 1) / 100 + (year - 1) / 400) - 477.

(** A guess, which is wrong by a year at most. *)
Definition year_of (day : Z) : Z :=
  let y := 1970 + 400 * day / 146097 in
  if day <? jan1 y then y - 1 else if jan1 (y + 1) <=? day then y + 1 else y.

(** Month and day of a day of the year, both from 0. *)
Fixpoint month_of (year : Z) (fuel : nat) (m yday : Z) : Z * Z :=
  match fuel with
  | O => (m, yday)
  | S fuel => if yday <? month_length year (m + 1) then (m, yday)
              else month_of year fuel (m + 1) (yday - month_length year (m + 1))
  end.

(** The fields of a number of seconds of the local clock. *)
Definition broken_down (isdst s : Z) : tm :=
  let day := s / seconds_per_day in
  let r := s mod seconds_per_day in
  let y := year_of day in
  let yday := day - jan1 y in
  let '(m, d) := month_of y 11 0 yday in
  {| tm_year := y - 1900; tm_mon := m; tm_mday := d + 1; tm_hour := r / 3600; tm_min := r mod 3600 / 60;
     tm_sec := r mod 60; tm_wday := (day + 4) mod 7; tm_yday := yday; tm_isdst := isdst |}.

(** Back; fields out of range carry over. *)
Definition clock_seconds (t : tm) : Z :=
  let y := 1900 + tm_year t + tm_mon t / 12 in
  (jan1 y + before_month y (tm_mon t mod 12 + 1) + tm_mday t - 1) * seconds_per_day +
  tm_hour t * 3600 + tm_min t * 60 + tm_sec t.

(** ** Zones

    What the library knows of the zone: the seconds its clocks are ahead of UTC and
    whether it is summer, at each moment; and its [mktime]. *)
Record zone := { zn_offset : Z → Z; zn_dst : Z → bool; zn_mktime : tm → Z }.

(** No answer when the year does not fit an int. *)
Definition representable (t : tm) : option tm := if decide (ins 32 (tm_year t)) then Some t else None.
Definition localtime (zn : zone) (seconds : Z) : option tm :=
  representable (broken_down (if zn_dst zn seconds then 1 else 0) (seconds + zn_offset zn seconds)).
Definition gmtime (seconds : Z) : option tm := representable (broken_down 0 seconds).

Definition same_fields (t u : tm) : Prop :=
  tm_year t = tm_year u ∧ tm_mon t = tm_mon u ∧ tm_mday t = tm_mday u ∧ tm_hour t = tm_hour u ∧
  tm_min t = tm_min u ∧ tm_sec t = tm_sec u.

(** Offsets are at most a week, and [mktime], for fields that the local clocks
    show at some moment, answers such a moment; when it is told whether it is
    summer, one that agrees.  For fields they never show it may answer anything. *)
Class ZoneLaws (zn : zone) := {
  zn_offset_bound z : - 604800 <= zn_offset zn z <= 604800;
  zn_mktime_spec t z u :
    localtime zn z = Some u → same_fields u t → tm_isdst t < 0 ∨ tm_isdst u = tm_isdst t →
    ∃ v, localtime zn (zn_mktime zn t) = Some v ∧ same_fields v t ∧ (tm_isdst t < 0 ∨ tm_isdst v = tm_isdst t)
}.

(** The local time of a moment is that of no other. *)
Definition unambiguous (zn : zone) (z : Z) : Prop :=
  ∀ z' u v, localtime zn z = Some u → localtime zn z' = Some v → same_fields v u → z' = z.

(** A zone that never changes. *)
Definition fixed_zone (offset : Z) : zone := {|
  zn_offset _ := offset; zn_dst _ := false;
  zn_mktime t := let s := clock_seconds t - offset in
                 match representable (broken_down 0 (s + offset)) with Some _ => s | None => -1 end |}.

(** ** Years *)

Lemma rem_0_mod a b : b ≠ 0 → (Z.rem a b =? 0) = (a mod b =? 0).
Proof.
  intros Hb. apply eq_true_iff_eq. rewrite !Z.eqb_eq.
  by rewrite Z.rem_divide, Z.mod_divide.
Qed.

Lemma jan1_next y : jan1 (y + 1) = jan1 y + (if leap y then 366 else 365).
Proof.
  unfold jan1, leap. replace (y + 1 - 1) with y by lia.
  destruct (y mod 4 =? 0) eqn:H4, (y mod 100 =? 0) eqn:H100, (y mod 400 =? 0) eqn:H400; cbn [negb andb orb]; Z.div_mod_to_equations; lia.
Qed.

Lemma jan1_mono y y' : y <= y' → jan1 y + 365 * (y' - y) <= jan1 y' <= jan1 y + 366 * (y' - y).
Proof.
  intros Hy. replace y' with (y + Z.of_nat (Z.to_nat (y' - y))) by lia.
  induction (Z.to_nat (y' - y)) as [|n IH]; [rewrite Z.add_0_r; lia|].
  rewrite Nat2Z.inj_succ, <- Z.add_1_r, Z.add_assoc, jan1_next. destruct (leap _); lia.
Qed.

Lemma jan1_unique y y' day :
  jan1 y <= day < jan1 (y + 1) → jan1 y' <= day < jan1 (y' + 1) → y = y'.
Proof.
  intros Hy Hy'. destruct (Z.lt_trichotomy y y') as [Hl|[?|Hl]]; [|done|].
  - pose proof (jan1_mono (y + 1) y'). lia.
  - pose proof (jan1_mono (y' + 1) y). lia.
Qed.

Lemma year_of_spec day : jan1 (year_of day) <= day < jan1 (year_of day + 1).
Proof.
  unfold year_of. set (y := 1970 + 400 * day / 146097).
  assert (Hg : jan1 (y - 1) <= day < jan1 (y + 2)).
  { assert (Hd : 146097 * (y - 1970) <= 400 * day < 146097 * (y - 1969))
      by (unfold y; pose proof (Z.div_mod (400 * day) 146097); pose proof (Z.mod_pos_bound (400 * day) 146097); lia).
    clearbody y. unfold jan1. Z.div_mod_to_equations. lia. }
  destruct (day <? jan1 y) eqn:E1; [replace (y - 1 + 1) with y by lia; lia|].
  destruct (jan1 (y + 1) <=? day) eqn:E2; [replace (y + 1 + 1) with (y + 2) by lia; lia|]. lia.
Qed.

Lemma year_of_unique y day : jan1 y <= day < jan1 (y + 1) → year_of day = y.
Proof. intros Hy. by eapply jan1_unique; [apply year_of_spec|]. Qed.

(** ** Months *)

Lemma month_cases m : 1 <= m <= 12 →
  m ∈ [1; 2; 3; 4; 5; 6; 7; 8; 9; 10; 11; 12].
Proof. intros Hm. rewrite !elem_of_cons, elem_of_nil. lia. Qed.

(** Splits a month between 1 and 12 into its twelve values. *)
Ltac month_cases Hm :=
  apply month_cases in Hm; rewrite !elem_of_cons, elem_of_nil in Hm; repeat destruct Hm as [->|Hm]; [..|done].

Lemma month_length_bounds y m : 1 <= m <= 12 → 28 <= month_length y m <= 31.
Proof. intros Hm. unfold month_length, before_month, mon_yday. by month_cases Hm; destruct (leap y). Qed.

Lemma before_month_next y m : before_month y (m + 1) = before_month y m + month_length y m.
Proof. unfold month_length. lia. Qed.
Lemma before_month_1 y : before_month y 1 = 0.
Proof. unfold before_month, mon_yday. by destruct (leap y). Qed.
Lemma before_month_13 y : before_month y 13 = if leap y then 366 else 365.
Proof. unfold before_month, mon_yday. by destruct (leap y). Qed.

(** The code's table and rule are those of the calendar. *)
Lemma IsLeapYear_leap y : IsLeapYear y = leap y.
Proof.
  unfold IsLeapYear, leap. rewrite !rem_0_mod by done.
  destruct (y mod 4 =? 0) eqn:H4, (y mod 100 =? 0) eqn:H100, (y mod 400 =? 0) eqn:H400; cbn; try done;
    Z.div_mod_to_equations; lia.
Qed.
Lemma DaysInMonth_month_length y m : 1 <= m <= 12 → DaysInMonth y m = month_length y m.
Proof.
  intros Hm. unfold DaysInMonth, month_length, before_month, mon_yday. rewrite IsLeapYear_leap.
  by month_cases Hm; destruct (leap y).
Qed.

Lemma month_of_spec y fuel m yday :
  0 <= m → m + Z.of_nat fuel = 11 → 0 <= yday < before_month y 13 - before_month y (m + 1) →
  let '(mm, d) := month_of y fuel m yday in
  m <= mm < 12 ∧ 0 <= d < month_length y (mm + 1) ∧ before_month y (mm + 1) + d = before_month y (m + 1) + yday.
Proof.
  revert m yday. induction fuel as [|fuel IH]; intros m yday Hm Hf Hy; cbn [month_of].
  - assert (m = 11) as -> by lia. pose proof (before_month_next y 12) as Hn.
    change (12 + 1) with 13 in Hn. change (11 + 1) with 12 in *. lia.
  - destruct (yday <? month_length y (m + 1)) eqn:El; [lia|].
    pose proof (before_month_next y (m + 1)) as Hn. specialize (IH (m + 1) (yday - month_length y (m + 1))).
    destruct (month_of y fuel (m + 1) (yday - month_length y (m + 1))) as [mm d].
    destruct IH as (H1 & H2 & H3); lia.
Qed.

Lemma before_month_mono y m m' : 1 <= m → m <= m' <= 13 → before_month y m <= before_month y m'.
Proof.
  intros Hm Hle. replace m' with (m + Z.of_nat (Z.to_nat (m' - m))) by lia.
  assert (Hb : m + Z.of_nat (Z.to_nat (m' - m)) <= 13) by lia. revert Hb.
  induction (Z.to_nat (m' - m)) as [|n IH]; [rewrite Z.add_0_r; lia|].
  intros Hb. rewrite Nat2Z.inj_succ, <- Z.add_1_r, Z.add_assoc, before_month_next by lia.
  pose proof (month_length_bounds y (m + Z.of_nat n)). lia.
Qed.

Lemma month_of_day y fuel m mm d :
  0 <= m → m <= mm → mm <= m + Z.of_nat fuel → m + Z.of_nat fuel <= 11 → 0 <= d < month_length y (mm + 1) →
  month_of y fuel m (before_month y (mm + 1) - before_month y (m + 1) + d) = (mm, d).
Proof.
  revert m. induction fuel as [|fuel IH]; intros m Hm H1 H2 H3 Hd; cbn [month_of].
  - assert (mm = m) as -> by lia. f_equal. lia.
  - destruct (decide (mm = m)) as [->|Hne].
    + rewrite Z.sub_diag, Z.add_0_l. by rewrite (proj2 (Z.ltb_lt _ _)) by lia.
    + pose proof (before_month_mono y (m + 2) (mm + 1)). pose proof (before_month_next y (m + 1)) as Hn.
      replace (m + 1 + 1) with (m + 2) in Hn by lia.
      rewrite (proj2 (Z.ltb_ge _ _)) by lia.
      rewrite <- (IH (m + 1)) by lia. f_equal. replace (m + 1 + 1) with (m + 2) by lia. lia.
Qed.

(** ** Fields *)

(** Fields of a moment by the code's table: month from 1. *)
Definition valid_fields (year month day hour minute second : Z) : Prop :=
  1 <= month <= 12 ∧ 1 <= day <= DaysInMonth year month ∧ 0 <= hour < 24 ∧ 0 <= minute < 60 ∧ 0 <= second < 60.

(** Fields of a moment of the calendar. *)
Definition valid_moment (year month day hour minute second : Z) : Prop :=
  1 <= month <= 12 ∧ 1 <= day <= month_length year month ∧ 0 <= hour < 24 ∧ 0 <= minute < 60 ∧ 0 <= second < 60.

Lemma valid_fields_moment y m d h mi s : valid_fields y m d h mi s ↔ valid_moment y m d h mi s.
Proof.
  unfold valid_fields, valid_moment. split; intros (Hm & Hd & Hr); (split; [done|]);
    by rewrite DaysInMonth_month_length in *.
Qed.

Definition valid_tm (t : tm) : Prop :=
  valid_moment (1900 + tm_year t) (tm_mon t + 1) (tm_mday t) (tm_hour t) (tm_min t) (tm_sec t).

Lemma broken_down_spec isdst s :
  valid_tm (broken_down isdst s) ∧ clock_seconds (broken_down isdst s) = s ∧
  1900 + tm_year (broken_down isdst s) = year_of (s / seconds_per_day) ∧
  tm_yday (broken_down isdst s) = s / seconds_per_day - jan1 (year_of (s / seconds_per_day)) ∧
  tm_wday (broken_down isdst s) = (s / seconds_per_day + 4) mod 7.
Proof.
  unfold broken_down. set (day := s / seconds_per_day). set (r := s mod seconds_per_day). set (y := year_of day).
  pose proof (year_of_spec day) as Hy. rewrite jan1_next in Hy. fold y in Hy.
  pose proof (month_of_spec y 11 0 (day - jan1 y)) as Hm.
  rewrite before_month_13, before_month_1 in Hm.
  destruct (month_of y 11 0 (day - jan1 y)) as [m d]. destruct Hm as (Hm & Hd & Hsum); [lia|lia| |].
  { destruct (leap y); lia. }
  assert (Hr : 0 <= r < 86400) by (apply Z.mod_pos_bound; done).
  assert (Hs : s = day * seconds_per_day + r).
  { unfold day, r. pose proof (Z.div_mod s seconds_per_day ltac:(done)). lia. }
  unfold valid_tm, valid_moment, clock_seconds. cbn [tm_year tm_mon tm_mday tm_hour tm_min tm_sec tm_wday tm_yday].
  replace (1900 + (y - 1900)) with y by lia. rewrite (Z.div_small m 12), (Z.mod_small m 12) by lia.
  rewrite Z.add_0_r. split_and!; try (Z.div_mod_to_equations; lia).
Qed.

(** A valid moment is taken apart into its fields. *)
Lemma broken_down_clock isdst t :
  valid_tm t →
  let u := broken_down isdst (clock_seconds t) in
  same_fields u t.
Proof.
  unfold same_fields. intros (Hm & Hd & Hh & Hmi & Hs). cbv zeta. set (y := 1900 + tm_year t) in *.
  unfold clock_seconds. rewrite (Z.div_small (tm_mon t) 12), (Z.mod_small (tm_mon t) 12), Z.add_0_r by lia. fold y.
  set (day := jan1 y + before_month y (tm_mon t + 1) + tm_mday t - 1).
  set (r := tm_hour t * 3600 + tm_min t * 60 + tm_sec t).
  replace (day * seconds_per_day + tm_hour t * 3600 + tm_min t * 60 + tm_sec t) with (r + day * seconds_per_day) by lia.
  assert (Hr : 0 <= r < seconds_per_day) by (unfold r, seconds_per_day; lia).
  unfold broken_down. rewrite Z.div_add, Z.mod_add, Z.div_small, Z.mod_small, Z.add_0_l by (done || lia).
  assert (Hy : year_of day = y).
  { apply year_of_unique. rewrite jan1_next, <- before_month_13. unfold day.
    pose proof (before_month_mono y 1 (tm_mon t + 1)). pose proof (before_month_mono y (tm_mon t + 2) 13).
    pose proof (before_month_next y (tm_mon t + 1)) as Hn. replace (tm_mon t + 1 + 1) with (tm_mon t + 2) in Hn by lia.
    rewrite before_month_1 in *. lia. }
  rewrite Hy.
  replace (day - jan1 y) with (before_month y (tm_mon t + 1) - before_month y (0 + 1) + (tm_mday t - 1))
    by (rewrite before_month_1; unfold day; lia).
  rewrite month_of_day by lia. cbn [tm_year tm_mon tm_mday tm_hour tm_min tm_sec].
  unfold r. split_and!; try lia; clear -Hh Hmi Hs; Z.div_mod_to_equations; lia.
Qed.

(** ** Zones that do not change *)

Lemma representable_Some t u : representable t = Some u ↔ t = u ∧ ins 32 (tm_year t).
Proof. unfold representable. case_decide; naive_solver. Qed.

Lemma clock_seconds_fields t u : same_fields t u → clock_seconds t = clock_seconds u.
Proof. unfold clock_seconds. by intros (-> & -> & -> & -> & -> & ->). Qed.

Lemma fixed_localtime offset z u :
  localtime (fixed_zone offset) z = Some u → clock_seconds u = z + offset ∧ tm_isdst u = 0.
Proof.
  unfold localtime. rewrite representable_Some. intros [<- _]. cbn [zn_dst zn_offset fixed_zone].
  destruct (broken_down_spec 0 (z + offset)) as (_ & -> & _). split; [done|]. unfold broken_down.
  by destruct (month_of _ _ _ _).
Qed.

Lemma fixed_unambiguous offset z : unambiguous (fixed_zone offset) z.
Proof.
  intros z' u v [Hu _]%fixed_localtime [Hv _]%fixed_localtime Hf%clock_seconds_fields. lia.
Qed.

Lemma fixed_zone_laws offset : - 604800 <= offset <= 604800 → ZoneLaws (fixed_zone offset).
Proof.
  intros Ho. split; [done|].
  intros t z u Hu Hf Hd. destruct (fixed_localtime _ _ _ Hu) as [Hc _]. rewrite (clock_seconds_fields _ _ Hf) in Hc.
  assert (Hz : zn_mktime (fixed_zone offset) t = z).
  { cbn. replace (clock_seconds t - offset + offset) with (z + offset) by lia.
    unfold localtime in Hu. cbn in Hu. rewrite Hu. lia. }
  rewrite Hz. exists u. split; [done|]. split; [|done]. destruct Hf as (? & ? & ? & ? & ? & ?). done.
Qed.
