(* ===== verification/DateTime.v ===== *)
(** * Dates and times

    Model of my_tools/MyDateTime.cpp.  The time zone is a parameter, with its changes
    of offset and its [mktime]; a reading of a clock is an argument; the functions that only sleep or only
    read a clock are left out. *)

From S2P Require Import Prelude Text Calendar.
From Stdlib Require Import Ascii String.
From stdpp Require Import strings pretty.

Local Open Scope Z_scope.

Definition kMillisPerSecond : Z := 1000.
Definition kMicrosPerSecond : Z := 1000000.
Definition kNanosPerSecond : Z := 1000000000.
Definition kSecondsPerMinute : Z := 60.
Definition kSecondsPerHour : Z := 3600.
Definition kSecondsPerDay : Z := 86400.

(** An [int64_t], or undefined when it overflows. *)
Definition int64 (z : Z) : outcome Z := if decide (ins 64 z) then Ret z else Undef.
Definition int32 (z : Z) : outcome Z := if decide (ins 32 z) then Ret z else Undef.

(** ** Formatting *)

(** [setw(width) << setfill('0')]. *)
Definition FormatFraction (value : Z) (width : nat) : string :=
  String.concat "" (replicate (width - String.length (pretty value)) "0") +:+ pretty value.

Definition DEFAULT : string := "%Y-%m-%d %H:%M:%S".

Section format.
(** What [put_time] writes for the conversions that the default format does not
    use, with their modifier. *)
Variable conversion : tm → option ascii → ascii → string.
Variable zn : zone.

Definition put_conversion (t : tm) (c : ascii) : string :=
  if Ascii.eqb c "Y" then pretty (tm_year t + 1900)
  else if Ascii.eqb c "m" then FormatFraction (tm_mon t + 1) 2
  else if Ascii.eqb c "d" then FormatFraction (tm_mday t) 2
  else if Ascii.eqb c "H" then FormatFraction (tm_hour t) 2
  else if Ascii.eqb c "M" then FormatFraction (tm_min t) 2
  else if Ascii.eqb c "S" then FormatFraction (tm_sec t) 2
  else conversion t None c.

(** [put_time(&tm, format)]: a format that ends in a conversion stops there. *)
Fixpoint FormatTm (t : tm) (format : string) : string :=
  match format with
  | EmptyString => ""
  | String "%" (String c rest) =>
      if Ascii.eqb c "E" || Ascii.eqb c "O" then
        match rest with
        | EmptyString => ""
        | String c' rest => conversion t (Some c) c' +:+ FormatTm t rest
        end
      else put_conversion t c +:+ FormatTm t rest
  | String "%" EmptyString => ""
  | String c rest => String c (FormatTm t rest)
  end.

Definition FormatLocal (seconds : Z) (format : string) : string :=
  match localtime zn seconds with None => "" | Some t => FormatTm t format end.

(** Seconds and fraction; the quotient and remainder are those of C. *)
Definition SplitTimestamp (timestamp unit_per_second : Z) : Z * Z :=
  let sec := Z.quot timestamp unit_per_second in
  let frac := Z.rem timestamp unit_per_second in
  if frac <? 0 then (sec - 1, frac + unit_per_second) else (sec, frac).

Definition FormatWithFraction (timestamp unit_per_second : Z) (width : nat) (format : string) : string :=
  let '(seconds, fraction) := SplitTimestamp timestamp unit_per_second in
  match FormatLocal seconds format with
  | EmptyString => ""
  | base => base +:+ "." +:+ FormatFraction fraction width
  end.

Definition Format (seconds : Z) (format : string) : string := FormatLocal seconds format.
Definition FormatMs (milliseconds : Z) (format : string) : string := FormatWithFraction milliseconds kMillisPerSecond 3 format.
Definition FormatUs (microseconds : Z) (format : string) : string := FormatWithFraction microseconds kMicrosPerSecond 6 format.
Definition FormatNs (nanoseconds : Z) (format : string) : string := FormatWithFraction nanoseconds kNanosPerSecond 9 format.

(** [ToString] of a reading of the clock, and of its milli- and microseconds. *)
Definition ToString (now : Z) : string := Format now DEFAULT.
Definition ToStringMs (now_ms : Z) : string := FormatMs now_ms DEFAULT.
Definition ToStringUs (now_us : Z) : string := FormatUs now_us DEFAULT.
Definition Today (now : Z) : string := Format now "%Y-%m-%d".
Definition GetUtcTime (now : Z) : string :=
  match gmtime now with None => "" | Some t => FormatTm t "%Y-%m-%d %H:%M:%S" end.

(** ** Parsing *)

(** [%d]: a value that does not fit an int is undefined. *)
Definition scan_int (s : string) : outcome (option (Z * string)) :=
  let '(neg, body) := split_sign (skip_space s) in
  let '(v, n) := read_digits 0 body in
  if (n =? 0)%nat then Ret None
  else z ← int32 (if neg : bool then - v else v); Ret (Some (z, substr_from n body)).

Inductive scan_item := S_int | S_char (c : ascii) | S_space.

(** The conversions of a format; [None] when one does not match. *)
Fixpoint sscanf (format : list scan_item) (s : string) : outcome (option (list Z * string)) :=
  match format with
  | [] => Ret (Some ([], s))
  | S_int :: format =>
      x ← scan_int s;
      match x with
      | None => Ret None
      | Some (z, s) =>
          y ← sscanf format s;
          Ret match y with None => None | Some (l, s) => Some (z :: l, s) end
      end
  | S_char c :: format =>
      match s with String c' s => if Ascii.eqb c c' then sscanf format s else Ret None | EmptyString => Ret None end
  | S_space :: format => sscanf format (skip_space s)
  end.

(** %d-%d-%d %d:%d:%d *)
Definition date_format : list scan_item :=
  [S_int; S_char "-"; S_int; S_char "-"; S_int; S_space; S_int; S_char ":"; S_int; S_char ":"; S_int].

Definition fields_in_range (month day hour minute second : Z) : bool :=
  negb ((month <? 1) || (12 <? month) || (day <? 1) || (31 <? day) || (hour <? 0) || (23 <? hour) ||
        (minute <? 0) || (59 <? minute) || (second <? 0) || (60 <? second)).

(** From the fields to the moment: [mktime], and a look at what it made of
    them. *)
Definition fields_to_seconds (year month day hour minute second : Z) : outcome (option Z) :=
  if negb (fields_in_range month day hour minute second) then Ret None
  else
    year1900 ← int32 (year - 1900);
    let parsed := zn_mktime zn {| tm_year := year1900; tm_mon := month - 1; tm_mday := day; tm_hour := hour;
                                   tm_min := minute; tm_sec := second; tm_wday := 0; tm_yday := 0;
                                   tm_isdst := -1 |} in
    if parsed =? -1 then Ret None
    else match localtime zn parsed with
         | None => Ret None
         | Some t =>
             if bool_decide (tm_year t = year1900) && bool_decide (tm_mon t = month - 1) &&
                bool_decide (tm_mday t = day) && bool_decide (tm_hour t = hour) && bool_decide (tm_min t = minute) &&
                bool_decide (tm_sec t = second)
             then Ret (Some parsed) else Ret None
         end.

(** The part before the first dot; whatever follows the seconds there is one
    conversion too many. *)
Definition before_dot (datetime : string) : string :=
  match find_char "." 0 datetime with Some p => substr 0 p datetime | None => datetime end.

Definition ParseDateTimeToSeconds (datetime : string) : outcome (option Z) :=
  scanned ← sscanf date_format (c_text (before_dot datetime));
  match scanned with
  | Some ([year; month; day; hour; minute; second], EmptyString) =>
      fields_to_seconds year month day hour minute second
  | _ => Ret None
  end.

Definition ParseFraction (text : string) (dot_pos : option nat) (target_width : nat) : option Z :=
  match dot_pos with
  | None => Some 0
  | Some p =>
      let digits := substr_from (S p) text in
      match digits with
      | EmptyString => None
      | _ =>
          let digits := substr 0 target_width digits in
          if negb (all_chars is_digit digits) then None
          else Some (read_digits 0 (digits +:+ String.concat "" (replicate (target_width - String.length digits) "0"))).1
      end
  end.

(** -1 when the text cannot be read. *)
Definition ParseWithFraction (datetime : string) (unit_per_second : Z) (fraction_width : nat) : outcome Z :=
  seconds ← ParseDateTimeToSeconds datetime;
  match seconds with
  | None => Ret (-1)
  | Some seconds =>
      match ParseFraction datetime (find_char "." 0 datetime) fraction_width with
      | None => Ret (-1)
      | Some fraction => x ← int64 (seconds * unit_per_second); int64 (x + fraction)
      end
  end.

Definition Parse (datetime : string) : outcome Z :=
  seconds ← ParseDateTimeToSeconds datetime; Ret (default (-1) seconds).
Definition ParseMs (datetime : string) : outcome Z := ParseWithFraction datetime kMillisPerSecond 3.
Definition ParseUs (datetime : string) : outcome Z := ParseWithFraction datetime kMicrosPerSecond 6.
Definition ParseNs (datetime : string) : outcome Z := ParseWithFraction datetime kNanosPerSecond 9.

(** ** Fields of a moment *)

(** The first of January 1970 when there is no local time. *)
Definition CurrentLocalTm (now : Z) : tm :=
  match localtime zn now with
  | Some t => t
  | None => {| tm_year := 70; tm_mon := 0; tm_mday := 1; tm_hour := 0; tm_min := 0; tm_sec := 0; tm_wday := 4;
               tm_yday := 0; tm_isdst := 0 |}
  end.

Definition CurrentYear (now : Z) : Z := tm_year (CurrentLocalTm now) + 1900.
Definition CurrentMonth (now : Z) : Z := tm_mon (CurrentLocalTm now) + 1.
Definition CurrentDay (now : Z) : Z := tm_mday (CurrentLocalTm now).
Definition CurrentHour (now : Z) : Z := tm_hour (CurrentLocalTm now).
Definition CurrentMinute (now : Z) : Z := tm_min (CurrentLocalTm now).
Definition CurrentSecond (now : Z) : Z := tm_sec (CurrentLocalTm now).

(** Monday is 1, Sunday 7. *)
Definition DayOfWeek (seconds : Z) : Z :=
  match localtime zn seconds with
  | None => 0
  | Some t => if tm_wday t =? 0 then 7 else tm_wday t
  end.
Definition DayOfYear (seconds : Z) : Z :=
  match localtime zn seconds with None => 0 | Some t => tm_yday t + 1 end.

Record DateTime := {
  dt_year : Z; dt_month : Z; dt_day : Z; dt_hour : Z; dt_minute : Z; dt_second : Z;
  dt_millisecond : Z; dt_microsecond : Z
}.

Definition NowDateTime (now_us : Z) : DateTime :=
  let '(seconds, fraction) := SplitTimestamp now_us kMicrosPerSecond in
  match localtime zn seconds with
  | None => {| dt_year := 1970; dt_month := 1; dt_day := 1; dt_hour := 0; dt_minute := 0; dt_second := 0;
               dt_millisecond := 0; dt_microsecond := 0 |}
  | Some t => {| dt_year := tm_year t + 1900; dt_month := tm_mon t + 1; dt_day := tm_mday t;
                 dt_hour := tm_hour t; dt_minute := tm_min t; dt_second := tm_sec t;
                 dt_millisecond := Z.quot fraction 1000; dt_microsecond := fraction |}
  end.

(** ** Arithmetic *)

Definition add_units (base_time n unit : Z) : outcome Z := x ← int64 (n * unit); int64 (base_time + x).
Definition AddDays (base_time days : Z) : outcome Z := add_units base_time days kSecondsPerDay.
Definition AddHours (base_time hours : Z) : outcome Z := add_units base_time hours kSecondsPerHour.
Definition AddMinutes (base_time minutes : Z) : outcome Z := add_units base_time minutes kSecondsPerMinute.
Definition AddSeconds (base_time seconds : Z) : outcome Z := int64 (base_time + seconds).

Definition DiffSeconds (b e : Z) : outcome Z := int64 (e - b).
Definition DiffMilliseconds (begin_ms end_ms : Z) : outcome Z := int64 (end_ms - begin_ms).
Definition DiffMinutes (b e : Z) : outcome Z := d ← DiffSeconds b e; Ret (Z.quot d kSecondsPerMinute).
Definition DiffHours (b e : Z) : outcome Z := d ← DiffSeconds b e; Ret (Z.quot d kSecondsPerHour).
Definition DiffDays (b e : Z) : outcome Z := d ← DiffSeconds b e; Ret (Z.quot d kSecondsPerDay).

Definition IsSameDay (left right : Z) : bool :=
  match localtime zn left, localtime zn right with
  | Some l, Some r => bool_decide (tm_year l = tm_year r) && bool_decide (tm_yday l = tm_yday r)
  | _, _ => false
  end.
Definition IsToday (seconds now : Z) : bool := IsSameDay seconds now.
Definition IsExpired (expire_time now : Z) : bool := expire_time <=? now.
Definition IsExpiredMs (start_ms timeout_ms now_ms : Z) : outcome bool :=
  d ← DiffMilliseconds start_ms now_ms; Ret (timeout_ms <=? d).

(** The broken down time of UTC read as local time. *)
Definition GetTimezoneOffset (now : Z) : Z :=
  match localtime zn now, gmtime now with
  | Some l, Some u => wraps 32 (zn_mktime zn l - zn_mktime zn u)
  | _, _ => 0
  end.
End format.

(** ** Printed numbers *)

Lemma all_digits_head s tail :
  all_chars is_digit s = true → s ≠ "" →
  skip_space (s +:+ tail) = s +:+ tail ∧ split_sign (s +:+ tail) = (false, s +:+ tail).
Proof.
  destruct s as [|c s]; [done|]. cbn [all_chars]. intros [Hc _]%andb_prop _. rewrite string_app_cons.
  assert (Hd : digit_value c ≠ None) by (unfold is_digit in Hc; by destruct (digit_value c)).
  cbn [skip_space]. by rewrite (digit_not_space c Hd), (digit_not_sign c _ Hd).
Qed.

Lemma scan_int_digits s tail :
  all_chars is_digit s = true → s ≠ "" → starts_with_digit tail = false → ins 32 (read_digits 0 s).1 →
  scan_int (s +:+ tail) = Ret (Some ((read_digits 0 s).1, tail)).
Proof.
  intros Hs Hne Ht Hi. unfold scan_int. destruct (all_digits_head s tail Hs Hne) as [-> ->].
  pose proof (read_digits_all 0 s Hs) as Hn. destruct (read_digits 0 s) as [v n] eqn:Er. cbn in Hn, Hi |- *. subst n.
  rewrite (read_digits_app _ _ _ _ _ Ht Er).
  destruct (Nat.eqb_spec (String.length s) 0) as [H0|_]; [destruct s; cbn in H0; done|].
  unfold int32. rewrite decide_True by done. cbn. by rewrite substr_from_app.
Qed.

Lemma scan_int_pretty (z : Z) tail :
  ins 32 z → starts_with_digit tail = false → scan_int (pretty z +:+ tail) = Ret (Some (z, tail)).
Proof.
  intros Hz Ht. destruct (decide (0 <= z)) as [H0|H0].
  - destruct (pretty_all_digits z H0) as [Hd Hne].
    assert (Hv : (read_digits 0 (pretty z)).1 = z) by (destruct (pretty_digits z H0) as (c & ds & _ & _ & Hr & ->); by rewrite Hr).
    rewrite scan_int_digits; rewrite ?Hv; done.
  - assert (Hp : 0 <= - z) by lia. destruct (pretty_all_digits (- z) Hp) as [Hd Hne].
    assert (Hv : read_digits 0 (pretty (- z)) = (- z, String.length (pretty (- z))))
      by (destruct (pretty_digits (- z) Hp) as (c & ds & _ & _ & Hr & ->); by rewrite Hr).
    assert (pretty z = String "-" (pretty (- z))) as -> by (destruct z; [lia|lia|done]).
    rewrite string_app_cons. unfold scan_int. cbn [skip_space isspace split_sign].
    replace (isspace "-") with false by done. cbn [split_sign].
    rewrite (read_digits_app _ _ _ _ _ Ht Hv).
    destruct (Nat.eqb_spec (String.length (pretty (- z))) 0) as [Hl|_]; [destruct (pretty (- z)); cbn in Hl; done|].
    unfold int32. rewrite Z.opp_involutive, decide_True by done. cbn. by rewrite substr_from_app.
Qed.

Lemma zeros_digits n : all_chars is_digit (String.concat "" (replicate n "0")) = true.
Proof. by induction n as [|[|n] IH]. Qed.
Lemma zeros_S n : String.concat "" (replicate (S n) "0") = String "0" (String.concat "" (replicate n "0")).
Proof. by destruct n. Qed.
Lemma zeros_length n : String.length (String.concat "" (replicate n "0")) = n.
Proof. induction n as [|n IH]; [done|]. rewrite zeros_S. cbn [String.length]. by rewrite IH. Qed.

Lemma read_zeros n s : (read_digits 0 (String.concat "" (replicate n "0") +:+ s)).1 = (read_digits 0 s).1.
Proof.
  induction n as [|n IH]; [done|]. rewrite zeros_S, string_app_cons. rewrite <- IH. cbn [read_digits].
  change (digit_value "0") with (Some 0). cbn beta iota. change (10 * 0 + 0) with 0.
  by destruct (read_digits 0 (String.concat "" (replicate n "0") +:+ s)).
Qed.

(** A number of at most [k] digits. *)
Lemma pretty_N_short k (x : N) :
  (0 < x)%N → (x < 10 ^ N.of_nat k)%N → ∃ ds, (String.length ds <= k)%nat ∧ ∀ s, pretty_N_go x s = ds +:+ s.
Proof.
  revert x. induction k as [|k IH]; intros x H0 Hx; [cbn in Hx; lia|].
  destruct (decide (x / 10 = 0)%N) as [Hd|Hd].
  - exists (String (pretty_N_char (x mod 10)) ""). split; [cbn; lia|]. intros s.
    rewrite pretty_N_go_step by done. by rewrite Hd, pretty_N_go_0.
  - destruct (IH (x / 10)%N) as (ds & Hl & Hgo).
    + by apply N.neq_0_lt_0.
    + apply N.Div0.div_lt_upper_bound. rewrite Nat2N.inj_succ, N.pow_succ_r in Hx by lia. done.
    + exists (ds +:+ String (pretty_N_char (x mod 10)) ""). split; [rewrite string_length_app; cbn; lia|].
      intros s. rewrite pretty_N_go_step by done. by rewrite Hgo, <- string_app_assoc.
Qed.

Lemma pretty_short k (z : Z) : (0 < k)%nat → 0 <= z < 10 ^ Z.of_nat k → (String.length (pretty z) <= k)%nat.
Proof.
  intros Hk Hz. destruct z as [|p|p]; [by cbn; lia| |lia].
  destruct (pretty_N_short k (N.pos p)) as (ds & Hl & Hgo); [lia| |].
  - apply N2Z.inj_lt. rewrite N2Z.inj_pow, nat_N_Z. cbn. lia.
  - change (pretty (Z.pos p)) with (pretty_N_go (N.pos p) ""). rewrite Hgo. by rewrite string_app_nil_r.
Qed.

Lemma FormatFraction_spec v w :
  (0 < w)%nat → 0 <= v < 10 ^ Z.of_nat w →
  all_chars is_digit (FormatFraction v w) = true ∧ FormatFraction v w ≠ "" ∧
  (read_digits 0 (FormatFraction v w)).1 = v ∧ String.length (FormatFraction v w) = w.
Proof.
  intros Hw Hv. unfold FormatFraction. destruct (pretty_all_digits v) as [Hd Hne]; [lia|].
  pose proof (pretty_short w v Hw Hv) as Hl. split_and!.
  - by rewrite all_chars_app, zeros_digits, Hd.
  - intros He. apply (f_equal String.length) in He. rewrite string_length_app in He.
    destruct (pretty v); [done|]. cbn in He. lia.
  - rewrite read_zeros. destruct (pretty_digits v) as (c & ds & _ & _ & Hr & ->); [lia|]. by rewrite Hr.
  - rewrite string_length_app, zeros_length. lia.
Qed.

Lemma scan_int_field v w tail :
  (0 < w <= 9)%nat → 0 <= v < 10 ^ Z.of_nat w → starts_with_digit tail = false →
  scan_int (FormatFraction v w +:+ tail) = Ret (Some (v, tail)).
Proof.
  intros Hw Hv Ht. destruct (FormatFraction_spec v w) as (H1 & H2 & H3 & _); [lia|done|].
  rewrite scan_int_digits; rewrite ?H3; try done.
  assert (10 ^ Z.of_nat w <= 10 ^ 9) by (apply Z.pow_le_mono_r; lia).
  unfold ins. change (10 ^ 9) with 1000000000 in *. lia.
Qed.

Lemma scan_int_space s : scan_int (skip_space s) = scan_int s.
Proof.
  unfold scan_int. assert (skip_space (skip_space s) = skip_space s) as ->; [|done].
  induction s as [|c s IH]; [done|]. cbn [skip_space]. destruct (isspace c) eqn:E; [done|]. cbn [skip_space]. by rewrite E.
Qed.

(** ** Moments *)

Section moments.
Variable zn : zone.
Implicit Types (t u : tm).

Lemma fields_in_range_valid y m d h mi s :
  valid_fields y m d h mi s → fields_in_range m d h mi s = true.
Proof.
  intros (Hm & Hd & Hh & Hmi & Hs)%valid_fields_moment. pose proof (month_length_bounds y m Hm). unfold fields_in_range.
  apply negb_true_iff. rewrite !orb_false_iff, !Z.ltb_ge. lia.
Qed.

Lemma localtime_clock seconds t :
  localtime zn seconds = Some t → valid_tm t ∧ clock_seconds t = seconds + zn_offset zn seconds ∧ ins 32 (tm_year t).
Proof.
  unfold localtime. intros [<- Hy]%representable_Some.
  by destruct (broken_down_spec (if zn_dst zn seconds then 1 else 0) (seconds + zn_offset zn seconds)) as (? & ? & _).
Qed.

(** The fields of a date as the parser fills them in, and that the local clocks
    show them at a moment. *)
Definition fields_tm (y m d h mi s : Z) : tm := {|
  tm_year := y - 1900; tm_mon := m - 1; tm_mday := d; tm_hour := h; tm_min := mi; tm_sec := s;
  tm_wday := 0; tm_yday := 0; tm_isdst := -1 |}.
Definition shown (y m d h mi s z : Z) : Prop :=
  ∃ t, localtime zn z = Some t ∧ same_fields t (fields_tm y m d h mi s).

Lemma shown_valid y m d h mi s z : shown y m d h mi s z → valid_fields y m d h mi s.
Proof.
  intros (t & Ht & Hf). apply valid_fields_moment. destruct (localtime_clock _ _ Ht) as (Hv & _).
  unfold valid_tm, same_fields in *. cbn in Hf. destruct Hf as (E1 & E2 & E3 & E4 & E5 & E6).
  rewrite E1, E2, E3, E4, E5, E6 in Hv.
  by replace (1900 + (y - 1900)) with y in Hv by lia; replace (m - 1 + 1) with m in Hv by lia.
Qed.

(** The comparison with the local time of the answer. *)
Lemma same_fields_bool t y m d h mi s :
  bool_decide (tm_year t = y - 1900) && bool_decide (tm_mon t = m - 1) && bool_decide (tm_mday t = d) &&
  bool_decide (tm_hour t = h) && bool_decide (tm_min t = mi) && bool_decide (tm_sec t = s) = true ↔
  same_fields t (fields_tm y m d h mi s).
Proof. unfold same_fields. cbn. rewrite !andb_true_iff, !bool_decide_eq_true. tauto. Qed.

Lemma fields_to_seconds_spec y m d h mi s :
  ins 32 (y - 1900) →
  let z := zn_mktime zn (fields_tm y m d h mi s) in
  (shown y m d h mi s z → fields_to_seconds zn y m d h mi s = Ret (if z =? -1 then None else Some z)) ∧
  (¬ shown y m d h mi s z → fields_to_seconds zn y m d h mi s = Ret None).
Proof.
  intros Hy z. unfold fields_to_seconds. split.
  - intros Hs. rewrite (fields_in_range_valid _ _ _ _ _ _ (shown_valid _ _ _ _ _ _ _ Hs)). cbn [negb].
    unfold int32. rewrite decide_True by done. cbn [mbind outcome_bind]. fold (fields_tm y m d h mi s). fold z.
    destruct (z =? -1); [done|]. destruct Hs as (t & Ht & Hf). rewrite Ht.
    by rewrite (proj2 (same_fields_bool _ _ _ _ _ _ _) Hf).
  - intros Hs. destruct (negb _); [done|]. unfold int32. rewrite decide_True by done. cbn [mbind outcome_bind].
    fold (fields_tm y m d h mi s). fold z. destruct (z =? -1); [done|].
    destruct (localtime zn z) as [t|] eqn:Ht; [|done].
    destruct (_ && _) eqn:Hb; [|done]. destruct Hs. exists t. split; [done|]. by apply same_fields_bool.
Qed.

Lemma fields_to_seconds_Some y m d h mi s z :
  fields_to_seconds zn y m d h mi s = Ret (Some z) → shown y m d h mi s z ∧ z ≠ -1.
Proof.
  intros Hf. assert (Hy : ins 32 (y - 1900)).
  { revert Hf. unfold fields_to_seconds. destruct (negb _); [done|]. unfold int32. by case_decide. }
  destruct (fields_to_seconds_spec y m d h mi s Hy) as [H1 H2].
  destruct (fields_in_range m d h mi s) eqn:Er; [|unfold fields_to_seconds in Hf; by rewrite Er in Hf].
  assert (Hs : shown y m d h mi s (zn_mktime zn (fields_tm y m d h mi s))).
  { unfold fields_to_seconds in Hf. rewrite Er in Hf. unfold int32 in Hf. rewrite decide_True in Hf by done.
    cbn [negb mbind outcome_bind] in Hf. fold (fields_tm y m d h mi s) in Hf. destruct (_ =? -1); [done|].
    destruct (localtime zn _) as [t|] eqn:Ht; [|done]. destruct (_ && _) eqn:Hb; [|done].
    exists t. split; [done|]. by apply same_fields_bool. }
  rewrite (H1 Hs) in Hf. destruct (_ =? -1) eqn:E; [done|]. injection Hf as <-. split; [done|]. by apply Z.eqb_neq.
Qed.

Context `{!ZoneLaws zn}.

(** If the clocks show the fields at all, they do at the answer of [mktime]. *)
Lemma shown_mktime y m d h mi s z :
  shown y m d h mi s z → shown y m d h mi s (zn_mktime zn (fields_tm y m d h mi s)).
Proof.
  intros (t & Ht & Hf). destruct (zn_mktime_spec (fields_tm y m d h mi s) z t Ht) as (v & Hv & Hs & _).
  - unfold same_fields in *. naive_solver.
  - left. cbn. lia.
  - by exists v.
Qed.

(** The fields of a local time that no other moment has name its moment. *)
Lemma fields_to_seconds_local t z :
  localtime zn z = Some t → unambiguous zn z → z ≠ -1 →
  fields_to_seconds zn (tm_year t + 1900) (tm_mon t + 1) (tm_mday t) (tm_hour t) (tm_min t) (tm_sec t) = Ret (Some z).
Proof.
  intros Ht Hu Hne. destruct (localtime_clock _ _ Ht) as (_ & _ & Hy).
  set (y := tm_year t + 1900). set (m := tm_mon t + 1).
  assert (Hy' : ins 32 (y - 1900)) by (unfold y; by replace (tm_year t + 1900 - 1900) with (tm_year t) by lia).
  assert (Hs : shown y m (tm_mday t) (tm_hour t) (tm_min t) (tm_sec t) z).
  { exists t. split; [done|]. unfold same_fields, y, m. cbn. split_and!; done || lia. }
  destruct (shown_mktime _ _ _ _ _ _ _ Hs) as (v & Hv & Hf).
  assert (Hz : zn_mktime zn (fields_tm y m (tm_mday t) (tm_hour t) (tm_min t) (tm_sec t)) = z).
  { apply (Hu _ t v Ht Hv). unfold same_fields in *. cbn in Hf. unfold y, m in Hf. destruct Hf as (? & ? & ? & ? & ? & ?).
    split_and!; done || lia. }
  destruct (fields_to_seconds_spec y m (tm_mday t) (tm_hour t) (tm_min t) (tm_sec t) Hy') as [H1 _].
  rewrite H1 by (rewrite Hz; done). rewrite Hz. by rewrite (proj2 (Z.eqb_neq z (-1))).
Qed.

(** C31: For fields whose year an int can hold, and whatever changes of offset the
    zone has: what the parser accepts is a moment at which the local clocks show
    these fields, and not the second before 1970 in UTC; it refuses fields that the
    clocks never show, and otherwise only those they show at that second.  Fields
    they show are dates of the code's own table of months and rule of leap years,
    with hours below 24 and minutes and seconds below 60, so that a second 60 is
    always refused; and in a zone whose offset never changes they show all of
    these. *)
Theorem parse_exact y m d h mi s :
  ins 32 (y - 1900) →
  (∃ r, fields_to_seconds zn y m d h mi s = Ret r ∧
     match r with
     | Some z => shown y m d h mi s z ∧ z ≠ -1
     | None => (∀ z, ¬ shown y m d h mi s z) ∨ shown y m d h mi s (-1)
     end) ∧
  ((∃ z, shown y m d h mi s z) →
   1 <= m <= 12 ∧ 1 <= d <= DaysInMonth y m ∧ 0 <= h < 24 ∧ 0 <= mi < 60 ∧ 0 <= s < 60) ∧
  (∀ offset, (∀ z, zn_offset zn z = offset) →
   1 <= m <= 12 ∧ 1 <= d <= DaysInMonth y m ∧ 0 <= h < 24 ∧ 0 <= mi < 60 ∧ 0 <= s < 60 →
   shown y m d h mi s (clock_seconds (fields_tm y m d h mi s) - offset)).
Proof.
  intros Hy. split; [|split].
  - destruct (fields_to_seconds_spec y m d h mi s Hy) as [H1 H2].
    set (z := zn_mktime zn (fields_tm y m d h mi s)) in *.
    assert (Hd : shown y m d h mi s z ∨ ¬ shown y m d h mi s z).
    { unfold shown. destruct (localtime zn z) as [t|]; [|right; by intros (? & ? & _)].
      destruct (decide (same_fields t (fields_tm y m d h mi s))); [left; by exists t|right].
      by intros (? & [= <-] & ?). }
    destruct Hd as [Hs|Hs].
    + eexists. split; [by apply H1|]. destruct (Z.eqb_spec z (-1)) as [Hz|Hz]; [right; by rewrite <- Hz|done].
    + exists None. split; [by apply H2|]. left. by intros z' ?%shown_mktime.
  - by intros [z Hs%shown_valid].
  - intros offset Ho Hv%valid_fields_moment. set (t := fields_tm y m d h mi s).
    assert (Hvt : valid_tm t).
    { unfold valid_tm, t. cbn. replace (1900 + (y - 1900)) with y by lia. by replace (m - 1 + 1) with m by lia. }
    pose proof (broken_down_clock (if zn_dst zn (clock_seconds t - offset) then 1 else 0) t Hvt) as Hf. cbv zeta in Hf.
    eexists. split; [|exact Hf]. unfold localtime. rewrite Ho.
    replace (clock_seconds t - offset + offset) with (clock_seconds t) by lia. apply representable_Some.
    split; [done|]. destruct Hf as (-> & _). done.
Qed.

(** ** Splitting *)

Lemma SplitTimestamp_spec ts unit_per_second :
  0 < unit_per_second →
  SplitTimestamp ts unit_per_second = (ts / unit_per_second, ts mod unit_per_second).
Proof.
  intros Hu. unfold SplitTimestamp.
  pose proof (Z.quot_rem' ts unit_per_second) as Hqr. pose proof (Z.rem_bound_abs ts unit_per_second ltac:(lia)) as Hb.
  set (q := Z.quot ts unit_per_second) in *. set (r := Z.rem ts unit_per_second) in *.
  destruct (r <? 0) eqn:E; f_equal.
  - eapply (Z.div_unique_pos _ _ _ (r + unit_per_second)); lia.
  - eapply (Z.mod_unique_pos _ _ (q - 1)); lia.
  - eapply (Z.div_unique_pos _ _ _ r); lia.
  - eapply (Z.mod_unique_pos _ _ q); lia.
Qed.

(** ** Text and back *)

Variable conversion : tm → option ascii → ascii → string.

(** Nothing the parser looks for as the end of the fields. *)
Definition date_char (c : ascii) : bool := negb (Ascii.eqb "." c) && negb (Ascii.eqb c zero).

Lemma digits_date_chars s : all_chars is_digit s = true → all_chars date_char s = true.
Proof. apply all_chars_impl. by intros [[] [] [] [] [] [] [] []]. Qed.

Lemma pretty_date_chars (z : Z) : all_chars date_char (pretty z) = true.
Proof.
  destruct (decide (0 <= z)) as [H0|H0]; [by apply digits_date_chars, pretty_all_digits|].
  assert (pretty z = String "-" (pretty (- z))) as -> by (destruct z; [lia|lia|done]).
  cbn [all_chars]. by apply digits_date_chars, pretty_all_digits; lia.
Qed.

Definition date_text (t : tm) : string :=
  pretty (tm_year t + 1900) +:+ "-" +:+ FormatFraction (tm_mon t + 1) 2 +:+ "-" +:+ FormatFraction (tm_mday t) 2 +:+
  " " +:+ FormatFraction (tm_hour t) 2 +:+ ":" +:+ FormatFraction (tm_min t) 2 +:+ ":" +:+ FormatFraction (tm_sec t) 2.

Lemma FormatTm_default t : FormatTm conversion t DEFAULT = date_text t.
Proof. unfold DEFAULT, date_text. cbn. by rewrite string_app_nil_r. Qed.

Lemma valid_two_digits t :
  valid_tm t →
  Forall (λ v, 0 <= v < 10 ^ Z.of_nat 2) [tm_mon t + 1; tm_mday t; tm_hour t; tm_min t; tm_sec t].
Proof.
  intros (Hm & Hd & Hh & Hmi & Hs). pose proof (month_length_bounds (1900 + tm_year t) _ Hm). change (10 ^ Z.of_nat 2) with 100.
  repeat constructor; lia.
Qed.

Lemma date_text_chars t : valid_tm t → all_chars date_char (date_text t) = true.
Proof.
  intros Hv%valid_two_digits. unfold date_text. rewrite !all_chars_app, pretty_date_chars.
  repeat (apply Forall_cons in Hv as [Hf Hv]; destruct (FormatFraction_spec _ 2 ltac:(lia) Hf) as (Hd & _);
          rewrite (digits_date_chars _ Hd); clear Hf Hd).
  done.
Qed.

Lemma sscanf_date_text t :
  valid_tm t → ins 32 (tm_year t + 1900) →
  sscanf date_format (date_text t) =
    Ret (Some ([tm_year t + 1900; tm_mon t + 1; tm_mday t; tm_hour t; tm_min t; tm_sec t], "")).
Proof.
  intros Hv%valid_two_digits Hy. unfold date_text, date_format.
  repeat (apply Forall_cons in Hv as [?Hf Hv]).
  rewrite <- (string_app_nil_r (FormatFraction (tm_sec t) 2)).
  cbn [sscanf]. rewrite scan_int_pretty by done. cbn [mbind outcome_bind].
  rewrite string_app_cons, string_app_nil, Ascii.eqb_refl, scan_int_field by (done || lia). cbn [mbind outcome_bind].
  rewrite string_app_cons, string_app_nil, Ascii.eqb_refl, scan_int_field by (done || lia). cbn [mbind outcome_bind].
  rewrite scan_int_space, string_app_cons, string_app_nil.
  rewrite <- scan_int_space. cbn [skip_space]. change (isspace " ") with true. cbn iota. rewrite scan_int_space.
  rewrite scan_int_field by (done || lia). cbn [mbind outcome_bind].
  rewrite string_app_cons, string_app_nil, Ascii.eqb_refl, scan_int_field by (done || lia). cbn [mbind outcome_bind].
  rewrite string_app_cons, string_app_nil, Ascii.eqb_refl, scan_int_field by (done || lia). cbn [mbind outcome_bind]. done.
Qed.

Lemma c_text_id s : all_chars date_char s = true → c_text s = s.
Proof.
  induction s as [|c s IH]; [done|]. cbn [all_chars c_text]. intros [Hc Hs]%andb_prop.
  apply andb_prop in Hc as [_ Hc]. apply negb_true_iff in Hc. by rewrite Hc, IH.
Qed.

Lemma before_dot_text s tail :
  all_chars date_char s = true → before_dot (s +:+ String "." tail) = s ∧ before_dot s = s ∧
  find_char "." 0 (s +:+ String "." tail) = Some (String.length s) ∧ find_char "." 0 s = None.
Proof.
  intros Hs. assert (Hd : all_chars (λ d, negb (Ascii.eqb "." d)) s = true).
  { revert Hs. apply all_chars_impl. intros c Hc. by apply andb_prop in Hc as [Hc _]. }
  unfold before_dot. rewrite (find_char_at_0 _ _ tail Hd), (find_char_None_0 _ _ Hd). split_and!; try done.
  apply substr_app_0.
Qed.

Lemma parse_date_text seconds t tail :
  localtime zn seconds = Some t → ins 32 (tm_year t + 1900) → unambiguous zn seconds → seconds ≠ -1 →
  ParseDateTimeToSeconds zn (date_text t +:+ String "." tail) = Ret (Some seconds) ∧
  ParseDateTimeToSeconds zn (date_text t) = Ret (Some seconds).
Proof.
  intros Ht Hy Hu Hne. destruct (localtime_clock _ _ Ht) as (Hv & Hc & H32).
  pose proof (date_text_chars _ Hv) as Hch. destruct (before_dot_text _ tail Hch) as (H1 & H2 & _).
  unfold ParseDateTimeToSeconds. rewrite H1, H2, (c_text_id _ Hch), (sscanf_date_text _ Hv Hy).
  cbn [mbind outcome_bind].
  by rewrite (fields_to_seconds_local t seconds Ht Hu Hne).
Qed.

Lemma year_bound isdst seconds :
  - 2 ^ 54 <= seconds <= 2 ^ 54 → - 2 ^ 30 <= tm_year (broken_down isdst seconds) <= 2 ^ 30.
Proof.
  intros Hs. destruct (broken_down_spec isdst seconds) as (_ & _ & Hy & _).
  pose proof (year_of_spec (seconds / seconds_per_day)) as Hj.
  assert (Hd : - 2 ^ 38 <= seconds / seconds_per_day <= 2 ^ 38) by (unfold seconds_per_day; Z.div_mod_to_equations; lia).
  set (y := year_of (seconds / seconds_per_day)) in *. assert (H0 : jan1 1970 = 0) by done.
  destruct (decide (1970 <= y)) as [Hle|Hle].
  - pose proof (jan1_mono 1970 y Hle). lia.
  - pose proof (jan1_mono (y + 1) 1970 ltac:(lia)). lia.
Qed.

(** C28: What one of the three formatting functions prints is read back by the
    parsing function of the same unit as the same number, for every time stamp
    an int64 can hold from one second above the lowest on, whose second has a local
    time that no other second has, but for those of the second before 1970 in UTC.
    In a zone whose offset never changes every second is such. *)
Theorem datetime_roundtrip ts unit_per_second width :
  (unit_per_second, width) ∈ [(kMillisPerSecond, 3%nat); (kMicrosPerSecond, 6%nat); (kNanosPerSecond, 9%nat)] →
  - 2 ^ 63 + unit_per_second <= ts < 2 ^ 63 → ts / unit_per_second ≠ -1 →
  unambiguous zn (ts / unit_per_second) →
  ParseWithFraction zn (FormatWithFraction conversion zn ts unit_per_second width DEFAULT) unit_per_second width
    = Ret ts.
Proof.
  intros Hu Hts Hne Hone.
  assert (Hw : 1000 <= unit_per_second ∧ unit_per_second = 10 ^ Z.of_nat width ∧ (0 < width)%nat).
  { rewrite !elem_of_cons, elem_of_nil in Hu. destruct Hu as [[= -> ->]|[[= -> ->]|[[= -> ->]|[]]]];
      (split_and!; [by vm_compute|done|lia]). }
  clear Hu. destruct Hw as (H1000 & Hpow & Hw).
  unfold FormatWithFraction. rewrite SplitTimestamp_spec by lia.
  set (sec := ts / unit_per_second) in *. set (frac := ts mod unit_per_second).
  assert (Hfrac : 0 <= frac < 10 ^ Z.of_nat width) by (rewrite <- Hpow; apply Z.mod_pos_bound; lia).
  assert (Hsum : sec * unit_per_second + frac = ts) by (pose proof (Z.div_mod ts unit_per_second); lia).
  pose proof (zn_offset_bound sec) as Ho. set (isdst := if zn_dst zn sec then 1 else 0).
  assert (Hyear : - 2 ^ 30 <= tm_year (broken_down isdst (sec + zn_offset zn sec)) <= 2 ^ 30) by (apply year_bound; nia).
  assert (Hloc : localtime zn sec = Some (broken_down isdst (sec + zn_offset zn sec))).
  { apply representable_Some. split; [done|]. unfold ins. fold isdst. lia. }
  unfold FormatLocal. rewrite Hloc, FormatTm_default. set (t := broken_down isdst (sec + zn_offset zn sec)) in *.
  destruct (localtime_clock _ _ Hloc) as (Hv & _ & _). pose proof (date_text_chars _ Hv) as Hch.
  destruct (parse_date_text sec t (FormatFraction frac width) Hloc) as [Hp _]; [unfold ins; lia|done|done|].
  destruct (before_dot_text (date_text t) (FormatFraction frac width) Hch) as (_ & _ & Hfind & _).
  destruct (FormatFraction_spec frac width Hw Hfrac) as (F1 & F2 & F3 & F4).
  assert (Hne' : date_text t ≠ "").
  { unfold date_text. intros He. apply (f_equal String.length) in He. rewrite !string_length_app in He.
    change (String.length "-") with 1%nat in He. change (String.length "") with 0%nat in He. lia. }
  destruct (date_text t) as [|c base] eqn:Et; [done|].
  change ("." +:+ FormatFraction frac width) with (String "." (FormatFraction frac width)).
  unfold ParseWithFraction. rewrite Hp. cbn [mbind outcome_bind]. rewrite Hfind.
  unfold ParseFraction.
  assert (Hsub : substr_from (S (String.length (String c base))) (String c base +:+ String "." (FormatFraction frac width))
                 = FormatFraction frac width).
  { replace (String c base +:+ String "." (FormatFraction frac width))
      with ((String c base +:+ ".") +:+ FormatFraction frac width) by (by rewrite <- string_app_assoc).
    replace (S (String.length (String c base))) with (String.length (String c base +:+ "."))
      by (rewrite string_length_app; cbn; lia).
    apply substr_from_app. }
  rewrite Hsub.
  assert (Hpre : substr 0 width (FormatFraction frac width) = FormatFraction frac width).
  { rewrite <- F4 at 1. rewrite <- (string_app_nil_r (FormatFraction frac width)) at 2. apply substr_app_0. }
  rewrite Hpre. destruct (FormatFraction frac width) as [|c' ds]; [done|]. rewrite F1. cbn [negb].
  rewrite F4, Nat.sub_diag. cbn [replicate]. rewrite string_app_nil_r, F3.
  unfold int64. rewrite decide_True by (unfold ins; lia). cbn [mbind outcome_bind].
  rewrite Hsum, decide_True by (unfold ins; lia). done.
Qed.
End moments.

(** ** Failure *)

Lemma ParseFraction_range text p width z :
  ParseFraction text p width = Some z → 0 <= z < 10 ^ Z.of_nat width.
Proof.
  assert (Hpos : 0 < 10 ^ Z.of_nat width) by (by apply Z.pow_pos_nonneg; lia).
  assert (Hrd : ∀ s acc, 0 <= acc → all_chars is_digit s = true →
    acc * 10 ^ Z.of_nat (String.length s) <= (read_digits acc s).1 < (acc + 1) * 10 ^ Z.of_nat (String.length s)).
  { induction s as [|c s IH]; intros acc Ha; cbn [all_chars read_digits String.length]; [cbn; lia|].
    intros [Hc Hs]%andb_prop. unfold is_digit in Hc. destruct (digit_value c) as [d|] eqn:Ed; [|done].
    assert (0 <= d < 10).
    { revert Ed. unfold digit_value. destruct (_ && _) eqn:Eb; [|done]. intros [= <-]. apply andb_prop in Eb. lia. }
    specialize (IH (10 * acc + d) ltac:(lia) Hs). destruct (read_digits (10 * acc + d) s) as [v n]. cbn [fst] in *.
    rewrite Nat2Z.inj_succ, Z.pow_succ_r by lia. nia. }
  unfold ParseFraction. destruct p as [p|]; [|intros [= <-]; lia].
  destruct (substr_from (S p) text) as [|c ds]; [done|]. set (s := substr 0 width (String c ds)).
  destruct (negb (all_chars is_digit s)) eqn:Ed; [done|]. apply negb_false_iff in Ed. intros [= <-].
  set (zs := String.concat "" (replicate (width - String.length s) "0")).
  assert (Hzs : all_chars is_digit zs = true) by apply zeros_digits.
  specialize (Hrd (s +:+ zs) 0 ltac:(lia)). rewrite all_chars_app, Ed, Hzs in Hrd. specialize (Hrd eq_refl).
  assert (String.length (s +:+ zs) = width) as Hl.
  { rewrite string_length_app. subst zs. rewrite zeros_length.
    assert (String.length s <= width)%nat; [|lia]. subst s. unfold substr. generalize (String c ds) as u.
    clear. intros u. revert u. induction width as [|w IH]; intros [|c u]; cbn; try lia. specialize (IH u). lia. }
  rewrite Hl in Hrd. lia.
Qed.

(** A parsing function answers -1 exactly when the text before the first
    dot names no moment or what follows the dot is no fraction: a text that is
    read never gives -1. *)
Theorem datetime_failure zn datetime unit_per_second width :
  unit_per_second = 10 ^ Z.of_nat width →
  (ParseWithFraction zn datetime unit_per_second width = Ret (-1) ↔
   ∃ o, ParseDateTimeToSeconds zn datetime = Ret o ∧
        (o = None ∨ ParseFraction datetime (find_char "." 0 datetime) width = None)) ∧
  (Parse zn datetime = Ret (-1) ↔ ParseDateTimeToSeconds zn datetime = Ret None).
Proof.
  intros Hu. assert (Hp : 0 < 10 ^ Z.of_nat width) by (apply Z.pow_pos_nonneg; lia).
  assert (Hne : ∀ s, ParseDateTimeToSeconds zn datetime = Ret (Some s) → s ≠ -1).
  { intros s. unfold ParseDateTimeToSeconds. destruct (sscanf _ _) as [o| |]; cbn [mbind outcome_bind]; [|done..].
    destruct o as [[l r]|]; [|done].
    destruct l as [|y [|m [|d [|h [|mi [|sc [|? ?]]]]]]]; try done. destruct r; [|done].
    intros [_ ?]%fields_to_seconds_Some. done. }
  unfold ParseWithFraction, Parse. destruct (ParseDateTimeToSeconds zn datetime) as [[s|]| |]; cbn [mbind outcome_bind].
  - specialize (Hne s eq_refl). split.
    + destruct (ParseFraction _ _ width) as [f|] eqn:Ef.
      * apply ParseFraction_range in Ef. split; [|intros (o & [= <-] & [?|?]); done].
        unfold int64. case_decide; [|done]. cbn [mbind outcome_bind]. case_decide; [|done].
        intros [= He]. nia.
      * split; [|done]. intros _. exists (Some s). by split; [|right].
    + split; [|done]. cbn. intros [= ->]. done.
  - split; [|done]. split; [|done]. intros _. exists None. by split; [|left].
  - split; split; try done. by intros (? & ? & _).
  - split; split; try done. by intros (? & ? & _).
Qed.

(** ** Days *)

(** The number of the local day of a moment. *)
Definition local_day (zn : zone) (seconds : Z) : Z := (seconds + zn_offset zn seconds) / seconds_per_day.

Lemma localtime_day zn seconds t :
  localtime zn seconds = Some t →
  tm_wday t = (local_day zn seconds + 4) mod 7 ∧
  jan1 (tm_year t + 1900) + tm_yday t = local_day zn seconds ∧
  0 <= tm_yday t < if IsLeapYear (tm_year t + 1900) then 366 else 365.
Proof.
  unfold localtime. intros [<- _]%representable_Some.
  destruct (broken_down_spec (if zn_dst zn seconds then 1 else 0) (seconds + zn_offset zn seconds)) as (_ & _ & Hy & Hyd & Hw). rewrite Z.add_comm in Hy. rewrite Hy, Hyd, Hw.
  fold (local_day zn seconds). pose proof (year_of_spec (local_day zn seconds)) as Hj. rewrite jan1_next in Hj.
  rewrite IsLeapYear_leap. split_and!; [done|lia|lia|destruct (leap _); lia].
Qed.

(** The days of two moments count as the same exactly when their local
    day numbers are; the day of the week is from 1 to 7 and goes on by one each
    day, and the day of the year is from 1 to the length of the year and counts
    from the first of January. *)
Theorem local_days zn a b ta tb :
  localtime zn a = Some ta → localtime zn b = Some tb →
  (IsSameDay zn a b = true ↔ local_day zn a = local_day zn b) ∧
  (1 <= DayOfWeek zn a <= 7 ∧ (DayOfWeek zn a = DayOfWeek zn b ↔ (local_day zn a - local_day zn b) mod 7 = 0)) ∧
  (local_day zn b = local_day zn a + 1 → DayOfWeek zn b = DayOfWeek zn a mod 7 + 1) ∧
  (1 <= DayOfYear zn a <= (if IsLeapYear (tm_year ta + 1900) then 366 else 365) ∧
   jan1 (tm_year ta + 1900) + DayOfYear zn a = local_day zn a + 1).
Proof.
  intros Ha Hb. unfold IsSameDay, DayOfWeek, DayOfYear. rewrite Ha, Hb.
  destruct (localtime_day _ _ _ Ha) as (Wa & Ya & Da), (localtime_day _ _ _ Hb) as (Wb & Yb & Db).
  assert (Hmod : ∀ w, (if w mod 7 =? 0 then 7 else w mod 7) = (w - 1) mod 7 + 1).
  { intros w. destruct (w mod 7 =? 0) eqn:E; Z.div_mod_to_equations; lia. }
  rewrite Wa, Wb, !Hmod. split_and!.
  - rewrite andb_true_iff, !bool_decide_eq_true. split; [intros [H1 H2]; rewrite H1, H2 in Ya; lia|]. intros He.
    assert (Hy : tm_year ta + 1900 = tm_year tb + 1900).
    { apply (jan1_unique _ _ (local_day zn a)); rewrite jan1_next, <- IsLeapYear_leap; destruct (IsLeapYear _); lia. }
    split; [lia|]. rewrite Hy in Ya. lia.
  - Z.div_mod_to_equations; lia.
  - Z.div_mod_to_equations; lia.
  - split; intros; Z.div_mod_to_equations; lia.
  - intros ->. Z.div_mod_to_equations; lia.
  - lia.
  - destruct (IsLeapYear _); lia.
  - lia.
Qed.

(** Adding days and counting them again; in a fixed zone the offset is the
    zone's. *)
Lemma DiffDays_AddDays base n t :
  ins 64 (n * 86400) → AddDays base n = Ret t → DiffDays base t = Ret n ∧ DiffSeconds base t = Ret (n * 86400).
Proof.
  intros Hn. unfold AddDays, add_units, DiffDays, DiffSeconds, int64, kSecondsPerDay.
  rewrite decide_True by done. cbn [mbind outcome_bind]. case_decide as Hd; [|done]. intros [= <-].
  replace (base + n * 86400 - base) with (n * 86400) by lia. rewrite decide_True by done. cbn [mbind outcome_bind].
  by rewrite Z.quot_mul.
Qed.

Lemma GetTimezoneOffset_spec offset now :
  - 86400 <= offset <= 86400 → - 2 ^ 53 <= now <= 2 ^ 53 → GetTimezoneOffset (fixed_zone offset) now = offset.
Proof.
  intros Ho Hn.
  assert (Hrep : ∀ z, - 2 ^ 54 <= z <= 2 ^ 54 → representable (broken_down 0 z) = Some (broken_down 0 z)).
  { intros z Hz. apply representable_Some. split; [done|]. pose proof (year_bound 0 z Hz). unfold ins. lia. }
  unfold GetTimezoneOffset, localtime, gmtime. cbn [zn_dst zn_offset zn_mktime fixed_zone]. rewrite !Hrep by lia.
  destruct (broken_down_spec 0 (now + offset)) as (_ & -> & _), (broken_down_spec 0 now) as (_ & -> & _).
  rewrite !Hrep by lia. rewrite wraps_id; [lia|lia|unfold ins; lia].
Qed.

(** *** Witnesses *)

(** A zone eight hours ahead of UTC; nothing beyond the default conversions. *)
Definition no_conversion (t : tm) (m : option ascii) (c : ascii) : string := "".
Definition east8 : zone := fixed_zone 28800.
#[local] Instance east8_laws : ZoneLaws east8.
Proof. apply fixed_zone_laws. lia. Qed.

Lemma datetime_roundtrip_witness :
  FormatMs no_conversion east8 1709222399999 DEFAULT = "2024-02-29 23:59:59.999" ∧
  ParseMs east8 "2024-02-29 23:59:59.999" = Ret 1709222399999.
Proof.
  assert (Hf : FormatMs no_conversion east8 1709222399999 DEFAULT = "2024-02-29 23:59:59.999") by (vm_compute; reflexivity).
  split; [exact Hf|]. rewrite <- Hf. unfold ParseMs, FormatMs.
  apply (datetime_roundtrip east8 no_conversion 1709222399999 kMillisPerSecond 3);
    [left|unfold kMillisPerSecond; lia|discriminate|apply fixed_unambiguous].
Defined.

Lemma parse_exact_witness :
  fields_to_seconds east8 2024 2 29 0 0 0 = Ret (Some 1709136000) ∧
  fields_to_seconds east8 2023 2 29 0 0 0 = Ret None ∧
  (1 <= 29 <= DaysInMonth 2024 2) ∧ shown east8 2024 2 29 0 0 0 1709136000.
Proof.
  assert (Hf : fields_to_seconds east8 2024 2 29 0 0 0 = Ret (Some 1709136000)) by (vm_compute; reflexivity).
  split; [exact Hf|]. split; [vm_compute; reflexivity|].
  assert (H32 : ins 32 (2024 - 1900)) by (unfold ins; lia).
  destruct (parse_exact east8 2024 2 29 0 0 0 H32) as ((r & Hr & Hz) & Hd & _).
  rewrite Hf in Hr. injection Hr as <-. destruct Hz as [Hz _]. split; [|exact Hz].
  exact (proj1 (proj2 (Hd (ex_intro _ _ Hz)))).
Defined.

Lemma datetime_failure_witness :
  ParseMs east8 "2024-02-30 00:00:00" = Ret (-1) ∧ ParseMs east8 "2024-02-29 00:00:00." = Ret (-1).
Proof.
  split.
  - apply (proj1 (datetime_failure east8 "2024-02-30 00:00:00" kMillisPerSecond 3 eq_refl)).
    exists None. split; [vm_compute; reflexivity|left; reflexivity].
  - apply (proj1 (datetime_failure east8 "2024-02-29 00:00:00." kMillisPerSecond 3 eq_refl)).
    exists (Some 1709136000). split; [vm_compute; reflexivity|right; vm_compute; reflexivity].
Defined.

Lemma local_days_witness :
  IsSameDay east8 1709222399 1709222400 = false ∧ DayOfWeek east8 1709222399 = 4 ∧ DayOfYear east8 1709222399 = 60.
Proof.
  assert (Ht : ∀ s, s = 1709222399 ∨ s = 1709222400 → localtime east8 s = Some (broken_down 0 (s + 28800))).
  { intros s [-> | ->]; vm_compute; reflexivity. }
  pose proof (local_days east8 1709222399 1709222400 _ _ (Ht _ (or_introl eq_refl)) (Ht _ (or_intror eq_refl))) as Hl.
  split; [|split; vm_compute; reflexivity].
  destruct (IsSameDay east8 1709222399 1709222400) eqn:Es; [|reflexivity].
  destruct Hl as ((Hd & _) & _). specialize (Hd eq_refl). vm_compute in Hd. discriminate Hd.
Defined.

(** The second before 1970 in UTC is printed and not read back; nanoseconds of a
    date from the year 2263 on overflow; a second 60 is refused. *)
Lemma datetime_limits :
  Parse (fixed_zone 0) (Format no_conversion (fixed_zone 0) (-1) DEFAULT) = Ret (-1) ∧
  Format no_conversion (fixed_zone 0) (-1) DEFAULT = "1969-12-31 23:59:59" ∧
  ParseMs (fixed_zone 0) "1969-12-31 23:59:59.500" = Ret (-1) ∧
  ParseNs (fixed_zone 0) "2263-01-01 00:00:00" = Undef ∧
  Parse (fixed_zone 0) "2016-12-31 23:59:60" = Ret (-1).
Proof. vm_compute. done. Qed.

(** *** A zone with summer time *)

(** Nine hours ahead of UTC between two moments, and eight otherwise; [mktime] is
    told whether it is summer or, when it is not, prefers the earlier moment. *)
Definition summer (z : Z) : bool := (515520000 <=? z) && (z <? 527007600).
Definition summer_zone : zone := {|
  zn_offset z := if summer z then 32400 else 28800;
  zn_dst := summer;
  zn_mktime t :=
    let early := clock_seconds t - 32400 in
    let late := clock_seconds t - 28800 in
    if summer early && negb (tm_isdst t =? 0) then early else late |}.

Lemma broken_down_same d d' z : same_fields (broken_down d z) (broken_down d' z).
Proof. unfold broken_down, same_fields. by destruct (month_of _ _ _ _). Qed.
Lemma broken_down_isdst d z : tm_isdst (broken_down d z) = d.
Proof. unfold broken_down. by destruct (month_of _ _ _ _). Qed.

#[local] Instance summer_zone_laws : ZoneLaws summer_zone.
Proof.
  split; [intros z; cbn; destruct (summer z); lia|]. intros t z u Hu Hf Hd.
  unfold localtime in Hu. apply representable_Some in Hu as [<- Hy].
  pose proof (clock_seconds_fields _ _ Hf) as Hc. rewrite (proj1 (proj2 (broken_down_spec _ _))) in Hc.
  rewrite broken_down_isdst in Hd. cbn [zn_dst zn_offset summer_zone] in *.
  assert (Hm : zn_mktime summer_zone t = z ∨
               zn_mktime summer_zone t = z - 3600 ∧ summer z = false ∧ summer (z - 3600) = true ∧ tm_isdst t < 0).
  { cbn [zn_mktime summer_zone]. rewrite <- Hc. destruct (summer z) eqn:Ez.
    - replace (z + 32400 - 32400) with z by lia. rewrite Ez. rewrite (proj2 (Z.eqb_neq (tm_isdst t) 0)) by lia. by left.
    - replace (z + 28800 - 32400) with (z - 3600) by lia. replace (z + 28800 - 28800) with z by lia.
      destruct (summer (z - 3600)) eqn:E; [|by left]. destruct (Z.eqb_spec (tm_isdst t) 0); [by left|right].
      split_and!; done || lia. }
  destruct Hm as [->|(-> & Ez & E & Hn)].
  - eexists. unfold localtime. cbn [zn_dst zn_offset summer_zone]. rewrite representable_Some.
    split; [by split|]. rewrite broken_down_isdst. done.
  - eexists. unfold localtime. cbn [zn_dst zn_offset summer_zone]. rewrite E. rewrite Ez in *.
    replace (z - 3600 + 32400) with (z + 28800) by lia. rewrite representable_Some. split; [split; [reflexivity|]|].
    + destruct (broken_down_same 1 0 (z + 28800)) as (-> & _). done.
    + split; [|by left]. pose proof (broken_down_same 1 0 (z + 28800)) as Hs. unfold same_fields in *.
      destruct Hs as (-> & -> & -> & -> & -> & ->). done.
Qed.

(** The hour that comes twice: its second time is printed like its first and read
    as that one.  The hour that is left out in spring is refused, although each
    field is in its range.  The offset reported in summer is that of winter. *)
Lemma summer_time_limits :
  Format no_conversion summer_zone 527007600 DEFAULT = "1986-09-13 23:00:00" ∧
  Format no_conversion summer_zone 527004000 DEFAULT = "1986-09-13 23:00:00" ∧
  Parse summer_zone "1986-09-13 23:00:00" = Ret 527004000 ∧
  Parse summer_zone "1986-05-04 00:30:00" = Ret (-1) ∧
  GetTimezoneOffset summer_zone 520000000 = 28800 ∧ zn_offset summer_zone 520000000 = 32400.
Proof. vm_compute. done. Qed.
