(* ===== verification/MyCache.v ===== *)
(** * The file cache

    Model of my_cache/MyCache.cpp.  The file system is the parameter
    [CacheFs F], with what is relied on in [CacheFsLaws]; [cf_trace] is the log of
    the calls that change it.  A path is its text.  Each operation, and each scan
    of the background thread, is one step. *)

From S2P Require Import Prelude Text Json Calendar DateTime.
From Stdlib Require Import Ascii String.
From stdpp Require Import gmap strings sorting.

Local Open Scope Z_scope.

(** ** The file system *)

(** A call that changes something, with the path it changes; [FC_close] tells
    whether everything written before reached the file. *)
Inductive fs_call :=
| FC_create_directory (p : string) | FC_open (p : string) | FC_write (p : string)
| FC_close (p : string) (flushed : bool) | FC_remove (p : string) | FC_rename (p q : string).

(** At or below a directory. *)
Definition inside (root p : string) : Prop := p = root ∨ ∃ rest, p = root +:+ "/" +:+ rest.

Class CacheFs (F : Type) := {
  (** [None]: the call sets its error code *)
  cf_absolute : F → string → option string;
  cf_canonical : F → string → option string;
  cf_weakly_canonical : F → string → option string;
  cf_exists : F → string → bool;
  cf_is_directory : F → string → bool;
  (** the regular files below a directory, as the iterator visits them *)
  cf_files : F → string → list string;
  (** [relative(path, base)] *)
  cf_relative : F → string → string → option string;
  cf_size : F → string → option Z;
  (** nanoseconds of the system clock since 1970 *)
  cf_mtime : F → string → option Z;
  cf_data : F → string → option string;
  (** true: done, without an error *)
  cf_create_directories : string → F → bool * F;
  cf_create_directory : string → F → bool * F;
  (** [ofstream(p, binary | trunc)] is open, is good after the write, and loses
      nothing when it is closed, which nobody asks *)
  cf_open : string → F → bool * F;
  cf_write : string → string → F → bool * F;
  cf_close : string → F → bool * F;
  cf_remove : string → F → bool * F;
  cf_rename : string → string → F → bool * F;
  cf_trace : F → list fs_call
}.

(** A call changes the file it names and no other: there are no links between
    files of the cache.  [create_directories] makes the directories on the way to
    its argument that do not exist; a directory exists when something in it does.
    What was written is in the file once it is closed without an error.  A file that
    was renamed is what it was, and has a time. *)
Class CacheFsLaws (F : Type) `{CacheFs F} := {
  cf_exists_above f d p : d ≠ "" → inside d p → cf_exists f p = true → cf_exists f d = true;
  cf_trace_create_directories p f : ∃ made,
    cf_trace (cf_create_directories p f).2 = cf_trace f ++ map FC_create_directory made ∧
    Forall (λ d, d ≠ "" ∧ inside d p ∧ cf_exists f d = false) made;
  cf_trace_create_directory p f : cf_trace (cf_create_directory p f).2 = cf_trace f ++ [FC_create_directory p];
  cf_trace_open p f : cf_trace (cf_open p f).2 = cf_trace f ++ [FC_open p];
  cf_trace_write p s f : cf_trace (cf_write p s f).2 = cf_trace f ++ [FC_write p];
  cf_trace_close p f : cf_trace (cf_close p f).2 = cf_trace f ++ [FC_close p (cf_close p f).1];
  cf_trace_remove p f : cf_trace (cf_remove p f).2 = cf_trace f ++ [FC_remove p];
  cf_trace_rename p q f : cf_trace (cf_rename p q f).2 = cf_trace f ++ [FC_rename p q];
  cf_data_create_directories p f q : cf_data (cf_create_directories p f).2 q = cf_data f q;
  cf_data_create_directory p f q : cf_data (cf_create_directory p f).2 q = cf_data f q;
  cf_data_open p f q : q ≠ p → cf_data (cf_open p f).2 q = cf_data f q;
  cf_data_write p s f q : q ≠ p → cf_data (cf_write p s f).2 q = cf_data f q;
  cf_data_close p f q : q ≠ p → cf_data (cf_close p f).2 q = cf_data f q;
  cf_data_closed p s f : (cf_open p f).1 = true →
    let f1 := (cf_open p f).2 in (cf_write p s f1).1 = true →
    let f2 := (cf_write p s f1).2 in (cf_close p f2).1 = true → cf_data (cf_close p f2).2 p = Some s;
  cf_data_remove p f q : q ≠ p → cf_data (cf_remove p f).2 q = cf_data f q;
  cf_data_removed p f : (cf_remove p f).1 = true → cf_data (cf_remove p f).2 p = None;
  cf_data_rename p q f r : r ≠ p → r ≠ q → cf_data (cf_rename p q f).2 r = cf_data f r;
  cf_data_renamed p q f : (cf_rename p q f).1 = true →
    cf_data (cf_rename p q f).2 q = cf_data f p ∧ is_Some (cf_mtime (cf_rename p q f).2 q);
  cf_data_not_renamed p q f : (cf_rename p q f).1 = false → cf_data (cf_rename p q f).2 q = cf_data f q
}.

(** ** Types *)

Inductive CacheStatus := NotInitialized | Running | CacheStatus_Error.

Definition CacheStatusToString (status : CacheStatus) : string :=
  match status with NotInitialized => "NotInitialized" | Running => "Running" | CacheStatus_Error => "Error" end.

Inductive CacheErrorCode :=
| Cache_Ok | Code_NotInitialized | PathTraversal | FileNotFound | FileAlreadyExists | IoError
| InvalidArgument | CreateDirFailed | FileTooLarge.

#[export] Instance CacheStatus_eq_dec : EqDecision CacheStatus.
Proof. solve_decision. Defined.
#[export] Instance CacheErrorCode_eq_dec : EqDecision CacheErrorCode.
Proof. solve_decision. Defined.

Definition CacheErrorCodeToString (code : CacheErrorCode) : string :=
  match code with
  | Cache_Ok => "Ok" | Code_NotInitialized => "NotInitialized" | PathTraversal => "PathTraversal"
  | FileNotFound => "FileNotFound" | FileAlreadyExists => "FileAlreadyExists" | IoError => "IoError"
  | InvalidArgument => "InvalidArgument" | CreateDirFailed => "CreateDirFailed" | FileTooLarge => "FileTooLarge"
  end.

Record CacheConfig := { cc_root_path : string; cc_max_file_size : Z; cc_max_retention_seconds : Z }.
Definition CacheConfig_default : CacheConfig :=
  {| cc_root_path := ""; cc_max_file_size := 0; cc_max_retention_seconds := 0 |}.

Record FileInfo := { fi_name : string; fi_size : Z; fi_type : string; fi_modified_at : string }.

Record CacheResult (T : Type) := { cr_code : CacheErrorCode; cr_value : T }.
Arguments cr_code {T} _.
Arguments cr_value {T} _.
Arguments Build_CacheResult {T} _ _.
Definition cache_ok {T} (r : CacheResult T) : bool := bool_decide (cr_code r = Cache_Ok).
Definition cache_Success {T} (val : T) : CacheResult T := {| cr_code := Cache_Ok; cr_value := val |}.
Definition cache_Fail {T} (err : CacheErrorCode) (val : T) : CacheResult T := {| cr_code := err; cr_value := val |}.

(** ** Paths *)

Abbreviation prefix := String.prefix.

(** [path::operator/]: an absolute right side replaces the left one. *)
Definition path_join (root name : string) : string :=
  match name with
  | String "/" _ => name
  | _ => match find_last (Ascii.eqb "/") root with
         | Some n => if (S n =? String.length root)%nat then root +:+ name else root +:+ "/" +:+ name
         | None => root +:+ "/" +:+ name
         end
  end.

(** [parent_path()] of a path without a trailing slash. *)
Definition parent_path (p : string) : string :=
  match find_last (Ascii.eqb "/") p with
  | Some O => "/"
  | Some n => substr 0 n p
  | None => ""
  end.

Definition path_filename (p : string) : string :=
  match find_last (Ascii.eqb "/") p with Some n => substr_from (S n) p | None => p end.

Definition IsPathInsideRoot (root_path resolved_path : string) : bool :=
  String.eqb resolved_path root_path || prefix (root_path +:+ "/") resolved_path.

(** The name after the last dot, when that is in the file name and not its first
    character. *)
Definition GetFileExtension (name : string) : string :=
  match find_last (Ascii.eqb ".") name with
  | None => ""
  | Some pos =>
      if (pos =? String.length name - 1)%nat then ""
      else
        let slash_pos := find_last (Ascii.eqb "/") name in
        if match slash_pos with Some s => (pos <? s)%nat | None => false end then ""
        else
          let basename := match slash_pos with Some s => substr_from (S s) name | None => name end in
          if match find_last (Ascii.eqb ".") basename with
             | Some O => match find_char "." 1 basename with None => true | Some _ => false end
             | _ => false
             end
          then ""
          else substr_from (S pos) name
  end.

(** ** The cache *)

Section cache.
Context {J : Type} `{JsonOps J} {F : Type} `{CacheFs F}.
(** [json::parse], and [get<int64_t>()] of a JSON float. *)
Variable json_parse : string → option J.
Variable float_int64 : J → Z.
(** The zone, and the conversions of [strftime] outside the default format. *)
Variable zn : zone.
Variable conversion : tm → option ascii → ascii → string.

Record MyCache := {
  ca_config : CacheConfig;
  ca_root_path : string;
  ca_status : CacheStatus;
  ca_running : bool;                          (** of the scanning thread *)
  ca_file_index : gmap string FileInfo
}.
Implicit Types (c : MyCache) (f : F).

Definition MyCache_new : MyCache := {|
  ca_config := CacheConfig_default; ca_root_path := ""; ca_status := NotInitialized; ca_running := false;
  ca_file_index := ∅ |}.

Definition with_index (m : gmap string FileInfo) c : MyCache := {|
  ca_config := ca_config c; ca_root_path := ca_root_path c; ca_status := ca_status c; ca_running := ca_running c;
  ca_file_index := m |}.
Definition with_cache_status (config : CacheConfig) (root : string) (status : CacheStatus) c : MyCache := {|
  ca_config := config; ca_root_path := root; ca_status := status; ca_running := ca_running c;
  ca_file_index := ca_file_index c |}.

(** The local time, to the second. *)
Definition FormatFileTime (mtime : Z) : string :=
  match localtime zn (Z.quot mtime kNanosPerSecond) with
  | Some t => FormatTm conversion t "%Y-%m-%dT%H:%M:%S"
  | None => ""
  end.

Definition ToRelativeUnixPath (root_path target_path : string) f : string :=
  default (path_filename target_path) (cf_relative f target_path root_path).

(** *** Scans *)

Definition file_info (name path : string) f : FileInfo := {|
  fi_name := name; fi_size := default 0 (cf_size f path); fi_type := GetFileExtension name;
  fi_modified_at := match cf_mtime f path with Some t => FormatFileTime t | None => "" end |}.

Definition scan_file (root : string) f (m : gmap string FileInfo) (path : string) : gmap string FileInfo :=
  match cf_relative f path root with None => m | Some rel => <[rel := file_info rel path f]> m end.
Definition RefreshIndex c f : MyCache :=
  with_index (foldl (scan_file (ca_root_path c) f) ∅ (cf_files f (ca_root_path c))) c.

(** [now] is in nanoseconds. *)
Definition expired (now : Z) c f (name : string) : bool :=
  match cf_mtime f (path_join (ca_root_path c) name) with
  | None => false
  | Some t => cc_max_retention_seconds (ca_config c) <? Z.quot (now - t) kNanosPerSecond
  end.
Fixpoint remove_expired (names : list string) c f : MyCache * F :=
  match names with
  | [] => (c, f)
  | name :: names =>
      let '(ok, f) := cf_remove (path_join (ca_root_path c) name) f in
      remove_expired names (if ok then with_index (delete name (ca_file_index c)) c else c) f
  end.
Definition CleanExpiredFiles (now : Z) c f : MyCache * F :=
  if cc_max_retention_seconds (ca_config c) <=? 0 then (c, f)
  else remove_expired (filter (λ name, expired now c f name = true) (map fst (map_to_list (ca_file_index c)))) c f.

(** One turn of the thread. *)
Definition scan_turn (now : Z) c f : MyCache * F :=
  if negb (ca_running c) then (c, f) else CleanExpiredFiles now (RefreshIndex c f) f.

(** *** Init *)

Definition read_config (jcfg : J) (cfg : CacheConfig) : option CacheConfig :=
  match j_find jcfg "root_path" with
  | None => None
  | Some v =>
      match j_view v with
      | JString root =>
          Some {| cc_root_path := root;
                  cc_max_file_size :=
                    match j_view <$> j_find jcfg "max_file_size" with
                    | Some (JUnsigned n) => wrapu 64 (n * 1024 * 1024)
                    | _ => cc_max_file_size cfg
                    end;
                  cc_max_retention_seconds :=
                    match j_find jcfg "max_retention_seconds" with
                    | Some v => match j_view v with
                                | JUnsigned n | JInteger n => wraps 64 n
                                | JFloat => float_int64 v
                                | _ => cc_max_retention_seconds cfg
                                end
                    | None => cc_max_retention_seconds cfg
                    end |}
      | _ => None
      end
  end.

(** The directory: made when it does not exist, then resolved. *)
Definition prepare_root (config : CacheConfig) f : (CacheErrorCode + string) * F :=
  match cf_absolute f (cc_root_path config) with
  | None => (inl InvalidArgument, f)
  | Some p =>
      let '(made, f) := if cf_exists f p then (true, f) else cf_create_directories p f in
      if negb made then (inl CreateDirFailed, f)
      else if negb (cf_is_directory f p) then (inl InvalidArgument, f)
      else match cf_canonical f p with None => (inl InvalidArgument, f) | Some root => (inr root, f) end
  end.

Definition cache_Init (config_json : string) c f : CacheErrorCode * MyCache * F :=
  if decide (ca_status c = Running) then (Cache_Ok, c, f)
  else
    let failed code config := (code, with_cache_status config (ca_root_path c) CacheStatus_Error c) in
    match json_parse config_json with
    | None => (failed InvalidArgument (ca_config c), f)
    | Some jcfg =>
        match read_config jcfg (ca_config c) with
        | None => (failed InvalidArgument (ca_config c), f)
        | Some config =>
            match prepare_root config f with
            | (inl code, f) => (failed code config, f)
            | (inr root, f) =>
                let c := RefreshIndex (with_cache_status config root Running c) f in
                (Cache_Ok, {| ca_config := ca_config c; ca_root_path := ca_root_path c; ca_status := Running;
                              ca_running := true; ca_file_index := ca_file_index c |}, f)
            end
        end
    end.

(** *** Validation *)

(** The resolved path, or why not. *)
Definition ValidatePath (name : string) c f : CacheErrorCode + string :=
  match name with
  | EmptyString => inl InvalidArgument
  | _ =>
      if decide (ca_status c ≠ Running) then inl Code_NotInitialized
      else match cf_weakly_canonical f (path_join (ca_root_path c) name) with
           | None => inl InvalidArgument
           | Some resolved =>
               if negb (IsPathInsideRoot (ca_root_path c) resolved) then inl PathTraversal
               else if String.eqb resolved (ca_root_path c) then inl InvalidArgument
               else inr resolved
           end
  end.

Definition has_char (ch : ascii) (s : string) : bool := negb (all_chars (λ d, negb (Ascii.eqb ch d)) s).
Definition is_absolute (p : string) : bool := prefix "/" p.

(** Every caller allows the root. *)
Definition ValidateDirectoryPath (folder_path : string) (allow_root : bool) c f : CacheErrorCode + string :=
  if decide (ca_status c ≠ Running) then inl Code_NotInitialized
  else if has_char zero folder_path || has_char "\" folder_path then inl InvalidArgument
  else if String.eqb folder_path "" || String.eqb folder_path "." then inr (ca_root_path c)
  else
    match cf_weakly_canonical f (if is_absolute folder_path then folder_path
                                 else path_join (ca_root_path c) folder_path) with
    | None => inl InvalidArgument
    | Some resolved =>
        if negb (IsPathInsideRoot (ca_root_path c) resolved) then inl PathTraversal
        else if negb allow_root && String.eqb resolved (ca_root_path c) then inl InvalidArgument
        else inr resolved
    end.

(** *** Operations on files *)

(** The file is written beside its place and then moved there.  The stream is closed
    by its destructor, or by hand after an error; whether that loses data is not
    asked. *)
Definition write_file (full_path data : string) f : CacheErrorCode * F :=
  let parent := parent_path full_path in
  let '(made, f) := if cf_exists f parent then (true, f) else cf_create_directories parent f in
  if negb made then (CreateDirFailed, f)
  else
    let tmp_path := full_path +:+ ".tmp" in
    let '(is_open, f) := cf_open tmp_path f in
    if negb is_open then (IoError, f)
    else
      let '(good, f) := cf_write tmp_path data f in
      let f := (cf_close tmp_path f).2 in
      if negb good then (IoError, (cf_remove tmp_path f).2)
      else
        let '(moved, f) := cf_rename tmp_path full_path f in
        if negb moved then (IoError, (cf_remove tmp_path f).2) else (Cache_Ok, f).

(** The entry of the index has the name as it was given.  A file whose time
    cannot be read right after the move has the least time there is, with which
    the conversion overflows. *)
Definition SaveFile (name data : string) c f : outcome CacheErrorCode * MyCache * F :=
  match ValidatePath name c f with
  | inl code => (Ret code, c, f)
  | inr full_path =>
      let size := Z.of_nat (String.length data) in
      let limit := cc_max_file_size (ca_config c) in
      if (0 <? limit) && (limit <? size) then (Ret FileTooLarge, c, f)
      else
        match write_file full_path data f with
        | (Cache_Ok, f) =>
            match cf_mtime f full_path with
            | None => (Undef, c, f)
            | Some t =>
                let info := {| fi_name := name; fi_size := size; fi_type := GetFileExtension name;
                               fi_modified_at := FormatFileTime t |} in
                (Ret Cache_Ok, with_index (<[name := info]> (ca_file_index c)) c, f)
            end
        | (code, f) => (Ret code, c, f)
        end
  end.

Definition DeleteFile (name : string) c f : CacheErrorCode * MyCache * F :=
  match ValidatePath name c f with
  | inl code => (code, c, f)
  | inr full_path =>
      if negb (cf_exists f full_path) then (FileNotFound, c, f)
      else
        let '(ok, f) := cf_remove full_path f in
        if negb ok then (IoError, c, f) else (Cache_Ok, with_index (delete name (ca_file_index c)) c, f)
  end.

Definition GetFullPath (name : string) c f : CacheResult string :=
  match ValidatePath name c f with inl code => cache_Fail code "" | inr full_path => cache_Success full_path end.

Definition Exists (name : string) c f : CacheResult bool :=
  match ValidatePath name c f with
  | inl code => cache_Fail code false
  | inr _ => cache_Success (bool_decide (is_Some (ca_file_index c !! name)))
  end.

(** Names in the order of [std::string]. *)
Definition name_le (x y : FileInfo) : Prop := String.leb (fi_name x) (fi_name y) = true.
#[local] Instance name_le_dec x y : Decision (name_le x y).
Proof. apply bool_eq_dec. Defined.

Definition GetFileList (folder_path : string) c f : CacheResult (list FileInfo) :=
  match ValidateDirectoryPath folder_path true c f with
  | inl code => cache_Fail code []
  | inr target_path =>
      if negb (cf_exists f target_path) then cache_Fail FileNotFound []
      else if negb (cf_is_directory f target_path) then cache_Fail InvalidArgument []
      else cache_Success (merge_sort name_le
             (map (λ path, file_info (ToRelativeUnixPath (ca_root_path c) path f) path f) (cf_files f target_path)))
  end.
Definition GetAllFileList c f : CacheResult (list FileInfo) := GetFileList "" c f.

Definition CreateSubdirectory (folder_path new_folder_name : string) c f : CacheResult string * F :=
  match ValidateDirectoryPath folder_path true c f with
  | inl code => (cache_Fail code "", f)
  | inr parent =>
      if String.eqb new_folder_name "" || has_char zero new_folder_name || has_char "\" new_folder_name ||
         has_char "/" new_folder_name || String.eqb new_folder_name "." || String.eqb new_folder_name ".."
      then (cache_Fail InvalidArgument "", f)
      else if negb (cf_exists f parent) then (cache_Fail FileNotFound "", f)
      else if negb (cf_is_directory f parent) then (cache_Fail InvalidArgument "", f)
      else
        match cf_weakly_canonical f (path_join parent new_folder_name) with
        | None => (cache_Fail InvalidArgument "", f)
        | Some resolved =>
            if negb (IsPathInsideRoot (ca_root_path c) resolved) then (cache_Fail PathTraversal "", f)
            else if cf_exists f resolved then (cache_Fail FileAlreadyExists "", f)
            else
              let '(ok, f) := cf_create_directory resolved f in
              (if ok then cache_Success resolved else cache_Fail CreateDirFailed "", f)
        end
  end.

Definition GetRootPath c : string := ca_root_path c.
Definition GetConfig c : CacheConfig := ca_config c.
Definition Status c : CacheStatus := ca_status c.
End cache.
Arguments ValidatePath : simpl never.

(** ** Confinement *)

(** The paths a call changes. *)
Definition call_paths (k : fs_call) : list string :=
  match k with
  | FC_create_directory p | FC_open p | FC_write p | FC_close p _ | FC_remove p => [p]
  | FC_rename p q => [p; q]
  end.

Lemma prefix_app p s : String.prefix p s = true → ∃ t, s = p +:+ t.
Proof.
  revert s. induction p as [|c p IH]; intros s; [by exists s|].
  destruct s as [|c' s]; [done|]. intros Hp. change ((if ascii_dec c c' then prefix p s else false) = true) in Hp.
  destruct (ascii_dec c c') as [->|]; [|done]. destruct (IH s Hp) as [t ->]. by exists t.
Qed.

Lemma IsPathInsideRoot_spec root p : IsPathInsideRoot root p = true → inside root p.
Proof.
  unfold IsPathInsideRoot. intros [->%String.eqb_eq|[t ->]%prefix_app]%orb_prop; [by left|right].
  exists t. by rewrite <- string_app_assoc.
Qed.

Lemma prefix_of_app p t : String.prefix p (p +:+ t) = true.
Proof.
  induction p as [|c p IH]; [by destruct t|]. rewrite string_app_cons.
  change ((if ascii_dec c c then prefix p (p +:+ t) else false) = true). by destruct (ascii_dec c c).
Qed.

Lemma IsPathInsideRoot_inside root p : inside root p → IsPathInsideRoot root p = true.
Proof.
  unfold IsPathInsideRoot. intros [->|[rest ->]]; [by rewrite String.eqb_refl|].
  apply orb_true_intro. right. rewrite string_app_assoc. apply prefix_of_app.
Qed.

Lemma inside_trans a b c : inside a b → inside b c → inside a c.
Proof.
  intros [->|[x ->]] [->|[y ->]]; [by left|right; by eexists|right; by eexists|].
  right. exists (x +:+ "/" +:+ y). by rewrite <- !string_app_assoc.
Qed.

(** Two directories that contain the same path: one contains the other. *)
Lemma inside_chain a b p : inside a p → inside b p → inside a b ∨ inside b a.
Proof.
  intros [->|[x ->]] Hb; [by right|]. destruct Hb as [Hb|[y Hb]]; [left; right; by exists x|].
  revert b Hb. induction a as [|ch a IH]; intros b Hb.
  - rewrite string_app_nil in Hb. destruct b as [|ch b]; [by left; left|].
    rewrite string_app_cons in Hb. injection Hb as <- Hb. left. right. exists b. reflexivity.
  - rewrite string_app_cons in Hb. destruct b as [|ch' b].
    { rewrite string_app_nil in Hb. injection Hb as -> Hb. right. right. exists a. reflexivity. }
    rewrite string_app_cons in Hb. injection Hb as <- Hb. destruct (IH b Hb) as [[->|[z ->]]|[->|[z ->]]].
    + by left; left.
    + left. right. exists z. reflexivity.
    + by right; left.
    + right. right. exists z. reflexivity.
Qed.

Lemma inside_app root p s : p ≠ root → inside root p → inside root (p +:+ s).
Proof. intros Hne [?|[rest ->]]; [done|]. right. exists (rest +:+ s). by rewrite <- !string_app_assoc. Qed.

Lemma find_last_app p s t :
  find_last p (s +:+ t) = match find_last p t with Some n => Some (String.length s + n)%nat | None => find_last p s end.
Proof.
  induction s as [|c s IH]; [rewrite string_app_nil; by destruct (find_last p t)|].
  rewrite string_app_cons. cbn [find_last String.length]. rewrite IH. by destruct (find_last p t).
Qed.

Lemma substr_app_more s t m : substr 0 (String.length s + m) (s +:+ t) = s +:+ substr 0 m t.
Proof. induction s as [|c s IH]; [done|]. rewrite !string_app_cons. cbn. by rewrite <- IH. Qed.

Lemma parent_inside root rest : root ≠ "" → inside root (parent_path (root +:+ "/" +:+ rest)).
Proof.
  intros Hne. unfold parent_path. rewrite find_last_app.
  assert (Hl : find_last (Ascii.eqb "/") ("/" +:+ rest) =
               Some match find_last (Ascii.eqb "/") rest with Some k => S k | None => 0%nat end).
  { rewrite string_app_cons, string_app_nil. cbn [find_last]. by destruct (find_last _ rest). }
  rewrite Hl. set (m := match find_last _ rest with Some k => _ | None => _ end).
  destruct (String.length root + m)%nat as [|n] eqn:Hn.
  { destruct root; [done|]. cbn in Hn. done. }
  rewrite <- Hn, substr_app_more. destruct m as [|k].
  - left. rewrite string_app_cons. cbn. by rewrite string_app_nil_r.
  - right. rewrite string_app_cons, string_app_nil. exists (substr 0 k rest). reflexivity.
Qed.

Section facts.
Context {J : Type} `{JsonOps J} {F : Type} `{CacheFsLaws F}.
Variable json_parse : string → option J.
Variable float_int64 : J → Z.
Variable zn : zone.
Variable conversion : tm → option ascii → ascii → string.
Implicit Types (c : MyCache) (f : F).
Abbreviation Save := (SaveFile zn conversion).

(** The calls made between two states, all inside the root; when it is [gone], the
    directories on the way to it are made again. *)
Definition confined (gone : Prop) (root : string) f f' : Prop :=
  ∃ calls, cf_trace f' = cf_trace f ++ calls ∧
    Forall (λ k, Forall (inside root) (call_paths k) ∨ gone ∧ ∃ d, k = FC_create_directory d ∧ inside d root) calls.

Lemma confined_refl gone root f : confined gone root f f.
Proof. exists []. by rewrite app_nil_r. Qed.

Lemma confined_call gone root k f f' :
  cf_trace f' = cf_trace f ++ [k] → Forall (inside root) (call_paths k) → confined gone root f f'.
Proof. intros Ht Hk. exists [k]. split; [done|]. constructor; [by left|constructor]. Qed.

Lemma confined_trans gone root f1 f2 f3 :
  confined gone root f1 f2 → confined gone root f2 f3 → confined gone root f1 f3.
Proof.
  intros (l1 & E1 & H1') (l2 & E2 & H2'). exists (l1 ++ l2). split; [by rewrite E2, E1, app_assoc|].
  by apply Forall_app.
Qed.

Lemma confined_create_directories root p f :
  inside root p → confined (cf_exists f root = false) root f (cf_create_directories p f).2.
Proof.
  intros Hp. destruct (cf_trace_create_directories p f) as (made & Ht & Hm). eexists. split; [exact Ht|].
  apply Forall_map. eapply Forall_impl; [exact Hm|]. intros d (Hne & Hd & Hno). cbn.
  destruct (inside_chain d root p Hd Hp) as [Hup|Hin]; [|left; by apply Forall_singleton].
  right. split; [|by exists d]. destruct (cf_exists f root) eqn:Er; [|done].
  pose proof (cf_exists_above f d root Hne Hup Er). congruence.
Qed.

Lemma ValidatePath_inr name c f full :
  ValidatePath name c f = inr full →
  ca_status c = Running ∧ (∃ rest, full = ca_root_path c +:+ "/" +:+ rest) ∧ full ≠ ca_root_path c ∧
  cf_weakly_canonical f (path_join (ca_root_path c) name) = Some full.
Proof.
  unfold ValidatePath. destruct name as [|ch name]; [done|]. case_decide as Hs; [done|].
  destruct (cf_weakly_canonical _ _) as [r|]; [|done].
  destruct (negb (IsPathInsideRoot _ r)) eqn:Hi; [done|]. apply negb_false_iff in Hi.
  destruct (String.eqb r _) eqn:Hr; [done|]. apply String.eqb_neq in Hr. intros [= <-].
  destruct (IsPathInsideRoot_spec _ _ Hi) as [?|Hin]; [done|]. split_and!; [by destruct (ca_status c)|done..].
Qed.

Lemma string_app_ne s t : t ≠ "" → s +:+ t ≠ s.
Proof. intros Ht He. apply (f_equal String.length) in He. rewrite string_length_app in He. destruct t; [done|]. cbn in He. lia. Qed.

#[local] Ltac in_root := cbn [call_paths]; repeat (apply Forall_cons; split); try apply Forall_nil; done.

(** What [write_file] does to the files and to the log. *)
Lemma write_file_spec root full data f code f' :
  root ≠ "" → (∃ rest, full = root +:+ "/" +:+ rest) → write_file full data f = (code, f') →
  confined (cf_exists f root = false) root f f' ∧
  (if decide (code = Cache_Ok)
   then is_Some (cf_mtime f' full) ∧
        ∃ calls flushed, cf_trace f' = cf_trace f ++ calls ∧ FC_close (full +:+ ".tmp") flushed ∈ calls ∧
          (flushed = true → cf_data f' full = Some data)
   else cf_data f' full = cf_data f full) ∧
  (∀ q, q ≠ full → q ≠ full +:+ ".tmp" → cf_data f' q = cf_data f q).
Proof.
  intros Hroot (rest & Hfull). set (tmp := full +:+ ".tmp"). set (gone := cf_exists f root = false).
  assert (Htmp : tmp ≠ full) by (by apply string_app_ne).
  assert (Hin : inside root full) by (right; by exists rest).
  assert (Hint : inside root tmp).
  { right. exists (rest +:+ ".tmp"). unfold tmp. rewrite Hfull. by rewrite <- !string_app_assoc. }
  assert (Hpar : inside root (parent_path full)) by (rewrite Hfull; by apply parent_inside).
  unfold write_file. fold tmp.
  assert (Hdir : ∃ f1 made, (if cf_exists f (parent_path full) then (true, f) else cf_create_directories (parent_path full) f)
                            = (made, f1) ∧ confined gone root f f1 ∧ ∀ q, cf_data f1 q = cf_data f q).
  { destruct (cf_exists f (parent_path full)); [exists f, true; split_and!; auto using confined_refl|].
    pose proof (confined_create_directories root (parent_path full) f Hpar) as Hc.
    pose proof (cf_data_create_directories (parent_path full) f) as Hd.
    destruct (cf_create_directories (parent_path full) f) as [made f1]. exists f1, made. done. }
  destruct Hdir as (f1 & made & -> & C1 & D1). destruct made; cbn [negb].
  2:{ intros [= <- <-]. split_and!; [done|apply D1|auto]. }
  pose proof (cf_trace_open tmp f1) as T2. pose proof (λ q, cf_data_open tmp f1 q) as D2.
  pose proof (cf_data_closed tmp data f1) as W. cbv zeta in W.
  destruct (cf_open tmp f1) as [is_open f2]. cbn [fst snd] in *.
  assert (C2 : confined gone root f f2) by (eapply confined_trans, confined_call; [exact C1|exact T2|in_root]).
  destruct is_open; cbn [negb].
  2:{ intros [= <- <-]. split_and!; [done|by rewrite D2, D1|]. intros q Hq1 Hq2. by rewrite D2, D1. }
  pose proof (cf_trace_write tmp data f2) as T3. pose proof (λ q, cf_data_write tmp data f2 q) as D3.
  destruct (cf_write tmp data f2) as [good f3]. cbn [fst snd] in *.
  pose proof (cf_trace_close tmp f3) as T4. pose proof (λ q, cf_data_close tmp f3 q) as D4.
  destruct (cf_close tmp f3) as [flushed f4]. cbn [fst snd] in *.
  assert (C4 : confined gone root f f4).
  { eapply confined_trans; [exact C2|]. eapply confined_trans; eapply confined_call; [exact T3|in_root|exact T4|in_root]. }
  assert (D4' : ∀ q, q ≠ tmp → cf_data f4 q = cf_data f q) by (intros q Hq; by rewrite D4, D3, D2, D1).
  assert (Hrm : ∀ g, confined gone root f g → (∀ q, q ≠ tmp → q ≠ full → cf_data g q = cf_data f q) →
    cf_data g full = cf_data f full →
    confined gone root f (cf_remove tmp g).2 ∧ cf_data (cf_remove tmp g).2 full = cf_data f full ∧
    ∀ q, q ≠ full → q ≠ tmp → cf_data (cf_remove tmp g).2 q = cf_data f q).
  { intros g Cg Dg Dfull. split_and!.
    - eapply confined_trans, confined_call; [exact Cg|apply cf_trace_remove|in_root].
    - by rewrite cf_data_remove.
    - intros q Hq1 Hq2. rewrite cf_data_remove by done. by apply Dg. }
  destruct good; cbn [negb].
  2:{ intros [= <- <-]. apply Hrm; [done|intros; by apply D4'|by apply D4']. }
  pose proof (cf_trace_rename tmp full f4) as T5. pose proof (λ q, cf_data_rename tmp full f4 q) as D5.
  pose proof (cf_data_renamed tmp full f4) as R5. pose proof (cf_data_not_renamed tmp full f4) as N5.
  destruct (cf_rename tmp full f4) as [moved f5]. cbn [fst snd] in *.
  assert (C5 : confined gone root f f5) by (eapply confined_trans, confined_call; [exact C4|exact T5|in_root]).
  destruct moved; cbn [negb].
  - intros [= <- <-]. destruct (R5 eq_refl) as [R5a R5b]. split_and!; [done| |].
    + cbn. split; [done|]. destruct C1 as (l & El & _).
      exists (l ++ [FC_open tmp; FC_write tmp; FC_close tmp flushed; FC_rename tmp full]), flushed. split_and!.
      * rewrite T5, T4, T3, T2, El. by rewrite <- !app_assoc.
      * apply elem_of_app. right. rewrite !elem_of_cons. auto.
      * rewrite R5a. intros ->. by apply W.
    + intros q Hq1 Hq2. rewrite D5 by done. by apply D4'.
  - intros [= <- <-]. apply Hrm; [done| |rewrite (N5 eq_refl); by apply D4'].
    intros q Hq1 Hq2. rewrite D5 by done. by apply D4'.
Qed.

(** C26: Whatever name it is given, an operation changes only paths that are
    the root or start with the root and a slash, temporary file and parent
    directories included; one whose name is refused changes nothing.  Only when the
    root itself is gone does a save make directories above it, those on the way to
    it. *)
Theorem cache_confined name data c f folder new_folder :
  ca_root_path c ≠ "" →
  (let '(r, c', f') := Save name data c f in
   confined (cf_exists f (ca_root_path c) = false) (ca_root_path c) f f' ∧ (∀ code, ValidatePath name c f = inl code → r = Ret code ∧ c' = c ∧ f' = f)) ∧
  (let '(r, c', f') := DeleteFile name c f in
   confined (cf_exists f (ca_root_path c) = false) (ca_root_path c) f f' ∧ (∀ code, ValidatePath name c f = inl code → r = code ∧ c' = c ∧ f' = f)) ∧
  (let '(r, f') := CreateSubdirectory folder new_folder c f in
   confined (cf_exists f (ca_root_path c) = false) (ca_root_path c) f f' ∧ (cr_code r = Cache_Ok → inside (ca_root_path c) (cr_value r)) ∧
   (cr_code r = Cache_Ok ∨ cr_code r = CreateDirFailed ∨ f' = f)).
Proof.
  intros Hroot. split_and!.
  - unfold SaveFile. destruct (ValidatePath name c f) as [code|full] eqn:Ev.
    { split; [apply confined_refl|]. by intros ? [= ->]. }
    destruct (_ && _); [split; [apply confined_refl|done]|].
    destruct (ValidatePath_inr _ _ _ _ Ev) as (_ & Hrest & _).
    destruct (write_file full data f) as [code f'] eqn:Ew.
    destruct (write_file_spec _ _ _ _ _ _ Hroot Hrest Ew) as (Hc & _).
    destruct code; try (split; [exact Hc|done]). by destruct (cf_mtime f' full).
  - unfold DeleteFile. destruct (ValidatePath name c f) as [code|full] eqn:Ev.
    { split; [apply confined_refl|]. by intros ? [= ->]. }
    destruct (ValidatePath_inr _ _ _ _ Ev) as (_ & [rest Hrest] & _).
    destruct (negb (cf_exists f full)); [split; [apply confined_refl|done]|].
    pose proof (cf_trace_remove full f) as Ht. destruct (cf_remove full f) as [ok f'].
    assert (confined (cf_exists f (ca_root_path c) = false) (ca_root_path c) f f').
    { eapply confined_call; [exact Ht|]. assert (inside (ca_root_path c) full) by (right; by exists rest). in_root. }
    by destruct ok.
  - unfold CreateSubdirectory. destruct (ValidateDirectoryPath folder true c f) as [code|parent] eqn:Ev.
    { assert (code ≠ Cache_Ok); [|split_and!; [apply confined_refl|done|auto]].
      revert Ev. unfold ValidateDirectoryPath. case_decide; [by intros [= <-]|].
      destruct (_ || _); [by intros [= <-]|]. destruct (_ || _); [done|].
      destruct (cf_weakly_canonical _ _); [|by intros [= <-]].
      destruct (negb _); [by intros [= <-]|]. destruct (_ && _); [by intros [= <-]|done]. }
    destruct (_ || _); [split_and!; [apply confined_refl|done|auto]|].
    destruct (negb _); [split_and!; [apply confined_refl|done|auto]|].
    destruct (negb _); [split_and!; [apply confined_refl|done|auto]|].
    destruct (cf_weakly_canonical _ _) as [r|]; [|split_and!; [apply confined_refl|done|auto]].
    destruct (negb (IsPathInsideRoot _ r)) eqn:Hi; [split_and!; [apply confined_refl|done|auto]|].
    apply negb_false_iff, IsPathInsideRoot_spec in Hi.
    destruct (cf_exists f r); [split_and!; [apply confined_refl|done|auto]|].
    pose proof (cf_trace_create_directory r f) as Ht. destruct (cf_create_directory r f) as [ok f'].
    split; [eapply confined_call; [exact Ht|in_root]|]. destruct ok; cbn; split; done || auto.
Qed.

(** C27: A save either succeeds, and then the temporary file was closed and, if
    that lost nothing, the file holds exactly the data, and the index has its name
    and size; or it is refused or fails with an error, and then the file is what it
    was before and the index too.  Either way no file changes but this one and the
    temporary one beside it. *)
Theorem save_atomic name data c f r c' f' full :
  ca_root_path c ≠ "" → ValidatePath name c f = inr full → Save name data c f = (r, c', f') →
  (r = Ret Cache_Ok ∧
     (∃ calls flushed, cf_trace f' = cf_trace f ++ calls ∧ FC_close (full +:+ ".tmp") flushed ∈ calls ∧
        (flushed = true → cf_data f' full = Some data)) ∧
     (∃ info, ca_file_index c' = <[name := info]> (ca_file_index c) ∧
        fi_name info = name ∧ fi_size info = Z.of_nat (String.length data)) ∨
   (r = Ret FileTooLarge ∨ r = Ret CreateDirFailed ∨ r = Ret IoError) ∧ cf_data f' full = cf_data f full ∧ c' = c) ∧
  (∀ q, q ≠ full → q ≠ full +:+ ".tmp" → cf_data f' q = cf_data f q) ∧
  (r = Ret FileTooLarge ↔
     0 < cc_max_file_size (ca_config c) < Z.of_nat (String.length data)).
Proof.
  intros Hroot Hv. unfold SaveFile. rewrite Hv. destruct (ValidatePath_inr _ _ _ _ Hv) as (_ & Hrest & _).
  destruct (_ && _) eqn:Hl.
  { intros [= <- <- <-]. apply andb_prop in Hl as [Hl1%Z.ltb_lt Hl2%Z.ltb_lt]. split_and!; [right; auto|done|done]. }
  assert (Hnot : ¬ (0 < cc_max_file_size (ca_config c) < Z.of_nat (String.length data))).
  { apply andb_false_iff in Hl. rewrite !Z.ltb_ge in Hl. lia. }
  destruct (write_file full data f) as [code f1] eqn:Ew.
  destruct (write_file_spec _ _ _ _ _ _ Hroot Hrest Ew) as (_ & Hd & Hq).
  assert (Hcode : code = Cache_Ok ∨ code = CreateDirFailed ∨ code = IoError).
  { revert Ew. unfold write_file. destruct (if cf_exists _ _ then _ else _) as [[] ?]; cbn [negb]; [|intros [= <- _]; auto].
    destruct (cf_open _ _) as [[] ?]; cbn [negb]; [|intros [= <- _]; auto].
    destruct (cf_write _ _ _) as [[] ?]; cbn [negb]; [|intros [= <- _]; auto].
    destruct (cf_rename _ _ _) as [[] ?]; cbn [negb]; intros [= <- _]; auto. }
  destruct Hcode as [->|[->| ->]].
  - cbn in Hd. destruct Hd as [[t Ht] Hd]. rewrite Ht. intros [= <- <- <-]. split_and!; [left|done|done].
    split; [done|]. split; [done|]. by eexists.
  - intros [= <- <- <-]. split_and!; [right; auto|done|done].
  - intros [= <- <- <-]. split_and!; [right; auto|done|done].
Qed.

(** ** The index *)

(** Every entry is filed under its name. *)
Definition index_ok (m : gmap string FileInfo) : Prop := ∀ name info, m !! name = Some info → fi_name info = name.

Lemma scan_files_spec root f files m name :
  is_Some (foldl (scan_file zn conversion root f) m files !! name) ↔
  is_Some (m !! name) ∨ ∃ path, path ∈ files ∧ cf_relative f path root = Some name.
Proof.
  revert m. induction files as [|p files IH]; intros m; cbn [foldl].
  { split; [by left|]. intros [?|(? & Hn & _)]; [done|]. by apply elem_of_nil in Hn. }
  rewrite IH. unfold scan_file at 1. destruct (cf_relative f p root) as [rel|] eqn:Er.
  - destruct (decide (rel = name)) as [->|Hne].
    + rewrite lookup_insert_eq. split; [|by left; eexists]. intros _. right. exists p. by split; [left|].
    + rewrite lookup_insert_ne by done. split; (intros [?|(q & Hq & Hr)]; [by left|right]).
      * exists q. by split; [right|].
      * apply elem_of_cons in Hq as [->|Hq]; [congruence|by exists q].
  - split; (intros [?|(q & Hq & Hr)]; [by left|right]).
    + exists q. by split; [right|].
    + apply elem_of_cons in Hq as [->|Hq]; [congruence|by exists q].
Qed.

Lemma scan_files_ok root f files m :
  index_ok m → index_ok (foldl (scan_file zn conversion root f) m files).
Proof.
  revert m. induction files as [|p files IH]; intros m Hm; cbn [foldl]; [done|]. apply IH. unfold scan_file.
  destruct (cf_relative f p root) as [rel|]; [|done]. intros name info.
  rewrite lookup_insert_Some. intros [[<- <-]|[_ Hi]]; [done|by apply Hm].
Qed.

Lemma remove_expired_spec names c f :
  (∀ name, ca_file_index (remove_expired names c f).1 !! name = ca_file_index c !! name ∨
     name ∈ names ∧ ca_file_index (remove_expired names c f).1 !! name = None) ∧
  (∀ q, (∀ name, name ∈ names → q ≠ path_join (ca_root_path c) name) →
     cf_data (remove_expired names c f).2 q = cf_data f q) ∧
  ca_root_path (remove_expired names c f).1 = ca_root_path c.
Proof.
  revert c f. induction names as [|n names IH]; intros c f; cbn [remove_expired]; [split_and!; auto|].
  pose proof (λ q, cf_data_remove (path_join (ca_root_path c) n) f q) as Hd.
  destruct (cf_remove (path_join (ca_root_path c) n) f) as [ok f1]. cbn [snd] in Hd.
  set (c1 := if ok then _ else c). destruct (IH c1 f1) as (Hi & Hq & Hr).
  assert (Hroot : ca_root_path c1 = ca_root_path c) by (by destruct ok).
  assert (Hix : ∀ name, ca_file_index c1 !! name = ca_file_index c !! name ∨ name = n ∧ ca_file_index c1 !! name = None).
  { intros name. destruct ok; [|by left]. cbn. destruct (decide (name = n)) as [->|Hne].
    - right. by rewrite lookup_delete_eq.
    - left. by rewrite lookup_delete_ne. }
  split_and!; [| |by rewrite Hr].
  - intros name. destruct (Hi name) as [He|[Hin He]]; [|by right; split; [right|]].
    rewrite He. destruct (Hix name) as [?|[-> ?]]; [by left|right]. by split; [left|].
  - intros q Hn. rewrite Hq.
    + apply Hd, Hn. by left.
    + intros name Hin. rewrite Hroot. apply Hn. by right.
Qed.

(** After a turn of the scanning thread the index has an entry, under its
    own name, for exactly the files below the root that are not expired or could
    not be removed, whatever it was before; and only files older than the
    retention change, none when there is no retention. *)
Theorem scan_turn_spec now c f c' f' :
  ca_running c = true → scan_turn zn conversion now c f = (c', f') →
  index_ok (ca_file_index c') ∧
  (∀ name, is_Some (ca_file_index c' !! name) →
     ∃ path, path ∈ cf_files f (ca_root_path c) ∧ cf_relative f path (ca_root_path c) = Some name) ∧
  (∀ path name, path ∈ cf_files f (ca_root_path c) → cf_relative f path (ca_root_path c) = Some name →
     (cc_max_retention_seconds (ca_config c) <= 0 ∨ expired now c f name = false) →
     is_Some (ca_file_index c' !! name)) ∧
  (∀ q, cf_data f' q = cf_data f q ∨
     0 < cc_max_retention_seconds (ca_config c) ∧
     ∃ name, q = path_join (ca_root_path c) name ∧ expired now c f name = true).
Proof.
  intros Hrun. unfold scan_turn. rewrite Hrun. cbn [negb]. set (r := RefreshIndex zn conversion c f).
  assert (Hr : ∀ name, is_Some (ca_file_index r !! name) ↔
    ∃ path, path ∈ cf_files f (ca_root_path c) ∧ cf_relative f path (ca_root_path c) = Some name).
  { intros name. unfold r, RefreshIndex. cbn [with_index ca_file_index]. rewrite scan_files_spec.
    rewrite lookup_empty. split; [intros [[? ?]|?]; done|by right]. }
  assert (Hok : index_ok (ca_file_index r)) by (apply scan_files_ok; intros ? ?; by rewrite lookup_empty).
  unfold CleanExpiredFiles. change (ca_config r) with (ca_config c).
  destruct (cc_max_retention_seconds (ca_config c) <=? 0) eqn:Eret.
  { intros [= <- <-]. split_and!; [done|by intros; apply Hr| |by left].
    intros path name Hp Hn _. apply Hr. by exists path. }
  apply Z.leb_gt in Eret.
  set (names := filter _ _). intros Hc.
  assert (Hex : ∀ name, name ∈ names → expired now c f name = true).
  { intros name Hin. by apply list_elem_of_filter in Hin as [Hin _]. }
  destruct (remove_expired_spec names r f) as (Hi & Hq & _). rewrite Hc in Hi, Hq. cbn [fst snd] in Hi, Hq.
  split_and!.
  - intros name info Hl. destruct (Hi name) as [He|[_ He]]; [|congruence]. apply Hok. congruence.
  - intros name [info Hl]. apply Hr. destruct (Hi name) as [He|[_ He]]; [|congruence]. rewrite <- He. by eexists.
  - intros path name Hp Hn [?|Hne]; [lia|]. destruct (Hi name) as [->|[Hin _]].
    + apply Hr. by exists path.
    + apply Hex in Hin. congruence.
  - intros q. destruct (decide (List.Exists (λ name, q = path_join (ca_root_path c) name) names)) as [He|He].
    + right. split; [done|]. apply Exists_exists in He as (name & Hin & ->). exists name. split; [done|]. by apply Hex.
    + left. apply Hq. intros name Hin Hqe. apply He, Exists_exists. by exists name.
Qed.

(** The list of a folder has the files below it, each once for each time
    the walk meets it, sorted by name. *)
Theorem GetFileList_sorted folder c f l :
  GetFileList zn conversion folder c f = cache_Success l →
  Sorted name_le l ∧
  ∃ target, ValidateDirectoryPath folder true c f = inr target ∧ inside (ca_root_path c) target ∧
    l ≡ₚ map (λ path, file_info zn conversion (ToRelativeUnixPath (ca_root_path c) path f) path f) (cf_files f target).
Proof.
  unfold GetFileList. destruct (ValidateDirectoryPath folder true c f) as [code|target] eqn:Ev; [|].
  { intros Hc. injection Hc as -> <-. exfalso. revert Ev. unfold ValidateDirectoryPath. case_decide; [done|].
    repeat case_match; done. }
  destruct (negb _); [done|]. destruct (negb _); [done|]. intros [= <-]. split.
  - apply Sorted_merge_sort. intros x y. unfold name_le. by apply String.leb_total.
  - exists target. split; [done|]. split; [|apply merge_sort_Permutation].
    revert Ev. unfold ValidateDirectoryPath. case_decide; [done|]. destruct (_ || _); [done|].
    destruct (_ || _); [intros [= <-]; by left|]. destruct (cf_weakly_canonical _ _) as [r|]; [|done].
    destruct (negb (IsPathInsideRoot _ r)) eqn:Hi; [done|]. apply negb_false_iff, IsPathInsideRoot_spec in Hi.
    destruct (_ && _); [done|]. by intros [= <-].
Qed.
End facts.

(** ** A file system in memory

    Without links: canonical is lexical, and a directory exists when it was made or
    something is below it.  [mf_full]: the disk is full, a write of more than the
    16 bytes that are buffered fails, a shorter one is lost when the file is
    closed. *)

Record mem_fs := {
  mf_files : gmap string string; mf_dirs : gset string; mf_full : bool; mf_log : list fs_call
}.

Fixpoint components (s acc : string) : list string :=
  match s with
  | EmptyString => [acc]
  | String c s => if Ascii.eqb c "/" then acc :: components s "" else components s (acc +:+ String c "")
  end.
Definition lexical_step (stack : list string) (name : string) : list string :=
  if String.eqb name "" || String.eqb name "." then stack
  else if String.eqb name ".." then tail stack
  else name :: stack.
Definition lexical (p : string) : string :=
  match foldl lexical_step [] (components p "") with
  | [] => "/"
  | stack => String.concat "" (map (λ name, "/" +:+ name) (rev stack))
  end.

Definition mem_update (files : gmap string string) (log : fs_call) (f : mem_fs) : mem_fs :=
  {| mf_files := files; mf_dirs := mf_dirs f; mf_full := mf_full f; mf_log := mf_log f ++ [log] |}.
Definition mem_mkdirs (l : list string) (f : mem_fs) : mem_fs :=
  {| mf_files := mf_files f; mf_dirs := list_to_set l ∪ mf_dirs f; mf_full := mf_full f;
     mf_log := mf_log f ++ map FC_create_directory l |}.
Definition mem_paths (f : mem_fs) : list string := map fst (map_to_list (mf_files f)) ++ elements (mf_dirs f).
Definition mem_exists (f : mem_fs) (p : string) : bool := existsb (IsPathInsideRoot p) (mem_paths f).
(** The directories on the way to a path, and the path. *)
Fixpoint way (acc p : string) : list string :=
  match p with
  | EmptyString => [acc]
  | String ch p => (if Ascii.eqb ch "/" then [acc] else []) ++ way (acc +:+ String ch "") p
  end.
Definition missing (f : mem_fs) (p : string) : list string :=
  filter (λ d, d ≠ "" ∧ mem_exists f d = false) (way "" p).
Definition buffered (s : string) : bool := (String.length s <=? 16)%nat.

#[export] Instance mem_cache_fs : CacheFs mem_fs := {|
  cf_absolute f p := Some p;
  cf_canonical f p := Some (lexical p);
  cf_weakly_canonical f p := Some (lexical p);
  cf_exists := mem_exists;
  cf_is_directory f p := mem_exists f p && negb (bool_decide (is_Some (mf_files f !! p)));
  cf_files f p := filter (λ q, IsPathInsideRoot p q = true) (map fst (map_to_list (mf_files f)));
  cf_relative f p base := Some (substr_from (S (String.length base)) p);
  cf_size f p := (λ s, Z.of_nat (String.length s)) <$> mf_files f !! p;
  cf_mtime f p := (λ _, 0) <$> mf_files f !! p;
  cf_data f p := mf_files f !! p;
  cf_create_directories p f := (true, mem_mkdirs (missing f p) f);
  cf_create_directory p f := (true, mem_mkdirs [p] f);
  cf_open p f := (true, mem_update (<[p := ""]> (mf_files f)) (FC_open p) f);
  cf_write p s f := (negb (mf_full f) || buffered s,
                     mem_update (<[p := if mf_full f then "" else s]> (mf_files f)) (FC_write p) f);
  cf_close p f := (negb (mf_full f), mem_update (mf_files f) (FC_close p (negb (mf_full f))) f);
  cf_remove p f := (bool_decide (is_Some (mf_files f !! p)), mem_update (delete p (mf_files f)) (FC_remove p) f);
  cf_rename p q f :=
    match mf_files f !! p with
    | Some s => (true, mem_update (<[q := s]> (delete p (mf_files f))) (FC_rename p q) f)
    | None => (false, mem_update (mf_files f) (FC_rename p q) f)
    end;
  cf_trace f := mf_log f
|}.

Lemma way_inside acc p d : d ∈ way acc p → inside d (acc +:+ p).
Proof.
  revert acc. induction p as [|ch p IH]; intros acc; cbn [way].
  - rewrite list_elem_of_singleton. intros ->. left. by rewrite string_app_nil_r.
  - assert (Hsplit : acc +:+ String ch p = (acc +:+ String ch "") +:+ p).
    { rewrite <- string_app_assoc. reflexivity. }
    rewrite elem_of_app. intros [Hd|Hd]; [|rewrite Hsplit; by apply IH].
    destruct (Ascii.eqb ch "/") eqn:E; [|by apply elem_of_nil in Hd]. apply Ascii.eqb_eq in E as ->.
    apply list_elem_of_singleton in Hd as ->. right. exists p. reflexivity.
Qed.

#[export] Instance mem_cache_fs_laws : CacheFsLaws mem_fs.
Proof.
  split; try done; cbn.
  - intros f d p _ Hd. unfold mem_exists. rewrite !existsb_exists. intros (q & Hq & Hp). exists q. split; [done|].
    apply IsPathInsideRoot_inside. eapply inside_trans; [exact Hd|by apply IsPathInsideRoot_spec].
  - intros p f. exists (missing f p). split; [done|]. apply Forall_forall. intros d Hd.
    apply list_elem_of_filter in Hd as [[Hne Hno] Hd]. split; [done|]. split; [by apply (way_inside "")|done].
  - intros p q f. by destruct (mf_files f !! p).
  - intros p f q Hq. by rewrite lookup_insert_ne.
  - intros p s f q Hq. by rewrite lookup_insert_ne.
  - intros p s f _ _ Hw. apply negb_true_iff in Hw. by rewrite Hw, lookup_insert_eq.
  - intros p f q Hq. by rewrite lookup_delete_ne.
  - intros p f _. by rewrite lookup_delete_eq.
  - intros p q f r Hp Hq. destruct (mf_files f !! p); cbn; [|done].
    by rewrite lookup_insert_ne, lookup_delete_ne.
  - intros p q f. destruct (mf_files f !! p) as [s|] eqn:Ep; cbn; [|done]. intros _.
    rewrite lookup_insert_eq. split; [done|]. by eexists.
  - intros p q f. by destruct (mf_files f !! p).
Qed.

(** *** Witnesses *)

Definition mem_empty : mem_fs := {| mf_files := ∅; mf_dirs := {["/cache"]}; mf_full := false; mf_log := [] |}.
Definition mem_config : jvalue := VObj [("root_path", VStr "/cache"); ("max_file_size", VNum 1)].
Definition mem_parse (s : string) : option jvalue := Some mem_config.
Definition mem_cache : MyCache :=
  (cache_Init mem_parse (λ _, 0) (fixed_zone 0) no_conversion "" MyCache_new mem_empty).1.2.
Abbreviation mem_save := (SaveFile (fixed_zone 0) no_conversion).

Lemma cache_confined_witness :
  ValidatePath "../etc/passwd" mem_cache mem_empty = inl PathTraversal ∧
  (mem_save "../etc/passwd" "x" mem_cache mem_empty).2 = mem_empty ∧
  mf_log (mem_save "a/b.txt" "x" mem_cache mem_empty).2 =
    [FC_create_directory "/cache/a"; FC_open "/cache/a/b.txt.tmp"; FC_write "/cache/a/b.txt.tmp";
     FC_close "/cache/a/b.txt.tmp" true; FC_rename "/cache/a/b.txt.tmp" "/cache/a/b.txt"].
Proof.
  assert (Hv : ValidatePath "../etc/passwd" mem_cache mem_empty = inl PathTraversal) by (vm_compute; reflexivity).
  split; [exact Hv|]. split; [|vm_compute; reflexivity].
  assert (Hr : ca_root_path mem_cache ≠ "") by (vm_compute; discriminate).
  destruct (cache_confined (fixed_zone 0) no_conversion "../etc/passwd" "x" mem_cache mem_empty "" "n" Hr) as (Hs & _).
  destruct (mem_save "../etc/passwd" "x" mem_cache mem_empty) as [[r c'] f'].
  destruct Hs as [_ Hs]. destruct (Hs PathTraversal Hv) as (_ & _ & Hf). exact Hf.
Defined.

(** A disk that is full: the old file stays. *)
Definition mem_saved : mem_fs :=
  let f := (mem_save "b.txt" "old" mem_cache mem_empty).2 in
  {| mf_files := mf_files f; mf_dirs := mf_dirs f; mf_full := true; mf_log := [] |}.

Definition long_data : string := "more than sixteen bytes".

Lemma save_atomic_witness :
  (mem_save "b.txt" long_data mem_cache mem_saved).1.1 = Ret IoError ∧
  cf_data (mem_save "b.txt" long_data mem_cache mem_saved).2 "/cache/b.txt" = Some "old".
Proof.
  destruct (mem_save "b.txt" long_data mem_cache mem_saved) as [[r c'] f'] eqn:Es.
  assert (Hr : r = Ret IoError).
  { change r with ((r, c', f').1.1). rewrite <- Es. vm_compute. reflexivity. }
  split; [exact Hr|].
  destruct (save_atomic (fixed_zone 0) no_conversion "b.txt" long_data mem_cache mem_saved r c' f' "/cache/b.txt") as ([Hok|(_ & Hd & _)] & _).
  - vm_compute. discriminate.
  - vm_compute. reflexivity.
  - exact Es.
  - destruct Hok as [Hok _]. rewrite Hr in Hok. discriminate Hok.
  - cbn [snd]. rewrite Hd. vm_compute. reflexivity.
Defined.

(** Data that fits the buffer is lost when the stream is closed, which is not
    checked: the save succeeds, the old content is gone, the index has the size the
    file should have. *)
Lemma truncated_save :
  let '(r, c, f) := mem_save "b.txt" "new" mem_cache mem_saved in
  r = Ret Cache_Ok ∧ cf_data f "/cache/b.txt" = Some "" ∧ (fi_size <$> ca_file_index c !! "b.txt") = Some 3.
Proof. vm_compute. done. Qed.

Lemma scan_turn_spec_witness :
  is_Some (ca_file_index (scan_turn (fixed_zone 0) no_conversion 0 mem_cache mem_saved).1 !! "b.txt").
Proof.
  destruct (scan_turn (fixed_zone 0) no_conversion 0 mem_cache mem_saved) as [c' f'] eqn:Et.
  destruct (scan_turn_spec (fixed_zone 0) no_conversion 0 mem_cache mem_saved c' f') as (_ & _ & Hin & _);
    [vm_compute; reflexivity|exact Et|].
  apply (Hin "/cache/b.txt" "b.txt").
  - vm_compute. left.
  - vm_compute. reflexivity.
  - left. vm_compute. discriminate.
Defined.

Lemma GetFileList_sorted_witness :
  ∃ l, GetFileList (fixed_zone 0) no_conversion "" mem_cache mem_saved = cache_Success l ∧ Sorted name_le l.
Proof.
  destruct (GetFileList (fixed_zone 0) no_conversion "" mem_cache mem_saved) as [code l] eqn:El.
  assert (Hc : code = Cache_Ok).
  { change code with (cr_code {| cr_code := code; cr_value := l |}). rewrite <- El. vm_compute. reflexivity. }
  exists l. rewrite Hc. split; [reflexivity|]. rewrite Hc in El.
  exact (proj1 (GetFileList_sorted (fixed_zone 0) no_conversion "" mem_cache mem_saved l El)).
Defined.

(** The index has the name as given: a file saved under a detour is not found
    under its own name, and stays listed after a delete under its own name. *)
Lemma index_key_is_raw :
  let '(r, c, f) := mem_save "a/../b.txt" "x" mem_cache mem_empty in
  r = Ret Cache_Ok ∧ cf_data f "/cache/b.txt" = Some "x" ∧
  Exists "b.txt" c f = cache_Success false ∧
  (let '(code, c', f') := DeleteFile "b.txt" c f in
   code = Cache_Ok ∧ cf_data f' "/cache/b.txt" = None ∧ Exists "a/../b.txt" c' f' = cache_Success true).
Proof. vm_compute. done. Qed.

(** Saving a file takes the one whose name ends in .tmp with it. *)
Lemma tmp_name_collides :
  let '(_, c, f) := mem_save "b.txt.tmp" "kept" mem_cache mem_empty in
  let '(r, c', f') := mem_save "b.txt" "x" c f in
  r = Ret Cache_Ok ∧ cf_data f' "/cache/b.txt.tmp" = None ∧ Exists "b.txt.tmp" c' f' = cache_Success true.
Proof. vm_compute. done. Qed.

(** The limit is read in units of 2^20 bytes; a cache at the top directory
    refuses every name. *)
Lemma limit_in_megabytes : cc_max_file_size (ca_config mem_cache) = 1048576.
Proof. vm_compute. done. Qed.
Lemma top_directory_refused : IsPathInsideRoot "/" "/a" = false.
Proof. done. Qed.
