(* ===== verification/SmallTools.v ===== *)
(** * Small tools

    Model of util/my_tools/MyTimer.cpp (the timer and the stopwatch), of
    util/my_network/device_online_monitor (is a device reachable?) and of the
    shell command of util/my_tools/PingTools.cpp. *)

From S2P Require Import Prelude.
From S2P Require Import Text.
From Stdlib Require Import Ascii.
From stdpp Require Import pretty strings.

Local Open Scope Z_scope.

(** ** Timers

    Times are the nanoseconds of the steady clock, which never goes back. *)
Module Timers.

Record Timer := { tm_start_time : Z; tm_running : bool }.
Definition Timer_new (now : Z) : Timer := {| tm_start_time := now; tm_running := true |}.
Definition Timer_Start (now : Z) (t : Timer) : Timer := {| tm_start_time := now; tm_running := true |}.
Definition Timer_Restart (now : Z) (t : Timer) : Timer := Timer_Start now t.
Definition Timer_Reset (now : Z) (t : Timer) : Timer := {| tm_start_time := now; tm_running := false |}.
Definition Timer_ElapsedNanoseconds (now : Z) (t : Timer) : Z :=
  if negb (tm_running t) then 0 else now - tm_start_time t.

Record Stopwatch := {
  sw_start_time : Z;
  sw_accumulated_ns : Z;
  sw_running : bool;
  sw_paused : bool
}.
Definition Stopwatch_new (now : Z) : Stopwatch :=
  {| sw_start_time := now; sw_accumulated_ns := 0; sw_running := false; sw_paused := false |}.
Definition CurrentElapsedNanoseconds (now : Z) (s : Stopwatch) : Z :=
  if negb (sw_running s) then sw_accumulated_ns s else sw_accumulated_ns s + (now - sw_start_time s).
Definition sw_Start (now : Z) (s : Stopwatch) : Stopwatch :=
  {| sw_start_time := now; sw_accumulated_ns := 0; sw_running := true; sw_paused := false |}.
Definition sw_Pause (now : Z) (s : Stopwatch) : Stopwatch :=
  if negb (sw_running s) then s
  else {| sw_start_time := sw_start_time s; sw_accumulated_ns := CurrentElapsedNanoseconds now s;
          sw_running := false; sw_paused := true |}.
Definition sw_Resume (now : Z) (s : Stopwatch) : Stopwatch :=
  if negb (sw_paused s) then s
  else {| sw_start_time := now; sw_accumulated_ns := sw_accumulated_ns s; sw_running := true; sw_paused := false |}.
Definition sw_Stop (now : Z) (s : Stopwatch) : Stopwatch :=
  {| sw_start_time := sw_start_time s;
     sw_accumulated_ns := if sw_running s then CurrentElapsedNanoseconds now s else sw_accumulated_ns s;
     sw_running := false; sw_paused := false |}.
Definition sw_Reset (now : Z) (s : Stopwatch) : Stopwatch :=
  {| sw_start_time := now; sw_accumulated_ns := 0; sw_running := false; sw_paused := false |}.

Definition ElapsedNanoseconds (now : Z) (s : Stopwatch) : Z := CurrentElapsedNanoseconds now s.
(** Integer division of C++ truncates. *)
Definition ElapsedMicroseconds (now : Z) (s : Stopwatch) : Z := Z.quot (ElapsedNanoseconds now s) 1000.
Definition ElapsedMilliseconds (now : Z) (s : Stopwatch) : Z := Z.quot (ElapsedNanoseconds now s) 1000000.

Inductive sw_op := OpStart | OpPause | OpResume | OpStop | OpReset.
Definition sw_apply (s : Stopwatch) (x : Z * sw_op) : Stopwatch :=
  match x.2 with
  | OpStart => sw_Start x.1 s
  | OpPause => sw_Pause x.1 s
  | OpResume => sw_Resume x.1 s
  | OpStop => sw_Stop x.1 s
  | OpReset => sw_Reset x.1 s
  end.

(** *** What a stopwatch shows

    The modes of a stopwatch, and the time it has spent measuring: every stretch
    between two presses counts when the first leaves it measuring. *)
Inductive mode := Idle | Measuring | Holding.
Definition next_mode (m : mode) (o : sw_op) : mode :=
  match o, m with
  | OpStart, _ => Measuring
  | OpPause, Measuring => Holding
  | OpResume, Holding => Measuring
  | (OpStop | OpReset), _ => Idle
  | _, m => m
  end.
Definition clears (o : sw_op) : bool := match o with OpStart | OpReset => true | _ => false end.

(** The mode, the time of the last press, and the total. *)
Definition measure_step (a : mode * Z * Z) (x : Z * sw_op) : mode * Z * Z :=
  let '(m, last, total) := a in
  let total := match m with Measuring => total + (x.1 - last) | _ => total end in
  (next_mode m x.2, x.1, if clears x.2 then 0 else total).
Definition measured (t0 : Z) (presses : list (Z * sw_op)) (now : Z) : Z :=
  let '(m, last, total) := foldl measure_step (Idle, t0, 0) presses in
  match m with Measuring => total + (now - last) | _ => total end.

Definition in_mode (m : mode) (s : Stopwatch) : Prop :=
  sw_running s = match m with Measuring => true | _ => false end ∧
  sw_paused s = match m with Holding => true | _ => false end.

Lemma stopwatch_follows presses : ∀ m last total s,
  in_mode m s → (∀ now, CurrentElapsedNanoseconds now s = match m with Measuring => total + (now - last) | _ => total end) →
  let '(m', last', total') := foldl measure_step (m, last, total) presses in
  let s' := foldl sw_apply s presses in
  in_mode m' s' ∧
  ∀ now, CurrentElapsedNanoseconds now s' = match m' with Measuring => total' + (now - last') | _ => total' end.
Proof.
  induction presses as [|[t o] presses IH]; intros m last total s Hm He; [by split|].
  cbn [foldl]. unfold measure_step at 2. cbn [fst snd]. destruct Hm as [Hr Hp].
  apply IH; [|intros now; pose proof (He t) as Ht];
    destruct s as [st acc r p], m, o; cbn in Hr, Hp; subst r p;
    unfold CurrentElapsedNanoseconds in *; cbn in *; try (by split); try lia.
Qed.

(** Whatever the presses and their times, the stopwatch shows the time it
    has been measuring since it was last cleared, pauses left out, and is never
    both running and paused. *)
Theorem stopwatch_measures t0 presses now :
  let s := foldl sw_apply (Stopwatch_new t0) presses in
  ElapsedNanoseconds now s = measured t0 presses now ∧ ¬ (sw_running s = true ∧ sw_paused s = true).
Proof.
  intros s. pose proof (stopwatch_follows presses Idle t0 0 (Stopwatch_new t0)) as H. unfold measured.
  destruct (foldl measure_step _ presses) as [[m last] total]. destruct H as [[Hr Hp] He]; [by split|done|].
  split; [apply He|]. fold s in Hr, Hp. rewrite Hr, Hp. destruct m; by intros [].
Qed.

Lemma measured_bounds presses : ∀ m last total,
  0 <= total → (∀ i x, presses !! i = Some x → last <= x.1) →
  (∀ i j x y, (i < j)%nat → presses !! i = Some x → presses !! j = Some y → x.1 <= y.1) →
  let '(_, last', total') := foldl measure_step (m, last, total) presses in
  0 <= total' ∧ last <= last' ∧ total' + last <= total + last' ∧ ∀ i x, presses !! i = Some x → x.1 <= last'.
Proof.
  induction presses as [|[t o] presses IH]; intros m last total Ht Hl Hm; [cbn; repeat split; lia || done|].
  cbn [foldl]. unfold measure_step at 2. cbn [fst snd]. pose proof (Hl 0%nat _ eq_refl) as Hlt. cbn in Hlt.
  set (total1 := if clears o then 0 else match m with Measuring => total + (t - last) | _ => total end).
  assert (Htot : 0 <= total1 ∧ total1 + last <= total + t) by (unfold total1; destruct m, (clears o); lia).
  specialize (IH (next_mode m o) t total1 ltac:(lia)
    ltac:(intros i x Hx; exact (Hm 0%nat (S i) (t, o) x ltac:(lia) eq_refl Hx))
    ltac:(intros i j x y Hij; apply (Hm (S i) (S j)); lia)).
  destruct (foldl measure_step _ presses) as [[m' last'] total']. destruct IH as (H1 & H2 & H3 & H4).
  repeat split; try lia. intros [|i] x; [by intros [= <-]|apply H4].
Qed.

(** On a clock that never goes back, the time shown is not negative and
    not more than the time since the stopwatch was made. *)
Theorem stopwatch_bounds t0 presses now :
  (∀ i x, presses !! i = Some x → t0 <= x.1 <= now) → t0 <= now →
  (∀ i j x y, (i < j)%nat → presses !! i = Some x → presses !! j = Some y → x.1 <= y.1) →
  0 <= ElapsedNanoseconds now (foldl sw_apply (Stopwatch_new t0) presses) <= now - t0.
Proof.
  intros Hb H0 Hm. pose proof (stopwatch_follows presses Idle t0 0 (Stopwatch_new t0)) as H.
  pose proof (measured_bounds presses Idle t0 0 ltac:(lia) ltac:(intros i x Hx; by apply (Hb i)) Hm) as Hbd.
  assert (Hlast : (foldl measure_step (Idle, t0, 0) presses).1.2 <= now).
  { destruct presses as [|x presses] using rev_ind; [done|]. rewrite foldl_app. cbn.
    destruct (foldl measure_step _ presses) as [[m l] tt']. cbn.
    apply (Hb (length presses)). by rewrite list_lookup_middle. }
  destruct (foldl measure_step _ presses) as [[m last] total]. cbn in Hlast.
  destruct H as [_ He]; [by split|done|]. unfold ElapsedNanoseconds. rewrite He. destruct m; lia.
Qed.

Lemma stopwatch_bounds_witness :
  0 <= ElapsedNanoseconds 20 (foldl sw_apply (Stopwatch_new 0) [(1, OpStart); (5, OpPause); (9, OpResume)]) <= 20 - 0.
Proof.
  apply (stopwatch_bounds 0 [(1, OpStart); (5, OpPause); (9, OpResume)] 20); [|done|].
  - intros i x. destruct i as [|[|[|i]]]; intros [= <-]; cbn; lia.
  - intros i j x y Hij. destruct i as [|[|[|i]]], j as [|[|[|j]]]; try lia; intros [= <-] [= <-]; cbn; lia.
Defined.

Example pause_and_resume :
  ElapsedNanoseconds 20 (foldl sw_apply (Stopwatch_new 0) [(1, OpStart); (5, OpPause); (9, OpResume)]) = 15.
Proof. reflexivity. Qed.
(** A stopwatch that was stopped does not resume. *)
Example resume_after_stop :
  ElapsedNanoseconds 20 (foldl sw_apply (Stopwatch_new 0) [(1, OpStart); (5, OpStop); (9, OpResume)]) = 4.
Proof. reflexivity. Qed.
End Timers.

(** ** Is the device online? *)
Module OnlineMonitor.

Record DeviceOnlineMonitor := {
  om_host : string;
  om_port : Z;
  om_interval_seconds : Z;
  om_fail_threshold : Z;
  om_running : bool;
  om_online : bool;
  om_initialized : bool;
  (** the thread, with the [fail_count] of its loop *)
  om_thread : option Z
}.
Definition DeviceOnlineMonitor_new : DeviceOnlineMonitor := {|
  om_host := ""; om_port := 0; om_interval_seconds := 5; om_fail_threshold := 3; om_running := false;
  om_online := false; om_initialized := false; om_thread := None |}.
Definition DeviceOnlineMonitor_of (host : string) (port interval_seconds fail_threshold : Z) : DeviceOnlineMonitor := {|
  om_host := host; om_port := port; om_interval_seconds := interval_seconds; om_fail_threshold := fail_threshold;
  om_running := false; om_online := false; om_initialized := true; om_thread := None |}.

Definition with_loop (running online : bool) (thread : option Z) (m : DeviceOnlineMonitor) : DeviceOnlineMonitor := {|
  om_host := om_host m; om_port := om_port m; om_interval_seconds := om_interval_seconds m;
  om_fail_threshold := om_fail_threshold m; om_running := running; om_online := online;
  om_initialized := om_initialized m; om_thread := thread |}.

Definition monitor_init (host : string) (port interval_seconds fail_threshold : Z) (m : DeviceOnlineMonitor) :
    bool * DeviceOnlineMonitor :=
  if om_running m then (false, m)
  else if om_initialized m then (false, m)
  else (true, {| om_host := host; om_port := port; om_interval_seconds := interval_seconds;
                 om_fail_threshold := fail_threshold; om_running := om_running m; om_online := om_online m;
                 om_initialized := true; om_thread := om_thread m |}).

Definition monitor_start (m : DeviceOnlineMonitor) : DeviceOnlineMonitor :=
  if negb (om_initialized m) || om_running m then m
  else with_loop true (om_online m) (Some 0) m.
(** Waits for the loop, which sees the flag after its current round. *)
Definition monitor_stop (m : DeviceOnlineMonitor) : DeviceOnlineMonitor := with_loop false (om_online m) None m.
Definition isOnline (m : DeviceOnlineMonitor) : bool := om_online m.

(** One round of the loop after [tryConnect]; a counter that overflows is
    undefined. *)
Definition monitor_round (success : bool) (m : DeviceOnlineMonitor) : outcome DeviceOnlineMonitor :=
  match om_thread m with
  | None => Ret m
  | Some fail_count =>
      if success then Ret (with_loop (om_running m) true (Some 0) m)
      else if fail_count =? 2 ^ 31 - 1 then Undef
      else
        let fail_count := fail_count + 1 in
        Ret (with_loop (om_running m) (if om_fail_threshold m <=? fail_count then false else om_online m)
               (Some fail_count) m)
  end.
Fixpoint monitor_rounds (l : list bool) (m : DeviceOnlineMonitor) : outcome DeviceOnlineMonitor :=
  match l with
  | [] => Ret m
  | b :: l => match monitor_round b m with Ret m => monitor_rounds l m | o => o end
  end.

(** The failures since the last success, newest first. *)
Fixpoint failures (l : list bool) : nat :=
  match l with false :: l => S (failures l) | _ => O end.

Lemma monitor_rounds_spec l : ∀ m n,
  om_thread m = Some n → 0 <= n → n + Z.of_nat (length l) < 2 ^ 31 →
  ∃ m', monitor_rounds l m = Ret m' ∧ om_running m' = om_running m ∧ om_fail_threshold m' = om_fail_threshold m ∧
    om_thread m' = Some (if existsb id l then Z.of_nat (failures (reverse l)) else n + Z.of_nat (length l)) ∧
    om_online m' =
      (if existsb id l then (Z.of_nat (failures (reverse l)) =? 0) || (Z.of_nat (failures (reverse l)) <? om_fail_threshold m)
       else om_online m && (Nat.eqb (length l) 0 || (n + Z.of_nat (length l) <? om_fail_threshold m))).
Proof.
  induction l as [|b l IH] using rev_ind; intros m n Ht Hn Hl.
  { exists m. cbn. rewrite Ht, andb_true_r. repeat split. do 2 f_equal. lia. }
  rewrite length_app in *. cbn [length] in *.
  destruct (IH m n Ht Hn ltac:(lia)) as (m1 & E & Hr & Hth & Ht1 & Ho).
  assert (Eapp : ∀ l l' m, monitor_rounds (l ++ l') m = match monitor_rounds l m with Ret m => monitor_rounds l' m | o => o end).
  { clear. induction l as [|b l IH]; intros l' m; [done|]. cbn. by destruct (monitor_round b m). }
  rewrite Eapp, E. cbn [monitor_rounds]. unfold monitor_round. rewrite Ht1, existsb_app, reverse_app. cbn [existsb].
  change (reverse [b] ++ reverse l) with (b :: reverse l).
  assert (Hfl : (failures (reverse l) <= length l)%nat).
  { rewrite <- length_reverse. generalize (reverse l). clear. induction l as [|[] l IH]; cbn; lia. }
  destruct b; [eexists; split; [reflexivity|]; rewrite orb_true_r; cbn; by rewrite Hr, Hth|].
  change (id false) with false. rewrite ?orb_false_r. cbn [failures].
  destruct (existsb id l) eqn:Ex.
  - destruct (Z.eqb_spec (Z.of_nat (failures (reverse l))) (2 ^ 31 - 1)) as [Hmax|Hmax]; [lia|].
    eexists. split; [reflexivity|]. cbn [with_loop om_running om_fail_threshold om_thread om_online].
    rewrite Hr, Hth. repeat split; [f_equal; lia|]. rewrite Ho.
    repeat match goal with |- context [?a =? ?b] => destruct (Z.eqb_spec a b)
                         | |- context [?a <? ?b] => destruct (Z.ltb_spec a b)
                         | |- context [?a <=? ?b] => destruct (Z.leb_spec a b) end; cbn; lia || done.
  - destruct (Z.eqb_spec (n + Z.of_nat (length l)) (2 ^ 31 - 1)) as [Hmax|Hmax]; [lia|].
    eexists. split; [reflexivity|]. cbn [with_loop om_running om_fail_threshold om_thread om_online].
    rewrite Hr, Hth. repeat split; [f_equal; lia|]. rewrite Ho.
    destruct (om_online m); cbn [andb]; [|by destruct (_ <=? _)].
    destruct (Nat.eqb_spec (length l) 0); destruct (Nat.eqb_spec (length l + 1) 0); try lia;
    repeat match goal with |- context [?a <? ?b] => destruct (Z.ltb_spec a b)
                         | |- context [?a <=? ?b] => destruct (Z.leb_spec a b) end; cbn; lia || done.
Qed.

(** After any number of probes that the counter can hold, the device is
    online exactly when a probe has succeeded and fewer than the threshold have
    failed since, and always right after a success. *)
Theorem online_threshold host port interval threshold l :
  Z.of_nat (length l) < 2 ^ 31 →
  ∃ m, monitor_rounds l (monitor_start (DeviceOnlineMonitor_of host port interval threshold)) = Ret m ∧
    om_running m = true ∧
    (isOnline m = true ↔
      true ∈ l ∧ (failures (reverse l) = 0%nat ∨ Z.of_nat (failures (reverse l)) < threshold)).
Proof.
  intros Hl.
  destruct (monitor_rounds_spec l (monitor_start (DeviceOnlineMonitor_of host port interval threshold)) 0)
    as (m & E & Hr & _ & _ & Ho); [reflexivity|lia|lia|].
  exists m. split; [exact E|]. split; [exact Hr|]. unfold isOnline. rewrite Ho.
  cbn [om_online monitor_start DeviceOnlineMonitor_of om_initialized om_running om_fail_threshold with_loop negb orb andb].
  destruct (existsb id l) eqn:Ex.
  - apply existsb_exists in Ex as (b & Hb & Hid). unfold id in Hid. subst b. apply list_elem_of_In in Hb.
    rewrite orb_true_iff, Z.eqb_eq, Z.ltb_lt. split; [intros [H|H]; (split; [done|]); [left|right]; lia|intros [_ [H|H]]; lia].
  - split; [done|]. intros [Hin _]. exfalso. apply list_elem_of_In in Hin.
    assert (existsb id l = true) by (apply existsb_exists; by exists true). congruence.
Qed.

Lemma online_threshold_witness :
  ∃ m, monitor_rounds [true; false; false] (monitor_start (DeviceOnlineMonitor_of "10.0.0.1" 80 5 3)) = Ret m ∧ isOnline m = true.
Proof.
  destruct (online_threshold "10.0.0.1" 80 5 3 [true; false; false] ltac:(cbn; lia)) as (m & E & _ & H).
  exists m. split; [exact E|]. apply H. split; [by constructor|]. right. cbn. lia.
Defined.

(** Nothing is probed after [stop], and the last answer stays. *)
Example stopped_stays_online m : isOnline m = true → isOnline (monitor_stop m) = true.
Proof. done. Qed.
End OnlineMonitor.

(** ** Ping through the shell *)
Module PingTools.

Definition quote : ascii := ascii_of_nat 39.
Fixpoint quote_chars (s : string) : string :=
  match s with
  | EmptyString => ""
  | String ch s => (if Ascii.eqb ch quote then String quote (String "\" (String quote (String quote ""))) else String ch "") +:+ quote_chars s
  end.
Definition quoteForShell (value : string) : string := String quote "" +:+ quote_chars value +:+ String quote "".

(** A status [std::system] returns: [WIFEXITED] and [WEXITSTATUS]. *)
Definition isExitSuccess (status : Z) : bool :=
  negb (status =? -1) && (Z.land status 127 =? 0) && (Z.land (Z.shiftr status 8) 255 =? 0).

Definition ping_command (ip : string) (count timeout_sec : Z) : string :=
  "ping -c " +:+ pretty count +:+ " -W " +:+ pretty timeout_sec +:+ " " +:+ quoteForShell ip +:+ " > /dev/null 2>&1".
(** The answer, and the commands run; [std::system] is given [c_str()]. *)
Definition PingIP (system : string → Z) (ip : string) (count timeout_sec : Z) : bool * list string :=
  if String.eqb ip "" then (false, [])
  else if (count <=? 0) || (timeout_sec <=? 0) then (false, [])
  else let command := c_text (ping_command ip count timeout_sec) in (isExitSuccess (system command), [command]).

(** *** What the shell makes of it

    The next word of a command, by the quoting rules of the POSIX shell: between
    single quotes everything stands for itself, a backslash outside them quotes
    one character, and a blank ends the word.  [None]: a character with a meaning
    of its own, or a quote that is not closed. *)
Definition plain (c : ascii) : bool :=
  let n := nat_of_ascii c in
  ((48 <=? n) && (n <=? 57) || (65 <=? n) && (n <=? 90) || (97 <=? n) && (n <=? 122) || (45 <=? n) && (n <=? 47) || (n =? 95) || (n =? 58))%nat.
Fixpoint shell_word (quoted : bool) (s : string) : option (string * string) :=
  match s with
  | EmptyString => if quoted then None else Some ("", "")
  | String c s' =>
      if Ascii.eqb c quote then shell_word (negb quoted) s'
      else if quoted then '(w, rest) ← shell_word true s'; Some (String c w, rest)
      else if Ascii.eqb c " " then Some ("", s)
      else if Ascii.eqb c "\" then
        match s' with
        | EmptyString => None
        | String d s'' => '(w, rest) ← shell_word false s''; Some (String d w, rest)
        end
      else if plain c then '(w, rest) ← shell_word false s'; Some (String c w, rest)
      else None
  end.

Lemma shell_word_quoted s rest :
  shell_word true (quote_chars s +:+ String quote (String " " rest)) = Some (s, String " " rest).
Proof.
  induction s as [|c s IH]; [reflexivity|]. cbn [quote_chars]. rewrite <- string_app_assoc.
  destruct (Ascii.eqb c quote) eqn:Ec.
  - apply Ascii.eqb_eq in Ec. subst c. rewrite !string_app_cons, string_app_nil.
    cbn -[quote_chars]. by rewrite IH.
  - rewrite string_app_cons, string_app_nil. cbn [shell_word]. rewrite Ec. by rewrite IH.
Qed.

Lemma shell_word_quote s rest :
  shell_word false (quoteForShell s +:+ String " " rest) = Some (s, String " " rest).
Proof.
  unfold quoteForShell. rewrite <- !string_app_assoc. rewrite string_app_cons, string_app_nil.
  cbn [shell_word]. change (Ascii.eqb quote quote) with true. cbn [negb].
  rewrite string_app_cons, string_app_nil. apply shell_word_quoted.
Qed.

(** A quote that nothing closes. *)
Lemma shell_word_open s : shell_word true (quote_chars s) = None.
Proof.
  induction s as [|c s IH]; [reflexivity|]. cbn [quote_chars].
  destruct (Ascii.eqb c quote) eqn:Ec.
  - rewrite !string_app_cons, string_app_nil. cbn -[quote_chars]. by rewrite IH.
  - rewrite string_app_cons, string_app_nil. cbn [shell_word]. rewrite Ec. by rewrite IH.
Qed.

Lemma quote_chars_no_zero s : no_zero s = true → no_zero (quote_chars s) = true.
Proof.
  unfold no_zero. induction s as [|c s IH]; [done|]. cbn [all_chars quote_chars]. intros [Hc Hs]%andb_prop.
  rewrite all_chars_app, IH by done. destruct (Ascii.eqb c quote); [done|]. cbn [all_chars]. by rewrite Hc.
Qed.

(** An address with a zero is cut there. *)
Lemma c_text_quote_chars s rest :
  no_zero s = false → c_text (quote_chars s +:+ rest) = quote_chars (c_text s).
Proof.
  unfold no_zero. induction s as [|c s IH]; [done|]. cbn [all_chars quote_chars c_text].
  destruct (Ascii.eqb c zero) eqn:Ez; cbn [negb andb].
  - intros _. apply Ascii.eqb_eq in Ez as ->. change (Ascii.eqb zero quote) with false. cbn iota. rewrite <- string_app_assoc, string_app_cons. done.
  - intros Hs. rewrite <- string_app_assoc, c_text_app; [by rewrite IH|].
    destruct (Ascii.eqb c quote); [done|]. unfold no_zero. cbn [all_chars]. by rewrite Ez.
Qed.

Lemma ping_prefix_no_zero count timeout_sec :
  0 < count → 0 < timeout_sec →
  no_zero ("ping -c " +:+ pretty count +:+ " -W " +:+ pretty timeout_sec +:+ " ") = true.
Proof.
  intros Hc Ht. unfold no_zero. rewrite !all_chars_app.
  pose proof (digits_no_zero _ (proj1 (pretty_all_digits count ltac:(lia)))) as H1.
  pose proof (digits_no_zero _ (proj1 (pretty_all_digits timeout_sec ltac:(lia)))) as H2.
  unfold no_zero in *. by rewrite H1, H2.
Qed.

(** C32: whatever the address, a ping with a bad argument runs nothing, and any
    other gives the shell one command, after whose options comes the address: one
    without a zero as exactly one word, followed by the redirection; one with a
    zero cuts the command inside the quotes, which the shell does not accept.  So
    nothing in the address can add words or commands. *)
Theorem ping_one_word system ip count timeout_sec :
  ((ip = "" ∨ count <= 0 ∨ timeout_sec <= 0) → PingIP system ip count timeout_sec = (false, [])) ∧
  (ip ≠ "" → 0 < count → 0 < timeout_sec →
   ∃ tail, PingIP system ip count timeout_sec =
       (isExitSuccess (system ("ping -c " +:+ pretty count +:+ " -W " +:+ pretty timeout_sec +:+ " " +:+ tail)),
        ["ping -c " +:+ pretty count +:+ " -W " +:+ pretty timeout_sec +:+ " " +:+ tail]) ∧
     shell_word false tail = if no_zero ip then Some (ip, " > /dev/null 2>&1") else None).
Proof.
  unfold PingIP. split.
  - intros [->|Hc]; [done|]. destruct (String.eqb ip ""); [done|].
    destruct (Z.leb_spec count 0), (Z.leb_spec timeout_sec 0); cbn; try done; lia.
  - intros Hip Hc Ht. rewrite (proj2 (String.eqb_neq ip "") Hip).
    destruct (Z.leb_spec count 0), (Z.leb_spec timeout_sec 0); try lia. cbn [orb].
    exists (c_text (quoteForShell ip +:+ " > /dev/null 2>&1")). split.
    + assert (Hcmd : c_text (ping_command ip count timeout_sec) =
        "ping -c " +:+ pretty count +:+ " -W " +:+ pretty timeout_sec +:+ " " +:+ c_text (quoteForShell ip +:+ " > /dev/null 2>&1")).
      { pose proof (ping_prefix_no_zero count timeout_sec Hc Ht) as Hp.
        pose proof (c_text_app _ (quoteForShell ip +:+ " > /dev/null 2>&1") Hp) as He.
        unfold ping_command. rewrite <- !string_app_assoc in He. exact He. }
      by rewrite Hcmd.
    + destruct (no_zero ip) eqn:Ez.
      * unfold quoteForShell. rewrite !c_text_app; [apply shell_word_quote|].
        unfold no_zero. rewrite !all_chars_app. apply quote_chars_no_zero in Ez. unfold no_zero in Ez. by rewrite Ez.
      * unfold quoteForShell. rewrite <- !string_app_assoc, c_text_app by done.
        rewrite c_text_quote_chars by done. rewrite string_app_cons, string_app_nil. cbn [shell_word].
        apply shell_word_open.
Qed.

(** A zero in the address: the closing quote and the redirection are lost. *)
Example zero_in_the_address :
  PingIP (λ _, 0) (String "a" (String zero "b")) 1 1 = (true, ["ping -c 1 -W 1 'a"]).
Proof. by vm_compute. Qed.

Example command_in_the_address :
  shell_word false (quoteForShell "x'; reboot; echo '" +:+ " > /dev/null") = Some ("x'; reboot; echo '", " > /dev/null").
Proof. by vm_compute. Qed.
(** An address that starts with a dash is still an option of [ping]. *)
Example option_in_the_address : ping_command "-f" 1 1 = "ping -c 1 -W 1 '-f' > /dev/null 2>&1".
Proof. by vm_compute. Qed.
End PingTools.
