(* ===== verification/Pipeline.v ===== *)
(** * The pipeline

    Model of tools/pipeline/Pipeline.cpp: how the modules of the program are
    started from the configuration and stopped at the end.  A module is reached
    through its calls, which are recorded in order; what a call answers, or
    throws, is up to the environment and may depend on all that happened. *)

From S2P Require Import Prelude Json Double.
From stdpp Require Import pretty.

Local Open Scope Z_scope.

Section pipeline.
Context {J : Type} `{JsonNumbers J} `{!JsonItems J}.

(** [Launching]: a node is handed to its launcher. *)
Inductive module_call :=
| Launching (model_name : string) (args : J)
| Sleep (seconds : nat)
| HeartbeatInit (args : J) | HeartbeatStart
| StartAllEdges
| PortAvailable (port : Z) | ApiSettings (config : J) | ApiStart (port : Z)
| FastMqttInitialize | FastMqttStart
| CommInit (args : J) | CommStart
| GasInit (args : J) | GasStart
| MqttInit (args : J) | MqttStart
| CreateEdge (edge_type : string) (args : J) | ReportEdge | AppendEdge
| BrokerInit (args : J) | BrokerStart
| SoftHealthConfig (args : J) | SoftHealthInit | SoftHealthStart
| FlyControlInit (args : J) | FlyControlStart
| PodInit (args : J)
| StreamConfig (args : J) | StreamInit | StreamStart
| CacheInit (config : string)
| AudioInit (args : J) | AudioStart
| LightInitialize (driver : string) (baud_rate : Z) | LightStart
| LockInit (args : J) | LockStart
| CommStop | LockStop | LightStop | AudioStop | StreamStop | PodShutdown | FlyControlStop
| SoftHealthStop | FastMqttDestroy | MqttStop | BrokerStop | StopAllEdges | HeartbeatStop | ApiStop.

(** What the modules answer, given what was called before.  Calls without a
    result answer anything. *)
Context (env : list module_call → module_call → result bool).
(** A [std::system_error] with [EADDRINUSE]. *)
Context (address_in_use : exn → bool).

(** The fields, the three counters [LaunchRoBot] keeps, and the calls. *)
Record Pipeline := {
  pl_config_data : J;
  pl_is_running : bool;
  pl_working_models : list string;
  pl_total_nodes : Z;
  pl_success_count : Z;
  pl_step_time_interval : Z;
  pl_calls : list module_call
}.

Definition Pipeline_new (null : J) : Pipeline := {|
  pl_config_data := null; pl_is_running := false; pl_working_models := []; pl_total_nodes := 0;
  pl_success_count := 0; pl_step_time_interval := 0; pl_calls := [] |}.

Definition with_config (x : J) (s : Pipeline) : Pipeline := {|
  pl_config_data := x; pl_is_running := pl_is_running s; pl_working_models := pl_working_models s;
  pl_total_nodes := pl_total_nodes s; pl_success_count := pl_success_count s;
  pl_step_time_interval := pl_step_time_interval s; pl_calls := pl_calls s |}.
Definition with_running (x : bool) (s : Pipeline) : Pipeline := {|
  pl_config_data := pl_config_data s; pl_is_running := x; pl_working_models := pl_working_models s;
  pl_total_nodes := pl_total_nodes s; pl_success_count := pl_success_count s;
  pl_step_time_interval := pl_step_time_interval s; pl_calls := pl_calls s |}.
Definition with_models (x : list string) (s : Pipeline) : Pipeline := {|
  pl_config_data := pl_config_data s; pl_is_running := pl_is_running s; pl_working_models := x;
  pl_total_nodes := pl_total_nodes s; pl_success_count := pl_success_count s;
  pl_step_time_interval := pl_step_time_interval s; pl_calls := pl_calls s |}.
Definition with_counts (total success interval : Z) (s : Pipeline) : Pipeline := {|
  pl_config_data := pl_config_data s; pl_is_running := pl_is_running s;
  pl_working_models := pl_working_models s; pl_total_nodes := total; pl_success_count := success;
  pl_step_time_interval := interval; pl_calls := pl_calls s |}.
Definition with_call (c : module_call) (s : Pipeline) : Pipeline := {|
  pl_config_data := pl_config_data s; pl_is_running := pl_is_running s;
  pl_working_models := pl_working_models s; pl_total_nodes := pl_total_nodes s;
  pl_success_count := pl_success_count s; pl_step_time_interval := pl_step_time_interval s;
  pl_calls := pl_calls s ++ [c] |}.

(** ** Code over the pipeline

    [None]: it does not return; otherwise a value or an exception, and the
    state. *)
Definition pl (A : Type) : Type := Pipeline → option (result A * Pipeline).

#[local] Instance pl_ret : MRet pl := λ A a s, Some (Ok a, s).
#[local] Instance pl_bind : MBind pl := λ A B f m s,
  match m s with
  | Some (Ok a, s) => f a s
  | Some (Err e, s) => Some (Err e, s)
  | None => None
  end.

Definition lift {A} (r : result A) : pl A := λ s, Some (r, s).
Definition ask (c : module_call) : pl bool := λ s, Some (env (pl_calls s) c, with_call c s).
Definition tell (c : module_call) : pl unit := _ ← ask c; mret tt.
(** [std::this_thread::sleep_for]. *)
Definition sleep (seconds : nat) : pl unit := λ s, Some (Ok tt, with_call (Sleep seconds) s).
Definition modify (f : Pipeline → Pipeline) : pl unit := λ s, Some (Ok tt, f s).
(** [try { m } catch (const std::exception&) {}]. *)
Definition caught (m : pl unit) : pl unit := λ s,
  match m s with Some (_, s) => Some (Ok tt, s) | None => None end.
Definition if_ {A} (m : pl bool) (yes no : pl A) : pl A := b ← m; match b with true => yes | false => no end.
Definition dump (v : J) : pl unit := _ ← lift (j_dump v); mret tt.

(** ** The launchers *)

Definition LaunchHeartbeat (args : J) : pl unit :=
  caught (_ ← dump args; _ ← tell (HeartbeatInit args); _ ← tell HeartbeatStart; sleep 15).

Definition LaunchEdgeMonitor (args : J) : pl unit := caught (_ ← dump args; tell StartAllEdges).

(** [false]: the address was in use. *)
Definition unless_in_use (m : pl unit) : pl bool := λ s,
  match m s with
  | Some (Ok _, s) => Some (Ok true, s)
  | Some (Err e, s) => if address_in_use e then Some (Ok false, s) else Some (Err e, s)
  | None => None
  end.

(** The [while (true)] that waits for the port, for at most [fuel] rounds. *)
Fixpoint await_port (fuel : nat) (port : Z) : pl unit :=
  match fuel with
  | O => λ _, None
  | S fuel =>
      if_ (ask (PortAvailable port))
        (if_ (unless_in_use (s_config ← (λ s, Some (Ok (pl_config_data s), s));
                             _ ← tell (ApiSettings s_config); tell (ApiStart port)))
           (mret tt)
           (_ ← sleep 5; await_port fuel port))
        (_ ← sleep 5; await_port fuel port)
  end.

Definition LaunchRestAPI (fuel : nat) (args : J) : pl unit :=
  caught (port ← lift (j_value j_get_int args "port" 8000);
          _ ← await_port fuel port;
          tell (ApiStart port)).

(** The initialisation guards the start in the same way everywhere. *)
Definition init_then (init start : module_call) : pl unit :=
  if_ (ask init) (tell start) (mret tt).

(** The arguments are not used: the configuration is fixed. *)
Definition LaunchFastMQTT (args : J) : pl unit := caught (init_then FastMqttInitialize FastMqttStart).
Definition Launch2536Comm (args : J) : pl unit := caught (init_then (CommInit args) CommStart).
Definition LaunchGasDetector (args : J) : pl unit := caught (init_then (GasInit args) GasStart).

Definition LaunchMQTTComm (args : J) : pl unit :=
  _ ← lift (j_value j_get_int args "interval_sec_" 3); init_then (MqttInit args) MqttStart.

Definition LaunchComm (args : J) : pl unit :=
  _ ← lift (j_value j_get_int args "interval_sec_" 3); mret tt.
Definition LaunchSystemHealthy (args : J) : pl unit :=
  _ ← lift (j_value j_get_int args "interval_sec_" 3); mret tt.

(** *** Edges *)

(** [size()] of any value. *)
Definition j_size (v : J) : nat :=
  match j_view v with
  | JNull => 0
  | JArray => length (j_elems v)
  | JObject => length (j_items v)
  | _ => 1
  end.

(** [v[i]] with [i < v.size()]: only arrays have positions. *)
Definition j_at (v : J) (i : nat) : result J :=
  match j_view v with
  | JArray => Ok (default v (j_elems v !! i))
  | _ => Err (other_error (j_type_error v))
  end.

Definition has_devices (args : J) : bool :=
  match j_find args "devices" with
  | Some v => match j_view v with JArray => true | _ => false end
  | None => false
  end.

(** The arguments of edge [i]: without devices it gets one, named and typed
    after the edge. *)
Definition edge_args (edge_create_args : J) (i : nat) : result (string * J) :=
  args ← (if (i <? j_size edge_create_args)%nat then j_at edge_create_args i else Ok (j_object []));
  edge_type ← j_value_string args "edge_type" "UnknownType";
  if has_devices args then Ok (edge_type, args)
  else
    device_id ← j_value_string args "name" ("device_" +:+ pretty i);
    dev_type ← j_value_string args "edge_type" edge_type;
    with_devices ← j_set args "devices"
      (j_array [j_object [("device_id", j_string device_id); ("type", j_string dev_type)]]);
    match j_find with_devices "edge_id" with
    | Some _ => Ok (edge_type, with_devices)
    | None =>
        name ← j_value_string with_devices "name" ("edge_" +:+ pretty i);
        args ← j_set with_devices "edge_id" (j_string name);
        Ok (edge_type, args)
    end.

Definition launch_edge (edge_create_args : J) (i : nat) : pl unit :=
  '(edge_type, args) ← lift (edge_args edge_create_args i);
  _ ← dump args;
  if_ (ask (CreateEdge edge_type args)) (_ ← tell ReportEdge; tell AppendEdge) (mret tt).

Fixpoint launch_edges (edge_create_args : J) (l : list nat) : pl unit :=
  match l with
  | [] => mret tt
  | i :: l => _ ← launch_edge edge_create_args i; launch_edges edge_create_args l
  end.

Definition LaunchEdge (args : J) : pl unit :=
  _ ← lift (j_value j_get_int args "interval_sec_" 10);
  _ ← dump args;
  _ ← caught (edge_number ← lift (j_value j_get_int args "edge_number" 1);
              edge_create_args ← lift (j_value Ok args "edge_create_args" (j_array []));
              launch_edges edge_create_args (seq 0 (Z.to_nat edge_number)));
  tell StartAllEdges.

(** *** The other modules *)

Definition LaunchMyMqttBroker (args : J) : pl unit :=
  _ ← dump args; caught (_ ← tell (BrokerInit args); tell BrokerStart).

Definition LaunchSoftHealthyMonitor (args : J) : pl unit :=
  _ ← dump args;
  caught (_ ← tell (SoftHealthConfig args); _ ← tell SoftHealthInit; tell SoftHealthStart).

Definition kMaxRetries : nat := 10.

(** Up to [n] attempts, three seconds apart: has one succeeded? *)
Fixpoint init_fly_control (n : nat) (args : J) : pl bool :=
  match n with
  | O => mret false
  | S n =>
      if_ (ask (FlyControlInit args)) (mret true)
        match n with
        | O => mret false
        | S _ => _ ← sleep 3; init_fly_control n args
        end
  end.

Definition LaunchFlyControl (args : J) : pl unit :=
  _ ← dump args;
  caught (if_ (init_fly_control kMaxRetries args) (tell FlyControlStart) (mret tt)).

(** The manager is initialised; it is not started. *)
Definition LaunchPodManager (args : J) : pl unit := _ ← dump args; caught (tell (PodInit args)).

Definition LaunchMediamtxMonitorV2 (args : J) : pl unit :=
  _ ← dump args; caught (_ ← tell (StreamConfig args); init_then StreamInit StreamStart).

Definition LaunchFileCache (args : J) : pl unit :=
  _ ← dump args;
  caught (root_path ← lift (j_value_string args "root_path" "");
          config ← lift (match root_path with
                         | EmptyString => j_set args "root_path" (j_string "/tmp/fast_cpp_server_file_cache")
                         | _ => Ok args
                         end);
          text ← lift (j_dump config);
          tell (CacheInit text)).

Definition LaunchAudioServer (args : J) : pl unit :=
  _ ← dump args; caught (init_then (AudioInit args) AudioStart).

Definition LaunchSearchLight (args : J) : pl unit :=
  _ ← dump args;
  caught (driver ← lift (j_value_string args "driver" "/dev/ttyUSB0");
          baud_rate ← lift (j_value j_get_int args "baud_rate" 115200);
          _ ← tell (LightInitialize driver baud_rate);
          tell LightStart).

Definition LaunchAirdropLock (args : J) : pl unit :=
  _ ← dump args; caught (init_then (LockInit args) LockStart).

(** ** Starting *)

(** The chain of comparisons; [None] is an unknown name. *)
Definition launcher (fuel : nat) (model_name : string) : option (J → pl unit) :=
  assoc_find model_name [
    ("heartbeat", LaunchHeartbeat); ("mqtt_comm", LaunchMQTTComm); ("fast_mqtt", LaunchFastMQTT);
    ("comm", LaunchComm); ("system_healthy", LaunchSystemHealthy); ("edge_monitor", LaunchEdgeMonitor);
    ("rest_api", LaunchRestAPI fuel); ("edge", LaunchEdge); ("MQTTBroker", LaunchMyMqttBroker);
    ("soft_healthy_monitor", LaunchSoftHealthyMonitor); ("fly_control", LaunchFlyControl);
    ("pod", LaunchPodManager); ("mediamtx_monitor", LaunchMediamtxMonitorV2);
    ("file_cache", LaunchFileCache); ("audio_server", LaunchAudioServer);
    ("search_light", LaunchSearchLight); ("airdrop_lock", LaunchAirdropLock);
    ("2536_comm", Launch2536Comm); ("gas_detector", LaunchGasDetector)].

(** A node as the loop reads it: [None] has no model name. *)
Record node := { nd_model_name : string; nd_enable : bool; nd_args : J; nd_interval : Z }.
Definition read_node (node_body : J) (step_time_interval : Z) : result (option node) :=
  match j_find node_body "model_name" with
  | None => Ok None
  | Some v =>
      model_name ← j_get_string v;
      enable ← j_value_bool node_body "enable" true;
      model_args ← j_value Ok node_body "model_args" (j_object []);
      interval ← j_value j_get_int node_body "step_time_interval" step_time_interval;
      Ok (Some {| nd_model_name := model_name; nd_enable := enable; nd_args := model_args;
                  nd_interval := interval |})
  end.

Definition count_node (s : Pipeline) : Pipeline :=
  with_counts (pl_total_nodes s + 1) (pl_success_count s) (pl_step_time_interval s) s.
Definition count_success (s : Pipeline) : Pipeline :=
  with_counts (pl_total_nodes s) (pl_success_count s + 1) (pl_step_time_interval s) s.
Definition set_interval (x : Z) (s : Pipeline) : Pipeline :=
  with_counts (pl_total_nodes s) (pl_success_count s) (if 0 <? x then x else pl_step_time_interval s) s.
Definition record_model (model_name : string) (s : Pipeline) : Pipeline :=
  with_models (pl_working_models s ++ [model_name]) s.

(** The body of the [try] of one node. *)
Definition launch_node (fuel : nat) (node_body : J) : pl unit :=
  n ← (λ s, Some (read_node node_body (pl_step_time_interval s), s));
  match n with
  | None => mret tt
  | Some n =>
      _ ← modify (set_interval (nd_interval n));
      if negb (nd_enable n) then mret tt
      else
        _ ← modify (record_model (nd_model_name n));
        _ ← match launcher fuel (nd_model_name n) with
            | Some launch =>
                _ ← modify (with_call (Launching (nd_model_name n) (nd_args n)));
                _ ← launch (nd_args n);
                modify count_success
            | None => mret tt
            end;
        interval ← (λ s, Some (Ok (pl_step_time_interval s), s));
        sleep (Z.to_nat interval)
  end.

Fixpoint launch_nodes (fuel : nat) (nodes : list (string * J)) : pl unit :=
  match nodes with
  | [] => mret tt
  | (_, node_body) :: nodes =>
      _ ← modify count_node; _ ← caught (launch_node fuel node_body); launch_nodes fuel nodes
  end.

(** [config_data_["executes"]], when it is an object. *)
Definition executes (s : Pipeline) : option J := j_object_at (pl_config_data s) "executes".

Definition LaunchRoBot (fuel : nat) : pl unit := λ s,
  match executes s with
  | None => modify (with_running false) s
  | Some e => launch_nodes fuel (j_items e) (with_counts 0 0 3 s)
  end.

(** The list shown before: it reads two members of every node. *)
Definition show_node (node_body : J) : result unit :=
  _ ← j_value_string node_body "model_name" "未知模型";
  _ ← j_value_bool node_body "enable" true;
  Ok tt.
Definition show_nodes (nodes : list (string * J)) : result unit :=
  result_fold (λ x _, show_node x.2) nodes tt.

Definition Start (fuel : nat) : pl unit := λ s,
  if pl_is_running s then Some (Ok tt, s)
  else
    let s := with_running true s in
    match executes s with
    | None => Some (Ok tt, with_running false s)
    | Some e =>
        match (_ ← lift (show_nodes (j_items e)); LaunchRoBot fuel) s with
        | Some (Ok _, s) => Some (Ok tt, s)
        | Some (Err _, s) => Some (Ok tt, with_running false s)
        | None => None
        end
    end.

(** The leaves are logged; [fuel] is the depth of the value. *)
Fixpoint LogRecursive (fuel : nat) (v : J) : result unit :=
  match fuel with
  | O => Ok tt
  | S fuel =>
      if j_is_object v then result_fold (λ x _, LogRecursive fuel x.2) (j_items v) tt
      else _ ← j_dump v; Ok tt
  end.

Definition Init (config : J) : pl unit :=
  _ ← modify (with_config config);
  _ ← match j_find config "execute_node_number" with Some v => dump v | None => mret tt end;
  _ ← lift (LogRecursive (S (j_depth config)) config);
  modify (with_models []).

(** ** Stopping *)

Definition ModelIsRunning (model_name : string) (s : Pipeline) : bool :=
  existsb (String.eqb model_name) (pl_working_models s).

Fixpoint tell_all (l : list module_call) : pl unit :=
  match l with [] => mret tt | c :: l => _ ← tell c; tell_all l end.

Definition Stop : pl unit := λ s,
  if negb (pl_is_running s) then Some (Ok tt, s)
  else
    (_ ← modify (with_running false);
     _ ← tell_all [CommStop; LockStop; LightStop];
     _ ← (λ s, if ModelIsRunning "audio_server" s then tell AudioStop s else Some (Ok tt, s));
     tell_all [StreamStop; PodShutdown; FlyControlStop; SoftHealthStop; FastMqttDestroy; MqttStop;
               BrokerStop; StopAllEdges; HeartbeatStop; ApiStop]) s.

(** ** What the launchers do *)

(** The nodes handed to their launchers. *)
Definition launched (l : list module_call) : list (string * J) :=
  omap (λ c, match c with Launching n a => Some (n, a) | _ => None end) l.
Definition is_launching (c : module_call) : bool := match c with Launching _ _ => true | _ => false end.

(** The code only makes calls, none of them the launch of a node. *)
Definition only_calls {A} (m : pl A) : Prop := ∀ s r s', m s = Some (r, s') →
  ∃ l, s' = foldl (λ s c, with_call c s) s l ∧ Forall (λ c, is_launching c = false) l.

Lemma only_calls_ret {A} (r : result A) : only_calls (λ s, Some (r, s)).
Proof. intros s r' s' [= <- <-]. by exists []. Qed.

Lemma only_calls_read {A} (f : Pipeline → result A) : only_calls (λ s, Some (f s, s)).
Proof. intros s r' s' [= <- <-]. by exists []. Qed.

Lemma only_calls_ask c : is_launching c = false → only_calls (ask c).
Proof. intros Hc s r s' [= <- <-]. exists [c]. split; [done|]. by constructor. Qed.

Lemma only_calls_sleep n : only_calls (sleep n).
Proof. intros s r s' [= <- <-]. exists [Sleep n]. split; [done|]. by constructor. Qed.

Lemma only_calls_none {A} : only_calls (λ _, None : option (result A * Pipeline)).
Proof. by intros s r s'. Qed.

Lemma only_calls_bind {A B} (m : pl A) (f : A → pl B) :
  only_calls m → (∀ a, only_calls (f a)) → only_calls (m ≫= f).
Proof.
  intros Hm Hf s r s'. unfold mbind, pl_bind. destruct (m s) as [[[a|e] s1]|] eqn:Em; [..|done].
  - intros Ef. destruct (Hm _ _ _ Em) as (l1 & -> & H1), (Hf a _ _ _ Ef) as (l2 & -> & H2).
    exists (l1 ++ l2). by rewrite foldl_app, Forall_app.
  - intros [= <- <-]. by eapply Hm.
Qed.

Lemma only_calls_caught m : only_calls m → only_calls (caught m).
Proof.
  intros Hm s r s'. unfold caught. destruct (m s) as [[r1 s1]|] eqn:Em; [|done].
  intros [= <- <-]. by eapply Hm.
Qed.

Lemma only_calls_unless_in_use m : only_calls m → only_calls (unless_in_use m).
Proof.
  intros Hm s r s'. unfold unless_in_use. destruct (m s) as [[[a|e] s1]|] eqn:Em; [..|done].
  - intros [= <- <-]. by eapply Hm.
  - destruct (address_in_use e); intros [= <- <-]; by eapply Hm.
Qed.

(** Follows the code down to its calls. *)
Ltac calls_tac :=
  repeat match goal with
  | |- only_calls (_ ≫= _) => apply only_calls_bind; [|intros]
  | |- only_calls (caught _) => apply only_calls_caught
  | |- only_calls (unless_in_use _) => apply only_calls_unless_in_use
  | |- only_calls (ask _) => apply only_calls_ask; reflexivity
  | |- only_calls (sleep _) => apply only_calls_sleep
  | |- only_calls (mret _) => apply only_calls_ret
  | |- only_calls (lift _) => apply only_calls_ret
  | |- only_calls (λ s, Some (_, s)) => apply only_calls_read
  | |- only_calls (if_ _ _ _) => unfold if_
  | |- only_calls (tell _) => unfold tell
  | |- only_calls (dump _) => unfold dump
  | |- only_calls (init_then _ _) => unfold init_then
  | |- only_calls (let '_ := ?x in _) => destruct x
  | |- only_calls (match ?x with _ => _ end) => destruct x
  | |- only_calls ((λ _, _) _) => cbn beta
  end.

Lemma only_calls_await_port fuel port : only_calls (await_port fuel port).
Proof. induction fuel as [|fuel IH]; [apply only_calls_none|]. cbn [await_port]. calls_tac; exact IH. Qed.

Lemma only_calls_launch_edges l n : only_calls (launch_edges l n).
Proof.
  induction n as [|i n IH]; cbn [launch_edges]; [apply only_calls_ret|].
  unfold launch_edge. calls_tac. exact IH.
Qed.

Lemma only_calls_init_fly_control n args : only_calls (init_fly_control n args).
Proof. induction n as [|n IH]; cbn [init_fly_control]; calls_tac. exact IH. Qed.

Lemma only_calls_launcher fuel name launch args :
  launcher fuel name = Some launch → only_calls (launch args).
Proof.
  unfold launcher. cbn [assoc_find]. repeat (case_decide; [intros [= <-]|]); [..|done].
  all: unfold LaunchHeartbeat, LaunchMQTTComm, LaunchFastMQTT, LaunchComm, LaunchSystemHealthy, LaunchEdgeMonitor,
         LaunchRestAPI, LaunchEdge, LaunchMyMqttBroker, LaunchSoftHealthyMonitor, LaunchFlyControl, LaunchPodManager,
         LaunchMediamtxMonitorV2, LaunchFileCache, LaunchAudioServer, LaunchSearchLight, LaunchAirdropLock,
         Launch2536Comm, LaunchGasDetector; calls_tac;
       first [apply only_calls_await_port|apply only_calls_launch_edges|apply only_calls_init_fly_control|done].
Qed.

Lemma launched_quiet l : Forall (λ c, is_launching c = false) l → launched l = [].
Proof.
  unfold launched. induction l as [|c l IH]; intros Hl; [done|]. apply Forall_cons in Hl as [Hc Hl].
  cbn. destruct c; cbn in *; try done; by apply IH.
Qed.

Lemma calls_foldl l s :
  pl_calls (foldl (λ s c, with_call c s) s l) = pl_calls s ++ l ∧
  pl_config_data (foldl (λ s c, with_call c s) s l) = pl_config_data s ∧
  pl_is_running (foldl (λ s c, with_call c s) s l) = pl_is_running s ∧
  pl_working_models (foldl (λ s c, with_call c s) s l) = pl_working_models s ∧
  pl_total_nodes (foldl (λ s c, with_call c s) s l) = pl_total_nodes s ∧
  pl_success_count (foldl (λ s c, with_call c s) s l) = pl_success_count s ∧
  pl_step_time_interval (foldl (λ s c, with_call c s) s l) = pl_step_time_interval s.
Proof.
  revert s. induction l as [|c l IH]; intros s; [by rewrite app_nil_r|]. cbn [foldl].
  destruct (IH (with_call c s)) as (E1 & E2 & E3 & E4 & E5 & E6 & E7).
  rewrite E1, E2, E3, E4, E5, E6, E7. cbn. by rewrite <- app_assoc.
Qed.

(** ** Nothing waits for ever *)

(** After [n] calls the port is free, and no call finds the address in use. *)
Definition settled (n : nat) : Prop := ∀ tr, (n <= length tr)%nat →
  (∀ port, env tr (PortAvailable port) = Ok true) ∧ (∀ c e, env tr c = Err e → address_in_use e = false).

Definition returns {A} (m : pl A) : Prop := ∀ s, ∃ r s', m s = Some (r, s').

Lemma returns_read {A} (f : Pipeline → result A) : returns (λ s, Some (f s, s)).
Proof. intros s. eauto. Qed.
Lemma returns_change {A} (f : Pipeline → result A) (g : Pipeline → Pipeline) : returns (λ s, Some (f s, g s)).
Proof. intros s. eauto. Qed.

Lemma returns_bind {A B} (m : pl A) (f : A → pl B) : returns m → (∀ a, returns (f a)) → returns (m ≫= f).
Proof.
  intros Hm Hf s. unfold mbind, pl_bind. destruct (Hm s) as ([a|e] & s1 & ->); [apply Hf|eauto].
Qed.
Lemma returns_caught m : returns m → returns (caught m).
Proof. intros Hm s. unfold caught. destruct (Hm s) as (r & s1 & ->). eauto. Qed.

Ltac returns_tac :=
  repeat match goal with
  | |- returns (_ ≫= _) => apply returns_bind; [|intros]
  | |- returns (caught _) => apply returns_caught
  | |- returns (ask _) => apply returns_change
  | |- returns (sleep _) => apply returns_change
  | |- returns (modify _) => apply returns_change
  | |- returns (mret _) => apply returns_read
  | |- returns (lift _) => apply returns_read
  | |- returns (λ s, Some (_, s)) => apply returns_read
  | |- returns (if_ _ _ _) => unfold if_
  | |- returns (tell _) => unfold tell
  | |- returns (dump _) => unfold dump
  | |- returns (init_then _ _) => unfold init_then
  | |- returns (let '_ := ?x in _) => destruct x
  | |- returns (match ?x with _ => _ end) => destruct x
  end.

Lemma returns_await_port n fuel port s :
  settled n → (n < fuel + length (pl_calls s))%nat → (0 < fuel)%nat → ∃ r s', await_port fuel port s = Some (r, s').
Proof.
  intros Hset. revert s. induction fuel as [|fuel IH]; intros s Hf Hpos; [lia|]. cbn [await_port].
  unfold if_, tell, ask, unless_in_use, sleep, mret, pl_ret, mbind, pl_bind; cbn beta iota.
  assert (Hagain : ∀ s1, (length (pl_calls s) < length (pl_calls s1))%nat →
    (n <= length (pl_calls s))%nat ∨ ∃ r s', await_port fuel port (with_call (Sleep 5) s1) = Some (r, s')).
  { intros s1 Hl. destruct (decide (n <= length (pl_calls s))%nat) as [|Hn]; [by left|right].
    apply IH; cbn; rewrite ?length_app; cbn; lia. }
  destruct (env (pl_calls s) (PortAvailable port)) as [[]|e] eqn:Ep; [| |eauto].
  - cbn. destruct (env (pl_calls s ++ [PortAvailable port]) _) as [b|e] eqn:E1; cbn.
    + destruct (env ((pl_calls s ++ _) ++ _) _) as [b'|e] eqn:E2; cbn; [eauto|].
      destruct (address_in_use e) eqn:Ee; [|eauto].
      set (s1 := with_call (ApiStart port) _).
      destruct (Hagain s1) as [Hn|Hn]; [unfold s1; cbn; rewrite !length_app; cbn; lia| |exact Hn].
      destruct (Hset ((pl_calls s ++ [PortAvailable port]) ++ [ApiSettings (pl_config_data s)])) as [_ Hno];
        [rewrite !length_app; lia|]. rewrite (Hno _ _ E2) in Ee. done.
    + destruct (address_in_use e) eqn:Ee; [|eauto].
      set (s1 := with_call (ApiSettings _) _).
      destruct (Hagain s1) as [Hn|Hn]; [unfold s1; cbn; rewrite !length_app; cbn; lia| |exact Hn].
      destruct (Hset (pl_calls s ++ [PortAvailable port])) as [_ Hno];
        [rewrite !length_app; lia|]. rewrite (Hno _ _ E1) in Ee. done.
  - set (s1 := with_call (PortAvailable port) s).
    destruct (Hagain s1) as [Hn|Hn]; [unfold s1; cbn; rewrite !length_app; cbn; lia| |exact Hn].
    destruct (Hset (pl_calls s) Hn) as [Hyes _]. by rewrite Hyes in Ep.
Qed.

Lemma returns_launch_edges l n : returns (launch_edges l n).
Proof.
  induction n as [|i n IH]; cbn [launch_edges]; [apply returns_read|].
  unfold launch_edge. returns_tac. exact IH.
Qed.

Lemma returns_init_fly_control n args : returns (init_fly_control n args).
Proof. induction n as [|n IH]; cbn [init_fly_control]; returns_tac. exact IH. Qed.

Lemma returns_launcher n fuel name launch args :
  settled n → (n < fuel)%nat → launcher fuel name = Some launch → returns (launch args).
Proof.
  intros Hset Hf. unfold launcher. cbn [assoc_find]. repeat (case_decide; [intros [= <-]|]); [..|done].
  all: unfold LaunchHeartbeat, LaunchMQTTComm, LaunchFastMQTT, LaunchComm, LaunchSystemHealthy, LaunchEdgeMonitor,
         LaunchRestAPI, LaunchEdge, LaunchMyMqttBroker, LaunchSoftHealthyMonitor, LaunchFlyControl, LaunchPodManager,
         LaunchMediamtxMonitorV2, LaunchFileCache, LaunchAudioServer, LaunchSearchLight, LaunchAirdropLock,
         Launch2536Comm, LaunchGasDetector; returns_tac;
       try first [apply returns_launch_edges|apply returns_init_fly_control|done].
  intros s. apply (returns_await_port n); [done|lia..].
Qed.

(** ** Starting *)

(** What a node asks for: its model and arguments, when it can be read, is
    enabled and names a known model. *)
Definition node_launch (node_body : J) : option (string * J) :=
  match read_node node_body 3 with
  | Ok (Some n) =>
      if nd_enable n && bool_decide (is_Some (launcher 1 (nd_model_name n)))
      then Some (nd_model_name n, nd_args n) else None
  | _ => None
  end.

(** The name under which an enabled node is recorded as working. *)
Definition node_model (node_body : J) : option string :=
  match read_node node_body 3 with
  | Ok (Some n) => if nd_enable n then Some (nd_model_name n) else None
  | _ => None
  end.

(** A known model is recorded exactly when it is launched. *)
Lemma node_model_known name nodes :
  is_Some (launcher 1 name) →
  name ∈ omap node_model nodes ↔ name ∈ (omap node_launch nodes).*1.
Proof.
  intros Hk. rewrite list_elem_of_fmap. setoid_rewrite list_elem_of_omap. unfold node_model, node_launch. split.
  - intros (v & Hv & E). destruct (read_node v 3) as [[n|]|] eqn:Er; try done.
    destruct (nd_enable n) eqn:Ee; [|done]. injection E as <-.
    exists (nd_model_name n, nd_args n). split; [done|]. exists v. rewrite Er, Ee, bool_decide_eq_true_2 by done. done.
  - intros ([m a] & -> & v & Hv & E). exists v. split; [done|]. destruct (read_node v 3) as [[n|]|]; try done.
    destruct (nd_enable n); [|done]. cbn in E. destruct (bool_decide _); [|done]. by injection E as <- <-.
Qed.

(** The interval a node starts from decides neither its model nor its
    arguments. *)
Lemma read_node_interval v i j :
  match read_node v i, read_node v j with
  | Ok (Some a), Ok (Some b) =>
      nd_model_name a = nd_model_name b ∧ nd_enable a = nd_enable b ∧ nd_args a = nd_args b
  | Ok None, Ok None => True
  | Err _, Err _ => True
  | _, _ => False
  end.
Proof.
  unfold read_node. destruct (j_find v "model_name") as [x|]; [|done].
  destruct (j_get_string x) as [name|e]; [|done]. cbn.
  destruct (j_value_bool v "enable" true) as [en|e]; [|done]. cbn.
  destruct (j_value Ok v "model_args" (j_object [])) as [args|e]; [|done]. cbn.
  unfold j_value. destruct (j_view v); try done. destruct (j_find v "step_time_interval") as [y|]; [|done].
  by destruct (j_get_int y).
Qed.

Lemma launcher_known fuel fuel' name :
  is_Some (launcher fuel name) ↔ is_Some (launcher fuel' name).
Proof. unfold launcher. cbn [assoc_find]. repeat (case_decide; [done|]). done. Qed.

#[local] Arguments launcher : simpl never.

Lemma launched_app l l' : launched (l ++ l') = launched l ++ launched l'.
Proof. apply omap_app. Qed.

(** One node, whatever happens in it. *)
Lemma launch_node_spec n fuel v s :
  settled n → (n < fuel)%nat →
  ∃ s', caught (launch_node fuel v) s = Some (Ok tt, s') ∧
    launched (pl_calls s') = launched (pl_calls s) ++ option_list (node_launch v) ∧
    pl_working_models s' = pl_working_models s ++ option_list (node_model v) ∧
    pl_is_running s' = pl_is_running s ∧ pl_total_nodes s' = pl_total_nodes s ∧
    (pl_success_count s <= pl_success_count s' <= pl_success_count s + 1).
Proof.
  intros Hset Hf. unfold node_launch, node_model, caught, launch_node, mbind, pl_bind, modify; cbn beta iota.
  pose proof (read_node_interval v (pl_step_time_interval s) 3) as Hi.
  destruct (read_node v (pl_step_time_interval s)) as [[a|]|e], (read_node v 3) as [[b|]|e']; try done; cbn.
  2-3: eexists; split; [done|]; by rewrite !app_nil_r; repeat split; lia.
  destruct Hi as (<- & <- & <-). destruct (nd_enable a); cbn.
  2: { eexists; split; [done|]; cbn. by rewrite !app_nil_r; repeat split; lia. }
  destruct (launcher fuel (nd_model_name a)) as [launch|] eqn:El; cbn.
  - rewrite bool_decide_eq_true_2 by (apply (launcher_known fuel); eauto).
    match goal with |- context [launch (nd_args a) ?x] => set (s1 := x) end.
    destruct (returns_launcher n fuel _ _ (nd_args a) Hset Hf El s1) as (r & s2 & Er). rewrite Er.
    destruct (only_calls_launcher _ _ _ (nd_args a) El _ _ _ Er) as (l & -> & Hl).
    destruct (calls_foldl l s1) as (E1 & _ & E3 & E4 & E5 & E6 & _).
    assert (Hc : launched (pl_calls s1 ++ l) = launched (pl_calls s) ++ [(nd_model_name a, nd_args a)]).
    { rewrite launched_app, (launched_quiet l), app_nil_r by done. unfold s1. cbn. by rewrite launched_app. }
    destruct r as [x|e]; cbn.
    + eexists. split; [done|]. cbn. rewrite E1, E3, E4, E5, E6, launched_app, Hc. cbn. rewrite app_nil_r.
      repeat split; lia.
    + eexists. split; [done|]. cbn. rewrite E1, E3, E4, E5, E6, Hc. cbn. repeat split; lia.
  - rewrite bool_decide_eq_false_2; [|intros Hk%(launcher_known _ fuel); rewrite El in Hk; by destruct Hk].
    eexists. split; [done|]. cbn. rewrite launched_app. cbn. rewrite app_nil_r. repeat split; lia.
Qed.

Lemma launch_nodes_spec n fuel nodes s :
  settled n → (n < fuel)%nat →
  ∃ s', launch_nodes fuel nodes s = Some (Ok tt, s') ∧
    launched (pl_calls s') = launched (pl_calls s) ++ omap (λ x, node_launch x.2) nodes ∧
    pl_working_models s' = pl_working_models s ++ omap (λ x, node_model x.2) nodes ∧
    pl_is_running s' = pl_is_running s ∧
    pl_total_nodes s' = pl_total_nodes s + Z.of_nat (length nodes) ∧
    (pl_success_count s <= pl_success_count s' <= pl_success_count s + Z.of_nat (length nodes)).
Proof.
  intros Hset Hf. revert s. induction nodes as [|[k v] nodes IH]; intros s.
  { exists s. cbn. rewrite !app_nil_r. repeat split; lia. }
  cbn [launch_nodes]. unfold mbind, pl_bind, modify; cbn beta iota.
  destruct (launch_node_spec n fuel v (count_node s) Hset Hf) as (s1 & E1 & L1 & M1 & R1 & T1 & S1).
  rewrite E1.
  destruct (IH s1) as (s2 & E2 & L2 & M2 & R2 & T2 & S2). rewrite E2. exists s2. split; [done|].
  rewrite L2, L1, M2, M1, R2, R1, T2, T1. cbn [count_node with_counts pl_calls pl_working_models pl_is_running pl_total_nodes pl_success_count] in *.
  rewrite <- !app_assoc. split; [|split; [|split; [done|cbn [length]; lia]]]; f_equal; cbn.
  - by destruct (node_launch v).
  - by destruct (node_model v).
Qed.

Lemma Start_spec n fuel s e :
  settled n → (n < fuel)%nat →
  pl_is_running s = false → executes s = Some e → show_nodes (j_items e) = Ok tt →
  ∃ s', Start fuel s = Some (Ok tt, s') ∧ pl_is_running s' = true ∧
    launched (pl_calls s') = launched (pl_calls s) ++ omap (λ x, node_launch x.2) (j_items e) ∧
    pl_working_models s' = pl_working_models s ++ omap (λ x, node_model x.2) (j_items e) ∧
    pl_total_nodes s' = Z.of_nat (length (j_items e)) ∧
    0 <= pl_success_count s' <= pl_total_nodes s'.
Proof.
  intros Hset Hf Hr He Hs. unfold Start. rewrite Hr.
  assert (He' : executes (with_running true s) = Some e) by exact He. rewrite He'.
  unfold mbind, pl_bind, lift. rewrite Hs. unfold LaunchRoBot. rewrite He'.
  destruct (launch_nodes_spec n fuel (j_items e) (with_counts 0 0 3 (with_running true s)) Hset Hf)
    as (s' & E & L & M & R & T & S). rewrite E. exists s'. split; [done|].
  cbn [with_counts with_running pl_calls pl_working_models pl_is_running pl_total_nodes pl_success_count] in *.
  rewrite L, M, R, T. repeat split; lia.
Qed.

(** A start with a readable list always returns and hands every enabled
    node with a known model to its launcher exactly once, in the order of the
    keys and with the node's own arguments, whatever the modules before it
    answered or threw; the pipeline then runs. *)
Theorem start_launches_all n fuel s e :
  settled n → (n < fuel)%nat →
  pl_is_running s = false → executes s = Some e → show_nodes (j_items e) = Ok tt →
  ∃ s', Start fuel s = Some (Ok tt, s') ∧ pl_is_running s' = true ∧
    launched (pl_calls s') = launched (pl_calls s) ++ omap (λ x, node_launch x.2) (j_items e) ∧
    pl_total_nodes s' = Z.of_nat (length (j_items e)) ∧
    0 <= pl_success_count s' <= pl_total_nodes s'.
Proof.
  intros Hset Hf Hr He Hs. destruct (Start_spec n fuel s e Hset Hf Hr He Hs) as (s' & E & R & L & _ & T).
  by exists s'.
Qed.

(** A start that is refused, finds no list, or finds a node whose name is
    no string, whose switch is no boolean or that is no object, calls nothing;
    one such node keeps all the others from starting. *)
Theorem start_all_or_nothing fuel s :
  pl_is_running s = true ∨ executes s = None ∨
    (∃ e x, executes s = Some e ∧ x ∈ j_items e ∧ is_ok (show_node x.2) = false) →
  ∃ s', Start fuel s = Some (Ok tt, s') ∧ pl_calls s' = pl_calls s ∧
    pl_is_running s' = pl_is_running s ∧ pl_working_models s' = pl_working_models s.
Proof.
  unfold Start. intros Hc. destruct (pl_is_running s) eqn:Hr; [eauto|].
  change (executes (with_running true s)) with (executes s).
  destruct Hc as [?|[->|(e & x & -> & Hx & Hbad)]]; [done|by eexists|].
  assert (Hs : ∃ er, show_nodes (j_items e) = Err er).
  { unfold show_nodes. revert Hx. induction (j_items e) as [|y l IH]; intros Hx; [by apply elem_of_nil in Hx|].
    cbn [result_fold]. destruct (show_node y.2) as [[]|er] eqn:Ey; [|by eexists].
    apply elem_of_cons in Hx as [->|Hx]; [by rewrite Ey in Hbad|]. exact (IH Hx). }
  destruct Hs as (er & Hs). unfold mbind, pl_bind, lift. rewrite Hs. by eexists.
Qed.

(** ** Launchers with more to them *)

(** The calls of [n] attempts, three seconds apart. *)
Fixpoint attempts (n : nat) (args : J) : list module_call :=
  match n with
  | O => []
  | S O => [FlyControlInit args]
  | S n => FlyControlInit args :: Sleep 3 :: attempts n args
  end.

Lemma init_fly_control_spec n args s :
  (∀ tr, is_ok (env tr (FlyControlInit args)) = true) → (0 < n)%nat →
  ∃ k b s', init_fly_control n args s = Some (Ok b, s') ∧ (1 <= k <= n)%nat ∧ (b = false → k = n) ∧
    s' = foldl (λ s c, with_call c s) s (attempts k args).
Proof.
  intros Hok. revert s. induction n as [|n IH]; intros s Hn; [lia|]. cbn [init_fly_control].
  unfold if_, ask, sleep, mret, pl_ret, mbind, pl_bind; cbn beta iota.
  specialize (Hok (pl_calls s)) as Hs. destruct (env (pl_calls s) _) as [[]|e]; [| |done].
  - exists 1%nat, true. eexists. split; [done|]. repeat split; lia || done.
  - destruct n as [|n].
    + exists 1%nat, false. eexists. split; [done|]. repeat split; lia || done.
    + destruct (IH (with_call (Sleep 3) (with_call (FlyControlInit args) s)) ltac:(lia)) as (k & b & s' & E & Hk & Hb & ->).
      exists (S k), b. eexists. split; [exact E|]. split; [lia|]. split; [intros ->; by rewrite Hb|].
      destruct k as [|k]; [lia|]. done.
Qed.

(** The flight control gets up to ten attempts, three seconds apart, and
    is started exactly when one of them succeeds. *)
Theorem fly_control_attempts args s text :
  j_dump args = Ok text → (∀ tr, is_ok (env tr (FlyControlInit args)) = true) →
  ∃ k (b : bool) s', LaunchFlyControl args s = Some (Ok tt, s') ∧ (1 <= k <= 10)%nat ∧ (b = false → k = 10%nat) ∧
    pl_calls s' = pl_calls s ++ attempts k args ++ (if b then [FlyControlStart] else []).
Proof.
  intros Hd Hok. destruct (init_fly_control_spec kMaxRetries args s Hok ltac:(unfold kMaxRetries; lia)) as (k & b & s1 & E & Hk & Hb & ->).
  unfold LaunchFlyControl, dump, lift, caught, if_, tell, ask, mret, pl_ret, mbind, pl_bind. rewrite Hd, E. cbn.
  destruct (calls_foldl (attempts k args) s) as (Ec & _).
  exists k, b. destruct b.
  - destruct (env _ FlyControlStart); eexists; (split; [done|]); (split; [exact Hk|split; [done|]]); cbn;
      by rewrite Ec, <- app_assoc.
  - eexists. split; [done|]. split; [exact Hk|]. split; [exact Hb|]. by rewrite Ec, app_nil_r.
Qed.

(** ** Stopping *)

Lemma tell_all_spec l s :
  (∀ tr c, c ∈ l → is_ok (env tr c) = true) →
  ∃ s', tell_all l s = Some (Ok tt, s') ∧ pl_calls s' = pl_calls s ++ l ∧
    pl_is_running s' = pl_is_running s ∧ pl_working_models s' = pl_working_models s.
Proof.
  intros Hok. revert s. induction l as [|c l IH]; intros s; [exists s; by rewrite app_nil_r|]. cbn [tell_all].
  unfold tell, ask, mret, pl_ret, mbind, pl_bind. pose proof (Hok (pl_calls s) c ltac:(by constructor)) as Hc.
  destruct (env (pl_calls s) c) as [b|e]; [|done].
  destruct (IH ltac:(intros tr c' Hin; apply Hok; by constructor) (with_call c s)) as (s' & E & Ec & Er & Em). exists s'. rewrite E, Ec, Er, Em. cbn.
  by rewrite <- app_assoc.
Qed.

Definition stop_calls (audio : bool) : list module_call :=
  [CommStop; LockStop; LightStop] ++ (if audio then [AudioStop] else []) ++
  [StreamStop; PodShutdown; FlyControlStop; SoftHealthStop; FastMqttDestroy; MqttStop; BrokerStop;
   StopAllEdges; HeartbeatStop; ApiStop].

#[local] Ltac some_calls Hok :=
  intros ? ? ?; apply Hok; unfold stop_calls; cbn [app]; rewrite !elem_of_cons in *; tauto.

Lemma Stop_spec s :
  (∀ tr c, c ∈ stop_calls true → is_ok (env tr c) = true) → pl_is_running s = true →
  ∃ s', Stop s = Some (Ok tt, s') ∧ pl_is_running s' = false ∧
    pl_calls s' = pl_calls s ++ stop_calls (ModelIsRunning "audio_server" s) ∧
    Stop s' = Some (Ok tt, s').
Proof.
  intros Hok Hr.
  destruct (tell_all_spec [CommStop; LockStop; LightStop] (with_running false s)) as (s1 & E1 & C1 & R1 & M1); [by some_calls Hok|].
  assert (Haudio : ∃ s2, (if ModelIsRunning "audio_server" s1 then tell AudioStop s1 else Some (Ok tt, s1)) = Some (Ok tt, s2) ∧
            pl_calls s2 = pl_calls s1 ++ (if ModelIsRunning "audio_server" s then [AudioStop] else []) ∧
            pl_is_running s2 = pl_is_running s1).
  { unfold ModelIsRunning. rewrite M1. cbn [pl_working_models with_running]. destruct (existsb _ _).
    - destruct (tell_all_spec [AudioStop] s1) as (s2 & E2 & C2 & R2 & _); [by some_calls Hok|]. exists s2. split; [|done].
      rewrite <- E2. cbn. unfold tell, ask, mret, pl_ret, mbind, pl_bind. by destruct (env _ _).
    - exists s1. by rewrite app_nil_r. }
  destruct Haudio as (s2 & E2 & C2 & R2).
  destruct (tell_all_spec [StreamStop; PodShutdown; FlyControlStop; SoftHealthStop; FastMqttDestroy; MqttStop;
              BrokerStop; StopAllEdges; HeartbeatStop; ApiStop] s2) as (s3 & E3 & C3 & R3 & _); [by some_calls Hok|].
  exists s3. rewrite R1 in R2. rewrite R2 in R3. split; [|split; [exact R3|split]].
  - unfold Stop. rewrite Hr. unfold modify, mbind, pl_bind. cbn [negb]. by rewrite E1, E2, E3.
  - rewrite C3, C2, C1. unfold stop_calls. cbn [pl_calls with_running]. by rewrite <- !app_assoc.
  - unfold Stop. by rewrite R3.
Qed.

(** Stopping a running pipeline stops every module once, communication
    before its transport and the API last, audio only when its node was started;
    stopping again does nothing. *)
Theorem stop_once s :
  (∀ tr c, c ∈ stop_calls true → is_ok (env tr c) = true) → pl_is_running s = true →
  ∃ s', Stop s = Some (Ok tt, s') ∧ pl_is_running s' = false ∧
    pl_calls s' = pl_calls s ++ stop_calls (ModelIsRunning "audio_server" s) ∧
    Stop s' = Some (Ok tt, s').
Proof. exact (Stop_spec s). Qed.

(** ** The arguments of an edge *)

Context `{!JsonLaws J, !JsonItemsLaws J}.

(** Whatever the configuration gives for an edge, it is created with a list of
    devices: its own, untouched, or one named and typed after the edge, and then
    with an [edge_id]. *)
Theorem edge_args_devices l i edge_type args :
  edge_args l i = Ok (edge_type, args) →
  has_devices args = true ∧
  (j_elems l !! i = Some args ∨
   (∃ device_id dev_type, j_find args "devices" = Some (j_array [j_object [("device_id", j_string device_id); ("type", j_string dev_type)]])) ∧
   is_Some (j_find args "edge_id")).
Proof.
  unfold edge_args. intros (args0 & H1 & H2)%bind_Ok. apply bind_Ok in H2 as (ty & H2 & H3).
  destruct (has_devices args0) eqn:Ed.
  - injection H3 as <- <-. split; [done|]. left.
    destruct (i <? j_size l)%nat eqn:El.
    + unfold j_at, j_size in *. destruct (j_view l); try done. injection H1 as <-.
      apply Nat.ltb_lt in El. apply lookup_lt_is_Some in El as [x Hx]. by rewrite Hx.
    + injection H1 as <-. unfold has_devices in Ed. by rewrite j_find_object in Ed.
  - apply bind_Ok in H3 as (id & H3 & H4). apply bind_Ok in H4 as (dt & H4 & H5).
    apply bind_Ok in H5 as (wd & H5 & H6).
    destruct (j_set_spec _ _ _ _ H5) as (Hv & Hf & _).
    assert (Hdev : ∀ v, j_find v "devices" = Some (j_array [j_object [("device_id", j_string id); ("type", j_string dt)]]) →
              has_devices v = true) by (intros v Hd; unfold has_devices; by rewrite Hd, j_view_array).
    destruct (j_find wd "edge_id") as [x|] eqn:Ee.
    + injection H6 as <- <-. split; [by apply Hdev|]. right. split; [by exists id, dt|]. by rewrite Ee.
    + apply bind_Ok in H6 as (name & _ & H7). apply bind_Ok in H7 as (a & H7 & [= <- <-]).
      destruct (j_set_spec _ _ _ _ H7) as (_ & Hid & Hkeep).
      assert (Hf' : j_find a "devices" = Some (j_array [j_object [("device_id", j_string id); ("type", j_string dt)]]))
        by (rewrite Hkeep by done; exact Hf).
      split; [by apply Hdev|]. right. split; [by exists id, dt|]. by rewrite Hid.
Qed.
End pipeline.

(** ** Concrete runs *)

Section runs.
Let env (_ : list (module_call (J := jvalue))) (_ : module_call (J := jvalue)) : result bool := Ok true.
Let no_error (_ : exn) : bool := false.
Definition node_of (name : string) (enable : bool) : jvalue :=
  VObj [("model_name", VStr name); ("enable", VBool enable)].
Definition with_executes (l : list (string * jvalue)) : Pipeline (J := jvalue) :=
  with_config (VObj [("executes", VObj l)]) (Pipeline_new VNull).

Lemma start_launches_all_witness :
  ∃ s', Start env no_error 1 (with_executes [("10", node_of "pod" true); ("2", node_of "edge" false);
                                             ("3", node_of "comm" true)]) = Some (Ok tt, s') ∧
        launched (pl_calls s') = [("pod", VObj []); ("comm", VObj [])].
Proof.
  assert (Hset : settled (J := jvalue) env no_error 0) by (intros tr _; by split).
  destruct (start_launches_all env no_error 0 1 (with_executes [("10", node_of "pod" true); ("2", node_of "edge" false);
              ("3", node_of "comm" true)]) _ Hset ltac:(lia) eq_refl eq_refl eq_refl) as (s' & E & _ & L & _).
  exists s'. split; [exact E|]. rewrite L. reflexivity.
Defined.

Lemma start_all_or_nothing_witness :
  ∃ s', Start env no_error 1 (with_executes [("0", node_of "pod" true); ("1", VObj [("model_name", VNum 7)])]) =
        Some (Ok tt, s') ∧ pl_calls s' = [] ∧ pl_is_running s' = false.
Proof.
  destruct (start_all_or_nothing env no_error 1
              (with_executes [("0", node_of "pod" true); ("1", VObj [("model_name", VNum 7)])])) as (s' & E & C & R & _).
  - right. right. eexists _, ("1", VObj [("model_name", VNum 7)]). split; [reflexivity|].
    split; [right; left|reflexivity].
  - exists s'. split; [exact E|]. by rewrite C, R.
Defined.

Lemma fly_control_attempts_witness :
  ∃ s', LaunchFlyControl (λ _ c, Ok (match c with FlyControlInit _ => false | _ => true end)) (VObj []) (with_executes []) =
        Some (Ok tt, s') ∧ pl_calls s' = attempts 10 (VObj []).
Proof.
  assert (Hd : j_dump (VObj []) = Ok "") by reflexivity.
  destruct (fly_control_attempts (λ _ c, Ok (match c with FlyControlInit _ => false | _ => true end)) (VObj [])
              (with_executes []) _ Hd ltac:(done)) as (k & b & s' & E & Hk & Hb & C).
  exists s'. split; [exact E|]. vm_compute in E. injection E as <-. reflexivity.
Defined.

Lemma stop_once_witness :
  ∃ s', Stop env (with_running true (with_executes [])) = Some (Ok tt, s') ∧ length (pl_calls s') = 13%nat.
Proof.
  destruct (stop_once env (with_running true (with_executes [])) ltac:(done) eq_refl) as (s' & E & _ & C & _).
  exists s'. split; [exact E|]. rewrite C. reflexivity.
Defined.

Lemma edge_args_devices_witness :
  ∃ a, edge_args (VArr [VObj [("edge_type", VStr "UUV"); ("name", VStr "uuv_001")]]) 0 = Ok ("UUV", a) ∧ has_devices a = true.
Proof.
  eexists. split; [reflexivity|].
  by apply (edge_args_devices (VArr [VObj [("edge_type", VStr "UUV"); ("name", VStr "uuv_001")]]) 0 "UUV").
Defined.

(** ** Findings *)

(** The keys of the list are compared as text: of the sixteen nodes of
    config.json, numbered from 0, those from 10 to 15 start before 2. *)
Example tenth_before_second : String.le "10" "2" ∧ String.le "15" "2" ∧ ¬ String.le "2" "10".
Proof. split; [by vm_compute|]. split; [by vm_compute|]. by vm_compute. Qed.

(** A module that reports failure counts as started, and so does one that
    throws out of its launcher as far as [ModelIsRunning] goes. *)
Example failure_counts_as_success :
  ∃ s', Start (λ _ c, Ok (match c with GasInit _ => false | _ => true end)) no_error 1
          (with_executes [("0", node_of "gas_detector" true); ("1", node_of "no_such_model" true)]) = Some (Ok tt, s') ∧
        pl_success_count s' = 1 ∧ ModelIsRunning "gas_detector" s' = true ∧ ModelIsRunning "no_such_model" s' = true.
Proof. eexists. split; [reflexivity|]. by vm_compute. Qed.

(** The node "fast_mqtt" starts the client with a fixed configuration; its
    arguments are not looked at. *)
Example fast_mqtt_arguments_unused (args args' : jvalue) s :
  LaunchFastMQTT env args s = LaunchFastMQTT env args' s.
Proof. reflexivity. Qed.

(** The API is started once more after the loop that started it. *)
Example api_started_twice :
  ∃ s', LaunchRestAPI env no_error 1 (VObj []) (with_executes []) = Some (Ok tt, s') ∧
        pl_calls s' = [PortAvailable 8000; ApiSettings (VObj [("executes", VObj [])]); ApiStart 8000; ApiStart 8000].
Proof. eexists. split; reflexivity. Qed.
End runs.
