(* ===== verification/MyConfig.v ===== *)
(** * Configuration files

    Model of my_config: the INI file (MyINIConfig.cpp), the JSON file read whole
    (MyJSONConfigV1.cpp), the JSON index whose nodes are files of their own
    (MyJSONConfigV2.cpp), and the JSON in use (MyJSONConfig.cpp).  The contents of
    the files and the parser of JSON are parameters. *)

From S2P Require Import Prelude Text Json MyCache.
From Stdlib Require Import Ascii String.
From stdpp Require Import gmap strings sorting.

(** ** The INI file *)

Fixpoint trim_back (s : string) : string :=
  match s with
  | EmptyString => ""
  | String c s =>
      match trim_back s with
      | EmptyString => if isspace c then "" else String c ""
      | t => String c t
      end
  end.
Definition TrimCopy (value : string) : string := trim_back (skip_space value).

Definition newline : ascii := ascii_of_nat 10.

(** The lines [std::getline] returns. *)
Fixpoint getlines (s : string) : list string :=
  match s with
  | EmptyString => []
  | String c s =>
      if Ascii.eqb c newline then "" :: getlines s
      else match getlines s with
           | [] => [String c ""]
           | l :: ls => String c l :: ls
           end
  end.

(** A line with something to say: key and value. *)
Definition ini_entry (line : string) : option (string * string) :=
  let trimmed_line := TrimCopy line in
  match trimmed_line with
  | EmptyString => None
  | String c _ =>
      if Ascii.eqb c "#" || Ascii.eqb c ";" then None
      else match find_char "=" 0 trimmed_line with
           | None => None
           | Some pos => Some (TrimCopy (substr 0 pos trimmed_line), TrimCopy (substr_from (S pos) trimmed_line))
           end
  end.

Definition ini_insert (kv : gmap string string) (line : string) : gmap string string :=
  match ini_entry line with Some (k, v) => <[k := v]> kv | None => kv end.
Definition ini_load (content : string) : gmap string string := foldl ini_insert ∅ (getlines content).

(** [Load] of a file that cannot be opened leaves the table empty. *)
Definition ini_Load (content : option string) : gmap string string :=
  match content with Some text => ini_load text | None => ∅ end.

Section ini.
Implicit Types (kv : gmap string string) (key def : string).

(** [out], and whether the key was there. *)
Definition GetString key def kv : string * bool :=
  match kv !! key with Some v => (v, true) | None => (def, false) end.
Definition GetInt key (def : Z) kv : result (Z * bool) :=
  match kv !! key with Some v => n ← stoi v; Ok (n, true) | None => Ok (def, false) end.
Definition GetBool key (def : bool) kv : bool * bool :=
  match kv !! key with Some v => (String.eqb v "true" || String.eqb v "1", true) | None => (def, false) end.
Definition HasKey key kv : bool := match kv !! key with Some _ => true | None => false end.

Definition kv_le (x y : string * string) : Prop := String.le x.1 y.1.
#[export] Instance kv_le_dec x y : Decision (kv_le x y).
Proof. apply _. Defined.
Definition ini_line (x : string * string) : string := x.1 +:+ "=" +:+ x.2 +:+ String newline "".
Definition ShowConfig kv : string :=
  foldr (λ x s, ini_line x +:+ s) "" (merge_sort kv_le (map_to_list kv)).
End ini.

(** ** JSON *)

Section json.
Context {J : Type} `{JsonOps J} `{!JsonItems J}.
(** The text of a file that can be opened, the parser, what a failed parse leaves
    in the value read into, and [std::filesystem::absolute]. *)
Context (read : string → option string) (json_parse : string → option J) (json_partial : string → J).
Context (absolute : string → string) (null : J).

(** [ifs >> config_] inside [try ... catch (...)]. *)
Definition v1_Load (path : string) : J :=
  match read path with
  | None => null
  | Some text => match json_parse text with Some v => v | None => json_partial text end
  end.

(** The node that stands for one that is not read. *)
Definition disabled_node (config_name : string) : J :=
  j_object [("model_name", j_string config_name); ("model_args", j_object []); ("enable", j_bool false)].

(** One node of the index; [None] is [return false] or an exception. *)
Definition v2_node (config_directory : string) (x : string * J) : option J :=
  if negb (j_is_object x.2) then None
  else match j_value_bool x.2 "read_config" true with
       | Err _ => None
       | Ok read_config =>
           match j_value_string x.2 "config_name" x.1 with
           | Err _ => None
           | Ok config_name =>
               if negb read_config then Some (disabled_node config_name)
               else match j_value_string x.2 "config_path" "" with
                    | Err _ | Ok EmptyString => None
                    | Ok config_path =>
                        text ← read (path_join config_directory config_path);
                        v ← json_parse text;
                        if j_is_object v then Some v else None
                    end
           end
       end.

Fixpoint v2_nodes (config_directory : string) (l : list (string * J)) : option (list (string * J)) :=
  match l with
  | [] => Some []
  | x :: l =>
      v ← v2_node config_directory x;
      rest ← v2_nodes config_directory l;
      Some ((x.1, v) :: rest)
  end.

Definition result_option {A} (r : result A) : option A := match r with Ok a => Some a | Err _ => None end.

Definition v2_Load (path : string) : option J :=
  let index_path := absolute path in
  text ← read index_path;
  loaded_config ← json_parse text;
  if negb (j_is_object loaded_config) then None
  else
    pipeline ← j_object_at loaded_config "pipeline";
    executes ← j_object_at pipeline "executes";
    nodes ← v2_nodes (parent_path index_path) (j_items executes);
    pipeline ← result_option (j_set pipeline "executes" (j_object nodes));
    result_option (j_set loaded_config "pipeline" pipeline).

(** [Get] of the aggregated index. *)
Definition v2_Get (config : J) (key : string) (def : J) : J * bool :=
  match j_view config with
  | JObject => match j_find config key with Some v => (v, true) | None => (def, false) end
  | _ => (def, false)
  end.

(** [Get] of the JSON in use: [Undef] is [config_\[key\]] of a constant object
    without the key. *)
Definition json_Get (config : J) (key : string) (def : J) : outcome (J * bool) :=
  match j_view config with
  | JNull => Ret (def, false)
  | JObject => match j_find config key with Some v => Ret (v, true) | None => Undef end
  | _ => Ret (def, false)
  end.

(** ** The instances

    [None]: not initialised.  [Init] of an initialised instance does nothing,
    [v2_Init] that fails leaves it uninitialised. *)

Record Configs := {
  cfg_ini : option (gmap string string);
  cfg_v1 : option J;
  cfg_v2 : option J;
  cfg_current : option J;
  (** whether the YAML instance exists *)
  cfg_yaml : bool
}.
Definition Configs_new : Configs :=
  {| cfg_ini := None; cfg_v1 := None; cfg_v2 := None; cfg_current := None; cfg_yaml := false |}.

Definition ini_Init (path : string) (c : Configs) : Configs :=
  {| cfg_ini := Some (default (ini_Load (read path)) (cfg_ini c));
     cfg_v1 := cfg_v1 c; cfg_v2 := cfg_v2 c; cfg_current := cfg_current c; cfg_yaml := cfg_yaml c |}.
(** [GetInstance] without [Init] is an empty table. *)
Definition ini_GetInstance (c : Configs) : gmap string string := default ∅ (cfg_ini c).

Definition v1_Init (path : string) (c : Configs) : Configs :=
  {| cfg_ini := cfg_ini c; cfg_v1 := Some (default (v1_Load path) (cfg_v1 c));
     cfg_v2 := cfg_v2 c; cfg_current := cfg_current c; cfg_yaml := cfg_yaml c |}.

Definition v2_Init (path : string) (c : Configs) : bool * Configs :=
  match cfg_v2 c with
  | Some _ => (true, c)
  | None =>
      match v2_Load path with
      | None => (false, c)
      | Some v => (true, {| cfg_ini := cfg_ini c; cfg_v1 := cfg_v1 c; cfg_v2 := Some v;
                            cfg_current := cfg_current c; cfg_yaml := cfg_yaml c |})
      end
  end.

(** [MyJSONConfig::Init], whose value [SetConfig] then replaces. *)
Definition SetConfig (v : J) (c : Configs) : Configs :=
  {| cfg_ini := cfg_ini c; cfg_v1 := cfg_v1 c; cfg_v2 := cfg_v2 c; cfg_current := Some v;
     cfg_yaml := cfg_yaml c |}.
(** [MyYAMLConfig::Init]: what [Load] returns is not looked at. *)
Definition yaml_Init (c : Configs) : Configs :=
  {| cfg_ini := cfg_ini c; cfg_v1 := cfg_v1 c; cfg_v2 := cfg_v2 c; cfg_current := cfg_current c;
     cfg_yaml := true |}.
End json.
Arguments Configs : clear implicits.

(** ** The INI file read back *)

(** No space at the front, and none at the back. *)
Definition front_ok (s : string) : Prop := skip_space s = s.
Definition back_ok (s : string) : Prop := trim_back s = s.
Definition lacks (c : ascii) (s : string) : Prop := all_chars (λ d, negb (Ascii.eqb c d)) s = true.

Lemma lacks_app c s t : lacks c (s +:+ t) ↔ lacks c s ∧ lacks c t.
Proof. unfold lacks. rewrite all_chars_app. apply andb_true_iff. Qed.

Lemma front_ok_skip s : front_ok (skip_space s).
Proof.
  unfold front_ok. induction s as [|c s IH]; [done|]. cbn. destruct (isspace c) eqn:Ec; [exact IH|].
  cbn. by rewrite Ec.
Qed.

Lemma front_ok_cons c s : front_ok (String c s) ↔ isspace c = false.
Proof.
  unfold front_ok. cbn. destruct (isspace c) eqn:Ec; [|done]. split; [|done]. intros E. exfalso.
  assert (Hl : ∀ t, (String.length (skip_space t) <= String.length t)%nat).
  { induction t as [|d t IH]; cbn; [lia|]. destruct (isspace d); cbn; lia. }
  specialize (Hl s). rewrite E in Hl. cbn in Hl. lia.
Qed.

Lemma trim_back_cons c s : isspace c = false → trim_back (String c s) = String c (trim_back s).
Proof. intros Hc. cbn. destruct (trim_back s); [by rewrite Hc|done]. Qed.

Lemma trim_back_app s t : trim_back t ≠ "" → trim_back (s +:+ t) = s +:+ trim_back t.
Proof.
  intros Ht. induction s as [|c s IH]; [by rewrite !string_app_nil|].
  rewrite !string_app_cons. cbn. rewrite IH.
  destruct (s +:+ trim_back t) eqn:E; [|done]. exfalso. destruct s; [rewrite string_app_nil in E; done|done].
Qed.

Lemma back_ok_trim s : back_ok (trim_back s).
Proof.
  unfold back_ok. induction s as [|c s IH]; [done|]. cbn.
  destruct (trim_back s) as [|d t] eqn:E; [destruct (isspace c) eqn:Ec; cbn; by rewrite ?Ec|].
  cbn in *. by rewrite IH.
Qed.

Lemma front_ok_trim_back s : front_ok s → front_ok (trim_back s).
Proof.
  destruct s as [|c s]; [done|]. rewrite front_ok_cons. intros Hc. rewrite trim_back_cons by done.
  by apply front_ok_cons.
Qed.

Lemma TrimCopy_ok s : front_ok (TrimCopy s) ∧ back_ok (TrimCopy s).
Proof. split; [apply front_ok_trim_back, front_ok_skip|apply back_ok_trim]. Qed.

Lemma TrimCopy_id s : front_ok s → back_ok s → TrimCopy s = s.
Proof. unfold TrimCopy. by intros -> ->. Qed.

Lemma all_chars_trim p s : all_chars p s = true → all_chars p (TrimCopy s) = true.
Proof.
  assert (Hskip : all_chars p s = true → all_chars p (skip_space s) = true).
  { induction s as [|c s IH]; [done|]. cbn. intros [Hc Hs]%andb_true_iff.
    destruct (isspace c); [by apply IH|]. cbn. by rewrite Hc, Hs. }
  intros Hs%Hskip. unfold TrimCopy. revert Hs. generalize (skip_space s). clear.
  induction s as [|c s IH]; [done|]. cbn. intros [Hc Hs]%andb_true_iff. specialize (IH Hs).
  destruct (trim_back s); [destruct (isspace c); cbn; by rewrite ?Hc|]. cbn in *. by rewrite Hc.
Qed.

(** What a line can set. *)
Record ini_pair_ok (x : string * string) : Prop := {
  ip_key_front : front_ok x.1;
  ip_key_back : back_ok x.1;
  ip_key_equals : lacks "=" x.1;
  ip_key_line : lacks newline x.1;
  ip_key_comment : match x.1 with String c _ => Ascii.eqb c "#" || Ascii.eqb c ";" = false | _ => True end;
  ip_value_front : front_ok x.2;
  ip_value_back : back_ok x.2;
  ip_value_line : lacks newline x.2
}.

Lemma ini_entry_ok line x : lacks newline line → ini_entry line = Some x → ini_pair_ok x.
Proof.
  intros Hn. unfold ini_entry. destruct (TrimCopy_ok line) as [Hf Hb].
  pose proof (all_chars_trim _ _ Hn) as Hl. destruct (TrimCopy line) as [|c s] eqn:Et; [done|].
  destruct (Ascii.eqb c "#" || Ascii.eqb c ";") eqn:Ec; [done|].
  unfold find_char. replace (substr_from 0 (String c s)) with (String c s)
    by (symmetry; exact (substr_from_app "" (String c s))).
  destruct (find_first _ (String c s)) as [n|] eqn:En; [|done]. intros E0. apply (inj Some) in E0. subst x.
  destruct (find_first_split _ _ _ En) as (u & d & v & E & -> & Hu & Hd%Ascii.eqb_eq). subst d. rewrite E in *.
  rewrite Nat.add_0_l, substr_app_0.
  replace (S (String.length u)) with (String.length (u +:+ "=")) by (rewrite string_length_app; cbn; lia).
  replace (u +:+ String "=" v) with ((u +:+ "=") +:+ v) by (by rewrite <- string_app_assoc).
  rewrite substr_from_app.
  apply lacks_app in Hl as [Hlu Hlv]. assert (Hlv' : lacks newline v) by (unfold lacks in *; cbn in Hlv; by apply andb_true_iff in Hlv as [_ ?]).
  destruct (TrimCopy_ok u) as [Huf Hub], (TrimCopy_ok v) as [Hvf Hvb].
  split; cbn [fst snd]; try done; try by apply all_chars_trim.
  destruct u as [|c' u]; [done|]. injection E as <- _. rewrite string_app_cons, front_ok_cons in Hf.
  unfold TrimCopy. cbn [skip_space]. rewrite Hf, trim_back_cons by done. exact Ec.
Qed.

Lemma ini_entry_line x : ini_pair_ok x → ini_entry (x.1 +:+ "=" +:+ x.2) = Some x.
Proof.
  destruct x as [k v]. intros [Hkf Hkb Hke Hkl Hkc Hvf Hvb Hvl]. cbn [fst snd] in *. unfold ini_entry.
  assert (Hf : front_ok (k +:+ "=" +:+ v)).
  { destruct k as [|c k]; [by apply front_ok_cons|]. rewrite string_app_cons. apply front_ok_cons.
    by apply front_ok_cons in Hkf. }
  assert (Hb : back_ok (k +:+ "=" +:+ v)).
  { unfold back_ok. assert (He : trim_back ("=" +:+ v) = "=" +:+ v) by (rewrite string_app_cons, trim_back_cons, string_app_nil by done; by rewrite Hvb).
    by rewrite trim_back_app, He; rewrite ?He. }
  rewrite TrimCopy_id by done.
  assert (Hc : match k +:+ "=" +:+ v with String c _ => Ascii.eqb c "#" || Ascii.eqb c ";" = false | _ => False end)
    by (destruct k; [reflexivity|exact Hkc]).
  destruct (k +:+ "=" +:+ v) as [|c s] eqn:E; [done|]. rewrite Hc, <- E.
  change ("=" +:+ v) with (String "=" v). rewrite find_char_at_0 by exact Hke.
  rewrite substr_app_0. replace (S (String.length k)) with (String.length (k +:+ "=")) by (rewrite string_length_app; cbn; lia).
  replace (k +:+ String "=" v) with ((k +:+ "=") +:+ v) by (by rewrite <- string_app_assoc).
  by rewrite substr_from_app, !TrimCopy_id.
Qed.

Lemma getlines_line l rest : lacks newline l → getlines (l +:+ String newline rest) = l :: getlines rest.
Proof.
  induction l as [|c l IH]; intros Hl; [reflexivity|]. unfold lacks in *. cbn in Hl.
  apply andb_true_iff in Hl as [Hc Hl]. rewrite string_app_cons. cbn [getlines].
  rewrite IH by done. destruct (Ascii.eqb c newline) eqn:Ec; [|done].
  apply Ascii.eqb_eq in Ec. subst c. done.
Qed.

Lemma getlines_lack s : Forall (lacks newline) (getlines s).
Proof.
  induction s as [|c s IH]; [constructor|]. cbn. destruct (Ascii.eqb c newline) eqn:Ec; [by constructor|].
  assert (Hc : ∀ t, lacks newline t → lacks newline (String c t)).
  { intros t Ht. unfold lacks in *. cbn. rewrite Ht, andb_true_r. by rewrite Ascii.eqb_sym, Ec. }
  destruct (getlines s) as [|l ls]; [constructor; [by apply Hc|constructor]|].
  apply Forall_cons in IH as [Hl Hls]. constructor; [by apply Hc|done].
Qed.

Lemma insert_all_union (l : list (string * string)) (m : gmap string string) :
  NoDup l.*1 → foldl (λ m x, <[x.1 := x.2]> m) m l = list_to_map l ∪ m.
Proof.
  revert m. induction l as [|[k v] l IH]; intros m Hd; [cbn; by rewrite (left_id_L ∅ (∪))|].
  cbn in Hd. apply NoDup_cons in Hd as [Hk Hd]. cbn [foldl fst snd]. rewrite IH by done.
  cbn [list_to_map foldr]. rewrite <- insert_union_l. symmetry. apply insert_union_r.
  by apply not_elem_of_list_to_map_1.
Qed.

Lemma ini_load_lines l :
  Forall ini_pair_ok l → NoDup l.*1 →
  ini_load (foldr (λ x s, ini_line x +:+ s) "" l) = list_to_map l.
Proof.
  intros Hok Hd. rewrite <- (right_id_L ∅ (∪) (list_to_map l)), <- insert_all_union by done.
  unfold ini_load. generalize (∅ : gmap string string) as m. clear Hd.
  induction l as [|x l IH]; intros m; [done|]. apply Forall_cons in Hok as [Hx Hok]. cbn [foldr foldl].
  assert (E : ini_line x +:+ foldr (λ x s, ini_line x +:+ s) "" l =
              (x.1 +:+ "=" +:+ x.2) +:+ String newline (foldr (λ x s, ini_line x +:+ s) "" l))
    by (unfold ini_line; by rewrite <- !string_app_assoc).
  rewrite E, getlines_line.
  - cbn [foldl]. unfold ini_insert at 2. rewrite ini_entry_line by done. destruct x. by apply IH.
  - destruct Hx. apply lacks_app. split; [done|]. by apply lacks_app.
Qed.

Lemma ini_load_ok content k v : ini_load content !! k = Some v → ini_pair_ok (k, v).
Proof.
  unfold ini_load.
  assert (Hm : ∀ m : gmap string string, (∀ k v, m !! k = Some v → ini_pair_ok (k, v)) →
    ∀ k v, foldl ini_insert m (getlines content) !! k = Some v → ini_pair_ok (k, v)).
  { pose proof (getlines_lack content) as Hl. induction (getlines content) as [|l ls IH]; intros m Hm; [exact Hm|].
    apply Forall_cons in Hl as [Hl Hls]. cbn [foldl]. apply IH; [done|]. intros k' v'. unfold ini_insert.
    destruct (ini_entry l) as [[k0 v0]|] eqn:Ee; [|apply Hm]. apply ini_entry_ok in Ee; [|done].
    destruct (decide (k0 = k')) as [->|Hk]; [rewrite lookup_insert_eq; by intros [= <-]|].
    rewrite lookup_insert_ne by done. apply Hm. }
  apply Hm. intros k' v'. by rewrite lookup_empty.
Qed.

(** C30: whatever the file, the configuration read from it is printed as a
    file that reads back to the same configuration; every key and value in it is
    trimmed, and no key has an equals sign or starts like a comment. *)
Theorem ini_roundtrip content :
  ini_load (ShowConfig (ini_load content)) = ini_load content ∧
  ∀ k v, ini_load content !! k = Some v → ini_pair_ok (k, v).
Proof.
  split; [|apply ini_load_ok]. unfold ShowConfig.
  pose proof (merge_sort_Permutation kv_le (map_to_list (ini_load content))) as Hp.
  rewrite ini_load_lines.
  - rewrite (list_to_map_proper _ (map_to_list (ini_load content))); [apply list_to_map_to_list| |done].
    rewrite Hp. apply NoDup_fst_map_to_list.
  - rewrite Hp. apply Forall_forall. intros [k v] Hin%elem_of_map_to_list. by eapply ini_load_ok.
  - rewrite Hp. apply NoDup_fst_map_to_list.
Qed.

Example ini_of_the_program :
  ini_load ("# comment" +:+ String newline ("config_dir = /etc/x " +:+ String newline "load_json_version=v2")) =
  <["config_dir" := "/etc/x"]> (<["load_json_version" := "v2"]> ∅).
Proof. by vm_compute. Qed.

(** ** The index and its files *)

Section index.
Context {J : Type} `{JsonLaws J} `{!JsonItems J} `{!JsonItemsLaws J}.
Context (read : string → option string) (json_parse : string → option J).

(** What becomes of the node [x] of the index. *)
Definition node_becomes (config_directory : string) (x : string * J) (v : J) : Prop :=
  j_is_object x.2 = true ∧
  ((j_value_bool x.2 "read_config" true = Ok false ∧
    ∃ config_name, j_value_string x.2 "config_name" x.1 = Ok config_name ∧ v = disabled_node config_name) ∨
   (j_value_bool x.2 "read_config" true = Ok true ∧ j_is_object v = true ∧
    ∃ config_path text, j_value_string x.2 "config_path" "" = Ok config_path ∧ config_path ≠ "" ∧
      read (path_join config_directory config_path) = Some text ∧ json_parse text = Some v)).

Lemma v2_node_becomes dir x v : v2_node read json_parse dir x = Some v → node_becomes dir x v.
Proof.
  unfold v2_node, node_becomes. destruct (j_is_object x.2); [|done]. cbn [negb].
  destruct (j_value_bool x.2 "read_config" true) as [b|] eqn:Eb; [|done].
  destruct (j_value_string x.2 "config_name" x.1) as [name|] eqn:En; [|done].
  destruct b; cbn [negb].
  - destruct (j_value_string x.2 "config_path" "") as [p|] eqn:Ep; [|done].
    destruct p as [|c p]; [done|]. set (q := String c p) in *. intros E.
    apply bind_Some in E as (text & Et & (w & Ew & E)%bind_Some).
    destruct (j_is_object w) eqn:Eo; [|done]. injection E as ->.
    split; [done|]. right. split; [done|]. split; [done|]. by exists q, text.
  - intros [= <-]. split; [done|]. left. split; [done|]. by exists name.
Qed.

Lemma v2_nodes_find dir l l' k :
  v2_nodes read json_parse dir l = Some l' →
  match assoc_find k l with
  | None => assoc_find k l' = None
  | Some node => ∃ v, assoc_find k l' = Some v ∧ node_becomes dir (k, node) v
  end.
Proof.
  revert l'. induction l as [|[k0 node] l IH]; intros l'; cbn [v2_nodes]; [by intros [= <-]|].
  intros E. apply bind_Some in E as (v & Ev & (rest & Er & E)%bind_Some). injection E as <-.
  cbn [assoc_find fst]. destruct (decide (k0 = k)) as [->|Hk]; [|exact (IH _ Er)].
  exists v. split; [done|]. exact (v2_node_becomes _ _ _ Ev).
Qed.

Lemma j_object_at_Some (v : J) k x : j_object_at v k = Some x → j_find v k = Some x ∧ j_is_object x = true.
Proof. unfold j_object_at. destruct (j_find v k) as [y|]; [|done]. cbn. by destruct (j_is_object y) eqn:E; intros [= <-]. Qed.

Lemma j_set_object (v : J) key x v' :
  j_is_object v = true → result_option (j_set v key x) = Some v' →
  j_is_object v' = true ∧ j_object_at v' key = (if j_is_object x then Some x else None) ∧
  ∀ k, k ≠ key → j_find v' k = j_find v k.
Proof.
  unfold j_is_object at 1. destruct (j_view v) eqn:Ev; try done. intros _ E.
  destruct (j_set v key x) as [w|] eqn:Es; [|done]. injection E as ->.
  apply j_set_spec in Es as (Ho & Hf & Hn). unfold j_object_at, j_is_object at 1. rewrite Ho, Hf.
  split; [done|]. split; [done|]. intros k Hk. by apply Hn.
Qed.

Lemma j_is_object_object l : j_is_object (j_object l) = true.
Proof. unfold j_is_object. by rewrite j_view_object. Qed.

(** C29: an index that loads keeps all its members but the nodes; every node
    keeps its name, and is the object in its own file, or, when it is marked not
    to be read, a node that is not enabled; no other node appears. *)
Theorem v2_Load_spec absolute path v :
  v2_Load read json_parse absolute path = Some v →
  ∃ text index pipeline executes pipeline' executes',
    read (absolute path) = Some text ∧ json_parse text = Some index ∧
    j_object_at index "pipeline" = Some pipeline ∧ j_object_at pipeline "executes" = Some executes ∧
    j_object_at v "pipeline" = Some pipeline' ∧ j_object_at pipeline' "executes" = Some executes' ∧
    (∀ k, k ≠ "pipeline" → j_find v k = j_find index k) ∧
    (∀ k, k ≠ "executes" → j_find pipeline' k = j_find pipeline k) ∧
    ∀ k, match j_find executes k with
         | None => j_find executes' k = None
         | Some node => ∃ w, j_find executes' k = Some w ∧ node_becomes (parent_path (absolute path)) (k, node) w
         end.
Proof.
  unfold v2_Load. intros E. apply bind_Some in E as (text & Et & (index & Ei & E)%bind_Some).
  destruct (j_is_object index) eqn:Eo; [|done]. cbn [negb] in E.
  apply bind_Some in E as (pipeline & Ep & (executes & Ee & (nodes & En & (p' & Es & E)%bind_Some)%bind_Some)%bind_Some).
  destruct (j_object_at_Some _ _ _ Ep) as [_ Hp], (j_object_at_Some _ _ _ Ee) as [_ He].
  destruct (j_set_object _ _ _ _ Hp Es) as (Hp' & Hat & Hother).
  destruct (j_set_object _ _ _ _ Eo E) as (Hv & Hat' & Hother').
  rewrite j_is_object_object in Hat. rewrite Hp' in Hat'.
  exists text, index, pipeline, executes, p', (j_object nodes). repeat split; try done.
  intros k. rewrite j_find_object, j_find_items by (unfold j_is_object in He; by destruct (j_view executes)).
  exact (v2_nodes_find _ _ _ k En).
Qed.
End index.

(** ** A concrete directory *)

Section demo.
Definition demo_index : jvalue := VObj [("version", VNum 2); ("pipeline", VObj [("executes", VObj [
  ("1", VObj [("config_name", VStr "edge"); ("config_path", VStr "edge.json")]);
  ("2", VObj [("config_name", VStr "pod"); ("config_path", VStr "pod.json"); ("read_config", VBool false)])])])].
Definition demo_edge : jvalue := VObj [("model_name", VStr "edge"); ("model_args", VObj [])].
Definition demo_read (path : string) : option string :=
  if String.eqb path "/etc/x/config.json" then Some "index"
  else if String.eqb path "/etc/x/edge.json" then Some "edge" else None.
Definition demo_parse (text : string) : option jvalue :=
  if String.eqb text "index" then Some demo_index
  else if String.eqb text "edge" then Some demo_edge else None.
Definition demo_config : jvalue := VObj [("version", VNum 2); ("pipeline", VObj [("executes", VObj [
  ("1", demo_edge);
  ("2", VObj [("model_name", VStr "pod"); ("model_args", VObj []); ("enable", VBool false)])])])].
End demo.

Lemma v2_Load_spec_witness :
  v2_Load demo_read demo_parse id "/etc/x/config.json" = Some demo_config ∧
  ∃ pipeline', j_object_at demo_config "pipeline" = Some pipeline'.
Proof.
  split; [by vm_compute|].
  destruct (v2_Load_spec demo_read demo_parse id "/etc/x/config.json" demo_config) as
    (_ & _ & _ & _ & pipeline' & _ & _ & _ & _ & _ & Hp & _); [by vm_compute|].
  by exists pipeline'.
Defined.

(** One file that is missing, and nothing loads. *)
Example one_file_missing :
  v2_Load (λ p, if String.eqb p "/etc/x/edge.json" then None else demo_read p) demo_parse id "/etc/x/config.json" = None.
Proof. by vm_compute. Qed.

(** A file that is there but is not JSON still initialises the first version. *)
Example v1_accepts_broken_file :
  cfg_v1 (v1_Init (λ _, Some "{") (λ _, None : option jvalue) (λ _, VNull) VNull "x" Configs_new) = Some VNull.
Proof. reflexivity. Qed.

(** The default is not given for a key that a JSON object lacks. *)
Example get_missing_key : json_Get (VObj []) "pipeline" (VObj []) = Undef.
Proof. reflexivity. Qed.
Example v2_get_missing_key : v2_Get (VObj []) "pipeline" (VObj []) = (VObj [], false).
Proof. reflexivity. Qed.
