(* ===== verification/Startup.v ===== *)
(** * Starting the program

    Model of main.cpp with what it calls before the pipeline: the argument
    parser (ArgumentParser.cpp), the check for other instances
    (ServiceGuard.cpp), the loading of the configuration (InitTools.cpp) and its
    checks (FreeFunc.cpp).  A run is a function of the command line, the files,
    the process list and what the modules answer. *)

From S2P Require Import Prelude Text Json Double MyCache MyConfig Pipeline.
From Stdlib Require Import Ascii.
From stdpp Require Import gmap strings pretty.

(** ** The argument parser *)

Record Option_ := { shortOpt : string; longOpt : string; requiresValue : bool }.
Definition option_matches (arg : string) (o : Option_) : bool :=
  String.eqb arg (shortOpt o) || String.eqb arg (longOpt o).

(** A parsed entry: its two members, [key] and [value]. *)
Abbreviation entry := (string * string)%type.

Fixpoint parse (options_ : list Option_) (argv : list string) : list entry :=
  match argv with
  | [] => []
  | arg :: argv =>
      match List.find (option_matches arg) options_ with
      | None => parse options_ argv
      | Some o =>
          if requiresValue o then
            match argv with
            | v :: argv => (arg, v) :: parse options_ argv
            | [] => [(arg, "")]
            end
          else (arg, "true") :: parse options_ argv
      end
  end.

Definition addOption (short long : string) (value : bool) : Option_ :=
  {| shortOpt := short; longOpt := long; requiresValue := value |}.
Definition BuildArgumentParser : list Option_ :=
  [addOption "-h" "--help" false; addOption "-v" "--version" false; addOption "-s" "--setup" true;
   addOption "-c" "--config" true; addOption "-d" "--docter" false].

(** ** The options *)

Record StartupOptions := {
  show_help : bool;
  show_version : bool;
  run_setup : bool;
  hard_setup : bool;
  run_doctor : bool;
  setup_mode : string;
  parsed_args : list entry
}.

Definition IsOptionMatch (item : entry) (short_opt long_opt : string) : bool :=
  String.eqb item.1 short_opt || String.eqb item.1 long_opt.
Definition IsHardSetupMode (value : string) : bool :=
  String.eqb value "hard" || String.eqb value "true" || String.eqb value "1".

Definition take_option (o : StartupOptions) (item : entry) : StartupOptions :=
  if IsOptionMatch item "-h" "--help" then
    {| show_help := true; show_version := show_version o; run_setup := run_setup o; hard_setup := hard_setup o;
       run_doctor := run_doctor o; setup_mode := setup_mode o; parsed_args := parsed_args o |}
  else if IsOptionMatch item "-v" "--version" then
    {| show_help := show_help o; show_version := true; run_setup := run_setup o; hard_setup := hard_setup o;
       run_doctor := run_doctor o; setup_mode := setup_mode o; parsed_args := parsed_args o |}
  else if IsOptionMatch item "-s" "--setup" then
    {| show_help := show_help o; show_version := show_version o; run_setup := true;
       hard_setup := IsHardSetupMode item.2; run_doctor := run_doctor o; setup_mode := item.2;
       parsed_args := parsed_args o |}
  else if IsOptionMatch item "-d" "--docter" then
    {| show_help := show_help o; show_version := show_version o; run_setup := run_setup o; hard_setup := hard_setup o;
       run_doctor := true; setup_mode := setup_mode o; parsed_args := parsed_args o |}
  else o.

(** [argv] without the name of the program. *)
Definition ParseStartupOptions (argv : list string) : StartupOptions :=
  let args := parse BuildArgumentParser argv in
  foldl take_option
    {| show_help := false; show_version := false; run_setup := false; hard_setup := false; run_doctor := false;
       setup_mode := ""; parsed_args := args |} args.

(** ** Other instances *)

(** The pieces [fgets] returns: up to a line break, or as many characters as fit;
    [room] is what is left of the buffer. *)
Fixpoint fgets_all (size room : nat) (s : string) : list string :=
  match s with
  | EmptyString => []
  | String c s =>
      if Ascii.eqb c newline then String c "" :: fgets_all size size s
      else match room with
           | 0 | 1 => String c "" :: fgets_all size size s
           | S room =>
               match fgets_all size room s with
               | [] => [String c ""]
               | l :: ls => String c l :: ls
               end
           end
  end%nat.
(** A buffer of 256 bytes holds 255 characters. *)
Definition ExecuteShellLines (output : string) : list string := fgets_all 255 255 output.

(** [ss >> word]: the word, and what follows it. *)
Fixpoint read_word (s : string) : string * string :=
  match s with
  | EmptyString => ("", "")
  | String c s' => if isspace c then ("", s) else let '(w, rest) := read_word s' in (String c w, rest)
  end.
Definition next_word (s : string) : string * string := read_word (skip_space s).

(** The second column of a line; [None] when it is empty. *)
Definition line_pid (line : string) : result (option Z) :=
  match (next_word (next_word line).2).1 with
  | EmptyString => Ok None
  | pid_str => n ← stoi pid_str; Ok (Some n)
  end.
Fixpoint other_pids (my_pid : Z) (lines : list string) : result (list Z) :=
  match lines with
  | [] => Ok []
  | line :: lines =>
      found ← line_pid line;
      rest ← other_pids my_pid lines;
      Ok match found with
         | Some pid => if (pid =? my_pid)%Z then rest else pid :: rest
         | None => rest
         end
  end.

(** What the check comes to: [exit(0)], or going on, with the processes that
    were killed. *)
Inductive guard_result := GuardExit | GuardContinue (killed : list Z).
Definition ExecuteByPS (my_pid : Z) (ps_output : string) (is_hard_setup : bool) : guard_result :=
  match other_pids my_pid (ExecuteShellLines ps_output) with
  | Err _ => GuardContinue []
  | Ok [] => GuardContinue []
  | Ok pids => if is_hard_setup then GuardContinue pids else GuardExit
  end.

(** ** The configuration *)

Record AppPaths := {
  app_name : string;
  ini_config_path : string;
  json_config_path : string;
  yaml_config_path : string;
  log_dir_path : string;
  log_file_path : string
}.
Definition default_ini_config_path : string := "/etc/fast_cpp_server/config.ini".
Definition default_json_config_path : string := "/etc/fast_cpp_server/config.json".
Definition default_yaml_config_path : string := "/etc/fast_cpp_server/config.yaml".
Definition default_log_dir_path : string := "/var/fast_cpp_server/logs/".
Definition AppPaths_default : AppPaths := {|
  app_name := "fast_cpp_server"; ini_config_path := default_ini_config_path;
  json_config_path := default_json_config_path; yaml_config_path := default_yaml_config_path;
  log_dir_path := default_log_dir_path;
  log_file_path := default_log_dir_path +:+ "fast_cpp_server" +:+ ".log" |}.

(** The lines kept for the log are left out. *)
Record BootstrapState := {
  st_paths : AppPaths;
  st_options : StartupOptions;
  st_console_output : bool;
  st_ini_loaded : bool;
  st_json_path_from_ini : bool;
  st_yaml_path_from_ini : bool;
  st_json_loaded : bool;
  st_json_v2_loaded : bool;
  st_yaml_loaded : bool
}.
Definition BootstrapState_new (o : StartupOptions) : BootstrapState := {|
  st_paths := AppPaths_default; st_options := o; st_console_output := false; st_ini_loaded := false;
  st_json_path_from_ini := false; st_yaml_path_from_ini := false; st_json_loaded := false;
  st_json_v2_loaded := false; st_yaml_loaded := false |}.

Definition checkConfigLoadStatus (ini json yaml : bool) : bool := ini && json.

Section startup.
Context {J : Type} `{JsonNumbers J} `{!JsonItems J}.
(** Files: whether a path exists, the text of one that opens; see MyConfig for
    the parser. *)
Context (exists_ : string → bool) (read : string → option string) (json_parse : string → option J).
Context (json_partial : string → J) (absolute : string → string) (null : J).
(** The process list and this process, the self-check, and whether the log file
    can be opened. *)
Context (ps_output : string) (my_pid : Z) (doctor : result unit) (log_opens : string → bool).
(** The modules of the pipeline. *)
Context (env : list (module_call (J := J)) → module_call (J := J) → result bool) (address_in_use : exn → bool).

(** The last [--config] whose file exists. *)
Definition loadConfigFromArguments (args : list entry) (configFilePath : string) : string :=
  foldl (λ path item, if (String.eqb item.1 "--config" || String.eqb item.1 "-c") && exists_ item.2
                      then item.2 else path) configFilePath args.

Definition initLoadConfig (type_ config_file_path : string) (c : Configs J) : bool * Configs J :=
  if String.eqb config_file_path "" then (false, c)
  else if negb (exists_ config_file_path) then (false, c)
  else
    let chosen x := String.eqb type_ x || String.eqb type_ "all" in
    let '(load_ok, c) := if chosen "ini" then (true, ini_Init read config_file_path c) else (false, c) in
    let '(load_ok, c) :=
      if chosen "json" then
        let c := v1_Init read json_parse json_partial null config_file_path c in
        (true, SetConfig (default null (cfg_v1 c)) c)
      else (load_ok, c) in
    let '(load_ok, c) :=
      if chosen "jsonV2" then
        let '(ok, c) := v2_Init read json_parse absolute config_file_path c in
        if load_ok || ok then (true, SetConfig (default null (cfg_v2 c)) c) else (false, c)
      else (load_ok, c) in
    if chosen "yaml" then (true, yaml_Init c) else (load_ok, c).

(** The path of [file] in the directory the INI file names, or the default. *)
Definition path_from_ini (file default_path : string) (kv : gmap string string) : bool * string :=
  match kv !! "config_dir" with
  | None => (false, default_path)
  | Some config_dir =>
      if exists_ config_dir && negb (String.eqb config_dir "") && exists_ (config_dir +:+ file)
      then (true, config_dir +:+ file) else (false, default_path)
  end.
Definition getJsonConfigPathFromINIConfig (default_path : string) (kv : gmap string string) : bool * string :=
  path_from_ini "/config.json" default_path kv.
Definition getYamlConfigPathFromINIConfig (default_path : string) (kv : gmap string string) : bool * string :=
  path_from_ini "/config.yaml" default_path kv.

Definition ResolveConfigPaths (st : BootstrapState) : BootstrapState := {|
  st_paths := {| app_name := app_name (st_paths st);
                 ini_config_path := loadConfigFromArguments (parsed_args (st_options st)) (ini_config_path (st_paths st));
                 json_config_path := json_config_path (st_paths st);
                 yaml_config_path := yaml_config_path (st_paths st);
                 log_dir_path := log_dir_path (st_paths st); log_file_path := log_file_path (st_paths st) |};
  st_options := st_options st; st_console_output := st_console_output st; st_ini_loaded := st_ini_loaded st;
  st_json_path_from_ini := st_json_path_from_ini st; st_yaml_path_from_ini := st_yaml_path_from_ini st;
  st_json_loaded := st_json_loaded st; st_json_v2_loaded := st_json_v2_loaded st;
  st_yaml_loaded := st_yaml_loaded st |}.

Definition LoadAllConfigs (st : BootstrapState) (c : Configs J) : BootstrapState * Configs J :=
  let '(ini_loaded, c) := initLoadConfig "ini" (ini_config_path (st_paths st)) c in
  let kv := ini_GetInstance c in
  let '(json_from_ini, json_path) := getJsonConfigPathFromINIConfig default_json_config_path kv in
  let '(yaml_from_ini, yaml_path) := getYamlConfigPathFromINIConfig default_yaml_config_path kv in
  let v2 := String.eqb (GetString "load_json_version" "v1" kv).1 "v2" in
  let '(loaded, c) := initLoadConfig (if v2 then "jsonV2" else "json") json_path c in
  ({| st_paths := {| app_name := app_name (st_paths st); ini_config_path := ini_config_path (st_paths st);
                     json_config_path := json_path; yaml_config_path := yaml_path;
                     log_dir_path := log_dir_path (st_paths st); log_file_path := log_file_path (st_paths st) |};
      st_options := st_options st; st_console_output := st_console_output st; st_ini_loaded := ini_loaded;
      st_json_path_from_ini := json_from_ini; st_yaml_path_from_ini := yaml_from_ini;
      st_json_loaded := if v2 then st_json_loaded st else loaded;
      st_json_v2_loaded := if v2 then loaded else st_json_v2_loaded st;
      st_yaml_loaded := st_yaml_loaded st |}, c).

(** The name of the program, the directory and the path of the log. *)
Definition loadLogConfigFromINIConfig (p : AppPaths) (kv : gmap string string) : AppPaths :=
  let app := (GetString "app_name" (app_name p) kv).1 in
  let dir := (GetString "logger_dir" (log_dir_path p) kv).1 in
  {| app_name := app; ini_config_path := ini_config_path p; json_config_path := json_config_path p;
     yaml_config_path := yaml_config_path p; log_dir_path := dir; log_file_path := dir +:+ app +:+ ".log" |}.

(** Second result: whether the log was opened. *)
Definition InitializeLogger (st : BootstrapState) (c : Configs J) : BootstrapState * bool :=
  let kv := ini_GetInstance c in
  let p := loadLogConfigFromINIConfig (st_paths st) kv in
  ({| st_paths := p; st_options := st_options st; st_console_output := (GetBool "console_output" false kv).1;
      st_ini_loaded := st_ini_loaded st; st_json_path_from_ini := st_json_path_from_ini st;
      st_yaml_path_from_ini := st_yaml_path_from_ini st; st_json_loaded := st_json_loaded st;
      st_json_v2_loaded := st_json_v2_loaded st; st_yaml_loaded := st_yaml_loaded st |},
   log_opens (log_file_path p)).

Definition ValidateConfigurationOrLogError (st : BootstrapState) : bool :=
  checkConfigLoadStatus (st_ini_loaded st) (st_json_loaded st) (st_yaml_loaded st).

(** [GetInstance()] of an instance that does not exist is a null reference. *)
Definition showJson (c : Configs J) : outcome unit :=
  match cfg_current c with
  | None => Undef
  | Some v => match j_dump v with Ok _ => Ret tt | Err e => Throw e end
  end.
Definition showYaml (c : Configs J) : outcome unit := if cfg_yaml c then Ret tt else Undef.
Definition ShowLoadedConfigs (c : Configs J) : outcome unit :=
  match showJson c with Ret _ => showYaml c | o => o end.

Definition LoadPipelineConfigFromJson (c : Configs J) : outcome J :=
  match cfg_current c with
  | None => Undef
  | Some v => match json_Get v "pipeline" (j_object []) with
              | Ret r => Ret r.1 | Throw e => Throw e | Undef => Undef
              end
  end.

(** [StartPipeline], the wait for a signal, and [StopPipeline]; [None]: a module
    does not return. *)
Definition RunPipeline (fuel : nat) (pipeline_config : J) (p : Pipeline (J := J)) :
    option (result unit * Pipeline (J := J)) :=
  match j_dump pipeline_config with
  | Err e => Some (Err e, p)
  | Ok _ =>
      match Init pipeline_config p with
      | Some (Ok _, p) =>
          match Start env address_in_use fuel p with
          | Some (Ok _, p) => Stop env p
          | r => r
          end
      | r => r
      end
  end.

(** ** A run

    How the process ends: with an exit code, or in undefined behaviour. *)
Inductive app_end := Exit (code : Z) | Crash.
Record Run := {
  rn_end : app_end;
  rn_state : BootstrapState;
  rn_killed : list Z;
  rn_configs : Configs J;
  rn_pipeline : Pipeline (J := J)
}.

(** From the validation on; an exception that leaves [RunApplication] is caught in
    [main], which returns -1. *)
Definition run_validated (fuel : nat) (st : BootstrapState) (killed : list Z) (c : Configs J)
    (p : Pipeline (J := J)) : option Run :=
  let ends e p := {| rn_end := e; rn_state := st; rn_killed := killed; rn_configs := c; rn_pipeline := p |} in
  match ShowLoadedConfigs c with
  | Undef => Some (ends Crash p)
  | Throw _ => Some (ends (Exit (-1)) p)
  | Ret _ =>
      match LoadPipelineConfigFromJson c with
      | Undef => Some (ends Crash p)
      | Throw _ => Some (ends (Exit (-1)) p)
      | Ret config =>
          '(r, p) ← RunPipeline fuel config p;
          Some (ends (match r with Ok _ => Exit 0 | Err _ => Exit (-1) end) p)
      end
  end.

Definition main (fuel : nat) (argv : list string) (p : Pipeline (J := J)) : option Run :=
  let o := ParseStartupOptions argv in
  let st := BootstrapState_new o in
  let ends e st killed c := Some {| rn_end := e; rn_state := st; rn_killed := killed; rn_configs := c; rn_pipeline := p |} in
  if show_help o || show_version o then ends (Exit 0) st [] Configs_new
  else
    match (if run_setup o then ExecuteByPS my_pid ps_output (hard_setup o) else GuardContinue []) with
    | GuardExit => ends (Exit 0) st [] Configs_new
    | GuardContinue killed =>
        let '(st, c) := LoadAllConfigs (ResolveConfigPaths st) Configs_new in
        let '(st, _) := InitializeLogger st c in
        if run_doctor o then ends (Exit (if is_ok doctor then 0 else -1)) st killed c
        else if negb (ValidateConfigurationOrLogError st) then ends (Exit (-1)) st killed c
        else run_validated fuel st killed c p
    end.
End startup.

(** ** The command line *)

Definition render_entry (options_ : list Option_) (x : entry) : list string :=
  match List.find (option_matches x.1) options_ with
  | Some o => if requiresValue o then [x.1; x.2] else [x.1]
  | None => []
  end.
(** An entry the parser can produce: a known option, with [true] for a value when
    it takes none. *)
Definition entry_ok (options_ : list Option_) (x : entry) : Prop :=
  ∃ o, List.find (option_matches x.1) options_ = Some o ∧ (requiresValue o = false → x.2 = "true").

Lemma parse_entries options_ l tail :
  Forall (entry_ok options_) l →
  parse options_ (mjoin (map (render_entry options_) l) ++ tail) = l ++ parse options_ tail.
Proof.
  induction l as [|[k v] l IH]; intros Hl; [done|]. apply Forall_cons in Hl as [(o & Ho & Hv) Hl].
  assert (E : mjoin (map (render_entry options_) ((k, v) :: l)) =
              (if requiresValue o then [k; v] else [k]) ++ mjoin (map (render_entry options_) l))
    by (cbn; unfold render_entry at 1; by rewrite Ho).
  rewrite E. cbn [fst snd] in *. destruct (requiresValue o) eqn:Er; cbn [app parse]; rewrite Ho, Er, IH by done; [done|].
  by rewrite Hv.
Qed.

Lemma parse_ok options_ argv : Forall (entry_ok options_) (parse options_ argv).
Proof.
  assert (H : ∀ n argv, (length argv <= n)%nat → Forall (entry_ok options_) (parse options_ argv)).
  { clear argv. induction n as [|n IH]; intros [|arg argv] Hn; cbn [parse]; [constructor|cbn in Hn; lia|constructor|].
    cbn in Hn. destruct (List.find (option_matches arg) options_) as [o|] eqn:Eo; [|apply IH; lia].
    destruct (requiresValue o) eqn:Er.
    - destruct argv as [|v argv]; constructor; try (by exists o; rewrite Er); [constructor|].
      cbn in Hn. apply IH. lia.
    - constructor; [by exists o|apply IH; lia]. }
  by apply (H (length argv)).
Qed.

(** The command line the parser reads is its own rendering read back:
    whatever the arguments, the entries are of known options and, written out
    again, parse to the same entries; so do any well-formed entries, whatever
    follows them. *)
Theorem arguments_roundtrip options_ argv :
  let l := parse options_ argv in
  Forall (entry_ok options_) l ∧ parse options_ (mjoin (map (render_entry options_) l)) = l ∧
  ∀ l' tail, Forall (entry_ok options_) l' →
    parse options_ (mjoin (map (render_entry options_) l') ++ tail) = l' ++ parse options_ tail.
Proof.
  intros l. pose proof (parse_ok options_ argv) as Hl. split; [exact Hl|]. split.
  - pose proof (parse_entries options_ l [] Hl) as E. rewrite !app_nil_r in E. exact E.
  - intros l' tail. apply parse_entries.
Qed.

(** ** The process list *)

(** A line of [ps -ef]: the user, the number and the rest. *)
Definition ps_line (x : string * Z * string) : string :=
  x.1.1 +:+ " " +:+ pretty x.1.2 +:+ " " +:+ x.2 +:+ String newline "".
Record ps_line_ok (x : string * Z * string) : Prop := {
  pl_user : x.1.1 ≠ "" ∧ all_chars (λ c, negb (isspace c)) x.1.1 = true;
  pl_pid : (0 <= x.1.2)%Z ∧ ins 32 x.1.2;
  pl_rest : lacks newline x.2;
  pl_length : (String.length (ps_line x) <= 255)%nat
}.

Lemma fgets_line size room l rest :
  lacks newline l → (String.length l < room)%nat →
  fgets_all size room (l +:+ String newline rest) = (l +:+ String newline "") :: fgets_all size size rest.
Proof.
  revert room. induction l as [|c l IH]; intros room Hl Hr; [reflexivity|].
  unfold lacks in Hl. cbn in Hl. apply andb_true_iff in Hl as [Hc Hl]. cbn in Hr.
  rewrite !string_app_cons. cbn [fgets_all].
  destruct (Ascii.eqb c newline) eqn:Ec; [apply Ascii.eqb_eq in Ec; by subst c|].
  destruct room as [|[|room]]; [lia..|]. by rewrite IH by (done || lia).
Qed.

Lemma read_word_app w t :
  all_chars (λ c, negb (isspace c)) w = true → read_word (w +:+ String " " t) = (w, String " " t).
Proof.
  induction w as [|c w IH]; [reflexivity|]. cbn [all_chars]. intros [Hc Hw]%andb_true_iff.
  apply negb_true_iff in Hc. rewrite string_app_cons. cbn [read_word]. by rewrite Hc, IH.
Qed.

Lemma skip_space_word w t :
  w ≠ "" → all_chars (λ c, negb (isspace c)) w = true → skip_space (w +:+ t) = w +:+ t.
Proof.
  destruct w as [|c w]; [done|]. intros _. cbn [all_chars]. intros [Hc _]%andb_true_iff.
  apply negb_true_iff in Hc. rewrite string_app_cons. cbn [skip_space]. by rewrite Hc.
Qed.

Lemma digits_no_space s : all_chars is_digit s = true → all_chars (λ c, negb (isspace c)) s = true.
Proof.
  induction s as [|c s IH]; [done|]. cbn. intros [Hc Hs]%andb_true_iff. rewrite IH by done. rewrite andb_true_r.
  revert Hc. unfold is_digit, digit_value, isspace. generalize (nat_of_ascii c) as n. intros n.
  destruct ((48 <=? n)%nat && (n <=? 57)%nat) eqn:E; [|done]. intros _. apply andb_true_iff in E as [E1%Nat.leb_le E2%Nat.leb_le].
  apply negb_true_iff, orb_false_iff. split; [apply Nat.eqb_neq; lia|].
  apply andb_false_iff. right. apply Nat.leb_gt. lia.
Qed.

Lemma line_pid_line x : ps_line_ok x → line_pid (ps_line x) = Ok (Some x.1.2).
Proof.
  destruct x as [[user pid] rest]. intros [[Hu Hus] [Hp0 Hp] _ _]. cbn [fst snd] in *.
  unfold line_pid, next_word, ps_line. cbn [fst snd]. rewrite skip_space_word by done.
  replace (user +:+ " " +:+ pretty pid +:+ " " +:+ rest +:+ String newline "")
    with (user +:+ String " " (pretty pid +:+ String " " (rest +:+ String newline ""))) by reflexivity.
  rewrite read_word_app by done. cbn [fst snd skip_space].
  destruct (pretty_all_digits pid Hp0) as [Hd Hn]. apply digits_no_space in Hd.
  change (isspace " ") with true. cbv iota. rewrite skip_space_word, read_word_app by done. cbn [fst].
  destruct (pretty pid) as [|c s] eqn:E; [done|]. rewrite <- E. unfold stoi. by rewrite sto_signed_pretty.
Qed.

Definition ps_text (l : list (string * Z * string)) : string := foldr (λ x s, ps_line x +:+ s) "" l.
Definition ps_others (my_pid : Z) (l : list (string * Z * string)) : list Z :=
  List.filter (λ pid, negb (pid =? my_pid)%Z) (map (λ x, x.1.2) l).

Lemma ExecuteShellLines_ps l : Forall ps_line_ok l → ExecuteShellLines (ps_text l) = map ps_line l.
Proof.
  induction l as [|x l IH]; intros Hl; [reflexivity|]. apply Forall_cons in Hl as [Hx Hl].
  unfold ExecuteShellLines, ps_text in *. cbn [foldr map].
  set (body := x.1.1 +:+ " " +:+ pretty x.1.2 +:+ " " +:+ x.2).
  assert (E : ps_line x = body +:+ String newline "") by (unfold ps_line, body; by rewrite <- !string_app_assoc).
  pose proof (pl_length _ Hx) as Hlen. rewrite E in *. rewrite string_length_app in Hlen. cbn in Hlen.
  rewrite <- string_app_assoc. change (String newline "" +:+ ?s) with (String newline s).
  rewrite fgets_line; [by rewrite IH| |lia].
  destruct Hx as [[_ Hu] [Hp _] Hr _]. unfold body.
  assert (Hw : ∀ w, all_chars (λ c, negb (isspace c)) w = true → lacks newline w).
  { intros w. unfold lacks. induction w as [|c w IHw]; [done|]. cbn [all_chars]. intros [Hc Hw]%andb_true_iff.
    rewrite IHw by done. rewrite andb_true_r. destruct (Ascii.eqb newline c) eqn:Ec; [|done].
    apply Ascii.eqb_eq in Ec. by subst c. }
  repeat (apply lacks_app; split); try done; [by apply Hw|]. apply Hw, digits_no_space. by apply pretty_all_digits.
Qed.

Lemma other_pids_ps my_pid l : Forall ps_line_ok l → other_pids my_pid (map ps_line l) = Ok (ps_others my_pid l).
Proof.
  induction 1 as [|x l Hx Hl IH]; [done|]. cbn [map other_pids]. rewrite line_pid_line, IH by done.
  unfold ps_others. cbn. by destruct (x.1.2 =? my_pid)%Z.
Qed.

(** Over a process list whose lines fit the buffer, the check goes on and
    kills nothing when no other process is listed; otherwise it leaves, or in hard
    mode kills each of the others, and never the program itself. *)
Theorem guard_spec my_pid l is_hard :
  Forall ps_line_ok l →
  ExecuteByPS my_pid (ps_text l) is_hard =
    match ps_others my_pid l with
    | [] => GuardContinue []
    | pids => if is_hard then GuardContinue pids else GuardExit
    end ∧ (my_pid ∉ ps_others my_pid l) ∧
  ∀ x, x ∈ l → x.1.2 ≠ my_pid → x.1.2 ∈ ps_others my_pid l.
Proof.
  intros Hl. unfold ExecuteByPS. rewrite ExecuteShellLines_ps, other_pids_ps by done. split; [by destruct (ps_others my_pid l)|].
  unfold ps_others. split.
  - rewrite list_elem_of_In, filter_In. by intros [_ ?%negb_true_iff%Z.eqb_neq].
  - intros x Hx Hne. apply list_elem_of_In, filter_In. split; [apply (in_map (λ x, x.1.2)); by apply list_elem_of_In|].
    by apply negb_true_iff, Z.eqb_neq.
Qed.

(** A line that does not fit the buffer is read in pieces, and a piece without a
    number in its second column ends the check: the other instance stays. *)
Definition long_line : string :=
  ps_line ("root", 7%Z, "1 0 10:00 ? 00:00:00 /opt/fast_cpp_server/bin/fast_cpp_server " +:+
    foldr String.append "" (repeat "--config /etc/fast_cpp_server/config.ini " 6)).
Example guard_long_line : (255 < String.length long_line)%nat ∧
  ExecuteByPS 9 long_line true = GuardContinue [] ∧ ExecuteByPS 9 long_line false = GuardContinue [].
Proof. split; [apply Nat.ltb_lt; by vm_compute|]. split; by vm_compute. Qed.

(** An editor open on a file of the program counts as an instance. *)
Example guard_kills_editor :
  ExecuteByPS 9 (ps_text [("user", 5%Z, "1 0 10:00 ? 00:00:00 vim /etc/fast_cpp_server/config.ini")]) true =
    GuardContinue [5%Z].
Proof. by vm_compute. Qed.

(** ** The run *)

Lemma omap_snd {A B C} (f : B → option C) (l : list (A * B)) : omap (λ x, f x.2) l = omap f l.*2.
Proof. induction l as [|x l IH]; [done|]. csimpl. destruct (f x.2); by rewrite IH. Qed.

Section runs.
Context {J : Type} `{JsonNumbers J} `{!JsonItems J}.
Context (exists_ : string → bool) (read : string → option string) (json_parse : string → option J).
Context (json_partial : string → J) (absolute : string → string) (null : J).

Lemma initLoadConfig_yaml type_ path c :
  type_ ≠ "yaml" → type_ ≠ "all" →
  cfg_yaml (initLoadConfig exists_ read json_parse json_partial absolute null type_ path c).2 = cfg_yaml c.
Proof.
  intros Hy Ha. unfold initLoadConfig.
  destruct (String.eqb path ""); [done|]. destruct (exists_ path); [|done]. cbn [negb].
  rewrite (proj2 (String.eqb_neq type_ "all") Ha), (proj2 (String.eqb_neq type_ "yaml") Hy), !orb_false_r.
  unfold v2_Init.
  destruct (String.eqb type_ "ini"), (String.eqb type_ "json"), (String.eqb type_ "jsonV2"); cbn; try done;
    destruct (cfg_v2 c) as [v|]; cbn; try done; by destruct (v2_Load _ _ _ _).
Qed.

Lemma initLoadConfig_current type_ path c :
  type_ = "json" ∨ type_ = "jsonV2" →
  let r := initLoadConfig exists_ read json_parse json_partial absolute null type_ path c in
  r.1 = true → is_Some (cfg_current r.2).
Proof.
  intros Ht. unfold initLoadConfig. destruct (String.eqb path ""); [done|]. destruct (exists_ path); [|done]. cbn [negb].
  unfold v2_Init. destruct Ht as [->| ->]; cbn; [by intros _; eexists|].
  destruct (cfg_v2 c) as [v|]; cbn; [by intros _; eexists|]. destruct (v2_Load _ _ _ _); cbn; [by intros _; eexists|done].
Qed.

(** What the loading leaves. *)
Lemma LoadAllConfigs_spec st :
  st_json_loaded st = false → st_json_v2_loaded st = false →
  let '(st', c) := LoadAllConfigs exists_ read json_parse json_partial absolute null st Configs_new in
  cfg_yaml c = false ∧ st_options st' = st_options st ∧
  (st_json_v2_loaded st' = true → st_json_loaded st' = false) ∧
  (st_json_loaded st' = true ∨ st_json_v2_loaded st' = true → is_Some (cfg_current c)) ∧
  ((GetString "load_json_version" "v1" (ini_GetInstance c)).1 = "v2" → st_json_loaded st' = false).
Proof.
  intros Hj Hv. unfold LoadAllConfigs.
  pose proof (initLoadConfig_yaml "ini" (ini_config_path (st_paths st)) Configs_new ltac:(done) ltac:(done)) as Hy.
  destruct (initLoadConfig _ _ _ _ _ _ "ini" _ _) as [ini c1]. cbn [snd] in Hy.
  destruct (getJsonConfigPathFromINIConfig _ _ _) as [jb jp], (getYamlConfigPathFromINIConfig _ _ _) as [yb yp].
  set (v2 := String.eqb (GetString "load_json_version" "v1" (ini_GetInstance c1)).1 "v2").
  set (ty := if v2 then "jsonV2" else "json").
  assert (Hty : ty = "json" ∨ ty = "jsonV2") by (unfold ty; destruct v2; tauto).
  assert (Hne : ty ≠ "yaml" ∧ ty ≠ "all") by (by destruct Hty as [->| ->]). destruct Hne as [Hne1 Hne2].
  pose proof (initLoadConfig_yaml ty jp c1 Hne1 Hne2) as Hy2. pose proof (initLoadConfig_current ty jp c1 Hty) as Hc.
  assert (Hini : ini_GetInstance (initLoadConfig exists_ read json_parse json_partial absolute null ty jp c1).2 = ini_GetInstance c1).
  { unfold ini_GetInstance. f_equal. clear. unfold initLoadConfig, ty.
    destruct (String.eqb jp ""); [done|]. destruct (exists_ jp); [|done]. unfold v2_Init.
    destruct v2; cbn; [|done]. destruct (cfg_v2 c1); cbn; [done|]. by destruct (v2_Load _ _ _ _). }
  destruct (initLoadConfig _ _ _ _ _ _ ty _ _) as [loaded c2]. cbn [fst snd] in *.
  cbn. rewrite Hy2, Hini. split; [exact Hy|]. split; [done|]. fold v2. rewrite Hj, Hv. split; [by destruct v2|]. split.
  - destruct v2; intros [?|?]; try done; by apply Hc.
  - intros E. assert (Ev : v2 = true) by (unfold v2; rewrite E; reflexivity). by rewrite Ev.
Qed.

Context (ps_output : string) (my_pid : Z) (doctor : result unit) (log_opens : string → bool).
Context (env : list (module_call (J := J)) → module_call (J := J) → result bool) (address_in_use : exn → bool).
Abbreviation run := (main exists_ read json_parse json_partial absolute null ps_output my_pid doctor log_opens env address_in_use).

(** Without the YAML instance the validated run ends where it is shown. *)
Lemma run_validated_yaml fuel st killed c p :
  cfg_yaml c = false →
  ∃ r, run_validated env address_in_use fuel st killed c p = Some r ∧ rn_pipeline r = p ∧ rn_state r = st ∧
    rn_configs r = c ∧
    (rn_end r = Crash ∨ rn_end r = Exit (-1) ∧ ∃ v e, cfg_current c = Some v ∧ j_dump v = Err e).
Proof.
  intros Hy. unfold run_validated, ShowLoadedConfigs, showJson, showYaml. rewrite Hy.
  destruct (cfg_current c) as [v|]; [destruct (j_dump v) as [t|e] eqn:Ed|]; (eexists; split; [reflexivity|]); cbn;
    repeat split; try (by left). right. split; [done|]. by exists v, e.
Qed.

(** C12: every run ends, and none starts the pipeline.  It ends with code 0
    only for help, the version, the self-check, or a soft setup that finds another
    instance; with the
    second version of the JSON files selected it ends with code -1 after loading
    them; when the configuration is accepted it reaches the YAML instance that
    was never made, unless the JSON cannot be shown. *)
Theorem main_never_starts fuel argv p :
  let o := ParseStartupOptions argv in
  ∃ r, run fuel argv p = Some r ∧ rn_pipeline r = p ∧
    (rn_end r = Exit 0 →
      show_help o = true ∨ show_version o = true ∨ run_doctor o = true ∨
      run_setup o = true ∧ hard_setup o = false ∧
      ∃ pid pids, other_pids my_pid (ExecuteShellLines ps_output) = Ok (pid :: pids)) ∧
    (st_json_v2_loaded (rn_state r) = true → run_doctor o = false → rn_end r = Exit (-1)) ∧
    (ValidateConfigurationOrLogError (rn_state r) = true → run_doctor o = false →
      rn_end r = Crash ∨ ∃ v e, cfg_current (rn_configs r) = Some v ∧ j_dump v = Err e).
Proof.
  intros o. unfold main. fold o. destruct (show_help o || show_version o) eqn:Eh.
  { eexists. split; [reflexivity|]. cbn. split; [done|]. split; [|done].
    intros _. apply orb_true_iff in Eh. tauto. }
  destruct (if run_setup o then _ else _) as [|killed] eqn:Eg.
  { eexists. split; [reflexivity|]. cbn. split; [done|]. split; [|done]. intros _. do 3 right.
    destruct (run_setup o); [|done]. split; [done|]. unfold ExecuteByPS in Eg.
    destruct (other_pids _ _) as [[|x l]|]; try done. destruct (hard_setup o); [done|]. split; [done|]. by exists x, l. }
  pose proof (LoadAllConfigs_spec (ResolveConfigPaths exists_ (BootstrapState_new o)) eq_refl eq_refl) as Hl.
  destruct (LoadAllConfigs _ _ _ _ _ _ _ _) as [st c]. destruct Hl as (Hy & _ & Hv & _ & _).
  unfold InitializeLogger, ValidateConfigurationOrLogError, checkConfigLoadStatus.
  cbn [st_ini_loaded st_json_loaded st_yaml_loaded].
  destruct (run_doctor o) eqn:Edoc.
  { eexists. split; [reflexivity|]. cbn. split; [done|]. split; [by tauto|done]. }
  destruct (st_ini_loaded st && st_json_loaded st) eqn:Ev; cbn [negb].
  - match goal with |- context [run_validated _ _ _ ?s _ _ _] => set (st' := s) end.
    destruct (run_validated_yaml fuel st' killed c p Hy) as (r & Er & Ep & Es & Ec & He).
    exists r. split; [exact Er|]. split; [exact Ep|]. rewrite Es, Ec. split; [|split].
    + by destruct He as [->|[-> _]].
    + intros H2. cbn in H2. apply Hv in H2. rewrite H2, andb_false_r in Ev. done.
    + intros _ _. destruct He as [He|[_ He]]; [by left|by right].
  - eexists. split; [reflexivity|]. cbn. rewrite Ev. split; [done|]. split; [done|]. split; [done|]. done.
Qed.

(** C13: given a configuration whose nodes can be shown: provided the port of
    the API is free in the end and no stop call throws, and whatever the modules
    answer or throw before: each enabled node of a known model is launched once,
    in the order of the keys and with its own arguments; after the signal the
    program makes the stop calls in their order, the one for the audio server
    exactly when its node was launched, and returns. *)
Theorem RunPipeline_spec n fuel config e p text :
  settled env address_in_use n → (n < fuel)%nat → (∀ tr c, c ∈ stop_calls true → is_ok (env tr c) = true) →
  pl_is_running p = false → j_object_at config "executes" = Some e → show_nodes (j_items e) = Ok tt →
  j_dump config = Ok text → LogRecursive (S (j_depth config)) config = Ok tt →
  (∀ v, j_find config "execute_node_number" = Some v → is_ok (j_dump v) = true) →
  let nodes := omap (λ x, node_launch env address_in_use x.2) (j_items e) in
  ∃ before p', RunPipeline env address_in_use fuel config p = Some (Ok tt, p') ∧ pl_is_running p' = false ∧
    launched before = launched (pl_calls p) ++ nodes ∧
    pl_calls p' = before ++ stop_calls (bool_decide ("audio_server" ∈ nodes.*1)).
Proof.
  intros Hset Hf Hok Hr He Hshow Hd Hlog Hnum nodes. unfold RunPipeline. rewrite Hd.
  assert (Ei : Init config p = Some (Ok tt, with_models [] (with_config config p))).
  { unfold Init. rewrite Hlog. destruct (j_find config "execute_node_number") as [v|] eqn:Ev; [|reflexivity].
    specialize (Hnum v eq_refl). unfold dump, lift. by destruct (j_dump v). }
  rewrite Ei.
  destruct (Start_spec env address_in_use n fuel (with_models [] (with_config config p)) e)
    as (p1 & E1 & R1 & L1 & M1 & _); try done.
  rewrite E1. destruct (Stop_spec env p1 Hok R1) as (p2 & E2 & R2 & C2 & _). rewrite E2.
  exists (pl_calls p1), p2. do 2 (split; [done|]). split; [by rewrite L1|]. rewrite C2. do 2 f_equal.
  apply eq_bool_prop_intro. rewrite bool_decide_spec.
  unfold ModelIsRunning. rewrite M1. cbn [pl_working_models with_models app].
  unfold nodes. rewrite !omap_snd, <- node_model_known by by eexists.
  rewrite Is_true_true, existsb_exists. split.
  - intros (m & Hm & <-%String.eqb_eq). by apply list_elem_of_In.
  - intros Hin%list_elem_of_In. exists "audio_server". split; [done|]. by rewrite String.eqb_refl.
Qed.
End runs.

(** A node of the index that is not read launches nothing. *)
Lemma disabled_node_launches_nothing {J : Type} `{JsonNumbers J} `{!JsonItems J} `{!JsonLaws J}
    (env : list (module_call (J := J)) → module_call (J := J) → result bool) address_in_use name :
  node_launch env address_in_use (disabled_node name : J) = None.
Proof.
  unfold node_launch, read_node, disabled_node. rewrite !j_find_object. cbn [assoc_find].
  rewrite decide_True by done. unfold j_get_string. rewrite j_view_string. cbn [mbind result_bind].
  unfold j_value_bool, j_value. rewrite j_view_object, !j_find_object. cbn [assoc_find].
  repeat (case_decide; try done). cbn [mbind result_bind]. unfold j_get_bool. by rewrite j_view_bool.
Qed.

(** ** Concrete runs *)

Section demo.
Definition demo_ini (version : string) : string :=
  "config_dir=/etc/x" +:+ String newline ("load_json_version=" +:+ version).
Definition demo_files (version path : string) : option string :=
  if String.eqb path "/etc/fast_cpp_server/config.ini" then Some (demo_ini version) else demo_read path.
Definition demo_exists (path : string) : bool :=
  existsb (String.eqb path) ["/etc/fast_cpp_server/config.ini"; "/etc/x"; "/etc/x/config.json"].
Definition demo_env (_ : list (module_call (J := jvalue))) (_ : module_call (J := jvalue)) : result bool := Ok true.
Definition demo_run (version ps : string) (argv : list string) : option (Run (J := jvalue)) :=
  main demo_exists (demo_files version) demo_parse (λ _, VNull) id VNull ps 9 (Ok tt) (λ _, true)
    demo_env (λ _, false) 1 argv (Pipeline_new VNull).
Definition demo_end (r : option (Run (J := jvalue))) : option (app_end * bool * bool) :=
  (λ r, (rn_end r, st_json_loaded (rn_state r), st_json_v2_loaded (rn_state r))) <$> r.
End demo.

(** The configuration the repository ships selects the second version. *)
Example second_version_exits : demo_end (demo_run "v2" "" []) = Some (Exit (-1), false, true).
Proof. by vm_compute. Qed.
(** The first version is accepted, and the run ends at the YAML instance. *)
Example first_version_crashes : demo_end (demo_run "v1" "" []) = Some (Crash, true, false).
Proof. by vm_compute. Qed.
Example doctor_runs : demo_end (demo_run "v2" "" ["-d"]) = Some (Exit 0, false, true).
Proof. by vm_compute. Qed.
Example another_instance :
  demo_end (demo_run "v1" (ps_text [("root", 7%Z, "fast_cpp_server")]) ["--setup"; "soft"]) = Some (Exit 0, false, false).
Proof. by vm_compute. Qed.

Lemma guard_spec_witness :
  ExecuteByPS 9 (ps_text [("root", 7%Z, "1 fast_cpp_server"); ("root", 9%Z, "1 fast_cpp_server")]) true = GuardContinue [7%Z].
Proof.
  destruct (guard_spec 9 [("root", 7%Z, "1 fast_cpp_server"); ("root", 9%Z, "1 fast_cpp_server")] true) as [E _].
  { repeat constructor; cbn; try done; try lia. }
  rewrite E. reflexivity.
Defined.

Definition demo_nodes : jvalue := VObj [
  ("1", VObj [("model_name", VStr "comm"); ("model_args", VObj [])]); ("2", disabled_node "pod");
  ("3", VObj [("model_name", VStr "audio_server"); ("model_args", VObj [])])].

Lemma RunPipeline_spec_witness :
  ∃ before p', RunPipeline demo_env (λ _, false) 1 (VObj [("executes", demo_nodes)]) (Pipeline_new VNull) = Some (Ok tt, p') ∧
    launched before = [("comm", VObj []); ("audio_server", VObj [])] ∧ pl_calls p' = before ++ stop_calls true.
Proof.
  assert (Hset : settled demo_env (λ _, false) 0) by (intros tr _; by split).
  destruct (RunPipeline_spec demo_env (λ _, false) 0 1 (VObj [("executes", demo_nodes)]) demo_nodes (Pipeline_new VNull) "")
    as (before & p' & E & _ & L & C); try done; try lia; try (by vm_compute).
  exists before, p'. split; [exact E|]. split; [exact L|exact C].
Defined.
